(* ===== verification/_CoqProject ===== *)
-Q . S2P
Prelude.v
Types.v
HrList.v
HrListSpec.v
Store.v
Scheduler.v
SchedulerSpec.v
WaitList.v
WaitListSpec.v
Timeout.v
TimeoutSpec.v
KState.v
PortStack.v
TaskCore.v
KernelBase.v
MutexPriority.v
Kernel.v
Semaphore.v
Mutex.v
Queue.v
Timer.v
KernelTick.v
TaskApi.v
KernelInv.v
KernelTasks.v
KernelSpec.v
KernelSwitch.v
SemaphoreSpec.v
TimerSpec.v
TimerTickSpec.v
PortStackSpec.v
KernelInitSpec.v
TimerInitSpec.v
QueueSpec.v
MutexSpec.v
MutexCallSpec.v
KernelTickSpec.v
SystemSpec.v
ValidateSpec.v
Scenario.v
ListProps.v
StructureProps.v
SystemProps.v
ServiceProps.v
QueueProps.v
MutexProps.v
TimerProps.v
HeState.v
HeEvent.v
HeStateMachine.v
HeActive.v
HePubsub.v
HeTimeEvent.v
HeEventSpec.v
HeEventProps.v
HeMachineProps.v
HePubsubSpec.v
HePubsubProps.v
HePublishProps.v
HeActiveProps.v
HeapLab.v
HeapLabSpec.v
HeapProps.v
PoolLab.v
PoolProps.v
BenchStats.v
BenchStatsProps.v
Diagnostics.v
DiagnosticsProps.v
PortAsm.v
PortAsmProps.v
Soc.v
Drivers.v
Board.v
DeviceSpec.v
GpioProps.v
ConsoleProps.v
ClockProps.v
BoardProps.v
FaultProps.v
