(* ===== verification/Prelude.v ===== *)
(** * hairtos: a static-first preemptive RTOS, modelled and verified

    hairtos is a small preemptive kernel for a Cortex-M3 microcontroller.  All objects
    (tasks, semaphores, mutexes, queues, timers) are memory the application provides; the
    kernel links them through intrusive lists.  A tick interrupt advances time, a switch
    exception (PendSV) chooses the next task, and the calls of the tasks and of interrupt
    handlers run in critical sections.

    ** Parts and files

    The sources are under src/; a definition has the name of the C function it translates.

    - lists (kernel/src/hr_list.c): [HrList] is the pointer-level memory of nodes and list
      heads with every function, [HrListSpec] relates it to sequences ([ring],
      [lists_rep]), [ListProps] states the refinement.
    - ready set and scheduler (hr_scheduler.c), wait lists (hr_wait.c), timeout lists
      (hr_timeout.c): [Scheduler], [WaitList], [Timeout] with [SchedulerSpec],
      [WaitListSpec], [TimeoutSpec] and the properties in [StructureProps].  [Store] is
      the memory they share.
    - kernel state: [Types] (status codes, configuration, addresses) and [KState]: a record
      of the control blocks (gmaps from object names), the list memory, the globals of
      hr_kernel.c, the byte and word memory of buffers and stacks, and the port (mask
      register, pending switch, interrupt flag).
    - port (arch/arm/cortex-m3/hr_port.c, hr_port_stack.c): the end of [KState] and
      [PortStack], [PortStackSpec].
    - kernel core (hr_kernel.c): [KernelBase] (queries, effective priority), [Kernel]
      (registration, blocking, waking, suspension, switch decision), [KernelTick] (tick,
      start-up, integrity check).
    - tasks (hr_task.c): [TaskCore] and [TaskApi]; semaphores (hr_semaphore.c):
      [Semaphore]; mutexes (hr_mutex.c): [MutexPriority] and [Mutex]; queues (hr_queue.c):
      [Queue]; software timers (hr_timer.c): [Timer].
    - proofs about the kernel: [KernelInv] (the invariant [kstruct] of the structures and
      the specification of each primitive step), [KernelTasks] (the invariant [kcore] of
      control blocks and objects, and priority inheritance), [KernelSpec] (blocking and
      waking), [KernelSwitch] (suspension and the switch exception), [SemaphoreSpec],
      [QueueSpec], [MutexSpec], [MutexCallSpec], [TimerSpec] (the calls on timers and the
      turns of their service), [TimerTickSpec] (their expiry), [KernelInitSpec] and
      [TimerInitSpec] (start-up), [KernelTickSpec] (the tick), [ValidateSpec] (the
      integrity check).  A [phase] records which half of each of the two timeout lists (the
      waits of the tasks, the software timers) is the current one and how far the timers
      have been advanced: within a tick the two lists advance one after the other.
    - the system: [SystemSpec] has the start-up sequences ([boot]), the step relation
      ([step]: tick, switch exception, a call of the running task (which may be the timer
      service taking an expiry), calls from interrupts, hardware changing the port, code
      writing to stacks and buffers, the switch saving a stack pointer) and the reachable
      states ([reachable]); [Scenario] runs a concrete system in which the
      properties are instantiated.  A tick is one step, tasks are created and started only
      during start-up, and timers are started only once the kernel runs.
    - properties: [SystemProps], [ServiceProps], [QueueProps], [MutexProps], [TimerProps].
    - assembly of the port (hr_portasm.S): [PortAsm] has the start of the first task and the
      context switch, over a [machine]: the state of the kernel with the registers of the
      processor, which pushes and pops a frame around an exception as its architecture
      defines; [PortAsmProps] has the proofs.
    - diagnostics (hr_diagnostics.c): [Diagnostics], [DiagnosticsProps].  The hooks of the
      application are a parameter (class [Hooks]).
    - fault handlers (hr_faultasm.S, hr_fault.c): the end of [PortAsm], and [FaultProps].
    - platform: [Soc] (soc/stm32f1: register map, clock tree, system start), [Drivers]
      (drivers/stm32f1: pins, serial line, hardware timer; the cycle counter of the
      benchmarks) and [Board] (boards/bluepill_f103c8), over an interface of volatile reads
      and writes (class [Device]).  [DeviceSpec] states the documented behaviour of the
      peripherals the code relies on (class [Stm32f1]: the pins and the serial line answer
      only while RCC_APB2ENR gives them a clock, and the fields of the PLL can be written
      only while it is off) and has a simulated device with it, on which the code runs.  The proofs, for every such device, are in [GpioProps],
      [ConsoleProps], [ClockProps] and [BoardProps].
    - benchmark statistics (benchmarks/kernel/src/hr_benchmark_stats.c): [BenchStats],
      [BenchStatsProps].
    - allocator lab (labs/memory-allocator): [HeapLab], [HeapLabSpec], [HeapProps] (first-fit
      heap) and [PoolLab], [PoolProps] (block pool).
    - event framework (haievent/): [HeState] (its control blocks over the state of the
      kernel), [HeEvent] (he_event.c), [HeStateMachine] (he_state_machine.c), [HeActive]
      (he_active.c), [HePubsub] (he_pubsub.c), [HeTimeEvent] (he_time_event.c); the proofs
      are in [HeEventSpec], [HeEventProps], [HeMachineProps], [HePubsubSpec],
      [HePubsubProps], [HePublishProps] and [HeActiveProps].  The handlers of state
      machines are a parameter (class [Handlers]); what posting relies on of the kernel's
      queues is the class [Posts], whose instance is proved from the kernel's invariant.

    ** How code is translated

    A function that changes state is a computation of the state monad with failure [M]
    below: [None] is undefined behaviour (a null dereference, a node cast to an object of
    the wrong type, a loop that exhausts its bound).  Status codes are values.  A blocking
    call returns [Waits t] when the task [t] has blocked: its result is then the
    [wait_result] of its control block when it runs again.  Fields of width 32 and 16 are
    [Z] with the wrap-around written out ([u32], [u16]).  Loops over lists are fuelled by
    the size of the list plus one, loops over tables by the size of the table; the
    recursion of the priority recomputation by its own depth bound HR_CFG_MAX_TASKS.  The
    theorems show that the fuel suffices: the calls return in every reachable state
    ([SystemProps.calls_complete]).  Loops that poll a flag of a peripheral without a bound
    of their own are unrolled [polls] times (class [Polling]); the theorems ask for more polls
    than the device makes the code wait ([poll_limit]) and show that the code then returns.
    A loop that sleeps takes the interrupts of each sleep from a sequence.

    The weakest precondition [wp m Q s] says that [m] is defined in [s] and ends in a
    result and state satisfying [Q]; the specifications are stated in
    continuation-passing form and composed with the tactic [wp_step].

    ** What the theorems show

    - structures: the operations of lists, ready set, wait lists and timeout lists do what
      they do on sequences, also across the wrap of the tick; validators are exact.
    - system: the invariant holds in every reachable state, every entry of the kernel is
      defined there, the switch exception runs the most urgent ready task, a tick ends
      exactly the due waits, a delay lasts exactly its ticks, the state of every task
      agrees with the lists, nobody waits for what is available, the counts the kernel keeps
      are exact, and the kernel's own integrity checks pass.
    - services: every branch of the calls on semaphores, mutexes and queues, of suspension
      and of start-up; a queue on which no task waits is a bounded first-in first-out buffer;
      a task that waits for a mutex lends its priority to every owner along the chain of
      owners ([owner_chain]), and unlocking returns what was lent; a chain that leads back to
      the caller is refused, and then a lent priority is not taken back
      ([MutexProps.deadlock_keeps_lent_priority]).
    - timers: a tick fires exactly the due timers and signals the service task; a started
      timer fires after its period and a periodic one at every multiple of it, a stopped one
      never; a turn of the service serves the timer that has waited longest, and its loop
      ends.
    - context switch: a task is always resumed with the registers and the stack pointer it was
      interrupted with, and a new task starts at its entry point.
    - diagnostics: a panic is recorded completely and survives restarts until it is
      cleared, a fault is recorded with the registers of the code that caused it, and the
      health check of a reachable state reports what is there.
    - platform: after the start-up code the clock has the frequency the program believes,
      the board starts, with the clocks of the peripherals it uses on, and prints its banner,
      a pin is configured without touching the others, what the console prints reads back as
      the number, and a delay ends in time at every rate of the tick, up to the tick at which
      its arithmetic wraps ([BoardProps.delay_ends_early_at_wrap]).
    - benchmark statistics: the bitwise division is the quotient, the percentile the
      nearest rank, and minimum, maximum and mean are those of the recorded samples.
    - labs: the heap and the pool keep their structure, allocate and free exactly what they
      say, and their validators are exact.
    - events: a pool is a stack of free blocks with reference counts, a table of
      subscribers is a list per signal, a publication balances the references, a state
      machine runs to completion in a bounded number of handler calls, and an active object
      dispatches its events in the order they were posted.

    ** Bounds and assumptions

    The configuration is the default one of config/hairtos_config.h, with preemption and
    time slicing as parameters (class [Config]) and the kernel's notes to the diagnostics
    compiled out (HR_CFG_ENABLE_DIAGNOSTICS is 0 there). Memory is zero at reset, but for
    the panic record, which keeps any content it has. The names of mutexes and timers stand
    for addresses of the 32-bit address space, so there are fewer than SIZE_MAX of them.
    The stacks of the idle task and of the timer service lie inside the address space
    ([stack_fits]). A callback of a timer is a sequence of kernel calls between the two
    halves of a turn of the service; the theorem on the draining loop is about callbacks
    that leave the timers alone.

    ** Not modelled

    The start-up assembly and the linker scripts; the examples and the tests (programs that
    call the modelled functions and print); memory barriers; the two words the switch handler
    keeps on the main stack around its call of the C code; the endless loops of the idle
    task, of a task that returns, of the timer service and of the halts (their bodies, and
    the state they are entered in, are modelled). *)
From stdpp Require Import gmap list sorting.
From Stdlib Require Import ZArith Lia.
Open Scope Z_scope.
Set Warnings "-clear-no-such-hyp".

(** ** Machine-width integers

    [uint8_t], [uint16_t], [uint32_t] and the 32-bit [size_t] of the Cortex-M3
    target are [Z] values; every C operation that can wrap is written with
    the reduction made explicit. *)
(** Memory that was never written is zero, as the start-up code leaves it. *)
#[export] Instance zero_word : Inhabited Z | 0 := populate 0.

Definition wrap (w x : Z) : Z := x mod 2 ^ w.
Definition u32 (x : Z) : Z := wrap 32 x.
Definition UINT32_MAX : Z := 4294967295.
Definition SIZE_MAX : Z := 4294967295.

Lemma u32_small x : 0 <= x <= UINT32_MAX -> u32 x = x.
Proof. intros. apply Z.mod_small. unfold UINT32_MAX in *. lia. Qed.

Lemma u32_range x : 0 <= u32 x <= UINT32_MAX.
Proof. unfold u32, wrap, UINT32_MAX. pose proof (Z.mod_pos_bound x (2 ^ 32)). lia. Qed.

(** ** The state monad with undefined behaviour

    A C function that writes memory is a function from the memory it works on
    to its result and the new memory.  [None] is undefined behaviour (the
    dereference of a null pointer, a cast to the wrong object type) or, for a
    loop, the exhaustion of its fuel: a theorem that a call returns [Some]
    therefore excludes both. *)
Definition M (S A : Type) : Type := S -> option (A * S).

Definition retM {S A} (a : A) : M S A := fun s => Some (a, s).
Definition bindM {S A B} (m : M S A) (k : A -> M S B) : M S B :=
  fun s => match m s with Some (a, s') => k a s' | None => None end.
Definition getM {S} : M S S := fun s => Some (s, s).
Definition modifyM {S} (f : S -> S) : M S unit := fun s => Some (tt, f s).
Definition ubM {S A} : M S A := fun _ => None.

Declare Scope code_scope.
Delimit Scope code_scope with code.
Notation "'let*' x ':=' c 'in' k" := (bindM c (fun x => k))
  (at level 10, x binder, c at level 100, k at level 200) : code_scope.
Notation "c ';;;' k" := (bindM c (fun _ => k))
  (at level 199, k at level 200, right associativity) : code_scope.
Open Scope code_scope.

(** [lift] runs a computation on a component of a larger state. *)
Class Part (S T : Type) := { part_get : T -> S; part_set : S -> T -> T }.
Definition lift {S T A} `{Part S T} (m : M S A) : M T A :=
  fun t => match m (part_get t) with
           | Some (a, s) => Some (a, part_set s t)
           | None => None
           end.

(** ** Total-correctness weakest preconditions *)
Definition wp {S A} (m : M S A) (Q : A -> S -> Prop) (s : S) : Prop :=
  match m s with Some (a, s') => Q a s' | None => False end.

Section wp.
Context {S T A B : Type}.

Lemma wp_mono (m : M S A) (Q R : A -> S -> Prop) s :
  wp m Q s -> (forall a s', Q a s' -> R a s') -> wp m R s.
Proof. unfold wp. destruct (m s) as [[a s']|]; auto. Qed.

Lemma wp_ret (a : A) Q (s : S) : Q a s -> wp (retM a) Q s.
Proof. auto. Qed.

Lemma wp_bind (m : M S A) (k : A -> M S B) Q s :
  wp m (fun a s' => wp (k a) Q s') s -> wp (bindM m k) Q s.
Proof. unfold wp, bindM. destruct (m s) as [[a s']|]; auto. Qed.

Lemma wp_get (Q : S -> S -> Prop) s : Q s s -> wp getM Q s.
Proof. auto. Qed.

Lemma wp_modify (f : S -> S) Q s : Q tt (f s) -> wp (modifyM f) Q s.
Proof. auto. Qed.

Lemma wp_lift `{Part S T} (m : M S A) Q (t : T) :
  wp m (fun a s => Q a (part_set s t)) (part_get t) -> wp (lift m) Q t.
Proof. unfold wp, lift. destruct (m (part_get t)) as [[a s]|]; auto. Qed.

Lemma wp_run (m : M S A) Q s :
  wp m Q s -> exists a s', m s = Some (a, s') /\ Q a s'.
Proof. unfold wp. destruct (m s) as [[a s']|]; [eauto|done]. Qed.

(** A call proved to return [a]. *)
Lemma wp_returns (m : M S A) a (P : S -> Prop) s :
  wp m (fun x s' => x = a /\ P s') s -> exists s', m s = Some (a, s') /\ P s'.
Proof. intros (x & s' & E & -> & HP)%wp_run. eauto. Qed.

Lemma wp_intro (m : M S A) (Q : A -> S -> Prop) a s s' :
  m s = Some (a, s') -> Q a s' -> wp m Q s.
Proof. unfold wp. by intros ->. Qed.

(** Sequencing, re-associated: a prefix of a sequence can be reasoned about on its own. *)
Lemma wp_assoc {C} (m : M S A) (k : A -> M S B) (k' : B -> M S C) Q s :
  wp (bindM (bindM m k) k') Q s -> wp (bindM m (fun a => bindM (k a) k')) Q s.
Proof. unfold wp, bindM. by destruct (m s) as [[a s']|]. Qed.

(** The state a computation ends in (the initial one if it is undefined). *)
Definition run_state (m : M S A) (s : S) : S := match m s with Some (_, s') => s' | None => s end.

Lemma run_state_spec (m : M S A) Q s :
  wp m Q s -> exists a, m s = Some (a, run_state m s) /\ Q a (run_state m s).
Proof. unfold wp, run_state. destruct (m s) as [[a s']|]; [eauto|done]. Qed.
End wp.

Ltac wp_step :=
  lazymatch goal with
  | |- wp (bindM _ _) _ _ => apply wp_bind
  | |- wp (retM _) _ _ => apply wp_ret
  | |- wp getM _ _ => apply wp_get
  | |- wp (modifyM _) _ _ => apply wp_modify
  | |- wp (lift _) _ _ => apply wp_lift
  | |- wp (if ?b then _ else _) _ _ => destruct b eqn:?
  end; cbn beta iota.
Ltac wp_steps := repeat wp_step.

(** ** Stable insertion in key order *)
Section insert_by.
Context {A : Type} (key : A -> Z).

(** [x] goes before the first element with a strictly larger key. *)
Fixpoint insert_by (x : A) (l : list A) : list A :=
  match l with
  | [] => [x]
  | y :: l' => if key x <? key y then x :: y :: l' else y :: insert_by x l'
  end.

Definition sorted_by (l : list A) : Prop := StronglySorted (fun a b => key a <= key b) l.

Lemma insert_by_perm x l : insert_by x l ≡ₚ x :: l.
Proof.
  induction l as [|y l IH]; simpl; [done|]. destruct (key x <? key y); [done|].
  rewrite IH. by rewrite Permutation_swap.
Qed.

Lemma insert_by_elem x l y : y ∈ insert_by x l <-> y = x \/ y ∈ l.
Proof. by rewrite insert_by_perm, elem_of_cons. Qed.

Lemma insert_by_length x l : length (insert_by x l) = S (length l).
Proof. by rewrite insert_by_perm. Qed.

Lemma insert_by_sorted x l : sorted_by l -> sorted_by (insert_by x l).
Proof.
  induction 1 as [|y l HS IH HF]; simpl; [repeat constructor|].
  destruct (Z.ltb_spec (key x) (key y)).
  - constructor; [by constructor|]. constructor; [lia|].
    eapply Forall_impl; [exact HF|]. simpl; intros; lia.
  - constructor; [done|]. apply Forall_forall. intros z Hz. apply insert_by_elem in Hz as [->|Hz]; [lia|].
    by apply (proj1 (Forall_forall _ _) HF).
Qed.

(** Elements that are not larger stay in front: insertion is stable. *)
Lemma insert_by_app x l1 l2 :
  (forall y, y ∈ l1 -> key y <= key x) -> insert_by x (l1 ++ l2) = l1 ++ insert_by x l2.
Proof.
  induction l1 as [|y l1 IH]; intros H; simpl; [done|].
  assert (key y <= key x) by (apply H; set_solver).
  replace (key x <? key y) with false by (symmetry; apply Z.ltb_ge; lia).
  rewrite IH; [done|]. intros z Hz. apply H. set_solver.
Qed.

Lemma insert_by_app_l x l1 l2 :
  (forall y, y ∈ l2 -> key x < key y) -> insert_by x (l1 ++ l2) = insert_by x l1 ++ l2.
Proof.
  intros H. induction l1 as [|y l1 IH]; simpl.
  - destruct l2 as [|z l2]; simpl; [done|].
    replace (key x <? key z) with true; [done|]. symmetry. apply Z.ltb_lt, H. set_solver.
  - destruct (key x <? key y); [done|]. by rewrite IH.
Qed.

(** Where an inserted element ends up. *)
Lemma insert_by_split x l : sorted_by l ->
  exists l1 l2, l = l1 ++ l2 /\ insert_by x l = l1 ++ x :: l2 /\
    (forall y, y ∈ l1 -> key y <= key x) /\ (forall y, y ∈ l2 -> key x < key y).
Proof.
  induction 1 as [|y l HS (l1 & l2 & -> & E & H1 & H2) HF]; simpl.
  - exists [], []. split_and!; [done..|set_solver|set_solver].
  - destruct (Z.ltb_spec (key x) (key y)).
    + exists [], (y :: l1 ++ l2). split_and!; [done..|set_solver|].
      intros z; rewrite elem_of_cons. intros [->|Hz]; [done|].
      apply (proj1 (Forall_forall _ _) HF) in Hz. lia.
    + exists (y :: l1), l2. rewrite E. split_and!; [done..| |done].
      intros z; rewrite elem_of_cons. intros [->|Hz]; [done|auto].
Qed.

Lemma sorted_by_app_l l1 l2 : sorted_by (l1 ++ l2) -> sorted_by l1.
Proof.
  induction l1 as [|x l1 IH]; intros H; [constructor|].
  inversion H as [|? ? HS HF]; subst. apply Forall_app in HF as [HF _]. constructor; [by apply IH|done].
Qed.
Lemma sorted_by_app_r l1 l2 : sorted_by (l1 ++ l2) -> sorted_by l2.
Proof. induction l1 as [|x l1 IH]; [done|]. inversion 1; subst. by apply IH. Qed.
Lemma sorted_by_remove l1 x l2 : sorted_by (l1 ++ x :: l2) -> sorted_by (l1 ++ l2).
Proof.
  induction l1 as [|y l1 IH]; intros H; inversion H as [|? ? HS HF]; subst; simpl; [done|].
  constructor; [by apply IH|]. apply Forall_app in HF as [HF1 HF2]. inversion HF2; subst.
  by apply Forall_app.
Qed.
Lemma sorted_by_head x l : sorted_by (x :: l) -> forall y, y ∈ l -> key x <= key y.
Proof. intros H. inversion H; subst. by apply Forall_forall. Qed.
Lemma sorted_by_tail x l : sorted_by (x :: l) -> sorted_by l.
Proof. by inversion 1. Qed.
End insert_by.

(** Keys that differ by a constant give the same order. *)
Lemma sorted_by_shift {A} (k1 k2 : A -> Z) c l :
  (forall x, x ∈ l -> k1 x = k2 x + c) -> sorted_by k1 l -> sorted_by k2 l.
Proof.
  induction l as [|y l IH]; intros HE H; [constructor|]. inversion H as [|? ? HS HF]; subst.
  constructor; [apply IH; [intros; apply HE; set_solver|done]|].
  apply Forall_forall. intros z Hz. apply (proj1 (Forall_forall _ _) HF) in Hz as Hle.
  rewrite !HE in Hle by set_solver. lia.
Qed.

Lemma insert_by_shift {A} (k1 k2 : A -> Z) c x l :
  (forall y, y ∈ x :: l -> k1 y = k2 y + c) -> insert_by k1 x l = insert_by k2 x l.
Proof.
  induction l as [|y l IH]; intros HE; simpl; [done|].
  replace (k1 x <? k1 y) with (k2 x <? k2 y); [|rewrite !HE by set_solver].
  - destruct (k2 x <? k2 y); [done|]. rewrite IH; [done|]. intros z Hz. apply HE. set_solver.
  - destruct (Z.ltb_spec (k2 x) (k2 y)), (Z.ltb_spec (k2 x + c) (k2 y + c)); done || lia.
Qed.

(** The elements with a key up to [bound] at the front of a sorted list. *)
Fixpoint due {A} (key : A -> Z) (bound : Z) (l : list A) : list A :=
  match l with
  | [] => []
  | x :: l' => if bound <? key x then [] else x :: due key bound l'
  end.
Fixpoint not_due {A} (key : A -> Z) (bound : Z) (l : list A) : list A :=
  match l with
  | [] => []
  | x :: l' => if bound <? key x then l else not_due key bound l'
  end.

Lemma due_app {A} (key : A -> Z) b l : due key b l ++ not_due key b l = l.
Proof. induction l as [|x l IH]; simpl; [done|]. destruct (b <? key x); simpl; [done|]. by rewrite IH. Qed.

Lemma due_spec {A} (key : A -> Z) b l : sorted_by key l ->
  (forall x, x ∈ due key b l <-> x ∈ l /\ key x <= b) /\
  (forall x, x ∈ not_due key b l <-> x ∈ l /\ b < key x).
Proof.
  induction 1 as [|y l HS [IH1 IH2] HF]; simpl; [set_solver|].
  destruct (Z.ltb_spec b (key y)).
  - assert (G : forall x, x ∈ y :: l -> b < key x).
    { intros x. rewrite elem_of_cons. intros [->|Hx]; [done|].
      apply (proj1 (Forall_forall _ _) HF) in Hx. lia. }
    split; intros x; split.
    + by rewrite elem_of_nil.
    + intros [Hx Hle]. apply G in Hx. lia.
    + auto.
    + tauto.
  - split; intros x; rewrite !elem_of_cons, ?IH1, ?IH2; split.
    + intros [->|[? ?]]; auto.
    + tauto.
    + tauto.
    + intros [[->|?] ?]; [lia|auto].
Qed.

Lemma due_ext {A} (k1 k2 : A -> Z) b1 b2 l :
  (forall x, x ∈ l -> (b1 <? k1 x) = (b2 <? k2 x)) ->
  due k1 b1 l = due k2 b2 l /\ not_due k1 b1 l = not_due k2 b2 l.
Proof.
  induction l as [|y l IH]; intros HE; simpl; [done|].
  rewrite (HE y) by set_solver. destruct IH as [-> ->]; [intros; apply HE; set_solver|].
  by destruct (b2 <? k2 y).
Qed.

Lemma due_app_r {A} (key : A -> Z) b l1 l2 : (forall x, x ∈ l2 -> b < key x) ->
  due key b (l1 ++ l2) = due key b l1 /\ not_due key b (l1 ++ l2) = not_due key b l1 ++ l2.
Proof.
  intros H. induction l1 as [|y l1 [IH1 IH2]]; simpl.
  - destruct l2 as [|z l2]; simpl; [done|].
    replace (b <? key z) with true; [done|]. symmetry. apply Z.ltb_lt, H. set_solver.
  - destruct (b <? key y); [done|]. by rewrite IH1, IH2.
Qed.

Lemma sorted_by_not_due {A} (key k2 : A -> Z) b l : sorted_by k2 l -> sorted_by k2 (not_due key b l).
Proof.
  induction l as [|x l IH]; simpl; [done|]. intros H. destruct (b <? key x); [done|].
  apply IH. by eapply sorted_by_tail.
Qed.

(** Distinct names below [SIZE_MAX]: a list of objects of the address space is short. *)
Lemma names_bound (ms : list N) : NoDup ms -> (forall m, m ∈ ms -> Z.of_N m < SIZE_MAX) ->
  Z.of_nat (length ms) <= SIZE_MAX.
Proof.
  intros Hd Hn. assert (HL : (length (Z.of_N <$> ms) <= length (seqZ 0 SIZE_MAX))%nat).
  { apply submseteq_length, NoDup_submseteq; [by apply (NoDup_fmap_2 _)|].
    intros z (m & -> & Hm)%list_elem_of_fmap. apply elem_of_seqZ. specialize (Hn m Hm). lia. }
  rewrite length_fmap, length_seqZ in HL. unfold SIZE_MAX in *. lia.
Qed.

Create HintDb hairtos discriminated.
