(* ===== verification/Types.v ===== *)
(** Status codes, configuration constants and the addresses of the objects of
    the kernel: [kernel/include/hairtos/*.h], [config/hairtos_config.h]. *)
From S2P Require Import Prelude.
From stdpp Require Import gmap list.
From Stdlib Require Import ZArith.
Open Scope Z_scope.

Inductive hr_status : Type :=
| HR_OK
| HR_ERROR_INVALID_ARGUMENT
| HR_ERROR_INVALID_STATE
| HR_ERROR_TIMEOUT
| HR_ERROR_QUEUE_FULL
| HR_ERROR_QUEUE_EMPTY
| HR_ERROR_NO_MEMORY
| HR_ERROR_NOT_OWNER
| HR_ERROR_FROM_ISR
| HR_ERROR_NOT_SUPPORTED
| HR_ERROR_INTERNAL
| HR_ERROR_SEMAPHORE_EMPTY
| HR_ERROR_SEMAPHORE_FULL
| HR_ERROR_MUTEX_BUSY
| HR_ERROR_OVERFLOW.

#[export] Instance hr_status_eq_dec : EqDecision hr_status.
Proof. solve_decision. Defined.

(** [config/hairtos_config.h] *)
Definition HR_CFG_PRIORITY_COUNT : Z := 8.
Definition HR_CFG_IDLE_PRIORITY : Z := HR_CFG_PRIORITY_COUNT - 1.
Definition HR_CFG_MAX_TASKS : Z := 8.
Definition HR_WAIT_FOREVER : Z := 4294967295.
Definition HR_NO_WAIT : Z := 0.

(** Objects are named by the address of their caller-owned storage. *)
Abbreviation task_ptr := N (only parsing).
Abbreviation sem_ptr := N (only parsing).
Abbreviation mutex_ptr := N (only parsing).
Abbreviation queue_ptr := N (only parsing).
Abbreviation timer_ptr := N (only parsing).

(** The intrusive nodes embedded in the control blocks. *)
Inductive node_addr : Type :=
| ReadyNode (t : task_ptr)
| WaitNode (t : task_ptr)
| TimeoutNode (t : task_ptr)
| AllTaskNode (t : task_ptr)
| OwnerNode (m : mutex_ptr)
| TimerTimeoutNode (t : timer_ptr)
| TimerPendingNode (t : timer_ptr).

(** The list heads: one per [hr_list_t] object of the program. *)
Inductive list_addr : Type :=
| ReadyQueue (set : N) (priority : Z)
| TimeoutHalf (tl : N) (second : bool)
| AllTasks
| ExpiredNodes
| ExpiredTimers
| PendingTimers
| SemaphoreWaiters (s : sem_ptr)
| MutexWaiters (m : mutex_ptr)
| QueueSendWaiters (q : queue_ptr)
| QueueReceiveWaiters (q : queue_ptr)
| OwnedMutexes (t : task_ptr).

(** What a node's [void *owner] designates. *)
Inductive obj_ptr : Type :=
| PTask (t : task_ptr)
| PMutex (m : mutex_ptr)
| PTimer (t : timer_ptr).

#[export] Instance node_addr_eq_dec : EqDecision node_addr.
Proof. solve_decision. Defined.
#[export] Instance list_addr_eq_dec : EqDecision list_addr.
Proof. solve_decision. Defined.
#[export] Instance obj_ptr_eq_dec : EqDecision obj_ptr.
Proof. solve_decision. Defined.

Definition node_code (n : node_addr) : nat * N :=
  match n with
  | ReadyNode t => (0%nat, t) | WaitNode t => (1%nat, t) | TimeoutNode t => (2%nat, t)
  | AllTaskNode t => (3%nat, t) | OwnerNode m => (4%nat, m)
  | TimerTimeoutNode t => (5%nat, t) | TimerPendingNode t => (6%nat, t)
  end.
Definition node_decode (c : nat * N) : node_addr :=
  match c with
  | (0%nat, t) => ReadyNode t | (1%nat, t) => WaitNode t | (2%nat, t) => TimeoutNode t
  | (3%nat, t) => AllTaskNode t | (4%nat, m) => OwnerNode m
  | (5%nat, t) => TimerTimeoutNode t | (_, t) => TimerPendingNode t
  end.
#[export] Instance node_addr_countable : Countable node_addr.
Proof. by refine (inj_countable' node_code node_decode _); intros []. Defined.

Definition list_code (l : list_addr) : nat * N * Z :=
  match l with
  | ReadyQueue s p => (0%nat, s, p)
  | TimeoutHalf t b => (1%nat, t, if b then 1 else 0)
  | AllTasks => (2%nat, 0%N, 0) | ExpiredNodes => (3%nat, 0%N, 0)
  | ExpiredTimers => (4%nat, 0%N, 0) | PendingTimers => (5%nat, 0%N, 0)
  | SemaphoreWaiters s => (6%nat, s, 0) | MutexWaiters m => (7%nat, m, 0)
  | QueueSendWaiters q => (8%nat, q, 0) | QueueReceiveWaiters q => (9%nat, q, 0)
  | OwnedMutexes t => (10%nat, t, 0)
  end.
Definition list_decode (c : nat * N * Z) : list_addr :=
  match c with
  | (0%nat, s, p) => ReadyQueue s p
  | (1%nat, t, b) => TimeoutHalf t (Z.eqb b 1)
  | (2%nat, _, _) => AllTasks | (3%nat, _, _) => ExpiredNodes
  | (4%nat, _, _) => ExpiredTimers | (5%nat, _, _) => PendingTimers
  | (6%nat, s, _) => SemaphoreWaiters s | (7%nat, m, _) => MutexWaiters m
  | (8%nat, q, _) => QueueSendWaiters q | (9%nat, q, _) => QueueReceiveWaiters q
  | (_, t, _) => OwnedMutexes t
  end.
#[export] Instance list_addr_countable : Countable list_addr.
Proof. by refine (inj_countable' list_code list_decode _); intros [ | ? [] | | | | | | | | | ]. Defined.
