(* ===== verification/HrList.v ===== *)
(** The intrusive doubly-linked list: [kernel/src/hr_list.c].

    An [hr_list_t] is a circular list through a sentinel [root] node; the
    nodes are embedded in the control blocks of the kernel objects.  The
    model keeps the pointers: every node has its [previous], [next], [list]
    and [owner] fields, and every operation performs the writes of the C
    function in their order.  [HrListSpec] relates this memory to plain
    sequences of nodes. *)
From S2P Require Import Prelude Types.
From stdpp Require Import gmap list.
From Stdlib Require Import ZArith Lia.
Open Scope Z_scope.
Set Warnings "-clear-no-such-hyp".

(** ** Data *)

(** A [hr_list_node_t *]: the sentinel of a list, or an embedded node. *)
Inductive nptr : Type :=
| PRoot (l : list_addr)
| PNode (n : node_addr).

#[export] Instance nptr_eq_dec : EqDecision nptr.
Proof. solve_decision. Defined.

Record hr_list_node : Type := mk_hr_list_node {
  previous : option nptr;
  next : option nptr;
  list_of : option list_addr;
  owner : option obj_ptr;
}.

Record hr_list : Type := mk_hr_list {
  root : hr_list_node;
  list_size : Z;
}.

(** Static storage is zero initialised: every pointer is null. *)
Definition null_node : hr_list_node := mk_hr_list_node None None None None.
#[export] Instance hr_list_node_inhabited : Inhabited hr_list_node := populate null_node.
#[export] Instance hr_list_inhabited : Inhabited hr_list := populate (mk_hr_list null_node 0).

(** The memory that holds the nodes and the list heads. *)
Record lmem : Type := mk_lmem {
  lm_nodes : gmap node_addr hr_list_node;
  lm_lists : gmap list_addr hr_list;
}.

Definition node_at (h : lmem) (p : nptr) : hr_list_node :=
  match p with
  | PRoot l => root (lm_lists h !!! l)
  | PNode n => lm_nodes h !!! n
  end.
Definition size_at (h : lmem) (l : list_addr) : Z := list_size (lm_lists h !!! l).

Definition upd_node (p : nptr) (f : hr_list_node -> hr_list_node) (h : lmem) : lmem :=
  match p with
  | PRoot l => mk_lmem (lm_nodes h)
      (<[l := mk_hr_list (f (root (lm_lists h !!! l))) (list_size (lm_lists h !!! l))]> (lm_lists h))
  | PNode n => mk_lmem (<[n := f (lm_nodes h !!! n)]> (lm_nodes h)) (lm_lists h)
  end.
Definition upd_size (l : list_addr) (f : Z -> Z) (h : lmem) : lmem :=
  mk_lmem (lm_nodes h)
    (<[l := mk_hr_list (root (lm_lists h !!! l)) (f (list_size (lm_lists h !!! l)))]> (lm_lists h)).

Definition with_previous v (x : hr_list_node) := mk_hr_list_node v (next x) (list_of x) (owner x).
Definition with_next v (x : hr_list_node) := mk_hr_list_node (previous x) v (list_of x) (owner x).
Definition with_list v (x : hr_list_node) := mk_hr_list_node (previous x) (next x) v (owner x).
Definition with_owner v (x : hr_list_node) := mk_hr_list_node (previous x) (next x) (list_of x) v.

(** [p->field = v]; dereferencing a null [p] is undefined behaviour. *)
Definition set_field (p : option nptr) (f : hr_list_node -> hr_list_node) : M lmem unit :=
  match p with Some q => modifyM (upd_node q f) | None => ubM end.

(** ** Operations *)

Definition hr_list_insert_between (list : option list_addr) (prev nxt node : option nptr)
  : M lmem hr_status :=
  match list, prev, nxt, node with
  | Some l, Some _, Some _, Some n =>
      let* h := getM in
      if bool_decide (list_of (node_at h n) <> None) then retM HR_ERROR_INVALID_STATE
      else
        set_field node (with_previous prev) ;;;
        set_field node (with_next nxt) ;;;
        set_field node (with_list list) ;;;
        set_field prev (with_next node) ;;;
        set_field nxt (with_previous node) ;;;
        modifyM (upd_size l (fun n => u32 (n + 1))) ;;;
        retM HR_OK
  | _, _, _, _ => retM HR_ERROR_INVALID_ARGUMENT
  end.

Definition hr_list_init (list : option list_addr) : M lmem unit :=
  match list with
  | None => retM tt
  | Some l =>
      let r := Some (PRoot l) in
      set_field r (with_previous r) ;;;
      set_field r (with_next r) ;;;
      set_field r (with_list list) ;;;
      set_field r (with_owner None) ;;;
      modifyM (upd_size l (fun _ => 0))
  end.

Definition hr_list_node_init (node : option nptr) (own : option obj_ptr) : M lmem unit :=
  match node with
  | None => retM tt
  | Some _ =>
      set_field node (with_previous None) ;;;
      set_field node (with_next None) ;;;
      set_field node (with_list None) ;;;
      set_field node (with_owner own)
  end.

Definition hr_list_is_empty (h : lmem) (list : option list_addr) : bool :=
  match list with None => true | Some l => size_at h l =? 0 end.

Definition hr_list_size (h : lmem) (list : option list_addr) : Z :=
  match list with None => 0 | Some l => size_at h l end.

Definition hr_list_node_is_linked (h : lmem) (node : option nptr) : bool :=
  match node with None => false | Some n => bool_decide (list_of (node_at h n) <> None) end.

Definition hr_list_node_owner (h : lmem) (node : option nptr) : option obj_ptr :=
  match node with None => None | Some n => owner (node_at h n) end.

Definition hr_list_front (h : lmem) (list : option list_addr) : option nptr :=
  match list with
  | None => None
  | Some l => if size_at h l =? 0 then None else next (node_at h (PRoot l))
  end.

Definition hr_list_back (h : lmem) (list : option list_addr) : option nptr :=
  match list with
  | None => None
  | Some l => if size_at h l =? 0 then None else previous (node_at h (PRoot l))
  end.

Definition hr_list_next (h : lmem) (list : option list_addr) (node : option nptr) : option nptr :=
  match list, node with
  | Some l, Some n =>
      if bool_decide (list_of (node_at h n) <> Some l)
         || bool_decide (next (node_at h n) = Some (PRoot l))
      then None else next (node_at h n)
  | _, _ => None
  end.

Definition hr_list_previous (h : lmem) (list : option list_addr) (node : option nptr) : option nptr :=
  match list, node with
  | Some l, Some n =>
      if bool_decide (list_of (node_at h n) <> Some l)
         || bool_decide (previous (node_at h n) = Some (PRoot l))
      then None else previous (node_at h n)
  | _, _ => None
  end.

Definition hr_list_push_front (list : option list_addr) (node : option nptr) : M lmem hr_status :=
  match list with
  | None => retM HR_ERROR_INVALID_ARGUMENT
  | Some l =>
      let* h := getM in
      hr_list_insert_between list (Some (PRoot l)) (next (node_at h (PRoot l))) node
  end.

Definition hr_list_push_back (list : option list_addr) (node : option nptr) : M lmem hr_status :=
  match list with
  | None => retM HR_ERROR_INVALID_ARGUMENT
  | Some l =>
      let* h := getM in
      hr_list_insert_between list (previous (node_at h (PRoot l))) (Some (PRoot l)) node
  end.

Definition hr_list_insert_before (list : option list_addr) (position node : option nptr)
  : M lmem hr_status :=
  match list, position with
  | Some l, Some p =>
      let* h := getM in
      if bool_decide (list_of (node_at h p) <> Some l) then retM HR_ERROR_INVALID_STATE
      else hr_list_insert_between list (previous (node_at h p)) position node
  | _, _ => retM HR_ERROR_INVALID_ARGUMENT
  end.

Definition hr_list_remove (node : option nptr) : M lmem hr_status :=
  match node with
  | None => retM HR_ERROR_INVALID_ARGUMENT
  | Some n =>
      let* h := getM in
      match list_of (node_at h n) with
      | None => retM HR_ERROR_INVALID_STATE
      | Some l =>
          if bool_decide (n = PRoot l) || (size_at h l =? 0) then retM HR_ERROR_INVALID_STATE
          else
            set_field (previous (node_at h n)) (with_next (next (node_at h n))) ;;;
            (let* h' := getM in
             set_field (next (node_at h' n)) (with_previous (previous (node_at h' n)))) ;;;
            modifyM (upd_size l (fun n => u32 (n - 1))) ;;;
            set_field node (with_previous None) ;;;
            set_field node (with_next None) ;;;
            set_field node (with_list None) ;;;
            retM HR_OK
      end
  end.

Definition hr_list_pop_front (list : option list_addr) : M lmem (option nptr) :=
  let* h := getM in
  match hr_list_front h list with
  | None => retM None
  | Some n =>
      let* status := hr_list_remove (Some n) in
      retM (if bool_decide (status <> HR_OK) then None else Some n)
  end.

Definition hr_list_pop_back (list : option list_addr) : M lmem (option nptr) :=
  let* h := getM in
  match hr_list_back h list with
  | None => retM None
  | Some n =>
      let* status := hr_list_remove (Some n) in
      retM (if bool_decide (status <> HR_OK) then None else Some n)
  end.

(** The loop of [hr_list_validate].  It stops by itself once [count] exceeds
    [list->size], so [size + 2] iterations are enough fuel (a list of
    [SIZE_MAX] nodes does not fit the 32-bit address space). *)
Fixpoint hr_list_validate_loop (fuel : nat) (h : lmem) (l : list_addr)
    (prev : nptr) (node : option nptr) (count : Z) : bool :=
  match fuel with
  | O => false
  | S fuel' =>
      if bool_decide (node = Some (PRoot l)) then
        (count =? size_at h l)
        && bool_decide (previous (node_at h (PRoot l)) = Some prev)
        && match previous (node_at h (PRoot l)) with
           | None => false
           | Some last => bool_decide (next (node_at h last) = Some (PRoot l))
           end
      else
        match node with
        | None => false
        | Some n =>
            if bool_decide (list_of (node_at h n) <> Some l)
               || bool_decide (previous (node_at h n) <> Some prev)
               || bool_decide (next (node_at h n) = None)
            then false
            else if size_at h l <? u32 (count + 1) then false
            else hr_list_validate_loop fuel' h l n (next (node_at h n)) (u32 (count + 1))
        end
  end.

Definition hr_list_validate (h : lmem) (list : option list_addr) : bool :=
  match list with
  | None => false
  | Some l =>
      if bool_decide (list_of (node_at h (PRoot l)) <> Some l)
         || bool_decide (next (node_at h (PRoot l)) = None)
         || bool_decide (previous (node_at h (PRoot l)) = None)
      then false
      else hr_list_validate_loop (S (S (Z.to_nat (size_at h l)))) h l (PRoot l)
             (next (node_at h (PRoot l))) 0
  end.
