(* ===== verification/HrListSpec.v ===== *)
(** Correctness of the intrusive list ([kernel/src/hr_list.c]): a list head and
    its nodes in memory represent a sequence of nodes, every operation is the
    corresponding operation on sequences, and [hr_list_validate] decides the
    representation. *)
From S2P Require Import Prelude Types HrList.
From stdpp Require Import gmap list.
From Stdlib Require Import ZArith Lia.
Open Scope Z_scope.
Set Warnings "-clear-no-such-hyp".

(** ** Representation of sequences by rings *)

Abbreviation nx h p := (next (node_at h p)).
Abbreviation pv h p := (previous (node_at h p)).
Abbreviation li h p := (list_of (node_at h p)).
Abbreviation ow h p := (owner (node_at h p)).

(** Consecutive elements of a path are linked in both directions. *)
Fixpoint path (h : lmem) (ps : list nptr) : Prop :=
  match ps with
  | a :: (b :: _) as t => nx h a = Some b /\ pv h b = Some a /\ path h t
  | _ => True
  end.

Definition ring_path (l : list_addr) (ns : list node_addr) : list nptr :=
  PRoot l :: (PNode <$> ns) ++ [PRoot l].

(** [ring h l ns]: in [h] the list [l] holds exactly the nodes [ns], in order. *)
Record ring (h : lmem) (l : list_addr) (ns : list node_addr) : Prop := {
  ring_root : li h (PRoot l) = Some l;
  ring_size : size_at h l = Z.of_nat (length ns);
  ring_bound : Z.of_nat (length ns) <= SIZE_MAX;
  ring_links : path h (ring_path l ns);
  ring_members : forall n, n ∈ ns -> li h (PNode n) = Some l;
  ring_nodup : NoDup ns;
}.

(** [lists_rep h V]: the initialised lists of [h] hold the sequences of [V],
    and a node is marked as linked exactly when some sequence contains it. *)
Record lists_rep (h : lmem) (V : gmap list_addr (list node_addr)) : Prop := {
  rep_ring : forall l ns, V !! l = Some ns -> ring h l ns;
  rep_linked : forall n l, li h (PNode n) = Some l -> exists ns, V !! l = Some ns /\ n ∈ ns;
}.

(** *** Memory updates *)

Lemma node_at_upd_node h p q f :
  node_at (upd_node p f h) q = if decide (p = q) then f (node_at h p) else node_at h q.
Proof.
  destruct p as [l|n], q as [l'|n']; simpl; [|done..|].
  - destruct (decide (l = l')) as [->|Hne].
    + rewrite lookup_total_insert_eq. by case_decide.
    + rewrite lookup_total_insert_ne by done. case_decide; congruence.
  - destruct (decide (n = n')) as [->|Hne].
    + rewrite lookup_total_insert_eq. by case_decide.
    + rewrite lookup_total_insert_ne by done. case_decide; congruence.
Qed.

Lemma size_at_upd_node h p f l : size_at (upd_node p f h) l = size_at h l.
Proof.
  destruct p as [l'|n]; simpl; [|done]. unfold size_at; simpl.
  destruct (decide (l' = l)) as [->|Hne];
    [by rewrite lookup_total_insert_eq|by rewrite lookup_total_insert_ne].
Qed.

Lemma node_at_upd_size h l f q : node_at (upd_size l f h) q = node_at h q.
Proof.
  destruct q as [l'|n]; simpl; [|done].
  destruct (decide (l = l')) as [->|Hne];
    [by rewrite lookup_total_insert_eq|by rewrite lookup_total_insert_ne].
Qed.

Lemma size_at_upd_size h l f l' :
  size_at (upd_size l f h) l' = if decide (l = l') then f (size_at h l) else size_at h l'.
Proof.
  unfold size_at; simpl. destruct (decide (l = l')) as [->|Hne];
    [by rewrite lookup_total_insert_eq|by rewrite lookup_total_insert_ne].
Qed.

Arguments node_at : simpl never.
Arguments size_at : simpl never.
Arguments upd_node : simpl never.
Arguments upd_size : simpl never.

Ltac mem_simpl :=
  repeat rewrite ?node_at_upd_node, ?size_at_upd_node, ?node_at_upd_size, ?size_at_upd_size.

(** Case analysis on which cell a read hits. *)
Ltac mem_cases := repeat (progress mem_simpl || case_decide || (progress simplify_eq/=)); try done; try congruence.

(** *** Paths *)

Lemma path_split h xs a b ys :
  path h ((xs ++ [a]) ++ b :: ys) <->
  path h (xs ++ [a]) /\ (nx h a = Some b /\ pv h b = Some a) /\ path h (b :: ys).
Proof.
  induction xs as [|x xs IH]; simpl; [tauto|].
  destruct (xs ++ [a]) as [|y zs] eqn:E; [by destruct xs|].
  simpl in *. tauto.
Qed.

(** A path depends on [next] of all its elements but the last, and on
    [previous] of all but the first. *)
Lemma path_frame h h' ps :
  (forall xs x y ys, ps = xs ++ x :: y :: ys -> nx h' x = nx h x /\ pv h' y = pv h y) ->
  path h ps -> path h' ps.
Proof.
  induction ps as [|a [|b ps] IH]; simpl; [done..|]. intros F (H1 & H2 & H3).
  destruct (F [] a b ps eq_refl) as [-> ->]. repeat split; [done..|].
  apply IH; [|done]. intros xs x y ys E. apply (F (a :: xs) x y ys). by rewrite E.
Qed.

Lemma path_frame_all h h' ps :
  (forall x, x ∈ ps -> nx h' x = nx h x /\ pv h' x = pv h x) -> path h ps -> path h' ps.
Proof.
  intros F. apply path_frame. intros xs x y ys ->.
  split; apply F; rewrite elem_of_app, !elem_of_cons; auto.
Qed.

Lemma path_lookup h ps i a b :
  path h ps -> ps !! i = Some a -> ps !! S i = Some b -> nx h a = Some b /\ pv h b = Some a.
Proof.
  revert i. induction ps as [|x [|y ps] IH]; intros i HP Ha Hb; [done|by destruct i|].
  destruct HP as (?&?&HP). destruct i as [|i]; [by simplify_eq/=|].
  by apply (IH i).
Qed.

Lemma ring_frame h h' l ns :
  (forall p, p = PRoot l \/ p ∈ PNode <$> ns -> node_at h' p = node_at h p) ->
  size_at h' l = size_at h l -> ring h l ns -> ring h' l ns.
Proof.
  intros F Hs [R1 R2 R3 R4 R5 R6]. split; [..|done].
  - rewrite F; auto.
  - congruence.
  - done.
  - revert R4. apply path_frame_all. intros x Hx. rewrite F; [done|].
    unfold ring_path in Hx. rewrite elem_of_cons, elem_of_app, list_elem_of_singleton in Hx. tauto.
  - intros n Hn. rewrite F; [auto|]. set_solver.
Qed.

(** The two ends of a cut: the element before it and the element after it. *)
Definition before (l : list_addr) (xs : list node_addr) : nptr :=
  default (PRoot l) (last (PNode <$> xs)).
Definition after (l : list_addr) (ys : list node_addr) : nptr :=
  default (PRoot l) (head (PNode <$> ys)).

Lemma before_snoc l xs : exists A, PRoot l :: (PNode <$> xs) = A ++ [before l xs].
Proof.
  unfold before. destruct xs as [|x xs _] using rev_ind; [by exists []|].
  exists (PRoot l :: (PNode <$> xs)). rewrite fmap_app; simpl. by rewrite last_snoc.
Qed.

Lemma after_cons l ys : exists B, (PNode <$> ys) ++ [PRoot l] = after l ys :: B.
Proof. unfold after. destruct ys; simpl; eauto. Qed.

Lemma ring_path_cut l xs ys :
  ring_path l (xs ++ ys) = (PRoot l :: (PNode <$> xs)) ++ (PNode <$> ys) ++ [PRoot l].
Proof. unfold ring_path. by rewrite fmap_app, <- !app_assoc. Qed.

Lemma before_in l xs : before l xs = PRoot l \/ before l xs ∈ PNode <$> xs.
Proof.
  unfold before. destruct (last (PNode <$> xs)) as [p|] eqn:E; [right|by left].
  simpl. by apply last_Some_elem_of.
Qed.

Lemma after_in l ys : after l ys = PRoot l \/ after l ys ∈ PNode <$> ys.
Proof. destruct ys; [by left|right]. unfold after; simpl. by apply list_elem_of_here. Qed.

Lemma path_cut h l xs ys :
  path h (ring_path l (xs ++ ys)) <->
  path h (PRoot l :: (PNode <$> xs)) /\
  (nx h (before l xs) = Some (after l ys) /\ pv h (after l ys) = Some (before l xs)) /\
  path h ((PNode <$> ys) ++ [PRoot l]).
Proof.
  rewrite ring_path_cut. destruct (before_snoc l xs) as [A EA], (after_cons l ys) as [B EB].
  rewrite EA, EB. apply path_split.
Qed.

Lemma ring_cut h l xs ys :
  ring h l (xs ++ ys) ->
  nx h (before l xs) = Some (after l ys) /\ pv h (after l ys) = Some (before l xs).
Proof. intros [_ _ _ R _ _]. by apply path_cut in R as (_ & R & _). Qed.

Lemma ring_front h l ns : ring h l ns -> nx h (PRoot l) = Some (after l ns).
Proof. intros R. by destruct (ring_cut h l [] ns R). Qed.

Lemma ring_back h l ns : ring h l ns -> pv h (PRoot l) = Some (before l ns).
Proof. intros R. rewrite <- (app_nil_r ns) in R. by destruct (ring_cut h l ns [] R). Qed.

(** *** Linking a node at a cut *)

Definition linked (h : lmem) (l : list_addr) (a : nptr) (n : node_addr) (b : nptr) : lmem :=
  let N := Some (PNode n) in
  upd_size l (fun n => u32 (n + 1))
    (upd_node b (with_previous N)
      (upd_node a (with_next N)
        (upd_node (PNode n) (with_list (Some l))
          (upd_node (PNode n) (with_next (Some b))
            (upd_node (PNode n) (with_previous (Some a)) h))))).

Lemma insert_between_run h l a n b :
  li h (PNode n) = None ->
  hr_list_insert_between (Some l) (Some a) (Some b) (Some (PNode n)) h
  = Some (HR_OK, linked h l a n b).
Proof. intros E. unfold hr_list_insert_between, bindM, getM. by rewrite E. Qed.

Lemma insert_between_linked h l a p b :
  li h p <> None ->
  hr_list_insert_between (Some l) (Some a) (Some b) (Some p) h = Some (HR_ERROR_INVALID_STATE, h).
Proof.
  intros E. unfold hr_list_insert_between, bindM, getM. by rewrite bool_decide_true.
Qed.

(** A memory [h'] obtained from [h] by linking or unlinking [n]: only the
    [list] field of [n] changes, and no [owner]. *)
Record link_frame (h h' : lmem) (n : node_addr) (v : option list_addr) : Prop := {
  lf_list : forall p, li h' p = if decide (p = PNode n) then v else li h p;
  lf_owner : forall p, ow h' p = ow h p;
}.

Section linked.
Context (h : lmem) (l : list_addr) (n : node_addr) (xs ys : list node_addr).
Hypothesis R : ring h l (xs ++ ys).
Hypothesis U : li h (PNode n) = None.
Let h' := linked h l (before l xs) n (after l ys).

Lemma linked_fresh : n ∉ xs ++ ys.
Proof. intros E. apply (ring_members _ _ _ R) in E. congruence. Qed.

Lemma linked_before_ne : before l xs <> PNode n.
Proof.
  pose proof linked_fresh. destruct (before_in l xs) as [->|E]; [done|].
  intros E'. rewrite E' in E. set_solver.
Qed.
Lemma linked_after_ne : after l ys <> PNode n.
Proof.
  pose proof linked_fresh. destruct (after_in l ys) as [->|E]; [done|].
  intros E'. rewrite E' in E. set_solver.
Qed.

Lemma linked_next p : nx h' p =
  if decide (p = before l xs) then Some (PNode n)
  else if decide (p = PNode n) then Some (after l ys) else nx h p.
Proof.
  pose proof linked_before_ne. pose proof linked_after_ne. unfold h', linked.
  mem_cases.
Qed.
Lemma linked_prev p : pv h' p =
  if decide (p = after l ys) then Some (PNode n)
  else if decide (p = PNode n) then Some (before l xs) else pv h p.
Proof.
  pose proof linked_before_ne. pose proof linked_after_ne. unfold h', linked.
  mem_cases.
Qed.
Lemma linked_frame : link_frame h h' n (Some l).
Proof.
  pose proof linked_before_ne. pose proof linked_after_ne. unfold h', linked.
  split; intros p; mem_cases.
Qed.
Lemma linked_size l' :
  size_at h' l' = if decide (l = l') then u32 (size_at h l + 1) else size_at h l'.
Proof. unfold h', linked. by mem_simpl. Qed.
End linked.

Lemma cut_nodup l xs ys n :
  NoDup (xs ++ ys) -> n ∉ xs ++ ys ->
  NoDup (PRoot l :: (PNode <$> xs ++ n :: ys)).
Proof.
  intros ND Hn. apply NoDup_cons; split; [set_solver|].
  apply NoDup_fmap_2; [intros ?? [=]; done|].
  rewrite <- (NoDup_Permutation_proper (n :: xs ++ ys)); [by constructor|].
  by rewrite Permutation_middle.
Qed.

(** The invariant of a cut: before it [next] of its last element is free,
    after it [previous] of its first. *)
Lemma path_left_frame h h' l xs :
  NoDup (PRoot l :: (PNode <$> xs)) ->
  (forall p, p ∈ PRoot l :: (PNode <$> xs) -> p <> before l xs -> nx h' p = nx h p) ->
  (forall x, x ∈ xs -> pv h' (PNode x) = pv h (PNode x)) ->
  path h (PRoot l :: (PNode <$> xs)) -> path h' (PRoot l :: (PNode <$> xs)).
Proof.
  intros ND Fn Fp. apply path_frame. intros us x y vs E.
  destruct (before_snoc l xs) as [A EA]. split.
  - apply Fn; [rewrite E; set_solver|].
    intros ->. rewrite EA in E, ND.
    assert (Hy : before l xs ∈ A).
    { destruct vs as [|v vs _] using rev_ind.
      - replace (us ++ [before l xs; y]) with ((us ++ [before l xs]) ++ [y]) in E
          by (by rewrite <- app_assoc).
        apply app_inj_tail in E as [-> _]. set_solver.
      - replace (us ++ before l xs :: y :: vs ++ [v])
          with ((us ++ before l xs :: y :: vs) ++ [v]) in E by (by rewrite <- app_assoc).
        apply app_inj_tail in E as [-> _]. set_solver. }
    apply NoDup_app in ND as (_ & ND & _). apply (ND _ Hy). set_solver.
  - assert (Hy : y ∈ PNode <$> xs).
    { destruct us as [|u us]; injection E as _ ->; set_solver. }
    apply list_elem_of_fmap in Hy as (z & -> & Hz). by apply Fp.
Qed.

Lemma path_right_frame h h' l ys :
  NoDup (PRoot l :: (PNode <$> ys)) ->
  (forall x, x ∈ ys -> nx h' (PNode x) = nx h (PNode x)) ->
  (forall p, p ∈ PRoot l :: (PNode <$> ys) -> p <> after l ys -> pv h' p = pv h p) ->
  path h ((PNode <$> ys) ++ [PRoot l]) -> path h' ((PNode <$> ys) ++ [PRoot l]).
Proof.
  intros ND Fn Fp. apply path_frame. intros us x y vs E.
  destruct (after_cons l ys) as [B EB]. split.
  - assert (Hx : x ∈ PNode <$> ys).
    { destruct vs as [|v vs _] using rev_ind.
      - replace (us ++ [x; y]) with ((us ++ [x]) ++ [y]) in E by (by rewrite <- app_assoc).
        apply app_inj_tail in E as [-> _]. set_solver.
      - replace (us ++ x :: y :: vs ++ [v]) with ((us ++ x :: y :: vs) ++ [v]) in E
          by (by rewrite <- app_assoc).
        apply app_inj_tail in E as [-> _]. set_solver. }
    apply list_elem_of_fmap in Hx as (z & -> & Hz). by apply Fn.
  - apply Fp.
    + assert (Hy : y ∈ (PNode <$> ys) ++ [PRoot l]) by (rewrite E; set_solver). set_solver.
    + intros ->. rewrite E in EB.
      assert (ND' : NoDup ((PNode <$> ys) ++ [PRoot l])) by (by rewrite Permutation_app_comm).
      rewrite E in ND'. destruct us as [|u us]; injection EB as -> EB;
        apply NoDup_cons in ND' as [ND' _]; apply ND'; set_solver.
Qed.

(** The nodes of a cut, with the one placed at it, are pairwise distinct. *)
Lemma cut_disjoint l xs ys n :
  NoDup (xs ++ n :: ys) ->
  NoDup (PRoot l :: (PNode <$> xs)) /\ NoDup (PRoot l :: (PNode <$> ys)) /\
  before l xs <> PNode n /\ after l ys <> PNode n /\
  (forall x, x ∈ xs -> PNode x <> after l ys /\ x <> n) /\
  (forall y, y ∈ ys -> PNode y <> before l xs /\ y <> n).
Proof.
  intros ND. apply NoDup_app in ND as (NDx & Dxy & NDy). apply NoDup_cons in NDy as [Hny NDy].
  assert (C : forall zs, NoDup zs -> NoDup (PRoot l :: (PNode <$> zs))).
  { intros zs Hz. apply NoDup_cons; split; [set_solver|].
    by apply NoDup_fmap_2; [intros ?? [=]|]. }
  assert (B : forall z, before l xs = PNode z -> z ∈ xs).
  { intros z Ez. destruct (before_in l xs) as [E|E]; rewrite Ez in E; [done|set_solver]. }
  assert (A : forall z, after l ys = PNode z -> z ∈ ys).
  { intros z Ez. destruct (after_in l ys) as [E|E]; rewrite Ez in E; [done|set_solver]. }
  split_and!; [auto..| | | |].
  - intros E. apply B in E. set_solver.
  - intros E. apply A in E. set_solver.
  - intros x Hx. split; [intros E; symmetry in E; apply A in E|intros ->]; set_solver.
  - intros y Hy. split; [intros E; symmetry in E; apply B in E|intros ->]; set_solver.
Qed.

Lemma path_insert h h' l n xs ys :
  NoDup (xs ++ n :: ys) ->
  (forall p, nx h' p = if decide (p = before l xs) then Some (PNode n)
                       else if decide (p = PNode n) then Some (after l ys) else nx h p) ->
  (forall p, pv h' p = if decide (p = after l ys) then Some (PNode n)
                       else if decide (p = PNode n) then Some (before l xs) else pv h p) ->
  path h (ring_path l (xs ++ ys)) -> path h' (ring_path l (xs ++ n :: ys)).
Proof.
  intros ND Hn Hp H. apply path_cut in H as (HL & _ & HR). apply path_cut.
  destruct (cut_disjoint l xs ys n ND) as (NDx & NDy & Bn & An & Dx & Dy).
  change (after l (n :: ys)) with (PNode n). split_and!.
  - revert HL. apply path_left_frame; [done| |].
    + intros p Hp1 Hp2. rewrite Hn, decide_False, decide_False; [done| |done].
      intros ->. destruct (Dx n) as [_ ?]; set_solver.
    + intros x Hx. destruct (Dx x Hx). rewrite Hp, decide_False, decide_False; [done|congruence|done].
  - rewrite Hn. by rewrite decide_True.
  - rewrite Hp, decide_False by done. by rewrite decide_True.
  - destruct (after_cons l ys) as [B EB].
    change ((PNode <$> n :: ys) ++ [PRoot l]) with (PNode n :: ((PNode <$> ys) ++ [PRoot l])).
    rewrite EB. split_and!.
    + rewrite Hn, decide_False by done. by rewrite decide_True.
    + rewrite Hp. by rewrite decide_True.
    + rewrite <- EB. revert HR. apply path_right_frame; [done| |].
      * intros y Hy. destruct (Dy y Hy). rewrite Hn, decide_False, decide_False; [done|congruence|done].
      * intros p Hp1 Hp2. rewrite Hp, decide_False, decide_False; [done| |done].
        intros ->. destruct (Dy n) as [_ ?]; set_solver.
Qed.

(** Linking a fresh node at a cut yields the ring with the node inserted. *)
Lemma ring_linked h l n xs ys :
  ring h l (xs ++ ys) -> li h (PNode n) = None -> Z.of_nat (length (xs ++ ys)) < SIZE_MAX ->
  ring (linked h l (before l xs) n (after l ys)) l (xs ++ n :: ys).
Proof.
  intros R U Hb. pose proof (linked_fresh h l n xs ys R U) as Hf.
  pose proof (linked_next h l n xs ys R U) as Hn. pose proof (linked_prev h l n xs ys R U) as Hp.
  destruct (linked_frame h l n xs ys R U) as [Hl _].
  pose proof (linked_size h l n xs ys l) as Hs. rewrite decide_True in Hs by done.
  set (h' := linked _ _ _ _ _) in *. clearbody h'. destruct R as [R1 R2 R3 R4 R5 R6].
  assert (ND : NoDup (xs ++ n :: ys)) by (rewrite <- Permutation_middle; by constructor).
  assert (Hlen : length (xs ++ n :: ys) = S (length (xs ++ ys))) by (rewrite !length_app; simpl; lia).
  split; [by rewrite Hl| |lia| | |done].
  - rewrite Hs, R2, u32_small; unfold UINT32_MAX, SIZE_MAX in *; lia.
  - by apply (path_insert h).
  - intros x Hx. rewrite Hl. case_decide; [done|]. apply R5. set_solver.
Qed.

(** *** Unlinking a node *)

Definition unlinked (h : lmem) (l : list_addr) (a : nptr) (n : node_addr) (b : nptr) : lmem :=
  upd_node (PNode n) (with_list None)
    (upd_node (PNode n) (with_next None)
      (upd_node (PNode n) (with_previous None)
        (upd_size l (fun n => u32 (n - 1))
          (upd_node b (with_previous (Some a))
            (upd_node a (with_next (Some b)) h))))).

Section unlinked.
Context (h : lmem) (l : list_addr) (n : node_addr) (xs ys : list node_addr).
Hypothesis R : ring h l (xs ++ n :: ys).
Let h' := unlinked h l (before l xs) n (after l ys).

Lemma ring_neighbours :
  pv h (PNode n) = Some (before l xs) /\ nx h (PNode n) = Some (after l ys).
Proof.
  split; [by apply (ring_cut h l xs (n :: ys))|].
  replace (xs ++ n :: ys) with ((xs ++ [n]) ++ ys) in R by (by rewrite <- app_assoc).
  apply ring_cut in R as [E _]. unfold before in E. rewrite fmap_app in E. simpl in E.
  by rewrite last_snoc in E.
Qed.

Lemma remove_run : hr_list_remove (Some (PNode n)) h = Some (HR_OK, h').
Proof.
  destruct ring_neighbours as [Ep En].
  destruct (cut_disjoint l xs ys n (ring_nodup _ _ _ R)) as (_ & _ & Bn & An & _ & _).
  assert (El : li h (PNode n) = Some l) by (apply (ring_members _ _ _ R); set_solver).
  assert (Es : (size_at h l =? 0) = false).
  { rewrite (ring_size _ _ _ R), length_app; simpl. by apply Z.eqb_neq; lia. }
  unfold hr_list_remove, bindM, getM. rewrite El, Es, bool_decide_false by done. simpl.
  rewrite Ep, En. unfold set_field, modifyM. rewrite node_at_upd_node, decide_False by done.
  by rewrite En, Ep.
Qed.

Lemma unlinked_next p : p <> PNode n ->
  nx h' p = if decide (p = before l xs) then Some (after l ys) else nx h p.
Proof.
  destruct (cut_disjoint l xs ys n (ring_nodup _ _ _ R)) as (_ & _ & Bn & An & _ & _).
  intros Hp. unfold h', unlinked. mem_cases.
Qed.
Lemma unlinked_prev p : p <> PNode n ->
  pv h' p = if decide (p = after l ys) then Some (before l xs) else pv h p.
Proof.
  destruct (cut_disjoint l xs ys n (ring_nodup _ _ _ R)) as (_ & _ & Bn & An & _ & _).
  intros Hp. unfold h', unlinked. mem_cases.
Qed.
Lemma unlinked_frame : link_frame h h' n None.
Proof.
  destruct (cut_disjoint l xs ys n (ring_nodup _ _ _ R)) as (_ & _ & Bn & An & _ & _).
  unfold h', unlinked. split; intros p; mem_cases.
Qed.
Lemma unlinked_size l' :
  size_at h' l' = if decide (l = l') then u32 (size_at h l - 1) else size_at h l'.
Proof. unfold h', unlinked. by mem_simpl. Qed.

Lemma path_remove : path h' (ring_path l (xs ++ ys)).
Proof.
  pose proof unlinked_next as Hn. pose proof unlinked_prev as Hp.
  destruct (cut_disjoint l xs ys n (ring_nodup _ _ _ R)) as (NDx & NDy & Bn & An & Dx & Dy).
  clearbody h'. destruct R as [_ _ _ R4 _ _].
  apply path_cut in R4 as (HL & _ & HR). apply path_cut. split_and!.
  - revert HL. apply path_left_frame; [done| |].
    + intros p Hp1 Hp2. rewrite Hn, decide_False; [done..|].
      intros ->. destruct (Dx n) as [_ ?]; set_solver.
    + intros x Hx. destruct (Dx x Hx). rewrite Hp, decide_False; [done..|congruence].
  - rewrite Hn by done. by rewrite decide_True.
  - rewrite Hp by done. by rewrite decide_True.
  - destruct (after_cons l ys) as [B EB].
    change ((PNode <$> n :: ys) ++ [PRoot l]) with (PNode n :: ((PNode <$> ys) ++ [PRoot l])) in HR.
    rewrite EB in HR. destruct HR as (_ & _ & HR). rewrite <- EB in HR.
    revert HR. apply path_right_frame; [done| |].
    + intros y Hy. destruct (Dy y Hy). rewrite Hn, decide_False; [done..|congruence].
    + intros p Hp1 Hp2. rewrite Hp, decide_False; [done..|].
      intros ->. destruct (Dy n) as [_ ?]; set_solver.
Qed.

Lemma ring_unlinked : ring h' l (xs ++ ys).
Proof.
  pose proof path_remove. destruct unlinked_frame as [Hl _].
  pose proof (unlinked_size l) as Hs. rewrite decide_True in Hs by done.
  clearbody h'. destruct R as [R1 R2 R3 R4 R5 R6].
  assert (Hlen : length (xs ++ n :: ys) = S (length (xs ++ ys))) by (rewrite !length_app; simpl; lia).
  rewrite <- Permutation_middle in R6. apply NoDup_cons in R6 as [R6 R7].
  split; [by rewrite Hl| |lia|done| |done].
  - rewrite Hs, R2, u32_small; unfold UINT32_MAX, SIZE_MAX in *; lia.
  - intros x Hx. rewrite Hl, decide_False by congruence. apply R5. set_solver.
Qed.
End unlinked.

(** ** The operations as operations on sequences *)

Section rep.
Context (h : lmem) (V : gmap list_addr (list node_addr)).
Hypothesis Rep : lists_rep h V.

(** Two initialised lists share no node. *)
Lemma rep_unlinked_iff n : li h (PNode n) = None <-> forall l ns, V !! l = Some ns -> n ∉ ns.
Proof.
  split.
  - intros E l ns Hl Hn. apply (rep_ring _ _ Rep) in Hl. apply (ring_members _ _ _ Hl) in Hn.
    congruence.
  - intros H. destruct (li h (PNode n)) as [l|] eqn:E; [|done].
    destruct (rep_linked _ _ Rep _ _ E) as (ns & Hl & Hn). by destruct (H l ns).
Qed.

Lemma rep_member_iff n l ns : V !! l = Some ns -> li h (PNode n) = Some l <-> n ∈ ns.
Proof.
  intros Hl. split.
  - intros E. destruct (rep_linked _ _ Rep _ _ E) as (ns' & Hl' & Hn). congruence.
  - apply (ring_members _ _ _ (rep_ring _ _ Rep _ _ Hl)).
Qed.

(** Other lists are not touched by an update of nodes of [l]. *)
Lemma ring_other h' l l' ns' (touched : nptr -> Prop) :
  (forall p, ~ touched p -> nx h' p = nx h p /\ pv h' p = pv h p /\ li h' p = li h p) ->
  (forall p, touched p -> p = PRoot l \/
     exists n, p = PNode n /\ (li h p = Some l \/ li h p = None)) ->
  size_at h' l' = size_at h l' -> l <> l' -> V !! l' = Some ns' -> ring h' l' ns'.
Proof.
  intros F T Hs Hne Hl. pose proof (rep_ring _ _ Rep _ _ Hl) as R.
  assert (K : forall p, p = PRoot l' \/ p ∈ PNode <$> ns' -> ~ touched p).
  { intros p Hp Ht. destruct (T p Ht) as [->|(n & -> & Hn)].
    - destruct Hp; [congruence|set_solver].
    - destruct Hp as [|Hp]; [done|]. assert (Hm : n ∈ ns') by set_solver.
      apply (ring_members _ _ _ R) in Hm. destruct Hn; congruence. }
  destruct R as [R1 R2 R3 R4 R5 R6]. split; [|congruence|done| | |done].
  - destruct (F (PRoot l')) as (_ & _ & ->); auto.
  - revert R4. apply path_frame_all. intros x Hx. destruct (F x) as (-> & -> & _); [|done].
    apply K. unfold ring_path in Hx. rewrite elem_of_cons, elem_of_app, list_elem_of_singleton in Hx.
    tauto.
  - intros n Hn. destruct (F (PNode n)) as (_ & _ & ->); [|auto]. apply K. set_solver.
Qed.

(** What linking or unlinking at a cut of [l] touches belongs to [l]. *)
Lemma cut_touched l n xs zs ys p :
  V !! l = Some (xs ++ zs ++ ys) -> li h (PNode n) = Some l \/ li h (PNode n) = None ->
  p = before l xs \/ p = after l ys \/ p = PNode n ->
  p = PRoot l \/ exists n, p = PNode n /\ (li h p = Some l \/ li h p = None).
Proof.
  intros Hl Hn. pose proof (ring_members _ _ _ (rep_ring _ _ Rep _ _ Hl)) as Hm.
  intros [-> | [-> | ->]]; [| |by right; eauto].
  - destruct (before_in l xs) as [->|E]; [by left|right].
    apply list_elem_of_fmap in E as (z & -> & Hz). exists z. split; [done|left; apply Hm; set_solver].
  - destruct (after_in l ys) as [->|E]; [by left|right].
    apply list_elem_of_fmap in E as (z & -> & Hz). exists z. split; [done|left; apply Hm; set_solver].
Qed.

Lemma rep_linked_at l n xs ys :
  V !! l = Some (xs ++ ys) -> li h (PNode n) = None -> Z.of_nat (length (xs ++ ys)) < SIZE_MAX ->
  lists_rep (linked h l (before l xs) n (after l ys)) (<[l := xs ++ n :: ys]> V).
Proof.
  intros Hl U Hb. pose proof (rep_ring _ _ Rep _ _ Hl) as R.
  pose proof (ring_linked h l n xs ys R U Hb) as R'.
  pose proof (linked_next h l n xs ys R U) as Hn. pose proof (linked_prev h l n xs ys R U) as Hp.
  destruct (linked_frame h l n xs ys R U) as [Hlist _].
  pose proof (linked_size h l n xs ys) as Hs.
  set (h' := linked _ _ _ _ _) in *. clearbody h'. split.
  - intros l' ns' Hl'. destruct (decide (l = l')) as [<-|Hne]; simplify_map_eq; [done|].
    apply (ring_other h' l l' ns'
      (fun p => p = before l xs \/ p = after l ys \/ p = PNode n)); [| | |done..].
    + intros p Hp'. rewrite Hn, Hp, Hlist. split_and!; repeat case_decide; tauto.
    + intros p. apply (cut_touched l n xs [] ys); auto.
    + by rewrite Hs, decide_False.
  - intros x l' Hx. rewrite Hlist in Hx. case_decide as E.
    + simplify_eq. exists (xs ++ n :: ys). rewrite lookup_insert_eq. set_solver.
    + destruct (rep_linked _ _ Rep _ _ Hx) as (ns' & Hl' & Hin).
      destruct (decide (l = l')) as [<-|Hne].
      * exists (xs ++ n :: ys). rewrite lookup_insert_eq. simplify_eq. set_solver.
      * exists ns'. by rewrite lookup_insert_ne.
Qed.

Lemma rep_unlinked_at l n xs ys :
  V !! l = Some (xs ++ n :: ys) ->
  lists_rep (unlinked h l (before l xs) n (after l ys)) (<[l := xs ++ ys]> V).
Proof.
  intros Hl. pose proof (rep_ring _ _ Rep _ _ Hl) as R.
  pose proof (ring_unlinked h l n xs ys R) as R'.
  pose proof (unlinked_next h l n xs ys R) as Hn. pose proof (unlinked_prev h l n xs ys R) as Hp.
  destruct (unlinked_frame h l n xs ys R) as [Hlist _].
  pose proof (unlinked_size h l n xs ys) as Hs.
  set (h' := unlinked _ _ _ _ _) in *. clearbody h'. split.
  - intros l' ns' Hl'. destruct (decide (l = l')) as [<-|Hne]; simplify_map_eq; [done|].
    apply (ring_other h' l l' ns'
      (fun p => p = before l xs \/ p = after l ys \/ p = PNode n)); [| | |done..].
    + intros p Hp'. rewrite Hn, Hp, Hlist by tauto. split_and!; repeat case_decide; tauto.
    + intros p. apply (cut_touched l n xs [n] ys); [done|left].
      apply (ring_members _ _ _ R). set_solver.
    + by rewrite Hs, decide_False.
  - intros x l' Hx. rewrite Hlist in Hx. case_decide as E; [done|].
    destruct (rep_linked _ _ Rep _ _ Hx) as (ns' & Hl' & Hin).
    destruct (decide (l = l')) as [<-|Hne].
    + exists (xs ++ ys). rewrite lookup_insert_eq. simplify_eq. split; [done|].
      assert (x <> n) by congruence. set_solver.
    + exists ns'. by rewrite lookup_insert_ne.
Qed.
End rep.

(** *** Queries *)
Section queries.
Context (h : lmem) (l : list_addr) (ns : list node_addr).
Hypothesis R : ring h l ns.

Lemma ring_size_zero : (size_at h l =? 0) = bool_decide (ns = []).
Proof.
  rewrite (ring_size _ _ _ R). by destruct ns.
Qed.

Lemma hr_list_is_empty_spec : hr_list_is_empty h (Some l) = bool_decide (ns = []).
Proof. apply ring_size_zero. Qed.

Lemma hr_list_size_spec : hr_list_size h (Some l) = Z.of_nat (length ns).
Proof. apply (ring_size _ _ _ R). Qed.

Lemma hr_list_front_spec : hr_list_front h (Some l) = head (PNode <$> ns).
Proof.
  unfold hr_list_front. rewrite ring_size_zero, (ring_front _ _ _ R).
  unfold after. by destruct ns.
Qed.

Lemma hr_list_back_spec : hr_list_back h (Some l) = last (PNode <$> ns).
Proof.
  unfold hr_list_back. rewrite ring_size_zero, (ring_back _ _ _ R). unfold before.
  destruct ns as [|n ns' _] using rev_ind; [by rewrite bool_decide_true|].
  rewrite bool_decide_false by (by destruct ns'). rewrite fmap_app; simpl. by rewrite last_snoc.
Qed.

Lemma hr_list_next_spec n xs ys :
  ns = xs ++ n :: ys -> hr_list_next h (Some l) (Some (PNode n)) = head (PNode <$> ys).
Proof.
  intros E. pose proof R as R'. rewrite E in R'. unfold hr_list_next.
  destruct (ring_neighbours _ _ _ _ _ R') as [_ ->].
  rewrite (ring_members _ _ _ R n) by set_solver. rewrite bool_decide_false by tauto. simpl.
  unfold after. destruct ys; simpl; [by rewrite bool_decide_true|by rewrite ?bool_decide_false].
Qed.

Lemma hr_list_previous_spec n xs ys :
  ns = xs ++ n :: ys -> hr_list_previous h (Some l) (Some (PNode n)) = last (PNode <$> xs).
Proof.
  intros E. pose proof R as R'. rewrite E in R'. unfold hr_list_previous.
  destruct (ring_neighbours _ _ _ _ _ R') as [-> _].
  rewrite (ring_members _ _ _ R n) by set_solver. rewrite bool_decide_false by tauto. simpl.
  unfold before. destruct xs as [|x xs _] using rev_ind; simpl; [by rewrite bool_decide_true|].
  rewrite fmap_app; simpl. rewrite last_snoc. by rewrite bool_decide_false.
Qed.
End queries.

(** *** Updates, in continuation form for [wp] proofs *)
Section updates.
Context (h : lmem) (V : gmap list_addr (list node_addr)) (l : list_addr) (n : node_addr).
Hypothesis Rep : lists_rep h V.

Lemma hr_list_insert_spec xs ys Q :
  V !! l = Some (xs ++ ys) -> li h (PNode n) = None -> Z.of_nat (length (xs ++ ys)) < SIZE_MAX ->
  (forall h', lists_rep h' (<[l := xs ++ n :: ys]> V) -> link_frame h h' n (Some l) -> Q HR_OK h') ->
  wp (hr_list_insert_between (Some l) (Some (before l xs)) (Some (after l ys)) (Some (PNode n))) Q h.
Proof.
  intros Hl U Hb K. eapply wp_intro; [by apply insert_between_run|]. apply K.
  - by apply rep_linked_at.
  - apply (linked_frame h l n xs ys); [|done]. by apply (rep_ring _ _ Rep).
Qed.

Lemma hr_list_push_back_spec ns Q :
  V !! l = Some ns -> li h (PNode n) = None -> Z.of_nat (length ns) < SIZE_MAX ->
  (forall h', lists_rep h' (<[l := ns ++ [n]]> V) -> link_frame h h' n (Some l) -> Q HR_OK h') ->
  wp (hr_list_push_back (Some l) (Some (PNode n))) Q h.
Proof.
  intros Hl U Hb K. unfold hr_list_push_back. wp_steps.
  rewrite (ring_back _ _ _ (rep_ring _ _ Rep _ _ Hl)).
  change (Some (PRoot l)) with (Some (after l [])).
  apply hr_list_insert_spec; rewrite ?app_nil_r; auto.
Qed.

Lemma hr_list_push_front_spec ns Q :
  V !! l = Some ns -> li h (PNode n) = None -> Z.of_nat (length ns) < SIZE_MAX ->
  (forall h', lists_rep h' (<[l := n :: ns]> V) -> link_frame h h' n (Some l) -> Q HR_OK h') ->
  wp (hr_list_push_front (Some l) (Some (PNode n))) Q h.
Proof.
  intros Hl U Hb K. unfold hr_list_push_front. wp_steps.
  rewrite (ring_front _ _ _ (rep_ring _ _ Rep _ _ Hl)).
  change (PRoot l) with (before l []) at 1. by apply (hr_list_insert_spec []).
Qed.

Lemma hr_list_insert_before_spec m xs ys Q :
  V !! l = Some (xs ++ m :: ys) -> li h (PNode n) = None ->
  Z.of_nat (length (xs ++ m :: ys)) < SIZE_MAX ->
  (forall h', lists_rep h' (<[l := xs ++ n :: m :: ys]> V) -> link_frame h h' n (Some l) ->
     Q HR_OK h') ->
  wp (hr_list_insert_before (Some l) (Some (PNode m)) (Some (PNode n))) Q h.
Proof.
  intros Hl U Hb K. pose proof (rep_ring _ _ Rep _ _ Hl) as R.
  unfold hr_list_insert_before. wp_step. wp_step.
  rewrite (ring_members _ _ _ R m) by set_solver. rewrite bool_decide_false by tauto.
  destruct (ring_neighbours _ _ _ _ _ R) as [-> _].
  change (Some (PNode m)) with (Some (after l (m :: ys))). by apply hr_list_insert_spec.
Qed.

Lemma hr_list_remove_spec xs ys Q :
  V !! l = Some (xs ++ n :: ys) ->
  (forall h', lists_rep h' (<[l := xs ++ ys]> V) -> link_frame h h' n None -> Q HR_OK h') ->
  wp (hr_list_remove (Some (PNode n))) Q h.
Proof.
  intros Hl K. pose proof (rep_ring _ _ Rep _ _ Hl) as R.
  eapply wp_intro; [by apply (remove_run h l n xs ys)|]. apply K.
  - by apply rep_unlinked_at.
  - by apply unlinked_frame.
Qed.
End updates.

Lemma hr_list_pop_front_spec h V l ns Q :
  lists_rep h V -> V !! l = Some ns ->
  (ns = [] -> Q None h) ->
  (forall n ns' h', ns = n :: ns' -> lists_rep h' (<[l := ns']> V) -> link_frame h h' n None ->
     Q (Some (PNode n)) h') ->
  wp (hr_list_pop_front (Some l)) Q h.
Proof.
  intros Rep Hl K0 K1. unfold hr_list_pop_front. wp_step. wp_step.
  rewrite (hr_list_front_spec _ _ _ (rep_ring _ _ Rep _ _ Hl)).
  destruct ns as [|n ns']; simpl; wp_steps; [auto|].
  apply (hr_list_remove_spec h V l n Rep [] ns'); [done|]. intros h' Rep' F.
  wp_steps. rewrite bool_decide_false by tauto. by apply (K1 n ns').
Qed.

(** *** The validator *)

Lemma validate_loop_complete h l ys : forall fuel xs,
  ring h l (xs ++ ys) -> (length ys < fuel)%nat ->
  hr_list_validate_loop fuel h l (before l xs) (Some (after l ys)) (Z.of_nat (length xs)) = true.
Proof.
  induction ys as [|y ys IH]; intros [|fuel] xs R Hf; simpl in Hf; try lia; simpl.
  - rewrite bool_decide_true by done. rewrite app_nil_r in R.
    rewrite (ring_size _ _ _ R), Z.eqb_refl. simpl.
    rewrite (ring_back _ _ _ R), bool_decide_true by done. simpl.
    rewrite <- (app_nil_r xs) in R. destruct (ring_cut _ _ _ _ R) as [-> _]. by rewrite bool_decide_true.
  - change (after l (y :: ys)) with (PNode y).
    destruct (ring_neighbours _ _ _ _ _ R) as [-> ->].
    rewrite (ring_members _ _ _ R y) by set_solver.
    rewrite !bool_decide_false by congruence. simpl.
    pose proof (ring_size _ _ _ R) as Hs. pose proof (ring_bound _ _ _ R) as Hb.
    rewrite length_app in Hs, Hb. simpl in Hs, Hb.
    rewrite u32_small by (unfold UINT32_MAX, SIZE_MAX in *; lia).
    replace (size_at h l <? Z.of_nat (length xs) + 1) with false by (symmetry; apply Z.ltb_ge; lia).
    replace (PNode y) with (before l (xs ++ [y])); last first.
    { unfold before. rewrite fmap_app; simpl. by rewrite last_snoc. }
    replace (Z.of_nat (length xs) + 1) with (Z.of_nat (length (xs ++ [y])))
      by (rewrite length_app; simpl; lia).
    apply IH; [by rewrite <- app_assoc|lia].
Qed.

Lemma validate_complete h l ns : ring h l ns -> hr_list_validate h (Some l) = true.
Proof.
  intros R. unfold hr_list_validate. rewrite (ring_root _ _ _ R), (ring_front _ _ _ R), (ring_back _ _ _ R).
  rewrite !bool_decide_false by congruence. cbn [orb].
  apply (validate_loop_complete h l ns _ [] R). rewrite (ring_size _ _ _ R). lia.
Qed.

(** No other list head is linked into [l]. *)
Definition roots_sane (h : lmem) (l : list_addr) : Prop :=
  forall l', li h (PRoot l') = Some l -> l' = l.

(** A path that leaves the sentinel and only meets embedded nodes has no
    repetition: walking back from two equal elements reaches the sentinel. *)
Lemma path_nodup h l ns : path h (PRoot l :: (PNode <$> ns)) -> NoDup ns.
Proof.
  intros HP. apply NoDup_alt.
  assert (G : forall i j x, ns !! i = Some x -> ns !! (i + j)%nat = Some x -> j = 0%nat).
  { induction i as [|i IH]; intros j x Hi Hj; simpl in Hj.
    - destruct j as [|j]; [done|exfalso].
      assert (is_Some (ns !! j)) as [y Hy].
      { apply lookup_lt_is_Some. apply lookup_lt_Some in Hj. lia. }
      destruct (path_lookup h _ 0 (PRoot l) (PNode x) HP) as [_ E1]; simpl;
        [done|by rewrite list_lookup_fmap, Hi|].
      destruct (path_lookup h _ (S j) (PNode y) (PNode x) HP) as [_ E2]; simpl;
        [by rewrite list_lookup_fmap, Hy|by rewrite list_lookup_fmap, Hj|congruence].
    - assert (is_Some (ns !! i)) as [y Hy].
      { apply lookup_lt_is_Some. apply lookup_lt_Some in Hi. lia. }
      assert (is_Some (ns !! (i + j)%nat)) as [z Hz].
      { apply lookup_lt_is_Some. apply lookup_lt_Some in Hj. lia. }
      destruct (path_lookup h _ (S i) (PNode y) (PNode x) HP) as [_ E1]; simpl;
        [by rewrite list_lookup_fmap, Hy|by rewrite list_lookup_fmap, Hi|].
      destruct (path_lookup h _ (S (i + j)) (PNode z) (PNode x) HP) as [_ E2]; simpl;
        [by rewrite list_lookup_fmap, Hz|by rewrite list_lookup_fmap, Hj|].
      assert (y = z) as -> by congruence. by apply (IH j z). }
  intros i j x Hi Hj. destruct (Nat.le_ge_cases i j) as [Hle|Hle].
  - replace j with (i + (j - i))%nat in Hj by lia. specialize (G i (j - i)%nat x Hi Hj). lia.
  - replace i with (j + (i - j))%nat in Hi by lia. specialize (G j (i - j)%nat x Hj Hi). lia.
Qed.

Lemma validate_loop_sound h l : roots_sane h l -> size_at h l < SIZE_MAX ->
  forall fuel xs node,
  path h (PRoot l :: (PNode <$> xs)) -> nx h (before l xs) = node ->
  (forall x, x ∈ xs -> li h (PNode x) = Some l) -> Z.of_nat (length xs) <= size_at h l ->
  hr_list_validate_loop fuel h l (before l xs) node (Z.of_nat (length xs)) = true ->
  exists ns, path h (ring_path l ns) /\ Z.of_nat (length ns) = size_at h l /\
    forall x, x ∈ ns -> li h (PNode x) = Some l.
Proof.
  intros Hsane Hb. induction fuel as [|fuel IH]; intros xs node HP Hnx Hm Hlen; simpl; [done|].
  case_bool_decide as En.
  - rewrite !andb_true_iff. intros [[Hs Hp] _]. apply Z.eqb_eq in Hs. apply bool_decide_eq_true in Hp.
    exists xs. split_and!; [|done..]. rewrite <- (app_nil_r xs). apply path_cut.
    split_and!; [done| |done|done]. by rewrite Hnx.
  - destruct node as [n|]; [|done].
    destruct (bool_decide (li h n <> Some l)) eqn:E1; [done|].
    destruct (bool_decide (pv h n <> Some (before l xs))) eqn:E2; [done|].
    destruct (bool_decide (nx h n = None)) eqn:E3; [done|]. simpl.
    apply bool_decide_eq_false, dec_stable in E1, E2.
    rewrite u32_small by (unfold UINT32_MAX, SIZE_MAX in *; lia).
    destruct (Z.ltb_spec (size_at h l) (Z.of_nat (length xs) + 1)) as [|Hlt]; [done|].
    destruct n as [l'|n]; [by apply Hsane in E1; congruence|].
    intros HL. apply (IH (xs ++ [n]) (nx h (PNode n))).
    + destruct (before_snoc l xs) as [A EA]. rewrite fmap_app, app_comm_cons.
      rewrite EA in *. by apply path_split.
    + unfold before. rewrite fmap_app; simpl. by rewrite last_snoc.
    + intros x. rewrite elem_of_app, list_elem_of_singleton. intros [?| ->]; auto.
    + rewrite length_app; simpl. lia.
    + replace (before l (xs ++ [n])) with (PNode n);
        [|unfold before; rewrite fmap_app; simpl; by rewrite last_snoc].
      rewrite length_app; simpl. by replace (Z.of_nat (length xs + 1)) with (Z.of_nat (length xs) + 1) by lia.
Qed.

Lemma validate_sound h l :
  roots_sane h l -> 0 <= size_at h l < SIZE_MAX -> hr_list_validate h (Some l) = true ->
  exists ns, ring h l ns.
Proof.
  intros Hsane [Hs0 Hs]. unfold hr_list_validate.
  destruct (bool_decide (li h (PRoot l) <> Some l)) eqn:E1; [done|].
  destruct (bool_decide (nx h (PRoot l) = None)); [done|].
  destruct (bool_decide (pv h (PRoot l) = None)); [done|]. cbn [orb]. intros HL.
  apply bool_decide_eq_false, dec_stable in E1.
  apply (validate_loop_sound h l Hsane Hs _ []) in HL as (ns & HP & Hlen & Hm); [|done..|set_solver|done].
  exists ns. split; [done|done|lia|done|done|].
  apply (path_nodup h l). rewrite <- (app_nil_r ns) in HP. by apply path_cut in HP as [HP _].
Qed.

(** *** Initialisation *)

Definition inited (h : lmem) (l : list_addr) : lmem :=
  let r := Some (PRoot l) in
  upd_size l (fun _ => 0)
    (upd_node (PRoot l) (with_owner None)
      (upd_node (PRoot l) (with_list (Some l))
        (upd_node (PRoot l) (with_next r)
          (upd_node (PRoot l) (with_previous r) h)))).

Lemma init_run h l : hr_list_init (Some l) h = Some (tt, inited h l).
Proof. done. Qed.

Lemma inited_node h l n : node_at (inited h l) (PNode n) = node_at h (PNode n).
Proof. unfold inited. mem_cases. Qed.

Lemma rep_inited h V l :
  lists_rep h V -> V !! l = None \/ V !! l = Some [] -> lists_rep (inited h l) (<[l := []]> V).
Proof.
  intros Rep Hl. split.
  - intros l' ns' Hl'. destruct (decide (l = l')) as [<-|Hne]; simplify_map_eq.
    + unfold inited. split; simpl; [mem_cases|mem_cases|done| |set_solver|constructor].
      split_and!; [mem_cases|mem_cases|done].
    + apply (ring_frame h); [| |by apply (rep_ring _ _ Rep)]; unfold inited.
      * intros p Hp. destruct p as [l''|n]; [|apply inited_node].
        destruct Hp as [Hp|Hp]; [|set_solver]. injection Hp as ->. mem_cases.
      * mem_cases.
  - intros n l' Hn. rewrite inited_node in Hn.
    destruct (rep_linked _ _ Rep _ _ Hn) as (ns & Hns & Hin).
    destruct (decide (l = l')) as [<-|Hne].
    + destruct Hl; simplify_eq; set_solver.
    + exists ns. by rewrite lookup_insert_ne.
Qed.

Definition node_inited (h : lmem) (n : node_addr) (o : option obj_ptr) : lmem :=
  upd_node (PNode n) (with_owner o)
    (upd_node (PNode n) (with_list None)
      (upd_node (PNode n) (with_next None)
        (upd_node (PNode n) (with_previous None) h))).

Lemma node_init_run h n o :
  hr_list_node_init (Some (PNode n)) o h = Some (tt, node_inited h n o).
Proof. done. Qed.

Lemma node_inited_at h n o p :
  node_at (node_inited h n o) p =
  if decide (p = PNode n) then mk_hr_list_node None None None o else node_at h p.
Proof. unfold node_inited. mem_cases. Qed.

Lemma rep_node_inited h V n o :
  lists_rep h V -> li h (PNode n) = None -> lists_rep (node_inited h n o) V.
Proof.
  intros Rep U. split.
  - intros l ns Hl. apply (ring_frame h); [| |by apply (rep_ring _ _ Rep)].
    + intros p Hp. rewrite node_inited_at, decide_False; [done|]. intros ->.
      destruct Hp as [|Hp]; [done|]. assert (Hn : n ∈ ns) by set_solver.
      apply (rep_member_iff h V Rep n l ns Hl) in Hn. congruence.
    + unfold node_inited. mem_cases.
  - intros m l Hm. rewrite node_inited_at in Hm. case_decide; [done|].
    by apply (rep_linked _ _ Rep).
Qed.

Definition empty_lmem : lmem := mk_lmem ∅ ∅.
Lemma rep_empty : lists_rep empty_lmem ∅.
Proof.
  split; [by intros l ns; rewrite lookup_empty|].
  intros n l. unfold node_at; simpl. by rewrite lookup_total_empty.
Qed.

(** ** The contents of a list, read off with the list's own iteration *)
Fixpoint walk (fuel : nat) (h : lmem) (l : list_addr) (cur : option nptr) : list node_addr :=
  match fuel, cur with
  | S fuel, Some (PNode n) => n :: walk fuel h l (hr_list_next h (Some l) cur)
  | _, _ => []
  end.
Definition contents (h : lmem) (l : list_addr) : list node_addr :=
  walk (Z.to_nat (size_at h l)) h l (hr_list_front h (Some l)).

Lemma ring_contents h l ns : ring h l ns -> contents h l = ns.
Proof.
  intros R. unfold contents. rewrite (hr_list_front_spec _ _ _ R), (ring_size _ _ _ R), Nat2Z.id.
  enough (G : forall ys xs, ns = xs ++ ys -> walk (length ys) h l (head (PNode <$> ys)) = ys) by (by apply (G ns [])).
  induction ys as [|y ys IH]; intros xs E; [done|]. cbn [length fmap list_fmap head walk].
  change (head (PNode <$> (y :: ys))) with (Some (PNode y)). cbn [walk].
  rewrite (hr_list_next_spec h l ns R y xs ys E). f_equal. apply (IH (xs ++ [y])). by rewrite <- app_assoc.
Qed.

Lemma rep_contents h V l ns : lists_rep h V -> V !! l = Some ns -> ns = contents h l.
Proof. intros Rep Hl. by rewrite (ring_contents h l ns (rep_ring _ _ Rep _ _ Hl)). Qed.
