(* ===== verification/Store.v ===== *)
(** The memory of the kernel's data structures.

    [hr_ready_node_t], [hr_wait_node_t] and [hr_timeout_node_t] start with
    their [hr_list_node_t], so a pointer to one of them is the address of the
    embedded node and [HR_CONTAINER_OF] is the identity on addresses; the
    remaining field of each struct ([priority] or [wake_tick]) is kept in a map
    indexed by that address.  Ready sets and timeout lists are named by the
    address of the [hr_ready_set_t] / [hr_timeout_list_t] object; their list
    heads are [ReadyQueue s p] and [TimeoutHalf l b]. *)
From S2P Require Import Prelude Types HrList.
From stdpp Require Import gmap list.
From Stdlib Require Import ZArith.
Open Scope Z_scope.

(** [hr_ready_set_t] without its list heads. *)
Record hr_ready_set : Type := mk_hr_ready_set {
  bitmap : Z;
  ready_count : Z;
}.

(** [hr_timeout_list_t] without its list heads. *)
Record hr_timeout_list : Type := mk_hr_timeout_list {
  current : option list_addr;
  overflow : option list_addr;
  last_tick : Z;
  timeout_count : Z;
}.

#[export] Instance hr_ready_set_inhabited : Inhabited hr_ready_set := populate (mk_hr_ready_set 0 0).
#[export] Instance hr_timeout_list_inhabited : Inhabited hr_timeout_list :=
  populate (mk_hr_timeout_list None None 0 0).

Record store : Type := mk_store {
  st_lists : lmem;
  st_priority : gmap node_addr Z;
  st_wake : gmap node_addr Z;
  st_ready : gmap N hr_ready_set;
  st_timeout : gmap N hr_timeout_list;
}.

Definition empty_store : store := mk_store (mk_lmem ∅ ∅) ∅ ∅ ∅ ∅.

Definition set_lists h s := mk_store h (st_priority s) (st_wake s) (st_ready s) (st_timeout s).
#[export] Instance lists_part : Part lmem store := {| part_get := st_lists; part_set := set_lists |}.

Definition priority_at (s : store) (n : node_addr) : Z := st_priority s !!! n.
Definition wake_at (s : store) (n : node_addr) : Z := st_wake s !!! n.
Definition ready_at (s : store) (a : N) : hr_ready_set := st_ready s !!! a.
Definition timeout_at (s : store) (a : N) : hr_timeout_list := st_timeout s !!! a.

Definition set_priority (n : node_addr) (p : Z) (s : store) : store :=
  mk_store (st_lists s) (<[n := p]> (st_priority s)) (st_wake s) (st_ready s) (st_timeout s).
Definition set_wake (n : node_addr) (w : Z) (s : store) : store :=
  mk_store (st_lists s) (st_priority s) (<[n := w]> (st_wake s)) (st_ready s) (st_timeout s).
Definition set_ready (a : N) (r : hr_ready_set) (s : store) : store :=
  mk_store (st_lists s) (st_priority s) (st_wake s) (<[a := r]> (st_ready s)) (st_timeout s).
Definition set_timeout (a : N) (t : hr_timeout_list) (s : store) : store :=
  mk_store (st_lists s) (st_priority s) (st_wake s) (st_ready s) (<[a := t]> (st_timeout s)).

Definition set_bitmap (a : N) (b : Z) (s : store) : store :=
  set_ready a (mk_hr_ready_set b (ready_count (ready_at s a))) s.
Definition set_ready_count (a : N) (c : Z) (s : store) : store :=
  set_ready a (mk_hr_ready_set (bitmap (ready_at s a)) c) s.

(** [HR_CONTAINER_OF]: a sentinel is not embedded in a larger node. *)
Definition container_of (p : nptr) : option node_addr :=
  match p with PNode n => Some n | PRoot _ => None end.

Lemma priority_at_set_priority s n p m :
  priority_at (set_priority n p s) m = if decide (n = m) then p else priority_at s m.
Proof.
  unfold priority_at, set_priority; simpl. case_decide as E;
    [subst; by rewrite lookup_total_insert_eq|by rewrite lookup_total_insert_ne].
Qed.
Lemma wake_at_set_wake s n p m :
  wake_at (set_wake n p s) m = if decide (n = m) then p else wake_at s m.
Proof.
  unfold wake_at, set_wake; simpl. case_decide as E;
    [subst; by rewrite lookup_total_insert_eq|by rewrite lookup_total_insert_ne].
Qed.
Lemma ready_at_set_ready s a r b :
  ready_at (set_ready a r s) b = if decide (a = b) then r else ready_at s b.
Proof.
  unfold ready_at, set_ready; simpl. case_decide as E;
    [subst; by rewrite lookup_total_insert_eq|by rewrite lookup_total_insert_ne].
Qed.
Lemma timeout_at_set_timeout s a r b :
  timeout_at (set_timeout a r s) b = if decide (a = b) then r else timeout_at s b.
Proof.
  unfold timeout_at, set_timeout; simpl. case_decide as E;
    [subst; by rewrite lookup_total_insert_eq|by rewrite lookup_total_insert_ne].
Qed.

(** The components of the store are independent. *)
Lemma st_lists_set_lists h s : st_lists (set_lists h s) = h. Proof. done. Qed.
Lemma priority_at_set_lists h s n : priority_at (set_lists h s) n = priority_at s n. Proof. done. Qed.
Lemma wake_at_set_lists h s n : wake_at (set_lists h s) n = wake_at s n. Proof. done. Qed.
Lemma ready_at_set_lists h s a : ready_at (set_lists h s) a = ready_at s a. Proof. done. Qed.
Lemma timeout_at_set_lists h s a : timeout_at (set_lists h s) a = timeout_at s a. Proof. done. Qed.
