(* ===== verification/Scheduler.v ===== *)
(** The ready set and the fixed-priority policy: [kernel/src/hr_scheduler.c]. *)
From S2P Require Import Prelude Types HrList Store.
From stdpp Require Import gmap list.
From Stdlib Require Import ZArith Lia.
Open Scope Z_scope.

Definition hr_priority_is_valid (priority : Z) : bool := priority <? HR_CFG_PRIORITY_COUNT.

Definition hr_priority_mask (priority : Z) : Z := u32 (Z.shiftl 1 priority).

(** The [for] loop from [priority]; [n] is the number of levels left. *)
Fixpoint highest_priority_loop (n : nat) (bits priority : Z) : Z :=
  match n with
  | O => HR_CFG_PRIORITY_COUNT
  | S n' =>
      if negb (Z.land bits (hr_priority_mask priority) =? 0) then priority
      else highest_priority_loop n' bits (priority + 1)
  end.

Definition hr_ready_set_highest_priority (s : store) (set : N) : Z :=
  highest_priority_loop (Z.to_nat HR_CFG_PRIORITY_COUNT) (bitmap (ready_at s set)) 0.

Definition hr_ready_node_init (node : option node_addr) (own : option obj_ptr) (priority : Z)
  : M store unit :=
  match node with
  | None => retM tt
  | Some n =>
      lift (hr_list_node_init (Some (PNode n)) own) ;;;
      modifyM (set_priority n priority)
  end.

Fixpoint ready_set_init_loop (n : nat) (set : N) (index : Z) : M store unit :=
  match n with
  | O => retM tt
  | S n' =>
      lift (hr_list_init (Some (ReadyQueue set index))) ;;;
      ready_set_init_loop n' set (index + 1)
  end.

Definition hr_ready_set_init (set : option N) : M store unit :=
  match set with
  | None => retM tt
  | Some a =>
      ready_set_init_loop (Z.to_nat HR_CFG_PRIORITY_COUNT) a 0 ;;;
      modifyM (set_bitmap a 0) ;;;
      modifyM (set_ready_count a 0)
  end.

Definition hr_ready_set_is_empty (s : store) (set : option N) : bool :=
  match set with None => true | Some a => ready_count (ready_at s a) =? 0 end.

Definition hr_ready_set_size (s : store) (set : option N) : Z :=
  match set with None => 0 | Some a => ready_count (ready_at s a) end.

Definition hr_ready_set_bitmap (s : store) (set : option N) : Z :=
  match set with None => 0 | Some a => bitmap (ready_at s a) end.

Definition hr_ready_set_insert (set : option N) (node : option node_addr) : M store hr_status :=
  match set, node with
  | Some a, Some n =>
      let* s := getM in
      let priority := priority_at s n in
      if negb (hr_priority_is_valid priority) then retM HR_ERROR_INVALID_ARGUMENT
      else
        let queue := ReadyQueue a priority in
        let* status := lift (hr_list_push_back (Some queue) (Some (PNode n))) in
        if bool_decide (status <> HR_OK) then retM status
        else
          modifyM (fun s => set_bitmap a
            (Z.lor (bitmap (ready_at s a)) (hr_priority_mask (priority_at s n))) s) ;;;
          modifyM (fun s => set_ready_count a (u32 (ready_count (ready_at s a) + 1)) s) ;;;
          retM HR_OK
  | _, _ => retM HR_ERROR_INVALID_ARGUMENT
  end.

Definition hr_ready_set_remove (set : option N) (node : option node_addr) : M store hr_status :=
  match set, node with
  | Some a, Some n =>
      let* s := getM in
      let priority := priority_at s n in
      if negb (hr_priority_is_valid priority) then retM HR_ERROR_INVALID_ARGUMENT
      else
        let queue := ReadyQueue a priority in
        if bool_decide (list_of (node_at (st_lists s) (PNode n)) <> Some queue)
        then retM HR_ERROR_INVALID_STATE
        else
          let* status := lift (hr_list_remove (Some (PNode n))) in
          if bool_decide (status <> HR_OK) then retM status
          else
            modifyM (fun s => set_ready_count a (u32 (ready_count (ready_at s a) - 1)) s) ;;;
            (let* s := getM in
             if hr_list_is_empty (st_lists s) (Some queue) then
               modifyM (set_bitmap a
                 (Z.land (bitmap (ready_at s a)) (u32 (Z.lnot (hr_priority_mask (priority_at s n))))))
             else retM tt) ;;;
            retM HR_OK
  | _, _ => retM HR_ERROR_INVALID_ARGUMENT
  end.

Definition hr_ready_set_peek_highest (s : store) (set : option N) : option node_addr :=
  match set with
  | None => None
  | Some a =>
      if ready_count (ready_at s a) =? 0 then None
      else
        let priority := hr_ready_set_highest_priority s a in
        if negb (hr_priority_is_valid priority) then None
        else hr_list_front (st_lists s) (Some (ReadyQueue a priority)) ≫= container_of
  end.

Definition hr_ready_set_rotate_highest (set : option N) : M store hr_status :=
  match set with
  | None => retM HR_ERROR_INVALID_ARGUMENT
  | Some a =>
      let* s := getM in
      if ready_count (ready_at s a) =? 0 then retM HR_ERROR_INVALID_STATE
      else
        let priority := hr_ready_set_highest_priority s a in
        if negb (hr_priority_is_valid priority) then retM HR_ERROR_INTERNAL
        else
          let queue := Some (ReadyQueue a priority) in
          if hr_list_size (st_lists s) queue <? 2 then retM HR_OK
          else
            let* node := lift (hr_list_pop_front queue) in
            if bool_decide (node = None) then retM HR_ERROR_INTERNAL
            else lift (hr_list_push_back queue node)
  end.

Fixpoint ready_set_validate_loop (n : nat) (s : store) (set : N) (index total expected : Z) : bool :=
  match n with
  | O => (total =? ready_count (ready_at s set)) && (expected =? bitmap (ready_at s set))
  | S n' =>
      let queue := Some (ReadyQueue set index) in
      if negb (hr_list_validate (st_lists s) queue) then false
      else
        ready_set_validate_loop n' s set (index + 1)
          (u32 (total + hr_list_size (st_lists s) queue))
          (if negb (hr_list_is_empty (st_lists s) queue)
           then Z.lor expected (u32 (Z.shiftl 1 index)) else expected)
  end.

Definition hr_ready_set_validate (s : store) (set : option N) : bool :=
  match set with
  | None => false
  | Some a => ready_set_validate_loop (Z.to_nat HR_CFG_PRIORITY_COUNT) s a 0 0 0
  end.

(** An [hr_scheduler_t] is its [ready] member. *)
Definition hr_scheduler_init (scheduler : option N) : M store unit :=
  match scheduler with None => retM tt | Some _ => hr_ready_set_init scheduler end.

Definition hr_scheduler_add_ready (scheduler : option N) (node : option node_addr)
  : M store hr_status :=
  match scheduler with
  | None => retM HR_ERROR_INVALID_ARGUMENT
  | Some _ => hr_ready_set_insert scheduler node
  end.

Definition hr_scheduler_remove_ready (scheduler : option N) (node : option node_addr)
  : M store hr_status :=
  match scheduler with
  | None => retM HR_ERROR_INVALID_ARGUMENT
  | Some _ => hr_ready_set_remove scheduler node
  end.

Definition hr_scheduler_select_highest (s : store) (scheduler : option N) : option node_addr :=
  match scheduler with None => None | Some _ => hr_ready_set_peek_highest s scheduler end.

Definition hr_scheduler_yield_current (scheduler : option N) (cur : option node_addr)
  : M store hr_status :=
  match scheduler, cur with
  | Some _, Some _ =>
      let* s := getM in
      if bool_decide (hr_scheduler_select_highest s scheduler <> cur)
      then retM HR_ERROR_INVALID_STATE
      else hr_ready_set_rotate_highest scheduler
  | _, _ => retM HR_ERROR_INVALID_ARGUMENT
  end.

Definition hr_scheduler_should_preempt (s : store) (scheduler : option N) (cur : option node_addr)
  : bool :=
  match scheduler, cur with
  | Some _, Some c =>
      if negb (hr_priority_is_valid (priority_at s c)) then false
      else
        match hr_scheduler_select_highest s scheduler with
        | None => false
        | Some selected => priority_at s selected <? priority_at s c
        end
  | _, _ => false
  end.

Definition hr_scheduler_has_equal_priority_peer (s : store) (scheduler : option N)
    (cur : option node_addr) : bool :=
  match scheduler, cur with
  | Some a, Some c =>
      if negb (hr_priority_is_valid (priority_at s c)) then false
      else
        let queue := ReadyQueue a (priority_at s c) in
        bool_decide (list_of (node_at (st_lists s) (PNode c)) = Some queue)
        && (1 <? hr_list_size (st_lists s) (Some queue))
  | _, _ => false
  end.

Definition hr_scheduler_ready_count (s : store) (scheduler : option N) : Z :=
  match scheduler with None => 0 | Some _ => hr_ready_set_size s scheduler end.

Definition hr_scheduler_ready_bitmap (s : store) (scheduler : option N) : Z :=
  match scheduler with None => 0 | Some _ => hr_ready_set_bitmap s scheduler end.

Definition hr_scheduler_validate (s : store) (scheduler : option N) : bool :=
  match scheduler with None => false | Some _ => hr_ready_set_validate s scheduler end.
