(* ===== verification/SchedulerSpec.v ===== *)
(** Correctness of the ready set and of the fixed-priority policy
    ([kernel/src/hr_scheduler.c]): the set represents a sequence of nodes
    ordered by priority, first come first served inside a level; selection
    returns its head, and the bitmap and the counter never disagree with the
    queues. *)
From S2P Require Import Prelude Types HrList HrListSpec Store Scheduler.
From stdpp Require Import gmap list.
From Stdlib Require Import ZArith Lia.
Open Scope Z_scope.
Set Warnings "-clear-no-such-hyp".

Abbreviation view := (gmap list_addr (list node_addr)).

(** ** The abstract ready sequence *)

Definition levels : list Z := [0; 1; 2; 3; 4; 5; 6; 7].

Definition queue (V : view) (a : N) (p : Z) : list node_addr := default [] (V !! ReadyQueue a p).

(** The queues [f q] of the levels [ls], one after the other. *)
Fixpoint joined {K A} (f : K -> list A) (ls : list K) : list A :=
  match ls with [] => [] | q :: ls' => f q ++ joined f ls' end.

Definition ready_seq (V : view) (a : N) : list node_addr := joined (queue V a) levels.

(** The ready set at [a] in store [s] represents the queues of [V]. *)
Record ready_rep (s : store) (V : view) (a : N) : Prop := {
  rr_queue : forall p, 0 <= p < HR_CFG_PRIORITY_COUNT -> V !! ReadyQueue a p = Some (queue V a p);
  rr_priority : forall p n, 0 <= p < HR_CFG_PRIORITY_COUNT -> n ∈ queue V a p -> priority_at s n = p;
  rr_bitmap : forall p, 0 <= p -> Z.testbit (bitmap (ready_at s a)) p =
                bool_decide (p < HR_CFG_PRIORITY_COUNT /\ queue V a p <> []);
  rr_count : ready_count (ready_at s a) = Z.of_nat (length (ready_seq V a));
  rr_small : Z.of_nat (length (ready_seq V a)) <= SIZE_MAX;
}.

Lemma levels_iff p : p ∈ levels <-> 0 <= p < HR_CFG_PRIORITY_COUNT.
Proof. unfold levels, HR_CFG_PRIORITY_COUNT. rewrite !elem_of_cons, elem_of_nil. lia. Qed.

Lemma levels_nodup : NoDup levels.
Proof. apply (bool_decide_unpack _). vm_compute. exact I. Qed.

(** *** Sequences of queues *)

Section joined.
Context {K A : Type} `{EqDecision K} (f g : K -> list A) (p : K).
Hypothesis same : forall q, q <> p -> g q = f q.

Lemma joined_ext ls : p ∉ ls -> joined g ls = joined f ls.
Proof.
  induction ls as [|q ls IH]; intros Hp; simpl; [done|].
  rewrite IH by set_solver. rewrite same; [done|set_solver].
Qed.

Lemma joined_length_update ls : NoDup ls -> p ∈ ls ->
  (length (joined g ls) + length (f p) = length (joined f ls) + length (g p))%nat.
Proof.
  induction ls as [|q ls IH]; intros ND Hp; [set_solver|].
  apply NoDup_cons in ND as [Hq ND]. simpl. rewrite !length_app.
  destruct (decide (q = p)) as [->|Hne].
  - rewrite (joined_ext ls Hq). lia.
  - rewrite (same q Hne). assert (p ∈ ls) by set_solver. specialize (IH ND H). lia.
Qed.
End joined.

Lemma joined_elem_of {K A} (f : K -> list A) ls x : x ∈ joined f ls <-> exists p, p ∈ ls /\ x ∈ f p.
Proof.
  induction ls as [|q ls IH]; simpl; [set_solver|].
  rewrite elem_of_app, IH. set_solver.
Qed.

Lemma joined_app {K A} (f : K -> list A) l1 l2 : joined f (l1 ++ l2) = joined f l1 ++ joined f l2.
Proof. induction l1 as [|q l1 IH]; simpl; [done|]. by rewrite IH, app_assoc. Qed.

(** The head of the joined queues is the head of the first nonempty one. *)
Lemma joined_head {K A} (f : K -> list A) ls x :
  head (joined f ls) = Some x <->
  exists us p vs, ls = us ++ p :: vs /\ (forall q, q ∈ us -> f q = []) /\ head (f p) = Some x.
Proof.
  induction ls as [|q ls IH]; simpl.
  - split; [done|]. intros ([] & ? & ? & ? & _); done.
  - destruct (f q) as [|y ys] eqn:E; simpl.
    + rewrite IH. split.
      * intros (us & p & vs & -> & Hus & Hp). exists (q :: us), p, vs.
        split_and!; [done| |done]. intros r; rewrite elem_of_cons. intros [->|]; auto.
      * intros ([|u us] & p & vs & Heq & Hus & Hp); simplify_eq/=; [by rewrite E in Hp|].
        exists us, p, vs. split_and!; [done| |done]. intros r Hr. apply Hus. set_solver.
    + split.
      * intros [= ->]. exists [], q, ls. split_and!; [done|set_solver|by rewrite E].
      * intros ([|u us] & p & vs & Heq & Hus & Hp); simplify_eq/=; [by rewrite E in Hp|].
        specialize (Hus u ltac:(set_solver)). congruence.
Qed.

Lemma queue_insert V a p ns q :
  queue (<[ReadyQueue a p := ns]> V) a q = if decide (q = p) then ns else queue V a q.
Proof.
  unfold queue. case_decide as E; [subst; by rewrite lookup_insert_eq|].
  rewrite lookup_insert_ne; [done|congruence].
Qed.

Lemma queue_insert_other V a l ns q :
  (forall p, l <> ReadyQueue a p) -> queue (<[l := ns]> V) a q = queue V a q.
Proof. intros H. unfold queue. by rewrite lookup_insert_ne. Qed.

Lemma ready_seq_length_insert V a p ns :
  0 <= p < HR_CFG_PRIORITY_COUNT ->
  (length (ready_seq (<[ReadyQueue a p := ns]> V) a) + length (queue V a p)
   = length (ready_seq V a) + length ns)%nat.
Proof.
  intros Hp. unfold ready_seq.
  rewrite (joined_length_update (queue V a) (queue (<[ReadyQueue a p := ns]> V) a) p).
  - rewrite queue_insert. by rewrite decide_True.
  - intros q Hq. rewrite queue_insert. by rewrite decide_False.
  - apply levels_nodup.
  - by apply levels_iff.
Qed.

Lemma ready_seq_elem V a n :
  n ∈ ready_seq V a <-> exists p, 0 <= p < HR_CFG_PRIORITY_COUNT /\ n ∈ queue V a p.
Proof. unfold ready_seq. rewrite joined_elem_of. by setoid_rewrite levels_iff. Qed.

Lemma ready_seq_level V a p : 0 <= p < HR_CFG_PRIORITY_COUNT ->
  (length (queue V a p) <= length (ready_seq V a))%nat.
Proof.
  intros Hp. apply (submseteq_length (queue V a p)). unfold ready_seq.
  apply levels_iff, list_elem_of_split in Hp as (l1 & l2 & ->).
  rewrite joined_app. simpl. apply submseteq_inserts_l, submseteq_inserts_r. done.
Qed.

(** *** Bitmap arithmetic *)

Lemma mask_small p : 0 <= p < HR_CFG_PRIORITY_COUNT -> hr_priority_mask p = Z.shiftl 1 p.
Proof.
  intros Hp. unfold hr_priority_mask. rewrite Z.shiftl_1_l. apply u32_small. split; [lia|].
  unfold UINT32_MAX, HR_CFG_PRIORITY_COUNT in *.
  assert (2 ^ p <= 2 ^ 7) by (apply Z.pow_le_mono_r; lia). lia.
Qed.

Lemma mask_testbit p q : 0 <= p < HR_CFG_PRIORITY_COUNT -> 0 <= q ->
  Z.testbit (hr_priority_mask p) q = bool_decide (q = p).
Proof.
  intros Hp Hq. rewrite mask_small by done. rewrite Z.shiftl_1_l.
  case_bool_decide as E; [subst; by apply Z.pow2_bits_true|apply Z.pow2_bits_false; lia].
Qed.

Lemma mask_test bits p : 0 <= p < HR_CFG_PRIORITY_COUNT ->
  (Z.land bits (hr_priority_mask p) =? 0) = negb (Z.testbit bits p).
Proof.
  intros Hp. rewrite mask_small by done. rewrite Z.shiftl_1_l.
  destruct (Z.testbit bits p) eqn:E; simpl.
  - apply Z.eqb_neq. intros H. assert (E' : Z.testbit (Z.land bits (2 ^ p)) p = true).
    { rewrite Z.land_spec, E, Z.pow2_bits_true by lia. done. }
    rewrite H, Z.bits_0 in E'. done.
  - apply Z.eqb_eq. apply Z.bits_inj'. intros n Hn. rewrite Z.land_spec, Z.bits_0.
    destruct (decide (n = p)) as [->|]; [by rewrite E|].
    rewrite Z.pow2_bits_false by lia. by rewrite andb_false_r.
Qed.

Lemma clear_mask_testbit bits p q : 0 <= p < HR_CFG_PRIORITY_COUNT -> 0 <= q < 32 ->
  Z.testbit (Z.land bits (u32 (Z.lnot (hr_priority_mask p)))) q
  = Z.testbit bits q && negb (bool_decide (q = p)).
Proof.
  intros Hp Hq. rewrite Z.land_spec. unfold u32, wrap.
  rewrite Z.mod_pow2_bits_low by lia. rewrite Z.lnot_spec, mask_testbit by lia. done.
Qed.

Lemma clear_mask_high bits p q : 32 <= q ->
  Z.testbit (Z.land bits (u32 (Z.lnot (hr_priority_mask p)))) q = false.
Proof.
  intros Hq. rewrite Z.land_spec. unfold u32, wrap.
  rewrite (Z.mod_pow2_bits_high _ 32) by lia. apply andb_false_r.
Qed.

Lemma highest_priority_loop_spec bits n : forall p,
  0 <= p -> p + Z.of_nat n = HR_CFG_PRIORITY_COUNT ->
  let r := highest_priority_loop n bits p in
  p <= r <= HR_CFG_PRIORITY_COUNT /\
  (forall q, p <= q < r -> Z.testbit bits q = false) /\
  (r < HR_CFG_PRIORITY_COUNT -> Z.testbit bits r = true).
Proof.
  induction n as [|n IH]; intros p Hp Hn; simpl.
  - split_and!; [lia..|intros; lia|intros; lia].
  - rewrite mask_test by lia. rewrite negb_involutive.
    destruct (Z.testbit bits p) eqn:E; simpl.
    + split_and!; [lia|lia|intros; lia|done].
    + destruct (IH (p + 1)) as (H1 & H2 & H3); [lia..|].
      split_and!; [lia|lia| |done]. intros q Hq.
      destruct (decide (q = p)) as [->|]; [done|apply H2; lia].
Qed.

(** ** Operations *)

(** What an operation on the ready set [a] that links or unlinks [n] keeps. *)
Record ready_frame (s s' : store) (a : N) (n : node_addr) (v : option list_addr) : Prop := {
  rf_link : link_frame (st_lists s) (st_lists s') n v;
  rf_priority : st_priority s' = st_priority s;
  rf_wake : st_wake s' = st_wake s;
  rf_timeout : st_timeout s' = st_timeout s;
  rf_other : forall b, b <> a -> ready_at s' b = ready_at s b;
}.

Lemma priority_valid p : 0 <= p < HR_CFG_PRIORITY_COUNT -> hr_priority_is_valid p = true.
Proof. intros. apply Z.ltb_lt. lia. Qed.

(** Replacing a queue keeps the representation when the bitmap and the counter follow. *)
Lemma ready_rep_update s s' V a p ns :
  ready_rep s V a -> 0 <= p < HR_CFG_PRIORITY_COUNT ->
  st_priority s' = st_priority s ->
  (forall n, n ∈ ns -> priority_at s n = p) ->
  (forall q, 0 <= q -> Z.testbit (bitmap (ready_at s' a)) q =
     if decide (q = p) then bool_decide (ns <> []) else Z.testbit (bitmap (ready_at s a)) q) ->
  ready_count (ready_at s' a) = ready_count (ready_at s a) - Z.of_nat (length (queue V a p))
                                + Z.of_nat (length ns) ->
  Z.of_nat (length (ready_seq V a)) - Z.of_nat (length (queue V a p)) + Z.of_nat (length ns) <= SIZE_MAX ->
  ready_rep s' (<[ReadyQueue a p := ns]> V) a.
Proof.
  intros [R1 R2 R3 R4 R5] Hp Ep Hns Hb Hc Hsm.
  pose proof (ready_seq_length_insert V a p ns Hp) as HL. split.
  - intros q Hq. rewrite queue_insert. case_decide as E; [subst; by rewrite lookup_insert_eq|].
    rewrite lookup_insert_ne by congruence. auto.
  - intros q n Hq. rewrite queue_insert. unfold priority_at. rewrite Ep. case_decide; subst; eauto.
  - intros q Hq. rewrite Hb, queue_insert by done. case_decide as E; [subst|auto].
    apply bool_decide_ext. tauto.
  - lia.
  - lia.
Qed.

Lemma ready_set_insert_spec s V a n Q :
  let p := priority_at s n in
  lists_rep (st_lists s) V -> ready_rep s V a -> 0 <= p < HR_CFG_PRIORITY_COUNT ->
  li (st_lists s) (PNode n) = None -> Z.of_nat (length (ready_seq V a)) < SIZE_MAX ->
  (forall s', lists_rep (st_lists s') (<[ReadyQueue a p := queue V a p ++ [n]]> V) ->
     ready_rep s' (<[ReadyQueue a p := queue V a p ++ [n]]> V) a ->
     ready_frame s s' a n (Some (ReadyQueue a p)) -> Q HR_OK s') ->
  wp (hr_ready_set_insert (Some a) (Some n)) Q s.
Proof.
  intros p Rep RR Hp U Hsm K. unfold hr_ready_set_insert. wp_step. wp_step.
  fold p. rewrite priority_valid by done. cbn [negb]. wp_step. wp_step.
  apply (hr_list_push_back_spec (st_lists s) V (ReadyQueue a p) n Rep (queue V a p));
    [by apply (rr_queue _ _ _ RR)|done| |].
  { pose proof (ready_seq_level V a p Hp). lia. }
  intros h' Rep' F. cbn [bool_decide]. rewrite bool_decide_false by tauto. wp_steps.
  change (priority_at (set_lists h' s) n) with p.
  apply K; [done| |].
  - apply (ready_rep_update s); [done..| | | |].
    + intros x. rewrite elem_of_app, list_elem_of_singleton. intros [Hx| ->]; [|done].
      by apply (rr_priority _ _ _ RR p).
    + intros q Hq. unfold set_ready_count, set_bitmap. rewrite !ready_at_set_ready, !decide_True by done.
      cbn [bitmap ready_count]. rewrite Z.lor_spec, mask_testbit by done. rewrite !ready_at_set_lists.
      case_decide as E; case_bool_decide; try done; [|by rewrite orb_false_r].
      rewrite orb_true_r. symmetry. apply bool_decide_true. by destruct (queue V a p).
    + unfold set_ready_count, set_bitmap. rewrite !ready_at_set_ready, !decide_True by done.
      cbn [bitmap ready_count]. rewrite !ready_at_set_lists.
      rewrite length_app. simpl. rewrite (rr_count _ _ _ RR), u32_small; unfold UINT32_MAX, SIZE_MAX in *; lia.
    + rewrite length_app; simpl. lia.
  - split; try done. intros b Hb. unfold set_ready_count, set_bitmap.
    by rewrite !ready_at_set_ready, !decide_False.
Qed.

Lemma ready_set_remove_spec s V a n xs ys Q :
  let p := priority_at s n in
  lists_rep (st_lists s) V -> ready_rep s V a -> 0 <= p < HR_CFG_PRIORITY_COUNT ->
  queue V a p = xs ++ n :: ys ->
  (forall s', lists_rep (st_lists s') (<[ReadyQueue a p := xs ++ ys]> V) ->
     ready_rep s' (<[ReadyQueue a p := xs ++ ys]> V) a ->
     ready_frame s s' a n None -> Q HR_OK s') ->
  wp (hr_ready_set_remove (Some a) (Some n)) Q s.
Proof.
  intros p Rep RR Hp Hq K. unfold hr_ready_set_remove. wp_step. wp_step.
  fold p. rewrite priority_valid by done. cbn [negb].
  pose proof (rr_queue _ _ _ RR p Hp) as Hl.
  assert (Hin : li (st_lists s) (PNode n) = Some (ReadyQueue a p)).
  { apply (rep_member_iff _ _ Rep _ _ _ Hl). rewrite Hq. set_solver. }
  rewrite Hin. rewrite bool_decide_false by tauto. wp_step. wp_step.
  rewrite Hq in Hl.
  apply (hr_list_remove_spec (st_lists s) V (ReadyQueue a p) n Rep xs ys); [done|].
  intros h' Rep' F. rewrite bool_decide_false by tauto. wp_step. wp_step. wp_step. wp_step. wp_step.
  assert (R' : ring h' (ReadyQueue a p) (xs ++ ys)).
  { apply (rep_ring _ _ Rep'). by rewrite lookup_insert_eq. }
  pose proof (ready_seq_level V a p Hp) as Hlev. rewrite Hq, length_app in Hlev. simpl in Hlev.
  pose proof (rr_small _ _ _ RR) as Hsm. pose proof (rr_count _ _ _ RR) as Hc.
  set (s1 := set_ready_count _ _ _).
  assert (Hc1 : ready_count (ready_at s1 a) = ready_count (ready_at s a) - 1).
  { unfold s1, set_ready_count. rewrite ready_at_set_ready, decide_True by done. simpl.
    rewrite !ready_at_set_lists.
    apply u32_small. unfold UINT32_MAX, SIZE_MAX in *. lia. }
  assert (Hb1 : bitmap (ready_at s1 a) = bitmap (ready_at s a)).
  { unfold s1, set_ready_count. by rewrite ready_at_set_ready, decide_True by done. }
  change (st_lists s1) with h'. rewrite (hr_list_is_empty_spec _ _ _ R').
  assert (Hfin : forall s', st_lists s' = h' -> st_priority s' = st_priority s ->
     ready_count (ready_at s' a) = ready_count (ready_at s a) - 1 ->
     (forall q, 0 <= q -> Z.testbit (bitmap (ready_at s' a)) q =
        if decide (q = p) then bool_decide (xs ++ ys <> []) else Z.testbit (bitmap (ready_at s a)) q) ->
     ready_rep s' (<[ReadyQueue a p := xs ++ ys]> V) a).
  { intros s' E1 E2 E3 E4. apply (ready_rep_update s); [done..| |done| |].
    - intros x Hx. apply (rr_priority _ _ _ RR p); [done|]. rewrite Hq. set_solver.
    - rewrite E3, Hq, !length_app; simpl. lia.
    - rewrite Hq, !length_app; simpl. lia. }
  destruct (decide (xs ++ ys = [])) as [Ee|Ee];
    [rewrite (bool_decide_true (xs ++ ys = [])) by done|rewrite (bool_decide_false (xs ++ ys = [])) by done];
    wp_steps; (apply K; [done| |]).
  - apply Hfin; [done..| |].
    + unfold set_bitmap. rewrite ready_at_set_ready, decide_True by done. simpl. done.
    + intros q Hq'. unfold set_bitmap. rewrite ready_at_set_ready, decide_True by done. simpl.
      change (priority_at s1 n) with p. rewrite Hb1.
      rewrite (bool_decide_false (xs ++ ys <> [])) by tauto.
      destruct (Z_lt_le_dec q 32) as [H32|H32].
      * rewrite clear_mask_testbit by lia. case_decide;
          [rewrite bool_decide_true by done; apply andb_false_r
          |rewrite bool_decide_false by done; apply andb_true_r].
      * rewrite clear_mask_high by done. case_decide; [done|].
        rewrite (rr_bitmap _ _ _ RR) by done. symmetry. apply bool_decide_false.
        unfold HR_CFG_PRIORITY_COUNT. lia.
  - split; try done. intros b Hb. unfold s1, set_bitmap, set_ready_count.
    by rewrite !ready_at_set_ready, !decide_False.
  - apply Hfin; [done..|]. intros q Hq'. rewrite Hb1, (rr_bitmap _ _ _ RR) by done.
    case_decide as E; [subst q|done]. rewrite (bool_decide_true (xs ++ ys <> [])) by done.
    apply bool_decide_true. split; [lia|]. rewrite Hq. by destruct xs.
  - split; try done. intros b Hb. unfold s1, set_bitmap, set_ready_count.
    by rewrite !ready_at_set_ready, !decide_False.
Qed.

(** *** Selection *)

Lemma levels_split r : 0 <= r < HR_CFG_PRIORITY_COUNT ->
  exists us vs, levels = us ++ r :: vs /\ forall q, q ∈ us <-> 0 <= q < r.
Proof.
  unfold HR_CFG_PRIORITY_COUNT. intros Hr.
  exists (take (Z.to_nat r) levels), (drop (S (Z.to_nat r)) levels).
  assert (r = 0 \/ r = 1 \/ r = 2 \/ r = 3 \/ r = 4 \/ r = 5 \/ r = 6 \/ r = 7) as C by lia.
  repeat (destruct C as [->|C]); subst; (split; [reflexivity|]); intros q;
    (match goal with |- context [take ?n levels] =>
       let l := eval vm_compute in (take n levels) in change (take n levels) with l end);
    rewrite ?elem_of_cons, ?elem_of_nil; lia.
Qed.

Section select.
Context (s : store) (V : view) (a : N).
Hypothesis RR : ready_rep s V a.

Lemma highest_spec : ready_seq V a <> [] ->
  let r := hr_ready_set_highest_priority s a in
  0 <= r < HR_CFG_PRIORITY_COUNT /\ queue V a r <> [] /\ (forall q, 0 <= q < r -> queue V a q = []).
Proof.
  intros Hne r.
  destruct (highest_priority_loop_spec (bitmap (ready_at s a)) (Z.to_nat HR_CFG_PRIORITY_COUNT) 0)
    as (H1 & H2 & H3); [lia|done|].
  change (highest_priority_loop _ _ _) with r in H1, H2, H3.
  assert (Hr : r < HR_CFG_PRIORITY_COUNT).
  { destruct (ready_seq V a) as [|n ns] eqn:E; [done|].
    assert (Hn : n ∈ ready_seq V a) by (rewrite E; set_solver).
    apply ready_seq_elem in Hn as (p & Hp & Hn).
    destruct (Z_lt_le_dec r HR_CFG_PRIORITY_COUNT); [done|].
    assert (Hb : Z.testbit (bitmap (ready_at s a)) p = false) by (apply H2; lia).
    rewrite (rr_bitmap _ _ _ RR), bool_decide_eq_false in Hb by lia.
    destruct Hb. split; [lia|]. intros E'. rewrite E' in Hn. set_solver. }
  split_and!; [lia|done| |].
  - specialize (H3 Hr). rewrite (rr_bitmap _ _ _ RR), bool_decide_eq_true in H3 by lia. tauto.
  - intros q Hq. specialize (H2 q Hq).
    rewrite (rr_bitmap _ _ _ RR), bool_decide_eq_false in H2 by lia.
    destruct (queue V a q); [done|]. destruct H2. split; [lia|done].
Qed.

Lemma ready_seq_head_level r : 0 <= r < HR_CFG_PRIORITY_COUNT -> queue V a r <> [] ->
  (forall q, 0 <= q < r -> queue V a q = []) -> head (ready_seq V a) = head (queue V a r).
Proof.
  intros Hr Hne Hlow. destruct (queue V a r) as [|n ns] eqn:E; [done|]. simpl.
  apply joined_head. destruct (levels_split r Hr) as (us & vs & El & Hus).
  exists us, r, vs. split_and!; [done| |by rewrite E]. intros q Hq. by apply Hlow, Hus.
Qed.

Lemma ready_count_zero : (ready_count (ready_at s a) =? 0) = bool_decide (ready_seq V a = []).
Proof.
  rewrite (rr_count _ _ _ RR). by destruct (ready_seq V a).
Qed.

Hypothesis Rep : lists_rep (st_lists s) V.

(** Selection returns the head of the ready sequence. *)
Lemma peek_highest_spec : hr_ready_set_peek_highest s (Some a) = head (ready_seq V a).
Proof.
  unfold hr_ready_set_peek_highest. rewrite ready_count_zero.
  case_bool_decide as E; [by rewrite E|].
  destruct (highest_spec E) as (Hr & Hne & Hlow).
  rewrite (priority_valid _ Hr). cbn [negb].
  rewrite (hr_list_front_spec _ _ _ (rep_ring _ _ Rep _ _ (rr_queue _ _ _ RR _ Hr))).
  rewrite (ready_seq_head_level _ Hr Hne Hlow). by destruct (queue _ _ _).
Qed.

Lemma ready_seq_min n : head (ready_seq V a) = Some n ->
  forall m, m ∈ ready_seq V a -> priority_at s n <= priority_at s m.
Proof.
  intros Hn m Hm.
  assert (Hne : ready_seq V a <> []) by (intros E; rewrite E in Hn; done).
  destruct (highest_spec Hne) as (Hr & Hq & Hlow).
  rewrite (ready_seq_head_level _ Hr Hq Hlow) in Hn.
  rewrite (rr_priority _ _ _ RR _ n Hr) by (by apply head_Some_elem_of).
  apply ready_seq_elem in Hm as (p & Hp & Hm). rewrite (rr_priority _ _ _ RR _ m Hp Hm).
  apply Z.nlt_ge. intros Hlt. rewrite Hlow in Hm by lia. set_solver.
Qed.
End select.

(** *** Rotation of the highest level *)

(** [rotated V a r]: the head of level [r] moves behind its peers. *)
Definition rotated (ns : list node_addr) : list node_addr :=
  match ns with [] => [] | n :: ns' => ns' ++ [n] end.

Lemma rotate_spec s V a Q :
  lists_rep (st_lists s) V -> ready_rep s V a -> ready_seq V a <> [] ->
  let r := hr_ready_set_highest_priority s a in
  (forall s', lists_rep (st_lists s') (<[ReadyQueue a r := rotated (queue V a r)]> V) ->
     ready_rep s' (<[ReadyQueue a r := rotated (queue V a r)]> V) a ->
     (forall p, li (st_lists s') p = li (st_lists s) p) ->
     (forall p, ow (st_lists s') p = ow (st_lists s) p) ->
     s' = set_lists (st_lists s') s -> Q HR_OK s') ->
  wp (hr_ready_set_rotate_highest (Some a)) Q s.
Proof.
  intros Rep RR Hne r K. destruct (highest_spec s V a RR Hne) as (Hr & Hq & Hlow). fold r in Hr, Hq.
  pose proof (rr_queue _ _ _ RR _ Hr) as Hl.
  unfold hr_ready_set_rotate_highest. wp_step. wp_step.
  rewrite (ready_count_zero s V a RR), bool_decide_false by done. fold r.
  rewrite (priority_valid _ Hr). cbn [negb].
  rewrite (hr_list_size_spec _ _ _ (rep_ring _ _ Rep _ _ Hl)).
  destruct (queue V a r) as [|n ns] eqn:Eq; [done|].
  destruct (Z.ltb_spec (Z.of_nat (length (n :: ns))) 2) as [H2|H2].
  - destruct ns; [|simpl in H2; lia]. wp_steps. apply K; try done.
    + by rewrite insert_id.
    + by rewrite insert_id.
    + by destruct s.
  - wp_step. wp_step.
    apply (hr_list_pop_front_spec (st_lists s) V (ReadyQueue a r) (n :: ns)); [done..|].
    intros n' ns' h1 [= <- <-] Rep1 F1. rewrite bool_decide_false by done. wp_step.
    apply (hr_list_push_back_spec _ _ (ReadyQueue a r) n Rep1 ns).
    + by rewrite lookup_insert_eq.
    + rewrite (lf_list _ _ _ _ F1). by rewrite decide_True.
    + pose proof (ready_seq_level V a r Hr) as Hlev. rewrite Eq in Hlev. simpl in Hlev.
      pose proof (rr_small _ _ _ RR). lia.
    + intros h2 Rep2 F2. rewrite insert_insert_eq in Rep2. apply K; try done.
      * simpl. apply (ready_rep_update s); try done.
        -- intros x Hx. apply (rr_priority _ _ _ RR r); [done|]. rewrite Eq. set_solver.
        -- intros q Hq'. change (ready_at _ a) with (ready_at s a). case_decide as E; [subst q|done].
           rewrite (rr_bitmap _ _ _ RR) by lia. rewrite Eq. rewrite !bool_decide_true; [done|by destruct ns|].
           split; [lia|done].
        -- rewrite Eq, length_app. simpl. change (ready_at _ a) with (ready_at s a). lia.
        -- rewrite Eq, length_app. simpl. pose proof (rr_small _ _ _ RR). lia.
      * intros p. simpl. rewrite (lf_list _ _ _ _ F2), (lf_list _ _ _ _ F1).
        case_decide; [subst|done]. symmetry. apply (rep_member_iff _ _ Rep _ _ _ Hl). set_solver.
      * intros p. simpl. by rewrite (lf_owner _ _ _ _ F2), (lf_owner _ _ _ _ F1).
Qed.

(** *** Initialisation *)

Lemma ready_set_init_loop_spec a n : forall i s V Q,
  lists_rep (st_lists s) V ->
  (forall p, V !! ReadyQueue a p = None \/ V !! ReadyQueue a p = Some []) ->
  (forall s' V', lists_rep (st_lists s') V' ->
     (forall p, V' !! ReadyQueue a p =
        if decide (i <= p < i + Z.of_nat n) then Some [] else V !! ReadyQueue a p) ->
     (forall l, (forall p, l <> ReadyQueue a p) -> V' !! l = V !! l) ->
     (forall m, node_at (st_lists s') (PNode m) = node_at (st_lists s) (PNode m)) ->
     s' = set_lists (st_lists s') s -> Q tt s') ->
  wp (ready_set_init_loop n a i) Q s.
Proof.
  induction n as [|n IH]; intros i s V Q Rep HV K; cbn [ready_set_init_loop].
  - apply wp_ret, (K s V); [done| |done|done|by destruct s]. intros p. rewrite decide_False; [done|lia].
  - wp_step. wp_step. eapply wp_intro; [apply init_run|].
    apply (IH (i + 1) _ (<[ReadyQueue a i := []]> V)).
    + apply rep_inited; [done|apply HV].
    + intros p. destruct (decide (p = i)) as [->|]; [right; by rewrite lookup_insert_eq|].
      rewrite lookup_insert_ne by congruence. apply HV.
    + intros s' V' Rep' HV1 HV2 Hnode Es. apply (K s' V'); [done| | | |].
      * intros p. rewrite HV1. destruct (decide (p = i)) as [->|Hne].
        -- rewrite decide_False by lia. rewrite lookup_insert_eq, decide_True by lia. done.
        -- rewrite lookup_insert_ne by congruence. repeat case_decide; done || lia.
      * intros l Hl. rewrite HV2 by done. rewrite lookup_insert_ne; [done|]. intros E. by apply (Hl i).
      * intros m. rewrite Hnode. apply inited_node.
      * rewrite Es. by destruct s.
Qed.

Lemma ready_set_init_spec a s V Q :
  lists_rep (st_lists s) V ->
  (forall p, V !! ReadyQueue a p = None \/ V !! ReadyQueue a p = Some []) ->
  (forall s' V', lists_rep (st_lists s') V' -> ready_rep s' V' a -> ready_seq V' a = [] ->
     (forall l, (forall p, l <> ReadyQueue a p) -> V' !! l = V !! l) ->
     (forall m, node_at (st_lists s') (PNode m) = node_at (st_lists s) (PNode m)) ->
     st_priority s' = st_priority s -> st_wake s' = st_wake s -> st_timeout s' = st_timeout s ->
     (forall b, b <> a -> ready_at s' b = ready_at s b) -> Q tt s') ->
  wp (hr_ready_set_init (Some a)) Q s.
Proof.
  intros Rep HV K. unfold hr_ready_set_init. wp_step.
  apply (ready_set_init_loop_spec a _ 0 s V); [done..|]. intros s1 V1 Rep1 HV1 HV2 Hnode Es.
  wp_steps.
  assert (Hq : forall p, queue V1 a p = []).
  { intros p. unfold queue. rewrite HV1. case_decide; [done|]. by destruct (HV p) as [-> | ->]. }
  assert (Hseq : ready_seq V1 a = []).
  { unfold ready_seq. generalize levels as ls. induction ls as [|q ls IH]; simpl; [done|]. by rewrite Hq, IH. }
  apply (K _ V1); [done| |done..| | | |].
  - split.
    + intros p Hp. rewrite HV1, decide_True by (unfold HR_CFG_PRIORITY_COUNT in *; lia). by rewrite Hq.
    + intros p n _. rewrite Hq. set_solver.
    + intros p Hp. unfold set_ready_count, set_bitmap. rewrite !ready_at_set_ready, !decide_True by done.
      simpl. rewrite Z.bits_0. symmetry. apply bool_decide_false. rewrite Hq. tauto.
    + rewrite Hseq. unfold set_ready_count. by rewrite ready_at_set_ready, decide_True.
    + by rewrite Hseq.
  - by rewrite Es.
  - by rewrite Es.
  - by rewrite Es.
  - intros b Hb. unfold set_ready_count, set_bitmap. rewrite !ready_at_set_ready, !decide_False by done.
    by rewrite Es.
Qed.

(** *** The validator accepts every represented ready set *)
Lemma ready_set_validate_complete s V a :
  lists_rep (st_lists s) V -> ready_rep s V a -> hr_ready_set_validate s (Some a) = true.
Proof.
  intros Rep RR.
  assert (G : forall n i total expected, 0 <= i -> i + Z.of_nat n = HR_CFG_PRIORITY_COUNT -> 0 <= total ->
    total + Z.of_nat (length (joined (queue V a) (seqZ i (Z.of_nat n)))) = Z.of_nat (length (ready_seq V a)) ->
    (forall q, 0 <= q -> Z.testbit expected q = bool_decide (q < i /\ queue V a q <> [])) ->
    ready_set_validate_loop n s a i total expected = true).
  { induction n as [|n IH]; intros i total expected Hi Hn Ht Hsum Hbits; cbn [ready_set_validate_loop].
    - simpl in Hsum. rewrite (rr_count _ _ _ RR). rewrite andb_true_iff, !Z.eqb_eq. split; [lia|].
      apply Z.bits_inj'. intros q Hq. rewrite Hbits, (rr_bitmap _ _ _ RR) by done.
      replace i with HR_CFG_PRIORITY_COUNT by lia. done.
    - assert (Hp : 0 <= i < HR_CFG_PRIORITY_COUNT) by lia.
      pose proof (rep_ring _ _ Rep _ _ (rr_queue _ _ _ RR i Hp)) as R.
      rewrite (validate_complete _ _ _ R), (hr_list_size_spec _ _ _ R), (hr_list_is_empty_spec _ _ _ R).
      cbn [negb]. rewrite Nat2Z.inj_succ in Hsum. rewrite seqZ_cons in Hsum by lia.
      replace (Z.pred (Z.succ (Z.of_nat n))) with (Z.of_nat n) in Hsum by lia.
      replace (Z.succ i) with (i + 1) in Hsum by lia. simpl in Hsum. rewrite length_app in Hsum.
      pose proof (rr_small _ _ _ RR).
      rewrite u32_small by (unfold UINT32_MAX, SIZE_MAX in *; lia).
      apply IH; [lia..|]. intros q Hq. fold (hr_priority_mask i).
      destruct (decide (queue V a i = [])) as [E|E];
        [rewrite (bool_decide_true (queue V a i = [])) by done
        |rewrite (bool_decide_false (queue V a i = [])) by done]; cbn [negb]; [|rewrite Z.lor_spec, mask_testbit by lia];
        rewrite Hbits by done.
      + apply bool_decide_ext. split; [intros []; split; [lia|done]|]. intros [Hq1 Hq2]. split; [|done].
        destruct (decide (q = i)) as [->|]; [done|lia].
      + destruct (decide (q = i)) as [->|Hne].
        * rewrite (bool_decide_true (i = i)) by done. rewrite orb_true_r. symmetry.
          apply bool_decide_true. split; [lia|done].
        * rewrite (bool_decide_false (q = i)), orb_false_r by done. apply bool_decide_ext. intuition lia. }
  apply (G (Z.to_nat HR_CFG_PRIORITY_COUNT) 0 0 0); [lia|done|lia|done|].
  intros q Hq. rewrite Z.bits_0. symmetry. apply bool_decide_false. lia.
Qed.
