(* ===== verification/WaitList.v ===== *)
(** Priority-ordered wait lists: [kernel/src/hr_wait.c].

    The insertion scan and the order check are the same loops as those of
    [kernel/src/hr_timeout.c], on another field of the node, so they are
    defined once with the field as a parameter. *)
From S2P Require Import Prelude Types HrList Store.
From stdpp Require Import gmap list.
From Stdlib Require Import ZArith.
Open Scope Z_scope.

(** [while (position != NULL)]: link [n] before the first node with a larger
    key, or at the back.  A ring of [size] nodes is scanned in [size] steps. *)
Fixpoint ordered_insert_loop (key : store -> node_addr -> Z) (fuel : nat)
    (l : list_addr) (n : node_addr) (position : option nptr) : M store hr_status :=
  match position with
  | None => lift (hr_list_push_back (Some l) (Some (PNode n)))
  | Some p =>
      match fuel, container_of p with
      | S fuel', Some cur =>
          let* s := getM in
          if key s n <? key s cur
          then lift (hr_list_insert_before (Some l) position (Some (PNode n)))
          else ordered_insert_loop key fuel' l n (hr_list_next (st_lists s) (Some l) position)
      | _, _ => ubM
      end
  end.

(** The order check: no node has a smaller key than its predecessor. *)
Fixpoint order_check_loop (key : store -> node_addr -> Z) (fuel : nat) (s : store)
    (l : list_addr) (position : option nptr) (first : bool) (prev : Z) : bool :=
  match position with
  | None => true
  | Some p =>
      match fuel, container_of p with
      | S fuel', Some cur =>
          if negb first && (key s cur <? prev) then false
          else order_check_loop key fuel' s l (hr_list_next (st_lists s) (Some l) position)
                 false (key s cur)
      | _, _ => false
      end
  end.

Definition scan_fuel (s : store) (l : list_addr) : nat := S (Z.to_nat (size_at (st_lists s) l)).

Definition hr_wait_node_init (node : option node_addr) (own : option obj_ptr) (priority : Z)
  : M store unit :=
  match node with
  | None => retM tt
  | Some n =>
      lift (hr_list_node_init (Some (PNode n)) own) ;;;
      modifyM (set_priority n priority)
  end.

Definition hr_wait_list_init (list : option list_addr) : M store unit :=
  match list with None => retM tt | Some _ => lift (hr_list_init list) end.

Definition hr_wait_list_is_empty (s : store) (list : option list_addr) : bool :=
  match list with None => true | Some _ => hr_list_is_empty (st_lists s) list end.

Definition hr_wait_list_size (s : store) (list : option list_addr) : Z :=
  match list with None => 0 | Some _ => hr_list_size (st_lists s) list end.

Definition hr_wait_list_insert (list : option list_addr) (node : option node_addr)
  : M store hr_status :=
  match list, node with
  | Some l, Some n =>
      let* s := getM in
      if hr_list_node_is_linked (st_lists s) (Some (PNode n)) then retM HR_ERROR_INVALID_STATE
      else ordered_insert_loop priority_at (scan_fuel s l) l n (hr_list_front (st_lists s) list)
  | _, _ => retM HR_ERROR_INVALID_ARGUMENT
  end.

Definition hr_wait_list_remove (list : option list_addr) (node : option node_addr)
  : M store hr_status :=
  match list, node with
  | Some l, Some n =>
      let* s := getM in
      if bool_decide (list_of (node_at (st_lists s) (PNode n)) <> Some l)
      then retM HR_ERROR_INVALID_STATE
      else lift (hr_list_remove (Some (PNode n)))
  | _, _ => retM HR_ERROR_INVALID_ARGUMENT
  end.

Definition hr_wait_list_peek (s : store) (list : option list_addr) : option node_addr :=
  match list with
  | None => None
  | Some _ => hr_list_front (st_lists s) list ≫= container_of
  end.

Definition hr_wait_list_pop (list : option list_addr) : M store (option node_addr) :=
  match list with
  | None => retM None
  | Some _ =>
      let* node := lift (hr_list_pop_front list) in
      retM (node ≫= container_of)
  end.

Definition hr_wait_list_validate (s : store) (list : option list_addr) : bool :=
  match list with
  | None => false
  | Some l =>
      if negb (hr_list_validate (st_lists s) list) then false
      else order_check_loop priority_at (scan_fuel s l) s l (hr_list_front (st_lists s) list) true 0
  end.
