(* ===== verification/WaitListSpec.v ===== *)
(** Correctness of the wait lists ([kernel/src/hr_wait.c]): insertion keeps the
    list ordered by priority and first-come-first-served among equals, the
    head is the most urgent, longest waiting task, and the validator decides
    the order. *)
From S2P Require Import Prelude Types HrList HrListSpec Store WaitList.
From stdpp Require Import gmap list.
From Stdlib Require Import ZArith Lia.
Open Scope Z_scope.
Set Warnings "-clear-no-such-hyp".

Section ordered.
Context (key : store -> node_addr -> Z).

Lemma ordered_insert_loop_spec s V l n Q :
  lists_rep (st_lists s) V -> li (st_lists s) (PNode n) = None ->
  forall ys xs fuel, V !! l = Some (xs ++ ys) -> Z.of_nat (length (xs ++ ys)) < SIZE_MAX ->
  (length ys <= fuel)%nat ->
  (forall h', lists_rep h' (<[l := xs ++ insert_by (key s) n ys]> V) ->
     link_frame (st_lists s) h' n (Some l) -> Q HR_OK (set_lists h' s)) ->
  wp (ordered_insert_loop key fuel l n (head (PNode <$> ys))) Q s.
Proof.
  intros Rep U. induction ys as [|y ys IH]; intros xs fuel Hl Hb Hf K.
  - assert (E : ordered_insert_loop key fuel l n (head (PNode <$> [])) =
                lift (hr_list_push_back (Some l) (Some (PNode n)))) by (by destruct fuel).
    rewrite E. wp_step. rewrite app_nil_r in Hl, Hb.
    by apply (hr_list_push_back_spec (st_lists s) V l n Rep xs).
  - destruct fuel as [|fuel]; simpl in Hf; [lia|]. cbn [head fmap list_fmap ordered_insert_loop container_of].
    wp_step. wp_step. destruct (key s n <? key s y) eqn:E.
    + wp_step. apply (hr_list_insert_before_spec (st_lists s) V l n Rep y xs ys); [done..|].
      intros h' R' F. apply K; [|done]. simpl. by rewrite E.
    + rewrite (hr_list_next_spec _ _ _ (rep_ring _ _ Rep _ _ Hl) y xs ys eq_refl).
      apply (IH (xs ++ [y])).
      * by rewrite <- app_assoc.
      * by rewrite <- app_assoc.
      * lia.
      * intros h' R' F. apply K; [|done]. simpl. rewrite E. by rewrite <- app_assoc in R'.
Qed.

Lemma ordered_insert_spec s V l n ns Q :
  lists_rep (st_lists s) V -> li (st_lists s) (PNode n) = None ->
  V !! l = Some ns -> Z.of_nat (length ns) < SIZE_MAX ->
  (forall h', lists_rep h' (<[l := insert_by (key s) n ns]> V) ->
     link_frame (st_lists s) h' n (Some l) -> Q HR_OK (set_lists h' s)) ->
  wp (ordered_insert_loop key (scan_fuel s l) l n (hr_list_front (st_lists s) (Some l))) Q s.
Proof.
  intros Rep U Hl Hb K. pose proof (rep_ring _ _ Rep _ _ Hl) as R.
  rewrite (hr_list_front_spec _ _ _ R).
  apply (ordered_insert_loop_spec s V l n Q Rep U ns []); [done..| |done].
  unfold scan_fuel. rewrite (ring_size _ _ _ R). lia.
Qed.

(** The order check accepts exactly the sorted lists. *)
Lemma order_check_loop_iff s l ys : forall xs fuel first prev,
  ring (st_lists s) l (xs ++ ys) -> (length ys <= fuel)%nat ->
  order_check_loop key fuel s l (head (PNode <$> ys)) first prev = true <->
  sorted_by (key s) ys /\ (first = false -> forall y, y ∈ ys -> prev <= key s y).
Proof.
  induction ys as [|y ys IH]; intros xs fuel first prev R Hf.
  - split; [|by destruct fuel]. intros _. split; [constructor|set_solver].
  - destruct fuel as [|fuel]; simpl in Hf; [lia|].
    cbn [head fmap list_fmap order_check_loop container_of].
    rewrite (hr_list_next_spec _ _ _ R y xs ys eq_refl).
    assert (R' : ring (st_lists s) l ((xs ++ [y]) ++ ys)) by (by rewrite <- app_assoc).
    specialize (IH (xs ++ [y]) fuel false (key s y) R' ltac:(lia)).
    destruct (negb first && (key s y <? prev)) eqn:E.
    + split; [done|]. intros [_ H]. apply andb_true_iff in E as [E1 E2].
      apply negb_true_iff in E1. apply Z.ltb_lt in E2. specialize (H E1 y ltac:(set_solver)). lia.
    + rewrite IH. split.
      * intros [HS HF]. specialize (HF eq_refl). split.
        -- constructor; [done|]. by apply Forall_forall.
        -- intros -> z. apply Z.ltb_ge in E. rewrite elem_of_cons. intros [->|Hz]; [done|].
           specialize (HF z Hz). lia.
      * intros [HS _]. split; [by eapply sorted_by_tail|]. intros _ z Hz.
        by apply (sorted_by_head _ _ _ HS).
Qed.

Lemma order_check_iff s l ns : ring (st_lists s) l ns ->
  order_check_loop key (scan_fuel s l) s l (hr_list_front (st_lists s) (Some l)) true 0 = true
  <-> sorted_by (key s) ns.
Proof.
  intros R. rewrite (hr_list_front_spec _ _ _ R).
  rewrite (order_check_loop_iff s l ns [] _ true 0); [intuition congruence|done|].
  unfold scan_fuel. rewrite (ring_size _ _ _ R). lia.
Qed.
End ordered.

(** ** Wait-list operations *)

Lemma wait_list_insert_spec s V l n ns Q :
  lists_rep (st_lists s) V -> li (st_lists s) (PNode n) = None ->
  V !! l = Some ns -> Z.of_nat (length ns) < SIZE_MAX ->
  (forall h', lists_rep h' (<[l := insert_by (priority_at s) n ns]> V) ->
     link_frame (st_lists s) h' n (Some l) -> Q HR_OK (set_lists h' s)) ->
  wp (hr_wait_list_insert (Some l) (Some n)) Q s.
Proof.
  intros Rep U Hl Hb K. unfold hr_wait_list_insert. wp_step. wp_step.
  unfold hr_list_node_is_linked. rewrite U. rewrite bool_decide_false by tauto.
  by apply (ordered_insert_spec priority_at s V l n ns).
Qed.

Lemma wait_list_remove_spec s V l n xs ys Q :
  lists_rep (st_lists s) V -> V !! l = Some (xs ++ n :: ys) ->
  (forall h', lists_rep h' (<[l := xs ++ ys]> V) -> link_frame (st_lists s) h' n None ->
     Q HR_OK (set_lists h' s)) ->
  wp (hr_wait_list_remove (Some l) (Some n)) Q s.
Proof.
  intros Rep Hl K. unfold hr_wait_list_remove. wp_step. wp_step.
  rewrite (proj2 (rep_member_iff _ _ Rep n l _ Hl)) by set_solver.
  rewrite bool_decide_false by tauto. wp_step.
  by apply (hr_list_remove_spec (st_lists s) V l n Rep xs ys).
Qed.

Lemma wait_list_peek_spec s l ns :
  ring (st_lists s) l ns -> hr_wait_list_peek s (Some l) = head ns.
Proof.
  intros R. unfold hr_wait_list_peek. rewrite (hr_list_front_spec _ _ _ R). by destruct ns.
Qed.

Lemma wait_list_validate_iff s l ns : ring (st_lists s) l ns ->
  hr_wait_list_validate s (Some l) = true <-> sorted_by (priority_at s) ns.
Proof.
  intros R. unfold hr_wait_list_validate. rewrite (validate_complete _ _ _ R). simpl.
  by apply order_check_iff.
Qed.
