(* ===== verification/Timeout.v ===== *)
(** The dual timeout lists: [kernel/src/hr_timeout.c].

    [wake_tick] is a 32-bit tick; a deadline that wraps past the end of the
    tick counter goes to the [overflow] list, and the two lists are exchanged
    when the counter itself wraps. *)
From S2P Require Import Prelude Types HrList Store WaitList.
From stdpp Require Import gmap list.
From Stdlib Require Import ZArith.
Open Scope Z_scope.

Definition hr_timeout_insert_sorted (list : option list_addr) (n : node_addr)
  : M store hr_status :=
  match list with
  | None => retM HR_ERROR_INVALID_ARGUMENT
  | Some l =>
      let* s := getM in
      ordered_insert_loop wake_at (scan_fuel s l) l n (hr_list_front (st_lists s) list)
  end.

Definition hr_timeout_order_is_valid (s : store) (list : option list_addr) : bool :=
  match list with
  | None => true
  | Some l => order_check_loop wake_at (scan_fuel s l) s l (hr_list_front (st_lists s) list) true 0
  end.

Definition hr_timeout_node_init (node : option node_addr) (own : option obj_ptr) : M store unit :=
  match node with
  | None => retM tt
  | Some n =>
      lift (hr_list_node_init (Some (PNode n)) own) ;;;
      modifyM (set_wake n 0)
  end.

Definition hr_timeout_list_init (list : option N) (start_tick : Z) : M store unit :=
  match list with
  | None => retM tt
  | Some a =>
      lift (hr_list_init (Some (TimeoutHalf a false))) ;;;
      lift (hr_list_init (Some (TimeoutHalf a true))) ;;;
      modifyM (set_timeout a (mk_hr_timeout_list (Some (TimeoutHalf a false))
                                (Some (TimeoutHalf a true)) start_tick 0))
  end.

Definition hr_timeout_list_is_empty (s : store) (list : option N) : bool :=
  match list with None => true | Some a => timeout_count (timeout_at s a) =? 0 end.

Definition hr_timeout_list_size (s : store) (list : option N) : Z :=
  match list with None => 0 | Some a => timeout_count (timeout_at s a) end.

Definition hr_timeout_list_last_tick (s : store) (list : option N) : Z :=
  match list with None => 0 | Some a => last_tick (timeout_at s a) end.

Definition set_timeout_count (a : N) (c : Z) (s : store) : store :=
  let t := timeout_at s a in
  set_timeout a (mk_hr_timeout_list (current t) (overflow t) (last_tick t) c) s.
Definition swap_lists (a : N) (s : store) : store :=
  let t := timeout_at s a in
  set_timeout a (mk_hr_timeout_list (overflow t) (current t) (last_tick t) (timeout_count t)) s.
Definition set_last_tick (a : N) (now : Z) (s : store) : store :=
  let t := timeout_at s a in
  set_timeout a (mk_hr_timeout_list (current t) (overflow t) now (timeout_count t)) s.

Definition hr_timeout_list_insert (list : option N) (node : option node_addr) (delay_ticks : Z)
  : M store hr_status :=
  match list, node with
  | Some a, Some n =>
      if delay_ticks =? HR_WAIT_FOREVER then retM HR_ERROR_INVALID_ARGUMENT
      else
        let* s := getM in
        if hr_list_node_is_linked (st_lists s) (Some (PNode n)) then retM HR_ERROR_INVALID_STATE
        else
          let t := timeout_at s a in
          let wake_tick := u32 (last_tick t + delay_ticks) in
          modifyM (set_wake n wake_tick) ;;;
          let* status := hr_timeout_insert_sorted
            (if wake_tick <? last_tick t then overflow t else current t) n in
          (if bool_decide (status = HR_OK)
           then modifyM (fun s => set_timeout_count a (u32 (timeout_count (timeout_at s a) + 1)) s)
           else retM tt) ;;;
          retM status
  | _, _ => retM HR_ERROR_INVALID_ARGUMENT
  end.

Definition hr_timeout_list_remove (list : option N) (node : option node_addr) : M store hr_status :=
  match list, node with
  | Some a, Some n =>
      let* s := getM in
      let t := timeout_at s a in
      let l := list_of (node_at (st_lists s) (PNode n)) in
      if bool_decide (l <> current t) && bool_decide (l <> overflow t)
      then retM HR_ERROR_INVALID_STATE
      else
        let* status := lift (hr_list_remove (Some (PNode n))) in
        (if bool_decide (status = HR_OK)
         then modifyM (fun s => set_timeout_count a (u32 (timeout_count (timeout_at s a) - 1)) s)
         else retM tt) ;;;
        retM status
  | _, _ => retM HR_ERROR_INVALID_ARGUMENT
  end.

(** [while (front != NULL)]: move the due nodes to [expired]; every iteration
    unlinks a node of the current list, so [size] iterations are enough. *)
Fixpoint timeout_advance_loop (fuel : nat) (a : N) (now : Z) (expired : list_addr)
    (front : option nptr) : M store hr_status :=
  match front with
  | None => retM HR_OK
  | Some p =>
      match fuel, container_of p with
      | S fuel', Some n =>
          let* s := getM in
          if now <? wake_at s n then retM HR_OK
          else
            let following := hr_list_next (st_lists s) (current (timeout_at s a)) front in
            let* removed := lift (hr_list_remove (Some (PNode n))) in
            if bool_decide (removed <> HR_OK) then retM HR_ERROR_INTERNAL
            else
              let* pushed := lift (hr_list_push_back (Some expired) (Some (PNode n))) in
              if bool_decide (pushed <> HR_OK) then retM HR_ERROR_INTERNAL
              else
                modifyM (fun s => set_timeout_count a (u32 (timeout_count (timeout_at s a) - 1)) s) ;;;
                timeout_advance_loop fuel' a now expired following
      | _, _ => ubM
      end
  end.

Definition hr_timeout_list_advance (list : option N) (now : Z) (expired_nodes : option list_addr)
  : M store hr_status :=
  match list, expired_nodes with
  | Some a, Some e =>
      let* s := getM in
      if negb (hr_list_is_empty (st_lists s) expired_nodes) then retM HR_ERROR_INVALID_STATE
      else
        (if now <? last_tick (timeout_at s a) then modifyM (swap_lists a) else retM tt) ;;;
        modifyM (set_last_tick a now) ;;;
        (let* s := getM in
         let cur := current (timeout_at s a) in
         timeout_advance_loop (match cur with Some l => scan_fuel s l | None => 0%nat end)
           a now e (hr_list_front (st_lists s) cur))
  | _, _ => retM HR_ERROR_INVALID_ARGUMENT
  end.

Definition hr_timeout_list_validate (s : store) (list : option N) : bool :=
  match list with
  | None => false
  | Some a =>
      let t := timeout_at s a in
      if bool_decide (current t = None) || bool_decide (overflow t = None)
         || bool_decide (current t = overflow t) then false
      else if negb (hr_list_validate (st_lists s) (current t))
              || negb (hr_list_validate (st_lists s) (overflow t)) then false
      else if negb (hr_timeout_order_is_valid s (current t))
              || negb (hr_timeout_order_is_valid s (overflow t)) then false
      else u32 (hr_list_size (st_lists s) (current t) + hr_list_size (st_lists s) (overflow t))
           =? timeout_count (timeout_at s a)
  end.
