(* ===== verification/TimeoutSpec.v ===== *)
(** Correctness of the dual timeout lists ([kernel/src/hr_timeout.c]).

    The abstract object is a queue of nodes ordered by absolute deadline, on an
    unbounded time line.  The two lists with their 32-bit wake ticks represent
    it across any number of wrap-arounds of the tick counter: insertion is
    stable insertion by deadline, and one tick expires exactly the nodes whose
    deadline is reached. *)
From S2P Require Import Prelude Types HrList HrListSpec Store WaitList WaitListSpec SchedulerSpec Timeout.
From stdpp Require Import gmap list.
From Stdlib Require Import ZArith Lia.
Open Scope Z_scope.
Set Warnings "-clear-no-such-hyp".

Abbreviation period := (2 ^ 32).

Definition half (V : view) (a : N) (b : bool) : list node_addr := default [] (V !! TimeoutHalf a b).

(** The pending nodes, soonest deadline first; [b] tells which half is current. *)
Definition pending (V : view) (a : N) (b : bool) : list node_addr := half V a b ++ half V a (negb b).

(** At absolute time [T] the timeout list [a] holds nodes with deadlines [D]. *)
Record timeout_rep (s : store) (V : view) (a : N) (T : Z) (D : node_addr -> Z) (b : bool) : Prop := {
  tr_time : 0 <= T;
  tr_last : last_tick (timeout_at s a) = u32 T;
  tr_current : current (timeout_at s a) = Some (TimeoutHalf a b);
  tr_overflow : overflow (timeout_at s a) = Some (TimeoutHalf a (negb b));
  tr_half : forall c, V !! TimeoutHalf a c = Some (half V a c);
  tr_wake : forall n, n ∈ pending V a b -> wake_at s n = u32 (D n);
  tr_now : forall n, n ∈ half V a b -> T < D n /\ D n / period = T / period;
  tr_next : forall n, n ∈ half V a (negb b) -> D n / period = T / period + 1;
  tr_sorted : sorted_by D (pending V a b);
  tr_count : timeout_count (timeout_at s a) = Z.of_nat (length (pending V a b));
  tr_small : Z.of_nat (length (pending V a b)) <= SIZE_MAX;
}.

Lemma u32_epoch x : u32 x = x - period * (x / period).
Proof. unfold u32, wrap. pose proof (Z.div_mod x period). lia. Qed.

Lemma half_insert V a b c ns :
  half (<[TimeoutHalf a c := ns]> V) a b = if decide (b = c) then ns else half V a b.
Proof.
  unfold half. case_decide as E; [subst; by rewrite lookup_insert_eq|].
  rewrite lookup_insert_ne; [done|congruence].
Qed.

Lemma half_insert_other V a b l ns :
  (forall c, l <> TimeoutHalf a c) -> half (<[l := ns]> V) a b = half V a b.
Proof. intros H. unfold half. by rewrite lookup_insert_ne. Qed.

(** What an operation on the timeout list [a] keeps of the rest of the store. *)
Record timeout_frame (s s' : store) (a : N) : Prop := {
  tf_priority : st_priority s' = st_priority s;
  tf_ready : st_ready s' = st_ready s;
  tf_other : forall b, b <> a -> timeout_at s' b = timeout_at s b;
}.

(** A deadline before all others of its half, on the time line and modulo the period. *)
Lemma half_wake_order s V a T D b c n :
  timeout_rep s V a T D b -> n ∈ half V a c ->
  wake_at s n = D n - period * (T / period + if decide (c = b) then 0 else 1).
Proof.
  intros R Hn. rewrite (tr_wake _ _ _ _ _ _ R).
  - rewrite u32_epoch. case_decide as E.
    + subst. destruct (tr_now _ _ _ _ _ _ R n Hn) as [_ ->]. lia.
    + assert (c = negb b) as -> by (by destruct b, c). rewrite (tr_next _ _ _ _ _ _ R n Hn). lia.
  - unfold pending. destruct (decide (c = b)) as [->|E]; [set_solver|].
    assert (c = negb b) as -> by (by destruct b, c). set_solver.
Qed.

(** *** Arithmetic of a new deadline *)
Lemma deadline_wraps T delay : 0 <= T -> 0 < delay < HR_WAIT_FOREVER ->
  let wake := u32 (u32 T + delay) in
  wake = u32 (T + delay) /\
  if wake <? u32 T then (T + delay) / period = T / period + 1
  else (T + delay) / period = T / period.
Proof.
  intros HT Hd wake. unfold HR_WAIT_FOREVER in Hd.
  assert (E : wake = u32 (T + delay)).
  { unfold wake, u32, wrap. by rewrite Zplus_mod_idemp_l. }
  split; [done|]. rewrite E, !u32_epoch.
  pose proof (Z.div_mod T period ltac:(lia)) as D1. pose proof (Z.mod_pos_bound T period ltac:(lia)).
  pose proof (Z.div_mod (T + delay) period ltac:(lia)) as D2.
  pose proof (Z.mod_pos_bound (T + delay) period ltac:(lia)).
  set (q1 := T / period) in *. set (q2 := (T + delay) / period) in *.
  destruct (Z.ltb_spec (T + delay - period * q2) (T - period * q1)); lia.
Qed.

Lemma half_pending_length V a b c : (length (half V a c) <= length (pending V a b))%nat.
Proof. unfold pending. rewrite length_app. destruct b, c; simpl; lia. Qed.

Lemma half_pending V a b c n : n ∈ half V a c -> n ∈ pending V a b.
Proof. unfold pending. rewrite elem_of_app. destruct b, c; simpl; auto. Qed.

Lemma pending_half V a b n : n ∈ pending V a b -> exists c, n ∈ half V a c.
Proof. unfold pending. rewrite elem_of_app. intros []; eauto. Qed.

(** ** Insertion *)

Lemma timeout_pending_unique s V a T D b n c :
  lists_rep (st_lists s) V -> timeout_rep s V a T D b ->
  li (st_lists s) (PNode n) = None -> n ∉ half V a c.
Proof.
  intros Rep TR U. eapply (proj1 (rep_unlinked_iff _ _ Rep n) U). apply (tr_half _ _ _ _ _ _ TR).
Qed.

(** Inserting in the half the code chooses is inserting in deadline order. *)
Lemma pending_insert s V a T D b n delay :
  let D' := fun m => if decide (m = n) then T + delay else D m in
  let b' := if decide ((T + delay) / period = T / period) then b else negb b in
  timeout_rep s V a T D b -> 0 < delay < HR_WAIT_FOREVER -> (forall c, n ∉ half V a c) ->
  pending (<[TimeoutHalf a b' := insert_by D' n (half V a b')]> V) a b = insert_by D' n (pending V a b) /\
  sorted_by D' (insert_by D' n (pending V a b)).
Proof.
  intros D' b' TR Hd Hfresh.
  assert (HD' : forall m c, m ∈ half V a c -> D' m = D m).
  { intros m c Hm. unfold D'. rewrite decide_False; [done|]. intros ->. by apply (Hfresh c). }
  assert (HDn : D' n = T + delay) by (unfold D'; by rewrite decide_True).
  assert (HT := tr_time _ _ _ _ _ _ TR). unfold HR_WAIT_FOREVER in Hd.
  split.
  - unfold pending. rewrite !half_insert. unfold b'.
    destruct (decide ((T + delay) / period = T / period)) as [E|E].
    + rewrite decide_True by done. rewrite decide_False by (by destruct b).
      symmetry. apply insert_by_app_l. intros y Hy. rewrite HDn, (HD' _ _ Hy).
      pose proof (tr_next _ _ _ _ _ _ TR y Hy). 
      destruct (Z.lt_ge_cases (T + delay) (D y)) as [|C]; [done|].
      apply (Z.div_le_mono _ _ period) in C; lia.
    + rewrite decide_False by (by destruct b). rewrite decide_True by done.
      symmetry. apply insert_by_app. intros y Hy. rewrite HDn, (HD' _ _ Hy).
      pose proof (tr_now _ _ _ _ _ _ TR y Hy) as [_ H].
      destruct (Z.lt_ge_cases (T + delay) (D y)) as [C|]; [|done].
      apply Z.lt_le_incl, (Z.div_le_mono _ _ period) in C; [|lia].
      assert (T / period <= (T + delay) / period) by (apply Z.div_le_mono; lia). lia.
  - apply insert_by_sorted, (sorted_by_shift D D' 0); [|apply (tr_sorted _ _ _ _ _ _ TR)].
    intros y Hy. unfold pending in Hy. apply elem_of_app in Hy as [Hy|Hy]; rewrite (HD' _ _ Hy); lia.
Qed.

Lemma timeout_insert_spec s V a T D b n delay Q :
  let D' := fun m => if decide (m = n) then T + delay else D m in
  let b' := if decide ((T + delay) / period = T / period) then b else negb b in
  lists_rep (st_lists s) V -> timeout_rep s V a T D b ->
  li (st_lists s) (PNode n) = None -> 0 < delay < HR_WAIT_FOREVER ->
  Z.of_nat (length (pending V a b)) < SIZE_MAX ->
  (forall s' V', lists_rep (st_lists s') V' ->
     V' = <[TimeoutHalf a b' := insert_by D' n (half V a b')]> V ->
     timeout_rep s' V' a T D' b ->
     pending V' a b = insert_by D' n (pending V a b) ->
     link_frame (st_lists s) (st_lists s') n (Some (TimeoutHalf a b')) ->
     timeout_frame s s' a ->
     (forall m, m <> n -> wake_at s' m = wake_at s m) -> Q HR_OK s') ->
  wp (hr_timeout_list_insert (Some a) (Some n) delay) Q s.
Proof.
  intros D' b' Rep TR U Hd Hsm K.
  destruct (deadline_wraps T delay (tr_time _ _ _ _ _ _ TR) Hd) as [Hw Hcase].
  assert (Hfresh : forall c, n ∉ half V a c).
  { intros c. eapply (proj1 (rep_unlinked_iff _ _ Rep n) U). apply (tr_half _ _ _ _ _ _ TR). }
  assert (HD' : forall m, m <> n -> D' m = D m) by (intros m Hm; unfold D'; by rewrite decide_False).
  assert (HDn : D' n = T + delay) by (unfold D'; by rewrite decide_True).
  unfold hr_timeout_list_insert.
  replace (delay =? HR_WAIT_FOREVER) with false by (symmetry; apply Z.eqb_neq; lia).
  wp_step. wp_step. unfold hr_list_node_is_linked. rewrite U, bool_decide_false by tauto.
  wp_step. wp_step. wp_step.
  rewrite (tr_last _ _ _ _ _ _ TR), (tr_current _ _ _ _ _ _ TR), (tr_overflow _ _ _ _ _ _ TR).
  set (wake := u32 (u32 T + delay)) in *.
  assert (Eb : (if wake <? u32 T then Some (TimeoutHalf a (negb b)) else Some (TimeoutHalf a b))
               = Some (TimeoutHalf a b') /\
               (T + delay) / period = T / period + if decide (b' = b) then 0 else 1).
  { unfold b'. revert Hcase. destruct (wake <? u32 T); intros Hcase; case_decide as E; try lia.
    - rewrite decide_False by (by destruct b). done.
    - rewrite decide_True by done. split; [done|lia]. }
  destruct Eb as [-> Eb]. unfold hr_timeout_insert_sorted. wp_step. wp_step.
  set (s1 := set_wake n wake s).
  assert (Hw1 : forall m, m <> n -> wake_at s1 m = wake_at s m).
  { intros m Hm. unfold s1. by rewrite wake_at_set_wake, decide_False. }
  assert (Hlen : (length (half V a b') <= length (pending V a b))%nat).
  { apply half_pending_length. }
  apply (ordered_insert_spec wake_at s1 V (TimeoutHalf a b') n (half V a b')); [done|done| |lia|].
  { apply (tr_half _ _ _ _ _ _ TR). }
  intros h' Rep' F. change (st_lists s1) with (st_lists s) in F.
  wp_step. rewrite bool_decide_true by done. wp_steps.
  set (c := period * (T / period + if decide (b' = b) then 0 else 1)).
  assert (Hkey : forall m, m ∈ n :: half V a b' -> wake_at s1 m = D' m + - c).
  { intros m. rewrite elem_of_cons. intros [->|Hm].
    - unfold s1. rewrite wake_at_set_wake, decide_True by done. rewrite Hw, u32_epoch, HDn.
      unfold c. rewrite Eb. lia.
    - assert (m <> n) by (intros ->; by apply (Hfresh b')).
      rewrite Hw1, HD' by done. rewrite (half_wake_order s V a T D b b') by done. unfold c. lia. }
  rewrite (insert_by_shift (wake_at s1) D' (- c)) in Rep' by done.
  destruct (pending_insert s V a T D b n delay TR Hd Hfresh) as [EP HS]. fold D' b' in EP, HS.
  set (V' := <[TimeoutHalf a b' := insert_by D' n (half V a b')]> V) in *.
  set (s2 := set_timeout_count a _ _).
  assert (Ht : timeout_at s2 a = mk_hr_timeout_list (Some (TimeoutHalf a b)) (Some (TimeoutHalf a (negb b)))
                 (u32 T) (Z.of_nat (length (pending V' a b)))).
  { unfold s2, set_timeout_count. rewrite timeout_at_set_timeout, decide_True, timeout_at_set_lists by done.
    change (timeout_at s1 a) with (timeout_at s a).
    rewrite (tr_last _ _ _ _ _ _ TR), (tr_current _ _ _ _ _ _ TR), (tr_overflow _ _ _ _ _ _ TR),
      (tr_count _ _ _ _ _ _ TR), EP, insert_by_length, (u32_small (_ + 1)) by (unfold SIZE_MAX, UINT32_MAX in *; lia).
    f_equal. lia. }
  assert (Hold : forall c m, m ∈ half V' a c -> m = n /\ c = b' \/ m <> n /\ m ∈ half V a c).
  { clear c Hkey. intros c m. unfold V'. rewrite half_insert. destruct (decide (c = b')) as [->|];
      [rewrite insert_by_elem|]; intros Hm; [destruct Hm as [->|Hm]|]; [by left|right; split..];
      try done; intros ->; by eapply Hfresh. }
  apply (K _ V'); [done|done| |done|done| |].
  - constructor; rewrite ?Ht; try done.
    + apply (tr_time _ _ _ _ _ _ TR).
    + clear c Hkey. intros c. unfold V'. rewrite half_insert. destruct (decide (c = b')) as [E|E]; [rewrite E; apply lookup_insert_eq|].
      rewrite lookup_insert_ne by congruence. apply (tr_half _ _ _ _ _ _ TR).
    + intros m (c1 & Hm)%pending_half. change (wake_at s1 m = u32 (D' m)).
      apply Hold in Hm as [[-> _]|[Hne Hm]].
      * unfold s1. by rewrite wake_at_set_wake, decide_True, HDn.
      * rewrite Hw1, HD' by done. apply (tr_wake _ _ _ _ _ _ TR). by eapply half_pending.
    + intros m Hm. apply Hold in Hm as [[-> E]|[Hne Hm]].
      * rewrite HDn. split; [lia|]. rewrite Eb, <- E, decide_True by done. lia.
      * rewrite HD' by done. by apply (tr_now _ _ _ _ _ _ TR).
    + intros m Hm. apply Hold in Hm as [[-> E]|[Hne Hm]].
      * rewrite HDn, Eb, <- E, decide_False by (by destruct b). lia.
      * rewrite HD' by done. by apply (tr_next _ _ _ _ _ _ TR).
    + by rewrite EP.
    + rewrite EP, insert_by_length. lia.
  - constructor; try done. intros c1 Hc. unfold s2, set_timeout_count.
    by rewrite timeout_at_set_timeout, decide_False.
  - intros m Hm. change (wake_at s1 m = wake_at s m). auto.
Qed.

(** ** Removal *)

Lemma timeout_rep_remove s s' V a T D b c n xs ys :
  timeout_rep s V a T D b -> half V a c = xs ++ n :: ys ->
  timeout_at s' a = mk_hr_timeout_list (current (timeout_at s a)) (overflow (timeout_at s a))
    (last_tick (timeout_at s a)) (timeout_count (timeout_at s a) - 1) ->
  st_wake s' = st_wake s ->
  timeout_rep s' (<[TimeoutHalf a c := xs ++ ys]> V) a T D b /\
  exists us vs, pending V a b = us ++ n :: vs /\
    pending (<[TimeoutHalf a c := xs ++ ys]> V) a b = us ++ vs.
Proof.
  intros TR Hc Ht Hw. set (V' := <[TimeoutHalf a c := xs ++ ys]> V).
  assert (HP : exists us vs, pending V a b = us ++ n :: vs /\ pending V' a b = us ++ vs).
  { unfold pending, V'. rewrite !half_insert. destruct (decide (b = c)) as [->|Hne].
    - rewrite (decide_False (P := negb c = c)) by (by destruct c). rewrite Hc.
      exists xs, (ys ++ half V a (negb c)). by rewrite <- !app_assoc.
    - assert (negb b = c) as E by (by destruct b, c). rewrite decide_True by done. rewrite E, Hc.
      exists (half V a b ++ xs), ys. by rewrite <- !app_assoc. }
  split; [|done]. destruct HP as (us & vs & E1 & E2).
  assert (Hold : forall d m, m ∈ half V' a d -> m ∈ half V a d).
  { intros d m. unfold V'. rewrite half_insert. case_decide as E; [subst; rewrite Hc; set_solver|done]. }
  constructor; rewrite ?Ht; cbn [last_tick current overflow timeout_count].
  - apply TR.
  - apply TR.
  - apply TR.
  - apply TR.
  - intros d. unfold V'. rewrite half_insert. case_decide as E; [subst; by rewrite lookup_insert_eq|].
    rewrite lookup_insert_ne by congruence. apply TR.
  - intros m (d & Hm)%pending_half. unfold wake_at. rewrite Hw. apply (tr_wake _ _ _ _ _ _ TR).
    by eapply half_pending, Hold.
  - intros m Hm. apply (tr_now _ _ _ _ _ _ TR). by apply Hold.
  - intros m Hm. apply (tr_next _ _ _ _ _ _ TR). by apply Hold.
  - rewrite E2. apply (sorted_by_remove _ _ n). rewrite <- E1. apply TR.
  - rewrite (tr_count _ _ _ _ _ _ TR), E1, E2, !length_app. simpl. lia.
  - pose proof (tr_small _ _ _ _ _ _ TR) as H. rewrite E1 in H. rewrite E2.
    rewrite !length_app in *. simpl in H. lia.
Qed.

Lemma timeout_remove_spec s V a T D b c n xs ys Q :
  lists_rep (st_lists s) V -> timeout_rep s V a T D b -> half V a c = xs ++ n :: ys ->
  (forall s' V', V' = <[TimeoutHalf a c := xs ++ ys]> V ->
     lists_rep (st_lists s') V' -> timeout_rep s' V' a T D b ->
     (exists us vs, pending V a b = us ++ n :: vs /\ pending V' a b = us ++ vs) ->
     link_frame (st_lists s) (st_lists s') n None -> timeout_frame s s' a ->
     st_wake s' = st_wake s -> Q HR_OK s') ->
  wp (hr_timeout_list_remove (Some a) (Some n)) Q s.
Proof.
  intros Rep TR Hc K. unfold hr_timeout_list_remove. wp_step. wp_step.
  pose proof (tr_half _ _ _ _ _ _ TR c) as Hl. rewrite Hc in Hl.
  rewrite (proj2 (rep_member_iff _ _ Rep n _ _ Hl)) by set_solver.
  rewrite (tr_current _ _ _ _ _ _ TR), (tr_overflow _ _ _ _ _ _ TR).
  assert (bool_decide (Some (TimeoutHalf a c) <> Some (TimeoutHalf a b)) &&
          bool_decide (Some (TimeoutHalf a c) <> Some (TimeoutHalf a (negb b))) = false) as ->.
  { rewrite andb_false_iff, !bool_decide_eq_false.
    destruct (decide (c = b)) as [->|]; [left; tauto|]. assert (c = negb b) as -> by (by destruct b, c).
    right; tauto. }
  wp_step. wp_step.
  apply (hr_list_remove_spec (st_lists s) V (TimeoutHalf a c) n Rep xs ys); [done|]. intros h' Rep' F.
  wp_step. rewrite bool_decide_true by done. wp_steps.
  set (s' := set_timeout_count a _ _).
  destruct (timeout_rep_remove s s' V a T D b c n xs ys TR Hc) as [TR' HP]; [|done|].
  { unfold s', set_timeout_count. rewrite timeout_at_set_timeout, decide_True by done.
    rewrite timeout_at_set_lists. f_equal. apply u32_small. rewrite (tr_count _ _ _ _ _ _ TR).
    pose proof (tr_small _ _ _ _ _ _ TR). pose proof (half_pending_length V a b c) as HL.
    rewrite Hc, length_app in HL. simpl in HL. unfold UINT32_MAX, SIZE_MAX in *. lia. }
  apply (K s' _ eq_refl); try done. constructor; try done. intros d Hd.
  unfold s', set_timeout_count. by rewrite timeout_at_set_timeout, decide_False.
Qed.

(** ** Advancing the clock *)

(** The effect of the loop on the links: the moved nodes [ms] end in [e]. *)
Record moved_frame (h h' : lmem) (ms : list node_addr) (e : list_addr) : Prop := {
  mf_list : forall p, li h' p = if decide (p ∈ PNode <$> ms) then Some e else li h p;
  mf_owner : forall p, ow h' p = ow h p;
}.

Lemma moved_frame_step h h1 h2 h3 n e ms :
  link_frame h h1 n None -> link_frame h1 h2 n (Some e) -> moved_frame h2 h3 ms e ->
  moved_frame h h3 (n :: ms) e.
Proof.
  intros [L1 O1] [L2 O2] [L3 O3]. split; intros p.
  - rewrite L3, L2, L1, fmap_cons, (decide_ext (p ∈ _ :: _) (p = PNode n \/ p ∈ PNode <$> ms)) by apply elem_of_cons.
    repeat case_decide; tauto.
  - by rewrite O3, O2, O1.
Qed.

Lemma advance_loop_spec a c e now : (forall d, e <> TimeoutHalf a d) ->
  forall ys es s V fuel Q,
  lists_rep (st_lists s) V -> V !! TimeoutHalf a c = Some ys -> V !! e = Some es ->
  current (timeout_at s a) = Some (TimeoutHalf a c) -> (length ys <= fuel)%nat ->
  Z.of_nat (length ys) + Z.of_nat (length es) <= SIZE_MAX ->
  Z.of_nat (length ys) <= timeout_count (timeout_at s a) <= SIZE_MAX ->
  (forall s', lists_rep (st_lists s') (<[e := es ++ due (wake_at s) now ys]>
                 (<[TimeoutHalf a c := not_due (wake_at s) now ys]> V)) ->
     moved_frame (st_lists s) (st_lists s') (due (wake_at s) now ys) e ->
     st_wake s' = st_wake s -> timeout_frame s s' a ->
     timeout_at s' a = mk_hr_timeout_list (current (timeout_at s a)) (overflow (timeout_at s a))
       (last_tick (timeout_at s a))
       (timeout_count (timeout_at s a) - Z.of_nat (length (due (wake_at s) now ys))) -> Q HR_OK s') ->
  wp (timeout_advance_loop fuel a now e (head (PNode <$> ys))) Q s.
Proof.
  intros He. induction ys as [|y ys IH]; intros es s V fuel Q Rep Hc Hes Hcur Hf Hb Hcnt K.
  - assert (wp (retM HR_OK) Q s) as G.
    { apply wp_ret, K; simpl; try done.
      - by rewrite app_nil_r, (insert_id V) by done; rewrite insert_id.
      - destruct (timeout_at s a); simpl. f_equal. lia. }
    by destruct fuel.
  - destruct fuel as [|fuel]; simpl in Hf; [lia|]. simpl in K, Hb, Hcnt.
    cbn [head fmap list_fmap timeout_advance_loop container_of]. wp_step. wp_step.
    destruct (now <? wake_at s y) eqn:Ey.
    { wp_step. apply K; try done; simpl.
      - rewrite app_nil_r, (insert_id V) by done. by rewrite insert_id.
      - destruct (timeout_at s a); simpl. f_equal. lia. }
    rewrite Hcur, (hr_list_next_spec _ _ _ (rep_ring _ _ Rep _ _ Hc) y [] ys eq_refl).
    wp_step. wp_step. apply (hr_list_remove_spec (st_lists s) V (TimeoutHalf a c) y Rep [] ys); [done|].
    intros h1 Rep1 F1. rewrite bool_decide_false by tauto. wp_step. wp_step.
    apply (hr_list_push_back_spec h1 _ e y Rep1 es); [by rewrite lookup_insert_ne| |lia|].
    { rewrite (lf_list _ _ _ _ F1). by rewrite decide_True. }
    intros h2 Rep2 F2. rewrite bool_decide_false by tauto. wp_step. wp_step.
    set (s2 := set_timeout_count a _ _).
    assert (Ht : timeout_at s2 a = mk_hr_timeout_list (current (timeout_at s a)) (overflow (timeout_at s a))
                   (last_tick (timeout_at s a)) (timeout_count (timeout_at s a) - 1)).
    { unfold s2, set_timeout_count. rewrite timeout_at_set_timeout, decide_True by done.
      rewrite !timeout_at_set_lists. f_equal. apply u32_small. unfold UINT32_MAX, SIZE_MAX in *. lia. }
    assert (Hw2 : wake_at s2 = wake_at s) by done.
    apply (IH (es ++ [y]) s2 (<[e := es ++ [y]]> (<[TimeoutHalf a c := ys]> V))).
    + done.
    + rewrite lookup_insert_ne by done. by rewrite lookup_insert_eq.
    + by rewrite lookup_insert_eq.
    + by rewrite Ht.
    + lia.
    + rewrite length_app. simpl. lia.
    + rewrite Ht. simpl. lia.
    + intros s3 Rep3 F3 W3 TF3 Ht3. rewrite Hw2 in *. apply K.
      * rewrite <- app_assoc in Rep3. simpl in Rep3.
        rewrite (insert_insert_ne _ (TimeoutHalf a c) e) in Rep3 by done.
        by rewrite !insert_insert_eq in Rep3.
      * by eapply moved_frame_step.
      * done.
      * destruct TF3 as [P3 R3 O3]. constructor; [done..|]. intros d Hd. rewrite O3 by done.
        unfold s2, set_timeout_count. rewrite timeout_at_set_timeout, decide_False by done. done.
      * rewrite Ht3, Ht. simpl. f_equal. lia.
Qed.

(** One tick: the half that is current afterwards and what the code compares. *)
Lemma tick_epoch s V a T D b : timeout_rep s V a T D b ->
  let b' := if decide ((T + 1) / period = T / period) then b else negb b in
  (u32 (T + 1) <? u32 T) = bool_decide (b' <> b) /\
  (T + 1) / period = T / period + (if decide (b' = b) then 0 else 1) /\
  (b' <> b -> half V a b = []).
Proof.
  intros TR b'. pose proof (tr_time _ _ _ _ _ _ TR) as HT. rewrite !u32_epoch.
  pose proof (Z.div_mod T period ltac:(lia)). pose proof (Z.mod_pos_bound T period ltac:(lia)).
  pose proof (Z.div_mod (T + 1) period ltac:(lia)). pose proof (Z.mod_pos_bound (T + 1) period ltac:(lia)).
  assert (Hq : (T + 1) / period = T / period \/
               (T + 1) / period = T / period + 1 /\ T + 1 = period * ((T + 1) / period)) by lia.
  unfold b'. destruct (decide ((T + 1) / period = T / period)) as [E|E].
  - rewrite bool_decide_false, decide_True by tauto. split_and!; [apply Z.ltb_ge; lia|lia|tauto].
  - rewrite bool_decide_true, decide_False by (by destruct b).
    split_and!; [apply Z.ltb_lt; lia|lia|]. intros _.
    destruct (half V a b) as [|n ns] eqn:Eh; [done|]. exfalso.
    destruct (tr_now _ _ _ _ _ _ TR n) as [H3 H4]; [rewrite Eh; set_solver|].
    pose proof (Z.div_mod (D n) period ltac:(lia)). pose proof (Z.mod_pos_bound (D n) period ltac:(lia)). lia.
Qed.

Section advance.
Context (s : store) (V : view) (a : N) (T : Z) (D : node_addr -> Z) (b : bool).
Hypothesis TR : timeout_rep s V a T D b.
Let b' := if decide ((T + 1) / period = T / period) then b else negb b.

(** The half that becomes current holds the first pending nodes, the other
    one only nodes of the following epoch. *)
Lemma advance_pending : exists far,
  pending V a b = half V a b' ++ far /\ (b' = b -> far = half V a (negb b')) /\
  (b' <> b -> half V a (negb b') = []  /\ far = []) /\
  (forall x, x ∈ far -> T + 1 < D x /\ D x / period = (T + 1) / period + 1).
Proof.
  destruct (tick_epoch s V a T D b TR) as (_ & Hep & Hempty). fold b' in Hep, Hempty.
  unfold pending. destruct (decide (b' = b)) as [E|E].
  - exists (half V a (negb b')). rewrite E. split_and!; [done|done|done|]. intros x Hx.
    pose proof (tr_next _ _ _ _ _ _ TR x Hx). split; [|lia].
    destruct (Z.lt_ge_cases (T + 1) (D x)) as [|C]; [done|]. apply (Z.div_le_mono _ _ period) in C; lia.
  - exists []. rewrite (Hempty E). assert (negb b = b' /\ b = negb b') as [E1 E2] by (by destruct b, b').
    rewrite E1, app_nil_r. split_and!; [done|done| |set_solver]. intros _. rewrite <- E2. auto.
Qed.

Lemma advance_due :
  due (wake_at s) (u32 (T + 1)) (half V a b') = due D (T + 1) (pending V a b) /\
  not_due (wake_at s) (u32 (T + 1)) (half V a b') = not_due D (T + 1) (half V a b').
Proof.
  destruct advance_pending as (far & HP & _ & _ & Hfar).
  destruct (tick_epoch s V a T D b TR) as (_ & Hep & _). fold b' in Hep.
  destruct (due_ext (wake_at s) D (u32 (T + 1)) (T + 1) (half V a b')) as [-> ->].
  { intros m Hm. rewrite (half_wake_order s V a T D b b') by done. rewrite u32_epoch, Hep.
    destruct (Z.ltb_spec (T + 1) (D m)); [apply Z.ltb_lt|apply Z.ltb_ge]; lia. }
  split; [|done]. rewrite HP. symmetry. apply due_app_r. intros x Hx. by apply Hfar.
Qed.

(** The list swap and the new [last_tick]. *)
Definition rebased : store :=
  set_timeout a (mk_hr_timeout_list (Some (TimeoutHalf a b')) (Some (TimeoutHalf a (negb b')))
    (u32 (T + 1)) (timeout_count (timeout_at s a))) s.

Lemma advance_rebase {A} (k : M store A) Q : wp k Q rebased ->
  wp ((if u32 (T + 1) <? last_tick (timeout_at s a) then modifyM (swap_lists a) else retM tt) ;;;
      modifyM (set_last_tick a (u32 (T + 1))) ;;; k) Q s.
Proof.
  intros HR. destruct (tick_epoch s V a T D b TR) as (Hlt & _ & _). fold b' in Hlt.
  rewrite (tr_last _ _ _ _ _ _ TR), Hlt. unfold rebased in HR. destruct (decide (b' = b)) as [E|E].
  - rewrite bool_decide_false by tauto. wp_steps. unfold set_last_tick.
    rewrite (tr_current _ _ _ _ _ _ TR), (tr_overflow _ _ _ _ _ _ TR). by rewrite <- E.
  - rewrite bool_decide_true by tauto. assert (negb b = b' /\ b = negb b') as [E1 E2] by (by destruct b, b').
    wp_steps. unfold set_last_tick, swap_lists. rewrite timeout_at_set_timeout, decide_True by done. simpl.
    rewrite (tr_current _ _ _ _ _ _ TR), (tr_overflow _ _ _ _ _ _ TR), E1.
    unfold set_timeout in *; simpl. rewrite insert_insert_eq. by rewrite E2.
Qed.

Lemma timeout_rep_advance s' e :
  (forall d, e <> TimeoutHalf a d) -> st_wake s' = st_wake s ->
  timeout_at s' a = mk_hr_timeout_list (Some (TimeoutHalf a b')) (Some (TimeoutHalf a (negb b')))
    (u32 (T + 1)) (timeout_count (timeout_at s a) - Z.of_nat (length (due D (T + 1) (pending V a b)))) ->
  let V' := <[e := due D (T + 1) (pending V a b)]>
              (<[TimeoutHalf a b' := not_due D (T + 1) (half V a b')]> V) in
  timeout_rep s' V' a (T + 1) D b' /\ pending V' a b' = not_due D (T + 1) (pending V a b).
Proof.
  intros He Hw Ht V'. destruct advance_pending as (far & HP & Hsame & Hdiff & Hfar).
  destruct (tick_epoch s V a T D b TR) as (_ & Hep & _). fold b' in Hep.
  pose proof (tr_sorted _ _ _ _ _ _ TR) as HS.
  assert (Hh : forall c, half V' a c = if decide (c = b') then not_due D (T + 1) (half V a b') else half V a c).
  { intros c. unfold V'. rewrite half_insert_other by done. apply half_insert. }
  assert (Hfar' : half V a (negb b') = far).
  { destruct (decide (b' = b)) as [E|E]; [by rewrite Hsame|]. by destruct (Hdiff E) as [-> ->]. }
  assert (EP : pending V' a b' = not_due D (T + 1) (pending V a b)).
  { unfold pending at 1. rewrite !Hh, decide_True, decide_False by (by destruct b').
    rewrite HP, Hfar'. symmetry. apply due_app_r. intros x Hx. by apply Hfar. }
  assert (Hsub : forall m, m ∈ pending V' a b' <-> m ∈ pending V a b /\ T + 1 < D m).
  { intros m. rewrite EP. by apply due_spec. }
  assert (Hlen := f_equal length (due_app D (T + 1) (pending V a b))). rewrite length_app in Hlen.
  split; [|done]. constructor; rewrite ?Ht; try done.
  - pose proof (tr_time _ _ _ _ _ _ TR). lia.
  - intros c. unfold V'. rewrite lookup_insert_ne by done. fold V'. rewrite Hh.
    destruct (decide (c = b')) as [->|]; [by rewrite lookup_insert_eq|].
    rewrite lookup_insert_ne by congruence. apply TR.
  - intros m Hm. unfold wake_at. rewrite Hw. apply (tr_wake _ _ _ _ _ _ TR). by apply Hsub.
  - intros m Hm. assert (m ∈ pending V a b /\ T + 1 < D m) as [Hp Hgt].
    { apply Hsub. by eapply half_pending. }
    split; [done|]. rewrite Hep. rewrite Hh, decide_True in Hm by done.
    assert (Hm' : m ∈ half V a b').
    { apply (due_spec D (T + 1)) in Hm; [tauto|]. rewrite HP in HS. by eapply sorted_by_app_l. }
    destruct (decide (b' = b)) as [E|E]; rewrite ?E in Hm'.
    + pose proof (tr_now _ _ _ _ _ _ TR m Hm'). lia.
    + assert (b' = negb b) as E' by (by destruct b, b'). rewrite E' in Hm'. by apply (tr_next _ _ _ _ _ _ TR).
  - intros m Hm. rewrite Hh, decide_False, Hfar' in Hm by (by destruct b'). by apply Hfar.
  - rewrite EP. by apply sorted_by_not_due.
  - simpl. rewrite (tr_count _ _ _ _ _ _ TR), EP. lia.
  - rewrite EP. pose proof (tr_small _ _ _ _ _ _ TR). lia.
Qed.

Lemma timeout_advance_spec e Q :
  lists_rep (st_lists s) V -> V !! e = Some [] -> (forall d, e <> TimeoutHalf a d) ->
  (forall s' V', V' = <[e := due D (T + 1) (pending V a b)]>
                        (<[TimeoutHalf a b' := not_due D (T + 1) (half V a b')]> V) ->
     lists_rep (st_lists s') V' -> timeout_rep s' V' a (T + 1) D b' ->
     pending V' a b' = not_due D (T + 1) (pending V a b) ->
     moved_frame (st_lists s) (st_lists s') (due D (T + 1) (pending V a b)) e ->
     st_wake s' = st_wake s -> timeout_frame s s' a -> Q HR_OK s') ->
  wp (hr_timeout_list_advance (Some a) (u32 (T + 1)) (Some e)) Q s.
Proof.
  intros Rep He Hne K. unfold hr_timeout_list_advance. wp_step. wp_step.
  rewrite (hr_list_is_empty_spec _ _ _ (rep_ring _ _ Rep _ _ He)), bool_decide_true by done. cbn [negb].
  apply advance_rebase. wp_step. wp_step. destruct advance_due as [E1 E2].
  assert (Ht : timeout_at rebased a = mk_hr_timeout_list (Some (TimeoutHalf a b')) (Some (TimeoutHalf a (negb b')))
                 (u32 (T + 1)) (timeout_count (timeout_at s a))).
  { unfold rebased. by rewrite timeout_at_set_timeout, decide_True. }
  pose proof (tr_half _ _ _ _ _ _ TR b') as Hl. pose proof (rep_ring _ _ Rep _ _ Hl) as R.
  rewrite Ht; cbn [current]. change (st_lists rebased) with (st_lists s).
  rewrite (hr_list_front_spec _ _ _ R).
  pose proof (half_pending_length V a b b'). pose proof (tr_small _ _ _ _ _ _ TR).
  apply (advance_loop_spec a b' e (u32 (T + 1)) Hne (half V a b') [] rebased V); try done.
  - by rewrite Ht.
  - unfold scan_fuel. change (st_lists rebased) with (st_lists s). rewrite (ring_size _ _ _ R). lia.
  - simpl. lia.
  - rewrite Ht. simpl. rewrite (tr_count _ _ _ _ _ _ TR). lia.
  - change (wake_at rebased) with (wake_at s). rewrite E1, E2.
    intros s' Rep' MF Hw [TF1 TF2 TF3] Ht'. rewrite Ht in Ht'.
    destruct (timeout_rep_advance s' e Hne Hw Ht') as [TR' EP].
    apply (K s' _ eq_refl); try done. constructor; [done|done|]. intros c Hc. rewrite TF3 by done.
    unfold rebased. by rewrite timeout_at_set_timeout, decide_False.
Qed.
End advance.

(** ** Initialisation and the validator *)

Lemma timeout_init_spec s V a tick Q :
  lists_rep (st_lists s) V -> 0 <= tick <= UINT32_MAX ->
  (forall c, V !! TimeoutHalf a c = None \/ V !! TimeoutHalf a c = Some []) ->
  (forall s' V', V' = <[TimeoutHalf a true := []]> (<[TimeoutHalf a false := []]> V) ->
     lists_rep (st_lists s') V' -> (forall D, timeout_rep s' V' a tick D false) ->
     (forall m, node_at (st_lists s') (PNode m) = node_at (st_lists s) (PNode m)) ->
     st_wake s' = st_wake s -> timeout_frame s s' a -> Q tt s') ->
  wp (hr_timeout_list_init (Some a) tick) Q s.
Proof.
  intros Rep Hb Hl K. unfold hr_timeout_list_init.
  wp_step. wp_step. eapply wp_intro; [apply init_run|].
  wp_step. wp_step. eapply wp_intro; [apply init_run|]. wp_step.
  set (V' := <[TimeoutHalf a true := []]> (<[TimeoutHalf a false := []]> V)).
  assert (Hh : forall c, half V' a c = []).
  { intros c. unfold V'. rewrite !half_insert. by destruct c. }
  apply (K _ V' eq_refl).
  - apply rep_inited; [by apply rep_inited|]. rewrite lookup_insert_ne by done. apply Hl.
  - intros D. split; unfold pending; rewrite ?timeout_at_set_timeout, ?decide_True, ?Hh by done; try done.
    + lia.
    + by rewrite u32_small.
    + intros c. rewrite Hh. unfold V'. destruct c; by simplify_map_eq.
    + intros n. by rewrite elem_of_nil.
    + intros n. by rewrite elem_of_nil.
    + intros n. by rewrite elem_of_nil.
    + constructor.
  - intros m. simpl. by rewrite !inited_node.
  - done.
  - constructor; try done. intros c Hc. by rewrite timeout_at_set_timeout, decide_False.
Qed.

Lemma half_wake_sorted s V a T D b c : timeout_rep s V a T D b -> sorted_by (wake_at s) (half V a c).
Proof.
  intros TR. set (k := period * (T / period + if decide (c = b) then 0 else 1)).
  assert (HS : sorted_by D (half V a c)).
  { pose proof (tr_sorted _ _ _ _ _ _ TR) as HS. unfold pending in HS.
    destruct (decide (c = b)) as [->|]; [by eapply sorted_by_app_l|].
    assert (c = negb b) as -> by (by destruct b, c). by eapply sorted_by_app_r. }
  apply (sorted_by_shift D (wake_at s) k); [|done].
  intros x Hx. rewrite (half_wake_order s V a T D b c) by done. unfold k. lia.
Qed.

Lemma timeout_validate_complete s V a T D b :
  lists_rep (st_lists s) V -> timeout_rep s V a T D b -> hr_timeout_list_validate s (Some a) = true.
Proof.
  intros Rep TR. unfold hr_timeout_list_validate.
  rewrite (tr_current _ _ _ _ _ _ TR), (tr_overflow _ _ _ _ _ _ TR).
  assert (R : forall c, ring (st_lists s) (TimeoutHalf a c) (half V a c)).
  { intros c. apply (rep_ring _ _ Rep), TR. }
  rewrite !bool_decide_false by (try done; by destruct b). cbn [orb].
  rewrite !(validate_complete _ _ _ (R _)). cbn [negb orb]. unfold hr_timeout_order_is_valid.
  rewrite !(proj2 (order_check_iff wake_at s _ _ (R _))) by (by eapply half_wake_sorted). cbn [negb orb].
  rewrite !(hr_list_size_spec _ _ _ (R _)), (tr_count _ _ _ _ _ _ TR).
  apply Z.eqb_eq. pose proof (tr_small _ _ _ _ _ _ TR) as H. unfold pending in *. rewrite length_app in *.
  rewrite u32_small; unfold SIZE_MAX, UINT32_MAX in *; lia.
Qed.
