(* ===== verification/KState.v ===== *)
(** The state of the kernel: control blocks, globals, the port and the raw
    memory of stacks and message buffers.

    A control block is the [storage] of the public object, so the pointer to
    the public object and the pointer to its control block are the same name.
    The list nodes and list heads embedded in a control block live in
    [ks_store] under their own addresses ([ReadyNode t], [OwnedMutexes t], ...);
    the records below hold the remaining fields. Uninitialised static storage
    is zero, which is the default of every map. *)
From S2P Require Import Prelude Types HrList Store.
From stdpp Require Import gmap list.
From Stdlib Require Import ZArith.
Open Scope Z_scope.

(** ** Configuration of the build ([config/hairtos_config.h])

    The switches that the configuration header lets a build override, and the
    addresses the linker assigns to the kernel's own functions, strings and
    stacks: every definition and theorem is parametric in them. *)
Class Config := {
  HR_CFG_PREEMPTION : bool;
  HR_CFG_TIME_SLICING : bool;
  HR_CFG_TIME_SLICE_TICKS : Z;
  address_of_hr_task_exit_error : Z;
  address_of_hr_idle_task : Z;
  address_of_hr_timer_service_entry : Z;
  address_of_idle_name : Z;
  address_of_timer_service_name : Z;
  address_of_g_idle_stack : Z;
  address_of_g_timer_service_stack : Z;
}.
(** The default configuration, with some addresses of a linked image. *)
Definition default_config : Config :=
  {| HR_CFG_PREEMPTION := true; HR_CFG_TIME_SLICING := true; HR_CFG_TIME_SLICE_TICKS := 1;
     address_of_hr_task_exit_error := 0x08000101; address_of_hr_idle_task := 0x08000201;
     address_of_hr_timer_service_entry := 0x08000301; address_of_idle_name := 0x08004000;
     address_of_timer_service_name := 0x08004010; address_of_g_idle_stack := 0x20000000;
     address_of_g_timer_service_stack := 0x20000400 |}.

Definition HR_CFG_TASK_MAGIC : Z := 0x48525453.
Definition HR_CFG_QUEUE_MAGIC : Z := 0x48525155.
Definition HR_CFG_SEMAPHORE_MAGIC : Z := 0x48525345.
Definition HR_CFG_MUTEX_MAGIC : Z := 0x48524D58.
Definition HR_CFG_TIMER_MAGIC : Z := 0x4852544D.
Definition HR_CFG_STACK_GUARD_VALUE : Z := 0xDEADBEEF.
Definition HR_STACK_FILL_WORD : Z := 0xA5A5A5A5.
Definition HR_CFG_MIN_TASK_STACK_WORDS : Z := 32.
Definition HR_CFG_IDLE_STACK_WORDS : Z := 128.
Definition HR_CFG_TIMER_TASK_STACK_WORDS : Z := 160.
Definition HR_CFG_TIMER_TASK_PRIORITY : Z := HR_CFG_IDLE_PRIORITY - 1.
Definition INT32_MAX : Z := 2147483647.

(** ** Enumerations *)

Inductive hr_kernel_state : Type :=
| HR_KERNEL_STATE_RESET
| HR_KERNEL_STATE_INITIALIZED
| HR_KERNEL_STATE_RUNNING
| HR_KERNEL_STATE_PANIC.

Inductive hr_task_state : Type :=
| HR_TASK_STATE_INVALID
| HR_TASK_STATE_CREATED
| HR_TASK_STATE_READY
| HR_TASK_STATE_RUNNING
| HR_TASK_STATE_BLOCKED
| HR_TASK_STATE_SUSPENDED.

Inductive hr_task_wait_kind : Type :=
| HR_TASK_WAIT_NONE
| HR_TASK_WAIT_DELAY
| HR_TASK_WAIT_QUEUE_SEND
| HR_TASK_WAIT_QUEUE_RECEIVE
| HR_TASK_WAIT_SEMAPHORE_TAKE
| HR_TASK_WAIT_MUTEX_LOCK.

#[export] Instance hr_kernel_state_eq_dec : EqDecision hr_kernel_state.
Proof. solve_decision. Defined.
#[export] Instance hr_task_state_eq_dec : EqDecision hr_task_state.
Proof. solve_decision. Defined.
#[export] Instance hr_task_wait_kind_eq_dec : EqDecision hr_task_wait_kind.
Proof. solve_decision. Defined.

(** What [void *waiting_object] designates. *)
Inductive wait_object : Type :=
| WTimeoutList
| WQueue (q : queue_ptr)
| WSemaphore (s : sem_ptr)
| WMutex (m : mutex_ptr).
#[export] Instance wait_object_eq_dec : EqDecision wait_object.
Proof. solve_decision. Defined.

(** The values of the function pointer [hr_task_wait_cleanup_t]. *)
Inductive hr_task_wait_cleanup : Type := Hr_mutex_wait_cleanup.
#[export] Instance hr_task_wait_cleanup_eq_dec : EqDecision hr_task_wait_cleanup.
Proof. solve_decision. Defined.

(** ** Control blocks *)

Record hr_task_control_block_t : Type := mk_tcb {
  t_stack_pointer : option Z;
  t_stack_low : option Z;
  t_stack_high : option Z;
  t_name : option Z;
  t_entry : option Z;
  t_argument : option Z;
  t_state : hr_task_state;
  t_suspended_resume_state : hr_task_state;
  t_base_priority : Z;
  t_effective_priority : Z;
  t_wake_tick : Z;
  t_time_slice_remaining : Z;
  t_waiting_object : option wait_object;
  t_blocked_wait_list : option list_addr;
  t_wait_buffer : option Z;
  t_wait_cleanup : option hr_task_wait_cleanup;
  t_wait_result : hr_status;
  t_wait_kind : hr_task_wait_kind;
  t_owned_mutex_count : Z;
  t_stack_words : Z;
  t_critical_nesting : Z;
  t_runtime_counter : Z;
  t_magic : Z;
}.

Record hr_semaphore_control_block_t : Type := mk_scb {
  sem_count : Z;
  sem_max_count : Z;
  sem_magic : Z;
}.

Record hr_mutex_control_block_t : Type := mk_mcb {
  mx_owner : option N;
  mx_recursion_count : Z;
  mx_recursive : bool;
  mx_magic : Z;
}.

Record hr_queue_control_block_t : Type := mk_qcb {
  q_storage : option Z;
  q_item_size : Z;
  q_capacity : Z;
  q_head : Z;
  q_tail : Z;
  q_count : Z;
  q_magic : Z;
}.

Record hr_timer_control_block_t : Type := mk_tmcb {
  tm_name : option Z;
  tm_callback : option Z;
  tm_argument : option Z;
  tm_period_ticks : Z;
  tm_pending_count : Z;
  tm_magic : Z;
  tm_auto_reload : bool;
  tm_active : bool;
  tm_callback_running : bool;
}.

Definition zero_tcb : hr_task_control_block_t :=
  mk_tcb None None None None None None HR_TASK_STATE_INVALID HR_TASK_STATE_INVALID 0 0 0 0
    None None None None HR_OK HR_TASK_WAIT_NONE 0 0 0 0 0.
Definition zero_scb : hr_semaphore_control_block_t := mk_scb 0 0 0.
Definition zero_mcb : hr_mutex_control_block_t := mk_mcb None 0 false 0.
Definition zero_qcb : hr_queue_control_block_t := mk_qcb None 0 0 0 0 0 0.
Definition zero_tmcb : hr_timer_control_block_t := mk_tmcb None None None 0 0 0 false false false.
#[export] Instance tcb_inhabited : Inhabited hr_task_control_block_t := populate zero_tcb.
#[export] Instance scb_inhabited : Inhabited hr_semaphore_control_block_t := populate zero_scb.
#[export] Instance mcb_inhabited : Inhabited hr_mutex_control_block_t := populate zero_mcb.
#[export] Instance qcb_inhabited : Inhabited hr_queue_control_block_t := populate zero_qcb.
#[export] Instance tmcb_inhabited : Inhabited hr_timer_control_block_t := populate zero_tmcb.

(** ** Globals and the port *)

(** The file-scope variables of [hr_kernel.c] and [hr_timer.c]. *)
Record kernel_globals : Type := mk_globals {
  g_kernel_state : hr_kernel_state;
  g_current_task : option N;
  g_hr_current_task_control_block : option N;
  g_task_count : Z;
  g_kernel_tick : Z;
  g_switch_reasons : Z;
  g_timer_system_initialized : bool;
}.

(** The processor state the port layer reads and writes: whether an exception
    is active ([ipsr]), the interrupt mask, the pending bit of PendSV, the
    configuration and control register, the three bytes of the system handler
    priorities the kernel sets and the current value of SysTick. *)
Record port_state : Type := mk_port {
  pt_inside_isr : bool;
  pt_primask : Z;
  pt_pendsv : bool;
  pt_ccr : Z;
  pt_shp_svc : Z;
  pt_shp_pendsv : Z;
  pt_shp_systick : Z;
  pt_systick_val : Z;
}.

Record kstate : Type := mk_kstate {
  ks_store : store;
  ks_tasks : gmap N hr_task_control_block_t;
  ks_semaphores : gmap N hr_semaphore_control_block_t;
  ks_mutexes : gmap N hr_mutex_control_block_t;
  ks_queues : gmap N hr_queue_control_block_t;
  ks_timers : gmap N hr_timer_control_block_t;
  ks_globals : kernel_globals;
  ks_port : port_state;
  ks_words : gmap Z Z;
  ks_bytes : gmap Z Z;
}.

(** The statically allocated objects. *)
Definition g_idle_task : task_ptr := 0%N.
Definition g_timer_service_task : task_ptr := 1%N.
Definition g_scheduler : N := 0%N.
Definition g_timeout_list : N := 0%N.
Definition g_timer_timeouts : N := 1%N.
Definition g_timer_signal : sem_ptr := 0%N.

Definition reset_globals : kernel_globals := mk_globals HR_KERNEL_STATE_RESET None None 0 0 0 false.
Definition reset_state : kstate :=
  mk_kstate empty_store ∅ ∅ ∅ ∅ ∅ reset_globals (mk_port false 0 false 0 0 0 0 0) ∅ ∅.

(** ** Field updates *)

Definition t_set_stack_pointer v (c : hr_task_control_block_t) : hr_task_control_block_t :=
  mk_tcb v (t_stack_low c) (t_stack_high c) (t_name c) (t_entry c) (t_argument c) (t_state c) (t_suspended_resume_state c) (t_base_priority c) (t_effective_priority c) (t_wake_tick c) (t_time_slice_remaining c) (t_waiting_object c) (t_blocked_wait_list c) (t_wait_buffer c) (t_wait_cleanup c) (t_wait_result c) (t_wait_kind c) (t_owned_mutex_count c) (t_stack_words c) (t_critical_nesting c) (t_runtime_counter c) (t_magic c).
Definition t_set_stack_low v (c : hr_task_control_block_t) : hr_task_control_block_t :=
  mk_tcb (t_stack_pointer c) v (t_stack_high c) (t_name c) (t_entry c) (t_argument c) (t_state c) (t_suspended_resume_state c) (t_base_priority c) (t_effective_priority c) (t_wake_tick c) (t_time_slice_remaining c) (t_waiting_object c) (t_blocked_wait_list c) (t_wait_buffer c) (t_wait_cleanup c) (t_wait_result c) (t_wait_kind c) (t_owned_mutex_count c) (t_stack_words c) (t_critical_nesting c) (t_runtime_counter c) (t_magic c).
Definition t_set_stack_high v (c : hr_task_control_block_t) : hr_task_control_block_t :=
  mk_tcb (t_stack_pointer c) (t_stack_low c) v (t_name c) (t_entry c) (t_argument c) (t_state c) (t_suspended_resume_state c) (t_base_priority c) (t_effective_priority c) (t_wake_tick c) (t_time_slice_remaining c) (t_waiting_object c) (t_blocked_wait_list c) (t_wait_buffer c) (t_wait_cleanup c) (t_wait_result c) (t_wait_kind c) (t_owned_mutex_count c) (t_stack_words c) (t_critical_nesting c) (t_runtime_counter c) (t_magic c).
Definition t_set_name v (c : hr_task_control_block_t) : hr_task_control_block_t :=
  mk_tcb (t_stack_pointer c) (t_stack_low c) (t_stack_high c) v (t_entry c) (t_argument c) (t_state c) (t_suspended_resume_state c) (t_base_priority c) (t_effective_priority c) (t_wake_tick c) (t_time_slice_remaining c) (t_waiting_object c) (t_blocked_wait_list c) (t_wait_buffer c) (t_wait_cleanup c) (t_wait_result c) (t_wait_kind c) (t_owned_mutex_count c) (t_stack_words c) (t_critical_nesting c) (t_runtime_counter c) (t_magic c).
Definition t_set_entry v (c : hr_task_control_block_t) : hr_task_control_block_t :=
  mk_tcb (t_stack_pointer c) (t_stack_low c) (t_stack_high c) (t_name c) v (t_argument c) (t_state c) (t_suspended_resume_state c) (t_base_priority c) (t_effective_priority c) (t_wake_tick c) (t_time_slice_remaining c) (t_waiting_object c) (t_blocked_wait_list c) (t_wait_buffer c) (t_wait_cleanup c) (t_wait_result c) (t_wait_kind c) (t_owned_mutex_count c) (t_stack_words c) (t_critical_nesting c) (t_runtime_counter c) (t_magic c).
Definition t_set_argument v (c : hr_task_control_block_t) : hr_task_control_block_t :=
  mk_tcb (t_stack_pointer c) (t_stack_low c) (t_stack_high c) (t_name c) (t_entry c) v (t_state c) (t_suspended_resume_state c) (t_base_priority c) (t_effective_priority c) (t_wake_tick c) (t_time_slice_remaining c) (t_waiting_object c) (t_blocked_wait_list c) (t_wait_buffer c) (t_wait_cleanup c) (t_wait_result c) (t_wait_kind c) (t_owned_mutex_count c) (t_stack_words c) (t_critical_nesting c) (t_runtime_counter c) (t_magic c).
Definition t_set_state v (c : hr_task_control_block_t) : hr_task_control_block_t :=
  mk_tcb (t_stack_pointer c) (t_stack_low c) (t_stack_high c) (t_name c) (t_entry c) (t_argument c) v (t_suspended_resume_state c) (t_base_priority c) (t_effective_priority c) (t_wake_tick c) (t_time_slice_remaining c) (t_waiting_object c) (t_blocked_wait_list c) (t_wait_buffer c) (t_wait_cleanup c) (t_wait_result c) (t_wait_kind c) (t_owned_mutex_count c) (t_stack_words c) (t_critical_nesting c) (t_runtime_counter c) (t_magic c).
Definition t_set_suspended_resume_state v (c : hr_task_control_block_t) : hr_task_control_block_t :=
  mk_tcb (t_stack_pointer c) (t_stack_low c) (t_stack_high c) (t_name c) (t_entry c) (t_argument c) (t_state c) v (t_base_priority c) (t_effective_priority c) (t_wake_tick c) (t_time_slice_remaining c) (t_waiting_object c) (t_blocked_wait_list c) (t_wait_buffer c) (t_wait_cleanup c) (t_wait_result c) (t_wait_kind c) (t_owned_mutex_count c) (t_stack_words c) (t_critical_nesting c) (t_runtime_counter c) (t_magic c).
Definition t_set_base_priority v (c : hr_task_control_block_t) : hr_task_control_block_t :=
  mk_tcb (t_stack_pointer c) (t_stack_low c) (t_stack_high c) (t_name c) (t_entry c) (t_argument c) (t_state c) (t_suspended_resume_state c) v (t_effective_priority c) (t_wake_tick c) (t_time_slice_remaining c) (t_waiting_object c) (t_blocked_wait_list c) (t_wait_buffer c) (t_wait_cleanup c) (t_wait_result c) (t_wait_kind c) (t_owned_mutex_count c) (t_stack_words c) (t_critical_nesting c) (t_runtime_counter c) (t_magic c).
Definition t_set_effective_priority v (c : hr_task_control_block_t) : hr_task_control_block_t :=
  mk_tcb (t_stack_pointer c) (t_stack_low c) (t_stack_high c) (t_name c) (t_entry c) (t_argument c) (t_state c) (t_suspended_resume_state c) (t_base_priority c) v (t_wake_tick c) (t_time_slice_remaining c) (t_waiting_object c) (t_blocked_wait_list c) (t_wait_buffer c) (t_wait_cleanup c) (t_wait_result c) (t_wait_kind c) (t_owned_mutex_count c) (t_stack_words c) (t_critical_nesting c) (t_runtime_counter c) (t_magic c).
Definition t_set_wake_tick v (c : hr_task_control_block_t) : hr_task_control_block_t :=
  mk_tcb (t_stack_pointer c) (t_stack_low c) (t_stack_high c) (t_name c) (t_entry c) (t_argument c) (t_state c) (t_suspended_resume_state c) (t_base_priority c) (t_effective_priority c) v (t_time_slice_remaining c) (t_waiting_object c) (t_blocked_wait_list c) (t_wait_buffer c) (t_wait_cleanup c) (t_wait_result c) (t_wait_kind c) (t_owned_mutex_count c) (t_stack_words c) (t_critical_nesting c) (t_runtime_counter c) (t_magic c).
Definition t_set_time_slice_remaining v (c : hr_task_control_block_t) : hr_task_control_block_t :=
  mk_tcb (t_stack_pointer c) (t_stack_low c) (t_stack_high c) (t_name c) (t_entry c) (t_argument c) (t_state c) (t_suspended_resume_state c) (t_base_priority c) (t_effective_priority c) (t_wake_tick c) v (t_waiting_object c) (t_blocked_wait_list c) (t_wait_buffer c) (t_wait_cleanup c) (t_wait_result c) (t_wait_kind c) (t_owned_mutex_count c) (t_stack_words c) (t_critical_nesting c) (t_runtime_counter c) (t_magic c).
Definition t_set_waiting_object v (c : hr_task_control_block_t) : hr_task_control_block_t :=
  mk_tcb (t_stack_pointer c) (t_stack_low c) (t_stack_high c) (t_name c) (t_entry c) (t_argument c) (t_state c) (t_suspended_resume_state c) (t_base_priority c) (t_effective_priority c) (t_wake_tick c) (t_time_slice_remaining c) v (t_blocked_wait_list c) (t_wait_buffer c) (t_wait_cleanup c) (t_wait_result c) (t_wait_kind c) (t_owned_mutex_count c) (t_stack_words c) (t_critical_nesting c) (t_runtime_counter c) (t_magic c).
Definition t_set_blocked_wait_list v (c : hr_task_control_block_t) : hr_task_control_block_t :=
  mk_tcb (t_stack_pointer c) (t_stack_low c) (t_stack_high c) (t_name c) (t_entry c) (t_argument c) (t_state c) (t_suspended_resume_state c) (t_base_priority c) (t_effective_priority c) (t_wake_tick c) (t_time_slice_remaining c) (t_waiting_object c) v (t_wait_buffer c) (t_wait_cleanup c) (t_wait_result c) (t_wait_kind c) (t_owned_mutex_count c) (t_stack_words c) (t_critical_nesting c) (t_runtime_counter c) (t_magic c).
Definition t_set_wait_buffer v (c : hr_task_control_block_t) : hr_task_control_block_t :=
  mk_tcb (t_stack_pointer c) (t_stack_low c) (t_stack_high c) (t_name c) (t_entry c) (t_argument c) (t_state c) (t_suspended_resume_state c) (t_base_priority c) (t_effective_priority c) (t_wake_tick c) (t_time_slice_remaining c) (t_waiting_object c) (t_blocked_wait_list c) v (t_wait_cleanup c) (t_wait_result c) (t_wait_kind c) (t_owned_mutex_count c) (t_stack_words c) (t_critical_nesting c) (t_runtime_counter c) (t_magic c).
Definition t_set_wait_cleanup v (c : hr_task_control_block_t) : hr_task_control_block_t :=
  mk_tcb (t_stack_pointer c) (t_stack_low c) (t_stack_high c) (t_name c) (t_entry c) (t_argument c) (t_state c) (t_suspended_resume_state c) (t_base_priority c) (t_effective_priority c) (t_wake_tick c) (t_time_slice_remaining c) (t_waiting_object c) (t_blocked_wait_list c) (t_wait_buffer c) v (t_wait_result c) (t_wait_kind c) (t_owned_mutex_count c) (t_stack_words c) (t_critical_nesting c) (t_runtime_counter c) (t_magic c).
Definition t_set_wait_result v (c : hr_task_control_block_t) : hr_task_control_block_t :=
  mk_tcb (t_stack_pointer c) (t_stack_low c) (t_stack_high c) (t_name c) (t_entry c) (t_argument c) (t_state c) (t_suspended_resume_state c) (t_base_priority c) (t_effective_priority c) (t_wake_tick c) (t_time_slice_remaining c) (t_waiting_object c) (t_blocked_wait_list c) (t_wait_buffer c) (t_wait_cleanup c) v (t_wait_kind c) (t_owned_mutex_count c) (t_stack_words c) (t_critical_nesting c) (t_runtime_counter c) (t_magic c).
Definition t_set_wait_kind v (c : hr_task_control_block_t) : hr_task_control_block_t :=
  mk_tcb (t_stack_pointer c) (t_stack_low c) (t_stack_high c) (t_name c) (t_entry c) (t_argument c) (t_state c) (t_suspended_resume_state c) (t_base_priority c) (t_effective_priority c) (t_wake_tick c) (t_time_slice_remaining c) (t_waiting_object c) (t_blocked_wait_list c) (t_wait_buffer c) (t_wait_cleanup c) (t_wait_result c) v (t_owned_mutex_count c) (t_stack_words c) (t_critical_nesting c) (t_runtime_counter c) (t_magic c).
Definition t_set_owned_mutex_count v (c : hr_task_control_block_t) : hr_task_control_block_t :=
  mk_tcb (t_stack_pointer c) (t_stack_low c) (t_stack_high c) (t_name c) (t_entry c) (t_argument c) (t_state c) (t_suspended_resume_state c) (t_base_priority c) (t_effective_priority c) (t_wake_tick c) (t_time_slice_remaining c) (t_waiting_object c) (t_blocked_wait_list c) (t_wait_buffer c) (t_wait_cleanup c) (t_wait_result c) (t_wait_kind c) v (t_stack_words c) (t_critical_nesting c) (t_runtime_counter c) (t_magic c).
Definition t_set_stack_words v (c : hr_task_control_block_t) : hr_task_control_block_t :=
  mk_tcb (t_stack_pointer c) (t_stack_low c) (t_stack_high c) (t_name c) (t_entry c) (t_argument c) (t_state c) (t_suspended_resume_state c) (t_base_priority c) (t_effective_priority c) (t_wake_tick c) (t_time_slice_remaining c) (t_waiting_object c) (t_blocked_wait_list c) (t_wait_buffer c) (t_wait_cleanup c) (t_wait_result c) (t_wait_kind c) (t_owned_mutex_count c) v (t_critical_nesting c) (t_runtime_counter c) (t_magic c).
Definition t_set_critical_nesting v (c : hr_task_control_block_t) : hr_task_control_block_t :=
  mk_tcb (t_stack_pointer c) (t_stack_low c) (t_stack_high c) (t_name c) (t_entry c) (t_argument c) (t_state c) (t_suspended_resume_state c) (t_base_priority c) (t_effective_priority c) (t_wake_tick c) (t_time_slice_remaining c) (t_waiting_object c) (t_blocked_wait_list c) (t_wait_buffer c) (t_wait_cleanup c) (t_wait_result c) (t_wait_kind c) (t_owned_mutex_count c) (t_stack_words c) v (t_runtime_counter c) (t_magic c).
Definition t_set_runtime_counter v (c : hr_task_control_block_t) : hr_task_control_block_t :=
  mk_tcb (t_stack_pointer c) (t_stack_low c) (t_stack_high c) (t_name c) (t_entry c) (t_argument c) (t_state c) (t_suspended_resume_state c) (t_base_priority c) (t_effective_priority c) (t_wake_tick c) (t_time_slice_remaining c) (t_waiting_object c) (t_blocked_wait_list c) (t_wait_buffer c) (t_wait_cleanup c) (t_wait_result c) (t_wait_kind c) (t_owned_mutex_count c) (t_stack_words c) (t_critical_nesting c) v (t_magic c).
Definition t_set_magic v (c : hr_task_control_block_t) : hr_task_control_block_t :=
  mk_tcb (t_stack_pointer c) (t_stack_low c) (t_stack_high c) (t_name c) (t_entry c) (t_argument c) (t_state c) (t_suspended_resume_state c) (t_base_priority c) (t_effective_priority c) (t_wake_tick c) (t_time_slice_remaining c) (t_waiting_object c) (t_blocked_wait_list c) (t_wait_buffer c) (t_wait_cleanup c) (t_wait_result c) (t_wait_kind c) (t_owned_mutex_count c) (t_stack_words c) (t_critical_nesting c) (t_runtime_counter c) v.

Definition sem_set_count v (c : hr_semaphore_control_block_t) : hr_semaphore_control_block_t :=
  mk_scb v (sem_max_count c) (sem_magic c).
Definition sem_set_max_count v (c : hr_semaphore_control_block_t) : hr_semaphore_control_block_t :=
  mk_scb (sem_count c) v (sem_magic c).
Definition sem_set_magic v (c : hr_semaphore_control_block_t) : hr_semaphore_control_block_t :=
  mk_scb (sem_count c) (sem_max_count c) v.

Definition mx_set_owner v (c : hr_mutex_control_block_t) : hr_mutex_control_block_t :=
  mk_mcb v (mx_recursion_count c) (mx_recursive c) (mx_magic c).
Definition mx_set_recursion_count v (c : hr_mutex_control_block_t) : hr_mutex_control_block_t :=
  mk_mcb (mx_owner c) v (mx_recursive c) (mx_magic c).
Definition mx_set_recursive v (c : hr_mutex_control_block_t) : hr_mutex_control_block_t :=
  mk_mcb (mx_owner c) (mx_recursion_count c) v (mx_magic c).
Definition mx_set_magic v (c : hr_mutex_control_block_t) : hr_mutex_control_block_t :=
  mk_mcb (mx_owner c) (mx_recursion_count c) (mx_recursive c) v.

Definition q_set_storage v (c : hr_queue_control_block_t) : hr_queue_control_block_t :=
  mk_qcb v (q_item_size c) (q_capacity c) (q_head c) (q_tail c) (q_count c) (q_magic c).
Definition q_set_item_size v (c : hr_queue_control_block_t) : hr_queue_control_block_t :=
  mk_qcb (q_storage c) v (q_capacity c) (q_head c) (q_tail c) (q_count c) (q_magic c).
Definition q_set_capacity v (c : hr_queue_control_block_t) : hr_queue_control_block_t :=
  mk_qcb (q_storage c) (q_item_size c) v (q_head c) (q_tail c) (q_count c) (q_magic c).
Definition q_set_head v (c : hr_queue_control_block_t) : hr_queue_control_block_t :=
  mk_qcb (q_storage c) (q_item_size c) (q_capacity c) v (q_tail c) (q_count c) (q_magic c).
Definition q_set_tail v (c : hr_queue_control_block_t) : hr_queue_control_block_t :=
  mk_qcb (q_storage c) (q_item_size c) (q_capacity c) (q_head c) v (q_count c) (q_magic c).
Definition q_set_count v (c : hr_queue_control_block_t) : hr_queue_control_block_t :=
  mk_qcb (q_storage c) (q_item_size c) (q_capacity c) (q_head c) (q_tail c) v (q_magic c).
Definition q_set_magic v (c : hr_queue_control_block_t) : hr_queue_control_block_t :=
  mk_qcb (q_storage c) (q_item_size c) (q_capacity c) (q_head c) (q_tail c) (q_count c) v.

Definition tm_set_name v (c : hr_timer_control_block_t) : hr_timer_control_block_t :=
  mk_tmcb v (tm_callback c) (tm_argument c) (tm_period_ticks c) (tm_pending_count c) (tm_magic c) (tm_auto_reload c) (tm_active c) (tm_callback_running c).
Definition tm_set_callback v (c : hr_timer_control_block_t) : hr_timer_control_block_t :=
  mk_tmcb (tm_name c) v (tm_argument c) (tm_period_ticks c) (tm_pending_count c) (tm_magic c) (tm_auto_reload c) (tm_active c) (tm_callback_running c).
Definition tm_set_argument v (c : hr_timer_control_block_t) : hr_timer_control_block_t :=
  mk_tmcb (tm_name c) (tm_callback c) v (tm_period_ticks c) (tm_pending_count c) (tm_magic c) (tm_auto_reload c) (tm_active c) (tm_callback_running c).
Definition tm_set_period_ticks v (c : hr_timer_control_block_t) : hr_timer_control_block_t :=
  mk_tmcb (tm_name c) (tm_callback c) (tm_argument c) v (tm_pending_count c) (tm_magic c) (tm_auto_reload c) (tm_active c) (tm_callback_running c).
Definition tm_set_pending_count v (c : hr_timer_control_block_t) : hr_timer_control_block_t :=
  mk_tmcb (tm_name c) (tm_callback c) (tm_argument c) (tm_period_ticks c) v (tm_magic c) (tm_auto_reload c) (tm_active c) (tm_callback_running c).
Definition tm_set_magic v (c : hr_timer_control_block_t) : hr_timer_control_block_t :=
  mk_tmcb (tm_name c) (tm_callback c) (tm_argument c) (tm_period_ticks c) (tm_pending_count c) v (tm_auto_reload c) (tm_active c) (tm_callback_running c).
Definition tm_set_auto_reload v (c : hr_timer_control_block_t) : hr_timer_control_block_t :=
  mk_tmcb (tm_name c) (tm_callback c) (tm_argument c) (tm_period_ticks c) (tm_pending_count c) (tm_magic c) v (tm_active c) (tm_callback_running c).
Definition tm_set_active v (c : hr_timer_control_block_t) : hr_timer_control_block_t :=
  mk_tmcb (tm_name c) (tm_callback c) (tm_argument c) (tm_period_ticks c) (tm_pending_count c) (tm_magic c) (tm_auto_reload c) v (tm_callback_running c).
Definition tm_set_callback_running v (c : hr_timer_control_block_t) : hr_timer_control_block_t :=
  mk_tmcb (tm_name c) (tm_callback c) (tm_argument c) (tm_period_ticks c) (tm_pending_count c) (tm_magic c) (tm_auto_reload c) (tm_active c) v.

Definition g_set_kernel_state v (c : kernel_globals) : kernel_globals :=
  mk_globals v (g_current_task c) (g_hr_current_task_control_block c) (g_task_count c) (g_kernel_tick c) (g_switch_reasons c) (g_timer_system_initialized c).
Definition g_set_current_task v (c : kernel_globals) : kernel_globals :=
  mk_globals (g_kernel_state c) v (g_hr_current_task_control_block c) (g_task_count c) (g_kernel_tick c) (g_switch_reasons c) (g_timer_system_initialized c).
Definition g_set_hr_current_task_control_block v (c : kernel_globals) : kernel_globals :=
  mk_globals (g_kernel_state c) (g_current_task c) v (g_task_count c) (g_kernel_tick c) (g_switch_reasons c) (g_timer_system_initialized c).
Definition g_set_task_count v (c : kernel_globals) : kernel_globals :=
  mk_globals (g_kernel_state c) (g_current_task c) (g_hr_current_task_control_block c) v (g_kernel_tick c) (g_switch_reasons c) (g_timer_system_initialized c).
Definition g_set_kernel_tick v (c : kernel_globals) : kernel_globals :=
  mk_globals (g_kernel_state c) (g_current_task c) (g_hr_current_task_control_block c) (g_task_count c) v (g_switch_reasons c) (g_timer_system_initialized c).
Definition g_set_switch_reasons v (c : kernel_globals) : kernel_globals :=
  mk_globals (g_kernel_state c) (g_current_task c) (g_hr_current_task_control_block c) (g_task_count c) (g_kernel_tick c) v (g_timer_system_initialized c).
Definition g_set_timer_system_initialized v (c : kernel_globals) : kernel_globals :=
  mk_globals (g_kernel_state c) (g_current_task c) (g_hr_current_task_control_block c) (g_task_count c) (g_kernel_tick c) (g_switch_reasons c) v.

Definition pt_set_inside_isr v (c : port_state) : port_state :=
  mk_port v (pt_primask c) (pt_pendsv c) (pt_ccr c) (pt_shp_svc c) (pt_shp_pendsv c) (pt_shp_systick c) (pt_systick_val c).
Definition pt_set_primask v (c : port_state) : port_state :=
  mk_port (pt_inside_isr c) v (pt_pendsv c) (pt_ccr c) (pt_shp_svc c) (pt_shp_pendsv c) (pt_shp_systick c) (pt_systick_val c).
Definition pt_set_pendsv v (c : port_state) : port_state :=
  mk_port (pt_inside_isr c) (pt_primask c) v (pt_ccr c) (pt_shp_svc c) (pt_shp_pendsv c) (pt_shp_systick c) (pt_systick_val c).
Definition pt_set_ccr v (c : port_state) : port_state :=
  mk_port (pt_inside_isr c) (pt_primask c) (pt_pendsv c) v (pt_shp_svc c) (pt_shp_pendsv c) (pt_shp_systick c) (pt_systick_val c).
Definition pt_set_shp_svc v (c : port_state) : port_state :=
  mk_port (pt_inside_isr c) (pt_primask c) (pt_pendsv c) (pt_ccr c) v (pt_shp_pendsv c) (pt_shp_systick c) (pt_systick_val c).
Definition pt_set_shp_pendsv v (c : port_state) : port_state :=
  mk_port (pt_inside_isr c) (pt_primask c) (pt_pendsv c) (pt_ccr c) (pt_shp_svc c) v (pt_shp_systick c) (pt_systick_val c).
Definition pt_set_shp_systick v (c : port_state) : port_state :=
  mk_port (pt_inside_isr c) (pt_primask c) (pt_pendsv c) (pt_ccr c) (pt_shp_svc c) (pt_shp_pendsv c) v (pt_systick_val c).
Definition pt_set_systick_val v (c : port_state) : port_state :=
  mk_port (pt_inside_isr c) (pt_primask c) (pt_pendsv c) (pt_ccr c) (pt_shp_svc c) (pt_shp_pendsv c) (pt_shp_systick c) v.

Definition ks_set_store v (c : kstate) : kstate :=
  mk_kstate v (ks_tasks c) (ks_semaphores c) (ks_mutexes c) (ks_queues c) (ks_timers c) (ks_globals c) (ks_port c) (ks_words c) (ks_bytes c).
Definition ks_set_tasks v (c : kstate) : kstate :=
  mk_kstate (ks_store c) v (ks_semaphores c) (ks_mutexes c) (ks_queues c) (ks_timers c) (ks_globals c) (ks_port c) (ks_words c) (ks_bytes c).
Definition ks_set_semaphores v (c : kstate) : kstate :=
  mk_kstate (ks_store c) (ks_tasks c) v (ks_mutexes c) (ks_queues c) (ks_timers c) (ks_globals c) (ks_port c) (ks_words c) (ks_bytes c).
Definition ks_set_mutexes v (c : kstate) : kstate :=
  mk_kstate (ks_store c) (ks_tasks c) (ks_semaphores c) v (ks_queues c) (ks_timers c) (ks_globals c) (ks_port c) (ks_words c) (ks_bytes c).
Definition ks_set_queues v (c : kstate) : kstate :=
  mk_kstate (ks_store c) (ks_tasks c) (ks_semaphores c) (ks_mutexes c) v (ks_timers c) (ks_globals c) (ks_port c) (ks_words c) (ks_bytes c).
Definition ks_set_timers v (c : kstate) : kstate :=
  mk_kstate (ks_store c) (ks_tasks c) (ks_semaphores c) (ks_mutexes c) (ks_queues c) v (ks_globals c) (ks_port c) (ks_words c) (ks_bytes c).
Definition ks_set_globals v (c : kstate) : kstate :=
  mk_kstate (ks_store c) (ks_tasks c) (ks_semaphores c) (ks_mutexes c) (ks_queues c) (ks_timers c) v (ks_port c) (ks_words c) (ks_bytes c).
Definition ks_set_port v (c : kstate) : kstate :=
  mk_kstate (ks_store c) (ks_tasks c) (ks_semaphores c) (ks_mutexes c) (ks_queues c) (ks_timers c) (ks_globals c) v (ks_words c) (ks_bytes c).
Definition ks_set_words v (c : kstate) : kstate :=
  mk_kstate (ks_store c) (ks_tasks c) (ks_semaphores c) (ks_mutexes c) (ks_queues c) (ks_timers c) (ks_globals c) (ks_port c) v (ks_bytes c).
Definition ks_set_bytes v (c : kstate) : kstate :=
  mk_kstate (ks_store c) (ks_tasks c) (ks_semaphores c) (ks_mutexes c) (ks_queues c) (ks_timers c) (ks_globals c) (ks_port c) (ks_words c) v.

#[export] Instance store_part : Part store kstate := {| part_get := ks_store; part_set := ks_set_store |}.
#[export] Instance lists_kpart : Part lmem kstate :=
  {| part_get := fun s => st_lists (ks_store s);
     part_set := fun h s => ks_set_store (set_lists h (ks_store s)) s |}.

Definition task_at (s : kstate) (t : task_ptr) : hr_task_control_block_t := ks_tasks s !!! t.
Definition sem_at (s : kstate) (x : sem_ptr) : hr_semaphore_control_block_t := ks_semaphores s !!! x.
Definition mutex_at (s : kstate) (x : mutex_ptr) : hr_mutex_control_block_t := ks_mutexes s !!! x.
Definition queue_at (s : kstate) (x : queue_ptr) : hr_queue_control_block_t := ks_queues s !!! x.
Definition timer_at (s : kstate) (x : timer_ptr) : hr_timer_control_block_t := ks_timers s !!! x.

Definition upd_task (t : task_ptr) (f : hr_task_control_block_t -> hr_task_control_block_t) : M kstate unit :=
  modifyM (fun s => ks_set_tasks (<[t := f (task_at s t)]> (ks_tasks s)) s).
Definition upd_sem (x : sem_ptr) (f : hr_semaphore_control_block_t -> hr_semaphore_control_block_t) : M kstate unit :=
  modifyM (fun s => ks_set_semaphores (<[x := f (sem_at s x)]> (ks_semaphores s)) s).
Definition upd_mutex (x : mutex_ptr) (f : hr_mutex_control_block_t -> hr_mutex_control_block_t) : M kstate unit :=
  modifyM (fun s => ks_set_mutexes (<[x := f (mutex_at s x)]> (ks_mutexes s)) s).
Definition upd_queue (x : queue_ptr) (f : hr_queue_control_block_t -> hr_queue_control_block_t) : M kstate unit :=
  modifyM (fun s => ks_set_queues (<[x := f (queue_at s x)]> (ks_queues s)) s).
Definition upd_timer (x : timer_ptr) (f : hr_timer_control_block_t -> hr_timer_control_block_t) : M kstate unit :=
  modifyM (fun s => ks_set_timers (<[x := f (timer_at s x)]> (ks_timers s)) s).
Definition upd_globals (f : kernel_globals -> kernel_globals) : M kstate unit :=
  modifyM (fun s => ks_set_globals (f (ks_globals s)) s).
Definition upd_port (f : port_state -> port_state) : M kstate unit :=
  modifyM (fun s => ks_set_port (f (ks_port s)) s).

(** [bytes[index] = 0U] over the embedded nodes and list heads. *)
Definition zero_node (n : node_addr) : M kstate unit :=
  modifyM (fun s => ks_set_store (set_priority n 0 (set_wake n 0
    (set_lists (upd_node (PNode n) (fun _ => null_node) (st_lists (ks_store s))) (ks_store s)))) s).
Definition zero_list (l : list_addr) : M kstate unit :=
  lift (modifyM (fun h => upd_size l (fun _ => 0) (upd_node (PRoot l) (fun _ => null_node) h))).

(** Shorthands for reading the linked flag and the owner of a node. *)
Definition is_linked (s : kstate) (n : node_addr) : bool :=
  hr_list_node_is_linked (st_lists (ks_store s)) (Some (PNode n)).
Definition node_list (s : kstate) (n : node_addr) : option list_addr :=
  list_of (node_at (st_lists (ks_store s)) (PNode n)).
Definition node_owner (s : kstate) (n : node_addr) : option obj_ptr :=
  hr_list_node_owner (st_lists (ks_store s)) (Some (PNode n)).

(** The cast of an owner pointer to a task pointer: [None] for a null pointer. *)
Definition as_task (p : option obj_ptr) : option (option task_ptr) :=
  match p with None => Some None | Some (PTask t) => Some (Some t) | Some _ => None end.
(** [k] with the task an owner pointer designates; a pointer to an object of
    another type is undefined behaviour. *)
Definition cast_task {A} (p : option obj_ptr) (k : option task_ptr -> M kstate A) : M kstate A :=
  match as_task p with Some t => k t | None => ubM end.

(** ** The port layer: [arch/arm/cortex-m3/hr_port.c] *)

Definition hr_port_enter_critical : M kstate Z :=
  let* s := getM in
  upd_port (pt_set_primask 1) ;;;
  retM (pt_primask (ks_port s)).
Definition hr_port_exit_critical (irq_state : Z) : M kstate unit := upd_port (pt_set_primask irq_state).
Definition hr_port_is_inside_isr (s : kstate) : bool := pt_inside_isr (ks_port s).
Definition hr_port_request_context_switch : M kstate unit := upd_port (pt_set_pendsv true).
Definition hr_port_yield_from_isr (required : bool) : M kstate unit :=
  if required then hr_port_request_context_switch else retM tt.
Definition HR_PORT_SCB_CCR_STKALIGN : Z := Z.shiftl 1 9.
Definition HR_PORT_PRIORITY_HIGHEST : Z := 0x00.
Definition HR_PORT_PRIORITY_MEDIUM : Z := 0x80.
Definition HR_PORT_PRIORITY_LOWEST : Z := 0xFF.
Definition hr_port_configure_kernel_exceptions : M kstate unit :=
  upd_port (fun p => pt_set_ccr (Z.lor (pt_ccr p) HR_PORT_SCB_CCR_STKALIGN) p) ;;;
  upd_port (pt_set_shp_svc HR_PORT_PRIORITY_HIGHEST) ;;;
  upd_port (pt_set_shp_pendsv HR_PORT_PRIORITY_LOWEST) ;;;
  upd_port (pt_set_shp_systick HR_PORT_PRIORITY_MEDIUM) ;;;
  upd_port (pt_set_systick_val 0).

(** [hr_context.c]: the application's view of the critical section. *)
Definition hr_critical_enter : M kstate Z := hr_port_enter_critical.
Definition hr_critical_exit (state : Z) : M kstate unit := hr_port_exit_critical state.
Definition hr_is_inside_isr (s : kstate) : bool := hr_port_is_inside_isr s.
Definition hr_yield_from_isr (switch_required : bool) : M kstate unit := hr_port_yield_from_isr switch_required.
