(* ===== verification/PortStack.v ===== *)
(** The initial stack frame of a task: [arch/arm/cortex-m3/hr_port_stack.c] and
    the frame layout of [hr_portmacro.h].

    Addresses are 32-bit byte addresses; [ks_words] is the word-addressed memory
    of the stacks, indexed by byte address. *)
From S2P Require Import Prelude Types KState.
From stdpp Require Import gmap list.
From Stdlib Require Import ZArith.
Open Scope Z_scope.

Definition HR_PORT_INITIAL_XPSR : Z := 0x01000000.
Definition HR_PORT_THUMB_ADDRESS_BIT : Z := 0x00000001.
Definition HR_PORT_ADDRESS_MASK : Z := 0xFFFFFFFE.
Definition HR_PORT_INITIAL_FRAME_WORDS : Z := 16.
Definition HR_PORT_STACK_ALIGNMENT_BYTES : Z := 8.

Definition hr_port_align_down (value alignment : Z) : Z :=
  Z.land value (u32 (Z.lnot (u32 (alignment - 1)))).

(** [memory[address / 4] = value] on the word memory. *)
Definition write_word (address value : Z) : M kstate unit :=
  modifyM (fun s => ks_set_words (<[address := value]> (ks_words s)) s).
Definition read_word (s : kstate) (address : Z) : Z := ks_words s !!! address.

(** [p[index] = value] for a word pointer [p]. *)
Definition write_index (p index value : Z) : M kstate unit := write_word (u32 (p + 4 * index)) value.

Definition hr_port_initialize_stack_raw (stack_low : option Z) (stack_words : Z)
    (entry_address argument_address exit_address : Z) : M kstate (option Z) :=
  match stack_low with
  | None => retM None
  | Some low_address =>
      if stack_words <? HR_PORT_INITIAL_FRAME_WORDS then retM None
      else
        let top_address := u32 (low_address + 4 * stack_words) in
        let aligned_top_address := hr_port_align_down top_address HR_PORT_STACK_ALIGNMENT_BYTES in
        if aligned_top_address <=? low_address then retM None
        else
          let available_words := (aligned_top_address - low_address) / 4 in
          if available_words <? HR_PORT_INITIAL_FRAME_WORDS then retM None
          else
            let stack_pointer := u32 (aligned_top_address - 4 * HR_PORT_INITIAL_FRAME_WORDS) in
            write_index stack_pointer 0 0x44444444 ;;;
            write_index stack_pointer 1 0x55555555 ;;;
            write_index stack_pointer 2 0x66666666 ;;;
            write_index stack_pointer 3 0x77777777 ;;;
            write_index stack_pointer 4 0x88888888 ;;;
            write_index stack_pointer 5 0x99999999 ;;;
            write_index stack_pointer 6 0xAAAAAAAA ;;;
            write_index stack_pointer 7 0xBBBBBBBB ;;;
            write_index stack_pointer 8 argument_address ;;;
            write_index stack_pointer 9 0x11111111 ;;;
            write_index stack_pointer 10 0x22222222 ;;;
            write_index stack_pointer 11 0x33333333 ;;;
            write_index stack_pointer 12 0x12121212 ;;;
            write_index stack_pointer 13 (Z.lor exit_address HR_PORT_THUMB_ADDRESS_BIT) ;;;
            write_index stack_pointer 14 (Z.land entry_address HR_PORT_ADDRESS_MASK) ;;;
            write_index stack_pointer 15 HR_PORT_INITIAL_XPSR ;;;
            retM (Some stack_pointer)
  end.

(** The pointers are truncated to 32-bit addresses; a null pointer is 0. *)
Definition pointer_address (p : option Z) : Z := match p with Some a => u32 a | None => 0 end.

Definition hr_port_initialize_stack (stack_low : option Z) (stack_words : Z)
    (entry argument exit_handler : option Z) : M kstate (option Z) :=
  hr_port_initialize_stack_raw stack_low stack_words (pointer_address entry)
    (pointer_address argument) (pointer_address exit_handler).
