(* ===== verification/TaskCore.v ===== *)
(** Task objects: creation, state transitions and queries of [kernel/src/hr_task.c].
    (The blocking calls of that file are in [TaskApi].) *)
From S2P Require Import Prelude Types HrList Store Scheduler WaitList Timeout KState PortStack.
From stdpp Require Import gmap list.
From Stdlib Require Import ZArith.
Open Scope Z_scope.

Definition hr_task_zero_control_block (t : task_ptr) : M kstate unit :=
  upd_task t (fun _ => zero_tcb) ;;;
  zero_node (ReadyNode t) ;;; zero_node (WaitNode t) ;;;
  zero_node (TimeoutNode t) ;;; zero_node (AllTaskNode t) ;;;
  zero_list (OwnedMutexes t).

(** [for (index = 0U; index < stack_words; index++) stack[index] = FILL]. *)
Fixpoint task_fill_loop (n : nat) (stack index : Z) : M kstate unit :=
  match n with
  | O => retM tt
  | S n' => write_index stack index HR_STACK_FILL_WORD ;;; task_fill_loop n' stack (index + 1)
  end.
Definition hr_task_fill_stack (stack stack_words : Z) : M kstate unit :=
  task_fill_loop (Z.to_nat stack_words) stack 0 ;;;
  write_index stack 0 HR_CFG_STACK_GUARD_VALUE.

(** The control block is the storage of the object. *)
Definition hr_task_control_block (task : option task_ptr) : option task_ptr := task.

Definition hr_task_is_valid (s : kstate) (task : option task_ptr) : bool :=
  match hr_task_control_block task with
  | None => false
  | Some c => t_magic (task_at s c) =? HR_CFG_TASK_MAGIC
  end.

Definition hr_task_transition_state (task : option task_ptr) (expected next : hr_task_state)
  : M kstate hr_status :=
  let* s := getM in
  match task with
  | Some t =>
      if negb (hr_task_is_valid s task) then retM HR_ERROR_INVALID_ARGUMENT
      else if bool_decide (t_state (task_at s t) <> expected) then retM HR_ERROR_INVALID_STATE
      else upd_task t (t_set_state next) ;;; retM HR_OK
  | None => retM HR_ERROR_INVALID_ARGUMENT
  end.

Section config.
Context `{Config}.

Definition hr_task_create_static (task : option task_ptr) (name entry argument stack : option Z)
    (stack_words priority : Z) : M kstate hr_status :=
  match task, name, entry, stack with
  | Some t, Some _, Some _, Some low =>
      let* s := getM in
      if hr_task_is_valid s task then retM HR_ERROR_INVALID_STATE
      else if (stack_words <? HR_CFG_MIN_TASK_STACK_WORDS) || (HR_CFG_PRIORITY_COUNT <=? priority)
      then retM HR_ERROR_INVALID_ARGUMENT
      else
        hr_task_zero_control_block t ;;;
        hr_task_fill_stack low stack_words ;;;
        let* sp := hr_port_initialize_stack stack stack_words entry argument
          (Some address_of_hr_task_exit_error) in
        match sp with
        | None => retM HR_ERROR_INVALID_STATE
        | Some _ =>
            upd_task t (t_set_stack_pointer sp) ;;;
            upd_task t (t_set_stack_low stack) ;;;
            upd_task t (t_set_stack_high (Some (u32 (low + 4 * (stack_words - 1))))) ;;;
            upd_task t (t_set_name name) ;;;
            upd_task t (t_set_entry entry) ;;;
            upd_task t (t_set_argument argument) ;;;
            upd_task t (t_set_state HR_TASK_STATE_CREATED) ;;;
            upd_task t (t_set_suspended_resume_state HR_TASK_STATE_INVALID) ;;;
            upd_task t (t_set_base_priority priority) ;;;
            upd_task t (t_set_effective_priority priority) ;;;
            upd_task t (t_set_wake_tick 0) ;;;
            upd_task t (t_set_time_slice_remaining HR_CFG_TIME_SLICE_TICKS) ;;;
            upd_task t (t_set_waiting_object None) ;;;
            upd_task t (t_set_blocked_wait_list None) ;;;
            upd_task t (t_set_wait_buffer None) ;;;
            upd_task t (t_set_wait_cleanup None) ;;;
            upd_task t (t_set_wait_result HR_OK) ;;;
            upd_task t (t_set_wait_kind HR_TASK_WAIT_NONE) ;;;
            lift (hr_list_init (Some (OwnedMutexes t))) ;;;
            upd_task t (t_set_owned_mutex_count 0) ;;;
            upd_task t (t_set_stack_words stack_words) ;;;
            upd_task t (t_set_critical_nesting 0) ;;;
            upd_task t (t_set_runtime_counter 0) ;;;
            lift (hr_ready_node_init (Some (ReadyNode t)) (Some (PTask t)) priority) ;;;
            lift (hr_wait_node_init (Some (WaitNode t)) (Some (PTask t)) priority) ;;;
            lift (hr_timeout_node_init (Some (TimeoutNode t)) (Some (PTask t))) ;;;
            lift (hr_list_node_init (Some (PNode (AllTaskNode t))) (Some (PTask t))) ;;;
            upd_task t (t_set_magic HR_CFG_TASK_MAGIC) ;;;
            retM HR_OK
        end
  | _, _, _, _ => retM HR_ERROR_INVALID_ARGUMENT
  end.
End config.

(** ** Queries *)

(** A field of a valid task, [d] for an invalid one. *)
Definition task_query {A} (s : kstate) (task : option task_ptr) (f : hr_task_control_block_t -> A) (d : A) : A :=
  match task with
  | Some t => if hr_task_is_valid s task then f (task_at s t) else d
  | None => d
  end.
Definition hr_task_get_name s task := task_query s task t_name None.
Definition hr_task_get_state s task := task_query s task t_state HR_TASK_STATE_INVALID.
Definition hr_task_get_base_priority s task := task_query s task t_base_priority 0.
Definition hr_task_get_effective_priority s task := task_query s task t_effective_priority 0.
Definition hr_task_get_stack_words s task := task_query s task t_stack_words 0.

(** [for (index = 1U; index < stack_words; index++)], until a used word. *)
Fixpoint watermark_loop (n : nat) (s : kstate) (stack_low index free_words : Z) : Z :=
  match n with
  | O => free_words
  | S n' =>
      if negb (read_word s (u32 (stack_low + 4 * index)) =? HR_STACK_FILL_WORD) then free_words
      else watermark_loop n' s stack_low (index + 1) (free_words + 1)
  end.
Definition hr_task_get_stack_high_watermark (s : kstate) (task : option task_ptr) : Z :=
  match task with
  | None => 0
  | Some t =>
      if negb (hr_task_is_valid s task) then 0
      else match t_stack_low (task_at s t) with
           | None => 0
           | Some low => watermark_loop (Z.to_nat (t_stack_words (task_at s t) - 1)) s low 1 0
           end
  end.

Definition hr_task_stack_guard_is_valid (s : kstate) (task : option task_ptr) : bool :=
  match task with
  | None => false
  | Some t =>
      hr_task_is_valid s task &&
      match t_stack_low (task_at s t) with
      | None => false
      | Some low => read_word s low =? HR_CFG_STACK_GUARD_VALUE
      end
  end.
