(* ===== verification/KernelBase.v ===== *)
(** The base of [kernel/src/hr_kernel.c]: panic, switch reasons, time slices, the
    queries of the kernel state and the change of a task's effective priority. *)
From S2P Require Import Prelude Types HrList Store Scheduler WaitList Timeout KState TaskCore.
From stdpp Require Import gmap list.
From Stdlib Require Import ZArith.
Open Scope Z_scope.

Definition HR_SWITCH_REASON_NONE : Z := 0.
Definition HR_SWITCH_REASON_YIELD : Z := Z.shiftl 1 0.
Definition HR_SWITCH_REASON_BLOCK : Z := Z.shiftl 1 1.
Definition HR_SWITCH_REASON_PREEMPT : Z := Z.shiftl 1 2.
Definition HR_SWITCH_REASON_TIME_SLICE : Z := Z.shiftl 1 3.

(** [status == HR_OK] and the discarding cast [(void)call]. *)
Definition ok (status : hr_status) : bool := bool_decide (status = HR_OK).
Definition ignoreM {S A} (m : M S A) : M S unit := m ;;; retM tt.

Definition glob (s : kstate) : kernel_globals := ks_globals s.

(** [hr_kernel_panic_at]; the diagnostics note is empty in the default build. *)
Definition hr_kernel_panic : M kstate unit := upd_globals (g_set_kernel_state HR_KERNEL_STATE_PANIC).

Definition hr_kernel_mark_switch_reason (reason : Z) : M kstate unit :=
  upd_globals (fun g => g_set_switch_reasons (Z.lor (g_switch_reasons g) reason) g).

Definition hr_kernel_is_running (s : kstate) : bool :=
  bool_decide (g_kernel_state (glob s) = HR_KERNEL_STATE_RUNNING).
Definition hr_kernel_get_state (s : kstate) : hr_kernel_state := g_kernel_state (glob s).
Definition hr_kernel_get_tick (s : kstate) : Z := g_kernel_tick (glob s).
Definition hr_time_now (s : kstate) : Z := hr_kernel_get_tick s.
Definition hr_kernel_get_task_count (s : kstate) : Z := g_task_count (glob s).
Definition hr_kernel_current_task_internal (s : kstate) : option task_ptr := g_current_task (glob s).
Definition hr_task_current (s : kstate) : option task_ptr := hr_kernel_current_task_internal s.

(** A call that may block: it returns at once, or it has requested a context
    switch for the calling task [t] and, once [t] runs again, returns
    [t]'s [wait_result] (see [resumed_result]). *)
Inductive api_result : Type :=
| Returns (status : hr_status)
| Waits (t : task_ptr).
Definition resumed_result (s : kstate) (r : api_result) : hr_status :=
  match r with Returns status => status | Waits t => t_wait_result (task_at s t) end.

Section config.
Context `{Config}.
Definition hr_kernel_reload_time_slice (control_block : option task_ptr) : M kstate unit :=
  match control_block with
  | Some t => upd_task t (t_set_time_slice_remaining HR_CFG_TIME_SLICE_TICKS)
  | None => retM tt
  end.
End config.

(** The ready set and the timeout list of the kernel. *)
Definition add_ready (t : task_ptr) : M kstate hr_status :=
  lift (hr_scheduler_add_ready (Some g_scheduler) (Some (ReadyNode t))).
Definition remove_ready (t : task_ptr) : M kstate hr_status :=
  lift (hr_scheduler_remove_ready (Some g_scheduler) (Some (ReadyNode t))).
Definition add_timeout (t : task_ptr) (delay : Z) : M kstate hr_status :=
  lift (hr_timeout_list_insert (Some g_timeout_list) (Some (TimeoutNode t)) delay).
Definition remove_timeout (t : task_ptr) : M kstate hr_status :=
  lift (hr_timeout_list_remove (Some g_timeout_list) (Some (TimeoutNode t))).
Definition select_highest (s : kstate) : option node_addr :=
  hr_scheduler_select_highest (ks_store s) (Some g_scheduler).

(** Move a linked task to its new priority in the ready set or wait list. *)
Definition hr_kernel_set_task_effective_priority (control_block : option task_ptr) (priority : Z)
  : M kstate hr_status :=
  match control_block with
  | None => retM HR_ERROR_INVALID_ARGUMENT
  | Some t =>
      if HR_CFG_IDLE_PRIORITY <=? priority then retM HR_ERROR_INVALID_ARGUMENT
      else
        let* s := getM in
        if t_effective_priority (task_at s t) =? priority then retM HR_OK
        else
          let ready_linked := is_linked s (ReadyNode t) in
          let wait_linked := is_linked s (WaitNode t) in
          let wait_list := t_blocked_wait_list (task_at s t) in
          let* status := if ready_linked then remove_ready t else retM HR_OK in
          if negb (ok status) then retM status
          else
            let* status :=
              (if wait_linked then
                 match wait_list with
                 | None =>
                     (if ready_linked then ignoreM (add_ready t) else retM tt) ;;;
                     retM HR_ERROR_INTERNAL
                 | Some _ =>
                     let* status := lift (hr_wait_list_remove wait_list (Some (WaitNode t))) in
                     if negb (ok status) then
                       (if ready_linked then ignoreM (add_ready t) else retM tt) ;;; retM status
                     else retM HR_OK
                 end
               else retM HR_OK) in
            if negb (ok status) then retM status
            else
              upd_task t (t_set_effective_priority priority) ;;;
              lift (modifyM (set_priority (ReadyNode t) priority)) ;;;
              lift (modifyM (set_priority (WaitNode t) priority)) ;;;
              let* status := if ready_linked then add_ready t else retM HR_OK in
              if negb (ok status) then retM status
              else
                let* status :=
                  (if wait_linked then lift (hr_wait_list_insert wait_list (Some (WaitNode t)))
                   else retM HR_OK) in
                if negb (ok status) then retM status else retM HR_OK
  end.

Definition hr_kernel_current_should_preempt (s : kstate) : bool :=
  match g_current_task (glob s) with
  | None => false
  | Some t =>
      if negb (hr_kernel_is_running s) || negb (hr_task_is_valid s (Some t)) then false
      else bool_decide (t_state (task_at s t) = HR_TASK_STATE_RUNNING) &&
           hr_scheduler_should_preempt (ks_store s) (Some g_scheduler) (Some (ReadyNode t))
  end.
