(* ===== verification/MutexPriority.v ===== *)
(** Priority inheritance: the part of [kernel/src/hr_mutex.c] that recomputes the
    effective priority of mutex owners, and the cleanup of a mutex wait. *)
From S2P Require Import Prelude Types HrList Store Scheduler WaitList Timeout KState TaskCore KernelBase.
From stdpp Require Import gmap list.
From Stdlib Require Import ZArith.
Open Scope Z_scope.

(** [while (node != NULL)] over [owned_mutexes]: the most urgent waiter of the
    mutexes the task owns; [None] is an owner pointer of the wrong type. *)
Fixpoint required_priority_loop (fuel : nat) (s : kstate) (t : task_ptr) (node : option nptr)
    (priority : Z) : option Z :=
  match node with
  | None => Some priority
  | Some p =>
      match fuel, hr_list_node_owner (st_lists (ks_store s)) (Some p) with
      | S fuel', Some (PMutex m) =>
          if negb (mx_magic (mutex_at s m) =? HR_CFG_MUTEX_MAGIC)
          then Some (t_base_priority (task_at s t))
          else
            let priority :=
              match hr_wait_list_peek (ks_store s) (Some (MutexWaiters m)) with
              | Some w => if priority_at (ks_store s) w <? priority then priority_at (ks_store s) w else priority
              | None => priority
              end in
            required_priority_loop fuel' s t
              (hr_list_next (st_lists (ks_store s)) (Some (OwnedMutexes t)) node) priority
      | S _, None => Some (t_base_priority (task_at s t))
      | _, _ => None
      end
  end.

Definition hr_mutex_required_priority (s : kstate) (t : task_ptr) : option Z :=
  required_priority_loop (scan_fuel (ks_store s) (OwnedMutexes t)) s t
    (hr_list_front (st_lists (ks_store s)) (Some (OwnedMutexes t))) (t_base_priority (task_at s t)).

(** A task whose wait is still pending, administratively suspended or not. *)
Definition wait_pending (c : hr_task_control_block_t) : bool :=
  bool_decide (t_state c = HR_TASK_STATE_BLOCKED) ||
  (bool_decide (t_state c = HR_TASK_STATE_SUSPENDED) &&
   bool_decide (t_suspended_resume_state c = HR_TASK_STATE_BLOCKED)).

(** The recursion of [hr_mutex_recompute_task_priority] along the chain of
    owners; [depth] grows to [HR_CFG_MAX_TASKS] + 1 and [fuel] is the number of
    calls left before that bound refuses. *)
Fixpoint recompute_task_priority (fuel : nat) (task : option task_ptr) (depth : Z) : M kstate hr_status :=
  match fuel with
  | O => ubM
  | S fuel' =>
      match task with
      | None => retM HR_ERROR_INTERNAL
      | Some t =>
          if HR_CFG_MAX_TASKS <? depth then retM HR_ERROR_INTERNAL
          else
            let* s := getM in
            match hr_mutex_required_priority s t with
            | None => ubM
            | Some required =>
                let* status := hr_kernel_set_task_effective_priority task required in
                if negb (ok status) then retM status
                else
                  let* s := getM in
                  let c := task_at s t in
                  match t_waiting_object c with
                  | Some obj =>
                      if wait_pending c && bool_decide (t_wait_kind c = HR_TASK_WAIT_MUTEX_LOCK) then
                        match obj with
                        | WMutex m =>
                            match mx_owner (mutex_at s m) with
                            | Some o =>
                                if (mx_magic (mutex_at s m) =? HR_CFG_MUTEX_MAGIC) &&
                                   hr_task_is_valid s (Some o) && bool_decide (o <> t)
                                then recompute_task_priority fuel' (Some o) (depth + 1)
                                else retM HR_OK
                            | None => retM HR_OK
                            end
                        | _ => ubM
                        end
                      else retM HR_OK
                  | None => retM HR_OK
                  end
            end
      end
  end.

Definition hr_mutex_recompute_task_priority (task : option task_ptr) (depth : Z) : M kstate hr_status :=
  recompute_task_priority (S (S (Z.to_nat HR_CFG_MAX_TASKS))) task depth.

Definition hr_mutex_recompute_owner_priority (mutex : option mutex_ptr) : M kstate hr_status :=
  match mutex with
  | None => retM HR_ERROR_INVALID_ARGUMENT
  | Some m =>
      let* s := getM in
      if negb (mx_magic (mutex_at s m) =? HR_CFG_MUTEX_MAGIC) then retM HR_ERROR_INVALID_ARGUMENT
      else match mx_owner (mutex_at s m) with
           | None => retM HR_OK
           | Some o =>
               if negb (hr_task_is_valid s (Some o)) then retM HR_ERROR_INTERNAL
               else hr_mutex_recompute_task_priority (Some o) 0
           end
  end.

Definition hr_mutex_wait_cleanup (task : option task_ptr) (result : hr_status) : M kstate unit :=
  match task with
  | None => retM tt
  | Some t =>
      let* s := getM in
      let c := task_at s t in
      if bool_decide (result <> HR_ERROR_TIMEOUT) ||
         bool_decide (t_wait_kind c <> HR_TASK_WAIT_MUTEX_LOCK)
      then retM tt
      else match t_waiting_object c with
           | None => retM tt
           | Some (WMutex m) => ignoreM (hr_mutex_recompute_owner_priority (Some m))
           | Some _ => ubM
           end
  end.

(** The call through the [wait_cleanup] function pointer. *)
Definition call_cleanup (f : hr_task_wait_cleanup) (t : task_ptr) (result : hr_status) : M kstate unit :=
  match f with Hr_mutex_wait_cleanup => hr_mutex_wait_cleanup (Some t) result end.
