(* ===== verification/Kernel.v ===== *)
(** Task registration, blocking, wake-up and the context-switch decision:
    [kernel/src/hr_kernel.c] lines 118-829.

    A [bool *] out-parameter is part of the result: [Some b] when the call
    stored [b] through it, [None] when it did not store. *)
From S2P Require Import Prelude Types HrList Store Scheduler WaitList Timeout KState TaskCore KernelBase MutexPriority.
From stdpp Require Import gmap list.
From Stdlib Require Import ZArith.
Open Scope Z_scope.

Section config.
Context `{Config}.

Definition hr_kernel_register_task (task : option task_ptr) : M kstate hr_status :=
  let* s := getM in
  match task with
  | None => retM HR_ERROR_INVALID_STATE
  | Some t =>
      if bool_decide (g_kernel_state (glob s) <> HR_KERNEL_STATE_INITIALIZED) ||
         negb (hr_task_is_valid s task)
      then retM HR_ERROR_INVALID_STATE
      else if HR_CFG_MAX_TASKS <=? g_task_count (glob s) then retM HR_ERROR_NO_MEMORY
      else if bool_decide (t <> g_idle_task) &&
              (t_effective_priority (task_at s t) =? HR_CFG_IDLE_PRIORITY)
      then retM HR_ERROR_INVALID_ARGUMENT
      else if bool_decide (t_state (task_at s t) <> HR_TASK_STATE_CREATED) ||
              is_linked s (ReadyNode t) || is_linked s (AllTaskNode t)
      then retM HR_ERROR_INVALID_STATE
      else
        let* status := add_ready t in
        if negb (ok status) then retM status
        else
          let* status := lift (hr_list_push_back (Some AllTasks) (Some (PNode (AllTaskNode t)))) in
          if negb (ok status) then ignoreM (remove_ready t) ;;; retM status
          else
            let* status := hr_task_transition_state task HR_TASK_STATE_CREATED HR_TASK_STATE_READY in
            if negb (ok status) then
              ignoreM (lift (S := lmem) (hr_list_remove (Some (PNode (AllTaskNode t))))) ;;;
              ignoreM (remove_ready t) ;;;
              retM status
            else
              hr_kernel_reload_time_slice (Some t) ;;;
              upd_globals (fun g => g_set_task_count (u32 (g_task_count g + 1)) g) ;;;
              retM HR_OK
  end.

Definition hr_kernel_prepare_start : M kstate hr_status :=
  let* s := getM in
  if bool_decide (g_kernel_state (glob s) <> HR_KERNEL_STATE_INITIALIZED)
  then retM HR_ERROR_INVALID_STATE
  else match select_highest s with
       | None => retM HR_ERROR_INTERNAL
       | Some ready_node =>
           cast_task (node_owner s ready_node) (fun selected_task =>
             match selected_task with
             | None => retM HR_ERROR_INTERNAL
             | Some t =>
                 if negb (hr_task_is_valid s (Some t)) then retM HR_ERROR_INTERNAL
                 else if bool_decide (t_state (task_at s t) <> HR_TASK_STATE_READY)
                 then retM HR_ERROR_INVALID_STATE
                 else
                   let* status := hr_task_transition_state (Some t) HR_TASK_STATE_READY HR_TASK_STATE_RUNNING in
                   if negb (ok status) then retM HR_ERROR_INVALID_STATE
                   else
                     hr_kernel_reload_time_slice (Some t) ;;;
                     upd_globals (g_set_current_task (Some t)) ;;;
                     upd_globals (g_set_hr_current_task_control_block (Some t)) ;;;
                     upd_globals (g_set_kernel_state HR_KERNEL_STATE_RUNNING) ;;;
                     retM HR_OK
             end)
       end.

Definition hr_kernel_request_yield : M kstate unit :=
  let* irq_state := hr_port_enter_critical in
  let* s := getM in
  let request_switch :=
    match g_current_task (glob s) with
    | Some t => bool_decide (g_kernel_state (glob s) = HR_KERNEL_STATE_RUNNING) &&
                bool_decide (t_state (task_at s t) = HR_TASK_STATE_RUNNING)
    | None => false
    end in
  (if request_switch then hr_kernel_mark_switch_reason HR_SWITCH_REASON_YIELD else retM tt) ;;;
  hr_port_exit_critical irq_state ;;;
  if request_switch then hr_port_request_context_switch else retM tt.

Definition hr_kernel_delay_current (delay_ticks : Z) : M kstate hr_status :=
  let* s := getM in
  match g_current_task (glob s) with
  | None => retM HR_ERROR_INVALID_STATE
  | Some t =>
      if bool_decide (g_kernel_state (glob s) <> HR_KERNEL_STATE_RUNNING) ||
         bool_decide (t = g_idle_task) || (delay_ticks =? 0) || (delay_ticks =? HR_WAIT_FOREVER)
      then retM HR_ERROR_INVALID_STATE
      else if bool_decide (t_state (task_at s t) <> HR_TASK_STATE_RUNNING) ||
              negb (is_linked s (ReadyNode t)) || is_linked s (TimeoutNode t)
      then retM HR_ERROR_INVALID_STATE
      else
        let* status := remove_ready t in
        if negb (ok status) then retM status
        else
          let* status := add_timeout t delay_ticks in
          if negb (ok status) then ignoreM (add_ready t) ;;; retM status
          else
            let* status := hr_task_transition_state (Some t) HR_TASK_STATE_RUNNING HR_TASK_STATE_BLOCKED in
            if negb (ok status) then
              ignoreM (remove_timeout t) ;;; ignoreM (add_ready t) ;;; retM status
            else
              let* s := getM in
              upd_task t (t_set_wake_tick (u32 (g_kernel_tick (glob s) + delay_ticks))) ;;;
              upd_task t (t_set_waiting_object (Some WTimeoutList)) ;;;
              upd_task t (t_set_blocked_wait_list None) ;;;
              upd_task t (t_set_wait_buffer None) ;;;
              upd_task t (t_set_wait_result HR_OK) ;;;
              upd_task t (t_set_wait_kind HR_TASK_WAIT_DELAY) ;;;
              hr_kernel_reload_time_slice (Some t) ;;;
              hr_kernel_mark_switch_reason HR_SWITCH_REASON_BLOCK ;;;
              retM HR_OK
  end.

(** The result is the status and the value of [*switch_required]. *)
Definition hr_kernel_suspend_task (task : option task_ptr) : M kstate (hr_status * bool) :=
  let* s := getM in
  match task with
  | None => retM (HR_ERROR_INVALID_STATE, false)
  | Some t =>
      if bool_decide (g_kernel_state (glob s) <> HR_KERNEL_STATE_RUNNING) ||
         negb (hr_task_is_valid s task) || bool_decide (t = g_idle_task)
      then retM (HR_ERROR_INVALID_STATE, false)
      else match t_state (task_at s t) with
           | HR_TASK_STATE_READY =>
               if negb (is_linked s (ReadyNode t)) then retM (HR_ERROR_INTERNAL, false)
               else
                 let* status := remove_ready t in
                 if negb (ok status) then retM (status, false)
                 else
                   let* status := hr_task_transition_state task HR_TASK_STATE_READY HR_TASK_STATE_SUSPENDED in
                   if negb (ok status) then ignoreM (add_ready t) ;;; retM (status, false)
                   else
                     upd_task t (t_set_suspended_resume_state HR_TASK_STATE_READY) ;;;
                     retM (HR_OK, false)
           | HR_TASK_STATE_RUNNING =>
               if bool_decide (task <> g_current_task (glob s)) || negb (is_linked s (ReadyNode t))
               then retM (HR_ERROR_INVALID_STATE, false)
               else
                 let* status := remove_ready t in
                 if negb (ok status) then retM (status, false)
                 else
                   let* status := hr_task_transition_state task HR_TASK_STATE_RUNNING HR_TASK_STATE_SUSPENDED in
                   if negb (ok status) then ignoreM (add_ready t) ;;; retM (status, false)
                   else
                     upd_task t (t_set_suspended_resume_state HR_TASK_STATE_READY) ;;;
                     hr_kernel_reload_time_slice (Some t) ;;;
                     hr_kernel_mark_switch_reason HR_SWITCH_REASON_BLOCK ;;;
                     retM (HR_OK, true)
           | HR_TASK_STATE_BLOCKED =>
               if bool_decide (t_wait_kind (task_at s t) = HR_TASK_WAIT_NONE) ||
                  bool_decide (t_waiting_object (task_at s t) = None) || is_linked s (ReadyNode t)
               then retM (HR_ERROR_INTERNAL, false)
               else
                 let* status := hr_task_transition_state task HR_TASK_STATE_BLOCKED HR_TASK_STATE_SUSPENDED in
                 if negb (ok status) then retM (status, false)
                 else
                   upd_task t (t_set_suspended_resume_state HR_TASK_STATE_BLOCKED) ;;;
                   retM (HR_OK, false)
           | _ => retM (HR_ERROR_INVALID_STATE, false)
           end
  end.

Definition hr_kernel_resume_task (task : option task_ptr) : M kstate (hr_status * bool) :=
  let* s := getM in
  match task with
  | None => retM (HR_ERROR_INVALID_STATE, false)
  | Some t =>
      if bool_decide (g_kernel_state (glob s) <> HR_KERNEL_STATE_RUNNING) ||
         negb (hr_task_is_valid s task) || bool_decide (t = g_idle_task)
      then retM (HR_ERROR_INVALID_STATE, false)
      else if bool_decide (t_state (task_at s t) <> HR_TASK_STATE_SUSPENDED)
      then retM (HR_ERROR_INVALID_STATE, false)
      else match t_suspended_resume_state (task_at s t) with
           | HR_TASK_STATE_BLOCKED =>
               let* status := hr_task_transition_state task HR_TASK_STATE_SUSPENDED HR_TASK_STATE_BLOCKED in
               (if ok status then upd_task t (t_set_suspended_resume_state HR_TASK_STATE_INVALID)
                else retM tt) ;;;
               retM (status, false)
           | HR_TASK_STATE_READY =>
               let* status := add_ready t in
               if negb (ok status) then retM (status, false)
               else
                 let* status := hr_task_transition_state task HR_TASK_STATE_SUSPENDED HR_TASK_STATE_READY in
                 if negb (ok status) then ignoreM (remove_ready t) ;;; retM (status, false)
                 else
                   upd_task t (t_set_suspended_resume_state HR_TASK_STATE_INVALID) ;;;
                   hr_kernel_reload_time_slice (Some t) ;;;
                   let* s := getM in
                   match g_current_task (glob s) with
                   | Some c =>
                       if hr_task_is_valid s (Some c) && HR_CFG_PREEMPTION &&
                          bool_decide (t_state (task_at s c) = HR_TASK_STATE_RUNNING) &&
                          (t_effective_priority (task_at s t) <? t_effective_priority (task_at s c))
                       then hr_kernel_mark_switch_reason HR_SWITCH_REASON_PREEMPT ;;; retM (HR_OK, true)
                       else retM (HR_OK, false)
                   | None => retM (HR_OK, false)
                   end
           | _ => retM (HR_ERROR_INTERNAL, false)
           end
  end.

(** [*higher_priority_task_woken] after a wake-up. *)
Definition woken_preempts (s : kstate) (t : task_ptr) : bool :=
  match g_current_task (glob s) with
  | Some c =>
      hr_task_is_valid s (Some c) &&
      bool_decide (t_state (task_at s c) = HR_TASK_STATE_RUNNING) &&
      (t_effective_priority (task_at s t) <? t_effective_priority (task_at s c))
  | None => false
  end.

Definition hr_kernel_make_task_ready (control_block : option task_ptr) (result : hr_status)
  : M kstate (hr_status * option bool) :=
  let* s := getM in
  match control_block with
  | None => retM (HR_ERROR_INVALID_STATE, None)
  | Some t =>
      let suspended_wait :=
        bool_decide (t_state (task_at s t) = HR_TASK_STATE_SUSPENDED) &&
        bool_decide (t_suspended_resume_state (task_at s t) = HR_TASK_STATE_BLOCKED) in
      if bool_decide (t_state (task_at s t) <> HR_TASK_STATE_BLOCKED) && negb suspended_wait
      then retM (HR_ERROR_INVALID_STATE, None)
      else cast_task (node_owner s (ReadyNode t)) (fun task =>
        if negb (hr_task_is_valid s task) then retM (HR_ERROR_INTERNAL, None)
        else
          let cleanup := t_wait_cleanup (task_at s t) in
          let* status :=
            match t_blocked_wait_list (task_at s t) with
            | Some l => lift (hr_wait_list_remove (Some l) (Some (WaitNode t)))
            | None => retM HR_OK
            end in
          if negb (ok status) then retM (status, None)
          else
            let* s := getM in
            let* status := if is_linked s (TimeoutNode t) then remove_timeout t else retM HR_OK in
            if negb (ok status) then retM (status, None)
            else
              match cleanup with Some f => call_cleanup f t result | None => retM tt end ;;;
              upd_task t (t_set_waiting_object None) ;;;
              upd_task t (t_set_blocked_wait_list None) ;;;
              upd_task t (t_set_wait_buffer None) ;;;
              upd_task t (t_set_wait_cleanup None) ;;;
              upd_task t (t_set_wait_result result) ;;;
              upd_task t (t_set_wait_kind HR_TASK_WAIT_NONE) ;;;
              hr_kernel_reload_time_slice (Some t) ;;;
              if suspended_wait then
                upd_task t (t_set_suspended_resume_state HR_TASK_STATE_READY) ;;;
                retM (HR_OK, Some false)
              else
                let* status := add_ready t in
                if negb (ok status) then retM (status, None)
                else
                  let* status := hr_task_transition_state task HR_TASK_STATE_BLOCKED HR_TASK_STATE_READY in
                  if negb (ok status) then ignoreM (remove_ready t) ;;; retM (status, None)
                  else
                    let* s := getM in
                    retM (HR_OK, Some (woken_preempts s t)))
  end.

(** [wait_kind] is one of the four kinds of waits on an object. *)
Definition object_wait (k : hr_task_wait_kind) : bool :=
  match k with
  | HR_TASK_WAIT_QUEUE_SEND | HR_TASK_WAIT_QUEUE_RECEIVE
  | HR_TASK_WAIT_SEMAPHORE_TAKE | HR_TASK_WAIT_MUTEX_LOCK => true
  | _ => false
  end.
Definition buffer_wait (k : hr_task_wait_kind) : bool :=
  match k with HR_TASK_WAIT_QUEUE_SEND | HR_TASK_WAIT_QUEUE_RECEIVE => true | _ => false end.

Definition hr_kernel_block_current_on_wait_list_ex (wait_list : option list_addr)
    (object : option wait_object) (wait_kind : hr_task_wait_kind) (buffer : option Z) (timeout : Z)
    (cleanup : option hr_task_wait_cleanup) : M kstate hr_status :=
  let* s := getM in
  match g_current_task (glob s) with
  | None => retM HR_ERROR_INVALID_ARGUMENT
  | Some t =>
      if bool_decide (g_kernel_state (glob s) <> HR_KERNEL_STATE_RUNNING) ||
         bool_decide (t = g_idle_task) || bool_decide (wait_list = None) ||
         bool_decide (object = None) || negb (object_wait wait_kind) ||
         (buffer_wait wait_kind && bool_decide (buffer = None)) || (timeout =? HR_NO_WAIT)
      then retM HR_ERROR_INVALID_ARGUMENT
      else if bool_decide (t_state (task_at s t) <> HR_TASK_STATE_RUNNING) ||
              negb (is_linked s (ReadyNode t)) || is_linked s (WaitNode t) ||
              is_linked s (TimeoutNode t)
      then retM HR_ERROR_INVALID_STATE
      else
        let* status := remove_ready t in
        if negb (ok status) then retM status
        else
          let* status := lift (hr_wait_list_insert wait_list (Some (WaitNode t))) in
          if negb (ok status) then ignoreM (add_ready t) ;;; retM status
          else
            let* status := if timeout =? HR_WAIT_FOREVER then retM HR_OK else add_timeout t timeout in
            if negb (ok status) then
              ignoreM (lift (S := store) (hr_wait_list_remove wait_list (Some (WaitNode t)))) ;;;
              ignoreM (add_ready t) ;;;
              retM status
            else
              let* status := hr_task_transition_state (Some t) HR_TASK_STATE_RUNNING HR_TASK_STATE_BLOCKED in
              if negb (ok status) then
                (let* s := getM in
                 if is_linked s (TimeoutNode t) then ignoreM (remove_timeout t) else retM tt) ;;;
                ignoreM (lift (S := store) (hr_wait_list_remove wait_list (Some (WaitNode t)))) ;;;
                ignoreM (add_ready t) ;;;
                retM status
              else
                let* s := getM in
                upd_task t (t_set_wake_tick
                  (if timeout =? HR_WAIT_FOREVER then 0 else u32 (g_kernel_tick (glob s) + timeout))) ;;;
                upd_task t (t_set_waiting_object object) ;;;
                upd_task t (t_set_blocked_wait_list wait_list) ;;;
                upd_task t (t_set_wait_buffer buffer) ;;;
                upd_task t (t_set_wait_cleanup cleanup) ;;;
                upd_task t (t_set_wait_result HR_ERROR_INTERNAL) ;;;
                upd_task t (t_set_wait_kind wait_kind) ;;;
                hr_kernel_reload_time_slice (Some t) ;;;
                hr_kernel_mark_switch_reason HR_SWITCH_REASON_BLOCK ;;;
                retM HR_OK
  end.

Definition hr_kernel_block_current_on_wait_list (wait_list : option list_addr)
    (object : option wait_object) (wait_kind : hr_task_wait_kind) (buffer : option Z) (timeout : Z)
  : M kstate hr_status :=
  hr_kernel_block_current_on_wait_list_ex wait_list object wait_kind buffer timeout None.

Definition hr_kernel_unblock_waiter (wait_node : option node_addr) (result : hr_status)
  : M kstate (hr_status * option bool) :=
  match wait_node with
  | None => retM (HR_ERROR_INVALID_ARGUMENT, None)
  | Some w =>
      let* s := getM in
      cast_task (node_owner s w) (fun task =>
        if negb (hr_task_is_valid s task) then retM (HR_ERROR_INTERNAL, None)
        else hr_kernel_make_task_ready task result)
  end.

(** The rotation that a yield or the end of a time slice asks for; [false] when
    it panicked. *)
Definition select_rotation (t : task_ptr) (switch_reasons : Z) : M kstate bool :=
  let* s := getM in
  match select_highest s with
  | None => hr_kernel_panic ;;; retM false
  | Some selected =>
      if bool_decide (node_owner s selected = Some (PTask t)) &&
         negb (Z.land switch_reasons (Z.lor HR_SWITCH_REASON_YIELD HR_SWITCH_REASON_TIME_SLICE) =? 0)
      then
        (if negb (Z.land switch_reasons HR_SWITCH_REASON_YIELD =? 0)
         then hr_kernel_reload_time_slice (Some t) else retM tt) ;;;
        let* status := lift (hr_scheduler_yield_current (Some g_scheduler) (Some (ReadyNode t))) in
        if negb (ok status) then hr_kernel_panic ;;; retM false else retM true
      else retM true
  end.

(** The transitions of the outgoing and the incoming task; [false] when it panicked. *)
Definition switch_states (cur next : task_ptr) : M kstate bool :=
  let* s := getM in
  if bool_decide (next <> cur) then
    if bool_decide (t_state (task_at s next) <> HR_TASK_STATE_READY) then hr_kernel_panic ;;; retM false
    else
      let* left_ok :=
        (if bool_decide (t_state (task_at s cur) = HR_TASK_STATE_RUNNING) then
           let* status := hr_task_transition_state (Some cur) HR_TASK_STATE_RUNNING HR_TASK_STATE_READY in
           retM (ok status)
         else retM true) in
      if negb left_ok then hr_kernel_panic ;;; retM false
      else
        let* status := hr_task_transition_state (Some next) HR_TASK_STATE_READY HR_TASK_STATE_RUNNING in
        if negb (ok status) then hr_kernel_panic ;;; retM false else retM true
  else if bool_decide (t_state (task_at s cur) = HR_TASK_STATE_READY) then
    let* status := hr_task_transition_state (Some cur) HR_TASK_STATE_READY HR_TASK_STATE_RUNNING in
    if negb (ok status) then hr_kernel_panic ;;; retM false else retM true
  else retM true.

Definition hr_kernel_select_next_from_pendsv : M kstate unit :=
  let* s := getM in
  let switch_reasons := g_switch_reasons (glob s) in
  upd_globals (g_set_switch_reasons HR_SWITCH_REASON_NONE) ;;;
  match g_current_task (glob s), g_hr_current_task_control_block (glob s) with
  | Some cur, Some _ =>
      if bool_decide (g_kernel_state (glob s) <> HR_KERNEL_STATE_RUNNING) then hr_kernel_panic
      else
        let* proceed :=
          match t_state (task_at s cur) with
          | HR_TASK_STATE_RUNNING => select_rotation cur switch_reasons
          | HR_TASK_STATE_READY | HR_TASK_STATE_BLOCKED | HR_TASK_STATE_SUSPENDED => retM true
          | _ => hr_kernel_panic ;;; retM false
          end in
        if negb proceed then retM tt
        else
          let* s := getM in
          match select_highest s with
          | None => hr_kernel_panic
          | Some next_ready_node =>
              cast_task (node_owner s next_ready_node) (fun next_task =>
                match next_task with
                | None => hr_kernel_panic
                | Some next =>
                    if negb (hr_task_is_valid s next_task) then hr_kernel_panic
                    else
                      let* proceed := switch_states cur next in
                      if negb proceed then retM tt
                      else
                        upd_globals (g_set_current_task next_task) ;;;
                        upd_globals (g_set_hr_current_task_control_block (Some next))
                end)
          end
  | _, _ => hr_kernel_panic
  end.
End config.
