(* ===== verification/Semaphore.v ===== *)
(** Counting and binary semaphores: [kernel/src/hr_semaphore.c]. *)
From S2P Require Import Prelude Types HrList Store Scheduler WaitList Timeout KState TaskCore KernelBase MutexPriority Kernel.
From stdpp Require Import gmap list.
From Stdlib Require Import ZArith.
Open Scope Z_scope.

Definition hr_semaphore_control_block (semaphore : option sem_ptr) : option sem_ptr := semaphore.

Definition hr_semaphore_zero_control_block (x : sem_ptr) : M kstate unit :=
  upd_sem x (fun _ => zero_scb) ;;; zero_list (SemaphoreWaiters x).

Definition hr_semaphore_is_valid (s : kstate) (semaphore : option sem_ptr) : bool :=
  match semaphore with
  | None => false
  | Some x =>
      (sem_magic (sem_at s x) =? HR_CFG_SEMAPHORE_MAGIC) &&
      (0 <? sem_max_count (sem_at s x)) &&
      (sem_count (sem_at s x) <=? sem_max_count (sem_at s x))
  end.

Definition hr_semaphore_validate_internal (s : kstate) (semaphore : option sem_ptr) : bool :=
  match semaphore with
  | None => false
  | Some x => hr_semaphore_is_valid s semaphore &&
              hr_wait_list_validate (ks_store s) (Some (SemaphoreWaiters x))
  end.

Definition hr_semaphore_create_counting (semaphore : option sem_ptr) (initial_count max_count : Z)
  : M kstate hr_status :=
  match semaphore with
  | None => retM HR_ERROR_INVALID_ARGUMENT
  | Some x =>
      if (max_count =? 0) || (max_count <? initial_count) then retM HR_ERROR_INVALID_ARGUMENT
      else
        let* s := getM in
        if hr_semaphore_is_valid s semaphore then retM HR_ERROR_INVALID_STATE
        else
          hr_semaphore_zero_control_block x ;;;
          upd_sem x (sem_set_count initial_count) ;;;
          upd_sem x (sem_set_max_count max_count) ;;;
          lift (hr_wait_list_init (Some (SemaphoreWaiters x))) ;;;
          upd_sem x (sem_set_magic HR_CFG_SEMAPHORE_MAGIC) ;;;
          retM HR_OK
  end.

Definition hr_semaphore_create_binary (semaphore : option sem_ptr) (initially_available : bool)
  : M kstate hr_status :=
  hr_semaphore_create_counting semaphore (if initially_available then 1 else 0) 1.

Definition hr_semaphore_get_count (s : kstate) (semaphore : option sem_ptr) : Z :=
  match semaphore with
  | Some x => if hr_semaphore_is_valid s semaphore then sem_count (sem_at s x) else 0
  | None => 0
  end.
Definition hr_semaphore_get_max_count (s : kstate) (semaphore : option sem_ptr) : Z :=
  match semaphore with
  | Some x => if hr_semaphore_is_valid s semaphore then sem_max_count (sem_at s x) else 0
  | None => 0
  end.
Definition hr_semaphore_get_waiting_tasks (s : kstate) (semaphore : option sem_ptr) : Z :=
  match semaphore with
  | Some x => if hr_semaphore_is_valid s semaphore
              then hr_wait_list_size (ks_store s) (Some (SemaphoreWaiters x)) else 0
  | None => 0
  end.

Section config.
Context `{Config}.

Definition hr_semaphore_give_locked (x : sem_ptr) : M kstate (hr_status * option bool) :=
  let* s := getM in
  match hr_wait_list_peek (ks_store s) (Some (SemaphoreWaiters x)) with
  | Some waiter => hr_kernel_unblock_waiter (Some waiter) HR_OK
  | None =>
      if sem_max_count (sem_at s x) <=? sem_count (sem_at s x) then retM (HR_ERROR_SEMAPHORE_FULL, None)
      else
        upd_sem x (fun c => sem_set_count (u32 (sem_count c + 1)) c) ;;;
        retM (HR_OK, Some false)
  end.

Definition hr_semaphore_take (semaphore : option sem_ptr) (timeout : Z) : M kstate api_result :=
  let* s := getM in
  match semaphore with
  | None => retM (Returns HR_ERROR_INVALID_ARGUMENT)
  | Some x =>
      if negb (hr_semaphore_is_valid s semaphore) then retM (Returns HR_ERROR_INVALID_ARGUMENT)
      else if hr_port_is_inside_isr s then retM (Returns HR_ERROR_FROM_ISR)
      else if negb (timeout =? HR_NO_WAIT) && negb (hr_kernel_is_running s)
      then retM (Returns HR_ERROR_INVALID_STATE)
      else
        let* irq_state := hr_port_enter_critical in
        let* s := getM in
        let* result :=
          (if 0 <? sem_count (sem_at s x) then
             upd_sem x (fun c => sem_set_count (u32 (sem_count c - 1)) c) ;;; retM (Returns HR_OK)
           else if timeout =? HR_NO_WAIT then retM (Returns HR_ERROR_SEMAPHORE_EMPTY)
           else match hr_task_control_block (hr_task_current s) with
                | None => retM (Returns HR_ERROR_INVALID_STATE)
                | Some blocked_task =>
                    let* status := hr_kernel_block_current_on_wait_list_ex (Some (SemaphoreWaiters x))
                      (Some (WSemaphore x)) HR_TASK_WAIT_SEMAPHORE_TAKE None timeout None in
                    retM (if ok status then Waits blocked_task else Returns status)
                end) in
        hr_port_exit_critical irq_state ;;;
        match result with
        | Waits _ => hr_port_request_context_switch ;;; retM result
        | Returns _ => retM result
        end
  end.

Definition hr_semaphore_give (semaphore : option sem_ptr) : M kstate hr_status :=
  let* s := getM in
  match semaphore with
  | None => retM HR_ERROR_INVALID_ARGUMENT
  | Some x =>
      if negb (hr_semaphore_is_valid s semaphore) then retM HR_ERROR_INVALID_ARGUMENT
      else if hr_port_is_inside_isr s then retM HR_ERROR_FROM_ISR
      else
        let* irq_state := hr_port_enter_critical in
        let* r := hr_semaphore_give_locked x in
        hr_port_exit_critical irq_state ;;;
        (if default false (snd r) then hr_port_request_context_switch else retM tt) ;;;
        retM (fst r)
  end.

(** The second component is the value of [*higher_priority_task_woken], when stored. *)
Definition hr_semaphore_give_from_isr (semaphore : option sem_ptr) : M kstate (hr_status * option bool) :=
  let* s := getM in
  match semaphore with
  | None => retM (HR_ERROR_INVALID_ARGUMENT, None)
  | Some x =>
      if negb (hr_semaphore_is_valid s semaphore) then retM (HR_ERROR_INVALID_ARGUMENT, None)
      else if negb (hr_port_is_inside_isr s) then retM (HR_ERROR_INVALID_STATE, None)
      else
        let* irq_state := hr_port_enter_critical in
        let* r := hr_semaphore_give_locked x in
        hr_port_exit_critical irq_state ;;;
        retM (fst r, Some (default false (snd r)))
  end.
End config.
