(* ===== verification/Mutex.v ===== *)
(** Mutexes with ownership, recursion and priority inheritance: the objects and
    operations of [kernel/src/hr_mutex.c] ([MutexPriority] has the inheritance). *)
From S2P Require Import Prelude Types HrList Store Scheduler WaitList Timeout KState TaskCore KernelBase MutexPriority Kernel.
From stdpp Require Import gmap list.
From Stdlib Require Import ZArith.
Open Scope Z_scope.

Definition hr_mutex_control_block (mutex : option mutex_ptr) : option mutex_ptr := mutex.

Definition hr_mutex_zero_control_block (m : mutex_ptr) : M kstate unit :=
  upd_mutex m (fun _ => zero_mcb) ;;; zero_list (MutexWaiters m) ;;; zero_node (OwnerNode m).

Definition hr_mutex_is_valid (s : kstate) (mutex : option mutex_ptr) : bool :=
  match mutex with
  | None => false
  | Some m =>
      let c := mutex_at s m in
      (mx_magic c =? HR_CFG_MUTEX_MAGIC) &&
      match mx_owner c with
      | None => (mx_recursion_count c =? 0) && negb (is_linked s (OwnerNode m))
      | Some o => hr_task_is_valid s (Some o) && (0 <? mx_recursion_count c) && is_linked s (OwnerNode m)
      end
  end.

Definition hr_mutex_validate_internal (s : kstate) (mutex : option mutex_ptr) : bool :=
  match mutex with
  | None => false
  | Some m =>
      if negb (hr_mutex_is_valid s mutex) ||
         negb (hr_wait_list_validate (ks_store s) (Some (MutexWaiters m))) then false
      else match mx_owner (mutex_at s m) with
           | Some o => bool_decide (node_list s (OwnerNode m) = Some (OwnedMutexes o))
           | None => true
           end
  end.

Definition hr_mutex_create_internal (mutex : option mutex_ptr) (recursive : bool) : M kstate hr_status :=
  match mutex with
  | None => retM HR_ERROR_INVALID_ARGUMENT
  | Some m =>
      let* s := getM in
      if hr_mutex_is_valid s mutex then retM HR_ERROR_INVALID_STATE
      else
        hr_mutex_zero_control_block m ;;;
        upd_mutex m (mx_set_recursive recursive) ;;;
        lift (hr_wait_list_init (Some (MutexWaiters m))) ;;;
        lift (hr_list_node_init (Some (PNode (OwnerNode m))) (Some (PMutex m))) ;;;
        upd_mutex m (mx_set_magic HR_CFG_MUTEX_MAGIC) ;;;
        retM HR_OK
  end.
Definition hr_mutex_create (mutex : option mutex_ptr) : M kstate hr_status :=
  hr_mutex_create_internal mutex false.
Definition hr_mutex_create_recursive (mutex : option mutex_ptr) : M kstate hr_status :=
  hr_mutex_create_internal mutex true.

Definition mutex_query {A} (s : kstate) (mutex : option mutex_ptr) (f : mutex_ptr -> A) (d : A) : A :=
  match mutex with Some m => if hr_mutex_is_valid s mutex then f m else d | None => d end.
Definition hr_mutex_is_recursive s mutex := mutex_query s mutex (fun m => mx_recursive (mutex_at s m)) false.
Definition hr_mutex_get_owner s mutex := mutex_query s mutex (fun m => mx_owner (mutex_at s m)) None.
Definition hr_mutex_get_recursion_count s mutex :=
  mutex_query s mutex (fun m => mx_recursion_count (mutex_at s m)) 0.
Definition hr_mutex_get_waiting_tasks s mutex :=
  mutex_query s mutex (fun m => hr_wait_list_size (ks_store s) (Some (MutexWaiters m))) 0.

Definition hr_mutex_attach_owner (mutex : option mutex_ptr) (owner_task : option task_ptr) : M kstate hr_status :=
  let* s := getM in
  match mutex, owner_task with
  | Some m, Some o =>
      if negb (hr_task_is_valid s owner_task) || bool_decide (mx_owner (mutex_at s m) <> None) ||
         is_linked s (OwnerNode m)
      then retM HR_ERROR_INVALID_STATE
      else
        let* status := lift (hr_list_push_back (Some (OwnedMutexes o)) (Some (PNode (OwnerNode m)))) in
        if negb (ok status) then retM status
        else
          upd_mutex m (mx_set_owner owner_task) ;;;
          upd_mutex m (mx_set_recursion_count 1) ;;;
          upd_task o (fun c => t_set_owned_mutex_count (u32 (t_owned_mutex_count c + 1)) c) ;;;
          retM HR_OK
  | _, _ => retM HR_ERROR_INVALID_STATE
  end.

(** The result is the status and the value stored in [*old_owner]. *)
Definition hr_mutex_detach_owner (mutex : option mutex_ptr) : M kstate (hr_status * option task_ptr) :=
  let* s := getM in
  match mutex with
  | None => retM (HR_ERROR_INVALID_STATE, None)
  | Some m =>
      match mx_owner (mutex_at s m) with
      | None => retM (HR_ERROR_INVALID_STATE, None)
      | Some o =>
          if negb (hr_task_is_valid s (Some o)) || negb (is_linked s (OwnerNode m))
          then retM (HR_ERROR_INVALID_STATE, None)
          else if (t_owned_mutex_count (task_at s o) =? 0) ||
                  bool_decide (node_list s (OwnerNode m) <> Some (OwnedMutexes o))
          then retM (HR_ERROR_INTERNAL, None)
          else
            let* status := lift (hr_list_remove (Some (PNode (OwnerNode m)))) in
            if negb (ok status) then retM (status, None)
            else
              upd_task o (fun c => t_set_owned_mutex_count (u32 (t_owned_mutex_count c - 1)) c) ;;;
              upd_mutex m (mx_set_owner None) ;;;
              upd_mutex m (mx_set_recursion_count 0) ;;;
              retM (HR_OK, Some o)
      end
  end.

Section config.
Context `{Config}.

(** The critical section of [hr_mutex_lock]. *)
Definition mutex_lock_locked (m : mutex_ptr) (cur : task_ptr) (timeout : Z) : M kstate api_result :=
  let* s := getM in
  if bool_decide (mx_owner (mutex_at s m) = None) then
    let* status := hr_mutex_attach_owner (Some m) (Some cur) in retM (Returns status)
  else if bool_decide (mx_owner (mutex_at s m) = Some cur) then
    if negb (mx_recursive (mutex_at s m)) then retM (Returns HR_ERROR_MUTEX_BUSY)
    else if mx_recursion_count (mutex_at s m) =? UINT32_MAX then retM (Returns HR_ERROR_OVERFLOW)
    else
      upd_mutex m (fun c => mx_set_recursion_count (u32 (mx_recursion_count c + 1)) c) ;;;
      retM (Returns HR_OK)
  else if timeout =? HR_NO_WAIT then retM (Returns HR_ERROR_MUTEX_BUSY)
  else
    let* status := hr_kernel_block_current_on_wait_list_ex (Some (MutexWaiters m))
      (Some (WMutex m)) HR_TASK_WAIT_MUTEX_LOCK None timeout (Some Hr_mutex_wait_cleanup) in
    if negb (ok status) then retM (Returns status)
    else
      let* status := hr_mutex_recompute_owner_priority (Some m) in
      (if negb (ok status) then ignoreM (hr_kernel_unblock_waiter (Some (WaitNode cur)) status)
       else retM tt) ;;;
      retM (Waits cur).

Definition hr_mutex_lock (mutex_object : option mutex_ptr) (timeout : Z) : M kstate api_result :=
  let* s := getM in
  match mutex_object with
  | None => retM (Returns HR_ERROR_INVALID_ARGUMENT)
  | Some m =>
      if negb (hr_mutex_is_valid s mutex_object) then retM (Returns HR_ERROR_INVALID_ARGUMENT)
      else if hr_port_is_inside_isr s then retM (Returns HR_ERROR_FROM_ISR)
      else if negb (hr_kernel_is_running s) then retM (Returns HR_ERROR_INVALID_STATE)
      else match hr_task_current s with
      | None => retM (Returns HR_ERROR_INVALID_STATE)
      | Some cur =>
        if negb (hr_task_is_valid s (Some cur)) then retM (Returns HR_ERROR_INVALID_STATE)
        else
          let* irq_state := hr_port_enter_critical in
          let* result := mutex_lock_locked m cur timeout in
          hr_port_exit_critical irq_state ;;;
          match result with
          | Waits _ => hr_port_request_context_switch ;;; retM result
          | Returns _ => retM result
          end
      end
  end.

(** The release of the last level: hand the mutex to the first waiter. *)
Definition mutex_release (m : mutex_ptr) (waiter : option node_addr) (next_owner_task : option task_ptr)
  : M kstate (hr_status * bool) :=
  let* d := hr_mutex_detach_owner (Some m) in
  let '(status, old_owner) := d in
  let* r :=
    (match next_owner_task with
     | Some n =>
         if ok status then
           let* status := hr_mutex_attach_owner (Some m) next_owner_task in
           if ok status then
             let* u := hr_kernel_unblock_waiter waiter HR_OK in
             retM (fst u, default false (snd u), Some n)
           else retM (status, false, None)
         else retM (status, false, None)
     | None => retM (status, false, None)
     end) in
  let '(status, woken, new_owner) := r in
  let* status :=
    match old_owner with
    | Some _ => if ok status then hr_mutex_recompute_task_priority old_owner 0 else retM status
    | None => retM status
    end in
  let* status :=
    match new_owner with
    | Some _ => if ok status then hr_mutex_recompute_task_priority new_owner 0 else retM status
    | None => retM status
    end in
  let* s := getM in
  retM (status, woken || hr_kernel_current_should_preempt s).

Definition hr_mutex_unlock (mutex_object : option mutex_ptr) : M kstate hr_status :=
  let* s := getM in
  match mutex_object with
  | None => retM HR_ERROR_INVALID_ARGUMENT
  | Some m =>
      if negb (hr_mutex_is_valid s mutex_object) then retM HR_ERROR_INVALID_ARGUMENT
      else if hr_port_is_inside_isr s then retM HR_ERROR_FROM_ISR
      else if negb (hr_task_is_valid s (hr_task_current s)) then retM HR_ERROR_INVALID_STATE
      else
        let* irq_state := hr_port_enter_critical in
        let finish (r : hr_status * bool) :=
          hr_port_exit_critical irq_state ;;;
          (if ok (fst r) && snd r then hr_port_request_context_switch else retM tt) ;;;
          retM (fst r) in
        if bool_decide (mx_owner (mutex_at s m) <> hr_task_current s) then finish (HR_ERROR_NOT_OWNER, false)
        else if mx_recursive (mutex_at s m) && (1 <? mx_recursion_count (mutex_at s m)) then
          upd_mutex m (fun c => mx_set_recursion_count (u32 (mx_recursion_count c - 1)) c) ;;;
          finish (HR_OK, false)
        else
          match hr_wait_list_peek (ks_store s) (Some (MutexWaiters m)) with
          | None => let* r := mutex_release m None None in finish r
          | Some waiter =>
              cast_task (node_owner s waiter) (fun next_owner_task =>
                if negb (hr_task_is_valid s next_owner_task) then
                  hr_port_exit_critical irq_state ;;; retM HR_ERROR_INTERNAL
                else let* r := mutex_release m (Some waiter) next_owner_task in finish r)
          end
  end.
End config.
