(* ===== verification/Queue.v ===== *)
(** Message queues: [kernel/src/hr_queue.c].

    A queue is a ring of [capacity] slots of [item_size] bytes in storage the
    caller provides; messages are copied byte by byte.  [ks_bytes] is the byte
    memory of queue storage and message buffers, indexed by address. *)
From S2P Require Import Prelude Types HrList Store Scheduler WaitList Timeout KState TaskCore KernelBase MutexPriority Kernel.
From stdpp Require Import gmap list.
From Stdlib Require Import ZArith.
Open Scope Z_scope.

Definition read_byte (s : kstate) (a : Z) : Z := ks_bytes s !!! a.
Definition write_byte (a v : Z) : M kstate unit :=
  modifyM (fun s => ks_set_bytes (<[a := v]> (ks_bytes s)) s).

(** [for (index = 0U; index < size; index++) destination[index] = source[index]]. *)
Fixpoint queue_copy_loop (n : nat) (destination source index : Z) : M kstate unit :=
  match n with
  | O => retM tt
  | S n' =>
      let* s := getM in
      write_byte (u32 (destination + index)) (read_byte s (u32 (source + index))) ;;;
      queue_copy_loop n' destination source (index + 1)
  end.
Definition hr_queue_copy (destination source size : Z) : M kstate unit :=
  queue_copy_loop (Z.to_nat size) destination source 0.

Definition hr_queue_zero_control_block (q : queue_ptr) : M kstate unit :=
  upd_queue q (fun _ => zero_qcb) ;;; zero_list (QueueSendWaiters q) ;;; zero_list (QueueReceiveWaiters q).

(** [&storage[index * item_size]]; a null storage is undefined behaviour. *)
Definition hr_queue_slot (s : kstate) (q : queue_ptr) (index : Z) : option Z :=
  match q_storage (queue_at s q) with
  | Some base => Some (u32 (base + u32 (index * q_item_size (queue_at s q))))
  | None => None
  end.
Definition with_slot {A} (p : option Z) (k : Z -> M kstate A) : M kstate A :=
  match p with Some a => k a | None => ubM end.

(** [k] with the control block of the waiting task, [None] when it is not valid. *)
Definition hr_queue_waiter_task {A} (wait_node : option node_addr) (k : option task_ptr -> M kstate A)
  : M kstate A :=
  match wait_node with
  | None => k None
  | Some w =>
      let* s := getM in
      cast_task (node_owner s w) (fun task => k (if hr_task_is_valid s task then task else None))
  end.

Definition hr_queue_multiply_fits (left right : Z) : bool :=
  (left =? 0) || (right <=? SIZE_MAX / left).

Definition hr_queue_control_block (queue : option queue_ptr) : option queue_ptr := queue.

Definition hr_queue_is_valid (s : kstate) (queue : option queue_ptr) : bool :=
  match queue with
  | None => false
  | Some q =>
      let c := queue_at s q in
      (q_magic c =? HR_CFG_QUEUE_MAGIC) && bool_decide (q_storage c <> None) &&
      (0 <? q_item_size c) && (0 <? q_capacity c) && (q_count c <=? q_capacity c) &&
      (q_head c <? q_capacity c) && (q_tail c <? q_capacity c)
  end.

Definition hr_queue_validate_internal (s : kstate) (queue : option queue_ptr) : bool :=
  match queue with
  | None => false
  | Some q =>
      hr_queue_is_valid s queue && hr_wait_list_validate (ks_store s) (Some (QueueSendWaiters q)) &&
      hr_wait_list_validate (ks_store s) (Some (QueueReceiveWaiters q))
  end.

Definition hr_queue_create_static (queue : option queue_ptr) (storage : option Z) (item_size capacity : Z)
  : M kstate hr_status :=
  match queue, storage with
  | Some q, Some _ =>
      if (item_size =? 0) || (capacity =? 0) || negb (hr_queue_multiply_fits item_size capacity)
      then retM HR_ERROR_INVALID_ARGUMENT
      else
        let* s := getM in
        if hr_queue_is_valid s queue then retM HR_ERROR_INVALID_STATE
        else
          hr_queue_zero_control_block q ;;;
          upd_queue q (q_set_storage storage) ;;;
          upd_queue q (q_set_item_size item_size) ;;;
          upd_queue q (q_set_capacity capacity) ;;;
          lift (hr_wait_list_init (Some (QueueSendWaiters q))) ;;;
          lift (hr_wait_list_init (Some (QueueReceiveWaiters q))) ;;;
          upd_queue q (q_set_magic HR_CFG_QUEUE_MAGIC) ;;;
          retM HR_OK
  | _, _ => retM HR_ERROR_INVALID_ARGUMENT
  end.

Definition queue_query (s : kstate) (queue : option queue_ptr) (f : queue_ptr -> Z) : Z :=
  match queue with Some q => if hr_queue_is_valid s queue then f q else 0 | None => 0 end.
Definition hr_queue_get_count s queue := queue_query s queue (fun q => q_count (queue_at s q)).
Definition hr_queue_get_capacity s queue := queue_query s queue (fun q => q_capacity (queue_at s q)).
Definition hr_queue_get_waiting_senders s queue :=
  queue_query s queue (fun q => hr_wait_list_size (ks_store s) (Some (QueueSendWaiters q))).
Definition hr_queue_get_waiting_receivers s queue :=
  queue_query s queue (fun q => hr_wait_list_size (ks_store s) (Some (QueueReceiveWaiters q))).

(** [tail = (tail + 1U) % capacity; count++] and its counterpart at the head. *)
Definition advance_tail (q : queue_ptr) : M kstate unit :=
  upd_queue q (fun c => q_set_tail (u32 (q_tail c + 1) mod q_capacity c) c) ;;;
  upd_queue q (fun c => q_set_count (u32 (q_count c + 1)) c).
Definition advance_head (q : queue_ptr) : M kstate unit :=
  upd_queue q (fun c => q_set_head (u32 (q_head c + 1) mod q_capacity c) c) ;;;
  upd_queue q (fun c => q_set_count (u32 (q_count c - 1)) c).

Section config.
Context `{Config}.

Definition hr_queue_wake_receiver (q : queue_ptr) (item : Z) : M kstate (hr_status * option bool) :=
  let* s := getM in
  let wait_node := hr_wait_list_peek (ks_store s) (Some (QueueReceiveWaiters q)) in
  hr_queue_waiter_task wait_node (fun task =>
    match wait_node, task with
    | Some _, Some t =>
        match t_wait_buffer (task_at s t) with
        | Some buffer =>
            if bool_decide (t_wait_kind (task_at s t) <> HR_TASK_WAIT_QUEUE_RECEIVE) ||
               bool_decide (t_waiting_object (task_at s t) <> Some (WQueue q))
            then retM (HR_ERROR_INTERNAL, None)
            else
              hr_queue_copy buffer item (q_item_size (queue_at s q)) ;;;
              hr_kernel_unblock_waiter wait_node HR_OK
        | None => retM (HR_ERROR_INTERNAL, None)
        end
    | _, _ => retM (HR_ERROR_INTERNAL, None)
    end).

Definition hr_queue_fill_from_waiting_sender (q : queue_ptr) : M kstate (hr_status * option bool) :=
  let* s := getM in
  let wait_node := hr_wait_list_peek (ks_store s) (Some (QueueSendWaiters q)) in
  hr_queue_waiter_task wait_node (fun task =>
    match wait_node, task with
    | None, _ => retM (HR_OK, None)
    | Some _, None => retM (HR_ERROR_INTERNAL, None)
    | Some _, Some t =>
        match t_wait_buffer (task_at s t) with
        | Some buffer =>
            if bool_decide (t_wait_kind (task_at s t) <> HR_TASK_WAIT_QUEUE_SEND) ||
               bool_decide (t_waiting_object (task_at s t) <> Some (WQueue q)) ||
               (q_capacity (queue_at s q) <=? q_count (queue_at s q))
            then retM (HR_ERROR_INTERNAL, None)
            else
              with_slot (hr_queue_slot s q (q_tail (queue_at s q))) (fun slot =>
                hr_queue_copy slot buffer (q_item_size (queue_at s q)) ;;;
                advance_tail q ;;;
                hr_kernel_unblock_waiter wait_node HR_OK)
        | None => retM (HR_ERROR_INTERNAL, None)
        end
    end).

(** The result of a locked operation: what the call returns ([Waits t] when
    [*blocked] was set for the current task [t]) and the value stored in
    [*higher_priority_task_woken], if any. *)
Definition locked_result : Type := api_result * option bool.

Definition as_locked (m : M kstate (hr_status * option bool)) : M kstate locked_result :=
  let* r := m in retM (Returns (fst r), snd r).

(** The tail of both operations: wait for room or for a message. *)
Definition queue_block (wait_list : list_addr) (q : queue_ptr) (kind : hr_task_wait_kind) (item timeout : Z)
  : M kstate locked_result :=
  let* s := getM in
  match hr_task_control_block (hr_task_current s) with
  | None => retM (Returns HR_ERROR_INVALID_STATE, None)
  | Some blocked_task =>
      let* block_status := hr_kernel_block_current_on_wait_list (Some wait_list) (Some (WQueue q)) kind
        (Some item) timeout in
      retM (if ok block_status then Waits blocked_task else Returns block_status, None)
  end.

Definition hr_queue_send_locked (q : queue_ptr) (item timeout : Z) (allow_block : bool)
  : M kstate locked_result :=
  let* s := getM in
  if negb (hr_wait_list_is_empty (ks_store s) (Some (QueueReceiveWaiters q)))
  then as_locked (hr_queue_wake_receiver q item)
  else if q_count (queue_at s q) <? q_capacity (queue_at s q) then
    with_slot (hr_queue_slot s q (q_tail (queue_at s q))) (fun slot =>
      hr_queue_copy slot item (q_item_size (queue_at s q)) ;;;
      advance_tail q ;;;
      retM (Returns HR_OK, None))
  else if timeout =? HR_NO_WAIT then retM (Returns HR_ERROR_QUEUE_FULL, None)
  else if negb allow_block then retM (Returns HR_ERROR_INVALID_STATE, None)
  else queue_block (QueueSendWaiters q) q HR_TASK_WAIT_QUEUE_SEND item timeout.

Definition hr_queue_receive_locked (q : queue_ptr) (item timeout : Z) (allow_block : bool)
  : M kstate locked_result :=
  let* s := getM in
  if 0 <? q_count (queue_at s q) then
    with_slot (hr_queue_slot s q (q_head (queue_at s q))) (fun slot =>
      hr_queue_copy item slot (q_item_size (queue_at s q)) ;;;
      advance_head q ;;;
      as_locked (hr_queue_fill_from_waiting_sender q))
  else if negb (hr_wait_list_is_empty (ks_store s) (Some (QueueSendWaiters q))) then
    let wait_node := hr_wait_list_peek (ks_store s) (Some (QueueSendWaiters q)) in
    hr_queue_waiter_task wait_node (fun task =>
      match task with
      | None => retM (Returns HR_ERROR_INTERNAL, None)
      | Some t =>
          match t_wait_buffer (task_at s t) with
          | None => retM (Returns HR_ERROR_INTERNAL, None)
          | Some buffer =>
              hr_queue_copy item buffer (q_item_size (queue_at s q)) ;;;
              as_locked (hr_kernel_unblock_waiter wait_node HR_OK)
          end
      end)
  else if timeout =? HR_NO_WAIT then retM (Returns HR_ERROR_QUEUE_EMPTY, None)
  else if negb allow_block then retM (Returns HR_ERROR_INVALID_STATE, None)
  else queue_block (QueueReceiveWaiters q) q HR_TASK_WAIT_QUEUE_RECEIVE item timeout.

(** The guards and the critical section shared by [hr_queue_send] and
    [hr_queue_receive]. *)
Definition queue_task_call (queue : option queue_ptr) (item : option Z) (timeout : Z)
    (locked : queue_ptr -> Z -> Z -> bool -> M kstate locked_result) : M kstate api_result :=
  let* s := getM in
  match queue, item with
  | Some q, Some buffer =>
      if negb (hr_queue_is_valid s queue) then retM (Returns HR_ERROR_INVALID_ARGUMENT)
      else if hr_port_is_inside_isr s then retM (Returns HR_ERROR_FROM_ISR)
      else if negb (timeout =? HR_NO_WAIT) && negb (hr_kernel_is_running s)
      then retM (Returns HR_ERROR_INVALID_STATE)
      else
        let* irq_state := hr_port_enter_critical in
        let* r := locked q buffer timeout true in
        hr_port_exit_critical irq_state ;;;
        (if match fst r with Waits _ => true | Returns _ => false end || default false (snd r)
         then hr_port_request_context_switch else retM tt) ;;;
        retM (fst r)
  | _, _ => retM (Returns HR_ERROR_INVALID_ARGUMENT)
  end.

Definition hr_queue_send (queue : option queue_ptr) (item : option Z) (timeout : Z) : M kstate api_result :=
  queue_task_call queue item timeout hr_queue_send_locked.
Definition hr_queue_receive (queue : option queue_ptr) (item : option Z) (timeout : Z) : M kstate api_result :=
  queue_task_call queue item timeout hr_queue_receive_locked.

(** The same for the calls from an interrupt handler, which never block. *)
Definition queue_isr_call (queue : option queue_ptr) (item : option Z)
    (locked : queue_ptr -> Z -> Z -> bool -> M kstate locked_result) : M kstate (hr_status * option bool) :=
  let* s := getM in
  match queue, item with
  | Some q, Some buffer =>
      if negb (hr_queue_is_valid s queue) then retM (HR_ERROR_INVALID_ARGUMENT, None)
      else if negb (hr_port_is_inside_isr s) then retM (HR_ERROR_INVALID_STATE, None)
      else
        let* irq_state := hr_port_enter_critical in
        let* r := locked q buffer HR_NO_WAIT false in
        hr_port_exit_critical irq_state ;;;
        retM (match fst r with Returns status => status | Waits _ => HR_OK end, Some (default false (snd r)))
  | _, _ => retM (HR_ERROR_INVALID_ARGUMENT, None)
  end.

Definition hr_queue_send_from_isr (queue : option queue_ptr) (item : option Z)
  : M kstate (hr_status * option bool) := queue_isr_call queue item hr_queue_send_locked.
Definition hr_queue_receive_from_isr (queue : option queue_ptr) (item : option Z)
  : M kstate (hr_status * option bool) := queue_isr_call queue item hr_queue_receive_locked.
End config.
