(* ===== verification/Timer.v ===== *)
(** Software timers and their service task: [kernel/src/hr_timer.c]. *)
From S2P Require Import Prelude Types HrList Store Scheduler WaitList Timeout KState TaskCore KernelBase MutexPriority Kernel Semaphore.
From stdpp Require Import gmap list.
From Stdlib Require Import ZArith.
Open Scope Z_scope.

Definition hr_timer_zero_control_block (x : timer_ptr) : M kstate unit :=
  upd_timer x (fun _ => zero_tmcb) ;;; zero_node (TimerTimeoutNode x) ;;; zero_node (TimerPendingNode x).

Definition hr_timer_control_block (timer : option timer_ptr) : option timer_ptr := timer.

Definition hr_timer_is_valid (s : kstate) (timer : option timer_ptr) : bool :=
  match timer with
  | None => false
  | Some x =>
      let c := timer_at s x in
      (tm_magic c =? HR_CFG_TIMER_MAGIC) && bool_decide (tm_name c <> None) &&
      bool_decide (tm_callback c <> None) && (0 <? tm_period_ticks c) &&
      negb (tm_period_ticks c =? HR_WAIT_FOREVER)
  end.

Definition hr_timer_validate_internal (s : kstate) (timer : option timer_ptr) : bool :=
  match timer with
  | None => false
  | Some x =>
      if negb (hr_timer_is_valid s timer) then false
      else if negb (Bool.eqb (tm_active (timer_at s x)) (is_linked s (TimerTimeoutNode x))) then false
      else if negb (Bool.eqb (tm_pending_count (timer_at s x) =? 0) (negb (is_linked s (TimerPendingNode x))))
      then false
      else true
  end.

Definition hr_timer_system_reset : M kstate unit := upd_globals (g_set_timer_system_initialized false).

Section config.
Context `{Config}.

Definition hr_task_start (task : option task_ptr) : M kstate hr_status :=
  let* s := getM in
  if negb (hr_task_is_valid s task) then retM HR_ERROR_INVALID_ARGUMENT
  else hr_kernel_register_task task.

Definition hr_timer_system_ensure_initialized : M kstate hr_status :=
  let* s := getM in
  if g_timer_system_initialized (glob s) then retM HR_OK
  else if bool_decide (hr_kernel_get_state s <> HR_KERNEL_STATE_INITIALIZED)
  then retM HR_ERROR_INVALID_STATE
  else
    lift (hr_timeout_list_init (Some g_timer_timeouts) (hr_kernel_get_tick s)) ;;;
    lift (hr_list_init (Some PendingTimers)) ;;;
    let* status := hr_semaphore_create_binary (Some g_timer_signal) false in
    if negb (ok status) then retM status
    else
      let* status := hr_task_create_static (Some g_timer_service_task) (Some address_of_timer_service_name)
        (Some address_of_hr_timer_service_entry) None (Some address_of_g_timer_service_stack)
        HR_CFG_TIMER_TASK_STACK_WORDS HR_CFG_TIMER_TASK_PRIORITY in
      if negb (ok status) then retM status
      else
        let* status := hr_task_start (Some g_timer_service_task) in
        if negb (ok status) then retM status
        else
          upd_globals (g_set_timer_system_initialized true) ;;;
          retM HR_OK.

Definition hr_timer_create_static (timer : option timer_ptr) (name : option Z) (period_ticks : Z)
    (auto_reload : bool) (callback argument : option Z) : M kstate hr_status :=
  match timer, name, callback with
  | Some x, Some _, Some _ =>
      if (period_ticks =? 0) || (period_ticks =? HR_WAIT_FOREVER) then retM HR_ERROR_INVALID_ARGUMENT
      else
        let* s := getM in
        if hr_port_is_inside_isr s then retM HR_ERROR_FROM_ISR
        else if hr_timer_is_valid s timer then retM HR_ERROR_INVALID_STATE
        else
          let* status := hr_timer_system_ensure_initialized in
          if negb (ok status) then retM status
          else
            hr_timer_zero_control_block x ;;;
            lift (hr_timeout_node_init (Some (TimerTimeoutNode x)) (Some (PTimer x))) ;;;
            lift (hr_list_node_init (Some (PNode (TimerPendingNode x))) (Some (PTimer x))) ;;;
            upd_timer x (tm_set_name name) ;;;
            upd_timer x (tm_set_callback callback) ;;;
            upd_timer x (tm_set_argument argument) ;;;
            upd_timer x (tm_set_period_ticks period_ticks) ;;;
            upd_timer x (tm_set_auto_reload auto_reload) ;;;
            upd_timer x (tm_set_active false) ;;;
            upd_timer x (tm_set_callback_running false) ;;;
            upd_timer x (tm_set_pending_count 0) ;;;
            upd_timer x (tm_set_magic HR_CFG_TIMER_MAGIC) ;;;
            retM HR_OK
  | _, _, _ => retM HR_ERROR_INVALID_ARGUMENT
  end.
End config.

Definition timer_query {A} (s : kstate) (timer : option timer_ptr) (f : hr_timer_control_block_t -> A) (d : A) : A :=
  match timer with Some x => if hr_timer_is_valid s timer then f (timer_at s x) else d | None => d end.
Definition hr_timer_is_active s timer := timer_query s timer tm_active false.
Definition hr_timer_get_name s timer := timer_query s timer tm_name None.
Definition hr_timer_get_period s timer := timer_query s timer tm_period_ticks 0.
Definition hr_timer_get_pending_count s timer := timer_query s timer tm_pending_count 0.

Definition hr_timer_clear_pending_locked (x : timer_ptr) : M kstate unit :=
  let* s := getM in
  (if is_linked s (TimerPendingNode x)
   then ignoreM (lift (S := lmem) (hr_list_remove (Some (PNode (TimerPendingNode x))))) else retM tt) ;;;
  upd_timer x (tm_set_pending_count 0).

Definition hr_timer_arm_locked (x : timer_ptr) : M kstate hr_status :=
  let* s := getM in
  let* status := lift (hr_timeout_list_insert (Some g_timer_timeouts) (Some (TimerTimeoutNode x))
    (tm_period_ticks (timer_at s x))) in
  (if ok status then upd_timer x (tm_set_active true) else retM tt) ;;;
  retM status.

(** [if (active) { remove the timeout; active = false }] of stop, reset and change_period. *)
Definition timer_disarm (x : timer_ptr) : M kstate hr_status :=
  let* s := getM in
  if tm_active (timer_at s x) then
    let* status := lift (hr_timeout_list_remove (Some g_timer_timeouts) (Some (TimerTimeoutNode x))) in
    (if ok status then upd_timer x (tm_set_active false) else retM tt) ;;;
    retM status
  else retM HR_OK.

(** The argument and context checks and the critical section of the timer calls. *)
Definition timer_call (timer : option timer_ptr) (bad_argument : bool) (k : timer_ptr -> M kstate hr_status)
  : M kstate hr_status :=
  let* s := getM in
  match timer with
  | None => retM HR_ERROR_INVALID_ARGUMENT
  | Some x =>
      if negb (hr_timer_is_valid s timer) || bad_argument then retM HR_ERROR_INVALID_ARGUMENT
      else if hr_port_is_inside_isr s then retM HR_ERROR_FROM_ISR
      else
        let* irq_state := hr_port_enter_critical in
        let* status := k x in
        hr_port_exit_critical irq_state ;;;
        retM status
  end.

Definition hr_timer_start (timer : option timer_ptr) : M kstate hr_status :=
  timer_call timer false (fun x =>
    let* s := getM in
    if tm_active (timer_at s x) then retM HR_ERROR_INVALID_STATE
    else hr_timer_clear_pending_locked x ;;; hr_timer_arm_locked x).

Definition hr_timer_stop (timer : option timer_ptr) : M kstate hr_status :=
  timer_call timer false (fun x =>
    let* status := timer_disarm x in
    hr_timer_clear_pending_locked x ;;;
    retM status).

Definition hr_timer_reset (timer : option timer_ptr) : M kstate hr_status :=
  timer_call timer false (fun x =>
    let* status := timer_disarm x in
    if ok status then hr_timer_clear_pending_locked x ;;; hr_timer_arm_locked x
    else retM status).

Definition hr_timer_change_period (timer : option timer_ptr) (new_period_ticks : Z) : M kstate hr_status :=
  timer_call timer ((new_period_ticks =? 0) || (new_period_ticks =? HR_WAIT_FOREVER)) (fun x =>
    let* status := timer_disarm x in
    if ok status then
      upd_timer x (tm_set_period_ticks new_period_ticks) ;;;
      hr_timer_clear_pending_locked x ;;; hr_timer_arm_locked x
    else retM status).

(** The owner of a timer node; an object of another type is undefined behaviour. *)
Definition cast_timer {A} (p : option obj_ptr) (k : option timer_ptr -> M kstate A) : M kstate A :=
  match p with None => k None | Some (PTimer x) => k (Some x) | Some _ => ubM end.

(** [while (node != NULL)] over the expired timers, [fuel] bounding their
    number: [None] when the function returned early, otherwise whether any
    timer expired. *)
Fixpoint timer_expire_loop (fuel : nat) (node : option nptr) (signal_required : bool)
  : M kstate (option bool) :=
  match node with
  | None => retM (Some signal_required)
  | Some p =>
      match fuel with
      | O => ubM
      | S fuel' =>
          let* s := getM in
          cast_timer (hr_list_node_owner (st_lists (ks_store s)) node) (fun timer =>
            match timer with
            | None => retM None
            | Some x =>
                if negb (hr_timer_is_valid s timer) || negb (tm_active (timer_at s x)) then retM None
                else
                  upd_timer x (tm_set_active false) ;;;
                  (if tm_pending_count (timer_at s x) <? UINT32_MAX
                   then upd_timer x (fun c => tm_set_pending_count (u32 (tm_pending_count c + 1)) c)
                   else retM tt) ;;;
                  (if negb (is_linked s (TimerPendingNode x))
                   then ignoreM (lift (S := lmem) (hr_list_push_back (Some PendingTimers)
                                  (Some (PNode (TimerPendingNode x)))))
                   else retM tt) ;;;
                  let* armed :=
                    (if tm_auto_reload (timer_at s x) then
                       let* status := hr_timer_arm_locked x in retM (ok status)
                     else retM true) in
                  if negb armed then retM None
                  else
                    let* node := lift (hr_list_pop_front (Some ExpiredTimers)) in
                    timer_expire_loop fuel' node true
            end)
      end
  end.

Section config.
Context `{Config}.

(** The result is the value of [*switch_required]. *)
Definition hr_timer_tick_from_isr (now : Z) : M kstate bool :=
  let* s := getM in
  if negb (g_timer_system_initialized (glob s)) then retM false
  else
    lift (hr_list_init (Some ExpiredTimers)) ;;;
    let* status := lift (hr_timeout_list_advance (Some g_timer_timeouts) now (Some ExpiredTimers)) in
    if negb (ok status) then retM false
    else
      let* s := getM in
      let* node := lift (hr_list_pop_front (Some ExpiredTimers)) in
      let* expired := timer_expire_loop (scan_fuel (ks_store s) ExpiredTimers) node false in
      match expired with
      | None => retM false
      | Some false => retM false
      | Some true =>
          let* r := hr_semaphore_give_from_isr (Some g_timer_signal) in
          if negb (ok (fst r)) && bool_decide (fst r <> HR_ERROR_SEMAPHORE_FULL) then retM false
          else retM (default false (snd r))
      end.
End config.

(** One turn of the service task, up to the callback: [None] when the function returns
    false, otherwise the timer with the callback and the argument to call. *)
Definition timer_take_pending : M kstate (option (timer_ptr * option Z * option Z)) :=
  let* s := getM in
  if negb (g_timer_system_initialized (glob s)) then retM None
  else
    let* irq_state := hr_port_enter_critical in
    let* node := lift (hr_list_pop_front (Some PendingTimers)) in
    match node with
    | None => hr_port_exit_critical irq_state ;;; retM None
    | Some _ =>
        let* s := getM in
        cast_timer (hr_list_node_owner (st_lists (ks_store s)) node) (fun timer =>
          match timer with
          | None => hr_port_exit_critical irq_state ;;; retM None
          | Some x =>
              if negb (hr_timer_is_valid s timer) || (tm_pending_count (timer_at s x) =? 0)
              then hr_port_exit_critical irq_state ;;; retM None
              else
                upd_timer x (fun c => tm_set_pending_count (u32 (tm_pending_count c - 1)) c) ;;;
                let* s := getM in
                (if 0 <? tm_pending_count (timer_at s x)
                 then ignoreM (lift (S := lmem) (hr_list_push_back (Some PendingTimers)
                                (Some (PNode (TimerPendingNode x)))))
                 else retM tt) ;;;
                upd_timer x (tm_set_callback_running true) ;;;
                hr_port_exit_critical irq_state ;;;
                retM (Some (x, tm_callback (timer_at s x), tm_argument (timer_at s x)))
          end)
    end.

(** The end of the turn, after the callback. *)
Definition timer_callback_done (x : timer_ptr) : M kstate unit :=
  let* irq_state := hr_port_enter_critical in
  upd_timer x (tm_set_callback_running false) ;;;
  hr_port_exit_critical irq_state.

(** The callback is application code: [callback] is the transformation of the kernel state
    it performs when called with the function pointer and the argument, as a sequence of
    kernel calls. *)
Definition hr_timer_process_one_pending (callback : option Z -> option Z -> M kstate unit) : M kstate bool :=
  let* taken := timer_take_pending in
  match taken with
  | None => retM false
  | Some (x, function, argument) =>
      callback function argument ;;;
      timer_callback_done x ;;;
      retM true
  end.

(** [while (hr_timer_process_one_pending())] of the service task, at most [fuel] turns. *)
Fixpoint timer_service_drain (fuel : nat) (callback : option Z -> option Z -> M kstate unit) : M kstate unit :=
  match fuel with
  | O => ubM
  | S fuel' =>
      let* more := hr_timer_process_one_pending callback in
      if more : bool then timer_service_drain fuel' callback else retM tt
  end.
