(* ===== verification/KernelTick.v ===== *)
(** The tick interrupt, start-up and the integrity check of [kernel/src/hr_kernel.c]. *)
From S2P Require Import Prelude Types HrList Store Scheduler WaitList Timeout KState TaskCore KernelBase MutexPriority Kernel Semaphore Timer.
From stdpp Require Import gmap list.
From Stdlib Require Import ZArith.
Open Scope Z_scope.

Section config.
Context `{Config}.

(** The wake-up of one expired task; [false] when the kernel panicked. *)
Definition wake_expired (node : nptr) : M kstate bool :=
  let* s := getM in
  cast_task (hr_list_node_owner (st_lists (ks_store s)) (Some node)) (fun task =>
    match task with
    | None => hr_kernel_panic ;;; retM false
    | Some t =>
        if negb (hr_task_is_valid s task) then hr_kernel_panic ;;; retM false
        else if negb (wait_pending (task_at s t)) then hr_kernel_panic ;;; retM false
        else if bool_decide (t_wait_kind (task_at s t) = HR_TASK_WAIT_DELAY) then
          if bool_decide (t_waiting_object (task_at s t) <> Some WTimeoutList)
          then hr_kernel_panic ;;; retM false
          else
            let* r := hr_kernel_make_task_ready task HR_OK in
            if negb (ok (fst r)) then hr_kernel_panic ;;; retM false else retM true
        else if object_wait (t_wait_kind (task_at s t)) then
          if bool_decide (t_waiting_object (task_at s t) = None) ||
             bool_decide (t_blocked_wait_list (task_at s t) = None)
          then hr_kernel_panic ;;; retM false
          else
            let* r := hr_kernel_make_task_ready task HR_ERROR_TIMEOUT in
            if negb (ok (fst r)) then hr_kernel_panic ;;; retM false else retM true
        else hr_kernel_panic ;;; retM false
    end).

(** [while (node != NULL)] over the expired nodes; [fuel] bounds their number. *)
Fixpoint wake_expired_loop (fuel : nat) (node : option nptr) : M kstate bool :=
  match node with
  | None => retM true
  | Some p =>
      match fuel with
      | O => ubM
      | S fuel' =>
          let* proceed := wake_expired p in
          if negb proceed then retM false
          else
            let* node := lift (hr_list_pop_front (Some ExpiredNodes)) in
            wake_expired_loop fuel' node
      end
  end.

(** The accounting of the running task at the end of a tick: the result is the
    new value of [switch_required]. *)
Definition charge_running (t : task_ptr) (switch_required : bool) : M kstate bool :=
  upd_task t (fun c => t_set_runtime_counter (u32 (t_runtime_counter c + 1)) c) ;;;
  let* s := getM in
  let* switch_required :=
    (if HR_CFG_PREEMPTION &&
        hr_scheduler_should_preempt (ks_store s) (Some g_scheduler) (Some (ReadyNode t))
     then hr_kernel_mark_switch_reason HR_SWITCH_REASON_PREEMPT ;;; retM true
     else retM switch_required) in
  if HR_CFG_TIME_SLICING && negb switch_required then
    let* s := getM in
    if hr_scheduler_has_equal_priority_peer (ks_store s) (Some g_scheduler) (Some (ReadyNode t)) then
      (if 0 <? t_time_slice_remaining (task_at s t)
       then upd_task t (fun c => t_set_time_slice_remaining (u32 (t_time_slice_remaining c - 1)) c)
       else retM tt) ;;;
      let* s := getM in
      if t_time_slice_remaining (task_at s t) =? 0 then
        hr_kernel_reload_time_slice (Some t) ;;;
        hr_kernel_mark_switch_reason HR_SWITCH_REASON_TIME_SLICE ;;;
        retM true
      else retM switch_required
    else hr_kernel_reload_time_slice (Some t) ;;; retM switch_required
  else retM switch_required.

Definition hr_kernel_tick_from_isr : M kstate unit :=
  let* s := getM in
  if bool_decide (g_kernel_state (glob s) <> HR_KERNEL_STATE_RUNNING) then retM tt
  else
    upd_globals (fun g => g_set_kernel_tick (u32 (g_kernel_tick g + 1)) g) ;;;
    lift (hr_list_init (Some ExpiredNodes)) ;;;
    let* s := getM in
    let* status := lift (hr_timeout_list_advance (Some g_timeout_list) (g_kernel_tick (glob s))
      (Some ExpiredNodes)) in
    if negb (ok status) then hr_kernel_panic
    else
      let* s := getM in
      let* node := lift (hr_list_pop_front (Some ExpiredNodes)) in
      let* proceed := wake_expired_loop (scan_fuel (ks_store s) ExpiredNodes) node in
      if negb proceed then retM tt
      else
        let* switch_required := hr_timer_tick_from_isr (g_kernel_tick (glob s)) in
        let* s := getM in
        match g_current_task (glob s) with
        | None => hr_kernel_panic
        | Some t =>
            if negb (hr_task_is_valid s (Some t)) then hr_kernel_panic
            else
              let* switch_required :=
                (if bool_decide (t_state (task_at s t) = HR_TASK_STATE_RUNNING)
                 then charge_running t switch_required else retM switch_required) in
              hr_port_yield_from_isr switch_required
        end.

Definition hr_kernel_init : M kstate hr_status :=
  let* s := getM in
  if bool_decide (g_kernel_state (glob s) <> HR_KERNEL_STATE_RESET) then retM HR_ERROR_INVALID_STATE
  else
    lift (hr_scheduler_init (Some g_scheduler)) ;;;
    lift (hr_list_init (Some AllTasks)) ;;;
    lift (hr_timeout_list_init (Some g_timeout_list) 0) ;;;
    upd_globals (g_set_current_task None) ;;;
    upd_globals (g_set_hr_current_task_control_block None) ;;;
    upd_globals (g_set_task_count 0) ;;;
    upd_globals (g_set_kernel_tick 0) ;;;
    upd_globals (g_set_switch_reasons HR_SWITCH_REASON_NONE) ;;;
    hr_timer_system_reset ;;;
    upd_globals (g_set_kernel_state HR_KERNEL_STATE_INITIALIZED) ;;;
    let* status := hr_task_create_static (Some g_idle_task) (Some address_of_idle_name)
      (Some address_of_hr_idle_task) None (Some address_of_g_idle_stack) HR_CFG_IDLE_STACK_WORDS
      HR_CFG_IDLE_PRIORITY in
    if negb (ok status) then hr_kernel_panic ;;; retM status
    else
      let* status := hr_task_start (Some g_idle_task) in
      if negb (ok status) then hr_kernel_panic ;;; retM status
      else retM HR_OK.

(** [hr_port_start_first_task] enters the selected task and does not return, so
    a successful start is [None]: control never reaches the caller. *)
Definition hr_kernel_start : M kstate (option hr_status) :=
  hr_port_configure_kernel_exceptions ;;;
  let* status := hr_kernel_prepare_start in
  retM (if ok status then None else Some status).
End config.

(** ** Introspection *)

Record hr_kernel_internal_snapshot : Type := mk_snapshot {
  snapshot_task_count : Z;
  snapshot_ready_task_count : Z;
  snapshot_timeout_task_count : Z;
  snapshot_ready_bitmap : Z;
  snapshot_current_task : option task_ptr;
}.
Definition hr_kernel_get_internal_snapshot (s : kstate) : hr_kernel_internal_snapshot :=
  mk_snapshot (g_task_count (glob s))
    (hr_scheduler_ready_count (ks_store s) (Some g_scheduler))
    (hr_timeout_list_size (ks_store s) (Some g_timeout_list))
    (hr_scheduler_ready_bitmap (ks_store s) (Some g_scheduler))
    (g_current_task (glob s)).

Fixpoint task_by_index_loop (fuel : nat) (s : kstate) (node : option nptr) (current_index index : Z)
  : option obj_ptr :=
  match node, fuel with
  | Some _, S fuel' =>
      if current_index =? index then hr_list_node_owner (st_lists (ks_store s)) node
      else task_by_index_loop fuel' s (hr_list_next (st_lists (ks_store s)) (Some AllTasks) node)
             (current_index + 1) index
  | _, _ => None
  end.
Definition hr_kernel_get_task_by_index_internal (s : kstate) (index : Z) : option obj_ptr :=
  if g_task_count (glob s) <=? index then None
  else task_by_index_loop (scan_fuel (ks_store s) AllTasks) s
         (hr_list_front (st_lists (ks_store s)) (Some AllTasks)) 0 index.

(** The [switch] of [hr_kernel_validate_internal]: the links and wait fields a
    task may have in each state. *)
Definition task_state_valid (s : kstate) (t : task_ptr) : bool :=
  let c := task_at s t in
  let ready_linked := is_linked s (ReadyNode t) in
  let wait_linked := is_linked s (WaitNode t) in
  let timeout_linked := is_linked s (TimeoutNode t) in
  let no_wait := bool_decide (t_wait_kind c = HR_TASK_WAIT_NONE) in
  let delay := bool_decide (t_wait_kind c = HR_TASK_WAIT_DELAY) in
  match t_state c with
  | HR_TASK_STATE_READY => ready_linked && negb wait_linked && negb timeout_linked && no_wait
  | HR_TASK_STATE_RUNNING =>
      ready_linked && negb wait_linked && negb timeout_linked && no_wait &&
      bool_decide (g_current_task (glob s) = Some t)
  | HR_TASK_STATE_BLOCKED =>
      negb ready_linked && negb no_wait && bool_decide (t_waiting_object c <> None) &&
      (if delay then negb wait_linked && timeout_linked else wait_linked)
  | HR_TASK_STATE_SUSPENDED =>
      negb ready_linked &&
      match t_suspended_resume_state c with
      | HR_TASK_STATE_READY => negb wait_linked && negb timeout_linked && no_wait
      | HR_TASK_STATE_BLOCKED =>
          negb no_wait && bool_decide (t_waiting_object c <> None) &&
          (if delay then negb wait_linked && timeout_linked else wait_linked)
      | _ => false
      end
  | _ => false
  end.

(** The loop over [g_all_tasks]: [None] is [return false], otherwise the counts
    of registered, ready (or running) and running tasks. *)
Fixpoint validate_tasks_loop (fuel : nat) (s : kstate) (node : option nptr)
    (registered ready_states running : Z) : option (Z * Z * Z) :=
  match node with
  | None => Some (registered, ready_states, running)
  | Some _ =>
      match fuel, hr_list_node_owner (st_lists (ks_store s)) node with
      | S fuel', Some (PTask t) =>
          if negb (hr_task_is_valid s (Some t)) then None
          else if bool_decide (node_list s (AllTaskNode t) <> Some AllTasks) ||
                  negb (priority_at (ks_store s) (ReadyNode t) =? t_effective_priority (task_at s t)) ||
                  negb (priority_at (ks_store s) (WaitNode t) =? t_effective_priority (task_at s t))
          then None
          else if negb (task_state_valid s t) then None
          else
            let st := t_state (task_at s t) in
            let is_running := bool_decide (st = HR_TASK_STATE_RUNNING) in
            validate_tasks_loop fuel' s (hr_list_next (st_lists (ks_store s)) (Some AllTasks) node)
              (registered + 1)
              (if is_running || bool_decide (st = HR_TASK_STATE_READY) then ready_states + 1 else ready_states)
              (if is_running then running + 1 else running)
      | _, _ => None
      end
  end.

Definition hr_kernel_validate_internal (s : kstate) : bool :=
  if negb (hr_scheduler_validate (ks_store s) (Some g_scheduler)) ||
     negb (hr_list_validate (st_lists (ks_store s)) (Some AllTasks)) ||
     negb (hr_timeout_list_validate (ks_store s) (Some g_timeout_list)) ||
     negb (hr_list_size (st_lists (ks_store s)) (Some AllTasks) =? g_task_count (glob s))
  then false
  else match validate_tasks_loop (scan_fuel (ks_store s) AllTasks) s
               (hr_list_front (st_lists (ks_store s)) (Some AllTasks)) 0 0 0 with
       | None => false
       | Some (registered_count, ready_state_count, running_count) =>
           if negb (registered_count =? g_task_count (glob s)) ||
              negb (ready_state_count =? hr_scheduler_ready_count (ks_store s) (Some g_scheduler))
           then false
           else match g_kernel_state (glob s) with
                | HR_KERNEL_STATE_RUNNING =>
                    (running_count =? 1) && bool_decide (g_current_task (glob s) <> None) &&
                    bool_decide (g_hr_current_task_control_block (glob s) = g_current_task (glob s))
                | _ => running_count =? 0
                end
       end.
