(* ===== verification/TaskApi.v ===== *)
(** The task calls of [kernel/src/hr_task.c] that go through the kernel: yield,
    delays, suspend and resume. *)
From S2P Require Import Prelude Types HrList Store Scheduler WaitList Timeout KState TaskCore KernelBase MutexPriority Kernel.
From stdpp Require Import gmap list.
From Stdlib Require Import ZArith.
Open Scope Z_scope.

Definition hr_task_yield : M kstate unit :=
  let* s := getM in
  if hr_kernel_is_running s && negb (hr_port_is_inside_isr s) then hr_kernel_request_yield else retM tt.

Section config.
Context `{Config}.

Definition hr_task_delay (ticks : Z) : M kstate hr_status :=
  let* s := getM in
  if negb (hr_kernel_is_running s) || hr_port_is_inside_isr s then retM HR_ERROR_INVALID_STATE
  else if ticks =? 0 then hr_task_yield ;;; retM HR_OK
  else if ticks =? HR_WAIT_FOREVER then retM HR_ERROR_INVALID_ARGUMENT
  else
    let* irq_state := hr_port_enter_critical in
    let* status := hr_kernel_delay_current ticks in
    hr_port_exit_critical irq_state ;;;
    (if ok status then hr_port_request_context_switch else retM tt) ;;;
    retM status.

(** [last_wake_tick] is the value behind the pointer; the result is the status
    and the new value. *)
Definition hr_task_delay_until (last_wake_tick : option Z) (period : Z) : M kstate (hr_status * option Z) :=
  match last_wake_tick with
  | None => retM (HR_ERROR_INVALID_ARGUMENT, None)
  | Some last =>
      let* s := getM in
      if negb (hr_kernel_is_running s) || hr_port_is_inside_isr s
      then retM (HR_ERROR_INVALID_STATE, last_wake_tick)
      else if (period =? 0) || (INT32_MAX <? period) then retM (HR_ERROR_INVALID_ARGUMENT, last_wake_tick)
      else
        let* irq_state := hr_port_enter_critical in
        let now := hr_kernel_get_tick s in
        let next_wake := u32 (last + period) in
        let remaining_ticks := u32 (next_wake - now) in
        let should_block := negb (remaining_ticks =? 0) && (remaining_ticks <=? INT32_MAX) in
        let* status := if should_block then hr_kernel_delay_current remaining_ticks else retM HR_OK in
        hr_port_exit_critical irq_state ;;;
        (if ok status && should_block then hr_port_request_context_switch else retM tt) ;;;
        retM (status, if ok status then Some next_wake else last_wake_tick)
  end.

(** The checks and the critical section of [hr_task_suspend] and [hr_task_resume]. *)
Definition task_control_call (task : option task_ptr)
    (k : option task_ptr -> M kstate (hr_status * bool)) : M kstate hr_status :=
  let* s := getM in
  if negb (hr_task_is_valid s task) then retM HR_ERROR_INVALID_ARGUMENT
  else if negb (hr_kernel_is_running s) || hr_port_is_inside_isr s
  then retM (if hr_port_is_inside_isr s then HR_ERROR_FROM_ISR else HR_ERROR_INVALID_STATE)
  else
    let* irq_state := hr_port_enter_critical in
    let* r := k task in
    hr_port_exit_critical irq_state ;;;
    (if ok (fst r) && snd r then hr_port_request_context_switch else retM tt) ;;;
    retM (fst r).

Definition hr_task_suspend (task : option task_ptr) : M kstate hr_status :=
  task_control_call task hr_kernel_suspend_task.
Definition hr_task_resume (task : option task_ptr) : M kstate hr_status :=
  task_control_call task hr_kernel_resume_task.
End config.
