(* ===== verification/KernelInv.v ===== *)
(** The invariant of the kernel's data structures and the specifications of the
    primitive steps on them.

    [kstruct T D s V b] relates a kernel state to the sequences [V] its lists
    hold, the absolute time [T] and the deadlines [D] of the timeout nodes: the
    ready set, the timeout lists and the wait lists are represented, nodes are
    linked only into lists of their own kind, and only nodes of registered tasks
    are linked.  The primitive steps of [Kernel] (ready, unready, start and
    cancel a timeout, enter and leave a wait list) preserve it whatever the task
    control blocks say; [task_ok] is what the control blocks add between two
    kernel calls. *)
From stdpp Require Import gmap list.
From Stdlib Require Import ZArith Lia.
From S2P Require Import Prelude Types HrList HrListSpec Store Scheduler SchedulerSpec WaitList WaitListSpec Timeout TimeoutSpec KState TaskCore KernelBase.
Open Scope Z_scope.
Set Warnings "-clear-no-such-hyp".

(** ** Definitions *)

Definition is_wait_list (l : list_addr) : bool :=
  match l with
  | SemaphoreWaiters _ | MutexWaiters _ | QueueSendWaiters _ | QueueReceiveWaiters _ => true
  | _ => false
  end.

(** The lists that neither a ready set, a wait list nor the kernel's timeouts use. *)
Definition quiet_list (l : list_addr) : bool :=
  match l with
  | ReadyQueue _ _ => false
  | TimeoutHalf a _ => negb (N.eqb a g_timeout_list)
  | _ => negb (is_wait_list l)
  end.
Definition same_quiet (V V' : view) : Prop := forall l, quiet_list l = true -> V' !! l = V !! l.

Lemma same_quiet_refl V : same_quiet V V.
Proof. done. Qed.
Lemma same_quiet_trans V1 V2 V3 : same_quiet V1 V2 -> same_quiet V2 V3 -> same_quiet V1 V3.
Proof. intros H1 H2 l Hl. by rewrite H2, H1. Qed.
Lemma same_quiet_insert (V : view) l ns : quiet_list l = false -> same_quiet V (<[l := ns]> V).
Proof. intros Hl l' Hl'. apply lookup_insert_ne. congruence. Qed.
Lemma wait_not_quiet l : is_wait_list l = true -> quiet_list l = false.
Proof. by destruct l. Qed.
Lemma same_quiet_ready V V' : (forall l, (forall p, l <> ReadyQueue g_scheduler p) -> V' !! l = V !! l) -> same_quiet V V'.
Proof. intros H l Hl. apply H. intros p ->. done. Qed.
Lemma same_quiet_timeout V V' : (forall l, (forall d, l <> TimeoutHalf g_timeout_list d) -> V' !! l = V !! l) -> same_quiet V V'.
Proof. intros H l Hl. apply H. intros p ->. done. Qed.

(** The kinds of lists a node is ever linked into. *)
Definition node_fits (n : node_addr) (l : list_addr) : Prop :=
  match n, l with
  | ReadyNode _, ReadyQueue a p => a = g_scheduler /\ 0 <= p < HR_CFG_PRIORITY_COUNT
  | WaitNode _, _ => is_wait_list l = true
  | TimeoutNode _, TimeoutHalf a _ => a = g_timeout_list
  | TimeoutNode _, ExpiredNodes => True
  | AllTaskNode _, AllTasks => True
  | OwnerNode _, OwnedMutexes _ => True
  | TimerTimeoutNode _, TimeoutHalf a _ => a = g_timer_timeouts
  | TimerTimeoutNode _, ExpiredTimers => True
  | TimerPendingNode _, PendingTimers => True
  | _, _ => False
  end.

(** The registered task a linked node stands for. *)
Definition node_task (n : node_addr) (l : list_addr) : option task_ptr :=
  match n with
  | ReadyNode t | WaitNode t | TimeoutNode t | AllTaskNode t => Some t
  | OwnerNode _ => match l with OwnedMutexes t => Some t | _ => None end
  | _ => None
  end.

(** The object an initialised node points back to. *)
Definition owner_of (n : node_addr) : obj_ptr :=
  match n with
  | ReadyNode t | WaitNode t | TimeoutNode t | AllTaskNode t => PTask t
  | OwnerNode m => PMutex m
  | TimerTimeoutNode x | TimerPendingNode x => PTimer x
  end.

Definition registered (s : kstate) (t : task_ptr) : Prop := node_list s (AllTaskNode t) = Some AllTasks.

(** The list heads of the initialised objects. *)
Definition object_list (s : kstate) (l : list_addr) : Prop :=
  match l with
  | SemaphoreWaiters x => sem_magic (sem_at s x) = HR_CFG_SEMAPHORE_MAGIC
  | MutexWaiters m => mx_magic (mutex_at s m) = HR_CFG_MUTEX_MAGIC
  | QueueSendWaiters q | QueueReceiveWaiters q => q_magic (queue_at s q) = HR_CFG_QUEUE_MAGIC
  | OwnedMutexes t => registered s t
  | _ => False
  end.

(** The half of the kernel's timeouts that is current, the time the software timers have
    reached and the current half of theirs: the tick advances the timers after it has
    woken the tasks, so that they lag behind [T] inside it.  [ph_timers_on] says that
    the lists of the timers are initialised, which happens before the flag of
    [hr_timer.c] is set. *)
Record phase : Type := mk_phase { ph_half :> bool; ph_timers : Z; ph_timers_half : bool; ph_timers_on : bool }.

Record timers_rep (D : node_addr -> Z) (s : kstate) (V : view) (b : phase) : Prop := {
  tmr_on : g_timer_system_initialized (glob s) = true -> ph_timers_on b = true;
  tmr_rep : ph_timers_on b = true -> timeout_rep (ks_store s) V g_timer_timeouts (ph_timers b) D (ph_timers_half b);
  tmr_list : ph_timers_on b = true -> is_Some (V !! PendingTimers);
}.

Lemma timers_rep_ext D D' s s' V V' b :
  timers_rep D s V b -> g_timer_system_initialized (glob s') = g_timer_system_initialized (glob s) ->
  (timeout_rep (ks_store s) V g_timer_timeouts (ph_timers b) D (ph_timers_half b) ->
   timeout_rep (ks_store s') V' g_timer_timeouts (ph_timers b) D' (ph_timers_half b)) ->
  (is_Some (V !! PendingTimers) -> is_Some (V' !! PendingTimers)) -> timers_rep D' s' V' b.
Proof. intros [T1 T2 T3] Hi HT HL. split; rewrite ?Hi; auto. Qed.

Record kstruct (T : Z) (D : node_addr -> Z) (s : kstate) (V : view) (b : phase) : Prop := {
  kt_rep : lists_rep (st_lists (ks_store s)) V;
  kt_ready : ready_rep (ks_store s) V g_scheduler;
  kt_timeout : timeout_rep (ks_store s) V g_timeout_list T D b;
  kt_timers : timers_rep D s V b;
  kt_objects : forall l, object_list s l -> is_Some (V !! l);
  kt_owner : forall n l, node_list s n = Some l -> node_owner s n = Some (owner_of n);
  kt_fits : forall n l, node_list s n = Some l -> node_fits n l;
  kt_registered : forall n l t, node_list s n = Some l -> node_task n l = Some t -> registered s t;
  kt_sorted : forall l ns, is_wait_list l = true -> V !! l = Some ns -> sorted_by (priority_at (ks_store s)) ns;
  kt_all : exists ns, V !! AllTasks = Some ns /\ Z.of_nat (length ns) = g_task_count (glob s) /\
             Z.of_nat (length ns) <= HR_CFG_MAX_TASKS;
  kt_prio : forall t, registered s t ->
    priority_at (ks_store s) (ReadyNode t) = t_effective_priority (task_at s t) /\
    priority_at (ks_store s) (WaitNode t) = t_effective_priority (task_at s t) /\
    0 <= t_effective_priority (task_at s t) < HR_CFG_PRIORITY_COUNT;
}.

(** A change outside the lists that keeps effective priorities, the task count
    and the initialised objects. *)
Lemma kstruct_ext T D s s' V b :
  kstruct T D s V b -> ks_store s' = ks_store s ->
  g_task_count (glob s') = g_task_count (glob s) ->
  g_timer_system_initialized (glob s') = g_timer_system_initialized (glob s) ->
  (forall l, object_list s' l -> object_list s l) ->
  (forall t, registered s t -> t_effective_priority (task_at s' t) = t_effective_priority (task_at s t)) ->
  kstruct T D s' V b.
Proof.
  intros [K1 K2 K3 K4 K5 K6 K7 K8 K9 K10 K11] Hs Hc Hi Ho Hp.
  assert (HL : forall n, node_list s' n = node_list s n) by (intros; unfold node_list; by rewrite Hs).
  assert (HO : forall n, node_owner s' n = node_owner s n) by (intros; unfold node_owner; by rewrite Hs).
  assert (HR : forall t, registered s' t <-> registered s t) by (intros; unfold registered; by rewrite HL).
  constructor; rewrite ?Hs, ?Hc; auto.
  - apply (timers_rep_ext D D s s' V V b K4 Hi); [by rewrite Hs|done].
  - intros n l. rewrite HL, HO. apply K6.
  - intros n l. rewrite HL. apply K7.
  - intros n l t. rewrite HL, HR. apply K8.
  - intros t Ht. rewrite HR in Ht. rewrite Hp by done. by apply K11.
Qed.

Lemma kt_timer_rep T D s V b : kstruct T D s V b -> g_timer_system_initialized (glob s) = true ->
  timeout_rep (ks_store s) V g_timer_timeouts (ph_timers b) D (ph_timers_half b).
Proof. intros KS Hi. by apply (kt_timers _ _ _ _ _ KS), KS. Qed.
Lemma kt_timer_list T D s V b : kstruct T D s V b -> g_timer_system_initialized (glob s) = true -> is_Some (V !! PendingTimers).
Proof. intros KS Hi. by apply (kt_timers _ _ _ _ _ KS), KS. Qed.

Lemma view_insert_is_Some (V : view) l0 ns l : is_Some (V !! l) -> is_Some (<[l0 := ns]> V !! l).
Proof. intros H. apply lookup_insert_is_Some'. auto. Qed.

(** ** Frames *)

Lemma ready_rep_frame s s' V V' a :
  ready_rep s V a -> ready_at s' a = ready_at s a ->
  (forall p, V' !! ReadyQueue a p = V !! ReadyQueue a p) ->
  (forall n p, n ∈ queue V a p -> priority_at s' n = priority_at s n) ->
  ready_rep s' V' a.
Proof.
  intros [R1 R2 R3 R4 R5] Ha HV Hp.
  assert (HQ : forall p, queue V' a p = queue V a p) by (intros p; unfold queue; by rewrite HV).
  assert (HR : ready_seq V' a = ready_seq V a).
  { unfold ready_seq. generalize levels as ls. induction ls as [|p ls IH]; simpl; [done|]. by rewrite HQ, IH. }
  split; rewrite ?Ha, ?HR; try done.
  - intros p Hpp. rewrite HV, HQ. auto.
  - intros p n Hpp. rewrite HQ. intros Hn. erewrite Hp by done. auto.
  - intros p Hpp. rewrite HQ. auto.
Qed.

Lemma timeout_rep_frame s s' V V' a T D D' b :
  timeout_rep s V a T D b -> timeout_at s' a = timeout_at s a ->
  (forall c, V' !! TimeoutHalf a c = V !! TimeoutHalf a c) ->
  (forall n, n ∈ pending V a b -> wake_at s' n = wake_at s n /\ D' n = D n) ->
  timeout_rep s' V' a T D' b.
Proof.
  intros TR Ha HV Hw.
  assert (HH : forall c, half V' a c = half V a c) by (intros c; unfold half; by rewrite HV).
  assert (HP : pending V' a b = pending V a b) by (unfold pending; by rewrite !HH).
  constructor; rewrite ?Ha, ?HP, ?HH; try apply TR.
  - intros c. rewrite HV, HH. apply TR.
  - intros n Hn. destruct (Hw n Hn) as [-> ->]. by apply TR.
  - intros n Hn. rewrite (proj2 (Hw n (half_pending _ _ _ _ _ Hn))). by apply TR.
  - intros n Hn. rewrite (proj2 (Hw n (half_pending _ _ _ _ _ Hn))). by apply TR.
  - apply (sorted_by_shift D D' 0); [|apply TR]. intros n Hn. rewrite (proj2 (Hw n Hn)). lia.
Qed.

(** ** Sizes: no list of task nodes is longer than the task list *)

Lemma joined_nodup {K A} (f : K -> list A) ls :
  NoDup ls -> (forall p, p ∈ ls -> NoDup (f p)) ->
  (forall p q x, p ∈ ls -> q ∈ ls -> x ∈ f p -> x ∈ f q -> p = q) -> NoDup (joined f ls).
Proof.
  induction 1 as [|p ls Hp ND IH]; intros H1 H2; simpl; [constructor|].
  apply NoDup_app. split_and!.
  - apply H1. set_solver.
  - intros x Hx (q & Hq & Hxq)%joined_elem_of. assert (p = q) by (eapply H2; set_solver). by subst.
  - apply IH; intros; [apply H1|eapply H2]; set_solver.
Qed.

Section sizes.
Context (T : Z) (D : node_addr -> Z) (s : kstate) (V : view) (b : phase).
Hypothesis KS : kstruct T D s V b.

Lemma kt_member n l ns : V !! l = Some ns -> node_list s n = Some l <-> n ∈ ns.
Proof. apply (rep_member_iff _ _ (kt_rep _ _ _ _ _ KS)). Qed.

Lemma kt_nodup l ns : V !! l = Some ns -> NoDup ns.
Proof. intros Hl. apply (ring_nodup _ _ _ (rep_ring _ _ (kt_rep _ _ _ _ _ KS) _ _ Hl)). Qed.

Lemma kt_linked n l : node_list s n = Some l -> exists xs ys, V !! l = Some (xs ++ n :: ys).
Proof.
  intros H. destruct (rep_linked _ _ (kt_rep _ _ _ _ _ KS) _ _ H) as (ns & Hl & Hn).
  apply list_elem_of_split in Hn as (xs & ys & ->). eauto.
Qed.

Lemma task_nodes_bound (f : task_ptr -> node_addr) ns :
  (forall n, n ∈ ns -> exists t, n = f t /\ registered s t) -> NoDup ns ->
  Z.of_nat (length ns) <= HR_CFG_MAX_TASKS.
Proof.
  intros Hn ND. destruct (kt_all _ _ _ _ _ KS) as (ats & Ha & _ & Hb).
  set (g := fun n => match n with AllTaskNode t => f t | _ => n end).
  assert (length ns <= length (g <$> ats))%nat as HL; [|rewrite length_fmap in HL; lia].
  apply submseteq_length, NoDup_submseteq; [done|]. intros n Hin.
  destruct (Hn n Hin) as (t & -> & Ht). apply (kt_member _ _ _ Ha) in Ht.
  apply list_elem_of_fmap. by exists (AllTaskNode t).
Qed.

Lemma queue_elem (W : view) a p n : n ∈ queue W a p -> exists ns, W !! ReadyQueue a p = Some ns /\ n ∈ ns.
Proof. unfold queue. destruct (W !! _) as [ns|]; simpl; [eauto|by rewrite elem_of_nil]. Qed.

Lemma ready_member n p : n ∈ queue V g_scheduler p -> node_list s n = Some (ReadyQueue g_scheduler p).
Proof.
  intros (ns & E & Hn)%queue_elem. by apply (kt_member _ _ _ E).
Qed.

Lemma ready_seq_nodup : NoDup (ready_seq V g_scheduler).
Proof.
  apply joined_nodup; [apply levels_nodup| |].
  - intros p Hp. unfold queue. destruct (V !! _) eqn:E; simpl; [by eapply kt_nodup|constructor].
  - intros p q x _ _ Hx Hy. apply ready_member in Hx, Hy. congruence.
Qed.

Lemma ready_seq_bound : Z.of_nat (length (ready_seq V g_scheduler)) <= HR_CFG_MAX_TASKS.
Proof.
  apply (task_nodes_bound ReadyNode), ready_seq_nodup.
  intros n (p & _ & Hn)%ready_seq_elem. apply ready_member in Hn.
  pose proof (kt_fits _ _ _ _ _ KS _ _ Hn) as Hf. destruct n as [t| | | | | |]; try done.
  exists t. split; [done|]. by eapply (kt_registered _ _ _ _ _ KS).
Qed.

(** The registered tasks, as a sequence. *)
Lemma all_tasks : exists ts, V !! AllTasks = Some (AllTaskNode <$> ts) /\ NoDup ts /\ (forall t, t ∈ ts <-> registered s t) /\
  g_task_count (glob s) = Z.of_nat (length ts) /\ Z.of_nat (length ts) <= HR_CFG_MAX_TASKS.
Proof.
  destruct (kt_all _ _ _ _ _ KS) as (ats & HA & Hct & Hmax). pose proof (kt_nodup _ _ HA) as ND.
  assert (HT : exists ts, ats = AllTaskNode <$> ts).
  { assert (HF : Forall (fun n => exists t, n = AllTaskNode t) ats).
    { apply Forall_forall. intros n Hn. apply (kt_member _ _ _ HA) in Hn.
      pose proof (kt_fits _ _ _ _ _ KS _ _ Hn) as Hf. destruct n; try done. eauto. }
    clear HA Hct Hmax ND. induction HF as [|n ns [t ->] _ [ts ->]]; [by exists []|by exists (t :: ts)]. }
  destruct HT as [ts ->]. exists ts. rewrite length_fmap in *. split_and!; [done|by apply NoDup_fmap_1 in ND| |done|done].
  intros t. unfold registered. rewrite (kt_member (AllTaskNode t) AllTasks _ HA), list_elem_of_fmap.
  split; [eauto|]. by intros (u & [= ->] & ?).
Qed.

Lemma half_member a c n : n ∈ half V a c -> node_list s n = Some (TimeoutHalf a c).
Proof.
  unfold half. destruct (V !! TimeoutHalf a c) as [ns|] eqn:E; simpl; [|set_solver]. by apply kt_member.
Qed.

Lemma pending_member a n : n ∈ pending V a b -> exists c, node_list s n = Some (TimeoutHalf a c).
Proof. intros (c & Hc)%pending_half. exists c. by apply half_member. Qed.

Lemma pending_nodup a b' : NoDup (pending V a b').
Proof.
  unfold pending. apply NoDup_app.
  assert (ND : forall c, NoDup (half V a c)).
  { intros c. unfold half. destruct (V !! _) eqn:E; simpl; [by eapply kt_nodup|constructor]. }
  split_and!; [done| |done]. intros n H1%half_member H2%half_member. rewrite H1 in H2. by destruct b'.
Qed.

Lemma pending_bound : Z.of_nat (length (pending V g_timeout_list b)) <= HR_CFG_MAX_TASKS.
Proof.
  apply (task_nodes_bound TimeoutNode); [|apply pending_nodup].
  intros n (c & Hn)%pending_member. pose proof (kt_fits _ _ _ _ _ KS _ _ Hn) as Hf.
  destruct n as [| |t| | | |]; simpl in Hf; try done.
  exists t. split; [done|]. by eapply (kt_registered _ _ _ _ _ KS).
Qed.

Lemma wait_list_bound l ns : is_wait_list l = true -> V !! l = Some ns ->
  Z.of_nat (length ns) <= HR_CFG_MAX_TASKS.
Proof.
  intros Hw Hl. apply (task_nodes_bound WaitNode); [|by eapply kt_nodup].
  intros n Hn. apply (kt_member _ _ _ Hl) in Hn. pose proof (kt_fits _ _ _ _ _ KS _ _ Hn) as Hf.
  destruct n as [|t| | | | |]; simpl in Hf; try (by destruct l).
  exists t. split; [done|]. by eapply (kt_registered _ _ _ _ _ KS).
Qed.
End sizes.

(** ** Primitive steps *)

(** The effect of linking or unlinking one node. *)
Record step_frame (s s' : kstate) (n : node_addr) (v : option list_addr) : Prop := {
  sf_rest : s' = ks_set_store (ks_store s') s;
  sf_list : forall m, node_list s' m = if decide (m = n) then v else node_list s m;
  sf_owner : forall m, node_owner s' m = node_owner s m;
  sf_priority : st_priority (ks_store s') = st_priority (ks_store s);
}.

Lemma link_step_frame s st n v :
  link_frame (st_lists (ks_store s)) (st_lists st) n v -> st_priority st = st_priority (ks_store s) ->
  step_frame s (ks_set_store st s) n v.
Proof.
  intros [F1 F2] Hp. split; try done.
  - intros m. unfold node_list; simpl. rewrite F1. repeat case_decide; congruence.
  - intros m. apply F2.
Qed.

Section step_frame.
Context (s s' : kstate) (n : node_addr) (v : option list_addr).
Hypothesis F : step_frame s s' n v.

Lemma sf_glob : glob s' = glob s.
Proof. by rewrite (sf_rest _ _ _ _ F). Qed.
Lemma sf_task t : task_at s' t = task_at s t.
Proof. by rewrite (sf_rest _ _ _ _ F). Qed.
Lemma sf_priority_at m : priority_at (ks_store s') m = priority_at (ks_store s) m.
Proof. unfold priority_at. by rewrite (sf_priority _ _ _ _ F). Qed.
Lemma sf_registered t : (forall u, n <> AllTaskNode u) -> registered s' t <-> registered s t.
Proof. intros H. unfold registered. rewrite (sf_list _ _ _ _ F), decide_False; [done|]. intros E. by destruct (H t). Qed.
End step_frame.

Lemma kstruct_step T D D' s s' V V' b n v :
  kstruct T D s V b -> step_frame s s' n v -> (forall t, n <> AllTaskNode t) ->
  (forall l, v = Some l -> node_fits n l /\ node_owner s n = Some (owner_of n) /\
     forall t, node_task n l = Some t -> registered s t) ->
  lists_rep (st_lists (ks_store s')) V' -> ready_rep (ks_store s') V' g_scheduler ->
  timeout_rep (ks_store s') V' g_timeout_list T D' b ->
  (timeout_rep (ks_store s) V g_timer_timeouts (ph_timers b) D (ph_timers_half b) ->
     timeout_rep (ks_store s') V' g_timer_timeouts (ph_timers b) D' (ph_timers_half b)) ->
  V' !! AllTasks = V !! AllTasks -> (forall l, is_Some (V !! l) -> is_Some (V' !! l)) ->
  (forall l ns, is_wait_list l = true -> V' !! l = Some ns -> sorted_by (priority_at (ks_store s)) ns) ->
  kstruct T D' s' V' b.
Proof.
  intros KS F Hn Hv Rep RR TR TM HA HP HS.
  pose proof (sf_glob _ _ _ _ F) as Hg. pose proof (fun t => sf_registered _ _ _ _ F t Hn) as Hreg.
  constructor; rewrite ?Hg; try done.
  - apply (timers_rep_ext D D' s s' V V' b (kt_timers _ _ _ _ _ KS)); [by rewrite Hg|done|apply HP].
  - intros l Hl. apply HP, KS. rewrite (sf_rest _ _ _ _ F) in Hl. destruct l; try done. by apply Hreg.
  - intros m l. rewrite (sf_list _ _ _ _ F), (sf_owner _ _ _ _ F). case_decide as E; [subst m; intros Hl; by destruct (Hv l Hl) as (_ & ? & _)|apply KS].
  - intros m l. rewrite (sf_list _ _ _ _ F). case_decide as E; [subst m; intros Hl; by destruct (Hv l Hl) as (? & _ & _)|apply KS].
  - intros m l t. rewrite (sf_list _ _ _ _ F), Hreg. case_decide as E; [subst m; intros Hl; destruct (Hv l Hl) as (_ & _ & H'); auto|apply KS].
  - intros l ns Hl Hns. apply (sorted_by_shift (priority_at (ks_store s)) _ 0); [|by eapply HS].
    intros x _. rewrite (sf_priority_at _ _ _ _ F). lia.
  - rewrite HA. apply KS.
  - intros t Ht. rewrite !(sf_priority_at _ _ _ _ F), (sf_task _ _ _ _ F). apply KS. by apply Hreg.
Qed.

(** A list that is not a wait list keeps the wait lists sorted. *)
Lemma sorted_other T D s V b l0 ns0 : kstruct T D s V b -> is_wait_list l0 = false ->
  forall l ns, is_wait_list l = true -> <[l0 := ns0]> V !! l = Some ns -> sorted_by (priority_at (ks_store s)) ns.
Proof.
  intros KS H0 l ns Hl. rewrite lookup_insert_ne by (intros ->; congruence). by apply KS.
Qed.

Section steps.
Context (T : Z) (D : node_addr -> Z) (s : kstate) (V : view) (b : phase).
Hypothesis KS : kstruct T D s V b.

Lemma timers_frame st V' D' Tm bm :
  st_timeout st = st_timeout (ks_store s) -> (forall c, V' !! TimeoutHalf g_timer_timeouts c = V !! TimeoutHalf g_timer_timeouts c) ->
  (forall n, st_wake st !!! n = st_wake (ks_store s) !!! n /\ D' n = D n) ->
  timeout_rep (ks_store s) V g_timer_timeouts Tm D bm -> timeout_rep st V' g_timer_timeouts Tm D' bm.
Proof.
  intros H1 H2 H3 TR. apply (timeout_rep_frame (ks_store s) st V V' _ Tm D D' bm TR); [|done|].
  - unfold timeout_at. by rewrite H1.
  - intros n _. apply H3.
Qed.

(** A ready-set step leaves the timeout lists and the wait lists alone. *)
Lemma kstruct_ready_step st p ns n v :
  node_fits n (ReadyQueue g_scheduler p) ->
  (v = Some (ReadyQueue g_scheduler p) /\ node_owner s n = Some (owner_of n) \/ v = None) ->
  (forall t, node_task n (ReadyQueue g_scheduler p) = Some t -> registered s t) ->
  lists_rep (st_lists st) (<[ReadyQueue g_scheduler p := ns]> V) ->
  ready_rep st (<[ReadyQueue g_scheduler p := ns]> V) g_scheduler ->
  ready_frame (ks_store s) st g_scheduler n v ->
  kstruct T D (ks_set_store st s) (<[ReadyQueue g_scheduler p := ns]> V) b /\
  step_frame s (ks_set_store st s) n v.
Proof.
  intros Hfit Hv Hreg Rep RR [LF P1 P2 P3 _].
  assert (SF : step_frame s (ks_set_store st s) n v) by (by apply link_step_frame).
  split; [|done].
  apply (kstruct_step T D D s _ V _ b n v KS SF).
  - by destruct n.
  - intros l El. destruct Hv as [[-> ?] | ->]; [|done]. injection El as <-. auto.
  - done.
  - done.
  - apply (timeout_rep_frame (ks_store s) _ V _ _ T D D b (kt_timeout _ _ _ _ _ KS)).
    + unfold timeout_at; simpl. by rewrite P3.
    + intros c. by rewrite lookup_insert_ne.
    + intros m _. unfold wake_at; simpl. by rewrite P2.
  - apply timers_frame; simpl; [done|intros; by rewrite lookup_insert_ne|]. intros m. by rewrite P2.
  - by rewrite lookup_insert_ne.
  - intros l. apply view_insert_is_Some.
  - by eapply sorted_other.
Qed.

Lemma ready_linked_at t l : node_list s (ReadyNode t) = Some l ->
  let p := t_effective_priority (task_at s t) in
  l = ReadyQueue g_scheduler p /\ 0 <= p < HR_CFG_PRIORITY_COUNT /\ registered s t /\
  priority_at (ks_store s) (ReadyNode t) = p /\
  exists xs ys, queue V g_scheduler p = xs ++ ReadyNode t :: ys.
Proof.
  intros Hl p. pose proof (kt_fits _ _ _ _ _ KS _ _ Hl) as Hf. destruct l as [a q| | | | | | | | | |]; try done.
  destruct Hf as [-> Hq]. pose proof (kt_registered _ _ _ _ _ KS _ _ t Hl eq_refl) as Hreg.
  destruct (kt_prio _ _ _ _ _ KS t Hreg) as (Hp & _ & Hr). fold p in Hp, Hr.
  destruct (kt_linked _ _ _ _ _ KS _ _ Hl) as (xs & ys & HV).
  assert (EQ : queue V g_scheduler q = xs ++ ReadyNode t :: ys) by (unfold queue; by rewrite HV).
  assert (q = p) as ->.
  { rewrite <- Hp. symmetry. eapply (rr_priority _ _ _ (kt_ready _ _ _ _ _ KS)); [done|]. rewrite EQ. set_solver. }
  split_and!; try done; try lia. eauto.
Qed.

Lemma remove_ready_spec t Q : is_Some (node_list s (ReadyNode t)) ->
  (forall s' V' xs ys, let p := t_effective_priority (task_at s t) in
     queue V g_scheduler p = xs ++ ReadyNode t :: ys ->
     V' = <[ReadyQueue g_scheduler p := xs ++ ys]> V ->
     kstruct T D s' V' b -> step_frame s s' (ReadyNode t) None -> Q HR_OK s') ->
  wp (remove_ready t) Q s.
Proof.
  intros [l Hl] K. destruct (ready_linked_at t l Hl) as (-> & Hr & Hreg & Hp & xs & ys & Hq).
  unfold remove_ready. wp_step. unfold hr_scheduler_remove_ready. simpl.
  apply (ready_set_remove_spec (ks_store s) V g_scheduler (ReadyNode t) xs ys); rewrite ?Hp; try done.
  - apply KS.
  - apply KS.
  - intros st Rep RR RF. rewrite ?Hp in Rep, RR.
    destruct (kstruct_ready_step st _ _ (ReadyNode t) _ ltac:(done) (or_intror eq_refl)
      ltac:(by intros u [= <-]) Rep RR RF) as [KS' SF]. by eapply K.
Qed.

Lemma add_ready_spec t Q : registered s t -> node_list s (ReadyNode t) = None ->
  node_owner s (ReadyNode t) = Some (PTask t) ->
  (forall s' V', let p := t_effective_priority (task_at s t) in
     V' = <[ReadyQueue g_scheduler p := queue V g_scheduler p ++ [ReadyNode t]]> V ->
     kstruct T D s' V' b -> step_frame s s' (ReadyNode t) (Some (ReadyQueue g_scheduler p)) -> Q HR_OK s') ->
  wp (add_ready t) Q s.
Proof.
  intros Hreg Hl Ho K. destruct (kt_prio _ _ _ _ _ KS t Hreg) as (Hp & _ & Hr).
  unfold add_ready. wp_step. unfold hr_scheduler_add_ready. simpl.
  apply (ready_set_insert_spec (ks_store s) V g_scheduler (ReadyNode t)); rewrite ?Hp; try done.
  - apply KS.
  - apply KS.
  - pose proof (ready_seq_bound _ _ _ _ _ KS). unfold SIZE_MAX, HR_CFG_MAX_TASKS in *. lia.
  - intros st Rep RR RF. rewrite ?Hp in Rep, RR, RF.
    destruct (kstruct_ready_step st _ _ (ReadyNode t) _ ltac:(done) (or_introl (conj eq_refl Ho))
      ltac:(by intros u [= <-]) Rep RR RF) as [KS' SF]. by eapply K.
Qed.

(** A wait-list step. *)
Lemma kstruct_wait_step h l ns t v :
  is_wait_list l = true -> registered s t ->
  (v = Some l /\ node_owner s (WaitNode t) = Some (PTask t) \/ v = None) ->
  lists_rep h (<[l := ns]> V) -> link_frame (st_lists (ks_store s)) h (WaitNode t) v ->
  sorted_by (priority_at (ks_store s)) ns ->
  let s' := ks_set_store (set_lists h (ks_store s)) s in
  kstruct T D s' (<[l := ns]> V) b /\ step_frame s s' (WaitNode t) v.
Proof.
  intros Hw Hreg Hv Rep LF HS s'.
  assert (SF : step_frame s s' (WaitNode t) v) by (by apply link_step_frame).
  assert (Hl : forall l', is_wait_list l' = false -> <[l := ns]> V !! l' = V !! l').
  { intros l' H'. apply lookup_insert_ne. intros ->. congruence. }
  split; [|done]. apply (kstruct_step T D D s s' V _ b (WaitNode t) v KS SF); try done.
  - intros l0 El. destruct Hv as [[-> ?] | ->]; [|done]. injection El as <-. split_and!; [done|done|]. by intros u [= <-].
  - apply (ready_rep_frame (ks_store s) _ V _ _ (kt_ready _ _ _ _ _ KS)); [done| |done].
    intros p. by apply Hl.
  - apply (timeout_rep_frame (ks_store s) _ V _ _ T D D b (kt_timeout _ _ _ _ _ KS)); [done| |done].
    intros c. by apply Hl.
  - apply timers_frame; [done| |done]. intros c. by apply Hl.
  - by apply Hl.
  - intros l'. apply view_insert_is_Some.
  - intros l' ns' Hl'. destruct (decide (l = l')) as [<-|Hne].
    + rewrite lookup_insert_eq. by intros [= <-].
    + rewrite lookup_insert_ne by done. by apply KS.
Qed.

Lemma wait_insert_spec t l ns Q : registered s t -> node_list s (WaitNode t) = None ->
  node_owner s (WaitNode t) = Some (PTask t) ->
  is_wait_list l = true -> V !! l = Some ns ->
  (forall s' V', V' = <[l := insert_by (priority_at (ks_store s)) (WaitNode t) ns]> V ->
     kstruct T D s' V' b -> step_frame s s' (WaitNode t) (Some l) -> Q HR_OK s') ->
  wp (lift (hr_wait_list_insert (Some l) (Some (WaitNode t)))) Q s.
Proof.
  intros Hreg Hu Ho Hw Hl K. wp_step. simpl.
  apply (wait_list_insert_spec (ks_store s) V l (WaitNode t) ns); try done.
  - apply KS.
  - pose proof (wait_list_bound _ _ _ _ _ KS l ns Hw Hl). unfold SIZE_MAX, HR_CFG_MAX_TASKS in *. lia.
  - intros h Rep LF. destruct (kstruct_wait_step h l _ t (Some l) Hw Hreg (or_introl (conj eq_refl Ho)) Rep LF) as [KS' SF].
    + apply insert_by_sorted. by eapply (kt_sorted _ _ _ _ _ KS).
    + by eapply K.
Qed.

Lemma wait_remove_spec t l Q : node_list s (WaitNode t) = Some l ->
  (forall s' V' xs ys, V !! l = Some (xs ++ WaitNode t :: ys) -> V' = <[l := xs ++ ys]> V ->
     kstruct T D s' V' b -> step_frame s s' (WaitNode t) None -> Q HR_OK s') ->
  wp (lift (hr_wait_list_remove (Some l) (Some (WaitNode t)))) Q s.
Proof.
  intros Hl K. pose proof (kt_fits _ _ _ _ _ KS _ _ Hl) as Hw. simpl in Hw.
  pose proof (kt_registered _ _ _ _ _ KS _ _ t Hl eq_refl) as Hreg.
  destruct (kt_linked _ _ _ _ _ KS _ _ Hl) as (xs & ys & HV). wp_step. simpl.
  apply (wait_list_remove_spec (ks_store s) V l (WaitNode t) xs ys); [apply KS|done|].
  intros h Rep LF. destruct (kstruct_wait_step h l _ t None Hw Hreg (or_intror eq_refl) Rep LF) as [KS' SF].
  - eapply sorted_by_remove. by eapply (kt_sorted _ _ _ _ _ KS).
  - by eapply K.
Qed.

(** A step on the kernel's timeout list. *)
Lemma kstruct_timeout_step D' st c ns t v :
  registered s t ->
  (v = Some (TimeoutHalf g_timeout_list c) /\ node_owner s (TimeoutNode t) = Some (PTask t) \/ v = None) ->
  lists_rep (st_lists st) (<[TimeoutHalf g_timeout_list c := ns]> V) ->
  timeout_rep st (<[TimeoutHalf g_timeout_list c := ns]> V) g_timeout_list T D' b ->
  link_frame (st_lists (ks_store s)) (st_lists st) (TimeoutNode t) v ->
  timeout_frame (ks_store s) st g_timeout_list ->
  (forall m, m <> TimeoutNode t -> wake_at st m = wake_at (ks_store s) m /\ D' m = D m) ->
  let s' := ks_set_store st s in
  kstruct T D' s' (<[TimeoutHalf g_timeout_list c := ns]> V) b /\ step_frame s s' (TimeoutNode t) v.
Proof.
  intros Hreg Hv Rep TR LF [F1 F2 F3] HD s'.
  assert (SF : step_frame s s' (TimeoutNode t) v) by (by apply link_step_frame).
  split; [|done]. apply (kstruct_step T D D' s s' V _ b (TimeoutNode t) v KS SF); try done.
  - intros l0 El. destruct Hv as [[-> ?] | ->]; [|done]. injection El as <-. split_and!; [done|done|]. by intros u [= <-].
  - apply (ready_rep_frame (ks_store s) _ V _ _ (kt_ready _ _ _ _ _ KS)).
    + unfold ready_at. simpl. by rewrite F2.
    + intros p. by rewrite lookup_insert_ne.
    + intros n p _. unfold priority_at. simpl. by rewrite F1.
  - intros TM. apply (timeout_rep_frame (ks_store s) _ V _ _ _ D D' _ TM).
    + by apply F3.
    + intros d. by rewrite lookup_insert_ne.
    + intros n Hn. apply HD. intros ->. apply pending_half in Hn as (d & Hn).
      apply (half_member _ _ _ _ _ KS) in Hn. by apply (kt_fits _ _ _ _ _ KS) in Hn.
  - by rewrite lookup_insert_ne.
  - intros l. apply view_insert_is_Some.
  - by eapply sorted_other.
Qed.

Lemma add_timeout_spec t delay Q : registered s t -> node_list s (TimeoutNode t) = None ->
  node_owner s (TimeoutNode t) = Some (PTask t) ->
  0 < delay < HR_WAIT_FOREVER ->
  let D' := fun m => if decide (m = TimeoutNode t) then T + delay else D m in
  (forall s' V' c, kstruct T D' s' V' b -> pending V' g_timeout_list b = insert_by D' (TimeoutNode t) (pending V g_timeout_list b) ->
     (forall l, (forall d, l <> TimeoutHalf g_timeout_list d) -> V' !! l = V !! l) ->
     step_frame s s' (TimeoutNode t) (Some (TimeoutHalf g_timeout_list c)) -> Q HR_OK s') ->
  wp (add_timeout t delay) Q s.
Proof.
  intros Hreg Hu Ho Hd D' K. unfold add_timeout. wp_step. simpl.
  apply (timeout_insert_spec (ks_store s) V g_timeout_list T D b (TimeoutNode t) delay); try done.
  - apply KS.
  - apply KS.
  - pose proof (pending_bound _ _ _ _ _ KS). unfold SIZE_MAX, HR_CFG_MAX_TASKS in *. lia.
  - intros st V' Rep -> TR EP LF TF HW.
    destruct (kstruct_timeout_step D' st _ _ t _ Hreg (or_introl (conj eq_refl Ho)) Rep TR LF TF) as [KS' SF].
    { intros m Hm. split; [by apply HW|]. unfold D'. by rewrite decide_False. }
    eapply K; [done|done| |done]. intros l Hl. by rewrite lookup_insert_ne.
Qed.

Lemma remove_timeout_spec t c Q : node_list s (TimeoutNode t) = Some (TimeoutHalf g_timeout_list c) ->
  (forall s' V', kstruct T D s' V' b ->
     (exists us vs, pending V g_timeout_list b = us ++ TimeoutNode t :: vs /\ pending V' g_timeout_list b = us ++ vs) ->
     (forall l, (forall d, l <> TimeoutHalf g_timeout_list d) -> V' !! l = V !! l) ->
     step_frame s s' (TimeoutNode t) None -> Q HR_OK s') ->
  wp (remove_timeout t) Q s.
Proof.
  intros Hl K. pose proof (kt_registered _ _ _ _ _ KS _ _ t Hl eq_refl) as Hreg.
  destruct (kt_linked _ _ _ _ _ KS _ _ Hl) as (xs & ys & HV).
  assert (Hh : half V g_timeout_list c = xs ++ TimeoutNode t :: ys) by (unfold half; by rewrite HV).
  unfold remove_timeout. wp_step. simpl.
  apply (timeout_remove_spec (ks_store s) V g_timeout_list T D b c (TimeoutNode t) xs ys); [apply KS|apply KS|done|].
  intros st V' -> Rep TR HP LF TF HW.
  destruct (kstruct_timeout_step D st _ _ t _ Hreg (or_intror eq_refl) Rep TR LF TF) as [KS' SF].
  { intros m Hm. split; [|done]. unfold wake_at. by rewrite HW. }
  eapply K; [done|done| |done]. intros l Hne. by rewrite lookup_insert_ne.
Qed.
End steps.
