(* ===== verification/KernelTasks.v ===== *)
(** What the task control blocks satisfy between two kernel calls, the invariant
    of the kernel, and the effect of priority inheritance on it. *)
From stdpp Require Import gmap list.
From Stdlib Require Import ZArith Lia.
From S2P Require Import Prelude Types HrList HrListSpec Store Scheduler SchedulerSpec WaitList WaitListSpec Timeout TimeoutSpec KState TaskCore KernelBase KernelInv MutexPriority Kernel.
Open Scope Z_scope.
Set Warnings "-clear-no-such-hyp".

(** ** The invariant *)

(** The wait list a task blocked with [kind] on [object] is linked into. *)
Definition waits_for (kind : hr_task_wait_kind) (object : wait_object) : option list_addr :=
  match kind, object with
  | HR_TASK_WAIT_QUEUE_SEND, WQueue q => Some (QueueSendWaiters q)
  | HR_TASK_WAIT_QUEUE_RECEIVE, WQueue q => Some (QueueReceiveWaiters q)
  | HR_TASK_WAIT_SEMAPHORE_TAKE, WSemaphore x => Some (SemaphoreWaiters x)
  | HR_TASK_WAIT_MUTEX_LOCK, WMutex m => Some (MutexWaiters m)
  | _, _ => None
  end.

(** A task with no wait in progress. *)
Record idle_wait (s : kstate) (t : task_ptr) : Prop := {
  iw_kind : t_wait_kind (task_at s t) = HR_TASK_WAIT_NONE;
  iw_object : t_waiting_object (task_at s t) = None;
  iw_list : t_blocked_wait_list (task_at s t) = None;
  iw_cleanup : t_wait_cleanup (task_at s t) = None;
  iw_wait : node_list s (WaitNode t) = None;
  iw_timeout : node_list s (TimeoutNode t) = None;
}.

(** A delay, and a wait on an object. *)
Record delay_wait (s : kstate) (t : task_ptr) : Prop := {
  dw_kind : t_wait_kind (task_at s t) = HR_TASK_WAIT_DELAY;
  dw_object : t_waiting_object (task_at s t) = Some WTimeoutList;
  dw_list : t_blocked_wait_list (task_at s t) = None;
  dw_cleanup : t_wait_cleanup (task_at s t) = None;
  dw_wait : node_list s (WaitNode t) = None;
}.
Record object_waiting (s : kstate) (t : task_ptr) (o : wait_object) (l : list_addr) : Prop := {
  ow_target : waits_for (t_wait_kind (task_at s t)) o = Some l;
  ow_object : t_waiting_object (task_at s t) = Some o;
  ow_list : t_blocked_wait_list (task_at s t) = Some l;
  ow_cleanup : t_wait_cleanup (task_at s t) <> None -> t_wait_kind (task_at s t) = HR_TASK_WAIT_MUTEX_LOCK;
  ow_buffer : buffer_wait (t_wait_kind (task_at s t)) = true -> is_Some (t_wait_buffer (task_at s t));
  ow_wait : node_list s (WaitNode t) = Some l;
}.
Definition waiting (s : kstate) (t : task_ptr) : Prop :=
  delay_wait s t /\ is_Some (node_list s (TimeoutNode t)) \/ exists o l, object_waiting s t o l.

(** The links and wait fields of a registered task, by its state. *)
Definition state_ok (s : kstate) (t : task_ptr) : Prop :=
  match t_state (task_at s t) with
  | HR_TASK_STATE_READY => is_Some (node_list s (ReadyNode t)) /\ idle_wait s t
  | HR_TASK_STATE_RUNNING =>
      is_Some (node_list s (ReadyNode t)) /\ idle_wait s t /\ g_current_task (glob s) = Some t
  | HR_TASK_STATE_BLOCKED => node_list s (ReadyNode t) = None /\ waiting s t
  | HR_TASK_STATE_SUSPENDED =>
      node_list s (ReadyNode t) = None /\
      match t_suspended_resume_state (task_at s t) with
      | HR_TASK_STATE_READY => idle_wait s t
      | HR_TASK_STATE_BLOCKED => waiting s t
      | _ => False
      end
  | _ => False
  end.

(** What never changes for a registered task. *)
Record task_fixed (s : kstate) (t : task_ptr) : Prop := {
  tx_magic : t_magic (task_at s t) = HR_CFG_TASK_MAGIC;
  tx_ready : node_owner s (ReadyNode t) = Some (PTask t);
  tx_wait : node_owner s (WaitNode t) = Some (PTask t);
  tx_timeout : node_owner s (TimeoutNode t) = Some (PTask t);
  tx_level : t <> g_idle_task -> t_effective_priority (task_at s t) < HR_CFG_IDLE_PRIORITY /\
               t_base_priority (task_at s t) < HR_CFG_IDLE_PRIORITY;
  tx_base : 0 <= t_base_priority (task_at s t);
}.
Record task_ok (s : kstate) (t : task_ptr) : Prop := {
  to_state : state_ok s t;
  to_idle : t = g_idle_task -> is_Some (node_list s (ReadyNode t));
}.

Definition globals_ok (s : kstate) : Prop :=
  registered s g_idle_task /\
  match g_kernel_state (glob s) with
  | HR_KERNEL_STATE_INITIALIZED => g_current_task (glob s) = None
  | HR_KERNEL_STATE_RUNNING =>
      exists c, g_current_task (glob s) = Some c /\ g_hr_current_task_control_block (glob s) = Some c /\
                registered s c
  | _ => False
  end.

(** Ranges of the fields of initialised objects. *)
Definition sem_range (c : hr_semaphore_control_block_t) : Prop :=
  0 < sem_max_count c <= UINT32_MAX /\ 0 <= sem_count c <= sem_max_count c.
Record queue_range (c : hr_queue_control_block_t) : Prop := {
  qr_storage : is_Some (q_storage c);
  qr_item : 0 < q_item_size c;
  qr_capacity : 0 < q_capacity c;
  qr_bytes : q_item_size c * q_capacity c <= SIZE_MAX;
  qr_count : 0 <= q_count c <= q_capacity c;
  qr_head : 0 <= q_head c < q_capacity c;
  qr_tail : q_tail c = (q_head c + q_count c) mod q_capacity c;
}.

(** A mutex is in the list of owned mutexes of its owner and in no other; it is locked a
    positive number of times when it has an owner.  Mutexes are distinct objects of a
    32-bit address space, so that there are fewer than [SIZE_MAX] names. *)
Record mutex_ok (s : kstate) (m : mutex_ptr) : Prop := {
  mo_link : forall o, node_list s (OwnerNode m) = Some (OwnedMutexes o) <->
    mx_magic (mutex_at s m) = HR_CFG_MUTEX_MAGIC /\ mx_owner (mutex_at s m) = Some o;
  mo_node : mx_magic (mutex_at s m) = HR_CFG_MUTEX_MAGIC -> node_owner s (OwnerNode m) = Some (PMutex m);
  mo_count : mx_magic (mutex_at s m) = HR_CFG_MUTEX_MAGIC ->
    match mx_owner (mutex_at s m) with
    | None => mx_recursion_count (mutex_at s m) = 0
    | Some _ => 0 < mx_recursion_count (mutex_at s m) <= UINT32_MAX
    end;
  mo_name : mx_magic (mutex_at s m) = HR_CFG_MUTEX_MAGIC -> Z.of_N m < SIZE_MAX;
}.

(** When a task may be linked into a wait list: the semaphore has no unit, the mutex is
    owned, the queue is full for a sender and empty for a receiver. *)
Definition may_wait (s : kstate) (l : list_addr) : Prop :=
  match l with
  | SemaphoreWaiters x => sem_magic (sem_at s x) = HR_CFG_SEMAPHORE_MAGIC /\ sem_count (sem_at s x) = 0
  | MutexWaiters m => mx_magic (mutex_at s m) = HR_CFG_MUTEX_MAGIC /\ is_Some (mx_owner (mutex_at s m))
  | QueueSendWaiters q =>
      q_magic (queue_at s q) = HR_CFG_QUEUE_MAGIC /\ q_count (queue_at s q) = q_capacity (queue_at s q)
  | QueueReceiveWaiters q => q_magic (queue_at s q) = HR_CFG_QUEUE_MAGIC /\ q_count (queue_at s q) = 0
  | _ => True
  end.

(** The counter of a task counts the mutexes linked into its list of owned mutexes. *)
Definition owned_counted (s : kstate) (t : task_ptr) : Prop :=
  forall ms, NoDup ms -> (forall m, m ∈ ms <-> node_list s (OwnerNode m) = Some (OwnedMutexes t)) ->
    t_owned_mutex_count (task_at s t) = Z.of_nat (length ms).

(** A timer is armed exactly while its timeout node is linked, and pending exactly while it
    is in the list of the service task.  Timers, like mutexes, are distinct objects of the
    address space. *)
Definition timer_valid (s : kstate) (x : timer_ptr) : Prop := tm_magic (timer_at s x) = HR_CFG_TIMER_MAGIC.
Record timer_range (c : hr_timer_control_block_t) : Prop := {
  tg_name : tm_name c <> None;
  tg_callback : tm_callback c <> None;
  tg_period : 0 < tm_period_ticks c < HR_WAIT_FOREVER;
  tg_pending : 0 <= tm_pending_count c <= UINT32_MAX;
}.
Record timer_ok (s : kstate) (x : timer_ptr) : Prop := {
  tmo_linked : is_Some (node_list s (TimerTimeoutNode x)) \/ is_Some (node_list s (TimerPendingNode x)) ->
    timer_valid s x;
  tmo_owner : timer_valid s x -> node_owner s (TimerTimeoutNode x) = Some (PTimer x) /\
    node_owner s (TimerPendingNode x) = Some (PTimer x);
  tmo_active : timer_valid s x -> tm_active (timer_at s x) = true <-> is_Some (node_list s (TimerTimeoutNode x));
  tmo_pending : timer_valid s x -> 0 < tm_pending_count (timer_at s x) <-> is_Some (node_list s (TimerPendingNode x));
  tmo_range : timer_valid s x -> timer_range (timer_at s x);
  tmo_name : timer_valid s x -> Z.of_N x < SIZE_MAX;
  tmo_system : timer_valid s x -> g_timer_system_initialized (glob s) = true;
}.

Record objects_ok (s : kstate) : Prop := {
  ob_waiters : forall n l, node_list s n = Some l -> may_wait s l;
  ob_sems : forall x, sem_magic (sem_at s x) = HR_CFG_SEMAPHORE_MAGIC -> sem_range (sem_at s x);
  ob_queues : forall q, q_magic (queue_at s q) = HR_CFG_QUEUE_MAGIC -> queue_range (queue_at s q);
  ob_mutexes : forall m, mutex_ok s m;
  ob_owned : forall t, owned_counted s t;
  ob_timers : forall x, timer_ok s x;
  ob_signal : g_timer_system_initialized (glob s) = true ->
    sem_magic (sem_at s g_timer_signal) = HR_CFG_SEMAPHORE_MAGIC;
}.

(** The nodes that belong to mutexes and timers. *)
Definition object_node (n : node_addr) : bool :=
  match n with OwnerNode _ | TimerTimeoutNode _ | TimerPendingNode _ => true | _ => false end.

Definition timer_node (x : timer_ptr) (n : node_addr) : Prop := n = TimerTimeoutNode x \/ n = TimerPendingNode x.

Lemma timer_ok_frame s s' x :
  timer_at s' x = timer_at s x ->
  g_timer_system_initialized (glob s') = g_timer_system_initialized (glob s) ->
  (forall n, timer_node x n -> node_list s' n = node_list s n) ->
  (forall n, timer_node x n -> node_owner s' n = node_owner s n) ->
  timer_ok s x -> timer_ok s' x.
Proof.
  unfold timer_node. intros FT EI HL HO TO.
  assert (FV : timer_valid s' x <-> timer_valid s x) by (unfold timer_valid; by rewrite FT).
  destruct TO. split; rewrite ?FV, ?FT, ?EI, ?HL, ?HO by auto; done.
Qed.

Lemma timer_frame s s' x :
  ks_timers s' = ks_timers s ->
  g_timer_system_initialized (glob s') = g_timer_system_initialized (glob s) ->
  (forall n, object_node n = true -> node_list s' n = node_list s n) ->
  (forall n, object_node n = true -> node_owner s' n = node_owner s n) ->
  timer_ok s x -> timer_ok s' x.
Proof.
  intros ET EI HL HO. apply timer_ok_frame; [unfold timer_at; by rewrite ET|done|..];
    intros n [-> | ->]; [apply HL|apply HL|apply HO|apply HO]; done.
Qed.

(** A change of links that adds waiters only where tasks may wait. *)
Lemma objects_frame s s' :
  ks_semaphores s' = ks_semaphores s -> ks_mutexes s' = ks_mutexes s -> ks_queues s' = ks_queues s ->
  ks_timers s' = ks_timers s -> g_timer_system_initialized (glob s') = g_timer_system_initialized (glob s) ->
  (forall n l, is_wait_list l = true -> node_list s' n = Some l -> node_list s n = Some l \/ may_wait s l) ->
  (forall n, object_node n = true -> node_list s' n = node_list s n) ->
  (forall n, object_node n = true -> node_owner s' n = node_owner s n) ->
  (forall t, t_owned_mutex_count (task_at s' t) = t_owned_mutex_count (task_at s t)) ->
  objects_ok s -> objects_ok s'.
Proof.
  intros ES EM EQ ET EI HW HL HO HC [O1 O2 O3 O4 O5 O6 O7].
  assert (FS : forall x, sem_at s' x = sem_at s x) by (intros; unfold sem_at; by rewrite ES).
  assert (FM : forall x, mutex_at s' x = mutex_at s x) by (intros; unfold mutex_at; by rewrite EM).
  assert (FQ : forall x, queue_at s' x = queue_at s x) by (intros; unfold queue_at; by rewrite EQ).
  split.
  - intros n l Hn. destruct (is_wait_list l) eqn:El; [|by destruct l].
    assert (HM : may_wait s l) by (destruct (HW n l El Hn); eauto). destruct l; simpl in *; rewrite ?FS, ?FM, ?FQ; done.
  - intros x. rewrite FS. apply O2.
  - intros x. rewrite FQ. apply O3.
  - intros m. destruct (O4 m). split; rewrite ?HL, ?HO, ?FM by done; done.
  - intros t ms Hms Hin. rewrite HC. apply O5; [done|]. intros m. by rewrite Hin, HL.
  - intros x. by apply (timer_frame s).
  - rewrite EI, FS. apply O7.
Qed.
(** The list a node is linked into allows it, when it is not a wait list. *)
Ltac links := let l := fresh in let E := fresh in intros l E; first [discriminate E|injection E as <-; exact I].
(** A change that leaves the links alone. *)
Lemma objects_same s s' :
  ks_semaphores s' = ks_semaphores s -> ks_mutexes s' = ks_mutexes s -> ks_queues s' = ks_queues s ->
  ks_timers s' = ks_timers s -> g_timer_system_initialized (glob s') = g_timer_system_initialized (glob s) ->
  (forall n, node_list s' n = node_list s n) -> (forall n, object_node n = true -> node_owner s' n = node_owner s n) ->
  (forall t, t_owned_mutex_count (task_at s' t) = t_owned_mutex_count (task_at s t)) ->
  objects_ok s -> objects_ok s'.
Proof. intros ES EM EQ ET EI HL HO HC. apply objects_frame; try done. intros n l _. rewrite HL. by left. Qed.

(** Everything but the state of the tasks in [X], which a kernel call has in hand. *)
Record kcore (T : Z) (D : node_addr -> Z) (s : kstate) (V : view) (b : phase) (X : task_ptr -> Prop) : Prop := {
  kc_struct : kstruct T D s V b;
  kc_tick : g_kernel_tick (glob s) = u32 T;
  kc_globals : globals_ok s;
  kc_fixed : forall t, registered s t -> task_fixed s t;
  kc_tasks : forall t, registered s t -> ~ X t -> task_ok s t;
  kc_objects : objects_ok s;
}.

Definition nobody (t : task_ptr) : Prop := False.
Definition no_expired (s : kstate) : Prop :=
  forall n, node_list s n <> Some ExpiredNodes /\ node_list s n <> Some ExpiredTimers.

(** The invariant of the kernel between calls, at absolute time [T]. *)
Definition kinv (T : Z) (D : node_addr -> Z) (s : kstate) : Prop :=
  exists V b, kcore T D s V b nobody /\ no_expired s /\ ph_timers b = T.

(** Branches on a successful status. *)
Ltac ok_simpl := change (ok HR_OK) with true; cbn [negb andb orb].

(** ** Updates of one control block *)

Definition set_task (t : task_ptr) (c : hr_task_control_block_t) (s : kstate) : kstate :=
  ks_set_tasks (<[t := c]> (ks_tasks s)) s.

Lemma wp_upd_task t f Q s : Q tt (set_task t (f (task_at s t)) s) -> wp (upd_task t f) Q s.
Proof. done. Qed.
Lemma task_at_set_task t c s u : task_at (set_task t c s) u = if decide (t = u) then c else task_at s u.
Proof.
  unfold task_at, set_task; simpl. case_decide as E;
    [subst; by rewrite lookup_total_insert_eq|by rewrite lookup_total_insert_ne].
Qed.
Lemma task_at_set_eq t c s : task_at (set_task t c s) t = c.
Proof. by rewrite task_at_set_task, decide_True. Qed.
Lemma task_at_set_ne t c s u : t <> u -> task_at (set_task t c s) u = task_at s u.
Proof. intros. by rewrite task_at_set_task, decide_False. Qed.
Lemma set_task_twice t c c' s : set_task t c (set_task t c' s) = set_task t c s.
Proof. unfold set_task; simpl. by rewrite insert_insert_eq. Qed.

Lemma transition_spec s t e n Q :
  t_magic (task_at s t) = HR_CFG_TASK_MAGIC -> t_state (task_at s t) = e ->
  Q HR_OK (set_task t (t_set_state n (task_at s t)) s) ->
  wp (hr_task_transition_state (Some t) e n) Q s.
Proof.
  intros Hm He HQ. unfold hr_task_transition_state. wp_step. wp_step. unfold hr_task_is_valid. simpl.
  rewrite Hm. simpl. rewrite bool_decide_false by (rewrite He; tauto). simpl. by apply HQ.
Qed.

Lemma valid_task s t : t_magic (task_at s t) = HR_CFG_TASK_MAGIC -> hr_task_is_valid s (Some t) = true.
Proof. intros H. unfold hr_task_is_valid. simpl. by rewrite H. Qed.

Lemma linked_iff s n : is_linked s n = bool_decide (is_Some (node_list s n)).
Proof.
  unfold is_linked, hr_list_node_is_linked, node_list. apply bool_decide_ext.
  destruct (list_of _); split; done.
Qed.
Lemma linked_true s n : is_Some (node_list s n) -> is_linked s n = true.
Proof. intros. rewrite linked_iff. by apply bool_decide_true. Qed.
Lemma linked_false s n : node_list s n = None -> is_linked s n = false.
Proof. intros E. rewrite linked_iff, E. by apply bool_decide_false, is_Some_None. Qed.

(** ** Changing an effective priority *)

(** What a change of effective priorities keeps. *)
Record prio_frame (s s' : kstate) : Prop := {
  pf_rest : s' = ks_set_store (ks_store s') (ks_set_tasks (ks_tasks s') s);
  pf_task : forall u, exists p, task_at s' u = t_set_effective_priority p (task_at s u) /\
    (p = t_effective_priority (task_at s u) \/ p < HR_CFG_IDLE_PRIORITY);
  pf_list : forall n, (forall t, n <> ReadyNode t) -> node_list s' n = node_list s n;
  pf_ready : forall t, is_Some (node_list s' (ReadyNode t)) <-> is_Some (node_list s (ReadyNode t));
  pf_owner : forall n, node_owner s' n = node_owner s n;
}.

Lemma prio_frame_refl s : prio_frame s s.
Proof.
  split; try done; [by destruct s|]. intros u. exists (t_effective_priority (task_at s u)).
  split; [by destruct (task_at s u)|auto].
Qed.

Lemma prio_frame_trans s1 s2 s3 : prio_frame s1 s2 -> prio_frame s2 s3 -> prio_frame s1 s3.
Proof.
  intros [R1 T1 L1 D1 O1] [R2 T2 L2 D2 O2]. split.
  - rewrite R2. simpl. rewrite R1. done.
  - intros u. destruct (T1 u) as (p1 & E1 & H1), (T2 u) as (p2 & E2 & H2).
    exists p2. rewrite E2, E1. split; [done|]. rewrite E1 in H2. simpl in H2.
    destruct H2 as [-> | ?]; auto.
  - intros n Hn. by rewrite L2, L1.
  - intros t. by rewrite D2, D1.
  - intros n. by rewrite O2, O1.
Qed.

(** New priorities for the nodes of a task that is in no ready queue or wait list. *)
Lemma kstruct_set_priority T D s V b t p :
  kstruct T D s V b -> node_list s (ReadyNode t) = None -> node_list s (WaitNode t) = None ->
  0 <= p < HR_CFG_PRIORITY_COUNT ->
  kstruct T D (ks_set_store (set_priority (WaitNode t) p (set_priority (ReadyNode t) p (ks_store s)))
                (set_task t (t_set_effective_priority p (task_at s t)) s)) V b.
Proof.
  intros KS Hr Hw Hp. set (s' := ks_set_store _ _).
  assert (Hpr : forall n, n <> ReadyNode t -> n <> WaitNode t -> priority_at (ks_store s') n = priority_at (ks_store s) n).
  { intros n H1 H2. unfold s'; simpl. by rewrite !priority_at_set_priority, !decide_False by congruence. }
  assert (HL : forall n, node_list s' n = node_list s n) by done.
  assert (Hin : forall l ns n, V !! l = Some ns -> n ∈ ns -> n <> ReadyNode t /\ n <> WaitNode t).
  { intros l ns n Hl Hn. apply (kt_member _ _ _ _ _ KS _ _ _ Hl) in Hn. split; intros ->; congruence. }
  destruct KS as [K1 K2 K3 K4 K5 K6 K7 K8 K9 K10 K11]. constructor; try done.
  - apply (ready_rep_frame (ks_store s) _ V V); try done. intros n q Hn.
    apply queue_elem in Hn as (ns & E & Hn). destruct (Hin _ _ _ E Hn). by apply Hpr.
  - by apply (timeout_rep_frame (ks_store s) _ V V _ T D D).
  - apply (timers_rep_ext D D s s' V V b K4); [done| |done]. intros TM. by apply (timeout_rep_frame (ks_store s) _ V V _ _ D D).
  - intros l ns Hl Hns. apply (sorted_by_shift (priority_at (ks_store s)) _ 0); [|by eapply K9].
    intros x Hx. destruct (Hin _ _ _ Hns Hx). rewrite Hpr by done. lia.
  - intros u Hu. destruct (decide (u = t)) as [->|Hne].
    + assert (E1 : priority_at (ks_store s') (ReadyNode t) = p /\ priority_at (ks_store s') (WaitNode t) = p).
      { unfold s'. cbn [ks_store ks_set_store]. rewrite !priority_at_set_priority.
        repeat case_decide; congruence || done. }
      destruct E1 as [-> ->].
      change (task_at s' t) with (task_at (set_task t (t_set_effective_priority p (task_at s t)) s) t).
      by rewrite task_at_set_eq.
    + rewrite !Hpr by congruence. change (task_at s' u) with (task_at (set_task t (t_set_effective_priority p (task_at s t)) s) u).
      rewrite task_at_set_ne by done. by apply K11.
Qed.

Section set_priority.
Context (T : Z) (D : node_addr -> Z).

(** The ready part of the change: out of the old queue ... *)
Lemma unready_if_linked s V b t Q :
  kstruct T D s V b ->
  (forall s' V', kstruct T D s' V' b ->
     (forall l, (forall p, l <> ReadyQueue g_scheduler p) -> V' !! l = V !! l) ->
     step_frame s s' (ReadyNode t) None -> Q HR_OK s') ->
  wp (if is_linked s (ReadyNode t) then remove_ready t else retM HR_OK) Q s.
Proof.
  intros KS K. destruct (node_list s (ReadyNode t)) as [l|] eqn:E.
  - rewrite linked_true by eauto. apply (remove_ready_spec T D s V b KS); [eauto|].
    intros s' V' xs ys p Hq -> KS' SF. eapply K; [done| |done]. intros l' Hl'. by rewrite lookup_insert_ne.
  - rewrite linked_false by done. wp_step. apply (K s V KS); [done|]. split; try done; [by destruct s|].
    intros m. case_decide; congruence.
Qed.

(** ... and into the new one. *)
Lemma reready_if_linked s V b t (linked : bool) Q :
  kstruct T D s V b -> registered s t -> node_list s (ReadyNode t) = None ->
  node_owner s (ReadyNode t) = Some (PTask t) ->
  (forall s' V', kstruct T D s' V' b ->
     (forall l, (forall p, l <> ReadyQueue g_scheduler p) -> V' !! l = V !! l) ->
     (exists v, step_frame s s' (ReadyNode t) v /\ (is_Some v <-> linked = true)) -> Q HR_OK s') ->
  wp (if linked then add_ready t else retM HR_OK) Q s.
Proof.
  intros KS Hreg Hl Ho K. destruct linked.
  - apply (add_ready_spec T D s V b KS); try done. intros s' V' p -> KS' SF. eapply K; [done| |].
    + intros l' Hl'. by rewrite lookup_insert_ne.
    + eexists. split; [exact SF|]. split; eauto.
  - wp_step. apply (K s V KS); [done|]. exists None. split.
    + split; try done; [by destruct s|]. intros m. case_decide; congruence.
    + split; [by intros [? ?]|done].
Qed.

Definition reprioritised (t : task_ptr) (p : Z) (s : kstate) : kstate :=
  ks_set_store (set_priority (WaitNode t) p (set_priority (ReadyNode t) p (ks_store s)))
    (set_task t (t_set_effective_priority p (task_at s t)) s).

Lemma reprioritised_task t p s u :
  task_at (reprioritised t p s) u = if decide (t = u) then t_set_effective_priority p (task_at s t) else task_at s u.
Proof. apply task_at_set_task. Qed.

(** Out of both lists, the new priority, and back into the same wait list. *)
Lemma prio_frame_chain s s1 s2 s4 s5 t p v :
  p < HR_CFG_IDLE_PRIORITY ->
  step_frame s s1 (ReadyNode t) None -> step_frame s1 s2 (WaitNode t) None ->
  step_frame (reprioritised t p s2) s4 (ReadyNode t) v ->
  (is_Some v <-> is_Some (node_list s (ReadyNode t))) ->
  step_frame s4 s5 (WaitNode t) (node_list s (WaitNode t)) -> prio_frame s s5.
Proof.
  intros Hp F1 F2 F4 Hv F5.
  assert (HT : forall u, task_at s5 u = if decide (t = u) then t_set_effective_priority p (task_at s t) else task_at s u).
  { intros u. rewrite (sf_task _ _ _ _ F5), (sf_task _ _ _ _ F4), reprioritised_task.
    by rewrite !(sf_task _ _ _ _ F2), !(sf_task _ _ _ _ F1). }
  assert (HL : forall n, node_list s5 n = if decide (n = ReadyNode t) then v else node_list s n).
  { intros n. rewrite (sf_list _ _ _ _ F5), (sf_list _ _ _ _ F4).
    change (node_list (reprioritised t p s2) n) with (node_list s2 n).
    rewrite (sf_list _ _ _ _ F2), (sf_list _ _ _ _ F1). repeat case_decide; congruence. }
  split.
  - rewrite (sf_rest _ _ _ _ F5), (sf_rest _ _ _ _ F4). unfold reprioritised.
    rewrite (sf_rest _ _ _ _ F2), (sf_rest _ _ _ _ F1). done.
  - intros u. rewrite HT. destruct (decide (t = u)) as [<-|]; [eauto|].
    exists (t_effective_priority (task_at s u)). split; [by destruct (task_at s u)|auto].
  - intros n Hn. rewrite HL, decide_False; [done|apply Hn].
  - intros u. rewrite HL. case_decide as E; [|done]. injection E as ->. done.
  - intros n. rewrite (sf_owner _ _ _ _ F5), (sf_owner _ _ _ _ F4).
    change (node_owner (reprioritised t p s2) n) with (node_owner s2 n).
    by rewrite (sf_owner _ _ _ _ F2), (sf_owner _ _ _ _ F1).
Qed.

Lemma set_priority_spec s V b t p Q :
  kstruct T D s V b -> registered s t -> task_fixed s t -> 0 <= p ->
  (forall l, node_list s (WaitNode t) = Some l -> t_blocked_wait_list (task_at s t) = Some l) ->
  (forall st s' V', kstruct T D s' V' b -> prio_frame s s' ->
     (st = HR_OK -> t_effective_priority (task_at s' t) = p) /\ (p < HR_CFG_IDLE_PRIORITY -> st = HR_OK) /\
       (forall u, u <> t -> task_at s' u = task_at s u) -> same_quiet V V' -> Q st s') ->
  wp (hr_kernel_set_task_effective_priority (Some t) p) Q s.
Proof.
  intros KS Hreg TX Hp Hl K. unfold hr_kernel_set_task_effective_priority.
  destruct (Z.leb_spec HR_CFG_IDLE_PRIORITY p) as [Hge|Hlt].
  { wp_step. apply (K _ s V); [done|apply prio_frame_refl|split_and!; [done|lia|done]|done]. }
  wp_step. wp_step. destruct (Z.eqb_spec (t_effective_priority (task_at s t)) p) as [He|Hne].
  { wp_step. apply (K _ s V); [done|apply prio_frame_refl|done|done]. }
  wp_step. apply (unready_if_linked s V b t _ KS). intros s1 V1 KS1 HV1 F1.
  ok_simpl.
  assert (Hw1 : node_list s1 (WaitNode t) = node_list s (WaitNode t)).
  { rewrite (sf_list _ _ _ _ F1), decide_False; [done|congruence]. }
  remember (node_list s (WaitNode t)) as wl eqn:Ewl.
  (* out of the wait list *)
  apply wp_bind, (wp_mono _ (fun st s2 => st = HR_OK /\ exists V2, kstruct T D s2 V2 b /\
    step_frame s1 s2 (WaitNode t) None /\ same_quiet V1 V2 /\ forall l, wl = Some l -> is_Some (V2 !! l))).
  { destruct wl as [l|].
    - rewrite linked_true by (rewrite <- Ewl; eauto). rewrite (Hl l eq_refl). wp_step.
      apply (wait_remove_spec T D s1 V1 b KS1); [done|]. intros s2 V2 xs ys HV -> KS2 F2.
      ok_simpl. wp_steps. split; [done|]. eexists. split_and!; [done|done| |].
      { apply same_quiet_insert, wait_not_quiet. exact (kt_fits _ _ _ _ _ KS1 _ _ Hw1). }
      intros l' [= <-]. rewrite lookup_insert_eq. eauto.
    - rewrite linked_false by done. wp_steps. split; [done|]. exists V1. split_and!; [done| |done|done].
      split; try done; [by destruct s1|]. intros m. case_decide; congruence. }
  intros st s2 (-> & V2 & KS2 & F2 & HQ2 & HV2). ok_simpl.
  (* the new priority *)
  assert (HR2 : node_list s2 (ReadyNode t) = None).
  { rewrite (sf_list _ _ _ _ F2), decide_False, (sf_list _ _ _ _ F1), decide_True by congruence. done. }
  assert (HW2 : node_list s2 (WaitNode t) = None) by (by rewrite (sf_list _ _ _ _ F2), decide_True).
  assert (Hreg2 : registered s2 t).
  { apply (sf_registered _ _ _ _ F2); [done|]. by apply (sf_registered _ _ _ _ F1). }
  pose proof (kstruct_set_priority T D s2 V2 b t p KS2 HR2 HW2) as KS3.
  wp_step. apply wp_upd_task. wp_step. wp_step. wp_step. wp_step. wp_step. wp_step.
  set (s3 := part_set _ _). change s3 with (reprioritised t p s2).
  clear s3. assert (KS3' : kstruct T D (reprioritised t p s2) V2 b).
  { apply KS3. unfold HR_CFG_IDLE_PRIORITY, HR_CFG_PRIORITY_COUNT in *. lia. }
  assert (Ho : forall n, node_owner (reprioritised t p s2) n = node_owner s n).
  { intros n. change (node_owner s2 n = node_owner s n). by rewrite (sf_owner _ _ _ _ F2), (sf_owner _ _ _ _ F1). }
  (* back into the ready queue and the wait list *)
  wp_step. apply (reready_if_linked _ V2 b t _ _ KS3'); [done|done|rewrite Ho; apply TX|].
  intros s4 V4 KS4 HV4 (v & F4 & Hv). ok_simpl. wp_step.
  assert (HE : forall s5 V5, kstruct T D s5 V5 b -> step_frame s4 s5 (WaitNode t) wl -> same_quiet V4 V5 -> Q HR_OK s5).
  { intros s5 V5 KS5 F5 HQ5. apply (K _ s5 V5); [done| | |].
    - rewrite Ewl in F5. apply (prio_frame_chain s s1 s2 s4 s5 t p v Hlt F1 F2 F4); [|done].
      rewrite Hv, linked_iff. apply bool_decide_eq_true.
    - split_and!; [|done|].
      + intros _. by rewrite (sf_task _ _ _ _ F5), (sf_task _ _ _ _ F4), reprioritised_task, decide_True.
      + intros u Hu. rewrite (sf_task _ _ _ _ F5), (sf_task _ _ _ _ F4), reprioritised_task, decide_False by congruence.
        by rewrite (sf_task _ _ _ _ F2), (sf_task _ _ _ _ F1).
    - apply (same_quiet_trans V V1); [by apply same_quiet_ready|]. apply (same_quiet_trans V1 V2); [done|].
      apply (same_quiet_trans V2 V4); [by apply same_quiet_ready|done]. }
  assert (HW4 : node_list s4 (WaitNode t) = None) by (by rewrite (sf_list _ _ _ _ F4), decide_False).
  destruct wl as [l|].
  - rewrite linked_true by (rewrite <- Ewl; eauto). rewrite (Hl l eq_refl).
    assert (Hlw : is_wait_list l = true) by (apply (kt_fits _ _ _ _ _ KS (WaitNode t) l); done).
    destruct (HV2 l eq_refl) as [ns Hns]. rewrite <- (HV4 l) in Hns by (intros q ->; done).
    apply (wait_insert_spec T D s4 V4 b KS4 t l ns); try done.
    + apply (sf_registered _ _ _ _ F4); done.
    + rewrite (sf_owner _ _ _ _ F4), Ho. apply TX.
    + intros s5 V5 -> KS5 F5. ok_simpl. wp_step. eapply HE; [done|done|]. by apply same_quiet_insert, wait_not_quiet.
  - rewrite linked_false by done. wp_step. ok_simpl. wp_step. apply (HE s4 V4 KS4); [|done].
    split; try done; [by destruct s4|]. intros m. case_decide; congruence.
Qed.
End set_priority.

(** ** Priority inheritance *)

(** The most urgent of [p] and the first waiters of the mutexes [ns]. *)
Definition waiters (V : view) (n : node_addr) : list node_addr :=
  match n with OwnerNode m => default [] (V !! MutexWaiters m) | _ => [] end.
Definition inherit (s : kstate) (V : view) (ns : list node_addr) (p : Z) : Z :=
  foldl (fun p n => match head (waiters V n) with
                    | Some w => Z.min (priority_at (ks_store s) w) p
                    | None => p
                    end) p ns.

Section inherit.
Context (T : Z) (D : node_addr -> Z) (s : kstate) (V : view) (b : phase).
Hypothesis KS : kstruct T D s V b.
Hypothesis MX : objects_ok s.

Lemma owned_mutex t n : node_list s n = Some (OwnedMutexes t) ->
  exists m, n = OwnerNode m /\ mx_magic (mutex_at s m) = HR_CFG_MUTEX_MAGIC /\
    node_owner s n = Some (PMutex m) /\ is_Some (V !! MutexWaiters m).
Proof.
  intros Hn. pose proof (kt_fits _ _ _ _ _ KS _ _ Hn) as Hf. destruct n as [| | | |m| |]; try done.
  exists m. pose proof (proj1 (mo_link _ _ (ob_mutexes _ MX m) t) Hn) as [Hm _].
  split_and!; [done|done|by apply (kt_owner _ _ _ _ _ KS _ _ Hn)|]. by apply (kt_objects _ _ _ _ _ KS).
Qed.

Lemma required_loop_spec t : forall ys xs fuel p,
  V !! OwnedMutexes t = Some (xs ++ ys) -> (length ys <= fuel)%nat ->
  required_priority_loop fuel s t (head (PNode <$> ys)) p = Some (inherit s V ys p).
Proof.
  induction ys as [|n ys IH]; intros xs fuel p HV Hf; [by destruct fuel|].
  destruct fuel as [|fuel]; simpl in Hf; [lia|].
  assert (Hn : node_list s n = Some (OwnedMutexes t)) by (apply (kt_member _ _ _ _ _ KS _ _ _ HV); set_solver).
  destruct (owned_mutex t n Hn) as (m & -> & Hm & Ho & [ws Hws]).
  assert (R := rep_ring _ _ (kt_rep _ _ _ _ _ KS) _ _ HV).
  cbn [head fmap list_fmap required_priority_loop]. fold (node_owner s (OwnerNode m)). rewrite Ho.
  rewrite (proj2 (Z.eqb_eq _ _) Hm). cbn [negb].
  rewrite (wait_list_peek_spec _ _ _ (rep_ring _ _ (kt_rep _ _ _ _ _ KS) _ _ Hws)).
  rewrite (hr_list_next_spec _ _ _ R (OwnerNode m) xs ys eq_refl).
  rewrite (IH (xs ++ [OwnerNode m])) by (rewrite <- ?app_assoc; auto with lia).
  unfold inherit at 2. cbn [foldl waiters]. rewrite Hws. cbn [default from_option id].
  destruct (head ws) as [w|]; [|done]. unfold inherit. do 2 f_equal.
  destruct (Z.ltb_spec (priority_at (ks_store s) w) p); lia.
Qed.

Lemma required_priority_spec t ns : V !! OwnedMutexes t = Some ns ->
  hr_mutex_required_priority s t = Some (inherit s V ns (t_base_priority (task_at s t))).
Proof.
  intros HV. assert (R := rep_ring _ _ (kt_rep _ _ _ _ _ KS) _ _ HV).
  unfold hr_mutex_required_priority. rewrite (hr_list_front_spec _ _ _ R).
  apply (required_loop_spec t ns []); [done|]. unfold scan_fuel. rewrite (ring_size _ _ _ R). lia.
Qed.

Lemma inherit_le ns : forall p, inherit s V ns p <= p.
Proof.
  unfold inherit. induction ns as [|n ns IH]; intros p; simpl; [lia|].
  etrans; [apply IH|]. destruct (head (waiters V n)); lia.
Qed.

Lemma inherit_waiter ns : forall p n w, n ∈ ns -> w ∈ waiters V n -> inherit s V ns p <= priority_at (ks_store s) w.
Proof.
  induction ns as [|n' ns IH]; intros p n w; [by rewrite elem_of_nil|]. rewrite elem_of_cons. intros [->|Hn] Hw.
  - unfold inherit. cbn [foldl]. destruct (waiters V n') as [|w' ws] eqn:E; [by apply elem_of_nil in Hw|]. cbn [head].
    etrans; [apply inherit_le|]. etrans; [apply Z.le_min_l|].
    unfold waiters in E. destruct n' as [| | | |m| |]; try done.
    destruct (V !! MutexWaiters m) as [ws'|] eqn:E'; simpl in E; [|done]. subst ws'.
    pose proof (kt_sorted _ _ _ _ _ KS (MutexWaiters m) _ eq_refl E') as HS. apply elem_of_cons in Hw as [->|Hw]; [lia|].
    by apply (sorted_by_head _ _ _ HS).
  - unfold inherit. cbn [foldl]. by eapply IH.
Qed.

End inherit.

Lemma inherit_attained s V ns : forall p, inherit s V ns p = p \/
  exists n w, n ∈ ns /\ w ∈ waiters V n /\ inherit s V ns p = priority_at (ks_store s) w.
Proof.
  induction ns as [|n ns IH]; intros p; [by left|]. unfold inherit. cbn [foldl].
  destruct (head (waiters V n)) as [w|] eqn:E.
  - destruct (IH (Z.min (priority_at (ks_store s) w) p)) as [E1|(n' & w' & H1 & H2 & H3)].
    + fold (inherit s V ns (Z.min (priority_at (ks_store s) w) p)). rewrite E1.
      destruct (Z.min_spec (priority_at (ks_store s) w) p) as [[_ ->]|[_ ->]]; [right|by left].
      exists n, w. split_and!; [set_solver|by apply head_Some_elem_of|done].
    + right. exists n', w'. split_and!; [set_solver|done|done].
  - destruct (IH p) as [E1|(n' & w' & H1 & H2 & H3)]; [left; done|right].
    exists n', w'. split_and!; [set_solver|done|done].
Qed.

(** ** The invariant under a change of effective priorities *)

Section prio.
Context (s s' : kstate).
Hypothesis PF : prio_frame s s'.

Lemma pf_glob : glob s' = glob s.
Proof. by rewrite (pf_rest _ _ PF). Qed.
Lemma pf_field {A} (f : hr_task_control_block_t -> A) u :
  (forall p c, f (t_set_effective_priority p c) = f c) -> f (task_at s' u) = f (task_at s u).
Proof. intros H. destruct (pf_task _ _ PF u) as (p & -> & _). apply H. Qed.
Lemma pf_registered t : registered s' t <-> registered s t.
Proof. unfold registered. by rewrite (pf_list _ _ PF). Qed.
Lemma pf_ready_none t : node_list s' (ReadyNode t) = None <-> node_list s (ReadyNode t) = None.
Proof. rewrite !eq_None_not_Some. by rewrite (pf_ready _ _ PF). Qed.

Lemma pf_idle_wait t : idle_wait s t -> idle_wait s' t.
Proof. intros []. by split; rewrite ?pf_field, ?(pf_list _ _ PF). Qed.
Lemma pf_delay_wait t : delay_wait s t -> delay_wait s' t.
Proof. intros []. by split; rewrite ?pf_field, ?(pf_list _ _ PF). Qed.
Lemma pf_object_waiting t o l : object_waiting s t o l -> object_waiting s' t o l.
Proof. intros []. by split; rewrite ?pf_field, ?(pf_list _ _ PF). Qed.
Lemma pf_waiting t : waiting s t -> waiting s' t.
Proof.
  intros [[Hd Ht]|(o & l & Hw)]; [left|right].
  - split; [by apply pf_delay_wait|]. by rewrite (pf_list _ _ PF).
  - exists o, l. by apply pf_object_waiting.
Qed.
Lemma pf_task_ok t : task_ok s t -> task_ok s' t.
Proof.
  intros [Hs Hi]. split; [|intros E; by apply (pf_ready _ _ PF), Hi].
  unfold state_ok in *. rewrite !pf_field, pf_glob by done.
  destruct (t_state (task_at s t)); try done.
  - destruct Hs. split; [by apply (pf_ready _ _ PF)|by apply pf_idle_wait].
  - destruct Hs as (? & ? & ?). split_and!; [by apply (pf_ready _ _ PF)|by apply pf_idle_wait|done].
  - destruct Hs. split; [by apply pf_ready_none|by apply pf_waiting].
  - destruct Hs as [? Hr]. split; [by apply pf_ready_none|].
    destruct (t_suspended_resume_state (task_at s t)); try done; [by apply pf_idle_wait|by apply pf_waiting].
Qed.
Lemma pf_task_fixed t : task_fixed s t -> task_fixed s' t.
Proof.
  intros []. split; rewrite ?(pf_owner _ _ PF), ?(pf_field t_magic), ?(pf_field t_base_priority) by done; try done.
  intros Hne. split; [|by apply tx_level0].
  destruct (pf_task _ _ PF t) as (p & -> & [-> | Hp]); simpl; [by apply tx_level0|done].
Qed.

Lemma pf_kcore T D V V' b X : kcore T D s V b X -> kstruct T D s' V' b -> kcore T D s' V' b X.
Proof.
  intros [K1 K2 K3 K4 K5 K6] KS'. split; rewrite ?pf_glob; try done.
  - destruct K3 as [Hi Hg]. split; [by apply pf_registered|]. rewrite pf_glob.
    destruct (g_kernel_state (glob s)); try done. destruct Hg as (c & ? & ? & ?).
    exists c. rewrite pf_registered. done.
  - intros t Ht. apply pf_task_fixed, K4. by apply pf_registered.
  - intros t Ht HX. apply pf_task_ok, K5; [by apply pf_registered|done].
  - apply (objects_frame s); try (by rewrite (pf_rest _ _ PF)); try done.
    + intros n l Hl Hn. left. rewrite <- Hn. symmetry. apply (pf_list _ _ PF). intros t ->.
      apply (kt_fits _ _ _ _ _ KS') in Hn. by destruct l.
    + intros m Hm. apply (pf_list _ _ PF). by intros t ->.
    + intros m _. apply (pf_owner _ _ PF).
    + intros t. by apply pf_field.
Qed.
End prio.

(** ** Propagation along the chain of owners *)

(** The wait fields the propagation relies on, for every registered task. *)
Definition synced (s : kstate) (t : task_ptr) : Prop :=
  (forall l, node_list s (WaitNode t) = Some l -> t_blocked_wait_list (task_at s t) = Some l) /\
  (t_wait_kind (task_at s t) = HR_TASK_WAIT_MUTEX_LOCK ->
   forall o, t_waiting_object (task_at s t) = Some o -> exists m, o = WMutex m).
Definition wait_sync (s : kstate) : Prop := forall t, registered s t -> synced s t.

Lemma waits_for_mutex o l : waits_for HR_TASK_WAIT_MUTEX_LOCK o = Some l -> exists m, o = WMutex m.
Proof. destruct o; try done; eauto. Qed.

Lemma idle_wait_sync s t : idle_wait s t -> synced s t.
Proof. intros []. split; congruence. Qed.

Lemma object_waiting_sync s t o l : object_waiting s t o l -> synced s t.
Proof.
  intros [E1 E2 E3 _ _ E6]. split; [congruence|]. intros Hk o' Ho'. rewrite Hk in E1.
  apply waits_for_mutex in E1 as [m ->]. exists m. congruence.
Qed.

Lemma waiting_sync s t : waiting s t -> synced s t.
Proof.
  intros [[[] _]|(o & l & H)]; [|by eapply object_waiting_sync]. split; congruence.
Qed.

Lemma task_ok_sync s t : task_ok s t -> synced s t.
Proof.
  intros [Hs _]. pose proof (idle_wait_sync s t) as HI.
  unfold state_ok in Hs. destruct (t_state (task_at s t)); try done.
  - apply HI, Hs.
  - apply HI, Hs.
  - apply waiting_sync, Hs.
  - destruct Hs as [_ Hr]. destruct (t_suspended_resume_state (task_at s t)); try done; auto using waiting_sync.
Qed.

Lemma pf_wait_sync s s' : prio_frame s s' -> wait_sync s -> wait_sync s'.
Proof.
  intros PF HS t Ht. apply (pf_registered _ _ PF) in Ht. destruct (HS t Ht) as [H1 H2].
  unfold synced.   rewrite (pf_list _ _ PF), !(pf_field _ _ PF) by done. done.
Qed.

(** The priority inheritance relation: the owner of a mutex is at least as urgent as every
    task that waits for it; [inherits_but x] excepts the owner [x]. *)
Definition inherits_but (s : kstate) (x : option task_ptr) : Prop :=
  forall m o u, Some o <> x -> mx_owner (mutex_at s m) = Some o -> node_list s (WaitNode u) = Some (MutexWaiters m) ->
    t_effective_priority (task_at s o) <= t_effective_priority (task_at s u).
Definition inherits (s : kstate) : Prop := inherits_but s None.
(** A task linked into the wait list of a mutex is known to wait for it. *)
Definition mutex_sync (s : kstate) : Prop :=
  forall u m, node_list s (WaitNode u) = Some (MutexWaiters m) ->
    wait_pending (task_at s u) = true /\ t_wait_kind (task_at s u) = HR_TASK_WAIT_MUTEX_LOCK /\
    t_waiting_object (task_at s u) = Some (WMutex m).

Lemma pf_mutex_sync s s' : prio_frame s s' -> mutex_sync s -> mutex_sync s'.
Proof.
  intros PF HS u m. rewrite (pf_list _ _ PF) by done. intros Hl. destruct (HS u m Hl) as (H1 & H2 & H3).
  unfold wait_pending in *. by rewrite !(pf_field _ _ PF).
Qed.

(** ** The chain of owners

    The owner, other than [t], of the mutex [t] waits for. *)
Definition next_owner (s : kstate) (t : task_ptr) : option task_ptr :=
  match node_list s (WaitNode t) with
  | Some (MutexWaiters m) =>
      match mx_owner (mutex_at s m) with
      | Some o => if decide (o = t) then None else Some o
      | None => None
      end
  | _ => None
  end.
(** [t], the task it waits for, the task that one waits for and so on, up to a task that
    waits for no mutex; [None] if that takes more than [fuel] steps. *)
Fixpoint owner_chain (fuel : nat) (s : kstate) (t : task_ptr) : option (list task_ptr) :=
  match next_owner s t with
  | None => Some [t]
  | Some o => match fuel with O => None | S fuel => cons t <$> owner_chain fuel s o end
  end.

(** A task that is known to wait for a mutex is linked into its wait list. *)
Definition chain_sync (s : kstate) : Prop :=
  forall u m, registered s u -> wait_pending (task_at s u) = true -> t_wait_kind (task_at s u) = HR_TASK_WAIT_MUTEX_LOCK ->
    t_waiting_object (task_at s u) = Some (WMutex m) -> node_list s (WaitNode u) = Some (MutexWaiters m).
(** Some task as urgent as [p] waits for a mutex of [t]. *)
Definition lent_to (s : kstate) (t : task_ptr) (p : Z) : Prop :=
  exists w k, mx_owner (mutex_at s k) = Some t /\ node_list s (WaitNode w) = Some (MutexWaiters k) /\
    t_effective_priority (task_at s w) <= p.

Lemma task_ok_chain_sync s : (forall u, registered s u -> task_ok s u) -> chain_sync s.
Proof.
  intros HT u m Hu Hp Hk Ho. assert (HW : waiting s u).
  { destruct (HT u Hu) as [Hs _]. unfold state_ok, wait_pending in *. destruct (t_state (task_at s u)); try done.
    - apply Hs.
    - destruct Hs as [_ Hs]. destruct (t_suspended_resume_state (task_at s u)); done. }
  destruct HW as [[[] _]|(o & l & [E1 E2 E3 _ _ E6])]; [congruence|]. rewrite Hk in E1. rewrite Ho in E2. injection E2 as <-.
  simpl in E1. injection E1 as <-. done.
Qed.

Lemma pf_chain_sync s s' : prio_frame s s' -> chain_sync s -> chain_sync s'.
Proof.
  intros PF HS u m Hu Hp Hk Ho. unfold wait_pending in *.
  rewrite !(pf_field _ _ PF) in Hp by done. rewrite (pf_field _ _ PF) in Hk by done. rewrite (pf_field _ _ PF) in Ho by done.
  rewrite (pf_list _ _ PF) by done. apply HS; try done. by apply (pf_registered _ _ PF).
Qed.

Lemma pf_next_owner s s' t : prio_frame s s' -> next_owner s' t = next_owner s t.
Proof. intros PF. unfold next_owner. rewrite (pf_list _ _ PF) by done. by rewrite (pf_rest _ _ PF). Qed.
Lemma owner_chain_ext f s s' t : (forall u, next_owner s' u = next_owner s u) -> owner_chain f s' t = owner_chain f s t.
Proof.
  intros HN. revert t. induction f as [|f IH]; intros t; simpl; rewrite HN; [done|].
  destruct (next_owner s t) as [o|]; [by rewrite IH|done].
Qed.

(** What a waiter lends is part of what the owner is due. *)
Lemma inherit_lent T D s V b X t ns p :
  kcore T D s V b X -> V !! OwnedMutexes t = Some ns -> lent_to s t p -> inherit s V ns (t_base_priority (task_at s t)) <= p.
Proof.
  intros KC Hns (w & m & Ho & Hw & Hp). pose proof (kc_struct _ _ _ _ _ _ KC) as KS.
  pose proof (ob_waiters _ (kc_objects _ _ _ _ _ _ KC) _ _ Hw) as [Hm _].
  pose proof (proj2 (mo_link _ _ (ob_mutexes _ (kc_objects _ _ _ _ _ _ KC) m) t) (conj Hm Ho)) as Hl.
  pose proof (kt_registered _ _ _ _ _ KS _ _ w Hw eq_refl) as Hreg.
  destruct (kt_prio _ _ _ _ _ KS w Hreg) as (_ & E & _). rewrite <- E in Hp.
  destruct (kt_objects _ _ _ _ _ KS (MutexWaiters m) Hm) as [ws Hws]. etrans; [|exact Hp].
  apply (inherit_waiter T D s V b KS ns _ (OwnerNode m)).
  - by apply (kt_member _ _ _ _ _ KS _ _ _ Hns).
  - simpl. rewrite Hws. simpl. by apply (kt_member _ _ _ _ _ KS _ _ _ Hws).
Qed.

(** Recomputing [t] first: the edges into [t] hold afterwards, and those not out of [t]. *)
Lemma inherits_step T D s s1 V b X t ns :
  kcore T D s V b X -> prio_frame s s1 -> V !! OwnedMutexes t = Some ns ->
  t_effective_priority (task_at s1 t) = inherit s V ns (t_base_priority (task_at s t)) ->
  (forall u, u <> t -> task_at s1 u = task_at s u) -> inherits_but s (Some t) ->
  forall m o u, mx_owner (mutex_at s1 m) = Some o -> node_list s1 (WaitNode u) = Some (MutexWaiters m) ->
    (o = t \/ u <> t) -> t_effective_priority (task_at s1 o) <= t_effective_priority (task_at s1 u).
Proof.
  intros KC PF Hns He HT HI m o u Ho Hu Hc. pose proof (kc_struct _ _ _ _ _ _ KC) as KS.
  rewrite (pf_list _ _ PF) in Hu by done. rewrite (pf_rest _ _ PF) in Ho. change (mx_owner (mutex_at s m) = Some o) in Ho.
  destruct (decide (u = t)) as [->|Hut]; [destruct Hc as [->|]; [lia|done]|]. rewrite (HT u) by done.
  destruct (decide (o = t)) as [->|Hot]; [|rewrite (HT o) by done; apply (HI m); congruence].
  rewrite He. apply (inherit_lent T D s V b X t ns _ KC Hns). by exists u, m.
Qed.

(** The effect of recomputing the priority of [t] and, along the chain, of the owners it
    waits for, at most [f] of them: when some task waits for a mutex of [t], exactly those are
    changed, and they become at least as urgent as it is; a longer chain is refused. *)
Record recomputed (f : nat) (s s' : kstate) (V : view) (t : task_ptr) (st : hr_status) : Prop := {
  rc_frame : prio_frame s s';
  rc_inherits : st = HR_OK -> mutex_sync s -> inherits_but s (Some t) -> inherits s';
  rc_single : t <> g_idle_task -> t_waiting_object (task_at s t) = None -> st = HR_OK /\
    (forall u, u <> t -> task_at s' u = task_at s u) /\
    exists ns, V !! OwnedMutexes t = Some ns /\
      t_effective_priority (task_at s' t) = inherit s V ns (t_base_priority (task_at s t));
  rc_chain : mutex_sync s -> chain_sync s -> forall p, p < HR_CFG_IDLE_PRIORITY -> lent_to s t p ->
    match owner_chain f s t with
    | Some os => st = HR_OK /\ (forall u, u ∈ os -> t_effective_priority (task_at s' u) <= p) /\
        forall u, u ∉ os -> task_at s' u = task_at s u
    | None => st = HR_ERROR_INTERNAL
    end /\
    t_effective_priority (task_at s' t) <= p /\
    forall u, t_effective_priority (task_at s u) <= p -> t_effective_priority (task_at s' u) <= p;
}.

Section recompute.
Context (T : Z) (D : node_addr -> Z) (b : phase) (X : task_ptr -> Prop).

Lemma required_range s V t ns : kcore T D s V b X -> registered s t -> V !! OwnedMutexes t = Some ns ->
  0 <= inherit s V ns (t_base_priority (task_at s t)).
Proof.
  intros KC Hreg Hns. pose proof (kc_struct _ _ _ _ _ _ KC) as KS.
  destruct (inherit_attained s V ns (t_base_priority (task_at s t))) as [->|(n & w & Hn & Hw & ->)].
  - apply (kc_fixed _ _ _ _ _ _ KC t Hreg).
  - unfold waiters in Hw. destruct n as [| | | |m| |]; try (by apply elem_of_nil in Hw).
    destruct (V !! MutexWaiters m) as [ws|] eqn:E; [|by apply elem_of_nil in Hw]. simpl in Hw.
    apply (kt_member _ _ _ _ _ KS _ _ _ E) in Hw. pose proof (kt_fits _ _ _ _ _ KS _ _ Hw) as Hfit.
    destruct w as [|u| | | | |]; try done.
    pose proof (kt_registered _ _ _ _ _ KS _ _ u Hw eq_refl) as Hu.
    destruct (kt_prio _ _ _ _ _ KS u Hu) as (_ & -> & ?). lia.
Qed.

Lemma recompute_loop_spec fuel : forall s V t depth Q,
  kcore T D s V b X -> wait_sync s -> registered s t -> 0 <= depth ->
  Z.of_nat fuel + depth = HR_CFG_MAX_TASKS + 2 -> (1 <= fuel)%nat ->
  (forall st s' V', kcore T D s' V' b X -> prio_frame s s' ->
     (depth <= HR_CFG_MAX_TASKS -> recomputed (fuel - 2) s s' V t st) ->
     (HR_CFG_MAX_TASKS < depth -> st = HR_ERROR_INTERNAL /\ s' = s) -> same_quiet V V' -> Q st s') ->
  wp (recompute_task_priority fuel (Some t) depth) Q s.
Proof.
  induction fuel as [|fuel IH]; intros s V t depth Q KC HS Hreg Hd Hf Hf1 K; [lia|].
  cbn [recompute_task_priority]. destruct (Z.ltb_spec HR_CFG_MAX_TASKS depth) as [Hgt|Hle].
  { wp_step. apply (K _ s V); [done|apply prio_frame_refl|lia|done|done]. }
  destruct fuel as [|fuel]; [lia|]. cbn [Nat.sub] in K. rewrite Nat.sub_0_r in K.
  pose proof (kc_struct _ _ _ _ _ _ KC) as KS.
  destruct (kt_objects _ _ _ _ _ KS (OwnedMutexes t) Hreg) as [ns Hns].
  wp_step. wp_step. rewrite (required_priority_spec T D s V b KS (kc_objects _ _ _ _ _ _ KC) t ns Hns).
  wp_step. apply (set_priority_spec T D s V b t _ _ KS Hreg (kc_fixed _ _ _ _ _ _ KC t Hreg)).
  { by apply required_range. }
  { apply HS. done. }
  intros st s1 V1 KS1 PF1 (He & Hidle & HT) HQ1. pose proof (pf_kcore _ _ PF1 T D V V1 b X KC KS1) as KC1.
  assert (Hsingle : t <> g_idle_task -> st = HR_OK).
  { intros Hne. apply Hidle. pose proof (inherit_le s V ns (t_base_priority (task_at s t))).
    destruct (tx_level _ _ (kc_fixed _ _ _ _ _ _ KC t Hreg) Hne). lia. }
  assert (Hlent : forall p, p < HR_CFG_IDLE_PRIORITY -> lent_to s t p -> st = HR_OK /\
    (st = HR_OK -> t_effective_priority (task_at s1 t) <= p /\
       forall u, t_effective_priority (task_at s u) <= p -> t_effective_priority (task_at s1 u) <= p)).
  { intros p Hp HL. pose proof (inherit_lent T D s V b X t ns p KC Hns HL) as Hi. split; [apply Hidle; lia|].
    intros Est. rewrite (He Est). split; [done|]. intros u Hu.
    destruct (decide (u = t)) as [->|Hut]; [by rewrite (He Est)|by rewrite HT]. }
  destruct (decide (st = HR_OK)) as [->|Hst].
  2: { replace (ok st) with false by (by destruct st). cbn [negb]. wp_step. apply (K _ s1 V1); try done; [|lia].
       intros _. split; [done|done| |]; [intros Hne; by destruct (Hst (Hsingle Hne))|].
       intros _ _ p Hp HL. by destruct (Hst (proj1 (Hlent p Hp HL))). }
  ok_simpl. wp_step. wp_step. specialize (He eq_refl).
  assert (HE : inherits_but s (Some t) -> forall m o u, mx_owner (mutex_at s1 m) = Some o ->
    node_list s1 (WaitNode u) = Some (MutexWaiters m) -> (o = t \/ u <> t) ->
    t_effective_priority (task_at s1 o) <= t_effective_priority (task_at s1 u)).
  { intros HI. by apply (inherits_step T D s s1 V b X t ns). }
  assert (HK0 : (mutex_sync s1 -> forall m o, mx_owner (mutex_at s1 m) = Some o ->
      node_list s1 (WaitNode t) = Some (MutexWaiters m) -> o = t) -> Q HR_OK s1).
  { intros HN. apply (K _ s1 V1); try done; [|lia]. intros _. split; [done| |by eauto|].
    - intros _ MS HI m o u _ Ho Hu. apply (HE HI m o u Ho Hu). destruct (decide (u = t)) as [->|]; [left|by right].
      apply (HN (pf_mutex_sync _ _ PF1 MS) m o Ho Hu).
    - intros MS CS p Hp HL. split; [|by apply (Hlent p Hp HL)].
      assert (EN : next_owner s t = None).
      { rewrite <- (pf_next_owner _ _ t PF1). unfold next_owner.
        destruct (node_list s1 (WaitNode t)) as [[]|] eqn:El; try done.
        destruct (mx_owner (mutex_at s1 m)) as [o|] eqn:Eo; [|done].
        by rewrite decide_True by (by apply (HN (pf_mutex_sync _ _ PF1 MS) m o)). }
      replace (owner_chain fuel s t) with (Some [t]) by (destruct fuel; simpl; by rewrite EN).
      split; [done|]. split; intros u Hu; rewrite list_elem_of_singleton in Hu; [subst|by apply HT].
      exact (proj1 (proj2 (Hlent p Hp HL) eq_refl)). }
  pose proof (pf_wait_sync _ _ PF1 HS) as HS1. apply (pf_registered _ _ PF1) in Hreg as Hreg1.
  destruct (t_waiting_object (task_at s1 t)) as [obj|] eqn:Eo.
  2: { wp_step. apply HK0. intros MS m o Ho Hu. destruct (MS t m Hu) as (_ & _ & E). congruence. }
  assert (Hobj : t_waiting_object (task_at s t) = Some obj) by (rewrite <- Eo; symmetry; by apply (pf_field _ _ PF1)).
  destruct (wait_pending (task_at s1 t) && bool_decide (t_wait_kind (task_at s1 t) = HR_TASK_WAIT_MUTEX_LOCK)) eqn:Ek.
  2: { wp_step. apply HK0. intros MS m o Ho Hu. destruct (MS t m Hu) as (E1 & E2 & _). by rewrite E1, E2 in Ek. }
  apply andb_true_iff in Ek as [Ep Ek]. apply bool_decide_eq_true in Ek.
  destruct (HS1 t Hreg1) as [_ HM]. destruct (HM Ek obj Eo) as [m ->].
  assert (HMM : mutex_sync s1 -> forall k, node_list s1 (WaitNode t) = Some (MutexWaiters k) -> k = m).
  { intros MS k Hk. destruct (MS t k Hk) as (_ & _ & E). congruence. }
  destruct (mx_owner (mutex_at s1 m)) as [o|] eqn:Em.
  2: { wp_step. apply HK0. intros MS k o Ho Hu. rewrite (HMM MS k Hu) in Ho. congruence. }
  assert (Hlink : mx_magic (mutex_at s1 m) = HR_CFG_MUTEX_MAGIC -> registered s1 o).
  { intros Em1. apply (kt_registered _ _ _ _ _ KS1 (OwnerNode m) (OwnedMutexes o)); [|done].
    apply (mo_link _ _ (ob_mutexes _ (kc_objects _ _ _ _ _ _ KC1) m) o). done. }
  destruct ((mx_magic (mutex_at s1 m) =? HR_CFG_MUTEX_MAGIC) && hr_task_is_valid s1 (Some o) &&
            bool_decide (o <> t)) eqn:Ec.
  2: { wp_step. apply HK0. intros MS k o' Ho Hu. pose proof (HMM MS k Hu) as ->. rewrite Em in Ho. injection Ho as <-.
       destruct (ob_waiters _ (kc_objects _ _ _ _ _ _ KC1) _ _ Hu) as [Em1 _].
       rewrite Em1, Z.eqb_refl, (valid_task s1 o) in Ec by (apply (kc_fixed _ _ _ _ _ _ KC1); auto).
       by apply bool_decide_eq_false, dec_stable in Ec. }
  apply andb_true_iff in Ec as [[Em1%Z.eqb_eq _]%andb_true_iff Hot%bool_decide_eq_true].
  apply (IH s1 V1 o (depth + 1)); try done; try (unfold HR_CFG_MAX_TASKS in *; lia); [by apply Hlink|].
  intros st' s' V' KC' PF' RC HD HQ'. apply (K _ _ V'); [done|by eapply prio_frame_trans| |lia|by eapply same_quiet_trans].
  intros _. split; [by eapply prio_frame_trans| |by rewrite Hobj|].
  - intros -> MS HI.
    assert (Hd1 : depth + 1 <= HR_CFG_MAX_TASKS) by (destruct (Z.le_gt_cases (depth + 1) HR_CFG_MAX_TASKS) as [|E%HD]; [done|by destruct E]).
    apply (rc_inherits _ _ _ _ _ _ (RC Hd1) eq_refl (pf_mutex_sync _ _ PF1 MS)).
    intros k o' u Hne Ho Hu. apply (HE HI k o' u Ho Hu). destruct (decide (u = t)) as [->|]; [|by right].
    destruct Hne. rewrite (HMM (pf_mutex_sync _ _ PF1 MS) k Hu) in Ho. congruence.
  - intros MS CS p Hp HL. destruct (Hlent p Hp HL) as [_ [Ht Hu]]; [done|].
    pose proof (pf_mutex_sync _ _ PF1 MS) as MS1. pose proof (pf_chain_sync _ _ PF1 CS) as CS1.
    pose proof (CS1 t m Hreg1 Ep Ek Eo) as Hlk.
    assert (EN : next_owner s t = Some o).
    { rewrite <- (pf_next_owner _ _ t PF1). unfold next_owner. by rewrite Hlk, Em, decide_False by congruence. }
    assert (HL1 : lent_to s1 o p) by (by exists t, m).
    destruct (Z.le_gt_cases (depth + 1) HR_CFG_MAX_TASKS) as [Hd1|Hd1].
    + destruct fuel as [|fuel]; [lia|]. cbn [Nat.sub] in RC. rewrite Nat.sub_0_r in RC.
      destruct (rc_chain _ _ _ _ _ _ (RC Hd1) MS1 CS1 p Hp HL1) as (HC & Ho & HB). cbn [owner_chain]. rewrite EN.
      rewrite (owner_chain_ext fuel s s1 o) in HC by (intros; by apply pf_next_owner).
      split; [|split; auto]. destruct (owner_chain fuel s o) as [os|]; [|exact HC]. simpl. destruct HC as (-> & HO & HC).
      split; [done|]. split; [intros u [->|Huo]%elem_of_cons; auto|]. intros u [Hut Hos]%not_elem_of_cons. by rewrite HC, HT.
    + destruct (HD Hd1) as [-> ->]. assert (fuel = 0%nat) as -> by lia. cbn [owner_chain]. rewrite EN.
      split; [done|]. split; auto.
Qed.

Lemma recompute_task_spec s V t Q :
  kcore T D s V b X -> wait_sync s -> registered s t ->
  (forall st s' V', kcore T D s' V' b X -> recomputed (Z.to_nat HR_CFG_MAX_TASKS) s s' V t st -> same_quiet V V' -> Q st s') ->
  wp (hr_mutex_recompute_task_priority (Some t) 0) Q s.
Proof.
  intros KC HS Hreg K. apply (recompute_loop_spec _ s V); try done; try (unfold HR_CFG_MAX_TASKS; lia).
  intros st s' V' KC' PF RC _ HQ. apply (K st s' V'); try done. apply RC. unfold HR_CFG_MAX_TASKS. lia.
Qed.

Lemma recompute_owner_spec s V m Q :
  kcore T D s V b X -> wait_sync s ->
  (forall st s' V', kcore T D s' V' b X -> prio_frame s s' -> same_quiet V V' ->
     (st = HR_OK -> mutex_sync s -> inherits_but s (mx_owner (mutex_at s m)) -> inherits s') ->
     (forall o, mx_magic (mutex_at s m) = HR_CFG_MUTEX_MAGIC -> mx_owner (mutex_at s m) = Some o ->
        t_magic (task_at s o) = HR_CFG_TASK_MAGIC -> recomputed (Z.to_nat HR_CFG_MAX_TASKS) s s' V o st) -> Q st s') ->
  wp (hr_mutex_recompute_owner_priority (Some m)) Q s.
Proof.
  intros KC HS K.
  assert (K0 : forall st, (st = HR_OK -> mx_owner (mutex_at s m) = None) ->
    (forall o, mx_magic (mutex_at s m) = HR_CFG_MUTEX_MAGIC -> mx_owner (mutex_at s m) = Some o ->
       t_magic (task_at s o) = HR_CFG_TASK_MAGIC -> False) -> Q st s).
  { intros st Hn HF. apply (K _ _ V KC); [apply prio_frame_refl|done| |]; [|intros o ? ? ?; by destruct (HF o)].
    intros E _ HI. by rewrite (Hn E) in HI. }
  unfold hr_mutex_recompute_owner_priority. wp_step. wp_step.
  destruct (Z.eqb_spec (mx_magic (mutex_at s m)) HR_CFG_MUTEX_MAGIC) as [Hm|]; cbn [negb]; [|wp_step; by apply K0].
  destruct (mx_owner (mutex_at s m)) as [o|] eqn:Eo; [|wp_step; by apply K0].
  destruct (hr_task_is_valid s (Some o)) eqn:Ev; cbn [negb].
  2: { wp_step. apply K0; [done|]. intros o' _ [= <-] Hmag. by rewrite (valid_task s o Hmag) in Ev. }
  apply (recompute_task_spec s V); try done.
  - apply (kt_registered _ _ _ _ _ (kc_struct _ _ _ _ _ _ KC) (OwnerNode m) (OwnedMutexes o)); [|done].
    by apply (mo_link _ _ (ob_mutexes _ (kc_objects _ _ _ _ _ _ KC) m) o).
  - intros st s' V' KC' RC HQ. pose proof RC as [PF RI _ _]. apply (K st s' V'); try done. by intros o' _ [= <-] _.
Qed.

Lemma cleanup_spec s V f t result Q :
  kcore T D s V b X -> wait_sync s -> registered s t ->
  (forall s' V', kcore T D s' V' b X -> prio_frame s s' -> same_quiet V V' ->
     (result <> HR_ERROR_TIMEOUT -> s' = s) -> Q tt s') ->
  wp (call_cleanup f t result) Q s.
Proof.
  intros KC HS Hreg K. assert (K0 : Q tt s) by (apply (K _ V KC); [apply prio_frame_refl|done|done]).
  destruct f. unfold call_cleanup, hr_mutex_wait_cleanup. wp_step. wp_step.
  destruct (bool_decide (result <> HR_ERROR_TIMEOUT) || _) eqn:E; [by wp_step|].
  apply orb_false_iff in E as [Er E]. apply bool_decide_eq_false in E, Er. apply dec_stable in E.
  destruct (t_waiting_object (task_at s t)) as [o|] eqn:Eo; [|by wp_step].
  destruct (proj2 (HS t Hreg) E o Eo) as [m ->]. unfold ignoreM. wp_step.
  apply (recompute_owner_spec s V); try done. intros st s' V' KC' PF HQ _ _. wp_step. by apply (K s' V').
Qed.
End recompute.
