(* ===== verification/KernelSpec.v ===== *)
(** Correctness of the kernel operations of [Kernel]: each preserves the
    invariant [kinv] (in its open form [kcore], with the tasks a call has in
    hand set apart) and does not panic. *)
From stdpp Require Import gmap list.
From Stdlib Require Import ZArith Lia.
From S2P Require Import Prelude Types HrList HrListSpec Store Scheduler SchedulerSpec WaitList WaitListSpec Timeout TimeoutSpec KState TaskCore KernelBase KernelInv MutexPriority Kernel KernelTasks.
Open Scope Z_scope.
Set Warnings "-clear-no-such-hyp".

(** ** Opening and closing the invariant *)

Definition node_of (t : task_ptr) (n : node_addr) : Prop :=
  n = ReadyNode t \/ n = WaitNode t \/ n = TimeoutNode t.

Lemma kcore_open T D s V b (X Y : task_ptr -> Prop) :
  kcore T D s V b X -> (forall t, X t -> Y t) -> kcore T D s V b Y.
Proof. intros [] H. split; auto. Qed.

Lemma kcore_close T D s V b t : kcore T D s V b (eq t) -> task_ok s t -> kcore T D s V b nobody.
Proof.
  intros [] Hok. split; auto. intros u Hu _. destruct (decide (t = u)) as [<-|]; [done|]. by apply kc_tasks.
Qed.

(** A task whose control block and links did not change. *)
Lemma task_ok_frame s s' u : task_at s' u = task_at s u ->
  (forall n, node_of u n -> node_list s' n = node_list s n) ->
  (t_state (task_at s u) = HR_TASK_STATE_RUNNING -> g_current_task (glob s') = g_current_task (glob s)) ->
  task_ok s u -> task_ok s' u.
Proof.
  intros Ht Hn Hc [Hs Hi].
  assert (R : node_list s' (ReadyNode u) = node_list s (ReadyNode u)) by (apply Hn; unfold node_of; auto).
  assert (W : node_list s' (WaitNode u) = node_list s (WaitNode u)) by (apply Hn; unfold node_of; auto).
  assert (O : node_list s' (TimeoutNode u) = node_list s (TimeoutNode u)) by (apply Hn; unfold node_of; auto).
  assert (HI : idle_wait s u -> idle_wait s' u) by (intros []; split; rewrite ?Ht, ?W, ?O; done).
  assert (HW : waiting s u -> waiting s' u).
  { intros [[[] H6]|(o & l & [])]; [left|right; exists o, l].
    - split; [split; rewrite ?Ht, ?W; done|by rewrite O].
    - split; rewrite ?Ht, ?W; done. }
  split; [|by rewrite R]. unfold state_ok in *. rewrite Ht, R. destruct (t_state (task_at s u)); try done.
  - destruct Hs; auto.
  - rewrite Hc by done. destruct Hs as (? & ? & ?); auto.
  - destruct Hs; auto.
  - destruct Hs as [? Hr]. split; [done|]. destruct (t_suspended_resume_state (task_at s u)); auto.
Qed.

Section frames.
Context (T : Z) (D : node_addr -> Z) (s : kstate) (V : view) (b : phase) (X : task_ptr -> Prop).
Hypothesis KC : kcore T D s V b X.

(** Linking or unlinking a node of a task in hand. *)
Lemma kcore_step D' s' V' t n v :
  kstruct T D' s' V' b -> step_frame s s' n v -> node_of t n -> X t ->
  (forall l, v = Some l -> may_wait s l) -> kcore T D' s' V' b X.
Proof.
  intros KS' F Hn HX Hmay. destruct KC as [K1 K2 K3 K4 K5 K6].
  assert (HnA : forall u, n <> AllTaskNode u) by (intros u ->; destruct Hn as [?|[?|?]]; done).
  assert (Hreg : forall u, registered s' u <-> registered s u) by (intros u; by apply (sf_registered _ _ _ _ F)).
  pose proof (sf_glob _ _ _ _ F) as Hg. split; rewrite ?Hg; try done.
  - destruct K3 as [? Hgl]. split; [by apply Hreg|]. rewrite Hg. destruct (g_kernel_state (glob s)); try done.
    destruct Hgl as (c & ? & ? & ?). exists c. by rewrite Hreg.
  - intros u Hu. destruct (K4 u (proj1 (Hreg u) Hu)). split; rewrite ?(sf_owner _ _ _ _ F), ?(sf_task _ _ _ _ F); done.
  - intros u Hu HXu. apply (task_ok_frame s); [apply (sf_task _ _ _ _ F)| |by rewrite Hg|apply K5; [by apply Hreg|done]].
    intros m Hm. rewrite (sf_list _ _ _ _ F), decide_False; [done|]. intros ->.
    destruct Hm as [->|[->| ->]], Hn as [[=]|[[=]|[=]]]; subst; done.
  - apply (objects_frame s); try (by rewrite (sf_rest _ _ _ _ F)); try done.
    + intros m l _. rewrite (sf_list _ _ _ _ F). destruct (decide (m = n)); [right; by apply Hmay|by left].
    + intros m Hm. rewrite (sf_list _ _ _ _ F), decide_False; [done|]. intros ->. by destruct Hn as [->|[->| ->]].
    + intros m _. apply (sf_owner _ _ _ _ F).
Qed.

(** Writing the control block of a task in hand. *)
Lemma kcore_set_task t c : X t ->
  t_magic c = t_magic (task_at s t) -> t_effective_priority c = t_effective_priority (task_at s t) ->
  t_base_priority c = t_base_priority (task_at s t) -> t_owned_mutex_count c = t_owned_mutex_count (task_at s t) ->
  kcore T D (set_task t c s) V b X.
Proof.
  intros HX Hm He Hb Hc. destruct KC as [K1 K2 K3 K4 K5 K6]. split; try done.
  - apply (kstruct_ext T D s); try done. intros u _. rewrite task_at_set_task. by case_decide; subst.
  - intros u Hu. destruct (K4 u Hu). split; try done; rewrite !task_at_set_task; case_decide; subst; rewrite ?Hm, ?He, ?Hb; done.
  - intros u Hu HXu. apply (task_ok_frame s); try done; [|by apply K5].
    rewrite task_at_set_ne; [done|]. intros ->. done.
  - apply (objects_same s); try done. intros u. rewrite task_at_set_task. by case_decide; subst.
Qed.

(** Recording a switch reason. *)
Lemma kcore_globals f :
  (forall g, g_kernel_state (f g) = g_kernel_state g /\ g_current_task (f g) = g_current_task g /\
     g_hr_current_task_control_block (f g) = g_hr_current_task_control_block g /\
     g_task_count (f g) = g_task_count g /\ g_kernel_tick (f g) = g_kernel_tick g /\
     g_timer_system_initialized (f g) = g_timer_system_initialized g) ->
  kcore T D (ks_set_globals (f (ks_globals s)) s) V b X.
Proof.
  intros Hf. destruct (Hf (ks_globals s)) as (H1 & H2 & H3 & H4 & H5 & H6). destruct KC as [K1 K2 K3 K4 K5 K6]. split; try done.
  - by apply (kstruct_ext T D s).
  - simpl. by rewrite H5.
  - destruct K3 as [? Hg]. split; [done|]. simpl. unfold glob in *. by rewrite H1, H2, H3.
  - intros u Hu. by destruct (K4 u Hu).
  - intros u Hu HXu. apply (task_ok_frame s); try done. by apply K5.
  - by apply (objects_same s).
Qed.
End frames.

(** The port and the contents of stacks and buffers do not matter to the invariant. *)
Lemma kcore_raw T D s s' V b X : s' = ks_set_port (ks_port s') (ks_set_words (ks_words s') (ks_set_bytes (ks_bytes s') s)) ->
  kcore T D s V b X -> kcore T D s' V b X.
Proof.
  intros -> [K1 K2 K3 K4 K5 K6]. split; try done.
  - by apply (kstruct_ext T D s).
  - intros u Hu. by destruct (K4 u Hu).
  - intros u Hu HXu. apply (task_ok_frame s); try done. by apply K5.
  - by apply (objects_same s).
Qed.
Lemma kcore_port T D s V b X p : kcore T D s V b X -> kcore T D (ks_set_port p s) V b X.
Proof. apply kcore_raw. by destruct s. Qed.
Lemma kcore_bytes T D b s V X B : kcore T D s V b X -> kcore T D (ks_set_bytes B s) V b X.
Proof. apply kcore_raw. by destruct s. Qed.
Lemma kcore_words T D b s V X W : kcore T D s V b X -> kcore T D (ks_set_words W s) V b X.
Proof. apply kcore_raw. by destruct s. Qed.

(** ** Wake-up *)

(** A task whose wait may be completed; [X] is [eq t] in the lemmas below. *)
Record wakeable (s : kstate) (t : task_ptr) : Prop := {
  wk_registered : registered s t;
  wk_not_idle : t <> g_idle_task;
  wk_pending : wait_pending (task_at s t) = true;
  wk_ready : node_list s (ReadyNode t) = None;
  wk_list : node_list s (WaitNode t) = t_blocked_wait_list (task_at s t);
  wk_timeout : node_list s (TimeoutNode t) = None \/
    exists c, node_list s (TimeoutNode t) = Some (TimeoutHalf g_timeout_list c);
  wk_synced : synced s t;
}.

Definition suspended_wait (c : hr_task_control_block_t) : bool :=
  bool_decide (t_state c = HR_TASK_STATE_SUSPENDED) &&
  bool_decide (t_suspended_resume_state c = HR_TASK_STATE_BLOCKED).

(** The effect of completing the wait of [t] with [result]. *)
Record woke (s s' : kstate) (t : task_ptr) (result : hr_status) : Prop := {
  wo_rest : s' = ks_set_store (ks_store s') (ks_set_tasks (ks_tasks s') s);
  wo_result : t_wait_result (task_at s' t) = result;
  wo_state : t_state (task_at s' t) =
    if suspended_wait (task_at s t) then HR_TASK_STATE_SUSPENDED else HR_TASK_STATE_READY;
  wo_idle : idle_wait s' t;
  wo_other : forall u, u <> t -> exists p, task_at s' u = t_set_effective_priority p (task_at s u);
  wo_list : forall n, ~ node_of t n -> (forall u, n <> ReadyNode u) -> node_list s' n = node_list s n;
  wo_owner : forall n, node_owner s' n = node_owner s n;
  wo_priority : result <> HR_ERROR_TIMEOUT ->
    forall u, t_effective_priority (task_at s' u) = t_effective_priority (task_at s u);
}.

Lemma wait_pending_cases c : wait_pending c = true ->
  suspended_wait c = false /\ t_state c = HR_TASK_STATE_BLOCKED \/
  suspended_wait c = true /\ t_state c = HR_TASK_STATE_SUSPENDED /\
  t_suspended_resume_state c = HR_TASK_STATE_BLOCKED.
Proof.
  unfold wait_pending, suspended_wait. intros [H|[H1 H2]%andb_true_iff]%orb_true_iff.
  - apply bool_decide_eq_true in H. left. rewrite H. split; [|done]. done.
  - right. rewrite H1, H2. apply bool_decide_eq_true in H1, H2. done.
Qed.

Lemma node_of_dec t n : node_of t n \/ ~ node_of t n.
Proof. unfold node_of. destruct (decide (n = ReadyNode t)), (decide (n = WaitNode t)), (decide (n = TimeoutNode t)); tauto. Qed.

(** The fields written on wake-up. *)
Definition completed `{Config} (result : hr_status) (c : hr_task_control_block_t) : hr_task_control_block_t :=
  t_set_time_slice_remaining HR_CFG_TIME_SLICE_TICKS
    (t_set_wait_kind HR_TASK_WAIT_NONE
      (t_set_wait_result result
        (t_set_wait_cleanup None
          (t_set_wait_buffer None
            (t_set_blocked_wait_list None (t_set_waiting_object None c)))))).

Section wake.
Context `{Config} (T : Z) (D : node_addr -> Z) (b : phase) (t : task_ptr).

(** Leaving the wait list and the timeout list. *)
Lemma leave_lists_spec s V Q :
  kcore T D s V b (eq t) -> wakeable s t ->
  (forall s' V', kcore T D s' V' b (eq t) -> s' = ks_set_store (ks_store s') s ->
     (forall n, node_list s' n = if decide (n = WaitNode t \/ n = TimeoutNode t) then None else node_list s n) ->
     (forall n, node_owner s' n = node_owner s n) -> same_quiet V V' -> Q s') ->
  wp (match t_blocked_wait_list (task_at s t) with
      | Some l => lift (hr_wait_list_remove (Some l) (Some (WaitNode t)))
      | None => retM HR_OK
      end) (fun st s1 => st = HR_OK /\
        wp (if is_linked s1 (TimeoutNode t) then remove_timeout t else retM HR_OK)
          (fun st s2 => st = HR_OK /\ Q s2) s1) s.
Proof.
  intros KC [W1 W2 W3 W4 W5 W6 W7] K.
  (* the second step, from any state that left the wait list *)
  assert (K2 : forall s1 V1, kcore T D s1 V1 b (eq t) -> step_frame s s1 (WaitNode t) None -> same_quiet V V1 ->
    wp (if is_linked s1 (TimeoutNode t) then remove_timeout t else retM HR_OK)
      (fun st s2 => st = HR_OK /\ Q s2) s1).
  { intros s1 V1 KC1 F1 HQ1. pose proof (sf_list _ _ _ _ F1 (TimeoutNode t)) as HT. rewrite decide_False in HT by done.
    destruct W6 as [E|[c E]]; rewrite E in HT.
    - rewrite linked_false by done. wp_step. split; [done|]. eapply K; [done|apply F1| |apply F1|done].
      intros n. rewrite (sf_list _ _ _ _ F1). repeat case_decide; try done; naive_solver.
    - rewrite linked_true by eauto. apply (remove_timeout_spec T D s1 V1 b (kc_struct _ _ _ _ _ _ KC1) t c); [done|].
      intros s2 V2 KS2 _ HV2 F2. split; [done|]. apply (K s2 V2).
      + apply (kcore_step T D s1 V1 b _ KC1 D s2 V2 t _ _ KS2 F2); [unfold node_of; auto|done|links].
      + rewrite (sf_rest _ _ _ _ F2), (sf_rest _ _ _ _ F1). done.
      + intros n. rewrite (sf_list _ _ _ _ F2), (sf_list _ _ _ _ F1). repeat case_decide; try done; naive_solver.
      + intros n. by rewrite (sf_owner _ _ _ _ F2), (sf_owner _ _ _ _ F1).
      + eapply same_quiet_trans; [exact HQ1|]. by apply same_quiet_timeout. }
  destruct (t_blocked_wait_list (task_at s t)) as [l|] eqn:E.
  - apply (wait_remove_spec T D s V b (kc_struct _ _ _ _ _ _ KC) t l); [congruence|].
    intros s1 V1 xs ys _ -> KS1 F1. split; [done|]. apply (K2 s1 (<[l := xs ++ ys]> V)); [|done|].
    2: { apply same_quiet_insert, wait_not_quiet.
         apply (kt_fits _ _ _ _ _ (kc_struct _ _ _ _ _ _ KC) (WaitNode t) l). congruence. }
    apply (kcore_step T D s V b _ KC D s1 _ t _ _ KS1 F1); [unfold node_of; auto|done|links].
  - wp_step. split; [done|]. apply (K2 s V KC); [|done]. split; try done; [by destruct s|].
    intros n. case_decide; congruence.
Qed.

Lemma completed_steps result Q s :
  Q tt (set_task t (completed result (task_at s t)) s) ->
  wp ((((((upd_task t (t_set_waiting_object None) ;;;
           upd_task t (t_set_blocked_wait_list None)) ;;;
          upd_task t (t_set_wait_buffer None)) ;;;
         upd_task t (t_set_wait_cleanup None)) ;;;
        upd_task t (t_set_wait_result result)) ;;;
       upd_task t (t_set_wait_kind HR_TASK_WAIT_NONE)) ;;;
      hr_kernel_reload_time_slice (Some t)) Q s.
Proof.
  intros HQ. unfold hr_kernel_reload_time_slice.
  repeat (first [apply wp_bind|apply wp_upd_task]; rewrite ?set_task_twice, ?task_at_set_eq). done.
Qed.

(** The last part: back to the ready set, or to administrative suspension. *)
Lemma enter_ready_spec s V Q :
  kcore T D s V b (eq t) -> registered s t -> t <> g_idle_task ->
  node_list s (ReadyNode t) = None -> idle_wait s t ->
  wait_pending (task_at s t) = true ->
  (forall st f s' V', kcore T D s' V' b nobody ->
     st = HR_OK -> is_Some f ->
     (suspended_wait (task_at s t) = false -> f = Some (woken_preempts s' t)) ->
     woke s s' t (t_wait_result (task_at s t)) -> same_quiet V V' -> Q (st, f) s') ->
  wp (if suspended_wait (task_at s t) then
        upd_task t (t_set_suspended_resume_state HR_TASK_STATE_READY) ;;;
        retM (HR_OK, Some false)
      else
        let* status := add_ready t in
        if negb (ok status) then retM (status, None)
        else
          let* status := hr_task_transition_state (Some t) HR_TASK_STATE_BLOCKED HR_TASK_STATE_READY in
          if negb (ok status) then ignoreM (remove_ready t) ;;; retM (status, None)
          else
            let* s := getM in
            retM (HR_OK, Some (woken_preempts s t))) Q s.
Proof.
  intros KC Hreg Hni Hr IW WP K. pose proof (kc_fixed _ _ _ _ _ _ KC t Hreg) as TX.
  destruct (wait_pending_cases _ WP) as [[Esw Hst]|(Esw & Hst & Hrs)]; rewrite Esw.
  - wp_step. apply (add_ready_spec T D s V b (kc_struct _ _ _ _ _ _ KC)); [done|done|apply TX|].
    intros s1 V1 p EV1 KS1 F1. ok_simpl. wp_step.
    pose proof (sf_task _ _ _ _ F1) as HT.
    apply transition_spec; [rewrite HT; apply TX|by rewrite HT|]. ok_simpl. wp_steps.
    set (s2 := set_task t _ s1).
    assert (HT2 : task_at s2 t = t_set_state HR_TASK_STATE_READY (task_at s t)) by (unfold s2; by rewrite task_at_set_eq, HT).
    assert (IW2 : idle_wait s2 t).
    { destruct IW. split; rewrite ?HT2; try done;
      unfold s2; change (node_list (set_task _ _ s1) ?n) with (node_list s1 n);
      rewrite (sf_list _ _ _ _ F1), decide_False; done. }
    apply (K _ _ s2 V1); [| done | eauto | done | |rewrite EV1; by apply same_quiet_insert].
    + eapply (kcore_close _ _ _ _ _ t).
      * eapply (kcore_set_task T D s1 _ b); [|done..].
        eapply (kcore_step T D s V b (eq t) KC D s1 _ t _ _ KS1 F1); [unfold node_of; auto|done|links].
      * split; [|by intros ->]. unfold state_ok. rewrite HT2. simpl. split; [|done].
        change (is_Some (node_list s1 (ReadyNode t))). rewrite (sf_list _ _ _ _ F1), decide_True; eauto.
    + split.
      * unfold s2. rewrite (sf_rest _ _ _ _ F1). done.
      * by rewrite HT2.
      * by rewrite HT2, Esw.
      * done.
      * intros u Hu. exists (t_effective_priority (task_at s u)). unfold s2. rewrite task_at_set_ne, HT by done.
        by destruct (task_at s u).
      * intros n Hn _. change (node_list s1 n = node_list s n). rewrite (sf_list _ _ _ _ F1), decide_False; [done|].
        intros ->. apply Hn. unfold node_of; auto.
      * intros n. apply (sf_owner _ _ _ _ F1).
      * intros _ u. unfold s2. rewrite task_at_set_task, !HT. by case_decide; subst.
  - wp_step. apply wp_upd_task. wp_step. set (s2 := set_task t _ s).
    assert (HT2 : task_at s2 t = t_set_suspended_resume_state HR_TASK_STATE_READY (task_at s t)) by apply task_at_set_eq.
    assert (IW2 : idle_wait s2 t) by (destruct IW; split; rewrite ?HT2; done).
    apply (K _ _ s2 V); [|done|eauto|congruence| |done].
    + eapply (kcore_close _ _ _ _ _ t).
      * by apply (kcore_set_task T D s V b).
      * split; [|by intros ->]. unfold state_ok. rewrite HT2. simpl. rewrite Hst. done.
    + split; try done.
      * by rewrite HT2.
      * by rewrite HT2, Esw.
      * intros u Hu. exists (t_effective_priority (task_at s u)). unfold s2. rewrite task_at_set_ne by done.
        by destruct (task_at s u).
      * intros _ u. unfold s2. rewrite task_at_set_task. by case_decide; subst.
Qed.

Lemma make_task_ready_spec s V result Q :
  kcore T D s V b (eq t) -> wakeable s t ->
  (forall f s' V', kcore T D s' V' b nobody -> woke s s' t result -> is_Some f ->
     (suspended_wait (task_at s t) = false -> f = Some (woken_preempts s' t)) -> same_quiet V V' -> Q (HR_OK, f) s') ->
  wp (hr_kernel_make_task_ready (Some t) result) Q s.
Proof.
  intros KC WK K. pose proof WK as [W1 W2 W3 W4 W5 W6 W7]. pose proof (kc_fixed _ _ _ _ _ _ KC t W1) as TX.
  unfold hr_kernel_make_task_ready. wp_step. wp_step. fold (suspended_wait (task_at s t)).
  replace (bool_decide (t_state (task_at s t) <> HR_TASK_STATE_BLOCKED) && negb (suspended_wait (task_at s t))) with false.
  2: { destruct (wait_pending_cases _ W3) as [[-> ->]|(-> & _ & _)]; [done|]. by rewrite andb_false_r. }
  unfold cast_task. rewrite (tx_ready _ _ TX). cbn [as_task]. rewrite (valid_task s t) by apply TX. cbn [negb].
  set (left := fun s2 : kstate => exists V2, kcore T D s2 V2 b (eq t) /\ s2 = ks_set_store (ks_store s2) s /\
    (forall n, node_list s2 n = if decide (n = WaitNode t \/ n = TimeoutNode t) then None else node_list s n) /\
    (forall n, node_owner s2 n = node_owner s n) /\ same_quiet V V2).
  apply wp_bind. eapply wp_mono; [apply (leave_lists_spec s V left KC WK)|].
  { intros s2 V2 KC2 R2 L2 O2 HQ2. by exists V2. }
  intros st s1 [-> H1]. ok_simpl. wp_step. wp_step. wp_step. eapply wp_mono; [exact H1|]. clear H1.
  intros st s2 [-> (V2 & KC2 & R2 & L2 & O2 & HQ2)]. ok_simpl.
  assert (HT2 : forall u, task_at s2 u = task_at s u) by (intros; by rewrite R2).
  assert (Hreg2 : forall u, registered s2 u <-> registered s u).
  { intros u. unfold registered. rewrite L2, decide_False; [done|]. by intros [?|?]. }
  assert (SY2 : wait_sync s2).
  { intros u Hu. destruct (decide (t = u)) as [<-|Hne].
    - split; [rewrite L2, decide_True by auto; done|rewrite HT2; apply W7].
    - apply task_ok_sync. by apply (kc_tasks _ _ _ _ _ _ KC2). }
  (* the cleanup *)
  apply wp_bind, (wp_mono _ (fun _ s3 => prio_frame s2 s3 /\ (result <> HR_ERROR_TIMEOUT -> s3 = s2) /\
    exists V3, kcore T D s3 V3 b (eq t) /\ same_quiet V2 V3)).
  { destruct (t_wait_cleanup (task_at s t)) as [f|].
    - apply (cleanup_spec T D b (eq t) s2 V2); try done; [by apply Hreg2|eauto].
    - wp_step. split; [apply prio_frame_refl|]. split; [done|]. by exists V2. }
  intros [] s3 (PF & HNT & V3 & KC3 & HQ3). repeat apply wp_assoc. wp_step. apply completed_steps.
  set (s4 := set_task t _ s3).
  assert (HT4 : task_at s4 t = completed result (task_at s3 t)) by apply task_at_set_eq.
  assert (HF : forall {A} (f : hr_task_control_block_t -> A),
    (forall p c, f (t_set_effective_priority p c) = f c) -> f (task_at s3 t) = f (task_at s t)).
  { intros A f Hf. by rewrite (pf_field _ _ PF), HT2. }
  assert (ES : suspended_wait (task_at s t) = suspended_wait (task_at s4 t)).
  { unfold suspended_wait. rewrite HT4. simpl. by rewrite !HF. }
  rewrite ES. apply (enter_ready_spec s4 V3).
  - by apply (kcore_set_task T D s3 V3 b (eq t) KC3).
  - change (registered s3 t). apply (pf_registered _ _ PF). by apply Hreg2.
  - done.
  - change (node_list s3 (ReadyNode t) = None). apply (pf_ready_none _ _ PF).
    rewrite L2, decide_False; [done|]. by intros [?|?].
  - split; rewrite ?HT4; try done;
    [change (node_list s3 (WaitNode t) = None)|change (node_list s3 (TimeoutNode t) = None)];
    rewrite (pf_list _ _ PF), L2, decide_True by auto; done.
  - unfold wait_pending. rewrite HT4. simpl. rewrite !HF by done. exact W3.
  - intros st f s5 V5 KC5 -> Hf1 Hf2 WO HQ5. apply (K f s5 V5); try done; [|by rewrite ES|].
    2: { eapply same_quiet_trans; [exact HQ2|]. by eapply same_quiet_trans. }
    rewrite HT4 in WO. destruct WO as [O1 O2' O3 O4 O5 O6 O7 O8]. split; try done.
    + rewrite O1. unfold s4. rewrite (pf_rest _ _ PF), R2. done.
    + by rewrite O3, ES.
    + intros u Hu. destruct (O5 u Hu) as [p Hp]. exists p. unfold s4 in Hp. rewrite task_at_set_ne in Hp by done.
      rewrite Hp. destruct (pf_task _ _ PF u) as (q & -> & _). by rewrite HT2.
    + intros n Hn HR. rewrite O6 by done. change (node_list s3 n = node_list s n).
      rewrite (pf_list _ _ PF), L2, decide_False; [done| |done]. intros HH. apply Hn. unfold node_of; tauto.
    + intros n. rewrite O7. change (node_owner s3 n = node_owner s n). by rewrite (pf_owner _ _ PF), O2.
    + intros Hr u. rewrite (O8 Hr). unfold s4. rewrite (HNT Hr), task_at_set_task, !HT2. by case_decide; subst.
Qed.
End wake.

(** ** Blocking the running task *)

Lemma wp_if_false {S A} (c : bool) (m k : M S A) Q s : c = false -> wp k Q s -> wp (if c then m else k) Q s.
Proof. by intros ->. Qed.

Lemma bool_neq_false {A} `{EqDecision A} (x y : A) : x = y -> bool_decide (x <> y) = false.
Proof. intros ->. apply bool_decide_eq_false. tauto. Qed.

(** A sequence of writes to one control block. *)
Ltac upd_steps := repeat lazymatch goal with
  | |- wp (bindM _ _) _ _ => apply wp_bind
  | |- wp (upd_task _ _) _ _ => apply wp_upd_task; rewrite ?set_task_twice, ?task_at_set_eq; cbv beta
  end.

(** A guard made of negative tests that all fail. *)
Ltac guards := rewrite ?orb_false_iff, ?andb_false_iff, ?negb_false_iff; split_and!;
  auto using bool_neq_false, linked_true, linked_false;
  try (apply bool_decide_eq_false; done); try (apply Z.eqb_neq; lia).

(** The running task has no wait in progress. *)
Record running (s : kstate) (t : task_ptr) : Prop := {
  rn_kernel : g_kernel_state (glob s) = HR_KERNEL_STATE_RUNNING;
  rn_current : g_current_task (glob s) = Some t;
  rn_state : t_state (task_at s t) = HR_TASK_STATE_RUNNING;
}.

Lemma running_facts T D s V b t : kcore T D s V b nobody -> running s t ->
  registered s t /\ is_Some (node_list s (ReadyNode t)) /\ idle_wait s t /\ task_fixed s t.
Proof.
  intros KC [H1 H2 H3]. destruct (kc_globals _ _ _ _ _ _ KC) as [_ Hg]. rewrite H1 in Hg.
  destruct Hg as (c & Hc & _ & Hreg). rewrite H2 in Hc. injection Hc as <-.
  pose proof (to_state _ _ (kc_tasks _ _ _ _ _ _ KC t Hreg ltac:(intros []))) as Hs. unfold state_ok in Hs.
  rewrite H3 in Hs. destruct Hs as (? & ? & ?). split_and!; try done. by apply (kc_fixed _ _ _ _ _ _ KC).
Qed.

(** What blocking or suspending the running task keeps. *)
Definition marked (r : Z) (s : kstate) : kstate :=
  ks_set_globals (g_set_switch_reasons (Z.lor (g_switch_reasons (ks_globals s)) r) (ks_globals s)) s.
Record blocked_frame (s s' : kstate) (t : task_ptr) : Prop := {
  bf_rest : s' = marked HR_SWITCH_REASON_BLOCK (ks_set_store (ks_store s') (ks_set_tasks (ks_tasks s') s));
  bf_task : forall u, u <> t -> task_at s' u = task_at s u;
  bf_list : forall n, ~ node_of t n -> node_list s' n = node_list s n;
  bf_ready : node_list s' (ReadyNode t) = None;
  bf_timeout : node_list s' (TimeoutNode t) <> Some ExpiredNodes;
  bf_owner : forall n, node_owner s' n = node_owner s n;
  bf_priority : t_effective_priority (task_at s' t) = t_effective_priority (task_at s t);
}.

Section block.
Context `{Config} (T : Z) (D : node_addr -> Z) (b : phase) (t : task_ptr).

Definition delayed (n : node_addr) (deadline : Z) : node_addr -> Z :=
  fun m => if decide (m = n) then deadline else D m.

Lemma kcore_weaken s V X : kcore T D s V b nobody -> kcore T D s V b X.
Proof. intros KC. eapply kcore_open; [exact KC|]. intros u []. Qed.

Lemma mark_reason_spec r Q s : Q tt (marked r s) -> wp (hr_kernel_mark_switch_reason r) Q s.
Proof. done. Qed.

Lemma u32_tick delay : u32 (u32 T + delay) = u32 (T + delay).
Proof. unfold u32, wrap. by rewrite Zplus_mod_idemp_l. Qed.

(** The end of every blocking call: the control block is written and a switch is due. *)
Lemma blocked_finish D' s s2 V2 c :
  kcore T D' s2 V2 b (eq t) -> s2 = ks_set_store (ks_store s2) s ->
  (forall n, ~ node_of t n -> node_list s2 n = node_list s n) -> node_list s2 (ReadyNode t) = None ->
  node_list s2 (TimeoutNode t) <> Some ExpiredNodes ->
  (forall n, node_owner s2 n = node_owner s n) ->
  t_magic c = t_magic (task_at s t) -> t_effective_priority c = t_effective_priority (task_at s t) ->
  t_base_priority c = t_base_priority (task_at s t) -> t_owned_mutex_count c = t_owned_mutex_count (task_at s t) ->
  let s3 := set_task t c s2 in let s' := marked HR_SWITCH_REASON_BLOCK s3 in
  task_ok s3 t -> kcore T D' s' V2 b nobody /\ blocked_frame s s' t /\ task_at s' t = c.
Proof.
  intros KC2 R2 L2 Hr Hx O2 Hm He Hb Hcnt s3 s' Hok.
  assert (HT : forall u, task_at s2 u = task_at s u) by (intros; by rewrite R2).
  assert (Hc : task_at s' t = c) by (change (task_at s3 t = c); apply task_at_set_eq).
  split_and!; [| |done].
  - apply kcore_globals; [|by intros g]. apply (kcore_close _ _ _ _ _ t); [|done].
    by apply (kcore_set_task T D' s2 V2 b (eq t) KC2); rewrite ?HT.
  - split; try done.
    + unfold s', s3, marked. rewrite R2. done.
    + intros u Hu. change (task_at s3 u = task_at s u). unfold s3. by rewrite task_at_set_ne, HT.
    + by rewrite Hc.
Qed.

(** The fields written by a delay. *)
Definition delay_fields (wake : Z) (c : hr_task_control_block_t) : hr_task_control_block_t :=
  t_set_time_slice_remaining HR_CFG_TIME_SLICE_TICKS
    (t_set_wait_kind HR_TASK_WAIT_DELAY
      (t_set_wait_result HR_OK
        (t_set_wait_buffer None
          (t_set_blocked_wait_list None
            (t_set_waiting_object (Some WTimeoutList)
              (t_set_wake_tick wake (t_set_state HR_TASK_STATE_BLOCKED c))))))).

Lemma delay_current_spec s V delay Q :
  kcore T D s V b nobody -> running s t -> t <> g_idle_task -> 0 < delay < HR_WAIT_FOREVER ->
  (forall s' V' c, kcore T (delayed (TimeoutNode t) (T + delay)) s' V' b nobody ->
     pending V' g_timeout_list b =
       insert_by (delayed (TimeoutNode t) (T + delay)) (TimeoutNode t) (pending V g_timeout_list b) ->
     blocked_frame s s' t -> delay_wait s' t ->
     node_list s' (TimeoutNode t) = Some (TimeoutHalf g_timeout_list c) ->
     task_at s' t = delay_fields (u32 (T + delay)) (task_at s t) -> Q HR_OK s') ->
  wp (hr_kernel_delay_current delay) Q s.
Proof.
  intros KC RN Hni Hd K. destruct (running_facts _ _ _ _ _ _ KC RN) as (Hreg & Hrl & IW & TX).
  pose proof RN as [R1 R2 R3]. pose proof IW as [I1 I2 I3 I4 I5 I6].
  unfold hr_kernel_delay_current. wp_step. wp_step. rewrite R2.
  apply wp_if_false; [guards; unfold HR_WAIT_FOREVER in *; lia|].
  apply wp_if_false; [guards|].
  pose proof (kcore_weaken s V (eq t) KC) as KC0.
  wp_step. apply (remove_ready_spec T D s V b (kc_struct _ _ _ _ _ _ KC)); [done|].
  intros s1 V1 xs ys p _ EV1 KS1 F1. ok_simpl.
  assert (HP1 : pending V1 g_timeout_list b = pending V g_timeout_list b).
  { rewrite EV1. unfold pending. by rewrite !half_insert_other. }
  assert (KC1 := kcore_step T D s V b _ KC0 D s1 V1 t _ _ KS1 F1 ltac:(unfold node_of; auto) eq_refl ltac:(links)).
  wp_step. apply (add_timeout_spec T D s1 V1 b KS1).
  { by apply (sf_registered _ _ _ _ F1). }
  { by rewrite (sf_list _ _ _ _ F1), decide_False. }
  { rewrite (sf_owner _ _ _ _ F1). apply TX. }
  { done. }
  intros s2 V2 c KS2 HP2 _ F2. ok_simpl.
  assert (KC2 := kcore_step T D s1 V1 b _ KC1 _ s2 V2 t _ _ KS2 F2 ltac:(unfold node_of; auto) eq_refl ltac:(links)).
  assert (HT2 : forall u, task_at s2 u = task_at s u) by (intros u; by rewrite (sf_task _ _ _ _ F2), (sf_task _ _ _ _ F1)).
  assert (HG2 : glob s2 = glob s) by (by rewrite (sf_glob _ _ _ _ F2), (sf_glob _ _ _ _ F1)).
  wp_step. apply transition_spec; [rewrite HT2; apply TX|by rewrite HT2|]. ok_simpl. wp_step. wp_step.
  unfold hr_kernel_reload_time_slice.
  upd_steps. rewrite HT2. apply mark_reason_spec. wp_step.
  change (glob (set_task t _ s2)) with (glob s2). rewrite HG2, (kc_tick _ _ _ _ _ _ KC), u32_tick.
  fold (delay_fields (u32 (T + delay)) (task_at s t)).
  assert (L2 : forall n, node_list s2 n = if decide (n = TimeoutNode t) then Some (TimeoutHalf g_timeout_list c)
                else if decide (n = ReadyNode t) then None else node_list s n).
  { intros n. by rewrite (sf_list _ _ _ _ F2), (sf_list _ _ _ _ F1). }
  set (s3 := set_task t (delay_fields (u32 (T + delay)) (task_at s t)) s2).
  assert (HT3 : task_at s3 t = delay_fields (u32 (T + delay)) (task_at s t)) by apply task_at_set_eq.
  assert (DW : delay_wait s3 t).
  { split; rewrite ?HT3; try done. change (node_list s2 (WaitNode t) = None). rewrite L2. by repeat case_decide. }
  destruct (blocked_finish (delayed (TimeoutNode t) (T + delay)) s s2 V2 (delay_fields (u32 (T + delay)) (task_at s t)))
    as (KC3 & BF & HC); try done.
  - rewrite (sf_rest _ _ _ _ F2), (sf_rest _ _ _ _ F1). done.
  - intros n Hn. rewrite L2. repeat case_decide; try done; subst; destruct Hn; unfold node_of; auto.
  - rewrite L2. by repeat case_decide.
  - by rewrite L2, decide_True.
  - intros n. by rewrite (sf_owner _ _ _ _ F2), (sf_owner _ _ _ _ F1).
  - split; [|done]. change (state_ok s3 t). unfold state_ok. rewrite HT3. simpl. split; [change (node_list s2 (ReadyNode t) = None); rewrite L2; by repeat case_decide|].
    left. split; [done|]. change (is_Some (node_list s2 (TimeoutNode t))). rewrite L2, decide_True by done. eauto.
  - eapply (K _ V2 c); try done.
    + by rewrite HP2, HP1.
    + destruct DW; by split.
    + change (node_list s2 (TimeoutNode t) = Some (TimeoutHalf g_timeout_list c)). by rewrite L2, decide_True.
Qed.

(** The fields written by a wait on an object. *)
Definition wait_fields (wake : Z) (o : wait_object) (l : list_addr) (buffer : option Z)
    (cleanup : option hr_task_wait_cleanup) (kind : hr_task_wait_kind) (c : hr_task_control_block_t)
  : hr_task_control_block_t :=
  t_set_time_slice_remaining HR_CFG_TIME_SLICE_TICKS
    (t_set_wait_kind kind
      (t_set_wait_result HR_ERROR_INTERNAL
        (t_set_wait_cleanup cleanup
          (t_set_wait_buffer buffer
            (t_set_blocked_wait_list (Some l)
              (t_set_waiting_object (Some o)
                (t_set_wake_tick wake (t_set_state HR_TASK_STATE_BLOCKED c)))))))).

Lemma waits_for_kind kind o l : waits_for kind o = Some l -> object_wait kind = true /\ is_wait_list l = true.
Proof. destruct kind, o; try done; intros [= <-]; done. Qed.

(** The optional timeout of a wait. *)
Definition wait_deadline (timeout : Z) : node_addr -> Z :=
  if timeout =? HR_WAIT_FOREVER then D else delayed (TimeoutNode t) (T + timeout).

Lemma start_timeout_spec s V timeout Q :
  kcore T D s V b (eq t) -> registered s t -> node_list s (TimeoutNode t) = None ->
  0 < timeout <= UINT32_MAX ->
  (forall s' V', kcore T (wait_deadline timeout) s' V' b (eq t) ->
     (forall l, (forall d, l <> TimeoutHalf g_timeout_list d) -> V' !! l = V !! l) ->
     (exists v, step_frame s s' (TimeoutNode t) v /\ (timeout = HR_WAIT_FOREVER -> v = None) /\
        (timeout <> HR_WAIT_FOREVER -> exists c, v = Some (TimeoutHalf g_timeout_list c))) -> Q HR_OK s') ->
  wp (if timeout =? HR_WAIT_FOREVER then retM HR_OK else add_timeout t timeout) Q s.
Proof.
  intros KC Hreg Hu Hb K. pose proof (kc_fixed _ _ _ _ _ _ KC t Hreg) as TX. unfold wait_deadline in K.
  destruct (Z.eqb_spec timeout HR_WAIT_FOREVER) as [E|E].
  - wp_step. apply (K s V); [done|done|]. exists None. split; [|done]. split; try done; [by destruct s|].
    intros m. case_decide; congruence.
  - apply (add_timeout_spec T D s V b (kc_struct _ _ _ _ _ _ KC)); try done; [apply TX| |].
    { unfold HR_WAIT_FOREVER, UINT32_MAX in *. lia. }
    intros s' V' c KS' _ HV F. apply (K s' V'); [|done|eexists; split_and!; [exact F|congruence|eauto]].
    apply (kcore_step T D s V b _ KC _ s' V' t _ _ KS' F); [unfold node_of; auto|done|links].
Qed.

Lemma block_current_spec s V l o kind buffer timeout cleanup ns Q :
  kcore T D s V b nobody -> running s t -> t <> g_idle_task ->
  waits_for kind o = Some l -> V !! l = Some ns -> 0 < timeout <= UINT32_MAX ->
  (buffer_wait kind = true -> is_Some buffer) ->
  (cleanup <> None -> kind = HR_TASK_WAIT_MUTEX_LOCK) ->
  may_wait s l ->
  (forall s' V', kcore T (wait_deadline timeout) s' V' b nobody ->
     V' !! l = Some (insert_by (priority_at (ks_store s)) (WaitNode t) ns) ->
     blocked_frame s s' t -> object_waiting s' t o l ->
     (node_list s' (TimeoutNode t) = None <-> timeout = HR_WAIT_FOREVER) ->
     t_state (task_at s' t) = HR_TASK_STATE_BLOCKED -> t_wait_buffer (task_at s' t) = buffer -> Q HR_OK s') ->
  wp (hr_kernel_block_current_on_wait_list_ex (Some l) (Some o) kind buffer timeout cleanup) Q s.
Proof.
  intros KC RN Hni Hwf Hl Ht Hbuf Hcl Hsem K. destruct (running_facts _ _ _ _ _ _ KC RN) as (Hreg & Hrl & IW & TX).
  pose proof RN as [R1 R2 R3]. pose proof IW as [I1 I2 I3 I4 I5 I6].
  destruct (waits_for_kind _ _ _ Hwf) as [Hk Hlw].
  unfold hr_kernel_block_current_on_wait_list_ex. wp_step. wp_step. rewrite R2.
  apply wp_if_false.
  { guards; try (unfold HR_NO_WAIT; lia). destruct (buffer_wait kind); [right|by left].
    apply bool_decide_eq_false. destruct (Hbuf eq_refl) as [? ->]. done. }
  apply wp_if_false; [guards|].
  pose proof (kcore_weaken s V (eq t) KC) as KC0.
  wp_step. apply (remove_ready_spec T D s V b (kc_struct _ _ _ _ _ _ KC)); [done|].
  intros s1 V1 xs ys p _ EV1 KS1 F1. ok_simpl.
  assert (KC1 := kcore_step T D s V b _ KC0 D s1 V1 t _ _ KS1 F1 ltac:(unfold node_of; auto) eq_refl ltac:(links)).
  assert (Hl1 : V1 !! l = Some ns).
  { rewrite EV1, lookup_insert_ne; [done|]. intros <-. done. }
  wp_step. apply (wait_insert_spec T D s1 V1 b KS1 t l ns); try done.
  { by apply (sf_registered _ _ _ _ F1). }
  { by rewrite (sf_list _ _ _ _ F1), decide_False. }
  { rewrite (sf_owner _ _ _ _ F1). apply TX. }
  intros s2 V2 EV2 KS2 F2. ok_simpl.
  assert (KC2 := kcore_step T D s1 V1 b _ KC1 D s2 V2 t _ _ KS2 F2 ltac:(unfold node_of; auto) eq_refl).
  specialize (KC2 ltac:(intros x [= ->]; rewrite (sf_rest _ _ _ _ F1); by apply Hsem)).
  wp_step. apply (start_timeout_spec s2 V2); [done| | |done|].
  { apply (sf_registered _ _ _ _ F2); [done|]. by apply (sf_registered _ _ _ _ F1). }
  { by rewrite (sf_list _ _ _ _ F2), decide_False, (sf_list _ _ _ _ F1), decide_False. }
  intros s3 V3 KC3 HV3 (v & F3 & Hv1 & Hv2). ok_simpl.
  assert (HT3 : forall u, task_at s3 u = task_at s u).
  { intros u. by rewrite (sf_task _ _ _ _ F3), (sf_task _ _ _ _ F2), (sf_task _ _ _ _ F1). }
  wp_step. apply transition_spec; [rewrite HT3; apply TX|by rewrite HT3|]. ok_simpl. wp_step. wp_step.
  unfold hr_kernel_reload_time_slice. upd_steps. rewrite HT3. apply mark_reason_spec. wp_step.
  set (wake := if timeout =? HR_WAIT_FOREVER then 0 else _).
  fold (wait_fields wake o l buffer cleanup kind (task_at s t)).
  assert (L3 : forall n, node_list s3 n = if decide (n = TimeoutNode t) then v
                else if decide (n = WaitNode t) then Some l
                else if decide (n = ReadyNode t) then None else node_list s n).
  { intros n. by rewrite (sf_list _ _ _ _ F3), (sf_list _ _ _ _ F2), (sf_list _ _ _ _ F1). }
  set (c := wait_fields wake o l buffer cleanup kind (task_at s t)). set (s4 := set_task t c s3).
  assert (HT4 : task_at s4 t = c) by apply task_at_set_eq.
  assert (OW : object_waiting s4 t o l).
  { split; rewrite ?HT4; try done. change (node_list s3 (WaitNode t) = Some l). rewrite L3. by repeat case_decide. }
  destruct (blocked_finish (wait_deadline timeout) s s3 V3 c) as (KC4 & BF & HC); try done.
  - rewrite (sf_rest _ _ _ _ F3), (sf_rest _ _ _ _ F2), (sf_rest _ _ _ _ F1). done.
  - intros n Hn. rewrite L3. repeat case_decide; try done; subst; destruct Hn; unfold node_of; auto.
  - rewrite L3. by repeat case_decide.
  - rewrite L3, decide_True by done. intros ->. destruct (decide (timeout = HR_WAIT_FOREVER)) as [E|E];
      [by specialize (Hv1 E)|by destruct (Hv2 E) as [? [=]]].
  - intros n. by rewrite (sf_owner _ _ _ _ F3), (sf_owner _ _ _ _ F2), (sf_owner _ _ _ _ F1).
  - split; [|done]. change (state_ok s4 t). unfold state_ok. rewrite HT4. simpl.
    split; [change (node_list s3 (ReadyNode t) = None); rewrite L3; by repeat case_decide|]. right. eauto.
  - apply (K _ V3); try done.
    + rewrite HV3, EV2, lookup_insert_eq by (intros d ->; done). f_equal.
      apply (insert_by_shift _ _ 0). intros y _. rewrite (sf_priority_at _ _ _ _ F1). lia.
    + destruct OW; by split.
    + change (node_list s3 (TimeoutNode t) = None <-> timeout = HR_WAIT_FOREVER). rewrite L3, decide_True by done.
      split; [|done]. intros ->. destruct (decide (timeout = HR_WAIT_FOREVER)) as [|Hne]; [done|].
      destruct (Hv2 Hne) as [? [=]].
    + change (t_state (task_at s4 t) = HR_TASK_STATE_BLOCKED). by rewrite HT4.
    + change (t_wait_buffer (task_at s4 t) = buffer). by rewrite HT4.
Qed.
End block.
