(* ===== verification/KernelSwitch.v ===== *)
(** Suspension, resumption and the context switch: [hr_kernel_suspend_task],
    [hr_kernel_resume_task], [hr_kernel_select_next_from_pendsv]. *)
From stdpp Require Import gmap list.
From Stdlib Require Import ZArith Lia.
From S2P Require Import Prelude Types HrList HrListSpec Store Scheduler SchedulerSpec WaitList WaitListSpec Timeout TimeoutSpec KState TaskCore KernelBase KernelInv MutexPriority Kernel KernelTasks KernelSpec.
Open Scope Z_scope.
Set Warnings "-clear-no-such-hyp".

(** The rest of the state, when one task and one of its links changed. *)
Record one_task (s s' : kstate) (t : task_ptr) : Prop := {
  ot_semaphores : ks_semaphores s' = ks_semaphores s;
  ot_mutexes : ks_mutexes s' = ks_mutexes s;
  ot_current : g_current_task (glob s') = g_current_task (glob s);
  ot_kernel : g_kernel_state (glob s') = g_kernel_state (glob s);
  ot_timers : g_timer_system_initialized (glob s') = g_timer_system_initialized (glob s);
  ot_task : forall u, u <> t -> task_at s' u = task_at s u;
  ot_list : forall n, n <> ReadyNode t -> node_list s' n = node_list s n;
}.

Lemma waiting_frame s s' t :
  t_wait_kind (task_at s' t) = t_wait_kind (task_at s t) ->
  t_waiting_object (task_at s' t) = t_waiting_object (task_at s t) ->
  t_blocked_wait_list (task_at s' t) = t_blocked_wait_list (task_at s t) ->
  t_wait_cleanup (task_at s' t) = t_wait_cleanup (task_at s t) ->
  t_wait_buffer (task_at s' t) = t_wait_buffer (task_at s t) ->
  node_list s' (WaitNode t) = node_list s (WaitNode t) ->
  node_list s' (TimeoutNode t) = node_list s (TimeoutNode t) ->
  (waiting s t -> waiting s' t) /\ (idle_wait s t -> idle_wait s' t).
Proof.
  intros E1 E2 E3 E4 E5 E6 E7. split.
  - intros [[[] ?]|(o & l & [])]; [left|right; exists o, l].
    + split; [split|]; congruence.
    + split; rewrite ?E1, ?E2, ?E3, ?E4, ?E5, ?E6; done.
  - intros []. split; congruence.
Qed.

Lemma node_list_set_task t c s n : node_list (set_task t c s) n = node_list s n.
Proof. done. Qed.

Section suspend.
Context `{Config} (T : Z) (D : node_addr -> Z) (b : phase) (t : task_ptr).

(** Writing the control block of a task, with the invariant of that task re-established. *)
Lemma set_task_spec s V c :
  kcore T D s V b (eq t) ->
  t_magic c = t_magic (task_at s t) -> t_effective_priority c = t_effective_priority (task_at s t) ->
  t_base_priority c = t_base_priority (task_at s t) -> t_owned_mutex_count c = t_owned_mutex_count (task_at s t) ->
  task_ok (set_task t c s) t -> kcore T D (set_task t c s) V b nobody.
Proof. intros. apply (kcore_close _ _ _ _ _ t); [|done]. by apply kcore_set_task. Qed.

(** The wait fields of two control blocks agree. *)
Definition same_wait (c c' : hr_task_control_block_t) : Prop :=
  t_wait_kind c = t_wait_kind c' /\ t_waiting_object c = t_waiting_object c' /\
  t_blocked_wait_list c = t_blocked_wait_list c' /\ t_wait_cleanup c = t_wait_cleanup c' /\
  t_wait_buffer c = t_wait_buffer c'.

Lemma same_wait_frame s s' : same_wait (task_at s' t) (task_at s t) ->
  (forall n, n <> ReadyNode t -> node_list s' n = node_list s n) ->
  (waiting s t -> waiting s' t) /\ (idle_wait s t -> idle_wait s' t).
Proof. intros (? & ? & ? & ? & ?) L. apply waiting_frame; try done; by apply L. Qed.

Lemma one_task_frame s s1 v c : step_frame s s1 (ReadyNode t) v -> one_task s (set_task t c s1) t.
Proof.
  intros F. split; try (by rewrite (sf_rest _ _ _ _ F)).
  - intros u Hu. by rewrite task_at_set_ne, (sf_task _ _ _ _ F).
  - intros n Hn. by rewrite node_list_set_task, (sf_list _ _ _ _ F), decide_False.
Qed.

Lemma one_task_marked s s1 r : one_task s s1 t -> one_task s (marked r s1) t.
Proof. intros []. by split. Qed.

Lemma step_refl s n : step_frame s s n (node_list s n).
Proof. split; try done; [by destruct s|]. intros m. case_decide; congruence. Qed.

Definition suspendable (st : hr_task_state) : bool :=
  match st with HR_TASK_STATE_READY | HR_TASK_STATE_RUNNING | HR_TASK_STATE_BLOCKED => true | _ => false end.

Lemma suspended_ok s s1 c :
  step_frame s s1 (ReadyNode t) None -> t <> g_idle_task -> same_wait c (task_at s t) ->
  t_state c = HR_TASK_STATE_SUSPENDED ->
  match t_suspended_resume_state c with
  | HR_TASK_STATE_READY => idle_wait s t
  | HR_TASK_STATE_BLOCKED => waiting s t
  | _ => False
  end -> task_ok (set_task t c s1) t.
Proof.
  intros F Hni SW Hst Hr. split; [|done]. unfold state_ok. rewrite task_at_set_eq, Hst, node_list_set_task.
  destruct (same_wait_frame s (set_task t c s1)) as [HW HI].
  { by rewrite task_at_set_eq. }
  { intros n Hn. by rewrite node_list_set_task, (sf_list _ _ _ _ F), decide_False. }
  split; [by rewrite (sf_list _ _ _ _ F), decide_True|]. destruct (t_suspended_resume_state c); auto.
Qed.

Lemma suspend_spec s V Q :
  kcore T D s V b nobody -> g_kernel_state (glob s) = HR_KERNEL_STATE_RUNNING ->
  registered s t -> t <> g_idle_task ->
  (suspendable (t_state (task_at s t)) = false -> Q (HR_ERROR_INVALID_STATE, false) s) ->
  (forall s' V' r, kcore T D s' V' b nobody -> suspendable (t_state (task_at s t)) = true ->
     t_state (task_at s' t) = HR_TASK_STATE_SUSPENDED ->
     t_suspended_resume_state (task_at s' t) =
       (if bool_decide (t_state (task_at s t) = HR_TASK_STATE_BLOCKED)
        then HR_TASK_STATE_BLOCKED else HR_TASK_STATE_READY) ->
     r = bool_decide (t_state (task_at s t) = HR_TASK_STATE_RUNNING) ->
     one_task s s' t -> Q (HR_OK, r) s') ->
  wp (hr_kernel_suspend_task (Some t)) Q s.
Proof.
  intros KC RK Hreg Hni K0 K. pose proof (kc_fixed _ _ _ _ _ _ KC t Hreg) as TX.
  pose proof (to_state _ _ (kc_tasks _ _ _ _ _ _ KC t Hreg ltac:(intros []))) as Hok. unfold state_ok in Hok.
  unfold hr_kernel_suspend_task. wp_step. wp_step. apply wp_if_false.
  { guards. by apply valid_task, TX. }
  pose proof (kcore_weaken T D b s V (eq t) KC) as KC0.
  destruct (t_state (task_at s t)) eqn:Est; try (wp_step; by apply K0).
  - (* READY *)
    destruct Hok as [Hrl IW]. rewrite linked_true by done. cbn [negb]. wp_step.
    apply (remove_ready_spec T D s V b (kc_struct _ _ _ _ _ _ KC)); [done|]. intros s1 V1 xs ys p _ _ KS1 F1. ok_simpl.
    pose proof (sf_task _ _ _ _ F1) as HT.
    assert (KC1 := kcore_step T D s V b _ KC0 D s1 V1 t _ _ KS1 F1 ltac:(unfold node_of; auto) eq_refl ltac:(links)).
    wp_step. apply transition_spec; [rewrite HT; apply TX|by rewrite HT|]. ok_simpl. upd_steps. wp_step. rewrite HT.
    apply (K _ V1); try done; try (by rewrite task_at_set_eq); [|by eapply one_task_frame].
    apply set_task_spec; try done; [by rewrite HT..|]. by eapply suspended_ok.
  - (* RUNNING *)
    destruct Hok as (Hrl & IW & Hc). apply wp_if_false; [guards|]. wp_step.
    apply (remove_ready_spec T D s V b (kc_struct _ _ _ _ _ _ KC)); [done|]. intros s1 V1 xs ys p _ _ KS1 F1. ok_simpl.
    pose proof (sf_task _ _ _ _ F1) as HT.
    assert (KC1 := kcore_step T D s V b _ KC0 D s1 V1 t _ _ KS1 F1 ltac:(unfold node_of; auto) eq_refl ltac:(links)).
    wp_step. apply transition_spec; [rewrite HT; apply TX|by rewrite HT|]. ok_simpl.
    unfold hr_kernel_reload_time_slice. upd_steps. apply mark_reason_spec. wp_step. rewrite HT.
    set (c := t_set_time_slice_remaining _ _).
    assert (HT2 : task_at (marked HR_SWITCH_REASON_BLOCK (set_task t c s1)) t = c) by apply task_at_set_eq.
    apply (K _ V1); try done; rewrite ?HT2; try done.
    + apply kcore_globals; [|by intros g]. apply set_task_spec; try done; [by rewrite HT..|]. by eapply suspended_ok.
    + by eapply one_task_marked, one_task_frame.
  - (* BLOCKED *)
    destruct Hok as [Hrl HW]. apply wp_if_false.
    { guards; apply bool_decide_eq_false; destruct HW as [[[]]|(o & l & [])]; congruence || idtac.
      intros E. rewrite E in ow_target. by destruct o. }
    wp_step. apply transition_spec; [apply TX|done|]. ok_simpl. upd_steps. wp_step.
    assert (F : step_frame s s (ReadyNode t) None) by (rewrite <- Hrl; apply step_refl).
    apply (K _ V); try done; try (by rewrite task_at_set_eq); [|by eapply one_task_frame].
    apply set_task_spec; try done. by eapply suspended_ok.
Qed.

(** Whether a task that became ready preempts the running one. *)
Definition resume_preempts (s : kstate) : bool := HR_CFG_PREEMPTION && woken_preempts s t.

Lemma resumed_ok s s1 v c :
  step_frame s s1 (ReadyNode t) v -> t <> g_idle_task -> same_wait c (task_at s t) ->
  (t_state c = HR_TASK_STATE_READY /\ is_Some v /\ idle_wait s t \/
   t_state c = HR_TASK_STATE_BLOCKED /\ v = None /\ waiting s t) -> task_ok (set_task t c s1) t.
Proof.
  intros F Hni SW Hc. split; [|done]. unfold state_ok. rewrite task_at_set_eq, node_list_set_task.
  destruct (same_wait_frame s (set_task t c s1)) as [HW HI].
  { by rewrite task_at_set_eq. }
  { intros n Hn. by rewrite node_list_set_task, (sf_list _ _ _ _ F), decide_False. }
  rewrite (sf_list _ _ _ _ F), decide_True by done. destruct Hc as [(-> & ? & ?)|(-> & ? & ?)]; auto.
Qed.

Lemma resume_spec s V Q :
  kcore T D s V b nobody -> g_kernel_state (glob s) = HR_KERNEL_STATE_RUNNING ->
  registered s t -> t <> g_idle_task ->
  (t_state (task_at s t) <> HR_TASK_STATE_SUSPENDED -> Q (HR_ERROR_INVALID_STATE, false) s) ->
  (forall s' V' r, kcore T D s' V' b nobody -> t_state (task_at s t) = HR_TASK_STATE_SUSPENDED ->
     t_state (task_at s' t) = t_suspended_resume_state (task_at s t) ->
     r = (bool_decide (t_state (task_at s' t) = HR_TASK_STATE_READY) && resume_preempts s') ->
     one_task s s' t -> Q (HR_OK, r) s') ->
  wp (hr_kernel_resume_task (Some t)) Q s.
Proof.
  intros KC RK Hreg Hni K0 K. pose proof (kc_fixed _ _ _ _ _ _ KC t Hreg) as TX.
  pose proof (to_state _ _ (kc_tasks _ _ _ _ _ _ KC t Hreg ltac:(intros []))) as Hok. unfold state_ok in Hok.
  unfold hr_kernel_resume_task. wp_step. wp_step. apply wp_if_false.
  { guards. by apply valid_task, TX. }
  pose proof (kcore_weaken T D b s V (eq t) KC) as KC0.
  destruct (decide (t_state (task_at s t) = HR_TASK_STATE_SUSPENDED)) as [Est|Est].
  2: { rewrite bool_decide_true by done. wp_step. by apply K0. }
  rewrite bool_decide_false by tauto. rewrite Est in Hok. destruct Hok as [Hrl Hok].
  destruct (t_suspended_resume_state (task_at s t)) eqn:Er; try done.
  - (* READY *)
    wp_step. apply (add_ready_spec T D s V b (kc_struct _ _ _ _ _ _ KC)); [done|done|apply TX|].
    intros s1 V1 p _ KS1 F1. ok_simpl. pose proof (sf_task _ _ _ _ F1) as HT.
    assert (KC1 := kcore_step T D s V b _ KC0 D s1 V1 t _ _ KS1 F1 ltac:(unfold node_of; auto) eq_refl ltac:(links)).
    wp_step. apply transition_spec; [rewrite HT; apply TX|by rewrite HT|]. ok_simpl.
    unfold hr_kernel_reload_time_slice. upd_steps. wp_step. rewrite HT.
    set (c := t_set_time_slice_remaining _ _). set (s2 := set_task t c s1).
    assert (HT2 : task_at s2 t = c) by apply task_at_set_eq.
    assert (KC2 : kcore T D s2 V1 b nobody).
    { apply set_task_spec; try done; [by rewrite HT..|]. eapply resumed_ok; [done|done|done|]. left. split_and!; [done|eauto|done]. }
    assert (OT : one_task s s2 t) by (by eapply one_task_frame).
    assert (ER : resume_preempts s2 = match g_current_task (glob s2) with
       | Some c0 => hr_task_is_valid s2 (Some c0) && HR_CFG_PREEMPTION &&
                    bool_decide (t_state (task_at s2 c0) = HR_TASK_STATE_RUNNING) &&
                    (t_effective_priority (task_at s2 t) <? t_effective_priority (task_at s2 c0))
       | None => false end).
    { unfold resume_preempts, woken_preempts. destruct (g_current_task (glob s2)) as [c0|];
        [|by rewrite andb_false_r]. by destruct HR_CFG_PREEMPTION, (hr_task_is_valid s2 (Some c0)). }
    destruct (g_current_task (glob s2)) as [c0|].
    + destruct (hr_task_is_valid s2 (Some c0) && _ && _ && _).
      * wp_step. apply mark_reason_spec. wp_step. apply (K _ V1); try done.
        -- apply kcore_globals; [done|by intros g].
        -- change (t_state (task_at s2 t) = HR_TASK_STATE_READY). by rewrite HT2.
        -- change (true = bool_decide (t_state (task_at s2 t) = HR_TASK_STATE_READY) && resume_preempts s2).
           by rewrite ER, HT2.
        -- by apply one_task_marked.
      * wp_step. apply (K _ V1); try done; rewrite ?HT2; [done|by rewrite ER].
    + wp_step. apply (K _ V1); try done; rewrite ?HT2; [done|by rewrite ER].
  - (* BLOCKED *)
    wp_step. apply transition_spec; [apply TX|done|]. ok_simpl. upd_steps. wp_step.
    assert (F : step_frame s s (ReadyNode t) None) by (rewrite <- Hrl; apply step_refl).
    apply (K _ V); try done; rewrite ?task_at_set_eq; try done; [|by eapply one_task_frame].
    apply set_task_spec; try done. eapply resumed_ok; [done|done|done|]. right. done.
Qed.
End suspend.

(** ** The context switch *)

(** A ready task that the scheduler could select. *)
Lemma ready_member_of T D s V b u : kstruct T D s V b -> is_Some (node_list s (ReadyNode u)) ->
  ReadyNode u ∈ ready_seq V g_scheduler.
Proof.
  intros KS [l Hl]. destruct (ready_linked_at T D s V b KS u l Hl) as (_ & Hr & _ & _ & xs & ys & Hq).
  apply ready_seq_elem. exists (t_effective_priority (task_at s u)). split; [done|]. rewrite Hq.
  apply elem_of_app. right. by apply elem_of_cons; left.
Qed.

(** The selected node: the head of the ready sequence. *)
Lemma select_spec T D s V b X : kcore T D s V b X -> is_Some (node_list s (ReadyNode g_idle_task)) ->
  exists n, select_highest s = Some (ReadyNode n) /\ head (ready_seq V g_scheduler) = Some (ReadyNode n) /\
    registered s n /\ is_Some (node_list s (ReadyNode n)) /\ node_owner s (ReadyNode n) = Some (PTask n) /\
    forall u, is_Some (node_list s (ReadyNode u)) ->
      t_effective_priority (task_at s n) <= t_effective_priority (task_at s u).
Proof.
  intros KC Hidle. pose proof (kc_struct _ _ _ _ _ _ KC) as KS.
  pose proof (peek_highest_spec (ks_store s) V g_scheduler (kt_ready _ _ _ _ _ KS) (kt_rep _ _ _ _ _ KS)) as HP.
  pose proof (ready_member_of _ _ _ _ _ _ KS Hidle) as Hin.
  destruct (ready_seq V g_scheduler) as [|m ms] eqn:E; [by apply elem_of_nil in Hin|].
  assert (Hm : m ∈ ready_seq V g_scheduler) by (rewrite E; by apply elem_of_cons; left).
  assert (Hlm : exists p, node_list s m = Some (ReadyQueue g_scheduler p)).
  { apply ready_seq_elem in Hm as (p & _ & Hm). exists p. by eapply ready_member. }
  destruct Hlm as [p Hlm]. pose proof (kt_fits _ _ _ _ _ KS _ _ Hlm) as Hf. destruct m as [n| | | | | |]; try done.
  assert (Hreg : registered s n) by (by eapply (kt_registered _ _ _ _ _ KS)).
  exists n. split_and!; [exact HP|done|done|eauto|by eapply (kc_fixed _ _ _ _ _ _ KC)|].
  intros u Hu. assert (Hru : registered s u).
  { destruct Hu as [l Hl]. by eapply (kt_registered _ _ _ _ _ KS). }
  destruct (kt_prio _ _ _ _ _ KS n Hreg) as (<- & _), (kt_prio _ _ _ _ _ KS u Hru) as (<- & _).
  apply (ready_seq_min (ks_store s) V g_scheduler (kt_ready _ _ _ _ _ KS) (kt_rep _ _ _ _ _ KS)); [by rewrite E|]. by eapply ready_member_of.
Qed.

(** Rotating the queue of the selected level. *)
Lemma yield_current_spec T D s V b X t Q :
  kcore T D s V b X -> select_highest s = Some (ReadyNode t) ->
  (forall s' p, 0 <= p < HR_CFG_PRIORITY_COUNT -> p = t_effective_priority (task_at s t) ->
     kcore T D s' (<[ReadyQueue g_scheduler p := rotated (queue V g_scheduler p)]> V) b X ->
     step_frame s s' (ReadyNode t) (node_list s (ReadyNode t)) -> Q HR_OK s') ->
  wp (lift (hr_scheduler_yield_current (Some g_scheduler) (Some (ReadyNode t)))) Q s.
Proof.
  intros KC Hsel K. pose proof (kc_struct _ _ _ _ _ _ KC) as KS. wp_step. unfold hr_scheduler_yield_current.
  wp_step. wp_step. unfold select_highest in Hsel. simpl. rewrite bool_neq_false by done.
  assert (Hne : ready_seq V g_scheduler <> []).
  { pose proof (peek_highest_spec (ks_store s) V g_scheduler (kt_ready _ _ _ _ _ KS) (kt_rep _ _ _ _ _ KS)) as HP.
    unfold hr_scheduler_select_highest in Hsel. intros E. rewrite E in HP. by rewrite HP in Hsel. }
  apply (rotate_spec (ks_store s) V g_scheduler _ (kt_rep _ _ _ _ _ KS) (kt_ready _ _ _ _ _ KS) Hne).
  intros st Rep RR HL HO Hst. set (r := hr_ready_set_highest_priority (ks_store s) g_scheduler) in *.
  destruct (highest_spec (ks_store s) V g_scheduler (kt_ready _ _ _ _ _ KS) Hne) as (Hr & Hq & Hlow). fold r in Hr, Hq, Hlow.
  assert (Hh : head (queue V g_scheduler r) = Some (ReadyNode t)).
  { rewrite <- (ready_seq_head_level V g_scheduler r Hr Hq Hlow).
    rewrite <- (peek_highest_spec (ks_store s) V g_scheduler (kt_ready _ _ _ _ _ KS) (kt_rep _ _ _ _ _ KS)). exact Hsel. }
  assert (Hn : node_list s (ReadyNode t) = Some (ReadyQueue g_scheduler r)).
  { apply (ready_member _ _ _ _ _ KS). by apply head_Some_elem_of. }
  destruct (ready_linked_at T D s V b KS t _ Hn) as (Er & _ & Hreg & _). injection Er as Er.
  assert (F : step_frame s (ks_set_store st s) (ReadyNode t) (node_list s (ReadyNode t))).
  { split; try done.
    - intros m. unfold node_list; simpl. rewrite HL. case_decide; congruence.
    - intros m. unfold node_owner, hr_list_node_owner; simpl. apply HO.
    - simpl. by rewrite Hst. }
  apply (K (ks_set_store st s) r Hr Er); [|done].
  assert (KS' : kstruct T D (ks_set_store st s) (<[ReadyQueue g_scheduler r := rotated (queue V g_scheduler r)]> V) b).
  { rewrite Hn in F.
    apply (kstruct_ready_step T D s V b KS st r _ (ReadyNode t) (Some (ReadyQueue g_scheduler r))); try done.
    - left. split; [done|]. by apply (kt_owner _ _ _ _ _ KS _ _ Hn).
    - by intros u [= <-].
    - rewrite Hst. split; try done. split; simpl; [|done]. intros p. rewrite HL. case_decide as E; [|done]. subst p. exact Hn. }
  destruct KC as [K1 K2 K3 K4 K5 K6]. pose proof (fun u => sf_registered _ _ _ _ F u ltac:(done)) as Hregs.
  assert (HLs : forall n, node_list (ks_set_store st s) n = node_list s n).
  { intros m. rewrite (sf_list _ _ _ _ F). case_decide; congruence. }
  split; try done.
  - destruct K3 as [? Hg]. split; [by apply Hregs|]. simpl. unfold glob in *; simpl.
    destruct (g_kernel_state (ks_globals s)); try done. destruct Hg as (c & ? & ? & ?). exists c. by rewrite Hregs.
  - intros u Hu. destruct (K4 u (proj1 (Hregs u) Hu)). split; rewrite ?(sf_owner _ _ _ _ F); done.
  - intros u Hu HX. apply (task_ok_frame s); [done|by intros; apply HLs|done|]. apply K5; [by apply Hregs|done].
  - apply (objects_same s); try done. intros m _. apply (sf_owner _ _ _ _ F).
Qed.

(** Making another task the current one: no task outside [X] is running. *)
Lemma kcore_set_current T D s V b X n :
  kcore T D s V b X -> g_kernel_state (glob s) = HR_KERNEL_STATE_RUNNING -> registered s n ->
  (forall u, registered s u -> ~ X u -> t_state (task_at s u) <> HR_TASK_STATE_RUNNING) ->
  kcore T D (ks_set_globals (g_set_hr_current_task_control_block (Some n)
               (g_set_current_task (Some n) (ks_globals s))) s) V b X.
Proof.
  intros [K1 K2 K3 K4 K5 K6] HK Hn HX. split; try done.
  - by apply (kstruct_ext T D s).
  - destruct K3 as [? _]. split; [done|]. simpl. unfold glob in *. simpl. rewrite HK. eauto.
  - intros u Hu. by destruct (K4 u Hu).
  - intros u Hu HXu. apply (task_ok_frame s); try done; [|by apply K5]. intros E. by destruct (HX u Hu HXu).
  - by apply (objects_same s).
Qed.

Section pendsv.
Context `{Config} (T : Z) (D : node_addr -> Z) (b : phase).

Lemma ready_task_state s V X u : kcore T D s V b X -> registered s u -> ~ X u ->
  is_Some (node_list s (ReadyNode u)) ->
  (t_state (task_at s u) = HR_TASK_STATE_READY \/
   t_state (task_at s u) = HR_TASK_STATE_RUNNING /\ g_current_task (glob s) = Some u) /\ idle_wait s u.
Proof.
  intros KC Hu HX [l Hl]. pose proof (to_state _ _ (kc_tasks _ _ _ _ _ _ KC u Hu HX)) as Hs. unfold state_ok in Hs.
  destruct (t_state (task_at s u)); try done.
  - destruct Hs; auto.
  - destruct Hs as (? & ? & ?); auto.
  - destruct Hs. congruence.
  - destruct Hs. congruence.
Qed.

Lemma idle_ready s V : kcore T D s V b nobody -> is_Some (node_list s (ReadyNode g_idle_task)).
Proof.
  intros KC. destruct (kc_globals _ _ _ _ _ _ KC) as [Hi _].
  by apply (to_idle _ _ (kc_tasks _ _ _ _ _ _ KC _ Hi ltac:(intros []))).
Qed.

(** Setting the state of a ready task. *)
Lemma kcore_ready_state s V t st :
  kcore T D s V b (eq t) -> registered s t -> is_Some (node_list s (ReadyNode t)) -> idle_wait s t ->
  (st = HR_TASK_STATE_READY \/ st = HR_TASK_STATE_RUNNING /\ g_current_task (glob s) = Some t) ->
  kcore T D (set_task t (t_set_state st (task_at s t)) s) V b nobody.
Proof.
  intros KC Hreg Hrl IW Hst. apply set_task_spec; try done. split; [|by intros]. unfold state_ok.
  rewrite task_at_set_eq, node_list_set_task. simpl.
  assert (idle_wait (set_task t (t_set_state st (task_at s t)) s) t).
  { destruct IW; split; rewrite ?task_at_set_eq; done. }
  by destruct Hst as [-> |[-> ?]].
Qed.

(** Writing accounting fields only. *)
Definition cosmetic (c c' : hr_task_control_block_t) : Prop :=
  t_state c = t_state c' /\ t_suspended_resume_state c = t_suspended_resume_state c' /\ same_wait c c' /\
  t_magic c = t_magic c' /\ t_effective_priority c = t_effective_priority c' /\
  t_base_priority c = t_base_priority c' /\ t_owned_mutex_count c = t_owned_mutex_count c'.

Lemma kcore_cosmetic s V X t c :
  kcore T D s V b X -> cosmetic c (task_at s t) -> kcore T D (set_task t c s) V b X.
Proof.
  intros KC (C1 & C2 & C3 & C4 & C5 & C6 & C7).
  pose proof (kcore_open T D s V b X (fun u => X u \/ u = t) KC (fun u => @or_introl _ _)) as KC1.
  apply (kcore_set_task T D s V b _ KC1 t c (or_intror eq_refl) C4 C5 C6) in C7.
  destruct C7 as [K1 K2 K3 K4 K5 K6]. split; try done.
  intros u Hu HX. destruct (decide (u = t)) as [->|Hne]; [|apply K5; tauto].
  destruct (kc_tasks _ _ _ _ _ _ KC t Hu HX) as [Hs Hi]. split; [|done].
  destruct (same_wait_frame t s (set_task t c s)) as [HW HI]; [by rewrite task_at_set_eq|done|].
  unfold state_ok in *. rewrite task_at_set_eq, C1, C2, node_list_set_task.
  destruct (t_state (task_at s t)); try done.
  - destruct Hs; auto.
  - destruct Hs as (? & ? & ?); auto.
  - destruct Hs; auto.
  - destruct Hs as [? Hr]. split; [done|]. destruct (t_suspended_resume_state (task_at s t)); auto.
Qed.

(** The first half: the rotation a yield or the end of a slice asks for. *)
Definition rotates (s : kstate) (t : task_ptr) (reasons : Z) : bool :=
  bool_decide (select_highest s = Some (ReadyNode t)) &&
  negb (Z.land reasons (Z.lor HR_SWITCH_REASON_YIELD HR_SWITCH_REASON_TIME_SLICE) =? 0).

Lemma select_rotation_spec s V t reasons Q :
  kcore T D s V b nobody -> registered s t ->
  (forall s' V', kcore T D s' V' b nobody -> glob s' = glob s ->
     (forall u, t_state (task_at s' u) = t_state (task_at s u)) ->
     (forall n, node_list s' n = node_list s n) -> (forall n, node_owner s' n = node_owner s n) ->
     V' = (if rotates s t reasons
           then let p := t_effective_priority (task_at s t) in
                <[ReadyQueue g_scheduler p := rotated (queue V g_scheduler p)]> V
           else V) -> Q true s') ->
  wp (select_rotation t reasons) Q s.
Proof.
  intros KC Hreg K. unfold select_rotation. wp_step. wp_step.
  destruct (select_spec T D s V b nobody KC (idle_ready s V KC)) as (n & Hsel & _ & Hn & Hnl & Ho & _).
  rewrite Hsel, Ho.
  assert (EB : bool_decide (Some (PTask n) = Some (PTask t)) = bool_decide (select_highest s = Some (ReadyNode t))).
  { rewrite Hsel. apply bool_decide_ext. split; congruence. }
  rewrite EB. fold (rotates s t reasons). destruct (rotates s t reasons) eqn:Eg.
  2: { wp_step. by apply (K s V). }
  apply andb_true_iff in Eg as [Es%bool_decide_eq_true _].
  apply wp_bind, (wp_mono _ (fun _ s1 => kcore T D s1 V b nobody /\ ks_store s1 = ks_store s /\ glob s1 = glob s /\
    forall u, t_state (task_at s1 u) = t_state (task_at s u) /\
      t_effective_priority (task_at s1 u) = t_effective_priority (task_at s u))).
  { destruct (negb (Z.land reasons HR_SWITCH_REASON_YIELD =? 0)); [|wp_step; auto].
    apply wp_upd_task. split_and!; try done.
    - by apply kcore_cosmetic.
    - intros u. rewrite !task_at_set_task. destruct (decide (t = u)) as [<-|]; done. }
  intros [] s1 (KC1 & S1 & G1 & T1). wp_step.
  apply (yield_current_spec T D s1 V b nobody t _ KC1); [unfold select_highest in *; by rewrite S1|].
  intros s2 p Hp Ep KC2 F2. ok_simpl. wp_step. rewrite (proj2 (T1 t)) in Ep. subst p. apply (K s2 _ KC2).
  - by rewrite (sf_glob _ _ _ _ F2).
  - intros u. rewrite (sf_task _ _ _ _ F2). apply T1.
  - assert (L1 : forall m, node_list s1 m = node_list s m) by (intros m; unfold node_list; by rewrite S1).
    intros m. rewrite (sf_list _ _ _ _ F2), !L1. destruct (decide (m = ReadyNode t)) as [->|]; done.
  - intros m. rewrite (sf_owner _ _ _ _ F2). unfold node_owner. by rewrite S1.
  - done.
Qed.

(** The second half: the states of the outgoing and the incoming task. *)
Definition switched (n : task_ptr) (s : kstate) : kstate :=
  ks_set_globals (g_set_hr_current_task_control_block (Some n)
    (g_set_current_task (Some n) (ks_globals s))) s.

Lemma kcore_enter s V n :
  kcore T D s V b nobody -> g_kernel_state (glob s) = HR_KERNEL_STATE_RUNNING -> registered s n ->
  is_Some (node_list s (ReadyNode n)) -> idle_wait s n ->
  (forall u, registered s u -> u <> n -> t_state (task_at s u) <> HR_TASK_STATE_RUNNING) ->
  kcore T D (switched n (set_task n (t_set_state HR_TASK_STATE_RUNNING (task_at s n)) s)) V b nobody.
Proof.
  intros KC RK Hn Hrl IW Hrun. pose proof (kcore_weaken T D b s V (eq n) KC) as KC1.
  apply kcore_set_current with (n := n) in KC1; try done.
  2: { intros u Hu Hne. apply Hrun; [done|]. by intros ->. }
  eapply kcore_ready_state in KC1; try done; [exact KC1| |by right]. by destruct IW.
Qed.

Lemma switched_same s n :
  g_current_task (glob s) = Some n -> g_hr_current_task_control_block (glob s) = Some n -> switched n s = s.
Proof. unfold switched, glob. destruct s as [? ? ? ? ? ? [] ?]; simpl. by intros -> ->. Qed.

Record switch_frame (s s' : kstate) (n : task_ptr) : Prop := {
  wf_rest : s' = ks_set_tasks (ks_tasks s') s;
  wf_next : t_state (task_at s' n) = HR_TASK_STATE_RUNNING;
  wf_state : forall u, registered s u -> u <> n -> t_state (task_at s' u) =
        if bool_decide (t_state (task_at s u) = HR_TASK_STATE_RUNNING) then HR_TASK_STATE_READY
        else t_state (task_at s u);
  wf_priority : forall u, t_effective_priority (task_at s' u) = t_effective_priority (task_at s u);
}.

(** Only the current task runs. *)
Lemma running_is_current s V u : kcore T D s V b nobody -> registered s u ->
  t_state (task_at s u) = HR_TASK_STATE_RUNNING -> g_current_task (glob s) = Some u.
Proof.
  intros KC Hu Eu. pose proof (to_state _ _ (kc_tasks _ _ _ _ _ _ KC u Hu ltac:(intros []))) as Hs.
  unfold state_ok in Hs. rewrite Eu in Hs. by destruct Hs as (_ & _ & Hc).
Qed.

Lemma set_state_priority s t st u :
  t_effective_priority (task_at (set_task t (t_set_state st (task_at s t)) s) u) = t_effective_priority (task_at s u).
Proof. rewrite task_at_set_task. destruct (decide (t = u)) as [<-|]; done. Qed.

(** Entering a task when no other runs. *)
Lemma switch_frame_enter s n :
  (forall u, registered s u -> u <> n -> t_state (task_at s u) <> HR_TASK_STATE_RUNNING) ->
  switch_frame s (set_task n (t_set_state HR_TASK_STATE_RUNNING (task_at s n)) s) n.
Proof.
  intros Hrun. split; [done|by rewrite task_at_set_eq| |intros; apply set_state_priority].
  intros u Hu Hne. rewrite task_at_set_ne, bool_decide_false by auto. done.
Qed.

Lemma switch_states_spec s V cur n Q :
  kcore T D s V b nobody -> g_kernel_state (glob s) = HR_KERNEL_STATE_RUNNING ->
  g_current_task (glob s) = Some cur -> registered s cur -> registered s n ->
  is_Some (node_list s (ReadyNode n)) ->
  (forall s', kcore T D (switched n s') V b nobody -> switch_frame s s' n -> Q true s') ->
  wp (switch_states cur n) Q s.
Proof.
  intros KC RK HC Hcur Hn Hrl K. unfold switch_states. wp_step. wp_step.
  pose proof (tx_magic _ _ (kc_fixed _ _ _ _ _ _ KC n Hn)) as Mn.
  pose proof (tx_magic _ _ (kc_fixed _ _ _ _ _ _ KC cur Hcur)) as Mc.
  destruct (ready_task_state s V nobody n KC Hn ltac:(intros []) Hrl) as [Hst IW].
  assert (Hrun : forall u, registered s u -> u <> cur -> t_state (task_at s u) <> HR_TASK_STATE_RUNNING).
  { intros u Hu Hne Eu. pose proof (running_is_current s V u KC Hu Eu). congruence. }
  destruct (decide (n = cur)) as [->|Hne].
  - rewrite bool_decide_false by tauto. destruct Hst as [Est|[Est _]]; rewrite Est.
    + rewrite bool_decide_true by done. wp_step. apply transition_spec; try done. ok_simpl. wp_step.
      apply K; [by apply kcore_enter|by apply switch_frame_enter].
    + rewrite bool_decide_false by done. wp_step. apply K.
      * destruct (kc_globals _ _ _ _ _ _ KC) as [_ Hg]. rewrite RK in Hg. destruct Hg as (c & E & Eh & _).
        rewrite switched_same; congruence.
      * split; try done; [by destruct s|]. intros u Hu Hne. rewrite bool_decide_false by auto. done.
  - rewrite bool_decide_true by done. destruct Hst as [Est|[Est ?]]; [|by destruct (Hrun n)].
    rewrite bool_decide_false by tauto. destruct (decide (t_state (task_at s cur) = HR_TASK_STATE_RUNNING)) as [Ec|Ec].
    + rewrite bool_decide_true by done. wp_step. wp_step. apply transition_spec; try done. wp_step. ok_simpl. wp_step.
      set (s1 := set_task cur _ s).
      assert (KC1 : kcore T D s1 V b nobody).
      { pose proof (to_state _ _ (kc_tasks _ _ _ _ _ _ KC cur Hcur ltac:(intros []))) as Hs. unfold state_ok in Hs.
        rewrite Ec in Hs. destruct Hs as (? & ? & _). apply kcore_ready_state; auto. by apply kcore_weaken. }
      assert (En : task_at s1 n = task_at s n) by (apply task_at_set_ne; congruence).
      assert (Hrun1 : forall u, registered s u -> t_state (task_at s1 u) <> HR_TASK_STATE_RUNNING).
      { intros u Hu. destruct (decide (cur = u)) as [<-|]; unfold s1;
          [by rewrite task_at_set_eq|rewrite task_at_set_ne by done; auto]. }
      apply transition_spec; [by rewrite En|by rewrite En|]. ok_simpl. wp_step. apply K.
      * apply kcore_enter; try done; [|by intros; apply Hrun1]. destruct IW; split; rewrite ?En; done.
      * destruct (switch_frame_enter s1 n) as [W1 W2 W3 W4]; [by intros; apply Hrun1|]. split; try done.
        -- intros u Hu Hun. rewrite W3, bool_decide_false by auto. unfold s1.
           destruct (decide (cur = u)) as [<-|]; [by rewrite task_at_set_eq, bool_decide_true|].
           rewrite task_at_set_ne, bool_decide_false by auto. done.
        -- intros u. rewrite W4. apply set_state_priority.
    + rewrite bool_decide_false by done. wp_step. wp_step. cbn [negb]. wp_step. apply transition_spec; try done. ok_simpl. wp_step.
      assert (forall u, registered s u -> u <> n -> t_state (task_at s u) <> HR_TASK_STATE_RUNNING).
      { intros u Hu _. destruct (decide (u = cur)) as [->|]; auto. }
      apply K; [by apply kcore_enter|by apply switch_frame_enter].
Qed.

(** The view after the rotation of the pending reasons. *)
Definition rotated_view (s : kstate) (V : view) (cur : task_ptr) : view :=
  if bool_decide (t_state (task_at s cur) = HR_TASK_STATE_RUNNING) &&
     rotates s cur (g_switch_reasons (glob s))
  then let p := t_effective_priority (task_at s cur) in
       <[ReadyQueue g_scheduler p := rotated (queue V g_scheduler p)]> V
  else V.

(** What the context switch establishes when [n] is entered. *)
Record entered (s s' : kstate) (n : task_ptr) : Prop := {
  en_kernel : g_kernel_state (glob s') = HR_KERNEL_STATE_RUNNING;
  en_current : g_current_task (glob s') = Some n;
  en_control_block : g_hr_current_task_control_block (glob s') = Some n;
  en_reasons : g_switch_reasons (glob s') = HR_SWITCH_REASON_NONE;
  en_tick : g_kernel_tick (glob s') = g_kernel_tick (glob s);
  en_timers : g_timer_system_initialized (glob s') = g_timer_system_initialized (glob s);
  en_next : t_state (task_at s' n) = HR_TASK_STATE_RUNNING;
  en_others : forall u, registered s u -> u <> n -> t_state (task_at s' u) =
        if bool_decide (t_state (task_at s u) = HR_TASK_STATE_RUNNING) then HR_TASK_STATE_READY
        else t_state (task_at s u);
  en_ready : is_Some (node_list s (ReadyNode n));
  en_highest : forall u, is_Some (node_list s (ReadyNode u)) ->
      t_effective_priority (task_at s' n) <= t_effective_priority (task_at s' u);
  en_links : forall m, node_list s' m = node_list s m;
  en_owners : forall m, node_owner s' m = node_owner s m;
}.

Lemma rotation_if_running s V cur reasons Q :
  kcore T D s V b nobody -> registered s cur ->
  (forall s' V', kcore T D s' V' b nobody -> glob s' = glob s ->
     (forall u, t_state (task_at s' u) = t_state (task_at s u)) ->
     (forall n, node_list s' n = node_list s n) -> (forall n, node_owner s' n = node_owner s n) ->
     V' = (if bool_decide (t_state (task_at s cur) = HR_TASK_STATE_RUNNING) && rotates s cur reasons
           then let p := t_effective_priority (task_at s cur) in
                <[ReadyQueue g_scheduler p := rotated (queue V g_scheduler p)]> V
           else V) -> Q true s') ->
  wp (match t_state (task_at s cur) with
      | HR_TASK_STATE_RUNNING => select_rotation cur reasons
      | HR_TASK_STATE_READY | HR_TASK_STATE_BLOCKED | HR_TASK_STATE_SUSPENDED => retM true
      | _ => hr_kernel_panic ;;; retM false
      end) Q s.
Proof.
  intros KC Hcur K. pose proof (to_state _ _ (kc_tasks _ _ _ _ _ _ KC cur Hcur ltac:(intros []))) as Hs.
  unfold state_ok in Hs. destruct (t_state (task_at s cur)) eqn:Est; try done.
  2: { by apply (select_rotation_spec s V). }
  all: wp_step; by apply (K s V).
Qed.

Lemma pendsv_spec s V Q :
  kcore T D s V b nobody -> g_kernel_state (glob s) = HR_KERNEL_STATE_RUNNING ->
  (forall s' V' c n, g_current_task (glob s) = Some c -> V' = rotated_view s V c ->
     kcore T D s' V' b nobody -> head (ready_seq V' g_scheduler) = Some (ReadyNode n) ->
     entered s s' n -> Q tt s') ->
  wp hr_kernel_select_next_from_pendsv Q s.
Proof.
  intros KC RK K. pose proof (kc_globals _ _ _ _ _ _ KC) as [_ Hg]. rewrite RK in Hg.
  destruct Hg as (c & Hc & Hh & Hreg). unfold hr_kernel_select_next_from_pendsv. wp_step. wp_step. rewrite Hc, Hh.
  wp_step. unfold upd_globals. wp_step. rewrite bool_decide_false by tauto.
  set (s0 := ks_set_globals _ s).
  assert (KC0 : kcore T D s0 V b nobody) by (apply kcore_globals; [done|by intros g]).
  wp_step. change (t_state (task_at s c)) with (t_state (task_at s0 c)).
  apply (rotation_if_running s0 V); [done|done|]. intros s1 V1 KC1 G1 S1 L1 O1 HV1. cbn [negb]. wp_step. wp_step.
  destruct (select_spec T D s1 V1 b nobody KC1 (idle_ready s1 V1 KC1)) as (n & Hsel & Hh1 & Hn & Hnl & Ho & Hmin).
  rewrite Hsel, Ho. unfold cast_task; cbn [as_task]. rewrite (valid_task s1 n) by (by apply (kc_fixed _ _ _ _ _ _ KC1)). cbn [negb]. wp_step.
  apply (switch_states_spec s1 V1); try done; [by rewrite G1|by rewrite G1|unfold registered; by rewrite L1|].
  intros s2 KC2 W. cbn [negb]. pose proof (wf_rest _ _ _ W) as R2.
  assert (L2 : forall m, node_list s2 m = node_list s m).
  { intros m. rewrite R2. change (node_list s1 m = node_list s0 m). apply L1. }
  assert (G2 : ks_globals s2 = glob s0) by (rewrite R2; exact G1).
  unfold upd_globals. wp_step. wp_step. wp_step.
  apply (K (switched n s2) V1 c n); [done|exact HV1|done|done|].
  split; simpl; rewrite ?G2; try done.
  - apply W.
  - intros u Hu Hne. change (task_at s) with (task_at s0). rewrite <- S1.
    apply W; [unfold registered; by rewrite L1|done].
  - by rewrite <- (L1 (ReadyNode n) : _ = node_list s _).
  - intros u Hu. change (t_effective_priority (task_at s2 n) <= t_effective_priority (task_at s2 u)).
    rewrite !(wf_priority _ _ _ W). apply Hmin. by rewrite L1.
  - intros m. rewrite <- (O1 m : node_owner s1 m = node_owner s m). by rewrite R2.
Qed.
End pendsv.
