(* ===== verification/SemaphoreSpec.v ===== *)
(** Waking a waiter and the semaphores: [hr_kernel_unblock_waiter] and
    [kernel/src/hr_semaphore.c] against the kernel invariant. *)
From stdpp Require Import gmap list.
From Stdlib Require Import ZArith Lia.
From S2P Require Import Prelude Types HrList HrListSpec Store Scheduler SchedulerSpec WaitList WaitListSpec Timeout TimeoutSpec KState TaskCore KernelBase KernelInv MutexPriority Kernel Semaphore KernelTasks KernelSpec KernelSwitch.
Open Scope Z_scope.
Set Warnings "-clear-no-such-hyp".

(** ** Waking a linked waiter *)

(** Only a task that waits on an object is linked into a wait list. *)
Lemma linked_waits s t l :
  task_ok s t -> node_list s (WaitNode t) = Some l ->
  exists o, object_waiting s t o l /\ wait_pending (task_at s t) = true /\
    node_list s (ReadyNode t) = None /\ t <> g_idle_task.
Proof.
  intros [Hs Hi] Hw. unfold state_ok in Hs. unfold wait_pending.
  assert (HW : waiting s t -> exists o, object_waiting s t o l).
  { intros [[[] _]|(o & l' & OW)]; [congruence|]. exists o.
    assert (l' = l) as <- by (pose proof (ow_wait _ _ _ _ OW); congruence). done. }
  destruct (t_state (task_at s t)) eqn:Est; try done.
  - destruct Hs as [_ []]. congruence.
  - destruct Hs as (_ & [] & _). congruence.
  - destruct Hs as [Hr [o Ho]%HW]. exists o. split_and!; try done. intros E. rewrite Hr in Hi. by destruct (Hi E).
  - destruct Hs as [Hr Hs]. destruct (t_suspended_resume_state (task_at s t)) eqn:Er; try done.
    + destruct Hs. congruence.
    + destruct (HW Hs) as [o Ho]. exists o. split_and!; try done. intros E. rewrite Hr in Hi. by destruct (Hi E).
Qed.

Lemma waiter_wakeable T D s V b t l :
  kcore T D s V b nobody -> no_expired s -> node_list s (WaitNode t) = Some l -> wakeable s t.
Proof.
  intros KC NE Hw. pose proof (kc_struct _ _ _ _ _ _ KC) as KS.
  assert (Hreg : registered s t) by (by eapply (kt_registered _ _ _ _ _ KS)).
  pose proof (kc_tasks _ _ _ _ _ _ KC t Hreg ltac:(intros [])) as OK.
  destruct (linked_waits s t l OK Hw) as (o & OW & Hp & Hr & Hni). split; try done.
  - by rewrite Hw, (ow_list _ _ _ _ OW).
  - destruct (node_list s (TimeoutNode t)) as [l'|] eqn:E; [right|by left].
    pose proof (kt_fits _ _ _ _ _ KS _ _ E) as Hf. destruct (NE (TimeoutNode t)) as [N1 _].
    destruct l'; try done. simpl in Hf. subst. eauto.
  - by apply task_ok_sync.
Qed.

(** A wake-up puts nothing into the scratch lists of the tick. *)
Lemma woke_no_expired T D s s' V b t r :
  kstruct T D s' V b -> woke s s' t r -> no_expired s -> no_expired s'.
Proof.
  intros KS W NE n. destruct (wo_idle _ _ _ _ W) as [_ _ _ _ I5 I6].
  assert (HR : forall u, node_list s' (ReadyNode u) <> Some ExpiredNodes /\ node_list s' (ReadyNode u) <> Some ExpiredTimers).
  { intros u. split; intros E; by apply (kt_fits _ _ _ _ _ KS) in E. }
  destruct (node_of_dec t n) as [[->|[-> | ->]]|Hn]; [apply HR|by rewrite I5|by rewrite I6|].
  assert (Hd : (forall u, n <> ReadyNode u) \/ exists u, n = ReadyNode u) by (destruct n; eauto; by left).
  destruct Hd as [Hd|[u ->]]; [|apply HR]. rewrite (wo_list _ _ _ _ W) by done. apply NE.
Qed.

Section semaphore.
Context `{Config} (T : Z) (D : node_addr -> Z) (b : phase).

Lemma unblock_waiter_spec s V t l result Q :
  kcore T D s V b nobody -> no_expired s -> node_list s (WaitNode t) = Some l ->
  (forall f s' V', kcore T D s' V' b nobody -> no_expired s' -> woke s s' t result -> is_Some f ->
     (suspended_wait (task_at s t) = false -> f = Some (woken_preempts s' t)) -> same_quiet V V' -> Q (HR_OK, f) s') ->
  wp (hr_kernel_unblock_waiter (Some (WaitNode t)) result) Q s.
Proof.
  intros KC NE Hw K. pose proof (waiter_wakeable _ _ _ _ _ _ _ KC NE Hw) as WK.
  pose proof (kc_fixed _ _ _ _ _ _ KC t (wk_registered _ _ WK)) as TX.
  unfold hr_kernel_unblock_waiter. wp_step. wp_step. rewrite (tx_wait _ _ TX). unfold cast_task; cbn [as_task].
  rewrite (valid_task s t) by apply TX. cbn [negb].
  apply (make_task_ready_spec T D b t s V); [by apply kcore_weaken|done|].
  intros f s' V' KC' W Hf HF HQ. apply (K f s' V'); try done.
  by eapply woke_no_expired; [apply (kc_struct _ _ _ _ _ _ KC')|..].
Qed.

(** ** Giving *)

Definition set_sem (x : sem_ptr) (c : hr_semaphore_control_block_t) (s : kstate) : kstate :=
  ks_set_semaphores (<[x := c]> (ks_semaphores s)) s.

Lemma sem_at_set_sem x c s y : sem_at (set_sem x c s) y = if decide (x = y) then c else sem_at s y.
Proof.
  unfold sem_at, set_sem; simpl. case_decide as E;
    [subst; by rewrite lookup_total_insert_eq|by rewrite lookup_total_insert_ne].
Qed.

Lemma kcore_set_sem s V X x c :
  kcore T D s V b X -> sem_magic c = sem_magic (sem_at s x) ->
  (sem_magic c = HR_CFG_SEMAPHORE_MAGIC -> sem_range c) ->
  (forall n, node_list s n = Some (SemaphoreWaiters x) -> sem_count c = 0) ->
  kcore T D (set_sem x c s) V b X.
Proof.
  intros [K1 K2 K3 K4 K5 [O1 O2 O3 O4 O5 O6 O7]] Hm Hr Hw. split; try done.
  - apply (kstruct_ext T D s); try done. intros l. destruct l; try done. simpl. rewrite sem_at_set_sem.
    case_decide; subst; by rewrite ?Hm.
  - intros u Hu. by destruct (K4 u Hu).
  - intros u Hu HXu. apply (task_ok_frame s); try done. by apply K5.
  - split.
    + intros n l Hn. pose proof (O1 n l Hn) as HM. destruct l; try done. simpl in *. rewrite sem_at_set_sem. case_decide; [subst|done].
      rewrite Hm. split; [apply HM|by eapply Hw].
    + intros y. rewrite sem_at_set_sem. case_decide; [done|apply O2].
    + done.
    + intros m. by destruct (O4 m).
    + exact O5.
    + intros y. by apply (timer_frame s).
    + intros Hi. rewrite sem_at_set_sem. case_decide; [subst; rewrite Hm|]; by apply O7.
Qed.

(** The waiting tasks of a valid semaphore, in the order of the list. *)
Definition sem_valid (s : kstate) (x : sem_ptr) : Prop := sem_magic (sem_at s x) = HR_CFG_SEMAPHORE_MAGIC.

Lemma sem_is_valid s V x : kcore T D s V b nobody -> sem_valid s x -> hr_semaphore_is_valid s (Some x) = true.
Proof.
  intros KC Hv. destruct (ob_sems _ (kc_objects _ _ _ _ _ _ KC) x Hv) as [? ?].
  unfold hr_semaphore_is_valid. rewrite Hv, Z.eqb_refl. simpl. apply andb_true_iff. split; lia.
Qed.

(** The first waiter of an object, and what its waiters are. *)
Lemma wait_peek s V X l ns : kcore T D s V b X -> is_wait_list l = true -> V !! l = Some ns ->
  hr_wait_list_peek (ks_store s) (Some l) = head ns /\
  forall n, n ∈ ns -> exists t, n = WaitNode t /\ node_list s (WaitNode t) = Some l.
Proof.
  intros KC Hw Hns. pose proof (kc_struct _ _ _ _ _ _ KC) as KS.
  split; [apply wait_list_peek_spec, (rep_ring _ _ (kt_rep _ _ _ _ _ KS) _ _ Hns)|].
  intros n Hn. apply (kt_member _ _ _ _ _ KS _ _ _ Hns) in Hn. pose proof (kt_fits _ _ _ _ _ KS _ _ Hn) as Hf.
  destruct n as [|t| | | | |]; try (by destruct l). eauto.
Qed.

Definition with_count (n : Z) (x : sem_ptr) (s : kstate) : kstate := set_sem x (sem_set_count n (sem_at s x)) s.

Lemma kcore_with_count s V x n :
  kcore T D s V b nobody -> sem_valid s x -> V !! SemaphoreWaiters x = Some [] ->
  0 <= n <= sem_max_count (sem_at s x) -> kcore T D (with_count n x s) V b nobody.
Proof.
  intros KC Hv Hns Hn. apply kcore_set_sem; try done. destruct (ob_sems _ (kc_objects _ _ _ _ _ _ KC) x Hv) as [? ?].
  - unfold sem_range. simpl. auto.
  - intros m Hm. apply (kt_member _ _ _ _ _ (kc_struct _ _ _ _ _ _ KC) _ _ _ Hns) in Hm. by apply elem_of_nil in Hm.
Qed.

Lemma give_locked_spec s V x ns Q :
  kcore T D s V b nobody -> no_expired s -> sem_valid s x -> V !! SemaphoreWaiters x = Some ns ->
  (forall t ts f s' V', ns = WaitNode t :: ts -> kcore T D s' V' b nobody -> no_expired s' ->
     woke s s' t HR_OK -> is_Some f ->
     (suspended_wait (task_at s t) = false -> f = Some (woken_preempts s' t)) -> same_quiet V V' -> Q (HR_OK, f) s') ->
  (ns = [] -> sem_count (sem_at s x) = sem_max_count (sem_at s x) -> Q (HR_ERROR_SEMAPHORE_FULL, None) s) ->
  (ns = [] -> sem_count (sem_at s x) < sem_max_count (sem_at s x) ->
     kcore T D (with_count (sem_count (sem_at s x) + 1) x s) V b nobody ->
     Q (HR_OK, Some false) (with_count (sem_count (sem_at s x) + 1) x s)) ->
  wp (hr_semaphore_give_locked x) Q s.
Proof.
  intros KC NE Hv Hns K1 K2 K3. unfold hr_semaphore_give_locked. wp_step. wp_step.
  destruct (wait_peek s V nobody (SemaphoreWaiters x) ns KC eq_refl Hns) as [-> Hw]. destruct (ob_sems _ (kc_objects _ _ _ _ _ _ KC) x Hv) as [Hm Hc].
  destruct ns as [|n ts]; simpl.
  - destruct (Z.leb_spec (sem_max_count (sem_at s x)) (sem_count (sem_at s x))); [wp_step; apply K2; lia || done|].
    wp_step. unfold upd_sem. wp_step. wp_step. rewrite u32_small by (unfold UINT32_MAX in *; lia).
    apply K3; [done|lia|]. apply kcore_with_count; try done. lia.
  - destruct (Hw n) as (t & -> & Hl); [by apply elem_of_cons; left|].
    apply (unblock_waiter_spec s V t (SemaphoreWaiters x) HR_OK); try done. intros f s' V' **. by apply (K1 t ts f s' V').
Qed.

(** ** The calls *)

(** The port state does not matter to what a call does to the kernel. *)
Definition with_port (p : port_state) (s : kstate) : kstate := ks_set_port p s.
Definition pend (s : kstate) : kstate := with_port (pt_set_pendsv true (ks_port s)) s.
Definition pend_if (c : bool) (s : kstate) : kstate := if c then pend s else s.

Lemma enter_critical_spec Q s :
  Q (pt_primask (ks_port s)) (with_port (pt_set_primask 1 (ks_port s)) s) -> wp hr_port_enter_critical Q s.
Proof. done. Qed.
Lemma exit_critical_spec s s1 Q :
  ks_port s1 = pt_set_primask 1 (ks_port s) ->
  Q tt (with_port (ks_port s) s1) -> wp (hr_port_exit_critical (pt_primask (ks_port s))) Q s1.
Proof.
  intros E HQ. unfold hr_port_exit_critical, upd_port. wp_step. rewrite E. by destruct (ks_port s).
Qed.
Lemma pend_if_spec c Q s :
  Q tt (pend_if c s) -> wp (if c then hr_port_request_context_switch else retM tt) Q s.
Proof. by destruct c. Qed.

Lemma with_port_twice p q s : with_port p (with_port q s) = with_port p s.
Proof. done. Qed.
Lemma with_port_same s : with_port (ks_port s) s = s.
Proof. by destruct s. Qed.

Lemma with_count_port n x p s : with_port (ks_port s) (with_count n x (with_port p s)) = with_count n x s.
Proof. by destruct s. Qed.
Lemma kcore_restore s V X n x p :
  kcore T D (with_count n x (with_port p s)) V b X -> kcore T D (with_count n x s) V b X.
Proof. intros KC. rewrite <- (with_count_port n x p s). by apply kcore_port. Qed.

Lemma woke_port p s s1 t r : woke (with_port p s) s1 t r ->
  ks_port s1 = p /\ woke s (with_port (ks_port s) s1) t r.
Proof.
  intros [W1 W2 W3 W4 W5 W6 W7]. split; [by rewrite W1|]. split; try done.
  - rewrite W1. done.
  - by destruct W4.
Qed.

Lemma blocked_port p s s1 t : blocked_frame (with_port p s) s1 t ->
  ks_port s1 = p /\ blocked_frame s (with_port (ks_port s) s1) t.
Proof.
  intros [B1 B2 B3 B4 B5 B6]. split; [by rewrite B1|]. split; try done. rewrite B1. done.
Qed.

Lemma give_spec s V x ns Q :
  kcore T D s V b nobody -> no_expired s -> sem_valid s x -> V !! SemaphoreWaiters x = Some ns ->
  hr_port_is_inside_isr s = false ->
  (forall t ts f s' V', ns = WaitNode t :: ts -> kcore T D (pend_if f s') V' b nobody -> no_expired s' ->
     woke s s' t HR_OK ->
     (suspended_wait (task_at s t) = false -> f = woken_preempts s' t) -> Q HR_OK (pend_if f s')) ->
  (ns = [] -> sem_count (sem_at s x) = sem_max_count (sem_at s x) -> Q HR_ERROR_SEMAPHORE_FULL s) ->
  (ns = [] -> sem_count (sem_at s x) < sem_max_count (sem_at s x) ->
     kcore T D (with_count (sem_count (sem_at s x) + 1) x s) V b nobody ->
     Q HR_OK (with_count (sem_count (sem_at s x) + 1) x s)) ->
  wp (hr_semaphore_give (Some x)) Q s.
Proof.
  intros KC NE Hv Hns Hi K1 K2 K3. unfold hr_semaphore_give. wp_step. wp_step.
  rewrite (sem_is_valid s V x KC Hv), Hi. cbn [negb]. wp_step. apply enter_critical_spec. wp_step.
  set (s0 := with_port _ s).
  apply (give_locked_spec s0 V x ns); try done; [by apply kcore_port|..].
  - intros t ts f s1 V' En KC1 NE1 W [f' ->] HF _. apply woke_port in W as [Hp W]. wp_step.
    apply (exit_critical_spec s); [done|]. wp_step. apply pend_if_spec. wp_step.
    apply (K1 t ts _ _ V'); try done.
    + destruct f'; simpl; [|by apply kcore_port]. by apply kcore_port, kcore_port.
    + intros E. simpl. specialize (HF E). by simplify_eq.
  - intros En Ec. wp_step. apply (exit_critical_spec s); [done|]. wp_step. apply pend_if_spec. wp_step. simpl.
    unfold s0. rewrite with_port_twice, with_port_same. by apply K2.
  - intros En Ec KC1. wp_step. apply (exit_critical_spec s); [done|]. wp_step. apply pend_if_spec. wp_step. simpl.
    unfold s0. rewrite with_count_port. apply kcore_restore in KC1. by apply K3.
Qed.

Lemma no_expired_blocked T' D' s s' V' t : kstruct T' D' s' V' b ->
  blocked_frame s s' t -> no_expired s -> no_expired s'.
Proof.
  intros KS [_ _ B3 B4 B5 _] NE n. destruct (node_of_dec t n) as [[->|[-> | ->]]|Hn].
  - by rewrite B4.
  - split; intros E; by apply (kt_fits _ _ _ _ _ KS) in E.
  - split; [done|]. intros E. by apply (kt_fits _ _ _ _ _ KS) in E.
  - rewrite B3 by done. apply NE.
Qed.

Lemma take_spec s V x ns t timeout Q :
  kcore T D s V b nobody -> no_expired s -> sem_valid s x -> V !! SemaphoreWaiters x = Some ns ->
  hr_port_is_inside_isr s = false -> running s t -> t <> g_idle_task -> 0 <= timeout <= UINT32_MAX ->
  (0 < sem_count (sem_at s x) -> kcore T D (with_count (sem_count (sem_at s x) - 1) x s) V b nobody ->
     Q (Returns HR_OK) (with_count (sem_count (sem_at s x) - 1) x s)) ->
  (sem_count (sem_at s x) = 0 -> timeout = HR_NO_WAIT -> Q (Returns HR_ERROR_SEMAPHORE_EMPTY) s) ->
  (forall s' V', sem_count (sem_at s x) = 0 -> timeout <> HR_NO_WAIT ->
     kcore T (wait_deadline T D t timeout) (pend s') V' b nobody -> no_expired s' ->
     V' !! SemaphoreWaiters x = Some (insert_by (priority_at (ks_store s)) (WaitNode t) ns) ->
     blocked_frame s s' t -> object_waiting s' t (WSemaphore x) (SemaphoreWaiters x) ->
     (node_list s' (TimeoutNode t) = None <-> timeout = HR_WAIT_FOREVER) ->
     t_state (task_at s' t) = HR_TASK_STATE_BLOCKED -> Q (Waits t) (pend s')) ->
  wp (hr_semaphore_take (Some x) timeout) Q s.
Proof.
  intros KC NE Hv Hns Hi RN Hni Ht K1 K2 K3. pose proof RN as [R1 R2 R3].
  destruct (ob_sems _ (kc_objects _ _ _ _ _ _ KC) x Hv) as [Hm Hc].
  unfold hr_semaphore_take. wp_step. wp_step. rewrite (sem_is_valid s V x KC Hv), Hi. cbn [negb].
  apply wp_if_false. { unfold hr_kernel_is_running. rewrite bool_decide_true by done. apply andb_false_r. }
  wp_step. apply enter_critical_spec. wp_step. wp_step. set (s0 := with_port _ s).
  change (sem_at s0 x) with (sem_at s x). wp_step.
  destruct (Z.ltb_spec 0 (sem_count (sem_at s x))) as [Hpos|Hzero].
  - wp_step. unfold upd_sem. wp_step. wp_step. change (sem_at s0 x) with (sem_at s x).
    rewrite u32_small by (unfold UINT32_MAX in *; lia). wp_step. apply (exit_critical_spec s); [done|]. wp_step.
    change (Q (Returns HR_OK) (with_port (ks_port s) (with_count (sem_count (sem_at s x) - 1) x s0))).
    unfold s0. rewrite with_count_port. apply K1; [done|]. apply kcore_with_count; try done; [|lia].
    destruct ns as [|n ns]; [done|]. destruct (wait_peek s V nobody (SemaphoreWaiters x) _ KC eq_refl Hns) as [_ Hw].
    destruct (Hw n) as (u & -> & Hl); [by apply elem_of_cons; left|].
    destruct (ob_waiters _ (kc_objects _ _ _ _ _ _ KC) _ _ Hl). lia.
  - assert (E0 : sem_count (sem_at s x) = 0) by lia. destruct (Z.eqb_spec timeout HR_NO_WAIT) as [Hw|Hw].
    + wp_step. wp_step. apply (exit_critical_spec s); [done|]. wp_step. unfold s0.
      rewrite with_port_twice, with_port_same. by apply K2.
    + change (hr_task_control_block (hr_task_current s0)) with (g_current_task (glob s)). rewrite R2. wp_step.
      apply (block_current_spec T D b t s0 V (SemaphoreWaiters x) (WSemaphore x) _ None timeout None ns); try done.
      * by apply kcore_port.
      * unfold HR_NO_WAIT in *. lia.
      * intros s1 V1 KC1 HV1 BF OW HT HS _. apply blocked_port in BF as [Hp BF]. wp_step. ok_simpl. wp_step.
        apply (exit_critical_spec s); [done|]. wp_step. unfold hr_port_request_context_switch, upd_port. wp_step. wp_step.
        assert (KC2 : kcore T (wait_deadline T D t timeout) (with_port (ks_port s) s1) V1 b nobody) by (by apply kcore_port).
        apply (K3 (with_port (ks_port s) s1) V1); try done.
        -- by apply kcore_port.
        -- by eapply no_expired_blocked; [apply (kc_struct _ _ _ _ _ _ KC2)|..].
        -- by destruct OW.
Qed.
End semaphore.
