(* ===== verification/TimerSpec.v ===== *)
(** Software timers: the primitive steps of [Timer] on the structures of the kernel, the
    calls of the tasks, the expiry of timers in the tick and the turn of the service task.

    A timer is armed when its timeout node is linked, with the deadline [D] of the node;
    the list [PendingTimers] holds the timers whose callback is due.  [timer_step s s' x]
    is the frame of everything here: only the timer [x] and its two nodes change. *)
From stdpp Require Import gmap list.
From Stdlib Require Import ZArith Lia.
From S2P Require Import Prelude Types HrList HrListSpec Store Scheduler SchedulerSpec WaitList WaitListSpec Timeout TimeoutSpec KState TaskCore KernelBase KernelInv MutexPriority Kernel Semaphore Timer KernelTasks KernelSpec SemaphoreSpec.
Open Scope Z_scope.
Set Warnings "-clear-no-such-hyp".

(** ** Updates of one timer *)

Definition set_timer (x : timer_ptr) (c : hr_timer_control_block_t) (s : kstate) : kstate :=
  ks_set_timers (<[x := c]> (ks_timers s)) s.

Lemma wp_upd_timer x f Q s : Q tt (set_timer x (f (timer_at s x)) s) -> wp (upd_timer x f) Q s.
Proof. done. Qed.
Lemma timer_at_set_timer x c s y : timer_at (set_timer x c s) y = if decide (x = y) then c else timer_at s y.
Proof.
  unfold timer_at, set_timer; simpl. case_decide as E;
    [subst; by rewrite lookup_total_insert_eq|by rewrite lookup_total_insert_ne].
Qed.
Lemma timer_at_set_eq x c s : timer_at (set_timer x c s) x = c.
Proof. by rewrite timer_at_set_timer, decide_True. Qed.
Lemma set_timer_twice x c c' s : set_timer x c (set_timer x c' s) = set_timer x c s.
Proof. unfold set_timer; simpl. by rewrite insert_insert_eq. Qed.

(** Only the timer [x] and its nodes change. *)
Record timer_step (s s' : kstate) (x : timer_ptr) : Prop := {
  ts_rest : s' = ks_set_store (ks_store s') (ks_set_timers (ks_timers s') s);
  ts_other : forall y, y <> x -> timer_at s' y = timer_at s y;
  ts_list : forall n, ~ timer_node x n -> node_list s' n = node_list s n;
  ts_owner : forall n, node_owner s' n = node_owner s n;
}.

Lemma timer_step_refl s x : timer_step s s x.
Proof. split; try done. by destruct s. Qed.
Lemma timer_step_trans s1 s2 s3 x : timer_step s1 s2 x -> timer_step s2 s3 x -> timer_step s1 s3 x.
Proof.
  intros [R1 O1 L1 W1] [R2 O2 L2 W2]. split.
  - rewrite R2. simpl. rewrite R1. done.
  - intros y Hy. by rewrite O2, O1.
  - intros n Hn. by rewrite L2, L1.
  - intros n. by rewrite W2, W1.
Qed.
Lemma timer_step_set s x c : timer_step s (set_timer x c s) x.
Proof. split; try done. intros y Hy. by rewrite timer_at_set_timer, decide_False. Qed.
Lemma timer_step_link s s' x n v : timer_node x n -> step_frame s s' n v -> timer_step s s' x.
Proof.
  intros Hn F. pose proof (sf_rest _ _ _ _ F) as R. split.
  - rewrite R. by destruct s.
  - intros y _. by rewrite R.
  - intros m Hm. rewrite (sf_list _ _ _ _ F), decide_False; [done|]. by intros ->.
  - apply (sf_owner _ _ _ _ F).
Qed.

Section kcore_timer.
Context (T : Z) (D : node_addr -> Z) (b : phase).

Lemma kstruct_set_timer s V x c : kstruct T D s V b -> kstruct T D (set_timer x c s) V b.
Proof. intros KS. by apply (kstruct_ext T D s). Qed.

(** Only timers and their nodes change. *)
Record timers_step (s s' : kstate) : Prop := {
  tss_rest : s' = ks_set_store (ks_store s') (ks_set_timers (ks_timers s') s);
  tss_list : forall n, (forall y, ~ timer_node y n) -> node_list s' n = node_list s n;
  tss_owner : forall n, node_owner s' n = node_owner s n;
}.

(** The invariant after a change of timers, in a possibly later phase of the timers. *)
Lemma kcore_timers s s' V V' D' b' X :
  kcore T D s V b X -> kstruct T D' s' V' b' -> timers_step s s' -> (forall y, timer_ok s' y) -> kcore T D' s' V' b' X.
Proof.
  intros [K1 K2 K3 K4 K5 [O1 O2 O3 O4 O5 O6 O7]] KS' TS OK. pose proof (tss_rest _ _ TS) as R.
  assert (HL : forall n, (forall y, n <> TimerTimeoutNode y /\ n <> TimerPendingNode y) -> node_list s' n = node_list s n).
  { intros n Hn. apply (tss_list _ _ TS). intros y [-> | ->]; by destruct (Hn y). }
  assert (Hreg : forall u, registered s' u <-> registered s u) by (intros; unfold registered; by rewrite HL).
  assert (HG : glob s' = glob s) by (by rewrite R).
  split; rewrite ?HG; try done.
  - destruct K3 as [Hi Hg]. split; [by apply Hreg|]. rewrite HG.
    destruct (g_kernel_state (glob s)); try done. destruct Hg as (c & ? & ? & ?). exists c. by rewrite Hreg.
  - intros u Hu%Hreg. destruct (K4 u Hu).
    assert (task_at s' u = task_at s u) as E by (by rewrite R).
    split; rewrite ?(tss_owner _ _ TS), ?E; done.
  - intros u Hu%Hreg HX. apply (task_ok_frame s); [by rewrite R| |by rewrite R|by apply K5].
    intros n Hn. apply HL. intros y. by destruct Hn as [->|[->| ->]].
  - split; [|by rewrite R|by rewrite R| | |done|by rewrite R].
    + intros n l Hn. destruct (is_wait_list l) eqn:El; [|by destruct l].
      rewrite HL in Hn; [|intros y; split; intros ->; apply (kt_fits _ _ _ _ _ KS') in Hn; by destruct l].
      pose proof (O1 n l Hn) as HM. destruct l; try done; simpl in *; by rewrite R.
    + intros m. destruct (O4 m) as [M1 M2 M3 M4].
      assert (mutex_at s' m = mutex_at s m) as E by (by rewrite R).
      split; rewrite ?(tss_owner _ _ TS), ?E; try done. intros o. rewrite HL by done. apply M1.
    + intros t ms Hd Hin. assert (task_at s' t = task_at s t) as -> by (by rewrite R).
      apply O5; [done|]. intros m. by rewrite Hin, HL.
Qed.

Lemma kcore_timer s s' V V' D' b' X x :
  kcore T D s V b X -> kstruct T D' s' V' b' -> timer_step s s' x -> timer_ok s' x -> kcore T D' s' V' b' X.
Proof.
  intros KC KS' TS OK. apply (kcore_timers s s' V V' D' b' X KC KS'); [split; try apply TS|].
  - intros n Hn. apply (ts_list _ _ _ TS), Hn.
  - intros y. destruct (decide (y = x)) as [->|Hne]; [done|].
    apply (timer_ok_frame s); [by apply (ts_other _ _ _ TS)|by rewrite (ts_rest _ _ _ TS)| |intros; apply (ts_owner _ _ _ TS)|by apply KC].
    intros n Hn. apply (ts_list _ _ _ TS). unfold timer_node in *. destruct Hn as [-> | ->]; intros [|]; congruence.
Qed.
End kcore_timer.

(** ** Primitive steps *)

(** The lists of the timers and the scratch lists of the tick: neither sorted nor counted. *)
Definition plain_list (l : list_addr) : bool :=
  match l with PendingTimers | ExpiredTimers => true | _ => false end.

(** The deadline of the timer [x] set to [d]. *)
Definition rearmed (D : node_addr -> Z) (x : timer_ptr) (d : Z) : node_addr -> Z :=
  fun n => if decide (n = TimerTimeoutNode x) then d else D n.

(** A node taken out of a sequence. *)
Definition without (n : node_addr) (l : list node_addr) : list node_addr := filter (fun m => m <> n) l.

Lemma without_none n l : n ∉ l -> without n l = l.
Proof.
  unfold without. induction l as [|m l IH]; [done|]. intros Hn. apply not_elem_of_cons in Hn as [H1 H2].
  rewrite filter_cons_True by done. by rewrite IH.
Qed.
Lemma without_split n us vs : NoDup (us ++ n :: vs) -> without n (us ++ n :: vs) = us ++ vs.
Proof.
  intros (_ & H1 & [H2 _]%NoDup_cons)%NoDup_app. unfold without. rewrite filter_app, filter_cons_False by tauto.
  fold (without n us). fold (without n vs). rewrite !without_none; [done|done|]. intros Hn. apply (H1 n Hn). by apply elem_of_cons; left.
Qed.

(** The armed timers, soonest deadline first. *)
Definition armed (V : view) (b : phase) : list node_addr := pending V g_timer_timeouts (ph_timers_half b).

Section steps.
Context (T : Z) (D : node_addr -> Z) (b : phase).

Lemma kstruct_plain_step s V h l ns n v :
  kstruct T D s V b -> plain_list l = true -> node_task n l = None -> (forall t, n <> AllTaskNode t) ->
  (v = Some l /\ node_fits n l /\ node_owner s n = Some (owner_of n) \/ v = None) ->
  lists_rep h (<[l := ns]> V) -> link_frame (st_lists (ks_store s)) h n v ->
  let s' := ks_set_store (set_lists h (ks_store s)) s in
  kstruct T D s' (<[l := ns]> V) b /\ step_frame s s' n v.
Proof.
  intros KS Hl Hnt Hna Hv Rep LF s'. assert (SF : step_frame s s' n v) by (by apply link_step_frame).
  assert (HV : forall l', plain_list l' = false -> <[l := ns]> V !! l' = V !! l').
  { intros l' H'. apply lookup_insert_ne. intros ->. congruence. }
  split; [|done]. apply (kstruct_step T D D s s' V _ b n v KS SF); try done.
  - intros l' El. destruct Hv as [(-> & ? & ?)| ->]; [|done]. injection El as <-. split_and!; [done|done|]. by rewrite Hnt.
  - apply (ready_rep_frame (ks_store s) _ V _ _ (kt_ready _ _ _ _ _ KS)); [done| |done]. intros p. by apply HV.
  - apply (timeout_rep_frame (ks_store s) _ V _ _ T D D b (kt_timeout _ _ _ _ _ KS)); [done| |done]. intros c. by apply HV.
  - intros TM. apply (timeout_rep_frame (ks_store s) _ V _ _ _ D D _ TM); [done| |done]. intros c. by apply HV.
  - by apply HV.
  - intros l'. apply view_insert_is_Some.
  - apply (sorted_other T D s V b); [done|]. by destruct l.
Qed.

Lemma kstruct_timer_step s V D' st c ns x v :
  kstruct T D s V b ->
  (v = Some (TimeoutHalf g_timer_timeouts c) /\ node_owner s (TimerTimeoutNode x) = Some (PTimer x) \/ v = None) ->
  lists_rep (st_lists st) (<[TimeoutHalf g_timer_timeouts c := ns]> V) ->
  timeout_rep st (<[TimeoutHalf g_timer_timeouts c := ns]> V) g_timer_timeouts (ph_timers b) D' (ph_timers_half b) ->
  link_frame (st_lists (ks_store s)) (st_lists st) (TimerTimeoutNode x) v ->
  timeout_frame (ks_store s) st g_timer_timeouts ->
  (forall m, m <> TimerTimeoutNode x -> wake_at st m = wake_at (ks_store s) m /\ D' m = D m) ->
  let s' := ks_set_store st s in
  kstruct T D' s' (<[TimeoutHalf g_timer_timeouts c := ns]> V) b /\ step_frame s s' (TimerTimeoutNode x) v.
Proof.
  intros KS Hv Rep TR LF [F1 F2 F3] HD s'.
  assert (SF : step_frame s s' (TimerTimeoutNode x) v) by (by apply link_step_frame).
  split; [|done]. apply (kstruct_step T D D' s s' V _ b (TimerTimeoutNode x) v KS SF); try done.
  - intros l0 El. destruct Hv as [[-> ?] | ->]; [|done]. by injection El as <-.
  - apply (ready_rep_frame (ks_store s) _ V _ _ (kt_ready _ _ _ _ _ KS)).
    + unfold ready_at. simpl. by rewrite F2.
    + intros p. by rewrite lookup_insert_ne.
    + intros n p _. unfold priority_at. simpl. by rewrite F1.
  - apply (timeout_rep_frame (ks_store s) _ V _ _ T D D' b (kt_timeout _ _ _ _ _ KS)).
    + by apply F3.
    + intros d. by rewrite lookup_insert_ne.
    + intros n Hn. apply HD. intros ->. apply pending_half in Hn as (d & Hn).
      apply (half_member _ _ _ _ _ KS) in Hn. by apply (kt_fits _ _ _ _ _ KS) in Hn.
  - by rewrite lookup_insert_ne.
  - intros l. apply view_insert_is_Some.
  - by eapply sorted_other.
Qed.

(** What the view keeps of the lists other than those of the timers. *)
Definition timers_only (V V' : view) : Prop :=
  forall l, l <> PendingTimers -> l <> ExpiredTimers -> (forall c, l <> TimeoutHalf g_timer_timeouts c) -> V' !! l = V !! l.

Lemma arm_spec s V x Q :
  kstruct T D s V b -> g_timer_system_initialized (glob s) = true ->
  node_list s (TimerTimeoutNode x) = None -> node_owner s (TimerTimeoutNode x) = Some (PTimer x) ->
  0 < tm_period_ticks (timer_at s x) < HR_WAIT_FOREVER -> Z.of_nat (length (armed V b)) < SIZE_MAX ->
  let D' := rearmed D x (ph_timers b + tm_period_ticks (timer_at s x)) in
  (forall s1 V' c, kstruct T D' (set_timer x (tm_set_active true (timer_at s x)) s1) V' b ->
     step_frame s s1 (TimerTimeoutNode x) (Some (TimeoutHalf g_timer_timeouts c)) ->
     armed V' b = insert_by D' (TimerTimeoutNode x) (armed V b) ->
     (forall l, (forall d, l <> TimeoutHalf g_timer_timeouts d) -> V' !! l = V !! l) ->
     Q HR_OK (set_timer x (tm_set_active true (timer_at s x)) s1)) ->
  wp (hr_timer_arm_locked x) Q s.
Proof.
  intros KS Hi Hu Ho Hp Hb D' K. unfold hr_timer_arm_locked. wp_step. wp_step. wp_step. wp_step.
  apply (timeout_insert_spec (ks_store s) V g_timer_timeouts (ph_timers b) D (ph_timers_half b)); try done.
  - apply KS.
  - exact (kt_timer_rep _ _ _ _ _ KS Hi).
  - intros st V' Rep -> TR EP LF TF HW.
    destruct (kstruct_timer_step s V D' st _ _ x _ KS (or_introl (conj eq_refl Ho)) Rep TR LF TF) as [KS' SF].
    { intros m Hm. split; [by apply HW|]. unfold D', rearmed. by rewrite decide_False. }
    ok_simpl. wp_step. apply wp_upd_timer. wp_step.
    change (part_set st s) with (ks_set_store st s). change (timer_at (ks_set_store st s) x) with (timer_at s x).
    eapply K; [by apply kstruct_set_timer|done|done|]. intros l Hl. by rewrite lookup_insert_ne.
Qed.

Lemma disarm_spec s V x Q :
  kstruct T D s V b -> g_timer_system_initialized (glob s) = true ->
  (if tm_active (timer_at s x) then exists c, node_list s (TimerTimeoutNode x) = Some (TimeoutHalf g_timer_timeouts c)
   else node_list s (TimerTimeoutNode x) = None) ->
  (forall s' V', kstruct T D s' V' b -> timer_step s s' x ->
     timer_at s' x = tm_set_active false (timer_at s x) -> node_list s' (TimerTimeoutNode x) = None ->
     node_list s' (TimerPendingNode x) = node_list s (TimerPendingNode x) ->
     armed V' b = without (TimerTimeoutNode x) (armed V b) ->
     (forall l, (forall d, l <> TimeoutHalf g_timer_timeouts d) -> V' !! l = V !! l) -> Q HR_OK s') ->
  wp (timer_disarm x) Q s.
Proof.
  intros KS Hi Hl K. unfold timer_disarm. wp_step. wp_step.
  destruct (tm_active (timer_at s x)) eqn:Ea.
  - destruct Hl as [c Hl]. destruct (kt_linked _ _ _ _ _ KS _ _ Hl) as (xs & ys & HV).
    assert (Hh : half V g_timer_timeouts c = xs ++ TimerTimeoutNode x :: ys) by (unfold half; by rewrite HV).
    wp_step. wp_step. apply (timeout_remove_spec (ks_store s) V g_timer_timeouts (ph_timers b) D (ph_timers_half b) c _ xs ys);
      [apply KS|exact (kt_timer_rep _ _ _ _ _ KS Hi)|done|]. intros st V' -> Rep TR (us & vs & E1 & E2) LF TF HW.
    destruct (kstruct_timer_step s V D st _ _ x _ KS (or_intror eq_refl) Rep TR LF TF) as [KS' SF].
    { intros m Hm. split; [|done]. unfold wake_at. by rewrite HW. }
    ok_simpl. wp_step. apply wp_upd_timer. wp_step. change (part_set st s) with (ks_set_store st s).
    assert (HL : forall n, node_list (set_timer x (tm_set_active false (timer_at (ks_set_store st s) x)) (ks_set_store st s)) n =
      if decide (n = TimerTimeoutNode x) then None else node_list s n) by apply (sf_list _ _ _ _ SF).
    eapply K.
    + by apply kstruct_set_timer.
    + eapply timer_step_trans; [|apply timer_step_set]. eapply timer_step_link; [|exact SF]. by left.
    + by rewrite timer_at_set_eq.
    + by rewrite HL, decide_True.
    + by rewrite HL, decide_False.
    + unfold armed. rewrite E1, E2, without_split; [done|]. rewrite <- E1. by apply (pending_nodup T D s V b KS).
    + intros l Hne. by rewrite lookup_insert_ne.
  - wp_step. apply (K s V); try done; [apply timer_step_refl|by destruct (timer_at s x); simpl in *; subst|].
    symmetry. apply without_none. intros (c & Hc)%(pending_half V g_timer_timeouts). apply (half_member T D s V b KS) in Hc. congruence.
Qed.

Lemma clear_pending_spec s V x ps Q :
  kstruct T D s V b -> V !! PendingTimers = Some ps ->
  (forall s' V', kstruct T D s' V' b -> timer_step s s' x ->
     timer_at s' x = tm_set_pending_count 0 (timer_at s x) -> node_list s' (TimerPendingNode x) = None ->
     node_list s' (TimerTimeoutNode x) = node_list s (TimerTimeoutNode x) ->
     V' !! PendingTimers = Some (without (TimerPendingNode x) ps) ->
     (forall l, l <> PendingTimers -> V' !! l = V !! l) -> Q tt s') ->
  wp (hr_timer_clear_pending_locked x) Q s.
Proof.
  intros KS Hps K. unfold hr_timer_clear_pending_locked, ignoreM. wp_step. wp_step. wp_step.
  destruct (node_list s (TimerPendingNode x)) as [l|] eqn:El.
  - rewrite linked_true by eauto. pose proof (kt_fits _ _ _ _ _ KS _ _ El) as Hf. destruct l; try done.
    destruct (kt_linked _ _ _ _ _ KS _ _ El) as (xs & ys & HV). assert (ps = xs ++ TimerPendingNode x :: ys) as -> by congruence.
    wp_step. wp_step. apply (hr_list_remove_spec _ V PendingTimers _ (kt_rep _ _ _ _ _ KS) xs ys); [done|]. intros h Rep LF.
    destruct (kstruct_plain_step s V h PendingTimers _ (TimerPendingNode x) None KS eq_refl eq_refl ltac:(done) (or_intror eq_refl) Rep LF) as [KS' SF].
    wp_step. apply wp_upd_timer. set (s1 := ks_set_store _ s) in *. change (part_set h s) with s1.
    assert (HL : forall n, node_list s1 n = if decide (n = TimerPendingNode x) then None else node_list s n) by apply (sf_list _ _ _ _ SF).
    eapply K.
    + by apply kstruct_set_timer.
    + eapply timer_step_trans; [|apply timer_step_set]. eapply timer_step_link; [|exact SF]. by right.
    + by rewrite timer_at_set_eq.
    + change (node_list s1 (TimerPendingNode x) = None). by rewrite HL, decide_True.
    + change (node_list s1 (TimerTimeoutNode x) = node_list s (TimerTimeoutNode x)). by rewrite HL, decide_False.
    + rewrite lookup_insert_eq, without_split; [done|]. by eapply (kt_nodup T D s V b KS).
    + intros l Hne. by rewrite lookup_insert_ne.
  - rewrite linked_false by done. wp_step. apply wp_upd_timer. eapply K; try done.
    + by apply kstruct_set_timer.
    + apply timer_step_set.
    + by rewrite timer_at_set_eq.
    + rewrite without_none; [done|]. intros Hx. apply (kt_member _ _ _ _ _ KS _ _ _ Hps) in Hx. congruence.
Qed.
End steps.

(** ** The calls of the tasks *)

(** A timer is valid exactly when it was created. *)
Lemma timer_is_valid s x : timer_ok s x -> timer_valid s x -> hr_timer_is_valid s (Some x) = true.
Proof.
  intros OK Hv. destruct (tmo_range _ _ OK Hv) as [R1 R2 R3 _]. unfold hr_timer_is_valid. rewrite Hv, Z.eqb_refl.
  rewrite !bool_decide_true by done. cbn [andb]. apply andb_true_iff. split; [lia|]. apply negb_true_iff, Z.eqb_neq. lia.
Qed.

(** The fields agree with the links, as the integrity check compares them. *)
Lemma timer_active_linked s x : timer_ok s x -> timer_valid s x ->
  Bool.eqb (tm_active (timer_at s x)) (is_linked s (TimerTimeoutNode x)) = true.
Proof.
  intros OK Hv. rewrite linked_iff. apply Bool.eqb_true_iff. pose proof (tmo_active _ _ OK Hv) as HA.
  destruct (tm_active (timer_at s x)); [by rewrite bool_decide_true by (by apply HA)|].
  rewrite bool_decide_false; [done|]. intros Hl. by apply HA in Hl.
Qed.
Lemma timer_pending_linked s x : timer_ok s x -> timer_valid s x ->
  Bool.eqb (tm_pending_count (timer_at s x) =? 0) (negb (is_linked s (TimerPendingNode x))) = true.
Proof.
  intros OK Hv. rewrite linked_iff. apply Bool.eqb_true_iff. pose proof (tmo_pending _ _ OK Hv) as HA.
  destruct (Z.eqb_spec (tm_pending_count (timer_at s x)) 0) as [E|E].
  - rewrite bool_decide_false; [done|]. intros Hl. apply HA in Hl. lia.
  - rewrite bool_decide_true; [done|]. apply HA. destruct (tmo_range _ _ OK Hv). lia.
Qed.
Lemma valid_timer s x : hr_timer_is_valid s (Some x) = true -> timer_valid s x.
Proof. unfold hr_timer_is_valid, timer_valid. rewrite !andb_true_iff. intros [[[[E _] _] _] _]. by apply Z.eqb_eq. Qed.

Lemma timer_step_no_expired s s' x : timer_step s s' x -> no_expired s ->
  (forall n, timer_node x n -> node_list s' n <> Some ExpiredNodes /\ node_list s' n <> Some ExpiredTimers) -> no_expired s'.
Proof.
  intros TS NE Hx n.
  destruct (decide (n = TimerTimeoutNode x)) as [->|H1]; [apply Hx; by left|].
  destruct (decide (n = TimerPendingNode x)) as [->|H2]; [apply Hx; by right|].
  rewrite (ts_list _ _ _ TS); [apply NE|]. by intros [|].
Qed.

(** Fewer timers than addresses. *)
Lemma timer_nodes_bound s (f : timer_ptr -> node_addr) ns x :
  (forall y, timer_ok s y) -> NoDup ns -> timer_valid s x -> f x ∉ ns ->
  (forall n, n ∈ ns -> exists y, n = f y /\ timer_valid s y) -> Z.of_nat (length ns) < SIZE_MAX.
Proof.
  intros OK ND Hx Hn Hf.
  assert (exists ys, ns = f <$> ys /\ forall y, y ∈ ys -> timer_valid s y) as (ys & -> & Hy).
  { clear ND Hn. induction ns as [|n ns IH]; [exists []; split; [done|]; by intros y ?%elem_of_nil|].
    destruct (Hf n) as (y & -> & Hy); [by apply elem_of_cons; left|].
    destruct IH as (ys & -> & Hys); [intros m Hm; apply Hf, elem_of_cons; by right|].
    exists (y :: ys). split; [done|]. intros z [->|Hz]%elem_of_cons; auto. }
  assert (Z.of_nat (length (x :: ys)) <= SIZE_MAX) as HB; [|rewrite length_fmap; simpl in HB; lia].
  apply names_bound.
  - apply NoDup_cons. split; [|by eapply NoDup_fmap_1]. intros Hin. apply Hn, list_elem_of_fmap. eauto.
  - intros y [->|Hin]%elem_of_cons; by apply (tmo_name _ _ (OK _)); auto.
Qed.

Section calls.
Context (T : Z) (D : node_addr -> Z) (b : phase).

Lemma armed_member s V n : kstruct T D s V b -> n ∈ armed V b ->
  exists y c, n = TimerTimeoutNode y /\ node_list s n = Some (TimeoutHalf g_timer_timeouts c).
Proof.
  intros KS (c & Hc)%(pending_half V g_timer_timeouts). apply (half_member T D s V b KS) in Hc.
  pose proof (kt_fits _ _ _ _ _ KS _ _ Hc) as Hf. destruct n; try done. eauto.
Qed.
Lemma armed_bound s V x : kstruct T D s V b -> (forall y, timer_ok s y) -> timer_valid s x ->
  Z.of_nat (length (without (TimerTimeoutNode x) (armed V b))) < SIZE_MAX.
Proof.
  intros KS OK Hx. apply (timer_nodes_bound s TimerTimeoutNode _ x); try done.
  { apply NoDup_filter, (pending_nodup T D s V b KS). }
  { by intros [? _]%list_elem_of_filter. }
  intros n [_ (y & c & -> & Hl)%(armed_member s V n KS)]%list_elem_of_filter. exists y. split; [done|]. apply (tmo_linked _ _ (OK y)). left. by rewrite Hl.
Qed.
Lemma pending_timer s V n ps : kstruct T D s V b -> V !! PendingTimers = Some ps -> n ∈ ps ->
  exists y, n = TimerPendingNode y /\ node_list s n = Some PendingTimers.
Proof.
  intros KS Hps Hn. apply (kt_member _ _ _ _ _ KS _ _ _ Hps) in Hn. pose proof (kt_fits _ _ _ _ _ KS _ _ Hn) as Hf.
  destruct n; try done. eauto.
Qed.
Lemma pending_timers_bound s V x ps : kstruct T D s V b -> (forall y, timer_ok s y) -> timer_valid s x ->
  V !! PendingTimers = Some ps -> Z.of_nat (length (without (TimerPendingNode x) ps)) < SIZE_MAX.
Proof.
  intros KS OK Hx Hps. apply (timer_nodes_bound s TimerPendingNode _ x); try done.
  { apply NoDup_filter. by eapply (kt_nodup T D s V b KS). }
  { by intros [? _]%list_elem_of_filter. }
  intros n [_ Hin]%list_elem_of_filter. destruct (pending_timer s V n ps KS Hps Hin) as (y & -> & Hl). exists y. split; [done|].
  apply (tmo_linked _ _ (OK y)). right. by rewrite Hl.
Qed.

(** An active timer between calls is in one of the halves of the timeouts of the timers. *)
Lemma active_linked s V x : kcore T D s V b nobody -> no_expired s -> timer_valid s x ->
  if tm_active (timer_at s x) then exists c, node_list s (TimerTimeoutNode x) = Some (TimeoutHalf g_timer_timeouts c)
  else node_list s (TimerTimeoutNode x) = None.
Proof.
  intros KC NE Hx. pose proof (tmo_active _ _ (ob_timers _ (kc_objects _ _ _ _ _ _ KC) x) Hx) as Ha.
  destruct (node_list s (TimerTimeoutNode x)) as [l|] eqn:El.
  - rewrite (proj2 Ha) by eauto. pose proof (kt_fits _ _ _ _ _ (kc_struct _ _ _ _ _ _ KC) _ _ El) as Hf.
    destruct l; try done; [simpl in Hf; subst; eauto|]. by destruct (NE (TimerTimeoutNode x)).
  - destruct (tm_active (timer_at s x)); [|done]. by destruct (proj1 Ha eq_refl).
Qed.

Lemma timers_view s V x : kcore T D s V b nobody -> timer_valid s x -> exists ps, V !! PendingTimers = Some ps.
Proof.
  intros KC Hx. apply (kt_timer_list _ _ _ _ _ (kc_struct _ _ _ _ _ _ KC)).
  exact (tmo_system _ _ (ob_timers _ (kc_objects _ _ _ _ _ _ KC) x) Hx).
Qed.

(** The timer [x] armed with the period [p], and disarmed; no expiry of it is pending. *)
Record restarted (s s' : kstate) (V V' : view) (x : timer_ptr) (p : Z) : Prop := {
  rs_step : timer_step s s' x;
  rs_timer : timer_at s' x = tm_set_active true (tm_set_pending_count 0 (tm_set_period_ticks p (timer_at s x)));
  rs_armed : armed V' b = insert_by (rearmed D x (ph_timers b + p)) (TimerTimeoutNode x) (without (TimerTimeoutNode x) (armed V b));
  rs_pending : forall ps, V !! PendingTimers = Some ps -> V' !! PendingTimers = Some (without (TimerPendingNode x) ps);
  rs_view : timers_only V V';
}.
Record halted (s s' : kstate) (V V' : view) (x : timer_ptr) : Prop := {
  ht_step : timer_step s s' x;
  ht_timer : timer_at s' x = tm_set_active false (tm_set_pending_count 0 (timer_at s x));
  ht_armed : armed V' b = without (TimerTimeoutNode x) (armed V b);
  ht_pending : forall ps, V !! PendingTimers = Some ps -> V' !! PendingTimers = Some (without (TimerPendingNode x) ps);
  ht_view : timers_only V V';
}.

(** What a timer has that no operation of its own changes, and how [timer_ok] follows. *)
Lemma timer_ok_after s s' x : timer_ok s x -> timer_valid s x -> timer_step s s' x ->
  tm_magic (timer_at s' x) = tm_magic (timer_at s x) -> timer_range (timer_at s' x) ->
  (tm_active (timer_at s' x) = true <-> is_Some (node_list s' (TimerTimeoutNode x))) ->
  (0 < tm_pending_count (timer_at s' x) <-> is_Some (node_list s' (TimerPendingNode x))) -> timer_ok s' x.
Proof.
  intros OK Hx TS Hm Hr Ha Hp. assert (Hx' : timer_valid s' x) by (unfold timer_valid; by rewrite Hm).
  assert (HG : glob s' = glob s) by (by rewrite (ts_rest _ _ _ TS)).
  destruct OK as [_ O2 _ _ _ O6 O7]. split; rewrite ?(ts_owner _ _ _ TS), ?HG; auto.
Qed.

Lemma rearm_spec s V x s1 V1 p Q :
  kcore T D s V b nobody -> no_expired s -> timer_valid s x ->
  kstruct T D s1 V1 b -> timer_step s s1 x -> node_list s1 (TimerTimeoutNode x) = None ->
  timer_at s1 x = tm_set_period_ticks p (tm_set_active false (timer_at s x)) -> 0 < p < HR_WAIT_FOREVER ->
  armed V1 b = without (TimerTimeoutNode x) (armed V b) ->
  (forall l, (forall d, l <> TimeoutHalf g_timer_timeouts d) -> V1 !! l = V !! l) ->
  (forall s' V', kcore T (rearmed D x (ph_timers b + p)) s' V' b nobody -> no_expired s' ->
     restarted s s' V V' x p -> Q HR_OK s') ->
  wp (hr_timer_clear_pending_locked x ;;; hr_timer_arm_locked x) Q s1.
Proof.
  intros KC NE Hx KS1 TS1 Hl1 HT1 Hp HA1 HV1 K. destruct (timers_view s V x KC Hx) as [ps Hps].
  pose proof (ob_timers _ (kc_objects _ _ _ _ _ _ KC)) as OK. pose proof (tmo_system _ _ (OK x) Hx) as Hi.
  wp_step. apply (clear_pending_spec T D b s1 V1 x ps _ KS1); [by rewrite HV1|].
  intros s2 V2 KS2 TS2 HT2 Hn2 Hl2 HP2 HV2.
  pose proof (timer_step_trans _ _ _ _ TS1 TS2) as TS.
  assert (HA2 : armed V2 b = without (TimerTimeoutNode x) (armed V b)).
  { rewrite <- HA1. unfold armed, pending, half. by rewrite !HV2. }
  apply (arm_spec T D b s2 V2 x); [done|by rewrite (ts_rest _ _ _ TS)|by rewrite Hl2| | | |].
  - rewrite (ts_owner _ _ _ TS). by apply (tmo_owner _ _ (OK x)).
  - by rewrite HT2, HT1.
  - rewrite HA2. by apply (armed_bound s V x (kc_struct _ _ _ _ _ _ KC)).
  - intros s3 V3 c KS3 SF HA3 HV3. rewrite HT2, HT1 in *. cbn [tm_period_ticks tm_set_pending_count tm_set_period_ticks] in *.
    match goal with |- Q HR_OK (set_timer x ?c' s3) => set (s' := set_timer x c' s3) in * end.
    assert (TS' : timer_step s s' x).
    { eapply timer_step_trans; [exact TS|]. eapply timer_step_trans; [|apply timer_step_set].
      eapply timer_step_link; [|exact SF]. by left. }
    assert (HN : node_list s' (TimerTimeoutNode x) = Some (TimeoutHalf g_timer_timeouts c) /\ node_list s' (TimerPendingNode x) = None).
    { change (node_list s3 (TimerTimeoutNode x) = Some (TimeoutHalf g_timer_timeouts c) /\ node_list s3 (TimerPendingNode x) = None).
      rewrite !(sf_list _ _ _ _ SF), decide_True, decide_False by done. done. }
    destruct HN as [N1 N2].
    assert (HT : timer_at s' x = tm_set_active true (tm_set_pending_count 0 (tm_set_period_ticks p (timer_at s x)))).
    { unfold s'. rewrite timer_at_set_eq. by destruct (timer_at s x). }
    apply (K s' V3).
    + apply (kcore_timer T D b s s' V V3 _ _ _ x KC KS3 TS'). apply (timer_ok_after s s' x (OK x) Hx TS'); rewrite ?HT, ?N1, ?N2; [done| | |].
      * by destruct (tmo_range _ _ (OK x) Hx).
      * split; [eauto|done].
      * split; [simpl; lia|by intros []].
    + eapply timer_step_no_expired; [exact TS'|done|]. intros n [-> | ->]; rewrite ?N1, ?N2; done.
    + split; try done.
      * by rewrite HA3, HA2.
      * intros ps' E. assert (ps' = ps) as -> by congruence. rewrite HV3 by done. done.
      * intros l H1 H2 H3. rewrite HV3, HV2, HV1 by done. done.
Qed.

(** The guards of the four calls. *)
Lemma timer_call_spec s V x bad k Q :
  kcore T D s V b nobody -> timer_valid s x -> hr_port_is_inside_isr s = false ->
  (bad = true -> Q HR_ERROR_INVALID_ARGUMENT s) ->
  (bad = false -> wp (k x) (fun st s1 => ks_port s1 = ks_port (with_port (pt_set_primask 1 (ks_port s)) s) /\
     Q st (with_port (ks_port s) s1)) (with_port (pt_set_primask 1 (ks_port s)) s)) ->
  wp (timer_call (Some x) bad k) Q s.
Proof.
  intros KC Hx Hi K1 K2. unfold timer_call. wp_step. wp_step.
  rewrite (timer_is_valid s x (ob_timers _ (kc_objects _ _ _ _ _ _ KC) x) Hx), Hi. cbn [negb orb].
  destruct bad; [wp_step; by apply K1|]. wp_step. apply enter_critical_spec. wp_step.
  eapply wp_mono; [by apply K2|]. intros st s1 [Hp HQ]. wp_step. apply (exit_critical_spec s); [done|]. by wp_step.
Qed.

Lemma restarted_port p s s' V V' x q : restarted (with_port p s) s' V V' x q ->
  ks_port s' = p /\ restarted s (with_port (ks_port s) s') V V' x q.
Proof.
  intros [[R O L W] H2 H3 H4 H5]. split; [by rewrite R|]. split; try done. split; try done. rewrite R. done.
Qed.
Lemma halted_port p s s' V V' x : halted (with_port p s) s' V V' x ->
  ks_port s' = p /\ halted s (with_port (ks_port s) s') V V' x.
Proof.
  intros [[R O L W] H2 H3 H4 H5]. split; [by rewrite R|]. split; try done. split; try done. rewrite R. done.
Qed.

Section call.
Context (s : kstate) (V : view) (x : timer_ptr).
Hypotheses (KC : kcore T D s V b nobody) (NE : no_expired s) (Hx : timer_valid s x)
  (Hisr : hr_port_is_inside_isr s = false).
Let Hx0 : timer_valid (with_port (pt_set_primask 1 (ks_port s)) s) x := Hx.
Let KC0 : kcore T D (with_port (pt_set_primask 1 (ks_port s)) s) V b nobody := kcore_port _ _ _ _ _ _ _ KC.
Let OK : timer_ok s x := ob_timers _ (kc_objects _ _ _ _ _ _ KC) x.

Lemma timer_start_spec Q :
  (tm_active (timer_at s x) = true -> Q HR_ERROR_INVALID_STATE s) ->
  (forall s' V', tm_active (timer_at s x) = false ->
     kcore T (rearmed D x (ph_timers b + tm_period_ticks (timer_at s x))) s' V' b nobody -> no_expired s' ->
     restarted s s' V V' x (tm_period_ticks (timer_at s x)) -> Q HR_OK s') ->
  wp (hr_timer_start (Some x)) Q s.
Proof.
  intros K1 K2. apply (timer_call_spec s V); try done. intros _. wp_step. wp_step. set (s0 := with_port _ s).
  change (timer_at s0 x) with (timer_at s x). pose proof (active_linked s V x KC NE Hx) as Hl.
  destruct (tm_active (timer_at s x)) eqn:Ea.
  - wp_step. split; [done|]. unfold s0. rewrite with_port_twice, with_port_same. auto.
  - apply (rearm_spec s0 V x s0 V (tm_period_ticks (timer_at s x))); try done.
    + apply (kc_struct _ _ _ _ _ _ KC0).
    + change (timer_at s0 x) with (timer_at s x). destruct (timer_at s x); simpl in *; by subst.
    + apply (tmo_range _ _ OK Hx).
    + symmetry. apply without_none. intros (y & c & [= <-] & E)%(armed_member s V _ (kc_struct _ _ _ _ _ _ KC)). congruence.
    + intros s' V' KC' NE' [Hp RS]%restarted_port. split; [done|]. apply (K2 _ V'); try done. by apply kcore_port.
Qed.

Lemma disarmed_spec (k : hr_status -> M kstate hr_status) Q :
  (forall s1 V1, kstruct T D s1 V1 b -> timer_step (with_port (pt_set_primask 1 (ks_port s)) s) s1 x ->
     timer_at s1 x = tm_set_active false (timer_at s x) -> node_list s1 (TimerTimeoutNode x) = None ->
     node_list s1 (TimerPendingNode x) = node_list s (TimerPendingNode x) ->
     armed V1 b = without (TimerTimeoutNode x) (armed V b) ->
     (forall l, (forall d, l <> TimeoutHalf g_timer_timeouts d) -> V1 !! l = V !! l) -> wp (k HR_OK) Q s1) ->
  wp (let* status := timer_disarm x in k status) Q (with_port (pt_set_primask 1 (ks_port s)) s).
Proof.
  intros K. wp_step. apply (disarm_spec T D b _ V x); [apply (kc_struct _ _ _ _ _ _ KC0)|exact (tmo_system _ _ OK Hx)| |done].
  exact (active_linked s V x KC NE Hx).
Qed.

Lemma timer_stop_spec Q :
  (forall s' V', kcore T D s' V' b nobody -> no_expired s' -> halted s s' V V' x -> Q HR_OK s') ->
  wp (hr_timer_stop (Some x)) Q s.
Proof.
  intros K. apply (timer_call_spec s V); try done. intros _. apply disarmed_spec.
  intros s1 V1 KS1 TS1 HT1 Hl1 Hn1 HA1 HV1. destruct (timers_view s V x KC Hx) as [ps Hps]. wp_step.
  apply (clear_pending_spec T D b s1 V1 x ps _ KS1); [by rewrite HV1|]. intros s2 V2 KS2 TS2 HT2 Hn2 Hl2 HP2 HV2. wp_step.
  set (s0 := with_port _ s) in *. pose proof (timer_step_trans _ _ _ _ TS1 TS2) as TS.
  assert (HT : timer_at s2 x = tm_set_active false (tm_set_pending_count 0 (timer_at s x))) by (rewrite HT2, HT1; by destruct (timer_at s x)).
  assert (KC2 : kcore T D s2 V2 b nobody).
  { apply (kcore_timer T D b s0 s2 V V2 _ _ _ x KC0 KS2 TS).
    apply (timer_ok_after s0 s2 x (ob_timers _ (kc_objects _ _ _ _ _ _ KC0) x) Hx0 TS); rewrite ?HT, ?Hn2, ?Hl2, ?Hl1; [done| | |].
    - by destruct (tmo_range _ _ OK Hx).
    - split; [done|by intros []].
    - split; [simpl; lia|by intros []]. }
  assert (HH : halted s0 s2 V V2 x).
  { split; try done.
    - rewrite <- HA1. unfold armed, pending, half. by rewrite !HV2.
    - intros ps' E. assert (ps' = ps) as -> by congruence. done.
    - intros l H1 H2 H3. by rewrite HV2, HV1. }
  apply halted_port in HH as [Hp HH]. split; [done|]. apply (K _ V2); [by apply kcore_port| |done].
  change (no_expired s2). eapply timer_step_no_expired; [exact TS|done|]. intros n [-> | ->]; rewrite ?Hn2, ?Hl2, ?Hl1; done.
Qed.

Lemma timer_reset_spec Q :
  (forall s' V', kcore T (rearmed D x (ph_timers b + tm_period_ticks (timer_at s x))) s' V' b nobody -> no_expired s' ->
     restarted s s' V V' x (tm_period_ticks (timer_at s x)) -> Q HR_OK s') ->
  wp (hr_timer_reset (Some x)) Q s.
Proof.
  intros K. apply (timer_call_spec s V); try done. intros _. apply disarmed_spec.
  intros s1 V1 KS1 TS1 HT1 Hl1 Hn1 HA1 HV1. ok_simpl. set (s0 := with_port _ s) in *.
  apply (rearm_spec s0 V x s1 V1 (tm_period_ticks (timer_at s x))); try done.
  - apply (tmo_range _ _ OK Hx).
  - intros s' V' KC' NE' [Hp RS]%restarted_port. split; [done|]. apply (K _ V'); try done. by apply kcore_port.
Qed.

Lemma timer_change_period_spec p Q :
  0 <= p <= UINT32_MAX ->
  ((p = 0 \/ p = HR_WAIT_FOREVER) -> Q HR_ERROR_INVALID_ARGUMENT s) ->
  (forall s' V', 0 < p < HR_WAIT_FOREVER -> kcore T (rearmed D x (ph_timers b + p)) s' V' b nobody -> no_expired s' ->
     restarted s s' V V' x p -> Q HR_OK s') ->
  wp (hr_timer_change_period (Some x) p) Q s.
Proof.
  intros Hp K1 K2. apply (timer_call_spec s V); try done.
  { rewrite orb_true_iff, !Z.eqb_eq. exact K1. }
  rewrite orb_false_iff, !Z.eqb_neq. intros [P1 P2]. apply disarmed_spec.
  intros s1 V1 KS1 TS1 HT1 Hl1 Hn1 HA1 HV1. ok_simpl. set (s0 := with_port _ s) in *. wp_step. apply wp_upd_timer.
  assert (Hp' : 0 < p < HR_WAIT_FOREVER) by (unfold HR_WAIT_FOREVER, UINT32_MAX in *; lia).
  apply (rearm_spec s0 V x _ V1 p); try done.
  - by apply kstruct_set_timer.
  - eapply timer_step_trans; [exact TS1|apply timer_step_set].
  - by rewrite timer_at_set_eq, HT1.
  - intros s' V' KC' NE' [Hq RS]%restarted_port. split; [done|]. apply (K2 _ V'); try done. by apply kcore_port.
Qed.
End call.

(** ** The turn of the service task *)

(** The first pending timer [x] gives up one expiry; it goes to the end of the list when it
    has more. *)
Record taken (s s' : kstate) (V V' : view) (x : timer_ptr) (ps : list node_addr) : Prop := {
  tu_step : timer_step s s' x;
  tu_timer : timer_at s' x =
    tm_set_callback_running true (tm_set_pending_count (tm_pending_count (timer_at s x) - 1) (timer_at s x));
  tu_node : node_list s' (TimerTimeoutNode x) = node_list s (TimerTimeoutNode x);
  tu_pending : V' !! PendingTimers = Some (if 1 <? tm_pending_count (timer_at s x) then ps ++ [TimerPendingNode x] else ps);
  tu_view : forall l, l <> PendingTimers -> V' !! l = V !! l;
}.

Lemma taken_port p s s' V V' x ps : taken (with_port p s) s' V V' x ps ->
  ks_port s' = p /\ taken s (with_port (ks_port s) s') V V' x ps.
Proof.
  intros [[R O L W] H2 H3 H4 H5]. split; [by rewrite R|]. split; try done. split; try done. rewrite R. done.
Qed.

(** Linking the pending node of a timer. *)
Lemma push_pending_spec s V x ps Q :
  kstruct T D s V b -> V !! PendingTimers = Some ps -> node_list s (TimerPendingNode x) = None ->
  node_owner s (TimerPendingNode x) = Some (PTimer x) -> Z.of_nat (length ps) < SIZE_MAX ->
  (forall s', kstruct T D s' (<[PendingTimers := ps ++ [TimerPendingNode x]]> V) b ->
     step_frame s s' (TimerPendingNode x) (Some PendingTimers) -> Q tt s') ->
  wp (ignoreM (lift (S := lmem) (hr_list_push_back (Some PendingTimers) (Some (PNode (TimerPendingNode x)))))) Q s.
Proof.
  intros KS Hps Hl Ho Hb K. unfold ignoreM. wp_step. wp_step.
  apply (hr_list_push_back_spec _ V PendingTimers _ (kt_rep _ _ _ _ _ KS) ps); try done. intros h Rep LF.
  destruct (kstruct_plain_step T D b s V h PendingTimers _ (TimerPendingNode x) _ KS eq_refl eq_refl ltac:(done)
    (or_introl (conj eq_refl (conj I Ho))) Rep LF) as [KS' SF].
  wp_step. by apply K.
Qed.

(** The end of the turn: the flag of the callback, and the invariant. *)
Lemma take_finish s V x ps s2 V2 Q :
  let s0 := with_port (pt_set_primask 1 (ks_port s)) s in
  let c1 := tm_set_pending_count (tm_pending_count (timer_at s x) - 1) (timer_at s x) in
  kcore T D s V b nobody -> no_expired s -> timer_valid s x -> 0 < tm_pending_count (timer_at s x) ->
  kstruct T D s2 V2 b -> timer_step s0 s2 x -> timer_at s2 x = c1 ->
  node_list s2 (TimerTimeoutNode x) = node_list s (TimerTimeoutNode x) ->
  node_list s2 (TimerPendingNode x) = (if 1 <? tm_pending_count (timer_at s x) then Some PendingTimers else None) ->
  V2 !! PendingTimers = Some (if 1 <? tm_pending_count (timer_at s x) then ps ++ [TimerPendingNode x] else ps) ->
  (forall l, l <> PendingTimers -> V2 !! l = V !! l) ->
  (forall s' V', kcore T D s' V' b nobody -> no_expired s' -> taken s s' V V' x ps ->
     Q (Some (x, tm_callback (timer_at s x), tm_argument (timer_at s x))) s') ->
  wp (upd_timer x (tm_set_callback_running true) ;;; hr_port_exit_critical (pt_primask (ks_port s)) ;;;
      retM (Some (x, tm_callback c1, tm_argument c1))) Q s2.
Proof.
  intros s0 c1 KC NE Hx Hpos KS2 TS2 HT2 N1 N2 HP2 HV2 K. wp_step. apply wp_upd_timer. rewrite HT2.
  set (c2 := tm_set_callback_running _ _). set (s3 := set_timer x c2 s2).
  pose proof (ob_timers _ (kc_objects _ _ _ _ _ _ KC) x) as OK. destruct (tmo_range _ _ OK Hx) as [G1 G2 G3 G4].
  assert (TS3 : timer_step s0 s3 x) by (eapply timer_step_trans; [exact TS2|apply timer_step_set]).
  assert (HT3 : timer_at s3 x = c2) by apply timer_at_set_eq.
  assert (TK : taken s0 s3 V V2 x ps) by (split; try done; by rewrite HT3).
  apply taken_port in TK as [Hp TK]. wp_step. apply (exit_critical_spec s); [done|]. wp_step.
  change (node_list s2) with (node_list s3) in N1, N2.
  apply (K _ V2); [| |done].
  - apply kcore_port, (kcore_timer T D b s0 s3 V V2 _ _ _ x (kcore_port _ _ _ _ _ _ _ KC)); [by apply kstruct_set_timer|done|].
    apply (timer_ok_after s0 s3 x (ob_timers _ (kc_objects _ _ _ _ _ _ (kcore_port _ _ _ _ _ _ _ KC)) x) Hx TS3); rewrite ?HT3; [done| | |].
    + split; simpl; try done. lia.
    + rewrite N1. exact (tmo_active _ _ OK Hx).
    + rewrite N2. simpl. destruct (Z.ltb_spec 1 (tm_pending_count (timer_at s x))); split; try lia; [eauto|by intros []].
  - change (no_expired s3). eapply timer_step_no_expired; [exact TS3|done|].
    intros n [-> | ->]; [rewrite N1; apply NE|]. rewrite N2. by destruct (1 <? _).
Qed.

Lemma take_pending_spec s V ps Q :
  kcore T D s V b nobody -> no_expired s -> g_timer_system_initialized (glob s) = true ->
  V !! PendingTimers = Some ps ->
  (ps = [] -> Q None s) ->
  (forall x ps' s' V', ps = TimerPendingNode x :: ps' -> timer_valid s x -> 0 < tm_pending_count (timer_at s x) ->
     kcore T D s' V' b nobody -> no_expired s' -> taken s s' V V' x ps' ->
     Q (Some (x, tm_callback (timer_at s x), tm_argument (timer_at s x))) s') ->
  wp timer_take_pending Q s.
Proof.
  intros KC NE Hi Hps K1 K2. unfold timer_take_pending. wp_step. wp_step. rewrite Hi. cbn [negb].
  wp_step. apply enter_critical_spec. set (s0 := with_port _ s). wp_step. wp_step.
  assert (KC0 : kcore T D s0 V b nobody) by (by apply kcore_port). pose proof (kc_struct _ _ _ _ _ _ KC0) as KS0.
  apply (hr_list_pop_front_spec _ V PendingTimers ps _ (kt_rep _ _ _ _ _ KS0) Hps).
  { intros E. wp_step. apply (exit_critical_spec s); [done|]. wp_step.
    replace (with_port (ks_port s) _) with s by (by destruct s as [[]]). auto. }
  intros n ps' h -> Rep LF. destruct (pending_timer s V n _ (kc_struct _ _ _ _ _ _ KC) Hps ltac:(by apply elem_of_cons; left)) as (x & -> & Hl).
  pose proof (ob_timers _ (kc_objects _ _ _ _ _ _ KC)) as OK.
  assert (Hx : timer_valid s x) by (apply (tmo_linked _ _ (OK x)); right; by rewrite Hl).
  assert (Hpos : 0 < tm_pending_count (timer_at s x)) by (apply (tmo_pending _ _ (OK x) Hx); eauto).
  destruct (kstruct_plain_step T D b s0 V h PendingTimers ps' (TimerPendingNode x) None KS0 eq_refl eq_refl ltac:(done) (or_intror eq_refl) Rep LF) as [KS1 SF1].
  wp_step. wp_step. change (part_set h s0) with (ks_set_store (set_lists h (ks_store s0)) s0). set (s1 := ks_set_store _ s0) in *.
  fold (node_owner s1 (TimerPendingNode x)). rewrite (sf_owner _ _ _ _ SF1).
  change (node_owner s0 (TimerPendingNode x)) with (node_owner s (TimerPendingNode x)).
  rewrite (proj2 (tmo_owner _ _ (OK x) Hx)). cbn [cast_timer].
  assert (hr_timer_is_valid s1 (Some x) = true) as -> by exact (timer_is_valid s x (OK x) Hx).
  change (timer_at s1 x) with (timer_at s x). rewrite (proj2 (Z.eqb_neq _ _)) by lia. cbn [negb orb].
  pose proof (tg_pending _ (tmo_range _ _ (OK x) Hx)).
  wp_step. apply wp_upd_timer. change (timer_at s1 x) with (timer_at s x). rewrite u32_small by (unfold UINT32_MAX in *; lia).
  set (c1 := tm_set_pending_count _ _). wp_step. wp_step. rewrite timer_at_set_eq.
  assert (TS1 : timer_step s0 (set_timer x c1 s1) x).
  { eapply timer_step_trans; [|apply timer_step_set]. eapply timer_step_link; [|exact SF1]. by right. }
  assert (HN1 : forall n, node_list (set_timer x c1 s1) n = if decide (n = TimerPendingNode x) then None else node_list s n)
    by apply (sf_list _ _ _ _ SF1).
  assert (HF := take_finish s V x ps'). fold s0 c1 in HF. cbv zeta in HF.
  wp_step. change (tm_pending_count c1) with (tm_pending_count (timer_at s x) - 1).
  destruct (Z.ltb_spec 0 (tm_pending_count (timer_at s x) - 1)) as [H1|H1];
    [rewrite (proj2 (Z.ltb_lt 1 _)) in HF by lia|rewrite (proj2 (Z.ltb_ge 1 _)) in HF by lia; wp_step].
  - apply (push_pending_spec _ (<[PendingTimers := ps']> V) x ps').
    + by apply kstruct_set_timer.
    + apply lookup_insert_eq.
    + by rewrite HN1, decide_True.
    + change (node_owner s1 (TimerPendingNode x) = Some (PTimer x)). rewrite (sf_owner _ _ _ _ SF1). apply (tmo_owner _ _ (OK x) Hx).
    + pose proof (pending_timers_bound s V x _ (kc_struct _ _ _ _ _ _ KC) OK Hx Hps) as HB.
      pose proof (without_split (TimerPendingNode x) [] ps' (kt_nodup T D s V b (kc_struct _ _ _ _ _ _ KC) _ _ Hps)) as E.
      simpl in E. by rewrite E in HB.
    + intros s2 KS2 SF2. eapply HF; try done.
      * eapply timer_step_trans; [exact TS1|]. eapply timer_step_link; [|exact SF2]. by right.
      * rewrite (sf_rest _ _ _ _ SF2). exact (timer_at_set_eq x c1 s1).
      * by rewrite (sf_list _ _ _ _ SF2), decide_False, HN1, decide_False.
      * by rewrite (sf_list _ _ _ _ SF2), decide_True.
      * by rewrite insert_insert_eq, lookup_insert_eq.
      * intros l Hne. by rewrite !lookup_insert_ne.
      * intros s' V'. by apply (K2 x ps' s' V').
  - apply (HF _ (<[PendingTimers := ps']> V)); try done.
    + by apply kstruct_set_timer.
    + apply timer_at_set_eq.
    + by rewrite HN1, decide_True.
    + apply lookup_insert_eq.
    + intros l Hne. by rewrite lookup_insert_ne.
    + intros s' V'. by apply (K2 x ps' s' V').
Qed.

Lemma callback_done_spec s V x Q :
  kcore T D s V b nobody ->
  (forall s', kcore T D s' V b nobody -> timer_step s s' x ->
     timer_at s' x = tm_set_callback_running false (timer_at s x) ->
     (forall n, node_list s' n = node_list s n) -> Q tt s') ->
  wp (timer_callback_done x) Q s.
Proof.
  intros KC K. unfold timer_callback_done. wp_step. apply enter_critical_spec. wp_step. apply wp_upd_timer.
  set (s0 := with_port _ s). set (s1 := set_timer x _ s0). assert (KC0 : kcore T D s0 V b nobody) by (by apply kcore_port).
  apply (exit_critical_spec s); [done|]. apply K.
  - apply kcore_port, (kcore_timer T D b s0 s1 V V D b nobody x KC0); [by apply kstruct_set_timer, KC0|apply timer_step_set|].
    assert (E : timer_at s1 x = tm_set_callback_running false (timer_at s x)) by apply timer_at_set_eq.
    destruct (ob_timers _ (kc_objects _ _ _ _ _ _ KC) x) as [T1 T2 T3 T4 T5 T6 T7].
    split; unfold timer_valid in *; rewrite ?E; try done. intros Hx. by destruct (T5 Hx).
  - split; try done. intros y Hy. apply (ts_other _ _ _ (timer_step_set s0 x _) y Hy).
  - exact (timer_at_set_eq x _ s0).
  - done.
Qed.
End calls.
