(* ===== verification/TimerTickSpec.v ===== *)
(** The expiry of software timers in the tick interrupt: [hr_timer_tick_from_isr] moves the
    due timers to the list of the service task, arms the periodic ones again and signals
    the service task. *)
From stdpp Require Import gmap list.
From Stdlib Require Import ZArith Lia.
From S2P Require Import Prelude Types HrList HrListSpec Store Scheduler SchedulerSpec WaitList WaitListSpec Timeout TimeoutSpec KState TaskCore KernelBase KernelInv MutexPriority Kernel Semaphore Timer KernelTasks KernelSpec SemaphoreSpec TimerSpec.
Open Scope Z_scope.
Set Warnings "-clear-no-such-hyp".

(** ** Moving the due timers to the scratch list *)
Section advance.
Context (T : Z) (D : node_addr -> Z) (b : phase).

(** The timers one tick later. *)
Definition timers_next : phase :=
  mk_phase (ph_half b) (ph_timers b + 1)
    (if decide ((ph_timers b + 1) / period = ph_timers b / period) then ph_timers_half b else negb (ph_timers_half b)) (ph_timers_on b).
Definition due_timer_nodes (V : view) : list node_addr := due D (ph_timers b + 1) (armed V b).

Record timers_moved (s s' : kstate) (V : view) : Prop := {
  tv_rest : s' = ks_set_store (ks_store s') s;
  tv_list : forall n, node_list s' n = if decide (n ∈ due_timer_nodes V) then Some ExpiredTimers else node_list s n;
  tv_owner : forall n, node_owner s' n = node_owner s n;
  tv_priority : st_priority (ks_store s') = st_priority (ks_store s);
}.

Lemma due_timer_linked s V n : kstruct T D s V b -> n ∈ due_timer_nodes V ->
  exists x c, n = TimerTimeoutNode x /\ node_list s n = Some (TimeoutHalf g_timer_timeouts c).
Proof.
  intros KS Hn. apply (armed_member T D b s V n KS). rewrite <- (due_app D (ph_timers b + 1) (armed V b)).
  apply elem_of_app. by left.
Qed.

Lemma moved_kept s s' V n : kstruct T D s V b -> timers_moved s s' V ->
  (forall x, n <> TimerTimeoutNode x) -> node_list s' n = node_list s n.
Proof.
  intros KS TV Hn. rewrite (tv_list _ _ _ TV), decide_False; [done|].
  intros (x & c & -> & _)%(due_timer_linked s V n KS). by destruct (Hn x).
Qed.

Lemma moved_struct s s' V V' :
  kstruct T D s V b -> timers_moved s s' V ->
  lists_rep (st_lists (ks_store s')) V' ->
  timeout_rep (ks_store s') V' g_timer_timeouts (ph_timers timers_next) D (ph_timers_half timers_next) ->
  st_wake (ks_store s') = st_wake (ks_store s) -> timeout_frame (ks_store s) (ks_store s') g_timer_timeouts ->
  (forall l, l <> ExpiredTimers -> (forall c, l <> TimeoutHalf g_timer_timeouts c) -> V' !! l = V !! l) ->
  kstruct T D s' V' timers_next.
Proof.
  intros KS TV Rep TR HW [F1 F2 F3] HV. pose proof (tv_rest _ _ _ TV) as R.
  assert (HL : forall n, (forall x, n <> TimerTimeoutNode x) -> node_list s' n = node_list s n) by (intros; by eapply moved_kept).
  assert (HP : forall n, priority_at (ks_store s') n = priority_at (ks_store s) n).
  { intros n. unfold priority_at. by rewrite F1. }
  assert (Hreg : forall u, registered s' u <-> registered s u) by (intros u; unfold registered; by rewrite HL).
  assert (HG : glob s' = glob s) by (by rewrite R).
  constructor; try done.
  - apply (ready_rep_frame (ks_store s) _ V); [apply KS| | |].
    + unfold ready_at. by rewrite F2.
    + intros p. by apply HV.
    + intros n p _. apply HP.
  - apply (timeout_rep_frame (ks_store s) _ V _ _ T D D b (kt_timeout _ _ _ _ _ KS)); [by apply F3|intros c; by apply HV|].
    intros n _. unfold wake_at. by rewrite HW.
  - destruct (kt_timers _ _ _ _ _ KS) as [T1 T2 T3]. split; rewrite ?HG; [exact T1|done|by rewrite HV].
  - intros l Hl. destruct (kt_objects _ _ _ _ _ KS l) as [ns Hns].
    { rewrite R in Hl. destruct l; try done. by apply Hreg. }
    rewrite HV; [eauto|by intros ->|by intros c ->].
  - intros n l. rewrite (tv_list _ _ _ TV), (tv_owner _ _ _ TV). destruct (decide (n ∈ due_timer_nodes V)) as [Hd|]; [|apply KS].
    intros _. destruct (due_timer_linked s V n KS Hd) as (x & c & -> & Hl). by eapply KS.
  - intros n l. rewrite (tv_list _ _ _ TV). destruct (decide (n ∈ due_timer_nodes V)) as [Hd|]; [|apply KS].
    intros [= <-]. by destruct (due_timer_linked s V n KS Hd) as (x & c & -> & _).
  - intros n l u. rewrite (tv_list _ _ _ TV), Hreg. destruct (decide (n ∈ due_timer_nodes V)) as [Hd|].
    + by destruct (due_timer_linked s V n KS Hd) as (x & c & -> & _).
    + by apply (kt_registered _ _ _ _ _ KS).
  - intros l ns Hw Hns. rewrite HV in Hns by (intros; intros ->; done).
    apply (sorted_by_shift (priority_at (ks_store s)) _ 0); [|by eapply KS]. intros n _. rewrite HP. lia.
  - rewrite HV, HG by done. apply KS.
  - intros t Ht%Hreg. rewrite !HP. assert (task_at s' t = task_at s t) as -> by (by rewrite R). by apply KS.
Qed.

Lemma moved_kcore s s' V V' :
  kcore T D s V b nobody -> timers_moved s s' V -> kstruct T D s' V' timers_next -> kcore T D s' V' timers_next nobody.
Proof.
  intros KC TV KS'. pose proof (kc_struct _ _ _ _ _ _ KC) as KS. pose proof (tv_rest _ _ _ TV) as R.
  apply (kcore_timers T D b s s' V V' D _ _ KC KS').
  - split; [rewrite R; by destruct s| |apply (tv_owner _ _ _ TV)].
    intros n Hn. apply (moved_kept s s' V n KS TV). intros x ->. apply (Hn x). by left.
  - intros x. destruct (ob_timers _ (kc_objects _ _ _ _ _ _ KC) x) as [T1 T2 T3 T4 T5 T6 T7].
    assert (FT : timer_at s' x = timer_at s x) by (by rewrite R).
    assert (FV : timer_valid s' x <-> timer_valid s x) by (unfold timer_valid; by rewrite FT).
    assert (FP : node_list s' (TimerPendingNode x) = node_list s (TimerPendingNode x)) by (by eapply moved_kept).
    assert (FL : is_Some (node_list s' (TimerTimeoutNode x)) <-> is_Some (node_list s (TimerTimeoutNode x))).
    { rewrite (tv_list _ _ _ TV). destruct (decide (TimerTimeoutNode x ∈ due_timer_nodes V)) as [Hd|]; [|done].
      destruct (due_timer_linked s V _ KS Hd) as (y & c & _ & ->). split; eauto. }
    assert (HG : glob s' = glob s) by (by rewrite R).
    split; rewrite ?FV, ?FT, ?FP, ?FL, ?(tv_owner _ _ _ TV), ?HG; done.
Qed.

Lemma no_expired_timers s V : kstruct T D s V b -> no_expired s -> V !! ExpiredTimers = None \/ V !! ExpiredTimers = Some [].
Proof.
  intros KS NE. destruct (V !! ExpiredTimers) as [[|n ns]|] eqn:E; [by right| |by left].
  destruct (NE n) as [_ []]. apply (kt_member _ _ _ _ _ KS _ _ _ E), elem_of_cons. by left.
Qed.

Lemma timers_advance_spec s V now Q :
  kcore T D s V b nobody -> no_expired s -> g_timer_system_initialized (glob s) = true -> now = u32 (ph_timers b + 1) ->
  (forall s' V', kcore T D s' V' timers_next nobody -> timers_moved s s' V ->
     V' !! ExpiredTimers = Some (due_timer_nodes V) -> armed V' timers_next = not_due D (ph_timers b + 1) (armed V b) ->
     (forall l, l <> ExpiredTimers -> (forall c, l <> TimeoutHalf g_timer_timeouts c) -> V' !! l = V !! l) -> Q HR_OK s') ->
  wp (lift (hr_list_init (Some ExpiredTimers))) (fun _ s1 =>
    wp (lift (hr_timeout_list_advance (Some g_timer_timeouts) now (Some ExpiredTimers))) Q s1) s.
Proof.
  intros KC NE Hi -> K. pose proof (kc_struct _ _ _ _ _ _ KC) as KS. wp_step. eapply wp_intro; [apply init_run|]. wp_step.
  set (V1 := <[ExpiredTimers := []]> V). set (st1 := set_lists (inited (st_lists (ks_store s)) ExpiredTimers) (ks_store s)).
  assert (Rep1 : lists_rep (st_lists st1) V1) by (apply rep_inited; [apply KS|by eapply no_expired_timers]).
  assert (HH : forall c, V1 !! TimeoutHalf g_timer_timeouts c = V !! TimeoutHalf g_timer_timeouts c).
  { intros c. unfold V1. by rewrite lookup_insert_ne. }
  assert (TR1 : timeout_rep st1 V1 g_timer_timeouts (ph_timers b) D (ph_timers_half b)).
  { by apply (timeout_rep_frame (ks_store s) _ V _ _ _ D D _ (kt_timer_rep _ _ _ _ _ KS Hi)). }
  assert (HP : pending V1 g_timer_timeouts (ph_timers_half b) = armed V b).
  { unfold armed, pending, half. by rewrite !HH. }
  apply (timeout_advance_spec st1 V1 g_timer_timeouts (ph_timers b) D (ph_timers_half b) TR1 ExpiredTimers); [done|apply lookup_insert_eq|done|].
  intros st' V' EV Rep TR EP MF HW TF. rewrite HP in *. fold (due_timer_nodes V) in EV, MF.
  match goal with |- Q HR_OK ?x => set (s' := x) end.
  assert (TV : timers_moved s s' V).
  { split; try done.
    - intros n. unfold node_list, s'; simpl. rewrite (mf_list _ _ _ _ MF). simpl. rewrite inited_node.
      rewrite (decide_ext (PNode n ∈ PNode <$> due_timer_nodes V) (n ∈ due_timer_nodes V)); [done|].
      rewrite list_elem_of_fmap. split; [by intros (m & [= ->] & ?)|eauto].
    - intros n. unfold node_owner, s'; simpl. rewrite (mf_owner _ _ _ _ MF). simpl. by rewrite inited_node.
    - apply TF. }
  assert (HV : forall l, l <> ExpiredTimers -> (forall c, l <> TimeoutHalf g_timer_timeouts c) -> V' !! l = V !! l).
  { intros l H1 H2. rewrite EV. unfold V1. rewrite !lookup_insert_ne by done. done. }
  apply (K s' V'); try done.
  - apply (moved_kcore s s' V V' KC TV). apply (moved_struct s s' V V' KS TV); try done. by destruct TF.
  - rewrite EV. apply lookup_insert_eq.
Qed.
End advance.

(** ** The expiry of one timer *)

(** One more expiry to serve, saturating; a periodic timer stays armed. *)
Definition one_more (c : hr_timer_control_block_t) : Z := Z.min (tm_pending_count c + 1) UINT32_MAX.
Definition expired_block (c : hr_timer_control_block_t) : hr_timer_control_block_t :=
  tm_set_active (tm_auto_reload c) (tm_set_pending_count (one_more c) c).
Definition next_deadlines (D : node_addr -> Z) (x : timer_ptr) (c : hr_timer_control_block_t) (now : Z) : node_addr -> Z :=
  if tm_auto_reload c then rearmed D x (now + tm_period_ticks c) else D.
(** The timers that were not pending yet join the list. *)
Definition joining (s : kstate) (x : timer_ptr) : list node_addr :=
  if tm_pending_count (timer_at s x) =? 0 then [TimerPendingNode x] else [].

Section expiry.
Context (T : Z) (D : node_addr -> Z) (b : phase).

Lemma pop_expired_struct s V h x ns :
  kstruct T D s V b -> V !! ExpiredTimers = Some (TimerTimeoutNode x :: ns) ->
  lists_rep h (<[ExpiredTimers := ns]> V) -> link_frame (st_lists (ks_store s)) h (TimerTimeoutNode x) None ->
  let s' := ks_set_store (set_lists h (ks_store s)) s in
  kstruct T D s' (<[ExpiredTimers := ns]> V) b /\ step_frame s s' (TimerTimeoutNode x) None.
Proof.
  intros KS HV Rep LF. by apply (kstruct_plain_step T D b s V h ExpiredTimers ns (TimerTimeoutNode x) None KS); auto.
Qed.

(** The counters: out of the armed state, one more expiry. *)
Lemma count_expiry_spec s x Q :
  0 <= tm_pending_count (timer_at s x) <= UINT32_MAX ->
  Q tt (set_timer x (tm_set_active false (tm_set_pending_count (one_more (timer_at s x)) (timer_at s x))) s) ->
  wp (upd_timer x (tm_set_active false) ;;;
      if tm_pending_count (timer_at s x) <? UINT32_MAX
      then upd_timer x (fun c => tm_set_pending_count (u32 (tm_pending_count c + 1)) c) else retM tt) Q s.
Proof.
  intros Hr HQ. wp_step. apply wp_upd_timer. unfold one_more in HQ.
  destruct (Z.ltb_spec (tm_pending_count (timer_at s x)) UINT32_MAX).
  - apply wp_upd_timer. rewrite set_timer_twice, timer_at_set_eq.
    cbn [tm_pending_count tm_set_active]. rewrite u32_small by lia. rewrite Z.min_l in HQ by lia.
    by destruct (timer_at s x).
  - wp_step. rewrite Z.min_r in HQ by lia. replace UINT32_MAX with (tm_pending_count (timer_at s x)) in HQ by lia.
    by destruct (timer_at s x).
Qed.

(** Into the list of the service task. *)
Lemma join_pending_spec s s1 V x ps c Q :
  (forall y, timer_ok s y) -> kstruct T D s1 V b -> timer_valid s x -> timer_step s s1 x ->
  node_list s1 (TimerPendingNode x) = node_list s (TimerPendingNode x) ->
  node_list s1 (TimerTimeoutNode x) = None ->
  V !! PendingTimers = Some ps -> Z.of_nat (length (without (TimerPendingNode x) ps)) < SIZE_MAX ->
  timer_at s1 x = c ->
  (forall s2 V2, kstruct T D s2 V2 b -> timer_step s s2 x -> timer_at s2 x = c ->
     node_list s2 (TimerPendingNode x) = Some PendingTimers -> node_list s2 (TimerTimeoutNode x) = None ->
     V2 !! PendingTimers = Some (ps ++ joining s x) -> (forall l, l <> PendingTimers -> V2 !! l = V !! l) -> Q tt s2) ->
  wp (if negb (is_linked s1 (TimerPendingNode x))
      then ignoreM (lift (S := lmem) (hr_list_push_back (Some PendingTimers) (Some (PNode (TimerPendingNode x)))))
      else retM tt) Q s1.
Proof.
  intros OK KS1 Hx TS1 Hn Hl Hps HB HT K. unfold joining in K.
  pose proof (tmo_pending _ _ (OK x) Hx) as HP. pose proof (tg_pending _ (tmo_range _ _ (OK x) Hx)) as HR.
  destruct (node_list s (TimerPendingNode x)) as [l|] eqn:El.
  - rewrite linked_true by (rewrite Hn; eauto). cbn [negb]. wp_step.
    pose proof (kt_fits _ _ _ _ _ KS1 _ _ Hn) as Hf. destruct l; try done.
    assert (0 < tm_pending_count (timer_at s x)) by (apply HP; eauto).
    rewrite (proj2 (Z.eqb_neq _ _)), app_nil_r in K by lia. by apply (K s1 V).
  - assert (tm_pending_count (timer_at s x) = 0) as E0.
    { destruct (Z.ltb_spec 0 (tm_pending_count (timer_at s x))) as [H|H]; [|lia]. by destruct (proj1 HP H). }
    rewrite E0, Z.eqb_refl in K. rewrite linked_false by done. cbn [negb].
    rewrite without_none in HB; [|intros Hin; apply (kt_member _ _ _ _ _ KS1 _ _ _ Hps) in Hin; congruence].
    apply (push_pending_spec T D b s1 V x ps); try done.
    { rewrite (ts_owner _ _ _ TS1). apply (tmo_owner _ _ (OK x) Hx). }
    intros s2 KS2 SF2. apply (K s2 _ KS2).
    + eapply timer_step_trans; [exact TS1|]. eapply timer_step_link; [|exact SF2]. by right.
    + rewrite (sf_rest _ _ _ _ SF2). exact HT.
    + by rewrite (sf_list _ _ _ _ SF2), decide_True.
    + by rewrite (sf_list _ _ _ _ SF2), decide_False.
    + apply lookup_insert_eq.
    + intros l Hne. by rewrite lookup_insert_ne.
Qed.

(** A periodic timer is armed again, one period after the tick. *)
Lemma reload_spec s V x c Q :
  kstruct T D s V b -> g_timer_system_initialized (glob s) = true -> node_list s (TimerTimeoutNode x) = None ->
  node_owner s (TimerTimeoutNode x) = Some (PTimer x) -> timer_range c ->
  timer_at s x = tm_set_active false (tm_set_pending_count (one_more c) c) ->
  Z.of_nat (length (armed V b)) < SIZE_MAX ->
  (forall s' V', kstruct T (next_deadlines D x c (ph_timers b)) s' V' b -> timer_step s s' x ->
     timer_at s' x = expired_block c ->
     node_list s' (TimerPendingNode x) = node_list s (TimerPendingNode x) ->
     (if tm_auto_reload c then exists d, node_list s' (TimerTimeoutNode x) = Some (TimeoutHalf g_timer_timeouts d)
      else node_list s' (TimerTimeoutNode x) = None) ->
     (forall l, (forall d, l <> TimeoutHalf g_timer_timeouts d) -> V' !! l = V !! l) -> Q true s') ->
  wp (if tm_auto_reload c then let* status := hr_timer_arm_locked x in retM (ok status) else retM true) Q s.
Proof.
  intros KS Hi Hl Ho Hr HT HB K. unfold next_deadlines, expired_block in K.
  destruct (tm_auto_reload c) eqn:Ea.
  - wp_step. apply (arm_spec T D b s V x); rewrite ?HT; cbn [tm_period_ticks tm_set_active tm_set_pending_count]; try done; [apply Hr|].
    intros s1 V' d KS1 SF _ HV. wp_step. change (ok HR_OK) with true.
    match goal with |- Q true (set_timer x ?c' s1) => set (s' := set_timer x c' s1) in * end.
    assert (HN : forall n, node_list s' n = if decide (n = TimerTimeoutNode x) then Some (TimeoutHalf g_timer_timeouts d) else node_list s n)
      by apply (sf_list _ _ _ _ SF).
    apply (K s' V'); try done.
    + eapply timer_step_trans; [|apply timer_step_set]. eapply timer_step_link; [|exact SF]. by left.
    + unfold s'. by rewrite timer_at_set_eq.
    + exists d. by rewrite HN, decide_True.
  - wp_step. apply (K s V); try done. apply timer_step_refl.
Qed.
End expiry.

(** ** The loop over the expired timers *)
Section loop.
Context (T : Z) (b : phase).

(** An expired timer is out of the scratch list, pending, and armed when it is periodic. *)
Record expired_timer (s s' : kstate) (x : timer_ptr) : Prop := {
  xt_step : timer_step s s' x;
  xt_timer : timer_at s' x = expired_block (timer_at s x);
  xt_pending : node_list s' (TimerPendingNode x) = Some PendingTimers;
  xt_timeout : if tm_auto_reload (timer_at s x)
    then exists d, node_list s' (TimerTimeoutNode x) = Some (TimeoutHalf g_timer_timeouts d)
    else node_list s' (TimerTimeoutNode x) = None;
}.

Lemma expired_timer_ok s s' x : timer_ok s x -> timer_valid s x -> expired_timer s s' x -> timer_ok s' x.
Proof.
  intros OK Hx [TS HT HP HL]. destruct (tmo_range _ _ OK Hx) as [G1 G2 G3 G4].
  apply (timer_ok_after s s' x OK Hx TS); rewrite ?HT; unfold expired_block, one_more; simpl.
  - done.
  - split; simpl; try done. lia.
  - destruct (tm_auto_reload (timer_at s x)); [destruct HL as [d ->]; split; eauto|rewrite HL; split; [done|by intros []]].
  - rewrite HP. split; [eauto|]. intros _. unfold UINT32_MAX. lia.
Qed.

Lemma expire_one_spec D s V h x ns ps fuel any Q :
  kcore T D s V b nobody -> g_timer_system_initialized (glob s) = true ->
  V !! ExpiredTimers = Some (TimerTimeoutNode x :: ns) -> V !! PendingTimers = Some ps ->
  lists_rep h (<[ExpiredTimers := ns]> V) -> link_frame (st_lists (ks_store s)) h (TimerTimeoutNode x) None ->
  (forall s' V', kcore T (next_deadlines D x (timer_at s x) (ph_timers b)) s' V' b nobody -> expired_timer s s' x ->
     V' !! ExpiredTimers = Some ns -> V' !! PendingTimers = Some (ps ++ joining s x) -> timers_only V V' ->
     wp (let* node := lift (hr_list_pop_front (Some ExpiredTimers)) in timer_expire_loop fuel node true) Q s') ->
  wp (timer_expire_loop (S fuel) (Some (PNode (TimerTimeoutNode x))) any) Q (part_set h s).
Proof.
  intros KC Hi HV Hps Rep LF K. pose proof (kc_struct _ _ _ _ _ _ KC) as KS.
  pose proof (ob_timers _ (kc_objects _ _ _ _ _ _ KC)) as OK.
  assert (Hl : node_list s (TimerTimeoutNode x) = Some ExpiredTimers).
  { apply (kt_member _ _ _ _ _ KS _ _ _ HV), elem_of_cons. by left. }
  assert (Hx : timer_valid s x) by (apply (tmo_linked _ _ (OK x)); left; by rewrite Hl).
  assert (Ha : tm_active (timer_at s x) = true) by (apply (tmo_active _ _ (OK x) Hx); eauto).
  pose proof (tmo_range _ _ (OK x) Hx) as HR.
  destruct (pop_expired_struct T D b s V h x ns KS HV Rep LF) as [KS1 SF1].
  change (part_set h s) with (ks_set_store (set_lists h (ks_store s)) s). set (s1 := ks_set_store _ s) in *.
  cbn [timer_expire_loop]. wp_step. wp_step. fold (node_owner s1 (TimerTimeoutNode x)).
  rewrite (sf_owner _ _ _ _ SF1), (proj1 (tmo_owner _ _ (OK x) Hx)). cbn [cast_timer].
  assert (hr_timer_is_valid s1 (Some x) = true) as -> by exact (timer_is_valid s x (OK x) Hx).
  change (timer_at s1 x) with (timer_at s x). rewrite Ha. cbn [negb orb]. apply wp_assoc. wp_step.
  apply (count_expiry_spec s1 x); [apply HR|]. change (timer_at s1 x) with (timer_at s x).
  set (c := tm_set_active false _). set (s2 := set_timer x c s1).
  assert (TS2 : timer_step s s2 x).
  { eapply timer_step_trans; [|apply timer_step_set]. eapply timer_step_link; [|exact SF1]. by left. }
  assert (HN2 : forall n, node_list s2 n = if decide (n = TimerTimeoutNode x) then None else node_list s n) by apply (sf_list _ _ _ _ SF1).
  wp_step. apply (join_pending_spec T D b s s2 (<[ExpiredTimers := ns]> V) x ps c _ OK); try done.
  { by apply kstruct_set_timer. }
  { by rewrite HN2, decide_True. }
  { by rewrite lookup_insert_ne. }
  { by apply (pending_timers_bound T D b s V x ps KS OK Hx). }
  { apply timer_at_set_eq. }
  intros s3 V3 KS3 TS3 HT3 HP3 HL3 HV3 HVo3. wp_step.
  assert (HA3 : armed V3 b = armed V b).
  { unfold armed, pending, half. by rewrite !HVo3, !lookup_insert_ne by done. }
  assert (HB : Z.of_nat (length (armed V3 b)) < SIZE_MAX).
  { rewrite HA3. pose proof (armed_bound T D b s V x KS OK Hx) as HB. rewrite without_none in HB; [done|].
    intros (y & d & _ & E)%(armed_member T D b s V _ KS). congruence. }
  apply (reload_spec T D b s3 V3 x (timer_at s x)); try done.
  { by rewrite (ts_rest _ _ _ TS3). }
  { rewrite (ts_owner _ _ _ TS3). apply (tmo_owner _ _ (OK x) Hx). }
  intros s4 V4 KS4 TS4 HT4 HP4 HL4 HVo4. cbn [negb].
  assert (XT : expired_timer s s4 x) by (split; [by eapply timer_step_trans|done|by rewrite HP4|done]).
  apply (K s4 V4).
  - apply (kcore_timer T D b s s4 V V4 _ _ _ x KC KS4); [apply XT|]. by apply (expired_timer_ok s).
  - done.
  - rewrite HVo4, HVo3 by done. apply lookup_insert_eq.
  - by rewrite HVo4.
  - intros l H1 H2 H3. rewrite HVo4, HVo3, lookup_insert_ne by done. done.
Qed.

(** The effect of the expiry of the timers [xs]. *)
Record expired_timers (s s' : kstate) (D D' : node_addr -> Z) (xs : list timer_ptr) : Prop := {
  et_rest : s' = ks_set_store (ks_store s') (ks_set_timers (ks_timers s') s);
  et_timer : forall x, x ∈ xs -> timer_at s' x = expired_block (timer_at s x);
  et_other : forall x, x ∉ xs -> timer_at s' x = timer_at s x;
  et_list : forall n, (forall x, x ∈ xs -> ~ timer_node x n) -> node_list s' n = node_list s n;
  et_timeout : forall x, x ∈ xs -> node_list s' (TimerTimeoutNode x) <> Some ExpiredTimers;
  et_owner : forall n, node_owner s' n = node_owner s n;
  et_rearmed : forall x, x ∈ xs -> tm_auto_reload (timer_at s x) = true ->
    D' (TimerTimeoutNode x) = ph_timers b + tm_period_ticks (timer_at s x);
  et_deadline : forall n, (forall x, x ∈ xs -> n <> TimerTimeoutNode x) -> D' n = D n;
}.

Lemma expired_timers_nil s D : expired_timers s s D D [].
Proof. split; try done; [by destruct s|by intros x ?%elem_of_nil..]. Qed.

Lemma next_deadlines_other D x c now n : n <> TimerTimeoutNode x -> next_deadlines D x c now n = D n.
Proof. intros Hn. unfold next_deadlines, rearmed. destruct (tm_auto_reload c); [by rewrite decide_False|done]. Qed.

Lemma expired_timers_cons s s1 s2 D D' x xs :
  expired_timer s s1 x -> expired_timers s1 s2 (next_deadlines D x (timer_at s x) (ph_timers b)) D' xs -> x ∉ xs ->
  expired_timers s s2 D D' (x :: xs).
Proof.
  intros [TS XT XP XL] [R E1 E2 E3 E4 E5 E6 E7] Hx.
  assert (HT : forall y, y ∈ xs -> timer_at s1 y = timer_at s y) by (intros y Hy; apply (ts_other _ _ _ TS); by intros ->).
  assert (HX : forall y n, y ∈ xs -> timer_node x n -> ~ timer_node y n).
  { intros y n Hy [-> | ->] [|]; simplify_eq; done. }
  split.
  - rewrite R. rewrite (ts_rest _ _ _ TS). done.
  - intros y [->|Hy]%elem_of_cons; [by rewrite E2|]. by rewrite E1, HT.
  - intros y [H1 H2]%not_elem_of_cons. by rewrite E2, (ts_other _ _ _ TS).
  - intros n Hn. rewrite E3 by (intros y Hy; apply Hn, elem_of_cons; by right).
    apply (ts_list _ _ _ TS), Hn, elem_of_cons. by left.
  - intros y [->|Hy]%elem_of_cons; [|by apply E4].
    rewrite E3 by (intros y Hy; apply (HX y); [done|by left]).
    destruct (tm_auto_reload (timer_at s x)); [by destruct XL as [d ->]|by rewrite XL].
  - intros n. by rewrite E5, (ts_owner _ _ _ TS).
  - intros y [->|Hy]%elem_of_cons Ha; [|rewrite <- HT in Ha |- * by done; by apply E6].
    rewrite E7; [|intros y Hy [= ->]; done]. unfold next_deadlines, rearmed. by rewrite Ha, decide_True.
  - intros n Hn. rewrite E7 by (intros y Hy; apply Hn, elem_of_cons; by right).
    apply next_deadlines_other, Hn, elem_of_cons. by left.
Qed.

Lemma expire_loop_spec fuel : forall D s V xs ps any Q,
  kcore T D s V b nobody -> g_timer_system_initialized (glob s) = true ->
  V !! ExpiredTimers = Some (TimerTimeoutNode <$> xs) -> V !! PendingTimers = Some ps -> (length xs <= fuel)%nat ->
  (forall D' s' V', kcore T D' s' V' b nobody -> V' !! ExpiredTimers = Some [] ->
     V' !! PendingTimers = Some (ps ++ concat (joining s <$> xs)) -> timers_only V V' ->
     expired_timers s s' D D' xs -> Q (Some (any || negb (bool_decide (xs = [])))) s') ->
  wp (let* node := lift (hr_list_pop_front (Some ExpiredTimers)) in timer_expire_loop fuel node any) Q s.
Proof.
  induction fuel as [|fuel IH]; intros D s V xs ps any Q KC Hi HV Hps Hf K;
    pose proof (kc_struct _ _ _ _ _ _ KC) as KS; wp_step; wp_step;
    apply (hr_list_pop_front_spec _ V ExpiredTimers _ _ (kt_rep _ _ _ _ _ KS) HV).
  1, 3: intros E; destruct xs; [|done]; cbn [timer_expire_loop]; wp_step;
    replace (part_set _ s) with s by (by destruct s as [[]]);
    replace any with (any || negb (bool_decide (@nil timer_ptr = []))) by (by destruct any);
    apply (K D s V); try done; [by rewrite app_nil_r|apply expired_timers_nil].
  { intros n ns' h E. destruct xs; [done|simpl in Hf; lia]. }
  intros n ns' h E Rep LF. destruct xs as [|x xs]; [done|]. injection E as <- <-.
  apply (expire_one_spec D s V h x (TimerTimeoutNode <$> xs) ps fuel any); try done. intros s1 V1 KC1 XT HV1 HP1 HO1.
  assert (ND : x ∉ xs).
  { pose proof (kt_nodup _ _ _ _ _ KS _ _ HV) as ND. apply NoDup_cons in ND as [ND _]. intros Ht. apply ND.
    apply list_elem_of_fmap. eauto. }
  apply (IH (next_deadlines D x (timer_at s x) (ph_timers b)) s1 V1 xs (ps ++ joining s x) true); try done; [by rewrite (ts_rest _ _ _ (xt_step _ _ _ XT))|simpl in Hf; lia|].
  intros D' s2 V2 KC2 HV2 HP2 HO2 ET. rewrite orb_true_l. replace true with (any || negb (bool_decide (x :: xs = []))) by (by rewrite orb_true_r).
  apply (K D' s2 V2); try done.
  - rewrite HP2, <- app_assoc. rewrite fmap_cons. cbn [concat]. do 4 f_equal. apply list_fmap_ext. intros i y Hy. unfold joining.
    rewrite (ts_other _ _ _ (xt_step _ _ _ XT)); [done|]. intros ->. apply ND. by eapply list_elem_of_lookup_2.
  - intros l H1 H2 H3. by rewrite HO2, HO1.
  - by eapply expired_timers_cons.
Qed.
End loop.

(** ** The part of the timers in the tick *)

(** What signalling the service task does, for the expired timers [xs] and the waiters [ns]
    of the signal. *)
Inductive signalled (isr : bool) (xs : list timer_ptr) (ns : list node_addr) (s s' : kstate) : Prop :=
| sig_quiet : xs = [] \/ isr = false -> s' = s -> signalled isr xs ns s s'
| sig_full : xs <> [] -> isr = true -> ns = [] -> sem_count (sem_at s g_timer_signal) = sem_max_count (sem_at s g_timer_signal) ->
    s' = s -> signalled isr xs ns s s'
| sig_count : xs <> [] -> isr = true -> ns = [] -> sem_count (sem_at s g_timer_signal) < sem_max_count (sem_at s g_timer_signal) ->
    s' = with_count (sem_count (sem_at s g_timer_signal) + 1) g_timer_signal s -> signalled isr xs ns s s'
| sig_woke t ts : xs <> [] -> isr = true -> ns = WaitNode t :: ts -> woke s s' t HR_OK -> signalled isr xs ns s s'.

Definition node_timers (ns : list node_addr) : list timer_ptr :=
  omap (fun n => match n with TimerTimeoutNode x => Some x | _ => None end) ns.
Lemma node_timers_fmap ns : (forall n, n ∈ ns -> exists x, n = TimerTimeoutNode x) -> TimerTimeoutNode <$> node_timers ns = ns.
Proof.
  induction ns as [|n ns IH]; intros Hn; [done|]. destruct (Hn n) as [t ->]; [by apply elem_of_cons; left|].
  simpl. f_equal. apply IH. intros m Hm. apply Hn, elem_of_cons. by right.
Qed.

Section tick.
Context `{Config} (T : Z) (D : node_addr -> Z) (b : phase).

(** The timers whose deadline the tick reaches, in the order of their deadlines. *)
Definition due_timers (V : view) : list timer_ptr := node_timers (due_timer_nodes D b V).

Lemma due_timers_nodes s V : kstruct T D s V b -> TimerTimeoutNode <$> due_timers V = due_timer_nodes D b V.
Proof. intros KS. apply node_timers_fmap. intros n (x & c & -> & _)%(due_timer_linked T D b s V n KS). eauto. Qed.

Lemma due_timers_iff s V x : kstruct T D s V b -> g_timer_system_initialized (glob s) = true ->
  x ∈ due_timers V <->
  (exists c, node_list s (TimerTimeoutNode x) = Some (TimeoutHalf g_timer_timeouts c)) /\ D (TimerTimeoutNode x) <= ph_timers b + 1.
Proof.
  intros KS Hi. assert (E : x ∈ due_timers V <-> TimerTimeoutNode x ∈ due_timer_nodes D b V).
  { rewrite <- (due_timers_nodes s V KS), list_elem_of_fmap. split; [eauto|]. by intros (u & [= ->] & ?). }
  rewrite E. unfold due_timer_nodes. rewrite (proj1 (due_spec D (ph_timers b + 1) _ (tr_sorted _ _ _ _ _ _ (kt_timer_rep _ _ _ _ _ KS Hi)))).
  apply and_iff_compat_r. split; [by intros (y & c & _ & Hc)%(armed_member T D b s V _ KS); eauto|]. intros [c Hc].
  destruct (kt_linked _ _ _ _ _ KS _ _ Hc) as (xs & ys & HV). apply (half_pending V g_timer_timeouts _ c).
  unfold half. rewrite HV. simpl. apply elem_of_app. right. by apply elem_of_cons; left.
Qed.

Lemma signal_spec D' b' s V xs ns (Q : bool -> kstate -> Prop) :
  kcore T D' s V b' nobody -> no_expired s -> sem_valid s g_timer_signal -> V !! SemaphoreWaiters g_timer_signal = Some ns ->
  xs <> [] ->
  (forall r s' V', kcore T D' s' V' b' nobody -> no_expired s' -> same_quiet V V' ->
     signalled (hr_port_is_inside_isr s) xs ns s s' -> Q r s') ->
  wp (let* r := hr_semaphore_give_from_isr (Some g_timer_signal) in
      if negb (ok (fst r)) && bool_decide (fst r <> HR_ERROR_SEMAPHORE_FULL) then retM false
      else retM (default false (snd r))) Q s.
Proof.
  intros KC NE Hv Hns Hxs K.
  assert (KR : forall (r : hr_status * option bool) s', (forall v, Q v s') ->
    wp (if negb (ok (fst r)) && bool_decide (fst r <> HR_ERROR_SEMAPHORE_FULL) then retM false else retM (default false (snd r))) Q s').
  { intros r s' HQ. destruct (_ && _); wp_step; apply HQ. }
  wp_step. unfold hr_semaphore_give_from_isr. wp_step. wp_step. rewrite (sem_is_valid T D' b' s V _ KC Hv). cbn [negb].
  destruct (hr_port_is_inside_isr s) eqn:Ei; cbn [negb].
  2: { wp_step. apply KR. intros v. apply (K v s V); [done|done|done|]. apply sig_quiet; auto. }
  wp_step. apply enter_critical_spec. wp_step. set (s0 := with_port _ s).
  assert (KC0 : kcore T D' s0 V b' nobody) by (by apply kcore_port).
  apply (give_locked_spec T D' b' s0 V g_timer_signal ns); try done.
  - intros t ts f s1 V1 En KC1 NE1 W _ _ HQ. apply woke_port in W as [Hp W]. wp_step. apply (exit_critical_spec s); [done|]. wp_step.
    apply KR. intros v. apply (K v _ V1); [by apply kcore_port|done|done|]. by eapply sig_woke.
  - intros En Ec. wp_step. apply (exit_critical_spec s); [done|]. wp_step. unfold s0. rewrite with_port_twice, with_port_same.
    apply KR. intros v. apply (K v s V); [done|done|done|]. by apply sig_full.
  - intros En Ec KC1. wp_step. apply (exit_critical_spec s); [done|]. wp_step. unfold s0. rewrite with_count_port.
    apply kcore_restore in KC1. apply KR. intros v. apply (K v _ V); [done|done|done|]. by apply sig_count.
Qed.

Lemma expired_no_expired b' s s1 s2 V V2 D' xs :
  kstruct T D s V b -> no_expired s -> timers_moved D b s s1 V -> xs = due_timers V ->
  kstruct T D' s2 V2 b' -> V2 !! ExpiredTimers = Some [] -> expired_timers b' s1 s2 D D' xs -> no_expired s2.
Proof.
  intros KS NE TV -> KS2 HV ET n. split.
  - intros Hn. pose proof (kt_fits _ _ _ _ _ KS2 _ _ Hn) as Hf. destruct n as [| |t| | | |]; try done.
    rewrite (et_list _ _ _ _ _ _ ET) in Hn; [|by intros x _ [|]].
    rewrite (moved_kept T D b s s1 V _ KS TV) in Hn by done. by destruct (NE (TimeoutNode t)).
  - intros Hn. apply (kt_member _ _ _ _ _ KS2 _ _ _ HV) in Hn. by apply elem_of_nil in Hn.
Qed.

(** From the moved state back to the state before the tick. *)
Lemma expired_from_moved b' s s1 s2 V D' :
  kstruct T D s V b -> timers_moved D b s s1 V -> expired_timers b' s1 s2 D D' (due_timers V) ->
  expired_timers b' s s2 D D' (due_timers V).
Proof.
  intros KS TV [R E1 E2 E3 E4 E5 E6 E7]. pose proof (tv_rest _ _ _ _ _ TV) as R1.
  assert (HT : forall x, timer_at s1 x = timer_at s x) by (intros; by rewrite R1).
  split; try done.
  - rewrite R, R1. done.
  - intros x Hx. rewrite E1 by done. by rewrite HT.
  - intros x Hx. rewrite E2 by done. by rewrite HT.
  - intros n Hn. rewrite E3 by done. rewrite (tv_list _ _ _ _ _ TV), decide_False; [done|].
    rewrite <- (due_timers_nodes s V KS). intros (x & -> & Hx)%list_elem_of_fmap. apply (Hn x Hx). by left.
  - intros n. by rewrite E5, (tv_owner _ _ _ _ _ TV).
  - intros x Hx. rewrite <- HT. by apply E6.
Qed.

Lemma timer_tick_spec s V ps now Q :
  kcore T D s V b nobody -> no_expired s -> g_timer_system_initialized (glob s) = true -> now = u32 (ph_timers b + 1) ->
  V !! PendingTimers = Some ps ->
  (forall r D' s1 s' V', kcore T D' s' V' (timers_next b) nobody -> no_expired s' ->
     expired_timers (timers_next b) s s1 D D' (due_timers V) ->
     V' !! PendingTimers = Some (ps ++ concat (joining s <$> due_timers V)) ->
     signalled (hr_port_is_inside_isr s) (due_timers V) (default [] (V !! SemaphoreWaiters g_timer_signal)) s1 s' -> Q r s') ->
  wp (hr_timer_tick_from_isr now) Q s.
Proof.
  intros KC NE Hi Hnow Hps K. pose proof (kc_struct _ _ _ _ _ _ KC) as KS.
  unfold hr_timer_tick_from_isr. wp_step. wp_step. rewrite Hi. cbn [negb]. wp_step.
  eapply wp_mono; [apply (timers_advance_spec T D b s V now (fun st s1 => st = HR_OK /\ exists V1,
    kcore T D s1 V1 (timers_next b) nobody /\ timers_moved D b s s1 V /\ V1 !! ExpiredTimers = Some (due_timer_nodes D b V) /\
    forall l, l <> ExpiredTimers -> (forall c, l <> TimeoutHalf g_timer_timeouts c) -> V1 !! l = V !! l)); eauto 10|].
  intros [] s0 H0. wp_step. eapply wp_mono; [exact H0|]. clear H0 s0. intros st s1 (-> & V1 & KC1 & TV & HV1 & HO1). ok_simpl.
  rewrite <- (due_timers_nodes s V KS) in HV1. pose proof (kc_struct _ _ _ _ _ _ KC1) as KS1.
  assert (Hi1 : g_timer_system_initialized (glob s1) = true) by (by rewrite (tv_rest _ _ _ _ _ TV)).
  wp_step. wp_step. apply wp_assoc, wp_bind. apply (expire_loop_spec T (timers_next b) _ D s1 V1 (due_timers V) ps false); try done.
  { by rewrite HO1. }
  { unfold scan_fuel. rewrite (ring_size _ _ _ (rep_ring _ _ (kt_rep _ _ _ _ _ KS1) _ _ HV1)). rewrite length_fmap. lia. }
  intros D' s2 V2 KC2 HV2 HP2 HO2 ET. cbn [orb].
  pose proof (expired_no_expired (timers_next b) s s1 s2 V V2 D' _ KS NE TV eq_refl (kc_struct _ _ _ _ _ _ KC2) HV2 ET) as NE2.
  assert (HJ : joining s1 <$> due_timers V = joining s <$> due_timers V).
  { apply list_fmap_ext. intros i x _. unfold joining. by rewrite (tv_rest _ _ _ _ _ TV). }
  rewrite HJ in HP2. pose proof (expired_from_moved _ s s1 s2 V D' KS TV ET) as ET'.
  assert (Hisr : hr_port_is_inside_isr s2 = hr_port_is_inside_isr s) by (by rewrite (et_rest _ _ _ _ _ _ ET')).
  destruct (due_timers V) as [|x xs] eqn:Ed.
  { rewrite bool_decide_true by done. cbn [negb]. wp_step. apply (K false D' s2 s2 V2); try done. apply sig_quiet; auto. }
  rewrite bool_decide_false by done. cbn [negb].
  assert (Hv : sem_valid s2 g_timer_signal).
  { apply (ob_signal _ (kc_objects _ _ _ _ _ _ KC2)). by rewrite (et_rest _ _ _ _ _ _ ET'). }
  destruct (kt_objects _ _ _ _ _ (kc_struct _ _ _ _ _ _ KC2) (SemaphoreWaiters g_timer_signal) Hv) as [ns Hns].
  assert (HW : V !! SemaphoreWaiters g_timer_signal = Some ns) by (rewrite <- Hns, HO2, HO1; done).
  apply (signal_spec D' (timers_next b) s2 V2 (x :: xs) ns); try done.
  intros r s' V' KC' NE' HQ SG. rewrite Hisr in SG. apply (K r D' s2 s' V'); try done; [by rewrite HQ|by rewrite HW].
Qed.

(** The task the signal wakes: the most urgent waiter, normally the service task; without
    a waiter the signal is counted. *)
Definition woken_service (isr : bool) (xs : list timer_ptr) (ns : list node_addr) : list task_ptr :=
  match xs, ns with _ :: _, WaitNode t :: _ => if isr then [t] else [] | _, _ => [] end.
Definition signal_count (isr : bool) (xs : list timer_ptr) (ns : list node_addr) (c : hr_semaphore_control_block_t) : Z :=
  match xs, ns with _ :: _, [] => if isr then Z.min (sem_count c + 1) (sem_max_count c) else sem_count c | _, _ => sem_count c end.

(** The effect of the timers' part of the tick: the timers [xs] expire and the tasks [ws]
    are woken. *)
Record timer_part (s s' : kstate) (D' : node_addr -> Z) (xs : list timer_ptr) (ns : list node_addr) : Prop := {
  tp_glob : glob s' = glob s;
  tp_expired : forall x, x ∈ xs -> timer_at s' x = expired_block (timer_at s x);
  tp_timer : forall x, x ∉ xs -> timer_at s' x = timer_at s x;
  tp_rearmed : forall x, x ∈ xs -> tm_auto_reload (timer_at s x) = true ->
    D' (TimerTimeoutNode x) = ph_timers b + 1 + tm_period_ticks (timer_at s x);
  tp_deadline : forall n, (forall x, x ∈ xs -> n <> TimerTimeoutNode x) -> D' n = D n;
  tp_woken : forall t, t ∈ woken_service (hr_port_is_inside_isr s) xs ns ->
    t_state (task_at s' t) = (if suspended_wait (task_at s t) then HR_TASK_STATE_SUSPENDED else HR_TASK_STATE_READY) /\
    t_wait_result (task_at s' t) = HR_OK /\ idle_wait s' t;
  tp_task : forall u, u ∉ woken_service (hr_port_is_inside_isr s) xs ns ->
    exists p, task_at s' u = t_set_effective_priority p (task_at s u);
  tp_list : forall n, (forall t, t ∈ woken_service (hr_port_is_inside_isr s) xs ns -> ~ node_of t n) ->
    (forall u, n <> ReadyNode u) -> (forall x, ~ timer_node x n) -> node_list s' n = node_list s n;
  tp_count : sem_count (sem_at s' g_timer_signal) =
    signal_count (hr_port_is_inside_isr s) xs ns (sem_at s g_timer_signal);
}.

Lemma same_block c : exists p, c = t_set_effective_priority p c.
Proof. exists (t_effective_priority c). by destruct c. Qed.

(** No task is woken. *)
Lemma quiet_part s s1 s' D' xs ns :
  expired_timers (timers_next b) s s1 D D' xs -> woken_service (hr_port_is_inside_isr s) xs ns = [] ->
  s' = ks_set_semaphores (ks_semaphores s') s1 ->
  sem_count (sem_at s' g_timer_signal) = signal_count (hr_port_is_inside_isr s) xs ns (sem_at s g_timer_signal) ->
  timer_part s s' D' xs ns.
Proof.
  intros [R E1 E2 E3 E4 E5 E6 E7] HW R' HC.
  assert (HT : forall x, timer_at s' x = timer_at s1 x) by (intros; by rewrite R').
  assert (HL : forall n, node_list s' n = node_list s1 n) by (intros; by rewrite R').
  split; rewrite ?HW; try done.
  - rewrite R'. change (glob s1 = glob s). by rewrite R.
  - intros x Hx. rewrite HT. auto.
  - intros x Hx. rewrite HT. auto.
  - by intros t ?%elem_of_nil.
  - intros u _. rewrite R'. change (exists p, task_at s1 u = t_set_effective_priority p (task_at s u)). rewrite R. apply same_block.
  - intros n _ _ Hn. rewrite HL. by apply E3.
Qed.

Lemma signalled_part s s1 s' D' xs ns :
  sem_count (sem_at s g_timer_signal) <= sem_max_count (sem_at s g_timer_signal) ->
  expired_timers (timers_next b) s s1 D D' xs -> signalled (hr_port_is_inside_isr s) xs ns s1 s' ->
  timer_part s s' D' xs ns.
Proof.
  intros Hmax ET SG. assert (HS : sem_at s1 g_timer_signal = sem_at s g_timer_signal) by (by rewrite (et_rest _ _ _ _ _ _ ET)).
  destruct SG as [Hq -> |Hx Hi -> Hc -> |Hx Hi -> Hc -> |t ts Hx Hi -> W]; rewrite ?HS in *.
  - apply (quiet_part s s1); try done.
    + destruct Hq as [-> | E]; [done|]. unfold woken_service. rewrite E. by destruct xs, ns as [|[]].
    + by destruct s1.
    + rewrite HS. destruct Hq as [-> | E]; [done|]. unfold signal_count. rewrite E. by destruct xs, ns.
  - apply (quiet_part s s1); try done; [by destruct xs|by destruct s1|]. rewrite HS. unfold signal_count. rewrite Hi.
    destruct xs; [done|]. lia.
  - apply (quiet_part s s1); try done; [by destruct xs|]. unfold with_count. rewrite sem_at_set_sem, decide_True by done.
    unfold signal_count. rewrite Hi. destruct xs; [done|]. simpl. lia.
  - destruct ET as [R E1 E2 E3 E4 E5 E6 E7]. destruct W as [W1 W2 W3 W4 W5 W6 W7 W8].
    assert (HW : woken_service (hr_port_is_inside_isr s) xs (WaitNode t :: ts) = [t]) by (unfold woken_service; rewrite Hi; by destruct xs).
    assert (HT : forall u, task_at s1 u = task_at s u) by (intros; by rewrite R).
    assert (HX : forall x, timer_at s' x = timer_at s1 x) by (intros; by rewrite W1).
    split; rewrite ?HW; try done.
    + rewrite W1. change (glob s1 = glob s). by rewrite R.
    + intros x Hx'. rewrite HX. auto.
    + intros x Hx'. rewrite HX. auto.
    + intros u ->%list_elem_of_singleton. by rewrite W3, HT.
    + intros u Hu. destruct (W5 u) as [p E]; [intros ->; by apply Hu, list_elem_of_singleton|]. exists p. by rewrite E, HT.
    + intros n H1 H2 H3. rewrite W6; [by apply E3|apply H1; by apply list_elem_of_singleton|done].
    + rewrite W1. change (sem_count (sem_at s1 g_timer_signal) = signal_count (hr_port_is_inside_isr s) xs (WaitNode t :: ts) (sem_at s g_timer_signal)).
      rewrite HS. unfold signal_count. by destruct xs.
Qed.

(** A kernel whose timers are not in use is in every phase in which they are off. *)
Lemma kcore_phase s V b' X : kcore T D s V b X -> g_timer_system_initialized (glob s) = false -> ph_half b' = ph_half b ->
  ph_timers_on b' = false -> kcore T D s V b' X.
Proof.
  intros [[K1 K2 K3 K4 K5 K6 K7 K8 K9 K10 K11] L2 L3 L4 L5 L6] Hi Hb Ho. split; try done. split; try done.
  - by rewrite Hb.
  - split; rewrite ?Hi, ?Ho; done.
Qed.

(** The timers that expire in the tick. *)
Definition firing (s : kstate) (V : view) : list timer_ptr := if g_timer_system_initialized (glob s) then due_timers V else [].

Lemma timer_part_spec s V now Q :
  kcore T D s V b nobody -> no_expired s -> now = u32 (ph_timers b + 1) ->
  (forall r D' b' s' V', kcore T D' s' V' b' nobody -> ph_half b' = ph_half b -> ph_timers b' = ph_timers b + 1 ->
     no_expired s' ->
     timer_part s s' D' (firing s V) (default [] (V !! SemaphoreWaiters g_timer_signal)) ->
     (forall ps, V !! PendingTimers = Some ps -> g_timer_system_initialized (glob s) = true ->
        V' !! PendingTimers = Some (ps ++ concat (joining s <$> firing s V))) -> Q r s') ->
  wp (hr_timer_tick_from_isr now) Q s.
Proof.
  intros KC NE Hnow K. unfold firing in K. destruct (g_timer_system_initialized (glob s)) eqn:Hi.
  - destruct (kt_timer_list _ _ _ _ _ (kc_struct _ _ _ _ _ _ KC) Hi) as [ps Hps].
    apply (timer_tick_spec s V ps now); try done. intros r D' s1 s' V' KC' NE' ET HP SG. apply (K r D' (timers_next b) s' V'); try done.
    + apply (signalled_part s s1); try done. apply (ob_sems _ (kc_objects _ _ _ _ _ _ KC)).
      by apply (ob_signal _ (kc_objects _ _ _ _ _ _ KC)).
    + intros ps' E _. congruence.
  - unfold hr_timer_tick_from_isr. wp_step. wp_step. rewrite Hi. cbn [negb]. wp_step. apply (K false D (mk_phase (ph_half b) (ph_timers b + 1) false false) s V); try done.
    + by apply kcore_phase.
    + apply (quiet_part s s); try done; [apply expired_timers_nil|by destruct s].
Qed.
End tick.
