(* ===== verification/PortStackSpec.v ===== *)
(** The initial stack frame: where [hr_port_initialize_stack] puts it and what it
    holds, and the stack fill of [hr_task_fill_stack]. *)
From stdpp Require Import gmap list.
From Stdlib Require Import ZArith Lia.
From S2P Require Import Prelude Types KState PortStack TaskCore.
Open Scope Z_scope.

(** The stack lies in the 32-bit address space and is word aligned. *)
Definition stack_fits (low words : Z) : Prop :=
  0 <= low /\ low mod 4 = 0 /\ HR_CFG_MIN_TASK_STACK_WORDS <= words /\ low + 4 * words <= UINT32_MAX.

Lemma align_down_8 v : 0 <= v <= UINT32_MAX ->
  hr_port_align_down v HR_PORT_STACK_ALIGNMENT_BYTES = v - v mod 8.
Proof.
  intros Hv. unfold hr_port_align_down, HR_PORT_STACK_ALIGNMENT_BYTES.
  replace (u32 (Z.lnot (u32 (8 - 1)))) with (Z.ldiff (Z.ones 32) (Z.ones 3)) by reflexivity.
  unfold UINT32_MAX in Hv.
  assert (E : v = Z.land v (Z.ones 32)) by (rewrite Z.land_ones, Z.mod_small by lia; done).
  assert (H1 : Z.land v (Z.ldiff (Z.ones 32) (Z.ones 3)) = Z.ldiff v (Z.ones 3)).
  { apply Z.bits_inj'. intros n Hn. rewrite Z.land_spec, !Z.ldiff_spec.
    rewrite (Z.testbit_ones 32) by lia. destruct (Z.ltb_spec n 32).
    - replace (0 <=? n) with true by lia. done.
    - rewrite E, Z.land_spec, (Z.testbit_ones 32 n), (proj2 (Z.ltb_ge n 32)), andb_false_r by lia.
      by rewrite !andb_false_r. }
  rewrite H1, Z.ldiff_ones_r, Z.shiftr_div_pow2, Z.shiftl_mul_pow2 by lia.
  change (2 ^ 3) with 8. pose proof (Z.div_mod v 8). lia.
Qed.

(** The words of the frame, from the stack pointer up. *)
Definition initial_frame (entry argument exit : Z) : list Z :=
  [0x44444444; 0x55555555; 0x66666666; 0x77777777; 0x88888888; 0x99999999; 0xAAAAAAAA; 0xBBBBBBBB;
   argument; 0x11111111; 0x22222222; 0x33333333; 0x12121212;
   Z.lor exit HR_PORT_THUMB_ADDRESS_BIT; Z.land entry HR_PORT_ADDRESS_MASK; HR_PORT_INITIAL_XPSR].

(** [p[i] = v] for the successive words [vs]. *)
Fixpoint write_words (p : Z) (vs : list Z) (w : gmap Z Z) : gmap Z Z :=
  match vs with
  | [] => w
  | v :: vs' => write_words (p + 4) vs' (<[p := v]> w)
  end.

Lemma write_words_below p vs w a : a < p -> write_words p vs w !!! a = w !!! a.
Proof.
  revert p w. induction vs as [|v vs IH]; intros p w Ha; simpl; [done|].
  rewrite IH by lia. by rewrite lookup_total_insert_ne by lia.
Qed.

Lemma write_words_at p vs w i v : vs !! i = Some v -> write_words p vs w !!! (p + 4 * Z.of_nat i) = v.
Proof.
  revert p w i. induction vs as [|x vs IH]; intros p w [|i] Hi; simplify_eq/=.
  - rewrite Z.add_0_r, write_words_below by lia. by rewrite lookup_total_insert_eq.
  - rewrite <- (IH (p + 4) (<[p := x]> w) i Hi). f_equal. lia.
Qed.

Lemma write_words_above p vs w a : p + 4 * Z.of_nat (length vs) <= a -> write_words p vs w !!! a = w !!! a.
Proof.
  revert p w. induction vs as [|v vs IH]; intros p w Ha; simpl in *; [done|].
  rewrite IH by lia. by rewrite lookup_total_insert_ne by lia.
Qed.

(** Where the stack pointer starts: the frame is at the 8-aligned top. *)
Definition initial_sp (low words : Z) : Z := let top := low + 4 * words in top - top mod 8 - 64.

Lemma initial_sp_bounds low words : stack_fits low words ->
  initial_sp low words mod 8 = 0 /\ low + 4 * (words - 18) <= initial_sp low words <= low + 4 * words - 64.
Proof.
  intros (H1 & H2 & H3 & H4). unfold initial_sp. pose proof (Z.mod_pos_bound (low + 4 * words) 8).
  split; [|lia]. pose proof (Z.div_mod (low + 4 * words) 8).
  replace (low + 4 * words - (low + 4 * words) mod 8 - 64) with (((low + 4 * words) / 8 - 8) * 8) by lia.
  apply Z_mod_mult.
Qed.

Lemma wp_write_index p i v Q w s : 0 <= p + 4 * i <= UINT32_MAX ->
  Q tt (ks_set_words (<[p + 4 * i := v]> w) s) -> wp (write_index p i v) Q (ks_set_words w s).
Proof. intros Hb K. unfold write_index, write_word. wp_step. by rewrite u32_small. Qed.

Lemma initialize_stack_spec low words entry argument exit Q s :
  stack_fits low words ->
  Q (Some (initial_sp low words))
    (ks_set_words (write_words (initial_sp low words)
       (initial_frame (pointer_address entry) (pointer_address argument) (pointer_address exit)) (ks_words s)) s) ->
  wp (hr_port_initialize_stack (Some low) words entry argument exit) Q s.
Proof.
  intros Hf K. pose proof (initial_sp_bounds low words Hf) as [_ HB]. pose proof Hf as (H1 & H2 & H3 & H4).
  unfold hr_port_initialize_stack, hr_port_initialize_stack_raw.
  unfold HR_CFG_MIN_TASK_STACK_WORDS, UINT32_MAX in *.
  rewrite u32_small, align_down_8 by (unfold UINT32_MAX; lia).
  pose proof (Z.mod_pos_bound (low + 4 * words) 8).
  rewrite (proj2 (Z.ltb_ge _ _)) by (unfold HR_PORT_INITIAL_FRAME_WORDS; lia).
  rewrite (proj2 (Z.leb_gt _ _)) by lia.
  rewrite (proj2 (Z.ltb_ge _ _)) by (apply Z.div_le_lower_bound; unfold HR_PORT_INITIAL_FRAME_WORDS; lia).
  change (4 * HR_PORT_INITIAL_FRAME_WORDS) with 64. fold (initial_sp low words).
  rewrite (u32_small (initial_sp low words)) by (unfold UINT32_MAX; lia).
  assert (Hsp : 0 <= initial_sp low words /\ initial_sp low words + 64 <= UINT32_MAX) by (unfold UINT32_MAX; lia).
  revert K Hsp. clear. generalize (initial_sp low words) as sp. intros sp K Hsp.
  replace s with (ks_set_words (ks_words s) s) by (by destruct s).
  do 16 (apply wp_bind, wp_write_index; [lia|]). wp_step.
  unfold initial_frame in K. cbn [write_words] in K. rewrite Z.mul_0_r, Z.add_0_r.
  repeat rewrite <- Z.add_assoc in K. exact K.
Qed.

(** ** The stack fill *)

Lemma task_fill_loop_spec n : forall stack i s Q, 0 <= stack -> 0 <= i ->
  stack + 4 * (i + Z.of_nat n) <= UINT32_MAX + 1 ->
  Q tt (ks_set_words (write_words (stack + 4 * i) (replicate n HR_STACK_FILL_WORD) (ks_words s)) s) ->
  wp (task_fill_loop n stack i) Q s.
Proof.
  induction n as [|n IH]; intros stack i s Q H1 H2 H3 K; simpl.
  - wp_step. by destruct s.
  - unfold write_index, write_word. wp_step. wp_step. rewrite u32_small by lia. apply IH; try lia.
    cbn [write_words replicate] in K. replace (stack + 4 * (i + 1)) with (stack + 4 * i + 4) by lia. exact K.
Qed.

(** The filled stack: the guard word, then the fill pattern. *)
Definition filled (low words : Z) (w : gmap Z Z) : gmap Z Z :=
  <[low := HR_CFG_STACK_GUARD_VALUE]> (write_words low (replicate (Z.to_nat words) HR_STACK_FILL_WORD) w).

Lemma fill_stack_spec low words s Q : stack_fits low words ->
  Q tt (ks_set_words (filled low words (ks_words s)) s) -> wp (hr_task_fill_stack low words) Q s.
Proof.
  intros (H1 & H2 & H3 & H4) K. unfold hr_task_fill_stack, HR_CFG_MIN_TASK_STACK_WORDS in *. wp_step.
  apply task_fill_loop_spec; try lia. unfold write_index, write_word. wp_step.
  rewrite u32_small by lia. simpl. rewrite !Z.add_0_r. exact K.
Qed.
