(* ===== verification/KernelInitSpec.v ===== *)
(** Start-up: creating and registering tasks, [hr_kernel_init] and the choice of
    the first task establish the kernel invariant. *)
From stdpp Require Import gmap list.
From Stdlib Require Import ZArith Lia.
From S2P Require Import Prelude Types HrList HrListSpec Store Scheduler SchedulerSpec WaitList WaitListSpec Timeout TimeoutSpec KState PortStack PortStackSpec TaskCore KernelBase KernelInv MutexPriority Kernel Semaphore Timer KernelTick KernelTasks KernelSpec KernelSwitch SemaphoreSpec.
Open Scope Z_scope.
Set Warnings "-clear-no-such-hyp".

(** ** Clearing and initialising embedded nodes and list heads *)

(** A change of memory that only touches unlinked nodes and list heads that hold nothing. *)
Lemma rep_frame h h' (V V' : view) :
  lists_rep h V ->
  (forall l ns, V' !! l = Some ns -> V !! l = Some ns /\ node_at h' (PRoot l) = node_at h (PRoot l) /\
     size_at h' l = size_at h l) ->
  (forall n, node_at h' (PNode n) = node_at h (PNode n) \/
     list_of (node_at h (PNode n)) = None /\ list_of (node_at h' (PNode n)) = None) ->
  (forall l ns, V !! l = Some ns -> ns <> [] -> V' !! l = Some ns) ->
  lists_rep h' V'.
Proof.
  intros Rep HV HN HD. split.
  - intros l ns Hl. destruct (HV l ns Hl) as (Hl' & Hr & Hs).
    apply (ring_frame h); [|done|by apply (rep_ring _ _ Rep)]. intros p [->|Hp]; [done|].
    apply list_elem_of_fmap in Hp as (n & -> & Hn). destruct (HN n) as [|[E _]]; [done|].
    apply (rep_member_iff _ _ Rep _ _ _ Hl') in Hn. congruence.
  - intros n l Hn. destruct (HN n) as [E|[_ E]]; [|congruence]. rewrite E in Hn.
    destruct (rep_linked _ _ Rep n l Hn) as (ns & Hl & Hin). exists ns. split; [|done].
    apply HD; [done|]. intros ->. by apply elem_of_nil in Hin.
Qed.

(** The stores agree but for the unlinked nodes of [N]. *)
Record obj_frame (N : node_addr -> Prop) (s s' : store) : Prop := {
  of_list : forall n, list_of (node_at (st_lists s') (PNode n)) = list_of (node_at (st_lists s) (PNode n));
  of_owner : forall n, ~ N n -> owner (node_at (st_lists s') (PNode n)) = owner (node_at (st_lists s) (PNode n));
  of_priority : forall n, ~ N n -> priority_at s' n = priority_at s n;
  of_wake : forall n, ~ N n -> wake_at s' n = wake_at s n;
  of_ready : st_ready s' = st_ready s;
  of_timeout : st_timeout s' = st_timeout s;
}.

Lemma obj_frame_refl N s : obj_frame N s s.
Proof. done. Qed.
Lemma obj_frame_trans N s1 s2 s3 : obj_frame N s1 s2 -> obj_frame N s2 s3 -> obj_frame N s1 s3.
Proof.
  intros [A1 A2 A3 A4 A5 A6] [B1 B2 B3 B4 B5 B6]. split; intros; rewrite ?B1, ?B2, ?B3, ?B4, ?B5, ?B6 by done; auto.
Qed.

Definition zeroed_node (n : node_addr) (s : store) : store :=
  set_priority n 0 (set_wake n 0 (set_lists (upd_node (PNode n) (fun _ => null_node) (st_lists s)) s)).
Definition zeroed_list (l : list_addr) (h : lmem) : lmem :=
  upd_size l (fun _ => 0) (upd_node (PRoot l) (fun _ => null_node) h).

Lemma zeroed_node_at n s p : node_at (st_lists (zeroed_node n s)) p =
  if decide (p = PNode n) then null_node else node_at (st_lists s) p.
Proof. simpl. rewrite node_at_upd_node. repeat case_decide; congruence. Qed.

Lemma zeroed_node_spec N s V n : N n -> lists_rep (st_lists s) V -> list_of (node_at (st_lists s) (PNode n)) = None ->
  lists_rep (st_lists (zeroed_node n s)) V /\ obj_frame N s (zeroed_node n s).
Proof.
  intros HN Rep U. split.
  - apply (rep_frame (st_lists s) _ V V Rep); try done.
    intros m. rewrite zeroed_node_at. destruct (decide (PNode m = PNode n)) as [[= ->]|]; [right|left]; done.
  - split; try done; intros m; rewrite ?zeroed_node_at.
    + destruct (decide (PNode m = PNode n)) as [[= ->]|]; done.
    + intros Hm. by rewrite decide_False by congruence.
    + intros Hm. unfold zeroed_node. rewrite priority_at_set_priority, decide_False by congruence. done.
    + intros Hm. unfold zeroed_node. change (wake_at (set_wake n 0 s) m = wake_at s m).
      rewrite wake_at_set_wake, decide_False by congruence. done.
Qed.

Lemma zeroed_list_node l h n : node_at (zeroed_list l h) (PNode n) = node_at h (PNode n).
Proof. unfold zeroed_list. by rewrite node_at_upd_size, node_at_upd_node. Qed.

Lemma zeroed_list_spec h (V : view) l : lists_rep h V -> V !! l = None \/ V !! l = Some [] ->
  lists_rep (zeroed_list l h) (delete l V).
Proof.
  intros Rep Hl. apply (rep_frame h _ V _ Rep).
  - intros l' ns [Hne Hl']%lookup_delete_Some. unfold zeroed_list.
    rewrite node_at_upd_size, node_at_upd_node, size_at_upd_size, size_at_upd_node, !decide_False by congruence. done.
  - intros n. left. apply zeroed_list_node.
  - intros l' ns Hl' Hne. rewrite lookup_delete_ne; [done|]. intros ->. destruct Hl; congruence.
Qed.

(** The list head of an object: cleared, then initialised. *)
Lemma fresh_list_spec h (V : view) l : lists_rep h V -> V !! l = None \/ V !! l = Some [] ->
  lists_rep (inited (zeroed_list l h) l) (<[l := []]> V).
Proof.
  intros Rep Hl. rewrite <- (insert_delete_eq V). apply rep_inited; [by apply zeroed_list_spec|].
  left. apply lookup_delete_eq.
Qed.

Definition inited_node_store (n : node_addr) (o : option obj_ptr) (s : store) : store :=
  set_lists (node_inited (st_lists s) n o) s.

Lemma inited_store_at n o s p : node_at (st_lists (inited_node_store n o s)) p =
  if decide (p = PNode n) then mk_hr_list_node None None None o else node_at (st_lists s) p.
Proof. apply node_inited_at. Qed.
Lemma st_lists_priority n p s : st_lists (set_priority n p s) = st_lists s.
Proof. done. Qed.
Lemma st_lists_wake n p s : st_lists (set_wake n p s) = st_lists s.
Proof. done. Qed.

Lemma priority_at_wake n p s m : priority_at (set_wake n p s) m = priority_at s m.
Proof. done. Qed.

Lemma inited_node_spec (N : node_addr -> Prop) s V n o : N n -> lists_rep (st_lists s) V ->
  list_of (node_at (st_lists s) (PNode n)) = None ->
  lists_rep (st_lists (inited_node_store n o s)) V /\ obj_frame N s (inited_node_store n o s).
Proof.
  intros HN Rep U. split; [by apply rep_node_inited|]. split; try done; intros m; simpl; rewrite node_inited_at.
  - destruct (decide (PNode m = PNode n)) as [[= ->]|]; done.
  - intros Hm. by rewrite decide_False by congruence.
Qed.

Lemma obj_frame_priority (N : node_addr -> Prop) s n p : N n -> obj_frame N s (set_priority n p s).
Proof. intros HN. split; try done. intros m Hm. rewrite priority_at_set_priority, decide_False by congruence. done. Qed.
Lemma obj_frame_wake (N : node_addr -> Prop) s n p : N n -> obj_frame N s (set_wake n p s).
Proof. intros HN. split; try done. intros m Hm. rewrite wake_at_set_wake, decide_False by congruence. done. Qed.
Lemma obj_frame_lists N s h : (forall n, node_at h (PNode n) = node_at (st_lists s) (PNode n)) -> obj_frame N s (set_lists h s).
Proof. intros Hn. split; try done; intros; simpl; by rewrite Hn. Qed.

(** ** Creating a task *)

(** The nodes embedded in a control block. *)
Definition task_node (t : task_ptr) (n : node_addr) : Prop :=
  n = ReadyNode t \/ n = WaitNode t \/ n = TimeoutNode t \/ n = AllTaskNode t.

Definition zeroed_task (t : task_ptr) (s : store) : store :=
  let s4 := zeroed_node (AllTaskNode t) (zeroed_node (TimeoutNode t)
              (zeroed_node (WaitNode t) (zeroed_node (ReadyNode t) s))) in
  set_lists (zeroed_list (OwnedMutexes t) (st_lists s4)) s4.
Definition inited_task (t : task_ptr) (priority : Z) (s : store) : store :=
  let s0 := set_lists (inited (st_lists s) (OwnedMutexes t)) s in
  let s1 := set_priority (ReadyNode t) priority (inited_node_store (ReadyNode t) (Some (PTask t)) s0) in
  let s2 := set_priority (WaitNode t) priority (inited_node_store (WaitNode t) (Some (PTask t)) s1) in
  let s3 := set_wake (TimeoutNode t) 0 (inited_node_store (TimeoutNode t) (Some (PTask t)) s2) in
  inited_node_store (AllTaskNode t) (Some (PTask t)) s3.

Section create.
Context (t : task_ptr).
Local Abbreviation unlinked_nodes s := (forall n, task_node t n -> list_of (node_at (st_lists s) (PNode n)) = None).

Lemma unlinked_frame_nodes s s' : obj_frame (task_node t) s s' -> unlinked_nodes s -> unlinked_nodes s'.
Proof. intros F U n Hn. rewrite (of_list _ _ _ F). auto. Qed.

Lemma zeroed_task_spec s V :
  lists_rep (st_lists s) V -> unlinked_nodes s ->
  V !! OwnedMutexes t = None \/ V !! OwnedMutexes t = Some [] ->
  lists_rep (st_lists (zeroed_task t s)) (delete (OwnedMutexes t) V) /\ obj_frame (task_node t) s (zeroed_task t s).
Proof.
  intros Rep U Hl.
  assert (Step : forall s1 n, lists_rep (st_lists s1) V /\ obj_frame (task_node t) s s1 -> task_node t n ->
    lists_rep (st_lists (zeroed_node n s1)) V /\ obj_frame (task_node t) s (zeroed_node n s1)).
  { intros s1 n [R F] Hn. destruct (zeroed_node_spec (task_node t) s1 V n) as [R' F']; try done.
    - by apply (unlinked_frame_nodes s).
    - split; [done|]. by eapply obj_frame_trans. }
  unfold zeroed_task. set (s4 := zeroed_node (AllTaskNode t) _).
  assert (R4 : lists_rep (st_lists s4) V /\ obj_frame (task_node t) s s4).
  { unfold s4. repeat (apply Step; [|unfold task_node; tauto]). done. }
  destruct R4 as [R4 F4]. split; [by apply zeroed_list_spec|].
  eapply obj_frame_trans; [done|]. apply obj_frame_lists. intros n. apply zeroed_list_node.
Qed.

Lemma inited_task_spec s V priority :
  lists_rep (st_lists s) V -> unlinked_nodes s -> V !! OwnedMutexes t = None ->
  let s' := inited_task t priority s in
  lists_rep (st_lists s') (<[OwnedMutexes t := []]> V) /\ obj_frame (task_node t) s s' /\
  (forall n, task_node t n -> owner (node_at (st_lists s') (PNode n)) = Some (PTask t)) /\
  priority_at s' (ReadyNode t) = priority /\ priority_at s' (WaitNode t) = priority.
Proof.
  intros Rep U Hl s'. set (V' := <[OwnedMutexes t := []]> V).
  assert (Step : forall s1 n, lists_rep (st_lists s1) V' /\ obj_frame (task_node t) s s1 -> task_node t n ->
    lists_rep (st_lists (inited_node_store n (Some (PTask t)) s1)) V' /\
    obj_frame (task_node t) s (inited_node_store n (Some (PTask t)) s1)).
  { intros s1 n [R F] Hn. destruct (inited_node_spec (task_node t) s1 V' n (Some (PTask t))) as [R' F']; try done.
    - by apply (unlinked_frame_nodes s).
    - split; [done|]. by eapply obj_frame_trans. }
  assert (Prio : forall s1 n p, lists_rep (st_lists s1) V' /\ obj_frame (task_node t) s s1 -> task_node t n ->
    lists_rep (st_lists (set_priority n p s1)) V' /\ obj_frame (task_node t) s (set_priority n p s1)).
  { intros s1 n p [R F] Hn. split; [done|]. eapply obj_frame_trans; [done|]. by apply obj_frame_priority. }
  assert (Wake : forall s1 n p, lists_rep (st_lists s1) V' /\ obj_frame (task_node t) s s1 -> task_node t n ->
    lists_rep (st_lists (set_wake n p s1)) V' /\ obj_frame (task_node t) s (set_wake n p s1)).
  { intros s1 n p [R F] Hn. split; [done|]. eapply obj_frame_trans; [done|]. by apply obj_frame_wake. }
  assert (R' : lists_rep (st_lists s') V' /\ obj_frame (task_node t) s s').
  { unfold s', inited_task. apply Step; [|unfold task_node; tauto].
    repeat (first [apply Step|apply Prio|apply Wake]; [|unfold task_node; tauto]). split; [by apply rep_inited; [|left]|].
    apply obj_frame_lists. intros n. apply inited_node. }
  destruct R' as [R' F']. split_and!; try done.
  - intros n Hn. unfold s', inited_task. repeat rewrite ?inited_store_at, ?st_lists_priority, ?st_lists_wake, ?st_lists_set_lists.
    rewrite inited_node. repeat (case_decide; [done|]). destruct Hn as [->|[->|[->| ->]]]; done.
  - unfold s', inited_task, inited_node_store. rewrite priority_at_set_lists.
    rewrite priority_at_wake.
    by rewrite priority_at_set_lists, priority_at_set_priority, decide_False,
      priority_at_set_lists, priority_at_set_priority, decide_True.
  - unfold s', inited_task, inited_node_store. rewrite priority_at_set_lists.
    rewrite priority_at_wake.
    by rewrite priority_at_set_lists, priority_at_set_priority, decide_True.
Qed.
End create.

(** The list heads embedded in objects. *)
Definition embedded_list (l : list_addr) : bool :=
  match l with
  | ReadyQueue _ _ | TimeoutHalf _ _ | AllTasks => false
  | _ => true
  end.

(** A new object: its unlinked nodes [N] and its list head [l0] are initialised. *)
Lemma kstruct_new_lists T D s s' V V' b N :
  kstruct T D s V b -> (forall n, N n -> node_list s n = None) ->
  obj_frame N (ks_store s) (ks_store s') -> lists_rep (st_lists (ks_store s')) V' ->
  (forall l, embedded_list l = false -> V' !! l = V !! l) ->
  (forall l ns, V' !! l = Some ns -> V !! l = Some ns \/ ns = []) ->
  (forall l, is_Some (V !! l) -> is_Some (V' !! l)) ->
  g_task_count (glob s') = g_task_count (glob s) ->
  g_timer_system_initialized (glob s') = g_timer_system_initialized (glob s) ->
  (forall l, object_list s' l -> object_list s l \/ is_Some (V' !! l)) ->
  (forall u, registered s u -> t_effective_priority (task_at s' u) = t_effective_priority (task_at s u) /\
     ~ N (ReadyNode u) /\ ~ N (WaitNode u)) ->
  kstruct T D s' V' b.
Proof.
  intros KS U F Rep Hl HV HV' Hc Ht Ho Hp.
  assert (HL : forall n, node_list s' n = node_list s n) by apply F.
  assert (HN : forall n l, node_list s n = Some l -> ~ N n) by (intros n l Hn HN; rewrite U in Hn; done).
  assert (Hreg : forall u, registered s' u <-> registered s u) by (intros; unfold registered; by rewrite HL).
  assert (TR : forall a Tm bm, timeout_rep (ks_store s) V a Tm D bm -> timeout_rep (ks_store s') V' a Tm D bm).
  { intros a Tm bm TR. apply (timeout_rep_frame (ks_store s) _ V _ a Tm D D bm TR).
    - unfold timeout_at. by rewrite (of_timeout _ _ _ F).
    - intros c. by apply Hl.
    - intros n [c Hn]%pending_half. split; [|done]. apply (of_wake _ _ _ F). by eapply HN, half_member. }
  constructor; rewrite ?Hc, ?Ht; auto.
  - apply (ready_rep_frame (ks_store s) _ V); [apply KS| | |].
    + unfold ready_at. by rewrite (of_ready _ _ _ F).
    + intros p. by apply Hl.
    + intros n p Hn. apply (of_priority _ _ _ F). by eapply HN, ready_member.
  - apply TR, KS.
  - apply (timers_rep_ext D D s s' V V' b (kt_timers _ _ _ _ _ KS) Ht); [apply TR|apply HV'].
  - intros l [Hl'|Hl']%Ho; [apply HV', KS, Hl'|done].
  - intros n l Hn. rewrite HL in Hn. unfold node_owner. simpl. rewrite (of_owner _ _ _ F) by (by eapply HN).
    by apply (kt_owner _ _ _ _ _ KS _ _ Hn).
  - intros n l. rewrite HL. apply KS.
  - intros n l u. rewrite HL, Hreg. apply KS.
  - intros l ns Hw [Hns| ->]%HV; [|constructor]. apply (sorted_by_shift (priority_at (ks_store s)) _ 0); [|by eapply KS].
    intros n Hn. apply (kt_member _ _ _ _ _ KS _ _ _ Hns) in Hn. rewrite (of_priority _ _ _ F) by (by eapply HN). lia.
  - rewrite Hl by done. apply KS.
  - intros u Hu%Hreg. destruct (Hp u Hu) as (-> & N1 & N2). rewrite !(of_priority _ _ _ F) by done. by apply KS.
Qed.

Lemma kstruct_fresh T D s s' V b N l0 :
  kstruct T D s V b -> (forall n, N n -> node_list s n = None) ->
  obj_frame N (ks_store s) (ks_store s') -> lists_rep (st_lists (ks_store s')) (<[l0 := []]> V) ->
  embedded_list l0 = true ->
  g_task_count (glob s') = g_task_count (glob s) ->
  g_timer_system_initialized (glob s') = g_timer_system_initialized (glob s) ->
  (forall l, object_list s' l -> object_list s l \/ l = l0) ->
  (forall u, registered s u -> t_effective_priority (task_at s' u) = t_effective_priority (task_at s u) /\
     ~ N (ReadyNode u) /\ ~ N (WaitNode u)) ->
  kstruct T D s' (<[l0 := []]> V) b.
Proof.
  intros KS U F Rep He Hc Ht Ho Hp. apply (kstruct_new_lists T D s s' V _ b N); try done.
  - intros l E. apply lookup_insert_ne. intros ->. congruence.
  - intros l ns. destruct (decide (l0 = l)) as [<-|Hne].
    + rewrite lookup_insert_eq. intros [= <-]. by right.
    + rewrite lookup_insert_ne by done. by left.
  - intros l. apply view_insert_is_Some.
  - intros l [Hl| ->]%Ho; [by left|right]. rewrite lookup_insert_eq. eauto.
Qed.

(** A task that is not registered has no linked node and owns no mutex. *)
Lemma unregistered_nodes T D s V b t : kstruct T D s V b -> ~ registered s t ->
  (forall n, task_node t n -> node_list s n = None) /\
  (V !! OwnedMutexes t = None \/ V !! OwnedMutexes t = Some []).
Proof.
  intros KS Hn. split.
  - intros n Ht. destruct (node_list s n) as [l|] eqn:E; [|done]. destruct Hn.
    apply (kt_registered _ _ _ _ _ KS n l t E). by destruct Ht as [->|[->|[->| ->]]].
  - destruct (V !! OwnedMutexes t) as [[|n ns]|] eqn:E; [by right| |by left]. destruct Hn.
    assert (Hl : node_list s n = Some (OwnedMutexes t)) by (apply (kt_member _ _ _ _ _ KS _ _ _ E), elem_of_cons; by left).
    apply (kt_registered _ _ _ _ _ KS _ _ t Hl). pose proof (kt_fits _ _ _ _ _ KS _ _ Hl) as Hf. by destruct n.
Qed.

(** The control block of a created task. *)
Record created_block (c : hr_task_control_block_t) (priority : Z) : Prop := {
  cb_magic : t_magic c = HR_CFG_TASK_MAGIC;
  cb_state : t_state c = HR_TASK_STATE_CREATED;
  cb_base : t_base_priority c = priority;
  cb_effective : t_effective_priority c = priority;
  cb_kind : t_wait_kind c = HR_TASK_WAIT_NONE;
  cb_object : t_waiting_object c = None;
  cb_list : t_blocked_wait_list c = None;
  cb_cleanup : t_wait_cleanup c = None;
  cb_owned : t_owned_mutex_count c = 0;
}.

Record created (s s' : kstate) (t : task_ptr) (priority : Z) : Prop := {
  cr_rest : s' = ks_set_words (ks_words s') (ks_set_store (ks_store s') (ks_set_tasks (ks_tasks s') s));
  cr_other : forall u, u <> t -> task_at s' u = task_at s u;
  cr_block : created_block (task_at s' t) priority;
  cr_store : obj_frame (task_node t) (ks_store s) (ks_store s');
  cr_owner : forall n, task_node t n -> node_owner s' n = Some (PTask t);
  cr_ready : priority_at (ks_store s') (ReadyNode t) = priority;
  cr_wait : priority_at (ks_store s') (WaitNode t) = priority;
}.

(** The state in pieces, so that the writes of a creation stay readable. *)
Definition building (s : kstate) (st : store) (t : task_ptr) (c : hr_task_control_block_t) (w : gmap Z Z) : kstate :=
  ks_set_words w (ks_set_store st (ks_set_tasks (<[t := c]> (ks_tasks s)) s)).

Lemma build_task s st t c w f Q :
  Q tt (building s st t (f c) w) -> wp (upd_task t f) Q (building s st t c w).
Proof.
  intros K. apply wp_upd_task. unfold building, set_task, task_at in *. simpl.
  by rewrite lookup_total_insert_eq, insert_insert_eq.
Qed.
Lemma build_store {A} s st t c w (m : M store A) Q :
  wp m (fun a st' => Q a (building s st' t c w)) st -> wp (lift m) Q (building s st t c w).
Proof. intros K. apply wp_lift. exact K. Qed.
Lemma building_task s st t c w u : task_at (building s st t c w) u = if decide (t = u) then c else task_at s u.
Proof. apply task_at_set_task. Qed.

Lemma zero_task_spec t Q s :
  Q tt (building s (zeroed_task t (ks_store s)) t zero_tcb (ks_words s)) -> wp (hr_task_zero_control_block t) Q s.
Proof. intros K. unfold hr_task_zero_control_block, zero_node, zero_list. wp_steps. exact K. Qed.

Lemma build_lists {A} s st t c w (m : M lmem A) Q :
  wp m (fun a h => Q a (building s (set_lists h st) t c w)) (st_lists st) -> wp (lift m) Q (building s st t c w).
Proof. intros K. apply wp_lift. exact K. Qed.
Section create_task.
Context `{Config}.

Lemma create_task_spec s V t name entry argument low words priority Q :
  lists_rep (st_lists (ks_store s)) V -> (forall n, task_node t n -> node_list s n = None) ->
  V !! OwnedMutexes t = None \/ V !! OwnedMutexes t = Some [] ->
  hr_task_is_valid s (Some t) = false -> stack_fits low words -> 0 <= priority < HR_CFG_PRIORITY_COUNT ->
  (forall s', lists_rep (st_lists (ks_store s')) (<[OwnedMutexes t := []]> V) -> created s s' t priority -> Q HR_OK s') ->
  wp (hr_task_create_static (Some t) (Some name) (Some entry) argument (Some low) words priority) Q s.
Proof.
  intros Rep U Hl Hv Hf Hp K. unfold hr_task_create_static. wp_step. wp_step. rewrite Hv.
  apply wp_if_false. { pose proof Hf as (? & ? & ? & ?). apply orb_false_iff. split; lia. }
  destruct (zeroed_task_spec t (ks_store s) V Rep U Hl) as [R0 F0].
  destruct (inited_task_spec t (zeroed_task t (ks_store s)) (delete (OwnedMutexes t) V) priority R0) as (R1 & F1 & O1 & P1 & P2).
  { by apply (unlinked_frame_nodes t (ks_store s)). }
  { apply lookup_delete_eq. }
  wp_step. apply zero_task_spec. revert R0 F0 R1 F1 O1 P1 P2. unfold inited_task.
  generalize (zeroed_task t (ks_store s)) as st. intros st R0 F0 R1 F1 O1 P1 P2.
  wp_step. apply fill_stack_spec; [done|]. wp_step. apply initialize_stack_spec; [done|].
  set (w := write_words _ _ _). match goal with |- wp _ _ ?x => change x with (building s st t zero_tcb w) end.
  clearbody w. do 18 (apply wp_bind, build_task).
  apply wp_bind, build_lists. eapply wp_intro; [apply init_run|].
  do 4 (apply wp_bind, build_task).
  do 3 (apply wp_bind, build_store, wp_bind, wp_lift; eapply wp_intro; [apply node_init_run|]; apply wp_modify).
  apply wp_bind, build_lists. eapply wp_intro; [apply node_init_run|].
  apply wp_bind, build_task. wp_step. cbn beta.
  set (c := t_set_magic _ _). set (st' := set_lists _ _). fold st' in R1, F1, O1, P1, P2.
  assert (C : created_block c priority) by done. clearbody c.
  change (inited_node_store _ _ _) with st' in R1, F1, O1, P1, P2. clearbody st'.
  rewrite insert_delete_eq in R1. apply K; [done|]. split; try done.
  - intros u Hu. by rewrite building_task, decide_False by congruence.
  - by rewrite building_task, decide_True.
  - by eapply obj_frame_trans.
Qed.
End create_task.

(** ** Registering a task *)

Record joined_frame (s s' : kstate) (t : task_ptr) (p : Z) : Prop := {
  jf_list : forall n, node_list s' n = if decide (n = AllTaskNode t) then Some AllTasks
              else if decide (n = ReadyNode t) then Some (ReadyQueue g_scheduler p) else node_list s n;
  jf_owner : forall n, node_owner s' n = node_owner s n;
  jf_priority : st_priority (ks_store s') = st_priority (ks_store s);
  jf_wake : st_wake (ks_store s') = st_wake (ks_store s);
  jf_timeout : st_timeout (ks_store s') = st_timeout (ks_store s);
  jf_rest : s' = ks_set_globals (g_set_task_count (g_task_count (glob s) + 1) (glob s))
                   (ks_set_store (ks_store s') (ks_set_tasks (ks_tasks s') s));
  jf_other : forall u, u <> t -> task_at s' u = task_at s u;
}.

Lemma jf_registered s s' t p u : joined_frame s s' t p -> registered s' u <-> u = t \/ registered s u.
Proof.
  intros F. unfold registered. rewrite (jf_list _ _ _ _ F).
  destruct (decide (AllTaskNode u = AllTaskNode t)) as [[= ->]|Hne]; [tauto|].
  rewrite decide_False by done. split; [tauto|]. intros [->|?]; done.
Qed.

Lemma kstruct_join T D s s' V b t p ats :
  kstruct T D s V b -> joined_frame s s' t p -> V !! AllTasks = Some ats ->
  let V' := <[AllTasks := ats ++ [AllTaskNode t]]>
              (<[ReadyQueue g_scheduler p := queue V g_scheduler p ++ [ReadyNode t]]> V) in
  0 <= p < HR_CFG_PRIORITY_COUNT -> lists_rep (st_lists (ks_store s')) V' -> ready_rep (ks_store s') V' g_scheduler ->
  (forall n, task_node t n -> node_owner s n = Some (PTask t)) -> is_Some (V !! OwnedMutexes t) ->
  priority_at (ks_store s) (ReadyNode t) = p -> priority_at (ks_store s) (WaitNode t) = p ->
  t_effective_priority (task_at s' t) = p -> g_task_count (glob s) < HR_CFG_MAX_TASKS ->
  kstruct T D s' V' b.
Proof.
  intros KS F Ha V' Hp Rep RR Ho Hm P1 P2 P3 Hc.
  assert (Hl : forall l, l <> AllTasks -> (forall q, l <> ReadyQueue g_scheduler q) -> V' !! l = V !! l).
  { intros l H1 H2. unfold V'. by rewrite !lookup_insert_ne by congruence. }
  assert (HP : forall n, priority_at (ks_store s') n = priority_at (ks_store s) n).
  { intros n. unfold priority_at. by rewrite (jf_priority _ _ _ _ F). }
  assert (TR : forall a Tm bm, timeout_rep (ks_store s) V a Tm D bm -> timeout_rep (ks_store s') V' a Tm D bm).
  { intros a Tm bm TR. apply (timeout_rep_frame (ks_store s) _ V _ a Tm D D bm TR).
    - unfold timeout_at. by rewrite (jf_timeout _ _ _ _ F).
    - intros c. by apply Hl.
    - intros n _. unfold wake_at. by rewrite (jf_wake _ _ _ _ F). }
  assert (Hti : g_timer_system_initialized (glob s') = g_timer_system_initialized (glob s)) by (by rewrite (jf_rest _ _ _ _ F)).
  assert (Hct : g_task_count (glob s') = g_task_count (glob s) + 1) by (by rewrite (jf_rest _ _ _ _ F)).
  pose proof (fun u => jf_registered s s' t p u F) as Hreg.
  destruct (kt_all _ _ _ _ _ KS) as (ats' & E & Hats & Hmax). rewrite Ha in E. injection E as <-.
  constructor; rewrite ?Hti, ?Hct; try done.
  - apply TR, KS.
  - apply (timers_rep_ext D D s s' V V' b (kt_timers _ _ _ _ _ KS) Hti); [apply TR|by rewrite Hl].
  - intros l Hol. unfold V'. apply view_insert_is_Some, view_insert_is_Some.
    destruct (decide (l = OwnedMutexes t)) as [->|Hne]; [done|]. apply KS.
    rewrite (jf_rest _ _ _ _ F) in Hol. destruct l; try done. apply Hreg in Hol as [->|]; done.
  - intros n l. rewrite (jf_list _ _ _ _ F), (jf_owner _ _ _ _ F). repeat case_decide; subst; [| |apply KS];
      intros _; apply Ho; unfold task_node; tauto.
  - intros n l. rewrite (jf_list _ _ _ _ F). repeat case_decide; subst; [| |apply KS]; by injection 1 as <-.
  - intros n l u. rewrite (jf_list _ _ _ _ F), Hreg. repeat case_decide; subst;
      [intros _ [= <-]; by left..|]. intros; right. by eapply (kt_registered _ _ _ _ _ KS).
  - intros l ns Hw Hns. rewrite Hl in Hns by (intros; intros ->; done).
    apply (sorted_by_shift (priority_at (ks_store s)) _ 0); [|by eapply KS]. intros n _. rewrite HP. lia.
  - exists (ats ++ [AllTaskNode t]). unfold V'. rewrite lookup_insert_eq, length_app. simpl. split_and!; [done|lia|lia].
  - intros u Hu. rewrite !HP. destruct (decide (u = t)) as [->|Hne].
    + rewrite P1, P2, P3. done.
    + rewrite (jf_other _ _ _ _ F) by done. apply KS. apply Hreg in Hu as [|]; done.
Qed.

(** What registration needs of a task: it was created, and nothing happened since. *)
Record startable (s : kstate) (V : view) (t : task_ptr) (p : Z) : Prop := {
  st_fresh : ~ registered s t;
  st_block : created_block (task_at s t) p;
  st_owner : forall n, task_node t n -> node_owner s n = Some (PTask t);
  st_ready_level : priority_at (ks_store s) (ReadyNode t) = p;
  st_wait_level : priority_at (ks_store s) (WaitNode t) = p;
  st_range : 0 <= p < HR_CFG_PRIORITY_COUNT;
  st_owned : is_Some (V !! OwnedMutexes t);
}.

Section register.
Context `{Config} (T : Z) (D : node_addr -> Z) (b : phase).

Definition ready_block (c : hr_task_control_block_t) : hr_task_control_block_t :=
  t_set_time_slice_remaining HR_CFG_TIME_SLICE_TICKS (t_set_state HR_TASK_STATE_READY c).

Lemma register_spec s V t p Q :
  kstruct T D s V b -> startable s V t p -> g_kernel_state (glob s) = HR_KERNEL_STATE_INITIALIZED ->
  g_task_count (glob s) < HR_CFG_MAX_TASKS -> (t = g_idle_task \/ p < HR_CFG_IDLE_PRIORITY) ->
  (forall s' V', kstruct T D s' V' b -> joined_frame s s' t p -> task_at s' t = ready_block (task_at s t) ->
     Q HR_OK s') ->
  wp (hr_kernel_register_task (Some t)) Q s.
Proof.
  intros KS ST HK Hc Hid K. pose proof ST as [S1 CB S3 P1 P2 Hp S7]. pose proof CB as [B1 B2 _ B4 _ _ _ _].
  destruct (unregistered_nodes _ _ _ _ _ _ KS S1) as [HU _].
  destruct (kt_all _ _ _ _ _ KS) as (ats & Ha & Hats & _).
  unfold hr_kernel_register_task. wp_step. wp_step.
  apply wp_if_false. { guards. by apply valid_task. }
  apply wp_if_false; [lia|].
  apply wp_if_false. { apply andb_false_iff. destruct Hid as [->|]; [left; by apply bool_neq_false|right; lia]. }
  apply wp_if_false. { guards; apply linked_false, HU; unfold task_node; tauto. }
  wp_step. unfold add_ready. wp_step. unfold hr_scheduler_add_ready. cbn [part_get store_part].
  apply (ready_set_insert_spec (ks_store s) V g_scheduler (ReadyNode t)); rewrite ?P1; [apply KS|apply KS|done| | |].
  { apply HU. unfold task_node; tauto. }
  { pose proof (ready_seq_bound _ _ _ _ _ KS). unfold SIZE_MAX, HR_CFG_MAX_TASKS in *. lia. }
  intros st1 Rep1 RR1 RF. ok_simpl. set (V1 := <[ReadyQueue g_scheduler p := _]> V) in *.
  destruct RF as [[LL LO] R2 R3 R4 _]. wp_step. wp_step.
  apply (hr_list_push_back_spec (st_lists st1) V1 AllTasks (AllTaskNode t) Rep1 ats).
  { unfold V1. by rewrite lookup_insert_ne. }
  { rewrite LL, decide_False by done. apply HU. unfold task_node; tauto. }
  { unfold SIZE_MAX, HR_CFG_MAX_TASKS in *. lia. }
  intros h2 Rep2 [ML MO]. ok_simpl. wp_step.
  match goal with |- wp _ _ ?x => set (s2 := x) end.
  apply transition_spec; [done|done|]. ok_simpl. unfold hr_kernel_reload_time_slice. upd_steps.
  apply wp_modify. wp_step.
  match goal with |- Q HR_OK ?x => set (s3 := x) end.
  assert (Hct : 0 <= g_task_count (glob s)) by lia.
  assert (HT : forall u, task_at s3 u = if decide (t = u) then ready_block (task_at s t) else task_at s u).
  { intros u. exact (task_at_set_task t (ready_block (task_at s t)) s2 u). }
  assert (JF : joined_frame s s3 t p).
  { split; try done.
    - intros n. unfold node_list, s3; simpl. rewrite ML, LL. repeat case_decide; congruence.
    - intros n. unfold node_owner, s3; simpl. rewrite MO. apply LO.
    - unfold s3. change (ks_globals (set_task t _ s2)) with (glob s).
      rewrite u32_small by (unfold UINT32_MAX, HR_CFG_MAX_TASKS in *; lia). done.
    - intros u Hu. by rewrite HT, decide_False by congruence. }
  apply (K s3 (<[AllTasks := ats ++ [AllTaskNode t]]> V1)).
  - apply (kstruct_join T D s s3 V b t p ats); try done.
    + apply (ready_rep_frame st1 _ V1); [done|done| |done]. intros q. by rewrite lookup_insert_ne.
    + by rewrite HT, decide_True.
  - done.
  - by rewrite HT, decide_True.
Qed.

Lemma kcore_join s s' V V' t p :
  kstruct T D s V b -> kstruct T D s' V' b -> joined_frame s s' t p -> startable s V t p ->
  task_at s' t = ready_block (task_at s t) ->
  g_kernel_tick (glob s) = u32 T -> g_kernel_state (glob s) = HR_KERNEL_STATE_INITIALIZED ->
  g_current_task (glob s) = None -> (t = g_idle_task \/ p < HR_CFG_IDLE_PRIORITY /\ registered s g_idle_task) ->
  (forall u, registered s u -> task_fixed s u /\ task_ok s u) ->
  objects_ok s -> kcore T D s' V' b nobody.
Proof.
  intros KS KS' JF ST HT Htick HK Hcur Hid Htasks Hobj. pose proof ST as [S1 CB S3 P1 P2 Hp S7].
  destruct (unregistered_nodes _ _ _ _ _ _ KS S1) as [HU _].
  pose proof (fun u => jf_registered s s' t p u JF) as Hreg.
  assert (HG : glob s' = g_set_task_count (g_task_count (glob s) + 1) (glob s)) by (by rewrite (jf_rest _ _ _ _ JF)).
  assert (HL : forall n, n <> AllTaskNode t -> n <> ReadyNode t -> node_list s' n = node_list s n).
  { intros n ? ?. by rewrite (jf_list _ _ _ _ JF), !decide_False. }
  assert (HR : node_list s' (ReadyNode t) = Some (ReadyQueue g_scheduler p)).
  { by rewrite (jf_list _ _ _ _ JF), decide_False, decide_True. }
  destruct CB as [B1 B2 B3 B4 B5 B6 B7 B8 _].
  split; rewrite ?HG; try done.
  - split; [apply Hreg; destruct Hid as [->|[_ ?]]; auto|]. rewrite HG. simpl. by rewrite HK.
  - intros u Hu. destruct (decide (u = t)) as [->|Hne].
    + split; rewrite ?(jf_owner _ _ _ _ JF), ?HT; simpl; rewrite ?B3, ?B4; try done; try lia;
        try (apply S3; unfold task_node; tauto).
    + apply Hreg in Hu as [?|Hu]; [done|]. destruct (Htasks u Hu) as [[] _].
      split; rewrite ?(jf_owner _ _ _ _ JF), ?(jf_other _ _ _ _ JF) by done; done.
  - intros u Hu _. destruct (decide (u = t)) as [->|Hne].
    + split; [|rewrite HR; eauto]. unfold state_ok. rewrite HT. simpl. split; [rewrite HR; eauto|].
      split; rewrite ?HT; simpl; try done; rewrite HL by done; apply HU; unfold task_node; tauto.
    + apply Hreg in Hu as [?|Hu]; [done|]. apply (task_ok_frame s).
      * by apply (jf_other _ _ _ _ JF).
      * intros n Hn. apply HL; destruct Hn as [->|[->| ->]]; congruence.
      * by rewrite HG.
      * by apply Htasks.
  - apply (objects_frame s); try (by rewrite (jf_rest _ _ _ _ JF)); try done.
    + intros n l Hl Hn. left. rewrite (jf_list _ _ _ _ JF) in Hn. repeat case_decide; try done; by simplify_eq.
    + intros m Hm. apply HL; by intros ->.
    + intros m _. apply (jf_owner _ _ _ _ JF).
    + intros u. destruct (decide (u = t)) as [->|Hne]; [by rewrite HT|by rewrite (jf_other _ _ _ _ JF)].
Qed.
End register.

(** A new object leaves the registered tasks alone. *)
Lemma kcore_fresh T D s s' V V' b :
  kcore T D s V b nobody -> kstruct T D s' V' b ->
  (forall n, node_list s' n = node_list s n) ->
  (forall u, registered s u -> task_at s' u = task_at s u /\ forall n, task_node u n -> node_owner s' n = node_owner s n) ->
  glob s' = glob s -> objects_ok s' ->
  kcore T D s' V' b nobody.
Proof.
  intros [K1 K2 K3 K4 K5 K6] KS HL HT HG HO'.
  assert (Hreg : forall u, registered s' u <-> registered s u) by (intros; unfold registered; by rewrite HL).
  split; rewrite ?HG; try done.
  - destruct K3 as [Hi Hg]. split; [by apply Hreg|]. rewrite HG. destruct (g_kernel_state (glob s)); try done.
    destruct Hg as (c & ? & ? & ?). exists c. by rewrite Hreg.
  - intros u Hu%Hreg. destruct (HT u Hu) as [E HO]. destruct (K4 u Hu).
    split; rewrite ?E, ?HO by (unfold task_node; tauto); done.
  - intros u Hu%Hreg HX. destruct (HT u Hu) as [E HO]. apply (task_ok_frame s); [done|by intros|by rewrite HG|by apply K5].
Qed.

Lemma task_node_inj t u n : task_node t n -> task_node u n -> t = u.
Proof. intros [->|[->|[->| ->]]] [|[|[|]]]; congruence. Qed.

(** Creation at the level of the structures, and of the invariant. *)
Lemma created_struct T D s s' V b t p :
  kstruct T D s V b -> ~ registered s t -> created s s' t p ->
  lists_rep (st_lists (ks_store s')) (<[OwnedMutexes t := []]> V) ->
  kstruct T D s' (<[OwnedMutexes t := []]> V) b.
Proof.
  intros KS Hn CR Rep. pose proof (cr_rest _ _ _ _ CR) as R.
  apply (kstruct_fresh T D s s' V b (task_node t)); try done; try (by rewrite R).
  - by destruct (unregistered_nodes _ _ _ _ _ _ KS Hn).
  - apply CR.
  - intros l Hl. rewrite R in Hl. destruct l; try by left. left.
    simpl in Hl |- *. unfold registered in *. rewrite <- Hl. symmetry. apply (of_list _ _ _ (cr_store _ _ _ _ CR)).
  - intros u Hu. assert (Hne : u <> t) by (by intros ->). rewrite (cr_other _ _ _ _ CR) by done.
    split_and!; [done| |]; intros [|[|[|]]]; congruence.
Qed.

Lemma created_startable T D s s' V b t p :
  kstruct T D s V b -> ~ registered s t -> created s s' t p -> 0 <= p < HR_CFG_PRIORITY_COUNT ->
  startable s' (<[OwnedMutexes t := []]> V) t p.
Proof.
  intros KS Hn CR Hp. split; try apply CR; try done.
  - intros Hr. apply Hn. unfold registered in *. rewrite <- Hr. symmetry. apply (of_list _ _ _ (cr_store _ _ _ _ CR)).
  - rewrite lookup_insert_eq. eauto.
Qed.

Lemma created_kcore T D s s' V b t p :
  kcore T D s V b nobody -> ~ registered s t -> created s s' t p ->
  lists_rep (st_lists (ks_store s')) (<[OwnedMutexes t := []]> V) ->
  kcore T D s' (<[OwnedMutexes t := []]> V) b nobody.
Proof.
  intros KC Hn CR Rep. pose proof (cr_rest _ _ _ _ CR) as R. pose proof (cr_store _ _ _ _ CR) as F.
  assert (HL : forall n, node_list s' n = node_list s n) by apply F.
  apply (kcore_fresh T D s s' V); try done; try (by rewrite R).
  - by apply (created_struct T D s s' V b t p (kc_struct _ _ _ _ _ _ KC)).
  - intros u Hu. assert (Hne : u <> t) by (by intros ->). split; [by apply (cr_other _ _ _ _ CR)|].
    intros n Hun. apply (of_owner _ _ _ F). intros Htn. by destruct Hne, (task_node_inj t u n).
  - apply (objects_same s); try (by rewrite R); try done; [| |apply KC].
    + intros m Hm. apply (of_owner _ _ _ F). by intros [->|[->|[->| ->]]].
    + intros u. destruct (decide (u = t)) as [->|Hne]; [|by rewrite (cr_other _ _ _ _ CR)].
      rewrite (cb_owned _ _ (cr_block _ _ _ _ CR)). symmetry.
      apply (ob_owned _ (kc_objects _ _ _ _ _ _ KC) t []); [constructor|]. intros m. split; [by intros ?%elem_of_nil|].
      intros Hm. destruct Hn. by apply (kt_registered _ _ _ _ _ (kc_struct _ _ _ _ _ _ KC) _ _ t Hm).
Qed.

(** ** The calls *)
Section calls.
Context `{Config} (T : Z) (D : node_addr -> Z) (b : phase).

Lemma invalid_unregistered s V t : kcore T D s V b nobody -> hr_task_is_valid s (Some t) = false -> ~ registered s t.
Proof. intros KC Hv Hr. rewrite valid_task in Hv; [done|]. by apply (kc_fixed _ _ _ _ _ _ KC). Qed.

Lemma create_spec s V t name entry argument low words priority Q :
  kcore T D s V b nobody -> hr_task_is_valid s (Some t) = false -> stack_fits low words ->
  0 <= priority < HR_CFG_PRIORITY_COUNT ->
  (forall s' V', kcore T D s' V' b nobody -> startable s' V' t priority -> created s s' t priority -> Q HR_OK s') ->
  wp (hr_task_create_static (Some t) (Some name) (Some entry) argument (Some low) words priority) Q s.
Proof.
  intros KC Hv Hf Hp K. pose proof (invalid_unregistered s V t KC Hv) as Hn. pose proof (kc_struct _ _ _ _ _ _ KC) as KS.
  destruct (unregistered_nodes _ _ _ _ _ _ KS Hn) as [HU HO].
  apply (create_task_spec s V); try done; [apply KS|]. intros s' Rep CR.
  apply (K s' (<[OwnedMutexes t := []]> V)); [by eapply created_kcore|by eapply created_startable|done].
Qed.

Lemma start_spec s V t p Q :
  kcore T D s V b nobody -> startable s V t p -> g_kernel_state (glob s) = HR_KERNEL_STATE_INITIALIZED ->
  g_task_count (glob s) < HR_CFG_MAX_TASKS -> p < HR_CFG_IDLE_PRIORITY ->
  (forall s' V', kcore T D s' V' b nobody -> joined_frame s s' t p -> task_at s' t = ready_block (task_at s t) ->
     Q HR_OK s') ->
  wp (hr_task_start (Some t)) Q s.
Proof.
  intros KC ST HK Hc Hp K. unfold hr_task_start. wp_step. wp_step. rewrite valid_task by (by apply ST). cbn [negb].
  apply (register_spec T D b s V t p); try done; [apply KC|by right|]. intros s' V' KS' JF HT. apply (K s' V'); try done.
  destruct (kc_globals _ _ _ _ _ _ KC) as [Hi Hg]. rewrite HK in Hg.
  apply (kcore_join T D b s s' V V' t p); try done; try (apply KC; done).
  - by right.
  - intros u Hu. split; [by apply KC|]. apply KC; [done|by intros []].
Qed.
End calls.

(** ** [hr_kernel_init] *)
Section init.
Context `{Config} (D : node_addr -> Z).

Definition reset_phase : phase := mk_phase false 0 false false.

(** The structures of a kernel without tasks. *)
Lemma empty_struct s V :
  lists_rep (st_lists (ks_store s)) V -> ready_rep (ks_store s) V g_scheduler ->
  timeout_rep (ks_store s) V g_timeout_list 0 D false -> V !! AllTasks = Some [] ->
  (forall n, node_list s n = None) -> g_task_count (glob s) = 0 -> g_timer_system_initialized (glob s) = false ->
  (forall l ns, V !! l = Some ns -> ns = []) -> (forall l, ~ object_list s l) -> kstruct 0 D s V reset_phase.
Proof.
  intros R1 R2 R3 HA HN HC HT HV HO. split; try done.
  - split; [by rewrite HT|done..].
  - intros l Hl. by destruct (HO l).
  - intros n l. by rewrite HN.
  - intros n l. by rewrite HN.
  - intros n l t. by rewrite HN.
  - intros l ns _ Hl. rewrite (HV l ns Hl). constructor.
  - exists []. by rewrite HC.
  - intros t Ht. unfold registered in Ht. by rewrite HN in Ht.
Qed.

Lemma reset_lists_spec Q :
  (forall st V, lists_rep (st_lists st) V -> ready_rep st V g_scheduler ->
     timeout_rep st V g_timeout_list 0 D false -> V !! AllTasks = Some [] ->
     (forall n, list_of (node_at (st_lists st) (PNode n)) = None) -> (forall l ns, V !! l = Some ns -> ns = []) ->
     Q tt (ks_set_store st reset_state)) ->
  wp ((lift (hr_scheduler_init (Some g_scheduler)) ;;; lift (hr_list_init (Some AllTasks))) ;;;
      lift (hr_timeout_list_init (Some g_timeout_list) 0)) Q reset_state.
Proof.
  intros K. wp_step. wp_step. wp_step. unfold hr_scheduler_init.
  apply (ready_set_init_spec g_scheduler empty_store ∅); [apply rep_empty|by left|].
  intros s1 V1 Rep1 RR1 Hseq HV1 HN1 _ _ HT1 _. wp_step. eapply wp_intro; [apply init_run|].
  assert (HV1' : forall l, (forall p, l <> ReadyQueue g_scheduler p) -> V1 !! l = None).
  { intros l Hl. rewrite HV1 by done. apply lookup_empty. }
  set (V2 := <[AllTasks := []]> V1).
  assert (Rep2 : lists_rep (inited (st_lists s1) AllTasks) V2) by (apply rep_inited; [done|left; by apply HV1']).
  wp_step. apply (timeout_init_spec (set_lists (inited (st_lists s1) AllTasks) s1) V2).
  - done.
  - unfold UINT32_MAX. lia.
  - intros c. left. unfold V2. rewrite lookup_insert_ne by done. by apply HV1'.
  - intros s3 V3 EV3 Rep3 TR3 HN3 HW3 TF.
    assert (HN : forall n, node_at (st_lists s3) (PNode n) = null_node).
    { intros n. rewrite HN3. simpl. rewrite inited_node, HN1. done. }
    apply (K s3 V3); try done.
    + apply (ready_rep_frame s1 _ V1); [done| | |].
      * pose proof (tf_ready _ _ _ TF) as E. unfold ready_at. by rewrite E.
      * intros p. rewrite EV3. unfold V2. by rewrite !lookup_insert_ne.
      * intros n p Hn. unfold priority_at. pose proof (tf_priority _ _ _ TF) as E. by rewrite E.
    + rewrite EV3. unfold V2. rewrite !lookup_insert_ne, lookup_insert_eq by done. done.
    + intros n. by rewrite HN.
    + intros l ns Hl. destruct ns as [|n ns]; [done|].
      assert (Hm : list_of (node_at (st_lists s3) (PNode n)) = Some l).
      { apply (rep_member_iff _ _ Rep3 n l _ Hl), elem_of_cons. by left. }
      by rewrite HN in Hm.
Qed.

(** The kernel is initialised, with the idle task alone and ready. *)
Record initialised (s : kstate) : Prop := {
  in_state : g_kernel_state (glob s) = HR_KERNEL_STATE_INITIALIZED;
  in_current : g_current_task (glob s) = None;
  in_count : g_task_count (glob s) = 1;
  in_tick : g_kernel_tick (glob s) = 0;
  in_timers : g_timer_system_initialized (glob s) = false;
  in_tasks : forall t, registered s t <-> t = g_idle_task;
  in_idle : t_state (task_at s g_idle_task) = HR_TASK_STATE_READY;
}.

Lemma init_spec Q :
  stack_fits address_of_g_idle_stack HR_CFG_IDLE_STACK_WORDS ->
  (forall s' V', kcore 0 D s' V' reset_phase nobody -> no_expired s' -> initialised s' -> Q HR_OK s') ->
  wp hr_kernel_init Q reset_state.
Proof.
  intros Hf K. unfold hr_kernel_init. wp_step. wp_step. rewrite bool_decide_false by (by intros []).
  apply wp_assoc, wp_assoc, wp_bind, reset_lists_spec. intros st V Rep RR TR HA HN HV.
  unfold hr_timer_system_reset, upd_globals. do 7 (wp_step; wp_step).
  match goal with |- wp _ _ ?x =>
    change x with (ks_set_globals (g_set_kernel_state HR_KERNEL_STATE_INITIALIZED reset_globals)
                     (ks_set_store st reset_state)) end.
  set (s0 := ks_set_globals _ _).
  assert (KS0 : kstruct 0 D s0 V reset_phase).
  { apply empty_struct; try done. intros l Hl. destruct l; try done. simpl in Hl. unfold registered in Hl.
    by rewrite (HN _ : node_list s0 _ = None) in Hl. }
  assert (Hn : forall t, ~ registered s0 t).
  { intros t Ht. unfold registered in Ht. by rewrite (HN _ : node_list s0 _ = None) in Ht. }
  wp_step. apply (create_task_spec s0 V); try done.
  { intros n _. apply HN. }
  { destruct (V !! OwnedMutexes g_idle_task) as [ns|] eqn:E; [right|by left]. by rewrite (HV _ _ E). }
  intros s1 Rep1 CR. ok_simpl. pose proof (cr_rest _ _ _ _ CR) as R1.
  pose proof (created_struct 0 D s0 s1 V reset_phase _ _ KS0 (Hn _) CR Rep1) as KS1.
  pose proof (created_startable 0 D s0 s1 V reset_phase _ _ KS0 (Hn _) CR ltac:(done)) as ST.
  assert (HG1 : glob s1 = glob s0) by (by rewrite R1).
  assert (HN1 : forall n, node_list s1 n = None) by (intros n; rewrite <- (HN n); apply CR).
  wp_step. unfold hr_task_start. wp_step. wp_step. rewrite valid_task by apply ST. cbn [negb].
  apply (register_spec 0 D reset_phase s1 _ g_idle_task HR_CFG_IDLE_PRIORITY _ KS1 ST); rewrite ?HG1; try done; [by left|].
  intros s2 V2 KS2 JF HT. ok_simpl. wp_step.
  assert (HR : forall t, registered s2 t <-> t = g_idle_task).
  { intros t. rewrite (jf_registered _ _ _ _ t JF). unfold registered. rewrite HN1. split; [by intros [|]|auto]. }
  assert (HG2 : glob s2 = g_set_task_count 1 (glob s0)) by (rewrite (jf_rest _ _ _ _ JF); simpl; by rewrite HG1).
  apply (K s2 V2).
  - apply (kcore_join 0 D reset_phase s1 s2 _ V2 g_idle_task HR_CFG_IDLE_PRIORITY KS1 KS2 JF ST HT); rewrite ?HG1; try done.
    + by left.
    + intros u Hu. unfold registered in Hu. by rewrite HN1 in Hu.
    + split; [intros n l Hl; by rewrite HN1 in Hl|by intros x; rewrite R1|by intros q; rewrite R1| | | |by rewrite HG1].
      * intros m. split; [intros o; rewrite HN1|..]; rewrite R1; [split; [done|]; by intros [? _]|done..].
      * intros u [|m ms] _ Hin; [|by specialize (proj1 (Hin m) ltac:(by apply elem_of_cons; left)); rewrite HN1].
        destruct (decide (u = g_idle_task)) as [->|Hne]; [apply (cr_block _ _ _ _ CR)|by rewrite (cr_other _ _ _ _ CR)].
      * intros x. assert (HX : ~ timer_valid s1 x) by (unfold timer_valid; by rewrite R1).
        split; rewrite ?HN1; try done. by intros [[] | []].
  - intros n. rewrite (jf_list _ _ _ _ JF), HN1. by repeat case_decide.
  - split; rewrite ?HG2; try done. by rewrite HT.
Qed.
End init.

(** ** Starting the scheduler *)
Section start.
Context `{Config} (T : Z) (D : node_addr -> Z) (b : phase).

Definition started (n : task_ptr) (s : kstate) : kstate :=
  ks_set_globals (g_set_kernel_state HR_KERNEL_STATE_RUNNING
    (g_set_hr_current_task_control_block (Some n) (g_set_current_task (Some n) (ks_globals s)))) s.

Lemma kcore_started s V n X :
  kcore T D s V b X -> registered s n ->
  (forall u, registered s u -> ~ X u -> t_state (task_at s u) <> HR_TASK_STATE_RUNNING) ->
  kcore T D (started n s) V b X.
Proof.
  intros [K1 K2 K3 K4 K5 K6] Hn HX. split; try done.
  - by apply (kstruct_ext T D s).
  - destruct K3 as [? _]. split; [done|]. simpl. eauto.
  - intros u Hu. by destruct (K4 u Hu).
  - intros u Hu HXu. apply (task_ok_frame s); try done; [|by apply K5]. intros E. by destruct (HX u Hu HXu).
  - by apply (objects_same s).
Qed.

Lemma prepare_start_spec s V Q :
  kcore T D s V b nobody -> g_kernel_state (glob s) = HR_KERNEL_STATE_INITIALIZED ->
  (forall s' n, kcore T D s' V b nobody -> running s' n -> registered s' n ->
     head (ready_seq V g_scheduler) = Some (ReadyNode n) ->
     (forall u, is_Some (node_list s (ReadyNode u)) ->
        t_effective_priority (task_at s n) <= t_effective_priority (task_at s u)) ->
     (forall u, u <> n -> task_at s' u = task_at s u) ->
     (forall m, node_list s' m = node_list s m) ->
     g_timer_system_initialized (glob s') = g_timer_system_initialized (glob s) -> Q HR_OK s') ->
  wp hr_kernel_prepare_start Q s.
Proof.
  intros KC HK K. pose proof (kc_globals _ _ _ _ _ _ KC) as [_ Hg]. rewrite HK in Hg.
  destruct (select_spec T D s V b nobody KC (idle_ready T D b s V KC)) as (n & Hsel & Hh & Hn & Hnl & Ho & Hmin).
  pose proof (kc_fixed _ _ _ _ _ _ KC n Hn) as TX.
  assert (Hrun : forall u, registered s u -> t_state (task_at s u) <> HR_TASK_STATE_RUNNING).
  { intros u Hu Eu. pose proof (running_is_current T D b s V u KC Hu Eu). congruence. }
  destruct (ready_task_state T D b s V nobody n KC Hn ltac:(intros []) Hnl) as [[Est|[Est ?]] IW]; [|congruence].
  unfold hr_kernel_prepare_start. wp_step. wp_step. rewrite bool_decide_false by tauto. rewrite Hsel, Ho.
  unfold cast_task; cbn [as_task]. rewrite valid_task by apply TX. cbn [negb]. rewrite bool_decide_false by tauto.
  wp_step. apply transition_spec; [apply TX|done|]. ok_simpl. unfold hr_kernel_reload_time_slice. upd_steps.
  unfold upd_globals. wp_steps. set (c := t_set_time_slice_remaining _ _).
  match goal with |- Q HR_OK ?x => change x with (started n (set_task n c s)) end.
  assert (HT : forall u, task_at (started n (set_task n c s)) u = if decide (n = u) then c else task_at s u).
  { intros u. apply (task_at_set_task n c s u). }
  apply (K _ n); try done.
  - pose proof (kcore_weaken T D b s V (eq n) KC) as KC1.
    apply (kcore_started s V n) in KC1; [|done|by intros; apply Hrun].
    apply (set_task_spec T D b n (started n s) V c) in KC1; try done. split; [|by intros].
    unfold state_ok. rewrite task_at_set_eq, node_list_set_task. simpl. split_and!; [done| |done].
    destruct IW. split; rewrite ?task_at_set_eq, ?node_list_set_task; done.
  - split; [done|done|]. by rewrite HT, decide_True.
  - intros u Hu. by rewrite HT, decide_False by congruence.
Qed.

(** ** Creating a semaphore *)

Record sem_made (s s' : kstate) (x : sem_ptr) (count maximum : Z) : Prop := {
  sm_rest : s' = ks_set_store (ks_store s') (ks_set_semaphores (ks_semaphores s') s);
  sm_block : sem_at s' x = mk_scb count maximum HR_CFG_SEMAPHORE_MAGIC;
  sm_other : forall y, y <> x -> sem_at s' y = sem_at s y;
  sm_list : forall n, node_list s' n = node_list s n;
}.

Lemma wp_upd_sem x f Q s : Q tt (set_sem x (f (sem_at s x)) s) -> wp (upd_sem x f) Q s.
Proof. done. Qed.
Local Ltac upd_sems := repeat lazymatch goal with
  | |- wp (bindM _ _) _ _ => apply wp_bind
  | |- wp (upd_sem _ _) _ _ => apply wp_upd_sem
  end.

Lemma sem_create_spec s V x count maximum Q :
  kcore T D s V b nobody -> hr_semaphore_is_valid s (Some x) = false ->
  0 < maximum <= UINT32_MAX -> 0 <= count <= maximum ->
  (forall s' V', kcore T D s' V' b nobody -> V' = <[SemaphoreWaiters x := []]> V ->
     sem_made s s' x count maximum -> Q HR_OK s') ->
  wp (hr_semaphore_create_counting (Some x) count maximum) Q s.
Proof.
  intros KC Hv Hm Hc K. pose proof (kc_struct _ _ _ _ _ _ KC) as KS.
  assert (Hmag : sem_magic (sem_at s x) <> HR_CFG_SEMAPHORE_MAGIC).
  { intros E. rewrite (sem_is_valid T D b s V x KC E) in Hv. done. }
  unfold hr_semaphore_create_counting. apply wp_if_false; [apply orb_false_iff; split; lia|].
  wp_step. wp_step. rewrite Hv. unfold hr_semaphore_zero_control_block, zero_list, hr_wait_list_init.
  wp_step. wp_step. apply wp_upd_sem. wp_step. wp_step. upd_sems. wp_step. wp_step.
  eapply wp_intro; [apply init_run|]. upd_sems. wp_step.
  set (st := set_lists (inited (zeroed_list (SemaphoreWaiters x) (st_lists (ks_store s))) (SemaphoreWaiters x)) (ks_store s)).
  match goal with |- Q HR_OK ?y => replace y with (set_sem x (mk_scb count maximum HR_CFG_SEMAPHORE_MAGIC) (ks_set_store st s)) end.
  2: { unfold set_sem, sem_at; simpl. by rewrite ?lookup_total_insert_eq, ?insert_insert_eq. }
  set (s' := set_sem x _ _).
  assert (HW : forall n, node_list s n <> Some (SemaphoreWaiters x)).
  { intros n Hn. by destruct (ob_waiters _ (kc_objects _ _ _ _ _ _ KC) n _ Hn). }
  assert (F : obj_frame (fun _ => False) (ks_store s) (ks_store s')).
  { apply obj_frame_lists. intros n. by rewrite inited_node, zeroed_list_node. }
  assert (HL : forall n, node_list s' n = node_list s n) by apply F.
  assert (HS : forall y, sem_at s' y = if decide (x = y) then mk_scb count maximum HR_CFG_SEMAPHORE_MAGIC else sem_at s y).
  { intros y. apply (sem_at_set_sem x _ (ks_set_store st s) y). }
  assert (HV : V !! SemaphoreWaiters x = None \/ V !! SemaphoreWaiters x = Some []).
  { destruct (V !! SemaphoreWaiters x) as [[|n ns]|] eqn:E; [by right| |by left]. destruct (HW n).
    apply (kt_member _ _ _ _ _ KS _ _ _ E), elem_of_cons. by left. }
  apply (K s' (<[SemaphoreWaiters x := []]> V)); [|done|].
  - apply (kcore_fresh T D s s' V); try done.
    + apply (kstruct_fresh T D s s' V b (fun _ => False)); try done.
      * apply fresh_list_spec; [apply KS|done].
      * intros l Hl. destruct (decide (l = SemaphoreWaiters x)) as [->|Hne]; [by right|left].
        destruct l; try done. simpl in Hl. by rewrite HS, decide_False in Hl by congruence.
      * intros u Hu. split_and!; [done|tauto|tauto].
    + destruct (kc_objects _ _ _ _ _ _ KC) as [O1 O2 O3 O4 O5 O6 O7]. split; [| |done| |exact O5| |].
      * intros n l Hn. rewrite HL in Hn. pose proof (O1 n l Hn). destruct l; try done. simpl in *. rewrite HS, decide_False; [done|].
        intros ->. by apply (HW n).
      * intros y. rewrite HS. case_decide; [done|apply O2].
      * intros m. by destruct (O4 m).
      * intros y. by apply (timer_frame s).
      * intros Hi. rewrite HS. case_decide; [done|]. by apply O7.
  - split; try done; rewrite ?HS; [by rewrite decide_True|]. intros y Hy. by rewrite HS, decide_False.
Qed.
End start.
