(* ===== verification/TimerInitSpec.v ===== *)
(** Creating software timers: the lists of the timers and the service task are set up with
    the first timer ([hr_timer_system_ensure_initialized]), the control block and the two
    nodes of a timer with each ([hr_timer_create_static]). *)
From stdpp Require Import gmap list.
From Stdlib Require Import ZArith Lia.
From S2P Require Import Prelude Types HrList HrListSpec Store Scheduler SchedulerSpec WaitList WaitListSpec Timeout TimeoutSpec KState PortStack PortStackSpec TaskCore KernelBase KernelInv MutexPriority Kernel Semaphore Timer KernelTick KernelTasks KernelSpec SemaphoreSpec TimerSpec KernelInitSpec.
Open Scope Z_scope.
Set Warnings "-clear-no-such-hyp".

(** ** A new timer *)

Definition making_timer (st : store) (x : timer_ptr) (c : hr_timer_control_block_t) (s : kstate) : kstate :=
  set_timer x c (ks_set_store st s).
Lemma making_timer_start x c s : set_timer x c s = making_timer (ks_store s) x c s.
Proof. by destruct s. Qed.
Lemma making_timer_update st x c s f Q : Q tt (making_timer st x (f c) s) -> wp (upd_timer x f) Q (making_timer st x c s).
Proof. intros HQ. apply wp_upd_timer. unfold making_timer in *. by rewrite timer_at_set_eq, set_timer_twice. Qed.
Lemma making_timer_zero st x c s n Q :
  Q tt (making_timer (zeroed_node n st) x c s) -> wp (zero_node n) Q (making_timer st x c s).
Proof. done. Qed.
Lemma making_timer_node st x c s n o Q :
  Q tt (making_timer (inited_node_store n o st) x c s) ->
  wp (lift (hr_list_node_init (Some (PNode n)) o)) Q (making_timer st x c s).
Proof. intros HQ. wp_step. eapply wp_intro; [apply node_init_run|exact HQ]. Qed.
Lemma making_timer_timeout st x c s n o Q :
  Q tt (making_timer (set_wake n 0 (inited_node_store n o st)) x c s) ->
  wp (lift (hr_timeout_node_init (Some n) o)) Q (making_timer st x c s).
Proof.
  intros HQ. unfold hr_timeout_node_init. wp_step. wp_step. wp_step. eapply wp_intro; [apply node_init_run|].
  wp_step. exact HQ.
Qed.

Definition timer_store (x : timer_ptr) (st : store) : store :=
  inited_node_store (TimerPendingNode x) (Some (PTimer x))
    (set_wake (TimerTimeoutNode x) 0 (inited_node_store (TimerTimeoutNode x) (Some (PTimer x))
      (zeroed_node (TimerPendingNode x) (zeroed_node (TimerTimeoutNode x) st)))).

Lemma timer_store_spec x st V :
  lists_rep (st_lists st) V -> (forall n, timer_node x n -> list_of (node_at (st_lists st) (PNode n)) = None) ->
  lists_rep (st_lists (timer_store x st)) V /\ obj_frame (timer_node x) st (timer_store x st) /\
  forall n, timer_node x n -> owner (node_at (st_lists (timer_store x st)) (PNode n)) = Some (PTimer x).
Proof.
  intros Rep U. set (N := timer_node x). assert (N1 : N (TimerTimeoutNode x)) by (by left). assert (N2 : N (TimerPendingNode x)) by (by right).
  assert (Zero : forall s1 n, lists_rep (st_lists s1) V /\ obj_frame N st s1 -> N n ->
    lists_rep (st_lists (zeroed_node n s1)) V /\ obj_frame N st (zeroed_node n s1)).
  { intros s1 n [R F] Hn. destruct (zeroed_node_spec N s1 V n) as [R' F']; try done.
    - rewrite (of_list _ _ _ F). auto.
    - split; [done|]. by eapply obj_frame_trans. }
  assert (Init : forall s1 n o, lists_rep (st_lists s1) V /\ obj_frame N st s1 -> N n ->
    lists_rep (st_lists (inited_node_store n o s1)) V /\ obj_frame N st (inited_node_store n o s1)).
  { intros s1 n o [R F] Hn. destruct (inited_node_spec N s1 V n o) as [R' F']; try done.
    - rewrite (of_list _ _ _ F). auto.
    - split; [done|]. by eapply obj_frame_trans. }
  assert (R : lists_rep (st_lists (timer_store x st)) V /\ obj_frame N st (timer_store x st)).
  { unfold timer_store. apply Init; [|done].
    match goal with |- lists_rep (st_lists (set_wake _ _ ?s1)) _ /\ _ =>
      assert (HR : lists_rep (st_lists s1) V /\ obj_frame N st s1) by (repeat (first [apply Init|apply Zero]; [|done]); done) end.
    destruct HR as [HR HF]. split; [exact HR|]. eapply obj_frame_trans; [exact HF|]. by apply obj_frame_wake. }
  destruct R as [R F]. split_and!; [done|done|].
  intros n Hn. unfold timer_store. rewrite inited_store_at. case_decide as E; [done|].
  rewrite st_lists_wake, inited_store_at. case_decide as E'; [done|]. destruct Hn as [-> | ->]; done.
Qed.

Record timer_made (s s' : kstate) (x : timer_ptr) (c : hr_timer_control_block_t) : Prop := {
  mk_rest : s' = ks_set_store (ks_store s') (ks_set_timers (ks_timers s') s);
  mk_timer : timer_at s' x = c;
  mk_other : forall y, y <> x -> timer_at s' y = timer_at s y;
  mk_list : forall n, node_list s' n = node_list s n;
}.

Section create.
Context `{Config} (T : Z) (D : node_addr -> Z) (b : phase).

Lemma timer_create_spec s V x name period auto_reload callback argument Q :
  let c := mk_tmcb (Some name) (Some callback) argument period 0 HR_CFG_TIMER_MAGIC auto_reload false false in
  kcore T D s V b nobody -> g_timer_system_initialized (glob s) = true -> ~ timer_valid s x -> Z.of_N x < SIZE_MAX ->
  0 < period < HR_WAIT_FOREVER -> hr_port_is_inside_isr s = false ->
  (forall s', kcore T D s' V b nobody -> timer_made s s' x c -> Q HR_OK s') ->
  wp (hr_timer_create_static (Some x) (Some name) period auto_reload (Some callback) argument) Q s.
Proof.
  intros c KC Hi Hv Hname Hp Hisr K. pose proof (kc_struct _ _ _ _ _ _ KC) as KS.
  pose proof (ob_timers _ (kc_objects _ _ _ _ _ _ KC)) as OK.
  assert (HU : forall n, timer_node x n -> node_list s n = None).
  { intros n Hn. destruct (node_list s n) as [l|] eqn:E; [|done]. destruct Hv. apply (tmo_linked _ _ (OK x)).
    destruct Hn as [-> | ->]; [left|right]; eauto. }
  assert (Hval : hr_timer_is_valid s (Some x) = false).
  { destruct (hr_timer_is_valid s (Some x)) eqn:E; [|done]. by destruct Hv; apply valid_timer. }
  unfold hr_timer_create_static. rewrite (proj2 (Z.eqb_neq period 0)), (proj2 (Z.eqb_neq period HR_WAIT_FOREVER)) by lia. cbn [orb].
  wp_step. wp_step. rewrite Hisr, Hval. wp_step. unfold hr_timer_system_ensure_initialized. wp_step. wp_step. rewrite Hi.
  wp_step. ok_simpl. unfold hr_timer_zero_control_block. wp_step. wp_step. apply wp_upd_timer. rewrite making_timer_start.
  wp_step. apply making_timer_zero. apply making_timer_zero. wp_step. apply making_timer_timeout. wp_step. apply making_timer_node.
  do 9 (wp_step; apply making_timer_update). wp_step.
  destruct (timer_store_spec x (ks_store s) V (kt_rep _ _ _ _ _ KS) HU) as (Rep & F & HO).
  match goal with |- Q HR_OK ?y => set (s' := y) end.
  assert (HT : forall y, timer_at s' y = if decide (x = y) then c else timer_at s y).
  { intros y. apply (timer_at_set_timer x c (ks_set_store (timer_store x (ks_store s)) s)). }
  assert (HL : forall n, node_list s' n = node_list s n) by apply F.
  assert (HN : forall u n, task_node u n -> ~ timer_node x n) by (intros u n [->|[->|[->| ->]]] [|]; done).
  apply (K s').
  2: { split; [done|by rewrite HT, decide_True| |done]. intros y Hy. by rewrite HT, decide_False by congruence. }
  apply (kcore_fresh T D s s' V); try done.
  - apply (kstruct_new_lists T D s s' V V b (timer_node x)); try done; [by auto| |].
    { intros l Hl. left. destruct l; try done. simpl in *. unfold registered in *. by rewrite <- HL. }
    intros u Hu. split_and!; [done|apply (HN u); unfold task_node; tauto..].
  - intros u Hu. split; [done|]. intros n Hn. apply (of_owner _ _ _ F). by eapply HN.
  - destruct (kc_objects _ _ _ _ _ _ KC) as [O1 O2 O3 O4 O5 O6 O7]. split; try done.
    + intros n l Hn. rewrite HL in Hn. by apply (O1 n).
    + intros m. destruct (O4 m) as [M1 M2 M3 M4]. split; try done; [intros o; rewrite HL; apply M1|].
      intros Hm. rewrite <- (M2 Hm). apply (of_owner _ _ _ F).
      by intros [|].
    + intros t ms Hd Hin. apply (O5 t); [done|]. intros m. by rewrite Hin, HL.
    + intros y. destruct (decide (x = y)) as [<-|Hne].
      * assert (E : timer_at s' x = c) by (by rewrite HT, decide_True).
        split; unfold timer_valid; rewrite ?HL, ?E; try done.
        -- intros _. split; apply HO; [by left|by right].
        -- intros _. rewrite HU by (by left). split; [done|by intros []].
        -- intros _. rewrite HU by (by right). split; [simpl; lia|by intros []].
      * apply (timer_ok_frame s); try done; [by rewrite HT, decide_False|]. intros n Hn. apply (of_owner _ _ _ F).
        destruct Hn as [-> | ->]; intros [|]; congruence.
Qed.
End create.

(** ** The first timer *)
Section ensure.
Context (T : Z) (D : node_addr -> Z) (b : phase).

(** Without timers the lists of the timers are empty. *)
Lemma no_timer_nodes s V l :
  kcore T D s V b nobody -> g_timer_system_initialized (glob s) = false ->
  l = PendingTimers \/ (exists c, l = TimeoutHalf g_timer_timeouts c) -> V !! l = None \/ V !! l = Some [].
Proof.
  intros KC Hi Hl. destruct (V !! l) as [[|n ns]|] eqn:E; [by right| |by left]. exfalso.
  assert (Hn : node_list s n = Some l) by (apply (kt_member _ _ _ _ _ (kc_struct _ _ _ _ _ _ KC) _ _ _ E), elem_of_cons; by left).
  pose proof (kt_fits _ _ _ _ _ (kc_struct _ _ _ _ _ _ KC) _ _ Hn) as Hf.
  assert (exists x, timer_node x n) as [x Hx].
  { destruct Hl as [-> |[c ->]], n; try done; eexists; unfold timer_node; eauto. }
  destruct (ob_timers _ (kc_objects _ _ _ _ _ _ KC) x) as [T1 _ _ _ _ _ T7]. rewrite T7 in Hi; [done|]. apply T1.
  destruct Hx as [-> | ->]; eauto.
Qed.

Definition timers_phase : phase := mk_phase (ph_half b) T false true.

Lemma timer_lists_struct s s' V V' :
  kstruct T D s V b -> s' = ks_set_store (ks_store s') s ->
  lists_rep (st_lists (ks_store s')) V' -> timeout_rep (ks_store s') V' g_timer_timeouts T D false -> is_Some (V' !! PendingTimers) ->
  (forall n, node_at (st_lists (ks_store s')) (PNode n) = node_at (st_lists (ks_store s)) (PNode n)) ->
  st_wake (ks_store s') = st_wake (ks_store s) -> timeout_frame (ks_store s) (ks_store s') g_timer_timeouts ->
  (forall l, l <> PendingTimers -> (forall c, l <> TimeoutHalf g_timer_timeouts c) -> V' !! l = V !! l) ->
  kstruct T D s' V' timers_phase.
Proof.
  intros KS R Rep TR HPT HN HW [F1 F2 F3] HV. pose proof KS as [K1 K2 K3 K4 K5 K6 K7 K8 K9 K10 K11].
  assert (HL : forall n, node_list s' n = node_list s n) by (intros n; unfold node_list; by rewrite HN).
  assert (HO : forall n, node_owner s' n = node_owner s n) by (intros n; unfold node_owner, hr_list_node_owner; by rewrite HN).
  assert (HR : forall t, registered s' t <-> registered s t) by (intros; unfold registered; by rewrite HL).
  assert (HP : forall n, priority_at (ks_store s') n = priority_at (ks_store s) n) by (intros n; unfold priority_at; by rewrite F1).
  assert (HG : glob s' = glob s) by (by rewrite R).
  constructor; rewrite ?HG; try done.
  - apply (ready_rep_frame (ks_store s) _ V _ _ K2); [unfold ready_at; by rewrite F2|intros p; by apply HV|intros n p _; apply HP].
  - apply (timeout_rep_frame (ks_store s) _ V _ _ T D D b K3); [by apply F3|intros c; by apply HV|].
    intros n _. unfold wake_at. by rewrite HW.
  - intros l Hl. rewrite R in Hl. destruct (K5 l) as [ns E]; [by destruct l; try done; apply HR|].
    rewrite HV; [eauto|by intros ->|by intros c ->].
  - intros n l. rewrite HL, HO. apply K6.
  - intros n l. rewrite HL. apply K7.
  - intros n l t. rewrite HL, HR. apply K8.
  - intros l ns Hw Hns. rewrite HV in Hns by (intros; intros ->; done).
    apply (sorted_by_shift (priority_at (ks_store s)) _ 0); [|by eapply K9]. intros n _. rewrite HP. lia.
  - by rewrite HV.
  - intros t Ht%HR. rewrite !HP. assert (task_at s' t = task_at s t) as -> by (by rewrite R). by apply K11.
Qed.

Lemma timer_lists_spec s V Q :
  kcore T D s V b nobody -> g_timer_system_initialized (glob s) = false -> 0 <= T <= UINT32_MAX ->
  (forall s' V', kcore T D s' V' timers_phase nobody -> (forall n, node_list s' n = node_list s n) ->
     s' = ks_set_store (ks_store s') s -> Q tt s') ->
  wp (lift (hr_timeout_list_init (Some g_timer_timeouts) (hr_kernel_get_tick s)) ;;; lift (hr_list_init (Some PendingTimers))) Q s.
Proof.
  intros KC Hi HT K. pose proof (kc_struct _ _ _ _ _ _ KC) as KS.
  assert (hr_kernel_get_tick s = T) as -> by (unfold hr_kernel_get_tick; rewrite (kc_tick _ _ _ _ _ _ KC); by apply u32_small).
  wp_step. wp_step. apply (timeout_init_spec (ks_store s) V g_timer_timeouts T); [apply KS|done| |].
  { intros c. apply (no_timer_nodes s V _ KC Hi). eauto. }
  intros st1 V1 EV1 Rep1 TR1 HN1 HW1 [F1 F2 F3]. wp_step. eapply wp_intro; [apply init_run|].
  set (V2 := <[PendingTimers := []]> V1). match goal with |- Q tt ?y => set (s' := y) end.
  assert (Rep2 : lists_rep (st_lists (ks_store s')) V2).
  { apply rep_inited; [done|]. rewrite EV1, !lookup_insert_ne by done. apply (no_timer_nodes s V _ KC Hi). auto. }
  assert (HN : forall n, node_at (st_lists (ks_store s')) (PNode n) = node_at (st_lists (ks_store s)) (PNode n)).
  { intros n. simpl. rewrite inited_node. apply HN1. }
  assert (KS' : kstruct T D s' V2 timers_phase).
  { apply (timer_lists_struct s s' V V2 KS); try done.
    - apply (timeout_rep_frame st1 _ V1 V2 _ T D D false (TR1 D)); try done. intros c. unfold V2. by rewrite lookup_insert_ne.
    - unfold V2. rewrite lookup_insert_eq. eauto.
    - intros l H1 H2. unfold V2. rewrite EV1, !lookup_insert_ne by done. done. }
  assert (HL : forall n, node_list s' n = node_list s n) by (intros n; unfold node_list; by rewrite HN).
  assert (HO : forall n, node_owner s' n = node_owner s n) by (intros n; unfold node_owner, hr_list_node_owner; by rewrite HN).
  apply (K s' V2); try done. apply (kcore_timers T D b s s' V V2 D _ _ KC KS'); [by split|].
  intros y. apply (timer_frame s); try done. apply KC.
Qed.

(** The flag is set last. *)
Lemma kcore_flag s V X :
  kcore T D s V b X -> ph_timers_on b = true -> sem_valid s g_timer_signal ->
  kcore T D (ks_set_globals (g_set_timer_system_initialized true (ks_globals s)) s) V b X.
Proof.
  intros [K1 K2 K3 K4 K5 [O1 O2 O3 O4 O5 O6 O7]] Hon Hv. split; try done.
  - destruct K1 as [L1 L2 L3 [M1 M2 M3] L5 L6 L7 L8 L9 L10 L11]. by split.
  - intros u Hu. by destruct (K4 u Hu).
  - intros u Hu HX. apply (task_ok_frame s); try done. by apply K5.
  - split; try done.
    + intros m. by destruct (O4 m).
    + intros x. by destruct (O6 x).
Qed.
End ensure.
