(* ===== verification/QueueSpec.v ===== *)
(** Message queues: [kernel/src/hr_queue.c] against the kernel invariant, and the
    messages a queue holds. *)
From stdpp Require Import gmap list.
From Stdlib Require Import ZArith Lia.
From S2P Require Import Prelude Types HrList HrListSpec Store Scheduler SchedulerSpec WaitList WaitListSpec Timeout TimeoutSpec KState TaskCore KernelBase KernelInv MutexPriority Kernel Queue KernelTasks KernelSpec KernelSwitch SemaphoreSpec KernelInitSpec.
Open Scope Z_scope.
Set Warnings "-clear-no-such-hyp".

(** ** Bytes *)

Definition bytes_at (s : kstate) (a n : Z) : list Z := (fun i => read_byte s (u32 (a + i))) <$> seqZ 0 n.

(** No byte of the [n] bytes at [a] is one of the [m] bytes at [b]. *)
Definition apart (a n b m : Z) : Prop := forall i j, 0 <= i < n -> 0 <= j < m -> u32 (a + i) <> u32 (b + j).

Lemma apart_sym a n b m : apart a n b m -> apart b m a n.
Proof. intros H i j Hi Hj E. by apply (H j i). Qed.

Lemma u32_add_l x y : u32 (u32 x + y) = u32 (x + y).
Proof. unfold u32, wrap. apply Zplus_mod_idemp_l. Qed.
Lemma u32_add_r x y : u32 (x + u32 y) = u32 (x + y).
Proof. unfold u32, wrap. apply Zplus_mod_idemp_r. Qed.
Lemma u32_offset_inj a i j : 0 <= i <= SIZE_MAX -> 0 <= j <= SIZE_MAX -> u32 (a + i) = u32 (a + j) -> i = j.
Proof.
  unfold u32, wrap, SIZE_MAX. intros Hi Hj E.
  assert (H : (i - j) mod 2 ^ 32 = 0).
  { replace (i - j) with ((a + i) - (a + j)) by lia. rewrite Zminus_mod, E, Z.sub_diag. done. }
  apply Z.mod_divide in H as [k Hk]; [|done]. nia.
Qed.

(** The memory [B] is that of [s] with the [n] bytes at [src] copied to [dst]. *)
Record copied (s : kstate) (B : gmap Z Z) (dst src n : Z) : Prop := {
  cp_frame : forall r m, apart dst n r m -> bytes_at (ks_set_bytes B s) r m = bytes_at s r m;
  cp_value : apart dst n src n -> bytes_at (ks_set_bytes B s) dst n = bytes_at s src n;
}.

Lemma copy_loop_spec dst src : forall k index s Q, 0 <= index -> index + Z.of_nat k <= SIZE_MAX ->
  (forall B,
    (forall a, (forall i, index <= i < index + Z.of_nat k -> a <> u32 (dst + i)) -> B !!! a = ks_bytes s !!! a) ->
    ((forall i j, index <= i < index + Z.of_nat k -> index <= j < index + Z.of_nat k -> u32 (dst + i) <> u32 (src + j)) ->
     forall i, index <= i < index + Z.of_nat k -> B !!! u32 (dst + i) = ks_bytes s !!! u32 (src + i)) ->
    Q tt (ks_set_bytes B s)) ->
  wp (queue_copy_loop k dst src index) Q s.
Proof.
  induction k as [|k IH]; intros index s Q H0 Hm K; cbn [queue_copy_loop].
  - wp_step. replace s with (ks_set_bytes (ks_bytes s) s) by (by destruct s). apply K; [done|lia].
  - wp_step. wp_step. unfold write_byte. wp_step. wp_step. apply IH; [lia|lia|]. intros B HF HV.
    set (s1 := ks_set_bytes (<[u32 (dst + index):=_]> _) s) in *. change (Q tt (ks_set_bytes B s)). apply K.
    + intros a Ha. rewrite HF by (intros i Hi; apply Ha; lia). simpl. apply lookup_total_insert_ne. intros E.
      by apply (Ha index); [lia|].
    + intros Hap i Hi. destruct (decide (i = index)) as [->|Hne].
      * rewrite HF; [simpl; by rewrite lookup_total_insert_eq|]. intros j Hj E. apply u32_offset_inj in E; lia.
      * rewrite HV; [|intros i' j' Hi' Hj'; apply Hap; lia|lia]. simpl. apply lookup_total_insert_ne. apply Hap; lia.
Qed.

Lemma copy_spec dst src n s Q : 0 <= n <= SIZE_MAX ->
  (forall B, copied s B dst src n -> Q tt (ks_set_bytes B s)) -> wp (hr_queue_copy dst src n) Q s.
Proof.
  intros Hn K. unfold hr_queue_copy. apply copy_loop_spec; [lia|lia|]. rewrite Z2Nat.id by lia. intros B HF HV.
  apply K. split.
  - intros r m Hap. apply list_fmap_ext. intros k x Hk. apply lookup_seqZ in Hk as [-> Hk]. unfold read_byte. simpl.
    apply HF. intros i Hi E. apply (Hap i (0 + Z.of_nat k)); [lia|lia|done].
  - intros Hap. apply list_fmap_ext. intros k x Hk. apply lookup_seqZ in Hk as [-> Hk]. unfold read_byte. simpl.
    apply HV; [|lia]. intros i j Hi Hj. apply Hap; lia.
Qed.

(** ** The messages of a queue *)

Definition slot_at (c : hr_queue_control_block_t) (i : Z) : Z :=
  u32 (default 0 (q_storage c) + u32 (i * q_item_size c)).
Definition message_at (s : kstate) (c : hr_queue_control_block_t) (i : Z) : list Z :=
  bytes_at s (slot_at c (i mod q_capacity c)) (q_item_size c).
(** Oldest first. *)
Definition messages (s : kstate) (q : queue_ptr) : list (list Z) :=
  (fun k => message_at s (queue_at s q) (q_head (queue_at s q) + k)) <$> seqZ 0 (q_count (queue_at s q)).

Section slots.
Context (c : hr_queue_control_block_t).
Hypothesis R : queue_range c.

Lemma slot_offset i x : u32 (slot_at c i + x) = u32 (default 0 (q_storage c) + (i * q_item_size c + x)).
Proof. unfold slot_at. rewrite u32_add_l. replace (default 0 (q_storage c) + u32 (i * q_item_size c) + x) with (default 0 (q_storage c) + x + u32 (i * q_item_size c)) by lia. rewrite u32_add_r. f_equal. lia. Qed.

Lemma slots_apart i j : 0 <= i < q_capacity c -> 0 <= j < q_capacity c -> i <> j ->
  apart (slot_at c i) (q_item_size c) (slot_at c j) (q_item_size c).
Proof.
  destruct R. intros Hi Hj Hne x y Hx Hy. rewrite !slot_offset. intros E. apply u32_offset_inj in E; [|nia|nia].
  destruct (decide (i < j)); nia.
Qed.

Lemma slot_apart_region i a n : 0 <= i < q_capacity c ->
  apart (default 0 (q_storage c)) (q_item_size c * q_capacity c) a n -> apart (slot_at c i) (q_item_size c) a n.
Proof.
  destruct R. intros Hi Hap x y Hx Hy. rewrite slot_offset. apply Hap; [nia|done].
Qed.

Lemma mod_neq h k n cap : 0 < cap -> 0 <= k < n -> n < cap -> (h + k) mod cap <> (h + n) mod cap.
Proof.
  intros Hc Hk Hn E. assert (H : (n - k) mod cap = 0).
  { replace (n - k) with ((h + n) - (h + k)) by lia. rewrite Zminus_mod, <- E, Z.sub_diag. done. }
  rewrite Z.mod_small in H; lia.
Qed.
End slots.

Definition set_queue (q : queue_ptr) (c : hr_queue_control_block_t) (s : kstate) : kstate :=
  ks_set_queues (<[q := c]> (ks_queues s)) s.

Lemma queue_at_set_queue q c s y : queue_at (set_queue q c s) y = if decide (q = y) then c else queue_at s y.
Proof.
  unfold queue_at, set_queue; simpl. case_decide as E;
    [subst; by rewrite lookup_total_insert_eq|by rewrite lookup_total_insert_ne].
Qed.
Lemma queue_at_set_eq q c s : queue_at (set_queue q c s) q = c.
Proof. by rewrite queue_at_set_queue, decide_True. Qed.
Lemma set_queue_twice q c c' s : set_queue q c (set_queue q c' s) = set_queue q c s.
Proof. unfold set_queue; simpl. by rewrite insert_insert_eq. Qed.
Lemma wp_upd_queue q f Q s : Q tt (set_queue q (f (queue_at s q)) s) -> wp (upd_queue q f) Q s.
Proof. done. Qed.

(** The control block after a message was written at the tail or read at the head. *)
Definition enqueued (c : hr_queue_control_block_t) : hr_queue_control_block_t :=
  q_set_count (q_count c + 1) (q_set_tail ((q_tail c + 1) mod q_capacity c) c).
Definition dequeued (c : hr_queue_control_block_t) : hr_queue_control_block_t :=
  q_set_count (q_count c - 1) (q_set_head ((q_head c + 1) mod q_capacity c) c).

Lemma queue_range_tail c : queue_range c -> 0 <= q_tail c < q_capacity c /\ q_capacity c <= SIZE_MAX /\ q_item_size c <= SIZE_MAX.
Proof. intros [_ R2 R3 R4 R5 R6 R7]. rewrite R7. pose proof (Z.mod_pos_bound (q_head c + q_count c) (q_capacity c)). split_and!; nia. Qed.

Lemma enqueued_range c : queue_range c -> q_count c < q_capacity c -> queue_range (enqueued c).
Proof.
  intros [R1 R2 R3 R4 R5 R6 R7] Hc. split; simpl; try done; [lia|]. rewrite R7, Zplus_mod_idemp_l. f_equal. lia.
Qed.
Lemma dequeued_range c : queue_range c -> 0 < q_count c -> queue_range (dequeued c).
Proof.
  intros [R1 R2 R3 R4 R5 R6 R7] Hc. split; simpl; try done; [lia|by apply Z.mod_pos_bound|].
  rewrite R7, Zplus_mod_idemp_l. f_equal. lia.
Qed.

Lemma advance_tail_spec q s Q : queue_range (queue_at s q) -> q_count (queue_at s q) < q_capacity (queue_at s q) ->
  Q tt (set_queue q (enqueued (queue_at s q)) s) -> wp (advance_tail q) Q s.
Proof.
  intros R Hc HQ. destruct (queue_range_tail _ R) as (Ht & Hcap & _). destruct R. unfold advance_tail.
  wp_step. apply wp_upd_queue. apply wp_upd_queue. rewrite queue_at_set_eq, set_queue_twice.
  unfold UINT32_MAX, SIZE_MAX in *. simpl. rewrite !u32_small by (unfold UINT32_MAX; lia). exact HQ.
Qed.
Lemma advance_head_spec q s Q : queue_range (queue_at s q) -> 0 < q_count (queue_at s q) ->
  Q tt (set_queue q (dequeued (queue_at s q)) s) -> wp (advance_head q) Q s.
Proof.
  intros R Hc HQ. destruct (queue_range_tail _ R) as (Ht & Hcap & _). destruct R. unfold advance_head.
  wp_step. apply wp_upd_queue. apply wp_upd_queue. rewrite queue_at_set_eq, set_queue_twice.
  unfold UINT32_MAX, SIZE_MAX in *. simpl. rewrite !u32_small by (unfold UINT32_MAX; lia). exact HQ.
Qed.

(** The bytes a queue keeps its messages in. *)
Definition storage_apart (c : hr_queue_control_block_t) (a : Z) : Prop :=
  apart (default 0 (q_storage c)) (q_item_size c * q_capacity c) a (q_item_size c).

Lemma messages_enqueue s q B item : let c := queue_at s q in
  queue_range c -> q_count c < q_capacity c -> copied s B (slot_at c (q_tail c)) item (q_item_size c) ->
  storage_apart c item ->
  messages (set_queue q (enqueued c) (ks_set_bytes B s)) q = messages s q ++ [bytes_at s item (q_item_size c)].
Proof.
  intros c R Hc CP Hap. destruct (queue_range_tail _ R) as (Ht & _ & _). unfold messages. rewrite queue_at_set_eq. fold c.
  pose proof R as [R1 R2 R3 R4 R5 R6 R7]. cbn [enqueued q_count q_set_count q_head q_set_tail].
  rewrite seqZ_app, fmap_app by lia. f_equal.
  - apply list_fmap_ext. intros k x Hk. apply lookup_seqZ in Hk as [-> Hk].
    change (bytes_at (ks_set_bytes B s) (slot_at c ((q_head c + (0 + Z.of_nat k)) mod q_capacity c)) (q_item_size c) =
      bytes_at s (slot_at c ((q_head c + (0 + Z.of_nat k)) mod q_capacity c)) (q_item_size c)).
    apply (cp_frame _ _ _ _ _ CP). apply slots_apart; [done|done|by apply Z.mod_pos_bound|].
    rewrite R7. intros E. symmetry in E. by apply mod_neq in E; [|lia..].
  - simpl. f_equal.
    change (bytes_at (ks_set_bytes B s) (slot_at c ((q_head c + q_count c) mod q_capacity c)) (q_item_size c) =
      bytes_at s item (q_item_size c)). rewrite <- R7. apply (cp_value _ _ _ _ _ CP).
    by apply slot_apart_region.
Qed.

Lemma messages_dequeue s q : let c := queue_at s q in
  queue_range c -> 0 < q_count c ->
  messages s q = message_at s c (q_head c) :: messages (set_queue q (dequeued c) s) q.
Proof.
  intros c R Hc. unfold messages. rewrite queue_at_set_eq. fold c. destruct R.
  cbn [dequeued q_count q_set_count q_head q_set_head]. rewrite seqZ_cons by done.
  rewrite fmap_cons, Z.add_0_r. f_equal. replace (Z.pred (q_count c)) with (q_count c - 1) by lia.
  replace (Z.succ 0) with (0 + 1) by lia. rewrite <- (fmap_add_seqZ 1 0), <- list_fmap_compose.
  apply list_fmap_ext. intros k x Hk. simpl. unfold message_at. f_equal. unfold slot_at. simpl. do 4 f_equal.
  rewrite Zplus_mod_idemp_l. f_equal. lia.
Qed.

Lemma messages_frame s q B dst src n : let c := queue_at s q in
  queue_range c -> copied s B dst src n ->
  apart (default 0 (q_storage c)) (q_item_size c * q_capacity c) dst n ->
  messages (ks_set_bytes B s) q = messages s q.
Proof.
  intros c R CP Hap. apply list_fmap_ext. intros k x Hk. apply (cp_frame _ _ _ _ _ CP), apart_sym.
  apply slot_apart_region; [done| |done]. apply Z.mod_pos_bound, R.
Qed.

(** ** The invariant *)
Section kcore.
Context (T : Z) (D : node_addr -> Z) (b : phase).

Lemma kcore_set_queue s V X q c :
  kcore T D s V b X -> q_magic c = q_magic (queue_at s q) ->
  (q_magic c = HR_CFG_QUEUE_MAGIC -> queue_range c) ->
  (forall n, node_list s n = Some (QueueSendWaiters q) -> q_count c = q_capacity c) ->
  (forall n, node_list s n = Some (QueueReceiveWaiters q) -> q_count c = 0) ->
  kcore T D (set_queue q c s) V b X.
Proof.
  intros [K1 K2 K3 K4 K5 [O1 O2 O3 O4 O5 O6 O7]] Hm Hr Hs Hw. split; try done.
  - apply (kstruct_ext T D s); try done. intros l. destruct l; try done; simpl; rewrite queue_at_set_queue;
      case_decide; subst; by rewrite ?Hm.
  - intros u Hu. by destruct (K4 u Hu).
  - intros u Hu HXu. apply (task_ok_frame s); try done. by apply K5.
  - split.
    + intros n l Hn. pose proof (O1 n l Hn) as HM. destruct l; try done; simpl in *; rewrite queue_at_set_queue;
        case_decide; try done; subst; rewrite Hm; (split; [apply HM|eauto]).
    + done.
    + intros y. rewrite queue_at_set_queue. case_decide; [done|apply O3].
    + intros m. by destruct (O4 m).
    + exact O5.
    + intros y. by apply (timer_frame s).
    + exact O7.
Qed.
End kcore.

(** ** Sending and receiving *)
Section calls.
Context `{Config} (T : Z) (D : node_addr -> Z) (b : phase).

Definition queue_valid (s : kstate) (q : queue_ptr) : Prop := q_magic (queue_at s q) = HR_CFG_QUEUE_MAGIC.

(** A waiter was woken with OK, and a task blocked on a queue. *)
Record queue_woke (s s' : kstate) (V' : view) (u : task_ptr) (f : option bool) : Prop := {
  qw_core : kcore T D s' V' b nobody;
  qw_expired : no_expired s';
  qw_woke : woke s s' u HR_OK;
  qw_flag : is_Some f;
  qw_preempts : suspended_wait (task_at s u) = false -> f = Some (woken_preempts s' u);
}.
Record queue_blocked (s s' : kstate) (V' : view) (t : task_ptr) (q : queue_ptr) (l : list_addr)
    (ns : list node_addr) (item timeout : Z) : Prop := {
  qb_core : kcore T (wait_deadline T D t timeout) s' V' b nobody;
  qb_expired : no_expired s';
  qb_list : V' !! l = Some (insert_by (priority_at (ks_store s)) (WaitNode t) ns);
  qb_frame : blocked_frame s s' t;
  qb_wait : object_waiting s' t (WQueue q) l;
  qb_timeout : node_list s' (TimeoutNode t) = None <-> timeout = HR_WAIT_FOREVER;
  qb_state : t_state (task_at s' t) = HR_TASK_STATE_BLOCKED;
  qb_buffer : t_wait_buffer (task_at s' t) = Some item;
}.

Section queue.
Context (s : kstate) (V : view) (q : queue_ptr).
Hypothesis KC : kcore T D s V b nobody.
Hypothesis NE : no_expired s.
Hypothesis Hv : queue_valid s q.
Local Abbreviation c := (queue_at s q).

Lemma queue_in_range : queue_range c.
Proof. by apply (ob_queues _ (kc_objects _ _ _ _ _ _ KC)). Qed.

Lemma queue_is_valid : hr_queue_is_valid s (Some q) = true.
Proof.
  pose proof queue_in_range as R. destruct (queue_range_tail _ R) as (Ht & _). destruct R as [[a Ea] R2 R3 R4 R5 R6 R7].
  unfold hr_queue_is_valid. rewrite Hv, Z.eqb_refl, Ea. cbn. rewrite !andb_true_iff. split_and!; lia.
Qed.

Lemma queue_slot i : hr_queue_slot s q i = Some (slot_at c i).
Proof. unfold hr_queue_slot, slot_at. destruct (qr_storage _ queue_in_range) as [a ->]. done. Qed.

Lemma queue_waiters l : l = QueueSendWaiters q \/ l = QueueReceiveWaiters q -> exists ns, V !! l = Some ns.
Proof. intros [-> | ->]; apply (kt_objects _ _ _ _ _ (kc_struct _ _ _ _ _ _ KC)); exact Hv. Qed.

Lemma queue_empty l ns : V !! l = Some ns -> hr_wait_list_is_empty (ks_store s) (Some l) = bool_decide (ns = []).
Proof. intros Hl. apply hr_list_is_empty_spec, (rep_ring _ _ (kt_rep _ _ _ _ _ (kc_struct _ _ _ _ _ _ KC)) _ _ Hl). Qed.

(** The task of a linked waiter, its buffer and what it waits for. *)
Lemma queue_waiter l t : l = QueueSendWaiters q \/ l = QueueReceiveWaiters q -> node_list s (WaitNode t) = Some l ->
  node_owner s (WaitNode t) = Some (PTask t) /\ hr_task_is_valid s (Some t) = true /\
  (exists buffer, t_wait_buffer (task_at s t) = Some buffer) /\ t_waiting_object (task_at s t) = Some (WQueue q) /\
  t_wait_kind (task_at s t) = (if bool_decide (l = QueueSendWaiters q) then HR_TASK_WAIT_QUEUE_SEND else HR_TASK_WAIT_QUEUE_RECEIVE).
Proof.
  intros Hl Hw. pose proof (kt_registered _ _ _ _ _ (kc_struct _ _ _ _ _ _ KC) _ _ t Hw eq_refl) as Hreg.
  pose proof (kc_fixed _ _ _ _ _ _ KC t Hreg) as TX.
  destruct (linked_waits s t l (kc_tasks _ _ _ _ _ _ KC t Hreg ltac:(intros [])) Hw) as (o & [O1 O2 O3 O4 O5 O6] & _ & _ & _).
  assert (E : o = WQueue q /\ t_wait_kind (task_at s t) =
    (if bool_decide (l = QueueSendWaiters q) then HR_TASK_WAIT_QUEUE_SEND else HR_TASK_WAIT_QUEUE_RECEIVE)).
  { destruct (t_wait_kind (task_at s t)), o, Hl; simpl in O1; subst; simplify_eq; try done.
    split; [done|by rewrite bool_decide_true]. }
  destruct E as [-> Ek]. split_and!; try done; [apply TX|by apply valid_task; apply TX|].
  apply O5. rewrite Ek. by case_bool_decide.
Qed.

Lemma queue_block_spec l kind ns t item timeout Q :
  waits_for kind (WQueue q) = Some l -> V !! l = Some ns -> may_wait s l ->
  0 < timeout <= UINT32_MAX -> running s t -> t <> g_idle_task ->
  (forall s' V', queue_blocked s s' V' t q l ns item timeout -> Q (Waits t, None) s') ->
  wp (queue_block l q kind item timeout) Q s.
Proof.
  intros Hk Hl Hm Ht RN Hni K. unfold queue_block. wp_step. wp_step.
  change (hr_task_control_block (hr_task_current s)) with (g_current_task (glob s)). rewrite (rn_current _ _ RN).
  unfold hr_kernel_block_current_on_wait_list. wp_step.
  apply (block_current_spec T D b t s V l (WQueue q) kind (Some item) timeout None ns); try done.
  intros s' V' KC' HV' BF OW HT HS HB. ok_simpl. wp_step. apply (K s' V'). split; try done.
  by eapply (no_expired_blocked b); [apply (kc_struct _ _ _ _ _ _ KC')|..].
Qed.

Lemma no_waiters l n : V !! l = Some [] -> node_list s n <> Some l.
Proof. intros Hl Hn. apply (kt_member _ _ _ _ _ (kc_struct _ _ _ _ _ _ KC) _ _ _ Hl) in Hn. by apply elem_of_nil in Hn. Qed.

Lemma first_waiter l n ns : is_wait_list l = true -> V !! l = Some (n :: ns) ->
  exists u, n = WaitNode u /\ node_list s (WaitNode u) = Some l /\ hr_wait_list_peek (ks_store s) (Some l) = Some (WaitNode u).
Proof.
  intros Hw Hl. destruct (wait_peek T D b s V nobody l _ KC Hw Hl) as [Hp Hn].
  destruct (Hn n) as (u & -> & Hu); [by apply elem_of_cons; left|]. by exists u.
Qed.

Lemma send_locked_spec rs ss item timeout allow t Q :
  V !! QueueReceiveWaiters q = Some rs -> V !! QueueSendWaiters q = Some ss -> 0 <= timeout <= UINT32_MAX ->
  (allow = true -> timeout <> HR_NO_WAIT -> running s t /\ t <> g_idle_task) ->
  (forall u us buffer B f s' V', rs = WaitNode u :: us -> t_wait_buffer (task_at s u) = Some buffer ->
     copied s B buffer item (q_item_size c) -> queue_woke (ks_set_bytes B s) s' V' u f -> Q (Returns HR_OK, f) s') ->
  (forall B, rs = [] -> q_count c < q_capacity c -> copied s B (slot_at c (q_tail c)) item (q_item_size c) ->
     kcore T D (set_queue q (enqueued c) (ks_set_bytes B s)) V b nobody ->
     Q (Returns HR_OK, None) (set_queue q (enqueued c) (ks_set_bytes B s))) ->
  (rs = [] -> q_count c = q_capacity c -> timeout = HR_NO_WAIT -> Q (Returns HR_ERROR_QUEUE_FULL, None) s) ->
  (rs = [] -> q_count c = q_capacity c -> timeout <> HR_NO_WAIT -> allow = false ->
     Q (Returns HR_ERROR_INVALID_STATE, None) s) ->
  (forall s' V', rs = [] -> q_count c = q_capacity c -> timeout <> HR_NO_WAIT -> allow = true ->
     queue_blocked s s' V' t q (QueueSendWaiters q) ss item timeout -> Q (Waits t, None) s') ->
  wp (hr_queue_send_locked q item timeout allow) Q s.
Proof.
  intros Hrs Hss Ht Hrun K1 K2 K3 K4 K5. pose proof queue_in_range as R. destruct (queue_range_tail _ R) as (Htl & _ & Hit).
  pose proof R as [_ R2 R3 R4 R5 R6 R7]. unfold hr_queue_send_locked. wp_step. wp_step. rewrite (queue_empty _ _ Hrs).
  destruct rs as [|n rs].
  - rewrite bool_decide_true by done. cbn [negb]. destruct (Z.ltb_spec (q_count c) (q_capacity c)) as [Hc|Hc].
    + rewrite queue_slot. unfold with_slot. wp_step. apply copy_spec; [lia|]. intros B CP.
      wp_step. apply advance_tail_spec; [done|done|]. wp_step. apply (K2 B eq_refl Hc CP).
      apply kcore_set_queue; [by apply kcore_bytes|done|intros _; by apply enqueued_range| |].
      * intros n Hn. destruct (ob_waiters _ (kc_objects _ _ _ _ _ _ KC) n _ Hn) as [_ E]. lia.
      * intros n Hn. by destruct (no_waiters _ n Hrs).
    + assert (Hfull : q_count c = q_capacity c) by lia. destruct (Z.eqb_spec timeout HR_NO_WAIT); [wp_step; by apply K3|].
      destruct allow; cbn [negb]; [|wp_step; by apply K4]. destruct (Hrun eq_refl ltac:(done)) as [RN Hni].
      apply (queue_block_spec _ _ ss t); try done; [unfold HR_NO_WAIT in *; lia|]. intros s' V' QB. by apply (K5 s' V').
  - destruct (first_waiter (QueueReceiveWaiters q) n rs eq_refl Hrs) as (u & -> & Hu & Hp). rewrite bool_decide_false by done. cbn [negb].
    destruct (queue_waiter _ u (or_intror eq_refl) Hu) as (Ho & Hval & (buffer & Hb) & Hob & Hk).
    unfold as_locked, hr_queue_wake_receiver, hr_queue_waiter_task. wp_step. wp_step. wp_step. rewrite Hp. wp_step. wp_step.
    rewrite bool_decide_false in Hk by done. rewrite Ho. unfold cast_task; cbn [as_task]. rewrite Hval, Hb, Hk, Hob.
    rewrite !bool_decide_false by tauto. cbn [orb]. wp_step. apply copy_spec; [lia|]. intros B CP.
    apply (unblock_waiter_spec T D b _ V u (QueueReceiveWaiters q)); [by apply kcore_bytes|done|done|].
    intros f s' V' KC' NE' W Hf HF _. wp_step. apply (K1 u rs buffer B f s' V'); done.
Qed.

(** The slot that a read frees is the one the next message is written to when the queue
    was full. *)
Lemma receive_locked_spec rs ss item timeout allow t Q :
  V !! QueueReceiveWaiters q = Some rs -> V !! QueueSendWaiters q = Some ss -> 0 <= timeout <= UINT32_MAX ->
  (allow = true -> timeout <> HR_NO_WAIT -> running s t /\ t <> g_idle_task) ->
  (forall B, ss = [] -> 0 < q_count c -> copied s B item (slot_at c (q_head c)) (q_item_size c) ->
     kcore T D (set_queue q (dequeued c) (ks_set_bytes B s)) V b nobody ->
     Q (Returns HR_OK, None) (set_queue q (dequeued c) (ks_set_bytes B s))) ->
  (forall u us buffer B1 B2 f s' V', ss = WaitNode u :: us -> 0 < q_count c ->
     t_wait_buffer (task_at s u) = Some buffer ->
     copied s B1 item (slot_at c (q_head c)) (q_item_size c) ->
     copied (ks_set_bytes B1 s) B2 (slot_at c (q_tail c)) buffer (q_item_size c) ->
     queue_woke (set_queue q (enqueued (dequeued c)) (ks_set_bytes B2 s)) s' V' u f -> Q (Returns HR_OK, f) s') ->
  (q_count c = 0 -> timeout = HR_NO_WAIT -> Q (Returns HR_ERROR_QUEUE_EMPTY, None) s) ->
  (q_count c = 0 -> timeout <> HR_NO_WAIT -> allow = false -> Q (Returns HR_ERROR_INVALID_STATE, None) s) ->
  (forall s' V', q_count c = 0 -> timeout <> HR_NO_WAIT -> allow = true ->
     queue_blocked s s' V' t q (QueueReceiveWaiters q) rs item timeout -> Q (Waits t, None) s') ->
  wp (hr_queue_receive_locked q item timeout allow) Q s.
Proof.
  intros Hrs Hss Ht Hrun K1 K2 K3 K4 K5. pose proof queue_in_range as R. destruct (queue_range_tail _ R) as (Htl & _ & Hit).
  pose proof R as [_ R2 R3 R4 R5 R6 R7]. unfold hr_queue_receive_locked. wp_step. wp_step.
  destruct (Z.ltb_spec 0 (q_count c)) as [Hc|Hc].
  - rewrite queue_slot. unfold with_slot. wp_step. apply copy_spec; [lia|]. intros B1 CP1.
    wp_step. apply advance_head_spec; [done|done|]. change (queue_at (ks_set_bytes B1 s) q) with c.
    set (s1 := set_queue q (dequeued c) (ks_set_bytes B1 s)).
    assert (Hq1 : queue_at s1 q = dequeued c) by apply queue_at_set_eq.
    unfold as_locked, hr_queue_fill_from_waiting_sender, hr_queue_waiter_task. wp_step. wp_step. wp_step.
    change (ks_store s1) with (ks_store s).
    destruct ss as [|n ss].
    + destruct (wait_peek T D b s V nobody (QueueSendWaiters q) [] KC eq_refl Hss) as [-> _]. cbn [head]. wp_step. wp_step.
      apply (K1 B1 eq_refl Hc CP1). apply kcore_set_queue; [by apply kcore_bytes|done|intros _; by apply dequeued_range| |].
      * intros n Hn. by destruct (no_waiters _ n Hss).
      * intros n Hn. destruct (ob_waiters _ (kc_objects _ _ _ _ _ _ KC) n _ Hn) as [_ E]. simpl in *. lia.
    + destruct (first_waiter (QueueSendWaiters q) n ss eq_refl Hss) as (u & -> & Hu & Hp). rewrite Hp.
      destruct (queue_waiter (QueueSendWaiters q) u (or_introl eq_refl) Hu) as (Ho & Hval & (buffer & Hb) & Hob & Hk).
      destruct (ob_waiters _ (kc_objects _ _ _ _ _ _ KC) _ _ Hu) as [_ Hfull].
      wp_step. wp_step. change (node_owner s1 (WaitNode u)) with (node_owner s (WaitNode u)). rewrite Ho.
      unfold cast_task; cbn [as_task]. change (hr_task_is_valid s1 (Some u)) with (hr_task_is_valid s (Some u)).
      rewrite Hval. cbn beta iota. change (task_at s1 u) with (task_at s u). rewrite bool_decide_true in Hk by done. rewrite Hb, Hk, Hob, Hq1.
      rewrite !bool_decide_false by tauto. cbn [orb dequeued q_capacity q_count q_set_count q_set_head].
      rewrite (proj2 (Z.leb_gt _ _)) by lia.
      assert (Hslot : hr_queue_slot s1 q (q_tail c) = Some (slot_at c (q_tail c))).
      { unfold hr_queue_slot. rewrite Hq1. exact (queue_slot (q_tail c)). }
      change (q_tail (dequeued c)) with (q_tail c). change (q_item_size (dequeued c)) with (q_item_size c).
      rewrite Hslot. cbn [with_slot]. wp_step. apply copy_spec; [lia|]. intros B2 CP2.
      change (ks_set_bytes B2 s1) with (set_queue q (dequeued c) (ks_set_bytes B2 s)).
      wp_step. apply advance_tail_spec; rewrite ?queue_at_set_eq; [by apply dequeued_range|simpl; lia|]. rewrite set_queue_twice.
      apply (unblock_waiter_spec T D b _ V u (QueueSendWaiters q)); [|done|done|].
      * apply kcore_set_queue; [by apply kcore_bytes|done|intros _; apply enqueued_range; [by apply dequeued_range|simpl; lia]| |].
        -- intros n Hn. simpl. lia.
        -- intros n Hn. destruct (ob_waiters _ (kc_objects _ _ _ _ _ _ KC) n _ Hn) as [_ E]. simpl in *. lia.
      * intros f s' V' KC' NE' W Hf HF _. wp_step.
        apply (K2 u ss buffer B1 B2 f s' V'); try done. destruct CP2 as [C1 C2]. split; [exact C1|exact C2].
  - assert (Hz : q_count c = 0) by lia. rewrite (queue_empty _ _ Hss).
    destruct ss as [|n ss].
    2: { destruct (first_waiter (QueueSendWaiters q) n ss eq_refl Hss) as (u & -> & Hu & _).
         destruct (ob_waiters _ (kc_objects _ _ _ _ _ _ KC) _ _ Hu) as [_ Hfull]. lia. }
    rewrite bool_decide_true by done. cbn [negb]. destruct (Z.eqb_spec timeout HR_NO_WAIT); [wp_step; by apply K3|].
    destruct allow; cbn [negb]; [|wp_step; by apply K4]. destruct (Hrun eq_refl ltac:(done)) as [RN Hni].
    apply (queue_block_spec _ _ rs t); try done; [unfold HR_NO_WAIT in *; lia|]. intros s' V' QB. by apply (K5 s' V').
Qed.
End queue.

(** The critical section around a locked operation and the switch it asks for. *)
Definition switch_wanted (r : locked_result) : bool :=
  match fst r with Waits _ => true | Returns _ => false end || default false (snd r).
Definition masked (s : kstate) : kstate := with_port (pt_set_primask 1 (ks_port s)) s.

Lemma queue_task_call_spec s V q item timeout locked Q :
  kcore T D s V b nobody -> queue_valid s q -> hr_port_is_inside_isr s = false ->
  g_kernel_state (glob s) = HR_KERNEL_STATE_RUNNING ->
  wp (locked q item timeout true) (fun r s1 => ks_port s1 = ks_port (masked s) /\
    Q (fst r) (pend_if (switch_wanted r) (with_port (ks_port s) s1))) (masked s) ->
  wp (queue_task_call (Some q) (Some item) timeout locked) Q s.
Proof.
  intros KC Hv Hi HK HQ. unfold queue_task_call. wp_step. wp_step. rewrite (queue_is_valid s V q KC Hv), Hi. cbn [negb].
  apply wp_if_false. { unfold hr_kernel_is_running. rewrite HK, bool_decide_true by done. apply andb_false_r. }
  wp_step. apply enter_critical_spec. fold (masked s). wp_step. eapply wp_mono; [exact HQ|]. intros r s1 [Hp HQ1].
  wp_step. apply (exit_critical_spec s); [exact Hp|]. wp_step. apply pend_if_spec. wp_step. exact HQ1.
Qed.

Lemma queue_isr_call_spec s V q item locked Q :
  kcore T D s V b nobody -> queue_valid s q -> hr_port_is_inside_isr s = true ->
  wp (locked q item HR_NO_WAIT false) (fun r s1 => ks_port s1 = ks_port (masked s) /\
    Q (match fst r with Returns status => status | Waits _ => HR_OK end, Some (default false (snd r)))
      (with_port (ks_port s) s1)) (masked s) ->
  wp (queue_isr_call (Some q) (Some item) locked) Q s.
Proof.
  intros KC Hv Hi HQ. unfold queue_isr_call. wp_step. wp_step. rewrite (queue_is_valid s V q KC Hv), Hi. cbn [negb].
  wp_step. apply enter_critical_spec. fold (masked s). wp_step. eapply wp_mono; [exact HQ|]. intros r s1 [Hp HQ1].
  wp_step. apply (exit_critical_spec s); [exact Hp|]. wp_step. exact HQ1.
Qed.

(** ** Creating a queue *)

Record queue_made (s s' : kstate) (q : queue_ptr) (storage item_size capacity : Z) : Prop := {
  qm_rest : s' = ks_set_store (ks_store s') (ks_set_queues (ks_queues s') s);
  qm_block : queue_at s' q = mk_qcb (Some storage) item_size capacity 0 0 0 HR_CFG_QUEUE_MAGIC;
  qm_other : forall y, y <> q -> queue_at s' y = queue_at s y;
  qm_list : forall n, node_list s' n = node_list s n;
}.

Lemma fits_product item capacity : 0 < item -> 0 < capacity ->
  hr_queue_multiply_fits item capacity = true -> item * capacity <= SIZE_MAX.
Proof.
  intros Hi Hc. unfold hr_queue_multiply_fits. rewrite (proj2 (Z.eqb_neq item 0)) by lia. cbn [orb]. intros H1%Z.leb_le.
  pose proof (Z.mul_div_le SIZE_MAX item Hi). nia.
Qed.

(** The states of a creation: the links and the control block of [q] have changed. *)
Definition making (h : lmem) (q : queue_ptr) (c : hr_queue_control_block_t) (s : kstate) : kstate :=
  set_queue q c (ks_set_store (set_lists h (ks_store s)) s).
Lemma making_start q c s : set_queue q c s = making (st_lists (ks_store s)) q c s.
Proof. unfold making. f_equal. destruct s as [st]; simpl. by destruct st. Qed.
Lemma making_update h q c s f Q : Q tt (making h q (f c) s) -> wp (upd_queue q f) Q (making h q c s).
Proof. intros HQ. apply wp_upd_queue. unfold making in *. by rewrite queue_at_set_eq, set_queue_twice. Qed.
Lemma making_zero h q c s l Q : Q tt (making (zeroed_list l h) q c s) -> wp (zero_list l) Q (making h q c s).
Proof. done. Qed.
Lemma making_init h q c s l Q :
  Q tt (making (inited h l) q c s) -> wp (lift (hr_wait_list_init (Some l))) Q (making h q c s).
Proof. intros HQ. unfold hr_wait_list_init. wp_step. wp_step. eapply wp_intro; [apply init_run|exact HQ]. Qed.

(** The state after the creation of a queue. *)
Definition made_queue (s : kstate) (q : queue_ptr) (storage item_size capacity : Z) : kstate :=
  making (inited (inited (zeroed_list (QueueReceiveWaiters q) (zeroed_list (QueueSendWaiters q)
      (st_lists (ks_store s)))) (QueueSendWaiters q)) (QueueReceiveWaiters q)) q
    (mk_qcb (Some storage) item_size capacity 0 0 0 HR_CFG_QUEUE_MAGIC) s.

Lemma queue_create_run s q storage item_size capacity Q :
  hr_queue_is_valid s (Some q) = false -> 0 < item_size -> 0 < capacity ->
  hr_queue_multiply_fits item_size capacity = true -> Q HR_OK (made_queue s q storage item_size capacity) ->
  wp (hr_queue_create_static (Some q) (Some storage) item_size capacity) Q s.
Proof.
  intros Hv Hi Hc Hf HQ. unfold hr_queue_create_static. rewrite Hf. apply wp_if_false; [by rewrite !(proj2 (Z.eqb_neq _ _)) by lia|].
  wp_step. wp_step. rewrite Hv. unfold hr_queue_zero_control_block.
  wp_step. wp_step. apply wp_upd_queue. rewrite making_start.
  wp_step. apply making_zero. apply making_zero. do 3 (wp_step; apply making_update).
  do 2 (wp_step; apply making_init). wp_step. apply making_update. wp_step. exact HQ.
Qed.

Lemma made_queue_spec s V q storage item_size capacity :
  kcore T D s V b nobody -> hr_queue_is_valid s (Some q) = false -> 0 < item_size -> 0 < capacity ->
  hr_queue_multiply_fits item_size capacity = true ->
  exists V', kcore T D (made_queue s q storage item_size capacity) V' b nobody /\
    queue_made s (made_queue s q storage item_size capacity) q storage item_size capacity.
Proof.
  intros KC Hv Hi Hc Hf. pose proof (kc_struct _ _ _ _ _ _ KC) as KS.
  assert (Hmag : q_magic (queue_at s q) <> HR_CFG_QUEUE_MAGIC).
  { intros E. by rewrite (queue_is_valid s V q KC E) in Hv. }
  unfold made_queue, making. set (S := QueueSendWaiters q). set (R := QueueReceiveWaiters q).
  set (h := inited (inited (zeroed_list R (zeroed_list S (st_lists (ks_store s)))) S) R).
  set (c := mk_qcb (Some storage) item_size capacity 0 0 0 HR_CFG_QUEUE_MAGIC).
  set (s' := set_queue q _ _).
  assert (HW : forall n l, l = S \/ l = R -> node_list s n <> Some l).
  { intros n l Hl Hn. by destruct Hl as [-> | ->], (ob_waiters _ (kc_objects _ _ _ _ _ _ KC) n _ Hn). }
  assert (HE : forall l, l = S \/ l = R -> V !! l = None \/ V !! l = Some []).
  { intros l Hl. destruct (V !! l) as [[|n ns]|] eqn:E; [by right| |by left]. destruct (HW n l Hl).
    apply (kt_member _ _ _ _ _ KS _ _ _ E), elem_of_cons. by left. }
  assert (F : obj_frame (fun _ => False) (ks_store s) (ks_store s')).
  { apply obj_frame_lists. intros n. unfold h. by rewrite !inited_node, !zeroed_list_node. }
  assert (HL : forall n, node_list s' n = node_list s n) by apply F.
  assert (HQ : forall y, queue_at s' y = if decide (q = y) then c else queue_at s y).
  { intros y. apply (queue_at_set_queue q c (ks_set_store (set_lists h (ks_store s)) s)). }
  set (V' := <[R := []]> (<[S := []]> (delete R (delete S V)))).
  assert (HV : forall l, l <> S -> l <> R -> V' !! l = V !! l).
  { intros l H1 H2. unfold V'. by rewrite !lookup_insert_ne, !lookup_delete_ne by congruence. }
  assert (HVS : V' !! S = Some []) by (unfold V'; by rewrite lookup_insert_ne, lookup_insert_eq).
  assert (HVR : V' !! R = Some []) by (unfold V'; by rewrite lookup_insert_eq).
  assert (Rep : lists_rep h V').
  { apply rep_inited; [apply rep_inited; [apply zeroed_list_spec; [apply zeroed_list_spec; [apply KS|by apply HE; left]|]|]|].
    - rewrite lookup_delete_ne by done. by apply HE; right.
    - left. by rewrite lookup_delete_ne, lookup_delete_eq.
    - left. by rewrite lookup_insert_ne, lookup_delete_eq. }
  exists V'. split.
  - apply (kcore_fresh T D s s' V); try done.
    + apply (kstruct_new_lists T D s s' V V' b (fun _ => False)); try done.
      * intros l Hl. apply HV; by intros ->.
      * intros l ns Hl. destruct (decide (l = S)) as [->|H1]; [right; congruence|].
        destruct (decide (l = R)) as [->|H2]; [right; congruence|]. left. by rewrite <- HV.
      * intros l Hl. destruct (decide (l = S)) as [->|H1]; [eauto|]. destruct (decide (l = R)) as [->|H2]; [eauto|]. by rewrite HV.
      * intros l Hl. destruct (decide (l = S)) as [->|H1]; [eauto|]. destruct (decide (l = R)) as [->|H2]; [eauto|left].
        destruct l; try done; simpl in Hl; rewrite HQ, decide_False in Hl; try done; by intros ->.
      * intros u Hu. split_and!; [done|tauto|tauto].
    + destruct (kc_objects _ _ _ _ _ _ KC) as [O1 O2 O3 O4 O5 O6 O7]. split; [|done| | |exact O5| |exact O7].
      * intros n l Hn. rewrite HL in Hn. pose proof (O1 n l Hn). destruct l; try done; simpl in *; rewrite HQ, decide_False;
          try done; intros ->; apply (HW n _) in Hn; by auto.
      * intros y. rewrite HQ. case_decide; [|apply O3]. intros _. pose proof (fits_product _ _ Hi Hc Hf).
        split; simpl; try done; lia.
      * intros m. by destruct (O4 m).
      * intros y. by apply (timer_frame s).
  - split; try done; [by rewrite HQ, decide_True|]. intros y Hy. by rewrite HQ, decide_False.
Qed.

Lemma queue_create_spec s V q storage item_size capacity Q :
  kcore T D s V b nobody -> hr_queue_is_valid s (Some q) = false -> 0 < item_size -> 0 < capacity ->
  hr_queue_multiply_fits item_size capacity = true ->
  (forall s' V', kcore T D s' V' b nobody -> queue_made s s' q storage item_size capacity -> Q HR_OK s') ->
  wp (hr_queue_create_static (Some q) (Some storage) item_size capacity) Q s.
Proof.
  intros KC Hv Hi Hc Hf K. apply queue_create_run; try done.
  destruct (made_queue_spec s V q storage item_size capacity) as (V' & KC' & QM); eauto.
Qed.
End calls.
