(* ===== verification/MutexSpec.v ===== *)
(** Mutexes: [kernel/src/hr_mutex.c] against the kernel invariant. *)
From stdpp Require Import gmap list.
From Stdlib Require Import ZArith Lia.
From S2P Require Import Prelude Types HrList HrListSpec Store Scheduler SchedulerSpec WaitList WaitListSpec Timeout TimeoutSpec KState TaskCore KernelBase KernelInv MutexPriority Kernel Mutex KernelTasks KernelSpec KernelSwitch SemaphoreSpec KernelInitSpec.
Open Scope Z_scope.
Set Warnings "-clear-no-such-hyp".

(** ** Control blocks *)

Definition set_mutex (m : mutex_ptr) (c : hr_mutex_control_block_t) (s : kstate) : kstate :=
  ks_set_mutexes (<[m := c]> (ks_mutexes s)) s.
Lemma mutex_at_set_mutex m c s k : mutex_at (set_mutex m c s) k = if decide (m = k) then c else mutex_at s k.
Proof.
  unfold mutex_at, set_mutex; simpl. case_decide as E;
    [subst; by rewrite lookup_total_insert_eq|by rewrite lookup_total_insert_ne].
Qed.
Lemma mutex_at_set_eq m c s : mutex_at (set_mutex m c s) m = c.
Proof. by rewrite mutex_at_set_mutex, decide_True. Qed.
Lemma set_mutex_twice m c c' s : set_mutex m c (set_mutex m c' s) = set_mutex m c s.
Proof. unfold set_mutex; simpl. by rewrite insert_insert_eq. Qed.
Lemma wp_upd_mutex m f Q s : Q tt (set_mutex m (f (mutex_at s m)) s) -> wp (upd_mutex m f) Q s.
Proof. done. Qed.

Definition mutex_valid (s : kstate) (m : mutex_ptr) : Prop := mx_magic (mutex_at s m) = HR_CFG_MUTEX_MAGIC.

(** A task whose control block kept what the invariant of its state is about. *)
Lemma task_ok_fields s s' u :
  t_state (task_at s' u) = t_state (task_at s u) ->
  t_suspended_resume_state (task_at s' u) = t_suspended_resume_state (task_at s u) ->
  same_wait (task_at s' u) (task_at s u) ->
  (forall n, node_of u n -> node_list s' n = node_list s n) -> g_current_task (glob s') = g_current_task (glob s) ->
  task_ok s u -> task_ok s' u.
Proof.
  intros C1 C2 C3 Hn Hc [Hs Hi].
  assert (R : node_list s' (ReadyNode u) = node_list s (ReadyNode u)) by (apply Hn; unfold node_of; auto).
  assert (HW : (waiting s u -> waiting s' u) /\ (idle_wait s u -> idle_wait s' u)).
  { destruct C3 as (? & ? & ? & ? & ?). apply waiting_frame; try done; apply Hn; unfold node_of; auto. }
  destruct HW as [HW HI]. split; [|by rewrite R]. unfold state_ok in *. rewrite C1, C2, R, Hc.
  destruct (t_state (task_at s u)); try done.
  - destruct Hs; auto.
  - destruct Hs as (? & ? & ?); auto.
  - destruct Hs; auto.
  - destruct Hs as [? Hr]. split; [done|]. destruct (t_suspended_resume_state (task_at s u)); auto.
Qed.

(** ** Counting the mutexes of an owner *)

Definition named (s : kstate) : Prop :=
  forall k o, node_list s (OwnerNode k) = Some (OwnedMutexes o) -> Z.of_N k < SIZE_MAX.
Definition counted (s : kstate) : Prop := forall t, owned_counted s t.

Section counted.
Context (s s' : kstate) (m : mutex_ptr) (o : task_ptr).
Hypothesis HL : forall k, k <> m -> node_list s' (OwnerNode k) = node_list s (OwnerNode k).
Hypothesis HT : forall u, u <> o -> t_owned_mutex_count (task_at s' u) = t_owned_mutex_count (task_at s u).
Hypothesis HM : Z.of_N m < SIZE_MAX.
Hypothesis HN : named s.
Hypothesis HC : counted s.
Local Abbreviation count u := (t_owned_mutex_count (task_at s u)).

Lemma counted_attach :
  node_list s (OwnerNode m) = None -> node_list s' (OwnerNode m) = Some (OwnedMutexes o) ->
  t_owned_mutex_count (task_at s' o) = u32 (count o + 1) -> counted s'.
Proof.
  intros Hm Hm' Ho t ms Hd Hin. destruct (decide (t = o)) as [->|Hne].
  - assert (Hmm : m ∈ ms) by (by apply Hin). apply list_elem_of_split in Hmm as (xs & ys & ->).
    assert (Hp : xs ++ m :: ys ≡ₚ m :: (xs ++ ys)) by (symmetry; apply Permutation_middle).
    pose proof Hd as Hd'. rewrite Hp in Hd'. apply NoDup_cons in Hd' as [Hni Hd'].
    assert (HB : Z.of_nat (length (xs ++ m :: ys)) <= SIZE_MAX).
    { apply names_bound; [done|]. intros k Hk. destruct (decide (k = m)) as [->|Hk']; [done|].
      apply (HN k o). by rewrite <- HL, <- Hin. }
    rewrite Hp, length_cons in HB. rewrite Hp, length_cons. rewrite Ho, (HC o (xs ++ ys) Hd').
    + rewrite u32_small by (unfold UINT32_MAX, SIZE_MAX in *; lia). lia.
    + intros k. destruct (decide (k = m)) as [->|Hk]; [rewrite Hm; by split|]. rewrite <- HL, <- Hin, Hp, elem_of_cons by done.
      split; [by right|by intros [|]].
  - rewrite HT by done. apply HC; [done|]. intros k. rewrite Hin. destruct (decide (k = m)) as [->|Hk]; [|by rewrite HL].
    rewrite Hm, Hm'. split; [intros [= E]; by subst|done].
Qed.

Lemma counted_detach :
  node_list s (OwnerNode m) = Some (OwnedMutexes o) -> node_list s' (OwnerNode m) = None ->
  t_owned_mutex_count (task_at s' o) = u32 (count o - 1) -> counted s'.
Proof.
  intros Hm Hm' Ho t ms Hd Hin. assert (Hni : m ∉ ms) by (intros E%Hin; congruence).
  destruct (decide (t = o)) as [->|Hne].
  - assert (Hin' : forall k, k ∈ m :: ms <-> node_list s (OwnerNode k) = Some (OwnedMutexes o)).
    { intros k. rewrite elem_of_cons. destruct (decide (k = m)) as [->|Hk]; [by split; [|left]|]. rewrite Hin, HL by done.
      split; [by intros [|]|by right]. }
    assert (HB : Z.of_nat (length (m :: ms)) <= SIZE_MAX).
    { apply names_bound; [by constructor|]. intros k Hk%Hin'. by eapply HN. }
    rewrite Ho, (HC o (m :: ms)) by (done || by constructor). rewrite length_cons in *.
    rewrite u32_small by (unfold UINT32_MAX, SIZE_MAX in *; lia). lia.
  - rewrite HT by done. apply HC; [done|]. intros k. rewrite Hin. destruct (decide (k = m)) as [->|Hk]; [|by rewrite HL].
    rewrite Hm, Hm'. split; [done|intros [= E]; by subst].
Qed.
End counted.

(** ** Changing the owner *)

(** The mutex [m] got the owner [v]. *)
Record reowned (s s' : kstate) (m : mutex_ptr) (v : option task_ptr) : Prop := {
  ro_rest : s' = ks_set_store (ks_store s') (ks_set_mutexes (ks_mutexes s') (ks_set_tasks (ks_tasks s') s));
  ro_task : forall u, exists n, task_at s' u = t_set_owned_mutex_count n (task_at s u);
  ro_list : forall n, n <> OwnerNode m -> node_list s' n = node_list s n;
  ro_link : node_list s' (OwnerNode m) = OwnedMutexes <$> v;
  ro_owner : forall n, node_owner s' n = node_owner s n;
  ro_priority : st_priority (ks_store s') = st_priority (ks_store s);
  ro_other : forall k, k <> m -> mutex_at s' k = mutex_at s k;
  ro_counted : Z.of_N m < SIZE_MAX -> named s -> counted s -> counted s';
  ro_mutex : mutex_at s' m = mx_set_recursion_count (match v with Some _ => 1 | None => 0 end) (mx_set_owner v (mutex_at s m));
}.

Lemma ro_named s s' m v : reowned s s' m v -> Z.of_N m < SIZE_MAX -> named s -> named s'.
Proof.
  intros RO Hm HN k o Hk. destruct (decide (k = m)) as [->|Hne]; [done|]. apply (HN k o). rewrite <- Hk. symmetry.
  apply (ro_list _ _ _ _ RO). congruence.
Qed.

Lemma reowned_trans s1 s2 s3 m v w : reowned s1 s2 m v -> reowned s2 s3 m w -> reowned s1 s3 m w.
Proof.
  intros RO [B1 B2 B3 B4 B5 B6 B7 B9 B8]. pose proof RO as [A1 A2 A3 A4 A5 A6 A7 A9 A8]. split.
  - rewrite B1, A1. done.
  - intros u. destruct (A2 u) as [n En], (B2 u) as [n' En']. exists n'. by rewrite En', En.
  - intros n Hn. by rewrite B3, A3.
  - done.
  - intros n. by rewrite B5, A5.
  - by rewrite B6, A6.
  - intros k Hk. by rewrite B7, A7.
  - intros Hm HN HC. apply B9; [done|by eapply ro_named|by apply A9].
  - by rewrite B8, A8.
Qed.

Section mutex.
Context (T : Z) (D : node_addr -> Z) (b : phase).

Lemma kcore_named s V X : kcore T D s V b X -> named s.
Proof.
  intros KC k o Hk. destruct (ob_mutexes _ (kc_objects _ _ _ _ _ _ KC) k) as [M1 _ _ M4]. by apply M4, (M1 o).
Qed.

Lemma kcore_reown s s' V V' X m v :
  kcore T D s V b X -> kstruct T D s' V' b -> reowned s s' m v -> mutex_valid s m ->
  (v = None -> forall n, node_list s n <> Some (MutexWaiters m)) -> kcore T D s' V' b X.
Proof.
  intros KC KS' RO Hm Hw. pose proof (kcore_named _ _ _ KC) as HN. destruct KC as [K1 K2 K3 K4 K5 [O1 O2 O3 O4 O5 O6 O7]].
  pose proof (ro_rest _ _ _ _ RO) as R.
  assert (HG : glob s' = glob s) by (by rewrite R).
  assert (HL : forall n, (forall k, n <> OwnerNode k) -> node_list s' n = node_list s n) by (intros; by apply (ro_list _ _ _ _ RO)).
  assert (Hreg : forall u, registered s' u <-> registered s u) by (intros; unfold registered; by rewrite HL).
  split; rewrite ?HG; try done.
  - destruct K3 as [Hi Hg]. split; [by apply Hreg|]. rewrite HG. destruct (g_kernel_state (glob s)); try done.
    destruct Hg as (c & ? & ? & ?). exists c. by rewrite Hreg.
  - intros u Hu%Hreg. destruct (K4 u Hu). destruct (ro_task _ _ _ _ RO u) as [n E].
    split; rewrite ?(ro_owner _ _ _ _ RO), ?E; done.
  - intros u Hu%Hreg HX. destruct (ro_task _ _ _ _ RO u) as [n E].
    apply (task_ok_fields s); try (by rewrite E); [|by rewrite HG|by apply K5].
    intros k Hk. apply HL. intros k' ->. by destruct Hk as [|[|]].
  - split; [|by rewrite R|by rewrite R| | | |by rewrite R].
    + intros n l Hn. assert (Hl : is_wait_list l = true -> node_list s n = Some l).
      { intros Hl. rewrite <- Hn. symmetry. apply HL. intros k ->. apply (kt_fits _ _ _ _ _ KS') in Hn. by destruct l. }
      destruct l; try done; specialize (Hl eq_refl); pose proof (O1 _ _ Hl) as HM; simpl in *; try (by rewrite R).
      destruct (decide (m0 = m)) as [->|Hne]; [|by rewrite (ro_other _ _ _ _ RO)].
      rewrite (ro_mutex _ _ _ _ RO). simpl. split; [done|]. destruct v; [eauto|]. by destruct (Hw eq_refl n).
    + intros k. destruct (O4 k) as [M1 M2 M3 M4]. destruct (decide (k = m)) as [->|Hne].
      * split; rewrite ?(ro_owner _ _ _ _ RO), ?(ro_mutex _ _ _ _ RO); simpl; try done.
        -- intros o. rewrite (ro_link _ _ _ _ RO). destruct v as [u|]; simpl; [|by split; [|intros []]].
           split; [intros [= ->]; done|intros [_ [= ->]]; done].
        -- intros _. destruct v; [unfold UINT32_MAX; lia|done].
      * split; rewrite ?(ro_owner _ _ _ _ RO), ?(ro_other _ _ _ _ RO) by done; try done.
        intros o. rewrite (ro_list _ _ _ _ RO) by congruence. apply M1.
    + apply (ro_counted _ _ _ _ RO); [by apply (mo_name _ _ (O4 m))|done|exact O5].
    + intros x. apply (timer_ok_frame s); try (by rewrite R); try done; [|intros; apply (ro_owner _ _ _ _ RO)].
      intros n [-> | ->]; by apply HL.
Qed.

(** The list of owned mutexes as a list of mutexes. *)
Lemma owner_nodes s V o ns : kstruct T D s V b -> V !! OwnedMutexes o = Some ns ->
  exists ms, ns = OwnerNode <$> ms /\ NoDup ms /\
    forall m, m ∈ ms <-> node_list s (OwnerNode m) = Some (OwnedMutexes o).
Proof.
  intros KS Hns.
  assert (HE : forall l : list node_addr, (forall n, n ∈ l -> exists k, n = OwnerNode k) -> exists ms : list mutex_ptr, l = OwnerNode <$> ms).
  { induction l as [|n l IH]; intros Hl; [by exists []|]. destruct (Hl n) as [k ->]; [by apply elem_of_cons; left|].
    destruct IH as [ms ->]; [intros n' Hn'; apply Hl, elem_of_cons; by right|]. by exists (k :: ms). }
  destruct (HE ns) as [ms ->].
  { intros n Hn. apply (kt_member _ _ _ _ _ KS _ _ _ Hns) in Hn. apply (kt_fits _ _ _ _ _ KS) in Hn. destruct n; naive_solver. }
  exists ms. split; [done|]. split; [apply (NoDup_fmap_1 OwnerNode), (kt_nodup _ _ _ _ _ KS _ _ Hns)|].
  intros m. pose proof (kt_member _ _ _ _ _ KS (OwnerNode m) _ _ Hns) as HM. rewrite list_elem_of_fmap in HM.
  split; [intros Hm; apply HM; eauto|]. intros (k & [= ->] & ?)%HM. done.
Qed.

(** The names of mutexes bound the length of a list of owned mutexes. *)
Lemma owned_bound s V m o ns :
  kstruct T D s V b -> named s -> Z.of_N m < SIZE_MAX -> V !! OwnedMutexes o = Some ns -> OwnerNode m ∉ ns ->
  Z.of_nat (length ns) < SIZE_MAX.
Proof.
  intros KS HN Hm Hns Hni. destruct (owner_nodes s V o ns KS Hns) as (ms & -> & Hd & Hin).
  assert (Z.of_nat (length (m :: ms)) <= SIZE_MAX).
  { apply names_bound; [constructor; [|done]; intros E; by apply Hni, list_elem_of_fmap_2|].
    intros k [->|Hk]%elem_of_cons; [done|]. by eapply HN, Hin. }
  rewrite length_cons in *. rewrite length_fmap. lia.
Qed.

(** Linking the node of a mutex into the list of an owner, or out of it. *)
Lemma kstruct_owner_step s V h o ns m v :
  kstruct T D s V b -> registered s o ->
  (v = Some (OwnedMutexes o) /\ node_owner s (OwnerNode m) = Some (PMutex m) \/ v = None) ->
  lists_rep h (<[OwnedMutexes o := ns]> V) -> link_frame (st_lists (ks_store s)) h (OwnerNode m) v ->
  let s' := ks_set_store (set_lists h (ks_store s)) s in
  kstruct T D s' (<[OwnedMutexes o := ns]> V) b /\ step_frame s s' (OwnerNode m) v.
Proof.
  intros KS Hreg Hv Rep LF s'. assert (SF : step_frame s s' (OwnerNode m) v) by (by apply link_step_frame).
  assert (Hl : forall l, l <> OwnedMutexes o -> <[OwnedMutexes o := ns]> V !! l = V !! l) by (intros l H; apply lookup_insert_ne; congruence).
  split; [|done]. apply (kstruct_step T D D s s' V _ b (OwnerNode m) v KS SF); try done.
  - intros l0 El. destruct Hv as [[-> ?] | ->]; [|done]. injection El as <-. split_and!; [done|done|]. by intros u [= <-].
  - apply (ready_rep_frame (ks_store s) _ V _ _ (kt_ready _ _ _ _ _ KS)); [done| |done]. intros p. by apply Hl.
  - apply (timeout_rep_frame (ks_store s) _ V _ _ T D D b (kt_timeout _ _ _ _ _ KS)); [done| |done]. intros c. by apply Hl.
  - intros TR. apply (timeout_rep_frame (ks_store s) _ V _ _ _ D D _ TR); [done| |done]. intros c. by apply Hl.
  - by apply Hl.
  - intros l'. apply view_insert_is_Some.
  - intros l' ns' Hl'. rewrite Hl by (intros ->; done). by apply KS.
Qed.

(** A write of the two control blocks keeps the structures. *)
Lemma kstruct_owner_fields s V m o c t :
  kstruct T D s V b -> mx_magic c = mx_magic (mutex_at s m) ->
  t_effective_priority t = t_effective_priority (task_at s o) ->
  kstruct T D (set_task o t (set_mutex m c s)) V b.
Proof.
  intros KS Hm Ht. apply (kstruct_ext T D s); try done.
  - intros l. destruct l; try done. simpl. change (mutex_at (set_task o t (set_mutex m c s)) m0) with (mutex_at (set_mutex m c s) m0).
    rewrite mutex_at_set_mutex. case_decide; [subst; by rewrite Hm|done].
  - intros u _. rewrite task_at_set_task. by case_decide; subst.
Qed.

Lemma reowned_fields s s1 m o v n :
  step_frame s s1 (OwnerNode m) (OwnedMutexes <$> v) ->
  (v = Some o /\ node_list s (OwnerNode m) = None /\ n = u32 (t_owned_mutex_count (task_at s o) + 1) \/
   v = None /\ node_list s (OwnerNode m) = Some (OwnedMutexes o) /\ n = u32 (t_owned_mutex_count (task_at s o) - 1)) ->
  reowned s (set_task o (t_set_owned_mutex_count n (task_at s o))
    (set_mutex m (mx_set_recursion_count (match v with Some _ => 1 | None => 0 end) (mx_set_owner v (mutex_at s m))) s1)) m v.
Proof.
  intros SF Hc. pose proof (sf_rest _ _ _ _ SF) as R. set (s' := set_task o _ _).
  assert (HT : forall u, task_at s' u = if decide (o = u) then t_set_owned_mutex_count n (task_at s o) else task_at s u).
  { intros u. unfold s'. rewrite task_at_set_task. case_decide; [done|]. by rewrite R. }
  assert (HL : forall k, k <> m -> node_list s' (OwnerNode k) = node_list s (OwnerNode k)).
  { intros k Hk. pose proof (sf_list _ _ _ _ SF (OwnerNode k)) as E. rewrite decide_False in E by congruence. exact E. }
  assert (HM : node_list s' (OwnerNode m) = OwnedMutexes <$> v).
  { exact (eq_trans (sf_list _ _ _ _ SF _) ltac:(by rewrite decide_True)). }
  split.
  - unfold s'. rewrite R. done.
  - intros u. rewrite HT. case_decide as E; [subst; eauto|].
    exists (t_owned_mutex_count (task_at s u)). by destruct (task_at s u).
  - intros k Hk. exact (eq_trans (sf_list _ _ _ _ SF k) ltac:(by rewrite decide_False)).
  - done.
  - intros k. exact (sf_owner _ _ _ _ SF k).
  - exact (sf_priority _ _ _ _ SF).
  - intros k Hk. change (mutex_at s' k) with (mutex_at (set_mutex m (mx_set_recursion_count (match v with Some _ => 1 | None => 0 end) (mx_set_owner v (mutex_at s m))) s1) k).
    rewrite mutex_at_set_mutex, decide_False by congruence. by rewrite R.
  - intros Hn HN HC.
    assert (HO : forall u, u <> o -> t_owned_mutex_count (task_at s' u) = t_owned_mutex_count (task_at s u)).
    { intros u Hu. by rewrite HT, decide_False by congruence. }
    assert (Ho : t_owned_mutex_count (task_at s' o) = n) by (by rewrite HT, decide_True).
    destruct Hc as [(-> & Hl & ->)|(-> & Hl & ->)]; [by apply (counted_attach s s' m o)|by apply (counted_detach s s' m o)].
  - exact (mutex_at_set_eq m _ s1).
Qed.

Lemma attach_spec s V m o ns Q :
  kstruct T D s V b -> registered s o -> t_magic (task_at s o) = HR_CFG_TASK_MAGIC ->
  mx_owner (mutex_at s m) = None -> node_list s (OwnerNode m) = None -> node_owner s (OwnerNode m) = Some (PMutex m) ->
  V !! OwnedMutexes o = Some ns -> Z.of_nat (length ns) < SIZE_MAX ->
  (forall s', kstruct T D s' (<[OwnedMutexes o := ns ++ [OwnerNode m]]> V) b -> reowned s s' m (Some o) -> Q HR_OK s') ->
  wp (hr_mutex_attach_owner (Some m) (Some o)) Q s.
Proof.
  intros KS Hreg Hmag Hown Hl Ho Hns Hlen K. unfold hr_mutex_attach_owner. wp_step. wp_step.
  rewrite valid_task, Hown, (linked_false s _ Hl), bool_decide_false by tauto. cbn [negb orb]. wp_step. wp_step.
  apply (hr_list_push_back_spec (st_lists (ks_store s)) V (OwnedMutexes o) (OwnerNode m) (kt_rep _ _ _ _ _ KS) ns _ Hns Hl Hlen).
  intros h Rep LF. ok_simpl.
  destruct (kstruct_owner_step s V h o _ m (Some (OwnedMutexes o)) KS Hreg (or_introl (conj eq_refl Ho)) Rep LF) as [KS1 SF].
  change (part_set h s) with (ks_set_store (set_lists h (ks_store s)) s). set (s1 := ks_set_store _ s) in *.
  wp_step. apply wp_upd_mutex. wp_step. apply wp_upd_mutex. rewrite mutex_at_set_eq, set_mutex_twice.
  wp_step. apply wp_upd_task. wp_step. apply K.
  - by apply kstruct_owner_fields.
  - apply (reowned_fields s s1 m o (Some o) _ SF). by left.
Qed.

Lemma detach_spec s V m o Q :
  kstruct T D s V b -> counted s -> node_list s (OwnerNode m) = Some (OwnedMutexes o) ->
  t_magic (task_at s o) = HR_CFG_TASK_MAGIC -> mx_owner (mutex_at s m) = Some o ->
  (forall s' xs ys, V !! OwnedMutexes o = Some (xs ++ OwnerNode m :: ys) ->
     kstruct T D s' (<[OwnedMutexes o := xs ++ ys]> V) b -> reowned s s' m None -> Q (HR_OK, Some o) s') ->
  wp (hr_mutex_detach_owner (Some m)) Q s.
Proof.
  intros KS HC Hl Hmag Hown K. unfold hr_mutex_detach_owner. wp_step. wp_step. rewrite Hown.
  rewrite valid_task, (linked_true s (OwnerNode m)) by eauto. cbn [negb orb].
  destruct (kt_linked _ _ _ _ _ KS _ _ Hl) as (xs & ys & HV).
  assert (Hcnt : t_owned_mutex_count (task_at s o) <> 0).
  { destruct (owner_nodes s V o _ KS HV) as (ms & Ems & Hd & Hin). rewrite (HC o ms Hd Hin).
    apply (f_equal length) in Ems. rewrite length_app, length_fmap in Ems. simpl in Ems. lia. }
  rewrite (proj2 (Z.eqb_neq _ _) Hcnt), Hl, bool_decide_false by tauto. cbn [orb]. wp_step. wp_step.
  apply (hr_list_remove_spec (st_lists (ks_store s)) V (OwnedMutexes o) (OwnerNode m) (kt_rep _ _ _ _ _ KS) xs ys _ HV).
  intros h Rep LF. ok_simpl. pose proof (kt_registered _ _ _ _ _ KS _ _ o Hl eq_refl) as Hreg.
  destruct (kstruct_owner_step s V h o _ m None KS Hreg (or_intror eq_refl) Rep LF) as [KS1 SF].
  change (part_set h s) with (ks_set_store (set_lists h (ks_store s)) s). set (s1 := ks_set_store _ s) in *.
  wp_step. apply wp_upd_task. wp_step. apply wp_upd_mutex. wp_step. apply wp_upd_mutex.
  change (mutex_at (set_task o ?c s1) m) with (mutex_at s1 m). rewrite mutex_at_set_eq, set_mutex_twice. wp_step.
  match goal with |- Q _ (set_mutex m ?c (set_task o ?t s1)) => change (set_mutex m c (set_task o t s1)) with (set_task o t (set_mutex m c s1)) end.
  apply (K _ xs ys HV).
  - by apply kstruct_owner_fields.
  - apply (reowned_fields s s1 m o None _ SF). by right.
Qed.
End mutex.
