(* ===== verification/MutexCallSpec.v ===== *)
(** Locking, unlocking and creating mutexes: [kernel/src/hr_mutex.c] against the kernel
    invariant and the priority inheritance relation. *)
From stdpp Require Import gmap list.
From Stdlib Require Import ZArith Lia.
From S2P Require Import Prelude Types HrList HrListSpec Store Scheduler SchedulerSpec WaitList WaitListSpec Timeout TimeoutSpec KState TaskCore KernelBase KernelInv MutexPriority Kernel Mutex KernelTasks KernelSpec KernelSwitch SemaphoreSpec KernelInitSpec QueueSpec MutexSpec.
Open Scope Z_scope.
Set Warnings "-clear-no-such-hyp".

(** ** What the invariant says of a mutex *)
Section facts.
Context (T : Z) (D : node_addr -> Z) (b : phase).

Lemma owner_linked s V X m o : kcore T D s V b X -> mutex_valid s m -> mx_owner (mutex_at s m) = Some o ->
  node_list s (OwnerNode m) = Some (OwnedMutexes o) /\ registered s o.
Proof.
  intros KC Hv Ho. pose proof (proj2 (mo_link _ _ (ob_mutexes _ (kc_objects _ _ _ _ _ _ KC) m) o) (conj Hv Ho)) as Hl.
  split; [done|]. by apply (kt_registered _ _ _ _ _ (kc_struct _ _ _ _ _ _ KC) _ _ o Hl).
Qed.

Lemma free_unlinked s V X m : kcore T D s V b X -> mx_owner (mutex_at s m) = None -> node_list s (OwnerNode m) = None.
Proof.
  intros KC Ho. destruct (node_list s (OwnerNode m)) as [l|] eqn:E; [|done].
  pose proof (kt_fits _ _ _ _ _ (kc_struct _ _ _ _ _ _ KC) _ _ E) as Hf. destruct l; try done.
  apply (mo_link _ _ (ob_mutexes _ (kc_objects _ _ _ _ _ _ KC) m)) in E as [_ E]. congruence.
Qed.

Lemma mutex_is_valid s V X m : kcore T D s V b X -> mutex_valid s m -> hr_mutex_is_valid s (Some m) = true.
Proof.
  intros KC Hv. unfold hr_mutex_is_valid. rewrite Hv, Z.eqb_refl. cbn [andb].
  pose proof (mo_count _ _ (ob_mutexes _ (kc_objects _ _ _ _ _ _ KC) m) Hv) as Hc.
  destruct (mx_owner (mutex_at s m)) as [o|] eqn:Eo.
  - destruct (owner_linked s V X m o KC Hv Eo) as [Hl Hr]. rewrite (valid_task s o) by (by apply (kc_fixed _ _ _ _ _ _ KC)).
    rewrite (linked_true s) by eauto. rewrite andb_true_r. cbn [andb]. lia.
  - rewrite Hc, (linked_false s) by (by apply (free_unlinked s V X)). done.
Qed.

Lemma mutex_waiters s V X m : kcore T D s V b X -> mutex_valid s m -> exists ns, V !! MutexWaiters m = Some ns.
Proof. intros KC Hv. exact (kt_objects _ _ _ _ _ (kc_struct _ _ _ _ _ _ KC) (MutexWaiters m) Hv). Qed.

Lemma kcore_wait_sync s V : kcore T D s V b nobody -> wait_sync s.
Proof. intros KC u Hu. apply task_ok_sync, (kc_tasks _ _ _ _ _ _ KC u Hu). intros []. Qed.

Lemma kcore_mutex_sync s V : kcore T D s V b nobody -> mutex_sync s.
Proof.
  intros KC u m Hu. pose proof (kt_registered _ _ _ _ _ (kc_struct _ _ _ _ _ _ KC) _ _ u Hu eq_refl) as Hreg.
  destruct (linked_waits s u _ (kc_tasks _ _ _ _ _ _ KC u Hreg ltac:(intros [])) Hu) as (o & [O1 O2 O3 _ _ _] & Hp & _ & _).
  split; [done|]. destruct (t_wait_kind (task_at s u)), o; simpl in O1; simplify_eq; done.
Qed.

(** The running task waits for nothing. *)
Lemma running_idle s V t : kcore T D s V b nobody -> running s t -> registered s t /\ idle_wait s t.
Proof. intros KC RN. by destruct (running_facts _ _ _ _ _ _ KC RN) as (? & _ & ? & _). Qed.

(** A locked mutex may be waited for; a free one has no waiters. *)
Lemma free_no_waiters s V X m n : kcore T D s V b X -> mx_owner (mutex_at s m) = None -> node_list s n <> Some (MutexWaiters m).
Proof. intros KC Ho Hn. destruct (ob_waiters _ (kc_objects _ _ _ _ _ _ KC) _ _ Hn) as [_ [o E]]. congruence. Qed.

End facts.

(** ** Locking *)
Section lock.
Context `{Config} (T : Z) (D : node_addr -> Z) (b : phase).

(** The nested lock and unlock of a recursive mutex. *)
Lemma kcore_recursion s V X m n : kcore T D s V b X -> is_Some (mx_owner (mutex_at s m)) -> 0 < n <= UINT32_MAX ->
  kcore T D (set_mutex m (mx_set_recursion_count n (mutex_at s m)) s) V b X.
Proof.
  intros [K1 K2 K3 K4 K5 [O1 O2 O3 O4 O5 O6 O7]] [o Ho] Hn.
  assert (HM : forall k, mx_magic (mutex_at (set_mutex m (mx_set_recursion_count n (mutex_at s m)) s) k) = mx_magic (mutex_at s k) /\
    mx_owner (mutex_at (set_mutex m (mx_set_recursion_count n (mutex_at s m)) s) k) = mx_owner (mutex_at s k)).
  { intros k. rewrite mutex_at_set_mutex. by case_decide; subst. }
  set (s' := set_mutex _ _ _) in *. split; try done.
  - apply (kstruct_ext T D s); try done. intros l. destruct l; try done. simpl. by rewrite (proj1 (HM _)).
  - intros u Hu. by destruct (K4 u Hu).
  - intros u Hu HXu. apply (task_ok_frame s); try done. by apply K5.
  - split; try done.
    + intros k l Hk. pose proof (O1 k l Hk) as HW. destruct l; try done. simpl in *. by rewrite (proj1 (HM _)), (proj2 (HM _)).
    + intros k. destruct (O4 k) as [M1 M2 M3 M4]. destruct (HM k) as [E1 E2]. split; rewrite ?E1, ?E2; try done.
      intros Hk. specialize (M3 Hk). unfold s'. rewrite mutex_at_set_mutex. case_decide as E; [subst|done]. by rewrite Ho in *.
    + intros x. by apply (timer_frame s).
Qed.

(** A task of the wait list of [m] blocked there: the edges of the inheritance relation
    other than those into the owner of [m] still hold. *)
Lemma inherits_blocked s s1 m t : inherits s -> blocked_frame s s1 t -> mutex_at s1 m = mutex_at s m ->
  (forall k, mx_owner (mutex_at s1 k) = mx_owner (mutex_at s k)) ->
  node_list s1 (WaitNode t) = Some (MutexWaiters m) -> inherits_but s1 (mx_owner (mutex_at s1 m)).
Proof.
  intros HI BF Hm HO Hw k o u Hne Ho Hu.
  assert (HP : forall v, t_effective_priority (task_at s1 v) = t_effective_priority (task_at s v)).
  { intros v. destruct (decide (v = t)) as [->|Hv]; [apply BF|]. by rewrite (bf_task _ _ _ BF). }
  destruct (decide (u = t)) as [->|Hut]; [rewrite Hu in Hw; injection Hw as ->; congruence|].
  rewrite !HP. apply (HI k o u); [done|by rewrite <- HO|]. rewrite <- Hu. symmetry. apply (bf_list _ _ _ BF).
  intros [?|[?|?]]; congruence.
Qed.

(** ** The chain of owners before and after a task has blocked

    [t] waits for nothing in [s] and for a mutex of [o] in [s1]. *)
Section chain.
Context (s s1 : kstate) (t o : task_ptr).
Hypothesis HN : forall u, u <> t -> next_owner s1 u = next_owner s u.
Hypothesis Ht : next_owner s t = None.
Hypothesis Ht1 : next_owner s1 t = Some o.

Lemma chain_apart f : forall x os, owner_chain f s x = Some os -> t ∉ os -> owner_chain f s1 x = Some os.
Proof.
  induction f as [|f IH]; intros x os E Hni; simpl in E |- *.
  all: destruct (decide (x = t)) as [->|Hx]; [exfalso; rewrite Ht in E; injection E as <-; by apply Hni, list_elem_of_here|].
  all: rewrite HN by done; destruct (next_owner s x) as [y|]; try done.
  destruct (owner_chain f s y) as [ys|] eqn:Ey; [|done]. injection E as <-.
  rewrite (IH y ys Ey); [done|]. intros Hin. by apply Hni, elem_of_cons; right.
Qed.

Lemma chain_inv f : forall x os, owner_chain f s1 x = Some os ->
  owner_chain f s x = Some os /\ t ∉ os \/
  (exists ys, owner_chain f s x = Some ys /\ t ∈ ys) /\ exists g zs, (g < f)%nat /\ owner_chain g s1 o = Some zs.
Proof.
  induction f as [|f IH]; intros x os E; simpl in E |- *.
  all: destruct (decide (x = t)) as [->|Hx]; [rewrite Ht1 in E|rewrite HN in E by done].
  - done.
  - destruct (next_owner s x); [done|]. injection E as <-. left. split; [done|]. by rewrite list_elem_of_singleton.
  - right. rewrite Ht. split; [exists [t]; split; [done|by apply list_elem_of_here]|].
    destruct (owner_chain f s1 o) as [zs|] eqn:Eo; [|done]. exists f, zs. split; [lia|done].
  - destruct (next_owner s x) as [y|]; [|injection E as <-; left; split; [done|by rewrite list_elem_of_singleton]].
    destruct (owner_chain f s1 y) as [zs|] eqn:Ey; [|done]. injection E as <-.
    destruct (IH y zs Ey) as [[-> Hni]|[(ys & -> & Hin) (g & ws & Hg & Ew)]]; simpl.
    + left. split; [done|]. by apply not_elem_of_cons.
    + right. split; [exists (x :: ys); split; [done|by apply elem_of_cons; right]|]. exists g, ws. split; [lia|done].
Qed.

(** A chain that leads to [t] becomes a cycle. *)
Lemma chain_cycle f os g zs : owner_chain f s o = Some os -> t ∈ os -> owner_chain g s1 o = Some zs -> False.
Proof.
  intros Eo Hin. revert zs. induction (lt_wf g) as [g _ IH]. intros zs E.
  destruct (chain_inv g o zs E) as [[E' Hni]|[_ (g' & ws & Hg & Ew)]]; [|by apply (IH g' Hg ws)].
  assert (HM : forall f1 f2 x l1 l2, owner_chain f1 s x = Some l1 -> owner_chain f2 s x = Some l2 -> l1 = l2).
  { clear. induction f1 as [|f1 IH]; intros [|f2] x l1 l2 E1 E2; simpl in *; destruct (next_owner s x) as [y|]; simplify_eq; try done.
    destruct (owner_chain f1 s y) eqn:F1, (owner_chain f2 s y) eqn:F2; simplify_eq/=. f_equal. by eapply IH. }
  by rewrite (HM _ _ _ _ _ Eo E') in Hin.
Qed.

Lemma chain_blocked f : owner_chain f s1 o =
  match owner_chain f s o with Some os => if decide (t ∈ os) then None else Some os | None => None end.
Proof.
  destruct (owner_chain f s o) as [os|] eqn:E.
  - case_decide as Hin; [|by apply chain_apart]. destruct (owner_chain f s1 o) as [zs|] eqn:E1; [|done].
    by destruct (chain_cycle f os f zs E Hin E1).
  - destruct (owner_chain f s1 o) as [zs|] eqn:E1; [|done].
    destruct (chain_inv f o zs E1) as [[E' _]|[(ys & E' & _) _]]; congruence.
Qed.
End chain.

Definition waits (r : api_result) : bool := match r with Waits _ => true | Returns _ => false end.

Lemma lock_call_spec s V m t timeout Q :
  kcore T D s V b nobody -> mutex_valid s m -> hr_port_is_inside_isr s = false -> running s t ->
  wp (mutex_lock_locked m t timeout) (fun r s1 => ks_port s1 = ks_port (masked s) /\
    Q r (pend_if (waits r) (with_port (ks_port s) s1))) (masked s) ->
  wp (hr_mutex_lock (Some m) timeout) Q s.
Proof.
  intros KC Hv Hi RN HQ. pose proof RN as [R1 R2 R3]. destruct (running_idle T D b s V t KC RN) as [Hreg _].
  unfold hr_mutex_lock. wp_step. wp_step. rewrite (mutex_is_valid T D b s V nobody m KC Hv), Hi. cbn [negb].
  unfold hr_kernel_is_running. rewrite bool_decide_true by done. cbn [negb].
  change (hr_task_current s) with (g_current_task (glob s)). rewrite R2.
  rewrite valid_task by (by apply (kc_fixed _ _ _ _ _ _ KC)). cbn [negb].
  wp_step. apply enter_critical_spec. fold (masked s). wp_step. eapply wp_mono; [exact HQ|]. intros r s1 [Hp HQ1].
  wp_step. apply (exit_critical_spec s); [exact Hp|]. destruct r; simpl in HQ1; [wp_step; exact HQ1|].
  unfold hr_port_request_context_switch, upd_port. wp_step. wp_step. exact HQ1.
Qed.

(** The branch that blocks.  When the chain [os] of owners, from the owner of the mutex on,
    ends without meeting the caller [t], then [t] waits, every owner on the chain is at least
    as urgent as [t], and nothing else changes of any task. *)
Record lock_blocked (s s' : kstate) (t : task_ptr) (m : mutex_ptr) (timeout : Z) (os : list task_ptr) : Prop := {
  lb_state : t_state (task_at s' t) = HR_TASK_STATE_BLOCKED;
  lb_wait : object_waiting s' t (WMutex m) (MutexWaiters m);
  lb_timeout : node_list s' (TimeoutNode t) = None <-> timeout = HR_WAIT_FOREVER;
  lb_inherits : inherits s -> inherits s';
  lb_caller : t_effective_priority (task_at s' t) = t_effective_priority (task_at s t);
  lb_chain : forall u, u ∈ os -> t_effective_priority (task_at s' u) <= t_effective_priority (task_at s t);
  lb_other : forall u, u ∉ os -> u <> t -> task_at s' u = task_at s u;
}.
(** When the chain leads back to [t], or does not end, the wait is given up: [t] is ready with
    the error and links of nobody else have changed; the owner [o] of the mutex keeps the
    priority it was lent. *)
Record lock_refused (s s' : kstate) (t o : task_ptr) : Prop := {
  lr_state : t_state (task_at s' t) = HR_TASK_STATE_READY;
  lr_result : t_wait_result (task_at s' t) = HR_ERROR_INTERNAL;
  lr_idle : idle_wait s' t;
  lr_lent : t_effective_priority (task_at s' o) <= t_effective_priority (task_at s t);
  lr_base : t_base_priority (task_at s' o) = t_base_priority (task_at s o);
  lr_wait : forall u, u <> t -> node_list s' (WaitNode u) = node_list s (WaitNode u);
}.
Record lock_waits (s s' : kstate) (t : task_ptr) (m : mutex_ptr) (timeout : Z) : Prop := {
  lw_core : exists V', kcore T (wait_deadline T D t timeout) s' V' b nobody;
  lw_expired : no_expired s';
  lw_port : ks_port s' = ks_port s;
  lw_kernel : g_kernel_state (glob s') = g_kernel_state (glob s);
  lw_timers : g_timer_system_initialized (glob s') = g_timer_system_initialized (glob s);
  lw_mutexes : ks_mutexes s' = ks_mutexes s;
  lw_result : forall o, mx_owner (mutex_at s m) = Some o ->
    match owner_chain (Z.to_nat HR_CFG_MAX_TASKS) s o with
    | Some os => if decide (t ∈ os) then lock_refused s s' t o else lock_blocked s s' t m timeout os
    | None => lock_refused s s' t o
    end;
}.

Lemma lock_blocked_port s s' t m timeout os p q :
  lock_blocked (with_port p s) s' t m timeout os -> lock_blocked s (with_port q s') t m timeout os.
Proof. intros [L1 [W1 W2 W3 W4 W5 W6] L3 L4 L5 L6 L7]. split; done. Qed.
Lemma lock_refused_port s s' t o p q : lock_refused (with_port p s) s' t o -> lock_refused s (with_port q s') t o.
Proof. intros [L1 L2 [I1 I2 I3 I4 I5] L4 L5 L6]. by split. Qed.

Lemma lock_locked_spec s V m t timeout Q :
  kcore T D s V b nobody -> no_expired s -> mutex_valid s m -> running s t -> t <> g_idle_task -> 0 <= timeout <= UINT32_MAX ->
  (forall s' V', mx_owner (mutex_at s m) = None -> kcore T D s' V' b nobody -> reowned s s' m (Some t) -> Q (Returns HR_OK) s') ->
  (mx_owner (mutex_at s m) = Some t -> mx_recursive (mutex_at s m) = false -> Q (Returns HR_ERROR_MUTEX_BUSY) s) ->
  (mx_owner (mutex_at s m) = Some t -> mx_recursive (mutex_at s m) = true ->
     mx_recursion_count (mutex_at s m) = UINT32_MAX -> Q (Returns HR_ERROR_OVERFLOW) s) ->
  (let s' := set_mutex m (mx_set_recursion_count (mx_recursion_count (mutex_at s m) + 1) (mutex_at s m)) s in
   mx_owner (mutex_at s m) = Some t -> mx_recursive (mutex_at s m) = true ->
     mx_recursion_count (mutex_at s m) < UINT32_MAX -> kcore T D s' V b nobody -> Q (Returns HR_OK) s') ->
  (forall o, mx_owner (mutex_at s m) = Some o -> o <> t -> timeout = HR_NO_WAIT -> Q (Returns HR_ERROR_MUTEX_BUSY) s) ->
  (forall o s', mx_owner (mutex_at s m) = Some o -> o <> t -> timeout <> HR_NO_WAIT ->
     lock_waits s s' t m timeout -> Q (Waits t) s') ->
  wp (mutex_lock_locked m t timeout) Q s.
Proof.
  intros KC NE Hv RN Hni Ht K1 K2 K3 K4 K5 K6. destruct (running_idle T D b s V t KC RN) as [Hreg IW].
  pose proof (kc_fixed _ _ _ _ _ _ KC t Hreg) as TX. pose proof (kc_struct _ _ _ _ _ _ KC) as KS.
  pose proof (ob_mutexes _ (kc_objects _ _ _ _ _ _ KC) m) as [_ M2 M3 M4].
  unfold mutex_lock_locked. wp_step. wp_step.
  destruct (mx_owner (mutex_at s m)) as [o|] eqn:Eo.
  2: { rewrite bool_decide_true by done. destruct (kt_objects _ _ _ _ _ KS (OwnedMutexes t) Hreg) as [ns Hns].
       pose proof (free_unlinked T D b s V nobody m KC Eo) as Hun. wp_step.
       apply (attach_spec T D b s V m t ns); try done; [apply TX|by apply M2| |].
       - apply (owned_bound T D b s V m t ns KS (kcore_named T D b s V nobody KC) (M4 Hv) Hns). intros E.
         apply (kt_member _ _ _ _ _ KS _ _ _ Hns) in E. congruence.
       - intros s' KS' RO. wp_step. eapply K1; [done| |done]. by apply (kcore_reown T D b s s' V _ nobody m (Some t)). }
  rewrite bool_decide_false by done. specialize (M3 Hv).
  destruct (decide (o = t)) as [->|Hot].
  { rewrite bool_decide_true by done. destruct (mx_recursive (mutex_at s m)) eqn:Er; cbn [negb]; [|wp_step; by apply K2].
    destruct (Z.eqb_spec (mx_recursion_count (mutex_at s m)) UINT32_MAX) as [E|E]; [wp_step; by apply K3|].
    wp_step. apply wp_upd_mutex. wp_step. rewrite u32_small by lia. apply K4; try done; [lia|].
    apply kcore_recursion; [done|by rewrite Eo|lia]. }
  rewrite bool_decide_false by congruence. destruct (Z.eqb_spec timeout HR_NO_WAIT) as [E|E]; [wp_step; by apply (K5 o)|].
  destruct (mutex_waiters T D b s V nobody m KC Hv) as [ns Hns]. wp_step.
  apply (block_current_spec T D b t s V (MutexWaiters m) (WMutex m) _ None timeout _ ns); try done.
  { unfold HR_NO_WAIT in *. lia. }
  intros s1 V1 KC1 _ BF OW HT HS _. ok_simpl. pose proof (bf_rest _ _ _ BF) as R1.
  assert (NE1 : no_expired s1) by (by eapply (no_expired_blocked b); [apply (kc_struct _ _ _ _ _ _ KC1)|..]).
  assert (EM : ks_mutexes s1 = ks_mutexes s) by (by rewrite R1).
  wp_step. apply (recompute_owner_spec T (wait_deadline T D t timeout) b nobody s1 V1); [done|by apply (kcore_wait_sync T (wait_deadline T D t timeout) b s1 V1)|].
  intros st s2 V2 KC2 PF _ HI RC. pose proof (pf_rest _ _ PF) as R2.
  assert (HO1 : forall k, mutex_at s1 k = mutex_at s k) by (intros k; unfold mutex_at; by rewrite EM).
  assert (Hreg_o : registered s o) by (by apply (owner_linked T D b s V nobody m o)).
  assert (To : task_at s1 o = task_at s o) by (by apply (bf_task _ _ _ BF)).
  specialize (RC o ltac:(by rewrite HO1) ltac:(by rewrite HO1) ltac:(rewrite To; apply (kc_fixed _ _ _ _ _ _ KC o Hreg_o))).
  pose proof (proj1 (tx_level _ _ TX Hni)) as Hlow.
  destruct (rc_chain _ _ _ _ _ _ RC (kcore_mutex_sync T (wait_deadline T D t timeout) b s1 V1 KC1)
    (task_ok_chain_sync s1 (fun u Hu => kc_tasks _ _ _ _ _ _ KC1 u Hu ltac:(intros []))) (t_effective_priority (task_at s t)) Hlow)
    as (RC1 & RC2 & RC3).
  { exists t, m. rewrite HO1, (bf_priority _ _ _ BF). split_and!; [done|apply OW|lia]. }
  rewrite (chain_blocked s s1 t o) in RC1; [| | |].
  2: { intros u Hu. unfold next_owner. rewrite (bf_list _ _ _ BF) by (intros [?|[?|?]]; congruence).
       destruct (node_list s (WaitNode u)) as [[]|]; try done. by rewrite HO1. }
  2: { unfold next_owner. by rewrite (iw_wait _ _ IW). }
  2: { unfold next_owner. rewrite (ow_wait _ _ _ _ OW), HO1, Eo. by rewrite decide_False. }
  assert (NE2 : no_expired s2).
  { intros n. destruct n as [u| | | | | |]; try (rewrite (pf_list _ _ PF) by done; apply NE1).
    split; intros F; by apply (kt_fits _ _ _ _ _ (kc_struct _ _ _ _ _ _ KC2)) in F. }
  assert (HR2 : ks_port s2 = ks_port s /\ g_kernel_state (glob s2) = g_kernel_state (glob s) /\
    g_timer_system_initialized (glob s2) = g_timer_system_initialized (glob s) /\ ks_mutexes s2 = ks_mutexes s).
  { rewrite R2, R1. done. }
  destruct HR2 as (P2 & G2 & T2 & M2').
  assert (OW2 : object_waiting s2 t (WMutex m) (MutexWaiters m)) by (by apply (pf_object_waiting _ _ PF)).
  assert (HS2 : t_state (task_at s2 t) = HR_TASK_STATE_BLOCKED) by (by rewrite (pf_field _ _ PF)).
  destruct (decide (st = HR_OK)) as [->|Hst].
  - ok_simpl. wp_step. wp_step. apply (K6 o s2); try done. split; try done; [by exists V2|].
    intros o' [= <-]%(eq_trans (eq_sym Eo)). destruct (owner_chain _ s o) as [os|]; [|done]. case_decide as Hin; [done|].
    destruct RC1 as (_ & RC1 & RC4). split; try done.
    + by rewrite (pf_list _ _ PF).
    + intros HI0. apply HI; [done|by apply (kcore_mutex_sync T (wait_deadline T D t timeout) b s1 V1)|].
      apply (inherits_blocked s s1 m t); try done; [intros k; by rewrite HO1|apply OW].
    + rewrite (RC4 t Hin). apply BF.
    + intros u Hu Hut. rewrite (RC4 u Hu). by apply (bf_task _ _ _ BF).
  - replace (ok st) with false by (by destruct st). cbn [negb]. unfold ignoreM. wp_step. wp_step.
    apply (unblock_waiter_spec T (wait_deadline T D t timeout) b s2 V2 t (MutexWaiters m)); [done|done|apply OW2|].
    intros f s3 V3 KC3 NE3 W _ _ _. wp_step. wp_step. pose proof (wo_rest _ _ _ _ W) as R3. apply (K6 o s3); try done.
    split; try (by rewrite R3); [by exists V3|].
    assert (Est : st = HR_ERROR_INTERNAL).
    { destruct (owner_chain _ s o) as [os|]; [|done]. case_decide; [done|]. by destruct RC1. }
    assert (HRF : lock_refused s s3 t o).
    { split.
      - rewrite (wo_state _ _ _ _ W). unfold suspended_wait. by rewrite HS2.
      - rewrite (wo_result _ _ _ _ W). done.
      - apply W.
      - rewrite (wo_priority _ _ _ _ W); [done|]. by rewrite Est.
      - destruct (wo_other _ _ _ _ W o Hot) as [p ->]. change (t_base_priority (task_at s2 o) = t_base_priority (task_at s o)).
        by rewrite (pf_field _ _ PF), To.
      - intros u Hu. rewrite (wo_list _ _ _ _ W), (pf_list _ _ PF), (bf_list _ _ _ BF); try done; intros [?|[?|?]]; congruence. }
    intros o' [= <-]%(eq_trans (eq_sym Eo)). destruct (owner_chain _ s o) as [os|]; [|done]. case_decide as Hin; [done|].
    by destruct RC1.
Qed.
End lock.

(** ** Unlocking *)

(** An effective priority that is neither lent without reason nor lower than it should be:
    the base priority or the one of a task waiting for a mutex of [t]. *)
Definition settled (s : kstate) (t : task_ptr) : Prop :=
  t_effective_priority (task_at s t) <= t_base_priority (task_at s t) /\
  (t_effective_priority (task_at s t) = t_base_priority (task_at s t) \/
   exists m u, mx_owner (mutex_at s m) = Some t /\ node_list s (WaitNode u) = Some (MutexWaiters m) /\
     t_effective_priority (task_at s t) = t_effective_priority (task_at s u)).

Section unlock.
Context `{Config} (T : Z) (D : node_addr -> Z) (b : phase).

(** A task that waits for nothing settles when its priority is recomputed. *)
Lemma recomputed_settled f s s' V t st : kcore T D s V b nobody -> idle_wait s t -> registered s t -> t <> g_idle_task ->
  recomputed f s s' V t st -> st = HR_OK /\ settled s' t /\ (forall u, u <> t -> task_at s' u = task_at s u) /\
  (inherits_but s (Some t) -> inherits s').
Proof.
  intros KC IW Hreg Hni [PF RI RS _]. pose proof (kc_struct _ _ _ _ _ _ KC) as KS.
  destruct (RS Hni (iw_object _ _ IW)) as (-> & HT & ns & Hns & He). split; [done|]. split_and!; [|done|].
  2: { intros HI. by apply RI; [|apply (kcore_mutex_sync T D b s V)|]. }
  split; rewrite He, (pf_field _ _ PF) by done; [apply inherit_le|].
  destruct (inherit_attained s V ns (t_base_priority (task_at s t))) as [->|(n & w & Hn & Hw & ->)]; [by left|right].
  apply (kt_member _ _ _ _ _ KS _ _ _ Hns) in Hn. destruct (owned_mutex T D s V b KS (kc_objects _ _ _ _ _ _ KC) t n Hn)
    as (m & -> & Hm & _ & [ws Hws]). simpl in Hw. rewrite Hws in Hw. simpl in Hw.
  apply (kt_member _ _ _ _ _ KS _ _ _ Hws) in Hw. pose proof (kt_fits _ _ _ _ _ KS _ _ Hw) as Hf. destruct w as [|u| | | | |]; try done.
  pose proof (kt_registered _ _ _ _ _ KS _ _ u Hw eq_refl) as Hu. exists m, u.
  apply (mo_link _ _ (ob_mutexes _ (kc_objects _ _ _ _ _ _ KC) m)) in Hn as [_ Ho].
  split_and!; [by rewrite (pf_rest _ _ PF)|by rewrite (pf_list _ _ PF)|].
  destruct (decide (u = t)) as [->|Hut]; [pose proof (iw_wait _ _ IW); congruence|]. rewrite HT by done.
  by destruct (kt_prio _ _ _ _ _ KS u Hu) as (_ & -> & _).
Qed.

(** Recomputing another task that waits for nothing keeps [t] settled. *)
Lemma settled_frame s s' t n : settled s t -> prio_frame s s' -> (forall u, u <> n -> task_at s' u = task_at s u) ->
  t <> n -> node_list s (WaitNode n) = None -> settled s' t.
Proof.
  intros [S1 S2] PF HT Hne Hn. unfold settled. rewrite !HT by done. split; [done|]. destruct S2 as [S2|(m & u & H1 & H2 & H3)]; [by left|right].
  exists m, u. rewrite (pf_rest _ _ PF). split_and!; [done|by rewrite <- (pf_rest _ _ PF), (pf_list _ _ PF)|].
  rewrite <- (pf_rest _ _ PF), HT; [done|]. intros ->. congruence.
Qed.

(** What a change of owner keeps. *)
Lemma ro_field s s' m v {A} (f : hr_task_control_block_t -> A) u : reowned s s' m v ->
  (forall n c, f (t_set_owned_mutex_count n c) = f c) -> f (task_at s' u) = f (task_at s u).
Proof. intros RO Hf. destruct (ro_task _ _ _ _ RO u) as [n ->]. apply Hf. Qed.
Lemma ro_idle_wait s s' m v u : reowned s s' m v -> idle_wait s u -> idle_wait s' u.
Proof.
  intros RO []. split; rewrite ?(ro_field s s' m v _ _ RO), ?(ro_list _ _ _ _ RO); done.
Qed.
Lemma ro_registered s s' m v u : reowned s s' m v -> registered s u -> registered s' u.
Proof. intros RO. unfold registered. by rewrite (ro_list _ _ _ _ RO). Qed.
Lemma ro_no_expired s s' m v : reowned s s' m v -> no_expired s -> no_expired s'.
Proof.
  intros RO NE n. destruct (decide (n = OwnerNode m)) as [->|Hn]; [|rewrite (ro_list _ _ _ _ RO) by done; apply NE].
  rewrite (ro_link _ _ _ _ RO). by destruct v.
Qed.
Lemma ro_inherits s s' m v : reowned s s' m v ->
  (forall o u, v = Some o -> node_list s (WaitNode u) = Some (MutexWaiters m) ->
     t_effective_priority (task_at s o) <= t_effective_priority (task_at s u)) -> inherits s -> inherits s'.
Proof.
  intros RO Hm HI k o u _ Ho Hu. rewrite !(ro_field s s' m v t_effective_priority _ RO) by done.
  rewrite (ro_list _ _ _ _ RO) in Hu by done. destruct (decide (k = m)) as [->|Hk].
  - apply Hm; [|done]. by rewrite (ro_mutex _ _ _ _ RO) in Ho.
  - apply (HI k); [done| |done]. by rewrite <- (ro_other _ _ _ _ RO).
Qed.
Lemma pf_no_expired s s' V' : prio_frame s s' -> kstruct T D s' V' b -> no_expired s -> no_expired s'.
Proof.
  intros PF KS NE n. destruct n as [u| | | | | |]; try (rewrite (pf_list _ _ PF) by done; apply NE).
  split; intros F; by apply (kt_fits _ _ _ _ _ KS) in F.
Qed.
Lemma inherits_weaken s x : inherits s -> inherits_but s x.
Proof. intros HI k o u _. by apply HI. Qed.

(** The effect of giving up the last level of [m]: the next owner is [n]. *)
Record released (s s' : kstate) (m : mutex_ptr) (t : task_ptr) (n : option task_ptr) : Prop := {
  rl_core : exists V', kcore T D s' V' b nobody;
  rl_expired : no_expired s';
  rl_rest : s' = ks_set_store (ks_store s') (ks_set_mutexes (ks_mutexes s') (ks_set_tasks (ks_tasks s') s));
  rl_mutex : mutex_at s' m = mx_set_recursion_count (match n with Some _ => 1 | None => 0 end) (mx_set_owner n (mutex_at s m));
  rl_other : forall k, k <> m -> mutex_at s' k = mutex_at s k;
  rl_settled : settled s' t;
  rl_inherits : inherits s -> inherits s';
  rl_tasks : forall u, u <> t -> Some u <> n ->
    t_state (task_at s' u) = t_state (task_at s u) /\ t_effective_priority (task_at s' u) = t_effective_priority (task_at s u);
  rl_woken : forall u, n = Some u -> settled s' u /\ idle_wait s' u /\ t_wait_result (task_at s' u) = HR_OK /\
    t_state (task_at s' u) = (if suspended_wait (task_at s u) then HR_TASK_STATE_SUSPENDED else HR_TASK_STATE_READY);
}.

Lemma release_free_spec s V m t Q :
  kcore T D s V b nobody -> no_expired s -> mutex_valid s m -> running s t -> t <> g_idle_task ->
  mx_owner (mutex_at s m) = Some t -> V !! MutexWaiters m = Some [] ->
  (forall s', released s s' m t None -> Q (HR_OK, hr_kernel_current_should_preempt s') s') ->
  wp (mutex_release m None None) Q s.
Proof.
  intros KC NE Hv RN Hni Ho Hw K. destruct (running_idle T D b s V t KC RN) as [Hreg IW].
  pose proof (kc_struct _ _ _ _ _ _ KC) as KS. destruct (owner_linked T D b s V nobody m t KC Hv Ho) as [Hl _].
  assert (Hnw : forall n, node_list s n <> Some (MutexWaiters m)).
  { intros n Hn. apply (kt_member _ _ _ _ _ KS _ _ _ Hw) in Hn. by apply elem_of_nil in Hn. }
  unfold mutex_release. wp_step.
  apply (detach_spec T D b s V m t); try done; [exact (ob_owned _ (kc_objects _ _ _ _ _ _ KC))|by apply (kc_fixed _ _ _ _ _ _ KC)|].
  intros s1 xs ys _ KS1 RO. pose proof (kcore_reown T D b s s1 V _ nobody m None KC KS1 RO Hv ltac:(auto)) as KC1.
  wp_step. wp_step. ok_simpl. pose proof (ro_idle_wait _ _ _ _ t RO IW) as IW1. pose proof (ro_registered _ _ _ _ t RO Hreg) as Hreg1.
  wp_step. apply (recompute_task_spec T D b nobody s1 _ t _ KC1); [by eapply kcore_wait_sync|done|].
  intros st s2 V2 KC2 RC _. destruct (recomputed_settled _ s1 s2 _ t st KC1 IW1 Hreg1 Hni RC) as (-> & ST & HT & HI).
  pose proof (rc_frame _ _ _ _ _ _ RC) as PF. wp_step. wp_step. wp_step. wp_step. apply K. split; try done.
  - by exists V2.
  - eapply pf_no_expired; [done|apply (kc_struct _ _ _ _ _ _ KC2)|by eapply ro_no_expired].
  - rewrite (pf_rest _ _ PF), (ro_rest _ _ _ _ RO). done.
  - rewrite (pf_rest _ _ PF). exact (ro_mutex _ _ _ _ RO).
  - intros k Hk. rewrite (pf_rest _ _ PF). by apply (ro_other _ _ _ _ RO).
  - intros HI0. apply HI, inherits_weaken. by eapply ro_inherits.
  - intros u Hu _. rewrite (HT u Hu). by rewrite !(ro_field s s1 m None _ u RO).
Qed.

(** The wake-up of [n] with OK keeps what another task and the mutexes are. *)
Lemma woke_idle_wait s s' n t r : woke s s' n r -> t <> n -> idle_wait s t -> idle_wait s' t.
Proof.
  intros W Hne []. destruct (wo_other _ _ _ _ W t Hne) as [p E].
  assert (HL : node_list s' (WaitNode t) = node_list s (WaitNode t) /\ node_list s' (TimeoutNode t) = node_list s (TimeoutNode t)).
  { split; apply (wo_list _ _ _ _ W); try done; intros [?|[?|?]]; congruence. }
  destruct HL as [L1 L2]. split; rewrite ?E, ?L1, ?L2; done.
Qed.
Lemma woke_registered s s' n t r : woke s s' n r -> registered s t -> registered s' t.
Proof. intros W. unfold registered. rewrite (wo_list _ _ _ _ W); [done| |done]. intros [?|[?|?]]; congruence. Qed.
Lemma woke_inherits s s' n r : r <> HR_ERROR_TIMEOUT -> woke s s' n r -> inherits s -> inherits s'.
Proof.
  intros Hr W HI k o u _ Ho Hu. rewrite !(wo_priority _ _ _ _ W Hr). rewrite (wo_rest _ _ _ _ W) in Ho.
  destruct (decide (u = n)) as [->|Hne]; [pose proof (iw_wait _ _ (wo_idle _ _ _ _ W)); congruence|].
  apply (HI k); [done|exact Ho|]. rewrite <- Hu. symmetry. apply (wo_list _ _ _ _ W); [|done]. intros [?|[?|?]]; congruence.
Qed.

(** Handing [m] over, up to the wake-up of the new owner. *)
Lemma hand_over_spec s V m t n ws Q :
  kcore T D s V b nobody -> mutex_valid s m -> idle_wait s t -> mx_owner (mutex_at s m) = Some t ->
  V !! MutexWaiters m = Some (WaitNode n :: ws) ->
  (forall s2 V2, kcore T D s2 V2 b nobody -> reowned s s2 m (Some n) -> (inherits s -> inherits s2) ->
     node_list s2 (WaitNode n) = Some (MutexWaiters m) -> n <> t -> n <> g_idle_task -> registered s n -> Q HR_OK s2) ->
  wp (hr_mutex_detach_owner (Some m)) (fun d s1 => d = (HR_OK, Some t) /\ wp (hr_mutex_attach_owner (Some m) (Some n)) Q s1) s.
Proof.
  intros KC Hv IW Ho Hw K. pose proof (kc_struct _ _ _ _ _ _ KC) as KS.
  destruct (owner_linked T D b s V nobody m t KC Hv Ho) as [Hl Hreg].
  pose proof (ob_mutexes _ (kc_objects _ _ _ _ _ _ KC) m) as [_ M2 _ M4].
  assert (Hwn : node_list s (WaitNode n) = Some (MutexWaiters m)).
  { apply (kt_member _ _ _ _ _ KS _ _ _ Hw), elem_of_cons. by left. }
  assert (Hnt : n <> t) by (intros ->; pose proof (iw_wait _ _ IW); congruence).
  pose proof (kt_registered _ _ _ _ _ KS _ _ n Hwn eq_refl) as Hrn. pose proof (kc_fixed _ _ _ _ _ _ KC n Hrn) as TXn.
  destruct (linked_waits s n _ (kc_tasks _ _ _ _ _ _ KC n Hrn ltac:(intros [])) Hwn) as (_ & _ & _ & _ & Hni).
  apply (detach_spec T D b s V m t); try done; [exact (ob_owned _ (kc_objects _ _ _ _ _ _ KC))|by apply (kc_fixed _ _ _ _ _ _ KC)|].
  intros s1 xs ys HV KS1 RO1.
  destruct (kt_objects _ _ _ _ _ KS1 (OwnedMutexes n)) as [ns Hns]; [by eapply ro_registered|].
  pose proof (ro_named _ _ _ _ RO1 (M4 Hv) (kcore_named T D b s V nobody KC)) as HN1.
  assert (Hun : node_list s1 (OwnerNode m) = None) by exact (ro_link _ _ _ _ RO1).
  split; [done|]. apply (attach_spec T D b s1 _ m n ns _ KS1); try done.
  - by eapply ro_registered.
  - rewrite (ro_field s s1 m None t_magic n RO1) by done. apply TXn.
  - by rewrite (ro_mutex _ _ _ _ RO1).
  - rewrite (ro_owner _ _ _ _ RO1). by apply M2.
  - apply (owned_bound T D b s1 _ m n ns KS1 HN1 (M4 Hv) Hns). intros E. apply (kt_member _ _ _ _ _ KS1 _ _ _ Hns) in E. congruence.
  - intros s2 KS2 RO2. pose proof (reowned_trans _ _ _ _ _ _ RO1 RO2) as RO. eapply (K s2); try done.
    + by apply (kcore_reown T D b s s2 V _ nobody m (Some n)).
    + apply (ro_inherits s s2 m (Some n) RO). intros o u [= <-] Hu.
      pose proof (kt_registered _ _ _ _ _ KS _ _ u Hu eq_refl) as Hru. apply (kt_member _ _ _ _ _ KS _ _ _ Hw) in Hu.
      destruct (kt_prio _ _ _ _ _ KS u Hru) as (_ & <- & _). destruct (kt_prio _ _ _ _ _ KS n Hrn) as (_ & <- & _).
      pose proof (kt_sorted _ _ _ _ _ KS (MutexWaiters m) _ eq_refl Hw) as HS.
      apply elem_of_cons in Hu as [[= ->]|Hu]; [lia|]. by apply (sorted_by_head _ _ _ HS).
    + by rewrite (ro_list _ _ _ _ RO).
Qed.

(** The hand-over, the wake-up and the two recomputations together. *)
Lemma released_chain s s2 s3 s4 s5 m t n :
  reowned s s2 m (Some n) -> (inherits s -> inherits s2) -> woke s2 s3 n HR_OK -> prio_frame s3 s4 -> prio_frame s4 s5 ->
  n <> t -> settled s4 t -> (inherits_but s3 (Some t) -> inherits s4) -> (forall u, u <> t -> task_at s4 u = task_at s3 u) ->
  settled s5 n -> (inherits_but s4 (Some n) -> inherits s5) -> (forall u, u <> n -> task_at s5 u = task_at s4 u) ->
  (exists V', kcore T D s5 V' b nobody) -> no_expired s3 -> released s s5 m t (Some n).
Proof.
  intros RO HI2 W PF4 PF5 Hnt ST4 HI4 HT4 ST5 HI5 HT5 [V5 KC5] NE3. pose proof (wo_idle _ _ _ _ W) as IW.
  pose proof (prio_frame_trans _ _ _ PF4 PF5) as PF.
  assert (HM : forall k, mutex_at s5 k = mutex_at s2 k) by (intros; by rewrite (pf_rest _ _ PF), (wo_rest _ _ _ _ W)).
  split; try (by exists V5).
  - eapply pf_no_expired; [exact PF|apply (kc_struct _ _ _ _ _ _ KC5)|done].
  - rewrite (pf_rest _ _ PF), (wo_rest _ _ _ _ W), (ro_rest _ _ _ _ RO). done.
  - rewrite HM. exact (ro_mutex _ _ _ _ RO).
  - intros k Hk. rewrite HM. by apply (ro_other _ _ _ _ RO).
  - apply (settled_frame s4 s5 t n); try done. rewrite (pf_list _ _ PF4) by done. apply IW.
  - intros HI. apply HI5, inherits_weaken, HI4, inherits_weaken. by apply (woke_inherits s2 s3 n HR_OK); [| |apply HI2].
  - intros u Hut Hun. rewrite HT5, HT4 by congruence. rewrite (wo_priority _ _ _ _ W), (ro_field s s2 m (Some n) t_effective_priority u RO) by done.
    split; [|done]. destruct (wo_other _ _ _ _ W u ltac:(congruence)) as [p ->]. simpl.
    by rewrite (ro_field s s2 m (Some n) t_state u RO).
  - intros u [= <-]. split; [done|]. split; [by apply (pf_idle_wait _ _ PF)|].
    rewrite !(pf_field _ _ PF) by done. split; [apply W|]. rewrite (wo_state _ _ _ _ W). unfold suspended_wait.
    by rewrite (ro_field s s2 m (Some n) t_state n RO), (ro_field s s2 m (Some n) t_suspended_resume_state n RO).
Qed.

Lemma release_waiter_spec s V m t n ws Q :
  kcore T D s V b nobody -> no_expired s -> mutex_valid s m -> running s t -> t <> g_idle_task ->
  mx_owner (mutex_at s m) = Some t -> V !! MutexWaiters m = Some (WaitNode n :: ws) ->
  (forall s' f, released s s' m t (Some n) -> Q (HR_OK, f || hr_kernel_current_should_preempt s') s') ->
  wp (mutex_release m (Some (WaitNode n)) (Some n)) Q s.
Proof.
  intros KC NE Hv RN Hni Ho Hw K. destruct (running_idle T D b s V t KC RN) as [Hreg IW].
  unfold mutex_release. wp_step. eapply wp_mono; [apply (hand_over_spec s V m t n ws (fun st s2 => st = HR_OK /\
    exists V2, kcore T D s2 V2 b nobody /\ reowned s s2 m (Some n) /\ (inherits s -> inherits s2) /\
      node_list s2 (WaitNode n) = Some (MutexWaiters m) /\ n <> t /\ n <> g_idle_task /\ registered s n)); try done; eauto 10|].
  intros d s1 [-> HA]. ok_simpl. wp_step. wp_step. eapply wp_mono; [exact HA|].
  intros st s2 (-> & V2 & KC2 & RO & HI2 & Hw2 & Hnt & Hnn & Hrn). ok_simpl.
  pose proof (ro_idle_wait _ _ _ _ t RO IW) as IW2. pose proof (ro_no_expired _ _ _ _ RO NE) as NE2. wp_step.
  apply (unblock_waiter_spec T D b s2 V2 n (MutexWaiters m)); [done|done|done|].
  intros f s3 V3 KC3 NE3 W _ _ _. wp_step. cbn [fst snd]. ok_simpl.
  assert (IW3 : idle_wait s3 t) by (by eapply woke_idle_wait).
  assert (Hr3 : forall u, registered s u -> registered s3 u).
  { intros u Hu. eapply woke_registered; [exact W|]. by eapply ro_registered. }
  pose proof (Hr3 t Hreg) as Hreg3.
  wp_step. apply (recompute_task_spec T D b nobody s3 V3 t _ KC3); [by eapply kcore_wait_sync|done|].
  intros st s4 V4 KC4 RC4 _. destruct (recomputed_settled _ s3 s4 V3 t st KC3 IW3 Hreg3 Hni RC4) as (-> & ST4 & HT4 & HI4).
  pose proof (rc_frame _ _ _ _ _ _ RC4) as PF4. pose proof (pf_idle_wait _ _ PF4 n (wo_idle _ _ _ _ W)) as IW4.
  assert (Hreg4 : registered s4 n) by (apply (pf_registered _ _ PF4); auto).
  ok_simpl. wp_step. apply (recompute_task_spec T D b nobody s4 V4 n _ KC4); [by eapply kcore_wait_sync|done|].
  intros st s5 V5 KC5 RC5 _. destruct (recomputed_settled _ s4 s5 V4 n st KC4 IW4 Hreg4 Hnn RC5) as (-> & ST5 & HT5 & HI5).
  pose proof (rc_frame _ _ _ _ _ _ RC5) as PF5. wp_step. wp_step. wp_step. apply K.
  apply (released_chain s s2 s3 s4 s5); eauto.
Qed.

(** The critical section of [hr_mutex_unlock] left with a result. *)
Lemma unlock_finish s s1 (r : hr_status * bool) Q :
  ks_port s1 = ks_port (masked s) -> Q (fst r) (pend_if (ok (fst r) && snd r) (with_port (ks_port s) s1)) ->
  wp (hr_port_exit_critical (pt_primask (ks_port s)) ;;;
      (if ok (fst r) && snd r then hr_port_request_context_switch else retM tt) ;;; retM (fst r)) Q s1.
Proof.
  intros Hp HQ. wp_step. apply (exit_critical_spec s); [exact Hp|]. wp_step. apply pend_if_spec. by wp_step.
Qed.

Lemma unlock_spec s V m t Q :
  kcore T D s V b nobody -> no_expired s -> mutex_valid s m -> hr_port_is_inside_isr s = false -> running s t ->
  t <> g_idle_task ->
  (mx_owner (mutex_at s m) <> Some t -> Q HR_ERROR_NOT_OWNER s) ->
  (let s' := set_mutex m (mx_set_recursion_count (mx_recursion_count (mutex_at s m) - 1) (mutex_at s m)) s in
   mx_owner (mutex_at s m) = Some t -> mx_recursive (mutex_at s m) = true -> 1 < mx_recursion_count (mutex_at s m) ->
   kcore T D s' V b nobody -> Q HR_OK s') ->
  (forall ns s' f, mx_owner (mutex_at s m) = Some t ->
     mx_recursive (mutex_at s m) = false \/ mx_recursion_count (mutex_at s m) = 1 ->
     V !! MutexWaiters m = Some ns ->
     released (masked s) s' m t (match ns with WaitNode n :: _ => Some n | _ => None end) ->
     (hr_kernel_current_should_preempt s' = true -> f = true) ->
     Q HR_OK (pend_if f (with_port (ks_port s) s'))) ->
  wp (hr_mutex_unlock (Some m)) Q s.
Proof.
  intros KC NE Hv Hi RN Hni K1 K2 K3. pose proof RN as [R1 R2 R3]. destruct (running_idle T D b s V t KC RN) as [Hreg IW].
  destruct (mutex_waiters T D b s V nobody m KC Hv) as [ns Hns]. pose proof (kc_struct _ _ _ _ _ _ KC) as KS.
  assert (KC0 : kcore T D (masked s) V b nobody) by (by apply kcore_port).
  assert (HF : forall r s1, ks_port s1 = ks_port (masked s) -> forall st f, r = (st, f) -> st = HR_OK \/ f = false ->
    Q st (pend_if f (with_port (ks_port s) s1)) ->
    wp (hr_port_exit_critical (pt_primask (ks_port s)) ;;;
      (if ok (fst r) && snd r then hr_port_request_context_switch else retM tt) ;;; retM (fst r)) Q s1).
  { intros r s1 Hp st f -> Hsf HQ. apply unlock_finish; [done|]. simpl. destruct Hsf as [-> | ->]; [done|]. by rewrite andb_false_r. }
  unfold hr_mutex_unlock. wp_step. wp_step. rewrite (mutex_is_valid T D b s V nobody m KC Hv), Hi. cbn [negb].
  change (hr_task_current s) with (g_current_task (glob s)). rewrite R2, valid_task by (by apply (kc_fixed _ _ _ _ _ _ KC)). cbn [negb].
  wp_step. apply enter_critical_spec. fold (masked s).
  destruct (decide (mx_owner (mutex_at s m) = Some t)) as [Ho|Ho].
  2: { rewrite bool_decide_true by done. apply (HF _ _ eq_refl _ _ eq_refl); [by right|]. simpl.
       unfold masked. rewrite with_port_twice, with_port_same. by apply K1. }
  rewrite bool_decide_false by tauto.
  pose proof (mo_count _ _ (ob_mutexes _ (kc_objects _ _ _ _ _ _ KC) m) Hv) as Hc. rewrite Ho in Hc.
  destruct (mx_recursive (mutex_at s m) && (1 <? mx_recursion_count (mutex_at s m))) eqn:Er.
  { apply andb_true_iff in Er as [Er Hgt%Z.ltb_lt]. wp_step. apply wp_upd_mutex. change (mutex_at (masked s) m) with (mutex_at s m).
    refine (HF (HR_OK, false) _ _ _ _ eq_refl _ _); [done|by left|]. simpl. rewrite u32_small by lia.
    replace (with_port _ _) with (set_mutex m (mx_set_recursion_count (mx_recursion_count (mutex_at s m) - 1) (mutex_at s m)) s)
      by (by destruct s). apply K2; try done. apply kcore_recursion; [done|by rewrite Ho|lia]. }
  assert (Hlast : mx_recursive (mutex_at s m) = false \/ mx_recursion_count (mutex_at s m) = 1).
  { destruct (mx_recursive (mutex_at s m)); [right|by left]. simpl in Er. lia. }
  destruct (wait_peek T D b s V nobody (MutexWaiters m) ns KC eq_refl Hns) as [-> Hwn].
  assert (HRL : forall s1 n, released (masked s) s1 m t n -> ks_port s1 = ks_port (masked s)).
  { intros s1 n RL. by rewrite (rl_rest _ _ _ _ _ RL). }
  destruct ns as [|w ws]; cbn [head].
  - wp_step. apply (release_free_spec (masked s) V m t); try done. intros s1 RL.
    apply (HF _ _ (HRL _ _ RL) _ _ eq_refl); [by left|]. by apply (K3 [] s1).
  - destruct (Hwn w) as (n & -> & Hn); [by apply elem_of_cons; left|].
    pose proof (kt_registered _ _ _ _ _ KS _ _ n Hn eq_refl) as Hrn. pose proof (kc_fixed _ _ _ _ _ _ KC n Hrn) as TX.
    rewrite (tx_wait _ _ TX). unfold cast_task; cbn [as_task]. rewrite (valid_task s n) by apply TX. cbn [negb].
    wp_step. apply (release_waiter_spec (masked s) V m t n ws); try done. intros s1 f RL.
    apply (HF _ _ (HRL _ _ RL) _ _ eq_refl); [by left|]. apply (K3 (WaitNode n :: ws) s1); try done.
    intros ->. apply orb_true_r.
Qed.
End unlock.

(** ** Creating a mutex *)

Record mutex_made (s s' : kstate) (m : mutex_ptr) (recursive : bool) : Prop := {
  mm_rest : s' = ks_set_store (ks_store s') (ks_set_mutexes (ks_mutexes s') s);
  mm_block : mutex_at s' m = mk_mcb None 0 recursive HR_CFG_MUTEX_MAGIC;
  mm_other : forall k, k <> m -> mutex_at s' k = mutex_at s k;
  mm_list : forall n, node_list s' n = node_list s n;
}.

(** The states of a creation: the store and the control block of [m] have changed. *)
Definition making_mutex (st : store) (m : mutex_ptr) (c : hr_mutex_control_block_t) (s : kstate) : kstate :=
  set_mutex m c (ks_set_store st s).
Lemma making_mutex_start m c s : set_mutex m c s = making_mutex (ks_store s) m c s.
Proof. by destruct s. Qed.
Lemma making_mutex_update st m c s f Q : Q tt (making_mutex st m (f c) s) -> wp (upd_mutex m f) Q (making_mutex st m c s).
Proof. intros HQ. apply wp_upd_mutex. unfold making_mutex in *. by rewrite mutex_at_set_eq, set_mutex_twice. Qed.
Lemma making_mutex_zero st m c s l Q :
  Q tt (making_mutex (set_lists (zeroed_list l (st_lists st)) st) m c s) -> wp (zero_list l) Q (making_mutex st m c s).
Proof. done. Qed.
Lemma making_mutex_zero_node st m c s n Q :
  Q tt (making_mutex (zeroed_node n st) m c s) -> wp (zero_node n) Q (making_mutex st m c s).
Proof. done. Qed.
Lemma making_mutex_init st m c s l Q :
  Q tt (making_mutex (set_lists (inited (st_lists st) l) st) m c s) ->
  wp (lift (hr_wait_list_init (Some l))) Q (making_mutex st m c s).
Proof. intros HQ. unfold hr_wait_list_init. wp_step. wp_step. eapply wp_intro; [apply init_run|exact HQ]. Qed.
Lemma making_mutex_node st m c s n o Q :
  Q tt (making_mutex (inited_node_store n o st) m c s) ->
  wp (lift (hr_list_node_init (Some (PNode n)) o)) Q (making_mutex st m c s).
Proof. intros HQ. wp_step. eapply wp_intro; [apply node_init_run|exact HQ]. Qed.

(** The store after a creation. *)
Definition mutex_store (m : mutex_ptr) (st : store) : store :=
  let st1 := zeroed_node (OwnerNode m) (set_lists (zeroed_list (MutexWaiters m) (st_lists st)) st) in
  inited_node_store (OwnerNode m) (Some (PMutex m)) (set_lists (inited (st_lists st1) (MutexWaiters m)) st1).

Lemma mutex_store_spec m st V : lists_rep (st_lists st) V -> list_of (node_at (st_lists st) (PNode (OwnerNode m))) = None ->
  V !! MutexWaiters m = None \/ V !! MutexWaiters m = Some [] ->
  lists_rep (st_lists (mutex_store m st)) (<[MutexWaiters m := []]> V) /\
  obj_frame (eq (OwnerNode m)) st (mutex_store m st) /\
  owner (node_at (st_lists (mutex_store m st)) (PNode (OwnerNode m))) = Some (PMutex m).
Proof.
  intros Rep Hl HV. unfold mutex_store.
  set (st0 := set_lists (zeroed_list (MutexWaiters m) (st_lists st)) st).
  assert (F0 : obj_frame (eq (OwnerNode m)) st st0) by (apply obj_frame_lists; intros n; apply zeroed_list_node).
  destruct (zeroed_node_spec (eq (OwnerNode m)) st0 (delete (MutexWaiters m) V) (OwnerNode m)) as [R1 F1];
    [done|by apply zeroed_list_spec|by rewrite (of_list _ _ _ F0)|].
  set (st1 := zeroed_node (OwnerNode m) st0) in *. set (st2 := set_lists (inited (st_lists st1) (MutexWaiters m)) st1).
  assert (F2 : obj_frame (eq (OwnerNode m)) st1 st2) by (apply obj_frame_lists; intros n; apply inited_node).
  assert (R2 : lists_rep (st_lists st2) (<[MutexWaiters m := []]> V)).
  { rewrite <- (insert_delete_eq V). apply rep_inited; [done|left; apply lookup_delete_eq]. }
  destruct (inited_node_spec (eq (OwnerNode m)) st2 (<[MutexWaiters m := []]> V) (OwnerNode m) (Some (PMutex m))) as [R3 F3];
    [done|done|by rewrite (of_list _ _ _ F2), (of_list _ _ _ F1), (of_list _ _ _ F0)|].
  split_and!; [done| |by rewrite inited_store_at, decide_True].
  eapply obj_frame_trans; [exact F0|]. eapply obj_frame_trans; [exact F1|]. by eapply obj_frame_trans.
Qed.

Section create.
Context (T : Z) (D : node_addr -> Z) (b : phase).

Lemma mutex_create_run s m recursive Q :
  hr_mutex_is_valid s (Some m) = false ->
  Q HR_OK (making_mutex (mutex_store m (ks_store s)) m (mk_mcb None 0 recursive HR_CFG_MUTEX_MAGIC) s) ->
  wp (hr_mutex_create_internal (Some m) recursive) Q s.
Proof.
  intros Hv HQ. unfold hr_mutex_create_internal. wp_step. wp_step. rewrite Hv. unfold hr_mutex_zero_control_block.
  wp_step. wp_step. apply wp_upd_mutex. rewrite making_mutex_start.
  wp_step. apply making_mutex_zero. apply making_mutex_zero_node. wp_step. apply making_mutex_update.
  wp_step. apply making_mutex_init. wp_step. apply making_mutex_node. wp_step. apply making_mutex_update. wp_step. exact HQ.
Qed.

Lemma mutex_create_spec s V m recursive Q :
  kcore T D s V b nobody -> hr_mutex_is_valid s (Some m) = false -> Z.of_N m < SIZE_MAX ->
  (forall s' V', kcore T D s' V' b nobody -> mutex_made s s' m recursive -> Q HR_OK s') ->
  wp (hr_mutex_create_internal (Some m) recursive) Q s.
Proof.
  intros KC Hv Hname K. pose proof (kc_struct _ _ _ _ _ _ KC) as KS.
  assert (Hmag : mx_magic (mutex_at s m) <> HR_CFG_MUTEX_MAGIC).
  { intros E. by rewrite (mutex_is_valid T D b s V nobody m KC E) in Hv. }
  apply mutex_create_run; [done|]. set (c := mk_mcb None 0 recursive HR_CFG_MUTEX_MAGIC).
  destruct (kc_objects _ _ _ _ _ _ KC) as [O1 O2 O3 O4 O5 O6 O7].
  assert (HW : forall n, node_list s n <> Some (MutexWaiters m)) by (intros n Hn; by destruct (O1 n _ Hn)).
  assert (HO : node_list s (OwnerNode m) = None).
  { destruct (node_list s (OwnerNode m)) as [l|] eqn:E; [|done]. pose proof (kt_fits _ _ _ _ _ KS _ _ E) as Hf. destruct l; try done.
    by apply (mo_link _ _ (O4 m)) in E as [E _]. }
  assert (HV : V !! MutexWaiters m = None \/ V !! MutexWaiters m = Some []).
  { destruct (V !! MutexWaiters m) as [[|n ns]|] eqn:E; [by right| |by left]. destruct (HW n).
    apply (kt_member _ _ _ _ _ KS _ _ _ E), elem_of_cons. by left. }
  destruct (mutex_store_spec m (ks_store s) V (kt_rep _ _ _ _ _ KS) HO HV) as (Rep & F & HN).
  set (s' := making_mutex _ m c s).
  assert (HL : forall n, node_list s' n = node_list s n) by apply F.
  assert (HM : forall k, mutex_at s' k = if decide (m = k) then c else mutex_at s k) by (intros k; apply (mutex_at_set_mutex m c (ks_set_store (mutex_store m (ks_store s)) s))).
  apply (K s' (<[MutexWaiters m := []]> V)).
  - apply (kcore_fresh T D s s' V); try done.
    + apply (kstruct_fresh T D s s' V b (eq (OwnerNode m))); try done; [by intros n <-|].
      intros l Hl. destruct (decide (l = MutexWaiters m)) as [->|Hne]; [by right|left].
      destruct l; try done; simpl in Hl |- *; [by rewrite HM, decide_False in Hl by congruence|]. unfold registered. by rewrite <- HL.
    + intros u Hu. split; [done|]. intros n Hn. apply (of_owner _ _ _ F). intros <-. by destruct Hn as [|[|[|]]].
    + split; [|done|done| | | |exact O7].
      * intros n l Hn. rewrite HL in Hn. pose proof (O1 n l Hn). destruct l; try done. simpl in *. rewrite HM, decide_False; [done|].
        intros ->. by apply (HW n).
      * intros k. destruct (O4 k) as [M1 M2 M3 M4]. destruct (decide (m = k)) as [<-|Hne].
        -- split; rewrite ?HM, ?decide_True by done; try done. intros o. rewrite HL, HO. split; [done|by intros []].
        -- split; rewrite ?HM, ?decide_False, ?HL by done; try done. intros Hk. rewrite <- (M2 Hk). apply (of_owner _ _ _ F). congruence.
      * intros t ms Hd Hin. apply O5; [done|]. intros k. by rewrite Hin, HL.
      * intros x. apply (timer_ok_frame s); try done; intros n [-> | ->]; by apply F.
  - split; try done; [by rewrite HM, decide_True|]. intros k Hk. by rewrite HM, decide_False by congruence.
Qed.
End create.
