(* ===== verification/KernelTickSpec.v ===== *)
(** The tick interrupt: [hr_kernel_tick_from_isr] advances the clock by one and
    wakes exactly the tasks whose deadline is reached. *)
From stdpp Require Import gmap list.
From Stdlib Require Import ZArith Lia.
From S2P Require Import Prelude Types HrList HrListSpec Store Scheduler SchedulerSpec WaitList WaitListSpec Timeout TimeoutSpec KState TaskCore KernelBase KernelInv MutexPriority Kernel Semaphore Timer KernelTick KernelTasks KernelSpec KernelSwitch SemaphoreSpec TimerSpec TimerTickSpec.
Open Scope Z_scope.
Set Warnings "-clear-no-such-hyp".

(** ** Waking an expired task *)

(** Only a waiting task has a linked timeout. *)
Lemma timeout_waits s t l :
  task_ok s t -> node_list s (TimeoutNode t) = Some l ->
  waiting s t /\ wait_pending (task_at s t) = true /\ node_list s (ReadyNode t) = None /\ t <> g_idle_task.
Proof.
  intros [Hs Hi] Hw. unfold state_ok in Hs. unfold wait_pending.
  destruct (t_state (task_at s t)) eqn:Est; try done.
  - destruct Hs as [_ []]. congruence.
  - destruct Hs as (_ & [] & _). congruence.
  - destruct Hs as [Hr HW]. split_and!; try done. intros E. rewrite Hr in Hi. by destruct (Hi E).
  - destruct Hs as [Hr Hs]. destruct (t_suspended_resume_state (task_at s t)) eqn:Er; try done.
    + destruct Hs. congruence.
    + split_and!; try done. intros E. rewrite Hr in Hi. by destruct (Hi E).
Qed.

(** The result of a wait that ends because its time is up. *)
Definition expiry_result (c : hr_task_control_block_t) : hr_status :=
  if bool_decide (t_wait_kind c = HR_TASK_WAIT_DELAY) then HR_OK else HR_ERROR_TIMEOUT.
Definition woken_state (c : hr_task_control_block_t) : hr_task_state :=
  if suspended_wait c then HR_TASK_STATE_SUSPENDED else HR_TASK_STATE_READY.

(** The effect of waking the tasks [ts]. *)
Record expired_frame (s s' : kstate) (ts : list task_ptr) : Prop := {
  ef_rest : s' = ks_set_store (ks_store s') (ks_set_tasks (ks_tasks s') s);
  ef_woken : forall t, t ∈ ts -> t_state (task_at s' t) = woken_state (task_at s t) /\
    t_wait_result (task_at s' t) = expiry_result (task_at s t) /\ idle_wait s' t;
  ef_other : forall u, u ∉ ts -> exists p, task_at s' u = t_set_effective_priority p (task_at s u);
  ef_list : forall n, (forall t, t ∈ ts -> ~ node_of t n) -> (forall u, n <> ReadyNode u) ->
    node_list s' n = node_list s n;
  ef_owner : forall n, node_owner s' n = node_owner s n;
}.

Lemma expired_frame_nil s : expired_frame s s [].
Proof.
  split; try done; [by destruct s|by intros t ?%elem_of_nil|].
  intros u _. exists (t_effective_priority (task_at s u)). by destruct (task_at s u).
Qed.

Lemma node_of_inj t u n : node_of t n -> node_of u n -> t = u.
Proof. intros [->|[->| ->]] [|[|]]; congruence. Qed.

Lemma expired_frame_cons s s1 s2 s3 t ts :
  step_frame s s1 (TimeoutNode t) None -> woke s1 s2 t (expiry_result (task_at s t)) ->
  expired_frame s2 s3 ts -> t ∉ ts -> expired_frame s s3 (t :: ts).
Proof.
  intros F W [E1 E2 E3 E4 E5] Ht. pose proof (sf_task _ _ _ _ F) as HT.
  assert (HL : forall n, ~ node_of t n -> (forall u, n <> ReadyNode u) -> node_list s2 n = node_list s n).
  { intros n H1 H2. rewrite (wo_list _ _ _ _ W), (sf_list _ _ _ _ F) by done. rewrite decide_False; [done|].
    intros ->. apply H1. unfold node_of; auto. }
  split.
  - rewrite E1, (wo_rest _ _ _ _ W). simpl. rewrite (sf_rest _ _ _ _ F). done.
  - intros u [->|Hu]%elem_of_cons.
    + destruct (E3 t Ht) as [p E]. rewrite E. destruct (wo_idle _ _ _ _ W) as [I1 I2 I3 I4 I5 I6].
      split_and!; simpl.
      * rewrite (wo_state _ _ _ _ W), HT. done.
      * apply (wo_result _ _ _ _ W).
      * split; rewrite ?E; simpl; try done; rewrite E4; try done;
          intros u Hu [|[|]]; simplify_eq; done.
    + destruct (wo_other _ _ _ _ W u) as [p E]; [by intros ->|]. destruct (E2 u Hu) as (-> & -> & ?).
      rewrite E, HT. done.
  - intros u Hu. destruct (E3 u) as [p E]; [intros ?; apply Hu, elem_of_cons; auto|].
    destruct (wo_other _ _ _ _ W u) as [q E']; [intros ->; apply Hu, elem_of_cons; auto|].
    exists p. rewrite E, E', HT. done.
  - intros n Hn Hr. rewrite E4; [|intros u Hu; apply Hn, elem_of_cons; auto|done].
    apply HL; [apply Hn, elem_of_cons; auto|done].
  - intros n. by rewrite E5, (wo_owner _ _ _ _ W), (sf_owner _ _ _ _ F).
Qed.

Section tick.
Context `{Config} (T : Z) (D : node_addr -> Z) (b : phase).

Lemma wake_expired_spec s V t Q :
  kcore T D s V b (eq t) -> wakeable s t -> node_list s (TimeoutNode t) = None ->
  (delay_wait s t \/ exists o l, object_waiting s t o l) ->
  (forall s' V', kcore T D s' V' b nobody -> woke s s' t (expiry_result (task_at s t)) -> same_quiet V V' -> Q true s') ->
  wp (wake_expired (PNode (TimeoutNode t))) Q s.
Proof.
  intros KC WK HT HW K. pose proof (kc_fixed _ _ _ _ _ _ KC t (wk_registered _ _ WK)) as TX.
  unfold wake_expired. wp_step. wp_step. fold (node_owner s (TimeoutNode t)). rewrite (tx_timeout _ _ TX).
  unfold cast_task; cbn [as_task]. rewrite valid_task by apply TX. cbn [negb].
  rewrite (wk_pending _ _ WK). cbn [negb]. unfold expiry_result in K.
  destruct HW as [[W1 W2 _ _ _]|(o & l & [W1 W2 W3 _ _ _])].
  - rewrite W1, W2 in *. rewrite bool_decide_true in K |- * by done. rewrite bool_neq_false by done.
    wp_step. apply (make_task_ready_spec T D b t s V); [done|done|]. intros f s' V' KC' W _ _ HQ. cbn [fst]. ok_simpl. wp_step.
    by apply (K s' V').
  - assert (Hk : bool_decide (t_wait_kind (task_at s t) = HR_TASK_WAIT_DELAY) = false).
    { apply bool_decide_eq_false. intros E. rewrite E in W1. by destruct o. }
    rewrite Hk in K |- *. rewrite (proj1 (waits_for_kind _ _ _ W1)), W2, W3, !bool_decide_false by done. cbn [orb].
    wp_step. apply (make_task_ready_spec T D b t s V); [done|done|]. intros f s' V' KC' W _ _ HQ. cbn [fst]. ok_simpl. wp_step.
    by apply (K s' V').
Qed.

(** Taking a node out of the scratch list of the tick. *)
Lemma pop_struct s V h t ns :
  kstruct T D s V b -> V !! ExpiredNodes = Some (TimeoutNode t :: ns) ->
  lists_rep h (<[ExpiredNodes := ns]> V) -> link_frame (st_lists (ks_store s)) h (TimeoutNode t) None ->
  let s' := ks_set_store (set_lists h (ks_store s)) s in
  kstruct T D s' (<[ExpiredNodes := ns]> V) b /\ step_frame s s' (TimeoutNode t) None.
Proof.
  intros KS HV Rep LF s'. assert (SF : step_frame s s' (TimeoutNode t) None) by (by apply link_step_frame).
  split; [|done]. apply (kstruct_step T D D s s' V _ b (TimeoutNode t) None KS SF); try done.
  - apply (ready_rep_frame (ks_store s) _ V _ _ (kt_ready _ _ _ _ _ KS)); [done| |done]. intros p. by rewrite lookup_insert_ne.
  - apply (timeout_rep_frame (ks_store s) _ V _ _ T D D b (kt_timeout _ _ _ _ _ KS)); [done| |done].
    intros c. by rewrite lookup_insert_ne.
  - intros TR. apply (timeout_rep_frame (ks_store s) _ V _ _ _ D D _ TR); [done| |done].
    intros c. by rewrite lookup_insert_ne.
  - by rewrite lookup_insert_ne.
  - intros l. apply view_insert_is_Some.
  - by apply (sorted_other T D s V b).
Qed.

Lemma popped_wakeable s s1 V t ns :
  kcore T D s V b nobody -> V !! ExpiredNodes = Some (TimeoutNode t :: ns) ->
  step_frame s s1 (TimeoutNode t) None ->
  wakeable s1 t /\ (delay_wait s1 t \/ exists o l, object_waiting s1 t o l).
Proof.
  intros KC HV F. pose proof (kc_struct _ _ _ _ _ _ KC) as KS. pose proof (sf_task _ _ _ _ F t) as HT.
  assert (Hl : node_list s (TimeoutNode t) = Some ExpiredNodes).
  { apply (kt_member _ _ _ _ _ KS _ _ _ HV), elem_of_cons. by left. }
  assert (Hreg : registered s t) by (by eapply (kt_registered _ _ _ _ _ KS)).
  pose proof (kc_tasks _ _ _ _ _ _ KC t Hreg ltac:(intros [])) as OK.
  destruct (timeout_waits s t _ OK Hl) as (HW & Hp & Hr & Hni).
  assert (HL : forall n, n <> TimeoutNode t -> node_list s1 n = node_list s n).
  { intros n Hn. by rewrite (sf_list _ _ _ _ F), decide_False. }
  assert (HW1 : delay_wait s1 t \/ exists o l, object_waiting s1 t o l).
  { destruct HW as [[[] _]|(o & l & [])]; [left|right; exists o, l]; split; rewrite ?HT, ?HL by done; done. }
  split; [|done]. split; rewrite ?HT, ?HL by done; try done.
  - by apply (sf_registered _ _ _ _ F).
  - destruct HW as [[[] _]|(o & l & [])]; congruence.
  - left. by rewrite (sf_list _ _ _ _ F), decide_True.
  - destruct (task_ok_sync s t OK) as [S1 S2]. split; rewrite ?HT, ?HL by done; done.
Qed.

Lemma expired_task s V n ns : kstruct T D s V b -> V !! ExpiredNodes = Some ns -> n ∈ ns -> exists t, n = TimeoutNode t.
Proof.
  intros KS HV Hn. apply (kt_member _ _ _ _ _ KS _ _ _ HV), (kt_fits _ _ _ _ _ KS) in Hn.
  destruct n; try done. eauto.
Qed.

Lemma part_set_lists (s : kstate) : part_set (st_lists (ks_store s)) s = s.
Proof. by destruct s as [[]]. Qed.

(** The loop over the scratch list: every task in it is woken. *)
Lemma wake_loop_spec fuel : forall s V ts Q,
  kcore T D s V b nobody -> V !! ExpiredNodes = Some (TimeoutNode <$> ts) -> (length ts <= fuel)%nat ->
  (forall s' V', kcore T D s' V' b nobody -> V' !! ExpiredNodes = Some [] -> expired_frame s s' ts ->
     Q true s') ->
  wp (let* node := lift (hr_list_pop_front (Some ExpiredNodes)) in wake_expired_loop fuel node) Q s.
Proof.
  induction fuel as [|fuel IH]; intros s V ts Q KC HV Hf K;
    pose proof (kc_struct _ _ _ _ _ _ KC) as KS; wp_step; wp_step;
    apply (hr_list_pop_front_spec _ V ExpiredNodes _ _ (kt_rep _ _ _ _ _ KS) HV).
  - intros _. cbn [wake_expired_loop]. wp_step. destruct ts; [|simpl in Hf; lia].
    rewrite part_set_lists. by apply (K _ V), expired_frame_nil.
  - intros n ns' h E. destruct ts; [done|simpl in Hf; lia].
  - intros E. cbn [wake_expired_loop]. wp_step. destruct ts; [|done].
    rewrite part_set_lists. by apply (K _ V), expired_frame_nil.
  - intros n ns' h E Rep LF. destruct ts as [|t ts]; [done|]. injection E as <- <-.
    destruct (pop_struct s V h t _ KS HV Rep LF) as [KS1 F1]. set (s1 := ks_set_store _ s) in *.
    assert (KC1 : kcore T D s1 (<[ExpiredNodes := TimeoutNode <$> ts]> V) b (eq t)).
    { apply (kcore_step T D s V b (eq t) (kcore_weaken _ _ _ _ _ _ KC) D s1 _ t _ _ KS1 F1); [unfold node_of; auto|done|links]. }
    destruct (popped_wakeable s s1 V t _ KC HV F1) as [WK HW]. cbn [wake_expired_loop].
    assert (ND : t ∉ ts).
    { pose proof (kt_nodup _ _ _ _ _ KS _ _ HV) as ND. apply NoDup_cons in ND as [ND _]. intros Ht. apply ND.
      apply list_elem_of_fmap. eauto. }
    wp_step. apply (wake_expired_spec s1 _ t _ KC1 WK); [by rewrite (sf_list _ _ _ _ F1), decide_True|done|].
    intros s2 V2 KC2 W HQ. cbn [negb]. apply (IH s2 V2 ts); [done| |simpl in Hf; lia|].
    { rewrite HQ by done. by rewrite lookup_insert_eq. }
    intros s3 V3 KC3 HV3 EF. apply (K s3 V3 KC3 HV3). rewrite (sf_task _ _ _ _ F1) in W.
    by eapply expired_frame_cons.
Qed.

(** ** Moving the due tasks to the scratch list *)

Definition next_half : bool := if decide ((T + 1) / period = T / period) then b else negb b.
(** The timers have not moved yet. *)
Definition next_phase : phase := mk_phase next_half (ph_timers b) (ph_timers_half b) (ph_timers_on b).
Definition due_nodes (V : view) : list node_addr := due D (T + 1) (pending V g_timeout_list b).

Lemma no_expired_view s V : kstruct T D s V b -> no_expired s ->
  V !! ExpiredNodes = None \/ V !! ExpiredNodes = Some [].
Proof.
  intros KS NE. destruct (V !! ExpiredNodes) as [[|n ns]|] eqn:E; [by right| |by left].
  destruct (NE n) as [[] _]. apply (kt_member _ _ _ _ _ KS _ _ _ E), elem_of_cons. by left.
Qed.

Lemma due_pending V n : n ∈ due_nodes V -> n ∈ pending V g_timeout_list b.
Proof. intros Hn. rewrite <- (due_app D (T + 1) (pending V g_timeout_list b)). apply elem_of_app. by left. Qed.

(** The state after the clock moved: the due nodes are in the scratch list. *)
Record advanced (s s' : kstate) (V : view) : Prop := {
  ad_rest : s' = ks_set_store (ks_store s') (ks_set_globals (g_set_kernel_tick (u32 (T + 1)) (ks_globals s)) s);
  ad_list : forall n, node_list s' n = if decide (n ∈ due_nodes V) then Some ExpiredNodes else node_list s n;
  ad_owner : forall n, node_owner s' n = node_owner s n;
  ad_priority : st_priority (ks_store s') = st_priority (ks_store s);
}.

Lemma advanced_kept s s' V n : kstruct T D s V b -> advanced s s' V ->
  (forall t, n <> TimeoutNode t) -> node_list s' n = node_list s n.
Proof.
  intros KS AD Hn. rewrite (ad_list _ _ _ AD). rewrite decide_False; [done|]. intros Hd.
  apply due_pending in Hd. destruct (pending_member _ _ _ _ _ KS _ _ Hd) as [c Hc].
  apply (kt_fits _ _ _ _ _ KS) in Hc. destruct n; try done. by apply (Hn t).
Qed.

Lemma advanced_struct s s' V V' :
  kstruct T D s V b -> advanced s s' V ->
  (timeout_rep (ks_store s) V g_timer_timeouts (ph_timers b) D (ph_timers_half b) ->
   timeout_rep (ks_store s') V' g_timer_timeouts (ph_timers b) D (ph_timers_half b)) ->
  lists_rep (st_lists (ks_store s')) V' -> timeout_rep (ks_store s') V' g_timeout_list (T + 1) D next_half ->
  st_ready (ks_store s') = st_ready (ks_store s) ->
  (forall l, l <> ExpiredNodes -> (forall c, l <> TimeoutHalf g_timeout_list c) -> V' !! l = V !! l) ->
  kstruct (T + 1) D s' V' next_phase.
Proof.
  intros KS AD TM Rep TR HR HV. pose proof (ad_rest _ _ _ AD) as R.
  assert (HL : forall n, (forall t, n <> TimeoutNode t) -> node_list s' n = node_list s n).
  { intros n Hn. by eapply advanced_kept. }
  assert (HP : forall n, priority_at (ks_store s') n = priority_at (ks_store s) n).
  { intros n. unfold priority_at. by rewrite (ad_priority _ _ _ AD). }
  assert (Hreg : forall u, registered s' u <-> registered s u) by (intros u; unfold registered; by rewrite HL).
  assert (HT : forall n, n ∈ due_nodes V -> exists t c, n = TimeoutNode t /\
    node_list s n = Some (TimeoutHalf g_timeout_list c) /\ registered s t).
  { intros n [c Hc]%due_pending%(pending_member _ _ _ _ _ KS). pose proof (kt_fits _ _ _ _ _ KS _ _ Hc) as Hf.
    destruct n as [| |t| | | |]; try done. exists t, c. split_and!; [done|done|]. by eapply (kt_registered _ _ _ _ _ KS). }
  constructor; try done.
  - apply (ready_rep_frame (ks_store s) _ V); [apply KS| | |].
    + unfold ready_at. by rewrite HR.
    + intros p. by apply HV.
    + intros n p _. apply HP.
  - destruct (kt_timers _ _ _ _ _ KS) as [T1 T2 T3]. split; [by rewrite R|auto|rewrite HV; done].
  - intros l Hl. destruct (kt_objects _ _ _ _ _ KS l) as [ns Hns].
    { rewrite R in Hl. destruct l; try done. by apply Hreg. }
    rewrite HV; [eauto|by intros ->|by intros c ->].
  - intros n l. rewrite (ad_list _ _ _ AD), (ad_owner _ _ _ AD). destruct (decide (n ∈ due_nodes V)) as [Hd|]; [|apply KS].
    intros _. destruct (HT n Hd) as (t & c & -> & Hl & _). by eapply KS.
  - intros n l. rewrite (ad_list _ _ _ AD). destruct (decide (n ∈ due_nodes V)) as [Hd|]; [|apply KS].
    intros [= <-]. by destruct (HT n Hd) as (t & c & -> & _).
  - intros n l u. rewrite (ad_list _ _ _ AD), Hreg. destruct (decide (n ∈ due_nodes V)) as [Hd|].
    + destruct (HT n Hd) as (t & c & -> & _ & Hu). by intros _ [= <-].
    + by apply (kt_registered _ _ _ _ _ KS).
  - intros l ns Hw Hns. rewrite HV in Hns by (intros; intros ->; done).
    apply (sorted_by_shift (priority_at (ks_store s)) _ 0); [|by eapply KS]. intros n _. rewrite HP. lia.
  - rewrite HV by done. assert (glob s' = g_set_kernel_tick (u32 (T + 1)) (glob s)) as -> by (by rewrite R). apply KS.
  - intros t Ht%Hreg. rewrite !HP. assert (task_at s' t = task_at s t) as -> by (by rewrite R). by apply KS.
Qed.

Lemma advanced_kcore s s' V V' :
  kcore T D s V b nobody -> advanced s s' V -> kstruct (T + 1) D s' V' next_phase ->
  kcore (T + 1) D s' V' next_phase nobody.
Proof.
  intros KC AD KS'. pose proof (kc_struct _ _ _ _ _ _ KC) as KS. pose proof (ad_rest _ _ _ AD) as R.
  assert (HL : forall n, (forall t, n <> TimeoutNode t) -> node_list s' n = node_list s n).
  { intros n Hn. by eapply advanced_kept. }
  assert (HG : glob s' = g_set_kernel_tick (u32 (T + 1)) (glob s)) by (by rewrite R).
  assert (HT : forall t, task_at s' t = task_at s t) by (intros; by rewrite R).
  assert (HI : forall t, is_Some (node_list s (TimeoutNode t)) -> is_Some (node_list s' (TimeoutNode t))).
  { intros t Ht. rewrite (ad_list _ _ _ AD). case_decide; eauto. }
  assert (HN : forall t, node_list s (TimeoutNode t) = None -> node_list s' (TimeoutNode t) = None).
  { intros t Ht. rewrite (ad_list _ _ _ AD), decide_False; [done|]. intros Hd%due_pending.
    destruct (pending_member _ _ _ _ _ KS _ _ Hd) as [c Hc]. congruence. }
  assert (Hreg : forall u, registered s' u <-> registered s u) by (intros u; unfold registered; by rewrite HL).
  destruct KC as [K1 K2 K3 K4 K5 K6]. split; rewrite ?HG; try done.
  - destruct K3 as [Hi Hg]. split; [by apply Hreg|]. rewrite HG. cbn. destruct (g_kernel_state (glob s)); try done.
    destruct Hg as (c & ? & ? & ?). exists c. by rewrite Hreg.
  - intros u Hu%Hreg. destruct (K4 u Hu). split; rewrite ?HT, ?(ad_owner _ _ _ AD); done.
  - intros u Hu%Hreg HX. destruct (K5 u Hu HX) as [Hs Hi].
    assert (HW : waiting s u -> waiting s' u).
    { intros [[[] Ht]|(o & l & [])]; [left|right; exists o, l]; [split; [split|]|split]; rewrite ?HT, ?HL by done; auto. }
    assert (HID : idle_wait s u -> idle_wait s' u).
    { intros []. split; rewrite ?HT, ?HL by done; auto. }
    split; [|rewrite HL by done; done]. unfold state_ok in *. rewrite HT, HL, HG by done. cbn.
    destruct (t_state (task_at s u)); try done; [naive_solver..|].
    destruct Hs as [? Hs]. split; [done|]. destruct (t_suspended_resume_state (task_at s u)); auto.
  - apply (objects_frame s); try (by rewrite R); try done.
    + intros n l Hl Hn. left. rewrite <- Hn. symmetry. apply HL. intros t ->.
      apply (kt_fits _ _ _ _ _ KS') in Hn. by destruct l.
    + intros m Hm. apply HL. by intros t ->.
    + intros m _. apply (ad_owner _ _ _ AD).
Qed.

(** The first part of the tick: the clock and the scratch list. *)
Lemma advance_spec s V Q :
  kcore T D s V b nobody -> no_expired s ->
  (forall s' V', kcore (T + 1) D s' V' next_phase nobody -> advanced s s' V ->
     V' !! ExpiredNodes = Some (due_nodes V) ->
     pending V' g_timeout_list next_half = not_due D (T + 1) (pending V g_timeout_list b) -> Q HR_OK s') ->
  wp (upd_globals (fun g => g_set_kernel_tick (u32 (g_kernel_tick g + 1)) g)) (fun _ s0 =>
    wp (lift (hr_list_init (Some ExpiredNodes))) (fun _ s1 =>
      wp (lift (hr_timeout_list_advance (Some g_timeout_list) (g_kernel_tick (glob s1)) (Some ExpiredNodes))) Q s1) s0) s.
Proof.
  intros KC NE K. pose proof (kc_struct _ _ _ _ _ _ KC) as KS. unfold upd_globals. wp_step.
  rewrite (kc_tick _ _ _ _ _ _ KC : g_kernel_tick (ks_globals s) = u32 T), u32_tick.
  wp_step. eapply wp_intro; [apply init_run|]. wp_step.
  set (V1 := <[ExpiredNodes := []]> V). set (st1 := set_lists (inited (st_lists (ks_store s)) ExpiredNodes) (ks_store s)).
  change (g_kernel_tick (glob _)) with (u32 (T + 1)).
  assert (Rep1 : lists_rep (st_lists st1) V1) by (apply rep_inited; [apply KS|by eapply no_expired_view]).
  assert (HH : forall c, V1 !! TimeoutHalf g_timeout_list c = V !! TimeoutHalf g_timeout_list c).
  { intros c. unfold V1. by rewrite lookup_insert_ne. }
  assert (TR1 : timeout_rep st1 V1 g_timeout_list T D b).
  { by apply (timeout_rep_frame (ks_store s) _ V _ _ T D D b (kt_timeout _ _ _ _ _ KS)). }
  assert (HP : pending V1 g_timeout_list b = pending V g_timeout_list b).
  { unfold pending, half. by rewrite !HH. }
  apply (timeout_advance_spec st1 V1 g_timeout_list T D b TR1 ExpiredNodes); [done|apply lookup_insert_eq|done|].
  intros st' V' EV Rep TR EP MF HW [F1 F2 F3]. rewrite HP in *. fold next_half in EV, TR, EP. fold (due_nodes V) in EV, MF.
  match goal with |- Q HR_OK ?x => set (s' := x) end.
  assert (AD : advanced s s' V).
  { split; try done.
    - intros n. unfold node_list, s'; simpl. rewrite (mf_list _ _ _ _ MF). simpl. rewrite inited_node.
      rewrite (decide_ext (PNode n ∈ PNode <$> due_nodes V) (n ∈ due_nodes V)); [done|].
      rewrite list_elem_of_fmap. split; [by intros (m & [= ->] & ?)|eauto].
    - intros n. unfold node_owner, s'; simpl. rewrite (mf_owner _ _ _ _ MF). simpl. by rewrite inited_node. }
  apply (K s' V'); try done.
  - apply (advanced_kcore s s' V V' KC AD). apply (advanced_struct s s' V V' KS AD); try done.
    { intros TM. apply (timeout_rep_frame (ks_store s) _ V _ _ _ D D _ TM); [by apply F3| |].
      - intros c. rewrite EV. unfold V1. by rewrite !lookup_insert_ne.
      - intros n _. unfold wake_at. simpl. by rewrite HW. }
    intros l H1 H2. rewrite EV. unfold V1. rewrite !lookup_insert_ne by (try done; intros E; by apply (H2 next_half)). done.
  - rewrite EV. apply lookup_insert_eq.
Qed.
End tick.

(** ** The accounting of the running task *)
Section charge.
Context `{Config} (T : Z) (D : node_addr -> Z) (b : phase).

Definition preempted (s : kstate) (t : task_ptr) : bool :=
  HR_CFG_PREEMPTION && hr_scheduler_should_preempt (ks_store s) (Some g_scheduler) (Some (ReadyNode t)).
Definition has_peer (s : kstate) (t : task_ptr) : bool :=
  hr_scheduler_has_equal_priority_peer (ks_store s) (Some g_scheduler) (Some (ReadyNode t)).
Definition slice_left (c : hr_task_control_block_t) : Z :=
  if 0 <? t_time_slice_remaining c then u32 (t_time_slice_remaining c - 1) else t_time_slice_remaining c.
Definition slice_over (s : kstate) (t : task_ptr) : bool :=
  HR_CFG_TIME_SLICING && has_peer s t && (slice_left (task_at s t) =? 0).

(** What the accounting changes, when a switch is already required ([sw]) or not. *)
Record charged (sw : bool) (s s' : kstate) (t : task_ptr) : Prop := {
  cg_store : ks_store s' = ks_store s;
  cg_other : forall u, u <> t -> task_at s' u = task_at s u;
  cg_task : cosmetic (task_at s' t) (task_at s t);
  cg_result : t_wait_result (task_at s' t) = t_wait_result (task_at s t);
  cg_runtime : t_runtime_counter (task_at s' t) = u32 (t_runtime_counter (task_at s t) + 1);
  cg_slice : t_time_slice_remaining (task_at s' t) =
    if preempted s t || sw || negb HR_CFG_TIME_SLICING then t_time_slice_remaining (task_at s t)
    else if has_peer s t && negb (slice_left (task_at s t) =? 0) then slice_left (task_at s t)
    else HR_CFG_TIME_SLICE_TICKS;
  cg_rest : exists r, s' = ks_set_globals (g_set_switch_reasons r (ks_globals s)) (set_task t (task_at s' t) s);
  cg_reasons : g_switch_reasons (glob s') =
    if preempted s t then Z.lor (g_switch_reasons (glob s)) HR_SWITCH_REASON_PREEMPT
    else if negb sw && slice_over s t then Z.lor (g_switch_reasons (glob s)) HR_SWITCH_REASON_TIME_SLICE
    else g_switch_reasons (glob s);
}.

Definition charge_fields (left : Z) (c : hr_task_control_block_t) : hr_task_control_block_t :=
  t_set_time_slice_remaining left (t_set_runtime_counter (u32 (t_runtime_counter c + 1)) c).

Lemma charged_set sw s t left :
  left = (if preempted s t || sw || negb HR_CFG_TIME_SLICING then t_time_slice_remaining (task_at s t)
    else if has_peer s t && negb (slice_left (task_at s t) =? 0) then slice_left (task_at s t)
    else HR_CFG_TIME_SLICE_TICKS) ->
  let s1 := set_task t (charge_fields left (task_at s t)) s in
  charged sw s (if preempted s t then marked HR_SWITCH_REASON_PREEMPT s1
             else if negb sw && slice_over s t then marked HR_SWITCH_REASON_TIME_SLICE s1 else s1) t.
Proof.
  intros Hl s1. set (s' := if preempted s t then _ else _).
  assert (HC : s' = marked HR_SWITCH_REASON_PREEMPT s1 /\ preempted s t = true \/
    s' = marked HR_SWITCH_REASON_TIME_SLICE s1 /\ preempted s t = false /\ negb sw && slice_over s t = true \/
    s' = s1 /\ preempted s t = false /\ negb sw && slice_over s t = false).
  { unfold s'. destruct (preempted s t), (negb sw && slice_over s t); auto. }
  assert (HT : forall u, task_at s' u = if decide (t = u) then charge_fields left (task_at s t) else task_at s u).
  { intros u. destruct HC as [[-> _]|[[-> _]|[-> _]]]; apply (task_at_set_task t _ s). }
  assert (HE : task_at s' t = charge_fields left (task_at s t)) by (by rewrite HT, decide_True).
  split; rewrite ?HE; try done.
  - by destruct HC as [[-> _]|[[-> _]|[-> _]]].
  - intros u Hu. by rewrite HT, decide_False by congruence.
  - destruct HC as [[-> _]|[[-> _]|[-> _]]]; eexists; try done.
    unfold s1, set_task. instantiate (1 := g_switch_reasons (ks_globals s)). by destruct s as [? ? ? ? ? ? [] ?].
  - by destruct HC as [[-> ->]|[(-> & -> & ->)|(-> & -> & ->)]].
Qed.

Lemma charge_spec sw s t Q :
  (forall s', charged sw s s' t -> Q (preempted s t || sw || slice_over s t) s') ->
  wp (charge_running t sw) Q s.
Proof.
  intros K. unfold charge_running, hr_kernel_reload_time_slice. wp_step. apply wp_upd_task. wp_step. wp_step. wp_step.
  set (c1 := t_set_runtime_counter _ _). set (s1 := set_task t c1 s). fold (preempted s1 t).
  change (preempted s1 t) with (preempted s t).
  pose proof (charged_set sw s t) as C. unfold slice_over in *. destruct (preempted s t).
  { specialize (C _ eq_refl). wp_step. apply mark_reason_spec. wp_step. rewrite andb_false_r. wp_step. apply K.
    unfold charge_fields in C. by destruct (task_at s t). }
  wp_step. destruct sw; cbn [negb orb andb] in *.
  { rewrite andb_false_r. wp_step. specialize (C _ eq_refl). apply K. unfold charge_fields in C. by destruct (task_at s t). }
  destruct HR_CFG_TIME_SLICING; cbn [negb andb orb] in *.
  2: { wp_step. specialize (C _ eq_refl). apply K. unfold charge_fields in C. by destruct (task_at s t). }
  wp_step. wp_step. fold (has_peer s1 t). change (has_peer s1 t) with (has_peer s t).
  destruct (has_peer s t); cbn [andb] in *.
  2: { wp_step. apply wp_upd_task. wp_step. specialize (C _ eq_refl).
       unfold s1. rewrite set_task_twice, task_at_set_eq. by apply K. }
  wp_step. apply (wp_mono _ (fun _ s2 => s2 = set_task t (charge_fields (slice_left (task_at s t)) (task_at s t)) s)).
  { unfold s1, slice_left. rewrite task_at_set_eq. change (t_time_slice_remaining c1) with (t_time_slice_remaining (task_at s t)).
    destruct (0 <? t_time_slice_remaining (task_at s t)).
    - apply wp_upd_task. by rewrite set_task_twice, task_at_set_eq.
    - wp_step. unfold charge_fields, c1. by destruct (task_at s t). }
  intros [] s2 ->. wp_step. wp_step. rewrite task_at_set_eq. cbn [charge_fields t_time_slice_remaining t_set_time_slice_remaining].
  destruct (slice_left (task_at s t) =? 0); cbn [negb] in *.
  - wp_step. apply wp_upd_task. wp_step. apply mark_reason_spec. wp_step.
    rewrite set_task_twice, task_at_set_eq. specialize (C _ eq_refl). by apply K.
  - wp_step. specialize (C _ eq_refl). by apply K.
Qed.

Lemma kcore_charged_at T' D' b' sw s s' V t : kcore T' D' s V b' nobody -> charged sw s s' t -> kcore T' D' s' V b' nobody.
Proof.
  intros KC [_ _ C3 _ _ _ (r & E) _]. rewrite E.
  apply (kcore_globals T' D' (set_task t (task_at s' t) s)); [by apply kcore_cosmetic|by intros g].
Qed.

(** ** The tick *)

(** The tasks of a list of timeout nodes. *)
Definition node_tasks (ns : list node_addr) : list task_ptr :=
  omap (fun n => match n with TimeoutNode t => Some t | _ => None end) ns.

Lemma node_tasks_fmap ns : (forall n, n ∈ ns -> exists t, n = TimeoutNode t) -> TimeoutNode <$> node_tasks ns = ns.
Proof.
  induction ns as [|n ns IH]; intros Hn; [done|]. destruct (Hn n) as [t ->]; [by apply elem_of_cons; left|].
  simpl. f_equal. apply IH. intros m Hm. apply Hn, elem_of_cons. by right.
Qed.

(** The tasks whose deadline is the next tick or before it. *)
Definition due_tasks (V : view) : list task_ptr := node_tasks (due_nodes T D b V).

Lemma due_tasks_nodes s V : kstruct T D s V b -> TimeoutNode <$> due_tasks V = due_nodes T D b V.
Proof.
  intros KS. apply node_tasks_fmap. intros n Hn. apply due_pending in Hn.
  destruct (pending_member _ _ _ _ _ KS _ _ Hn) as [c Hc]. apply (kt_fits _ _ _ _ _ KS) in Hc. destruct n; try done. eauto.
Qed.

(** Between kernel calls a timeout node is linked into one of the two halves. *)
Lemma timeout_linked_half T' D' s V b' t l : kstruct T' D' s V b' -> no_expired s ->
  node_list s (TimeoutNode t) = Some l -> exists c, node_list s (TimeoutNode t) = Some (TimeoutHalf g_timeout_list c).
Proof.
  intros KS NE Hl. pose proof (kt_fits _ _ _ _ _ KS _ _ Hl) as Hf. destruct l; try done.
  - simpl in Hf. subst. eauto.
  - by destruct (NE (TimeoutNode t)) as [[] _].
Qed.

(** A task is due exactly when it waits with a deadline that the next tick reaches. *)
Lemma due_tasks_iff s V t : kstruct T D s V b ->
  t ∈ due_tasks V <-> (exists c, node_list s (TimeoutNode t) = Some (TimeoutHalf g_timeout_list c)) /\ D (TimeoutNode t) <= T + 1.
Proof.
  intros KS. assert (E : t ∈ due_tasks V <-> TimeoutNode t ∈ due_nodes T D b V).
  { rewrite <- (due_tasks_nodes s V KS), list_elem_of_fmap. split; [eauto|]. by intros (u & [= ->] & ?). }
  rewrite E. unfold due_nodes. rewrite (proj1 (due_spec D (T + 1) _ (tr_sorted _ _ _ _ _ _ (kt_timeout _ _ _ _ _ KS)))).
  apply and_iff_compat_r. split; [apply (pending_member _ _ _ _ _ KS)|]. intros [c Hc].
  destruct (kt_linked _ _ _ _ _ KS _ _ Hc) as (xs & ys & HV). apply (half_pending V g_timeout_list b c).
  unfold half. rewrite HV. simpl. apply elem_of_app. right. by apply elem_of_cons; left.
Qed.

(** The state of the tasks after the tick: [ts] were due, [ws] is the task the timers'
    signal woke, if any. *)
Record ticked (s s' : kstate) (ts ws : list task_ptr) : Prop := {
  tk_tick : g_kernel_tick (glob s') = u32 (T + 1);
  tk_kernel : g_kernel_state (glob s') = g_kernel_state (glob s);
  tk_current : g_current_task (glob s') = g_current_task (glob s);
  tk_timers : g_timer_system_initialized (glob s') = g_timer_system_initialized (glob s);
  tk_woken : forall t, t ∈ ts -> t_state (task_at s' t) = woken_state (task_at s t) /\
    t_wait_result (task_at s' t) = expiry_result (task_at s t) /\ idle_wait s' t;
  tk_signalled : forall t, t ∈ ws -> (t ∉ ts) /\ node_list s (WaitNode t) = Some (SemaphoreWaiters g_timer_signal) /\
    t_state (task_at s' t) = woken_state (task_at s t) /\ t_wait_result (task_at s' t) = HR_OK /\ idle_wait s' t;
  tk_other : forall u, u ∉ ts -> u ∉ ws -> t_state (task_at s' u) = t_state (task_at s u) /\
    t_wait_result (task_at s' u) = t_wait_result (task_at s u) /\ same_wait (task_at s' u) (task_at s u);
  tk_registered : forall u, registered s' u <-> registered s u;
  tk_runtime : forall t, g_current_task (glob s) = Some t -> t_state (task_at s t) = HR_TASK_STATE_RUNNING ->
    t_runtime_counter (task_at s' t) = u32 (t_runtime_counter (task_at s t) + 1);
}.

(** The timers after the tick: [xs] were due. *)
Record fired (s s' : kstate) (D' : node_addr -> Z) (xs : list timer_ptr) : Prop := {
  fd_due : forall x, x ∈ xs <-> timer_valid s x /\ tm_active (timer_at s x) = true /\ D (TimerTimeoutNode x) <= T + 1;
  fd_expired : forall x, x ∈ xs -> timer_at s' x = expired_block (timer_at s x);
  fd_other : forall x, x ∉ xs -> timer_at s' x = timer_at s x;
  fd_rearmed : forall x, x ∈ xs -> tm_auto_reload (timer_at s x) = true ->
    D' (TimerTimeoutNode x) = T + 1 + tm_period_ticks (timer_at s x);
  fd_deadline : forall n, (forall x, x ∈ xs -> n <> TimerTimeoutNode x) -> D' n = D n;
}.

(** The signal of the timers, in the interrupt: it wakes the task that waits for it alone,
    [ts] being woken by their timeouts, or is counted. *)
Definition awaits_signal (s : kstate) (t : task_ptr) : Prop := node_list s (WaitNode t) = Some (SemaphoreWaiters g_timer_signal).
Record summoned (s s' : kstate) (ts ws : list task_ptr) : Prop := {
  su_woken : forall t, t ∉ ts -> awaits_signal s t -> (forall u, awaits_signal s u -> u = t) -> t ∈ ws;
  su_counted : (forall u, ~ awaits_signal s u) ->
    sem_count (sem_at s' g_timer_signal) = Z.min (sem_count (sem_at s g_timer_signal) + 1) (sem_max_count (sem_at s g_timer_signal));
}.

(** The end of the tick: the running task is charged, a switch may be requested. *)
Definition closed (s3 s' : kstate) : Prop :=
  exists s4, (s4 = s3 /\ (forall t, g_current_task (glob s3) = Some t -> t_state (task_at s3 t) <> HR_TASK_STATE_RUNNING) \/
              exists sw c, g_current_task (glob s3) = Some c /\ charged sw s3 s4 c) /\
    (s' = s4 \/ s' = pend s4).

Lemma closed_frame s3 s' : closed s3 s' ->
  (exists r, glob s' = g_set_switch_reasons r (glob s3)) /\ (forall n, node_list s' n = node_list s3 n) /\
  (forall u, cosmetic (task_at s' u) (task_at s3 u) /\ t_wait_result (task_at s' u) = t_wait_result (task_at s3 u)) /\
  (forall x, timer_at s' x = timer_at s3 x) /\
  (forall t, g_current_task (glob s3) = Some t -> t_state (task_at s3 t) = HR_TASK_STATE_RUNNING ->
     t_runtime_counter (task_at s' t) = u32 (t_runtime_counter (task_at s3 t) + 1)).
Proof.
  intros (s4 & HC & HP).
  assert (HE : glob s' = glob s4 /\ (forall u, task_at s' u = task_at s4 u) /\ (forall n, node_list s' n = node_list s4 n) /\
    forall x, timer_at s' x = timer_at s4 x) by (destruct HP as [-> | ->]; done).
  destruct HE as (HGe & HTe & HLe & HXe). rewrite HGe. destruct HC as [[-> Hn]|(sw & c & Hc & C)].
  - split_and!; [exists (g_switch_reasons (glob s3)); by destruct (glob s3)|done| |done|].
    + intros u. by rewrite HTe.
    + intros t Ht Hr. by destruct (Hn t Ht).
  - destruct (cg_rest _ _ _ _ C) as [r E]. split_and!.
    + exists r. by rewrite E.
    + intros n. rewrite HLe. unfold node_list. by rewrite (cg_store _ _ _ _ C).
    + intros u. rewrite HTe. destruct (decide (u = c)) as [->|Hne]; [split; apply C|by rewrite (cg_other _ _ _ _ C)].
    + intros x. rewrite HXe, E. done.
    + intros t Ht _. assert (t = c) as -> by congruence. rewrite HTe. apply (cg_runtime _ _ _ _ C).
Qed.

Section compose.
Context (s s1 s2 s3 s' : kstate) (V V2 : view) (D' : node_addr -> Z).
Let xs := firing D (next_phase T b) s2 V2.
Let ns := default [] (V2 !! SemaphoreWaiters g_timer_signal).
Let ws := woken_service (hr_port_is_inside_isr s2) xs ns.
Hypotheses (KC : kcore T D s V b nobody) (AD : advanced T D b s s1 V) (EF : expired_frame s1 s2 (due_tasks V))
  (KC2 : kcore (T + 1) D s2 V2 (next_phase T b) nobody)
  (TP : timer_part D (next_phase T b) s2 s3 D' xs ns) (CL : closed s3 s').

Lemma service_waits t : t ∈ ws -> node_list s2 (WaitNode t) = Some (SemaphoreWaiters g_timer_signal).
Proof.
  unfold ws, woken_service. destruct xs; [by intros ?%elem_of_nil|].
  unfold ns. destruct (V2 !! SemaphoreWaiters g_timer_signal) as [ks|] eqn:E; simpl; [|by intros ?%elem_of_nil].
  destruct ks as [|[] ks]; try (by intros ?%elem_of_nil). destruct (hr_port_is_inside_isr s2); [|by intros ?%elem_of_nil].
  intros ->%list_elem_of_singleton. apply (kt_member _ _ _ _ _ (kc_struct _ _ _ _ _ _ KC2) _ _ _ E), elem_of_cons. by left.
Qed.

Lemma task_2 u : u ∉ due_tasks V -> exists p, task_at s2 u = t_set_effective_priority p (task_at s u).
Proof.
  intros Hu. destruct (ef_other _ _ _ EF u Hu) as [p E]. exists p. rewrite E. by rewrite (ad_rest _ _ _ _ _ _ AD).
Qed.
Lemma list_2 n : (forall t, n <> TimeoutNode t) -> (forall u, n <> ReadyNode u) -> (forall t, t ∈ due_tasks V -> n <> WaitNode t) ->
  node_list s2 n = node_list s n.
Proof.
  intros H1 H2 H3. rewrite (ef_list _ _ _ EF); [|intros t Ht [->|[->| ->]]; [by destruct (H2 t)|by destruct (H3 t)|by destruct (H1 t)]|done].
  by rewrite (advanced_kept T D b s s1 V _ (kc_struct _ _ _ _ _ _ KC) AD).
Qed.

Lemma signalled_due t : t ∈ ws -> t ∉ due_tasks V.
Proof.
  intros Hw Ht. destruct (ef_woken _ _ _ EF t Ht) as (_ & _ & IW). pose proof (service_waits t Hw) as E.
  rewrite (iw_wait _ _ IW) in E. done.
Qed.

Lemma ticked_compose : ticked s s' (due_tasks V) ws.
Proof.
  destruct (closed_frame s3 s' CL) as ([r HG] & HL & HT & _ & HR). pose proof (ad_rest _ _ _ _ _ _ AD) as R1.
  assert (HG2 : glob s2 = g_set_kernel_tick (u32 (T + 1)) (glob s)) by (rewrite (ef_rest _ _ _ EF), R1; done).
  assert (HT1 : forall u, task_at s1 u = task_at s u) by (intros; by rewrite R1).
  assert (HID : forall t, idle_wait s3 t -> idle_wait s' t).
  { intros t []. destruct (HT t) as [(_ & _ & (C2 & C3 & C4 & C5 & _) & _) _]. split; rewrite ?C2, ?C3, ?C4, ?C5, ?HL; done. }
  rewrite (tp_glob _ _ _ _ _ _ _ TP), HG2 in HG. split; rewrite ?HG; try done.
  - intros t Ht. destruct (HT t) as [(C1 & _) C6]. destruct (ef_woken _ _ _ EF t Ht) as (W1 & W2 & W3).
    assert (Hw : t ∉ ws) by (intros Hw; by apply (signalled_due t)).
    destruct (tp_task _ _ _ _ _ _ _ TP t Hw) as [p E]. rewrite C1, C6, E. rewrite HT1 in W1, W2. split_and!; [done|done|].
    apply HID. destruct W3. split; rewrite ?E; try done; (rewrite (tp_list _ _ _ _ _ _ _ TP); [done| |done|by intros x [|]]);
      intros u Hu [|[|]]; simplify_eq; done.
  - intros t Hw. pose proof (signalled_due t Hw) as Ht. destruct (task_2 t Ht) as [p E].
    destruct (HT t) as [(C1 & _) C6]. destruct (tp_woken _ _ _ _ _ _ _ TP t Hw) as (W1 & W2 & W3).
    split_and!; [done| |by rewrite C1, W1, E|by rewrite C6|by apply HID].
    rewrite <- (service_waits t Hw). symmetry. apply list_2; try done. intros u Hu [= ->]. done.
  - intros u Ht Hw. destruct (HT u) as [(C1 & _ & C2 & _) C6]. destruct (task_2 u Ht) as [p E].
    destruct (tp_task _ _ _ _ _ _ _ TP u Hw) as [q E']. rewrite C1, C6. unfold same_wait in *. rewrite E', E in *. done.
  - intros u. unfold registered. rewrite HL, (tp_list _ _ _ _ _ _ _ TP), list_2; try done; [by intros t _ [|[]]|by intros x [|]].
  - intros t Hc Hst.
    assert (Hreg : registered s t).
    { destruct (kc_globals _ _ _ _ _ _ KC) as [_ Hg]. destruct (g_kernel_state (glob s)); try done; [congruence|].
      destruct Hg as (c & Ec & _ & Hc'). rewrite Hc in Ec. by injection Ec as <-. }
    pose proof (to_state _ _ (kc_tasks _ _ _ _ _ _ KC t Hreg ltac:(intros []))) as Hs. unfold state_ok in Hs.
    rewrite Hst in Hs. destruct Hs as (_ & [_ _ _ _ I5 I6] & _).
    assert (Ht : t ∉ due_tasks V).
    { intros [[c Hl] _]%(due_tasks_iff s V t (kc_struct _ _ _ _ _ _ KC)). congruence. }
    assert (Hw : t ∉ ws).
    { intros Hw. pose proof (service_waits t Hw) as E. rewrite list_2 in E; try done; [congruence|]. intros u Hu [= ->]. done. }
    destruct (task_2 t Ht) as [p E]. destruct (tp_task _ _ _ _ _ _ _ TP t Hw) as [q E'].
    rewrite HR, E', E; [done|rewrite (tp_glob _ _ _ _ _ _ _ TP), HG2; done|by rewrite E', E].
Qed.

Lemma fired_compose : ph_timers b = T -> no_expired s -> fired s s' D' xs.
Proof.
  intros HPT NE. destruct (closed_frame s3 s' CL) as (_ & _ & _ & HX & _).
  assert (HT2 : forall x, timer_at s2 x = timer_at s x) by (intros; rewrite (ef_rest _ _ _ EF), (ad_rest _ _ _ _ _ _ AD); done).
  assert (HI2 : g_timer_system_initialized (glob s2) = g_timer_system_initialized (glob s))
    by (rewrite (ef_rest _ _ _ EF), (ad_rest _ _ _ _ _ _ AD); done).
  assert (HE : ph_timers (next_phase T b) + 1 = T + 1) by (simpl; lia).
  split.
  - intros x. pose proof (active_linked T D b s V x KC NE) as Ha.
    destruct (ob_timers _ (kc_objects _ _ _ _ _ _ KC) x) as [T1 T2 T3 T4 T5 T6 T7].
    unfold xs, firing. destruct (g_timer_system_initialized (glob s2)) eqn:Hi.
    + rewrite (due_timers_iff (T + 1) D (next_phase T b) s2 V2 x (kc_struct _ _ _ _ _ _ KC2) Hi), HE, list_2 by done.
      split.
      * intros [[c Hc] Hd]. assert (Hx : timer_valid s x) by (apply T1; left; eauto). split_and!; [done| |done]. apply T3; eauto.
      * intros (Hx & Hac & Hd). split; [|done]. specialize (Ha Hx). by rewrite Hac in Ha.
    + rewrite elem_of_nil. split; [done|]. intros (Hx & _). rewrite (T7 Hx) in HI2. congruence.
  - intros x Hx. rewrite HX, (tp_expired _ _ _ _ _ _ _ TP x Hx), HT2. done.
  - intros x Hx. rewrite HX, (tp_timer _ _ _ _ _ _ _ TP x Hx), HT2. done.
  - intros x Hx Har. rewrite (tp_rearmed _ _ _ _ _ _ _ TP x Hx), HT2; [simpl; lia|by rewrite HT2].
  - apply (tp_deadline _ _ _ _ _ _ _ TP).
Qed.

Lemma signal_list : xs <> [] -> exists ks, V2 !! SemaphoreWaiters g_timer_signal = Some ks.
Proof.
  intros Hx. destruct (g_timer_system_initialized (glob s2)) eqn:Hi; [|unfold xs, firing in Hx; by rewrite Hi in Hx].
  apply (kt_objects _ _ _ _ _ (kc_struct _ _ _ _ _ _ KC2)). by apply (ob_signal _ (kc_objects _ _ _ _ _ _ KC2)).
Qed.

(** The waiters for the signal after the timeouts. *)
Lemma signal_waiter n ks : V2 !! SemaphoreWaiters g_timer_signal = Some ks -> n ∈ ks ->
  exists u, n = WaitNode u /\ awaits_signal s u.
Proof.
  intros E Hn. apply (kt_member _ _ _ _ _ (kc_struct _ _ _ _ _ _ KC2) _ _ _ E) in Hn.
  pose proof (kt_fits _ _ _ _ _ (kc_struct _ _ _ _ _ _ KC2) _ _ Hn) as Hf. destruct n as [|u| | | | |]; try done.
  exists u. split; [done|]. unfold awaits_signal. rewrite <- Hn. symmetry. apply list_2; try done.
  intros t Ht [= ->]. destruct (ef_woken _ _ _ EF t Ht) as (_ & _ & IW). by rewrite (iw_wait _ _ IW) in Hn.
Qed.

Lemma summoned_compose : hr_port_is_inside_isr s = true -> xs <> [] -> summoned s s' (due_tasks V) ws.
Proof.
  intros Hisr Hx. destruct (signal_list Hx) as [ks E].
  assert (R2 : hr_port_is_inside_isr s2 = true /\ sem_at s2 g_timer_signal = sem_at s g_timer_signal).
  { unfold hr_port_is_inside_isr, sem_at. rewrite (ef_rest _ _ _ EF), (ad_rest _ _ _ _ _ _ AD). done. }
  destruct R2 as [HP2 HS2]. split.
  - intros t Ht Ha Hall. unfold ws, woken_service, ns. rewrite E, HP2. cbn [default from_option]. unfold id. destruct xs; [done|].
    assert (Hin : WaitNode t ∈ ks).
    { apply (kt_member _ _ _ _ _ (kc_struct _ _ _ _ _ _ KC2) _ _ _ E). rewrite <- Ha. apply list_2; try done. intros u Hu [= ->]. done. }
    destruct ks as [|k ks]; [by apply elem_of_nil in Hin|].
    destruct (signal_waiter k (k :: ks) E) as (u & -> & Hu); [by left|]. rewrite (Hall u Hu). by left.
  - intros Hno. assert (ks = []) as ->.
    { destruct ks as [|k ks]; [done|]. destruct (signal_waiter k (k :: ks) E) as (u & _ & Hu); [by left|]. by destruct (Hno u). }
    assert (HSC : sem_at s' g_timer_signal = sem_at s3 g_timer_signal).
    { destruct CL as (s4 & HC & HP). assert (sem_at s' g_timer_signal = sem_at s4 g_timer_signal) as -> by (destruct HP as [-> | ->]; done).
      destruct HC as [[-> _]|(sw & c & _ & C)]; [done|]. destruct (cg_rest _ _ _ _ C) as [r Er]. by rewrite Er. }
    rewrite HSC, (tp_count _ _ _ _ _ _ _ TP). unfold ns. rewrite E, HP2, HS2. unfold signal_count. by destruct xs.
Qed.
End compose.

Lemma expired_empty s s1 s2 V V2 :
  kstruct T D s V b -> no_expired s -> advanced T D b s s1 V -> expired_frame s1 s2 (due_tasks V) ->
  kstruct (T + 1) D s2 V2 (next_phase T b) -> V2 !! ExpiredNodes = Some [] -> no_expired s2.
Proof.
  intros KS NE AD EF KS2 HV n. split.
  - intros Hn. apply (kt_member _ _ _ _ _ KS2 _ _ _ HV) in Hn. by apply elem_of_nil in Hn.
  - intros Hn. pose proof (kt_fits _ _ _ _ _ KS2 _ _ Hn) as Hf. destruct n as [| | | | |x|]; try done.
    rewrite (ef_list _ _ _ EF) in Hn; [|by intros t _ [|[|]]|done].
    rewrite (advanced_kept T D b s s1 V) in Hn by done. by destruct (NE (TimerTimeoutNode x)).
Qed.

(** The end of the tick. *)
Lemma close_spec D' b' s3 V3 sw t (Q : unit -> kstate -> Prop) :
  kcore (T + 1) D' s3 V3 b' nobody -> no_expired s3 -> g_current_task (glob s3) = Some t ->
  (forall s', kcore (T + 1) D' s' V3 b' nobody -> no_expired s' -> closed s3 s' -> Q tt s') ->
  wp (let* switch_required :=
        (if bool_decide (t_state (task_at s3 t) = HR_TASK_STATE_RUNNING) then charge_running t sw else retM sw) in
      hr_port_yield_from_isr switch_required) Q s3.
Proof.
  intros KC NE Hc K.
  assert (KP : forall r s4, kcore (T + 1) D' s4 V3 b' nobody -> no_expired s4 ->
    (s4 = s3 /\ (forall u, g_current_task (glob s3) = Some u -> t_state (task_at s3 u) <> HR_TASK_STATE_RUNNING) \/
     exists sw c, g_current_task (glob s3) = Some c /\ charged sw s3 s4 c) -> wp (hr_port_yield_from_isr r) Q s4).
  { intros r s4 KC4 NE4 HC. unfold hr_port_yield_from_isr, hr_port_request_context_switch, upd_port. destruct r; wp_step.
    - apply (K (pend s4)); [by apply kcore_port|done|]. exists s4. auto.
    - apply (K s4); [done|done|]. exists s4. auto. }
  wp_step. destruct (decide (t_state (task_at s3 t) = HR_TASK_STATE_RUNNING)) as [Est|Est].
  - rewrite bool_decide_true by done. apply charge_spec. intros s4 C. apply KP; [| |eauto].
    + by eapply (kcore_charged_at (T + 1) D' b').
    + intros n. unfold node_list. rewrite (cg_store _ _ _ _ C). apply NE.
  - rewrite bool_decide_false by done. wp_step. apply KP; [done|done|left]. split; [done|]. intros u Hu. congruence.
Qed.

Lemma tick_spec s V Q :
  kcore T D s V b nobody -> no_expired s -> ph_timers b = T -> g_kernel_state (glob s) = HR_KERNEL_STATE_RUNNING ->
  (forall D' b' s' V' ws xs, kcore (T + 1) D' s' V' b' nobody -> ph_timers b' = T + 1 -> no_expired s' ->
     ticked s s' (due_tasks V) ws -> fired s s' D' xs -> (xs = [] -> ws = []) ->
     (hr_port_is_inside_isr s = true -> xs <> [] -> summoned s s' (due_tasks V) ws) -> Q tt s') ->
  wp hr_kernel_tick_from_isr Q s.
Proof.
  intros KC NE HPT HK K. pose proof (kc_struct _ _ _ _ _ _ KC) as KS.
  unfold hr_kernel_tick_from_isr. wp_step. wp_step. rewrite bool_neq_false by done.
  apply wp_bind. eapply wp_mono; [apply (advance_spec T D b s V (fun st s1 => st = HR_OK /\ exists V1,
    kcore (T + 1) D s1 V1 (next_phase T b) nobody /\ advanced T D b s s1 V /\
    V1 !! ExpiredNodes = Some (due_nodes T D b V)) KC NE); eauto|].
  intros [] s0 H0. wp_step. eapply wp_mono; [exact H0|]. clear H0. intros [] s0' H0. do 3 wp_step.
  eapply wp_mono; [exact H0|]. clear H0 s0 s0'. intros st s1 (-> & V1 & KC1 & AD & HV1). ok_simpl.
  rewrite <- (due_tasks_nodes s V KS) in HV1.
  assert (HG1 : glob s1 = g_set_kernel_tick (u32 (T + 1)) (glob s)) by (by rewrite (ad_rest _ _ _ _ _ _ AD)).
  wp_step. wp_step. apply wp_assoc, wp_bind. apply (wake_loop_spec (T + 1) D (next_phase T b) _ s1 V1 (due_tasks V) _ KC1 HV1).
  { unfold scan_fuel. rewrite (ring_size _ _ _ (rep_ring _ _ (kt_rep _ _ _ _ _ (kc_struct _ _ _ _ _ _ KC1)) _ _ HV1)).
    rewrite length_fmap. lia. }
  intros s2 V2 KC2 HV2 EF. cbn [negb].
  pose proof (expired_empty s s1 s2 V V2 KS NE AD EF (kc_struct _ _ _ _ _ _ KC2) HV2) as NE2.
  assert (HG2 : glob s2 = glob s1) by (by rewrite (ef_rest _ _ _ EF)).
  wp_step. rewrite HG1. apply (timer_part_spec (T + 1) D (next_phase T b) s2 V2); [done|done|simpl; by rewrite HPT|].
  intros sw D' b' s3 V3 KC3 _ PT3 NE3 TP _. wp_step. wp_step. pose proof (tp_glob _ _ _ _ _ _ _ TP) as HG3.
  destruct (kc_globals _ _ _ _ _ _ KC3) as [_ Hg]. rewrite HG3, HG2, HG1 in Hg. cbn in Hg. unfold glob in HK, Hg. rewrite HK in Hg.
  destruct Hg as (c & Hc & _ & Hreg).
  assert (Hc3 : g_current_task (glob s3) = Some c) by (rewrite HG3, HG2, HG1; exact Hc).
  rewrite Hc3, valid_task by (by apply (kc_fixed _ _ _ _ _ _ KC3)). cbn [negb].
  apply (close_spec D' b' s3 V3); try done. intros s' KC' NE' CL.
  eapply (K D' b' s' V3 _ (firing D (next_phase T b) s2 V2)); [done|simpl in PT3; lia|done|by eapply ticked_compose|by eapply fired_compose|by intros ->|].
  by eapply summoned_compose.
Qed.
End charge.
