(* ===== verification/SystemSpec.v ===== *)
(** The system: start-up code, interrupts and the calls of the running task, as a
    step relation, and the invariant of every reachable state. *)
From stdpp Require Import gmap list.
From Stdlib Require Import ZArith Lia.
From S2P Require Import Prelude Types HrList HrListSpec Store Scheduler SchedulerSpec WaitList WaitListSpec Timeout TimeoutSpec KState PortStack PortStackSpec TaskCore KernelBase KernelInv MutexPriority Kernel Semaphore Mutex Queue Timer KernelTick TaskApi KernelTasks KernelSpec KernelSwitch SemaphoreSpec KernelInitSpec TimerSpec TimerInitSpec QueueSpec MutexSpec MutexCallSpec KernelTickSpec.
Open Scope Z_scope.
Set Warnings "-clear-no-such-hyp".

(** A consistent kernel at absolute time [T], in the phase [k]. *)
Definition consistent (k : hr_kernel_state) (T : Z) (s : kstate) : Prop :=
  exists D, kinv T D s /\ g_kernel_state (glob s) = k.

(** The same with the phase of the two timeout lists named. *)
Definition consistent_at (b : phase) (k : hr_kernel_state) (T : Z) (s : kstate) : Prop :=
  exists D V, kcore T D s V b nobody /\ no_expired s /\ ph_timers b = T /\ g_kernel_state (glob s) = k.

Lemma consistent_phase k T s : consistent k T s <-> exists b, consistent_at b k T s.
Proof.
  split; [intros (D & (V & b & KC & NE & PT) & HK)|intros (b & D & V & KC & NE & PT & HK)]; [by exists b, D, V|].
  exists D. split; [by exists V, b|done].
Qed.

Lemma consistent_port k T s p : consistent k T s -> consistent k T (with_port p s).
Proof. intros (D & (V & b & KC & NE & PT) & ?). exists D. split; [|done]. exists V, b. split; [by apply kcore_port|done]. Qed.

(** Neither do the contents of stacks and buffers and the saved stack pointers. *)
Lemma consistent_memory k T s words bytes :
  consistent k T s -> consistent k T (ks_set_words words (ks_set_bytes bytes s)).
Proof.
  intros (D & (V & b & KC & NE & PT) & ?). exists D. split; [|done]. exists V, b.
  split; [by apply kcore_words, kcore_bytes|done].
Qed.

Lemma consistent_save k T s t sp :
  consistent k T s -> consistent k T (set_task t (t_set_stack_pointer sp (task_at s t)) s).
Proof.
  intros (D & (V & b & KC & NE & PT) & ?). exists D. split; [|done]. exists V, b. split; [|done].
  by apply kcore_cosmetic.
Qed.

Lemma one_task_no_expired T D s s' V b t :
  kstruct T D s' V b -> one_task s s' t -> no_expired s -> no_expired s'.
Proof.
  intros KS OT NE n. destruct (decide (n = ReadyNode t)) as [->|Hne]; [|rewrite (ot_list _ _ _ OT) by done; apply NE].
  split; intros E; by apply (kt_fits _ _ _ _ _ KS) in E.
Qed.

Section api.
Context `{Config} (T : Z).
Local Abbreviation running_kernel := (consistent HR_KERNEL_STATE_RUNNING T).

Lemma consistent_one_task s s' D V V' b t :
  kcore T D s V b nobody -> no_expired s -> g_kernel_state (glob s) = HR_KERNEL_STATE_RUNNING ->
  ph_timers b = T -> kcore T D s' V' b nobody -> one_task s s' t -> running_kernel s'.
Proof.
  intros KC NE HK HT KC' OT. exists D. split; [|by rewrite (ot_kernel _ _ _ OT)].
  exists V', b. split_and!; [done| |done]. by eapply one_task_no_expired; [apply (kc_struct _ _ _ _ _ _ KC')|..].
Qed.

(** A call made in a critical section that requests a switch afterwards. *)
Lemma task_control_spec t k s :
  running_kernel s -> registered s t -> t <> g_idle_task ->
  (forall s0 D V b Q, kcore T D s0 V b nobody -> no_expired s0 -> g_kernel_state (glob s0) = HR_KERNEL_STATE_RUNNING ->
     ph_timers b = T -> registered s0 t ->
     (forall r s1, running_kernel s1 -> Q r s1) -> wp (k (Some t)) Q s0) ->
  wp (task_control_call (Some t) k) (fun _ => running_kernel) s.
Proof.
  intros RK Hreg Hni Hk. pose proof RK as (D & (V & b & KC & NE & PT) & HK). unfold task_control_call. wp_step. wp_step.
  rewrite valid_task by (by apply (kc_fixed _ _ _ _ _ _ KC)). cbn [negb].
  destruct (negb (hr_kernel_is_running s) || hr_port_is_inside_isr s); [by wp_step|].
  wp_step. apply enter_critical_spec. wp_step. apply (Hk _ D V b); try done; [by apply kcore_port|].
  intros r s1 RK1. unfold hr_port_exit_critical, upd_port, hr_port_request_context_switch. wp_step. wp_step.
  apply (consistent_port _ _ _ (pt_set_primask (pt_primask (ks_port s)) (ks_port s1))) in RK1.
  wp_step. destruct (ok (fst r) && snd r); unfold upd_port; wp_step; wp_step; [by apply consistent_port|done].
Qed.

Lemma suspend_inv t s : running_kernel s -> registered s t -> t <> g_idle_task ->
  wp (hr_task_suspend (Some t)) (fun _ => running_kernel) s.
Proof.
  intros RK Hreg Hni. apply task_control_spec; try done. intros s0 D V b Q KC NE HK HT Hr K.
  apply (suspend_spec T D b t s0 V); try done.
  - intros _. apply K. exists D. split; [by exists V, b|done].
  - intros s' V' r KC' _ _ _ _ OT. apply K. by apply (consistent_one_task s0 s' D V V' b t).
Qed.

Lemma resume_inv t s : running_kernel s -> registered s t -> t <> g_idle_task ->
  wp (hr_task_resume (Some t)) (fun _ => running_kernel) s.
Proof.
  intros RK Hreg Hni. apply task_control_spec; try done. intros s0 D V b Q KC NE HK HT Hr K.
  apply (resume_spec T D b t s0 V); try done.
  - intros _. apply K. exists D. split; [by exists V, b|done].
  - intros s' V' r KC' _ _ _ OT. apply K. by apply (consistent_one_task s0 s' D V V' b t).
Qed.

Lemma consistent_blocked s s' D D' V V' b t :
  kcore T D s V b nobody -> no_expired s -> g_kernel_state (glob s) = HR_KERNEL_STATE_RUNNING ->
  ph_timers b = T -> kcore T D' s' V' b nobody -> blocked_frame s s' t -> running_kernel s'.
Proof.
  intros KC NE HK HT KC' BF. pose proof (bf_rest _ _ _ BF) as R. exists D'. split; [|by rewrite R].
  exists V', b. split_and!; [done| |done]. by eapply (no_expired_blocked b); [apply (kc_struct _ _ _ _ _ _ KC')|..].
Qed.

Lemma consistent_marked r s : running_kernel s -> running_kernel (marked r s).
Proof.
  intros (D & (V & b & KC & NE & PT) & HK). exists D. split_and!; try done. exists V, b. split_and!; [|done|done].
  apply kcore_globals; [done|by intros g].
Qed.

Lemma yield_inv s : running_kernel s -> wp hr_task_yield (fun _ => running_kernel) s.
Proof.
  intros RK. unfold hr_task_yield. wp_step. wp_step. destruct (hr_kernel_is_running s && _); [|by wp_step].
  unfold hr_kernel_request_yield. wp_step. apply enter_critical_spec. wp_step. wp_step.
  set (c := match g_current_task _ with Some _ => _ | None => _ end).
  apply (consistent_port _ _ _ (pt_set_primask 1 (ks_port s))) in RK.
  wp_step. apply (wp_mono _ (fun _ => running_kernel)).
  { destruct c; [|by wp_step]. apply mark_reason_spec. by apply consistent_marked. }
  intros [] s1 RK1. wp_step. unfold hr_port_exit_critical, hr_port_request_context_switch, upd_port. wp_step.
  destruct c; wp_step; by repeat apply consistent_port.
Qed.

(** The common part of the two delays. *)
Lemma delay_body_inv t n s : running_kernel s -> running s t -> t <> g_idle_task -> 0 < n < HR_WAIT_FOREVER ->
  wp (hr_kernel_delay_current n) (fun _ => running_kernel) s.
Proof.
  intros (D & (V & b & KC & NE & PT) & HK) RN Hni Hn.
  apply (delay_current_spec T D b t s V n); try done. intros s' V' c KC' _ BF _ _ _.
  by apply (consistent_blocked s s' D (delayed D (TimeoutNode t) (T + n)) V V' b t).
Qed.

Lemma running_port p s t : running s t -> running (with_port p s) t.
Proof. by intros []. Qed.

Lemma delay_inv t n s : running_kernel s -> running s t -> t <> g_idle_task -> 0 <= n <= UINT32_MAX ->
  wp (hr_task_delay n) (fun _ => running_kernel) s.
Proof.
  intros RK RN Hni Hn. unfold hr_task_delay. wp_step. wp_step.
  destruct (negb (hr_kernel_is_running s) || _); [by wp_step|].
  destruct (Z.eqb_spec n 0); [wp_step; eapply wp_mono; [by apply yield_inv|]; intros [] s1 ?; by wp_step|].
  destruct (Z.eqb_spec n HR_WAIT_FOREVER); [by wp_step|].
  wp_step. apply enter_critical_spec. wp_step. eapply wp_mono.
  { apply (delay_body_inv t); [by apply consistent_port|by apply running_port|done|unfold HR_WAIT_FOREVER, UINT32_MAX in *; lia]. }
  intros st s1 RK1. unfold hr_port_exit_critical, hr_port_request_context_switch, upd_port. wp_step. wp_step. wp_step.
  destruct (ok st); wp_step; wp_step; by repeat apply consistent_port.
Qed.

Lemma delay_until_inv t last period s : running_kernel s -> running s t -> t <> g_idle_task ->
  wp (hr_task_delay_until last period) (fun _ => running_kernel) s.
Proof.
  intros RK RN Hni. unfold hr_task_delay_until. destruct last as [last|]; [|by wp_step]. wp_step. wp_step.
  destruct (negb (hr_kernel_is_running s) || _); [by wp_step|].
  destruct ((period =? 0) || _); [by wp_step|].
  wp_step. apply enter_critical_spec. wp_step. set (rem := u32 (_ - _)).
  set (should := negb (rem =? 0) && (rem <=? INT32_MAX)).
  apply (wp_mono _ (fun _ => running_kernel)).
  { destruct should eqn:E; [|wp_step; by apply consistent_port]. apply andb_true_iff in E as [E1 E2].
    pose proof (u32_range (u32 (last + period) - hr_kernel_get_tick s)).
    apply (delay_body_inv t); [by apply consistent_port|by apply running_port|done|].
    unfold rem, INT32_MAX, HR_WAIT_FOREVER in *. lia. }
  intros st s1 RK1. unfold hr_port_exit_critical, hr_port_request_context_switch, upd_port. wp_step. wp_step. wp_step.
  destruct (ok st && should); wp_step; wp_step; by repeat apply consistent_port.
Qed.

Lemma valid_sem s x : hr_semaphore_is_valid s (Some x) = true -> sem_valid s x.
Proof. unfold hr_semaphore_is_valid, sem_valid. intros [[E _]%andb_true_iff _]%andb_true_iff. by apply Z.eqb_eq. Qed.

Lemma sem_view D s V b x : kcore T D s V b nobody -> sem_valid s x -> exists ns, V !! SemaphoreWaiters x = Some ns.
Proof. intros KC Hv. by apply (kt_objects _ _ _ _ _ (kc_struct _ _ _ _ _ _ KC)). Qed.

Lemma consistent_woke s s' D V V' b t r :
  kcore T D s V b nobody -> g_kernel_state (glob s) = HR_KERNEL_STATE_RUNNING ->
  ph_timers b = T -> kcore T D s' V' b nobody -> no_expired s' -> woke s s' t r -> running_kernel s'.
Proof.
  intros KC HK HT KC' NE' W. pose proof (wo_rest _ _ _ _ W) as R. exists D. split; [|by rewrite R].
  by exists V', b.
Qed.

Lemma take_inv t x timeout s : running_kernel s -> running s t -> t <> g_idle_task -> 0 <= timeout <= UINT32_MAX ->
  wp (hr_semaphore_take (Some x) timeout) (fun _ => running_kernel) s.
Proof.
  intros RK RN Hni Ht. pose proof RK as (D & (V & b & KC & NE & PT) & HK).
  destruct (hr_semaphore_is_valid s (Some x)) eqn:Ev.
  2: { unfold hr_semaphore_take. wp_step. wp_step. rewrite Ev. cbn [negb]. by wp_step. }
  destruct (hr_port_is_inside_isr s) eqn:Ei.
  { unfold hr_semaphore_take. wp_step. wp_step. rewrite Ev, Ei. cbn [negb]. by wp_step. }
  apply valid_sem in Ev. destruct (sem_view D s V b x KC Ev) as [ns Hns].
  apply (take_spec T D b s V x ns t timeout); try done.
  - intros _ KC'. exists D. split; [by exists V, b|done].
  - intros s' V' _ _ KC' NE' _ BF _ _ _. pose proof (bf_rest _ _ _ BF) as R.
    exists (wait_deadline T D t timeout). split; [by exists V', b|by rewrite R].
Qed.

Lemma give_inv x s : running_kernel s -> wp (hr_semaphore_give (Some x)) (fun _ => running_kernel) s.
Proof.
  intros RK. pose proof RK as (D & (V & b & KC & NE & PT) & HK).
  destruct (hr_semaphore_is_valid s (Some x)) eqn:Ev.
  2: { unfold hr_semaphore_give. wp_step. wp_step. rewrite Ev. cbn [negb]. by wp_step. }
  destruct (hr_port_is_inside_isr s) eqn:Ei.
  { unfold hr_semaphore_give. wp_step. wp_step. rewrite Ev, Ei. cbn [negb]. by wp_step. }
  apply valid_sem in Ev. destruct (sem_view D s V b x KC Ev) as [ns Hns].
  apply (give_spec T D b s V x ns); try done.
  - intros t ts f s' V' _ KC' NE' W _. pose proof (wo_rest _ _ _ _ W) as R.
    exists D. split; [exists V', b; split; [done|by destruct f]|]; destruct f; by rewrite R.
  - intros _ _ KC'. exists D. split; [by exists V, b|done].
Qed.

Lemma give_from_isr_inv x s : running_kernel s -> wp (hr_semaphore_give_from_isr (Some x)) (fun _ => running_kernel) s.
Proof.
  intros RK. pose proof RK as (D & (V & b & KC & NE & PT) & HK). unfold hr_semaphore_give_from_isr. wp_step. wp_step.
  destruct (hr_semaphore_is_valid s (Some x)) eqn:Ev; cbn [negb]; [|by wp_step].
  destruct (hr_port_is_inside_isr s); cbn [negb]; [|by wp_step].
  apply valid_sem in Ev. destruct (sem_view D s V b x KC Ev) as [ns Hns].
  wp_step. apply enter_critical_spec. wp_step. set (s0 := with_port _ s).
  assert (KC0 : kcore T D s0 V b nobody) by (by apply kcore_port).
  unfold hr_port_exit_critical, upd_port.
  apply (give_locked_spec T D b s0 V x ns); try done.
  - intros t ts f s' V' _ KC' NE' W _ _ _. do 3 wp_step. apply consistent_port. by apply (consistent_woke s0 s' D V V' b t HR_OK).
  - intros _ _. do 3 wp_step. by do 2 apply consistent_port.
  - intros _ _ KC'. do 3 wp_step. apply consistent_port. exists D. split; [by exists V, b|done].
Qed.

(** Queues. *)
Lemma consistent_set_queue s D V b q c B :
  kcore T D (set_queue q c (ks_set_bytes B s)) V b nobody -> no_expired s ->
  g_kernel_state (glob s) = HR_KERNEL_STATE_RUNNING -> ph_timers b = T ->
  running_kernel (set_queue q c (ks_set_bytes B s)).
Proof. intros KC NE HK HT. exists D. split; [by exists V, b|done]. Qed.

Lemma consistent_queue_woke D s s' V' b u f :
  queue_woke T D b s s' V' u f -> g_kernel_state (glob s) = HR_KERNEL_STATE_RUNNING ->
  ph_timers b = T -> ks_port s' = ks_port s /\ running_kernel s'.
Proof.
  intros [KC NE W _ _] HK HT. pose proof (wo_rest _ _ _ _ W) as R. split; [by rewrite R|].
  exists D. split; [by exists V', b|by rewrite R].
Qed.

Lemma consistent_queue_blocked D s s' V' b t q l ns item timeout :
  queue_blocked T D b s s' V' t q l ns item timeout -> g_kernel_state (glob s) = HR_KERNEL_STATE_RUNNING ->
  ph_timers b = T -> ks_port s' = ks_port s /\ running_kernel s'.
Proof.
  intros [KC NE _ BF _ _ _ _] HK HT. pose proof (bf_rest _ _ _ BF) as R. split; [by rewrite R|].
  exists (wait_deadline T D t timeout). split; [by exists V', b|by rewrite R].
Qed.

Definition locked_inv (locked : queue_ptr -> Z -> Z -> bool -> M kstate locked_result) : Prop :=
  forall s q item timeout allow t, running_kernel s -> queue_valid s q -> 0 <= timeout <= UINT32_MAX ->
    (allow = true -> timeout <> HR_NO_WAIT -> running s t /\ t <> g_idle_task) ->
    wp (locked q item timeout allow) (fun _ s1 => ks_port s1 = ks_port s /\ running_kernel s1) s.

Lemma send_locked_inv : locked_inv hr_queue_send_locked.
Proof.
  intros s q item timeout allow t RK Hv Ht Hrun. pose proof RK as (D & (V & b & KC & NE & PT) & HK).
  destruct (queue_waiters T D b s V q KC Hv (QueueReceiveWaiters q) ltac:(auto)) as [rs Hrs].
  destruct (queue_waiters T D b s V q KC Hv (QueueSendWaiters q) ltac:(auto)) as [ss Hss].
  apply (send_locked_spec T D b s V q KC NE Hv rs ss item timeout allow t); try done.
  - intros u us buffer B f s' V' _ _ _ QW. by apply (consistent_queue_woke D (ks_set_bytes B s) s' V' b u f).
  - intros B _ _ _ KC'. split; [done|]. by apply (consistent_set_queue s D V b).
  - intros s' V' _ _ _ _ QB. by apply (consistent_queue_blocked D s s' V' b t q (QueueSendWaiters q) ss item timeout).
Qed.

Lemma receive_locked_inv : locked_inv hr_queue_receive_locked.
Proof.
  intros s q item timeout allow t RK Hv Ht Hrun. pose proof RK as (D & (V & b & KC & NE & PT) & HK).
  destruct (queue_waiters T D b s V q KC Hv (QueueReceiveWaiters q) ltac:(auto)) as [rs Hrs].
  destruct (queue_waiters T D b s V q KC Hv (QueueSendWaiters q) ltac:(auto)) as [ss Hss].
  apply (receive_locked_spec T D b s V q KC NE Hv rs ss item timeout allow t); try done.
  - intros B _ _ _ KC'. split; [done|]. by apply (consistent_set_queue s D V b).
  - intros u us buffer B1 B2 f s' V' _ _ _ _ _ QW.
    by apply (consistent_queue_woke D (set_queue q (enqueued (dequeued (queue_at s q))) (ks_set_bytes B2 s)) s' V' b u f).
  - intros s' V' _ _ _ QB. by apply (consistent_queue_blocked D s s' V' b t q (QueueReceiveWaiters q) rs item timeout).
Qed.

Lemma valid_queue s q : hr_queue_is_valid s (Some q) = true -> queue_valid s q.
Proof. unfold hr_queue_is_valid, queue_valid. rewrite !andb_true_iff. intros H0. by apply Z.eqb_eq, H0. Qed.

Lemma queue_task_inv locked t q item timeout s : locked_inv locked ->
  running_kernel s -> running s t -> t <> g_idle_task -> 0 <= timeout <= UINT32_MAX ->
  wp (queue_task_call (Some q) (Some item) timeout locked) (fun _ => running_kernel) s.
Proof.
  intros HL RK RN Hni Ht. pose proof RK as (D & (V & b & KC & NE & PT) & HK).
  destruct (hr_queue_is_valid s (Some q)) eqn:Ev.
  2: { unfold queue_task_call. wp_step. wp_step. rewrite Ev. cbn [negb]. by wp_step. }
  destruct (hr_port_is_inside_isr s) eqn:Ei.
  { unfold queue_task_call. wp_step. wp_step. rewrite Ev, Ei. cbn [negb]. by wp_step. }
  apply valid_queue in Ev. apply (queue_task_call_spec T D b s V); try done. eapply wp_mono.
  - apply (HL (masked s) q item timeout true t); [by apply consistent_port|done|done|]. intros _ _. split; [by apply running_port|done].
  - intros r s1 [Hp RK1]. split; [exact Hp|]. unfold pend_if. destruct (switch_wanted r); by repeat apply consistent_port.
Qed.

Lemma queue_isr_inv locked q item s : locked_inv locked ->
  running_kernel s -> wp (queue_isr_call (Some q) (Some item) locked) (fun _ => running_kernel) s.
Proof.
  intros HL RK. pose proof RK as (D & (V & b & KC & NE & PT) & HK).
  destruct (hr_queue_is_valid s (Some q)) eqn:Ev.
  2: { unfold queue_isr_call. wp_step. wp_step. rewrite Ev. cbn [negb]. by wp_step. }
  destruct (hr_port_is_inside_isr s) eqn:Ei.
  2: { unfold queue_isr_call. wp_step. wp_step. rewrite Ev, Ei. cbn [negb]. by wp_step. }
  apply valid_queue in Ev. apply (queue_isr_call_spec T D b s V); try done. eapply wp_mono.
  - apply (HL (masked s) q item HR_NO_WAIT false g_idle_task); [by apply consistent_port|done|unfold HR_NO_WAIT, UINT32_MAX; lia|done].
  - intros r s1 [Hp RK1]. split; [exact Hp|]. by apply consistent_port.
Qed.

(** Mutexes. *)
Lemma valid_mutex s m : hr_mutex_is_valid s (Some m) = true -> mutex_valid s m.
Proof. unfold hr_mutex_is_valid, mutex_valid. intros [E _]%andb_true_iff. by apply Z.eqb_eq. Qed.

Lemma lock_inv t m timeout s : running_kernel s -> running s t -> t <> g_idle_task -> 0 <= timeout <= UINT32_MAX ->
  wp (hr_mutex_lock (Some m) timeout) (fun _ => running_kernel) s.
Proof.
  intros RK RN Hni Ht. pose proof RK as (D & (V & b & KC & NE & PT) & HK).
  destruct (hr_mutex_is_valid s (Some m)) eqn:Ev.
  2: { unfold hr_mutex_lock. wp_step. wp_step. rewrite Ev. cbn [negb]. by wp_step. }
  destruct (hr_port_is_inside_isr s) eqn:Ei.
  { unfold hr_mutex_lock. wp_step. wp_step. rewrite Ev, Ei. cbn [negb]. by wp_step. }
  apply valid_mutex in Ev. apply (lock_call_spec T D b s V m t); try done.
  assert (KC0 : kcore T D (masked s) V b nobody) by (by apply kcore_port).
  assert (HE : forall s1 r, ks_port s1 = ks_port (masked s) -> running_kernel s1 ->
    ks_port s1 = ks_port (masked s) /\ running_kernel (pend_if (waits r) (with_port (ks_port s) s1))).
  { intros s1 r Hp RK1. split; [done|]. unfold pend_if. destruct (waits r); by repeat apply consistent_port. }
  assert (H0 : running_kernel (masked s)) by (by apply consistent_port).
  apply (lock_locked_spec T D b (masked s) V m t timeout); [done|done|done|by apply running_port|done|done| | | | | |].
  - intros s' V' _ KC' RO. pose proof (ro_rest _ _ _ _ RO) as R. apply HE; [by rewrite R|].
    exists D. split; [|by rewrite R]. exists V', b. split_and!; [done| |done]. by eapply ro_no_expired.
  - intros _ _. by apply HE.
  - intros _ _ _. by apply HE.
  - intros s' _ _ _ KC'. apply HE; [done|]. exists D. split; [by exists V, b|done].
  - intros o _ _ _. by apply HE.
  - intros o s' _ _ _ [[V' KC'] NE' P' K' T' _ _]. apply HE; [done|]. exists (wait_deadline T D t timeout).
    split; [by exists V', b|by rewrite K'].
Qed.

Lemma unlock_inv t m s : running_kernel s -> running s t -> t <> g_idle_task ->
  wp (hr_mutex_unlock (Some m)) (fun _ => running_kernel) s.
Proof.
  intros RK RN Hni. pose proof RK as (D & (V & b & KC & NE & PT) & HK).
  destruct (hr_mutex_is_valid s (Some m)) eqn:Ev.
  2: { unfold hr_mutex_unlock. wp_step. wp_step. rewrite Ev. cbn [negb]. by wp_step. }
  destruct (hr_port_is_inside_isr s) eqn:Ei.
  { unfold hr_mutex_unlock. wp_step. wp_step. rewrite Ev, Ei. cbn [negb]. by wp_step. }
  apply valid_mutex in Ev. apply (unlock_spec T D b s V m t); try done.
  - intros s' _ _ _ KC'. exists D. split; [by exists V, b|done].
  - intros ns s' f _ _ _ [[V' KC'] NE' R _ _ _ _ _ _] _.
    assert (RK' : running_kernel s') by (exists D; split; [by exists V', b|by rewrite R]).
    unfold pend_if. destruct f; by repeat apply consistent_port.
Qed.

(** Software timers. *)
Lemma consistent_timer s s' D V' b x :
  g_kernel_state (glob s) = HR_KERNEL_STATE_RUNNING -> ph_timers b = T -> kcore T D s' V' b nobody -> no_expired s' ->
  timer_step s s' x -> running_kernel s'.
Proof. intros HK HT KC' NE' TS. exists D. split; [by exists V', b|by rewrite (ts_rest _ _ _ TS)]. Qed.

(** The checks common to the calls on a timer. *)
Lemma timer_call_inv x bad k s : running_kernel s ->
  (hr_timer_is_valid s (Some x) = true -> hr_port_is_inside_isr s = false ->
     wp (timer_call (Some x) bad k) (fun _ => running_kernel) s) ->
  wp (timer_call (Some x) bad k) (fun _ => running_kernel) s.
Proof.
  intros RK K. destruct (hr_timer_is_valid s (Some x)) eqn:Ev.
  2: { unfold timer_call. wp_step. wp_step. rewrite Ev. cbn [negb orb]. by wp_step. }
  destruct (hr_port_is_inside_isr s) eqn:Ei; [|by apply K].
  unfold timer_call. wp_step. wp_step. rewrite Ev, Ei. cbn [negb orb]. destruct bad; by wp_step.
Qed.

Lemma timer_start_inv x s : running_kernel s -> wp (hr_timer_start (Some x)) (fun _ => running_kernel) s.
Proof.
  intros RK. apply timer_call_inv; [done|]. intros Ev%valid_timer Ei. pose proof RK as (D & (V & b & KC & NE & PT) & HK).
  apply (timer_start_spec T D b s V x); try done. intros s' V' _ KC' NE' RS.
  by eapply consistent_timer, rs_step.
Qed.

Lemma timer_stop_inv x s : running_kernel s -> wp (hr_timer_stop (Some x)) (fun _ => running_kernel) s.
Proof.
  intros RK. apply timer_call_inv; [done|]. intros Ev%valid_timer Ei. pose proof RK as (D & (V & b & KC & NE & PT) & HK).
  apply (timer_stop_spec T D b s V x); try done. intros s' V' KC' NE' HS.
  by eapply consistent_timer, ht_step.
Qed.

Lemma timer_reset_inv x s : running_kernel s -> wp (hr_timer_reset (Some x)) (fun _ => running_kernel) s.
Proof.
  intros RK. apply timer_call_inv; [done|]. intros Ev%valid_timer Ei. pose proof RK as (D & (V & b & KC & NE & PT) & HK).
  apply (timer_reset_spec T D b s V x); try done. intros s' V' KC' NE' RS.
  by eapply consistent_timer, rs_step.
Qed.

Lemma timer_change_period_inv x p s : running_kernel s -> 0 <= p <= UINT32_MAX ->
  wp (hr_timer_change_period (Some x) p) (fun _ => running_kernel) s.
Proof.
  intros RK Hp. apply timer_call_inv; [done|]. intros Ev%valid_timer Ei. pose proof RK as (D & (V & b & KC & NE & PT) & HK).
  apply (timer_change_period_spec T D b s V x); try done. intros s' V' _ KC' NE' RS.
  by eapply consistent_timer, rs_step.
Qed.

(** The two halves of a turn of the service task. *)
Lemma take_pending_inv s : running_kernel s -> wp timer_take_pending (fun _ => running_kernel) s.
Proof.
  intros RK. pose proof RK as (D & (V & b & KC & NE & PT) & HK). destruct (g_timer_system_initialized (glob s)) eqn:Hi.
  2: { unfold timer_take_pending. wp_step. wp_step. rewrite Hi. cbn [negb]. by wp_step. }
  destruct (kt_timer_list _ _ _ _ _ (kc_struct _ _ _ _ _ _ KC) Hi) as [ps Hps].
  apply (take_pending_spec T D b s V ps); try done. intros x ps' s' V' _ _ _ KC' NE' TU.
  by eapply consistent_timer, tu_step.
Qed.

Lemma callback_done_inv x s : running_kernel s -> wp (timer_callback_done x) (fun _ => running_kernel) s.
Proof.
  intros (D & (V & b & KC & NE & PT) & HK). apply (callback_done_spec T D b s V); [done|]. intros s' KC' TS _ L.
  eapply consistent_timer; try done. intros n. rewrite L. apply NE.
Qed.

Lemma pendsv_inv s : running_kernel s -> wp hr_kernel_select_next_from_pendsv (fun _ => running_kernel) s.
Proof.
  intros (D & (V & b & KC & NE & PT) & HK). apply (pendsv_spec T D b s V); try done.
  intros s' V' c n _ _ KC' _ EN. exists D. split; [|apply EN].
  exists V', b. split_and!; [done| |done]. intros m. rewrite (en_links _ _ _ EN). apply NE.
Qed.

Lemma tick_inv s : running_kernel s ->
  wp hr_kernel_tick_from_isr (fun _ => consistent HR_KERNEL_STATE_RUNNING (T + 1)) s.
Proof.
  intros (D & (V & b & KC & NE & PT) & HK). apply (tick_spec T D b s V); try done.
  intros D' b' s' V' ws xs KC' PT' NE' TK _ _ _. exists D'. split; [|by rewrite (tk_kernel _ _ _ _ _ TK)].
  by exists V', b'.
Qed.
End api.

(** ** Start-up *)
Section boot.
Context `{Config}.

(** The calls of the start-up code: after [hr_kernel_init], tasks are created and
    started, and semaphores, queues, mutexes and timers are created (at addresses of the
    32-bit address space, where the stack of the timer service lies too). *)
Inductive boot : kstate -> Prop :=
| boot_init s : hr_kernel_init reset_state = Some (HR_OK, s) -> boot s
| boot_spawn s s1 s2 t name entry argument low words priority :
    boot s -> stack_fits low words -> 0 <= priority ->
    hr_task_create_static (Some t) (Some name) (Some entry) argument (Some low) words priority s = Some (HR_OK, s1) ->
    hr_task_start (Some t) s1 = Some (HR_OK, s2) -> boot s2
| boot_semaphore s s1 x count maximum :
    boot s -> 0 <= count -> maximum <= UINT32_MAX ->
    hr_semaphore_create_counting (Some x) count maximum s = Some (HR_OK, s1) -> boot s1
| boot_queue s s1 q storage item_size capacity :
    boot s -> 0 <= item_size -> 0 <= capacity ->
    hr_queue_create_static (Some q) (Some storage) item_size capacity s = Some (HR_OK, s1) -> boot s1
| boot_mutex s s1 m recursive :
    boot s -> Z.of_N m < SIZE_MAX -> hr_mutex_create_internal (Some m) recursive s = Some (HR_OK, s1) -> boot s1
| boot_timer s s1 x name period auto_reload callback argument :
    boot s -> Z.of_N x < SIZE_MAX -> 0 <= period <= UINT32_MAX ->
    stack_fits address_of_g_timer_service_stack HR_CFG_TIMER_TASK_STACK_WORDS ->
    hr_timer_create_static (Some x) (Some name) period auto_reload (Some callback) argument s = Some (HR_OK, s1) ->
    boot s1.

Lemma wp_result {S A} (m : M S A) Q s a s' : wp m Q s -> m s = Some (a, s') -> Q a s'.
Proof. unfold wp. intros HQ E. by rewrite E in HQ. Qed.

Local Abbreviation booting := (consistent HR_KERNEL_STATE_INITIALIZED 0).

(** What creating and starting a task leaves unchanged. *)
Record spawn_frame (s s' : kstate) : Prop := {
  sf_semaphores : ks_semaphores s' = ks_semaphores s;
  sf_timers : ks_timers s' = ks_timers s;
  sf_port : ks_port s' = ks_port s;
}.

Lemma spawn_inv b s s1 s2 t name entry argument low words priority :
  consistent_at b HR_KERNEL_STATE_INITIALIZED 0 s -> stack_fits low words -> 0 <= priority ->
  hr_task_create_static (Some t) (Some name) (Some entry) argument (Some low) words priority s = Some (HR_OK, s1) ->
  hr_task_start (Some t) s1 = Some (HR_OK, s2) ->
  consistent_at b HR_KERNEL_STATE_INITIALIZED 0 s2 /\ spawn_frame s s2.
Proof.
  intros (D & V & KC & NE & PT & HK) Hf Hp Hc Hs.
  assert (Hv : hr_task_is_valid s (Some t) = false /\ priority < HR_CFG_PRIORITY_COUNT).
  { revert Hc. unfold hr_task_create_static, bindM, getM. destruct (hr_task_is_valid s (Some t)); [intros Hx; discriminate Hx|].
    destruct ((words <? HR_CFG_MIN_TASK_STACK_WORDS) || (HR_CFG_PRIORITY_COUNT <=? priority)) eqn:E; [intros Hx; discriminate Hx|].
    intros _. apply orb_false_iff in E as [_ E]. apply Z.leb_gt in E. done. }
  destruct Hv as [Hv Hlt].
  assert (H1 : exists V1, kcore 0 D s1 V1 b nobody /\ startable s1 V1 t priority /\ created s s1 t priority).
  { refine (wp_result _ (fun _ s1 => exists V1, kcore 0 D s1 V1 b nobody /\ startable s1 V1 t priority /\
      created s s1 t priority) _ _ _ _ Hc). apply (create_spec 0 D b s V); eauto. }
  destruct H1 as (V1 & KC1 & ST & CR). pose proof (cr_rest _ _ _ _ CR) as R1.
  assert (HG : glob s1 = glob s) by (by rewrite R1).
  assert (Hni : t <> g_idle_task).
  { intros ->. destruct (kc_globals _ _ _ _ _ _ KC) as [Hi _]. by apply (invalid_unregistered 0 D b s V g_idle_task KC Hv). }
  assert (Hst : g_task_count (glob s1) < HR_CFG_MAX_TASKS /\ priority < HR_CFG_IDLE_PRIORITY).
  { revert Hs. unfold hr_task_start, hr_kernel_register_task, bindM, getM.
    rewrite valid_task by apply ST. cbn [negb]. rewrite HG, HK, bool_neq_false by done. cbn [orb].
    rewrite valid_task by apply ST. cbn [negb]. destruct (Z.leb_spec HR_CFG_MAX_TASKS (g_task_count (glob s))); [intros Hx; discriminate Hx|].
    rewrite (cb_effective _ _ (st_block _ _ _ _ ST)), bool_decide_true by done. cbn [andb].
    destruct (Z.eqb_spec priority HR_CFG_IDLE_PRIORITY); [intros Hx; discriminate Hx|]. intros _.
    unfold HR_CFG_IDLE_PRIORITY in *. lia. }
  destruct Hst as [Hct Hlt'].
  refine (wp_result _ (fun _ s3 => consistent_at b HR_KERNEL_STATE_INITIALIZED 0 s3 /\ spawn_frame s s3) _ _ _ _ Hs).
  apply (start_spec 0 D b s1 V1 t priority); try done; [unfold glob in *; congruence|].
  intros s3 V3 KC3 JF _. pose proof (jf_rest _ _ _ _ JF) as R3. split; [|split; rewrite R3; simpl; by rewrite R1].
  exists D, V3. split_and!; [done| |done|rewrite R3; simpl; unfold glob in *; by rewrite HG]. intros n. rewrite (jf_list _ _ _ _ JF). repeat case_decide; try done.
  rewrite (of_list _ _ _ (cr_store _ _ _ _ CR) n : node_list s1 n = node_list s n). apply NE.
Qed.

Lemma semaphore_made_inv b k T s x count maximum :
  consistent_at b k T s -> 0 <= count -> maximum <= UINT32_MAX ->
  wp (hr_semaphore_create_counting (Some x) count maximum)
     (fun r s' => consistent_at b k T s' /\ (r = HR_OK -> sem_made s s' x count maximum)) s.
Proof.
  intros CS Hc Hm. pose proof CS as (D & V & KC & NE & PT & HK).
  destruct ((maximum =? 0) || (maximum <? count)) eqn:E.
  { unfold hr_semaphore_create_counting. rewrite E. by wp_step. }
  destruct (hr_semaphore_is_valid s (Some x)) eqn:Ev.
  { unfold hr_semaphore_create_counting. rewrite E. wp_step. wp_step. rewrite Ev. by wp_step. }
  apply orb_false_iff in E as [E1 E2]. apply (sem_create_spec T D b s V); [done|done|lia|lia|].
  intros s' V' KC' _ SM. split; [|done]. destruct SM as [R _ _ L]. exists D, V'. split_and!; [done| |done|by rewrite R].
  intros n. rewrite L. apply NE.
Qed.

Lemma semaphore_inv k T s x count maximum :
  consistent k T s -> 0 <= count -> maximum <= UINT32_MAX ->
  wp (hr_semaphore_create_counting (Some x) count maximum) (fun _ => consistent k T) s.
Proof.
  intros [b CS]%consistent_phase Hc Hm. eapply wp_mono; [by apply (semaphore_made_inv b)|].
  intros r s' [CS' _]. apply consistent_phase. by exists b.
Qed.

Lemma queue_create_inv k T s q storage item_size capacity :
  consistent k T s -> 0 <= item_size -> 0 <= capacity ->
  wp (hr_queue_create_static (Some q) (Some storage) item_size capacity) (fun _ => consistent k T) s.
Proof.
  intros CS Hi Hc. pose proof CS as (D & (V & b & KC & NE & PT) & HK).
  destruct ((item_size =? 0) || (capacity =? 0) || negb (hr_queue_multiply_fits item_size capacity)) eqn:E.
  { unfold hr_queue_create_static. rewrite E. by wp_step. }
  destruct (hr_queue_is_valid s (Some q)) eqn:Ev.
  { unfold hr_queue_create_static. rewrite E. wp_step. wp_step. rewrite Ev. by wp_step. }
  apply orb_false_iff in E as [[E1 E2]%orb_false_iff E3%negb_false_iff].
  apply (queue_create_spec T D b s V); [done|done|lia|lia|done|].
  intros s' V' KC' [R _ _ L]. exists D. split; [|by rewrite R]. exists V', b. split_and!; [done| |done].
  intros n. rewrite L. apply NE.
Qed.

Lemma mutex_create_inv k T s m recursive :
  consistent k T s -> Z.of_N m < SIZE_MAX ->
  wp (hr_mutex_create_internal (Some m) recursive) (fun _ => consistent k T) s.
Proof.
  intros CS Hn. pose proof CS as (D & (V & b & KC & NE & PT) & HK).
  destruct (hr_mutex_is_valid s (Some m)) eqn:Ev.
  { unfold hr_mutex_create_internal. wp_step. wp_step. rewrite Ev. by wp_step. }
  apply (mutex_create_spec T D b s V); [done|done|done|].
  intros s' V' KC' [R _ _ L]. exists D. split; [|by rewrite R]. exists V', b. split_and!; [done| |done].
  intros n. rewrite L. apply NE.
Qed.

(** The first timer: its creation sets up the lists of the timers and starts the service task. *)
Lemma bind_result {S A B} (m : M S A) (k : A -> M S B) s r :
  (let* x := m in k x) s = Some r -> exists a s', m s = Some (a, s') /\ k a s' = Some r.
Proof. unfold bindM. destruct (m s) as [[a s']|]; [eauto|done]. Qed.

Lemma ok_true r : ok r = true -> r = HR_OK.
Proof. by destruct r. Qed.

Lemma ensure_inv s s' :
  booting s -> g_timer_system_initialized (glob s) = false ->
  stack_fits address_of_g_timer_service_stack HR_CFG_TIMER_TASK_STACK_WORDS ->
  hr_timer_system_ensure_initialized s = Some (HR_OK, s') ->
  booting s' /\ g_timer_system_initialized (glob s') = true /\ ks_timers s' = ks_timers s /\ ks_port s' = ks_port s.
Proof.
  intros (D & (V & b & KC & NE & PT) & HK) Hi Hf E. revert E. unfold hr_timer_system_ensure_initialized.
  intros (? & ? & [= <- <-] & E)%bind_result. rewrite Hi in E.
  rewrite bool_decide_false in E by (unfold hr_kernel_get_state; rewrite HK; by intros []).
  apply bind_result in E as ([] & s1 & E1 & E). apply bind_result in E as ([] & s2 & E2 & E).
  assert (H2 : consistent_at (timers_phase 0 b) HR_KERNEL_STATE_INITIALIZED 0 s2 /\ s2 = ks_set_store (ks_store s2) s).
  { refine (wp_result _ (fun _ y => consistent_at (timers_phase 0 b) HR_KERNEL_STATE_INITIALIZED 0 y /\ y = ks_set_store (ks_store y) s)
      s tt s2 (timer_lists_spec 0 D b s V _ KC Hi ltac:(unfold UINT32_MAX; lia) _) _).
    - intros y V' KC' L R. split; [|done]. exists D, V'. split_and!; [done|intros n; rewrite L; apply NE|done|by rewrite R].
    - unfold bindM. by rewrite E1. }
  destruct H2 as [CS2 R2]. apply bind_result in E as (st & s3 & E3 & E).
  destruct (wp_result _ _ _ _ _ (semaphore_made_inv _ _ 0 s2 g_timer_signal 0 1 CS2 ltac:(lia) ltac:(unfold UINT32_MAX; lia)) E3) as [CS3 SM].
  destruct (ok st) eqn:Eo; cbn [negb] in E; [|injection E as -> _; done]. apply ok_true in Eo as ->. specialize (SM eq_refl).
  apply bind_result in E as (st & s4 & E4 & E). destruct (ok st) eqn:Eo; cbn [negb] in E; [|injection E as -> _; done]. apply ok_true in Eo as ->.
  apply bind_result in E as (st & s5 & E5 & E). destruct (ok st) eqn:Eo; cbn [negb] in E; [|injection E as -> _; done]. apply ok_true in Eo as ->.
  assert (Hp : 0 <= HR_CFG_TIMER_TASK_PRIORITY) by (by vm_compute).
  destruct (spawn_inv (timers_phase 0 b) s3 s4 s5 g_timer_service_task _ _ _ _ _ _ CS3 Hf Hp E4 E5) as [CS5 [F1 F2 F3]].
  apply bind_result in E as ([] & s6 & [= <-] & [= <-]). pose proof (sm_rest _ _ _ _ _ SM) as R3.
  split_and!; [|done|simpl; rewrite F2, R3; simpl; by rewrite R2|simpl; rewrite F3, R3; simpl; by rewrite R2].
  destruct CS5 as (D5 & V5 & KC5 & NE5 & PT5 & HK5). apply consistent_phase. exists (timers_phase 0 b), D5, V5.
  split_and!; [|done..]. apply (kcore_flag 0 D5); [done|done|]. unfold sem_valid, sem_at. rewrite F1. 
  change (sem_magic (sem_at s3 g_timer_signal) = HR_CFG_SEMAPHORE_MAGIC). by rewrite (sm_block _ _ _ _ _ SM).
Qed.

(** A timer created once the timers are set up, or refused. *)
Lemma timer_create_inv k T s x name period auto_reload callback argument :
  consistent k T s -> (g_timer_system_initialized (glob s) = true \/ k <> HR_KERNEL_STATE_INITIALIZED) ->
  Z.of_N x < SIZE_MAX -> 0 <= period <= UINT32_MAX ->
  wp (hr_timer_create_static (Some x) (Some name) period auto_reload (Some callback) argument) (fun _ => consistent k T) s.
Proof.
  intros CS Hk Hn Hp. pose proof CS as (D & (V & b & KC & NE & PT) & HK).
  destruct ((period =? 0) || (period =? HR_WAIT_FOREVER)) eqn:E.
  { unfold hr_timer_create_static. rewrite E. by wp_step. }
  destruct (hr_port_is_inside_isr s) eqn:Ei.
  { unfold hr_timer_create_static. rewrite E. wp_step. wp_step. rewrite Ei. by wp_step. }
  destruct (hr_timer_is_valid s (Some x)) eqn:Ev.
  { unfold hr_timer_create_static. rewrite E. wp_step. wp_step. rewrite Ei, Ev. by wp_step. }
  destruct (g_timer_system_initialized (glob s)) eqn:Hi.
  2: { destruct Hk as [|Hk]; [done|]. unfold hr_timer_create_static. rewrite E. wp_step. wp_step. rewrite Ei, Ev.
       wp_step. unfold hr_timer_system_ensure_initialized. wp_step. wp_step. rewrite Hi. 
       rewrite bool_decide_true by (unfold hr_kernel_get_state; by rewrite HK). wp_step. change (ok HR_ERROR_INVALID_STATE) with false. cbn [negb]. apply wp_ret. exact CS. }
  apply orb_false_iff in E as [E1 E2]. apply (timer_create_spec T D b s V); try done.
  - intros Hv. by rewrite (timer_is_valid s x (ob_timers _ (kc_objects _ _ _ _ _ _ KC) x) Hv) in Ev.
  - unfold HR_WAIT_FOREVER, UINT32_MAX in *. lia.
  - intros s' KC' [R _ _ L]. exists D. split; [|by rewrite R]. exists V, b. split_and!; [done| |done]. intros n. rewrite L. apply NE.
Qed.

(** Creating a timer is setting the timers up and creating the timer there. *)
Lemma timer_create_ensured s s1 x name period auto_reload callback argument :
  hr_timer_create_static (Some x) (Some name) period auto_reload (Some callback) argument s = Some (HR_OK, s1) ->
  exists s0, hr_timer_system_ensure_initialized s = Some (HR_OK, s0) /\
    (g_timer_system_initialized (glob s0) = true -> ks_timers s0 = ks_timers s -> ks_port s0 = ks_port s ->
     hr_timer_create_static (Some x) (Some name) period auto_reload (Some callback) argument s0 = Some (HR_OK, s1)).
Proof.
  unfold hr_timer_create_static. destruct ((period =? 0) || (period =? HR_WAIT_FOREVER)); [done|].
  intros (? & ? & [= <- <-] & E)%bind_result. destruct (hr_port_is_inside_isr s) eqn:Ei; [done|].
  destruct (hr_timer_is_valid s (Some x)) eqn:Ev; [done|]. apply bind_result in E as (st & s0 & E0 & E).
  destruct (ok st) eqn:Eo; cbn [negb] in E; [|injection E as -> _; done]. apply ok_true in Eo as ->.
  exists s0. split; [done|]. intros Hi HT HP. unfold bindM at 1, getM. cbv beta iota.
  assert (hr_port_is_inside_isr s0 = false) as -> by (unfold hr_port_is_inside_isr in *; by rewrite HP).
  assert (hr_timer_is_valid s0 (Some x) = false) as -> by (unfold hr_timer_is_valid, timer_at in *; by rewrite HT).
  unfold hr_timer_system_ensure_initialized at 1. unfold bindM at 1 2, getM. cbv beta iota. rewrite Hi. exact E.
Qed.

Lemma boot_timer_inv s s1 x name period auto_reload callback argument :
  booting s -> Z.of_N x < SIZE_MAX -> 0 <= period <= UINT32_MAX ->
  stack_fits address_of_g_timer_service_stack HR_CFG_TIMER_TASK_STACK_WORDS ->
  hr_timer_create_static (Some x) (Some name) period auto_reload (Some callback) argument s = Some (HR_OK, s1) ->
  booting s1.
Proof.
  intros CS Hn Hp Hf E. destruct (g_timer_system_initialized (glob s)) eqn:Hi.
  - refine (wp_result _ (fun _ => booting) _ _ _ _ E). apply timer_create_inv; auto.
  - destruct (timer_create_ensured _ _ _ _ _ _ _ _ E) as (s0 & E0 & K).
    destruct (ensure_inv s s0 CS Hi Hf E0) as (CS0 & Hi0 & HT & HP).
    refine (wp_result _ (fun _ => booting) _ _ _ _ (K Hi0 HT HP)). apply timer_create_inv; auto.
Qed.

Lemma boot_consistent s : stack_fits address_of_g_idle_stack HR_CFG_IDLE_STACK_WORDS -> boot s -> booting s.
Proof.
  intros Hf. induction 1 as [s Hs|s s1 s2 t name entry argument low words priority _ IH|s s1 x count maximum _ IH|s s1 q storage isz cap _ IH|s s1 m recursive _ IH|s s1 x name period auto callback argument _ IH].
  - refine (wp_result _ (fun _ => booting) _ _ _ _ Hs). apply (init_spec (fun _ => 0) _ Hf).
    intros s' V' KC NE IN. exists (fun _ => 0). split; [by exists V', reset_phase|apply IN].
  - apply consistent_phase in IH as [b IH]. apply consistent_phase. exists b. by eapply spawn_inv.
  - refine (wp_result _ (fun _ => booting) _ _ _ _ _); [by apply (semaphore_inv _ 0 s x count maximum)|done].
  - refine (wp_result _ (fun _ => booting) _ _ _ _ _); [by apply (queue_create_inv _ 0 s q storage isz cap)|done].
  - refine (wp_result _ (fun _ => booting) _ _ _ _ _); [by apply (mutex_create_inv _ 0 s m recursive)|done].
  - by eapply boot_timer_inv.
Qed.

(** ** The running system *)

(** A call that the running task makes. *)
Inductive task_call : Type :=
| CallYield
| CallDelay (ticks : Z)
| CallDelayUntil (last_wake_tick : option Z) (period : Z)
| CallSuspend (t : task_ptr)
| CallResume (t : task_ptr)
| CallTake (x : sem_ptr) (timeout : Z)
| CallGive (x : sem_ptr)
| CallSemaphore (x : sem_ptr) (count maximum : Z)
| CallSend (q : queue_ptr) (item timeout : Z)
| CallReceive (q : queue_ptr) (item timeout : Z)
| CallQueue (q : queue_ptr) (storage item_size capacity : Z)
| CallLock (m : mutex_ptr) (timeout : Z)
| CallUnlock (m : mutex_ptr)
| CallMutex (m : mutex_ptr) (recursive : bool)
| CallTimer (x : timer_ptr) (name period : Z) (auto_reload : bool) (callback : Z) (argument : option Z)
| CallTimerStart (x : timer_ptr)
| CallTimerStop (x : timer_ptr)
| CallTimerReset (x : timer_ptr)
| CallTimerChangePeriod (x : timer_ptr) (period : Z)
| CallTakePending
| CallCallbackDone (x : timer_ptr).

Definition run_call (c : task_call) (s : kstate) : option kstate :=
  match c with
  | CallYield => snd <$> hr_task_yield s
  | CallDelay n => snd <$> hr_task_delay n s
  | CallDelayUntil last n => snd <$> hr_task_delay_until last n s
  | CallSuspend t => snd <$> hr_task_suspend (Some t) s
  | CallResume t => snd <$> hr_task_resume (Some t) s
  | CallTake x n => snd <$> hr_semaphore_take (Some x) n s
  | CallGive x => snd <$> hr_semaphore_give (Some x) s
  | CallSemaphore x n m => snd <$> hr_semaphore_create_counting (Some x) n m s
  | CallSend q item n => snd <$> hr_queue_send (Some q) (Some item) n s
  | CallReceive q item n => snd <$> hr_queue_receive (Some q) (Some item) n s
  | CallQueue q storage n m => snd <$> hr_queue_create_static (Some q) (Some storage) n m s
  | CallLock m n => snd <$> hr_mutex_lock (Some m) n s
  | CallUnlock m => snd <$> hr_mutex_unlock (Some m) s
  | CallMutex m r => snd <$> hr_mutex_create_internal (Some m) r s
  | CallTimer x name n a f p => snd <$> hr_timer_create_static (Some x) (Some name) n a (Some f) p s
  | CallTimerStart x => snd <$> hr_timer_start (Some x) s
  | CallTimerStop x => snd <$> hr_timer_stop (Some x) s
  | CallTimerReset x => snd <$> hr_timer_reset (Some x) s
  | CallTimerChangePeriod x n => snd <$> hr_timer_change_period (Some x) n s
  | CallTakePending => snd <$> timer_take_pending s
  | CallCallbackDone x => snd <$> timer_callback_done x s
  end.

(** Arguments in the range of their C types; only started tasks other than the
    idle task are suspended and resumed; the two halves of a turn of the timer service,
    between which the callback makes its own calls, belong to the service task. *)
Definition call_ok (s : kstate) (c : task_call) : Prop :=
  match c with
  | CallDelay n | CallTake _ n | CallSend _ _ n | CallReceive _ _ n | CallLock _ n => 0 <= n <= UINT32_MAX
  | CallSuspend t | CallResume t => registered s t /\ t <> g_idle_task
  | CallSemaphore _ n m => 0 <= n /\ m <= UINT32_MAX
  | CallQueue _ _ n m => 0 <= n /\ 0 <= m
  | CallMutex m _ => Z.of_N m < SIZE_MAX
  | CallTimer x _ n _ _ _ => Z.of_N x < SIZE_MAX /\ 0 <= n <= UINT32_MAX
  | CallTimerChangePeriod _ n => 0 <= n <= UINT32_MAX
  | CallTakePending | CallCallbackDone _ => running s g_timer_service_task
  | _ => True
  end.

(** The steps of the system: the tick interrupt, the switch exception, a call of
    the running application task, a semaphore given, a message sent or received from an
    interrupt, the hardware changing the state of the port, the tasks and handlers writing
    the memory of stacks and buffers, and the switch exception saving the stack pointer of
    the task it interrupts. *)
Inductive step : kstate -> kstate -> Prop :=
| step_tick s s' : hr_kernel_tick_from_isr s = Some (tt, s') -> step s s'
| step_pendsv s s' : hr_kernel_select_next_from_pendsv s = Some (tt, s') -> step s s'
| step_call s s' t c : running s t -> t <> g_idle_task -> call_ok s c -> run_call c s = Some s' -> step s s'
| step_give_isr s s' x r : hr_semaphore_give_from_isr (Some x) s = Some (r, s') -> step s s'
| step_send_isr s s' q item r : hr_queue_send_from_isr (Some q) (Some item) s = Some (r, s') -> step s s'
| step_receive_isr s s' q item r : hr_queue_receive_from_isr (Some q) (Some item) s = Some (r, s') -> step s s'
| step_port s p : step s (with_port p s)
| step_memory s words bytes : step s (ks_set_words words (ks_set_bytes bytes s))
| step_save s t sp : g_hr_current_task_control_block (glob s) = Some t ->
    step s (set_task t (t_set_stack_pointer sp (task_at s t)) s).

Inductive reachable : kstate -> Prop :=
| reachable_start s s' : boot s -> hr_kernel_start s = Some (None, s') -> reachable s'
| reachable_step s s' : reachable s -> step s s' -> reachable s'.

Lemma start_inv s : booting s ->
  wp hr_kernel_start (fun r s' => r = None /\ consistent HR_KERNEL_STATE_RUNNING 0 s' /\ exists n, running s' n) s.
Proof.
  intros (D & (V & b & KC & NE & PT) & HK). unfold hr_kernel_start, hr_port_configure_kernel_exceptions, upd_port. wp_steps.
  match goal with |- wp _ _ ?x => set (s0 := x) end.
  assert (KC0 : kcore 0 D s0 V b nobody) by (by repeat apply kcore_port).
  apply (prepare_start_spec 0 D b s0 V); try done. intros s' n KC' RN _ _ _ _ L HT'. wp_step. split; [done|]. split; [|eauto].
  exists D. split; [|apply RN]. exists V, b. split_and!; [done| |done]. intros m. rewrite L. apply NE.
Qed.

(** Every call is defined and keeps the kernel consistent. *)
Lemma call_inv T s t c :
  consistent HR_KERNEL_STATE_RUNNING T s -> running s t -> t <> g_idle_task -> call_ok s c ->
  exists s', run_call c s = Some s' /\ consistent HR_KERNEL_STATE_RUNNING T s'.
Proof.
  intros CS RN Hni Hok.
  assert (HR : forall A (m : M kstate A), wp m (fun _ => consistent HR_KERNEL_STATE_RUNNING T) s ->
    exists s', snd <$> m s = Some s' /\ consistent HR_KERNEL_STATE_RUNNING T s').
  { intros A m (a & s' & E & CS')%wp_run. exists s'. by rewrite E. }
  destruct c; apply HR; simpl in Hok.
  - by apply yield_inv.
  - by apply (delay_inv T t).
  - by apply (delay_until_inv T t).
  - destruct Hok. by apply suspend_inv.
  - destruct Hok. by apply resume_inv.
  - by apply (take_inv T t).
  - by apply give_inv.
  - destruct Hok. by apply semaphore_inv.
  - apply (queue_task_inv T hr_queue_send_locked t); try done. apply send_locked_inv.
  - apply (queue_task_inv T hr_queue_receive_locked t); try done. apply receive_locked_inv.
  - destruct Hok. by apply queue_create_inv.
  - by apply (lock_inv T t).
  - by apply (unlock_inv T t).
  - by apply mutex_create_inv.
  - destruct Hok. apply timer_create_inv; try done. by right.
  - by apply timer_start_inv.
  - by apply timer_stop_inv.
  - by apply timer_reset_inv.
  - by apply timer_change_period_inv.
  - by apply take_pending_inv.
  - by apply callback_done_inv.
Qed.

Lemma step_consistent T s s' : consistent HR_KERNEL_STATE_RUNNING T s -> step s s' ->
  consistent HR_KERNEL_STATE_RUNNING T s' \/ consistent HR_KERNEL_STATE_RUNNING (T + 1) s'.
Proof.
  intros CS St. destruct St as [s0 s1 E|s0 s1 E|s0 s1 t c RN Hni Hok E|s0 s1 x r E|s0 s1 q item r E|s0 s1 q item r E|s0 p|s0 words bytes|s0 t sp _].
  - right. exact (wp_result _ _ _ _ _ (tick_inv T s0 CS) E).
  - left. exact (wp_result _ _ _ _ _ (pendsv_inv T s0 CS) E).
  - left. destruct (call_inv T s0 t c CS RN Hni Hok) as (s2 & E2 & CS2). congruence.
  - left. exact (wp_result _ _ _ _ _ (give_from_isr_inv T x s0 CS) E).
  - left. exact (wp_result _ _ _ _ _ (queue_isr_inv T _ q item s0 (send_locked_inv T) CS) E).
  - left. exact (wp_result _ _ _ _ _ (queue_isr_inv T _ q item s0 (receive_locked_inv T) CS) E).
  - left. by apply consistent_port.
  - left. by apply consistent_memory.
  - left. by apply consistent_save.
Qed.

Lemma reachable_consistent s : stack_fits address_of_g_idle_stack HR_CFG_IDLE_STACK_WORDS ->
  reachable s -> exists T, 0 <= T /\ consistent HR_KERNEL_STATE_RUNNING T s.
Proof.
  intros Hf. induction 1 as [s s' HB E|s s' _ (T & HT & IH) St].
  - apply boot_consistent in HB; [|done]. exists 0. split; [done|].
    exact (proj1 (proj2 (wp_result _ _ _ _ _ (start_inv s HB) E))).
  - destruct (step_consistent T s s' IH St); [by exists T|]. exists (T + 1). split; [lia|done].
Qed.
End boot.
