(* ===== verification/ValidateSpec.v ===== *)
(** The integrity check: [hr_kernel_validate_internal] accepts every consistent state. *)
From stdpp Require Import gmap list.
From Stdlib Require Import ZArith Lia.
From S2P Require Import Prelude Types HrList HrListSpec Store Scheduler SchedulerSpec WaitList WaitListSpec Timeout TimeoutSpec KState TaskCore KernelBase KernelInv MutexPriority Kernel KernelTick KernelTasks KernelSpec KernelSwitch.
Open Scope Z_scope.

Section validate.
Context (T : Z) (D : node_addr -> Z) (s : kstate) (V : view) (b : phase).
Hypothesis KC : kcore T D s V b nobody.
Let KS : kstruct T D s V b := kc_struct _ _ _ _ _ _ KC.

(** The task of a node of the task list, and what the validator counts. *)
Definition counts (f : hr_task_state -> bool) (n : node_addr) : bool :=
  match n with AllTaskNode t => f (t_state (task_at s t)) | _ => false end.
Definition is_running (st : hr_task_state) : bool := bool_decide (st = HR_TASK_STATE_RUNNING).
Definition is_ready (st : hr_task_state) : bool := is_running st || bool_decide (st = HR_TASK_STATE_READY).
Definition number (f : hr_task_state -> bool) (ns : list node_addr) : Z :=
  Z.of_nat (length (filter (fun n => counts f n = true) ns)).

Lemma number_cons f n ns : number f (n :: ns) = (if counts f n then 1 else 0) + number f ns.
Proof. unfold number. rewrite filter_cons. destruct (counts f n); simpl; lia. Qed.

Lemma waiting_fields t : waiting s t ->
  t_wait_kind (task_at s t) <> HR_TASK_WAIT_NONE /\ t_waiting_object (task_at s t) <> None /\
  (if bool_decide (t_wait_kind (task_at s t) = HR_TASK_WAIT_DELAY)
   then negb (is_linked s (WaitNode t)) && is_linked s (TimeoutNode t) else is_linked s (WaitNode t)) = true.
Proof.
  intros [[[W1 W2 _ _ W5] W6]|(o & l & [W1 W2 _ _ _ W6])].
  - rewrite W1, W2, bool_decide_true, (linked_false s _ W5), (linked_true s _ W6) by done. done.
  - rewrite W2, (linked_true s (WaitNode t)) by eauto. split_and!; try done.
    + intros E. rewrite E in W1. by destruct o.
    + rewrite bool_decide_false; [done|]. intros E. rewrite E in W1. by destruct o.
Qed.

Lemma task_state_valid_ok t : task_ok s t -> task_state_valid s t = true.
Proof.
  intros [Hs _]. unfold state_ok in Hs. unfold task_state_valid.
  destruct (t_state (task_at s t)); try done.
  - destruct Hs as [Hr [I1 _ _ _ I5 I6]].
    by rewrite (linked_true s _ Hr), (linked_false s _ I5), (linked_false s _ I6), bool_decide_true.
  - destruct Hs as (Hr & [I1 _ _ _ I5 I6] & Hc).
    by rewrite (linked_true s _ Hr), (linked_false s _ I5), (linked_false s _ I6), !bool_decide_true.
  - destruct Hs as [Hr (W1 & W2 & W3)%waiting_fields]. rewrite W3, (linked_false s _ Hr).
    by rewrite bool_decide_false, bool_decide_true.
  - destruct Hs as [Hr Hs]. rewrite (linked_false s _ Hr). destruct (t_suspended_resume_state (task_at s t)); try done.
    + destruct Hs as [I1 _ _ _ I5 I6]. by rewrite (linked_false s _ I5), (linked_false s _ I6), bool_decide_true.
    + destruct (waiting_fields t Hs) as (W1 & W2 & W3). by rewrite W3, bool_decide_false, bool_decide_true.
Qed.

Lemma validate_loop_spec ys : forall xs fuel r a q,
  V !! AllTasks = Some (xs ++ ys) -> (length ys <= fuel)%nat ->
  validate_tasks_loop fuel s (head (PNode <$> ys)) r a q =
    Some (r + Z.of_nat (length ys), a + number is_ready ys, q + number is_running ys).
Proof.
  induction ys as [|n ys IH]; intros xs fuel r a q HV Hf.
  { destruct fuel; simpl; rewrite !Z.add_0_r; done. }
  destruct fuel as [|fuel]; simpl in Hf; [lia|].
  assert (Hn : node_list s n = Some AllTasks) by (apply (kt_member _ _ _ _ _ KS _ _ _ HV); set_solver).
  pose proof (kt_fits _ _ _ _ _ KS _ _ Hn) as Hfit. destruct n as [| | |t| | |]; try done.
  assert (Hreg : registered s t) by done.
  assert (R := rep_ring _ _ (kt_rep _ _ _ _ _ KS) _ _ HV).
  destruct (kt_prio _ _ _ _ _ KS t Hreg) as (P1 & P2 & _).
  cbn [head fmap list_fmap validate_tasks_loop]. fold (node_owner s (AllTaskNode t)).
  rewrite (kt_owner _ _ _ _ _ KS _ _ Hn). cbn [owner_of].
  rewrite valid_task by (by apply (kc_fixed _ _ _ _ _ _ KC)). cbn [negb].
  rewrite bool_neq_false, P1, P2, !Z.eqb_refl by done. cbn [negb orb].
  rewrite task_state_valid_ok by (apply (kc_tasks _ _ _ _ _ _ KC); [done|intros []]). cbn [negb].
  rewrite (hr_list_next_spec _ _ _ R (AllTaskNode t) xs ys eq_refl).
  rewrite (IH (xs ++ [AllTaskNode t])) by (rewrite <- ?app_assoc; auto with lia).
  rewrite !number_cons. cbn [counts length].
  change (bool_decide (t_state (task_at s t) = HR_TASK_STATE_RUNNING)) with (is_running (t_state (task_at s t))).
  change (is_running (t_state (task_at s t)) || _) with (is_ready (t_state (task_at s t))).
  f_equal. f_equal; [f_equal|].
  - lia.
  - destruct (is_ready (t_state (task_at s t))); lia.
  - destruct (is_running (t_state (task_at s t))); lia.
Qed.

(** The ready and running tasks are those of the ready set. *)
Lemma ready_number ats : V !! AllTasks = Some ats -> number is_ready ats = Z.of_nat (length (ready_seq V g_scheduler)).
Proof.
  intros HA. unfold number. f_equal.
  set (g := fun n => match n with AllTaskNode t => ReadyNode t | _ => n end).
  set (rs := filter _ ats). rewrite <- (length_fmap g rs).
  pose proof (kt_nodup _ _ _ _ _ KS _ _ HA) as NA.
  assert (Hat : forall n, n ∈ ats -> exists t, n = AllTaskNode t /\ registered s t).
  { intros n Hn. apply (kt_member _ _ _ _ _ KS _ _ _ HA) in Hn. pose proof (kt_fits _ _ _ _ _ KS _ _ Hn) as Hf.
    destruct n as [| | |t| | |]; try done. by exists t. }
  assert (Hr : forall t, registered s t ->
    is_ready (t_state (task_at s t)) = true <-> is_Some (node_list s (ReadyNode t))).
  { intros t Ht. pose proof (to_state _ _ (kc_tasks _ _ _ _ _ _ KC t Ht ltac:(intros []))) as Hs. unfold state_ok in Hs.
    destruct (t_state (task_at s t)); try done.
    - split; [tauto|done].
    - split; [tauto|done].
    - destruct Hs as [-> _]. split; [done|by intros []].
    - destruct Hs as [-> _]. split; [done|by intros []]. }
  apply Permutation_length, NoDup_Permutation.
  - apply NoDup_fmap_2_strong; [|by apply NoDup_filter]. intros x y Hx Hy.
    apply list_elem_of_filter in Hx as [_ (t & -> & _)%Hat]. apply list_elem_of_filter in Hy as [_ (u & -> & _)%Hat].
    simpl. congruence.
  - apply joined_nodup; [apply levels_nodup| |].
    + intros p Hp. unfold queue. destruct (V !! ReadyQueue g_scheduler p) eqn:E; simpl; [apply (kt_nodup _ _ _ _ _ KS _ _ E)|constructor].
    + intros p q x _ _ Hx Hy. apply (ready_member _ _ _ _ _ KS) in Hx, Hy. congruence.
  - intros n. rewrite list_elem_of_fmap. split.
    + intros (m & -> & Hm). apply list_elem_of_filter in Hm as [Hc (t & -> & Ht)%Hat]. simpl.
      apply (ready_member_of T D s V b t KS). by apply Hr.
    + intros Hn. apply ready_seq_elem in Hn as (p & Hp & Hn). apply (ready_member _ _ _ _ _ KS) in Hn.
      pose proof (kt_fits _ _ _ _ _ KS _ _ Hn) as Hf. destruct n as [t| | | | | |]; try done.
      assert (Ht : registered s t) by (by eapply (kt_registered _ _ _ _ _ KS)).
      exists (AllTaskNode t). split; [done|]. apply list_elem_of_filter. split; [apply Hr; eauto|].
      by apply (kt_member _ _ _ _ _ KS _ _ _ HA).
Qed.

(** The current task is the only running one. *)
Lemma running_number ats t : V !! AllTasks = Some ats -> registered s t -> g_current_task (glob s) = Some t ->
  t_state (task_at s t) = HR_TASK_STATE_RUNNING -> number is_running ats = 1.
Proof.
  intros HA Ht Hc Est. unfold number. pose proof (kt_nodup _ _ _ _ _ KS _ _ HA) as NA.
  assert (E : filter (fun n => counts is_running n = true) ats ≡ₚ [AllTaskNode t]); [|by rewrite E].
  apply NoDup_Permutation; [by apply NoDup_filter|apply NoDup_singleton|]. intros n.
  rewrite list_elem_of_filter, list_elem_of_singleton. split.
  - intros [Hn Hin]. apply (kt_member _ _ _ _ _ KS _ _ _ HA) in Hin. pose proof (kt_fits _ _ _ _ _ KS _ _ Hin) as Hf.
    destruct n as [| | |u| | |]; try done. simpl in Hn. apply bool_decide_eq_true in Hn.
    pose proof (running_is_current T D b s V u KC Hin Hn). congruence.
  - intros ->. simpl. unfold is_running. rewrite bool_decide_true by done. split; [done|].
    by apply (kt_member _ _ _ _ _ KS _ _ _ HA).
Qed.

Lemma validate_running t : g_kernel_state (glob s) = HR_KERNEL_STATE_RUNNING -> running s t ->
  hr_kernel_validate_internal s = true.
Proof.
  intros HK [_ Hc Est]. destruct (kt_all _ _ _ _ _ KS) as (ats & HA & Hct & _).
  assert (R := rep_ring _ _ (kt_rep _ _ _ _ _ KS) _ _ HA).
  unfold hr_kernel_validate_internal, hr_scheduler_validate, hr_scheduler_ready_count.
  rewrite (ready_set_validate_complete _ _ _ (kt_rep _ _ _ _ _ KS) (kt_ready _ _ _ _ _ KS)).
  rewrite (validate_complete _ _ _ R), (timeout_validate_complete _ _ _ _ _ _ (kt_rep _ _ _ _ _ KS) (kt_timeout _ _ _ _ _ KS)).
  rewrite (hr_list_size_spec _ _ _ R), Hct, Z.eqb_refl. cbn [negb orb].
  rewrite (hr_list_front_spec _ _ _ R), (validate_loop_spec ats []); [|done|].
  2: { unfold scan_fuel. rewrite (ring_size _ _ _ R). lia. }
  destruct (kc_globals _ _ _ _ _ _ KC) as [_ Hg]. rewrite HK in Hg. destruct Hg as (c & Hc' & Hh & Hreg).
  assert (c = t) as -> by congruence.
  rewrite (ready_number ats HA), (running_number ats t HA Hreg Hc Est). unfold hr_ready_set_size.
  rewrite (rr_count _ _ _ (kt_ready _ _ _ _ _ KS)), !Z.add_0_l, Hct, !Z.eqb_refl, HK, Hc, Hh. cbn [negb orb].
  by rewrite !bool_decide_true.
Qed.
End validate.
