(* ===== verification/Scenario.v ===== *)
(** A concrete system, built by the model's own start-up calls: the idle task, the
    tasks 2 (priority 3) and 3 (priority 5) and the semaphore 1.  The states below
    are those the properties are instantiated at. *)
From stdpp Require Import gmap list.
From Stdlib Require Import ZArith Lia.
From S2P Require Import Prelude Types HrList HrListSpec Store Scheduler SchedulerSpec Timeout TimeoutSpec KState PortStack PortStackSpec TaskCore KernelBase KernelInv MutexPriority Kernel Semaphore Timer KernelTick TaskApi KernelTasks KernelSpec KernelSwitch SemaphoreSpec KernelInitSpec KernelTickSpec SystemSpec.
Open Scope Z_scope.

#[export] Existing Instance default_config.

Lemma run_some {S A} (m : M S A) s a : fst <$> m s = Some a -> m s = Some (a, run_state m s).
Proof. unfold run_state. destruct (m s) as [[x s']|]; simpl; [|done]. by intros [= ->]. Qed.
Lemma run_snd {S A} (m : M S A) s : is_Some (fst <$> m s) -> snd <$> m s = Some (run_state m s).
Proof. unfold run_state. destruct (m s) as [[x s']|]; simpl; [done|by intros []]. Qed.

Abbreviation spawn_create t low priority :=
  (hr_task_create_static (Some t) (Some 0x08005000) (Some 0x08000101) None (Some low) 64 priority).

Definition s_init : kstate := run_state hr_kernel_init reset_state.
Definition s_created : kstate := run_state (spawn_create 2%N 0x20001000 3) s_init.
Definition s_spawn2 : kstate := run_state (hr_task_start (Some 2%N)) s_created.
Definition s_spawn3 : kstate :=
  run_state (hr_task_start (Some 3%N)) (run_state (spawn_create 3%N 0x20002000 5) s_spawn2).
Definition s_sem : kstate := run_state (hr_semaphore_create_counting (Some 1%N) 0 2) s_spawn3.
(** Task 2 runs, task 3 is ready. *)
Definition s_run : kstate := run_state hr_kernel_start s_sem.

Lemma idle_stack_fits : stack_fits address_of_g_idle_stack HR_CFG_IDLE_STACK_WORDS.
Proof. unfold stack_fits. vm_compute. intuition congruence. Qed.

Ltac runs := apply run_some; vm_compute; reflexivity.

Lemma runs_init : hr_kernel_init reset_state = Some (HR_OK, s_init).
Proof. unfold s_init. runs. Qed.
Lemma runs_created : spawn_create 2%N 0x20001000 3 s_init = Some (HR_OK, s_created).
Proof. unfold s_created. runs. Qed.
Lemma runs_spawn2 : hr_task_start (Some 2%N) s_created = Some (HR_OK, s_spawn2).
Proof. unfold s_spawn2. runs. Qed.
Lemma runs_created3 :
  spawn_create 3%N 0x20002000 5 s_spawn2 = Some (HR_OK, run_state (spawn_create 3%N 0x20002000 5) s_spawn2).
Proof. runs. Qed.
Lemma runs_spawn3 :
  hr_task_start (Some 3%N) (run_state (spawn_create 3%N 0x20002000 5) s_spawn2) = Some (HR_OK, s_spawn3).
Proof. unfold s_spawn3. runs. Qed.
Lemma runs_sem : hr_semaphore_create_counting (Some 1%N) 0 2 s_spawn3 = Some (HR_OK, s_sem).
Proof. unfold s_sem. runs. Qed.
Lemma runs_start : hr_kernel_start s_sem = Some (None, s_run).
Proof. unfold s_run. runs. Qed.

Lemma stack_fits_example low : low = 0x20001000 \/ low = 0x20002000 -> stack_fits low 64.
Proof. unfold stack_fits. intros [-> | ->]; vm_compute; intuition congruence. Qed.

Lemma boot_s_sem : boot s_sem.
Proof.
  pose proof (boot_init s_init runs_init) as B0.
  pose proof (boot_spawn s_init s_created s_spawn2 2%N 0x08005000 0x08000101 None 0x20001000 64 3 B0
    (stack_fits_example _ (or_introl eq_refl)) ltac:(lia) runs_created runs_spawn2) as B2.
  pose proof (boot_spawn s_spawn2 _ s_spawn3 3%N 0x08005000 0x08000101 None 0x20002000 64 5 B2
    (stack_fits_example _ (or_intror eq_refl)) ltac:(lia) runs_created3 runs_spawn3) as B3.
  exact (boot_semaphore s_spawn3 s_sem 1%N 0 2 B3 ltac:(lia) ltac:(unfold UINT32_MAX; lia) runs_sem).
Qed.

Lemma reachable_s_run : reachable s_run.
Proof. exact (reachable_start s_sem s_run boot_s_sem runs_start). Qed.

Lemma running_s_run : running s_run 2%N.
Proof. split; vm_compute; reflexivity. Qed.

(** The invariant at a reachable state, for the witnesses. *)
Lemma reachable_kcore s : reachable s -> exists T D V b, 0 <= T /\ kcore T D s V b nobody /\ no_expired s /\
  g_kernel_state (glob s) = HR_KERNEL_STATE_RUNNING /\ ph_timers b = T.
Proof.
  intros HR. destruct (reachable_consistent s idle_stack_fits HR) as (T & HT & D & (V & b & KC & NE & PT) & HK).
  exists T, D, V, b. exact (conj HT (conj KC (conj NE (conj HK PT)))).
Qed.
Lemma s_run_consistent : exists T D V b, 0 <= T /\ kcore T D s_run V b nobody /\ no_expired s_run /\
  g_kernel_state (glob s_run) = HR_KERNEL_STATE_RUNNING /\ ph_timers b = T.
Proof. exact (reachable_kcore s_run reachable_s_run). Qed.

(** A level of the ready set of a concrete state. *)
Lemma queue_contents T D s V b p : kcore T D s V b nobody -> 0 <= p < HR_CFG_PRIORITY_COUNT ->
  queue V g_scheduler p = contents (st_lists (ks_store s)) (ReadyQueue g_scheduler p).
Proof.
  intros KC Hp. pose proof (kc_struct _ _ _ _ _ _ KC) as KS. eapply rep_contents; [apply KS|].
  by apply (rr_queue _ _ _ (kt_ready _ _ _ _ _ KS)).
Qed.
Lemma view_contents T D s V b l ns : kcore T D s V b nobody -> V !! l = Some ns ->
  ns = contents (st_lists (ks_store s)) l.
Proof. intros KC. apply rep_contents, (kc_struct _ _ _ _ _ _ KC). Qed.

(** Two tasks of the same priority, the running one has just yielded. *)
Definition s_created4 : kstate := run_state (spawn_create 4%N 0x20003000 3) s_spawn2.
Definition s_spawn4 : kstate := run_state (hr_task_start (Some 4%N)) s_created4.
Definition s_peers : kstate := run_state hr_kernel_start s_spawn4.
Definition s_yield : kstate := run_state hr_task_yield s_peers.

Lemma runs_created4 : spawn_create 4%N 0x20003000 3 s_spawn2 = Some (HR_OK, s_created4).
Proof. unfold s_created4. runs. Qed.
Lemma runs_spawn4 : hr_task_start (Some 4%N) s_created4 = Some (HR_OK, s_spawn4).
Proof. unfold s_spawn4. runs. Qed.
Lemma runs_peers : hr_kernel_start s_spawn4 = Some (None, s_peers).
Proof. unfold s_peers. runs. Qed.
Lemma runs_yield : run_call CallYield s_peers = Some s_yield.
Proof. cbn [run_call]. unfold s_yield. apply run_snd. vm_compute. eexists. reflexivity. Qed.

Lemma reachable_s_yield : reachable s_yield.
Proof.
  assert (B2 : boot s_spawn2).
  { exact (boot_spawn s_init s_created s_spawn2 2%N 0x08005000 0x08000101 None 0x20001000 64 3 (boot_init s_init runs_init)
      (stack_fits_example _ (or_introl eq_refl)) ltac:(lia) runs_created runs_spawn2). }
  assert (HF : stack_fits 0x20003000 64) by (unfold stack_fits; vm_compute; intuition congruence).
  pose proof (boot_spawn s_spawn2 s_created4 s_spawn4 4%N 0x08005000 0x08000101 None 0x20003000 64 3 B2 HF
    ltac:(lia) runs_created4 runs_spawn4) as B4.
  assert (RN : running s_peers 2%N) by (split; vm_compute; reflexivity).
  eapply reachable_step; [exact (reachable_start s_spawn4 s_peers B4 runs_peers)|].
  eapply (step_call s_peers s_yield 2%N CallYield RN); [discriminate|exact I|exact runs_yield].
Qed.

(** Task 2 waits on the semaphore, task 3 runs. *)
Definition s_wait : kstate := run_state (hr_semaphore_take (Some 1%N) HR_WAIT_FOREVER) s_run.
Definition s_waited : kstate := run_state hr_kernel_select_next_from_pendsv s_wait.
Lemma runs_wait : run_call (CallTake 1%N HR_WAIT_FOREVER) s_run = Some s_wait.
Proof. cbn [run_call]. unfold s_wait. apply run_snd. vm_compute. eexists. reflexivity. Qed.
Lemma runs_waited : hr_kernel_select_next_from_pendsv s_wait = Some (tt, s_waited).
Proof. unfold s_waited. runs. Qed.
Lemma reachable_s_waited : reachable s_waited.
Proof.
  eapply reachable_step; [|exact (step_pendsv _ _ runs_waited)].
  eapply reachable_step; [exact reachable_s_run|].
  eapply (step_call s_run s_wait 2%N _ running_s_run); [discriminate| |exact runs_wait].
  vm_compute. intuition congruence.
Qed.
Lemma running_s_waited : running s_waited 3%N.
Proof. split; vm_compute; reflexivity. Qed.
