(* ===== verification/ListProps.v ===== *)
(** Properties of the intrusive list: any sequence of list calls behaves like the
    same sequence of operations on mathematical sequences, and the validator
    accepts exactly the well-formed lists. *)
From stdpp Require Import gmap list.
From Stdlib Require Import ZArith Lia.
From S2P Require Import Prelude Types HrList HrListSpec.
Open Scope Z_scope.

(** ** The abstract lists *)

Inductive list_op : Type :=
| PushBack (l : list_addr) (n : node_addr)
| PushFront (l : list_addr) (n : node_addr)
| InsertBefore (l : list_addr) (m n : node_addr)
| Remove (n : node_addr)
| PopFront (l : list_addr)
| PopBack (l : list_addr).

Inductive list_result : Type :=
| Status (st : hr_status)
| Popped (n : option node_addr).

Definition absent (V : gmap list_addr (list node_addr)) (n : node_addr) : Prop := forall l ns, V !! l = Some ns -> n ∉ ns.
Definition roomy (ns : list node_addr) : Prop := Z.of_nat (length ns) < SIZE_MAX.

(** What each call on an initialised list with room does to the sequences: one rule per branch
    of the code.  (The counter of a list has no check: a list that fills the address space is
    left out.) *)
Inductive abs_step (V : gmap list_addr (list node_addr)) : list_op -> list_result -> gmap list_addr (list node_addr) -> Prop :=
| abs_push_back l n ns : V !! l = Some ns -> absent V n -> roomy ns ->
    abs_step V (PushBack l n) (Status HR_OK) (<[l := ns ++ [n]]> V)
| abs_push_back_linked l n l' ns ns' : V !! l = Some ns -> V !! l' = Some ns' -> n ∈ ns' ->
    abs_step V (PushBack l n) (Status HR_ERROR_INVALID_STATE) V
| abs_push_front l n ns : V !! l = Some ns -> absent V n -> roomy ns ->
    abs_step V (PushFront l n) (Status HR_OK) (<[l := n :: ns]> V)
| abs_push_front_linked l n l' ns ns' : V !! l = Some ns -> V !! l' = Some ns' -> n ∈ ns' ->
    abs_step V (PushFront l n) (Status HR_ERROR_INVALID_STATE) V
| abs_insert_before l m n xs ys : V !! l = Some (xs ++ m :: ys) -> absent V n -> roomy (xs ++ m :: ys) ->
    abs_step V (InsertBefore l m n) (Status HR_OK) (<[l := xs ++ n :: m :: ys]> V)
| abs_insert_elsewhere l m n ns : V !! l = Some ns -> m ∉ ns ->
    abs_step V (InsertBefore l m n) (Status HR_ERROR_INVALID_STATE) V
| abs_insert_linked l m n l' xs ys ns' : V !! l = Some (xs ++ m :: ys) -> V !! l' = Some ns' -> n ∈ ns' ->
    abs_step V (InsertBefore l m n) (Status HR_ERROR_INVALID_STATE) V
| abs_remove l n xs ys : V !! l = Some (xs ++ n :: ys) ->
    abs_step V (Remove n) (Status HR_OK) (<[l := xs ++ ys]> V)
| abs_remove_absent n : absent V n -> abs_step V (Remove n) (Status HR_ERROR_INVALID_STATE) V
| abs_pop_front l n ns : V !! l = Some (n :: ns) -> abs_step V (PopFront l) (Popped (Some n)) (<[l := ns]> V)
| abs_pop_front_empty l : V !! l = Some [] -> abs_step V (PopFront l) (Popped None) V
| abs_pop_back l n ns : V !! l = Some (ns ++ [n]) -> abs_step V (PopBack l) (Popped (Some n)) (<[l := ns]> V)
| abs_pop_back_empty l : V !! l = Some [] -> abs_step V (PopBack l) (Popped None) V.

Inductive abs_run : gmap list_addr (list node_addr) -> list list_op -> list list_result -> gmap list_addr (list node_addr) -> Prop :=
| abs_run_nil V : abs_run V [] [] V
| abs_run_cons V V1 V2 op ops r rs : abs_step V op r V1 -> abs_run V1 ops rs V2 -> abs_run V (op :: ops) (r :: rs) V2.

(** ** The calls *)

Definition popped (p : option nptr) : option list_result :=
  match p with
  | None => Some (Popped None)
  | Some (PNode n) => Some (Popped (Some n))
  | Some (PRoot _) => None
  end.
Definition exec_op (op : list_op) (h : lmem) : option (list_result * lmem) :=
  let status (m : M lmem hr_status) := (fun r : hr_status * lmem => (Status r.1, r.2)) <$> m h in
  let pop (m : M lmem (option nptr)) := r ← m h; x ← popped r.1; Some (x, r.2) in
  match op with
  | PushBack l n => status (hr_list_push_back (Some l) (Some (PNode n)))
  | PushFront l n => status (hr_list_push_front (Some l) (Some (PNode n)))
  | InsertBefore l m n => status (hr_list_insert_before (Some l) (Some (PNode m)) (Some (PNode n)))
  | Remove n => status (hr_list_remove (Some (PNode n)))
  | PopFront l => pop (hr_list_pop_front (Some l))
  | PopBack l => pop (hr_list_pop_back (Some l))
  end.
Fixpoint exec_ops (ops : list list_op) (h : lmem) : option (list list_result * lmem) :=
  match ops with
  | [] => Some ([], h)
  | op :: ops' =>
      '(r, h1) ← exec_op op h;
      '(rs, h2) ← exec_ops ops' h1;
      Some (r :: rs, h2)
  end.

(** ** Refinement of one call *)

Lemma pop_back_spec h V l ns Q :
  lists_rep h V -> V !! l = Some ns ->
  (ns = [] -> Q None h) ->
  (forall n ns' h', ns = ns' ++ [n] -> lists_rep h' (<[l := ns']> V) -> Q (Some (PNode n)) h') ->
  wp (hr_list_pop_back (Some l)) Q h.
Proof.
  intros Rep Hl K0 K1. unfold hr_list_pop_back. wp_step. wp_step.
  rewrite (hr_list_back_spec _ _ _ (rep_ring _ _ Rep _ _ Hl)).
  destruct ns as [|n ns' _] using rev_ind; [simpl; wp_steps; auto|]. rewrite fmap_app. cbn [fmap list_fmap]. rewrite last_snoc. wp_steps.
  apply (hr_list_remove_spec h V l n Rep ns' []); [done|]. intros h' Rep' F. rewrite app_nil_r in Rep'.
  wp_steps. rewrite bool_decide_false by tauto. by apply (K1 n ns').
Qed.

Lemma insert_linked_rejected h l a c n : list_of (node_at h (PNode n)) <> None ->
  hr_list_insert_between (Some l) (Some a) (Some c) (Some (PNode n)) h = Some (HR_ERROR_INVALID_STATE, h).
Proof. intros Hn. unfold hr_list_insert_between, bindM, getM. by rewrite bool_decide_true. Qed.

Lemma status_step (m : M lmem hr_status) h st V' :
  wp m (fun st' h' => st' = st /\ lists_rep h' V') h ->
  exists h', (fun r : hr_status * lmem => (Status r.1, r.2)) <$> m h = Some (Status st, h') /\ lists_rep h' V'.
Proof. intros (a & h' & -> & -> & Rep)%wp_run. by exists h'. Qed.
Lemma pop_step (m : M lmem (option nptr)) h n V' :
  wp m (fun p h' => p = PNode <$> n /\ lists_rep h' V') h ->
  exists h', (r ← m h; x ← popped r.1; Some (x, r.2)) = Some (Popped n, h') /\ lists_rep h' V'.
Proof. intros (a & h' & -> & -> & Rep)%wp_run. exists h'. by destruct n. Qed.

Lemma absent_unlinked h V n : lists_rep h V -> absent V n -> list_of (node_at h (PNode n)) = None.
Proof. intros Rep Ha. by apply (rep_unlinked_iff h V Rep). Qed.
Lemma member_linked h V n l ns : lists_rep h V -> V !! l = Some ns -> n ∈ ns -> list_of (node_at h (PNode n)) <> None.
Proof. intros Rep Hl Hn. apply (rep_member_iff h V Rep _ _ _ Hl) in Hn. congruence. Qed.

Lemma exec_op_refines h V op r V' : lists_rep h V -> abs_step V op r V' ->
  exists h', exec_op op h = Some (r, h') /\ lists_rep h' V'.
Proof.
  intros Rep St. destruct St as [l n ns Hl Ha Hr|l n l' ns ns' Hl Hl' Hn|l n ns Hl Ha Hr|l n l' ns ns' Hl Hl' Hn
    |l m n xs ys Hl Ha Hr|l m n ns Hl Hm|l m n l' xs ys ns' Hl Hl' Hn|l n xs ys Hl|n Ha|l n ns Hl|l Hl|l n ns Hl|l Hl];
    try apply status_step; try apply pop_step.
  - apply (hr_list_push_back_spec h V l n Rep ns); try done. by eapply absent_unlinked.
  - unfold hr_list_push_back. wp_steps. rewrite (ring_back _ _ _ (rep_ring _ _ Rep _ _ Hl)).
    eapply wp_intro; [apply insert_linked_rejected; by eapply member_linked|done].
  - apply (hr_list_push_front_spec h V l n Rep ns); try done. by eapply absent_unlinked.
  - unfold hr_list_push_front. wp_steps. rewrite (ring_front _ _ _ (rep_ring _ _ Rep _ _ Hl)).
    eapply wp_intro; [apply insert_linked_rejected; by eapply member_linked|done].
  - apply (hr_list_insert_before_spec h V l n Rep m xs ys); try done. by eapply absent_unlinked.
  - unfold hr_list_insert_before. wp_steps.
    + done.
    + exfalso. apply bool_decide_eq_false, dec_stable in Heqb. by apply Hm, (rep_member_iff h V Rep _ _ _ Hl).
  - pose proof (rep_ring _ _ Rep _ _ Hl) as R. unfold hr_list_insert_before. wp_step. wp_step.
    rewrite (ring_members _ _ _ R m) by set_solver. rewrite bool_decide_false by tauto.
    destruct (ring_neighbours _ _ _ _ _ R) as [-> _]. eapply wp_intro; [apply insert_linked_rejected; by eapply member_linked|done].
  - by apply (hr_list_remove_spec h V l n Rep xs ys).
  - unfold hr_list_remove. wp_steps. rewrite (absent_unlinked h V n Rep Ha). by wp_steps.
  - apply (hr_list_pop_front_spec h V l _ _ Rep Hl); [done|]. by intros n' ns' h' [= -> ->].
  - apply (hr_list_pop_front_spec h V l _ _ Rep Hl); done.
  - apply (pop_back_spec h V l _ _ Rep Hl); [by destruct ns|]. by intros n' ns' h' [-> [= ->]]%app_inj_tail_iff.
  - apply (pop_back_spec h V l _ _ Rep Hl); [done|]. by intros n' [|] h'.
Qed.

(** The rules leave out no call on lists that have room. *)
Lemma abs_step_total V op : (forall l ns, V !! l = Some ns -> roomy ns) ->
  match op with
  | PushBack l _ | PushFront l _ | InsertBefore l _ _ | PopFront l | PopBack l => is_Some (V !! l)
  | Remove _ => True
  end -> exists r V', abs_step V op r V'.
Proof.
  intros HR. assert (HA : forall n, absent V n \/ exists l' ns', V !! l' = Some ns' /\ n ∈ ns').
  { intros n. destruct (decide (map_Exists (fun _ ns => n ∈ ns) V)) as [(l' & ns' & ? & ?)|N]; [right; eauto|left].
    intros l' ns' Hl' Hn. apply N. by exists l', ns'. }
  destruct op as [l n|l n|l m n|n|l|l]; [intros [ns Hl]..|intros _|intros [ns Hl]|intros [ns Hl]]; try destruct (HA n) as [Ha|(l' & ns' & Hl' & Hn)].
  - eauto using abs_push_back.
  - eauto using abs_push_back_linked.
  - eauto using abs_push_front.
  - eauto using abs_push_front_linked.
  - destruct (decide (m ∈ ns)) as [(xs & ys & ->)%list_elem_of_split|]; eauto using abs_insert_before, abs_insert_elsewhere.
  - destruct (decide (m ∈ ns)) as [(xs & ys & ->)%list_elem_of_split|]; eauto using abs_insert_linked, abs_insert_elsewhere.
  - eauto using abs_remove_absent.
  - apply list_elem_of_split in Hn as (xs & ys & ->). eauto using abs_remove.
  - destruct ns; eauto using abs_pop_front, abs_pop_front_empty.
  - destruct ns as [|n ns _] using rev_ind; eauto using abs_pop_back, abs_pop_back_empty.
Qed.

(** ** Properties *)

(** C28: Any sequence of list calls (push at either end, ordered insertion, removal,
    pop at either end, including the calls rejected because a node is already
    linked or not linked) on initialised pointer-level lists with room returns the results of the
    same operations on sequences, and leaves the pointers representing the
    resulting sequences. *)
Theorem list_calls_refine_sequences h V ops rs V' :
  lists_rep h V -> abs_run V ops rs V' ->
  exists h', exec_ops ops h = Some (rs, h') /\ lists_rep h' V'.
Proof.
  intros Rep Run. revert h Rep. induction Run as [V|V V1 V2 op ops r rs St _ IH]; intros h Rep; [by exists h|].
  destruct (exec_op_refines h V op r V1 Rep St) as (h1 & E1 & Rep1).
  destruct (IH h1 Rep1) as (h2 & E2 & Rep2). exists h2. split; [|done]. simpl. rewrite E1. simpl. by rewrite E2.
Qed.

Definition example_view : gmap list_addr (list node_addr) := <[PendingTimers := []]> ∅.
Definition example_lists : lmem := inited empty_lmem PendingTimers.
Lemma example_rep : lists_rep example_lists example_view.
Proof. apply rep_inited; [apply rep_empty|]. left. apply lookup_empty. Qed.

Lemma example_member (V : gmap list_addr (list node_addr)) (ns : list node_addr) n :
  n ∉ ns -> absent (<[PendingTimers := ns]> ∅) n.
Proof.
  intros Hn l ns' Hl. destruct (decide (PendingTimers = l)) as [<-|Hne].
  - rewrite lookup_insert_eq in Hl. by injection Hl as <-.
  - by rewrite lookup_insert_ne, lookup_empty in Hl.
Qed.

Definition n1 : node_addr := TimerPendingNode 1.
Definition n2 : node_addr := TimerPendingNode 2.

Lemma list_calls_refine_sequences_witness :
  lists_rep example_lists example_view /\
  abs_run example_view [PushBack PendingTimers n1; PushFront PendingTimers n2; PushBack PendingTimers n1; PopFront PendingTimers]
    [Status HR_OK; Status HR_OK; Status HR_ERROR_INVALID_STATE; Popped (Some n2)] (<[PendingTimers := [n1]]> ∅) /\
  exists h', exec_ops [PushBack PendingTimers n1; PushFront PendingTimers n2; PushBack PendingTimers n1; PopFront PendingTimers]
    example_lists = Some ([Status HR_OK; Status HR_OK; Status HR_ERROR_INVALID_STATE; Popped (Some n2)], h') /\
    lists_rep h' (<[PendingTimers := [n1]]> ∅).
Proof.
  assert (Run : abs_run example_view
    [PushBack PendingTimers n1; PushFront PendingTimers n2; PushBack PendingTimers n1; PopFront PendingTimers]
    [Status HR_OK; Status HR_OK; Status HR_ERROR_INVALID_STATE; Popped (Some n2)] (<[PendingTimers := [n1]]> ∅)).
  { unfold example_view. eapply abs_run_cons; [apply abs_push_back; [apply lookup_insert_eq|apply (example_member ∅); set_solver|done]|].
    rewrite insert_insert_eq.
    eapply abs_run_cons; [apply abs_push_front; [apply lookup_insert_eq|apply (example_member ∅); set_solver|done]|].
    rewrite insert_insert_eq.
    eapply abs_run_cons; [eapply abs_push_back_linked; [apply lookup_insert_eq|apply lookup_insert_eq|set_solver]|].
    eapply abs_run_cons; [apply abs_pop_front; apply lookup_insert_eq|]. rewrite insert_insert_eq. constructor. }
  split; [exact example_rep|]. split; [exact Run|].
  exact (list_calls_refine_sequences example_lists example_view _ _ _ example_rep Run).
Defined.

(** [hr_list_validate] accepts a list head exactly when the pointers form a ring
    of [size] distinct nodes that all point back to the list (in a memory where
    no other list head claims to be a member, and a list is smaller than the
    address space). *)
Theorem list_validate_iff h l :
  roots_sane h l -> 0 <= size_at h l < SIZE_MAX ->
  hr_list_validate h (Some l) = true <-> exists ns, ring h l ns.
Proof. intros Hs Hb. split; [by apply validate_sound|]. intros [ns R]. by apply (validate_complete h l ns). Qed.

Lemma list_validate_iff_witness :
  roots_sane example_lists PendingTimers /\ 0 <= size_at example_lists PendingTimers < SIZE_MAX /\
  (hr_list_validate example_lists (Some PendingTimers) = true <-> exists ns, ring example_lists PendingTimers ns).
Proof.
  assert (Hs : roots_sane example_lists PendingTimers).
  { intros l Hl. destruct (decide (l = PendingTimers)) as [|Hne]; [done|]. exfalso. revert Hl.
    unfold example_lists, inited. rewrite node_at_upd_size, !node_at_upd_node.
    repeat (destruct (decide _) as [[= E]|_]; [by subst|]). done. }
  assert (Hb : 0 <= size_at example_lists PendingTimers < SIZE_MAX) by (vm_compute; split; congruence).
  split; [exact Hs|]. split; [exact Hb|]. exact (list_validate_iff example_lists PendingTimers Hs Hb).
Defined.
