(* ===== verification/StructureProps.v ===== *)
(** Properties of the kernel's data structures: the ready set, the wait lists and
    the two-half timeout list. *)
From stdpp Require Import gmap list.
From Stdlib Require Import ZArith Lia.
From S2P Require Import Prelude Types HrList HrListSpec Store Scheduler SchedulerSpec WaitList WaitListSpec Timeout TimeoutSpec KState KernelInv KernelTasks KernelSpec KernelSwitch KernelTickSpec Scenario.
Open Scope Z_scope.

(** ** The ready set *)

(** Adding a node to the scheduler appends it to the queue of its priority; the
    bitmap and the counter stay exact (the new ready set is again represented)
    and no other node or ready set changes. *)
Theorem scheduler_add_ready_appends s V a n :
  let p := priority_at s n in
  lists_rep (st_lists s) V -> ready_rep s V a -> 0 <= p < HR_CFG_PRIORITY_COUNT ->
  list_of (node_at (st_lists s) (PNode n)) = None -> Z.of_nat (length (ready_seq V a)) < SIZE_MAX ->
  exists s', hr_scheduler_add_ready (Some a) (Some n) s = Some (HR_OK, s') /\
    let V' := <[ReadyQueue a p := queue V a p ++ [n]]> V in
    lists_rep (st_lists s') V' /\ ready_rep s' V' a /\ ready_frame s s' a n (Some (ReadyQueue a p)).
Proof.
  intros p Rep RR Hp U Hb. apply wp_returns, (ready_set_insert_spec s V a n); done.
Qed.

Lemma scheduler_add_ready_appends_witness : exists V s',
  lists_rep (st_lists (ks_store s_run)) V /\ ready_rep (ks_store s_run) V g_scheduler /\
  hr_scheduler_add_ready (Some g_scheduler) (Some (ReadyNode 9)) (ks_store s_run) = Some (HR_OK, s') /\
  ready_rep s' (<[ReadyQueue g_scheduler 0 := queue V g_scheduler 0 ++ [ReadyNode 9]]> V) g_scheduler.
Proof.
  destruct s_run_consistent as (T & D & V & b & _ & KC & _). pose proof (kc_struct _ _ _ _ _ _ KC) as KS.
  destruct (scheduler_add_ready_appends (ks_store s_run) V g_scheduler (ReadyNode 9)) as (s' & E & _ & RR & _).
  - apply KS.
  - apply KS.
  - vm_compute. split; congruence.
  - vm_compute. reflexivity.
  - pose proof (ready_seq_bound _ _ _ _ _ KS). unfold SIZE_MAX, HR_CFG_MAX_TASKS in *. lia.
  - exists V, s'. split; [apply KS|]. split; [apply KS|]. split; [exact E|].
    assert (Hp : priority_at (ks_store s_run) (ReadyNode 9) = 0) by (vm_compute; reflexivity).
    rewrite Hp in RR. exact RR.
Defined.

(** Removing a ready node takes it out of its queue, clears the bitmap bit exactly
    when the queue becomes empty and keeps the counter exact. *)
Theorem scheduler_remove_ready_exact s V a n xs ys :
  let p := priority_at s n in
  lists_rep (st_lists s) V -> ready_rep s V a -> 0 <= p < HR_CFG_PRIORITY_COUNT -> queue V a p = xs ++ n :: ys ->
  exists s', hr_scheduler_remove_ready (Some a) (Some n) s = Some (HR_OK, s') /\
    let V' := <[ReadyQueue a p := xs ++ ys]> V in
    lists_rep (st_lists s') V' /\ ready_rep s' V' a /\ ready_frame s s' a n None /\
    Z.testbit (bitmap (ready_at s' a)) p = bool_decide (xs ++ ys <> []).
Proof.
  intros p Rep RR Hp Hq. apply wp_returns, (ready_set_remove_spec s V a n xs ys); try done.
  intros s' R1 R2 R3. split_and!; try done. rewrite (rr_bitmap _ _ _ R2) by lia.
  apply bool_decide_ext. rewrite queue_insert, decide_True by done. tauto.
Qed.

Lemma scheduler_remove_ready_exact_witness : exists V xs ys s',
  lists_rep (st_lists (ks_store s_run)) V /\ ready_rep (ks_store s_run) V g_scheduler /\
  queue V g_scheduler 3 = xs ++ ReadyNode 2 :: ys /\
  hr_scheduler_remove_ready (Some g_scheduler) (Some (ReadyNode 2)) (ks_store s_run) = Some (HR_OK, s').
Proof.
  destruct s_run_consistent as (T & D & V & b & _ & KC & _). pose proof (kc_struct _ _ _ _ _ _ KC) as KS.
  assert (Hl : node_list s_run (ReadyNode 2) = Some (ReadyQueue g_scheduler 3)) by (vm_compute; reflexivity).
  destruct (kt_linked _ _ _ _ _ KS _ _ Hl) as (xs & ys & HV).
  assert (Hq : queue V g_scheduler 3 = xs ++ ReadyNode 2 :: ys) by (unfold queue; rewrite HV; reflexivity).
  destruct (scheduler_remove_ready_exact (ks_store s_run) V g_scheduler (ReadyNode 2) xs ys) as (s' & E & _).
  - apply KS.
  - apply KS.
  - vm_compute. split; congruence.
  - exact Hq.
  - exists V, xs, ys, s'. split; [apply KS|]. split; [apply KS|]. split; [exact Hq|exact E].
Defined.

(** The scheduler selects the most urgent ready node, and among nodes of that
    priority the one that has been in the queue longest (the head of the level);
    it selects none exactly when no node is ready. *)
Theorem scheduler_selects_most_urgent s V a :
  lists_rep (st_lists s) V -> ready_rep s V a ->
  match hr_scheduler_select_highest s (Some a) with
  | None => forall p, 0 <= p < HR_CFG_PRIORITY_COUNT -> queue V a p = []
  | Some n => exists p, priority_at s n = p /\ head (queue V a p) = Some n /\
      forall q m, 0 <= q < HR_CFG_PRIORITY_COUNT -> m ∈ queue V a q -> p <= q
  end.
Proof.
  intros Rep RR. unfold hr_scheduler_select_highest. rewrite (peek_highest_spec s V a RR Rep).
  destruct (decide (ready_seq V a = [])) as [E|Hne].
  - rewrite E. simpl. intros p Hp. destruct (queue V a p) as [|n ns] eqn:Eq; [done|]. exfalso.
    assert (Hn : n ∈ ready_seq V a) by (apply ready_seq_elem; exists p; split; [done|rewrite Eq; by apply elem_of_cons; left]).
    rewrite E in Hn. by apply elem_of_nil in Hn.
  - destruct (highest_spec s V a RR Hne) as (Hr & Hq & Hlow).
    rewrite (ready_seq_head_level V a _ Hr Hq Hlow). destruct (queue V a _) as [|n ns] eqn:Eq; [done|]. simpl.
    assert (Hp : priority_at s n = hr_ready_set_highest_priority s a).
    { apply (rr_priority _ _ _ RR); [done|]. rewrite Eq. by apply elem_of_cons; left. }
    exists (hr_ready_set_highest_priority s a). rewrite Eq. split_and!; [done|done|]. intros q m Hqq Hm.
    destruct (Z.le_gt_cases (hr_ready_set_highest_priority s a) q) as [|Hlt]; [done|]. exfalso.
    rewrite (Hlow q ltac:(lia)) in Hm. by apply elem_of_nil in Hm.
Qed.

Lemma scheduler_selects_most_urgent_witness : exists V,
  lists_rep (st_lists (ks_store s_run)) V /\ ready_rep (ks_store s_run) V g_scheduler /\
  hr_scheduler_select_highest (ks_store s_run) (Some g_scheduler) = Some (ReadyNode 2) /\
  exists p, priority_at (ks_store s_run) (ReadyNode 2) = p /\ head (queue V g_scheduler p) = Some (ReadyNode 2) /\
    forall q m, 0 <= q < HR_CFG_PRIORITY_COUNT -> m ∈ queue V g_scheduler q -> p <= q.
Proof.
  destruct s_run_consistent as (T & D & V & b & _ & KC & _). pose proof (kc_struct _ _ _ _ _ _ KC) as KS.
  assert (E : hr_scheduler_select_highest (ks_store s_run) (Some g_scheduler) = Some (ReadyNode 2)) by (vm_compute; reflexivity).
  exists V. split; [apply KS|]. split; [apply KS|]. split; [exact E|].
  pose proof (scheduler_selects_most_urgent (ks_store s_run) V g_scheduler (kt_rep _ _ _ _ _ KS) (kt_ready _ _ _ _ _ KS)) as P.
  rewrite E in P. exact P.
Defined.

(** A node that yields goes behind the ready nodes of its priority; the call is
    rejected, and nothing changes, when the node is not the one selected. *)
Theorem scheduler_yield_rotates s V a n :
  lists_rep (st_lists s) V -> ready_rep s V a ->
  (hr_scheduler_select_highest s (Some a) = Some n ->
   exists s', hr_scheduler_yield_current (Some a) (Some n) s = Some (HR_OK, s') /\
     exists p ns, priority_at s n = p /\ queue V a p = n :: ns /\
     let V' := <[ReadyQueue a p := ns ++ [n]]> V in
     lists_rep (st_lists s') V' /\ ready_rep s' V' a /\ s' = set_lists (st_lists s') s) /\
  (hr_scheduler_select_highest s (Some a) <> Some n ->
   hr_scheduler_yield_current (Some a) (Some n) s = Some (HR_ERROR_INVALID_STATE, s)).
Proof.
  intros Rep RR. unfold hr_scheduler_yield_current. split; intros Hs.
  - apply wp_returns. wp_step. wp_step. rewrite bool_decide_false by tauto.
    unfold hr_scheduler_select_highest in Hs. rewrite (peek_highest_spec s V a RR Rep) in Hs.
    assert (Hne : ready_seq V a <> []) by (by intros E; rewrite E in Hs).
    destruct (highest_spec s V a RR Hne) as (Hr & Hq & Hlow).
    rewrite (ready_seq_head_level V a _ Hr Hq Hlow) in Hs.
    destruct (queue V a _) as [|m ns] eqn:Eq; [done|]. injection Hs as ->.
    assert (Hp : priority_at s n = hr_ready_set_highest_priority s a).
    { apply (rr_priority _ _ _ RR); [done|]. rewrite Eq. by apply elem_of_cons; left. }
    apply (rotate_spec s V a); try done. rewrite Eq. intros s' R1 R2 _ _ Es. split; [done|].
    by exists (hr_ready_set_highest_priority s a), ns.
  - unfold bindM, getM. by rewrite bool_decide_true.
Qed.

Lemma scheduler_yield_rotates_witness : exists V s',
  lists_rep (st_lists (ks_store s_run)) V /\ ready_rep (ks_store s_run) V g_scheduler /\
  hr_scheduler_yield_current (Some g_scheduler) (Some (ReadyNode 2)) (ks_store s_run) = Some (HR_OK, s').
Proof.
  destruct s_run_consistent as (T & D & V & b & _ & KC & _). pose proof (kc_struct _ _ _ _ _ _ KC) as KS.
  destruct (scheduler_yield_rotates (ks_store s_run) V g_scheduler (ReadyNode 2)
    (kt_rep _ _ _ _ _ KS) (kt_ready _ _ _ _ _ KS)) as [H1 _].
  destruct (H1 ltac:(vm_compute; reflexivity)) as (s' & E & _).
  exists V, s'. split; [apply KS|]. split; [apply KS|exact E].
Defined.

(** ** Wait lists *)

(** Inserting in a wait list keeps it sorted by priority and is stable: the new
    waiter goes behind every waiter of the same or a more urgent priority and
    before the others, so equal priorities are served in arrival order. *)
Theorem wait_list_insert_stable s V l n ns :
  lists_rep (st_lists s) V -> list_of (node_at (st_lists s) (PNode n)) = None ->
  V !! l = Some ns -> Z.of_nat (length ns) < SIZE_MAX -> sorted_by (priority_at s) ns ->
  exists s' xs ys, hr_wait_list_insert (Some l) (Some n) s = Some (HR_OK, s') /\
    ns = xs ++ ys /\ lists_rep (st_lists s') (<[l := xs ++ n :: ys]> V) /\
    sorted_by (priority_at s') (xs ++ n :: ys) /\
    (forall m, m ∈ xs -> priority_at s m <= priority_at s n) /\
    (forall m, m ∈ ys -> priority_at s n < priority_at s m) /\
    s' = set_lists (st_lists s') s.
Proof.
  intros Rep U Hl Hb Hs. destruct (insert_by_split (priority_at s) n ns Hs) as (xs & ys & E & EI & Hx & Hy).
  edestruct (wp_returns (hr_wait_list_insert (Some l) (Some n)) HR_OK (fun s' =>
    lists_rep (st_lists s') (<[l := insert_by (priority_at s) n ns]> V) /\ s' = set_lists (st_lists s') s) s)
    as (s' & Er & Rep' & Es); [by apply (wait_list_insert_spec s V l n ns)|].
  exists s', xs, ys. rewrite <- EI. split_and!; try done. rewrite Es. by apply insert_by_sorted.
Qed.

(** Two waiters of priorities 3 and 5, and a third node of priority 3. *)
Definition wl_store : store :=
  run_state (hr_wait_list_insert (Some PendingTimers) (Some (WaitNode 1)) ;;;
             hr_wait_list_insert (Some PendingTimers) (Some (WaitNode 2)))
    (set_priority (WaitNode 1) 5 (set_priority (WaitNode 2) 3 (set_priority (WaitNode 3) 3
       (set_lists (inited empty_lmem PendingTimers) empty_store)))).
Definition wl_view : view := <[PendingTimers := [WaitNode 2; WaitNode 1]]> ∅.
Lemma wl_rep : lists_rep (st_lists wl_store) wl_view.
Proof.
  edestruct (run_state_spec (hr_wait_list_insert (Some PendingTimers) (Some (WaitNode 1)) ;;;
             hr_wait_list_insert (Some PendingTimers) (Some (WaitNode 2))) (fun _ s' => lists_rep (st_lists s') wl_view))
    as (r & E & HR); [|exact HR].
  assert (R0 : lists_rep (inited empty_lmem PendingTimers) (<[PendingTimers := []]> ∅))
    by (apply rep_inited; [apply rep_empty|left; apply lookup_empty]).
  wp_step. eapply (wait_list_insert_spec _ _ _ _ []); [exact R0|reflexivity|apply lookup_insert_eq|reflexivity|].
  intros h1 R1 F1. eapply (wait_list_insert_spec _ _ _ _ [WaitNode 1]); [exact R1| |apply lookup_insert_eq|reflexivity|].
  { cbn. rewrite (lf_list _ _ _ _ F1). reflexivity. }
  intros h2 R2 F2. rewrite !insert_insert_eq in R2. exact R2.
Qed.

Lemma wait_list_insert_stable_witness : exists s' xs ys,
  sorted_by (priority_at wl_store) [WaitNode 2; WaitNode 1] /\
  hr_wait_list_insert (Some PendingTimers) (Some (WaitNode 3)) wl_store = Some (HR_OK, s') /\
  [WaitNode 2; WaitNode 1] = xs ++ ys /\ lists_rep (st_lists s') (<[PendingTimers := xs ++ WaitNode 3 :: ys]> wl_view).
Proof.
  assert (HS : sorted_by (priority_at wl_store) [WaitNode 2; WaitNode 1]).
  { repeat constructor. vm_compute. congruence. }
  destruct (wait_list_insert_stable wl_store wl_view PendingTimers (WaitNode 3) [WaitNode 2; WaitNode 1]
    wl_rep ltac:(vm_compute; reflexivity) ltac:(apply lookup_insert_eq) ltac:(vm_compute; reflexivity) HS)
    as (s' & xs & ys & E & El & R & _).
  exists s', xs, ys. split; [exact HS|]. split; [exact E|]. split; [exact El|exact R].
Defined.

(** [hr_wait_list_validate] accepts a well-formed list exactly when it is sorted by
    priority. *)
Theorem wait_list_validate_iff_sorted s l ns : ring (st_lists s) l ns ->
  hr_wait_list_validate s (Some l) = true <-> sorted_by (priority_at s) ns.
Proof. apply wait_list_validate_iff. Qed.

Lemma wait_list_validate_iff_sorted_witness :
  ring (st_lists wl_store) PendingTimers [WaitNode 2; WaitNode 1] /\
  (hr_wait_list_validate wl_store (Some PendingTimers) = true <-> sorted_by (priority_at wl_store) [WaitNode 2; WaitNode 1]).
Proof.
  assert (R : ring (st_lists wl_store) PendingTimers [WaitNode 2; WaitNode 1]).
  { apply (rep_ring _ _ wl_rep). apply lookup_insert_eq. }
  split; [exact R|]. exact (wait_list_validate_iff_sorted wl_store PendingTimers _ R).
Defined.

(** ** Timeout lists *)

(** Inserting a timeout of [delay] ticks puts the node among the pending ones in
    the order of their deadlines, behind those that expire at the same time,
    also when the deadline lies beyond the wrap of the 32-bit tick: the list
    represents the same deadlines plus [T + delay] for the node. *)
Theorem timeout_insert_ordered s V a T D b n delay :
  lists_rep (st_lists s) V -> timeout_rep s V a T D b ->
  list_of (node_at (st_lists s) (PNode n)) = None -> 0 < delay < HR_WAIT_FOREVER ->
  Z.of_nat (length (pending V a b)) < SIZE_MAX ->
  exists s' V', hr_timeout_list_insert (Some a) (Some n) delay s = Some (HR_OK, s') /\
    let D' := fun m => if decide (m = n) then T + delay else D m in
    lists_rep (st_lists s') V' /\ timeout_rep s' V' a T D' b /\
    pending V' a b = insert_by D' n (pending V a b) /\
    (forall l, (forall c, l <> TimeoutHalf a c) -> V' !! l = V !! l).
Proof.
  intros Rep TR U Hd Hsm. set (D' := fun m => if decide (m = n) then T + delay else D m).
  edestruct (wp_returns (hr_timeout_list_insert (Some a) (Some n) delay) HR_OK (fun s' => exists V',
    lists_rep (st_lists s') V' /\ timeout_rep s' V' a T D' b /\ pending V' a b = insert_by D' n (pending V a b) /\
    (forall l, (forall c, l <> TimeoutHalf a c) -> V' !! l = V !! l)) s) as (s' & E & V' & HV); [|by exists s', V'].
  apply (timeout_insert_spec s V a T D b n delay); try done. intros s' V' R1 EV R2 EP _ _ _. split; [done|].
  exists V'. split_and!; try done. intros l Hl. rewrite EV. apply lookup_insert_ne. intros E. by eapply Hl.
Qed.

(** A timeout list two ticks before the wrap of the counter, empty and with one node. *)
Definition tl_base : store := set_lists (inited empty_lmem ExpiredTimers) empty_store.
Definition tl_empty : store := run_state (hr_timeout_list_init (Some g_timer_timeouts) 0xFFFFFFFE) tl_base.
Definition tl_one : store :=
  run_state (hr_timeout_list_insert (Some g_timer_timeouts) (Some (TimerTimeoutNode 1)) 1) tl_empty.
Definition tl_view : view :=
  <[TimeoutHalf g_timer_timeouts true := []]> (<[TimeoutHalf g_timer_timeouts false := []]> (<[ExpiredTimers := []]> ∅)).
Definition tl_view1 : view := <[TimeoutHalf g_timer_timeouts false := [TimerTimeoutNode 1]]> tl_view.

Lemma tl_empty_rep D :
  lists_rep (st_lists tl_empty) tl_view /\ timeout_rep tl_empty tl_view g_timer_timeouts 0xFFFFFFFE D false.
Proof.
  edestruct (run_state_spec (hr_timeout_list_init (Some g_timer_timeouts) 0xFFFFFFFE) (fun _ s' =>
    lists_rep (st_lists s') tl_view /\ timeout_rep s' tl_view g_timer_timeouts 0xFFFFFFFE D false) tl_base)
    as (r & E & HR); [|exact HR].
  apply (timeout_init_spec tl_base (<[ExpiredTimers := []]> ∅)); [|unfold UINT32_MAX; lia| |].
  - apply (rep_inited empty_lmem); [apply rep_empty|left; apply lookup_empty].
  - intros c. left. rewrite lookup_insert_ne by done. apply lookup_empty.
  - intros s' V' -> R1 R2 _ _ _. split; [exact R1|apply R2].
Qed.

Lemma tl_one_rep : lists_rep (st_lists tl_one) tl_view1 /\
  timeout_rep tl_one tl_view1 g_timer_timeouts 0xFFFFFFFE (fun _ => 0xFFFFFFFF) false.
Proof.
  destruct (tl_empty_rep (fun _ => 0xFFFFFFFF)) as [R0 T0].
  edestruct (run_state_spec (hr_timeout_list_insert (Some g_timer_timeouts) (Some (TimerTimeoutNode 1)) 1) (fun _ s' =>
    lists_rep (st_lists s') tl_view1 /\ timeout_rep s' tl_view1 g_timer_timeouts 0xFFFFFFFE (fun _ => 0xFFFFFFFF) false) tl_empty)
    as (r & E & HR); [|exact HR].
  eapply (timeout_insert_spec tl_empty tl_view g_timer_timeouts 0xFFFFFFFE (fun _ => 0xFFFFFFFF)); try done.
  intros s' V' R1 EV R2 _ _ _ _. rewrite EV in R1, R2. split; [exact R1|].
  eapply (timeout_rep_frame s' s' _ _ _ _ _ _ false R2); try done. intros m _. split; [done|]. cbv beta. destruct (decide (m = TimerTimeoutNode 1)); reflexivity.
Qed.

Lemma timeout_insert_ordered_witness : exists s' V',
  timeout_rep tl_one tl_view1 g_timer_timeouts 0xFFFFFFFE (fun _ => 0xFFFFFFFF) false /\
  hr_timeout_list_insert (Some g_timer_timeouts) (Some (TimerTimeoutNode 2)) 3 tl_one = Some (HR_OK, s') /\
  pending V' g_timer_timeouts false = [TimerTimeoutNode 1; TimerTimeoutNode 2].
Proof.
  destruct tl_one_rep as [R T0].
  destruct (timeout_insert_ordered tl_one tl_view1 g_timer_timeouts 0xFFFFFFFE (fun _ => 0xFFFFFFFF) false (TimerTimeoutNode 2) 3
    R T0 ltac:(vm_compute; reflexivity) ltac:(unfold HR_WAIT_FOREVER; lia) ltac:(vm_compute; reflexivity))
    as (s' & V' & E & _ & _ & EP & _).
  exists s', V'. split; [exact T0|]. split; [exact E|]. rewrite EP. vm_compute. reflexivity.
Defined.

(** When the clock advances one tick, the nodes whose deadline is reached leave the
    timeout list for the list of expired nodes, in the order of their deadlines;
    all others stay pending with their deadlines, also across the wrap of the
    tick counter, where the two halves change roles. *)
Theorem timeout_advance_moves_due s V a T D b e :
  lists_rep (st_lists s) V -> timeout_rep s V a T D b -> V !! e = Some [] -> (forall d, e <> TimeoutHalf a d) ->
  exists s' V' b', hr_timeout_list_advance (Some a) (u32 (T + 1)) (Some e) s = Some (HR_OK, s') /\
    lists_rep (st_lists s') V' /\ timeout_rep s' V' a (T + 1) D b' /\
    exists now, V' !! e = Some now /\ pending V a b = now ++ pending V' a b' /\
    (forall n, n ∈ now -> D n <= T + 1) /\ (forall n, n ∈ pending V' a b' -> T + 1 < D n).
Proof.
  intros Rep TR He Hne.
  edestruct (wp_returns (hr_timeout_list_advance (Some a) (u32 (T + 1)) (Some e)) HR_OK (fun s' => exists V' b',
    lists_rep (st_lists s') V' /\ timeout_rep s' V' a (T + 1) D b' /\ V' !! e = Some (due D (T + 1) (pending V a b)) /\
    pending V' a b' = not_due D (T + 1) (pending V a b)) s) as (s' & E & V' & b' & R1 & R2 & R3 & R4).
  - apply (timeout_advance_spec s V a T D b TR e); try done. intros s' V' EV R1 R2 R3 _ _ _. split; [done|].
    eexists V', _. split_and!; [done|exact R2| |done]. rewrite EV. apply lookup_insert_eq.
  - exists s', V', b'. split_and!; try done. exists (due D (T + 1) (pending V a b)). rewrite R4.
    destruct (due_spec D (T + 1) (pending V a b) (tr_sorted _ _ _ _ _ _ TR)) as [H1 H2].
    split_and!; [done|by rewrite due_app| |]; intros n Hn; [apply H1 in Hn|apply H2 in Hn]; by destruct Hn.
Qed.

Lemma timeout_advance_moves_due_witness : exists s' V' b',
  timeout_rep tl_one tl_view1 g_timer_timeouts 0xFFFFFFFE (fun _ => 0xFFFFFFFF) false /\
  hr_timeout_list_advance (Some g_timer_timeouts) (u32 0xFFFFFFFF) (Some ExpiredTimers) tl_one = Some (HR_OK, s') /\
  timeout_rep s' V' g_timer_timeouts 0xFFFFFFFF (fun _ => 0xFFFFFFFF) b'.
Proof.
  destruct tl_one_rep as [R T0].
  destruct (timeout_advance_moves_due tl_one tl_view1 g_timer_timeouts 0xFFFFFFFE (fun _ => 0xFFFFFFFF) false ExpiredTimers
    R T0 ltac:(vm_compute; reflexivity) ltac:(intros d; discriminate)) as (s' & V' & b' & E & _ & T1 & _).
  exists s', V', b'. split; [exact T0|]. split; [exact E|exact T1].
Defined.

(** Cancelling a timeout takes exactly that node out of the pending ones, whichever
    half holds it; every other deadline is kept. *)
Theorem timeout_remove_exact s V a T D b n :
  lists_rep (st_lists s) V -> timeout_rep s V a T D b -> n ∈ pending V a b ->
  exists s' V' us vs, hr_timeout_list_remove (Some a) (Some n) s = Some (HR_OK, s') /\
    lists_rep (st_lists s') V' /\ timeout_rep s' V' a T D b /\
    pending V a b = us ++ n :: vs /\ pending V' a b = us ++ vs.
Proof.
  intros Rep TR Hn. apply pending_half in Hn as [c Hc].
  apply list_elem_of_split in Hc as (xs & ys & Hc).
  edestruct (wp_returns (hr_timeout_list_remove (Some a) (Some n)) HR_OK (fun s' => exists V' us vs,
    lists_rep (st_lists s') V' /\ timeout_rep s' V' a T D b /\
    pending V a b = us ++ n :: vs /\ pending V' a b = us ++ vs) s) as (s' & E & V' & us & vs & HV).
  - apply (timeout_remove_spec s V a T D b c n xs ys); try done.
    intros s' V' EV R1 R2 (us & vs & E1 & E2) _ _ _. split; [done|]. by exists V', us, vs.
  - by exists s', V', us, vs.
Qed.

Lemma timeout_remove_exact_witness : exists s' us vs,
  timeout_rep tl_one tl_view1 g_timer_timeouts 0xFFFFFFFE (fun _ => 0xFFFFFFFF) false /\
  hr_timeout_list_remove (Some g_timer_timeouts) (Some (TimerTimeoutNode 1)) tl_one = Some (HR_OK, s') /\
  pending tl_view1 g_timer_timeouts false = us ++ TimerTimeoutNode 1 :: vs.
Proof.
  destruct tl_one_rep as [R T0].
  destruct (timeout_remove_exact tl_one tl_view1 g_timer_timeouts 0xFFFFFFFE (fun _ => 0xFFFFFFFF) false (TimerTimeoutNode 1)
    R T0 ltac:(apply (list_elem_of_here _ []))) as (s' & V' & us & vs & E & _ & _ & EP & _).
  exists s', us, vs. split; [exact T0|]. split; [exact E|exact EP].
Defined.
