(* ===== verification/SystemProps.v ===== *)
(** Properties of the running system: the invariant of every reachable state, that
    no call is undefined, what the switch exception, the tick interrupt and a delay
    do, and that the kernel's own integrity check passes. *)
From stdpp Require Import gmap list.
From Stdlib Require Import ZArith Lia.
From S2P Require Import Prelude Types HrList HrListSpec Store Scheduler SchedulerSpec Timeout TimeoutSpec KState PortStack PortStackSpec TaskCore KernelBase KernelInv MutexPriority Kernel Semaphore Queue Timer KernelTick TaskApi KernelTasks KernelSpec KernelSwitch SemaphoreSpec KernelInitSpec KernelTickSpec SystemSpec ValidateSpec Scenario.
Open Scope Z_scope.

(** ** Reachable states *)

(** C1: In every state the system can reach (after start-up, by any interleaving of
    ticks, switch exceptions, calls of the running task, calls from interrupts, writes to
    stacks and buffers and changes of the processor's mask registers) the kernel's invariant holds: every
    list is a well-formed ring, the ready set, its bitmap and its counter agree, the
    timeouts are ordered by deadline across the wrap of the tick, each wait list is
    sorted by priority and each control block agrees with the lists.  Start-up creates and
    starts tasks and creates semaphores, queues, mutexes and timers in any order; timers are
    started, and tasks no longer created, once the kernel runs, and the tick is one step. *)
Theorem reachable_invariant s :
  stack_fits address_of_g_idle_stack HR_CFG_IDLE_STACK_WORDS -> reachable s ->
  exists T D, 0 <= T /\ kinv T D s /\ g_kernel_tick (glob s) = u32 T /\
    g_kernel_state (glob s) = HR_KERNEL_STATE_RUNNING.
Proof.
  intros Hf (T & HT & D & KI & HK)%reachable_consistent; [|done]. exists T, D. split_and!; try done.
  destruct KI as (V & b & KC & _). apply KC.
Qed.

Lemma reachable_invariant_witness : exists T D, 0 <= T /\ kinv T D s_run /\ g_kernel_tick (glob s_run) = u32 T /\
    g_kernel_state (glob s_run) = HR_KERNEL_STATE_RUNNING.
Proof. exact (reachable_invariant s_run idle_stack_fits reachable_s_run). Defined.

(** C2: In every reachable state the tick interrupt, the switch exception, a give, a send
    and a receive from an interrupt and every call of the running task complete: no null pointer is
    dereferenced, no node is read as an object it does not belong to, no loop
    exhausts its bound, and the system continues in a reachable state.  (Creating and starting
    tasks, which belongs to start-up, is not among the calls.) *)
Theorem calls_complete s :
  stack_fits address_of_g_idle_stack HR_CFG_IDLE_STACK_WORDS -> reachable s ->
  (exists s', hr_kernel_tick_from_isr s = Some (tt, s') /\ reachable s') /\
  (exists s', hr_kernel_select_next_from_pendsv s = Some (tt, s') /\ reachable s') /\
  (forall x, exists r s', hr_semaphore_give_from_isr (Some x) s = Some (r, s') /\ reachable s') /\
  (forall q item, exists r s', hr_queue_send_from_isr (Some q) (Some item) s = Some (r, s') /\ reachable s') /\
  (forall q item, exists r s', hr_queue_receive_from_isr (Some q) (Some item) s = Some (r, s') /\ reachable s') /\
  (forall t c, running s t -> t <> g_idle_task -> call_ok s c -> exists s', run_call c s = Some s' /\ reachable s').
Proof.
  intros Hf HR. destruct (reachable_consistent s Hf HR) as (T & HT & CS).
  split_and!; [| | | | |intros t c RN Hni Hok].
  - destruct (wp_run _ _ _ (tick_inv T s CS)) as ([] & s' & E & _). exists s'. split; [done|].
    eapply reachable_step; [exact HR|by apply step_tick].
  - destruct (wp_run _ _ _ (pendsv_inv T s CS)) as ([] & s' & E & _). exists s'. split; [done|].
    eapply reachable_step; [exact HR|by apply step_pendsv].
  - intros x. destruct (wp_run _ _ _ (give_from_isr_inv T x s CS)) as (r & s' & E & _). exists r, s'. split; [done|].
    eapply reachable_step; [exact HR|by eapply step_give_isr].
  - intros q item. destruct (wp_run _ _ _ (queue_isr_inv T _ q item s (send_locked_inv T) CS)) as (r & s' & E & _).
    exists r, s'. split; [exact E|]. eapply reachable_step; [exact HR|exact (step_send_isr s s' q item r E)].
  - intros q item. destruct (wp_run _ _ _ (queue_isr_inv T _ q item s (receive_locked_inv T) CS)) as (r & s' & E & _).
    exists r, s'. split; [exact E|]. eapply reachable_step; [exact HR|exact (step_receive_isr s s' q item r E)].
  - destruct (call_inv T s t c CS RN Hni Hok) as (s' & E & _). exists s'. split; [done|].
    eapply reachable_step; [exact HR|by eapply step_call].
Qed.

Lemma calls_complete_witness :
  (exists s', hr_kernel_tick_from_isr s_run = Some (tt, s') /\ reachable s') /\
  (exists s', run_call (CallDelay 5) s_run = Some s' /\ reachable s').
Proof.
  destruct (calls_complete s_run idle_stack_fits reachable_s_run) as (H1 & _ & _ & _ & _ & H2). split; [exact H1|].
  apply (H2 2%N (CallDelay 5)); [exact running_s_run|discriminate|split; [lia|unfold UINT32_MAX; lia]].
Defined.

(** C11: In every reachable state the state of a task says where it is linked: at most one
    task is running and it is the current one; a task is in the ready set exactly when
    it is ready or running, and then at its effective priority and in no wait list; a
    blocked task is in a wait list or has a timeout pending. *)
Theorem task_states_match_lists s t :
  stack_fits address_of_g_idle_stack HR_CFG_IDLE_STACK_WORDS -> reachable s -> registered s t ->
  (t_state (task_at s t) = HR_TASK_STATE_RUNNING -> g_current_task (glob s) = Some t) /\
  (node_list s (ReadyNode t) =
     if bool_decide (t_state (task_at s t) = HR_TASK_STATE_READY \/ t_state (task_at s t) = HR_TASK_STATE_RUNNING)
     then Some (ReadyQueue g_scheduler (t_effective_priority (task_at s t))) else None) /\
  (is_Some (node_list s (ReadyNode t)) -> node_list s (WaitNode t) = None /\ node_list s (TimeoutNode t) = None) /\
  (t_state (task_at s t) = HR_TASK_STATE_BLOCKED ->
     is_Some (node_list s (WaitNode t)) \/ is_Some (node_list s (TimeoutNode t))).
Proof.
  intros Hf HR Hreg. destruct (reachable_consistent s Hf HR) as (T & _ & D & (V & b & KC & _) & _).
  pose proof (kc_struct _ _ _ _ _ _ KC) as KS.
  destruct (kc_tasks _ _ _ _ _ _ KC t Hreg ltac:(by intros [])) as [Hs _]. unfold state_ok in Hs.
  assert (HQ : forall l, node_list s (ReadyNode t) = Some l -> l = ReadyQueue g_scheduler (t_effective_priority (task_at s t))).
  { intros l Hl. apply (ready_linked_at _ _ _ _ _ KS t l Hl). }
  destruct (t_state (task_at s t)) eqn:Est; try done.
  - destruct Hs as [[l Hl] IW]. rewrite bool_decide_true by tauto. split_and!; try done.
    + rewrite Hl. f_equal. by apply HQ.
    + intros _. split; apply IW.
  - destruct Hs as ([l Hl] & IW & Hc). rewrite bool_decide_true by tauto. split_and!; try done.
    + rewrite Hl. f_equal. by apply HQ.
    + intros _. split; apply IW.
  - destruct Hs as [Hl HW]. rewrite bool_decide_false by (by intros []). rewrite Hl. split_and!; try done.
    intros _. destruct HW as [[_ HW]|(o & l & HW)]; [by right|left]. rewrite (ow_wait _ _ _ _ HW). eauto.
  - destruct Hs as [Hl _]. rewrite bool_decide_false by (by intros []). by rewrite Hl.
Qed.

Lemma task_states_match_lists_witness : registered s_run 3%N /\
  node_list s_run (ReadyNode 3) = Some (ReadyQueue g_scheduler 5).
Proof.
  assert (Hr : registered s_run 3%N) by (vm_compute; reflexivity). split; [exact Hr|].
  destruct (task_states_match_lists s_run 3%N idle_stack_fits reachable_s_run Hr) as (_ & HL & _).
  rewrite HL. vm_compute. reflexivity.
Defined.

(** C5: The switch exception makes the most urgent task of the ready set the running one
    (every other ready task has the same or a less urgent effective priority), returns
    the preempted task to the ready state and changes no other task's state; every node
    stays in the list it is in (after a yield or an expired slice the level of the preempted
    task is rotated, its slice refilled and the reason of the switch cleared). *)
Theorem pendsv_runs_most_urgent s :
  stack_fits address_of_g_idle_stack HR_CFG_IDLE_STACK_WORDS -> reachable s ->
  exists s' n, hr_kernel_select_next_from_pendsv s = Some (tt, s') /\
    running s' n /\ g_hr_current_task_control_block (glob s') = Some n /\
    is_Some (node_list s (ReadyNode n)) /\
    (forall u, is_Some (node_list s (ReadyNode u)) ->
       t_effective_priority (task_at s' n) <= t_effective_priority (task_at s' u)) /\
    (forall u, registered s u -> u <> n -> t_state (task_at s' u) =
       if bool_decide (t_state (task_at s u) = HR_TASK_STATE_RUNNING) then HR_TASK_STATE_READY
       else t_state (task_at s u)) /\
    (forall m, node_list s' m = node_list s m) /\ g_kernel_tick (glob s') = g_kernel_tick (glob s).
Proof.
  intros Hf HR. destruct (reachable_consistent s Hf HR) as (T & _ & D & (V & b & KC & _) & HK).
  assert (HQ : wp hr_kernel_select_next_from_pendsv (fun _ s' => exists n, entered s s' n) s).
  { apply (pendsv_spec T D b s V); try done. intros s' V' c n _ _ _ _ EN. by exists n. }
  apply wp_run in HQ as ([] & s' & E & n & EN). exists s', n. split; [done|]. split; [by split; apply EN|].
  split_and!; apply EN.
Qed.

Lemma pendsv_runs_most_urgent_witness : exists s' n,
  hr_kernel_select_next_from_pendsv s_run = Some (tt, s') /\ running s' n.
Proof.
  destruct (pendsv_runs_most_urgent s_run idle_stack_fits reachable_s_run) as (s' & n & E & RN & _).
  exists s', n. split; [exact E|exact RN].
Defined.

(** A task that yields, or whose time slice is used up, goes behind the ready tasks of
    its priority: when the switch exception finds the current task selected and one of
    these two reasons pending, the next task is the one that was behind it, and the
    current task is the last of its level. *)
Theorem yield_runs_next_peer T D s V b c m ns :
  kcore T D s V b nobody -> running s c ->
  let p := t_effective_priority (task_at s c) in
  queue V g_scheduler p = ReadyNode c :: ReadyNode m :: ns -> head (ready_seq V g_scheduler) = Some (ReadyNode c) ->
  Z.land (g_switch_reasons (glob s)) (Z.lor HR_SWITCH_REASON_YIELD HR_SWITCH_REASON_TIME_SLICE) <> 0 ->
  exists s' V', hr_kernel_select_next_from_pendsv s = Some (tt, s') /\ running s' m /\
    kcore T D s' V' b nobody /\ queue V' g_scheduler p = ReadyNode m :: ns ++ [ReadyNode c].
Proof.
  intros KC RN p Hq Hh Hz. pose proof (kc_struct _ _ _ _ _ _ KC) as KS.
  destruct (select_spec T D s V b nobody KC (idle_ready T D b s V KC)) as (c' & Hsel & Hh' & Hreg & _).
  rewrite Hh in Hh'. injection Hh' as <-.
  assert (Hp : 0 <= p < HR_CFG_PRIORITY_COUNT) by (by apply (kt_prio _ _ _ _ _ KS)).
  assert (Hlow : forall q, 0 <= q < p -> queue V g_scheduler q = []).
  { intros q Hlt. destruct (queue V g_scheduler q) as [|x xs] eqn:Ex; [done|]. exfalso.
    assert (Hx : x ∈ queue V g_scheduler q) by (rewrite Ex; apply elem_of_cons; by left).
    assert (Hin : x ∈ ready_seq V g_scheduler) by (apply ready_seq_elem; exists q; split; [lia|done]).
    pose proof (ready_seq_min _ _ _ (kt_ready _ _ _ _ _ KS) (kt_rep _ _ _ _ _ KS) (ReadyNode c) Hh x Hin) as Hle.
    rewrite (rr_priority _ _ _ (kt_ready _ _ _ _ _ KS) q x ltac:(lia) Hx) in Hle.
    rewrite (proj1 (kt_prio _ _ _ _ _ KS c Hreg)) in Hle. fold p in Hle. lia. }
  assert (HV : rotated_view s V c = <[ReadyQueue g_scheduler p := ReadyNode m :: ns ++ [ReadyNode c]]> V).
  { unfold rotated_view, rotates. fold p. rewrite (rn_state _ _ RN), Hq, !bool_decide_true by done.
    destruct (Z.eqb_spec (Z.land (g_switch_reasons (glob s)) (Z.lor HR_SWITCH_REASON_YIELD HR_SWITCH_REASON_TIME_SLICE)) 0); [done|].
    reflexivity. }
  assert (HQ : wp hr_kernel_select_next_from_pendsv (fun _ s' => exists V', running s' m /\ kcore T D s' V' b nobody /\
    queue V' g_scheduler p = ReadyNode m :: ns ++ [ReadyNode c]) s).
  { apply (pendsv_spec T D b s V); [done|apply RN|]. intros s' V' c' n Hc EV KC' Hhd EN.
    rewrite (rn_current _ _ RN) in Hc. injection Hc as <-. rewrite HV in EV.
    assert (Hq' : queue V' g_scheduler p = ReadyNode m :: ns ++ [ReadyNode c]) by (by rewrite EV, queue_insert, decide_True).
    exists V'. split_and!; [|done|done].
    enough (n = m) as -> by (split; apply EN).
    rewrite (ready_seq_head_level V' g_scheduler p Hp) in Hhd; [by rewrite Hq' in Hhd; injection Hhd|by rewrite Hq'|].
    intros q Hlt. rewrite EV, queue_insert, decide_False by lia. by apply Hlow. }
  apply wp_run in HQ as ([] & s' & E & V' & HQ). by exists s', V'.
Qed.

Lemma yield_runs_next_peer_witness : exists T D V b s',
  kcore T D s_yield V b nobody /\ running s_yield 2%N /\
  queue V g_scheduler 3 = [ReadyNode 2; ReadyNode 4] /\
  hr_kernel_select_next_from_pendsv s_yield = Some (tt, s') /\ running s' 4%N.
Proof.
  destruct (reachable_kcore s_yield reachable_s_yield) as (T & D & V & b & _ & KC & _).
  assert (RN : running s_yield 2%N) by (split; vm_compute; reflexivity).
  assert (Hq : queue V g_scheduler 3 = [ReadyNode 2; ReadyNode 4]).
  { rewrite (queue_contents _ _ _ _ _ _ KC) by (unfold HR_CFG_PRIORITY_COUNT; lia). vm_compute. reflexivity. }
  assert (Hh : head (ready_seq V g_scheduler) = Some (ReadyNode 2)).
  { rewrite <- (peek_highest_spec _ _ _ (kt_ready _ _ _ _ _ (kc_struct _ _ _ _ _ _ KC)) (kt_rep _ _ _ _ _ (kc_struct _ _ _ _ _ _ KC))).
    vm_compute. reflexivity. }
  destruct (yield_runs_next_peer T D s_yield V b 2%N 4%N [] KC RN Hq Hh ltac:(vm_compute; discriminate))
    as (s' & V' & E & RN' & _).
  exists T, D, V, b, s'. split; [exact KC|]. split; [exact RN|]. split; [exact Hq|]. split; [exact E|exact RN'].
Defined.

(** The kernel's integrity check passes in every reachable state in which the current
    task is running (between a block and the switch that follows it, no task is). *)
Theorem integrity_check_passes s t :
  stack_fits address_of_g_idle_stack HR_CFG_IDLE_STACK_WORDS -> reachable s -> running s t ->
  hr_kernel_validate_internal s = true.
Proof.
  intros Hf HR RN. destruct (reachable_consistent s Hf HR) as (T & _ & D & (V & b & KC & _) & HK).
  by apply (validate_running T D s V b KC t).
Qed.

Lemma integrity_check_passes_witness : running s_run 2%N /\ hr_kernel_validate_internal s_run = true.
Proof.
  split; [exact running_s_run|]. exact (integrity_check_passes s_run 2%N idle_stack_fits reachable_s_run running_s_run).
Defined.

(** ** Time *)

(** C7: One tick advances the clock by one (modulo 2^32) and ends exactly the waits whose
    deadline is reached: such a task becomes ready (or stays suspended with no wait left)
    with result OK for a delay and TIMEOUT for a wait on an object; every other task keeps
    its state, its result and its wait (only a task waiting for the signal of the software
    timers may be woken early, and only when a timer expires), and the running task is
    charged one tick. *)
Theorem tick_ends_due_waits T D s :
  kinv T D s -> g_kernel_state (glob s) = HR_KERNEL_STATE_RUNNING ->
  exists D' s', hr_kernel_tick_from_isr s = Some (tt, s') /\ kinv (T + 1) D' s' /\
    (forall t, D' (TimeoutNode t) = D (TimeoutNode t)) /\ g_kernel_tick (glob s') = u32 (T + 1) /\
    (forall t, is_Some (node_list s (TimeoutNode t)) -> D (TimeoutNode t) <= T + 1 ->
       t_state (task_at s' t) = woken_state (task_at s t) /\
       t_wait_result (task_at s' t) = expiry_result (task_at s t) /\ idle_wait s' t) /\
    (forall t, node_list s (TimeoutNode t) = None \/ T + 1 < D (TimeoutNode t) ->
       node_list s (WaitNode t) <> Some (SemaphoreWaiters g_timer_signal) \/
         (forall x, timer_valid s x -> tm_active (timer_at s x) = true -> T + 1 < D (TimerTimeoutNode x)) ->
       t_state (task_at s' t) = t_state (task_at s t) /\ t_wait_result (task_at s' t) = t_wait_result (task_at s t) /\
       same_wait (task_at s' t) (task_at s t)) /\
    (forall t, running s t -> t_runtime_counter (task_at s' t) = u32 (t_runtime_counter (task_at s t) + 1)).
Proof.
  intros (V & b & KC & NE & PT) HK. pose proof (kc_struct _ _ _ _ _ _ KC) as KS.
  assert (HQ : wp hr_kernel_tick_from_isr (fun _ s' => exists D' ws xs, kinv (T + 1) D' s' /\
    ticked T s s' (due_tasks T D b V) ws /\ fired T D s s' D' xs /\ (xs = [] -> ws = [])) s).
  { apply (tick_spec T D b s V); try done. intros D' b' s' V' ws xs KC' PT' NE' TK FD Hx _. exists D', ws, xs.
    split_and!; [by exists V', b'|done..]. }
  apply wp_run in HQ as ([] & s' & E & D' & ws & xs & KI' & TK & FD & Hx). exists D', s'. split_and!; [done|done| | | | |].
  - intros t. apply (fd_deadline _ _ _ _ _ _ FD). done.
  - apply TK.
  - intros t [l Hl] Hd. apply (tk_woken _ _ _ _ _ TK), (due_tasks_iff T D b s V t KS). split; [|done].
    by apply (timeout_linked_half T D s V b t l).
  - intros t Hd Hs. apply (tk_other _ _ _ _ _ TK).
    + intros Hin. apply (due_tasks_iff T D b s V t KS) in Hin as ([c Hc] & Hle). destruct Hd as [Hd|Hd]; [congruence|lia].
    + intros Hin. destruct Hs as [Hs|Hs]; [by apply Hs, (tk_signalled _ _ _ _ _ TK t Hin)|].
      rewrite Hx in Hin; [by apply elem_of_nil in Hin|]. destruct xs as [|x xs]; [done|].
      destruct (proj1 (fd_due _ _ _ _ _ _ FD x)) as (H1 & H2 & H3); [by left|]. specialize (Hs x H1 H2). lia.
  - intros t RN. apply (tk_runtime _ _ _ _ _ TK); apply RN.
Qed.

Lemma tick_ends_due_waits_witness : exists T D D' s', kinv T D s_run /\
  hr_kernel_tick_from_isr s_run = Some (tt, s') /\ kinv (T + 1) D' s' /\
  t_state (task_at s' 3) = HR_TASK_STATE_READY.
Proof.
  destruct s_run_consistent as (T & D & V & b & _ & KC & NE & HK & PT).
  assert (KI : kinv T D s_run) by (exists V, b; exact (conj KC (conj NE PT))).
  destruct (tick_ends_due_waits T D s_run KI HK) as (D' & s' & E & KI' & _ & _ & _ & HO & _).
  exists T, D, D', s'. split; [exact KI|]. split; [exact E|]. split; [exact KI'|].
  destruct (HO 3%N) as [HS _]; [left; vm_compute; reflexivity|left; vm_compute; discriminate|]. rewrite HS. vm_compute. reflexivity.
Defined.

(** [k] ticks in a row. *)
Fixpoint ticks `{Config} (k : nat) : M kstate unit :=
  match k with O => retM tt | S k => hr_kernel_tick_from_isr ;;; ticks k end.

(** The situation of a delayed task [k] ticks into its delay. *)
Record sleeping (T : Z) (D : node_addr -> Z) (s : kstate) (t : task_ptr) : Prop := {
  sl_inv : kinv T D s;
  sl_kernel : g_kernel_state (glob s) = HR_KERNEL_STATE_RUNNING;
  sl_registered : registered s t;
  sl_state : t_state (task_at s t) = HR_TASK_STATE_BLOCKED;
  sl_kind : t_wait_kind (task_at s t) = HR_TASK_WAIT_DELAY;
}.

Lemma sleeping_linked T D s t V b : kcore T D s V b nobody -> no_expired s -> registered s t ->
  t_state (task_at s t) = HR_TASK_STATE_BLOCKED -> t_wait_kind (task_at s t) = HR_TASK_WAIT_DELAY ->
  (exists c, node_list s (TimeoutNode t) = Some (TimeoutHalf g_timeout_list c)) /\ node_list s (WaitNode t) = None.
Proof.
  intros KC NE Hr Hs Hk. destruct (kc_tasks _ _ _ _ _ _ KC t Hr ltac:(by intros [])) as [HS _].
  unfold state_ok in HS. rewrite Hs in HS. destruct HS as [_ [[DW [l Hl]]|(o & l & OW)]].
  - split; [|apply DW]. by apply (timeout_linked_half T D s V b t l (kc_struct _ _ _ _ _ _ KC)).
  - exfalso. pose proof (ow_target _ _ _ _ OW) as E. rewrite Hk in E. by destruct o.
Qed.

Lemma is_running_true s t : running s t -> hr_kernel_is_running s = true.
Proof. intros RN. unfold hr_kernel_is_running. by rewrite (rn_kernel _ _ RN). Qed.

Section sleep.
Context `{Config}.

Lemma sleep_ticks k : forall T D s t, sleeping T D s t -> T + Z.of_nat k <= D (TimeoutNode t) -> T < D (TimeoutNode t) ->
  wp (ticks k) (fun _ s' => if decide (T + Z.of_nat k = D (TimeoutNode t))
    then t_state (task_at s' t) = HR_TASK_STATE_READY /\ t_wait_result (task_at s' t) = HR_OK
    else t_state (task_at s' t) = HR_TASK_STATE_BLOCKED) s.
Proof.
  induction k as [|k IH]; intros T D s t SL Hk HD; cbn [ticks].
  - wp_step. rewrite Z.add_0_r. rewrite decide_False by lia. apply SL.
  - wp_step. destruct SL as [(V & b & KC & NE & PT) HK HR HS Hw]. pose proof (kc_struct _ _ _ _ _ _ KC) as KS.
    destruct (sleeping_linked T D s t V b KC NE HR HS Hw) as [[c Hc] Hwn].
    apply (tick_spec T D b s V); try done. intros D' b' s' V' ws xs KC' PT' NE' TK FD _ _.
    assert (HD' : D' (TimeoutNode t) = D (TimeoutNode t)) by (by apply (fd_deadline _ _ _ _ _ _ FD)). rewrite <- HD' in *.
    assert (EQ : T + Z.of_nat (S k) = T + 1 + Z.of_nat k) by lia. rewrite EQ.
    destruct (decide (D' (TimeoutNode t) = T + 1)) as [Hd|Hd].
    + assert (k = 0%nat) as -> by lia. cbn [ticks]. wp_step.
      rewrite decide_True by lia. assert (Hin : t ∈ due_tasks T D b V).
      { apply (due_tasks_iff T D b s V t KS). split; [eauto|lia]. }
      destruct (tk_woken _ _ _ _ _ TK t Hin) as (H1 & H2 & _). rewrite H1, H2. unfold woken_state, suspended_wait, expiry_result.
      rewrite HS, Hw. done.
    + assert (Hin : t ∉ due_tasks T D b V).
      { rewrite (due_tasks_iff T D b s V t KS). intros [_ Hle]. lia. }
      assert (Hws : t ∉ ws).
      { intros Hx. destruct (tk_signalled _ _ _ _ _ TK t Hx) as (_ & Hx' & _). congruence. }
      destruct (tk_other _ _ _ _ _ TK t Hin Hws) as (H1 & H2 & H3 & _). apply IH; [|lia..].
      split; [by exists V', b'|by rewrite (tk_kernel _ _ _ _ _ TK)
        |by apply (tk_registered _ _ _ _ _ TK)|by rewrite H1|by rewrite H3].
Qed.
(** Entering a delay from the running task, interrupts masked and the switch pended. *)
Lemma delay_sleeps T D s t n p : kinv T D s -> running s t ->
  t <> g_idle_task -> 0 < n < HR_WAIT_FOREVER ->
  wp (hr_kernel_delay_current n) (fun st s' => st = HR_OK /\
    forall q, sleeping T (delayed D (TimeoutNode t) (T + n)) (with_port q s') t) (with_port p s).
Proof.
  intros (V & b & KC & NE & PT) RN Hni Hn.
  apply (delay_current_spec T D b t (with_port p s) V n); [by apply kcore_port|by apply running_port|done|done|].
  intros s' V' c KC' _ BF DW Hl Ht. split; [done|]. intros q.
  pose proof (bf_rest _ _ _ BF) as R.
  destruct (running_facts T D s V b t KC RN) as (Hreg & _).
  split; [|by rewrite R; apply RN| | | ].
  - exists V', b. split_and!; [by apply kcore_port| |done].
    change (no_expired s'). by eapply (no_expired_blocked b); [apply (kc_struct _ _ _ _ _ _ KC')|exact BF|].
  - unfold registered. change (node_list (with_port q s') ?n) with (node_list s' n).
    rewrite (bf_list _ _ _ BF); [exact Hreg|]. by intros [|[]].
  - change (task_at (with_port q s') t) with (task_at s' t). by rewrite Ht.
  - change (task_at (with_port q s') t) with (task_at s' t). by rewrite Ht.
Qed.
End sleep.

(** C8: A delay of [n] ticks lasts exactly [n] ticks: the running task that calls
    [hr_task_delay n] is blocked until the [n]-th following tick, which makes it ready with
    result OK, also when the tick counter wraps in between; proved for ticks that follow each
    other, with no other call in between. *)
Theorem delay_lasts_exactly T D s t n :
  kinv T D s -> running s t -> t <> g_idle_task ->
  hr_port_is_inside_isr s = false -> 0 < n < HR_WAIT_FOREVER ->
  exists s1, hr_task_delay n s = Some (HR_OK, s1) /\
    forall k, 0 <= k <= n -> exists s2, ticks (Z.to_nat k) s1 = Some (tt, s2) /\
      if decide (k = n) then t_state (task_at s2 t) = HR_TASK_STATE_READY /\ t_wait_result (task_at s2 t) = HR_OK
      else t_state (task_at s2 t) = HR_TASK_STATE_BLOCKED.
Proof.
  intros KI RN Hni Hisr Hn.
  assert (HQ : wp (hr_task_delay n) (fun st s' => st = HR_OK /\ sleeping T (delayed D (TimeoutNode t) (T + n)) s' t) s).
  { unfold hr_task_delay. wp_step. wp_step. rewrite (is_running_true s t RN), Hisr. cbn [negb orb].
    destruct (Z.eqb_spec n 0); [lia|]. destruct (Z.eqb_spec n HR_WAIT_FOREVER); [lia|].
    wp_step. apply enter_critical_spec. wp_step. eapply wp_mono; [by apply (delay_sleeps T D s t n)|].
    intros st s1 [-> SL]. ok_simpl. unfold hr_port_exit_critical, hr_port_request_context_switch, upd_port. wp_steps.
    split; [done|]. apply SL. }
  apply wp_returns in HQ as (s1 & E & SL). exists s1. split; [done|]. intros k Hk.
  assert (HD : delayed D (TimeoutNode t) (T + n) (TimeoutNode t) = T + n) by (unfold delayed; by rewrite decide_True).
  pose proof (sleep_ticks (Z.to_nat k) _ _ _ _ SL ltac:(rewrite HD; lia) ltac:(rewrite HD; lia)) as HW.
  apply wp_run in HW as ([] & s2 & E2 & HS). exists s2. split; [done|]. rewrite HD in HS.
  destruct (decide (k = n)); [rewrite decide_True in HS by lia|rewrite decide_False in HS by lia]; done.
Qed.

Lemma delay_lasts_exactly_witness : exists T D s1, kinv T D s_run /\ hr_task_delay 3 s_run = Some (HR_OK, s1) /\
  exists s2, ticks 3 s1 = Some (tt, s2) /\ t_state (task_at s2 2) = HR_TASK_STATE_READY.
Proof.
  destruct s_run_consistent as (T & D & V & b & _ & KC & NE & HK & PT).
  assert (KI : kinv T D s_run) by (exists V, b; exact (conj KC (conj NE PT))).
  destruct (delay_lasts_exactly T D s_run 2%N 3 KI running_s_run) as (s1 & E & HK3);
    [discriminate|vm_compute; reflexivity|unfold HR_WAIT_FOREVER; lia|].
  exists T, D, s1. split; [exact KI|]. split; [exact E|].
  destruct (HK3 3 ltac:(lia)) as (s2 & E2 & HS). exists s2. split; [exact E2|]. exact (proj1 HS).
Defined.

(** C9: A periodic task does not drift: [hr_task_delay_until] with the tick [L] of the last
    activation sleeps until [L + period] whenever that lies at most 2^31 - 1 ticks
    ahead, whatever time the task has used since [L] and across the wrap of the counter,
    and stores [L + period] as the new activation; when that tick is now or has passed
    it returns at once.  The period is at most 2^31 - 1, and the ticks follow each other. *)
Theorem delay_until_keeps_period T D s t L period :
  kinv T D s -> running s t -> t <> g_idle_task ->
  hr_port_is_inside_isr s = false -> 0 < period <= INT32_MAX ->
  (T < L + period <= T + INT32_MAX ->
   exists s1, hr_task_delay_until (Some (u32 L)) period s = Some ((HR_OK, Some (u32 (L + period))), s1) /\
     forall k, 0 <= k <= L + period - T -> exists s2, ticks (Z.to_nat k) s1 = Some (tt, s2) /\
       if decide (T + k = L + period)
       then t_state (task_at s2 t) = HR_TASK_STATE_READY /\ t_wait_result (task_at s2 t) = HR_OK
       else t_state (task_at s2 t) = HR_TASK_STATE_BLOCKED) /\
  (T - INT32_MAX <= L + period <= T ->
   hr_task_delay_until (Some (u32 L)) period s = Some ((HR_OK, Some (u32 (L + period))), s)).
Proof.
  intros KI RN Hni Hisr Hp. pose proof KI as (V & b & KC & _).
  assert (Hnext : u32 (u32 L + period) = u32 (L + period)) by (unfold u32, wrap; by rewrite Zplus_mod_idemp_l).
  assert (Hrem : u32 (u32 (L + period) - hr_kernel_get_tick s) = u32 (L + period - T)).
  { unfold hr_kernel_get_tick. rewrite (kc_tick _ _ _ _ _ _ KC). unfold u32, wrap. by rewrite <- Zminus_mod. }
  assert (Hargs : (period =? 0) || (INT32_MAX <? period) = false) by lia.
  split; intros HL.
  - assert (Hr : u32 (L + period - T) = L + period - T) by (apply u32_small; unfold INT32_MAX, UINT32_MAX in *; lia).
    assert (HQ : wp (hr_task_delay_until (Some (u32 L)) period) (fun st s' => st = (HR_OK, Some (u32 (L + period))) /\
      sleeping T (delayed D (TimeoutNode t) (T + (L + period - T))) s' t) s).
    { unfold hr_task_delay_until. wp_step. wp_step. rewrite (is_running_true s t RN), Hisr, Hargs. cbn [negb orb].
      wp_step. apply enter_critical_spec. rewrite Hnext, Hrem, Hr.
      replace (negb (L + period - T =? 0) && (L + period - T <=? INT32_MAX)) with true by lia.
      wp_step. eapply wp_mono; [apply (delay_sleeps T D s t (L + period - T)); try done; unfold INT32_MAX, HR_WAIT_FOREVER in *; lia|].
      intros st s1 [-> SL]. ok_simpl. unfold hr_port_exit_critical, hr_port_request_context_switch, upd_port. wp_steps.
      split; [done|]. apply SL. }
    apply wp_returns in HQ as (s1 & E & SL). exists s1. split; [done|]. intros k Hk.
    assert (HD : delayed D (TimeoutNode t) (T + (L + period - T)) (TimeoutNode t) = L + period)
      by (unfold delayed; rewrite decide_True by done; lia).
    pose proof (sleep_ticks (Z.to_nat k) _ _ _ _ SL ltac:(rewrite HD; lia) ltac:(rewrite HD; lia)) as HW.
    apply wp_run in HW as ([] & s2 & E2 & HS). exists s2. split; [done|]. rewrite HD, Z2Nat.id in HS by lia. exact HS.
  - assert (Hr : (negb (u32 (L + period - T) =? 0) && (u32 (L + period - T) <=? INT32_MAX)) = false).
    { destruct (decide (L + period = T)) as [->|Hne]; [by rewrite Z.sub_diag|].
      assert (u32 (L + period - T) = L + period - T + 2 ^ 32).
      { unfold u32, wrap. rewrite <- (Z_mod_plus_full _ 1). apply Z.mod_small. unfold INT32_MAX in *. lia. }
      unfold INT32_MAX in *. lia. }
    unfold hr_task_delay_until, bindM, getM. rewrite (is_running_true s t RN), Hisr, Hargs. cbn [negb orb].
    unfold hr_port_enter_critical. cbn. rewrite Hnext, Hrem, Hr. change (ok HR_OK) with true. cbn. unfold retM.
    destruct s. cbn. match goal with |- context [pt_primask ?p] => by destruct p end.
Qed.

Lemma delay_until_keeps_period_witness : exists T D s1, kinv T D s_run /\ 0 <= T /\
  hr_task_delay_until (Some (u32 T)) 10 s_run = Some ((HR_OK, Some (u32 (T + 10))), s1).
Proof.
  destruct s_run_consistent as (T & D & V & b & HT & KC & NE & HK & PT).
  assert (KI : kinv T D s_run) by (exists V, b; exact (conj KC (conj NE PT))).
  destruct (delay_until_keeps_period T D s_run 2%N T 10 KI running_s_run) as [H1 _];
    [discriminate|vm_compute; reflexivity|unfold INT32_MAX; lia|].
  destruct (H1 ltac:(unfold INT32_MAX; lia)) as (s1 & E & _).
  exists T, D, s1. split; [exact KI|]. split; [exact HT|exact E].
Defined.
