(* ===== verification/ServiceProps.v ===== *)
(** Properties of the kernel's services: semaphores, suspension, start-up, task
    creation and its initial stack, and the priority a mutex owner is due. *)
From stdpp Require Import gmap list.
From Stdlib Require Import ZArith Lia.
From S2P Require Import Prelude Types HrList HrListSpec Store Scheduler SchedulerSpec Timeout TimeoutSpec KState PortStack PortStackSpec TaskCore KernelBase KernelInv MutexPriority Kernel Semaphore Mutex Timer KernelTick TaskApi KernelTasks KernelSpec KernelSwitch SemaphoreSpec KernelInitSpec KernelTickSpec SystemSpec Scenario.
Open Scope Z_scope.

(** ** Semaphores *)

(** C25: [hr_semaphore_take]: with a positive count it takes one unit and returns OK; with
    count zero it returns EMPTY without a wait time, and otherwise blocks the task: the
    task leaves the ready set, enters the semaphore's wait list behind the waiters of the
    same or a more urgent priority, has a timeout pending unless it waits forever, and a
    switch is requested.  The invariant holds afterwards on every branch. *)
Theorem semaphore_take_spec T D s V b x ns t timeout :
  kcore T D s V b nobody -> no_expired s -> ph_timers b = T -> sem_valid s x -> V !! SemaphoreWaiters x = Some ns ->
  hr_port_is_inside_isr s = false -> running s t -> t <> g_idle_task -> 0 <= timeout <= UINT32_MAX ->
  exists r s', hr_semaphore_take (Some x) timeout s = Some (r, s') /\ (exists D', kinv T D' s') /\
    if 0 <? sem_count (sem_at s x)
    then r = Returns HR_OK /\ s' = with_count (sem_count (sem_at s x) - 1) x s
    else if timeout =? HR_NO_WAIT then r = Returns HR_ERROR_SEMAPHORE_EMPTY /\ s' = s
    else r = Waits t /\ t_state (task_at s' t) = HR_TASK_STATE_BLOCKED /\ node_list s' (ReadyNode t) = None /\
      pt_pendsv (ks_port s') = true /\
      contents (st_lists (ks_store s')) (SemaphoreWaiters x) = insert_by (priority_at (ks_store s)) (WaitNode t) ns /\
      (node_list s' (TimeoutNode t) = None <-> timeout = HR_WAIT_FOREVER) /\
      (forall u, u <> t -> task_at s' u = task_at s u).
Proof.
  intros KC NE PT Hv Hns Hisr RN Hni Ht.
  apply (wp_run (hr_semaphore_take (Some x) timeout) (fun r s' => (exists D', kinv T D' s') /\ _)).
  apply (take_spec T D b s V x ns t timeout); try done.
  - intros Hc KC'. split; [exists D, V, b; done|]. replace (0 <? sem_count (sem_at s x)) with true by lia. done.
  - intros Hc ->. split; [exists D, V, b; done|]. rewrite Hc. done.
  - intros s' V' Hc Hnw KC' NE' HV' BF OW Hto Hst.
    split; [exists (wait_deadline T D t timeout), V', b; done|]. rewrite Hc, (proj2 (Z.eqb_neq _ _) Hnw). cbn [Z.ltb Z.compare].
    split_and!; try done; [apply BF|symmetry; by apply (view_contents _ _ _ _ _ _ _ KC')|apply BF].
Qed.

Lemma semaphore_take_spec_witness : exists T D V b ns s', kcore T D s_run V b nobody /\
  V !! SemaphoreWaiters 1 = Some ns /\ hr_semaphore_take (Some 1%N) 5 s_run = Some (Waits 2%N, s') /\
  t_state (task_at s' 2) = HR_TASK_STATE_BLOCKED.
Proof.
  destruct s_run_consistent as (T & D & V & b & _ & KC & NE & _ & PT).
  assert (Hv : sem_valid s_run 1%N) by (vm_compute; reflexivity).
  destruct (sem_view T D s_run V b 1%N KC Hv) as [ns Hns].
  destruct (semaphore_take_spec T D s_run V b 1%N ns 2%N 5 KC NE PT Hv Hns) as (r & s' & E & _ & HB);
    [vm_compute; reflexivity|exact running_s_run|discriminate|unfold UINT32_MAX; lia|].
  assert (Hc : (0 <? sem_count (sem_at s_run 1)) = false) by (vm_compute; reflexivity).
  rewrite Hc in HB. change (5 =? HR_NO_WAIT) with false in HB. destruct HB as (-> & HS & _).
  exists T, D, V, b, ns, s'. split; [exact KC|]. split; [exact Hns|]. split; [exact E|exact HS].
Defined.

(** C26: [hr_semaphore_give] hands the unit to the first waiter, which is the most urgent one
    and has waited longest at its priority: its wait ends with OK and it becomes ready (or
    stays suspended), the count stays zero.  Without waiters the count grows by one, up to
    the maximum, beyond which the call returns FULL and changes nothing. *)
Theorem semaphore_give_spec T D s V b x ns :
  kcore T D s V b nobody -> no_expired s -> ph_timers b = T -> sem_valid s x -> V !! SemaphoreWaiters x = Some ns ->
  hr_port_is_inside_isr s = false ->
  exists r s', hr_semaphore_give (Some x) s = Some (r, s') /\ (exists D', kinv T D' s') /\
    match ns with
    | [] => if sem_count (sem_at s x) =? sem_max_count (sem_at s x)
            then r = HR_ERROR_SEMAPHORE_FULL /\ s' = s
            else r = HR_OK /\ s' = with_count (sem_count (sem_at s x) + 1) x s
    | n :: _ => exists t, n = WaitNode t /\ r = HR_OK /\
        t_state (task_at s' t) = woken_state (task_at s t) /\ t_wait_result (task_at s' t) = HR_OK /\
        node_list s' (WaitNode t) = None /\ node_list s' (TimeoutNode t) = None /\
        sem_at s' x = sem_at s x /\
        (forall m, m ∈ ns -> priority_at (ks_store s) n <= priority_at (ks_store s) m) /\
        (t_state (task_at s t) = HR_TASK_STATE_BLOCKED -> woken_preempts s' t = true -> pt_pendsv (ks_port s') = true)
    end.
Proof.
  intros KC NE PT Hv Hns Hisr. pose proof (kc_struct _ _ _ _ _ _ KC) as KS.
  apply (wp_run (hr_semaphore_give (Some x)) (fun r s' => (exists D', kinv T D' s') /\ _)).
  apply (give_spec T D b s V x ns); try done.
  - intros t ts f s' V' E KC' NE' W Hf.
    assert (HE : task_at (pend_if f s') t = task_at s' t /\ (forall n, node_list (pend_if f s') n = node_list s' n) /\
      sem_at (pend_if f s') x = sem_at s' x /\ woken_preempts (pend_if f s') t = woken_preempts s' t) by (by destruct f).
    destruct HE as (HE1 & HE2 & HE3 & HE4). split; [exists D, V', b; by destruct f|]. rewrite E. exists t.
    rewrite HE1, !HE2, HE3, HE4. destruct (wo_idle _ _ _ _ W).
    split_and!; try done; try apply W.
    + by rewrite (wo_rest _ _ _ _ W).
    + pose proof (kt_sorted _ _ _ _ _ KS (SemaphoreWaiters x) ns eq_refl Hns) as HS. rewrite E in HS. intros m.
      rewrite elem_of_cons. intros [->|Hm]; [done|]. by eapply sorted_by_head.
    + intros Hb Hp. rewrite Hf in * by (unfold suspended_wait; by rewrite Hb). by rewrite Hp.
  - intros -> Hc. split; [exists D, V, b; done|]. by rewrite Hc, Z.eqb_refl.
  - intros -> Hc KC'. split; [exists D, V, b; done|]. by rewrite (proj2 (Z.eqb_neq _ _)) by lia.
Qed.

Lemma semaphore_give_spec_witness : exists T D V b ns s', kcore T D s_waited V b nobody /\
  V !! SemaphoreWaiters 1 = Some ns /\ hr_semaphore_give (Some 1%N) s_waited = Some (HR_OK, s') /\
  t_state (task_at s' 2) = HR_TASK_STATE_READY.
Proof.
  destruct (reachable_kcore s_waited reachable_s_waited) as (T & D & V & b & _ & KC & NE & _ & PT).
  assert (Hv : sem_valid s_waited 1%N) by (vm_compute; reflexivity).
  destruct (sem_view T D s_waited V b 1%N KC Hv) as [ns Hns].
  destruct (semaphore_give_spec T D s_waited V b 1%N ns KC NE PT Hv Hns) as (r & s' & E & _ & HB); [vm_compute; reflexivity|].
  assert (EN : ns = [WaitNode 2]).
  { rewrite (view_contents _ _ _ _ _ _ _ KC Hns). vm_compute. reflexivity. }
  exists T, D, V, b, ns, s'. rewrite EN in HB. destruct HB as (t & Et & -> & HS & _). injection Et as <-.
  split; [exact KC|]. split; [exact Hns|]. split; [exact E|]. rewrite HS. vm_compute. reflexivity.
Defined.

(** ** Suspension *)

(** A state up to the processor's registers. *)
Definition same_kernel (s s' : kstate) : Prop := exists p, s' = with_port p s.

Section control.
Context `{Config} (T : Z) (D : node_addr -> Z) (b : phase).

Lemma same_kernel_inv V s s' : kcore T D s V b nobody -> same_kernel s s' -> kcore T D s' V b nobody.
Proof. intros KC [p ->]. by apply kcore_port. Qed.

(** A task control call does what its body does, in a critical section, and requests a
    switch when the body asks for one. *)
Lemma control_call_spec V s t k Q :
  kcore T D s V b nobody -> g_kernel_state (glob s) = HR_KERNEL_STATE_RUNNING -> registered s t ->
  hr_port_is_inside_isr s = false ->
  wp (k (Some t)) (fun r s1 => forall s', same_kernel s1 s' ->
    (r = (HR_OK, true) -> pt_pendsv (ks_port s') = true) -> Q (fst r) s') (with_port (pt_set_primask 1 (ks_port s)) s) ->
  wp (task_control_call (Some t) k) Q s.
Proof.
  intros KC HK Hreg Hisr Hk. unfold task_control_call. wp_step. wp_step.
  rewrite valid_task by (by apply (kc_fixed _ _ _ _ _ _ KC)). unfold hr_kernel_is_running.
  rewrite HK, Hisr, bool_decide_true by done. cbn [negb orb].
  wp_step. apply enter_critical_spec. wp_step. eapply wp_mono; [exact Hk|]. intros [st c] s1 HQ. cbn [fst snd].
  unfold hr_port_exit_critical, upd_port, hr_port_request_context_switch. wp_step. wp_step. wp_step.
  destruct (ok st && c) eqn:E; unfold upd_port; wp_step; wp_step; apply HQ.
  - by eexists.
  - done.
  - by eexists.
  - intros [= -> ->]. done.
Qed.
End control.

(** [hr_task_suspend] takes a ready, running or blocked task out of the ready set and
    marks it suspended; a blocked task keeps its wait and its timeout, so that it goes on
    while the task is suspended.  Suspending the running task requests a switch.  A task
    in another state is left alone and the call returns INVALID_STATE. *)
Theorem task_suspend_spec T D s t :
  kinv T D s -> g_kernel_state (glob s) = HR_KERNEL_STATE_RUNNING -> hr_port_is_inside_isr s = false ->
  registered s t -> t <> g_idle_task ->
  exists r s', hr_task_suspend (Some t) s = Some (r, s') /\ kinv T D s' /\
    (forall u, u <> t -> task_at s' u = task_at s u) /\
    (forall n, n <> ReadyNode t -> node_list s' n = node_list s n) /\
    if suspendable (t_state (task_at s t))
    then r = HR_OK /\ t_state (task_at s' t) = HR_TASK_STATE_SUSPENDED /\ node_list s' (ReadyNode t) = None /\
      t_suspended_resume_state (task_at s' t) =
        (if bool_decide (t_state (task_at s t) = HR_TASK_STATE_BLOCKED)
         then HR_TASK_STATE_BLOCKED else HR_TASK_STATE_READY) /\
      (t_state (task_at s t) = HR_TASK_STATE_RUNNING -> pt_pendsv (ks_port s') = true)
    else r = HR_ERROR_INVALID_STATE /\ task_at s' t = task_at s t.
Proof.
  intros (V & b & KC & NE & PT) HK Hisr Hreg Hni. apply (wp_run (hr_task_suspend (Some t)) (fun r s' => kinv T D s' /\ _)).
  apply (control_call_spec T D b V); try done.
  apply (suspend_spec T D b t _ V); [by apply kcore_port|done..| |].
  - intros Hs s' [p ->] _. change (task_at (with_port _ s) t) with (task_at s t) in Hs. rewrite Hs.
    split; [exists V, b; split_and!; [by repeat apply kcore_port|done..]|]. done.
  - intros s1 V' r KC' Hs H1 H2 H3 OT s' [p ->] Hp. change (task_at (with_port _ s) t) with (task_at s t) in *.
    rewrite Hs. assert (KC2 : kcore T D (with_port p s1) V' b nobody) by (by apply kcore_port).
    split; [exists V', b; split_and!; [done| |done]|split_and!].
    + change (no_expired s1). by eapply (one_task_no_expired T D (with_port _ s) s1 V' b t); [apply (kc_struct _ _ _ _ _ _ KC')|..].
    + apply (ot_task _ _ _ OT).
    + apply (ot_list _ _ _ OT).
    + done.
    + done.
    + assert (Hreg' : registered s1 t) by (unfold registered; by rewrite (ot_list _ _ _ OT)).
      pose proof (to_state _ _ (kc_tasks _ _ _ _ _ _ KC' t Hreg' ltac:(by intros []))) as HS.
      unfold state_ok in HS. rewrite H1 in HS. apply HS.
    + done.
    + intros Hr. apply Hp. rewrite H3, Hr. done.
Qed.

Lemma task_suspend_spec_witness : exists T D s', kinv T D s_run /\ registered s_run 2%N /\
  hr_task_suspend (Some 2%N) s_run = Some (HR_OK, s') /\ t_state (task_at s' 2) = HR_TASK_STATE_SUSPENDED /\
  pt_pendsv (ks_port s') = true.
Proof.
  destruct s_run_consistent as (T & D & V & b & _ & KC & NE & HK & PT).
  assert (KI : kinv T D s_run) by (exists V, b; exact (conj KC (conj NE PT))).
  assert (Hr : registered s_run 2%N) by (vm_compute; reflexivity).
  destruct (task_suspend_spec T D s_run 2%N KI HK) as (r & s' & E & _ & _ & _ & HB);
    [vm_compute; reflexivity|exact Hr|discriminate|].
  assert (Hst : t_state (task_at s_run 2) = HR_TASK_STATE_RUNNING) by (vm_compute; reflexivity).
  rewrite Hst in HB. destruct HB as (-> & HS & _ & _ & HP). exists T, D, s'.
  split; [exact KI|]. split; [exact Hr|]. split; [exact E|]. split; [exact HS|]. exact (HP eq_refl).
Defined.

(** [hr_task_resume] returns a suspended task to the state it would be in without the
    suspension: ready, and then in the ready set, or blocked, if its wait has not ended.
    A switch is requested when the resumed task is more urgent than the running one and
    preemption is configured.  Other tasks are left alone with INVALID_STATE. *)
Theorem task_resume_spec T D s t :
  kinv T D s -> g_kernel_state (glob s) = HR_KERNEL_STATE_RUNNING -> hr_port_is_inside_isr s = false ->
  registered s t -> t <> g_idle_task ->
  exists r s', hr_task_resume (Some t) s = Some (r, s') /\ kinv T D s' /\
    (forall u, u <> t -> task_at s' u = task_at s u) /\
    (forall n, n <> ReadyNode t -> node_list s' n = node_list s n) /\
    if bool_decide (t_state (task_at s t) = HR_TASK_STATE_SUSPENDED)
    then r = HR_OK /\ t_state (task_at s' t) = t_suspended_resume_state (task_at s t) /\
      (t_state (task_at s' t) = HR_TASK_STATE_READY -> is_Some (node_list s' (ReadyNode t))) /\
      (t_state (task_at s' t) = HR_TASK_STATE_READY -> resume_preempts t s' = true -> pt_pendsv (ks_port s') = true)
    else r = HR_ERROR_INVALID_STATE /\ task_at s' t = task_at s t.
Proof.
  intros (V & b & KC & NE & PT) HK Hisr Hreg Hni. apply (wp_run (hr_task_resume (Some t)) (fun r s' => kinv T D s' /\ _)).
  apply (control_call_spec T D b V); try done.
  apply (resume_spec T D b t _ V); [by apply kcore_port|done..| |].
  - intros Hs s' [p ->] _. change (task_at (with_port _ s) t) with (task_at s t) in Hs. rewrite bool_decide_false by done.
    split; [exists V, b; split_and!; [by repeat apply kcore_port|done..]|]. done.
  - intros s1 V' r KC' Hs H1 H2 OT s' [p ->] Hp. change (task_at (with_port _ s) t) with (task_at s t) in *.
    rewrite bool_decide_true by done.
    split; [exists V', b; split_and!; [by apply kcore_port| |done]|split_and!].
    + change (no_expired s1). by eapply (one_task_no_expired T D (with_port _ s) s1 V' b t); [apply (kc_struct _ _ _ _ _ _ KC')|..].
    + apply (ot_task _ _ _ OT).
    + apply (ot_list _ _ _ OT).
    + done.
    + done.
    + intros HS. change (task_at (with_port p s1) t) with (task_at s1 t) in HS.
      assert (Hreg' : registered s1 t) by (unfold registered; by rewrite (ot_list _ _ _ OT)).
      pose proof (to_state _ _ (kc_tasks _ _ _ _ _ _ KC' t Hreg' ltac:(by intros []))) as HO.
      unfold state_ok in HO. rewrite HS in HO. apply HO.
    + intros HS Hpre. change (task_at (with_port p s1) t) with (task_at s1 t) in HS. apply Hp. rewrite H2, HS.
      change (resume_preempts t (with_port p s1)) with (resume_preempts t s1) in Hpre. by rewrite Hpre.
Qed.

Lemma task_resume_spec_witness : exists T D s', kinv T D s_run /\ registered s_run 3%N /\
  hr_task_resume (Some 3%N) s_run = Some (HR_ERROR_INVALID_STATE, s').
Proof.
  destruct s_run_consistent as (T & D & V & b & _ & KC & NE & HK & PT).
  assert (KI : kinv T D s_run) by (exists V, b; exact (conj KC (conj NE PT))).
  assert (Hr : registered s_run 3%N) by (vm_compute; reflexivity).
  destruct (task_resume_spec T D s_run 3%N KI HK) as (r & s' & E & _ & _ & _ & HB);
    [vm_compute; reflexivity|exact Hr|discriminate|].
  assert (Hst : t_state (task_at s_run 3) = HR_TASK_STATE_READY) by (vm_compute; reflexivity).
  rewrite Hst in HB. destruct HB as [-> _]. exists T, D, s'. split; [exact KI|]. split; [exact Hr|exact E].
Defined.

(** ** Start-up *)

(** [hr_kernel_init] on memory as the start-up code leaves it (zeroed) succeeds and
    establishes the invariant, with the idle task as the only task, ready, no current
    task and the clock at zero. *)
Theorem kernel_init_establishes D :
  stack_fits address_of_g_idle_stack HR_CFG_IDLE_STACK_WORDS ->
  exists s, hr_kernel_init reset_state = Some (HR_OK, s) /\ kinv 0 D s /\
    g_kernel_state (glob s) = HR_KERNEL_STATE_INITIALIZED /\ g_current_task (glob s) = None /\
    g_task_count (glob s) = 1 /\ g_kernel_tick (glob s) = 0 /\
    (forall t, registered s t <-> t = g_idle_task) /\ t_state (task_at s g_idle_task) = HR_TASK_STATE_READY.
Proof.
  intros Hf. apply wp_returns, (init_spec D _ Hf). intros s V KC NE IN. split; [done|].
  split; [by exists V, reset_phase|]. split_and!; apply IN.
Qed.

Lemma kernel_init_establishes_witness : exists s, hr_kernel_init reset_state = Some (HR_OK, s) /\ kinv 0 (fun _ => 0) s.
Proof.
  destruct (kernel_init_establishes (fun _ => 0) idle_stack_fits) as (s & E & KI & _). exists s. split; [exact E|exact KI].
Defined.

(** [hr_task_create_static] followed by [hr_task_start] registers one more task: it is
    ready at its priority, behind the ready tasks of that priority, the task count grows
    by one and no other task changes; the invariant holds. *)
Theorem task_spawn_registers T D s t name entry argument low words priority :
  kinv T D s -> g_kernel_state (glob s) = HR_KERNEL_STATE_INITIALIZED -> hr_task_is_valid s (Some t) = false ->
  stack_fits low words -> 0 <= priority < HR_CFG_IDLE_PRIORITY -> g_task_count (glob s) < HR_CFG_MAX_TASKS ->
  exists s1 s2, hr_task_create_static (Some t) (Some name) (Some entry) argument (Some low) words priority s = Some (HR_OK, s1) /\
    t_state (task_at s1 t) = HR_TASK_STATE_CREATED /\
    hr_task_start (Some t) s1 = Some (HR_OK, s2) /\ kinv T D s2 /\
    t_state (task_at s2 t) = HR_TASK_STATE_READY /\
    node_list s2 (ReadyNode t) = Some (ReadyQueue g_scheduler priority) /\
    t_base_priority (task_at s2 t) = priority /\ t_effective_priority (task_at s2 t) = priority /\
    g_task_count (glob s2) = g_task_count (glob s) + 1 /\
    (forall u, registered s2 u <-> u = t \/ registered s u) /\ (forall u, u <> t -> task_at s2 u = task_at s u).
Proof.
  intros (V & b & KC & NE & PT) HK Hv Hf Hp Hc.
  assert (HQ : wp (hr_task_create_static (Some t) (Some name) (Some entry) argument (Some low) words priority)
    (fun st s1 => st = HR_OK /\ exists V1, kcore T D s1 V1 b nobody /\ startable s1 V1 t priority /\ created s s1 t priority) s).
  { apply (create_spec T D b s V); try done; [unfold HR_CFG_IDLE_PRIORITY in *; lia|]. intros s1 V1 H1 H2 H3. by split; [|exists V1]. }
  apply wp_returns in HQ as (s1 & E1 & V1 & KC1 & ST & CR). pose proof (cr_rest _ _ _ _ CR) as R1.
  assert (HG : glob s1 = glob s) by (by rewrite R1).
  assert (HQ : wp (hr_task_start (Some t)) (fun st s2 => st = HR_OK /\ exists V2, kcore T D s2 V2 b nobody /\
    joined_frame s1 s2 t priority /\ task_at s2 t = ready_block (task_at s1 t)) s1).
  { apply (start_spec T D b s1 V1 t priority); try done; rewrite ?HG; try done; try lia. intros s2 V2 H1 H2 H3. by split; [|exists V2]. }
  apply wp_returns in HQ as (s2 & E2 & V2 & KC2 & JF & HB). destruct (cr_block _ _ _ _ CR) as [_ C2 C3 C4 _ _ _ _].
  pose proof (jf_list _ _ _ _ JF) as HL.
  assert (HL1 : forall n, node_list s1 n = node_list s n) by (intros n; apply (of_list _ _ _ (cr_store _ _ _ _ CR))).
  exists s1, s2. split_and!; try done.
  - exists V2, b. split_and!; [done| |done]. intros n. rewrite HL, HL1. repeat case_decide; try done.
  - by rewrite HB.
  - rewrite HL. by rewrite decide_False, decide_True.
  - by rewrite HB.
  - by rewrite HB.
  - by rewrite (jf_rest _ _ _ _ JF), <- HG.
  - intros u. rewrite (jf_registered _ _ _ _ u JF). unfold registered. by rewrite HL1.
  - intros u Hu. by rewrite (jf_other _ _ _ _ JF), (cr_other _ _ _ _ CR).
Qed.

Lemma task_spawn_registers_witness : exists D s1 s2, kinv 0 D s_init /\
  hr_task_create_static (Some 2%N) (Some 0x08005000) (Some 0x08000101) None (Some 0x20001000) 64 3 s_init = Some (HR_OK, s1) /\
  hr_task_start (Some 2%N) s1 = Some (HR_OK, s2) /\ t_state (task_at s2 2) = HR_TASK_STATE_READY.
Proof.
  destruct (boot_consistent s_init idle_stack_fits (boot_init s_init runs_init)) as (D & KI & HK).
  destruct (task_spawn_registers 0 D s_init 2%N 0x08005000 0x08000101 None 0x20001000 64 3 KI HK)
    as (s1 & s2 & E1 & _ & E2 & _ & HS & _);
    [vm_compute; reflexivity|exact (stack_fits_example _ (or_introl eq_refl))|vm_compute; split; congruence
    |vm_compute; reflexivity|].
  exists D, s1, s2. split; [exact KI|]. split; [exact E1|]. split; [exact E2|exact HS].
Defined.

(** [hr_kernel_start] enters the most urgent ready task (the first at its priority) and
    does not return to its caller; the task is the current and only running one. *)
Theorem kernel_start_enters_most_urgent T D s :
  kinv T D s -> g_kernel_state (glob s) = HR_KERNEL_STATE_INITIALIZED ->
  exists s' n, hr_kernel_start s = Some (None, s') /\ kinv T D s' /\ running s' n /\
    is_Some (node_list s (ReadyNode n)) /\
    (forall u, is_Some (node_list s (ReadyNode u)) -> t_effective_priority (task_at s n) <= t_effective_priority (task_at s u)) /\
    (forall u, u <> n -> task_at s' u = task_at s u).
Proof.
  intros (V & b & KC & NE & PT) HK.
  assert (HQ : wp hr_kernel_start (fun r s' => r = None /\ kinv T D s' /\ exists n, running s' n /\
    is_Some (node_list s (ReadyNode n)) /\
    (forall u, is_Some (node_list s (ReadyNode u)) -> t_effective_priority (task_at s n) <= t_effective_priority (task_at s u)) /\
    (forall u, u <> n -> task_at s' u = task_at s u)) s).
  { unfold hr_kernel_start, hr_port_configure_kernel_exceptions, upd_port. wp_steps.
    match goal with |- wp _ _ ?x => set (s0 := x) end.
    assert (KC0 : kcore T D s0 V b nobody) by (by repeat apply kcore_port).
    apply (prepare_start_spec T D b s0 V); try done. intros s' n KC' RN Hreg Hh Hmin HO L _. wp_step. split; [done|].
    split; [exists V, b; split_and!; [done|intros m; rewrite L; apply NE|done]|].
    exists n. split_and!; try done. destruct (running_facts T D s' V b n KC' RN) as (_ & Hr & _). by rewrite L in Hr. }
  apply wp_returns in HQ as (s' & E & KI & n & HQ). by exists s', n.
Qed.

Lemma kernel_start_enters_most_urgent_witness : exists D s' n, kinv 0 D s_sem /\
  hr_kernel_start s_sem = Some (None, s') /\ running s' n.
Proof.
  destruct (boot_consistent s_sem idle_stack_fits boot_s_sem) as (D & KI & HK).
  destruct (kernel_start_enters_most_urgent 0 D s_sem KI HK) as (s' & n & E & _ & RN & _).
  exists D, s', n. split; [exact KI|]. split; [exact E|exact RN].
Defined.

(** The stack built for a new task is inside its memory and 8-byte aligned: sixteen words
    below the top hold the frame the exception return pops (entry point with the Thumb bit
    cleared, argument, exit routine as the return address, xPSR with the Thumb bit), the
    words below it hold the fill pattern, the lowest word the guard, and no word outside
    the stack changes. *)
Theorem initial_stack_layout low words entry argument exit s :
  stack_fits low words ->
  let sp := initial_sp low words in
  exists s', (hr_task_fill_stack low words ;;; hr_port_initialize_stack (Some low) words entry argument exit) s
      = Some (Some sp, s') /\
    sp mod 8 = 0 /\ low + 4 * (words - 18) <= sp <= low + 4 * words - 64 /\
    (forall i v, initial_frame (pointer_address entry) (pointer_address argument) (pointer_address exit) !! i = Some v ->
       read_word s' (sp + 4 * Z.of_nat i) = v) /\
    read_word s' low = HR_CFG_STACK_GUARD_VALUE /\
    (forall i, 0 < i -> low + 4 * i < sp -> read_word s' (low + 4 * i) = HR_STACK_FILL_WORD) /\
    (forall a, a < low \/ low + 4 * words <= a -> read_word s' a = read_word s a).
Proof.
  intros Hf sp. destruct (initial_sp_bounds low words Hf) as [Hm Hb]. fold sp in Hm, Hb.
  destruct Hf as (H0 & H1 & H2 & H3). assert (Hf : stack_fits low words) by done.
  unfold HR_CFG_MIN_TASK_STACK_WORDS in H2. assert (Hw : 32 <= words) by lia.
  apply wp_returns. wp_step. apply fill_stack_spec; [done|]. apply initialize_stack_spec; [done|].
  fold sp. split; [done|]. unfold read_word. cbn [ks_words ks_set_words].
  set (frame := initial_frame _ _ _). assert (HL : length frame = 16%nat) by done. split_and!; try lia.
  - intros i v Hi. by apply write_words_at.
  - rewrite write_words_below by lia. unfold filled. apply lookup_total_insert_eq.
  - intros i Hi Hlt. rewrite write_words_below by lia. unfold filled. rewrite lookup_total_insert_ne by lia.
    assert (Hi' : low + 4 * i = low + 4 * Z.of_nat (Z.to_nat i)) by lia. rewrite Hi'.
    apply write_words_at. apply lookup_replicate. split; [done|lia].
  - intros a Ha. destruct Ha as [Ha|Ha].
    + rewrite write_words_below by lia. unfold filled. rewrite lookup_total_insert_ne by lia. by apply write_words_below.
    + rewrite write_words_above by (rewrite HL; lia). unfold filled. rewrite lookup_total_insert_ne by lia.
      apply write_words_above. rewrite length_replicate. lia.
Qed.

Lemma initial_stack_layout_witness : stack_fits 0x20001000 64 /\
  exists s', (hr_task_fill_stack 0x20001000 64 ;;; hr_port_initialize_stack (Some 0x20001000) 64 (Some 0x08000101) None (Some 0x08000200)) s_run
    = Some (Some (initial_sp 0x20001000 64), s') /\ read_word s' 0x20001000 = HR_CFG_STACK_GUARD_VALUE.
Proof.
  assert (Hf : stack_fits 0x20001000 64) by exact (stack_fits_example _ (or_introl eq_refl)). split; [exact Hf|].
  destruct (initial_stack_layout 0x20001000 64 (Some 0x08000101) None (Some 0x08000200) s_run Hf)
    as (s' & E & _ & _ & _ & HG & _). exists s'. split; [exact E|exact HG].
Defined.

(** ** Priority inheritance *)

(** The priority a task must have is the most urgent of its base priority and the
    priorities of all tasks waiting for a mutex it owns: the code, which looks only at the
    first waiter of each owned mutex, computes this minimum. *)
Theorem required_priority_is_minimum T D s V b t ns :
  kcore T D s V b nobody -> V !! OwnedMutexes t = Some ns ->
  exists p, hr_mutex_required_priority s t = Some p /\ p <= t_base_priority (task_at s t) /\
    (forall m w, OwnerNode m ∈ ns -> node_list s w = Some (MutexWaiters m) -> p <= priority_at (ks_store s) w) /\
    (p = t_base_priority (task_at s t) \/
     exists m w, OwnerNode m ∈ ns /\ node_list s w = Some (MutexWaiters m) /\ p = priority_at (ks_store s) w).
Proof.
  intros KC Hns. pose proof (kc_struct _ _ _ _ _ _ KC) as KS.
  assert (HW : forall n w, w ∈ waiters V n -> exists m, n = OwnerNode m /\ node_list s w = Some (MutexWaiters m)).
  { intros n w Hw. destruct n; try by apply elem_of_nil in Hw. simpl in Hw. eexists. split; [done|].
    destruct (V !! MutexWaiters _) as [ws|] eqn:E; [|by apply elem_of_nil in Hw].
    by apply (kt_member _ _ _ _ _ KS _ _ _ E). }
  exists (inherit s V ns (t_base_priority (task_at s t))). split_and!.
  - by apply (required_priority_spec T D s V b KS (kc_objects _ _ _ _ _ _ KC)).
  - by apply inherit_le.
  - intros m w Hm Hw. apply (inherit_waiter T D s V b KS ns _ (OwnerNode m)); [done|].
    destruct (kt_linked _ _ _ _ _ KS _ _ Hw) as (xs & ys & HV). simpl. rewrite HV. simpl. apply elem_of_app. right. by apply elem_of_cons; left.
  - destruct (inherit_attained s V ns (t_base_priority (task_at s t))) as [E|(n & w & Hn & Hw & E)]; [by left|right].
    destruct (HW n w Hw) as (m & -> & Hl). by exists m, w.
Qed.

Lemma required_priority_is_minimum_witness : exists T D V b ns p, kcore T D s_run V b nobody /\
  V !! OwnedMutexes 2 = Some ns /\ hr_mutex_required_priority s_run 2 = Some p /\ p <= 3.
Proof.
  destruct s_run_consistent as (T & D & V & b & _ & KC & _).
  assert (Ho : is_Some (V !! OwnedMutexes 2)).
  { apply (kt_objects _ _ _ _ _ (kc_struct _ _ _ _ _ _ KC)). vm_compute. reflexivity. }
  destruct Ho as [ns Hns].
  destruct (required_priority_is_minimum T D s_run V b 2%N ns KC Hns) as (p & E & Hle & _).
  exists T, D, V, b, ns, p. split; [exact KC|]. split; [exact Hns|]. split; [exact E|].
  assert (Hb : t_base_priority (task_at s_run 2) = 3) by (vm_compute; reflexivity). rewrite Hb in Hle. exact Hle.
Defined.
