(* ===== verification/QueueProps.v ===== *)
(** Properties of the message queues: what a send and a receive do on every branch, and
    that a queue is a bounded first-in first-out buffer of messages. *)
From stdpp Require Import gmap list.
From Stdlib Require Import ZArith Lia.
From S2P Require Import Prelude Types HrList HrListSpec Store Scheduler SchedulerSpec Timeout TimeoutSpec KState PortStack PortStackSpec TaskCore KernelBase KernelInv MutexPriority Kernel Semaphore Queue Timer KernelTick TaskApi KernelTasks KernelSpec KernelSwitch SemaphoreSpec KernelInitSpec QueueSpec KernelTickSpec SystemSpec Scenario ServiceProps.
Open Scope Z_scope.

(** ** The memory of a state *)

Lemma bytes_ext s s' a n : ks_bytes s' = ks_bytes s -> bytes_at s' a n = bytes_at s a n.
Proof. intros E. unfold bytes_at, read_byte. by rewrite E. Qed.
Lemma messages_ext s s' q : ks_bytes s' = ks_bytes s -> queue_at s' q = queue_at s q -> messages s' q = messages s q.
Proof. intros EB EQ. unfold messages, message_at, bytes_at, read_byte. by rewrite EB, EQ. Qed.

(** Regions of memory one after the other are apart. *)
Lemma apart_intervals a n c m : 0 <= a -> a + n <= c -> c + m <= 2 ^ 32 -> apart a n c m.
Proof. intros Ha Hac Hcm i j Hi Hj. rewrite !u32_small by (unfold UINT32_MAX; lia). lia. Qed.

(** ** A system with a queue *)

(** Task 2 of the example system has created a queue of two messages of two bytes; then
    it has sent one; then an interrupt handler runs. *)
Definition s_queue : kstate := run_state (hr_queue_create_static (Some 7%N) (Some 0x20004000) 2 2) s_run.
Definition s_sent : kstate := run_state (hr_queue_send (Some 7%N) (Some 0x20005000) HR_NO_WAIT) s_queue.
Definition s_handler : kstate := with_port (pt_set_inside_isr true (ks_port s_sent)) s_sent.

Lemma runs_queue : run_call (CallQueue 7%N 0x20004000 2 2) s_run = Some s_queue.
Proof. cbn [run_call]. unfold s_queue. apply run_snd. vm_compute. eexists. reflexivity. Qed.
Lemma runs_sent : run_call (CallSend 7%N 0x20005000 HR_NO_WAIT) s_queue = Some s_sent.
Proof. cbn [run_call]. unfold s_sent. apply run_snd. vm_compute. eexists. reflexivity. Qed.
Lemma running_s_queue : running s_queue 2%N.
Proof. split; vm_compute; reflexivity. Qed.
Lemma running_s_sent : running s_sent 2%N.
Proof. split; vm_compute; reflexivity. Qed.
Lemma reachable_s_queue : reachable s_queue.
Proof.
  eapply reachable_step; [exact reachable_s_run|].
  eapply (step_call s_run s_queue 2%N _ running_s_run); [discriminate| |exact runs_queue]. simpl. lia.
Qed.
Lemma reachable_s_sent : reachable s_sent.
Proof.
  eapply reachable_step; [exact reachable_s_queue|].
  eapply (step_call s_queue s_sent 2%N _ running_s_queue); [discriminate| |exact runs_sent].
  simpl. unfold HR_NO_WAIT, UINT32_MAX. lia.
Qed.
Lemma reachable_s_handler : reachable s_handler.
Proof. eapply reachable_step; [exact reachable_s_sent|]. apply step_port. Qed.

(** What the witnesses need of a state with the queue 7 and no waiting task. *)
Lemma example_queue s : reachable s -> queue_valid s 7%N ->
  contents (st_lists (ks_store s)) (QueueReceiveWaiters 7) = [] -> contents (st_lists (ks_store s)) (QueueSendWaiters 7) = [] ->
  exists T D V b, kcore T D s V b nobody /\ no_expired s /\ ph_timers b = T /\
    V !! QueueReceiveWaiters 7 = Some [] /\ V !! QueueSendWaiters 7 = Some [].
Proof.
  intros HR Hv ER ES. destruct (reachable_kcore s HR) as (T & D & V & b & _ & KC & NE & _ & PT).
  destruct (queue_waiters T D b s V 7%N KC Hv (QueueReceiveWaiters 7) ltac:(auto)) as [rs Hrs].
  destruct (queue_waiters T D b s V 7%N KC Hv (QueueSendWaiters 7) ltac:(auto)) as [ss Hss].
  exists T, D, V, b. pose proof (view_contents _ _ _ _ _ _ _ KC Hrs). pose proof (view_contents _ _ _ _ _ _ _ KC Hss).
  split; [exact KC|]. split; [exact NE|]. split; [exact PT|]. split; congruence.
Qed.

(** A woken task, in the state after the wake-up and the switch request. *)
Definition task_woken (s s' : kstate) (u : task_ptr) : Prop :=
  t_state (task_at s' u) = woken_state (task_at s u) /\ t_wait_result (task_at s' u) = HR_OK /\
  node_list s' (WaitNode u) = None /\ node_list s' (TimeoutNode u) = None /\
  (t_state (task_at s u) = HR_TASK_STATE_BLOCKED -> woken_preempts s' u = true -> pt_pendsv (ks_port s') = true).

(** The memory after a message was read. *)
Lemma receive_copy s q B item : let c := queue_at s q in
  queue_range c -> 0 < q_count c -> storage_apart c item -> copied s B item (slot_at c (q_head c)) (q_item_size c) ->
  bytes_at (ks_set_bytes B s) item (q_item_size c) = message_at s c (q_head c) /\
  messages (set_queue q (dequeued c) (ks_set_bytes B s)) q = messages (set_queue q (dequeued c) s) q.
Proof.
  intros c R Hc Hap CP. pose proof R as [_ _ R3 _ _ R6 _]. split.
  - unfold message_at. rewrite Z.mod_small by done. apply (cp_value _ _ _ _ _ CP), apart_sym. by apply slot_apart_region.
  - pose proof (messages_frame (set_queue q (dequeued c) s) q B item (slot_at c (q_head c)) (q_item_size c)) as HF.
    rewrite queue_at_set_eq in HF. apply HF; [by apply dequeued_range| |done]. destruct CP as [C1 C2]. split; [exact C1|exact C2].
Qed.

(** ... and the message of a waiting sender took the freed slot. *)
Lemma receive_refill s q B1 B2 item buffer : let c := queue_at s q in
  queue_range c -> 0 < q_count c -> storage_apart c item -> storage_apart c buffer ->
  apart item (q_item_size c) buffer (q_item_size c) ->
  copied s B1 item (slot_at c (q_head c)) (q_item_size c) ->
  copied (ks_set_bytes B1 s) B2 (slot_at c (q_tail c)) buffer (q_item_size c) ->
  let s2 := set_queue q (enqueued (dequeued c)) (ks_set_bytes B2 s) in
  bytes_at s2 item (q_item_size c) = message_at s c (q_head c) /\
  messages s2 q = messages (set_queue q (dequeued c) s) q ++ [bytes_at s buffer (q_item_size c)].
Proof.
  intros c R Hc Hap Hab Hib CP1 CP2 s2. destruct (receive_copy s q B1 item R Hc Hap CP1) as [E1 E2].
  destruct (queue_range_tail _ R) as (Htl & _ & _). split.
  - etrans; [|exact E1]. apply (cp_frame _ _ _ _ _ CP2). by apply slot_apart_region.
  - fold c in E2 |- *. rewrite <- E2. set (s1 := set_queue q (dequeued c) (ks_set_bytes B1 s)).
    assert (Hq : queue_at s1 q = dequeued c) by apply queue_at_set_eq.
    assert (Eb : bytes_at s buffer (q_item_size c) = bytes_at s1 buffer (q_item_size c)).
    { symmetry. exact (cp_frame _ _ _ _ _ CP1 buffer (q_item_size c) Hib). }
    rewrite Eb. pose proof (messages_enqueue s1 q B2 buffer) as HE. rewrite Hq in HE.
    assert (Es : s2 = set_queue q (enqueued (dequeued c)) (ks_set_bytes B2 s1)).
    { unfold s2, s1, set_queue. simpl. by rewrite insert_insert_eq. }
    rewrite Es. apply HE; [by apply dequeued_range|simpl; destruct R; lia| |exact Hab].
    destruct CP2 as [C1 C2]. split; [exact C1|exact C2].
Qed.

Section queue.
Context `{Config} (T : Z) (D : node_addr -> Z) (b : phase).

(** What the end of a call makes of a state [s1]. *)
Lemma finish_queue_woke s0 s1 V1 u f p :
  ph_timers b = T -> queue_woke T D b s0 s1 V1 u f ->
  let s' := pend_if (default false f) (with_port p s1) in
  kinv T D s' /\ task_woken s0 s' u /\ ks_bytes s' = ks_bytes s0 /\ (forall q, queue_at s' q = queue_at s0 q).
Proof.
  intros PT [KC NE W Hf HF] s'. pose proof (wo_rest _ _ _ _ W) as R.
  assert (E : exists p', s' = with_port p' s1) by (unfold s', pend_if; destruct (default false f); by eexists).
  destruct E as [p' E]. rewrite E. destruct (wo_idle _ _ _ _ W). split_and!.
  - exists V1, b. split_and!; [by apply kcore_port|done..].
  - split_and!; try done; [apply W|apply W|]. intros Hb Hp. rewrite <- E. unfold s'.
    rewrite HF by (unfold suspended_wait; by rewrite Hb). change (woken_preempts (with_port p' s1) u) with (woken_preempts s1 u) in Hp.
    by rewrite Hp.
  - rewrite R. done.
  - intros q. by rewrite R.
Qed.

Lemma finish_queue_blocked s0 s1 V1 t q l ns item timeout p :
  ph_timers b = T -> queue_blocked T D b s0 s1 V1 t q l ns item timeout ->
  let s' := pend (with_port p s1) in
  (exists D', kinv T D' s') /\ t_state (task_at s' t) = HR_TASK_STATE_BLOCKED /\ node_list s' (ReadyNode t) = None /\
  t_wait_buffer (task_at s' t) = Some item /\ pt_pendsv (ks_port s') = true /\
  contents (st_lists (ks_store s')) l = insert_by (priority_at (ks_store s0)) (WaitNode t) ns /\
  (node_list s' (TimeoutNode t) = None <-> timeout = HR_WAIT_FOREVER) /\
  (forall u, u <> t -> task_at s' u = task_at s0 u) /\ messages s' q = messages s0 q.
Proof.
  intros PT [KC NE HV BF OW HT HS HB] s'. pose proof (bf_rest _ _ _ BF) as R.
  split_and!; try done; [exists (wait_deadline T D t timeout), V1, b; split_and!; [by repeat apply kcore_port|done..]|apply BF| |apply BF|].
  - symmetry. exact (view_contents _ _ _ _ _ _ _ KC HV).
  - unfold s'. apply messages_ext; by rewrite R.
Qed.
End queue.

(** C14: [hr_queue_send]: a waiting receiver gets the message directly in its buffer and its
    wait ends with OK; otherwise the message is appended to those of the queue while there
    is room; a full queue makes the call return FULL without a wait time, and block the task
    among the senders, in the order of priorities, with one.  The invariant holds afterwards
    on every branch. *)
Theorem queue_send_spec T D s V b q rs ss t item timeout :
  kcore T D s V b nobody -> no_expired s -> ph_timers b = T -> queue_valid s q ->
  V !! QueueReceiveWaiters q = Some rs -> V !! QueueSendWaiters q = Some ss ->
  hr_port_is_inside_isr s = false -> running s t -> t <> g_idle_task -> 0 <= timeout <= UINT32_MAX ->
  storage_apart (queue_at s q) item ->
  exists r s', hr_queue_send (Some q) (Some item) timeout s = Some (r, s') /\ (exists D', kinv T D' s') /\
    let c := queue_at s q in
    match rs with
    | n :: _ => r = Returns HR_OK /\ exists u buffer, n = WaitNode u /\ t_wait_buffer (task_at s u) = Some buffer /\
        task_woken s s' u /\ queue_at s' q = c /\
        (apart buffer (q_item_size c) item (q_item_size c) -> bytes_at s' buffer (q_item_size c) = bytes_at s item (q_item_size c))
    | [] => if q_count c <? q_capacity c
            then r = Returns HR_OK /\ messages s' q = messages s q ++ [bytes_at s item (q_item_size c)] /\ ks_tasks s' = ks_tasks s
            else if timeout =? HR_NO_WAIT then r = Returns HR_ERROR_QUEUE_FULL /\ s' = s
            else r = Waits t /\ t_state (task_at s' t) = HR_TASK_STATE_BLOCKED /\ t_wait_buffer (task_at s' t) = Some item /\
              pt_pendsv (ks_port s') = true /\
              contents (st_lists (ks_store s')) (QueueSendWaiters q) = insert_by (priority_at (ks_store s)) (WaitNode t) ss /\
              (node_list s' (TimeoutNode t) = None <-> timeout = HR_WAIT_FOREVER) /\ messages s' q = messages s q
    end.
Proof.
  intros KC NE PT Hv Hrs Hss Hisr RN Hni Ht Hap. pose proof RN as [HK _ _].
  apply (wp_run (hr_queue_send (Some q) (Some item) timeout) (fun r s' => (exists D', kinv T D' s') /\ _)).
  apply (queue_task_call_spec T D b s V); try done.
  assert (KC0 : kcore T D (masked s) V b nobody) by (by apply kcore_port).
  apply (send_locked_spec T D b (masked s) V q KC0 NE Hv rs ss item timeout true t); [done|done|done|intros _ _; split; [by apply running_port|done]|..].
  - intros u us buffer B f s1 V1 -> Hb CP QW. split; [by rewrite (wo_rest _ _ _ _ (qw_woke _ _ _ _ _ _ _ _ QW))|].
    destruct (finish_queue_woke T D b _ s1 V1 u f (ks_port s) PT QW) as (KI & TW & EB & EQ). cbn [fst].
    split; [by exists D|]. split; [done|]. exists u, buffer. split; [done|]. split; [done|]. split; [exact TW|]. split; [exact (EQ q)|].
    intros Hbi. rewrite (bytes_ext _ _ _ _ EB). exact (cp_value _ _ _ _ _ CP Hbi).
  - intros B -> Hc CP KC1. split; [done|]. change (queue_at (masked s) q) with (queue_at s q) in *.
    cbn [fst switch_wanted snd default orb pend_if]. split; [exists D, V, b; split_and!; [by apply kcore_port|done..]|].
    rewrite (proj2 (Z.ltb_lt _ _) Hc). split_and!; try done.
    exact (messages_enqueue (masked s) q B item (queue_in_range T D b (masked s) V q KC0 Hv) Hc CP Hap).
  - intros -> Hc ->. split; [done|]. change (queue_at (masked s) q) with (queue_at s q) in *. rewrite Hc, Z.ltb_irrefl.
    cbn. split; [exists D, V, b; split_and!; [by repeat apply kcore_port|done..]|]. split; [done|]. by destruct s.
  - done.
  - intros s1 V1 -> Hc Hw _ QB. split; [by rewrite (bf_rest _ _ _ (qb_frame _ _ _ _ _ _ _ _ _ _ _ _ QB))|].
    change (queue_at (masked s) q) with (queue_at s q) in *. rewrite Hc, Z.ltb_irrefl, (proj2 (Z.eqb_neq _ _) Hw).
    destruct (finish_queue_blocked T D b _ s1 V1 t q _ ss item timeout (ks_port s) PT QB) as (KI & H1 & _ & H2 & H3 & H4 & H5 & _ & H6).
    cbn [fst]. split; [exact KI|]. split_and!; try done; apply H5.
Qed.

Lemma queue_send_spec_witness : exists T D V b s', kcore T D s_queue V b nobody /\ V !! QueueReceiveWaiters 7 = Some [] /\
  hr_queue_send (Some 7%N) (Some 0x20005000) HR_NO_WAIT s_queue = Some (Returns HR_OK, s') /\
  messages s' 7%N = [bytes_at s_queue 0x20005000 2].
Proof.
  assert (Hv : queue_valid s_queue 7%N) by (vm_compute; reflexivity).
  destruct (example_queue s_queue reachable_s_queue Hv) as (T & D & V & b & KC & NE & PT & HR & HS); [vm_compute; reflexivity..|].
  destruct (queue_send_spec T D s_queue V b 7%N [] [] 2%N 0x20005000 HR_NO_WAIT KC NE PT Hv HR HS) as (r & s' & E & _ & HB);
    [vm_compute; reflexivity|exact running_s_queue|discriminate|unfold HR_NO_WAIT, UINT32_MAX; lia|
     apply apart_intervals; vm_compute; congruence|].
  exists T, D, V, b, s'. split; [exact KC|]. split; [exact HR|]. cbv zeta in HB.
  assert (Hc : (q_count (queue_at s_queue 7) <? q_capacity (queue_at s_queue 7)) = true) by (vm_compute; reflexivity).
  rewrite Hc in HB. destruct HB as (-> & HM & _). split; [exact E|]. rewrite HM.
  assert (HM0 : messages s_queue 7%N = []) by (vm_compute; reflexivity).
  assert (Hs : q_item_size (queue_at s_queue 7) = 2) by (vm_compute; reflexivity). rewrite HM0, Hs. reflexivity.
Defined.

(** C15: [hr_queue_receive]: the oldest message is copied into the caller's buffer and leaves
    the queue; when a sender waits, its message takes the freed slot as the newest one and
    its wait ends with OK.  An empty queue makes the call return EMPTY without a wait time,
    and block the task among the receivers with one. *)
Theorem queue_receive_spec T D s V b q rs ss t item timeout :
  kcore T D s V b nobody -> no_expired s -> ph_timers b = T -> queue_valid s q ->
  V !! QueueReceiveWaiters q = Some rs -> V !! QueueSendWaiters q = Some ss ->
  hr_port_is_inside_isr s = false -> running s t -> t <> g_idle_task -> 0 <= timeout <= UINT32_MAX ->
  storage_apart (queue_at s q) item ->
  exists r s', hr_queue_receive (Some q) (Some item) timeout s = Some (r, s') /\ (exists D', kinv T D' s') /\
    let c := queue_at s q in
    match messages s q with
    | oldest :: rest => r = Returns HR_OK /\
        match ss with
        | [] => bytes_at s' item (q_item_size c) = oldest /\ messages s' q = rest /\ ks_tasks s' = ks_tasks s
        | n :: _ => exists u buffer, n = WaitNode u /\ t_wait_buffer (task_at s u) = Some buffer /\ task_woken s s' u /\
            (storage_apart c buffer -> apart item (q_item_size c) buffer (q_item_size c) ->
             bytes_at s' item (q_item_size c) = oldest /\ messages s' q = rest ++ [bytes_at s buffer (q_item_size c)])
        end
    | [] => if timeout =? HR_NO_WAIT then r = Returns HR_ERROR_QUEUE_EMPTY /\ s' = s
            else r = Waits t /\ t_state (task_at s' t) = HR_TASK_STATE_BLOCKED /\ t_wait_buffer (task_at s' t) = Some item /\
              pt_pendsv (ks_port s') = true /\
              contents (st_lists (ks_store s')) (QueueReceiveWaiters q) = insert_by (priority_at (ks_store s)) (WaitNode t) rs /\
              (node_list s' (TimeoutNode t) = None <-> timeout = HR_WAIT_FOREVER)
    end.
Proof.
  intros KC NE PT Hv Hrs Hss Hisr RN Hni Ht Hap. pose proof RN as [HK _ _].
  apply (wp_run (hr_queue_receive (Some q) (Some item) timeout) (fun r s' => (exists D', kinv T D' s') /\ _)).
  apply (queue_task_call_spec T D b s V); try done.
  assert (KC0 : kcore T D (masked s) V b nobody) by (by apply kcore_port).
  pose proof (queue_in_range T D b s V q KC Hv) as R.
  assert (HM : 0 < q_count (queue_at s q) -> messages s q = message_at s (queue_at s q) (q_head (queue_at s q)) ::
    messages (set_queue q (dequeued (queue_at s q)) s) q) by (intros; by apply messages_dequeue).
  assert (HZ : q_count (queue_at s q) = 0 -> messages s q = []) by (intros E; unfold messages; by rewrite E).
  apply (receive_locked_spec T D b (masked s) V q KC0 NE Hv rs ss item timeout true t);
    [done|done|done|intros _ _; split; [by apply running_port|done]|..]; change (queue_at (masked s) q) with (queue_at s q).
  - intros B -> Hc CP KC1. split; [done|]. cbn [fst switch_wanted snd default orb pend_if].
    split; [exists D, V, b; split_and!; [by apply kcore_port|done..]|]. rewrite (HM Hc). split; [done|].
    destruct (receive_copy (masked s) q B item R Hc Hap CP) as [E1 E2]. split; [exact E1|]. split; [exact E2|done].
  - intros u us buffer B1 B2 f s1 V1 -> Hc Hb CP1 CP2 QW. split; [by rewrite (wo_rest _ _ _ _ (qw_woke _ _ _ _ _ _ _ _ QW))|].
    destruct (finish_queue_woke T D b _ s1 V1 u f (ks_port s) PT QW) as (KI & TW & EB & EQ). cbn [fst].
    split; [by exists D|]. rewrite (HM Hc). split; [done|]. exists u, buffer. split; [done|]. split; [done|]. split; [exact TW|].
    intros Hsb Hib. destruct (receive_refill (masked s) q B1 B2 item buffer R Hc Hap Hsb Hib CP1 CP2) as [E1 E2].
    split; [exact (eq_trans (bytes_ext _ _ _ _ EB) E1)|exact (eq_trans (messages_ext _ _ _ EB (EQ q)) E2)].
  - intros Hc ->. split; [done|]. rewrite (HZ Hc). cbn.
    split; [exists D, V, b; split_and!; [by repeat apply kcore_port|done..]|]. split; [done|]. by destruct s.
  - done.
  - intros s1 V1 Hc Hw _ QB. split; [by rewrite (bf_rest _ _ _ (qb_frame _ _ _ _ _ _ _ _ _ _ _ _ QB))|].
    rewrite (HZ Hc), (proj2 (Z.eqb_neq _ _) Hw).
    destruct (finish_queue_blocked T D b _ s1 V1 t q _ rs item timeout (ks_port s) PT QB) as (KI & H1 & _ & H2 & H3 & H4 & H5 & _ & _).
    cbn [fst]. split; [exact KI|]. split_and!; try done; apply H5.
Qed.

Lemma queue_receive_spec_witness : exists T D V b s' m, kcore T D s_sent V b nobody /\ messages s_sent 7%N = [m] /\
  hr_queue_receive (Some 7%N) (Some 0x20006000) HR_NO_WAIT s_sent = Some (Returns HR_OK, s') /\
  bytes_at s' 0x20006000 (q_item_size (queue_at s_sent 7)) = m /\ messages s' 7%N = [].
Proof.
  assert (Hv : queue_valid s_sent 7%N) by (vm_compute; reflexivity).
  destruct (example_queue s_sent reachable_s_sent Hv) as (T & D & V & b & KC & NE & PT & HR & HS); [vm_compute; reflexivity..|].
  destruct (queue_receive_spec T D s_sent V b 7%N [] [] 2%N 0x20006000 HR_NO_WAIT KC NE PT Hv HR HS) as (r & s' & E & _ & HB);
    [vm_compute; reflexivity|exact running_s_sent|discriminate|unfold HR_NO_WAIT, UINT32_MAX; lia|
     apply apart_intervals; vm_compute; congruence|].
  assert (HM : exists m, messages s_sent 7%N = [m]) by (eexists; vm_compute; reflexivity). destruct HM as [m HM].
  cbv zeta in HB. rewrite HM in HB. destruct HB as (-> & H1 & H2 & _).
  exists T, D, V, b, s', m. split; [exact KC|]. split; [exact HM|]. split; [exact E|]. split; [exact H1|exact H2].
Defined.

(** ** A queue is a bounded buffer *)

(** An interrupt handler sends the message in a buffer or receives one into a buffer. *)
Inductive queue_op : Type := PutFrom (item : Z) | TakeInto (item : Z).
(** What it observes. *)
Inductive queue_event : Type := Sent (m : list Z) | Refused | Received (m : list Z) | NothingThere.

Definition op_buffer (op : queue_op) : Z := match op with PutFrom a | TakeInto a => a end.

Definition exec_queue_op (q : queue_ptr) (op : queue_op) (s : kstate) : option (queue_event * kstate) :=
  let size := q_item_size (queue_at s q) in
  match op with
  | PutFrom a =>
      match hr_queue_send_from_isr (Some q) (Some a) s with
      | Some ((HR_OK, _), s') => Some (Sent (bytes_at s a size), s')
      | Some ((HR_ERROR_QUEUE_FULL, _), s') => Some (Refused, s')
      | _ => None
      end
  | TakeInto a =>
      match hr_queue_receive_from_isr (Some q) (Some a) s with
      | Some ((HR_OK, _), s') => Some (Received (bytes_at s' a size), s')
      | Some ((HR_ERROR_QUEUE_EMPTY, _), s') => Some (NothingThere, s')
      | _ => None
      end
  end.
Fixpoint run_queue_ops (q : queue_ptr) (ops : list queue_op) (s : kstate) : option (list queue_event * kstate) :=
  match ops with
  | [] => Some ([], s)
  | op :: ops =>
      '(e, s1) ← exec_queue_op q op s; '(es, s2) ← run_queue_ops q ops s1; Some (e :: es, s2)
  end.

(** The same events on a bounded sequence of messages. *)
Definition fifo_event (capacity : Z) (e : queue_event) (ms : list (list Z)) : option (list (list Z)) :=
  match e with
  | Sent m => if Z.of_nat (length ms) <? capacity then Some (ms ++ [m]) else None
  | Refused => if Z.of_nat (length ms) =? capacity then Some ms else None
  | Received m => match ms with m' :: rest => if decide (m = m') then Some rest else None | [] => None end
  | NothingThere => match ms with [] => Some [] | _ => None end
  end.
Fixpoint fifo_run (capacity : Z) (es : list queue_event) (ms : list (list Z)) : option (list (list Z)) :=
  match es with [] => Some ms | e :: es => fifo_event capacity e ms ≫= fifo_run capacity es end.

Definition sent_by (es : list queue_event) : list (list Z) := omap (fun e => match e with Sent m => Some m | _ => None end) es.
Definition received_by (es : list queue_event) : list (list Z) := omap (fun e => match e with Received m => Some m | _ => None end) es.

(** Nothing is lost, duplicated or reordered. *)
Lemma fifo_run_order capacity es : forall ms ms', fifo_run capacity es ms = Some ms' -> received_by es ++ ms' = ms ++ sent_by es.
Proof.
  induction es as [|e es IH]; intros ms ms' HR; simpl in HR; [simplify_eq; symmetry; apply app_nil_r|].
  apply bind_Some in HR as (ms1 & HE & HR). apply IH in HR. destruct e as [m| |m|]; simpl in *.
  - destruct (_ <? _); simplify_eq. rewrite HR, <- app_assoc. done.
  - destruct (_ =? _); simplify_eq. done.
  - destruct ms as [|m' rest]; [done|]. case_decide; simplify_eq. simpl. by rewrite HR.
  - by destruct ms; simplify_eq.
Qed.

Lemma messages_length s q : 0 <= q_count (queue_at s q) -> Z.of_nat (length (messages s q)) = q_count (queue_at s q).
Proof. intros. unfold messages. rewrite length_fmap, length_seqZ. lia. Qed.

Section fifo.
Context (T : Z) (D : node_addr -> Z) (b : phase) (V : view) (q : queue_ptr).

(** An interrupt handler runs and no task waits on the queue. *)
Record handler_state (s : kstate) : Prop := {
  hs_core : kcore T D s V b nobody;
  hs_expired : no_expired s;
  hs_valid : queue_valid s q;
  hs_receivers : V !! QueueReceiveWaiters q = Some [];
  hs_senders : V !! QueueSendWaiters q = Some [];
  hs_isr : hr_port_is_inside_isr s = true;
}.
Definition same_geometry (c c' : hr_queue_control_block_t) : Prop :=
  q_storage c' = q_storage c /\ q_item_size c' = q_item_size c /\ q_capacity c' = q_capacity c.

Lemma same_geometry_apart c c' a : same_geometry c c' -> storage_apart c a -> storage_apart c' a.
Proof. intros (E1 & E2 & E3). unfold storage_apart. by rewrite E1, E2, E3. Qed.

Lemma handler_set s c B p : handler_state s -> q_magic c = q_magic (queue_at s q) -> p = ks_port s ->
  kcore T D (set_queue q c (ks_set_bytes B (masked s))) V b nobody ->
  handler_state (with_port p (set_queue q c (ks_set_bytes B (masked s)))).
Proof.
  intros [H1 H2 H3 H4 H5 H6] Hm -> KC. split; [by apply kcore_port|exact H2| |done|done|exact H6].
  unfold queue_valid in *. change (queue_at (with_port _ ?x) q) with (queue_at x q). by rewrite queue_at_set_eq, Hm.
Qed.

Lemma exec_queue_op_spec s op : handler_state s -> storage_apart (queue_at s q) (op_buffer op) ->
  exists e s', exec_queue_op q op s = Some (e, s') /\ handler_state s' /\ same_geometry (queue_at s q) (queue_at s' q) /\
    fifo_event (q_capacity (queue_at s q)) e (messages s q) = Some (messages s' q).
Proof.
  intros HS Hap. pose proof HS as [KC NE Hv Hrs Hss Hi]. set (c := queue_at s q) in *.
  assert (KC0 : kcore T D (masked s) V b nobody) by (by apply kcore_port).
  pose proof (queue_in_range T D b s V q KC Hv) as R. pose proof R as [_ _ R3 _ R5 _ _].
  pose proof (messages_length s q ltac:(apply R5)) as HL. fold c in HL, R, R3, R5.
  assert (Hid : with_port (ks_port s) (masked s) = s) by (by destruct s).
  assert (H0 : 0 <= HR_NO_WAIT <= UINT32_MAX) by (unfold HR_NO_WAIT, UINT32_MAX; lia).
  destruct op as [a|a]; simpl in Hap; unfold exec_queue_op; fold c.
  - assert (HW : wp (hr_queue_send_from_isr (Some q) (Some a)) (fun r s' => handler_state s' /\ same_geometry c (queue_at s' q) /\
      (fst r = HR_OK /\ q_count c < q_capacity c /\ messages s' q = messages s q ++ [bytes_at s a (q_item_size c)] \/
       fst r = HR_ERROR_QUEUE_FULL /\ q_count c = q_capacity c /\ s' = s)) s).
    { apply (queue_isr_call_spec T D b s V); try done.
      apply (send_locked_spec T D b (masked s) V q KC0 NE Hv [] [] a HR_NO_WAIT false g_idle_task); try done.
      - intros B _ Hc CP KC1. split; [done|]. split; [by apply handler_set|]. split.
        { change (queue_at (with_port _ ?x) q) with (queue_at x q). by rewrite queue_at_set_eq. }
        left. split; [done|]. split; [exact Hc|]. exact (messages_enqueue (masked s) q B a R Hc CP Hap).
      - intros _ Hc _. split; [done|]. rewrite Hid. split; [done|]. split; [done|]. by right. }
    apply wp_run in HW as ([st f] & s' & -> & HS' & HG & HE). simpl in HE.
    destruct HE as [(-> & Hc & Hm)|(-> & Hc & ->)]; eexists _, _; (split; [reflexivity|]); (split; [done|]); (split; [done|]); simpl; rewrite HL.
    + rewrite (proj2 (Z.ltb_lt _ _) Hc). by rewrite Hm.
    + by rewrite Hc, Z.eqb_refl.
  - assert (HW : wp (hr_queue_receive_from_isr (Some q) (Some a)) (fun r s' => handler_state s' /\ same_geometry c (queue_at s' q) /\
      (fst r = HR_OK /\ messages s q = bytes_at s' a (q_item_size c) :: messages s' q \/
       fst r = HR_ERROR_QUEUE_EMPTY /\ q_count c = 0 /\ s' = s)) s).
    { apply (queue_isr_call_spec T D b s V); try done.
      apply (receive_locked_spec T D b (masked s) V q KC0 NE Hv [] [] a HR_NO_WAIT false g_idle_task); try done.
      - intros B _ Hc CP KC1. split; [done|]. split; [by apply handler_set|]. split.
        { change (queue_at (with_port _ ?x) q) with (queue_at x q). by rewrite queue_at_set_eq. }
        left. split; [done|]. destruct (receive_copy (masked s) q B a R Hc Hap CP) as [E1 E2].
        rewrite (messages_dequeue s q R Hc). f_equal; [symmetry; exact E1|symmetry; exact E2].
      - intros Hc _. split; [done|]. rewrite Hid. split; [done|]. split; [done|]. by right. }
    apply wp_run in HW as ([st f] & s' & -> & HS' & HG & HE). simpl in HE.
    destruct HE as [(-> & Hm)|(-> & Hc & ->)]; eexists _, _; (split; [reflexivity|]); (split; [done|]); (split; [done|]); simpl.
    + rewrite Hm. by rewrite decide_True.
    + destruct (messages s q); [done|]. simpl in HL. lia.
Qed.
End fifo.

(** C16: A queue whose two wait lists are empty is a bounded first-in first-out buffer: whatever sequence of
    sends and receives interrupt handlers make, each one does what it would do on the
    sequence of messages bounded by the capacity, with FULL and EMPTY exactly when that
    sequence is full or empty; so the messages received and those left are the messages
    there were and those sent, in this order. *)
Theorem queue_is_fifo T D s V b q ops :
  handler_state T D b V q s -> (forall op, op ∈ ops -> storage_apart (queue_at s q) (op_buffer op)) ->
  exists es s', run_queue_ops q ops s = Some (es, s') /\ handler_state T D b V q s' /\
    fifo_run (q_capacity (queue_at s q)) es (messages s q) = Some (messages s' q) /\
    received_by es ++ messages s' q = messages s q ++ sent_by es.
Proof.
  intros HS Hap.
  assert (HR : exists es s', run_queue_ops q ops s = Some (es, s') /\ handler_state T D b V q s' /\
    fifo_run (q_capacity (queue_at s q)) es (messages s q) = Some (messages s' q)).
  { revert s HS Hap. induction ops as [|op ops IH]; intros s HS Hap; [by exists [], s|].
    destruct (exec_queue_op_spec T D b V q s op HS) as (e & s1 & E1 & HS1 & HG & HE); [apply Hap, elem_of_cons; by left|].
    destruct (IH s1 HS1) as (es & s2 & E2 & HS2 & HR).
    { intros o Ho. apply (same_geometry_apart _ _ _ HG), Hap, elem_of_cons. by right. }
    exists (e :: es), s2. simpl. rewrite E1. simpl. rewrite E2. split; [done|]. split; [done|].
    rewrite HE. simpl. destruct HG as (_ & _ & <-). exact HR. }
  destruct HR as (es & s' & E & HS' & HR). exists es, s'. split_and!; try done. by eapply fifo_run_order.
Qed.

Lemma queue_is_fifo_witness : exists T D V b es s', handler_state T D b V 7%N s_handler /\
  run_queue_ops 7%N [PutFrom 0x20005000; PutFrom 0x20005000; TakeInto 0x20006000] s_handler = Some (es, s') /\
  received_by es ++ messages s' 7%N = messages s_handler 7%N ++ sent_by es.
Proof.
  assert (Hv : queue_valid s_handler 7%N) by (vm_compute; reflexivity).
  destruct (example_queue s_handler reachable_s_handler Hv) as (T & D & V & b & KC & NE & PT & HR & HS); [vm_compute; reflexivity..|].
  assert (HH : handler_state T D b V 7%N s_handler).
  { split; [exact KC|exact NE|exact Hv|exact HR|exact HS|vm_compute; reflexivity]. }
  destruct (queue_is_fifo T D s_handler V b 7%N [PutFrom 0x20005000; PutFrom 0x20005000; TakeInto 0x20006000] HH)
    as (es & s' & E & _ & _ & HO).
  { intros op Hop. assert (Hb : op_buffer op = 0x20005000 \/ op_buffer op = 0x20006000).
    { rewrite !elem_of_cons, elem_of_nil in Hop. destruct Hop as [->|[->|[->|[]]]]; [left|left|right]; reflexivity. }
    destruct Hb as [-> | ->]; apply apart_intervals; vm_compute; congruence. }
  exists T, D, V, b, es, s'. split; [exact HH|]. split; [exact E|exact HO].
Defined.
