(* ===== verification/MutexProps.v ===== *)
(** Properties of the mutexes: locking and unlocking on every branch, with priority
    inheritance, and the integrity checks of all synchronisation objects. *)
From stdpp Require Import gmap list.
From Stdlib Require Import ZArith Lia.
From S2P Require Import Prelude Types HrList HrListSpec Store Scheduler SchedulerSpec WaitList WaitListSpec Timeout TimeoutSpec KState PortStack PortStackSpec TaskCore KernelBase KernelInv MutexPriority Kernel Semaphore Mutex Queue Timer KernelTick TaskApi KernelTasks KernelSpec KernelSwitch SemaphoreSpec TimerSpec KernelInitSpec QueueSpec MutexSpec MutexCallSpec KernelTickSpec SystemSpec Scenario ServiceProps.
Open Scope Z_scope.

(** ** A system with a mutex *)

(** Task 2 of the example system creates the mutex 9 and sleeps; task 3, less urgent, locks
    it; task 2 wakes up, and then waits for the mutex. *)
Definition s_mutex : kstate := run_state (hr_mutex_create_internal (Some 9%N) false) s_run.
Definition s_slept : kstate := run_state hr_kernel_select_next_from_pendsv (run_state (hr_task_delay 1) s_mutex).
Definition s_locked : kstate := run_state (hr_mutex_lock (Some 9%N) HR_NO_WAIT) s_slept.
Definition s_contends : kstate :=
  run_state hr_kernel_select_next_from_pendsv (run_state hr_kernel_tick_from_isr s_locked).
Definition s_lent : kstate :=
  run_state hr_kernel_select_next_from_pendsv (run_state (hr_mutex_lock (Some 9%N) HR_WAIT_FOREVER) s_contends).

Lemma reach_call s s' t c : reachable s -> running s t -> t <> g_idle_task -> call_ok s c -> run_call c s = Some s' -> reachable s'.
Proof. intros HR RN Hni Hok E. eapply reachable_step; [exact HR|]. by eapply step_call. Qed.

Ltac runs_call := cbn [run_call]; apply run_snd; vm_compute; eexists; reflexivity.
Ltac is_running := split; vm_compute; reflexivity.
Ltac in_range := cbn [call_ok]; unfold HR_NO_WAIT, HR_WAIT_FOREVER, UINT32_MAX, SIZE_MAX; lia.

Lemma reachable_s_mutex : reachable s_mutex.
Proof.
  apply (reach_call s_run s_mutex 2%N (CallMutex 9%N false) reachable_s_run running_s_run); [discriminate|in_range|].
  unfold s_mutex. runs_call.
Qed.
Lemma reachable_s_slept : reachable s_slept.
Proof.
  eapply reachable_step; [|apply step_pendsv; unfold s_slept; runs].
  apply (reach_call s_mutex _ 2%N (CallDelay 1) reachable_s_mutex); [is_running|discriminate|in_range|runs_call].
Qed.
Lemma reachable_s_locked : reachable s_locked.
Proof.
  apply (reach_call s_slept s_locked 3%N (CallLock 9%N HR_NO_WAIT) reachable_s_slept); [is_running|discriminate|in_range|].
  unfold s_locked. runs_call.
Qed.
Lemma reachable_s_contends : reachable s_contends.
Proof.
  eapply reachable_step; [|apply step_pendsv; unfold s_contends; runs].
  eapply reachable_step; [exact reachable_s_locked|]. apply step_tick. runs.
Qed.
Lemma running_s_contends : running s_contends 2%N.
Proof. is_running. Qed.
Lemma reachable_s_lent : reachable s_lent.
Proof.
  eapply reachable_step; [|apply step_pendsv; unfold s_lent; runs].
  apply (reach_call s_contends _ 2%N (CallLock 9%N HR_WAIT_FOREVER) reachable_s_contends running_s_contends);
    [discriminate|in_range|runs_call].
Qed.
Lemma running_s_lent : running s_lent 3%N.
Proof. is_running. Qed.
Example s_lent_inherited : t_effective_priority (task_at s_lent 3) = 3 /\ t_base_priority (task_at s_lent 3) = 5.
Proof. vm_compute. split; reflexivity. Qed.

(** ** Locking *)

Lemma inherits_ext s s' : (forall m, mx_owner (mutex_at s' m) = mx_owner (mutex_at s m)) ->
  (forall n, node_list s' n = node_list s n) -> (forall u, task_at s' u = task_at s u) -> inherits s -> inherits s'.
Proof. intros HM HL HT HI m o u Hne. rewrite HM, HL, !HT. by apply HI. Qed.

(** C12: [hr_mutex_lock]: a free mutex becomes the caller's; its owner counts one more level when
    the mutex is recursive, up to the width of the counter, and gets BUSY otherwise; for
    another task it returns BUSY without a wait time.  Otherwise the chain of owners decides:
    the owner of the mutex, the owner of the mutex that one waits for, and so on.  If it
    ends, within the bound on its length, at a task that waits for no mutex and is not the
    caller, the caller blocks until the mutex is handed over or the wait times out, every
    owner on the chain becomes at least as urgent as the caller, no other task changes, and
    if every owner was at least as urgent as the tasks that wait for its mutexes this still
    holds.  If it leads back to the caller (a deadlock) or does not end, the caller is ready
    again with the error INTERNAL and no longer waits. *)
Theorem mutex_lock_spec T D s V b m t timeout :
  kcore T D s V b nobody -> no_expired s -> ph_timers b = T -> mutex_valid s m -> hr_port_is_inside_isr s = false ->
  running s t -> t <> g_idle_task -> 0 <= timeout <= UINT32_MAX ->
  exists r s', hr_mutex_lock (Some m) timeout s = Some (r, s') /\ (exists D', kinv T D' s') /\
    let c := mutex_at s m in
    match mx_owner c with
    | None => r = Returns HR_OK /\ mutex_at s' m = mx_set_recursion_count 1 (mx_set_owner (Some t) c) /\
        node_list s' (OwnerNode m) = Some (OwnedMutexes t) /\ (inherits s -> inherits s')
    | Some o =>
        if decide (o = t) then
          if negb (mx_recursive c) then r = Returns HR_ERROR_MUTEX_BUSY /\ s' = s
          else if mx_recursion_count c =? UINT32_MAX then r = Returns HR_ERROR_OVERFLOW /\ s' = s
          else r = Returns HR_OK /\ s' = set_mutex m (mx_set_recursion_count (mx_recursion_count c + 1) c) s
        else if timeout =? HR_NO_WAIT then r = Returns HR_ERROR_MUTEX_BUSY /\ s' = s
        else r = Waits t /\ pt_pendsv (ks_port s') = true /\ ks_mutexes s' = ks_mutexes s /\
          match owner_chain (Z.to_nat HR_CFG_MAX_TASKS) s o with
          | Some os => if decide (t ∈ os) then lock_refused s s' t o else lock_blocked s s' t m timeout os
          | None => lock_refused s s' t o
          end
    end.
Proof.
  intros KC NE PT Hv Hisr RN Hni Ht.
  apply (wp_run (hr_mutex_lock (Some m) timeout) (fun r s' => (exists D', kinv T D' s') /\ _)).
  apply (lock_call_spec T D b s V m t); try done.
  assert (KC0 : kcore T D (masked s) V b nobody) by (by apply kcore_port).
  assert (HS : forall D' (s1 : kstate) V1, kcore T D' s1 V1 b nobody -> no_expired s1 -> forall p, exists D'', kinv T D'' (with_port p s1)).
  { intros D' s1 V1 KC1 NE1 p. exists D', V1, b. split_and!; [by apply kcore_port|exact NE1|exact PT]. }
  assert (Hid : with_port (ks_port s) (masked s) = s) by (by destruct s).
  apply (lock_locked_spec T D b (masked s) V m t timeout); [done|done|done|by apply running_port|done|done|..];
    change (mutex_at (masked s) m) with (mutex_at s m).
  - intros s1 V1 Ho KC1 RO. split; [by rewrite (ro_rest _ _ _ _ RO)|]. cbn [waits pend_if]. rewrite Ho.
    split; [eapply HS; [exact KC1|by eapply ro_no_expired]|]. split; [done|]. split; [apply (ro_mutex _ _ _ _ RO)|].
    split; [apply (ro_link _ _ _ _ RO)|]. intros HI. apply (inherits_ext s1); try done.
    apply (ro_inherits (masked s) s1 m (Some t) RO); [|by apply (inherits_ext s)].
    intros o u _ Hu. by destruct (free_no_waiters T D b s V nobody m (WaitNode u) KC Ho).
  - intros Ho Hr. split; [done|]. rewrite Hid. cbn [waits pend_if]. rewrite Ho, Hr, decide_True by done. cbn [negb].
    split; [exists D, V, b; done|done].
  - intros Ho Hr Hc. split; [done|]. rewrite Hid. cbn [waits pend_if]. rewrite Ho, Hr, Hc, decide_True by done. cbn [negb].
    split; [exists D, V, b; done|done].
  - intros s1 Ho Hr Hc KC1. split; [done|]. cbn [waits pend_if]. rewrite Ho, Hr, decide_True by done. cbn [negb].
    rewrite (proj2 (Z.eqb_neq _ _)) by lia. split; [eapply HS; [exact KC1|exact NE]|]. split; [done|].
    unfold s1, set_mutex, masked, with_port. by destruct s.
  - intros o Ho Hot Hw. split; [done|]. rewrite Hid. cbn [waits pend_if]. rewrite Ho, decide_False by done. rewrite Hw.
    split; [exists D, V, b; done|done].
  - intros o s1 Ho Hot Hw [[V1 KC1] NE1 P1 _ _ M1 R1]. split; [done|]. cbn [waits pend_if pend].
    rewrite Ho, decide_False by done. rewrite (proj2 (Z.eqb_neq _ _) Hw).
    split; [eapply HS; [apply kcore_port; exact KC1|exact NE1]|]. split; [done|]. split; [done|]. split; [exact M1|].
    specialize (R1 o Ho). rewrite (owner_chain_ext _ s (masked s)) in R1 by done.
    pose proof (lock_refused_port s s1 t o (ks_port (masked s)) (ks_port (pend (with_port (ks_port s) s1)))) as HRF.
    destruct (owner_chain _ s o) as [os|]; [|by apply HRF in R1]. case_decide; [by apply HRF in R1|].
    exact (lock_blocked_port s s1 t m timeout os _ _ R1).
Qed.

Lemma mutex_lock_spec_witness : exists T D V b s', kcore T D s_contends V b nobody /\
  mx_owner (mutex_at s_contends 9) = Some 3%N /\
  hr_mutex_lock (Some 9%N) HR_WAIT_FOREVER s_contends = Some (Waits 2%N, s') /\ pt_pendsv (ks_port s') = true /\
  owner_chain (Z.to_nat HR_CFG_MAX_TASKS) s_contends 3 = Some [3%N] /\ t_state (task_at s' 2) = HR_TASK_STATE_BLOCKED /\
  t_effective_priority (task_at s' 3) <= t_effective_priority (task_at s_contends 2).
Proof.
  destruct (reachable_kcore s_contends reachable_s_contends) as (T & D & V & b & _ & KC & NE & _ & PT).
  assert (Hv : mutex_valid s_contends 9%N) by (vm_compute; reflexivity).
  assert (Ho : mx_owner (mutex_at s_contends 9) = Some 3%N) by (vm_compute; reflexivity).
  destruct (mutex_lock_spec T D s_contends V b 9%N 2%N HR_WAIT_FOREVER KC NE PT Hv) as (r & s' & E & _ & HB);
    [vm_compute; reflexivity|exact running_s_contends|discriminate|unfold HR_WAIT_FOREVER, UINT32_MAX; lia|].
  cbv zeta in HB. rewrite Ho in HB. rewrite decide_False in HB by discriminate.
  change (HR_WAIT_FOREVER =? HR_NO_WAIT) with false in HB. destruct HB as (-> & HP & _ & HB).
  assert (EC : owner_chain (Z.to_nat HR_CFG_MAX_TASKS) s_contends 3 = Some [3%N]) by (vm_compute; reflexivity).
  rewrite EC in HB. rewrite decide_False in HB by (rewrite list_elem_of_singleton; discriminate).
  exists T, D, V, b, s'. split; [exact KC|]. split; [exact Ho|]. split; [exact E|]. split; [exact HP|].
  split; [exact EC|]. split; [apply HB|]. apply (lb_chain _ _ _ _ _ _ HB). apply list_elem_of_here.
Defined.

(** ** Deadlocks *)

(** C27: A deadlock is refused, but a lent priority is not taken back.  Whenever the chain of
    owners from the owner [o] of the mutex leads back to the caller [t], the call does not
    block: [t] is ready with INTERNAL and waits for nothing.  If nobody waited for a mutex of
    [o] and [t] is more urgent than the base priority of [o], then afterwards still nobody
    waits, the priority [o] is due is its base priority, and yet its effective priority is
    at least as urgent as that of [t]. *)
Theorem deadlock_keeps_lent_priority T D s V b m t o timeout os :
  kcore T D s V b nobody -> no_expired s -> ph_timers b = T -> mutex_valid s m -> hr_port_is_inside_isr s = false ->
  running s t -> t <> g_idle_task -> 0 <= timeout <= UINT32_MAX -> timeout <> HR_NO_WAIT ->
  mx_owner (mutex_at s m) = Some o -> o <> t -> owner_chain (Z.to_nat HR_CFG_MAX_TASKS) s o = Some os -> t ∈ os ->
  (forall k u, mx_owner (mutex_at s k) = Some o -> node_list s (WaitNode u) <> Some (MutexWaiters k)) ->
  t_effective_priority (task_at s t) < t_base_priority (task_at s o) ->
  exists s', hr_mutex_lock (Some m) timeout s = Some (Waits t, s') /\ (exists D', kinv T D' s') /\
    t_state (task_at s' t) = HR_TASK_STATE_READY /\ t_wait_result (task_at s' t) = HR_ERROR_INTERNAL /\
    (forall k u, mx_owner (mutex_at s' k) = Some o -> node_list s' (WaitNode u) <> Some (MutexWaiters k)) /\
    hr_mutex_required_priority s' o = Some (t_base_priority (task_at s o)) /\
    t_effective_priority (task_at s' o) <= t_effective_priority (task_at s t) /\
    t_effective_priority (task_at s' o) < t_base_priority (task_at s' o).
Proof.
  intros KC NE PT Hv Hisr RN Hni Ht Hw Ho Hot EC Hin Hnone Hlow.
  assert (HW : wp (hr_mutex_lock (Some m) timeout) (fun r s' => r = Waits t /\ (exists D', kinv T D' s') /\
    ks_mutexes s' = ks_mutexes s /\ lock_refused s s' t o) s).
  { apply (lock_call_spec T D b s V m t); try done. assert (KC0 : kcore T D (masked s) V b nobody) by (by apply kcore_port).
    apply (lock_locked_spec T D b (masked s) V m t timeout); [done|done|done|by apply running_port|done|done|..];
      change (mutex_at (masked s) m) with (mutex_at s m); try (intros; congruence).
    intros o' s1 E _ _ [[V1 KC1] NE1 P1 _ _ M1 R1]. split; [done|]. split; [done|].
    split; [exists (wait_deadline T D t timeout), V1, b; split_and!; [by repeat apply kcore_port|done|done]|]. split; [exact M1|].
    specialize (R1 o Ho). rewrite (owner_chain_ext _ s (masked s)), EC, decide_True in R1 by done.
    exact (lock_refused_port s s1 t o _ _ R1). }
  apply wp_run in HW as (r & s' & E & -> & KI & HM & [L1 L2 L3 L4 L5 L6]). exists s'.
  assert (HN : forall k u, mx_owner (mutex_at s' k) = Some o -> node_list s' (WaitNode u) <> Some (MutexWaiters k)).
  { intros k u Hk. unfold mutex_at in Hk. rewrite HM in Hk. destruct (decide (u = t)) as [->|Hu]; [by rewrite (iw_wait _ _ L3)|].
    rewrite L6 by done. by apply Hnone. }
  split_and!; try done; [|lia]. destruct KI as (D' & V' & b' & KC' & _). pose proof (kc_struct _ _ _ _ _ _ KC') as KS'.
  assert (Hv' : mutex_valid s' m) by (unfold mutex_valid, mutex_at; by rewrite HM).
  assert (Ho' : mx_owner (mutex_at s' m) = Some o) by (unfold mutex_at; by rewrite HM).
  destruct (owner_linked T D' b' s' V' nobody m o KC' Hv' Ho') as [_ Hreg].
  destruct (kt_objects _ _ _ _ _ KS' (OwnedMutexes o) Hreg) as [ns Hns].
  rewrite (required_priority_spec T D' s' V' b' KS' (kc_objects _ _ _ _ _ _ KC') o ns Hns), L5. f_equal.
  destruct (inherit_attained s' V' ns (t_base_priority (task_at s o))) as [|(n & w & Hn & Hwn & _)]; [done|exfalso].
  apply (kt_member _ _ _ _ _ KS' _ _ _ Hns) in Hn.
  destruct (owned_mutex T D' s' V' b' KS' (kc_objects _ _ _ _ _ _ KC') o n Hn) as (k & -> & _ & _ & [ws Hws]).
  simpl in Hwn. rewrite Hws in Hwn. simpl in Hwn. apply (kt_member _ _ _ _ _ KS' _ _ _ Hws) in Hwn.
  pose proof (kt_fits _ _ _ _ _ KS' _ _ Hwn) as Hf. destruct w as [|u| | | | |]; try done.
  apply (mo_link _ _ (ob_mutexes _ (kc_objects _ _ _ _ _ _ KC') k)) in Hn as [_ Hk]. by apply (HN k u).
Qed.

(** Task 2 (priority 3) locks the mutex 8 and sleeps; task 3 (priority 5) locks the mutex 9
    and waits for 8; then task 2 asks for 9. *)
Definition s_two : kstate := run_state (hr_mutex_create_internal (Some 8%N) false) s_mutex.
Definition s_holds : kstate := run_state (hr_mutex_lock (Some 8%N) HR_NO_WAIT) s_two.
Definition s_sleeps : kstate := run_state hr_kernel_select_next_from_pendsv (run_state (hr_task_delay 1) s_holds).
Definition s_nested : kstate := run_state (hr_mutex_lock (Some 9%N) HR_NO_WAIT) s_sleeps.
Definition s_crossed : kstate := run_state hr_kernel_select_next_from_pendsv (run_state (hr_mutex_lock (Some 8%N) HR_WAIT_FOREVER) s_nested).
Definition s_closing : kstate := run_state hr_kernel_select_next_from_pendsv (run_state hr_kernel_tick_from_isr s_crossed).

Lemma reachable_s_nested : reachable s_nested.
Proof.
  assert (R1 : reachable s_two).
  { apply (reach_call s_mutex s_two 2%N (CallMutex 8%N false) reachable_s_mutex); [is_running|discriminate|in_range|]. unfold s_two. runs_call. }
  assert (R2 : reachable s_holds).
  { apply (reach_call s_two s_holds 2%N (CallLock 8%N HR_NO_WAIT) R1); [is_running|discriminate|in_range|]. unfold s_holds. runs_call. }
  assert (R3 : reachable s_sleeps).
  { eapply reachable_step; [|apply step_pendsv; unfold s_sleeps; runs].
    apply (reach_call s_holds _ 2%N (CallDelay 1) R2); [is_running|discriminate|in_range|runs_call]. }
  apply (reach_call s_sleeps s_nested 3%N (CallLock 9%N HR_NO_WAIT) R3); [is_running|discriminate|in_range|]. unfold s_nested. runs_call.
Qed.
Lemma reachable_s_closing : reachable s_closing.
Proof.
  assert (R5 : reachable s_crossed).
  { eapply reachable_step; [|apply step_pendsv; unfold s_crossed; runs].
    apply (reach_call s_nested _ 3%N (CallLock 8%N HR_WAIT_FOREVER) reachable_s_nested); [is_running|discriminate|in_range|runs_call]. }
  eapply reachable_step; [|apply step_pendsv; unfold s_closing; runs].
  eapply reachable_step; [exact R5|]. apply step_tick. runs.
Qed.

(** Task 3 owns only the mutex 9, for which nobody waits. *)
Lemma closing_owned k : mx_owner (mutex_at s_closing k) = Some 3%N -> k = 9%N.
Proof.
  assert (HF : map_Forall (fun k c => mx_owner c = Some 3%N -> k = 9%N) (ks_mutexes s_closing))
    by (refine (bool_decide_eq_true_1 _ _); vm_compute; reflexivity).
  unfold mutex_at. rewrite lookup_total_alt. destruct (ks_mutexes s_closing !! k) eqn:E; [exact (HF k _ E)|].
  intros Hk. discriminate.
Qed.
Lemma closing_waiters u : node_list s_closing (WaitNode u) <> Some (MutexWaiters 9).
Proof.
  assert (HF : map_Forall (fun n c => list_of c <> Some (MutexWaiters 9)) (lm_nodes (st_lists (ks_store s_closing))))
    by (refine (bool_decide_eq_true_1 _ _); vm_compute; reflexivity).
  unfold node_list, node_at. rewrite lookup_total_alt.
  destruct (lm_nodes (st_lists (ks_store s_closing)) !! WaitNode u) eqn:E; [exact (HF _ _ E)|].
  intros Hk. discriminate.
Qed.

Lemma deadlock_keeps_lent_priority_witness : exists s', hr_mutex_lock (Some 9%N) HR_WAIT_FOREVER s_closing = Some (Waits 2%N, s') /\
  t_wait_result (task_at s' 2) = HR_ERROR_INTERNAL /\ t_effective_priority (task_at s' 3) < t_base_priority (task_at s' 3).
Proof.
  destruct (reachable_kcore s_closing reachable_s_closing) as (T & D & V & b & _ & KC & NE & _ & PT).
  destruct (deadlock_keeps_lent_priority T D s_closing V b 9%N 2%N 3%N HR_WAIT_FOREVER [3%N; 2%N] KC NE PT)
    as (s' & E & _ & _ & HR & _ & _ & _ & HL).
  - vm_compute; reflexivity.
  - vm_compute; reflexivity.
  - is_running.
  - discriminate.
  - unfold HR_WAIT_FOREVER, UINT32_MAX. lia.
  - discriminate.
  - vm_compute; reflexivity.
  - discriminate.
  - vm_compute; reflexivity.
  - apply elem_of_cons. right. apply list_elem_of_here.
  - intros k u Hk Hu. rewrite (closing_owned k Hk) in Hu. exact (closing_waiters u Hu).
  - vm_compute; reflexivity.
  - exists s'. split; [exact E|]. split; [exact HR|exact HL].
Defined.

(** ** Unlocking *)

Lemma settled_ext s s' t : (forall m, mx_owner (mutex_at s' m) = mx_owner (mutex_at s m)) ->
  (forall n, node_list s' n = node_list s n) -> (forall u, task_at s' u = task_at s u) -> settled s t -> settled s' t.
Proof.
  intros HM HL HT [S1 S2]. unfold settled. rewrite !HT. split; [exact S1|]. destruct S2 as [S2|(m & u & H1 & H2 & H3)]; [by left|right].
  exists m, u. by rewrite HM, HL, HT.
Qed.

(** C13: [hr_mutex_unlock]: only the owner may unlock; a nested level is given up by counting it
    down; giving up the last level hands the mutex to the first waiter, which is the most
    urgent one, ends its wait with OK and makes it the owner, or frees the mutex.  The
    caller's effective priority is then its base priority or that of a task that still
    waits for one of its mutexes, so a lent priority is returned exactly when the loan
    ends, and every owner is still at least as urgent as the tasks that wait for it. *)
Theorem mutex_unlock_spec T D s V b m ns t :
  kcore T D s V b nobody -> no_expired s -> ph_timers b = T -> mutex_valid s m -> V !! MutexWaiters m = Some ns ->
  hr_port_is_inside_isr s = false -> running s t -> t <> g_idle_task ->
  exists r s', hr_mutex_unlock (Some m) s = Some (r, s') /\ kinv T D s' /\
    let c := mutex_at s m in
    if negb (bool_decide (mx_owner c = Some t)) then r = HR_ERROR_NOT_OWNER /\ s' = s
    else if mx_recursive c && (1 <? mx_recursion_count c)
    then r = HR_OK /\ s' = set_mutex m (mx_set_recursion_count (mx_recursion_count c - 1) c) s
    else r = HR_OK /\ settled s' t /\ (inherits s -> inherits s') /\
      (hr_kernel_current_should_preempt s' = true -> pt_pendsv (ks_port s') = true) /\
      match ns with
      | [] => mutex_at s' m = mx_set_recursion_count 0 (mx_set_owner None c)
      | w :: _ => exists n, w = WaitNode n /\ mutex_at s' m = mx_set_recursion_count 1 (mx_set_owner (Some n) c) /\
          (forall k, k ∈ ns -> priority_at (ks_store s) w <= priority_at (ks_store s) k) /\
          t_state (task_at s' n) = woken_state (task_at s n) /\ t_wait_result (task_at s' n) = HR_OK /\
          node_list s' (WaitNode n) = None /\ node_list s' (TimeoutNode n) = None /\ settled s' n
      end.
Proof.
  intros KC NE PT Hv Hns Hisr RN Hni. pose proof (kc_struct _ _ _ _ _ _ KC) as KS.
  apply (wp_run (hr_mutex_unlock (Some m)) (fun r s' => kinv T D s' /\ _)).
  apply (unlock_spec T D b s V m t); try done.
  - intros Ho. rewrite bool_decide_false by done. cbn [negb]. split; [by exists V, b|done].
  - intros s1 Ho Hr Hc KC1. rewrite bool_decide_true by done. rewrite Hr, (proj2 (Z.ltb_lt _ _) Hc). cbn [negb andb].
    split; [by exists V, b|done].
  - intros ns' s1 f Ho Hlast Hns' RL Hf. rewrite Hns in Hns'. injection Hns' as <-.
    rewrite bool_decide_true by done. cbn [negb].
    replace (mx_recursive (mutex_at s m) && (1 <? mx_recursion_count (mutex_at s m))) with false.
    2: { destruct Hlast as [-> | ->]; [done|by rewrite andb_false_r]. }
    assert (E : exists p, pend_if f (with_port (ks_port s) s1) = with_port p s1 /\ (f = true -> pt_pendsv p = true)).
    { destruct f; eexists; (split; [reflexivity|]); done. }
    destruct E as (p & -> & Hp). destruct RL as [[V1 KC1] NE1 R1 M1 _ ST HI _ HW].
    split; [exists V1, b; split_and!; [by apply kcore_port|done..]|]. split; [done|].
    split; [by apply (settled_ext s1)|]. split.
    { intros HI0. apply (inherits_ext s1); try done. apply HI. by apply (inherits_ext s). }
    split; [intros HP; by apply Hp, Hf|]. destruct ns as [|w ws]; [exact M1|].
    assert (Hw : node_list s w = Some (MutexWaiters m)) by (apply (kt_member _ _ _ _ _ KS _ _ _ Hns), elem_of_cons; by left).
    pose proof (kt_fits _ _ _ _ _ KS _ _ Hw) as Hfit. destruct w as [|n| | | | |]; try done.
    exists n. destruct (HW n eq_refl) as (STn & IW & HR & HSt). split; [done|]. split; [exact M1|].
    split. { intros k Hk. pose proof (kt_sorted _ _ _ _ _ KS (MutexWaiters m) _ eq_refl Hns) as HS.
      apply elem_of_cons in Hk as [->|Hk]; [lia|]. by apply (sorted_by_head _ _ _ HS). }
    split; [exact HSt|]. split; [exact HR|]. split; [apply IW|]. split; [apply IW|]. by apply (settled_ext s1).
Qed.

Lemma mutex_unlock_spec_witness : exists T D V b ns s', kcore T D s_lent V b nobody /\ V !! MutexWaiters 9 = Some ns /\
  hr_mutex_unlock (Some 9%N) s_lent = Some (HR_OK, s') /\ mx_owner (mutex_at s' 9) = Some 2%N /\ settled s' 3%N.
Proof.
  destruct (reachable_kcore s_lent reachable_s_lent) as (T & D & V & b & _ & KC & NE & _ & PT).
  assert (Hv : mutex_valid s_lent 9%N) by (vm_compute; reflexivity).
  destruct (mutex_waiters T D b s_lent V nobody 9%N KC Hv) as [ns Hns].
  destruct (mutex_unlock_spec T D s_lent V b 9%N ns 3%N KC NE PT Hv Hns) as (r & s' & E & _ & HB);
    [vm_compute; reflexivity|exact running_s_lent|discriminate|].
  assert (EN : ns = [WaitNode 2]). { rewrite (view_contents _ _ _ _ _ _ _ KC Hns). vm_compute. reflexivity. }
  assert (EO : bool_decide (mx_owner (mutex_at s_lent 9) = Some 3%N) = true) by (vm_compute; reflexivity).
  assert (ER : mx_recursive (mutex_at s_lent 9) = false) by (vm_compute; reflexivity).
  exists T, D, V, b, ns, s'. rewrite EN in HB. cbv zeta in HB. rewrite EO, ER in HB. cbn [negb andb] in HB.
  destruct HB as (-> & HS & _ & _ & n & En & HM & _). injection En as <-.
  split; [exact KC|]. split; [exact Hns|]. split; [exact E|]. rewrite HM. split; [reflexivity|exact HS].
Defined.

(** ** The integrity checks *)

(** In every reachable state the validators of the synchronisation objects accept every
    object that has been created: its fields are in range, its wait lists are sorted rings,
    a locked mutex is in the list of its owner, the flag and the counter of a timer agree
    with its links, and the counter of every task is the number of mutexes in its list. *)
Theorem objects_validate s :
  stack_fits address_of_g_idle_stack HR_CFG_IDLE_STACK_WORDS -> reachable s ->
  (forall x, sem_valid s x -> hr_semaphore_validate_internal s (Some x) = true) /\
  (forall q, queue_valid s q -> hr_queue_validate_internal s (Some q) = true) /\
  (forall m, mutex_valid s m -> hr_mutex_validate_internal s (Some m) = true) /\
  (forall x, timer_valid s x -> hr_timer_validate_internal s (Some x) = true) /\
  (forall t, registered s t ->
     t_owned_mutex_count (task_at s t) = Z.of_nat (length (contents (st_lists (ks_store s)) (OwnedMutexes t)))).
Proof.
  intros Hf HR. destruct (reachable_consistent s Hf HR) as (T & _ & D & (V & b & KC & _) & _).
  pose proof (kc_struct _ _ _ _ _ _ KC) as KS.
  assert (HW : forall l, is_wait_list l = true -> object_list s l -> hr_wait_list_validate (ks_store s) (Some l) = true).
  { intros l Hl Ho. destruct (kt_objects _ _ _ _ _ KS l Ho) as [ns Hns].
    apply (wait_list_validate_iff _ l ns (rep_ring _ _ (kt_rep _ _ _ _ _ KS) _ _ Hns)). by apply (kt_sorted _ _ _ _ _ KS l). }
  split_and!.
  - intros x Hx. unfold hr_semaphore_validate_internal. by rewrite (sem_is_valid T D b s V x KC Hx), (HW (SemaphoreWaiters x)).
  - intros q Hq. unfold hr_queue_validate_internal.
    by rewrite (queue_is_valid T D b s V q KC Hq), (HW (QueueSendWaiters q)), (HW (QueueReceiveWaiters q)).
  - intros m Hm. unfold hr_mutex_validate_internal. rewrite (mutex_is_valid T D b s V nobody m KC Hm), (HW (MutexWaiters m)) by done.
    cbn [negb orb]. destruct (mx_owner (mutex_at s m)) as [o|] eqn:Eo; [|done].
    destruct (owner_linked T D b s V nobody m o KC Hm Eo) as [Hl _]. by apply bool_decide_true.
  - intros x Hx. pose proof (ob_timers _ (kc_objects _ _ _ _ _ _ KC) x) as OK. unfold hr_timer_validate_internal.
    rewrite (timer_is_valid s x OK Hx), (timer_active_linked s x OK Hx), (timer_pending_linked s x OK Hx). done.
  - intros t Hreg. destruct (kt_objects _ _ _ _ _ KS (OwnedMutexes t) Hreg) as [ns Hns].
    rewrite <- (view_contents _ _ _ _ _ _ _ KC Hns). destruct (owner_nodes T D b s V t ns KS Hns) as (ms & -> & Hd & Hin).
    rewrite length_fmap. by apply (ob_owned _ (kc_objects _ _ _ _ _ _ KC)).
Qed.

Lemma objects_validate_witness : hr_mutex_validate_internal s_lent (Some 9%N) = true /\
  hr_semaphore_validate_internal s_lent (Some 1%N) = true.
Proof.
  destruct (objects_validate s_lent idle_stack_fits reachable_s_lent) as (H1 & _ & H2 & _ & _).
  split; [apply H2|apply H1]; vm_compute; reflexivity.
Defined.

(** C3: Nobody waits in vain: in every reachable state a task waits for a semaphore only while
    its count is zero, for a mutex only while it is owned, to send only while the queue is
    full and to receive only while it is empty; so no unit, unlock or message is ever left
    behind by a wake-up that did not happen. *)
Theorem nobody_waits_in_vain s t :
  stack_fits address_of_g_idle_stack HR_CFG_IDLE_STACK_WORDS -> reachable s -> registered s t ->
  match node_list s (WaitNode t) with
  | Some (SemaphoreWaiters x) => sem_count (sem_at s x) = 0
  | Some (MutexWaiters m) => is_Some (mx_owner (mutex_at s m))
  | Some (QueueSendWaiters q) => q_count (queue_at s q) = q_capacity (queue_at s q)
  | Some (QueueReceiveWaiters q) => q_count (queue_at s q) = 0
  | Some _ => False
  | None => True
  end.
Proof.
  intros Hf HR Hreg. destruct (reachable_consistent s Hf HR) as (T & _ & D & (V & b & KC & _) & _).
  destruct (node_list s (WaitNode t)) as [l|] eqn:E; [|done].
  pose proof (ob_waiters _ (kc_objects _ _ _ _ _ _ KC) _ _ E) as HW. pose proof (kt_fits _ _ _ _ _ (kc_struct _ _ _ _ _ _ KC) _ _ E) as Hfit.
  destruct l; try done; apply HW.
Qed.

Lemma nobody_waits_in_vain_witness : node_list s_waited (WaitNode 2) = Some (SemaphoreWaiters 1) /\ sem_count (sem_at s_waited 1) = 0.
Proof.
  assert (E : node_list s_waited (WaitNode 2) = Some (SemaphoreWaiters 1)) by (vm_compute; reflexivity). split; [exact E|].
  pose proof (nobody_waits_in_vain s_waited 2%N idle_stack_fits reachable_s_waited ltac:(vm_compute; reflexivity)) as HW.
  rewrite E in HW. exact HW.
Defined.

(** The nodes of the list [l] are [ns], and the size in its head is their number. *)
Definition holds_exactly (s : kstate) (l : list_addr) (ns : list node_addr) : Prop :=
  NoDup ns /\ (forall n, n ∈ ns <-> node_list s n = Some l) /\ size_at (st_lists (ks_store s)) l = Z.of_nat (length ns).

Lemma listed_exactly T D s V b l ns : kstruct T D s V b -> V !! l = Some ns -> holds_exactly s l ns.
Proof.
  intros KS Hl. split; [by apply (kt_nodup _ _ _ _ _ KS l)|]. split; [intros n; symmetry; by apply (kt_member _ _ _ _ _ KS)|].
  apply (ring_size _ _ _ (rep_ring _ _ (kt_rep _ _ _ _ _ KS) l ns Hl)).
Qed.

(** The tasks in the ready set are counted. *)
Lemma ready_counted T D s V b : kstruct T D s V b ->
  exists rs, NoDup rs /\ (forall t, t ∈ rs <-> is_Some (node_list s (ReadyNode t))) /\
    ready_count (ready_at (ks_store s) g_scheduler) = Z.of_nat (length rs).
Proof.
  intros KS. pose proof (ready_seq_nodup T D s V b KS) as ND. rewrite (rr_count _ _ _ (kt_ready _ _ _ _ _ KS)).
  assert (HM : forall n, n ∈ ready_seq V g_scheduler <-> exists p, 0 <= p < HR_CFG_PRIORITY_COUNT /\ node_list s n = Some (ReadyQueue g_scheduler p)).
  { intros n. rewrite ready_seq_elem. split; intros (p & Hp & Hn); exists p; (split; [done|]); [by apply (ready_member T D s V b KS)|].
    by apply (kt_member _ _ _ _ _ KS _ _ _ (rr_queue _ _ _ (kt_ready _ _ _ _ _ KS) p Hp)). }
  assert (HT : exists ts, ready_seq V g_scheduler = ReadyNode <$> ts).
  { assert (HF : Forall (fun n => exists t, n = ReadyNode t) (ready_seq V g_scheduler)).
    { apply Forall_forall. intros n (p & _ & Hn)%HM. pose proof (kt_fits _ _ _ _ _ KS _ _ Hn) as Hf. destruct n; try done. eauto. }
    clear HM ND. induction HF as [|n ns [t ->] _ [ts ->]]; [by exists []|by exists (t :: ts)]. }
  destruct HT as [ts E]. rewrite E in *. exists ts. rewrite length_fmap. split_and!; [by apply NoDup_fmap_1 in ND| |done].
  intros t. specialize (HM (ReadyNode t)). rewrite list_elem_of_fmap in HM. split.
  - intros Ht. destruct (proj1 HM) as (p & _ & Hp); [by exists t|]. by exists (ReadyQueue g_scheduler p).
  - intros [l Hl]. pose proof (kt_fits _ _ _ _ _ KS _ _ Hl) as Hf. destruct l as [a p| | | | | | | | | |]; try done.
    destruct Hf as [-> Hp]. destruct (proj2 HM) as (u & [= <-] & Hu); [by exists p|done].
Qed.

(** The mutexes of a task are counted. *)
Lemma owned_mutexes_counted T D s V b t : kcore T D s V b nobody -> registered s t ->
  exists ms, NoDup ms /\ (forall m, m ∈ ms <-> mutex_valid s m /\ mx_owner (mutex_at s m) = Some t) /\
    t_owned_mutex_count (task_at s t) = Z.of_nat (length ms).
Proof.
  intros KC Ht. pose proof (kc_struct _ _ _ _ _ _ KC) as KS. pose proof (kc_objects _ _ _ _ _ _ KC) as OB.
  destruct (kt_objects _ _ _ _ _ KS (OwnedMutexes t) Ht) as [ns Hns].
  destruct (owner_nodes T D b s V t ns KS Hns) as (ms & _ & ND & Hms). exists ms.
  split_and!; [done| |by apply (ob_owned _ OB t)]. intros m. rewrite Hms. apply (mo_link _ _ (ob_mutexes _ OB m)).
Qed.

(** C4: In every reachable state the counts the kernel keeps beside its structures are exact,
    and indices and levels are in range.  The number of tasks is that of the registered tasks,
    the count of the ready set that of its tasks, the size of every wait list and list of
    owned mutexes that of its nodes, and the mutex count of a task the number of mutexes it
    owns.  A semaphore counts up to its maximum; a queue holds up to its capacity and its tail
    is where the head and the count say; a mutex has a recursion level exactly while it has
    an owner; a timer is active exactly while it is linked into the timeouts and has
    expiries pending exactly while it is linked into the list of the service.  Priorities are
    levels of the scheduler, that of the idle task being reserved. *)
Theorem counts_are_exact s :
  stack_fits address_of_g_idle_stack HR_CFG_IDLE_STACK_WORDS -> reachable s ->
  (exists ts, NoDup ts /\ (forall t, t ∈ ts <-> registered s t) /\
     g_task_count (glob s) = Z.of_nat (length ts) /\ Z.of_nat (length ts) <= HR_CFG_MAX_TASKS) /\
  (exists rs, NoDup rs /\ (forall t, t ∈ rs <-> is_Some (node_list s (ReadyNode t))) /\
     ready_count (ready_at (ks_store s) g_scheduler) = Z.of_nat (length rs)) /\
  (forall l, object_list s l -> exists ns, holds_exactly s l ns) /\
  (forall t, registered s t ->
     (exists ms, NoDup ms /\ (forall m, m ∈ ms <-> mutex_valid s m /\ mx_owner (mutex_at s m) = Some t) /\
        t_owned_mutex_count (task_at s t) = Z.of_nat (length ms)) /\
     0 <= t_effective_priority (task_at s t) < HR_CFG_PRIORITY_COUNT /\ 0 <= t_base_priority (task_at s t) /\
     (t <> g_idle_task -> t_effective_priority (task_at s t) < HR_CFG_IDLE_PRIORITY /\ t_base_priority (task_at s t) < HR_CFG_IDLE_PRIORITY)) /\
  (forall x, sem_valid s x -> 0 <= sem_count (sem_at s x) <= sem_max_count (sem_at s x)) /\
  (forall q, queue_valid s q -> let c := queue_at s q in
     0 <= q_count c <= q_capacity c /\ 0 <= q_head c < q_capacity c /\ q_tail c = (q_head c + q_count c) mod q_capacity c) /\
  (forall m, mutex_valid s m -> 0 <= mx_recursion_count (mutex_at s m) /\
     (0 < mx_recursion_count (mutex_at s m) <-> is_Some (mx_owner (mutex_at s m)))) /\
  (forall x, timer_valid s x -> 0 <= tm_pending_count (timer_at s x) /\
     (0 < tm_pending_count (timer_at s x) <-> is_Some (node_list s (TimerPendingNode x))) /\
     (tm_active (timer_at s x) = true <-> is_Some (node_list s (TimerTimeoutNode x)))).
Proof.
  intros Hf HR. destruct (reachable_consistent s Hf HR) as (T & _ & D & (V & b & KC & _) & _).
  pose proof (kc_struct _ _ _ _ _ _ KC) as KS. pose proof (kc_objects _ _ _ _ _ _ KC) as OB. split_and!.
  - destruct (all_tasks T D s V b KS) as (ts & _ & ?). by exists ts.
  - by apply (ready_counted T D s V b).
  - intros l Hl. destruct (kt_objects _ _ _ _ _ KS l Hl) as [ns Hns]. exists ns. by apply (listed_exactly T D s V b).
  - intros t Ht. destruct (kc_fixed _ _ _ _ _ _ KC t Ht) as [_ _ _ _ HL HB]. destruct (kt_prio _ _ _ _ _ KS t Ht) as (_ & _ & HP).
    split; [by apply (owned_mutexes_counted T D s V b)|done].
  - intros x Hx. by destruct (ob_sems _ OB x Hx).
  - intros q Hq. by destruct (ob_queues _ OB q Hq).
  - intros m Hm. pose proof (mo_count _ _ (ob_mutexes _ OB m) Hm) as HC.
    destruct (mx_owner (mutex_at s m)); [split; [lia|split; [eauto|lia]]|rewrite HC; split; [lia|split; [lia|by intros []]]].
  - intros x Hx. destruct (ob_timers _ OB x) as [_ _ HA HP HG _ _]. destruct (HG Hx) as [_ _ _ Hp]. split; [apply Hp|]. by split; [apply HP|apply HA].
Qed.

Lemma counts_are_exact_witness : (exists ms, NoDup ms /\ t_owned_mutex_count (task_at s_lent 3) = Z.of_nat (length ms) /\ 9%N ∈ ms) /\
  exists ns, holds_exactly s_lent (MutexWaiters 9) ns.
Proof.
  destruct (counts_are_exact s_lent idle_stack_fits reachable_s_lent) as (_ & _ & HL & HT & _).
  split; [|apply HL; vm_compute; reflexivity].
  destruct (HT 3%N ltac:(vm_compute; reflexivity)) as [(ms & ND & Hms & Hc) _]. exists ms. split; [exact ND|]. split; [exact Hc|].
  apply Hms. split; vm_compute; reflexivity.
Defined.
