(* ===== verification/TimerProps.v ===== *)
(** Properties of the software timers ([kernel/src/hr_timer.c]): which timers a tick fires and
    that the service task hears of it, how often and when a started timer fires, what the
    calls and a turn of the service task do. *)
From stdpp Require Import gmap list.
From Stdlib Require Import ZArith Lia.
From S2P Require Import Prelude Types HrList HrListSpec Store Scheduler SchedulerSpec Timeout TimeoutSpec KState PortStack PortStackSpec TaskCore KernelBase KernelInv MutexPriority Kernel Semaphore Queue Timer KernelTick TaskApi KernelTasks KernelSpec KernelSwitch SemaphoreSpec TimerSpec TimerTickSpec KernelInitSpec TimerInitSpec KernelTickSpec SystemSpec Scenario SystemProps.
Open Scope Z_scope.

(** ** A system with a timer: the timer 1, periodic with period 3, started by task 2 *)
Definition s_timer : kstate :=
  run_state (hr_timer_create_static (Some 1%N) (Some 0x08005100) 3 true (Some 0x08000301) (Some 7)) s_spawn2.
Definition s_timer_run : kstate := run_state hr_kernel_start s_timer.
Definition s_armed : kstate := run_state (hr_timer_start (Some 1%N)) s_timer_run.

Lemma runs_timer :
  hr_timer_create_static (Some 1%N) (Some 0x08005100) 3 true (Some 0x08000301) (Some 7) s_spawn2 = Some (HR_OK, s_timer).
Proof. unfold s_timer. runs. Qed.
Lemma runs_timer_run : hr_kernel_start s_timer = Some (None, s_timer_run).
Proof. unfold s_timer_run. runs. Qed.
Lemma runs_armed : run_call (CallTimerStart 1%N) s_timer_run = Some s_armed.
Proof. cbn [run_call]. unfold s_armed. apply run_snd. vm_compute. eexists. reflexivity. Qed.

Lemma timer_stack_fits : stack_fits address_of_g_timer_service_stack HR_CFG_TIMER_TASK_STACK_WORDS.
Proof. unfold stack_fits. vm_compute. intuition congruence. Qed.

Lemma reachable_s_timer_run : reachable s_timer_run.
Proof.
  pose proof (boot_spawn s_init s_created s_spawn2 2%N 0x08005000 0x08000101 None 0x20001000 64 3 (boot_init s_init runs_init)
    (stack_fits_example _ (or_introl eq_refl)) ltac:(lia) runs_created runs_spawn2) as B2.
  refine (reachable_start s_timer s_timer_run (boot_timer _ _ _ _ _ _ _ _ B2 _ _ timer_stack_fits runs_timer) runs_timer_run);
    vm_compute; intuition congruence.
Qed.
Lemma running_s_timer_run : running s_timer_run 2%N.
Proof. split; vm_compute; reflexivity. Qed.
Lemma reachable_s_armed : reachable s_armed.
Proof.
  eapply reachable_step; [exact reachable_s_timer_run|].
  eapply (step_call s_timer_run s_armed 2%N (CallTimerStart 1%N) running_s_timer_run); [discriminate|exact I|exact runs_armed].
Qed.
Lemma reachable_kinv s : reachable s -> exists T D, kinv T D s /\ g_kernel_state (glob s) = HR_KERNEL_STATE_RUNNING.
Proof. intros HR. destruct (reachable_consistent s idle_stack_fits HR) as (T & _ & D & KI & HK). exists T, D. split; [exact KI|exact HK]. Qed.

(** ** What a tick does to a timer *)

(** The timer is armed and its deadline is the next tick, [T + 1]. *)
Definition due_now (T : Z) (D : node_addr -> Z) (s : kstate) (x : timer_ptr) : bool :=
  tm_active (timer_at s x) && (D (TimerTimeoutNode x) <=? T + 1).

Lemma pending_linked T D s x : kinv T D s -> timer_valid s x -> 0 < tm_pending_count (timer_at s x) ->
  node_list s (TimerPendingNode x) = Some PendingTimers.
Proof.
  intros (V & b & KC & _) Hv Hp. destruct (ob_timers _ (kc_objects _ _ _ _ _ _ KC) x) as [_ _ _ T4 _ _ _].
  destruct (proj1 (T4 Hv) Hp) as [l Hl]. pose proof (kt_fits _ _ _ _ _ (kc_struct _ _ _ _ _ _ KC) _ _ Hl) as Hf.
  rewrite Hl. by destruct l.
Qed.

Lemma valid_range T D s x : kinv T D s -> timer_valid s x -> timer_range (timer_at s x).
Proof. intros (V & b & KC & _) Hv. by apply (ob_timers _ (kc_objects _ _ _ _ _ _ KC) x). Qed.

Lemma valid_expired c : tm_magic (expired_block c) = tm_magic c.
Proof. done. Qed.

Lemma tick_timer `{Config} T D s Q :
  kinv T D s -> g_kernel_state (glob s) = HR_KERNEL_STATE_RUNNING ->
  (forall D' s', kinv (T + 1) D' s' -> g_kernel_state (glob s') = HR_KERNEL_STATE_RUNNING ->
     (forall x, timer_valid s x -> timer_valid s' x /\
        timer_at s' x = (if due_now T D s x then expired_block (timer_at s x) else timer_at s x) /\
        (tm_active (timer_at s' x) = true ->
         D' (TimerTimeoutNode x) = if due_now T D s x then T + 1 + tm_period_ticks (timer_at s x) else D (TimerTimeoutNode x))) ->
     Q tt s') ->
  wp hr_kernel_tick_from_isr Q s.
Proof.
  intros (V & b & KC & NE & PT) HK K. apply (tick_spec T D b s V); try done.
  intros D' b' s' V' ws xs KC' PT' NE' TK FD _ _. apply (K D' s'); [by exists V', b'|by rewrite (tk_kernel _ _ _ _ _ TK)|].
  intros x Hv. pose proof (fd_due _ _ _ _ _ _ FD x) as Hd. unfold due_now.
  destruct (decide (x ∈ xs)) as [Hx|Hx].
  - pose proof (proj1 Hd Hx) as (_ & Ha & Hle). rewrite Ha, (proj2 (Z.leb_le _ _) Hle). cbn [andb].
    pose proof (fd_expired _ _ _ _ _ _ FD x Hx) as E. split_and!; [by unfold timer_valid; rewrite E|done|].
    rewrite E. intros Hr. by apply (fd_rearmed _ _ _ _ _ _ FD x Hx).
  - pose proof (fd_other _ _ _ _ _ _ FD x Hx) as E. unfold timer_valid. rewrite E.
    assert (EB : tm_active (timer_at s x) && (D (TimerTimeoutNode x) <=? T + 1) = false).
    { apply andb_false_iff. destruct (tm_active (timer_at s x)) eqn:Ea; [right|by left]. apply Z.leb_gt.
      destruct (Z.leb_spec (D (TimerTimeoutNode x)) (T + 1)); [|done]. destruct Hx. by apply Hd. }
    rewrite EB. split_and!; [done|done|]. intros _. apply (fd_deadline _ _ _ _ _ _ FD). intros y Hy [= ->]. done.
Qed.

(** C17: A tick fires exactly the due timers: a timer that is armed with its deadline at this tick
    has one more expiry pending (saturating at 2^32 - 1), is in the list of the service task
    and, if periodic, is armed again one period after this tick, otherwise no longer active;
    every other timer is unchanged. *)
Theorem tick_fires_due_timers T D s :
  kinv T D s -> g_kernel_state (glob s) = HR_KERNEL_STATE_RUNNING ->
  exists D' s', hr_kernel_tick_from_isr s = Some (tt, s') /\ kinv (T + 1) D' s' /\
    forall x, timer_valid s x ->
      let c := timer_at s x in let c' := timer_at s' x in
      if tm_active c && (D (TimerTimeoutNode x) <=? T + 1)
      then tm_pending_count c' = Z.min (tm_pending_count c + 1) UINT32_MAX /\
           node_list s' (TimerPendingNode x) = Some PendingTimers /\ tm_active c' = tm_auto_reload c /\
           (tm_auto_reload c = true -> D' (TimerTimeoutNode x) = T + 1 + tm_period_ticks c)
      else c' = c /\ (tm_active c = true -> D' (TimerTimeoutNode x) = D (TimerTimeoutNode x)).
Proof.
  intros KI HK.
  assert (HW : wp hr_kernel_tick_from_isr (fun _ s' => exists D', kinv (T + 1) D' s' /\ forall x, timer_valid s x ->
    timer_valid s' x /\ timer_at s' x = (if due_now T D s x then expired_block (timer_at s x) else timer_at s x) /\
    (tm_active (timer_at s' x) = true -> D' (TimerTimeoutNode x) =
      if due_now T D s x then T + 1 + tm_period_ticks (timer_at s x) else D (TimerTimeoutNode x))) s).
  { apply (tick_timer T D); try done. eauto. }
  apply wp_run in HW as ([] & s' & E & D' & KI' & HX). exists D', s'. split_and!; [done|done|].
  intros x Hv. destruct (HX x Hv) as (Hv' & Ht & Hd). cbv zeta. fold (due_now T D s x).
  destruct (due_now T D s x) eqn:Ed; [|rewrite Ht in *; done]. rewrite Ht in *. pose proof (valid_range T D s x KI Hv) as [_ _ _ R].
  split_and!; [done| |done|done]. apply (pending_linked (T + 1) D'); [done|done|]. rewrite Ht. simpl. unfold one_more, UINT32_MAX in *. lia.
Qed.

Lemma tick_fires_due_timers_witness : exists T D D' s', kinv T D s_armed /\ timer_valid s_armed 1%N /\
  hr_kernel_tick_from_isr s_armed = Some (tt, s') /\ kinv (T + 1) D' s'.
Proof.
  destruct (reachable_kinv s_armed reachable_s_armed) as (T & D & KI & HK).
  destruct (tick_fires_due_timers T D s_armed KI HK) as (D' & s' & E & KI' & _).
  exists T, D, D', s'. split; [exact KI|]. split; [vm_compute; reflexivity|]. split; [exact E|exact KI'].
Defined.

(** C18: The service task hears of every expiry: when a timer is due, the tick interrupt either
    ends the wait of the task that waits for the signal of the timers (the only one, and
    its own timeout is not due; it is ready with
    result OK, or stays suspended with no wait left), or, when no task waits, leaves the
    signal available, so that the next take does not block. *)
Theorem expiry_signals_service T D s x :
  kinv T D s -> g_kernel_state (glob s) = HR_KERNEL_STATE_RUNNING -> hr_port_is_inside_isr s = true ->
  timer_valid s x -> tm_active (timer_at s x) = true -> D (TimerTimeoutNode x) <= T + 1 ->
  exists s', hr_kernel_tick_from_isr s = Some (tt, s') /\
    (forall t, awaits_signal s t -> (forall u, awaits_signal s u -> u = t) ->
       (node_list s (TimeoutNode t) = None \/ T + 1 < D (TimeoutNode t)) ->
       t_state (task_at s' t) = woken_state (task_at s t) /\ t_wait_result (task_at s' t) = HR_OK /\ idle_wait s' t) /\
    ((forall u, ~ awaits_signal s u) -> 0 < sem_count (sem_at s' g_timer_signal)).
Proof.
  intros (V & b & KC & NE & PT) HK Hisr Hv Ha Hd. pose proof (kc_struct _ _ _ _ _ _ KC) as KS.
  assert (HW : wp hr_kernel_tick_from_isr (fun _ s' => exists ws, ticked T s s' (due_tasks T D b V) ws /\
    summoned s s' (due_tasks T D b V) ws) s).
  { apply (tick_spec T D b s V); try done. intros D' b' s' V' ws xs _ _ _ TK FD _ HS. exists ws. split; [done|].
    apply HS; [done|]. intros ->. by apply (not_elem_of_nil x), (fd_due _ _ _ _ _ _ FD x). }
  apply wp_run in HW as ([] & s' & E & ws & TK & [S1 S2]). exists s'. split_and!; [done| |].
  - intros t Hw Hall Hnd. apply (tk_signalled _ _ _ _ _ TK), S1; [|done|done].
    intros [[c Hc] Hle]%(due_tasks_iff T D b s V t KS). destruct Hnd as [Hnd|Hnd]; [congruence|lia].
  - intros Hno. rewrite (S2 Hno).
    assert (Hsv : sem_valid s g_timer_signal).
    { apply (ob_signal _ (kc_objects _ _ _ _ _ _ KC)). by apply (tmo_system _ _ (ob_timers _ (kc_objects _ _ _ _ _ _ KC) x)). }
    destruct (ob_sems _ (kc_objects _ _ _ _ _ _ KC) _ Hsv). lia.
Qed.

(** ** The course of a timer over many ticks *)

(** The control block and the deadline of a timer after [k] ticks from time [T]. *)
Fixpoint elapse (k : nat) (T : Z) (c : hr_timer_control_block_t) (d : Z) : hr_timer_control_block_t * Z :=
  match k with
  | O => (c, d)
  | S k => if tm_active c && (d <=? T + 1) then elapse k (T + 1) (expired_block c) (T + 1 + tm_period_ticks c)
           else elapse k (T + 1) c d
  end.

Lemma timer_ticks `{Config} k : forall T D s x d,
  kinv T D s -> g_kernel_state (glob s) = HR_KERNEL_STATE_RUNNING -> timer_valid s x ->
  (tm_active (timer_at s x) = true -> D (TimerTimeoutNode x) = d) ->
  wp (ticks k) (fun _ s' => exists D', kinv (T + Z.of_nat k) D' s' /\ g_kernel_state (glob s') = HR_KERNEL_STATE_RUNNING /\
    timer_valid s' x /\ timer_at s' x = fst (elapse k T (timer_at s x) d) /\
    (tm_active (timer_at s' x) = true -> D' (TimerTimeoutNode x) = snd (elapse k T (timer_at s x) d))) s.
Proof.
  induction k as [|k IH]; intros T D s x d KI HK Hv Hd; cbn [ticks elapse].
  - wp_step. exists D. by rewrite Z.add_0_r.
  - wp_step. apply (tick_timer T D); try done. intros D' s' KI' HK' HX. destruct (HX x Hv) as (Hv' & Ht & Hd').
    assert (EQ : due_now T D s x = tm_active (timer_at s x) && (d <=? T + 1)).
    { unfold due_now. destruct (tm_active (timer_at s x)); [|done]. by rewrite Hd. }
    rewrite EQ in Ht, Hd'. replace (T + Z.of_nat (S k)) with (T + 1 + Z.of_nat k) by lia.
    destruct (tm_active (timer_at s x) && (d <=? T + 1)).
    + rewrite <- Ht. by apply (IH (T + 1) D').
    + rewrite <- Ht. apply (IH (T + 1) D'); try done. intros Ha. rewrite Hd' by done. apply Hd. by rewrite <- Ht.
Qed.

(** A periodic timer: every period one expiry, without drift. *)
Lemma elapse_periodic k : forall T c d q,
  tm_active c = true -> tm_auto_reload c = true -> T < d <= T + tm_period_ticks c -> 0 <= q ->
  tm_pending_count c = Z.min q UINT32_MAX ->
  let n := (T + Z.of_nat k - d + tm_period_ticks c) / tm_period_ticks c in
  let r := elapse k T c d in
  tm_active (fst r) = true /\ tm_pending_count (fst r) = Z.min (q + n) UINT32_MAX /\ snd r = d + n * tm_period_ticks c.
Proof.
  induction k as [|k IH]; intros T c d q Ha Hr Hd Hq Hp n r; unfold r; cbn [elapse].
  - assert (n = 0) as -> by (unfold n; apply Z.div_small; lia). cbn [fst snd]. by rewrite Z.add_0_r, Z.mul_0_l, Z.add_0_r.
  - rewrite Ha. destruct (Z.leb_spec d (T + 1)) as [Hle|Hgt]; cbn [andb].
    + assert (d = T + 1) by lia. subst d.
      destruct (IH (T + 1) (expired_block c) (T + 1 + tm_period_ticks c) (q + 1)) as (I1 & I2 & I3); try done; simpl; try lia.
      { unfold one_more. rewrite Hp. unfold UINT32_MAX. lia. }
      assert (HN : n = 1 + (T + 1 + Z.of_nat k - (T + 1 + tm_period_ticks c) + tm_period_ticks c) / tm_period_ticks c).
      { unfold n. rewrite <- Z_div_plus_full_l by lia. f_equal. lia. }
      simpl in I2, I3. rewrite I1, I2, I3, HN. split_and!; [done|f_equal; lia|lia].
    + destruct (IH (T + 1) c d q) as (I1 & I2 & I3); try done; try lia.
      assert (HN : n = (T + 1 + Z.of_nat k - d + tm_period_ticks c) / tm_period_ticks c) by (unfold n; f_equal; lia).
      by rewrite I1, I2, I3, HN.
Qed.

Lemma elapse_period k : forall T c d, tm_period_ticks (fst (elapse k T c d)) = tm_period_ticks c.
Proof. induction k as [|k IH]; intros T c d; cbn [elapse]; [done|]. destruct (tm_active c && (d <=? T + 1)); by rewrite IH. Qed.

(** A timer that is not armed stays as it is. *)
Lemma elapse_idle k : forall T c d, tm_active c = false -> elapse k T c d = (c, d).
Proof. induction k as [|k IH]; intros T c d Ha; cbn [elapse]; [done|]. rewrite Ha. by apply IH. Qed.

(** A one-shot timer fires once. *)
Lemma elapse_once k : forall T c d, tm_active c = true -> tm_auto_reload c = false -> T < d ->
  fst (elapse k T c d) = if T + Z.of_nat k <? d then c else expired_block c.
Proof.
  induction k as [|k IH]; intros T c d Ha Hr Hd; cbn [elapse].
  - by rewrite (proj2 (Z.ltb_lt _ _)) by lia.
  - rewrite Ha. destruct (Z.leb_spec d (T + 1)) as [Hle|Hgt]; cbn [andb].
    + rewrite (proj2 (Z.ltb_ge _ _)) by lia. by rewrite elapse_idle.
    + rewrite IH by (done || lia). by replace (T + 1 + Z.of_nat k) with (T + Z.of_nat (S k)) by lia.
Qed.

(** ** Starting, restarting and stopping *)

(** The calls that arm a timer afresh, with the period it then has. *)
Inductive restarts (s : kstate) (x : timer_ptr) : M kstate hr_status -> Z -> Prop :=
| by_start : tm_active (timer_at s x) = false -> restarts s x (hr_timer_start (Some x)) (tm_period_ticks (timer_at s x))
| by_reset : restarts s x (hr_timer_reset (Some x)) (tm_period_ticks (timer_at s x))
| by_change_period p : 0 < p < HR_WAIT_FOREVER -> restarts s x (hr_timer_change_period (Some x) p) p.

Lemma restarts_spec T D b s V x call p :
  kcore T D s V b nobody -> no_expired s -> timer_valid s x -> hr_port_is_inside_isr s = false -> restarts s x call p ->
  0 < p < HR_WAIT_FOREVER /\
  wp call (fun r s' => r = HR_OK /\ exists V', kcore T (rearmed D x (ph_timers b + p)) s' V' b nobody /\ no_expired s' /\
    restarted D b s s' V V' x p) s.
Proof.
  intros KC NE Hv Hisr HR. pose proof (tg_period _ (tmo_range _ _ (ob_timers _ (kc_objects _ _ _ _ _ _ KC) x) Hv)) as Hp.
  destruct HR as [Ha| |p Hp'].
  - split; [done|]. apply (timer_start_spec T D b s V x KC NE Hv Hisr); [congruence|]. intros s' V' _ KC' NE' RS. eauto 10.
  - split; [done|]. apply (timer_reset_spec T D b s V x KC NE Hv Hisr). intros s' V' KC' NE' RS. eauto 10.
  - split; [done|]. unfold HR_WAIT_FOREVER, UINT32_MAX in *.
    apply (timer_change_period_spec T D b s V x KC NE Hv Hisr p); [unfold UINT32_MAX; lia|unfold HR_WAIT_FOREVER, UINT32_MAX; lia|].
    intros s' V' _ KC' NE' RS. eauto 10.
Qed.

(** A timer started, reset or given a new period [p] loses the expiries not yet served, is
    armed, and fires exactly [p] ticks later: a one-shot timer once, a periodic one at every
    multiple of its period from then on, without drift and across the wrap of the tick
    counter; after [k] ticks, [k / p] expiries wait for the service task (saturating). *)
Theorem restarted_timer_fires T D s x call p :
  kinv T D s -> g_kernel_state (glob s) = HR_KERNEL_STATE_RUNNING -> timer_valid s x ->
  hr_port_is_inside_isr s = false -> restarts s x call p ->
  exists s1, call s = Some (HR_OK, s1) /\
    forall k, 0 <= k -> exists s2, ticks (Z.to_nat k) s1 = Some (tt, s2) /\
      let c := timer_at s2 x in
      tm_period_ticks c = p /\
      if tm_auto_reload (timer_at s x)
      then tm_active c = true /\ tm_pending_count c = Z.min (k / p) UINT32_MAX
      else tm_active c = (k <? p) /\ tm_pending_count c = (if k <? p then 0 else 1).
Proof.
  intros (V & b & KC & NE & PT) HK Hv Hisr HR. destruct (restarts_spec T D b s V x call p KC NE Hv Hisr HR) as [Hp HW].
  apply wp_returns in HW as (s1 & E & V1 & KC1 & NE1 & RS). exists s1. split; [done|]. intros k Hk.
  pose proof (rs_timer _ _ _ _ _ _ _ _ RS) as Ht. pose proof (ts_rest _ _ _ (rs_step _ _ _ _ _ _ _ _ RS)) as R.
  assert (Hv1 : timer_valid s1 x) by (unfold timer_valid; by rewrite Ht).
  assert (KI1 : kinv T (rearmed D x (ph_timers b + p)) s1) by (by exists V1, b).
  assert (HW : wp (ticks (Z.to_nat k)) (fun _ s2 => timer_at s2 x = fst (elapse (Z.to_nat k) T (timer_at s1 x) (T + p))) s1).
  { eapply wp_mono; [eapply (timer_ticks (Z.to_nat k) T _ s1 x (T + p) KI1); [by rewrite R|done|]|].
    - intros _. unfold rearmed. by rewrite decide_True, PT.
    - intros [] s2 (D2 & _ & _ & _ & E2 & _). done. }
  apply wp_run in HW as ([] & s2 & E2 & HT). exists s2. split; [done|]. cbv zeta. rewrite HT, Ht.
  set (c1 := tm_set_active true _). destruct (tm_auto_reload (timer_at s x)) eqn:Er.
  - split; [by rewrite elapse_period|].
    destruct (elapse_periodic (Z.to_nat k) T c1 (T + p) 0) as (I1 & I2 & _); try done; simpl; try lia.
    change (tm_period_ticks c1) with p in I2. rewrite Z2Nat.id in I2 by done. rewrite I1, I2. split; [done|].
    rewrite Z.add_0_l. by replace (T + k - (T + p) + p) with k by lia.
  - split; [by rewrite elapse_period|]. rewrite elapse_once by (done || lia). rewrite Z2Nat.id by done.
    assert (EL : (T + k <? T + p) = (k <? p)) by (apply eq_bool_prop_intro; rewrite !Is_true_true, !Z.ltb_lt; lia).
    rewrite EL. destruct (k <? p); simpl; [done|]. by rewrite Er.
Qed.

Lemma restarted_timer_fires_witness : exists T D s1, kinv T D s_timer_run /\
  restarts s_timer_run 1%N (hr_timer_start (Some 1%N)) 3 /\ hr_timer_start (Some 1%N) s_timer_run = Some (HR_OK, s1) /\
  exists s2, ticks 7 s1 = Some (tt, s2) /\ tm_pending_count (timer_at s2 1) = 2.
Proof.
  destruct (reachable_kinv s_timer_run reachable_s_timer_run) as (T & D & KI & HK).
  assert (HR : restarts s_timer_run 1%N (hr_timer_start (Some 1%N)) 3).
  { change 3 with (tm_period_ticks (timer_at s_timer_run 1)). apply by_start. vm_compute. reflexivity. }
  destruct (restarted_timer_fires T D s_timer_run 1%N (hr_timer_start (Some 1%N)) 3 KI HK) as (s1 & E & HT);
    [vm_compute; reflexivity|vm_compute; reflexivity|exact HR|].
  exists T, D, s1. split; [exact KI|]. split; [exact HR|]. split; [exact E|].
  destruct (HT 7 ltac:(lia)) as (s2 & E2 & _ & HB). exists s2. split; [exact E2|].
  assert (Ea : tm_auto_reload (timer_at s_timer_run 1) = true) by (vm_compute; reflexivity).
  rewrite Ea in HB. destruct HB as [_ HP]. rewrite HP. vm_compute. reflexivity.
Defined.

(** A stopped timer is silent: [hr_timer_stop] disarms the timer and drops the expiries not
    yet served, so that from then on, whatever number of ticks pass, it is not armed and not
    in the list of the service task, until it is started again. *)
Theorem stopped_timer_is_silent T D s x :
  kinv T D s -> g_kernel_state (glob s) = HR_KERNEL_STATE_RUNNING -> timer_valid s x -> hr_port_is_inside_isr s = false ->
  exists s1, hr_timer_stop (Some x) s = Some (HR_OK, s1) /\
    forall k, exists s2, ticks k s1 = Some (tt, s2) /\
      timer_at s2 x = tm_set_active false (tm_set_pending_count 0 (timer_at s x)) /\
      node_list s2 (TimerTimeoutNode x) = None /\ node_list s2 (TimerPendingNode x) = None.
Proof.
  intros (V & b & KC & NE & PT) HK Hv Hisr.
  assert (HW : wp (hr_timer_stop (Some x)) (fun r s' => r = HR_OK /\ exists V', kcore T D s' V' b nobody /\ no_expired s' /\
    halted b s s' V V' x) s).
  { apply (timer_stop_spec T D b s V x KC NE Hv Hisr). eauto 10. }
  apply wp_returns in HW as (s1 & E & V1 & KC1 & NE1 & HS). exists s1. split; [done|]. intros k.
  pose proof (ht_timer _ _ _ _ _ _ HS) as Ht. pose proof (ts_rest _ _ _ (ht_step _ _ _ _ _ _ HS)) as R.
  assert (Hv1 : timer_valid s1 x) by (unfold timer_valid; by rewrite Ht).
  pose proof (timer_ticks k T D s1 x 0 ltac:(by exists V1, b) ltac:(by rewrite R) Hv1 ltac:(by rewrite Ht)) as HW.
  apply wp_run in HW as ([] & s2 & E2 & D2 & KI2 & _ & Hv2 & HT & _). rewrite Ht, elapse_idle in HT by done.
  exists s2. split; [done|]. split; [done|]. destruct KI2 as (V2 & b2 & KC2 & _).
  destruct (ob_timers _ (kc_objects _ _ _ _ _ _ KC2) x) as [_ _ T3 T4 _ _ _]. specialize (T3 Hv2). specialize (T4 Hv2).
  rewrite HT in T3, T4. cbn in T3, T4. split; [destruct (node_list s2 (TimerTimeoutNode x))|destruct (node_list s2 (TimerPendingNode x))]; try done.
  - by discriminate (proj2 T3 ltac:(eauto)).
  - assert (0 < 0) by (apply T4; eauto). lia.
Qed.

Lemma stopped_timer_is_silent_witness : exists s1 s2, timer_valid s_armed 1%N /\
  hr_timer_stop (Some 1%N) s_armed = Some (HR_OK, s1) /\ ticks 5 s1 = Some (tt, s2) /\
  tm_active (timer_at s_armed 1) = true /\ tm_active (timer_at s2 1) = false.
Proof.
  destruct (reachable_kinv s_armed reachable_s_armed) as (T & D & KI & HK).
  assert (Hv : timer_valid s_armed 1%N) by (vm_compute; reflexivity).
  destruct (stopped_timer_is_silent T D s_armed 1%N KI HK Hv) as (s1 & E & HT); [vm_compute; reflexivity|].
  destruct (HT 5%nat) as (s2 & E2 & HS & _). exists s1, s2. split; [exact Hv|]. split; [exact E|]. split; [exact E2|].
  split; [vm_compute; reflexivity|]. rewrite HS. reflexivity.
Defined.

(** ** The service task *)

Lemma service_turn T D s callback :
  kinv T D s -> g_timer_system_initialized (glob s) = true ->
  match contents (st_lists (ks_store s)) PendingTimers with
  | [] => hr_timer_process_one_pending callback s = Some (false, s)
  | n :: ns => exists x s1, n = TimerPendingNode x /\ timer_valid s x /\ kinv T D s1 /\ ks_port s1 = ks_port s /\ glob s1 = glob s /\
      let c := timer_at s x in
      0 < tm_pending_count c /\
      timer_at s1 x = tm_set_callback_running true (tm_set_pending_count (tm_pending_count c - 1) c) /\
      (forall y, y <> x -> timer_at s1 y = timer_at s y) /\
      contents (st_lists (ks_store s1)) PendingTimers = (if 1 <? tm_pending_count c then ns ++ [n] else ns) /\
      hr_timer_process_one_pending callback s =
        (callback (tm_callback c) (tm_argument c) ;;; timer_callback_done x ;;; retM true) s1
  end.
Proof.
  intros (V & b & KC & NE & PT) Hi. pose proof (kc_struct _ _ _ _ _ _ KC) as KS.
  destruct (kt_timer_list _ _ _ _ _ KS Hi) as [ps Hps]. rewrite <- (view_contents _ _ _ _ _ _ _ KC Hps).
  assert (HW : wp timer_take_pending (fun r s1 => match ps with
    | [] => r = None /\ s1 = s
    | n :: ns => exists x V1, n = TimerPendingNode x /\ timer_valid s x /\ 0 < tm_pending_count (timer_at s x) /\
        kcore T D s1 V1 b nobody /\ no_expired s1 /\ taken s s1 V V1 x ns /\
        r = Some (x, tm_callback (timer_at s x), tm_argument (timer_at s x)) end) s).
  { apply (take_pending_spec T D b s V ps _ KC NE Hi Hps); [by intros -> |]. intros x ns s1 V1 -> Hv Hp KC1 NE1 TU. eauto 10. }
  apply wp_run in HW as (r & s1 & E & HW). unfold hr_timer_process_one_pending, bindM. rewrite E.
  destruct ps as [|n ns]; [by destruct HW as [-> ->]|]. destruct HW as (x & V1 & -> & Hv & Hp & KC1 & NE1 & TU & ->).
  exists x, s1. split; [done|]. split; [done|]. split; [by exists V1, b|]. destruct TU as [TS HT _ HP _].
  split; [by rewrite (ts_rest _ _ _ TS)|]. split; [by rewrite (ts_rest _ _ _ TS)|]. cbv zeta. split_and!; [done|done|apply TS| |done].
  symmetry. exact (view_contents _ _ _ _ _ _ _ KC1 HP).
Qed.

(** A turn of the service task serves the timer that has waited longest: its oldest
    expiry is taken, a timer with more of them goes to the back of the list, and its callback
    is called with its argument, interrupts masked as before the call; afterwards the timer
    is marked as served.  With nothing pending the turn changes nothing and ends the loop. *)
Theorem service_turn_serves_oldest s callback :
  stack_fits address_of_g_idle_stack HR_CFG_IDLE_STACK_WORDS -> reachable s -> g_timer_system_initialized (glob s) = true ->
  match contents (st_lists (ks_store s)) PendingTimers with
  | [] => hr_timer_process_one_pending callback s = Some (false, s)
  | n :: ns => exists x s1, n = TimerPendingNode x /\ timer_valid s x /\ (exists T D, kinv T D s1) /\ ks_port s1 = ks_port s /\ glob s1 = glob s /\
      let c := timer_at s x in
      0 < tm_pending_count c /\
      timer_at s1 x = tm_set_callback_running true (tm_set_pending_count (tm_pending_count c - 1) c) /\
      (forall y, y <> x -> timer_at s1 y = timer_at s y) /\
      contents (st_lists (ks_store s1)) PendingTimers = (if 1 <? tm_pending_count c then ns ++ [n] else ns) /\
      hr_timer_process_one_pending callback s =
        (callback (tm_callback c) (tm_argument c) ;;; timer_callback_done x ;;; retM true) s1
  end.
Proof.
  intros Hf HR Hi. destruct (reachable_consistent s Hf HR) as (T & _ & D & KI & _). pose proof (service_turn T D s callback KI Hi) as HS.
  destruct (contents (st_lists (ks_store s)) PendingTimers) as [|n ns]; [done|]. destruct HS as (x & s1 & H1 & H2 & H3 & HS).
  exists x, s1. split; [exact H1|]. split; [exact H2|]. split; [by exists T, D|exact HS].
Qed.

(** The errors of the timer calls, each with the state unchanged: a timer that is not
    created is an invalid argument to every call, as are the periods 0 and "forever"; no call
    is allowed in an interrupt; an active timer cannot be started; while the kernel runs, no
    timer can be created unless one was created before the start. *)
Theorem timer_call_errors s x p name auto_reload callback argument :
  (hr_timer_is_valid s (Some x) = false ->
     hr_timer_start (Some x) s = Some (HR_ERROR_INVALID_ARGUMENT, s) /\ hr_timer_stop (Some x) s = Some (HR_ERROR_INVALID_ARGUMENT, s) /\
     hr_timer_reset (Some x) s = Some (HR_ERROR_INVALID_ARGUMENT, s) /\ hr_timer_change_period (Some x) p s = Some (HR_ERROR_INVALID_ARGUMENT, s)) /\
  (p = 0 \/ p = HR_WAIT_FOREVER -> hr_timer_change_period (Some x) p s = Some (HR_ERROR_INVALID_ARGUMENT, s) /\
     hr_timer_create_static (Some x) name p auto_reload callback argument s = Some (HR_ERROR_INVALID_ARGUMENT, s)) /\
  (hr_timer_is_valid s (Some x) = true -> hr_port_is_inside_isr s = true ->
     hr_timer_start (Some x) s = Some (HR_ERROR_FROM_ISR, s) /\ hr_timer_stop (Some x) s = Some (HR_ERROR_FROM_ISR, s) /\
     hr_timer_reset (Some x) s = Some (HR_ERROR_FROM_ISR, s) /\
     (0 < p < HR_WAIT_FOREVER -> hr_timer_change_period (Some x) p s = Some (HR_ERROR_FROM_ISR, s))) /\
  (hr_timer_is_valid s (Some x) = true -> hr_port_is_inside_isr s = false -> tm_active (timer_at s x) = true ->
     hr_timer_start (Some x) s = Some (HR_ERROR_INVALID_STATE, s)) /\
  (hr_timer_is_valid s (Some x) = false -> hr_port_is_inside_isr s = false -> 0 < p < HR_WAIT_FOREVER ->
     is_Some name -> is_Some callback -> g_timer_system_initialized (glob s) = false ->
     g_kernel_state (glob s) = HR_KERNEL_STATE_RUNNING ->
     hr_timer_create_static (Some x) name p auto_reload callback argument s = Some (HR_ERROR_INVALID_STATE, s)).
Proof.
  assert (HP : 0 < p < HR_WAIT_FOREVER -> (p =? 0) || (p =? HR_WAIT_FOREVER) = false).
  { intros Hp. apply orb_false_iff. rewrite !Z.eqb_neq. lia. }
  unfold hr_timer_start, hr_timer_stop, hr_timer_reset, hr_timer_change_period, timer_call, bindM, getM, retM.
  split_and!.
  - intros ->. done.
  - intros Hp. assert (HB : (p =? 0) || (p =? HR_WAIT_FOREVER) = true) by (apply orb_true_iff; rewrite !Z.eqb_eq; done).
    rewrite HB, orb_true_r. split; [done|]. unfold hr_timer_create_static. rewrite HB. by destruct name, callback.
  - intros -> ->. cbn [negb orb]. split_and!; try done. intros Hp. by rewrite HP.
  - intros -> -> Ha. cbn [negb orb]. unfold hr_port_enter_critical, hr_port_exit_critical, upd_port, bindM, getM, retM in *.
    cbn. change (tm_active (timer_at _ x)) with (tm_active (timer_at s x)). rewrite Ha. by destruct s as [? ? ? ? ? ? ? []].
  - intros Hv Hi Hp [n ->] [c ->] Hf HK. unfold hr_timer_create_static. rewrite HP by done. unfold bindM, getM. rewrite Hi, Hv.
    unfold hr_timer_system_ensure_initialized, bindM, getM. rewrite Hf. unfold hr_kernel_get_state. rewrite HK. done.
Qed.

(** The state two ticks after the start of the timer, inside the tick interrupt. *)
Definition s_due : kstate := with_port (pt_set_inside_isr true (ks_port s_armed)) (run_state (ticks 2) s_armed).

Lemma kinv_port T D s p : kinv T D s -> kinv T D (with_port p s).
Proof. intros (V & b & KC & NE & PT). exists V, b. split_and!; [by apply kcore_port|done|done]. Qed.

Lemma timer_step_glob s s' x : timer_step s s' x -> glob s' = glob s.
Proof. intros TS. by rewrite (ts_rest _ _ _ TS). Qed.

Lemma s_due_context : exists D, kinv 2 D s_due /\ D (TimerTimeoutNode 1) = 3.
Proof.
  assert (HB : consistent HR_KERNEL_STATE_RUNNING 0 s_timer_run).
  { pose proof (boot_spawn s_init s_created s_spawn2 2%N 0x08005000 0x08000101 None 0x20001000 64 3 (boot_init s_init runs_init)
      (stack_fits_example _ (or_introl eq_refl)) ltac:(lia) runs_created runs_spawn2) as B2.
    assert (B3 : boot s_timer).
    { refine (boot_timer _ _ _ _ _ _ _ _ B2 _ _ timer_stack_fits runs_timer); vm_compute; intuition congruence. }
    exact (proj1 (proj2 (wp_result _ _ _ _ _ (start_inv s_timer (boot_consistent s_timer idle_stack_fits B3)) runs_timer_run))). }
  destruct HB as (D & (V & b & KC & NE & PT) & HK).
  assert (Hv : timer_valid s_timer_run 1%N) by (vm_compute; reflexivity).
  assert (HR : restarts s_timer_run 1%N (hr_timer_start (Some 1%N)) 3).
  { change 3 with (tm_period_ticks (timer_at s_timer_run 1)). apply by_start. vm_compute. reflexivity. }
  destruct (restarts_spec 0 D b s_timer_run V 1%N _ 3 KC NE Hv ltac:(vm_compute; reflexivity) HR) as [_ HW].
  apply wp_returns in HW as (s1 & E & V1 & KC1 & NE1 & RS).
  assert (E1 : s_armed = s1) by (unfold s_armed, run_state; rewrite E; reflexivity).
  pose proof (rs_timer _ _ _ _ _ _ _ _ RS) as Ht. pose proof (timer_step_glob _ _ _ (rs_step _ _ _ _ _ _ _ _ RS)) as R.
  assert (Hv1 : timer_valid s1 1%N) by (unfold timer_valid; rewrite Ht; vm_compute; reflexivity).
  rewrite <- R in HK. pose proof HK as HK1.
  assert (KI1 : kinv 0 (rearmed D 1%N (ph_timers b + 3)) s1) by (exists V1, b; exact (conj KC1 (conj NE1 PT))).
  assert (HD : rearmed D 1%N (ph_timers b + 3) (TimerTimeoutNode 1) = 3) by (unfold rearmed; rewrite decide_True by reflexivity; lia).
  pose proof (timer_ticks 2 0 _ s1 1%N 3 KI1 HK1 Hv1 (fun _ => HD)) as HW.
  apply wp_run in HW as ([] & s2 & E2 & D2 & KI2 & _ & _ & HT & HD2).
  assert (E3 : run_state (ticks 2) s_armed = s2) by (rewrite E1; unfold run_state; rewrite E2; reflexivity).
  exists D2. unfold s_due. rewrite E3. split; [by apply kinv_port|].
  assert (Hel : elapse 2 0 (timer_at s1 1) 3 = (timer_at s1 1, 3)) by (rewrite Ht; vm_compute; reflexivity).
  rewrite Hel in HT, HD2. apply HD2. rewrite HT, Ht. reflexivity.
Qed.

Lemma expiry_signals_service_witness : exists s', hr_port_is_inside_isr s_due = true /\ timer_valid s_due 1%N /\
  (forall u, ~ awaits_signal s_due u) /\ sem_count (sem_at s_due g_timer_signal) = 0 /\
  hr_kernel_tick_from_isr s_due = Some (tt, s') /\ 0 < sem_count (sem_at s' g_timer_signal).
Proof.
  destruct s_due_context as (D & KI & HD).
  assert (Hv : timer_valid s_due 1%N) by (vm_compute; reflexivity).
  assert (Hno : forall u, ~ awaits_signal s_due u).
  { intros u Hu. pose proof KI as (V & b & KC & _). pose proof (kc_struct _ _ _ _ _ _ KC) as KS.
    destruct (kt_objects _ _ _ _ _ KS (SemaphoreWaiters g_timer_signal)) as [ns Hns]; [vm_compute; reflexivity|].
    apply (kt_member _ _ _ _ _ KS _ _ _ Hns) in Hu. rewrite (view_contents _ _ _ _ _ _ _ KC Hns) in Hu.
    assert (E : contents (st_lists (ks_store s_due)) (SemaphoreWaiters g_timer_signal) = []) by (vm_compute; reflexivity).
    rewrite E in Hu. exact (not_elem_of_nil _ Hu). }
  destruct (expiry_signals_service 2 D s_due 1%N KI) as (s' & E & _ & HC);
    [vm_compute; reflexivity|vm_compute; reflexivity|exact Hv|vm_compute; reflexivity|rewrite HD; lia|].
  exists s'. split; [vm_compute; reflexivity|]. split; [exact Hv|]. split; [exact Hno|]. split; [vm_compute; reflexivity|].
  split; [exact E|exact (HC Hno)].
Defined.

(** Two expiries wait for the service task: the state after seven ticks. *)
Definition s_expired : kstate := run_state (ticks 7) s_armed.

Lemma reachable_ticks `{Config} k : forall s s', reachable s -> ticks k s = Some (tt, s') -> reachable s'.
Proof.
  induction k as [|k IH]; intros s s' HR; cbn [ticks]; [by intros [= <-]|].
  intros ([] & s1 & E & E')%bind_result. eapply IH; [|exact E']. eapply reachable_step; [exact HR|by apply step_tick].
Qed.
Lemma reachable_s_expired : reachable s_expired.
Proof. apply (reachable_ticks 7 s_armed); [exact reachable_s_armed|]. unfold s_expired. runs. Qed.

Lemma service_turn_serves_oldest_witness : exists s1,
  contents (st_lists (ks_store s_expired)) PendingTimers = [TimerPendingNode 1] /\
  hr_timer_process_one_pending (fun _ _ => retM tt) s_expired = (timer_callback_done 1 ;;; retM true) s1 /\
  tm_pending_count (timer_at s1 1) = 1.
Proof.
  pose proof (service_turn_serves_oldest s_expired (fun _ _ => retM tt) idle_stack_fits reachable_s_expired
    ltac:(vm_compute; reflexivity)) as HS.
  assert (EC : contents (st_lists (ks_store s_expired)) PendingTimers = [TimerPendingNode 1]) by (vm_compute; reflexivity).
  rewrite EC in HS. destruct HS as (x & s1 & Ex & _ & _ & _ & _ & _ & HT & _ & _ & E). injection Ex as <-.
  exists s1. split; [exact EC|]. split; [exact E|]. rewrite HT. vm_compute. reflexivity.
Defined.

(** ** Draining the list *)

(** The expiries that wait for the service task, over a list of pending nodes. *)
Definition expiries (s : kstate) (n : node_addr) : nat :=
  match n with TimerPendingNode x => Z.to_nat (tm_pending_count (timer_at s x)) | _ => O end.
Definition backlog (s : kstate) : nat := sum_list_with (expiries s) (contents (st_lists (ks_store s)) PendingTimers).

(** Callbacks that return and leave the timers to the service task: they may do anything
    else that keeps the invariant. *)
Definition leaves_timers (callback : option Z -> option Z -> M kstate unit) : Prop :=
  forall f a T D s, kinv T D s -> exists D' s', callback f a s = Some (tt, s') /\ kinv T D' s' /\
    g_timer_system_initialized (glob s') = g_timer_system_initialized (glob s) /\
    (forall x, timer_at s' x = timer_at s x) /\
    contents (st_lists (ks_store s')) PendingTimers = contents (st_lists (ks_store s)) PendingTimers.

Lemma expiries_ext s s' ns : (forall n, n ∈ ns -> expiries s' n = expiries s n) -> sum_list_with (expiries s') ns = sum_list_with (expiries s) ns.
Proof.
  induction ns as [|n ns IH]; intros HE; [done|]. cbn [sum_list_with]. f_equal; [apply HE; by left|].
  apply IH. intros m Hm. apply HE. by right.
Qed.

Lemma backlog_ext s s' : (forall x, tm_pending_count (timer_at s' x) = tm_pending_count (timer_at s x)) ->
  contents (st_lists (ks_store s')) PendingTimers = contents (st_lists (ks_store s)) PendingTimers -> backlog s' = backlog s.
Proof. intros HT HC. unfold backlog. rewrite HC. apply expiries_ext. intros [] _; try done. simpl. by rewrite HT. Qed.

(** The end of a turn. *)
Lemma callback_done_run T D s x : kinv T D s -> exists s', timer_callback_done x s = Some (tt, s') /\ kinv T D s' /\
  glob s' = glob s /\ (forall y, tm_pending_count (timer_at s' y) = tm_pending_count (timer_at s y)) /\
  contents (st_lists (ks_store s')) PendingTimers = contents (st_lists (ks_store s)) PendingTimers.
Proof.
  intros (V & b & KC & NE & PT).
  assert (HW : wp (timer_callback_done x) (fun r s' => r = tt /\ kcore T D s' V b nobody /\ timer_step s s' x /\
    timer_at s' x = tm_set_callback_running false (timer_at s x) /\ forall n, node_list s' n = node_list s n) s).
  { apply (callback_done_spec T D b s V); [done|]. eauto 10. }
  apply wp_returns in HW as (s' & E & KC' & TS & HT & HL). exists s'.
  split_and!; [done|exists V, b; split_and!; [done|intros n; rewrite HL; apply NE|done]|by eapply timer_step_glob| |].
  - intros y. destruct (decide (y = x)) as [->|Hne]; [by rewrite HT|by rewrite (ts_other _ _ _ TS)].
  - assert (HS : exists s2, timer_callback_done x s = Some (tt, s2) /\ ks_store s2 = ks_store s) by (eexists; split; reflexivity).
    destruct HS as (s2 & E2 & HS). rewrite E in E2. injection E2 as <-. by rewrite HS.
Qed.

(** The first entry of the list served: one expiry less. *)
Lemma backlog_taken T D s s1 x ns : kinv T D s ->
  g_timer_system_initialized (glob s) = true ->
  contents (st_lists (ks_store s)) PendingTimers = TimerPendingNode x :: ns -> 0 < tm_pending_count (timer_at s x) ->
  timer_at s1 x = tm_set_callback_running true (tm_set_pending_count (tm_pending_count (timer_at s x) - 1) (timer_at s x)) ->
  (forall y, y <> x -> timer_at s1 y = timer_at s y) ->
  contents (st_lists (ks_store s1)) PendingTimers =
    (if 1 <? tm_pending_count (timer_at s x) then ns ++ [TimerPendingNode x] else ns) ->
  backlog s = S (backlog s1).
Proof.
  intros (V & b & KC & _) Hi EC Hp HT HO EC1. pose proof (kc_struct _ _ _ _ _ _ KC) as KS.
  destruct (kt_timer_list _ _ _ _ _ KS Hi) as [ps Hps].
  pose proof (ring_nodup _ _ _ (rep_ring _ _ (kt_rep _ _ _ _ _ KS) _ _ Hps)) as ND.
  rewrite (view_contents _ _ _ _ _ _ _ KC Hps), EC in ND. apply NoDup_cons in ND as [Hx _].
  assert (HE : sum_list_with (expiries s1) ns = sum_list_with (expiries s) ns).
  { apply expiries_ext. intros [] Hm; try done. simpl. rewrite HO; [done|]. by intros ->. }
  assert (Hx1 : S (expiries s1 (TimerPendingNode x)) = expiries s (TimerPendingNode x)) by (simpl; rewrite HT; simpl; lia).
  unfold backlog. rewrite EC, EC1. cbn [sum_list_with]. destruct (Z.ltb_spec 1 (tm_pending_count (timer_at s x))).
  - rewrite sum_list_with_app. cbn [sum_list_with]. lia.
  - simpl in *. rewrite HT in Hx1. simpl in Hx1. lia.
Qed.

(** C19: The service task drains its list: with callbacks that return and leave the timers alone,
    the loop ends within one turn per pending expiry and the turn that finds the list empty,
    and then no expiry of any timer is pending. *)
Theorem service_drains T D s callback fuel :
  leaves_timers callback -> kinv T D s -> g_timer_system_initialized (glob s) = true -> (backlog s < fuel)%nat ->
  exists D' s', timer_service_drain fuel callback s = Some (tt, s') /\ kinv T D' s' /\
    contents (st_lists (ks_store s')) PendingTimers = [] /\
    (forall x, timer_valid s' x -> tm_pending_count (timer_at s' x) = 0).
Proof.
  intros HC. revert D s. induction fuel as [|fuel IH]; intros D s KI Hi Hf; [lia|]. cbn [timer_service_drain]. unfold bindM at 1.
  pose proof (service_turn T D s callback KI Hi) as HS.
  destruct (contents (st_lists (ks_store s)) PendingTimers) as [|n ns] eqn:EC.
  { rewrite HS. exists D, s. split_and!; try done. intros x Hv.
    destruct (Z.eqb_spec (tm_pending_count (timer_at s x)) 0) as [|Hne]; [done|].
    pose proof (tg_pending _ (valid_range T D s x KI Hv)) as Hr. pose proof (pending_linked T D s x KI Hv ltac:(lia)) as Hl.
    destruct KI as (V & b & KC & _). destruct (kt_timer_list _ _ _ _ _ (kc_struct _ _ _ _ _ _ KC) Hi) as [ps Hps].
    apply (kt_member _ _ _ _ _ (kc_struct _ _ _ _ _ _ KC) _ _ _ Hps) in Hl.
    rewrite (view_contents _ _ _ _ _ _ _ KC Hps), EC in Hl. by apply elem_of_nil in Hl. }
  destruct HS as (x & s1 & -> & Hv & KI1 & _ & Hg1 & Hp & HT & HO & EC1 & E).
  pose proof (backlog_taken T D s s1 x ns KI Hi EC Hp HT HO EC1) as HB.
  destruct (HC (tm_callback (timer_at s x)) (tm_argument (timer_at s x)) T D s1 KI1) as (D2 & s2 & E2 & KI2 & Hi2 & HT2 & EC2).
  destruct (callback_done_run T D2 s2 x KI2) as (s3 & E3 & KI3 & Hg3 & HT3 & EC3).
  rewrite E. unfold bindM. rewrite E2, E3. unfold retM.
  apply (IH D2 s3 KI3).
  - by rewrite Hg3, Hi2, Hg1.
  - rewrite (backlog_ext s1 s3), HB in *; [lia| |congruence]. intros y. by rewrite HT3, HT2.
Qed.

Lemma service_drains_witness : leaves_timers (fun _ _ => retM tt) /\ backlog s_expired = 2%nat /\
  exists s', timer_service_drain 3 (fun _ _ => retM tt) s_expired = Some (tt, s') /\
    contents (st_lists (ks_store s')) PendingTimers = [].
Proof.
  assert (HL : leaves_timers (fun _ _ => retM tt)).
  { intros f a T D s KI. exists D, s. split; [reflexivity|]. split; [exact KI|]. split; [reflexivity|]. split; reflexivity. }
  assert (HB : backlog s_expired = 2%nat) by (vm_compute; reflexivity).
  destruct (reachable_kinv s_expired reachable_s_expired) as (T & D & KI & HK).
  split; [exact HL|]. split; [exact HB|].
  destruct (service_drains T D s_expired (fun _ _ => retM tt) 3 HL KI) as (D' & s' & E & _ & EC & _);
    [vm_compute; reflexivity|rewrite HB; lia|]. exists s'. split; [exact E|exact EC].
Defined.
