(* ===== verification/HeState.v ===== *)
(** The state of the event framework haievent: its control blocks over the state of the
    kernel ([haievent/internal/he_internal.h], [haievent/include/haievent]). *)
From S2P Require Import Prelude Types KState Queue.
From stdpp Require Import gmap list.
From Stdlib Require Import ZArith.
Open Scope Z_scope.

(** ** Constants: [config/haievent_config.h], [he_event.h], [he_internal.h] *)

Definition HE_CFG_MAX_ACTIVE_OBJECTS : Z := 8.
Definition HE_CFG_MAX_SIGNALS : Z := 64.
Definition HE_CFG_MAX_INIT_TRANSITIONS : Z := 8.
Definition HE_CFG_EVENT_MAGIC : Z := 0x48454556.
Definition HE_CFG_EVENT_POOL_MAGIC : Z := 0x4845504C.
Definition HE_CFG_STATE_MACHINE_MAGIC : Z := 0x4845534D.
Definition HE_CFG_ACTIVE_MAGIC : Z := 0x4845414F.
Definition HE_CFG_TIME_EVENT_MAGIC : Z := 0x48455445.
Definition HE_CFG_PUBSUB_MAGIC : Z := 0x48455053.
Definition HE_SIG_NONE : Z := 0.
Definition HE_SIG_ENTRY : Z := 1.
Definition HE_SIG_EXIT : Z := 2.
Definition HE_SIG_INIT : Z := 3.
Definition HE_SIG_USER : Z := 32.
Definition HE_EVENT_FLAG_STATIC : Z := 1.
Definition HE_EVENT_FLAG_DYNAMIC : Z := 2.
Definition UINT16_MAX : Z := 65535.
Definition u16 (x : Z) : Z := wrap 16 x.
(** [sizeof(he_event_t)] and [_Alignof(max_align_t)] of the 32-bit target. *)
Definition sizeof_he_event : Z := 16.
Definition alignof_max_align : Z := 8.

(** ** Data *)

Abbreviation pool_ptr := N.
Abbreviation machine_ptr := N.
Abbreviation active_ptr := N.
Abbreviation time_event_ptr := N.
Abbreviation pubsub_ptr := N.

(** The first word of an event: the [pool] field of an event in use, and the link to the
    next block, written through a [void **], of a free one. *)
Inductive first_word : Type := WNull | WPool (p : pool_ptr) | WBlock (a : Z).
#[export] Instance first_word_eq_dec : EqDecision first_word.
Proof. solve_decision. Defined.

Record he_event : Type := mk_event {
  ev_word : first_word;
  ev_magic : Z;
  ev_size : Z;
  ev_reference_count : Z;
  ev_signal : Z;
  ev_flags : Z;
}.
Record he_event_pool_control_block_t : Type := mk_ep {
  ep_storage : option Z;
  ep_free_head : option Z;
  ep_block_size : Z;
  ep_block_count : Z;
  ep_free_count : Z;
  ep_magic : Z;
}.
(** Handlers are code addresses. *)
Record he_state_machine_control_block_t : Type := mk_sm {
  sm_initial : option Z;
  sm_current : option Z;
  sm_target : option Z;
  sm_context : option Z;
  sm_magic : Z;
  sm_started : bool;
}.
(** The task, the queue and the state machine embedded in an active object bear its name. *)
Record he_active_control_block_t : Type := mk_ao {
  ao_name : option Z;
  ao_magic : Z;
}.
(** The timer embedded in a time event bears its name. *)
Record he_time_event_control_block_t : Type := mk_te {
  te_target : option active_ptr;
  te_name : option Z;
  te_dropped_count : Z;
  te_magic : Z;
}.
Record he_pubsub_control_block_t : Type := mk_ps {
  ps_subscribers : option Z;
  ps_signal_count : Z;
  ps_max_subscribers : Z;
  ps_magic : Z;
}.

Definition zero_event : he_event := mk_event WNull 0 0 0 0 0.
Definition zero_ep : he_event_pool_control_block_t := mk_ep None None 0 0 0 0.
Definition zero_sm : he_state_machine_control_block_t := mk_sm None None None None 0 false.
Definition zero_ao : he_active_control_block_t := mk_ao None 0.
Definition zero_te : he_time_event_control_block_t := mk_te None None 0 0.
Definition zero_ps : he_pubsub_control_block_t := mk_ps None 0 0 0.
#[export] Instance event_inhabited : Inhabited he_event := populate zero_event.
#[export] Instance ep_inhabited : Inhabited he_event_pool_control_block_t := populate zero_ep.
#[export] Instance sm_inhabited : Inhabited he_state_machine_control_block_t := populate zero_sm.
#[export] Instance ao_inhabited : Inhabited he_active_control_block_t := populate zero_ao.
#[export] Instance te_inhabited : Inhabited he_time_event_control_block_t := populate zero_te.
#[export] Instance ps_inhabited : Inhabited he_pubsub_control_block_t := populate zero_ps.
#[export] Instance slot_inhabited : Inhabited (option active_ptr) := populate None.

(** Events are at addresses; the table of subscribers is an array of pointers at addresses
    four bytes apart; the rest of an event's block is byte memory of the kernel's state. *)
Record hstate : Type := mk_hstate {
  hs_kernel : kstate;
  hs_events : gmap Z he_event;
  hs_pools : gmap N he_event_pool_control_block_t;
  hs_machines : gmap N he_state_machine_control_block_t;
  hs_actives : gmap N he_active_control_block_t;
  hs_time_events : gmap N he_time_event_control_block_t;
  hs_pubsubs : gmap N he_pubsub_control_block_t;
  hs_slots : gmap Z (option active_ptr);
}.

Definition hs_set_kernel v s := mk_hstate v (hs_events s) (hs_pools s) (hs_machines s) (hs_actives s) (hs_time_events s) (hs_pubsubs s) (hs_slots s).
Definition hs_set_events v s := mk_hstate (hs_kernel s) v (hs_pools s) (hs_machines s) (hs_actives s) (hs_time_events s) (hs_pubsubs s) (hs_slots s).
Definition hs_set_pools v s := mk_hstate (hs_kernel s) (hs_events s) v (hs_machines s) (hs_actives s) (hs_time_events s) (hs_pubsubs s) (hs_slots s).
Definition hs_set_machines v s := mk_hstate (hs_kernel s) (hs_events s) (hs_pools s) v (hs_actives s) (hs_time_events s) (hs_pubsubs s) (hs_slots s).
Definition hs_set_actives v s := mk_hstate (hs_kernel s) (hs_events s) (hs_pools s) (hs_machines s) v (hs_time_events s) (hs_pubsubs s) (hs_slots s).
Definition hs_set_time_events v s := mk_hstate (hs_kernel s) (hs_events s) (hs_pools s) (hs_machines s) (hs_actives s) v (hs_pubsubs s) (hs_slots s).
Definition hs_set_pubsubs v s := mk_hstate (hs_kernel s) (hs_events s) (hs_pools s) (hs_machines s) (hs_actives s) (hs_time_events s) v (hs_slots s).
Definition hs_set_slots v s := mk_hstate (hs_kernel s) (hs_events s) (hs_pools s) (hs_machines s) (hs_actives s) (hs_time_events s) (hs_pubsubs s) v.

(** Calls of the kernel. *)
#[export] Instance kernel_part : Part kstate hstate := {| part_get := hs_kernel; part_set := hs_set_kernel |}.

Definition event_at (s : hstate) (a : Z) : he_event := hs_events s !!! a.
Definition pool_at (s : hstate) (p : pool_ptr) : he_event_pool_control_block_t := hs_pools s !!! p.
Definition machine_at (s : hstate) (m : machine_ptr) : he_state_machine_control_block_t := hs_machines s !!! m.
Definition active_at (s : hstate) (a : active_ptr) : he_active_control_block_t := hs_actives s !!! a.
Definition time_event_at (s : hstate) (t : time_event_ptr) : he_time_event_control_block_t := hs_time_events s !!! t.
Definition pubsub_at (s : hstate) (p : pubsub_ptr) : he_pubsub_control_block_t := hs_pubsubs s !!! p.
Definition slot_value (s : hstate) (a : Z) : option active_ptr := hs_slots s !!! a.

Definition upd_event (a : Z) (f : he_event -> he_event) : M hstate unit :=
  modifyM (fun s => hs_set_events (<[a := f (event_at s a)]> (hs_events s)) s).
Definition upd_pool (p : pool_ptr) (f : he_event_pool_control_block_t -> he_event_pool_control_block_t) : M hstate unit :=
  modifyM (fun s => hs_set_pools (<[p := f (pool_at s p)]> (hs_pools s)) s).
Definition upd_machine (m : machine_ptr) (f : he_state_machine_control_block_t -> he_state_machine_control_block_t) : M hstate unit :=
  modifyM (fun s => hs_set_machines (<[m := f (machine_at s m)]> (hs_machines s)) s).
Definition upd_active (a : active_ptr) (f : he_active_control_block_t -> he_active_control_block_t) : M hstate unit :=
  modifyM (fun s => hs_set_actives (<[a := f (active_at s a)]> (hs_actives s)) s).
Definition upd_time_event (t : time_event_ptr) (f : he_time_event_control_block_t -> he_time_event_control_block_t) : M hstate unit :=
  modifyM (fun s => hs_set_time_events (<[t := f (time_event_at s t)]> (hs_time_events s)) s).
Definition upd_pubsub (p : pubsub_ptr) (f : he_pubsub_control_block_t -> he_pubsub_control_block_t) : M hstate unit :=
  modifyM (fun s => hs_set_pubsubs (<[p := f (pubsub_at s p)]> (hs_pubsubs s)) s).
Definition set_slot (a : Z) (v : option active_ptr) : M hstate unit :=
  modifyM (fun s => hs_set_slots (<[a := v]> (hs_slots s)) s).

(** Field updates. *)
Definition ev_set_word v e := mk_event v (ev_magic e) (ev_size e) (ev_reference_count e) (ev_signal e) (ev_flags e).
Definition ev_set_magic v e := mk_event (ev_word e) v (ev_size e) (ev_reference_count e) (ev_signal e) (ev_flags e).
Definition ev_set_size v e := mk_event (ev_word e) (ev_magic e) v (ev_reference_count e) (ev_signal e) (ev_flags e).
Definition ev_set_reference_count v e := mk_event (ev_word e) (ev_magic e) (ev_size e) v (ev_signal e) (ev_flags e).
Definition ev_set_signal v e := mk_event (ev_word e) (ev_magic e) (ev_size e) (ev_reference_count e) v (ev_flags e).
Definition ev_set_flags v e := mk_event (ev_word e) (ev_magic e) (ev_size e) (ev_reference_count e) (ev_signal e) v.
Definition ep_set_storage v c := mk_ep v (ep_free_head c) (ep_block_size c) (ep_block_count c) (ep_free_count c) (ep_magic c).
Definition ep_set_free_head v c := mk_ep (ep_storage c) v (ep_block_size c) (ep_block_count c) (ep_free_count c) (ep_magic c).
Definition ep_set_block_size v c := mk_ep (ep_storage c) (ep_free_head c) v (ep_block_count c) (ep_free_count c) (ep_magic c).
Definition ep_set_block_count v c := mk_ep (ep_storage c) (ep_free_head c) (ep_block_size c) v (ep_free_count c) (ep_magic c).
Definition ep_set_free_count v c := mk_ep (ep_storage c) (ep_free_head c) (ep_block_size c) (ep_block_count c) v (ep_magic c).
Definition ep_set_magic v c := mk_ep (ep_storage c) (ep_free_head c) (ep_block_size c) (ep_block_count c) (ep_free_count c) v.
Definition sm_set_initial v c := mk_sm v (sm_current c) (sm_target c) (sm_context c) (sm_magic c) (sm_started c).
Definition sm_set_current v c := mk_sm (sm_initial c) v (sm_target c) (sm_context c) (sm_magic c) (sm_started c).
Definition sm_set_target v c := mk_sm (sm_initial c) (sm_current c) v (sm_context c) (sm_magic c) (sm_started c).
Definition sm_set_context v c := mk_sm (sm_initial c) (sm_current c) (sm_target c) v (sm_magic c) (sm_started c).
Definition sm_set_magic v c := mk_sm (sm_initial c) (sm_current c) (sm_target c) (sm_context c) v (sm_started c).
Definition sm_set_started v c := mk_sm (sm_initial c) (sm_current c) (sm_target c) (sm_context c) (sm_magic c) v.
Definition ao_set_name v c := mk_ao v (ao_magic c).
Definition ao_set_magic v c := mk_ao (ao_name c) v.
Definition te_set_target v c := mk_te v (te_name c) (te_dropped_count c) (te_magic c).
Definition te_set_name v c := mk_te (te_target c) v (te_dropped_count c) (te_magic c).
Definition te_set_dropped_count v c := mk_te (te_target c) (te_name c) v (te_magic c).
Definition te_set_magic v c := mk_te (te_target c) (te_name c) (te_dropped_count c) v.
Definition ps_set_subscribers v c := mk_ps v (ps_signal_count c) (ps_max_subscribers c) (ps_magic c).
Definition ps_set_signal_count v c := mk_ps (ps_subscribers c) v (ps_max_subscribers c) (ps_magic c).
Definition ps_set_max_subscribers v c := mk_ps (ps_subscribers c) (ps_signal_count c) v (ps_magic c).
Definition ps_set_magic v c := mk_ps (ps_subscribers c) (ps_signal_count c) (ps_max_subscribers c) v.
