(* ===== verification/HeEvent.v ===== *)
(** Events, event pools and reference counts: [haievent/src/he_event.c]. *)
From S2P Require Import Prelude Types KState Queue HeState.
From stdpp Require Import gmap list.
From Stdlib Require Import ZArith.
Open Scope Z_scope.

Definition he_event_pool_control_block (pool : option pool_ptr) : option pool_ptr := pool.

Definition he_event_pool_is_valid (s : hstate) (pool : option pool_ptr) : bool :=
  match pool with
  | None => false
  | Some p =>
      let c := pool_at s p in
      (ep_magic c =? HE_CFG_EVENT_POOL_MAGIC) && bool_decide (ep_storage c <> None) &&
      (sizeof_he_event <=? ep_block_size c) && (0 <? ep_block_count c) && (ep_free_count c <=? ep_block_count c)
  end.

(** [for (index = 0U; index < block_count; index++)]: the link of block [index]. *)
Fixpoint pool_link_loop (n : nat) (bytes block_size block_count index : Z) : M hstate unit :=
  match n with
  | O => retM tt
  | S n' =>
      upd_event (u32 (bytes + u32 (index * block_size)))
        (ev_set_word (if u32 (index + 1) <? block_count then WBlock (u32 (bytes + u32 (u32 (index + 1) * block_size))) else WNull)) ;;;
      pool_link_loop n' bytes block_size block_count (u32 (index + 1))
  end.

Definition he_event_pool_init (pool : option pool_ptr) (storage : option Z) (block_size block_count : Z) : M hstate hr_status :=
  match pool, storage with
  | Some p, Some bytes =>
      if (block_size <? sizeof_he_event) || (block_count =? 0) || (UINT16_MAX <? block_size) ||
         negb (block_size mod alignof_max_align =? 0) || negb (bytes mod alignof_max_align =? 0)
      then retM HR_ERROR_INVALID_ARGUMENT
      else
        let* s := getM in
        if he_event_pool_is_valid s pool then retM HR_ERROR_INVALID_STATE
        else
          upd_pool p (fun _ => zero_ep) ;;;
          pool_link_loop (Z.to_nat block_count) bytes block_size block_count 0 ;;;
          upd_pool p (ep_set_storage storage) ;;;
          upd_pool p (ep_set_free_head storage) ;;;
          upd_pool p (ep_set_block_size block_size) ;;;
          upd_pool p (ep_set_block_count block_count) ;;;
          upd_pool p (ep_set_free_count block_count) ;;;
          upd_pool p (ep_set_magic HE_CFG_EVENT_POOL_MAGIC) ;;;
          retM HR_OK
  | _, _ => retM HR_ERROR_INVALID_ARGUMENT
  end.

Definition he_event_pool_get_free_count (s : hstate) (pool : option pool_ptr) : Z :=
  match pool with Some p => if he_event_pool_is_valid s pool then ep_free_count (pool_at s p) else 0 | None => 0 end.
Definition he_event_pool_get_block_count (s : hstate) (pool : option pool_ptr) : Z :=
  match pool with Some p => if he_event_pool_is_valid s pool then ep_block_count (pool_at s p) else 0 | None => 0 end.

(** [he_zero_bytes] on the bytes of a block behind its header. *)
Fixpoint zero_bytes_loop (n : nat) (memory index : Z) : M kstate unit :=
  match n with
  | O => retM tt
  | S n' => write_byte (u32 (memory + index)) 0 ;;; zero_bytes_loop n' memory (index + 1)
  end.
Definition zero_event_bytes (event size : Z) : M hstate unit :=
  upd_event event (fun _ => zero_event) ;;;
  lift (zero_bytes_loop (Z.to_nat (size - sizeof_he_event)) event sizeof_he_event).

(** The first word read as the link of a free block: the pool field of an event in use is
    not one. *)
Definition read_link (w : first_word) : option (option Z) :=
  match w with WNull => Some None | WBlock a => Some (Some a) | WPool _ => None end.
Definition link_word (p : option Z) : first_word := match p with None => WNull | Some a => WBlock a end.

Definition he_event_new (pool : option pool_ptr) (signal event_size : Z) : M hstate (option Z) :=
  let* s := getM in
  match pool with
  | None => retM None
  | Some p =>
      if negb (he_event_pool_is_valid s pool) || (signal =? HE_SIG_NONE) || (event_size <? sizeof_he_event)
      then retM None
      else if ep_block_size (pool_at s p) <? event_size then retM None
      else
        let* irq_state := lift hr_critical_enter in
        let event := ep_free_head (pool_at s p) in
        (match event with
         | Some a =>
             match read_link (ev_word (event_at s a)) with
             | Some next =>
                 upd_pool p (ep_set_free_head next) ;;;
                 upd_pool p (fun c => ep_set_free_count (u32 (ep_free_count c - 1)) c)
             | None => ubM
             end
         | None => retM tt
         end) ;;;
        lift (hr_critical_exit irq_state) ;;;
        match event with
        | None => retM None
        | Some a =>
            zero_event_bytes a (ep_block_size (pool_at s p)) ;;;
            upd_event a (ev_set_word (WPool p)) ;;;
            upd_event a (ev_set_magic HE_CFG_EVENT_MAGIC) ;;;
            upd_event a (ev_set_size (u16 event_size)) ;;;
            upd_event a (ev_set_reference_count 1) ;;;
            upd_event a (ev_set_signal signal) ;;;
            upd_event a (ev_set_flags HE_EVENT_FLAG_DYNAMIC) ;;;
            retM event
        end
  end.

Definition he_event_init_static (event : option Z) (signal event_size : Z) : M hstate hr_status :=
  match event with
  | None => retM HR_ERROR_INVALID_ARGUMENT
  | Some a =>
      if (signal =? HE_SIG_NONE) || (event_size <? sizeof_he_event) || (UINT16_MAX <? event_size)
      then retM HR_ERROR_INVALID_ARGUMENT
      else
        upd_event a (fun _ => zero_event) ;;;
        upd_event a (ev_set_word WNull) ;;;
        upd_event a (ev_set_magic HE_CFG_EVENT_MAGIC) ;;;
        upd_event a (ev_set_size (u16 event_size)) ;;;
        upd_event a (ev_set_reference_count 0) ;;;
        upd_event a (ev_set_signal signal) ;;;
        upd_event a (ev_set_flags HE_EVENT_FLAG_STATIC) ;;;
        retM HR_OK
  end.

(** [None] when the first word of an event that claims to be dynamic is not the address
    of a pool. *)
Definition event_is_valid (s : hstate) (event : option Z) : option bool :=
  match event with
  | None => Some false
  | Some a =>
      let e := event_at s a in
      if negb (ev_magic e =? HE_CFG_EVENT_MAGIC) || (ev_signal e =? HE_SIG_NONE) || (ev_size e <? sizeof_he_event)
      then Some false
      else if ev_flags e =? HE_EVENT_FLAG_STATIC
      then Some (bool_decide (ev_word e = WNull) && (ev_reference_count e =? 0))
      else if ev_flags e =? HE_EVENT_FLAG_DYNAMIC
      then match ev_word e with
           | WNull => Some false
           | WPool p => Some ((0 <? ev_reference_count e) && he_event_pool_is_valid s (Some p))
           | WBlock _ => None
           end
      else Some false
  end.
Definition he_event_is_valid (event : option Z) : M hstate bool :=
  fun s => match event_is_valid s event with Some b => Some (b, s) | None => None end.

Definition he_event_is_dynamic (event : option Z) : M hstate bool :=
  let* valid := he_event_is_valid event in
  let* s := getM in
  retM (valid && match event with Some a => ev_flags (event_at s a) =? HE_EVENT_FLAG_DYNAMIC | None => false end).

Definition he_event_get_reference_count (event : option Z) : M hstate Z :=
  let* dynamic := he_event_is_dynamic event in
  let* s := getM in
  retM (match event with Some a => if dynamic then ev_reference_count (event_at s a) else 0 | None => 0 end).

Definition he_event_retain (event : option Z) : M hstate hr_status :=
  let* valid := he_event_is_valid event in
  match event with
  | None => retM HR_ERROR_INVALID_ARGUMENT
  | Some a =>
      if negb valid then retM HR_ERROR_INVALID_ARGUMENT
      else
        let* dynamic := he_event_is_dynamic event in
        if negb dynamic then retM HR_OK
        else
          let* irq_state := lift hr_critical_enter in
          let* s := getM in
          if ev_reference_count (event_at s a) =? UINT16_MAX then
            lift (hr_critical_exit irq_state) ;;; retM HR_ERROR_OVERFLOW
          else
            upd_event a (fun e => ev_set_reference_count (u16 (ev_reference_count e + 1)) e) ;;;
            lift (hr_critical_exit irq_state) ;;;
            retM HR_OK
  end.

Definition he_event_release (event : option Z) : M hstate hr_status :=
  let* valid := he_event_is_valid event in
  match event with
  | None => retM HR_ERROR_INVALID_ARGUMENT
  | Some a =>
      if negb valid then retM HR_ERROR_INVALID_ARGUMENT
      else
        let* dynamic := he_event_is_dynamic event in
        if negb dynamic then retM HR_OK
        else
          let* s := getM in
          match ev_word (event_at s a) with
          | WPool p =>
              let* irq_state := lift hr_critical_enter in
              if ev_reference_count (event_at s a) =? 0 then
                lift (hr_critical_exit irq_state) ;;; retM HR_ERROR_INVALID_STATE
              else
                upd_event a (fun e => ev_set_reference_count (u16 (ev_reference_count e - 1)) e) ;;;
                let* s := getM in
                if ev_reference_count (event_at s a) =? 0 then
                  if ep_block_count (pool_at s p) <=? ep_free_count (pool_at s p) then
                    lift (hr_critical_exit irq_state) ;;; retM HR_ERROR_INTERNAL
                  else
                    upd_event a (ev_set_magic 0) ;;;
                    upd_event a (ev_set_word WNull) ;;;
                    upd_event a (ev_set_word (link_word (ep_free_head (pool_at s p)))) ;;;
                    upd_pool p (ep_set_free_head event) ;;;
                    upd_pool p (fun c => ep_set_free_count (u32 (ep_free_count c + 1)) c) ;;;
                    lift (hr_critical_exit irq_state) ;;;
                    retM HR_OK
                else
                  lift (hr_critical_exit irq_state) ;;;
                  retM HR_OK
          | _ => ubM
          end
  end.
