(* ===== verification/HeStateMachine.v ===== *)
(** Flat state machines: [haievent/src/he_state_machine.c].

    A state is the code address of its handler.  The handlers are application code: the
    class [Handlers] gives what a call of one does, as a transformation of the whole
    state that ends in the result of the handler. *)
From S2P Require Import Prelude Types KState KernelBase Queue HeState HeEvent.
From stdpp Require Import gmap list.
From Stdlib Require Import ZArith.
Open Scope Z_scope.

(** [he_state_result_t], as integers: the code also handles values outside the
    enumeration. *)
Definition HE_STATE_HANDLED : Z := 0.
Definition HE_STATE_IGNORED : Z := 1.
Definition HE_STATE_TRANSITION : Z := 2.

(** [run_handler h m e] is the call [h(m, e)]; [local_event s] is the address of the local
    variable [event] of [he_dispatch_reserved] in the stack of the running context. *)
Class Handlers : Type := {
  run_handler : Z -> machine_ptr -> Z -> M hstate Z;
  local_event : hstate -> Z;
}.

Definition he_state_machine_control_block (machine : option machine_ptr) : option machine_ptr := machine.

Definition he_state_machine_is_valid (s : hstate) (machine : option machine_ptr) : bool :=
  match machine with
  | None => false
  | Some m =>
      (sm_magic (machine_at s m) =? HE_CFG_STATE_MACHINE_MAGIC) && bool_decide (sm_initial (machine_at s m) <> None)
  end.

Definition he_state_machine_init (machine : option machine_ptr) (initial_state context : option Z) : M hstate hr_status :=
  match machine, initial_state with
  | Some m, Some _ =>
      let* s := getM in
      if he_state_machine_is_valid s machine then retM HR_ERROR_INVALID_STATE
      else
        upd_machine m (fun _ => zero_sm) ;;;
        upd_machine m (sm_set_initial initial_state) ;;;
        upd_machine m (sm_set_current initial_state) ;;;
        upd_machine m (sm_set_context context) ;;;
        upd_machine m (sm_set_magic HE_CFG_STATE_MACHINE_MAGIC) ;;;
        retM HR_OK
  | _, _ => retM HR_ERROR_INVALID_ARGUMENT
  end.

(** A field of a valid machine, [d] for an invalid one. *)
Definition machine_query {A} (s : hstate) (machine : option machine_ptr)
    (f : he_state_machine_control_block_t -> A) (d : A) : A :=
  match machine with
  | Some m => if he_state_machine_is_valid s machine then f (machine_at s m) else d
  | None => d
  end.
Definition he_state_machine_is_started s machine := machine_query s machine sm_started false.
Definition he_state_machine_current s machine := machine_query s machine sm_current None.
Definition he_state_machine_context s machine := machine_query s machine sm_context None.
Definition he_state_machine_context_const s machine := machine_query s machine sm_context None.

Definition he_state_transition (machine : option machine_ptr) (target_state : option Z) : M hstate Z :=
  let* s := getM in
  match machine, target_state with
  | Some m, Some _ =>
      if negb (he_state_machine_is_valid s machine) then retM HE_STATE_IGNORED
      else upd_machine m (sm_set_target target_state) ;;; retM HE_STATE_TRANSITION
  | _, _ => retM HE_STATE_IGNORED
  end.

Section handlers.
Context `{Handlers}.

(** [control_block->current(machine, event)]: the call of a null pointer is undefined. *)
Definition call_current (m : machine_ptr) (event : Z) : M hstate Z :=
  let* s := getM in
  match sm_current (machine_at s m) with
  | Some h => run_handler h m event
  | None => ubM
  end.

(** The second component is the value stored in [*result], if any. *)
Definition he_dispatch_reserved (m : machine_ptr) (signal : Z) : M hstate (hr_status * Z) :=
  let* s := getM in
  let event := local_event s in
  let* status := he_event_init_static (Some event) signal sizeof_he_event in
  if negb (ok status) then retM (HR_ERROR_INTERNAL, HE_STATE_HANDLED)
  else
    upd_machine m (sm_set_target None) ;;;
    let* result := call_current m event in
    retM (HR_OK, result).

(** [if ((result == HE_STATE_TRANSITION) && (control_block->target == NULL))]. *)
Definition transition_without_target (s : hstate) (m : machine_ptr) (result : Z) : bool :=
  (result =? HE_STATE_TRANSITION) && bool_decide (sm_target (machine_at s m) = None).

(** The entry of the current state, then its initial transition when the entry did not
    request one: the code that the start and each transition share. *)
Definition enter_current (m : machine_ptr) : M hstate hr_status :=
  let* r := he_dispatch_reserved m HE_SIG_ENTRY in
  if negb (ok (fst r)) then retM HR_ERROR_INTERNAL
  else
    let* s := getM in
    if transition_without_target s m (snd r) then retM HR_ERROR_INVALID_STATE
    else if bool_decide (sm_target (machine_at s m) = None) then
      let* r := he_dispatch_reserved m HE_SIG_INIT in
      if negb (ok (fst r)) then retM HR_ERROR_INTERNAL
      else
        let* s := getM in
        if transition_without_target s m (snd r) then retM HR_ERROR_INVALID_STATE
        else retM HR_OK
    else retM HR_OK.

(** [while (control_block->target != NULL)]: the loop returns when the count exceeds
    HE_CFG_MAX_INIT_TRANSITIONS, so one turn more than that bounds it. *)
Fixpoint apply_transition_loop (fuel : nat) (m : machine_ptr) (transition_count : Z) : M hstate hr_status :=
  let* s := getM in
  match sm_target (machine_at s m) with
  | None => retM HR_OK
  | Some target =>
      match fuel with
      | O => ubM
      | S fuel' =>
          upd_machine m (sm_set_target None) ;;;
          let* r := he_dispatch_reserved m HE_SIG_EXIT in
          if negb (ok (fst r)) then retM HR_ERROR_INTERNAL
          else
            upd_machine m (sm_set_current (Some target)) ;;;
            let* status := enter_current m in
            if negb (ok status) then retM status
            else
              let transition_count := u32 (transition_count + 1) in
              if HE_CFG_MAX_INIT_TRANSITIONS <? transition_count then retM HR_ERROR_OVERFLOW
              else apply_transition_loop fuel' m transition_count
      end
  end.
Definition he_apply_transition (m : machine_ptr) : M hstate hr_status :=
  apply_transition_loop (S (Z.to_nat HE_CFG_MAX_INIT_TRANSITIONS)) m 0.

Definition he_state_machine_start (machine : option machine_ptr) : M hstate hr_status :=
  let* s := getM in
  match machine with
  | None => retM HR_ERROR_INVALID_ARGUMENT
  | Some m =>
      if negb (he_state_machine_is_valid s machine) then retM HR_ERROR_INVALID_ARGUMENT
      else if sm_started (machine_at s m) then retM HR_ERROR_INVALID_STATE
      else
        upd_machine m (fun c => sm_set_current (sm_initial c) c) ;;;
        upd_machine m (sm_set_started true) ;;;
        let* status := enter_current m in
        if negb (ok status) then retM status
        else he_apply_transition m
  end.

Definition he_state_machine_dispatch (machine : option machine_ptr) (event : option Z) : M hstate hr_status :=
  let* s := getM in
  match machine, event with
  | Some m, Some e =>
      if negb (he_state_machine_is_valid s machine) || negb (he_state_machine_is_started s machine)
      then retM HR_ERROR_INVALID_ARGUMENT
      else
        let* valid := he_event_is_valid event in
        if negb valid then retM HR_ERROR_INVALID_ARGUMENT
        else
          upd_machine m (sm_set_target None) ;;;
          let* result := call_current m e in
          if result =? HE_STATE_TRANSITION then
            let* s := getM in
            if bool_decide (sm_target (machine_at s m) = None) then retM HR_ERROR_INVALID_STATE
            else he_apply_transition m
          else retM (if (result =? HE_STATE_HANDLED) || (result =? HE_STATE_IGNORED) then HR_OK
                     else HR_ERROR_INVALID_STATE)
  | _, _ => retM HR_ERROR_INVALID_ARGUMENT
  end.
End handlers.
