(* ===== verification/HeActive.v ===== *)
(** Active objects: [haievent/src/he_active.c].

    An active object is a task with a queue of event pointers and a state machine; the
    three bear the name of the object.  Posting can block the caller in the middle of a
    function: a call that blocks ends in [Blocked], with the rest of the function to be
    run when the task runs again. *)
From S2P Require Import Prelude Types KState TaskCore KernelBase Kernel Queue Timer TaskApi HeState HeEvent HeStateMachine.
From stdpp Require Import gmap list.
From Stdlib Require Import ZArith.
Open Scope Z_scope.

(** ** Calls that can block *)

Inductive call (A : Type) : Type :=
| Done (a : A)
| Blocked (t : task_ptr) (resume : hstate -> option (call A * hstate)).
Arguments Done {A} a.
Arguments Blocked {A} t resume.

Fixpoint bind_call {A B} (c : call A) (k : A -> M hstate (call B)) : M hstate (call B) :=
  match c with
  | Done a => k a
  | Blocked t resume =>
      retM (Blocked t (fun s => match resume s with Some (c', s') => bind_call c' k s' | None => None end))
  end.
Definition bindC {A B} (m : M hstate (call A)) (k : A -> M hstate (call B)) : M hstate (call B) :=
  let* c := m in bind_call c k.
Notation "'let?' x ':=' c 'in' k" := (bindC c (fun x => k))
  (at level 10, x binder, c at level 100, k at level 200) : code_scope.

(** The status of a kernel call: at once, or the wait result when the task runs again. *)
Definition from_api (r : api_result) : call hr_status :=
  match r with
  | Returns status => Done status
  | Waits t => Blocked t (fun s => Some (Done (resumed_result (hs_kernel s) r), s))
  end.

(** Addresses: the variable [event] whose address the posting functions and the task entry
    hand to the queue, in the stack of the running context; the entry function; an active
    object as the argument of its task. *)
Class Frames : Type := {
  event_variable : hstate -> Z;
  address_of_he_active_task_entry : Z;
  address_of_active : active_ptr -> Z;
}.

(** A pointer in byte memory, four bytes with the lowest first. *)
Definition store_pointer (a : Z) (p : option Z) : M kstate unit :=
  let v := default 0 p in
  write_byte a (v mod 256) ;;;
  write_byte (u32 (a + 1)) (v / 256 mod 256) ;;;
  write_byte (u32 (a + 2)) (v / 65536 mod 256) ;;;
  write_byte (u32 (a + 3)) (v / 16777216 mod 256).
Definition load_pointer (s : kstate) (a : Z) : option Z :=
  let v := read_byte s a + 256 * read_byte s (u32 (a + 1)) + 65536 * read_byte s (u32 (a + 2)) +
           16777216 * read_byte s (u32 (a + 3)) in
  if v =? 0 then None else Some v.
Definition sizeof_pointer : Z := 4.

(** ** Active objects *)

Definition he_active_control_block (active : option active_ptr) : option active_ptr := active.

Definition he_active_is_valid (s : hstate) (active : option active_ptr) : bool :=
  match active with
  | None => false
  | Some a =>
      (ao_magic (active_at s a) =? HE_CFG_ACTIVE_MAGIC) && bool_decide (ao_name (active_at s a) <> None) &&
      hr_task_is_valid (hs_kernel s) (Some a) && hr_queue_is_valid (hs_kernel s) (Some a) &&
      he_state_machine_is_valid s (Some a)
  end.

Definition he_active_get_name (s : hstate) (active : option active_ptr) : option Z :=
  match active with Some a => if he_active_is_valid s active then ao_name (active_at s a) else None | None => None end.
Definition he_active_get_pending_count (s : hstate) (active : option active_ptr) : Z :=
  if he_active_is_valid s active then hr_queue_get_count (hs_kernel s) active else 0.
Definition he_active_get_task (s : hstate) (active : option active_ptr) : option task_ptr :=
  if he_active_is_valid s active then active else None.
Definition he_active_get_state_machine (s : hstate) (active : option active_ptr) : option machine_ptr :=
  if he_active_is_valid s active then active else None.

Section active.
Context `{Config} `{Frames}.

(** [he_zero_bytes] on the whole control block. *)
Definition zero_active (a : active_ptr) : M hstate unit :=
  lift (hr_task_zero_control_block a) ;;;
  lift (hr_queue_zero_control_block a) ;;;
  upd_machine a (fun _ => zero_sm) ;;;
  upd_active a (fun _ => zero_ao).

Definition he_active_create_static (active : option active_ptr) (name initial_state context queue_storage : option Z)
    (queue_capacity : Z) (stack : option Z) (stack_words priority : Z) : M hstate hr_status :=
  match active, name, initial_state, queue_storage, stack with
  | Some a, Some _, Some _, Some _, Some _ =>
      if queue_capacity =? 0 then retM HR_ERROR_INVALID_ARGUMENT
      else
        let* s := getM in
        if he_active_is_valid s active then retM HR_ERROR_INVALID_STATE
        else
          zero_active a ;;;
          let* status := lift (hr_queue_create_static active queue_storage sizeof_pointer queue_capacity) in
          if negb (ok status) then retM status
          else
            let* status := he_state_machine_init active initial_state context in
            if negb (ok status) then retM status
            else
              upd_active a (ao_set_name name) ;;;
              upd_active a (ao_set_magic HE_CFG_ACTIVE_MAGIC) ;;;
              let* status := lift (hr_task_create_static active name (Some address_of_he_active_task_entry)
                (Some (address_of_active a)) stack stack_words priority) in
              if negb (ok status) then upd_active a (ao_set_magic 0) ;;; retM status
              else
                let* status := lift (hr_task_start active) in
                if negb (ok status) then upd_active a (ao_set_magic 0) ;;; retM status
                else retM HR_OK
  | _, _, _, _, _ => retM HR_ERROR_INVALID_ARGUMENT
  end.

Definition he_active_post (active : option active_ptr) (event : option Z) (timeout : Z) : M hstate (call hr_status) :=
  let* s := getM in
  if negb (he_active_is_valid s active) then retM (Done HR_ERROR_INVALID_ARGUMENT)
  else
    let* valid := he_event_is_valid event in
    if negb valid then retM (Done HR_ERROR_INVALID_ARGUMENT)
    else
      lift (store_pointer (event_variable s) event) ;;;
      let* r := lift (hr_queue_send active (Some (event_variable s)) timeout) in
      retM (from_api r).

Definition he_active_post_shared (active : option active_ptr) (event : option Z) (timeout : Z)
  : M hstate (call hr_status) :=
  let* status := he_event_retain event in
  if negb (ok status) then retM (Done status)
  else
    let? status := he_active_post active event timeout in
    (if negb (ok status) then ignoreM (he_event_release event) else retM tt) ;;;
    retM (Done status).

Definition he_active_post_from_isr (active : option active_ptr) (event : option Z) : M hstate (hr_status * option bool) :=
  let* s := getM in
  if negb (he_active_is_valid s active) then retM (HR_ERROR_INVALID_ARGUMENT, None)
  else
    let* valid := he_event_is_valid event in
    if negb valid then retM (HR_ERROR_INVALID_ARGUMENT, None)
    else
      lift (store_pointer (event_variable s) event) ;;;
      lift (hr_queue_send_from_isr active (Some (event_variable s))).

Context `{Handlers}.

(** One turn of the endless loop: [false] when the task gives up and yields forever. *)
Definition active_turn (active : option active_ptr) : M hstate (call bool) :=
  let* s := getM in
  let variable := event_variable s in
  lift (store_pointer variable None) ;;;
  let? status := (let* r := lift (hr_queue_receive active (Some variable) HR_WAIT_FOREVER) in retM (from_api r)) in
  let* s := getM in
  let event := load_pointer (hs_kernel s) variable in
  if negb (ok status) then retM (Done false)
  else
    let* valid := he_event_is_valid event in
    if negb valid then retM (Done false)
    else
      let* status := he_state_machine_dispatch active event in
      ignoreM (he_event_release event) ;;;
      retM (Done (ok status)).
Fixpoint active_turns (turns : nat) (active : option active_ptr) : M hstate (call bool) :=
  match turns with
  | O => retM (Done true)
  | S turns' =>
      let? going := active_turn active in
      if going then active_turns turns' active else retM (Done false)
  end.

(** The entry function up to its first [turns] turns. *)
Definition he_active_task_entry (turns : nat) (active : option active_ptr) : M hstate (call bool) :=
  let* s := getM in
  if negb (he_active_is_valid s active) then retM (Done false)
  else
    let* status := he_state_machine_start active in
    if negb (ok status) then retM (Done false)
    else active_turns turns active.
End active.
