(* ===== verification/HePubsub.v ===== *)
(** Publish and subscribe: [haievent/src/he_pubsub.c].

    The table of subscribers has [max_subscribers] slots per signal, each a pointer to an
    active object or null. *)
From S2P Require Import Prelude Types KState KernelBase Queue HeState HeEvent HeStateMachine HeActive.
From stdpp Require Import gmap list.
From Stdlib Require Import ZArith.
Open Scope Z_scope.

Definition he_pubsub_control_block (pubsub : option pubsub_ptr) : option pubsub_ptr := pubsub.

Definition he_pubsub_is_valid (s : hstate) (pubsub : option pubsub_ptr) : bool :=
  match pubsub with
  | None => false
  | Some p =>
      let c := pubsub_at s p in
      (ps_magic c =? HE_CFG_PUBSUB_MAGIC) && bool_decide (ps_subscribers c <> None) &&
      (HE_SIG_USER <? ps_signal_count c) && (0 <? ps_max_subscribers c) &&
      (ps_max_subscribers c <=? HE_CFG_MAX_ACTIVE_OBJECTS)
  end.

(** [he_zero_bytes] on a table of pointers. *)
Fixpoint zero_slots_loop (n : nat) (base index : Z) : M hstate unit :=
  match n with
  | O => retM tt
  | S n' => set_slot (u32 (base + sizeof_pointer * index)) None ;;; zero_slots_loop n' base (index + 1)
  end.

Definition he_pubsub_init (pubsub : option pubsub_ptr) (subscriber_storage : option Z)
    (signal_count max_subscribers_per_signal : Z) : M hstate hr_status :=
  match pubsub, subscriber_storage with
  | Some p, Some base =>
      if (signal_count <=? HE_SIG_USER) || (HE_CFG_MAX_SIGNALS <? signal_count) ||
         (max_subscribers_per_signal =? 0) || (HE_CFG_MAX_ACTIVE_OBJECTS <? max_subscribers_per_signal)
      then retM HR_ERROR_INVALID_ARGUMENT
      else
        let* s := getM in
        if he_pubsub_is_valid s pubsub then retM HR_ERROR_INVALID_STATE
        else
          zero_slots_loop (Z.to_nat (signal_count * max_subscribers_per_signal)) base 0 ;;;
          upd_pubsub p (fun _ => zero_ps) ;;;
          upd_pubsub p (ps_set_subscribers subscriber_storage) ;;;
          upd_pubsub p (ps_set_signal_count signal_count) ;;;
          upd_pubsub p (ps_set_max_subscribers max_subscribers_per_signal) ;;;
          upd_pubsub p (ps_set_magic HE_CFG_PUBSUB_MAGIC) ;;;
          retM HR_OK
  | _, _ => retM HR_ERROR_INVALID_ARGUMENT
  end.

(** [&subscribers[signal * max_subscribers]]; a null table is undefined behaviour. *)
Definition he_pubsub_signal_slots (c : he_pubsub_control_block_t) (signal : Z) : option Z :=
  match ps_subscribers c with
  | Some base => Some (u32 (base + sizeof_pointer * u32 (signal * ps_max_subscribers c)))
  | None => None
  end.
Definition he_pubsub_signal_slots_const := he_pubsub_signal_slots.

(** [slots[index]]. *)
Definition subscriber_at (s : hstate) (slots index : Z) : option active_ptr :=
  slot_value s (u32 (slots + sizeof_pointer * index)).
Definition store_slot (slots index : Z) (v : option active_ptr) : M hstate unit :=
  set_slot (u32 (slots + sizeof_pointer * index)) v.
Definition with_slots {A} (p : option Z) (k : Z -> M hstate A) : M hstate A :=
  match p with Some slots => k slots | None => ubM end.

(** The first index of [n] slots from [index] on that holds [v]. *)
Fixpoint find_slot_loop (n : nat) (s : hstate) (slots : Z) (v : option active_ptr) (index : Z) : option Z :=
  match n with
  | O => None
  | S n' => if bool_decide (subscriber_at s slots index = v) then Some index else find_slot_loop n' s slots v (index + 1)
  end.

(** The checks and the critical section that subscribing and unsubscribing share. *)
Definition pubsub_call (pubsub : option pubsub_ptr) (signal : Z) (subscriber : option active_ptr)
    (k : he_pubsub_control_block_t -> Z -> M hstate hr_status) : M hstate hr_status :=
  let* s := getM in
  match pubsub with
  | None => retM HR_ERROR_INVALID_ARGUMENT
  | Some p =>
      if negb (he_pubsub_is_valid s pubsub) || negb (he_active_is_valid s subscriber) || (signal <? HE_SIG_USER)
      then retM HR_ERROR_INVALID_ARGUMENT
      else if ps_signal_count (pubsub_at s p) <=? signal then retM HR_ERROR_INVALID_ARGUMENT
      else
        let* irq_state := lift hr_critical_enter in
        let* status := with_slots (he_pubsub_signal_slots (pubsub_at s p) signal) (k (pubsub_at s p)) in
        lift (hr_critical_exit irq_state) ;;;
        retM status
  end.

Definition he_pubsub_subscribe (pubsub : option pubsub_ptr) (signal : Z) (subscriber : option active_ptr)
  : M hstate hr_status :=
  pubsub_call pubsub signal subscriber (fun c slots =>
    let* s := getM in
    match find_slot_loop (Z.to_nat (ps_max_subscribers c)) s slots subscriber 0 with
    | Some _ => retM HR_ERROR_INVALID_STATE
    | None =>
        match find_slot_loop (Z.to_nat (ps_max_subscribers c)) s slots None 0 with
        | Some index => store_slot slots index subscriber ;;; retM HR_OK
        | None => retM HR_ERROR_NO_MEMORY
        end
    end).

(** [for (; move_index + 1U < max_subscribers; move_index++)]. *)
Fixpoint move_slots_loop (n : nat) (slots move_index : Z) : M hstate unit :=
  match n with
  | O => retM tt
  | S n' =>
      let* s := getM in
      store_slot slots move_index (subscriber_at s slots (move_index + 1)) ;;;
      move_slots_loop n' slots (move_index + 1)
  end.

Definition he_pubsub_unsubscribe (pubsub : option pubsub_ptr) (signal : Z) (subscriber : option active_ptr)
  : M hstate hr_status :=
  pubsub_call pubsub signal subscriber (fun c slots =>
    let* s := getM in
    match find_slot_loop (Z.to_nat (ps_max_subscribers c)) s slots subscriber 0 with
    | Some index =>
        move_slots_loop (Z.to_nat (ps_max_subscribers c - 1 - index)) slots index ;;;
        store_slot slots (ps_max_subscribers c - 1) None ;;;
        retM HR_OK
    | None => retM HR_ERROR_INVALID_STATE
    end).

(** The slots that are not null, in order, as the snapshot of the publisher. *)
Fixpoint snapshot_loop (n : nat) (s : hstate) (slots index : Z) : list active_ptr :=
  match n with
  | O => []
  | S n' =>
      match subscriber_at s slots index with
      | Some a => a :: snapshot_loop n' s slots (index + 1)
      | None => snapshot_loop n' s slots (index + 1)
      end
  end.

Fixpoint count_loop (n : nat) (s : hstate) (slots index count : Z) : Z :=
  match n with
  | O => count
  | S n' =>
      count_loop n' s slots (index + 1) (if bool_decide (subscriber_at s slots index <> None) then u32 (count + 1) else count)
  end.
Definition he_pubsub_get_subscriber_count (s : hstate) (pubsub : option pubsub_ptr) (signal : Z) : Z :=
  match pubsub with
  | None => 0
  | Some p =>
      let c := pubsub_at s p in
      if negb (he_pubsub_is_valid s pubsub) || (ps_signal_count c <=? signal) then 0
      else match he_pubsub_signal_slots_const c signal with
           | Some slots => count_loop (Z.to_nat (ps_max_subscribers c)) s slots 0 0
           | None => 0
           end
  end.

Section publish.
Context `{Config} `{Frames}.

(** The deliveries: the number of successful ones and the first error. *)
Fixpoint deliver_loop (snapshot : list active_ptr) (event : option Z) (timeout delivered : Z)
    (overall_status : hr_status) : M hstate (call (hr_status * Z)) :=
  match snapshot with
  | [] => retM (Done (overall_status, delivered))
  | a :: snapshot' =>
      let? status := he_active_post_shared (Some a) event timeout in
      if ok status then deliver_loop snapshot' event timeout (u32 (delivered + 1)) overall_status
      else deliver_loop snapshot' event timeout delivered (if ok overall_status then status else overall_status)
  end.

(** The release of the publisher's own reference. *)
Definition publish_release (event : option Z) (overall_status : hr_status) : M hstate hr_status :=
  let* dynamic := he_event_is_dynamic event in
  if dynamic then
    let* release_status := he_event_release event in
    retM (if negb (ok release_status) && ok overall_status then release_status else overall_status)
  else retM overall_status.

(** The result is the status and the value of [*delivered_count]. *)
Definition he_pubsub_publish (pubsub : option pubsub_ptr) (event : option Z) (timeout : Z)
  : M hstate (call (hr_status * Z)) :=
  let* s := getM in
  match pubsub, event with
  | Some p, Some e =>
      if negb (he_pubsub_is_valid s pubsub) then retM (Done (HR_ERROR_INVALID_ARGUMENT, 0))
      else
        let* valid := he_event_is_valid event in
        let signal := ev_signal (event_at s e) in
        if negb valid || (signal <? HE_SIG_USER) then retM (Done (HR_ERROR_INVALID_ARGUMENT, 0))
        else if ps_signal_count (pubsub_at s p) <=? signal then retM (Done (HR_ERROR_INVALID_ARGUMENT, 0))
        else
          let* irq_state := lift hr_critical_enter in
          with_slots (he_pubsub_signal_slots (pubsub_at s p) signal) (fun slots =>
            let snapshot := snapshot_loop (Z.to_nat (ps_max_subscribers (pubsub_at s p))) s slots 0 in
            lift (hr_critical_exit irq_state) ;;;
            let? r := deliver_loop snapshot event timeout 0 HR_OK in
            let* overall_status := publish_release event (fst r) in
            retM (Done (overall_status, snd r)))
  | _, _ => retM (Done (HR_ERROR_INVALID_ARGUMENT, 0))
  end.
End publish.
