(* ===== verification/HeTimeEvent.v ===== *)
(** Time events: [haievent/src/he_time_event.c].

    A time event is a software timer whose callback posts an event to an active object.
    The timer embedded in a time event bears its name; [time_event_event] is the address of
    the embedded event. *)
From S2P Require Import Prelude Types KState KernelBase Kernel Queue Timer HeState HeEvent HeStateMachine HeActive.
From stdpp Require Import gmap list.
From Stdlib Require Import ZArith.
Open Scope Z_scope.

Class TimeFrames : Type := {
  time_event_event : time_event_ptr -> Z;
  address_of_time_event : time_event_ptr -> Z;
  address_of_he_time_event_callback : Z;
}.

Definition he_time_event_control_block (time_event : option time_event_ptr) : option time_event_ptr := time_event.

Section time_event.
Context `{Config} `{Frames} `{TimeFrames}.

Definition he_time_event_is_valid (time_event : option time_event_ptr) : M hstate bool :=
  let* s := getM in
  match time_event with
  | None => retM false
  | Some t =>
      let c := time_event_at s t in
      if (te_magic c =? HE_CFG_TIME_EVENT_MAGIC) && bool_decide (te_name c <> None) && he_active_is_valid s (te_target c)
      then
        let* valid := he_event_is_valid (Some (time_event_event t)) in
        retM (valid && hr_timer_is_valid (hs_kernel s) time_event)
      else retM false
  end.

(** [dropped_count < UINT32_MAX] then [dropped_count++]. *)
Definition count_dropped (t : time_event_ptr) : M hstate unit :=
  let* s := getM in
  if te_dropped_count (time_event_at s t) <? UINT32_MAX
  then upd_time_event t (fun c => te_set_dropped_count (u32 (te_dropped_count c + 1)) c)
  else retM tt.

Definition he_time_event_callback (time_event : option time_event_ptr) : M hstate (call unit) :=
  let* valid := he_time_event_is_valid time_event in
  match time_event with
  | None => retM (Done tt)
  | Some t =>
      if negb valid then retM (Done tt)
      else
        let* s := getM in
        let? status := he_active_post (te_target (time_event_at s t)) (Some (time_event_event t)) HR_NO_WAIT in
        (if negb (ok status) then count_dropped t else retM tt) ;;;
        retM (Done tt)
  end.

(** [he_zero_bytes] on the whole control block. *)
Definition zero_time_event (t : time_event_ptr) : M hstate unit :=
  lift (hr_timer_zero_control_block t) ;;;
  upd_event (time_event_event t) (fun _ => zero_event) ;;;
  upd_time_event t (fun _ => zero_te).

Definition he_time_event_create_static (time_event : option time_event_ptr) (name : option Z)
    (target : option active_ptr) (signal period_ticks : Z) (periodic : bool) : M hstate hr_status :=
  let* s := getM in
  match time_event, name with
  | Some t, Some _ =>
      if negb (he_active_is_valid s target) || (signal <? HE_SIG_USER) || (period_ticks =? 0) ||
         (period_ticks =? HR_WAIT_FOREVER)
      then retM HR_ERROR_INVALID_ARGUMENT
      else
        let* valid := he_time_event_is_valid time_event in
        if valid then retM HR_ERROR_INVALID_STATE
        else
          zero_time_event t ;;;
          upd_time_event t (te_set_target target) ;;;
          upd_time_event t (te_set_name name) ;;;
          let* status := he_event_init_static (Some (time_event_event t)) signal sizeof_he_event in
          if negb (ok status) then retM status
          else
            let* status := lift (hr_timer_create_static time_event name period_ticks periodic
              (Some address_of_he_time_event_callback) (Some (address_of_time_event t))) in
            if negb (ok status) then retM status
            else
              upd_time_event t (te_set_magic HE_CFG_TIME_EVENT_MAGIC) ;;;
              retM HR_OK
  | _, _ => retM HR_ERROR_INVALID_ARGUMENT
  end.

(** The validity check that the calls on a time event share. *)
Definition time_event_call (time_event : option time_event_ptr) (k : M kstate hr_status) : M hstate hr_status :=
  let* valid := he_time_event_is_valid time_event in
  if valid then lift k else retM HR_ERROR_INVALID_ARGUMENT.
Definition he_time_event_arm time_event := time_event_call time_event (hr_timer_start time_event).
Definition he_time_event_disarm time_event := time_event_call time_event (hr_timer_stop time_event).
Definition he_time_event_rearm time_event := time_event_call time_event (hr_timer_reset time_event).
Definition he_time_event_change_period time_event period_ticks :=
  time_event_call time_event (hr_timer_change_period time_event period_ticks).

Definition he_time_event_is_armed (time_event : option time_event_ptr) : M hstate bool :=
  let* valid := he_time_event_is_valid time_event in
  let* s := getM in
  retM (valid && hr_timer_is_active (hs_kernel s) time_event).
Definition he_time_event_get_dropped_count (time_event : option time_event_ptr) : M hstate Z :=
  let* valid := he_time_event_is_valid time_event in
  let* s := getM in
  retM (match time_event with Some t => if valid then te_dropped_count (time_event_at s t) else 0 | None => 0 end).
End time_event.
