(* ===== verification/HeEventSpec.v ===== *)
(** What the operations of [HeEvent] do: a pool is a stack of free blocks and a map from the
    blocks in use to their reference counts. *)
From S2P Require Import Prelude Types KState KernelBase Queue HeState HeEvent.
From stdpp Require Import gmap list.
From Stdlib Require Import ZArith Lia.
Open Scope Z_scope.

(** ** State updates *)

Definition set_event (a : Z) (e : he_event) (s : hstate) : hstate := hs_set_events (<[a := e]> (hs_events s)) s.
Definition set_pool (p : pool_ptr) (c : he_event_pool_control_block_t) (s : hstate) : hstate :=
  hs_set_pools (<[p := c]> (hs_pools s)) s.

Lemma event_at_set a e s x : event_at (set_event a e s) x = if decide (a = x) then e else event_at s x.
Proof.
  unfold event_at, set_event. simpl. destruct (decide (a = x)) as [->|];
  [by rewrite lookup_total_insert_eq|by rewrite lookup_total_insert_ne].
Qed.
Lemma pool_at_set p c s x : pool_at (set_pool p c s) x = if decide (p = x) then c else pool_at s x.
Proof.
  unfold pool_at, set_pool. simpl. destruct (decide (p = x)) as [->|];
  [by rewrite lookup_total_insert_eq|by rewrite lookup_total_insert_ne].
Qed.
Lemma event_at_set_eq a e s : event_at (set_event a e s) a = e.
Proof. rewrite event_at_set. by case_decide. Qed.
Lemma pool_at_set_eq p c s : pool_at (set_pool p c s) p = c.
Proof. rewrite pool_at_set. by case_decide. Qed.
Lemma set_event_twice a e e' s : set_event a e (set_event a e' s) = set_event a e s.
Proof. unfold set_event, hs_set_events. simpl. by rewrite insert_insert_eq. Qed.
Lemma set_pool_twice p c c' s : set_pool p c (set_pool p c' s) = set_pool p c s.
Proof. unfold set_pool, hs_set_pools. simpl. by rewrite insert_insert_eq. Qed.

Lemma wp_upd_event a f Q s : Q tt (set_event a (f (event_at s a)) s) -> wp (upd_event a f) Q s.
Proof. auto. Qed.
Lemma wp_upd_pool p f Q s : Q tt (set_pool p (f (pool_at s p)) s) -> wp (upd_pool p f) Q s.
Proof. auto. Qed.

(** A critical section that does not touch the kernel leaves it as it was. *)
Definition masked (s : hstate) : hstate :=
  hs_set_kernel (ks_set_port (pt_set_primask 1 (ks_port (hs_kernel s))) (hs_kernel s)) s.
Lemma wp_critical_enter Q s : Q (pt_primask (ks_port (hs_kernel s))) (masked s) -> wp (lift hr_critical_enter) Q s.
Proof. auto. Qed.
Definition unmasked (k : kstate) (s : hstate) : hstate :=
  hs_set_kernel (ks_set_port (pt_set_primask (pt_primask (ks_port k)) (ks_port (hs_kernel s))) (hs_kernel s)) s.
Lemma wp_critical_exit k Q s : Q tt (unmasked k s) -> wp (lift (hr_critical_exit (pt_primask (ks_port k)))) Q s.
Proof. auto. Qed.
Lemma unmasked_masked s : unmasked (hs_kernel s) (masked s) = s.
Proof. by destruct s as [[[] ? ? ? ? ? ? [] ? ?] ? ? ? ? ? ? ?]. Qed.
Lemma unmasked_set_event k a e s : unmasked k (set_event a e s) = set_event a e (unmasked k s).
Proof. done. Qed.
Lemma unmasked_set_pool k p c s : unmasked k (set_pool p c s) = set_pool p c (unmasked k s).
Proof. done. Qed.
Lemma masked_event_at s a : event_at (masked s) a = event_at s a.
Proof. done. Qed.
Lemma masked_pool_at s p : pool_at (masked s) p = pool_at s p.
Proof. done. Qed.
Lemma pool_at_set_event a e s p : pool_at (set_event a e s) p = pool_at s p.
Proof. done. Qed.
Lemma event_at_set_pool p c s a : event_at (set_pool p c s) a = event_at s a.
Proof. done. Qed.
Lemma set_event_set_kernel a e k s : set_event a e (hs_set_kernel k s) = hs_set_kernel k (set_event a e s).
Proof. done. Qed.
Lemma event_at_set_kernel k s a : event_at (hs_set_kernel k s) a = event_at s a.
Proof. done. Qed.
Lemma pool_at_set_kernel k s p : pool_at (hs_set_kernel k s) p = pool_at s p.
Proof. done. Qed.
Create Rewrite HintDb hstate.
#[export] Hint Rewrite event_at_set_eq pool_at_set_eq set_event_twice set_pool_twice unmasked_masked unmasked_set_event
  unmasked_set_pool masked_event_at masked_pool_at pool_at_set_event event_at_set_pool
  set_event_set_kernel event_at_set_kernel pool_at_set_kernel : hstate.

#[local] Arguments he_event_pool_is_valid : simpl never.
#[local] Arguments wrap : simpl never.

Lemma wp_event_valid event b Q s : event_is_valid s event = Some b -> Q b s -> wp (he_event_is_valid event) Q s.
Proof. intros E. unfold wp, he_event_is_valid. by rewrite E. Qed.

(** One statement of the event code. *)
Ltac hstep :=
  lazymatch goal with
  | |- wp (bindM _ _) _ _ => apply wp_bind
  | |- wp (retM _) _ _ => apply wp_ret
  | |- wp getM _ _ => apply wp_get
  | |- wp (upd_event _ _) _ _ => apply wp_upd_event
  | |- wp (upd_pool _ _) _ _ => apply wp_upd_pool
  | |- wp (lift hr_critical_enter) _ _ => apply wp_critical_enter
  | |- wp (lift (hr_critical_exit _)) _ _ => apply wp_critical_exit
  end; cbn beta iota; autorewrite with hstate.
Ltac hsteps := repeat hstep.

(** ** The representation *)

(** An event of pool [p] with [n] references. *)
Record live_event (s : hstate) (p : pool_ptr) (a n : Z) : Prop := {
  le_magic : ev_magic (event_at s a) = HE_CFG_EVENT_MAGIC;
  le_signal : ev_signal (event_at s a) <> HE_SIG_NONE;
  le_size : sizeof_he_event <= ev_size (event_at s a);
  le_flags : ev_flags (event_at s a) = HE_EVENT_FLAG_DYNAMIC;
  le_word : ev_word (event_at s a) = WPool p;
  le_count : ev_reference_count (event_at s a) = n;
  le_range : 1 <= n <= UINT16_MAX;
}.

(** The links of the free blocks. *)
Fixpoint free_chain (s : hstate) (head : option Z) (free : list Z) : Prop :=
  match free with
  | [] => head = None
  | a :: free' =>
      head = Some a /\ exists next, ev_word (event_at s a) = link_word next /\ free_chain s next free'
  end.

Definition blocks (base size count : Z) : list Z := (fun i => base + Z.of_nat i * size) <$> seq 0 (Z.to_nat count).

(** The geometry of a pool: [count] blocks of [size] bytes from [base] on, below the end of
    the address space. *)
Record geometry (base size count : Z) : Prop := {
  ge_base : 0 < base;
  ge_size : sizeof_he_event <= size <= UINT16_MAX;
  ge_count : 0 < count;
  ge_end : base + count * size <= 2 ^ 32;
}.

Record pool_rep (p : pool_ptr) (base size count : Z) (free : list Z) (live : gmap Z Z) (s : hstate) : Prop := {
  pr_storage : ep_storage (pool_at s p) = Some base;
  pr_size : ep_block_size (pool_at s p) = size;
  pr_count : ep_block_count (pool_at s p) = count;
  pr_free_count : ep_free_count (pool_at s p) = Z.of_nat (length free);
  pr_magic : ep_magic (pool_at s p) = HE_CFG_EVENT_POOL_MAGIC;
  pr_geometry : geometry base size count;
  pr_chain : free_chain s (ep_free_head (pool_at s p)) free;
  pr_perm : free ++ elements (dom live) ≡ₚ blocks base size count;
  pr_stale : forall a, a ∈ free -> ev_magic (event_at s a) <> HE_CFG_EVENT_MAGIC;
  pr_live : forall a n, live !! a = Some n -> live_event s p a n;
}.

Lemma free_chain_ext s s' free : (forall a, a ∈ free -> ev_word (event_at s' a) = ev_word (event_at s a)) ->
  forall head, free_chain s head free -> free_chain s' head free.
Proof.
  induction free as [|a free IH]; simpl; intros Hs head; [done|]. intros (-> & next & E & C).
  split; [done|]. exists next. rewrite Hs by set_solver. split; [done|]. apply IH; [set_solver|done].
Qed.

Lemma geometry_count base bsize count : geometry base bsize count -> 0 < count < UINT32_MAX.
Proof. intros []. unfold sizeof_he_event, UINT32_MAX in *. nia. Qed.

Section rep.
Context (p : pool_ptr) (base bsize count : Z).
Implicit Types (s : hstate) (free : list Z) (live : gmap Z Z).
Abbreviation rep := (pool_rep p base bsize count).

Lemma rep_length free live s : rep free live s -> Z.of_nat (length free) + Z.of_nat (size (dom live)) = count.
Proof.
  intros R. pose proof (Permutation_length (pr_perm _ _ _ _ _ _ _ R)) as E. rewrite length_app in E.
  unfold blocks in E. rewrite length_fmap, length_seq in E. unfold size, set_size. simpl.
  pose proof (ge_count _ _ _ (pr_geometry _ _ _ _ _ _ _ R)). lia.
Qed.

Lemma rep_NoDup free live s : rep free live s -> NoDup (free ++ elements (dom live)).
Proof.
  intros R. rewrite (pr_perm _ _ _ _ _ _ _ R). apply NoDup_fmap_2_strong; [|apply NoDup_seq].
  intros i j _ _ E. pose proof (ge_size _ _ _ (pr_geometry _ _ _ _ _ _ _ R)). unfold sizeof_he_event in *. nia.
Qed.

Lemma rep_free_not_live free live s a : rep free live s -> a ∈ free -> live !! a = None.
Proof.
  intros R Ha. apply not_elem_of_dom. intros Hl. apply (rep_NoDup _ _ _), NoDup_app in R as (_ & Hd & _).
  apply (Hd a Ha). by apply elem_of_elements.
Qed.

Lemma rep_valid free live s : rep free live s -> he_event_pool_is_valid s (Some p) = true.
Proof.
  intros R. pose proof (rep_length _ _ _ R). destruct R as [E1 E2 E3 E4 E5 [] _ _ _ _]. unfold he_event_pool_is_valid.
  rewrite E1, E2, E3, E4, E5, Z.eqb_refl. simpl. unfold sizeof_he_event in *.
  rewrite !andb_true_iff, !Z.leb_le, Z.ltb_lt. lia.
Qed.

Lemma live_is_valid free live s a n : rep free live s -> live !! a = Some n -> event_is_valid s (Some a) = Some true.
Proof.
  intros R L. destruct (pr_live _ _ _ _ _ _ _ R _ _ L) as [E1 E2 E3 E4 E5 E6 E7]. unfold event_is_valid.
  rewrite E1, E4, E5, E6, Z.eqb_refl. simpl. rewrite (proj2 (Z.eqb_neq _ _) E2), (proj2 (Z.ltb_ge _ _) E3). simpl.
  rewrite (rep_valid _ _ _ R), (proj2 (Z.ltb_lt _ _)) by lia. done.
Qed.

Lemma stale_is_invalid s a : ev_magic (event_at s a) <> HE_CFG_EVENT_MAGIC -> event_is_valid s (Some a) = Some false.
Proof. intros E. unfold event_is_valid. by rewrite (proj2 (Z.eqb_neq _ _) E). Qed.

Lemma live_is_dynamic free live s a n : rep free live s -> live !! a = Some n ->
  he_event_is_dynamic (Some a) s = Some (true, s).
Proof.
  intros R L. unfold he_event_is_dynamic, he_event_is_valid, bindM, getM, retM. rewrite (live_is_valid _ _ _ _ _ R L). simpl.
  by rewrite (le_flags _ _ _ _ (pr_live _ _ _ _ _ _ _ R _ _ L)).
Qed.

(** The number of references of a live event changes. *)
Definition recount (a n : Z) (s : hstate) : hstate := set_event a (ev_set_reference_count n (event_at s a)) s.

Lemma rep_recount free live s a n m : rep free live s -> live !! a = Some n -> 1 <= m <= UINT16_MAX ->
  rep free (<[a := m]> live) (recount a m s).
Proof.
  intros R L Hm. assert (Hf : forall x, x ∈ free -> a <> x).
  { intros x Hx ->. by rewrite (rep_free_not_live _ _ _ _ R Hx) in L. }
  destruct R as [E1 E2 E3 E4 E5 G C P ST LV]. unfold recount. split; try done.
  - eapply free_chain_ext; [|exact C]. intros x Hx. rewrite event_at_set, decide_False by auto. done.
  - rewrite dom_insert_lookup_L by eauto. done.
  - intros x Hx. rewrite event_at_set, decide_False by auto. auto.
  - intros x k. rewrite lookup_insert_Some. intros [[-> ->]|[Hne Lx]].
    + destruct (LV _ _ L). split; rewrite ?event_at_set_eq; done.
    + destruct (LV _ _ Lx). split; rewrite ?event_at_set, ?decide_False by done; done.
Qed.

(** Retaining and releasing a live event. *)
Lemma event_retain_spec free live s a n Q : rep free live s -> live !! a = Some n ->
  (if n =? UINT16_MAX then Q HR_ERROR_OVERFLOW s else Q HR_OK (recount a (n + 1) s)) ->
  wp (he_event_retain (Some a)) Q s.
Proof.
  intros R L HQ. destruct (pr_live _ _ _ _ _ _ _ R _ _ L) as [_ _ _ _ _ E6 E7].
  unfold he_event_retain. hstep. apply (wp_event_valid _ true); [exact (live_is_valid _ _ _ _ _ R L)|]. cbn.
  hstep. apply (wp_intro _ _ _ _ _ (live_is_dynamic _ _ _ _ _ R L)). cbn [negb]. hsteps. rewrite E6.
  destruct (Z.eqb_spec n UINT16_MAX) as [->|Hn]; hsteps; [done|].
  rewrite E6. unfold u16, wrap. rewrite Z.mod_small by (unfold UINT16_MAX in *; lia). exact HQ.
Qed.

(** The block of a dead event goes back to the head of the free list. *)
Definition freed (a : Z) (s : hstate) : hstate :=
  set_pool p (ep_set_free_count (ep_free_count (pool_at s p) + 1) (ep_set_free_head (Some a) (pool_at s p)))
    (set_event a (ev_set_word (link_word (ep_free_head (pool_at s p)))
      (ev_set_magic 0 (ev_set_reference_count 0 (event_at s a)))) s).

Lemma event_release_spec free live s a n Q : rep free live s -> live !! a = Some n ->
  (if n =? 1 then Q HR_OK (freed a s) else Q HR_OK (recount a (n - 1) s)) ->
  wp (he_event_release (Some a)) Q s.
Proof.
  intros R L HQ. destruct (pr_live _ _ _ _ _ _ _ R _ _ L) as [_ _ _ _ E5 E6 E7].
  assert (Hc : ep_free_count (pool_at s p) < ep_block_count (pool_at s p) /\ ep_block_count (pool_at s p) <= UINT32_MAX).
  { pose proof (rep_length _ _ _ R) as Hl. pose proof (geometry_count _ _ _ (pr_geometry _ _ _ _ _ _ _ R)).
    rewrite (pr_count _ _ _ _ _ _ _ R), (pr_free_count _ _ _ _ _ _ _ R).
    assert (size (dom live) <> 0)%nat by (intros E%size_empty_inv; apply elem_of_dom_2 in L; set_solver).
    lia. }
  unfold he_event_release. hstep. apply (wp_event_valid _ true); [exact (live_is_valid _ _ _ _ _ R L)|]. cbn.
  hstep. apply (wp_intro _ _ _ _ _ (live_is_dynamic _ _ _ _ _ R L)). cbn [negb]. hsteps. rewrite E5.
  hsteps. rewrite E6, (proj2 (Z.eqb_neq n 0)) by lia. hsteps. cbn [ev_reference_count ev_set_reference_count]. rewrite E6.
  assert (Eu : u16 (n - 1) = n - 1) by (apply Z.mod_small; unfold UINT16_MAX in *; lia). rewrite Eu.
  destruct (Z.eqb_spec n 1) as [->|Hn]; [|rewrite (proj2 (Z.eqb_neq _ _)) by lia; hsteps; exact HQ].
  simpl (1 - 1 =? 0). rewrite (proj2 (Z.leb_gt _ _)) by lia. hsteps.
  replace (u32 _) with (ep_free_count (pool_at s p) + 1)
    by (cbn; symmetry; apply u32_small; pose proof (pr_free_count _ _ _ _ _ _ _ R); lia).
  exact HQ.
Qed.

(** The head of the free list becomes an event with one reference. *)
Definition fresh_event (signal event_size : Z) : he_event :=
  mk_event (WPool p) HE_CFG_EVENT_MAGIC event_size 1 signal HE_EVENT_FLAG_DYNAMIC.
(** The bytes [lo] to [hi] of the block at [memory] have been zeroed. *)
Definition zeroed (memory lo hi : Z) (k k' : kstate) : Prop :=
  exists B, k' = ks_set_bytes B k /\ (forall j, lo <= j < hi -> B !!! u32 (memory + j) = 0) /\
    (forall x, ks_bytes k !!! x = 0 -> B !!! x = 0) /\
    forall x, (forall j, lo <= j < hi -> x <> u32 (memory + j)) -> B !!! x = ks_bytes k !!! x.
Definition taken (a signal event_size : Z) (next : option Z) (k : kstate) (s : hstate) : hstate :=
  hs_set_kernel k
    (set_event a (fresh_event signal event_size)
      (set_pool p (ep_set_free_count (ep_free_count (pool_at s p) - 1) (ep_set_free_head next (pool_at s p))) s)).

Lemma zero_bytes_spec n memory : forall index k Q,
  (forall k', zeroed memory index (index + Z.of_nat n) k k' -> Q tt k') -> wp (zero_bytes_loop n memory index) Q k.
Proof.
  induction n as [|n IH]; intros index k Q HQ; simpl.
  - apply HQ. exists (ks_bytes k). split_and!; [by destruct k|intros; lia|done|done].
  - apply wp_bind, wp_modify. apply IH. intros k' (B & -> & B0 & BZ & BF). simpl in BZ, BF. apply HQ. exists B. split_and!; [done|..].
    + intros j Hj. destruct (decide (j = index)) as [->|]; [|apply B0; lia]. apply BZ, lookup_total_insert_eq.
    + intros x Hx. apply BZ. rewrite lookup_total_insert. by case_decide.
    + intros x Hx. rewrite BF by (intros; apply Hx; lia). apply lookup_total_insert_ne. intros E. apply (Hx index); [lia|done].
Qed.

Definition may_allocate (signal event_size : Z) : bool :=
  negb (signal =? HE_SIG_NONE) && (sizeof_he_event <=? event_size) && (event_size <=? bsize).

Lemma new_rejected free live s signal event_size Q : rep free live s ->
  may_allocate signal event_size = false \/ free = [] -> Q None s -> wp (he_event_new (Some p) signal event_size) Q s.
Proof.
  intros R Hb HQ. unfold he_event_new. hstep. hstep. rewrite (rep_valid _ _ _ R), (pr_size _ _ _ _ _ _ _ R). simpl.
  destruct (signal =? HE_SIG_NONE) eqn:E1; simpl; [hstep; done|].
  destruct (event_size <? sizeof_he_event) eqn:E2; simpl; [hstep; done|].
  destruct (bsize <? event_size) eqn:E3; [hstep; done|].
  destruct Hb as [Hb| ->]; [unfold may_allocate in Hb; rewrite E1 in Hb; lia|].
  pose proof (pr_chain _ _ _ _ _ _ _ R) as C. simpl in C. hsteps. rewrite C. hsteps. done.
Qed.

Lemma link_roundtrip next : read_link (link_word next) = Some next.
Proof. by destruct next. Qed.

Lemma new_spec free live s a signal event_size Q : rep (a :: free) live s -> may_allocate signal event_size = true ->
  (forall next k, ev_word (event_at s a) = link_word next -> zeroed a sizeof_he_event bsize (hs_kernel s) k ->
    Q (Some a) (taken a signal event_size next k s)) ->
  wp (he_event_new (Some p) signal event_size) Q s.
Proof.
  intros R Hm HQ. unfold may_allocate in Hm. apply andb_true_iff in Hm as [[Hm1 Hm2]%andb_true_iff Hm3].
  apply negb_true_iff in Hm1. apply Z.leb_le in Hm2, Hm3.
  pose proof (pr_geometry _ _ _ _ _ _ _ R) as G. pose proof (geometry_count _ _ _ G). pose proof (ge_size _ _ _ G). pose proof (rep_length _ _ _ R) as Hl.
  unfold he_event_new. hstep. hstep. rewrite (rep_valid _ _ _ R), (pr_size _ _ _ _ _ _ _ R), Hm1. simpl.
  rewrite (proj2 (Z.ltb_ge _ _) Hm2), (proj2 (Z.ltb_ge _ _) Hm3). hsteps.
  pose proof (pr_chain _ _ _ _ _ _ _ R) as (-> & next & En & _). rewrite En, link_roundtrip. hsteps.
  assert (Eu : u16 event_size = event_size).
  { apply Z.mod_small. unfold UINT16_MAX, sizeof_he_event in *. lia. }
  replace (u32 _) with (ep_free_count (pool_at s p) - 1)
    by (cbn; symmetry; apply u32_small; rewrite (pr_free_count _ _ _ _ _ _ _ R); simpl length in *; lia).
  unfold zero_event_bytes. hsteps. apply wp_lift, zero_bytes_spec. intros k Hk. cbn [part_set kernel_part part_get].
  replace (sizeof_he_event + _) with bsize in Hk by lia.
  hsteps. rewrite Eu. by apply HQ.
Qed.

Lemma rep_freed free live s a n : rep free live s -> live !! a = Some n -> rep (a :: free) (delete a live) (freed a s).
Proof.
  intros R L. assert (Hf : forall x, x ∈ free -> a <> x).
  { intros x Hx ->. by rewrite (rep_free_not_live _ _ _ _ R Hx) in L. }
  destruct R as [E1 E2 E3 E4 E5 G C P ST LV]. unfold freed. split; rewrite ?pool_at_set_eq; try done.
  - simpl. rewrite E4. lia.
  - split; [done|]. exists (ep_free_head (pool_at s p)). rewrite event_at_set_pool, event_at_set_eq. split; [done|].
    eapply free_chain_ext; [|exact C]. intros x Hx. rewrite event_at_set_pool, event_at_set, decide_False by auto. done.
  - rewrite dom_delete_L, <- P. replace (dom live) with ({[a]} ∪ (dom live ∖ {[a]}))
      by (rewrite <- union_difference_singleton_L; [done|by eapply elem_of_dom_2]).
    replace (_ ∖ {[a]}) with (dom live ∖ {[a]}) at 1 by set_solver.
    rewrite elements_union_singleton by set_solver. simpl. by rewrite <- Permutation_middle.
  - intros x [->|Hx]%elem_of_cons; rewrite event_at_set_pool, event_at_set; [by rewrite decide_True|].
    rewrite decide_False by auto. auto.
  - intros x k. rewrite lookup_delete_Some. intros [Hne Lx].
    destruct (LV _ _ Lx). split; rewrite ?event_at_set_pool, ?event_at_set, ?decide_False by done; done.
Qed.

Lemma rep_taken free live s a signal event_size next k : rep (a :: free) live s ->
  may_allocate signal event_size = true -> ev_word (event_at s a) = link_word next ->
  rep free (<[a := 1]> live) (taken a signal event_size next k s).
Proof.
  intros R Hm En. pose proof (rep_NoDup _ _ _ R) as ND. pose proof (rep_free_not_live _ _ _ a R ltac:(set_solver)) as La.
  assert (Hf : forall x, x ∈ free -> a <> x). { intros x Hx ->. apply NoDup_cons in ND as [ND _]. set_solver. }
  destruct R as [E1 E2 E3 E4 E5 G (_ & next' & En' & C) P ST LV].
  assert (next' = next) as -> by (apply (f_equal read_link) in En'; rewrite En, !link_roundtrip in En'; congruence).
  unfold taken. split; rewrite ?pool_at_set_kernel, ?pool_at_set_event, ?pool_at_set_eq; try done.
  - simpl in *. rewrite E4. lia.
  - eapply free_chain_ext; [|exact C]. intros x Hx. rewrite event_at_set_kernel, event_at_set, decide_False by auto. done.
  - rewrite dom_insert_L, <- P. rewrite elements_union_singleton by (by apply not_elem_of_dom).
    by rewrite <- Permutation_middle.
  - intros x Hx. rewrite event_at_set_kernel, event_at_set, decide_False by auto. set_solver.
  - apply andb_true_iff in Hm as [[Hm1%negb_true_iff%Z.eqb_neq Hm2%Z.leb_le]%andb_true_iff _].
    intros x m. rewrite lookup_insert_Some. intros [[-> <-]|[Hne Lx]].
    + split; rewrite ?event_at_set_kernel, ?event_at_set_eq; done.
    + destruct (LV _ _ Lx). split; rewrite ?event_at_set_kernel, ?event_at_set, ?decide_False by done; done.
Qed.

(** Calls on a free block are rejected. *)
Lemma retain_stale s a Q : ev_magic (event_at s a) <> HE_CFG_EVENT_MAGIC -> Q HR_ERROR_INVALID_ARGUMENT s ->
  wp (he_event_retain (Some a)) Q s.
Proof. intros E HQ. unfold he_event_retain. hstep. by apply (wp_event_valid _ false); [apply stale_is_invalid|]. Qed.
Lemma release_stale s a Q : ev_magic (event_at s a) <> HE_CFG_EVENT_MAGIC -> Q HR_ERROR_INVALID_ARGUMENT s ->
  wp (he_event_release (Some a)) Q s.
Proof. intros E HQ. unfold he_event_release. hstep. by apply (wp_event_valid _ false); [apply stale_is_invalid|]. Qed.

Lemma rep_cases free live s a : rep free live s -> a ∈ blocks base bsize count ->
  a ∈ free \/ exists n, live !! a = Some n.
Proof. intros R. rewrite <- (pr_perm _ _ _ _ _ _ _ R), elem_of_app, elem_of_elements, elem_of_dom. intros [|[]]; eauto. Qed.
End rep.

(** ** Initialisation *)
Section init.
Context (base bsize count : Z) (G : geometry base bsize count).

Definition block (i : Z) : Z := base + i * bsize.
Definition next_block (i : Z) : option Z := if i + 1 <? count then Some (block (i + 1)) else None.

Lemma block_address i : 0 <= i < count -> u32 (base + u32 (i * bsize)) = block i.
Proof.
  intros Hi. destruct G. unfold sizeof_he_event in *. assert (0 <= i * bsize) by nia.
  assert ((i + 1) * bsize <= count * bsize) by nia. unfold block. rewrite (u32_small (i * bsize)), u32_small; unfold UINT32_MAX; lia.
Qed.
Lemma block_inj i j : block i = block j -> i = j.
Proof. destruct G. unfold block, sizeof_he_event in *. nia. Qed.

(** The links of the blocks from [i] on have been written. *)
Record linked (i : Z) (s s' : hstate) : Prop := {
  lk_word : forall j, i <= j < count -> ev_word (event_at s' (block j)) = link_word (next_block j);
  lk_magic : forall a, ev_magic (event_at s' a) = ev_magic (event_at s a);
  lk_frame : forall a, (forall j, i <= j < count -> a <> block j) -> event_at s' a = event_at s a;
  lk_rest : hs_set_events (hs_events s) s' = s;
}.

Lemma link_loop_spec n : forall i s Q, i + Z.of_nat n = count -> 0 <= i ->
  (forall s', linked i s s' -> Q tt s') -> wp (pool_link_loop n base bsize count i) Q s.
Proof.
  pose proof (geometry_count _ _ _ G). induction n as [|n IH]; intros i s Q Hn Hi HQ.
  - apply HQ. split; [intros; lia|done|done|by destruct s].
  - assert (E1 : u32 (i + 1) = i + 1) by (apply u32_small; lia).
    simpl. rewrite E1, (block_address i) by lia. hstep. hstep. apply IH; [lia..|]. intros s' L. apply HQ.
    assert (Ew : (if i + 1 <? count then WBlock (u32 (base + u32 ((i + 1) * bsize))) else WNull) = link_word (next_block i)).
    { unfold next_block. destruct (Z.ltb_spec (i + 1) count); [|done]. by rewrite block_address by lia. }
    rewrite Ew in L. destruct L as [L1 L2 L3 L4]. split.
    + intros j Hj. destruct (decide (j = i)) as [->|]; [|apply L1; lia].
      rewrite L3 by (intros j' Hj' E%block_inj; lia). by rewrite event_at_set_eq.
    + intros a. rewrite L2, event_at_set. by case_decide as Ea; [rewrite <- Ea|].
    + intros a Ha. rewrite L3 by (intros; apply Ha; lia). rewrite event_at_set, decide_False; [done|]. intros <-. apply (Ha i); lia || done.
    + apply (f_equal (hs_set_events (hs_events s))) in L4. destruct s, s'. unfold set_event, hs_set_events in *. simpl in *. congruence.
Qed.

Lemma linked_chain s s' : linked 0 s s' -> forall n i, i + Z.of_nat n = count -> 0 <= i -> (0 < n)%nat ->
  free_chain s' (Some (block i)) ((fun k => block (Z.of_nat k)) <$> seq (Z.to_nat i) n).
Proof.
  intros [LW _ _ _]. induction n as [|n IH]; intros i Hn Hi Hp; [lia|]. cbn [seq fmap list_fmap free_chain].
  rewrite Z2Nat.id by lia. split; [done|]. exists (next_block i). split; [apply LW; lia|].
  unfold next_block. destruct (Z.ltb_spec (i + 1) count).
  - replace (S (Z.to_nat i)) with (Z.to_nat (i + 1)) by lia. apply IH; lia.
  - assert (n = 0)%nat as -> by lia. done.
Qed.

Lemma event_pool_init_steps p s Q : base mod alignof_max_align = 0 -> bsize mod alignof_max_align = 0 ->
  he_event_pool_is_valid s (Some p) = false ->
  (forall a, a ∈ blocks base bsize count -> ev_magic (event_at s a) <> HE_CFG_EVENT_MAGIC) ->
  (forall s', pool_rep p base bsize count (blocks base bsize count) ∅ s' -> hs_kernel s' = hs_kernel s ->
    (forall x, x <> p -> pool_at s' x = pool_at s x) ->
    (forall a, a ∉ blocks base bsize count -> event_at s' a = event_at s a) -> Q HR_OK s') ->
  wp (he_event_pool_init (Some p) (Some base) bsize count) Q s.
Proof.
  intros Hb Hs Hv Hm HQ. unfold he_event_pool_init. rewrite Hb, Hs. pose proof (geometry_count _ _ _ G). destruct (ge_size _ _ _ G).
  rewrite (proj2 (Z.ltb_ge bsize sizeof_he_event)), (proj2 (Z.eqb_neq count 0)), (proj2 (Z.ltb_ge UINT16_MAX bsize)) by lia. simpl.
  hsteps. rewrite Hv. hsteps. apply link_loop_spec; [lia..|]. intros s' L. hsteps.
  pose proof (linked_chain _ _ L (Z.to_nat count) 0 ltac:(lia) ltac:(lia) ltac:(lia)) as C. destruct L as [LW LM LF LR].
  assert (HP : forall x, pool_at s' x = pool_at (set_pool p zero_ep s) x) by (intros x; by rewrite <- LR).
  apply HQ.
  - split; rewrite ?pool_at_set_eq; try done.
    + simpl. unfold blocks. rewrite length_fmap, length_seq. lia.
    + eapply (free_chain_ext s'); [done|]. assert (E0 : block 0 = base) by (unfold block; lia). rewrite E0 in C. exact C.
    + rewrite dom_empty_L, elements_empty. by rewrite app_nil_r.
    + intros a Ha. rewrite event_at_set_pool, LM. by apply Hm.
  - exact (f_equal hs_kernel LR).
  - intros x Hx. rewrite pool_at_set, decide_False, HP, pool_at_set, decide_False by congruence. done.
  - intros a Ha. rewrite event_at_set_pool. apply LF. intros j Hj ->. apply Ha, list_elem_of_fmap. exists (Z.to_nat j).
    split; [unfold block; by rewrite Z2Nat.id by lia|]. apply elem_of_seq. lia.
Qed.
End init.
