(* ===== verification/HeEventProps.v ===== *)
(** The properties of event pools and reference counts ([haievent/src/he_event.c]). *)
From S2P Require Import Prelude Types KState KernelBase Queue HeState HeEvent HeEventSpec.
From stdpp Require Import gmap list.
From Stdlib Require Import ZArith Lia.
Open Scope Z_scope.

(** ** The calls on a pool and what they do on free blocks and reference counts *)

Inductive event_op : Type := OpNew (signal event_size : Z) | OpRetain (a : Z) | OpRelease (a : Z).
Inductive event_result : Type := RPointer (event : option Z) | RStatus (status : hr_status).

Definition exec_event_op (p : pool_ptr) (op : event_op) : M hstate event_result :=
  match op with
  | OpNew signal event_size => let* e := he_event_new (Some p) signal event_size in retM (RPointer e)
  | OpRetain a => let* status := he_event_retain (Some a) in retM (RStatus status)
  | OpRelease a => let* status := he_event_release (Some a) in retM (RStatus status)
  end.
Fixpoint exec_event_ops (p : pool_ptr) (ops : list event_op) : M hstate (list event_result) :=
  match ops with
  | [] => retM []
  | op :: ops' =>
      let* r := exec_event_op p op in
      let* rs := exec_event_ops p ops' in
      retM (r :: rs)
  end.

(** The specification: free blocks as a stack, used blocks with their reference counts. *)
Definition pool_model : Type := list Z * gmap Z Z.
Definition model_op (bsize : Z) (op : event_op) (m : pool_model) : event_result * pool_model :=
  match op with
  | OpNew signal event_size =>
      match fst m with
      | a :: free => if may_allocate bsize signal event_size then (RPointer (Some a), (free, <[a := 1]> (snd m)))
                     else (RPointer None, m)
      | [] => (RPointer None, m)
      end
  | OpRetain a =>
      match snd m !! a with
      | None => (RStatus HR_ERROR_INVALID_ARGUMENT, m)
      | Some n => if n =? UINT16_MAX then (RStatus HR_ERROR_OVERFLOW, m) else (RStatus HR_OK, (fst m, <[a := n + 1]> (snd m)))
      end
  | OpRelease a =>
      match snd m !! a with
      | None => (RStatus HR_ERROR_INVALID_ARGUMENT, m)
      | Some n => if n =? 1 then (RStatus HR_OK, (a :: fst m, delete a (snd m)))
                  else (RStatus HR_OK, (fst m, <[a := n - 1]> (snd m)))
      end
  end.
Fixpoint model_ops (bsize : Z) (ops : list event_op) (m : pool_model) : list event_result * pool_model :=
  match ops with
  | [] => ([], m)
  | op :: ops' => let r := model_op bsize op m in let rs := model_ops bsize ops' (snd r) in (fst r :: fst rs, snd rs)
  end.

(** A call is made with a pointer to a block of the pool. *)
Definition op_on (bs : list Z) (op : event_op) : Prop :=
  match op with OpNew _ _ => True | OpRetain a | OpRelease a => a ∈ bs end.

(** What calls on a pool leave unchanged: everything but the pool, its blocks and the
    payload bytes of its blocks. *)
Record outside_pool (p : pool_ptr) (bs : list Z) (bsize : Z) (s s' : hstate) : Prop := {
  op_events : forall a, a ∉ bs -> event_at s' a = event_at s a;
  op_pools : forall x, x <> p -> pool_at s' x = pool_at s x;
  op_machines : hs_machines s' = hs_machines s;
  op_actives : hs_actives s' = hs_actives s;
  op_time_events : hs_time_events s' = hs_time_events s;
  op_pubsubs : hs_pubsubs s' = hs_pubsubs s;
  op_slots : hs_slots s' = hs_slots s;
  op_kernel : exists B, hs_kernel s' = ks_set_bytes B (hs_kernel s) /\
    forall x, (forall a j, a ∈ bs -> sizeof_he_event <= j < bsize -> x <> u32 (a + j)) -> B !!! x = ks_bytes (hs_kernel s) !!! x;
}.

Lemma outside_refl p bs bsize s : outside_pool p bs bsize s s.
Proof. split; try done. exists (ks_bytes (hs_kernel s)). split; [by destruct (hs_kernel s)|done]. Qed.

Lemma outside_trans p bs bsize s1 s2 s3 :
  outside_pool p bs bsize s1 s2 -> outside_pool p bs bsize s2 s3 -> outside_pool p bs bsize s1 s3.
Proof.
  intros [A1 A2 A3 A4 A5 A6 A7 (B & EB & A8)] [C1 C2 C3 C4 C5 C6 C7 (B' & EB' & C8)].
  split; try congruence; [intros; rewrite C1, A1; done|intros; rewrite C2, A2; done|].
  exists B'. rewrite EB'. split; [by rewrite EB|]. intros x Hx. rewrite C8 by done. rewrite EB. simpl. by apply A8.
Qed.

Lemma outside_recount p bs bsize a n s : a ∈ bs -> outside_pool p bs bsize s (recount a n s).
Proof.
  intros Ha. split; try done; [|exact (op_kernel _ _ _ _ _ (outside_refl p bs bsize s))].
  intros x Hx. unfold recount. rewrite event_at_set, decide_False by (by intros ->). done.
Qed.

Lemma outside_freed p bs bsize a s : a ∈ bs -> outside_pool p bs bsize s (freed p a s).
Proof.
  intros Ha. split; try done; [| |exact (op_kernel _ _ _ _ _ (outside_refl p bs bsize s))].
  - intros x Hx. unfold freed. rewrite event_at_set_pool, event_at_set, decide_False by (by intros ->). done.
  - intros x Hx. unfold freed. rewrite pool_at_set, decide_False by done. done.
Qed.

Lemma outside_taken p bs bsize a signal event_size next k s : a ∈ bs -> zeroed a sizeof_he_event bsize (hs_kernel s) k ->
  outside_pool p bs bsize s (taken p a signal event_size next k s).
Proof.
  intros Ha (B & -> & _ & _ & BF). split; try done.
  - intros x Hx. unfold taken. rewrite event_at_set_kernel, event_at_set, decide_False by (by intros ->). done.
  - intros x Hx. unfold taken. rewrite pool_at_set_kernel, pool_at_set_event, pool_at_set, decide_False by done. done.
  - exists B. split; [done|]. intros x Hx. apply BF. intros j Hj. by apply Hx.
Qed.

Section refine.
Context (p : pool_ptr) (base bsize count : Z).
Abbreviation bs := (blocks base bsize count).

Definition represents (m : pool_model) (s : hstate) : Prop := pool_rep p base bsize count (fst m) (snd m) s.

Lemma block_cases m s a : represents m s -> a ∈ bs ->
  (snd m !! a = None /\ ev_magic (event_at s a) <> HE_CFG_EVENT_MAGIC) \/ exists n, snd m !! a = Some n.
Proof.
  intros R Ha. destruct (rep_cases _ _ _ _ _ _ _ _ R Ha) as [Hf|]; [left|by right].
  split; [by apply (rep_free_not_live _ _ _ _ _ _ _ _ R)|by apply (pr_stale _ _ _ _ _ _ _ R)].
Qed.

Lemma exec_op_refines_model op m s : represents m s -> op_on bs op ->
  wp (exec_event_op p op) (fun r s' => r = fst (model_op bsize op m) /\ represents (snd (model_op bsize op m)) s' /\
    outside_pool p bs bsize s s') s.
Proof.
  intros R Hop. destruct m as [free live]. destruct op as [signal event_size|a|a]; simpl in *; apply wp_bind.
  - destruct free as [|a free].
    { apply (new_rejected _ _ _ _ _ _ _ _ _ _ R); [by right|]. apply wp_ret. auto using outside_refl. }
    destruct (may_allocate bsize signal event_size) eqn:Hm;
      [|apply (new_rejected _ _ _ _ _ _ _ _ _ _ R); [by left|]; apply wp_ret; auto using outside_refl].
    apply (new_spec _ _ _ _ _ _ _ _ _ _ _ R Hm). intros next k En Hk. apply wp_ret. split_and!; [done|exact (rep_taken _ _ _ _ _ _ _ _ _ _ _ _ R Hm En)|].
    apply outside_taken; [|done]. rewrite <- (pr_perm _ _ _ _ _ _ _ R). set_solver.
  - destruct (block_cases _ _ _ R Hop) as [[E Hs]|[n E]]; simpl in E; rewrite E.
    + apply retain_stale; [done|]. apply wp_ret. auto using outside_refl.
    + apply (event_retain_spec _ _ _ _ _ _ _ _ _ _ R E). pose proof (le_range _ _ _ _ (pr_live _ _ _ _ _ _ _ R _ _ E)).
      destruct (Z.eqb_spec n UINT16_MAX); apply wp_ret; split_and!; try done; [apply outside_refl| |by apply outside_recount].
      apply (rep_recount _ _ _ _ _ _ _ _ _ _ R E). lia.
  - destruct (block_cases _ _ _ R Hop) as [[E Hs]|[n E]]; simpl in E; rewrite E.
    + apply release_stale; [done|]. apply wp_ret. auto using outside_refl.
    + apply (event_release_spec _ _ _ _ _ _ _ _ _ _ R E). pose proof (le_range _ _ _ _ (pr_live _ _ _ _ _ _ _ R _ _ E)).
      destruct (Z.eqb_spec n 1); apply wp_ret; split_and!; try done; [|by apply outside_freed| |by apply outside_recount].
      * exact (rep_freed _ _ _ _ _ _ _ _ _ R E).
      * apply (rep_recount _ _ _ _ _ _ _ _ _ _ R E). lia.
Qed.
End refine.

Lemma exec_ops_refine p base bsize count ops : forall m s, represents p base bsize count m s ->
  Forall (op_on (blocks base bsize count)) ops ->
  wp (exec_event_ops p ops) (fun rs s' => rs = fst (model_ops bsize ops m) /\
    represents p base bsize count (snd (model_ops bsize ops m)) s' /\ outside_pool p (blocks base bsize count) bsize s s') s.
Proof.
  induction ops as [|op ops IH]; intros m s R Hops; simpl; [apply wp_ret; auto using outside_refl|].
  apply Forall_cons in Hops as [Hop Hops]. apply wp_bind. eapply wp_mono; [by apply exec_op_refines_model|].
  intros r s1 (-> & R1 & O1). apply wp_bind. eapply wp_mono; [by apply IH|].
  intros rs s2 (-> & R2 & O2). apply wp_ret. eauto using outside_trans.
Qed.

Lemma reference_count_read p base bsize count m s a : represents p base bsize count m s -> a ∈ blocks base bsize count ->
  he_event_get_reference_count (Some a) s = Some (default 0 (snd m !! a), s).
Proof.
  intros R Ha. unfold he_event_get_reference_count, he_event_is_dynamic, he_event_is_valid, bindM, getM, retM.
  destruct (block_cases _ _ _ _ _ _ _ R Ha) as [[E Hs]|[n E]]; rewrite E.
  - by rewrite stale_is_invalid.
  - rewrite (live_is_valid _ _ _ _ _ _ _ _ _ R E). destruct (pr_live _ _ _ _ _ _ _ R _ _ E) as [_ _ _ -> _ -> _]. done.
Qed.

Lemma free_count_read p base bsize count m s : represents p base bsize count m s ->
  he_event_pool_get_free_count s (Some p) = Z.of_nat (length (fst m)).
Proof. intros R. unfold he_event_pool_get_free_count. rewrite (rep_valid _ _ _ _ _ _ _ R). apply (pr_free_count _ _ _ _ _ _ _ R). Qed.

(** C20: An event pool is a stack of free blocks and a count of references per used block.
    Any sequence of he_event_new, he_event_retain and he_event_release on its blocks
    returns what these operations return on that model: a new event is the last freed
    block with one reference, the release of the last reference puts the block back, a
    retain beyond 65535 references is an OVERFLOW, and any call on a block that is free
    (a double release, a retain after the release) is rejected without an effect.  The
    counters read back exactly, and nothing outside the pool, its blocks and their
    payload changes. *)
Theorem event_calls_refine_counts p base bsize count free live s ops :
  pool_rep p base bsize count free live s -> Forall (op_on (blocks base bsize count)) ops ->
  let r := model_ops bsize ops (free, live) in
  exists s', exec_event_ops p ops s = Some (fst r, s') /\
    pool_rep p base bsize count (fst (snd r)) (snd (snd r)) s' /\
    outside_pool p (blocks base bsize count) bsize s s' /\
    he_event_pool_get_free_count s' (Some p) = Z.of_nat (length (fst (snd r))) /\
    (forall a, a ∈ blocks base bsize count ->
      he_event_get_reference_count (Some a) s' = Some (default 0 (snd (snd r) !! a), s')).
Proof.
  intros R Hops. destruct (wp_run _ _ _ (exec_ops_refine p base bsize count ops (free, live) s R Hops))
    as (rs & s' & E & -> & R' & O).
  exists s'. split_and!; [exact E|exact R'|exact O|exact (free_count_read _ _ _ _ _ _ R')|].
  intros a Ha. exact (reference_count_read _ _ _ _ _ _ _ R' Ha).
Qed.

Lemma event_pool_init_run p base bsize count s : geometry base bsize count -> base mod alignof_max_align = 0 ->
  bsize mod alignof_max_align = 0 -> he_event_pool_is_valid s (Some p) = false ->
  (forall a, a ∈ blocks base bsize count -> ev_magic (event_at s a) <> HE_CFG_EVENT_MAGIC) ->
  exists s', he_event_pool_init (Some p) (Some base) bsize count s = Some (HR_OK, s') /\
    pool_rep p base bsize count (blocks base bsize count) ∅ s' /\ hs_kernel s' = hs_kernel s /\
    (forall x, x <> p -> pool_at s' x = pool_at s x) /\
    (forall a, a ∉ blocks base bsize count -> event_at s' a = event_at s a).
Proof. intros G H1 H2 H3 H4. apply wp_returns. apply event_pool_init_steps; auto 10. Qed.

(** Initialising an event pool: over aligned memory below the end of the address space
    that holds no stale event, all blocks become free, in address order, and nothing
    outside the pool and its blocks changes.  A pool that is in use is not initialised
    again, and a misaligned, empty or oversized geometry is rejected without an effect. *)
Theorem event_pool_init_spec p base bsize count s :
  0 < base -> 0 <= bsize -> 0 <= count -> base + count * bsize <= 2 ^ 32 ->
  (forall a, a ∈ blocks base bsize count -> ev_magic (event_at s a) <> HE_CFG_EVENT_MAGIC) ->
  let fits := (sizeof_he_event <=? bsize) && (bsize <=? UINT16_MAX) && (0 <? count) &&
              (bsize mod alignof_max_align =? 0) && (base mod alignof_max_align =? 0) in
  exists status s', he_event_pool_init (Some p) (Some base) bsize count s = Some (status, s') /\
    (status = HR_ERROR_INVALID_ARGUMENT /\ fits = false /\ s' = s \/
     status = HR_ERROR_INVALID_STATE /\ fits = true /\ he_event_pool_is_valid s (Some p) = true /\ s' = s \/
     status = HR_OK /\ fits = true /\ he_event_pool_is_valid s (Some p) = false /\
       pool_rep p base bsize count (blocks base bsize count) ∅ s' /\ hs_kernel s' = hs_kernel s /\
       (forall x, x <> p -> pool_at s' x = pool_at s x) /\
       (forall a, a ∉ blocks base bsize count -> event_at s' a = event_at s a)).
Proof.
  intros Hb Hs Hc He Hm fits. destruct fits eqn:Hf; unfold fits in Hf; clear fits.
  - apply andb_true_iff in Hf as [[[[F1%Z.leb_le F2%Z.leb_le]%andb_true_iff F3%Z.ltb_lt]%andb_true_iff F4%Z.eqb_eq]%andb_true_iff
      F5%Z.eqb_eq].
    destruct (he_event_pool_is_valid s (Some p)) eqn:Hv.
    + exists HR_ERROR_INVALID_STATE, s. split; [|by right; left]. unfold he_event_pool_init.
      rewrite F4, F5, (proj2 (Z.ltb_ge _ _)), (proj2 (Z.eqb_neq count 0)), (proj2 (Z.ltb_ge _ _)) by lia. cbn -[he_event_pool_is_valid].
      unfold bindM, getM. by rewrite Hv.
    + assert (G : geometry base bsize count) by (split; lia).
      destruct (event_pool_init_run p base bsize count s G F5 F4 Hv Hm) as (s' & E & HR).
      exists HR_OK, s'. split; [exact E|]. right. right. tauto.
  - exists HR_ERROR_INVALID_ARGUMENT, s. split; [|by left]. unfold he_event_pool_init.
    match goal with |- (if ?b then _ else _) _ = _ => replace b with true; [done|] end.
    symmetry. apply not_false_iff_true. intros Ht. rewrite !orb_false_iff, !negb_false_iff in Ht. lia.
Qed.

(** ** A pool of two blocks *)
Definition h_reset : hstate := mk_hstate reset_state ∅ ∅ ∅ ∅ ∅ ∅ ∅.
Definition h_base : Z := 0x20008000.
Definition h_pool : hstate := run_state (he_event_pool_init (Some 1%N) (Some h_base) 16 2) h_reset.

Lemma event_pool_init_spec_witness : exists s', he_event_pool_init (Some 1%N) (Some h_base) 16 2 h_reset = Some (HR_OK, s') /\
  pool_rep 1%N h_base 16 2 (blocks h_base 16 2) ∅ s'.
Proof.
  destruct (event_pool_init_spec 1%N h_base 16 2 h_reset) as (st & s' & E & [(_ & H & _)|[(_ & _ & H & _)|(-> & _ & _ & R & _)]]);
    [done|done|done|by vm_compute| |by vm_compute in H|by vm_compute in H|].
  - intros a _. unfold event_at, h_reset. simpl. rewrite lookup_total_empty. done.
  - exists s'. split; [exact E|exact R].
Defined.

Lemma h_pool_rep : pool_rep 1%N h_base 16 2 (blocks h_base 16 2) ∅ h_pool.
Proof.
  assert (G : geometry h_base 16 2) by (by split; vm_compute).
  destruct (event_pool_init_run 1%N h_base 16 2 h_reset G) as (s' & E & R & _); try done.
  unfold h_pool, run_state. by rewrite E.
Qed.

Definition h_ops : list event_op :=
  [OpNew 40 16; OpRetain h_base; OpRelease h_base; OpRelease h_base; OpRelease h_base; OpNew 41 16; OpNew 42 16; OpNew 43 16].

Lemma event_calls_refine_counts_witness : exists s',
  exec_event_ops 1%N h_ops h_pool =
    Some ([RPointer (Some h_base); RStatus HR_OK; RStatus HR_OK; RStatus HR_OK; RStatus HR_ERROR_INVALID_ARGUMENT;
           RPointer (Some h_base); RPointer (Some (h_base + 16)); RPointer None], s') /\
  he_event_pool_get_free_count s' (Some 1%N) = 0.
Proof.
  destruct (event_calls_refine_counts 1%N h_base 16 2 _ _ h_pool h_ops h_pool_rep) as (s' & E & _ & _ & F & _).
  - unfold h_ops. repeat (apply Forall_cons; split); try done; simpl; unfold blocks; simpl; set_solver.
  - exists s'. split; [exact E|exact F].
Defined.
