(* ===== verification/HeMachineProps.v ===== *)
(** The properties of state machines ([haievent/src/he_state_machine.c]): a start and a
    dispatch run to completion, and call the handlers in the order of the specification
    below. *)
From S2P Require Import Prelude Types KState KernelBase Queue HeState HeEvent HeStateMachine HeEventSpec.
From stdpp Require Import gmap list.
From Stdlib Require Import ZArith Lia.
Open Scope Z_scope.

(** ** Specification: the calls of a transition

    [behave h signal a] is what the handler of state [h] does with an event: its result,
    the target it requests and the new state of the application.  A trace lists the
    handlers called and their signals. *)
Section spec.
Context {A : Type} (behave : Z -> Z -> A -> Z * option Z * A).

Definition trace : Type := list (Z * Z).

(** Entering state [h]: its entry, then its initial transition unless the entry has
    requested a target.  A handler that announces a transition without a target is an
    error. *)
Inductive entered (h : Z) (a : A) : trace -> hr_status -> option Z -> A -> Prop :=
| entered_moves r t a1 :
    behave h HE_SIG_ENTRY a = (r, Some t, a1) -> entered h a [(h, HE_SIG_ENTRY)] HR_OK (Some t) a1
| entered_stuck a1 :
    behave h HE_SIG_ENTRY a = (HE_STATE_TRANSITION, None, a1) ->
    entered h a [(h, HE_SIG_ENTRY)] HR_ERROR_INVALID_STATE None a1
| entered_init r a1 r2 t a2 :
    behave h HE_SIG_ENTRY a = (r, None, a1) -> r <> HE_STATE_TRANSITION ->
    behave h HE_SIG_INIT a1 = (r2, t, a2) -> (r2 = HE_STATE_TRANSITION -> t <> None) ->
    entered h a [(h, HE_SIG_ENTRY); (h, HE_SIG_INIT)] HR_OK t a2
| entered_init_stuck r a1 a2 :
    behave h HE_SIG_ENTRY a = (r, None, a1) -> r <> HE_STATE_TRANSITION ->
    behave h HE_SIG_INIT a1 = (HE_STATE_TRANSITION, None, a2) ->
    entered h a [(h, HE_SIG_ENTRY); (h, HE_SIG_INIT)] HR_ERROR_INVALID_STATE None a2.

(** From state [h] with a requested target, after [n] transitions: leave [h], enter the
    target, and go on while targets are requested, at most HE_CFG_MAX_INIT_TRANSITIONS + 1
    times.  A target requested by an exit is ignored. *)
Inductive settles : Z -> Z -> option Z -> A -> trace -> hr_status -> Z -> A -> Prop :=
| settles_done n h a : settles n h None a [] HR_OK h a
| settles_error n h t a re te a1 tr status a2 :
    behave h HE_SIG_EXIT a = (re, te, a1) -> entered t a1 tr status None a2 -> status <> HR_OK ->
    settles n h (Some t) a ((h, HE_SIG_EXIT) :: tr) status t a2
| settles_overflow n h t a re te a1 tr target a2 :
    behave h HE_SIG_EXIT a = (re, te, a1) -> entered t a1 tr HR_OK target a2 -> n = HE_CFG_MAX_INIT_TRANSITIONS ->
    settles n h (Some t) a ((h, HE_SIG_EXIT) :: tr) HR_ERROR_OVERFLOW t a2
| settles_step n h t a re te a1 tr target a2 tr' status h' a3 :
    behave h HE_SIG_EXIT a = (re, te, a1) -> entered t a1 tr HR_OK target a2 -> n < HE_CFG_MAX_INIT_TRANSITIONS ->
    settles (n + 1) t target a2 tr' status h' a3 ->
    settles n h (Some t) a ((h, HE_SIG_EXIT) :: tr ++ tr') status h' a3.

(** A start in the initial state [h]. *)
Inductive starts (h : Z) (a : A) : trace -> hr_status -> Z -> A -> Prop :=
| starts_error tr status a1 : entered h a tr status None a1 -> status <> HR_OK -> starts h a tr status h a1
| starts_ok tr target a1 tr' status h' a2 :
    entered h a tr HR_OK target a1 -> settles 0 h target a1 tr' status h' a2 -> starts h a (tr ++ tr') status h' a2.

(** The dispatch of an event with [signal] in state [h]. *)
Inductive dispatches (h signal : Z) (a : A) : trace -> hr_status -> Z -> A -> Prop :=
| dispatches_here r t a1 :
    behave h signal a = (r, t, a1) -> r <> HE_STATE_TRANSITION ->
    dispatches h signal a [(h, signal)]
      (if (r =? HE_STATE_HANDLED) || (r =? HE_STATE_IGNORED) then HR_OK else HR_ERROR_INVALID_STATE) h a1
| dispatches_stuck a1 :
    behave h signal a = (HE_STATE_TRANSITION, None, a1) ->
    dispatches h signal a [(h, signal)] HR_ERROR_INVALID_STATE h a1
| dispatches_moves t a1 tr status h' a2 :
    behave h signal a = (HE_STATE_TRANSITION, Some t, a1) -> settles 0 h (Some t) a1 tr status h' a2 ->
    dispatches h signal a ((h, signal) :: tr) status h' a2.

Lemma entered_length h a tr status t a' : entered h a tr status t a' -> (length tr <= 2)%nat.
Proof. by destruct 1; simpl; lia. Qed.

Lemma settles_length n h t a tr status h' a' : settles n h t a tr status h' a' -> n <= HE_CFG_MAX_INIT_TRANSITIONS ->
  Z.of_nat (length tr) <= 3 * (HE_CFG_MAX_INIT_TRANSITIONS + 1 - n).
Proof.
  induction 1 as [| ? ? ? ? ? ? ? ? ? ? _ E%entered_length| ? ? ? ? ? ? ? ? ? ? _ E%entered_length
    |? ? ? ? ? ? ? ? ? ? ? ? ? ? _ E%entered_length ? ? IH]; simpl; rewrite ?length_app; lia.
Qed.
End spec.

(** ** The code against the specification *)

Definition set_machine (m : machine_ptr) (c : he_state_machine_control_block_t) (s : hstate) : hstate :=
  hs_set_machines (<[m := c]> (hs_machines s)) s.
Lemma machine_at_set m c s : machine_at (set_machine m c s) m = c.
Proof. apply lookup_total_insert_eq. Qed.
Lemma set_machine_twice m c c' s : set_machine m c (set_machine m c' s) = set_machine m c s.
Proof. unfold set_machine, hs_set_machines. simpl. by rewrite insert_insert_eq. Qed.
Lemma wp_upd_machine m f Q s : Q tt (set_machine m (f (machine_at s m)) s) -> wp (upd_machine m f) Q s.
Proof. auto. Qed.

(** The fields of a machine that its user sets. *)
Definition same_setup (c c' : he_state_machine_control_block_t) : Prop :=
  sm_initial c' = sm_initial c /\ sm_context c' = sm_context c /\ sm_magic c' = sm_magic c.

Section machine.
Context `{Handlers} (m : machine_ptr) {A : Type} (R : A -> hstate -> Prop) (behave : Z -> Z -> A -> Z * option Z * A).

(** What the machine relies on: the handlers behave as [behave] says when they are called
    with a valid event and no target, and change nothing else of the machine; the state of
    the application does not depend on the current state and the target of the machine
    nor on the local event of a dispatch. *)
Record handlers_behave : Prop := {
  hb_run : forall h e a s, R a s -> sm_current (machine_at s m) = Some h -> sm_target (machine_at s m) = None ->
    event_is_valid s (Some e) = Some true ->
    wp (run_handler h m e) (fun r s' => exists t a', behave h (ev_signal (event_at s e)) a = (r, t, a') /\ R a' s' /\
      machine_at s' m = sm_set_target t (machine_at s m)) s;
  hb_machine : forall a s c, R a s -> same_setup (machine_at s m) c -> R a (set_machine m c s);
  hb_local : forall a s e, R a s -> R a (set_event (local_event s) e s);
}.
Context (HB : handlers_behave).

(** The machine is in state [h] with the requested target [t]. *)
Record at_state (c : he_state_machine_control_block_t) (h : Z) (t : option Z) (a : A) (s : hstate) : Prop := {
  as_setup : same_setup c (machine_at s m);
  as_current : sm_current (machine_at s m) = Some h;
  as_target : sm_target (machine_at s m) = t;
  as_started : sm_started (machine_at s m) = true;
  as_app : R a s;
}.

Lemma at_target c h t t' a s : at_state c h t a s -> at_state c h t' a (set_machine m (sm_set_target t' (machine_at s m)) s).
Proof.
  intros [E1 E2 E3 E4 E5]. split; rewrite ?machine_at_set; try done. by apply (hb_machine HB).
Qed.
Lemma at_current c h h' t a s : at_state c h t a s ->
  at_state c h' t a (set_machine m (sm_set_current (Some h') (machine_at s m)) s).
Proof.
  intros [E1 E2 E3 E4 E5]. split; rewrite ?machine_at_set; try done. by apply (hb_machine HB).
Qed.

Lemma call_spec c h a s e Q : at_state c h None a s -> event_is_valid s (Some e) = Some true ->
  (forall r t a' s', behave h (ev_signal (event_at s e)) a = (r, t, a') -> at_state c h t a' s' -> Q r s') ->
  wp (call_current m e) Q s.
Proof.
  intros [E1 E2 E3 E4 E5] V HQ. unfold call_current. hstep. hstep. rewrite E2.
  eapply wp_mono; [exact (hb_run HB h e a s E5 E2 E3 V)|]. intros r s' (t & a' & Eb & R' & Em).
  apply (HQ r t a' s' Eb). split; rewrite ?Em; done.
Qed.

Definition reserved (signal : Z) : he_event :=
  mk_event WNull HE_CFG_EVENT_MAGIC sizeof_he_event 0 signal HE_EVENT_FLAG_STATIC.

Lemma init_static_spec e signal Q s : signal <> HE_SIG_NONE -> Q HR_OK (set_event e (reserved signal) s) ->
  wp (he_event_init_static (Some e) signal sizeof_he_event) Q s.
Proof.
  intros Hs HQ. unfold he_event_init_static. rewrite (proj2 (Z.eqb_neq _ _) Hs).
  change (_ || (UINT16_MAX <? sizeof_he_event)) with false. cbn iota. hsteps. exact HQ.
Qed.

Lemma dispatch_reserved_spec c h t a s signal Q : at_state c h t a s -> signal <> HE_SIG_NONE ->
  (forall r t' a' s', behave h signal a = (r, t', a') -> at_state c h t' a' s' -> Q (HR_OK, r) s') ->
  wp (he_dispatch_reserved m signal) Q s.
Proof.
  intros AS Hs HQ. unfold he_dispatch_reserved. hstep. hstep. hstep. apply init_static_spec; [done|]. cbn [negb ok].
  change (negb (ok HR_OK)) with false. cbn iota. hstep. apply wp_upd_machine. hstep.
  assert (AS1 : at_state c h t a (set_event (local_event s) (reserved signal) s)).
  { destruct AS as [E1 E2 E3 E4 E5]. split; try done. by apply (hb_local HB). }
  apply (at_target _ _ _ None) in AS1. eapply (call_spec c h a _ (local_event s)); [exact AS1| |].
  - unfold event_is_valid. cbn. change (event_at _ (local_event s)) with (event_at (set_event (local_event s) (reserved signal) s) (local_event s)).
    rewrite event_at_set_eq. cbn. by rewrite (proj2 (Z.eqb_neq _ _) Hs).
  - intros r t' a' s' Eb AS'. hstep. apply (HQ r t' a' s'); [|done]. revert Eb.
    change (event_at _ (local_event s)) with (event_at (set_event (local_event s) (reserved signal) s) (local_event s)).
    by rewrite event_at_set_eq.
Qed.

Lemma enter_spec c h t a s Q : at_state c h t a s ->
  (forall tr status t' a' s', entered behave h a tr status t' a' -> at_state c h t' a' s' -> (status = HR_OK \/ t' = None) -> Q status s') ->
  wp (enter_current m) Q s.
Proof.
  intros AS HQ. unfold enter_current. hstep. apply (dispatch_reserved_spec c h t a s); [done|done|]. intros r t1 a1 s1 E1 AS1.
  cbn [fst snd]. change (negb (ok HR_OK)) with false. cbn iota. hstep. hstep. unfold transition_without_target. rewrite (as_target _ _ _ _ _ AS1).
  destruct t1 as [t1|].
  - rewrite bool_decide_false, andb_false_r by done. hstep. by eapply HQ; [eapply entered_moves| |left].
  - rewrite bool_decide_true, andb_true_r by done. destruct (Z.eqb_spec r HE_STATE_TRANSITION) as [->|Hr].
    + hstep. by eapply HQ; [eapply entered_stuck| |right].
    + hstep. apply (dispatch_reserved_spec c h None a1 s1); [done|done|]. intros r2 t2 a2 s2 E2 AS2.
      cbn [fst snd]. change (negb (ok HR_OK)) with false. cbn iota. hstep. hstep. rewrite (as_target _ _ _ _ _ AS2).
      destruct (Z.eqb_spec r2 HE_STATE_TRANSITION) as [->|Hr2], t2 as [t2|];
        rewrite ?(bool_decide_false (Some t2 = None)), ?(bool_decide_true (None = None)) by done; cbn [andb]; hstep;
        (eapply HQ; [|exact AS2|auto]); by (eapply entered_init || eapply entered_init_stuck).
Qed.

Lemma settle_spec c Q fuel : forall n h t a s, at_state c h t a s -> 0 <= n <= HE_CFG_MAX_INIT_TRANSITIONS ->
  n + Z.of_nat fuel = HE_CFG_MAX_INIT_TRANSITIONS + 1 ->
  (forall tr status h' t' a' s', settles behave n h t a tr status h' a' -> at_state c h' t' a' s' ->
    (status = HR_OK -> t' = None) -> Q status s') ->
  wp (apply_transition_loop fuel m n) Q s.
Proof.
  induction fuel as [|fuel IH]; intros n h t a s AS Hn Hf HQ; [lia|].
  simpl. hstep. hstep. rewrite (as_target _ _ _ _ _ AS). destruct t as [t|]; [|hstep; by eapply HQ; [apply settles_done| |]].
  hstep. apply wp_upd_machine. hstep. apply (at_target _ _ _ None) in AS. eapply dispatch_reserved_spec; [exact AS|done|].
  intros re te a1 s1 E1 AS1. cbn [fst]. change (negb (ok HR_OK)) with false. cbn iota. hstep. apply wp_upd_machine.
  apply (at_current _ _ t) in AS1. hstep. eapply enter_spec; [exact AS1|]. intros tr status t2 a2 s2 E2 AS2 Hst.
  unfold ok. destruct (decide (status = HR_OK)) as [->|Hne].
  - rewrite bool_decide_true by done. cbn [negb]. rewrite u32_small by (unfold UINT32_MAX, HE_CFG_MAX_INIT_TRANSITIONS in *; lia).
    destruct (Z.ltb_spec HE_CFG_MAX_INIT_TRANSITIONS (n + 1)).
    + hstep. eapply HQ; [eapply settles_overflow; [done|done|lia]|done|done].
    + eapply IH; [exact AS2|lia|lia|]. intros tr' status h' t' a' s' ST AS' Ht. eapply HQ; [|exact AS'|done].
      eapply settles_step; [done|done|lia|done].
  - destruct Hst as [?| ->]; [done|]. rewrite bool_decide_false by done. cbn [negb]. hstep.
    eapply HQ; [eapply settles_error; done|done|done].
Qed.

Lemma at_machine c h t a s : at_state c h t a s -> he_state_machine_is_valid s (Some m) = true ->
  he_state_machine_current s (Some m) = Some h /\ he_state_machine_is_started s (Some m) = true.
Proof.
  intros [_ E2 _ E4 _] V. unfold he_state_machine_current, he_state_machine_is_started, machine_query. by rewrite V, E2, E4.
Qed.
Lemma same_setup_valid s s' : same_setup (machine_at s m) (machine_at s' m) ->
  he_state_machine_is_valid s' (Some m) = he_state_machine_is_valid s (Some m).
Proof. intros (E1 & _ & E3). unfold he_state_machine_is_valid. by rewrite E1, E3. Qed.

(** C23: Starting a state machine runs to completion, whatever transitions the handlers
    request, for handlers that return, are functions of their own state and change nothing of
    the machine but its target: it
    makes the calls of the specification [starts] (entry, then initial transition, of the
    initial state, and for each requested target exit, entry and initial transition, with
    OVERFLOW beyond the limit of transitions and INVALID_STATE for a transition without a
    target), at most 29 of them, and leaves the machine started in the state the
    specification ends in.  A machine that has been started is left alone. *)
Theorem machine_start_runs h a s :
  he_state_machine_is_valid s (Some m) = true -> sm_initial (machine_at s m) = Some h -> R a s ->
  if sm_started (machine_at s m) then he_state_machine_start (Some m) s = Some (HR_ERROR_INVALID_STATE, s)
  else exists tr status h' a' s', he_state_machine_start (Some m) s = Some (status, s') /\
    starts behave h a tr status h' a' /\ (length tr <= 29)%nat /\ R a' s' /\
    he_state_machine_current s' (Some m) = Some h' /\ he_state_machine_is_started s' (Some m) = true.
Proof.
  intros V Hh Ra. destruct (sm_started (machine_at s m)) eqn:Es.
  { unfold he_state_machine_start, bindM, getM. by rewrite V, Es. }
  set (c := machine_at s m). set (c1 := sm_set_started true (sm_set_current (Some h) c)).
  assert (AS : at_state c h (sm_target c) a (set_machine m c1 s)).
  { split; rewrite ?machine_at_set; try done. by apply (hb_machine HB). }
  enough (HW : wp (he_state_machine_start (Some m)) (fun status s' => exists tr h' t' a', starts behave h a tr status h' a' /\
    (length tr <= 29)%nat /\ at_state c h' t' a' s') s).
  { destruct (wp_run _ _ _ HW) as (status & s' & E & tr & h' & t' & a' & ST & L & AS').
    destruct (at_machine _ _ _ _ _ AS') as [C1 C2]; [by rewrite (same_setup_valid s s' (as_setup _ _ _ _ _ AS'))|].
    exists tr, status, h', a', s'. split_and!; try done. apply AS'. }
  unfold he_state_machine_start. hstep. hstep. rewrite V, Es. cbn [negb]. hstep. apply wp_upd_machine. hstep. apply wp_upd_machine.
  rewrite machine_at_set, set_machine_twice, Hh. change (wp _ _ (set_machine m _ s)) with (wp (let* status := enter_current m in
    if negb (ok status) then retM status else he_apply_transition m) (fun status s' => exists tr h' t' a', starts behave h a tr status h' a' /\
    (length tr <= 29)%nat /\ at_state c h' t' a' s') (set_machine m c1 s)).
  hstep. eapply enter_spec; [exact AS|]. intros tr status t1 a1 s1 EN AS1 Hst. pose proof (entered_length _ _ _ _ _ _ _ EN) as L1.
  unfold ok. destruct (decide (status = HR_OK)) as [->|Hne].
  - rewrite bool_decide_true by done. cbn [negb]. unfold he_apply_transition.
    eapply settle_spec; [exact AS1|done|done|]. intros tr' status h' t' a' s' ST AS' _.
    pose proof (settles_length _ _ _ _ _ _ _ _ _ ST ltac:(done)) as L2. exists (tr ++ tr'), h', t', a'.
    split_and!; [by eapply starts_ok| |done]. rewrite length_app. unfold HE_CFG_MAX_INIT_TRANSITIONS in L2. lia.
  - destruct Hst as [?| ->]; [done|]. rewrite bool_decide_false by done. cbn [negb]. hstep.
    exists tr, h, None, a1. split_and!; [by eapply starts_error|lia|done].
Qed.

(** Dispatching a valid event to a started state machine runs to completion and makes the
    calls of the specification [dispatches]: the handler of the current state and, when it
    announces a transition with a target, the transitions that follow; at most 28 calls.
    The machine ends in the state of the specification.  Machines that are not started and
    invalid events are rejected without an effect. *)
Theorem machine_dispatch_runs h a e valid s :
  he_state_machine_is_valid s (Some m) = true -> sm_current (machine_at s m) = Some h -> R a s ->
  event_is_valid s (Some e) = Some valid ->
  if sm_started (machine_at s m) && valid then
    exists tr status h' a' s', he_state_machine_dispatch (Some m) (Some e) s = Some (status, s') /\
      dispatches behave h (ev_signal (event_at s e)) a tr status h' a' /\ (length tr <= 28)%nat /\ R a' s' /\
      he_state_machine_current s' (Some m) = Some h' /\ he_state_machine_is_started s' (Some m) = true
  else he_state_machine_dispatch (Some m) (Some e) s = Some (HR_ERROR_INVALID_ARGUMENT, s).
Proof.
  intros V Hh Ra Hv. destruct (sm_started (machine_at s m)) eqn:Es; cbn [andb].
  2: { unfold he_state_machine_dispatch, he_state_machine_is_started, machine_query, bindM, getM. by rewrite V, Es. }
  destruct valid.
  2: { unfold he_state_machine_dispatch, he_state_machine_is_started, machine_query, he_event_is_valid, bindM, getM. rewrite V, Es. cbn -[event_is_valid]. by rewrite Hv. }
  set (c := machine_at s m).
  assert (AS : at_state c h (sm_target c) a s) by (split; done).
  enough (HW : wp (he_state_machine_dispatch (Some m) (Some e)) (fun status s' => exists tr h' t' a',
    dispatches behave h (ev_signal (event_at s e)) a tr status h' a' /\ (length tr <= 28)%nat /\ at_state c h' t' a' s') s).
  { destruct (wp_run _ _ _ HW) as (status & s' & E & tr & h' & t' & a' & ST & L & AS').
    destruct (at_machine _ _ _ _ _ AS') as [C1 C2]; [by rewrite (same_setup_valid s s' (as_setup _ _ _ _ _ AS'))|].
    exists tr, status, h', a', s'. split_and!; try done. apply AS'. }
  unfold he_state_machine_dispatch. hstep. hstep. unfold he_state_machine_is_started, machine_query. rewrite V, Es. cbn [negb orb].
  hstep. apply (wp_event_valid _ true); [done|]. cbn [negb]. hstep. apply wp_upd_machine. apply (at_target _ _ _ None) in AS.
  hstep. eapply (call_spec c h a _ e); [exact AS|done|]. intros r t1 a1 s1 Eb AS1.
  destruct (Z.eqb_spec r HE_STATE_TRANSITION) as [->|Hr].
  - hstep. hstep. rewrite (as_target _ _ _ _ _ AS1). destruct t1 as [t1|].
    + rewrite bool_decide_false by done. unfold he_apply_transition. eapply settle_spec; [exact AS1|done|done|].
      intros tr status h' t' a' s' ST AS' _. pose proof (settles_length _ _ _ _ _ _ _ _ _ ST ltac:(done)) as L2.
      eexists _, h', t', a'. split_and!; [by eapply dispatches_moves| |done].
      simpl. unfold HE_CFG_MAX_INIT_TRANSITIONS in L2. lia.
    + rewrite bool_decide_true by done. hstep. eexists _, h, None, a1. split_and!; [by apply dispatches_stuck|simpl; lia|done].
  - hstep. eexists _, h, t1, a1. split_and!; [by eapply dispatches_here|simpl; lia|done].
Qed.
End machine.

(** ** A machine with two states: the first passes to the second on its initial transition,
    signal 32 goes back and forth *)
Definition example_run (h : Z) (m : machine_ptr) (e : Z) : M hstate Z :=
  let* s := getM in
  let signal := ev_signal (event_at s e) in
  if (signal =? HE_SIG_INIT) && (h =? 100) || (signal =? HE_SIG_USER) then he_state_transition (Some m) (Some (201 - h))
  else retM HE_STATE_HANDLED.
#[local] Instance example_handlers : Handlers := {| run_handler := example_run; local_event := fun _ => 0x20001000 |}.

Definition example_behave (h signal : Z) (a : unit) : Z * option Z * unit :=
  if (signal =? HE_SIG_INIT) && (h =? 100) || (signal =? HE_SIG_USER) then (HE_STATE_TRANSITION, Some (201 - h), tt)
  else (HE_STATE_HANDLED, None, tt).
Definition example_valid (_ : unit) (s : hstate) : Prop := he_state_machine_is_valid s (Some 5%N) = true.

Lemma example_handlers_behave : handlers_behave 5%N example_valid example_behave.
Proof.
  split.
  - intros h e [] s V Hc Ht He. simpl. unfold example_run, example_behave. hstep. hstep. destruct (_ || _).
    + unfold he_state_transition. hstep. hstep. rewrite V. cbn [negb]. hstep. apply wp_upd_machine. hstep. eexists _, tt.
      split_and!; [done| |by rewrite machine_at_set]. unfold example_valid. rewrite <- V. apply same_setup_valid. by rewrite machine_at_set.
    + hstep. eexists _, tt. split_and!; [done|done|]. rewrite <- Ht. by destruct (machine_at s 5%N).
  - intros [] s c V Hs. unfold example_valid. rewrite <- V. apply same_setup_valid. by rewrite machine_at_set.
  - intros [] s e V. exact V.
Qed.

Definition m_reset : hstate := mk_hstate reset_state {[0x20002000 := reserved HE_SIG_USER]} ∅ ∅ ∅ ∅ ∅ ∅.
Definition m_init : hstate := run_state (he_state_machine_init (Some 5%N) (Some 100) None) m_reset.
Definition m_started : hstate := run_state (he_state_machine_start (Some 5%N)) m_init.

Lemma machine_start_runs_witness : exists tr status h' s', he_state_machine_start (Some 5%N) m_init = Some (status, s') /\
  starts example_behave 100 tt tr status h' tt /\ he_state_machine_current s' (Some 5%N) = Some h'.
Proof.
  assert (H0 : sm_started (machine_at m_init 5%N) = false) by (vm_compute; reflexivity).
  assert (HS := machine_start_runs 5%N example_valid example_behave example_handlers_behave 100 tt m_init
    ltac:(vm_compute; reflexivity) ltac:(vm_compute; reflexivity) ltac:(vm_compute; reflexivity)).
  rewrite H0 in HS. destruct HS as (tr & status & h' & [] & s' & E & ST & _ & _ & C & _).
  exists tr, status, h', s'. split; [exact E|]. split; [exact ST|exact C].
Defined.

Lemma machine_dispatch_runs_witness : exists tr status h' s',
  he_state_machine_dispatch (Some 5%N) (Some 0x20002000) m_started = Some (status, s') /\
  dispatches example_behave 101 HE_SIG_USER tt tr status h' tt /\ he_state_machine_current s' (Some 5%N) = Some h'.
Proof.
  assert (H0 : sm_started (machine_at m_started 5%N) = true) by (vm_compute; reflexivity).
  assert (H1 : ev_signal (event_at m_started 0x20002000) = HE_SIG_USER) by (vm_compute; reflexivity).
  assert (HS := machine_dispatch_runs 5%N example_valid example_behave example_handlers_behave 101 tt 0x20002000 true m_started
    ltac:(vm_compute; reflexivity) ltac:(vm_compute; reflexivity) ltac:(vm_compute; reflexivity) ltac:(vm_compute; reflexivity)).
  rewrite H0, H1 in HS. destruct HS as (tr & status & h' & [] & s' & E & ST & _ & _ & C & _).
  exists tr, status, h', s'. split; [exact E|]. split; [exact ST|exact C].
Defined.

(** The calls of the example: the second state is entered by the initial transition of the
    first, and left by the signal. *)
Example example_starts : starts example_behave 100 tt
  [(100, HE_SIG_ENTRY); (100, HE_SIG_INIT); (100, HE_SIG_EXIT); (101, HE_SIG_ENTRY); (101, HE_SIG_INIT)] HR_OK 101 tt.
Proof.
  apply (starts_ok _ 100 tt [(100, HE_SIG_ENTRY); (100, HE_SIG_INIT)] (Some 101) tt
    [(100, HE_SIG_EXIT); (101, HE_SIG_ENTRY); (101, HE_SIG_INIT)]); [by econstructor|].
  apply (settles_step _ 0 100 101 tt HE_STATE_HANDLED None tt [(101, HE_SIG_ENTRY); (101, HE_SIG_INIT)] None tt []);
    [done|by econstructor|done|apply settles_done].
Qed.
