(* ===== verification/HePubsubSpec.v ===== *)
(** The table of subscribers of [HePubsub] as a list of active objects per signal. *)
From S2P Require Import Prelude Types KState KernelBase Queue HeState HeEvent HeStateMachine HeActive HePubsub HeEventSpec.
From stdpp Require Import gmap list.
From Stdlib Require Import ZArith Lia.
Open Scope Z_scope.

(** [sig] to the subscribers of the signal, in the order of their slots. *)
Abbreviation table := (Z -> list active_ptr).
Definition table_set (T : table) (signal : Z) (l : list active_ptr) : table :=
  fun x => if decide (x = signal) then l else T x.

Record shape (base signals width : Z) : Prop := {
  sh_base : 0 < base;
  sh_signals : HE_SIG_USER < signals <= HE_CFG_MAX_SIGNALS;
  sh_width : 0 < width <= HE_CFG_MAX_ACTIVE_OBJECTS;
  sh_end : base + sizeof_pointer * (signals * width) <= 2 ^ 32;
}.

(** The address of slot [i] of [signal]. *)
Definition slot_cell (base width signal i : Z) : Z := base + sizeof_pointer * (signal * width + i).

Record table_rep (p : pubsub_ptr) (base signals width : Z) (T : table) (s : hstate) : Prop := {
  tr_block : pubsub_at s p = mk_ps (Some base) signals width HE_CFG_PUBSUB_MAGIC;
  tr_shape : shape base signals width;
  tr_slots : forall signal i, 0 <= signal < signals -> 0 <= i < width ->
    slot_value s (slot_cell base width signal i) = T signal !! Z.to_nat i;
  tr_width : forall signal, 0 <= signal < signals -> Z.of_nat (length (T signal)) <= width;
  tr_distinct : forall signal, 0 <= signal < signals -> NoDup (T signal);
}.

(** ** The loops over the slots *)
Section loops.
Context (s : hstate) (slots : Z).

Lemma find_slot_spec v n : forall i,
  match find_slot_loop n s slots v i with
  | Some j => i <= j < i + Z.of_nat n /\ subscriber_at s slots j = v /\ (forall k, i <= k < j -> subscriber_at s slots k <> v)
  | None => forall k, i <= k < i + Z.of_nat n -> subscriber_at s slots k <> v
  end.
Proof.
  induction n as [|n IH]; intros i; simpl; [lia|]. case_bool_decide as E.
  - split_and!; [lia..|done|intros; lia].
  - specialize (IH (i + 1)). destruct (find_slot_loop n s slots v (i + 1)) as [j|].
    + destruct IH as (? & ? & IH). split_and!; [lia..|done|]. intros k Hk. destruct (decide (k = i)) as [->|]; [done|apply IH; lia].
    + intros k Hk. destruct (decide (k = i)) as [->|]; [done|apply IH; lia].
Qed.

Lemma snapshot_spec l n : forall i, 0 <= i -> (forall k, i <= k < i + Z.of_nat n -> subscriber_at s slots k = l !! Z.to_nat k) ->
  (length l <= Z.to_nat i + n)%nat -> snapshot_loop n s slots i = drop (Z.to_nat i) l.
Proof.
  induction n as [|n IH]; intros i Hi Hl Hn; simpl; [by rewrite drop_ge by lia|].
  rewrite Hl by lia. assert (E1 : Z.to_nat (i + 1) = S (Z.to_nat i)) by lia.
  destruct (l !! Z.to_nat i) as [a|] eqn:E.
  - rewrite (drop_S _ _ _ E), IH, E1; [done|lia|intros; apply Hl; lia|lia].
  - apply lookup_ge_None in E. rewrite IH, !drop_ge; [done|lia|lia|lia|intros; apply Hl; lia|lia].
Qed.

Lemma count_spec n : forall i count, 0 <= count -> count + Z.of_nat n <= UINT32_MAX ->
  count_loop n s slots i count = count + Z.of_nat (length (snapshot_loop n s slots i)).
Proof.
  induction n as [|n IH]; intros i count Hc Hn; simpl; [lia|].
  destruct (subscriber_at s slots i); simpl; rewrite ?u32_small, IH by lia; lia.
Qed.
End loops.

Lemma slot_value_set a v s x : slot_value (hs_set_slots (<[a := v]> (hs_slots s)) s) x = if decide (a = x) then v else slot_value s x.
Proof.
  unfold slot_value. simpl. destruct (decide (a = x)) as [->|]; [apply lookup_total_insert_eq|by apply lookup_total_insert_ne].
Qed.

Section rep.
Context (p : pubsub_ptr) (base signals width : Z) (SH : shape base signals width).
Abbreviation rep := (table_rep p base signals width).
Abbreviation cell := (slot_cell base width).

Lemma cell_range signal i : 0 <= signal < signals -> 0 <= i < width -> 0 <= sizeof_pointer * (signal * width + i) /\
  cell signal i <= UINT32_MAX.
Proof.
  intros Hs Hi. destruct SH. unfold slot_cell, sizeof_pointer, UINT32_MAX in *.
  assert ((signal + 1) * width <= signals * width) by nia. assert (0 <= signal * width) by nia. lia.
Qed.

Lemma slots_address signal : 0 <= signal < signals ->
  he_pubsub_signal_slots (mk_ps (Some base) signals width HE_CFG_PUBSUB_MAGIC) signal = Some (cell signal 0).
Proof.
  intros Hs. pose proof (sh_width _ _ _ SH) as Hw. assert (H0 : 0 <= 0 < width) by lia.
  destruct (cell_range signal 0 Hs H0). destruct SH. unfold he_pubsub_signal_slots. simpl.
  unfold slot_cell, sizeof_pointer in *. rewrite (u32_small (signal * width)), u32_small; [do 2 f_equal; lia|lia|lia].
Qed.

Lemma subscriber_cell signal i s : 0 <= signal < signals -> 0 <= i < width ->
  subscriber_at s (cell signal 0) i = slot_value s (cell signal i).
Proof.
  intros Hs Hi. destruct (cell_range signal i Hs Hi). destruct SH. unfold subscriber_at. f_equal.
  unfold slot_cell, sizeof_pointer in *. rewrite u32_small; lia.
Qed.

Lemma cell_inj signal i signal' i' : 0 <= i < width -> 0 <= i' < width -> cell signal i = cell signal' i' -> signal = signal' /\ i = i'.
Proof. intros Hi Hi' E. unfold slot_cell, sizeof_pointer in E. apply (Z.div_mod_unique width); lia. Qed.

Lemma store_slot_spec signal i v Q s : 0 <= signal < signals -> 0 <= i < width ->
  Q tt (hs_set_slots (<[cell signal i := v]> (hs_slots s)) s) -> wp (store_slot (cell signal 0) i v) Q s.
Proof.
  intros Hs Hi HQ. destruct (cell_range signal i Hs Hi). destruct SH. unfold store_slot, set_slot. apply wp_modify.
  replace (u32 _) with (cell signal i); [done|].
  unfold slot_cell, sizeof_pointer in *. rewrite u32_small; lia.
Qed.

(** The slots of one signal have changed, to [f]. *)
Definition rewritten (signal : Z) (f : Z -> option active_ptr) (s s' : hstate) : Prop :=
  (exists X, s' = hs_set_slots X s) /\ (forall i, 0 <= i < width -> slot_value s' (cell signal i) = f i) /\
  (forall signal' i, signal' <> signal -> 0 <= i < width -> slot_value s' (cell signal' i) = slot_value s (cell signal' i)).

Lemma rewritten_store signal i v f s s' : 0 <= i < width -> rewritten signal f s s' ->
  rewritten signal (fun j => if decide (j = i) then v else f j) s (hs_set_slots (<[cell signal i := v]> (hs_slots s')) s').
Proof.
  intros Hi ((X & ->) & F & O). split_and!.
  - eexists. done.
  - intros j Hj. rewrite slot_value_set. destruct (decide (j = i)) as [->|Hne]; [by rewrite decide_True|].
    rewrite decide_False, F; [done..|]. intros E. by destruct (cell_inj _ _ _ _ Hi Hj E).
  - intros signal' j Hne Hj. rewrite slot_value_set, decide_False, O; [done..|]. intros E. by destruct (cell_inj _ _ _ _ Hi Hj E).
Qed.

Lemma rewritten_refl signal s : rewritten signal (fun i => slot_value s (cell signal i)) s s.
Proof. split; [exists (hs_slots s); by destruct s|done]. Qed.

Lemma rewritten_ext signal f g s s' : rewritten signal f s s' -> (forall i, 0 <= i < width -> f i = g i) -> rewritten signal g s s'.
Proof. intros (X & F & O) E. split_and!; [done| |done]. intros i Hi. by rewrite F, E. Qed.

Lemma rewritten_rep signal T l s s' : rep T s -> 0 <= signal < signals -> Z.of_nat (length l) <= width -> NoDup l ->
  rewritten signal (fun i => l !! Z.to_nat i) s s' -> rep (table_set T signal l) s'.
Proof.
  intros [E1 E2 E3 E4 E5] Hs Hl ND ((X & ->) & F & O). split; [done|done|..]; unfold table_set.
  - intros signal' i Hs' Hi. case_decide as E; [subst; by apply F|]. rewrite O by done. by apply E3.
  - intros signal' Hs'. case_decide; [done|by apply E4].
  - intros signal' Hs'. case_decide; [done|by apply E5].
Qed.

Lemma move_slots_spec signal s0 Q n : forall i f s, 0 <= signal < signals -> 0 <= i -> i + Z.of_nat n = width - 1 ->
  rewritten signal f s0 s ->
  (forall s', rewritten signal (fun j => if decide (i <= j < width - 1) then f (j + 1) else f j) s0 s' -> Q tt s') ->
  wp (move_slots_loop n (cell signal 0) i) Q s.
Proof.
  induction n as [|n IH]; intros i f s Hs Hi Hn RW HQ; simpl.
  - apply HQ. eapply rewritten_ext; [exact RW|]. intros j Hj. by rewrite decide_False by lia.
  - hstep. hstep. hstep. apply store_slot_spec; [lia..|]. rewrite subscriber_cell by lia.
    replace (slot_value s (cell signal (i + 1))) with (f (i + 1)) by (symmetry; apply RW; lia).
    eapply IH; [done|lia|lia|apply rewritten_store; [lia|exact RW]|]. intros s' RW'. apply HQ. eapply rewritten_ext; [exact RW'|].
    intros j Hj. cbn beta. repeat case_decide; subst; try lia; done.
Qed.

(** ** The calls *)

Definition without (a : active_ptr) (l : list active_ptr) : list active_ptr := filter (fun x => x <> a) l.

Lemma without_absent a l : a ∉ l -> without a l = l.
Proof.
  unfold without. induction l as [|x l IH]; [done|]. intros [Hx Hl]%not_elem_of_cons.
  rewrite filter_cons_True by congruence. by rewrite IH.
Qed.
Lemma delete_without a l : NoDup l -> forall j, l !! j = Some a -> delete j l = without a l.
Proof.
  induction 1 as [|x l Hx ND IH]; intros j Hj; [done|]. destruct j as [|j]; simpl in *.
  - injection Hj as ->. unfold without. rewrite filter_cons_False by (intros E; by apply E). symmetry. by apply without_absent.
  - unfold without. apply list_elem_of_lookup_2 in Hj as Ha. rewrite filter_cons_True by (by intros ->). by rewrite (IH j Hj).
Qed.

Lemma find_subscriber T s signal a : rep T s -> 0 <= signal < signals ->
  match find_slot_loop (Z.to_nat width) s (cell signal 0) (Some a) 0 with
  | Some j => 0 <= j < width /\ T signal !! Z.to_nat j = Some a
  | None => a ∉ T signal
  end.
Proof.
  intros R Hs. pose proof (sh_width _ _ _ SH). pose proof (find_slot_spec s (cell signal 0) (Some a) (Z.to_nat width) 0) as F.
  destruct (find_slot_loop _ _ _ _ _) as [j|].
  - destruct F as (Hj & F & _). rewrite subscriber_cell, (tr_slots _ _ _ _ _ _ R) in F by lia. split; [lia|done].
  - intros [j Hj]%list_elem_of_lookup. pose proof (lookup_lt_Some _ _ _ Hj). pose proof (tr_width _ _ _ _ _ _ R signal Hs).
    apply (F (Z.of_nat j)); [lia|]. rewrite subscriber_cell, (tr_slots _ _ _ _ _ _ R), Nat2Z.id by lia. done.
Qed.

Lemma find_room T s signal : rep T s -> 0 <= signal < signals ->
  find_slot_loop (Z.to_nat width) s (cell signal 0) None 0 =
    (if Z.of_nat (length (T signal)) <? width then Some (Z.of_nat (length (T signal))) else None).
Proof.
  intros R Hs. pose proof (sh_width _ _ _ SH). pose proof (find_slot_spec s (cell signal 0) None (Z.to_nat width) 0) as F.
  assert (Hc : forall k, 0 <= k < width -> subscriber_at s (cell signal 0) k = T signal !! Z.to_nat k).
  { intros k Hk. by rewrite subscriber_cell, (tr_slots _ _ _ _ _ _ R) by lia. }
  destruct (find_slot_loop _ _ _ _ _) as [j|].
  - destruct F as (Hj & F & L). rewrite Hc in F by lia. apply lookup_ge_None in F.
    destruct (decide (j = Z.of_nat (length (T signal)))) as [->|]; [by rewrite (proj2 (Z.ltb_lt _ _)) by lia|].
    exfalso. apply (L (Z.of_nat (length (T signal)))); [lia|]. rewrite Hc by lia. apply lookup_ge_None. lia.
  - destruct (Z.ltb_spec (Z.of_nat (length (T signal))) width); [|done]. exfalso.
    apply (F (Z.of_nat (length (T signal)))); [lia|]. rewrite Hc by lia. apply lookup_ge_None. lia.
Qed.

Lemma app_slots (l : list active_ptr) a i : 0 <= i ->
  (if decide (i = Z.of_nat (length l)) then Some a else l !! Z.to_nat i) = (l ++ [a]) !! Z.to_nat i.
Proof.
  intros Hi. case_decide as E.
  - rewrite E, Nat2Z.id, lookup_app_r, Nat.sub_diag by lia. done.
  - destruct (decide (i < Z.of_nat (length l))); [by rewrite lookup_app_l by lia|].
    rewrite lookup_app_r, (lookup_ge_None_2 l), (lookup_ge_None_2 [a]) by (simpl; lia). done.
Qed.

Lemma delete_slots (l : list active_ptr) j i : 0 <= j -> 0 <= i < width -> Z.of_nat (length l) <= width -> j < Z.of_nat (length l) ->
  (if decide (i = width - 1) then None else if decide (j <= i < width - 1) then l !! Z.to_nat (i + 1) else l !! Z.to_nat i) =
  delete (Z.to_nat j) l !! Z.to_nat i.
Proof.
  intros Hj Hi Hl Hjl. repeat case_decide.
  - symmetry. apply lookup_ge_None. rewrite length_delete by (apply lookup_lt_is_Some; lia). lia.
  - rewrite list_lookup_delete_ge by lia. f_equal. lia.
  - rewrite list_lookup_delete_lt by lia. done.
Qed.
Lemma snapshot_subscribers T s signal : rep T s -> 0 <= signal < signals ->
  snapshot_loop (Z.to_nat width) s (cell signal 0) 0 = T signal.
Proof.
  intros TR Hs. pose proof (sh_width _ _ _ SH). rewrite (snapshot_spec _ _ (T signal)); [done|lia| |].
  - intros k Hk. rewrite (subscriber_cell), (tr_slots _ _ _ _ _ _ TR) by lia. done.
  - pose proof (tr_width _ _ _ _ _ _ TR signal Hs). lia.
Qed.
End rep.
