(* ===== verification/HePubsubProps.v ===== *)
(** The properties of publish and subscribe ([haievent/src/he_pubsub.c]). *)
From S2P Require Import Prelude Types KState KernelBase Queue HeState HeEvent HeStateMachine HeActive HePubsub HeEventSpec HePubsubSpec Scenario.
From stdpp Require Import gmap list.
From Stdlib Require Import ZArith Lia.
Open Scope Z_scope.

(** ** Subscribing and unsubscribing *)

Inductive pubsub_op : Type := OpSubscribe (signal : Z) (a : active_ptr) | OpUnsubscribe (signal : Z) (a : active_ptr).

Definition exec_pubsub_op (p : pubsub_ptr) (op : pubsub_op) : M hstate hr_status :=
  match op with
  | OpSubscribe signal a => he_pubsub_subscribe (Some p) signal (Some a)
  | OpUnsubscribe signal a => he_pubsub_unsubscribe (Some p) signal (Some a)
  end.
Fixpoint exec_pubsub_ops (p : pubsub_ptr) (ops : list pubsub_op) : M hstate (list hr_status) :=
  match ops with
  | [] => retM []
  | op :: ops' =>
      let* r := exec_pubsub_op p op in
      let* rs := exec_pubsub_ops p ops' in
      retM (r :: rs)
  end.

(** The specification on the lists of subscribers; [valid] are the active objects. *)
Definition model_subscribe (width : Z) (a : active_ptr) (l : list active_ptr) : hr_status * list active_ptr :=
  if decide (a ∈ l) then (HR_ERROR_INVALID_STATE, l)
  else if Z.of_nat (length l) <? width then (HR_OK, l ++ [a]) else (HR_ERROR_NO_MEMORY, l).
Definition model_unsubscribe (a : active_ptr) (l : list active_ptr) : hr_status * list active_ptr :=
  if decide (a ∈ l) then (HR_OK, without a l) else (HR_ERROR_INVALID_STATE, l).
Definition model_pubsub_op (valid : active_ptr -> bool) (signals width : Z) (op : pubsub_op) (T : table) : hr_status * table :=
  let run signal a f :=
    if valid a && (HE_SIG_USER <=? signal) && (signal <? signals)
    then let r := f (T signal) in (fst r, table_set T signal (snd r)) else (HR_ERROR_INVALID_ARGUMENT, T) in
  match op with
  | OpSubscribe signal a => run signal a (model_subscribe width a)
  | OpUnsubscribe signal a => run signal a (model_unsubscribe a)
  end.
Fixpoint model_pubsub_ops (valid : active_ptr -> bool) (signals width : Z) (ops : list pubsub_op) (T : table)
  : list hr_status * table :=
  match ops with
  | [] => ([], T)
  | op :: ops' =>
      let r := model_pubsub_op valid signals width op T in
      let rs := model_pubsub_ops valid signals width ops' (snd r) in (fst r :: fst rs, snd rs)
  end.

Section rep.
Context (p : pubsub_ptr) (base signals width : Z).
Abbreviation rep := (table_rep p base signals width).
Abbreviation cell := (slot_cell base width).

Lemma rep_pubsub_valid T s : rep T s -> he_pubsub_is_valid s (Some p) = true.
Proof.
  intros R. unfold he_pubsub_is_valid. rewrite (tr_block _ _ _ _ _ _ R). simpl. destruct (tr_shape _ _ _ _ _ _ R). lia.
Qed.

Lemma rep_same T s s' : hs_pubsubs s' = hs_pubsubs s -> hs_slots s' = hs_slots s -> rep T s -> rep T s'.
Proof.
  intros E1 E2 []. unfold slot_value, pubsub_at in *. split; unfold slot_value, pubsub_at; rewrite ?E1, ?E2; done.
Qed.

(** Only slots change: the kernel and the active objects stay as they are. *)
Definition slots_only (s s' : hstate) : Prop := exists X, s' = hs_set_slots X s.

Lemma pubsub_call_spec T s signal a k Q : rep T s ->
  (if he_active_is_valid s (Some a) && (HE_SIG_USER <=? signal) && (signal <? signals)
   then wp (k (pubsub_at s p) (cell signal 0)) (fun st s' => Q st (unmasked (hs_kernel s) s')) (masked s)
   else Q HR_ERROR_INVALID_ARGUMENT s) ->
  wp (pubsub_call (Some p) signal (Some a) k) Q s.
Proof.
  intros R HQ. unfold pubsub_call. hstep. hstep. rewrite (rep_pubsub_valid _ _ R). cbn [negb orb].
  rewrite (tr_block _ _ _ _ _ _ R) in HQ |- *. cbn [ps_signal_count].
  destruct (he_active_is_valid s (Some a)); cbn [negb orb andb] in *; [|by hstep].
  destruct (Z.ltb_spec signal HE_SIG_USER); [rewrite (proj2 (Z.leb_gt _ _)) in HQ by lia; by hstep|].
  rewrite (proj2 (Z.leb_le _ _)) in HQ by lia. destruct (Z.leb_spec signals signal).
  - rewrite (proj2 (Z.ltb_ge _ _)) in HQ by lia. by hstep.
  - rewrite (proj2 (Z.ltb_lt _ _)) in HQ by lia. cbn [andb] in HQ. hstep. hstep. hstep.
    rewrite (slots_address base signals width (tr_shape _ _ _ _ _ _ R)) by (unfold HE_SIG_USER in *; lia).
    simpl with_slots. eapply wp_mono; [exact HQ|]. intros st s' HQ'. hsteps. exact HQ'.
Qed.

Lemma unmasked_slots X s : unmasked (hs_kernel s) (hs_set_slots X (masked s)) = hs_set_slots X s.
Proof. change (hs_set_slots X (unmasked (hs_kernel s) (masked s)) = hs_set_slots X s). by rewrite unmasked_masked. Qed.

(** The body of a call on the slots of a signal, run in the critical section. *)
Lemma body_spec T s signal l (Q : hstate -> Prop) : rep T s -> 0 <= signal < signals -> Z.of_nat (length l) <= width -> NoDup l ->
  (forall s', slots_only s s' -> rep (table_set T signal l) s' -> Q s') ->
  forall s1, rewritten base width signal (fun i => l !! Z.to_nat i) (masked s) s1 -> Q (unmasked (hs_kernel s) s1).
Proof.
  intros R Hs Hl ND HQ s1 RW. destruct RW as ((X & ->) & F & O). rewrite unmasked_slots. apply HQ; [by exists X|].
  apply (rewritten_rep p base signals width signal T l s); try done. split_and!; [by exists X|exact F|exact O].
Qed.

Lemma table_set_same T s signal : rep T s -> 0 <= signal < signals -> rep (table_set T signal (T signal)) s.
Proof.
  intros [E1 E2 E3 E4 E5] Hs. split; [done|done|..]; unfold table_set; intros; case_decide; subst; auto.
Qed.

Lemma subscribe_spec T s signal a Q : rep T s ->
  (forall s', let r := model_pubsub_op (fun a => he_active_is_valid s (Some a)) signals width (OpSubscribe signal a) T in
    slots_only s s' -> rep (snd r) s' -> Q (fst r) s') ->
  wp (he_pubsub_subscribe (Some p) signal (Some a)) Q s.
Proof.
  intros R HQ. assert (SH := tr_shape _ _ _ _ _ _ R). assert (Rm : rep T (masked s)) by (by apply (rep_same T s)).
  assert (Hid : slots_only s s) by (exists (hs_slots s); by destruct s). cbn zeta in HQ. unfold model_pubsub_op in HQ.
  apply (pubsub_call_spec T); [done|]. destruct (_ && _) eqn:Hg; [|by apply HQ].
  assert (Hs : 0 <= signal < signals) by (unfold HE_SIG_USER in *; lia). rewrite (tr_block _ _ _ _ _ _ R). cbn [ps_max_subscribers].
  hstep. hstep. pose proof (find_subscriber p base signals width SH T (masked s) signal a Rm Hs) as FS. unfold model_subscribe in HQ.
  destruct (find_slot_loop _ _ _ (Some a) _) as [j|].
  - destruct FS as [_ Hj]. rewrite decide_True in HQ by (by eapply list_elem_of_lookup_2). hstep. autorewrite with hstate.
    apply HQ; [done|]. by apply table_set_same.
  - rewrite decide_False in HQ by done. rewrite (find_room p base signals width SH T) by done.
    destruct (Z.ltb_spec (Z.of_nat (length (T signal))) width).
    + hstep. apply (store_slot_spec base signals width SH); [done|lia|]. hstep. cbn [fst snd] in HQ.
      eapply (body_spec T s signal (T signal ++ [a]) (Q HR_OK)); [done|done|rewrite length_app; simpl; lia| |exact HQ|].
      * apply NoDup_app. split_and!; [by apply (tr_distinct _ _ _ _ _ _ R)|intros x Hx ->%list_elem_of_singleton; done|apply NoDup_singleton].
      * eapply rewritten_ext; [eapply rewritten_store; [lia|apply rewritten_refl]|]. intros i Hi. cbn beta.
        rewrite (tr_slots _ _ _ _ _ _ Rm) by done. apply app_slots. lia.
    + hstep. autorewrite with hstate. apply HQ; [done|]. by apply table_set_same.
Qed.

Lemma unsubscribe_spec T s signal a Q : rep T s ->
  (forall s', let r := model_pubsub_op (fun a => he_active_is_valid s (Some a)) signals width (OpUnsubscribe signal a) T in
    slots_only s s' -> rep (snd r) s' -> Q (fst r) s') ->
  wp (he_pubsub_unsubscribe (Some p) signal (Some a)) Q s.
Proof.
  intros R HQ. assert (SH := tr_shape _ _ _ _ _ _ R). assert (Rm : rep T (masked s)) by (by apply (rep_same T s)).
  assert (Hid : slots_only s s) by (exists (hs_slots s); by destruct s). cbn zeta in HQ. unfold model_pubsub_op in HQ.
  apply (pubsub_call_spec T); [done|]. destruct (_ && _) eqn:Hg; [|by apply HQ].
  assert (Hs : 0 <= signal < signals) by (unfold HE_SIG_USER in *; lia). rewrite (tr_block _ _ _ _ _ _ R). cbn [ps_max_subscribers].
  hstep. hstep. pose proof (find_subscriber p base signals width SH T (masked s) signal a Rm Hs) as FS. unfold model_unsubscribe in HQ.
  destruct (find_slot_loop _ _ _ (Some a) _) as [j|].
  - destruct FS as [Hj Hja]. rewrite decide_True in HQ by (by eapply list_elem_of_lookup_2). cbn [fst snd] in HQ.
    pose proof (tr_distinct _ _ _ _ _ _ R signal Hs) as ND. pose proof (tr_width _ _ _ _ _ _ R signal Hs) as Hw.
    pose proof (lookup_lt_Some _ _ _ Hja) as Hl. rewrite <- (delete_without a _ ND _ Hja) in HQ.
    hstep. eapply (move_slots_spec base signals width SH signal (masked s)); [done|lia|lia|apply rewritten_refl|]. intros s1 RW1.
    hstep. apply (store_slot_spec base signals width SH); [done|lia|]. hstep.
    eapply (body_spec T s signal (delete (Z.to_nat j) (T signal)) (Q HR_OK)); [done|done| | |exact HQ|].
    + rewrite length_delete by eauto. lia.
    + apply (sublist_NoDup _ _ ND), sublist_delete.
    + eapply rewritten_ext; [eapply rewritten_store; [lia|exact RW1]|]. intros i Hi. cbn beta.
      rewrite <- (delete_slots width) by lia. repeat case_decide; try done; rewrite (tr_slots _ _ _ _ _ _ Rm) by lia; done.
  - rewrite decide_False in HQ by done. hstep. autorewrite with hstate. apply HQ; [done|]. by apply table_set_same.
Qed.
End rep.

Lemma pubsub_ops_refine p base signals width valid ops : forall T s, table_rep p base signals width T s ->
  (forall a, valid a = he_active_is_valid s (Some a)) ->
  wp (exec_pubsub_ops p ops) (fun rs s' => rs = fst (model_pubsub_ops valid signals width ops T) /\
    table_rep p base signals width (snd (model_pubsub_ops valid signals width ops T)) s' /\ slots_only s s') s.
Proof.
  induction ops as [|op ops IH]; intros T s R Hv; simpl.
  - apply wp_ret. split_and!; [done|done|]. exists (hs_slots s). by destruct s.
  - assert (Ev : model_pubsub_op valid signals width op T =
      model_pubsub_op (fun a => he_active_is_valid s (Some a)) signals width op T).
    { destruct op; simpl; by rewrite Hv. }
    rewrite Ev. apply wp_bind. assert (HS : wp (exec_pubsub_op p op) (fun r s' => slots_only s s' /\
      r = fst (model_pubsub_op (fun a => he_active_is_valid s (Some a)) signals width op T) /\
      table_rep p base signals width (snd (model_pubsub_op (fun a => he_active_is_valid s (Some a)) signals width op T)) s') s).
    { destruct op; simpl; [eapply subscribe_spec|eapply unsubscribe_spec]; eauto. }
    eapply wp_mono; [exact HS|]. intros r s1 ((X & ->) & -> & R1). apply wp_bind. eapply wp_mono; [apply (IH _ _ R1); exact Hv|].
    intros rs s2 (-> & R2 & (X' & ->)). apply wp_ret. split_and!; [done|done|by exists X'].
Qed.

Lemma subscriber_count_spec p base signals width T s signal : table_rep p base signals width T s -> 0 <= signal < signals ->
  he_pubsub_get_subscriber_count s (Some p) signal = Z.of_nat (length (T signal)).
Proof.
  intros R Hs. pose proof (tr_shape _ _ _ _ _ _ R) as SH. pose proof (sh_width _ _ _ SH).
  unfold he_pubsub_get_subscriber_count. rewrite (rep_pubsub_valid _ _ _ _ _ _ R), (tr_block _ _ _ _ _ _ R). cbn [negb orb ps_signal_count].
  rewrite (proj2 (Z.leb_gt _ _)) by lia. change he_pubsub_signal_slots_const with he_pubsub_signal_slots.
  rewrite (slots_address base signals width SH signal Hs). cbn [ps_max_subscribers].
  rewrite count_spec by (unfold HE_CFG_MAX_ACTIVE_OBJECTS, UINT32_MAX in *; lia).
  rewrite (snapshot_subscribers p base signals width SH T s signal R Hs). lia.
Qed.

(** C22: The table of subscribers is a list of distinct active objects per signal.  Any sequence
    of subscribe and unsubscribe calls returns what appending and removing return on these
    lists: INVALID_STATE for a second subscription and for the removal of an object that is
    not subscribed, NO_MEMORY when the slots of the signal are taken, INVALID_ARGUMENT for
    an invalid object or signal.  The order of the others is kept, the other signals and
    the rest of the state are unchanged, and the subscriber counts are exact. *)
Theorem pubsub_calls_refine_lists p base signals width T s ops :
  table_rep p base signals width T s ->
  let r := model_pubsub_ops (fun a => he_active_is_valid s (Some a)) signals width ops T in
  exists s', exec_pubsub_ops p ops s = Some (fst r, s') /\ table_rep p base signals width (snd r) s' /\ slots_only s s' /\
    forall signal, 0 <= signal < signals ->
      he_pubsub_get_subscriber_count s' (Some p) signal = Z.of_nat (length (snd r signal)).
Proof.
  intros R r. destruct (wp_run _ _ _ (pubsub_ops_refine p base signals width (fun a => he_active_is_valid s (Some a)) ops T s R ltac:(done)))
    as (rs & s' & E & -> & R' & SO).
  exists s'. split_and!; [exact E|exact R'|exact SO|]. intros signal Hs. exact (subscriber_count_spec p base signals width _ s' signal R' Hs).
Qed.

(** ** Initialisation and an example *)
Lemma zero_slots_spec n base : forall i s Q,
  (forall X, (forall j, i <= j < i + Z.of_nat n -> X !!! u32 (base + sizeof_pointer * j) = None) ->
    (forall x, slot_value s x = None -> X !!! x = None) -> Q tt (hs_set_slots X s)) ->
  wp (zero_slots_loop n base i) Q s.
Proof.
  induction n as [|n IH]; intros i s Q HQ; simpl.
  - apply wp_ret. pose proof (HQ (hs_slots s)) as HQ'. replace (hs_set_slots (hs_slots s) s) with s in HQ' by (by destruct s).
    apply HQ'; [intros; lia|done].
  - hstep. unfold set_slot. apply wp_modify. apply IH. intros X H1 H2. apply HQ.
    + intros j Hj. destruct (decide (j = i)) as [->|]; [|apply H1; lia]. apply H2. rewrite slot_value_set. by rewrite decide_True.
    + intros x Hx. apply H2. rewrite slot_value_set. by case_decide.
Qed.

Lemma pubsub_init_spec p base signals width s : shape base signals width -> he_pubsub_is_valid s (Some p) = false ->
  exists s', he_pubsub_init (Some p) (Some base) signals width s = Some (HR_OK, s') /\
    table_rep p base signals width (fun _ => []) s' /\ hs_kernel s' = hs_kernel s /\ hs_actives s' = hs_actives s /\
    hs_machines s' = hs_machines s /\ hs_events s' = hs_events s /\ hs_pools s' = hs_pools s.
Proof.
  intros SH Hv. apply wp_returns. unfold he_pubsub_init. pose proof SH as [S1 S2 S3 S4].
  rewrite (proj2 (Z.leb_gt _ _)), (proj2 (Z.ltb_ge _ _)), (proj2 (Z.eqb_neq _ _)), (proj2 (Z.ltb_ge _ _)) by lia. cbn [orb].
  hstep. hstep. rewrite Hv. hstep. apply zero_slots_spec. intros X HX _. unfold upd_pubsub, pubsub_at.
  repeat (hstep; try apply wp_modify; cbn [hs_set_pubsubs hs_pubsubs]). split; [done|]. simpl. split_and!; try done.
  split; [unfold pubsub_at; simpl; by rewrite !lookup_total_insert_eq|done| |simpl; lia|intros; apply NoDup_nil_2].
  intros signal i Hs Hi. unfold slot_value. simpl. rewrite lookup_nil. destruct (cell_range base signals width SH signal i Hs Hi) as [C1 C2].
  unfold slot_cell in *. rewrite <- (u32_small (base + _)) by (unfold sizeof_pointer in *; lia). apply HX.
  assert ((signal + 1) * width <= signals * width) by nia. assert (0 <= signal * width) by nia. lia.
Qed.

(** The active object 2, with a table of 64 signals and two slots each. *)
#[export] Instance example_frames : Frames :=
  {| event_variable := fun _ => 0x20006000; address_of_he_active_task_entry := 0x08000401;
     address_of_active := fun a => 0x20007000 + 256 * Z.of_N a |}.
Definition h_active : hstate :=
  run_state (he_active_create_static (Some 2%N) (Some 0x08005000) (Some 100) None (Some 0x20004000) 2 (Some 0x20001000) 64 3)
    (mk_hstate s_init ∅ ∅ ∅ ∅ ∅ ∅ ∅).
Definition h_table : hstate := run_state (he_pubsub_init (Some 9%N) (Some 0x20009000) 64 2) h_active.

Lemma example_shape : shape 0x20009000 64 2.
Proof. by split; vm_compute. Qed.

Lemma h_table_rep : table_rep 9%N 0x20009000 64 2 (fun _ => []) h_table.
Proof.
  destruct (pubsub_init_spec 9%N 0x20009000 64 2 h_active example_shape) as (s' & E & R & _); [vm_compute; reflexivity|].
  unfold h_table, run_state. rewrite E. exact R.
Qed.

Definition h_pubsub_ops : list pubsub_op :=
  [OpSubscribe 40 2%N; OpSubscribe 40 2%N; OpSubscribe 40 3%N; OpUnsubscribe 40 2%N; OpUnsubscribe 40 2%N; OpSubscribe 64 2%N].

Lemma pubsub_calls_refine_lists_witness : exists s',
  exec_pubsub_ops 9%N h_pubsub_ops h_table = Some ([HR_OK; HR_ERROR_INVALID_STATE; HR_ERROR_INVALID_ARGUMENT; HR_OK;
    HR_ERROR_INVALID_STATE; HR_ERROR_INVALID_ARGUMENT], s') /\ he_pubsub_get_subscriber_count s' (Some 9%N) 40 = 0.
Proof.
  destruct (pubsub_calls_refine_lists 9%N 0x20009000 64 2 (fun _ => []) h_table h_pubsub_ops h_table_rep) as (s' & E & _ & _ & C).
  exists s'. assert (V2 : he_active_is_valid h_table (Some 2%N) = true) by (vm_compute; reflexivity).
  assert (V3 : he_active_is_valid h_table (Some 3%N) = false) by (vm_compute; reflexivity).
  cbn [h_pubsub_ops model_pubsub_ops model_pubsub_op fst snd] in E, C. rewrite V2, V3 in E, C. split; [exact E|exact (C 40 ltac:(lia))].
Defined.
