(* ===== verification/HePublishProps.v ===== *)
(** Posting and publishing ([haievent/src/he_active.c], [he_pubsub.c]): what happens to the
    references of an event. *)
From S2P Require Import Prelude Types KState KernelBase KernelInv KernelTasks KernelSpec Kernel Queue SemaphoreSpec QueueSpec SystemSpec Scenario HeState HeEvent HeStateMachine HeActive HePubsub HeEventSpec HeEventProps HePubsubSpec HePubsubProps.
From stdpp Require Import gmap list.
From Stdlib Require Import ZArith Lia.
Open Scope Z_scope.

(** ** What posting relies on: the kernel's queues *)

(** A state of the kernel in which sending without a wait time returns, and which such
    calls and the writing of messages keep. *)
Class Posts `{Config} (Inv : kstate -> Prop) : Prop := {
  posts_bytes : forall B s, Inv s -> Inv (ks_set_bytes B s);
  posts_send : forall q item s, Inv s ->
    wp (hr_queue_send (Some q) (Some item) HR_NO_WAIT) (fun r s' => Inv s' /\ exists status, r = Returns status) s;
}.

(** The kernel delivers: every consistent running state is one. *)
#[export] Instance kernel_posts `{Config} T : Posts (consistent HR_KERNEL_STATE_RUNNING T).
Proof.
  split.
  - intros B s (D & (V & b & KC & NE & PT) & HK). exists D. split; [|done]. exists V, b. split; [by apply kcore_bytes|done].
  - intros q item s RK. pose proof RK as (D & (V & b & KC & NE & PT) & HK). unfold hr_queue_send.
    destruct (hr_queue_is_valid s (Some q)) eqn:Ev.
    2: { unfold queue_task_call. wp_step. wp_step. rewrite Ev. cbn [negb]. wp_step. eauto. }
    destruct (hr_port_is_inside_isr s) eqn:Ei.
    { unfold queue_task_call. wp_step. wp_step. rewrite Ev, Ei. cbn [negb]. wp_step. eauto. }
    apply valid_queue in Ev. apply (queue_task_call_spec T D b s V); try done.
    assert (KC0 : kcore T D (QueueSpec.masked s) V b nobody) by (by apply kcore_port).
    assert (RK0 : consistent HR_KERNEL_STATE_RUNNING T (QueueSpec.masked s)) by (by apply consistent_port).
    assert (Hfin : forall r s1, consistent HR_KERNEL_STATE_RUNNING T s1 ->
      consistent HR_KERNEL_STATE_RUNNING T (pend_if (switch_wanted r) (with_port (ks_port s) s1))).
    { intros r s1 RK1. unfold pend_if. destruct (switch_wanted r); by repeat apply consistent_port. }
    destruct (queue_waiters T D b s V q KC Ev (QueueReceiveWaiters q) ltac:(auto)) as [rs Hrs].
    destruct (queue_waiters T D b s V q KC Ev (QueueSendWaiters q) ltac:(auto)) as [ss Hss].
    apply (send_locked_spec T D b (QueueSpec.masked s) V q KC0 NE Ev rs ss item HR_NO_WAIT true g_idle_task);
      [done|done|unfold HR_NO_WAIT, UINT32_MAX; lia|by intros _ []|..].
    + intros u us buffer B f s' V' _ _ _ QW.
      destruct (consistent_queue_woke T D (ks_set_bytes B (QueueSpec.masked s)) s' V' b u f QW HK PT) as [Hp RK'].
      split; [exact Hp|]. split; [by apply Hfin|by eexists].
    + intros B _ _ _ KC'. split; [done|]. split; [|by eexists]. apply Hfin. by apply (consistent_set_queue T (QueueSpec.masked s) D V b).
    + intros _ _ _. split; [done|]. split; [by apply Hfin|by eexists].
    + done.
    + by intros s' V' _ _ [].
Qed.

(** ** Delivering an event to active objects *)
Section publish.
Context `{Config} `{Frames} (Inv : kstate -> Prop) `{!Posts Inv}.
Context (pl : pool_ptr) (base bsize count : Z) (e : Z).
Abbreviation rep := (pool_rep pl base bsize count).

Lemma store_pointer_spec a v Q k : (forall B, Q tt (ks_set_bytes B k)) -> wp (store_pointer a v) Q k.
Proof. intros HQ. unfold store_pointer, write_byte. wp_steps. apply (HQ _). Qed.

(** The representation of a pool does not depend on the kernel. *)
Lemma rep_kernel free live k s : rep free live s -> rep free live (hs_set_kernel k s).
Proof.
  intros [E1 E2 E3 E4 E5 G C P ST LV]. split; try done; [by eapply free_chain_ext; [|exact C]|].
  intros a n L. destruct (LV a n L). by split.
Qed.

(** What posting keeps of the rest of the framework. *)
Definition same_table (s s' : hstate) : Prop := hs_pubsubs s' = hs_pubsubs s /\ hs_slots s' = hs_slots s.

Lemma post_spec free live n a s Q : Inv (hs_kernel s) -> rep free live s -> live !! e = Some n ->
  (forall status k, Inv k -> Q (Done status) (hs_set_kernel k s)) ->
  wp (he_active_post (Some a) (Some e) HR_NO_WAIT) Q s.
Proof.
  intros HI R L HQ. unfold he_active_post. hstep. hstep.
  assert (Hid : hs_set_kernel (hs_kernel s) s = s) by (by destruct s).
  destruct (he_active_is_valid s (Some a)); cbn [negb].
  2: { hstep. pose proof (HQ HR_ERROR_INVALID_ARGUMENT _ HI) as HQ'. by rewrite Hid in HQ'. }
  hstep. apply (wp_event_valid _ true); [exact (live_is_valid _ _ _ _ _ _ _ _ _ R L)|]. cbn [negb].
  hstep. apply wp_lift, store_pointer_spec. intros B. hstep. apply wp_lift.
  eapply wp_mono; [apply posts_send; by apply posts_bytes|]. intros r k (HI' & status & ->). hstep. exact (HQ status k HI').
Qed.

Lemma recount_twice a n m s : recount a n (recount a m s) = recount a n s.
Proof. unfold recount. rewrite event_at_set_eq, set_event_twice. done. Qed.

Lemma post_shared_spec free live n a s Q : Inv (hs_kernel s) -> rep free live s -> live !! e = Some n -> n < UINT16_MAX ->
  (forall status s', Inv (hs_kernel s') -> rep free (if ok status then <[e := n + 1]> live else live) s' -> same_table s s' ->
    Q (Done status) s') ->
  wp (he_active_post_shared (Some a) (Some e) HR_NO_WAIT) Q s.
Proof.
  intros HI R L Hn HQ. pose proof (le_range _ _ _ _ (pr_live _ _ _ _ _ _ _ R _ _ L)) as Hr.
  unfold he_active_post_shared. hstep. apply (event_retain_spec _ _ _ _ _ _ _ _ _ _ R L). rewrite (proj2 (Z.eqb_neq _ _)) by lia.
  change (negb (ok HR_OK)) with false. cbn iota. unfold bindC. hstep.
  assert (R1 : rep free (<[e := n + 1]> live) (recount e (n + 1) s)) by (apply (rep_recount _ _ _ _ _ _ _ _ _ _ R L); lia).
  assert (L1 : <[e := n + 1]> live !! e = Some (n + 1)) by apply lookup_insert_eq.
  apply (post_spec free _ (n + 1) a (recount e (n + 1) s) _ HI R1 L1). intros status k HI'. cbn [bind_call].
  apply (rep_kernel _ _ k) in R1. destruct (ok status) eqn:Es; cbn [negb]; hstep.
  - hstep. hstep. apply HQ; [exact HI'|rewrite Es; exact R1|done].
  - unfold ignoreM. hstep. apply (event_release_spec _ _ _ _ _ _ _ _ _ _ R1 L1). rewrite (proj2 (Z.eqb_neq _ _)) by lia.
    replace (n + 1 - 1) with n by lia. hstep. hstep. apply HQ; [exact HI'| |done]. rewrite Es.
    pose proof (rep_recount _ _ _ _ _ _ _ _ _ n R1 L1 ltac:(lia)) as R2. by rewrite insert_insert_eq, insert_id in R2.
Qed.

Lemma deliver_spec free live Q snapshot : forall n delivered overall s, Inv (hs_kernel s) ->
  rep free (<[e := n]> live) s -> n + Z.of_nat (length snapshot) <= UINT16_MAX -> 1 <= n -> 0 <= delivered ->
  delivered + Z.of_nat (length snapshot) <= UINT32_MAX ->
  (forall status d s', 0 <= d <= Z.of_nat (length snapshot) -> Inv (hs_kernel s') -> rep free (<[e := n + d]> live) s' -> same_table s s' ->
    (status = HR_OK <-> overall = HR_OK /\ d = Z.of_nat (length snapshot)) -> Q (Done (status, delivered + d)) s') ->
  wp (deliver_loop snapshot (Some e) HR_NO_WAIT delivered overall) Q s.
Proof.
  induction snapshot as [|a snapshot IH]; intros n delivered overall s HI R Hn H1 Hd Hdn HQ; simpl in *.
  - pose proof (HQ overall 0 s) as HQ'. rewrite !Z.add_0_r in HQ'. apply HQ'; try done; tauto.
  - unfold bindC. hstep. apply (post_shared_spec free (<[e := n]> live) n a s); [done|done|apply lookup_insert_eq|lia|]. intros status s1 HI1 R1 [ST1 ST2].
    cbn [bind_call]. destruct (ok status) eqn:Es.
    + rewrite insert_insert_eq in R1. rewrite u32_small by lia. apply (IH (n + 1)); [done|done|lia|lia|lia|lia|].
      intros status' d s' Hd' HI' R' [ST1' ST2'] Hst. replace (delivered + 1 + d) with (delivered + (1 + d)) by lia.
      apply HQ; [lia|done|by replace (n + (1 + d)) with (n + 1 + d) by lia|split; congruence|]. rewrite Hst. split; intros [? ?]; split; try done; lia.
    + apply (IH n); [done|done|lia|lia|lia|lia|]. intros status' d s' Hd' HI' R' [ST1' ST2'] Hst.
      apply HQ; [lia|done|done|split; congruence|]. rewrite Hst. unfold ok in *. apply bool_decide_eq_false in Es.
      case_bool_decide; split; intros [? ?]; lia || done.
Qed.

Context (p : pubsub_ptr) (tb signals width : Z).

(** The references after a publisher gives one up and [d] deliveries take one each. *)
Definition settled_free (n d : Z) (free : list Z) : list Z := if n + d =? 1 then e :: free else free.
Definition settled_live (n d : Z) (live : gmap Z Z) : gmap Z Z := if n + d =? 1 then delete e live else <[e := n + d - 1]> live.

Lemma publish_release_spec free live n status s Q : rep free (<[e := n]> live) s -> 1 <= n <= UINT16_MAX ->
  (forall s', rep (settled_free n 0 free) (settled_live n 0 live) s' -> hs_kernel s' = hs_kernel s -> same_table s s' -> Q status s') ->
  wp (publish_release (Some e) status) Q s.
Proof.
  intros R Hn HQ. assert (L : <[e := n]> live !! e = Some n) by apply lookup_insert_eq. unfold settled_free, settled_live in HQ.
  rewrite Z.add_0_r in HQ. unfold publish_release. hstep. apply (wp_intro _ _ _ _ _ (live_is_dynamic _ _ _ _ _ _ _ _ _ R L)).
  hstep. apply (event_release_spec _ _ _ _ _ _ _ _ _ _ R L). destruct (Z.eqb_spec n 1); hstep; simpl; apply HQ; try done.
  - pose proof (rep_freed _ _ _ _ _ _ _ _ _ R L) as R'. by rewrite delete_insert_eq in R'.
  - pose proof (rep_recount _ _ _ _ _ _ _ _ _ (n - 1) R L ltac:(lia)) as R'. by rewrite insert_insert_eq in R'.
Qed.

(** C21: Publishing a dynamic event without a wait time, when its count has room for one
    reference per subscriber, returns and balances the references: every
    delivery holds one reference, the publisher's own is given up, and the block returns
    to its pool exactly when nobody holds the event.  The status is OK exactly when every
    subscriber received it, and the table of subscribers is unchanged. *)
Theorem publish_balances_references T free live n s :
  Inv (hs_kernel s) -> rep free live s -> live !! e = Some n -> table_rep p tb signals width T s ->
  HE_SIG_USER <= ev_signal (event_at s e) < signals ->
  n + Z.of_nat (length (T (ev_signal (event_at s e)))) <= UINT16_MAX ->
  exists status d s', he_pubsub_publish (Some p) (Some e) HR_NO_WAIT s = Some (Done (status, d), s') /\
    0 <= d <= Z.of_nat (length (T (ev_signal (event_at s e)))) /\
    (status = HR_OK <-> d = Z.of_nat (length (T (ev_signal (event_at s e))))) /\
    rep (settled_free n d free) (settled_live n d live) s' /\ table_rep p tb signals width T s' /\ Inv (hs_kernel s').
Proof.
  intros HI R L TR Hsig Hn. set (signal := ev_signal (event_at s e)) in *. pose proof (tr_shape _ _ _ _ _ _ TR) as SH.
  pose proof (le_range _ _ _ _ (pr_live _ _ _ _ _ _ _ R _ _ L)) as Hr.
  assert (Hs : 0 <= signal < signals) by (unfold HE_SIG_USER in *; lia).
  enough (HW : wp (he_pubsub_publish (Some p) (Some e) HR_NO_WAIT) (fun c s' => exists status d, c = Done (status, d) /\
    0 <= d <= Z.of_nat (length (T signal)) /\ (status = HR_OK <-> d = Z.of_nat (length (T signal))) /\
    rep (settled_free n d free) (settled_live n d live) s' /\ same_table s s' /\ Inv (hs_kernel s')) s).
  { destruct (wp_run _ _ _ HW) as (c & s' & E & status & d & -> & ? & ? & ? & [S1 S2] & ?). exists status, d, s'.
    split_and!; try done; try tauto. by apply (HePubsubProps.rep_same p tb signals width T s). }
  unfold he_pubsub_publish. hstep. hstep. rewrite (HePubsubProps.rep_pubsub_valid p tb signals width T s TR). cbn [negb].
  hstep. apply (wp_event_valid _ true); [exact (live_is_valid _ _ _ _ _ _ _ _ _ R L)|]. cbn [negb orb]. fold signal.
  rewrite (proj2 (Z.ltb_ge _ _)), (tr_block _ _ _ _ _ _ TR) by lia. cbn [ps_signal_count ps_max_subscribers].
  rewrite (proj2 (Z.leb_gt _ _)) by lia. hstep. hstep. rewrite (slots_address tb signals width SH signal Hs). cbn [with_slots].
  rewrite (snapshot_subscribers p tb signals width SH T s signal TR Hs). hstep. hstep. unfold bindC. hstep.
  assert (R0 : rep free (<[e := n]> live) s) by (by rewrite insert_id).
  pose proof (tr_width _ _ _ _ _ _ TR signal Hs). pose proof (sh_width _ _ _ SH).
  apply (deliver_spec free live _ (T signal) n 0 HR_OK s HI R0); [lia|lia|lia|unfold HE_CFG_MAX_ACTIVE_OBJECTS, UINT32_MAX in *; lia|].
  intros status d s1 Hd HI1 R1 [S1 S2] Hst. cbn [bind_call fst snd]. hstep.
  apply (publish_release_spec free live (n + d) status s1 _ R1 ltac:(lia)). intros s2 R2 K2 [S3 S4]. hstep.
  exists status, d. unfold settled_free, settled_live in *. rewrite Z.add_0_r in R2. rewrite K2.
  split; [by rewrite Z.add_0_l|]. split; [done|]. split; [tauto|]. split; [exact R2|]. split; [split; congruence|done].
Qed.
End publish.

(** ** An event published to an active object *)
Definition k_object : kstate := run_state (hr_queue_create_static (Some 2%N) (Some 0x20004000) 4 2) s_run.
Lemma runs_object : run_call (CallQueue 2%N 0x20004000 4 2) s_run = Some k_object.
Proof. cbn [run_call]. unfold k_object. apply run_snd. vm_compute. eexists. reflexivity. Qed.
Lemma reachable_object : reachable k_object.
Proof.
  eapply reachable_step; [exact reachable_s_run|]. eapply (step_call s_run k_object 2%N _ running_s_run); [discriminate| |exact runs_object].
  vm_compute. intuition congruence.
Qed.

(** The running task 2 is an active object with that queue; a new event of signal 40. *)
Definition h_object : hstate :=
  mk_hstate k_object ∅ ∅ {[2%N := mk_sm (Some 100) (Some 100) None None HE_CFG_STATE_MACHINE_MAGIC true]}
    {[2%N := mk_ao (Some 0x08005000) HE_CFG_ACTIVE_MAGIC]} ∅ ∅ ∅.
Definition h_event : hstate :=
  run_state (he_event_new (Some 1%N) 40 16) (run_state (he_event_pool_init (Some 1%N) (Some 0x20008000) 16 2) h_object).
Definition h_slots : hstate := run_state (he_pubsub_init (Some 9%N) (Some 0x20009000) 64 2) h_event.
Definition h_publish : hstate := run_state (he_pubsub_subscribe (Some 9%N) 40 (Some 2%N)) h_slots.

Lemma h_publish_table : table_rep 9%N 0x20009000 64 2 (table_set (fun _ => []) 40 [2%N]) h_publish.
Proof.
  destruct (pubsub_init_spec 9%N 0x20009000 64 2 h_event example_shape) as (s' & E & R & _); [vm_compute; reflexivity|].
  assert (R0 : table_rep 9%N 0x20009000 64 2 (fun _ => []) h_slots) by (unfold h_slots, run_state; rewrite E; exact R).
  assert (V2 : he_active_is_valid h_slots (Some 2%N) = true) by (vm_compute; reflexivity).
  assert (HW := subscribe_spec 9%N 0x20009000 64 2 (fun _ => []) h_slots 40 2%N
    (fun _ s' => table_rep 9%N 0x20009000 64 2 (table_set (fun _ => []) 40 [2%N]) s') R0).
  destruct (wp_run _ _ _ (HW ltac:(intros s1 r _ R1; unfold r in R1; cbn [model_pubsub_op] in R1; rewrite V2 in R1; exact R1)))
    as (st & s1 & E1 & R1).
  unfold h_publish, run_state. rewrite E1. exact R1.
Qed.

Lemma h_publish_pool : pool_rep 1%N 0x20008000 16 2 [0x20008010] {[0x20008000 := 1]} h_publish.
Proof.
  split; [vm_compute; reflexivity..| | | | |].
  - by split; vm_compute.
  - split; [vm_compute; reflexivity|]. exists None. split; vm_compute; reflexivity.
  - rewrite dom_singleton_L, elements_singleton. vm_compute. apply Permutation_swap.
  - intros a ->%list_elem_of_singleton. by vm_compute.
  - intros a n [<- <-]%lookup_singleton_Some. split; by vm_compute.
Qed.

Lemma run_state_wp {S A} (m : M S A) (P : S -> Prop) s : wp m (fun _ => P) s -> P (run_state m s).
Proof. unfold wp, run_state. by destruct (m s) as [[]|]. Qed.

(** The framework's own calls change at most bytes of the kernel's state. *)
Lemma h_publish_kernel : exists T, consistent HR_KERNEL_STATE_RUNNING T (hs_kernel h_publish).
Proof.
  destruct (reachable_consistent k_object idle_stack_fits reachable_object) as (T & _ & CS). exists T.
  assert (G : geometry 0x20008000 16 2) by (by split; vm_compute).
  destruct (event_pool_init_run 1%N 0x20008000 16 2 h_object G) as (s1 & E1 & R1 & K1 & _);
    [reflexivity|reflexivity|vm_compute; reflexivity|intros a _; unfold event_at, h_object; cbn [hs_events]; by rewrite lookup_total_empty|].
  assert (C2 : consistent HR_KERNEL_STATE_RUNNING T (hs_kernel h_event)).
  { unfold h_event. unfold run_state at 2. rewrite E1. apply (run_state_wp _ (fun s => consistent HR_KERNEL_STATE_RUNNING T (hs_kernel s))).
    apply (new_spec _ _ _ _ _ _ _ _ _ _ _ R1); [done|]. intros next k _ (B & -> & _). cbn. apply posts_bytes. rewrite K1. exact CS. }
  destruct (pubsub_init_spec 9%N 0x20009000 64 2 h_event example_shape) as (s3 & E3 & R3 & K3 & _); [vm_compute; reflexivity|].
  assert (C3 : consistent HR_KERNEL_STATE_RUNNING T (hs_kernel h_slots)) by (unfold h_slots, run_state; rewrite E3, K3; exact C2).
  assert (R0 : table_rep 9%N 0x20009000 64 2 (fun _ => []) h_slots) by (unfold h_slots, run_state; rewrite E3; exact R3).
  unfold h_publish. apply (run_state_wp _ (fun s => consistent HR_KERNEL_STATE_RUNNING T (hs_kernel s))).
  apply (subscribe_spec 9%N 0x20009000 64 2 _ _ _ _ _ R0). intros s' r (X & ->) _. exact C3.
Qed.

Lemma publish_balances_references_witness : exists T status d s',
  consistent HR_KERNEL_STATE_RUNNING T (hs_kernel h_publish) /\
  he_pubsub_publish (Some 9%N) (Some 0x20008000) HR_NO_WAIT h_publish = Some (Done (status, d), s') /\
  pool_rep 1%N 0x20008000 16 2 (settled_free 0x20008000 1 d [0x20008010]) (settled_live 0x20008000 1 d {[0x20008000 := 1]}) s'.
Proof.
  destruct h_publish_kernel as [T CS]. exists T.
  assert (Es : ev_signal (event_at h_publish 0x20008000) = 40) by (vm_compute; reflexivity).
  destruct (publish_balances_references (consistent HR_KERNEL_STATE_RUNNING T) 1%N 0x20008000 16 2 0x20008000 9%N 0x20009000 64 2
    (table_set (fun _ => []) 40 [2%N]) [0x20008010] {[0x20008000 := 1]} 1 h_publish CS h_publish_pool (lookup_singleton_eq _ _) h_publish_table)
    as (status & d & s' & E & _ & _ & R & _ & _); [rewrite Es; unfold HE_SIG_USER; lia|rewrite Es; vm_compute; discriminate|].
  exists status, d, s'. split; [exact CS|]. split; [exact E|exact R].
Defined.

(** The delivery: one message in the queue, one reference, held by it. *)
Example published :
  (match he_pubsub_publish (Some 9%N) (Some 0x20008000) HR_NO_WAIT h_publish with
   | Some (Done (status, d), s') =>
       Some (status, d, hr_queue_get_count (hs_kernel s') (Some 2%N), fst <$> he_event_get_reference_count (Some 0x20008000) s')
   | _ => None end) = Some (HR_OK, 1, 1, Some 1).
Proof. vm_compute. reflexivity. Qed.
