(* ===== verification/HeActiveProps.v ===== *)
(** The properties of active objects ([haievent/src/he_active.c]): events go through the
    queue of an object in order, and each turn of its task dispatches one. *)
From S2P Require Import Prelude Types HrList HrListSpec Store Scheduler SchedulerSpec Timeout TimeoutSpec KState KernelBase KernelInv KernelTasks KernelSpec Kernel Queue SemaphoreSpec QueueSpec SystemSpec Scenario QueueProps HeState HeEvent HeStateMachine HeActive HeEventSpec HeEventProps HePubsub HePubsubSpec HePubsubProps HePublishProps.
From stdpp Require Import gmap list.
From Stdlib Require Import ZArith Lia.
Open Scope Z_scope.

(** ** Pointers in byte memory *)

Definition pointer_bytes (p : Z) : list Z := [p mod 256; p / 256 mod 256; p / 65536 mod 256; p / 16777216 mod 256].

(** The memory [B] is that of [s] with a pointer stored at [a]. *)
Record stored (s : kstate) (B : gmap Z Z) (a p : Z) : Prop := {
  st_frame : forall r m, apart a 4 r m -> bytes_at (ks_set_bytes B s) r m = bytes_at s r m;
  st_value : bytes_at (ks_set_bytes B s) a 4 = pointer_bytes p;
}.

Lemma bytes_at_four s a : bytes_at s a 4 = [read_byte s (u32 (a + 0)); read_byte s (u32 (a + 1)); read_byte s (u32 (a + 2)); read_byte s (u32 (a + 3))].
Proof. done. Qed.

Lemma store_pointer_stored a v Q k : 0 <= a <= UINT32_MAX - 3 ->
  (forall B, stored k B a (default 0 v) -> Q tt (ks_set_bytes B k)) -> wp (store_pointer a v) Q k.
Proof.
  intros Ha HQ. unfold store_pointer, write_byte. wp_steps. rewrite !u32_small by lia. apply (HQ _). split.
  - intros r m Hap. apply list_fmap_ext. intros i x Hi. apply lookup_seqZ in Hi as [-> Hi]. unfold read_byte. simpl.
    change (0 + Z.of_nat i) with (Z.of_nat i) in *.
    assert (HN : forall j, 0 <= j < 4 -> a + j <> u32 (r + Z.of_nat i)).
    { intros j Hj E. apply (Hap j (Z.of_nat i)); [lia|lia|]. by rewrite u32_small by lia. }
    pose proof (HN 0 ltac:(lia)) as H0. rewrite Z.add_0_r in H0.
    rewrite (lookup_total_insert_ne _ (a + 3)), (lookup_total_insert_ne _ (a + 2)), (lookup_total_insert_ne _ (a + 1)),
      (lookup_total_insert_ne _ a) by (exact H0 || (apply HN; lia)). done.
  - rewrite bytes_at_four, !u32_small by lia. rewrite Z.add_0_r. unfold read_byte, pointer_bytes. simpl.
    rewrite !lookup_total_insert_ne, !lookup_total_insert_eq by lia.
    rewrite !(lookup_total_insert_ne _ (a + 3) (a + 1)), (lookup_total_insert_ne _ (a + 2) (a + 1)), lookup_total_insert_eq,
      !(lookup_total_insert_ne _ (a + 3) (a + 2)), lookup_total_insert_eq by lia. done.
Qed.

Lemma load_pointer_bytes s a p : 0 <= a <= UINT32_MAX - 3 -> 0 < p <= UINT32_MAX -> bytes_at s a 4 = pointer_bytes p ->
  load_pointer s a = Some p.
Proof.
  intros Ha Hp. rewrite bytes_at_four, Z.add_0_r, (u32_small a) by lia. unfold pointer_bytes. intros [= E0 E1 E2 E3].
  unfold load_pointer. rewrite E0, E1, E2, E3.
  assert (E : p mod 256 + 256 * (p / 256 mod 256) + 65536 * (p / 65536 mod 256) + 16777216 * (p / 16777216 mod 256) = p).
  { unfold UINT32_MAX in Hp. Z.to_euclidean_division_equations. lia. }
  rewrite E, (proj2 (Z.eqb_neq _ _)) by lia. done.
Qed.

Lemma messages_stored s q B a p : queue_range (queue_at s q) -> stored s B a p ->
  apart (default 0 (q_storage (queue_at s q))) (q_item_size (queue_at s q) * q_capacity (queue_at s q)) a 4 ->
  messages (ks_set_bytes B s) q = messages s q.
Proof.
  intros R ST Hap. apply list_fmap_ext. intros k x Hk. apply (st_frame _ _ _ _ ST), apart_sym.
  apply slot_apart_region; [done| |done]. apply Z.mod_pos_bound, R.
Qed.

(** ** Posting and receiving *)

(** The context of a call on the active object [a]: the kernel is consistent and running
    outside interrupts, the variable whose address goes to the queue is memory outside the
    queue's storage, and [rs] and [ss] wait at the queue. *)
Record object_context `{Frames} (T : Z) (D : node_addr -> Z) (V : view) (b : phase) (a : active_ptr)
    (rs ss : list node_addr) (s : hstate) : Prop := {
  oc_core : kcore T D (hs_kernel s) V b nobody;
  oc_expired : no_expired (hs_kernel s);
  oc_phase : ph_timers b = T;
  oc_running : g_kernel_state (glob (hs_kernel s)) = HR_KERNEL_STATE_RUNNING;
  oc_thread : hr_port_is_inside_isr (hs_kernel s) = false;
  oc_object : he_active_is_valid s (Some a) = true;
  oc_item : q_item_size (queue_at (hs_kernel s) a) = sizeof_pointer;
  oc_variable : 0 <= event_variable s <= UINT32_MAX - 3;
  oc_apart : storage_apart (queue_at (hs_kernel s) a) (event_variable s);
  oc_receivers : V !! QueueReceiveWaiters a = Some rs;
  oc_senders : V !! QueueSendWaiters a = Some ss;
}.

Lemma valid_active_queue s a : he_active_is_valid s (Some a) = true -> queue_valid (hs_kernel s) a.
Proof. unfold he_active_is_valid. intros [[_ E]%andb_true_iff _]%andb_true_iff. by apply valid_queue. Qed.

(** Posting an event to an active object whose task does not wait for one appends the
    address of the event to its queue while there is room, and returns FULL otherwise; the
    reference counts, the machines and every other queue content are unchanged. *)
Theorem post_appends_event `{Frames} T D V b a ss s e :
  object_context T D V b a [] ss s -> event_is_valid s (Some e) = Some true ->
  exists status k, he_active_post (Some a) (Some e) HR_NO_WAIT s = Some (Done status, hs_set_kernel k s) /\ kinv T D k /\
    if q_count (queue_at (hs_kernel s) a) <? q_capacity (queue_at (hs_kernel s) a)
    then status = HR_OK /\ messages k a = messages (hs_kernel s) a ++ [pointer_bytes e]
    else status = HR_ERROR_QUEUE_FULL /\ messages k a = messages (hs_kernel s) a.
Proof.
  intros [KC NE PT HK HI HO Hit Hvar Hap Hrs Hss] Hv. pose proof (valid_active_queue _ _ HO) as Hq. set (k := hs_kernel s) in *.
  enough (HW : wp (he_active_post (Some a) (Some e) HR_NO_WAIT) (fun c s' => exists status k', c = Done status /\ s' = hs_set_kernel k' s /\
    kinv T D k' /\ if q_count (queue_at k a) <? q_capacity (queue_at k a)
    then status = HR_OK /\ messages k' a = messages k a ++ [pointer_bytes e] else status = HR_ERROR_QUEUE_FULL /\ messages k' a = messages k a) s).
  { destruct (wp_run _ _ _ HW) as (c & s' & E & status & k' & -> & -> & HP). by exists status, k'. }
  unfold he_active_post. hstep. hstep. rewrite HO. cbn [negb]. hstep. apply (wp_event_valid _ true); [done|]. cbn [negb].
  hstep. apply wp_lift, store_pointer_stored; [done|]. intros B ST. hstep. apply wp_lift. cbn [part_get part_set kernel_part hs_kernel hs_set_kernel].
  fold k. set (k1 := ks_set_bytes B k). assert (KC1 : kcore T D k1 V b nobody) by (by apply kcore_bytes).
  pose proof (queue_in_range T D b k V a KC Hq) as R.
  assert (HM1 : messages k1 a = messages k a).
  { apply (messages_stored k a B _ _ R ST). unfold storage_apart in Hap. rewrite Hit in Hap |- *. exact Hap. }
  unfold hr_queue_send. apply (queue_task_call_spec T D b k1 V); try done.
  assert (KC2 : kcore T D (QueueSpec.masked k1) V b nobody) by (by apply kcore_port).
  apply (send_locked_spec T D b (QueueSpec.masked k1) V a KC2 NE Hq [] ss _ HR_NO_WAIT true g_idle_task);
    [done|done|unfold HR_NO_WAIT, UINT32_MAX; lia|by intros _ []|done|..]; change (queue_at (QueueSpec.masked k1) a) with (queue_at k a).
  - intros B2 _ Hc CP KC3. split; [done|]. cbn [fst switch_wanted snd default orb pend_if from_api]. hstep. eexists HR_OK, _.
    split; [done|]. split; [done|]. split; [exists V, b; split_and!; [by apply kcore_port|done..]|]. rewrite (proj2 (Z.ltb_lt _ _) Hc). split; [done|].
    etrans; [exact (messages_enqueue (QueueSpec.masked k1) a B2 _ R Hc CP Hap)|].
    change (queue_at (QueueSpec.masked k1) a) with (queue_at k a). rewrite Hit. f_equal; [exact HM1|]. f_equal. exact (st_value _ _ _ _ ST).
  - intros _ Hc _. split; [done|]. cbn [fst switch_wanted snd default orb pend_if from_api]. hstep. eexists HR_ERROR_QUEUE_FULL, _.
    split; [done|]. split; [done|]. split; [exists V, b; split_and!; [by repeat apply kcore_port|done..]|]. rewrite Hc, Z.ltb_irrefl.
    split; [done|]. exact HM1.
  - done.
  - by intros s' V' _ _ [].
Qed.

(** Receiving into the variable: the oldest message of the queue arrives there. *)
Lemma receive_pointer_spec `{Frames} T D V b a rs s t e rest :
  object_context T D V b a rs [] s -> running (hs_kernel s) t -> t <> g_idle_task ->
  messages (hs_kernel s) a = pointer_bytes e :: rest -> 0 < e <= UINT32_MAX ->
  wp (store_pointer (event_variable s) None) (fun _ k1 => wp (hr_queue_receive (Some a) (Some (event_variable s)) HR_WAIT_FOREVER)
    (fun r k2 => r = Returns HR_OK /\ kinv T D k2 /\ messages k2 a = rest /\ load_pointer k2 (event_variable s) = Some e) k1) (hs_kernel s).
Proof.
  intros [KC NE PT HK HI HO Hit Hvar Hap Hrs Hss] RN Hni HM He. pose proof (valid_active_queue _ _ HO) as Hq. set (k := hs_kernel s) in *.
  pose proof (queue_in_range T D b k V a KC Hq) as R.
  assert (Hc : 0 < q_count (queue_at k a)).
  { destruct (Z.ltb_spec 0 (q_count (queue_at k a))); [done|]. unfold messages in HM. rewrite seqZ_nil in HM by lia. done. }
  set (var := event_variable s) in *.
  apply store_pointer_stored; [done|]. intros B ST. set (k1 := ks_set_bytes B k).
  assert (KC1 : kcore T D k1 V b nobody) by (by apply kcore_bytes).
  assert (HM1 : messages k1 a = messages k a).
  { apply (messages_stored k a B _ _ R ST). unfold storage_apart in Hap. rewrite Hit in Hap |- *. exact Hap. }
  unfold hr_queue_receive. apply (queue_task_call_spec T D b k1 V); try done.
  assert (KC2 : kcore T D (QueueSpec.masked k1) V b nobody) by (by apply kcore_port).
  assert (RN1 : running (QueueSpec.masked k1) t) by (destruct RN; split; done).
  apply (receive_locked_spec T D b (QueueSpec.masked k1) V a KC2 NE Hq rs [] var HR_WAIT_FOREVER true t);
    [done|done|done|done|..]; change (queue_at (QueueSpec.masked k1) a) with (queue_at k a).
  - intros B2 _ _ CP KC3. split; [done|]. cbn [fst switch_wanted snd default orb pend_if]. split; [done|].
    split; [exists V, b; split_and!; [by apply kcore_port|done..]|].
    destruct (receive_copy (QueueSpec.masked k1) a B2 var R Hc Hap CP) as [E1 E2].
    pose proof (messages_dequeue (QueueSpec.masked k1) a R Hc) as HD.
    assert (HM2 : messages (QueueSpec.masked k1) a = pointer_bytes e :: rest) by (etrans; [exact HM1|exact HM]).
    rewrite HM2 in HD. injection HD as HD1 HD2. split; [etrans; [exact E2|done]|].
    apply load_pointer_bytes; [done|done|]. change (queue_at (QueueSpec.masked k1) a) with (queue_at k a) in E1.
    rewrite Hit in E1. exact (eq_trans E1 (eq_sym HD1)).
  - done.
  - intros E. change (queue_at (QueueSpec.masked k1) a) with (queue_at k a) in E. lia.
  - intros E. change (queue_at (QueueSpec.masked k1) a) with (queue_at k a) in E. lia.
  - intros s' V' E. change (queue_at (QueueSpec.masked k1) a) with (queue_at k a) in E. lia.
Qed.

(** C24: A turn of the task of an active object with events in its queue, the oldest of them
    valid, and no sender blocked on the queue takes the oldest one,
    dispatches it to the state machine of the object and then releases it; the task goes on
    exactly when the dispatch returned OK. *)
Theorem turn_dispatches_oldest `{Frames} `{Handlers} T D V b a rs s t e rest :
  object_context T D V b a rs [] s -> running (hs_kernel s) t -> t <> g_idle_task ->
  messages (hs_kernel s) a = pointer_bytes e :: rest -> 0 < e <= UINT32_MAX -> event_is_valid s (Some e) = Some true ->
  exists k, kinv T D k /\ messages k a = rest /\
    active_turn (Some a) s =
      (let* status := he_state_machine_dispatch (Some a) (Some e) in
       ignoreM (he_event_release (Some e)) ;;;
       retM (Done (ok status))) (hs_set_kernel k s).
Proof.
  intros OC RN Hni HM He Hv. pose proof (receive_pointer_spec T D V b a rs s t e rest OC RN Hni HM He) as HW.
  destruct (wp_run _ _ _ HW) as ([] & k1 & E1 & HW1). destruct (wp_run _ _ _ HW1) as (r & k2 & E2 & -> & KI & Hrest & HL).
  exists k2. split; [done|]. split; [done|]. unfold active_turn, bindC, bindM, getM, lift. cbn [part_get part_set kernel_part].
  rewrite E1. cbn [hs_kernel hs_set_kernel]. rewrite E2. unfold retM. cbn [from_api bind_call]. unfold bindM, getM.
  cbn [hs_kernel hs_set_kernel]. rewrite HL. change (negb (ok HR_OK)) with false. cbn iota.
  unfold he_event_is_valid. change (event_is_valid (hs_set_kernel k2 (hs_set_kernel k1 s)) (Some e)) with (event_is_valid s (Some e)).
  rewrite Hv. done.
Qed.

(** ** An event posted to and taken from the active object 2 *)
Definition h_post : hstate :=
  mk_hstate k_object {[0x20002000 := mk_event WNull HE_CFG_EVENT_MAGIC 16 0 40 HE_EVENT_FLAG_STATIC]} ∅
    {[2%N := mk_sm (Some 100) (Some 100) None None HE_CFG_STATE_MACHINE_MAGIC true]}
    {[2%N := mk_ao (Some 0x08005000) HE_CFG_ACTIVE_MAGIC]} ∅ ∅ ∅.
Definition h_posted : hstate := run_state (he_active_post (Some 2%N) (Some 0x20002000) HR_NO_WAIT) h_post.

Lemma example_context s : (exists T, consistent HR_KERNEL_STATE_RUNNING T (hs_kernel s)) ->
  contents (st_lists (ks_store (hs_kernel s))) (QueueReceiveWaiters 2) = [] ->
  contents (st_lists (ks_store (hs_kernel s))) (QueueSendWaiters 2) = [] ->
  hr_port_is_inside_isr (hs_kernel s) = false -> he_active_is_valid s (Some 2%N) = true ->
  queue_at (hs_kernel s) 2%N = mk_qcb (Some 0x20004000) 4 2 0 (q_tail (queue_at (hs_kernel s) 2%N)) (q_count (queue_at (hs_kernel s) 2%N)) HR_CFG_QUEUE_MAGIC ->
  exists T D V b, object_context T D V b 2%N [] [] s.
Proof.
  intros (T & D & (V & b & KC & NE & PT) & HK) ER ES HI HO EQ. pose proof (valid_active_queue _ _ HO) as Hq.
  destruct (queue_waiters T D b _ V 2%N KC Hq (QueueReceiveWaiters 2) ltac:(auto)) as [rs Hrs].
  destruct (queue_waiters T D b _ V 2%N KC Hq (QueueSendWaiters 2) ltac:(auto)) as [ss Hss].
  exists T, D, V, b. pose proof (view_contents _ _ _ _ _ _ _ KC Hrs). pose proof (view_contents _ _ _ _ _ _ _ KC Hss).
  split; [exact KC|exact NE|exact PT|exact HK|exact HI|exact HO|by rewrite EQ|by vm_compute| |congruence|congruence].
  unfold storage_apart. rewrite EQ. cbn [q_item_size q_storage q_capacity default]. change (event_variable s) with 0x20006000.
  apply apart_intervals; vm_compute; discriminate.
Qed.

Lemma h_post_context : exists T D V b, object_context T D V b 2%N [] [] h_post.
Proof.
  apply example_context; [|vm_compute; reflexivity..].
  destruct (reachable_consistent k_object idle_stack_fits reachable_object) as (T & _ & CS). exists T. exact CS.
Qed.

Lemma post_appends_event_witness : exists status k,
  he_active_post (Some 2%N) (Some 0x20002000) HR_NO_WAIT h_post = Some (Done status, hs_set_kernel k h_post) /\
  status = HR_OK /\ messages k 2%N = messages (hs_kernel h_post) 2%N ++ [pointer_bytes 0x20002000].
Proof.
  destruct h_post_context as (T & D & V & b & OC).
  destruct (post_appends_event T D V b 2%N [] h_post 0x20002000 OC) as (status & k & E & _ & HB); [vm_compute; reflexivity|].
  assert (Hc : (q_count (queue_at (hs_kernel h_post) 2%N) <? q_capacity (queue_at (hs_kernel h_post) 2%N)) = true) by (vm_compute; reflexivity).
  rewrite Hc in HB. exists status, k. split; [exact E|exact HB].
Defined.

Lemma h_posted_context : exists T D V b, object_context T D V b 2%N [] [] h_posted.
Proof.
  apply example_context; [|vm_compute; reflexivity..].
  destruct (reachable_consistent k_object idle_stack_fits reachable_object) as (T & _ & CS). exists T.
  apply (run_state_wp _ (fun s => consistent HR_KERNEL_STATE_RUNNING T (hs_kernel s))).
  unfold he_active_post. hstep. hstep. assert (HO : he_active_is_valid h_post (Some 2%N) = true) by (vm_compute; reflexivity).
  rewrite HO. cbn [negb]. hstep. apply (wp_event_valid _ true); [vm_compute; reflexivity|]. cbn [negb].
  hstep. apply wp_lift, store_pointer_spec. intros B. hstep. apply wp_lift.
  eapply wp_mono; [apply posts_send, posts_bytes; exact CS|]. intros r k (HI & _). hstep. exact HI.
Qed.

(** The task of the object runs; its handlers accept every event. *)
#[local] Instance accepting : Handlers := {| run_handler := fun _ _ _ => retM HE_STATE_HANDLED; local_event := fun _ => 0x20001000 |}.

Lemma turn_dispatches_oldest_witness : exists k, messages k 2%N = [] /\
  active_turn (Some 2%N) h_posted =
    (let* status := he_state_machine_dispatch (Some 2%N) (Some 0x20002000) in
     ignoreM (he_event_release (Some 0x20002000)) ;;; retM (Done (ok status))) (hs_set_kernel k h_posted).
Proof.
  destruct h_posted_context as (T & D & V & b & OC).
  assert (RN : running (hs_kernel h_posted) 2%N) by (split; vm_compute; reflexivity).
  destruct (turn_dispatches_oldest T D V b 2%N [] h_posted 2%N 0x20002000 [] OC RN) as (k & _ & HM & E);
    [discriminate|vm_compute; reflexivity|unfold UINT32_MAX; lia|vm_compute; reflexivity|]. exists k. split; [exact HM|exact E].
Defined.

Example turn_goes_on : match active_turn (Some 2%N) h_posted with Some (Done going, _) => going | _ => false end = true.
Proof. vm_compute. reflexivity. Qed.
