(* ===== verification/HeapLab.v ===== *)
(** The first-fit heap of the allocator lab: [labs/memory-allocator/src/hr_heap_lab.c].

    The lab runs on a host, so the widths it depends on ([size_t], the strictest
    alignment, the size of a block header and of a pointer) are parameters of the
    model with the properties the C standard gives them ([HostOk]).  The memory is the
    control structure [hr_heap_lab_t] and the block headers, by address; the
    allocator neither reads nor writes payload bytes. *)
From stdpp Require Import gmap list.
From Stdlib Require Import ZArith Lia.
From S2P Require Import Prelude.
Open Scope Z_scope.

Class Host := {
  size_bits : Z;
  max_alignment : Z;
  sizeof_heap_block : Z;
  sizeof_pointer : Z;
}.
Class HostOk (H : Host) : Prop := {
  host_alignment : exists k, 0 <= k /\ max_alignment = 2 ^ k;
  host_width : max_alignment < 2 ^ size_bits;
  host_bits : 0 < size_bits;
  host_block : 0 < sizeof_heap_block /\ sizeof_heap_block + 2 * max_alignment <= 2 ^ size_bits;
  host_pointer : 0 < sizeof_pointer /\ sizeof_pointer + max_alignment <= 2 ^ size_bits;
}.
(** A 64-bit host. *)
Definition host64 : Host :=
  {| size_bits := 64; max_alignment := 16; sizeof_heap_block := 40; sizeof_pointer := 8 |}.
Lemma host64_ok : HostOk host64.
Proof. split; try (vm_compute; intuition congruence). exists 4. split; [lia|done]. Qed.

Definition HR_HEAP_LAB_MAGIC : Z := 0x484C4142.
Definition HR_HEAP_BLOCK_MAGIC : Z := 0x48424C4B.

Inductive hr_heap_lab_status : Type :=
| HR_HEAP_LAB_OK
| HR_HEAP_LAB_ERROR_INVALID_ARGUMENT
| HR_HEAP_LAB_ERROR_NOT_INITIALIZED
| HR_HEAP_LAB_ERROR_OUT_OF_MEMORY
| HR_HEAP_LAB_ERROR_INVALID_POINTER
| HR_HEAP_LAB_ERROR_DOUBLE_FREE
| HR_HEAP_LAB_ERROR_CORRUPT.
#[export] Instance heap_status_eq_dec : EqDecision hr_heap_lab_status.
Proof. solve_decision. Defined.

Record hr_heap_lab_block : Type := mk_block {
  payload_bytes : Z;
  requested_bytes : Z;
  blk_previous : option Z;
  blk_next : option Z;
  blk_magic : Z;
  is_free : bool;
}.

Record hr_heap_lab : Type := mk_heap {
  arena_begin : option Z;
  arena_end : option Z;
  first_block : option Z;
  heap_alignment : Z;
  header_bytes : Z;
  managed_bytes : Z;
  allocation_count : Z;
  free_count : Z;
  failed_allocation_count : Z;
  heap_magic : Z;
}.

Record heap_mem : Type := mk_heap_mem { hm_heap : hr_heap_lab; hm_blocks : gmap Z hr_heap_lab_block }.

Definition set_heap (f : hr_heap_lab -> hr_heap_lab) : M heap_mem unit :=
  modifyM (fun m => mk_heap_mem (f (hm_heap m)) (hm_blocks m)).
Definition set_block (a : Z) (b : hr_heap_lab_block) : M heap_mem unit :=
  modifyM (fun m => mk_heap_mem (hm_heap m) (<[a := b]> (hm_blocks m))).
(** A read through a pointer to a block header; there is none at another address. *)
Definition load_block (a : Z) : M heap_mem hr_heap_lab_block :=
  fun m => match hm_blocks m !! a with Some b => Some (b, m) | None => None end.
Definition upd_block (a : Z) (f : hr_heap_lab_block -> hr_heap_lab_block) : M heap_mem unit :=
  let* b := load_block a in set_block a (f b).

Definition with_payload v b := mk_block v (requested_bytes b) (blk_previous b) (blk_next b) (blk_magic b) (is_free b).
Definition with_requested v b := mk_block (payload_bytes b) v (blk_previous b) (blk_next b) (blk_magic b) (is_free b).
Definition with_blk_previous v b := mk_block (payload_bytes b) (requested_bytes b) v (blk_next b) (blk_magic b) (is_free b).
Definition with_blk_next v b := mk_block (payload_bytes b) (requested_bytes b) (blk_previous b) v (blk_magic b) (is_free b).
Definition with_free v b := mk_block (payload_bytes b) (requested_bytes b) (blk_previous b) (blk_next b) (blk_magic b) v.

Section host.
Context `{Host}.

(** [size_t] and [uintptr_t] arithmetic. *)
Definition sz (x : Z) : Z := x mod 2 ^ size_bits.
Definition size_max : Z := 2 ^ size_bits - 1.

Definition with_allocation_count v h :=
  mk_heap (arena_begin h) (arena_end h) (first_block h) (heap_alignment h) (header_bytes h) (managed_bytes h)
    v (free_count h) (failed_allocation_count h) (heap_magic h).
Definition with_free_count v h :=
  mk_heap (arena_begin h) (arena_end h) (first_block h) (heap_alignment h) (header_bytes h) (managed_bytes h)
    (allocation_count h) v (failed_allocation_count h) (heap_magic h).
Definition with_failed_count v h :=
  mk_heap (arena_begin h) (arena_end h) (first_block h) (heap_alignment h) (header_bytes h) (managed_bytes h)
    (allocation_count h) (free_count h) v (heap_magic h).
Definition count_failure : M heap_mem unit :=
  set_heap (fun h => with_failed_count (sz (failed_allocation_count h + 1)) h).

Definition size_add_overflows (left right : Z) : bool := size_max - right <? left.

(** [~mask] at the width of [size_t]. *)
Definition mask_not (mask : Z) : Z := Z.lxor size_max mask.

Definition align_up_size (value alignment : Z) : option Z :=
  let mask := sz (alignment - 1) in
  if (alignment =? 0) || negb (Z.land alignment mask =? 0) then None
  else if size_add_overflows value mask then None
  else Some (Z.land (sz (value + mask)) (mask_not mask)).

Definition align_up_address (value alignment : Z) : Z :=
  let mask := sz (alignment - 1) in Z.land (sz (value + mask)) (mask_not mask).

Definition block_payload (heap : hr_heap_lab) (block : Z) : Z := block + header_bytes heap.

Definition heap_is_initialized (heap : option hr_heap_lab) : bool :=
  match heap with
  | None => false
  | Some h => (heap_magic h =? HR_HEAP_LAB_MAGIC) && bool_decide (arena_begin h <> None) &&
              bool_decide (arena_end h <> None) && bool_decide (first_block h <> None)
  end.

Definition erased : hr_heap_lab_block := mk_block 0 0 None None 0 false.

Definition merge_with_next (block : Z) : M heap_mem unit :=
  let* m := getM in
  let* b := load_block block in
  match blk_next b with
  | None => retM tt
  | Some next =>
      let* n := load_block next in
      if negb (is_free n) then retM tt
      else
        upd_block block (with_payload (sz (payload_bytes b + (header_bytes (hm_heap m) + payload_bytes n)))) ;;;
        upd_block block (with_blk_next (blk_next n)) ;;;
        match blk_next n with
        | Some after => upd_block after (with_blk_previous (Some block))
        | None => retM tt
        end ;;;
        set_block next erased
  end.

Definition hr_heap_lab_alignment : Z := max_alignment.

Definition zero_heap : hr_heap_lab := mk_heap None None None 0 0 0 0 0 0 0.

(** The heap pointer is never null below: the null checks are those of the callers'
    arguments, given here as [has_heap]. *)
Definition hr_heap_lab_init (has_heap : bool) (memory : option Z) (memory_bytes : Z) : M heap_mem hr_heap_lab_status :=
  match memory with
  | None => retM HR_HEAP_LAB_ERROR_INVALID_ARGUMENT
  | Some raw_begin =>
      if negb has_heap || (memory_bytes =? 0) then retM HR_HEAP_LAB_ERROR_INVALID_ARGUMENT
      else
        set_heap (fun _ => zero_heap) ;;;
        let alignment := hr_heap_lab_alignment in
        match align_up_size sizeof_heap_block alignment with
        | None => retM HR_HEAP_LAB_ERROR_INVALID_ARGUMENT
        | Some header =>
            if size_max - memory_bytes <? raw_begin then retM HR_HEAP_LAB_ERROR_INVALID_ARGUMENT
            else
              let raw_end := sz (raw_begin + memory_bytes) in
              let aligned_begin := align_up_address raw_begin alignment in
              if (raw_end <=? aligned_begin) || (size_max <? raw_end - aligned_begin)
              then retM HR_HEAP_LAB_ERROR_INVALID_ARGUMENT
              else
                let managed := Z.land (sz (raw_end - aligned_begin)) (mask_not (sz (alignment - 1))) in
                if managed <? sz (header + alignment) then retM HR_HEAP_LAB_ERROR_INVALID_ARGUMENT
                else
                  set_heap (fun h => mk_heap (Some aligned_begin) (Some (aligned_begin + managed)) (first_block h)
                    alignment header managed (allocation_count h) (free_count h) (failed_allocation_count h)
                    HR_HEAP_LAB_MAGIC) ;;;
                  set_block aligned_begin (mk_block (sz (managed - header)) 0 None None HR_HEAP_BLOCK_MAGIC true) ;;;
                  set_heap (fun h => mk_heap (arena_begin h) (arena_end h) (Some aligned_begin) (heap_alignment h)
                    (header_bytes h) (managed_bytes h) (allocation_count h) (free_count h)
                    (failed_allocation_count h) (heap_magic h)) ;;;
                  retM HR_HEAP_LAB_OK
        end
  end.

(** The heap a call is given: null or the one in memory. *)
Definition the_heap (has_heap : bool) (m : heap_mem) : option hr_heap_lab :=
  if has_heap then Some (hm_heap m) else None.

(** A bound on the number of iterations over the chain of blocks. *)
Definition chain_fuel (m : heap_mem) : nat := S (size (hm_blocks m)).

(** The block found: split it when the remainder can hold a block, and hand it out. *)
Definition take_block (block : Z) (b : hr_heap_lab_block) (requested aligned : Z) : M heap_mem (option Z) :=
  let* m := getM in
  let heap := hm_heap m in
  let remainder := sz (payload_bytes b - aligned) in
  (if sz (header_bytes heap + heap_alignment heap) <=? remainder then
     let split := block_payload heap block + aligned in
     set_block split (mk_block (sz (remainder - header_bytes heap)) 0 (Some block) (blk_next b) HR_HEAP_BLOCK_MAGIC true) ;;;
     match blk_next b with
     | Some next => upd_block next (with_blk_previous (Some split))
     | None => retM tt
     end ;;;
     upd_block block (with_blk_next (Some split)) ;;;
     upd_block block (with_payload aligned)
   else retM tt) ;;;
  upd_block block (with_requested requested) ;;;
  upd_block block (with_free false) ;;;
  set_heap (fun h => with_allocation_count (sz (allocation_count h + 1)) h) ;;;
  retM (Some (block_payload heap block)).

Fixpoint alloc_loop (fuel : nat) (block : option Z) (requested aligned : Z) : M heap_mem (option Z) :=
  match block with
  | None => count_failure ;;; retM None
  | Some a =>
      match fuel with
      | O => ubM
      | S fuel' =>
          let* b := load_block a in
          if negb (is_free b) || (payload_bytes b <? aligned) then alloc_loop fuel' (blk_next b) requested aligned
          else take_block a b requested aligned
      end
  end.

Definition hr_heap_lab_alloc (has_heap : bool) (requested : Z) : M heap_mem (option Z) :=
  let* m := getM in
  let fail := (if heap_is_initialized (the_heap has_heap m) then count_failure else retM tt) ;;; retM None in
  if negb (heap_is_initialized (the_heap has_heap m)) || (requested =? 0) then fail
  else match align_up_size requested (heap_alignment (hm_heap m)) with
       | None => fail
       | Some aligned => alloc_loop (chain_fuel m) (first_block (hm_heap m)) requested aligned
       end.

(** The block that is freed: mark it and merge it with its free neighbours. *)
Definition release_block (block : Z) (b : hr_heap_lab_block) : M heap_mem hr_heap_lab_status :=
  if is_free b then retM HR_HEAP_LAB_ERROR_DOUBLE_FREE
  else
    upd_block block (with_free true) ;;;
    upd_block block (with_requested 0) ;;;
    set_heap (fun h => with_free_count (sz (free_count h + 1)) h) ;;;
    merge_with_next block ;;;
    let* b := load_block block in
    match blk_previous b with
    | Some previous =>
        let* p := load_block previous in
        (if is_free p then merge_with_next previous else retM tt)
    | None => retM tt
    end ;;;
    retM HR_HEAP_LAB_OK.

Fixpoint free_loop (fuel : nat) (block : option Z) (pointer : Z) : M heap_mem hr_heap_lab_status :=
  match block with
  | None => retM HR_HEAP_LAB_ERROR_INVALID_POINTER
  | Some a =>
      match fuel with
      | O => ubM
      | S fuel' =>
          let* m := getM in
          let* b := load_block a in
          if negb (block_payload (hm_heap m) a =? pointer) then free_loop fuel' (blk_next b) pointer
          else release_block a b
      end
  end.

Definition hr_heap_lab_free (has_heap : bool) (pointer : option Z) : M heap_mem hr_heap_lab_status :=
  let* m := getM in
  if negb (heap_is_initialized (the_heap has_heap m)) then retM HR_HEAP_LAB_ERROR_NOT_INITIALIZED
  else match pointer with
       | None => retM HR_HEAP_LAB_ERROR_INVALID_POINTER
       | Some p => free_loop (chain_fuel m) (first_block (hm_heap m)) p
       end.

(** The checks of one block in [hr_heap_lab_validate]; the result is where the next
    block must start. *)
Definition block_is_valid (heap : hr_heap_lab) (a expected : Z) (previous : option Z) (b : hr_heap_lab_block) : bool :=
  (a =? expected) && (blk_magic b =? HR_HEAP_BLOCK_MAGIC) && bool_decide (blk_previous b = previous) &&
  (heap_alignment heap <=? payload_bytes b) && (payload_bytes b mod heap_alignment heap =? 0) &&
  (if is_free b then requested_bytes b =? 0
   else negb (requested_bytes b =? 0) && (requested_bytes b <=? payload_bytes b)).

(** [block->next != NULL && block->is_free && block->next->is_free]. *)
Definition next_is_free (m : heap_mem) (b : hr_heap_lab_block) : option bool :=
  match blk_next b with
  | Some next => if is_free b then is_free <$> hm_blocks m !! next else Some false
  | None => Some false
  end.

Fixpoint validate_loop (fuel : nat) (m : heap_mem) (block : option Z) (previous : option Z) (expected visited : Z)
  : option bool :=
  match block with
  | None => Some (bool_decide (Some expected = arena_end (hm_heap m)))
  | Some a =>
      match fuel, hm_blocks m !! a with
      | S fuel', Some b =>
          let heap := hm_heap m in
          if negb (block_is_valid heap a expected previous b) then Some false
          else
            let end_ := block_payload heap a + payload_bytes b in
            if (end_ <=? a) || negb (end_ <=? default 0 (arena_end heap)) then Some false
            else
              match next_is_free m b with
              | None => None
              | Some true => Some false
              | Some false =>
                  if managed_bytes heap / heap_alignment heap <? visited + 1 then Some false
                  else validate_loop fuel' m (blk_next b) (Some a) end_ (visited + 1)
              end
      | _, _ => None
      end
  end.

(** [None] is a read outside the block headers. *)
Definition hr_heap_lab_validate (has_heap : bool) (m : heap_mem) : option bool :=
  let heap := hm_heap m in
  if negb (heap_is_initialized (the_heap has_heap m)) || negb (heap_alignment heap =? hr_heap_lab_alignment)
     || (default 0 (arena_end heap) <=? default 0 (arena_begin heap))
     || negb (default 0 (arena_begin heap) mod heap_alignment heap =? 0)
  then Some false
  else validate_loop (chain_fuel m) m (first_block heap) None (default 0 (arena_begin heap)) 0.

Record hr_heap_lab_stats : Type := mk_heap_stats {
  hs_managed_bytes : Z;
  hs_requested_bytes : Z;
  hs_allocated_payload_bytes : Z;
  hs_free_payload_bytes : Z;
  hs_largest_free_block_bytes : Z;
  hs_internal_fragmentation_bytes : Z;
  hs_external_fragmentation_bytes : Z;
  hs_allocated_blocks : Z;
  hs_free_blocks : Z;
  hs_allocation_count : Z;
  hs_free_count : Z;
  hs_failed_allocation_count : Z;
}.

(** One block's contribution to the statistics. *)
Definition add_block (b : hr_heap_lab_block) (st : hr_heap_lab_stats) : hr_heap_lab_stats :=
  if is_free b then
    mk_heap_stats (hs_managed_bytes st) (hs_requested_bytes st) (hs_allocated_payload_bytes st)
      (sz (hs_free_payload_bytes st + payload_bytes b))
      (if hs_largest_free_block_bytes st <? payload_bytes b then payload_bytes b else hs_largest_free_block_bytes st)
      (hs_internal_fragmentation_bytes st) (hs_external_fragmentation_bytes st)
      (hs_allocated_blocks st) (sz (hs_free_blocks st + 1))
      (hs_allocation_count st) (hs_free_count st) (hs_failed_allocation_count st)
  else
    mk_heap_stats (hs_managed_bytes st) (sz (hs_requested_bytes st + requested_bytes b))
      (sz (hs_allocated_payload_bytes st + payload_bytes b)) (hs_free_payload_bytes st)
      (hs_largest_free_block_bytes st)
      (sz (hs_internal_fragmentation_bytes st + sz (payload_bytes b - requested_bytes b)))
      (hs_external_fragmentation_bytes st) (sz (hs_allocated_blocks st + 1)) (hs_free_blocks st)
      (hs_allocation_count st) (hs_free_count st) (hs_failed_allocation_count st).

Fixpoint stats_loop (fuel : nat) (m : heap_mem) (block : option Z) (st : hr_heap_lab_stats) : option hr_heap_lab_stats :=
  match block with
  | None => Some st
  | Some a =>
      match fuel, hm_blocks m !! a with
      | S fuel', Some b => stats_loop fuel' m (blk_next b) (add_block b st)
      | _, _ => None
      end
  end.

Definition hr_heap_lab_get_stats (has_heap has_stats : bool) (m : heap_mem)
  : option (hr_heap_lab_status * option hr_heap_lab_stats) :=
  let heap := hm_heap m in
  if negb (heap_is_initialized (the_heap has_heap m)) then Some (HR_HEAP_LAB_ERROR_NOT_INITIALIZED, None)
  else if negb has_stats then Some (HR_HEAP_LAB_ERROR_INVALID_ARGUMENT, None)
  else match hr_heap_lab_validate has_heap m with
       | None => None
       | Some false => Some (HR_HEAP_LAB_ERROR_CORRUPT, None)
       | Some true =>
           match stats_loop (chain_fuel m) m (first_block heap)
                   (mk_heap_stats (managed_bytes heap) 0 0 0 0 0 0 0 0 (allocation_count heap) (free_count heap)
                      (failed_allocation_count heap)) with
           | None => None
           | Some st =>
               Some (HR_HEAP_LAB_OK,
                 Some (mk_heap_stats (hs_managed_bytes st) (hs_requested_bytes st) (hs_allocated_payload_bytes st)
                   (hs_free_payload_bytes st) (hs_largest_free_block_bytes st) (hs_internal_fragmentation_bytes st)
                   (sz (hs_free_payload_bytes st - hs_largest_free_block_bytes st)) (hs_allocated_blocks st)
                   (hs_free_blocks st) (hs_allocation_count st) (hs_free_count st) (hs_failed_allocation_count st)))
           end
       end.
End host.
