(* ===== verification/HeapLabSpec.v ===== *)
(** What the heap of the allocator lab represents: the arena is cut into segments, each
    with a payload size and, when it is allocated, the number of bytes requested. *)
From stdpp Require Import gmap list.
From Stdlib Require Import ZArith Lia.
From S2P Require Import Prelude HeapLab.
Open Scope Z_scope.

Definition segment : Type := Z * option Z.

Lemma mod0_sub a b c : a mod c = 0 -> b mod c = 0 -> (a - b) mod c = 0.
Proof. intros Ha Hb. by rewrite Zminus_mod, Ha, Hb, Zmod_0_l. Qed.
Lemma mod0_add a b c : a mod c = 0 -> b mod c = 0 -> (a + b) mod c = 0.
Proof. intros Ha Hb. by rewrite Zplus_mod, Ha, Hb, Zmod_0_l. Qed.

Section spec.
Context {host : Host} {OK : HostOk host}.

(** ** Alignment *)

Lemma mask_land k x : 0 <= k -> k < size_bits -> 0 <= x < 2 ^ size_bits ->
  Z.land x (mask_not (2 ^ k - 1)) = x - x mod 2 ^ k.
Proof.
  intros Hk Hb Hx. replace (x - x mod 2 ^ k) with (Z.shiftl (Z.shiftr x k) k).
  - apply Z.bits_inj'. intros n Hn. unfold mask_not, size_max. rewrite Z.land_spec, Z.lxor_spec.
    replace (2 ^ size_bits - 1) with (Z.ones size_bits) by (rewrite Z.ones_equiv; lia).
    replace (2 ^ k - 1) with (Z.ones k) by (rewrite Z.ones_equiv; lia).
    rewrite !Z.testbit_ones_nonneg by (try lia). rewrite Z.shiftl_spec by done.
    destruct (Z.ltb_spec n k).
    + replace (n <? size_bits) with true by lia. simpl. rewrite andb_false_r. rewrite Z.testbit_neg_r; [done|lia].
    + rewrite Z.shiftr_spec by lia. replace (n - k + k) with n by lia. rewrite xorb_false_r.
      destruct (Z.ltb_spec n size_bits); [by rewrite andb_true_r|]. rewrite andb_false_r. symmetry.
      apply (Z.bits_above_log2 x n); [lia|]. destruct (decide (x = 0)) as [->|]; [simpl; lia|].
      apply Z.log2_lt_pow2; [lia|]. pose proof (Z.pow_le_mono_r 2 size_bits n). lia.
  - rewrite Z.shiftl_mul_pow2, Z.shiftr_div_pow2 by done. pose proof (Z.div_mod x (2 ^ k)). lia.
Qed.

Lemma alignment_pos : 0 < max_alignment.
Proof. destruct host_alignment as (k & Hk & ->). apply Z.pow_pos_nonneg; lia. Qed.

Lemma sz_small x : 0 <= x <= size_max -> sz x = x.
Proof. intros. apply Z.mod_small. unfold size_max in *. lia. Qed.

(** The next multiple of the alignment. *)
Definition round_up (x : Z) : Z := x + (max_alignment - 1) - (x + (max_alignment - 1)) mod max_alignment.

Lemma round_up_spec x : round_up x mod max_alignment = 0 /\ x <= round_up x < x + max_alignment.
Proof.
  pose proof alignment_pos. unfold round_up. set (y := x + (max_alignment - 1)).
  pose proof (Z.mod_pos_bound y max_alignment alignment_pos). split; [|unfold y in *; lia].
  rewrite Zminus_mod, Zmod_mod, Z.sub_diag. apply Zmod_0_l.
Qed.

Lemma mask_value : sz (max_alignment - 1) = max_alignment - 1.
Proof. pose proof alignment_pos. pose proof host_width. apply sz_small. unfold size_max. lia. Qed.

Lemma alignment_log : exists k, 0 <= k < size_bits /\ max_alignment = 2 ^ k.
Proof.
  destruct host_alignment as (k & Hk & E). exists k. split; [|done]. split; [done|].
  pose proof host_width as Hw. rewrite E in Hw. apply Z.pow_lt_mono_r_iff in Hw; try lia. pose proof host_bits. lia.
Qed.

Lemma align_land y : 0 <= y <= size_max -> Z.land y (mask_not (max_alignment - 1)) = y - y mod max_alignment.
Proof. intros Hy. destruct alignment_log as (k & Hk & ->). apply mask_land; unfold size_max in *; lia. Qed.

Lemma align_up_size_spec x : 0 <= x <= size_max ->
  align_up_size x max_alignment = if size_max - (max_alignment - 1) <? x then None else Some (round_up x).
Proof.
  intros Hx. pose proof alignment_pos. unfold align_up_size, size_add_overflows. rewrite mask_value.
  replace (Z.land max_alignment (max_alignment - 1)) with 0.
  - rewrite (proj2 (Z.eqb_neq _ _)) by lia. simpl. destruct (Z.ltb_spec (size_max - (max_alignment - 1)) x); [done|].
    rewrite sz_small, align_land by lia. done.
  - destruct alignment_log as (k & Hk & E). rewrite E. replace (2 ^ k - 1) with (Z.ones k) by (rewrite Z.ones_equiv; lia).
    rewrite Z.land_ones by lia. by rewrite Z_mod_same_full.
Qed.

(** ** The chain of blocks *)

Abbreviation blocks := (gmap Z hr_heap_lab_block).

(** The size of a header in the arena. *)
Definition header : Z := round_up sizeof_heap_block.

Lemma header_pos : 0 < header.
Proof. pose proof host_block. pose proof (round_up_spec sizeof_heap_block). unfold header. lia. Qed.
Lemma header_aligned : header mod max_alignment = 0.
Proof. apply round_up_spec. Qed.

Definition seg_free (g : segment) : bool := bool_decide (g.2 = None).
Definition block_of (g : segment) (previous next : option Z) : hr_heap_lab_block :=
  mk_block g.1 (default 0 g.2) previous next HR_HEAP_BLOCK_MAGIC (seg_free g).

(** The bytes the segments take, headers included. *)
Fixpoint span (gs : list segment) : Z :=
  match gs with [] => 0 | g :: gs => header + g.1 + span gs end.

(** The address of the first of the blocks that start at [a], [e] if there is none. *)
Definition start (a : Z) (gs : list segment) (e : option Z) : option Z :=
  match gs with [] => e | _ => Some a end.

(** The blocks from [a] on hold the segments [gs]; [p] is the block before, [e] the one after. *)
Fixpoint chain (B : blocks) (p : option Z) (a : Z) (gs : list segment) (e : option Z) : Prop :=
  match gs with
  | [] => True
  | g :: gs' =>
      let a' := a + header + g.1 in
      B !! a = Some (block_of g p (start a' gs' e)) /\ chain B (Some a) a' gs' e
  end.

(** The last block of those from [a] on. *)
Fixpoint finish (p : option Z) (a : Z) (gs : list segment) : option Z :=
  match gs with [] => p | g :: gs' => finish (Some a) (a + header + g.1) gs' end.

Lemma span_app xs ys : span (xs ++ ys) = span xs + span ys.
Proof. induction xs as [|x xs IH]; simpl; lia. Qed.

Lemma start_app a xs ys e : start a (xs ++ ys) e = start a xs (start (a + span xs) ys e).
Proof. destruct xs; simpl; [by rewrite Z.add_0_r|done]. Qed.

Lemma chain_app B xs ys : forall p a e,
  chain B p a (xs ++ ys) e <->
  chain B p a xs (start (a + span xs) ys e) /\ chain B (finish p a xs) (a + span xs) ys e.
Proof.
  induction xs as [|x xs IH]; intros p a e; simpl; [rewrite Z.add_0_r; tauto|].
  rewrite IH, start_app. replace (a + header + x.1 + span xs) with (a + (header + x.1 + span xs)) by lia. tauto.
Qed.

Lemma finish_app xs ys : forall p a, finish p a (xs ++ ys) = finish (finish p a xs) (a + span xs) ys.
Proof.
  induction xs as [|x xs IH]; intros p a; simpl; [by rewrite Z.add_0_r|]. rewrite IH. f_equal. lia.
Qed.

Definition sizes_ok (gs : list segment) : Prop := Forall (fun g : segment => 0 < g.1) gs.

Lemma span_nonneg gs : sizes_ok gs -> 0 <= span gs.
Proof. pose proof header_pos. induction 1; simpl in *; lia. Qed.

(** A chain depends on its own blocks only. *)
Lemma chain_ext B B' gs : forall p a e, sizes_ok gs -> (forall y, a <= y < a + span gs -> B' !! y = B !! y) ->
  chain B p a gs e -> chain B' p a gs e.
Proof.
  pose proof header_pos. induction gs as [|g gs IH]; intros p a e HS HE; simpl; [done|].
  inversion HS as [|? ? Hg HS']; subst. simpl in HE. pose proof (span_nonneg gs HS'). intros [Hb HC]. split.
  - rewrite HE by lia. done.
  - apply IH; [done|intros y Hy; apply HE; lia|done].
Qed.
Lemma chain_frame B gs p a e x b : sizes_ok gs -> x < a \/ a + span gs <= x ->
  chain B p a gs e -> chain (<[x := b]> B) p a gs e.
Proof. intros HS Hx. apply chain_ext; [done|]. intros y Hy. apply lookup_insert_ne. lia. Qed.

(** The chain visits distinct addresses, so it is no longer than the block memory. *)
Fixpoint addresses (a : Z) (gs : list segment) : list Z :=
  match gs with [] => [] | g :: gs' => a :: addresses (a + header + g.1) gs' end.

Lemma addresses_above gs : forall a x, sizes_ok gs -> x ∈ addresses a gs -> a <= x < a + span gs.
Proof.
  pose proof header_pos. induction gs as [|g gs IH]; intros a x HS; simpl; [by rewrite elem_of_nil|].
  inversion HS; subst. pose proof (span_nonneg gs ltac:(done)). rewrite elem_of_cons. intros [->|Hx]; [lia|].
  apply IH in Hx; [lia|done].
Qed.

Lemma addresses_nodup gs : forall a, sizes_ok gs -> NoDup (addresses a gs).
Proof.
  pose proof header_pos. induction gs as [|g gs IH]; intros a HS; simpl; [constructor|]. inversion HS; subst.
  constructor; [|by apply IH]. intros Hx. apply addresses_above in Hx; [lia|done].
Qed.

Lemma chain_length B p a gs e : sizes_ok gs -> chain B p a gs e -> (length gs <= size B)%nat.
Proof.
  intros HS HC.
  assert (HL : length (addresses a gs) = length gs) by (clear; revert a; induction gs; intros; simpl; auto).
  rewrite <- HL, <- (size_list_to_set (C := gset Z)) by (by apply addresses_nodup).
  rewrite <- size_dom. apply subseteq_size. intros x Hx. apply elem_of_list_to_set in Hx.
  clear HL HS. revert p a HC Hx. induction gs as [|g gs IH]; intros p a HC; simpl; [by rewrite elem_of_nil|].
  destruct HC as [Hb HC]. rewrite elem_of_cons. intros [->|Hx]; [by apply elem_of_dom_2 in Hb|by eapply IH].
Qed.

(** ** Well-formed segments *)

Definition seg_ok (g : segment) : Prop :=
  max_alignment <= g.1 /\ g.1 mod max_alignment = 0 /\ match g.2 with Some r => 0 < r <= g.1 | None => True end.

(** Whether the last segment is free; [f] if there is none. *)
Fixpoint ends_free (f : bool) (gs : list segment) : bool :=
  match gs with [] => f | g :: gs' => ends_free (seg_free g) gs' end.
(** No two neighbours are free, nor the first one if [f]. *)
Fixpoint coalesced_after (f : bool) (gs : list segment) : Prop :=
  match gs with
  | [] => True
  | g :: gs' => (f = true -> seg_free g = false) /\ coalesced_after (seg_free g) gs'
  end.
Definition coalesced (gs : list segment) : Prop := coalesced_after false gs.

Lemma coalesced_app xs ys : forall f,
  coalesced_after f (xs ++ ys) <-> coalesced_after f xs /\ coalesced_after (ends_free f xs) ys.
Proof. induction xs as [|x xs IH]; intros f; simpl; [tauto|]. rewrite IH. tauto. Qed.
Lemma ends_free_app xs g : forall f, ends_free f (xs ++ [g]) = seg_free g.
Proof. induction xs as [|x xs IH]; intros f; simpl; [done|apply IH]. Qed.
Lemma coalesced_weaken gs : forall f, coalesced_after f gs -> coalesced_after false gs.
Proof. destruct gs; simpl; [done|]. intros f [_ H]. split; [done|exact H]. Qed.

Lemma seg_ok_sizes gs : Forall seg_ok gs -> sizes_ok gs.
Proof. intros HF. eapply Forall_impl; [exact HF|]. intros g [H _]. pose proof alignment_pos. lia. Qed.

Lemma span_aligned gs : Forall seg_ok gs -> span gs mod max_alignment = 0.
Proof.
  induction 1 as [|g gs (H1 & H2 & _) HS IH]; simpl; [apply Zmod_0_l|].
  apply mod0_add; [apply mod0_add; [apply header_aligned|done]|done].
Qed.

(** The arena at [b] is cut into the segments [gs]. *)
Record heap_arena (m : heap_mem) (b : Z) (gs : list segment) : Prop := {
  rep_begin : arena_begin (hm_heap m) = Some b;
  rep_end : arena_end (hm_heap m) = Some (b + span gs);
  rep_first : first_block (hm_heap m) = Some b;
  rep_alignment : heap_alignment (hm_heap m) = max_alignment;
  rep_header : header_bytes (hm_heap m) = header;
  rep_managed : managed_bytes (hm_heap m) = span gs;
  rep_magic : heap_magic (hm_heap m) = HR_HEAP_LAB_MAGIC;
  rep_range : 0 <= b /\ b + span gs <= size_max;
  rep_base : b mod max_alignment = 0;
  rep_chain : chain (hm_blocks m) None b gs None;
  rep_segs : Forall seg_ok gs;
  rep_some : gs <> [];
}.
(** ... and free neighbours are merged: the invariant between two calls. *)
Definition heap_rep (m : heap_mem) (b : Z) (gs : list segment) : Prop := heap_arena m b gs /\ coalesced gs.

Lemma rep_sizes m b gs : heap_arena m b gs -> sizes_ok gs.
Proof. intros R. apply seg_ok_sizes, R. Qed.

Lemma rep_initialized m b gs : heap_arena m b gs -> heap_is_initialized (the_heap true m) = true.
Proof.
  intros R. unfold heap_is_initialized, the_heap.
  by rewrite (rep_magic _ _ _ R), (rep_begin _ _ _ R), (rep_end _ _ _ R), (rep_first _ _ _ R).
Qed.

Lemma rep_fuel m b gs : heap_arena m b gs -> (length gs < chain_fuel m)%nat.
Proof.
  intros R. unfold chain_fuel. pose proof (chain_length _ _ _ _ _ (rep_sizes _ _ _ R) (rep_chain _ _ _ R)). lia.
Qed.

(** A change of the counters and of the blocks. *)
Definition same_arena (h h' : hr_heap_lab) : Prop :=
  arena_begin h' = arena_begin h /\ arena_end h' = arena_end h /\ first_block h' = first_block h /\
  heap_alignment h' = heap_alignment h /\ header_bytes h' = header_bytes h /\ managed_bytes h' = managed_bytes h /\
  heap_magic h' = heap_magic h.

Lemma rep_update m m' b gs gs' :
  heap_arena m b gs -> same_arena (hm_heap m) (hm_heap m') -> span gs' = span gs ->
  chain (hm_blocks m') None b gs' None -> Forall seg_ok gs' -> gs' <> [] -> heap_arena m' b gs'.
Proof.
  intros R (E1 & E2 & E3 & E4 & E5 & E6 & E7) ES HC HS HN. destruct R. constructor; rewrite ?ES; congruence || done.
Qed.

(** ** Steps on block memory *)

Lemma wp_load a b Q m : hm_blocks m !! a = Some b -> Q b m -> wp (load_block a) Q m.
Proof. unfold wp, load_block. by intros ->. Qed.
Lemma wp_upd a b f Q m : hm_blocks m !! a = Some b ->
  Q tt (mk_heap_mem (hm_heap m) (<[a := f b]> (hm_blocks m))) -> wp (upd_block a f) Q m.
Proof. intros Hb HQ. unfold upd_block. wp_step. eapply wp_load; [done|]. exact HQ. Qed.

(** Making [q] the block before the chain that starts at [x]. *)
Lemma relink_spec h B p q x ys Q : sizes_ok ys -> chain B p x ys None ->
  (forall B', chain B' q x ys None -> (forall y, y <> x -> B' !! y = B !! y) ->
     (ys = [] -> B' = B) -> Q tt (mk_heap_mem h B')) ->
  wp (match start x ys None with Some next => upd_block next (with_blk_previous q) | None => retM tt end) Q
    (mk_heap_mem h B).
Proof.
  intros HS HC K. pose proof header_pos. destruct ys as [|g ys]; simpl.
  - wp_step. by apply K.
  - destruct HC as [Hb HC]. inversion HS; subst. eapply wp_upd; [exact Hb|]. apply K; [|by intros y Hy; apply lookup_insert_ne|done].
    split; [by rewrite lookup_insert_eq|]. apply chain_frame; [done|lia|done].
Qed.

(** ** Allocation *)

Definition fits (n : Z) (g : segment) : bool := seg_free g && (n <=? g.1).

(** The first free segment of at least [n] bytes, with what is before and after it. *)
Fixpoint first_fit (n : Z) (gs : list segment) : option (list segment * Z * list segment) :=
  match gs with
  | [] => None
  | g :: gs' =>
      if fits n g then Some ([], g.1, gs')
      else match first_fit n gs' with Some (xs, p, ys) => Some (g :: xs, p, ys) | None => None end
  end.

(** A free segment of [p] bytes after [n] of them are handed out for [requested]. *)
Definition taken (requested n p : Z) : list segment :=
  if header + max_alignment <=? p - n then [(n, Some requested); (p - n - header, None)] else [(p, Some requested)].

Lemma first_fit_some n gs xs p ys : first_fit n gs = Some (xs, p, ys) ->
  gs = xs ++ (p, None) :: ys /\ n <= p /\ Forall (fun g => fits n g = false) xs.
Proof.
  revert xs. induction gs as [|g gs IH]; intros xs; simpl; [done|]. destruct (fits n g) eqn:Ef.
  - intros [= <- <- <-]. unfold fits, seg_free in Ef. apply andb_true_iff in Ef as [E1 E2].
    apply bool_decide_eq_true in E1. destruct g as [q r]. simpl in *. subst. split_and!; [done|lia|constructor].
  - destruct (first_fit n gs) as [[[us q] vs]|]; [|done]. intros [= <- <- <-].
    destruct (IH us eq_refl) as (-> & Hn & HF). split_and!; [done|done|by constructor].
Qed.
Lemma first_fit_none n gs : first_fit n gs = None -> Forall (fun g => fits n g = false) gs.
Proof.
  induction gs as [|g gs IH]; simpl; [constructor|]. destruct (fits n g) eqn:Ef; [done|].
  destruct (first_fit n gs) as [[[us q] vs]|]; [done|]. intros _. constructor; auto.
Qed.

Lemma taken_span requested n p : span (taken requested n p) = header + p.
Proof. unfold taken. destruct (_ <=? _); simpl; lia. Qed.

Lemma taken_ok requested n p : 0 < requested <= n -> n mod max_alignment = 0 -> max_alignment <= n -> seg_ok (p, None) -> n <= p ->
  Forall seg_ok (taken requested n p).
Proof.
  intros Hr Hn Hn' (H1 & H2 & _) Hp. unfold taken. simpl in *. destruct (Z.leb_spec (header + max_alignment) (p - n)).
  - repeat constructor; simpl; try lia; try done.
    apply mod0_sub; [by apply mod0_sub|apply header_aligned].
  - repeat constructor; simpl; try lia; done.
Qed.

Lemma taken_coalesced requested n p : coalesced_after true (taken requested n p) /\
  (ends_free true (taken requested n p) = true -> ends_free true [(p, None)] = true).
Proof. unfold taken. destruct (_ <=? _); simpl; done. Qed.

(** The part of the memory before and after the block that changes. *)
Lemma chain_middle B b xs g ys : sizes_ok (xs ++ g :: ys) -> chain B None b (xs ++ g :: ys) None ->
  let a := b + span xs in
  chain B None b xs (Some a) /\ B !! a = Some (block_of g (finish None b xs) (start (a + header + g.1) ys None)) /\
  chain B (Some a) (a + header + g.1) ys None /\ sizes_ok xs /\ 0 < g.1 /\ sizes_ok ys.
Proof.
  intros HS HC. apply chain_app in HC as [H1 [H2 H3]]. apply Forall_app in HS as [S1 S2]. inversion S2; subst. done.
Qed.

Lemma take_block_spec m b xs p ys requested n Q :
  heap_rep m b (xs ++ (p, None) :: ys) -> 0 < requested <= n -> n mod max_alignment = 0 -> max_alignment <= n -> n <= p ->
  (forall m', heap_rep m' b (xs ++ taken requested n p ++ ys) ->
     hm_heap m' = with_allocation_count (sz (allocation_count (hm_heap m) + 1)) (hm_heap m) ->
     Q (Some (b + span xs + header)) m') ->
  wp (take_block (b + span xs) (block_of (p, None) (finish None b xs) (start (b + span xs + header + p) ys None)) requested n) Q m.
Proof.
  intros [R HK] Hr Hn Hna Hp K. pose proof header_pos as Hh. pose proof alignment_pos as HA.
  destruct (chain_middle _ _ _ _ _ (rep_sizes _ _ _ R) (rep_chain _ _ _ R)) as (C1 & Hb & C3 & S1 & Sp & S3).
  simpl in Hb, C3, Sp. set (a := b + span xs) in *. pose proof (rep_range _ _ _ R) as Hrg.
  rewrite span_app in Hrg. simpl in Hrg. pose proof (span_nonneg xs S1). pose proof (span_nonneg ys S3).
  pose proof (proj1 (Forall_app _ _ _) (rep_segs _ _ _ R)) as [SO1 SO2]. inversion SO2 as [|? ? SOp SO3]; subst.
  assert (HC : coalesced (xs ++ taken requested n p ++ ys)).
  { unfold coalesced in *. apply coalesced_app in HK as [HK1 HK2].
    simpl in HK2. destruct HK2 as [HK2 HK3]. apply coalesced_app. split; [done|]. apply coalesced_app.
    destruct (taken_coalesced requested n p) as [T1 T2]. split.
    - destruct (ends_free false xs); [done|]. by eapply coalesced_weaken.
    - unfold taken in *. destruct (_ <=? _); simpl in *; [exact HK3|]. by eapply coalesced_weaken. }
  assert (HF : Forall seg_ok (xs ++ taken requested n p ++ ys)).
  { apply Forall_app. split; [done|]. apply Forall_app. split; [by apply taken_ok|done]. }
  assert (HSp : span (xs ++ taken requested n p ++ ys) = span (xs ++ (p, None) :: ys)).
  { rewrite !span_app, taken_span. simpl. lia. }
  assert (Hne : xs ++ taken requested n p ++ ys <> []).
  { unfold taken. destruct (_ <=? _); by destruct xs. }
  unfold take_block. wp_step. wp_step. rewrite (rep_header _ _ _ R), (rep_alignment _ _ _ R). unfold block_payload.
  rewrite (rep_header _ _ _ R). simpl. rewrite (sz_small (p - n)) by lia.
  pose proof host_block as HB. pose proof (round_up_spec sizeof_heap_block) as HRU. fold header in HRU.
  rewrite (sz_small (header + max_alignment)) by (unfold size_max; lia).
  unfold taken in *. destruct (Z.leb_spec (header + max_alignment) (p - n)) as [Hs|Hs].
  - set (x := a + header + n). rewrite (sz_small (p - n - header)) by lia.
    wp_step. unfold set_block. wp_step. wp_step.
    set (nb := block_of (p - n - header, None) (Some a) (start (a + header + p) ys None)).
    change (mk_block _ _ _ _ _ _) with nb. wp_step.
    set (B1 := <[x := nb]> (hm_blocks m)).
    eapply (relink_spec _ _ (Some a)); [exact S3|apply chain_frame; [done|unfold x; lia|exact C3]|].
    intros B2 C3' HB2 _.
    assert (Hba : B2 !! a = hm_blocks m !! a) by (rewrite HB2 by lia; unfold B1; by rewrite lookup_insert_ne by lia).
    assert (Hbx : B2 !! x = Some nb) by (rewrite HB2 by lia; apply lookup_insert_eq).
    assert (C1' : chain B2 None b xs (Some a)).
    { eapply chain_ext; [done| |exact C1]. intros y Hy. rewrite HB2 by lia. unfold B1. by rewrite lookup_insert_ne by lia. }
    wp_step. eapply wp_upd; [simpl; rewrite Hba; exact Hb|]. eapply wp_upd; [apply lookup_insert_eq|].
    simpl. rewrite insert_insert_eq. wp_step. eapply wp_upd; [apply lookup_insert_eq|]. simpl. rewrite insert_insert_eq.
    wp_step. eapply wp_upd; [apply lookup_insert_eq|]. simpl. rewrite insert_insert_eq. wp_step. unfold set_heap. wp_step. wp_step.
    simpl. apply K; [|done]. split; [|exact HC].
    apply (rep_update m _ b (xs ++ (p, None) :: ys)); [done|done|done| |done|done].
    cbn [hm_blocks]. apply chain_app. split; [apply chain_frame; [done|lia|done]|].
    cbn [app chain start fst]. fold a. split; [by rewrite lookup_insert_eq|]. fold x.
    split; [rewrite lookup_insert_ne by lia; rewrite Hbx; unfold nb; do 2 f_equal; f_equal; lia|].
    replace (x + header + (p - n - header)) with (a + header + p) by lia. apply chain_frame; [done|lia|done].
  - wp_steps. eapply wp_upd; [exact Hb|]. wp_step. eapply wp_upd; [apply lookup_insert_eq|]. simpl. rewrite insert_insert_eq.
    wp_step. unfold set_heap. wp_step. wp_step. simpl. apply K; [|done]. split; [|exact HC].
    apply (rep_update m _ b (xs ++ (p, None) :: ys)); [done|done|done| |done|done].
    cbn [hm_blocks]. apply chain_app. split; [apply chain_frame; [done|lia|done]|].
    cbn [app chain start fst]. fold a. split; [by rewrite lookup_insert_eq|]. apply chain_frame; [done|lia|done].
Qed.

Definition failed (m : heap_mem) : heap_mem :=
  mk_heap_mem (with_failed_count (sz (failed_allocation_count (hm_heap m) + 1)) (hm_heap m)) (hm_blocks m).

Lemma failed_rep m b gs : heap_rep m b gs -> heap_rep (failed m) b gs.
Proof. intros [R HK]. split; [|done]. by apply (rep_update m _ b gs); try apply R. Qed.

Lemma alloc_loop_spec m b requested n Q : 0 < requested <= n -> n mod max_alignment = 0 -> max_alignment <= n ->
  forall ys xs fuel, heap_rep m b (xs ++ ys) -> (length ys <= fuel)%nat ->
  (first_fit n ys = None -> Q None (failed m)) ->
  (forall us p vs m', first_fit n ys = Some (us, p, vs) -> heap_rep m' b (xs ++ us ++ taken requested n p ++ vs) ->
     hm_heap m' = with_allocation_count (sz (allocation_count (hm_heap m) + 1)) (hm_heap m) ->
     Q (Some (b + span (xs ++ us) + header)) m') ->
  wp (alloc_loop fuel (start (b + span xs) ys None) requested n) Q m.
Proof.
  intros Hr Hn Hna ys. induction ys as [|g ys IH]; intros xs fuel R Hf K1 K2; simpl.
  - destruct fuel; cbn [alloc_loop]; unfold count_failure, set_heap; wp_steps; by apply K1.
  - destruct fuel as [|fuel]; [simpl in Hf; lia|]. cbn [alloc_loop]. wp_step.
    destruct (chain_middle _ _ _ _ _ (rep_sizes _ _ _ (proj1 R)) (rep_chain _ _ _ (proj1 R))) as (_ & Hb & _).
    eapply wp_load; [exact Hb|]. cbn [is_free payload_bytes blk_next block_of].
    replace (negb (seg_free g) || (g.1 <? n)) with (negb (fits n g)) by (unfold fits; destruct (seg_free g); simpl; lia).
    cbn [first_fit] in K1, K2. destruct (fits n g) eqn:Ef; cbn [negb].
    + unfold fits, seg_free in Ef. apply andb_true_iff in Ef as [E1 E2]. apply bool_decide_eq_true in E1.
      destruct g as [p r]. simpl in *. subst r. apply take_block_spec; try done; [lia|].
      intros m' R' Hm'. specialize (K2 [] p ys m' eq_refl R' Hm'). by rewrite app_nil_r in K2.
    + replace (b + span xs + header + g.1) with (b + span (xs ++ [g])) by (rewrite span_app; simpl; lia).
      apply IH; [by rewrite <- app_assoc|simpl in Hf; lia| |].
      * intros E. rewrite E in K1. by apply K1.
      * intros us p vs m' E R' Hm'. rewrite E in K2. rewrite <- app_assoc in R' |- *. exact (K2 (g :: us) p vs m' eq_refl R' Hm').
Qed.

(** The largest request that can be rounded up. *)
Definition allocatable (requested : Z) : bool := (0 <? requested) && (requested <=? size_max - (max_alignment - 1)).

Lemma alloc_spec m b gs requested Q : heap_rep m b gs -> 0 <= requested <= size_max ->
  (allocatable requested = false \/ first_fit (round_up requested) gs = None -> Q None (failed m)) ->
  (forall xs p ys m', allocatable requested = true -> first_fit (round_up requested) gs = Some (xs, p, ys) ->
     heap_rep m' b (xs ++ taken requested (round_up requested) p ++ ys) ->
     hm_heap m' = with_allocation_count (sz (allocation_count (hm_heap m) + 1)) (hm_heap m) ->
     Q (Some (b + span xs + header)) m') ->
  wp (hr_heap_lab_alloc true requested) Q m.
Proof.
  intros R Hr K1 K2. pose proof (proj1 R) as RA. pose proof alignment_pos as HA. unfold hr_heap_lab_alloc. wp_step. wp_step.
  rewrite (rep_initialized _ _ _ RA), (rep_alignment _ _ _ RA), (align_up_size_spec _ Hr). cbn [negb orb].
  assert (HF : forall X : Prop, X -> (X -> allocatable requested = false) ->
    wp (count_failure ;;; retM None) Q m).
  { intros X HX HE. unfold count_failure, set_heap. wp_steps. apply K1. left. auto. }
  destruct (Z.eqb_spec requested 0) as [E0|E0]; [apply (HF (requested = 0) E0); intros; unfold allocatable; lia|].
  destruct (Z.ltb_spec (size_max - (max_alignment - 1)) requested) as [E1|E1];
    [apply (HF _ E1); intros; unfold allocatable; lia|].
  assert (Ha : allocatable requested = true) by (unfold allocatable; lia).
  destruct (round_up_spec requested) as [H1 H2].
  assert (HM : max_alignment <= round_up requested).
  { apply Z.mod_divide in H1 as [k Hk]; [|lia]. rewrite Hk in H2 |- *. assert (1 <= k) by nia. nia. }
  rewrite (rep_first _ _ _ RA). pose proof (rep_some _ _ _ RA) as Hne.
  replace (Some b) with (start (b + span []) gs None) by (simpl; rewrite Z.add_0_r; by destruct gs).
  apply (alloc_loop_spec m b requested (round_up requested) Q ltac:(lia) H1 HM gs []); [done|pose proof (rep_fuel _ _ _ RA); lia| |].
  - intros E. apply K1. by right.
  - intros us p vs m' E R' Hm'. by apply (K2 us p vs m').
Qed.

(** ** Release *)

(** A free segment of [p] bytes in front of [ys], merged with a free one that follows. *)
Definition absorb (p : Z) (ys : list segment) : list segment :=
  match ys with (q, None) :: ys' => (p + header + q, None) :: ys' | _ => (p, None) :: ys end.

(** A segment of [p] bytes is freed between [xs] and [ys]. *)
Definition released (xs : list segment) (p : Z) (ys : list segment) : list segment :=
  match last xs with
  | Some (q, None) => removelast xs ++ absorb q (absorb p ys)
  | _ => xs ++ absorb p ys
  end.

Lemma absorb_span p ys : span (absorb p ys) = header + p + span ys.
Proof. destruct ys as [|[q [r|]] ys]; simpl; lia. Qed.
Lemma absorb_ok p ys : seg_ok (p, None) -> Forall seg_ok ys -> Forall seg_ok (absorb p ys).
Proof.
  intros Hp HY. destruct ys as [|[q [r|]] ys]; simpl; try (by constructor).
  inversion HY as [|? ? Hq HY']; subst. destruct Hp as (P1 & P2 & _), Hq as (Q1 & Q2 & _). simpl in *.
  pose proof header_pos. pose proof alignment_pos. constructor; [|done]. split_and!; simpl; [lia| |done].
  apply mod0_add; [apply mod0_add; [done|apply header_aligned]|done].
Qed.
(** The merged segment and what follows it. *)
Lemma absorb_shape p ys : coalesced_after false ys ->
  exists p' ys', absorb p ys = (p', None) :: ys' /\ coalesced_after true ys'.
Proof.
  destruct ys as [|[q [r|]] ys]; simpl; intros HC.
  - by exists p, [].
  - exists p, ((q, Some r) :: ys). simpl. destruct HC as [_ HC]. done.
  - destruct HC as [_ HC]. by exists (p + header + q), ys.
Qed.

Lemma merge_spec m b xs p ys Q : heap_arena m b (xs ++ (p, None) :: ys) ->
  (forall m', heap_arena m' b (xs ++ absorb p ys) -> hm_heap m' = hm_heap m -> Q tt m') ->
  wp (merge_with_next (b + span xs)) Q m.
Proof.
  intros R K. pose proof header_pos as Hh.
  destruct (chain_middle _ _ _ _ _ (rep_sizes _ _ _ R) (rep_chain _ _ _ R)) as (C1 & Hb & C3 & S1 & Sp & S3).
  simpl in Hb, C3, Sp. set (a := b + span xs) in *. pose proof (rep_range _ _ _ R) as Hrg.
  rewrite span_app in Hrg. simpl in Hrg. pose proof (span_nonneg xs S1).
  pose proof (proj1 (Forall_app _ _ _) (rep_segs _ _ _ R)) as [SO1 SO2]. inversion SO2 as [|? ? SOp SO3]; subst.
  unfold merge_with_next. wp_step. wp_step. wp_step. eapply wp_load; [exact Hb|]. cbn [blk_next block_of payload_bytes fst].
  destruct ys as [|g ys]; cbn [start]; [wp_step; by apply K|].
  destruct C3 as [Hg C4]. wp_step. eapply wp_load; [exact Hg|]. cbn [is_free block_of].
  destruct g as [q [r|]]; cbn [seg_free]; [by apply K|]. cbn [fst blk_next payload_bytes block_of] in *.
  inversion S3 as [|? ? Sq S4]; subst. simpl in Hrg, Sq. pose proof (span_nonneg ys S4).
  rewrite (rep_header _ _ _ R), sz_small by lia. set (x := a + header + p) in *.
  cbv [seg_free snd bool_decide decide_rel]. simpl.
  wp_step. eapply wp_upd; [exact Hb|]. wp_step. eapply wp_upd; [apply lookup_insert_eq|]. simpl. rewrite insert_insert_eq.
  set (nb := with_blk_next _ _). wp_step.
  eapply (relink_spec _ _ (Some x)); [exact S4|apply chain_frame; [done|unfold x; lia|exact C4]|]. intros B2 C4' HB2 _.
  unfold set_block. wp_step. apply K; [|done].
  apply (rep_update m _ b (xs ++ (p, None) :: (q, None) :: ys)); [done|done| | | |by destruct xs].
  - rewrite !span_app, absorb_span. simpl. lia.
  - cbn [hm_blocks hm_heap]. apply chain_app. cbn [absorb chain start fst]. fold a. split_and!.
    + eapply chain_ext; [done| |exact C1]. intros y Hy. rewrite lookup_insert_ne by lia. rewrite HB2 by lia.
      by rewrite lookup_insert_ne by lia.
    + rewrite lookup_insert_ne by lia. rewrite HB2 by lia. rewrite lookup_insert_eq. unfold nb, with_blk_next, with_payload, block_of. simpl.
      do 2 f_equal; try lia. unfold x. by replace (a + header + p + header + q) with (a + header + (p + header + q)) by lia.
    + replace (a + header + (p + header + q)) with (x + header + q) by lia. apply chain_frame; [done|lia|done].
  - apply Forall_app. split; [done|]. by apply absorb_ok.
Qed.

Lemma released_snoc us g p ys : released (us ++ [g]) p ys =
  match g with (q, None) => us ++ absorb q (absorb p ys) | _ => us ++ g :: absorb p ys end.
Proof. unfold released. rewrite last_snoc, removelast_last. destruct g as [q [r|]]; [by rewrite <- app_assoc|done]. Qed.

Lemma finish_snoc us g b : finish None b (us ++ [g]) = Some (b + span us).
Proof. by rewrite finish_app. Qed.

Lemma released_coalesced xs p r ys : coalesced (xs ++ (p, Some r) :: ys) -> coalesced (released xs p ys).
Proof.
  intros HC. unfold coalesced in HC. apply coalesced_app in HC as [H1 [_ H2]].
  destruct (absorb_shape p ys H2) as (p' & ys' & E & HY). destruct xs as [|g us _] using rev_ind.
  - unfold released. simpl. rewrite E. by split.
  - rewrite released_snoc. apply coalesced_app in H1 as [H3 [H4 _]]. unfold coalesced.
    destruct g as [q [r'|]]; rewrite E; simpl; apply coalesced_app; (split; [done|]).
    + by split_and!.
    + simpl. split; [|done]. intros Hf. apply H4 in Hf. done.
Qed.

Lemma release_spec m b xs p r ys Q : heap_rep m b (xs ++ (p, Some r) :: ys) ->
  (forall m', heap_rep m' b (released xs p ys) ->
     hm_heap m' = with_free_count (sz (free_count (hm_heap m) + 1)) (hm_heap m) -> Q HR_HEAP_LAB_OK m') ->
  wp (release_block (b + span xs) (block_of (p, Some r) (finish None b xs) (start (b + span xs + header + p) ys None))) Q m.
Proof.
  intros [R HK] K. apply released_coalesced in HK.
  destruct (chain_middle _ _ _ _ _ (rep_sizes _ _ _ R) (rep_chain _ _ _ R)) as (C1 & Hb & C3 & S1 & Sp & S3).
  simpl in Hb, C3, Sp. pose proof header_pos. pose proof (proj1 (Forall_app _ _ _) (rep_segs _ _ _ R)) as [SO1 SO2].
  inversion SO2 as [|? ? SOp SO3]; subst.
  unfold release_block. cbn [is_free block_of seg_free]. unfold seg_free. simpl.
  wp_step. eapply wp_upd; [exact Hb|]. wp_step. eapply wp_upd; [apply lookup_insert_eq|]. simpl. rewrite insert_insert_eq.
  wp_step. unfold set_heap. wp_step. simpl. wp_step.
  match goal with |- wp _ _ ?x => set (m1 := x) end.
  assert (R1 : heap_arena m1 b (xs ++ (p, None) :: ys)).
  { apply (rep_update m _ b (xs ++ (p, Some r) :: ys)); [done|done|by rewrite !span_app| | |by destruct xs].
    - cbn [hm_blocks m1]. apply chain_app. split; [apply chain_frame; [done|lia|done]|].
      cbn [chain fst]. split; [by rewrite lookup_insert_eq|]. apply chain_frame; [done|lia|done].
    - apply Forall_app. split; [done|]. constructor; [|done]. destruct SOp as (? & ? & _). done. }
  apply (merge_spec m1 b xs p ys); [done|]. intros m2 R2 Hm2.
  assert (HA : exists p' ys', absorb p ys = (p', None) :: ys').
  { destruct ys as [|[q [r'|]] ys]; simpl; eauto. }
  destruct HA as (p' & ys' & EA). rewrite EA in R2.
  destruct (chain_middle _ _ _ _ _ (rep_sizes _ _ _ R2) (rep_chain _ _ _ R2)) as (C1' & Hb' & _).
  wp_step. eapply wp_load; [exact Hb'|]. cbn [blk_previous block_of].
  destruct xs as [|g us _] using rev_ind.
  - simpl. wp_steps. apply K; [|by rewrite Hm2]. split; [|done]. unfold released. simpl. by rewrite EA.
  - rewrite finish_snoc. rewrite <- app_assoc in R2. wp_step. wp_step.
    destruct (chain_middle _ _ _ _ _ (rep_sizes _ _ _ R2) (rep_chain _ _ _ R2)) as (_ & Hg & _).
    eapply wp_load; [exact Hg|]. cbn [is_free block_of]. rewrite released_snoc, EA in K, HK.
    destruct g as [q [r'|]]; cbn [seg_free].
    + unfold seg_free. simpl. wp_steps. apply K; [|by rewrite Hm2]. by split.
    + unfold seg_free. simpl. apply (merge_spec m2 b us q ((p', None) :: ys')); [done|]. intros m3 R3 Hm3. wp_step. apply K; [by split|by rewrite Hm3, Hm2].
Qed.

(** The segment a pointer was handed out for. *)
Fixpoint locate (pointer a : Z) (gs : list segment) : option (list segment * segment * list segment) :=
  match gs with
  | [] => None
  | g :: gs' =>
      if a + header =? pointer then Some ([], g, gs')
      else match locate pointer (a + header + g.1) gs' with Some (xs, h, ys) => Some (g :: xs, h, ys) | None => None end
  end.

Lemma locate_some pointer gs : forall a xs g ys, locate pointer a gs = Some (xs, g, ys) ->
  gs = xs ++ g :: ys /\ pointer = a + span xs + header.
Proof.
  induction gs as [|h gs IH]; intros a xs g ys; simpl; [done|]. destruct (Z.eqb_spec (a + header) pointer).
  - intros [= <- <- <-]. split; [done|]. simpl. lia.
  - destruct (locate _ _ gs) as [[[us k] vs]|] eqn:E; [|done]. intros [= <- <- <-].
    destruct (IH _ _ _ _ E) as [-> ->]. split; [done|]. simpl. lia.
Qed.
Lemma locate_at xs g ys : forall a, sizes_ok xs -> locate (a + span xs + header) a (xs ++ g :: ys) = Some (xs, g, ys).
Proof.
  pose proof header_pos. induction xs as [|x xs IH]; intros a HS; simpl.
  - by rewrite (proj2 (Z.eqb_eq _ _)) by lia.
  - inversion HS; subst. pose proof (span_nonneg xs ltac:(done)). rewrite (proj2 (Z.eqb_neq _ _)) by lia.
    replace (a + (header + x.1 + span xs) + header) with (a + header + x.1 + span xs + header) by lia. by rewrite IH.
Qed.

Lemma free_loop_spec m b pointer Q : forall ys xs fuel, heap_rep m b (xs ++ ys) -> (length ys <= fuel)%nat ->
  (locate pointer (b + span xs) ys = None -> Q HR_HEAP_LAB_ERROR_INVALID_POINTER m) ->
  (forall us p vs, locate pointer (b + span xs) ys = Some (us, (p, None), vs) -> Q HR_HEAP_LAB_ERROR_DOUBLE_FREE m) ->
  (forall us p r vs m', locate pointer (b + span xs) ys = Some (us, (p, Some r), vs) ->
     heap_rep m' b (released (xs ++ us) p vs) ->
     hm_heap m' = with_free_count (sz (free_count (hm_heap m) + 1)) (hm_heap m) -> Q HR_HEAP_LAB_OK m') ->
  wp (free_loop fuel (start (b + span xs) ys None) pointer) Q m.
Proof.
  intros ys. induction ys as [|g ys IH]; intros xs fuel R Hf K1 K2 K3; simpl.
  - destruct fuel; cbn [free_loop]; wp_steps; by apply K1.
  - destruct fuel as [|fuel]; [simpl in Hf; lia|]. cbn [free_loop]. wp_step. wp_step. wp_step.
    destruct (chain_middle _ _ _ _ _ (rep_sizes _ _ _ (proj1 R)) (rep_chain _ _ _ (proj1 R))) as (_ & Hb & _).
    eapply wp_load; [exact Hb|]. unfold block_payload. rewrite (rep_header _ _ _ (proj1 R)).
    cbn [locate] in K1, K2, K3. destruct (Z.eqb_spec (b + span xs + header) pointer) as [E|E]; cbn [negb].
    + destruct g as [p [r|]]; simpl.
      * apply release_spec; [done|]. intros m' R' Hm'. apply (K3 [] p r ys m'); [done|by rewrite app_nil_r|done].
      * unfold release_block. cbn. wp_steps. by eapply K2.
    + cbn [blk_next block_of].
      replace (b + span xs + header + g.1) with (b + span (xs ++ [g])) in * by (rewrite span_app; simpl; lia).
      apply IH; [by rewrite <- app_assoc|simpl in Hf; lia| | |].
      * intros EL. rewrite EL in K1. by apply K1.
      * intros us p vs EL. rewrite EL in K2. by eapply K2.
      * intros us p r vs m' EL R' Hm'. rewrite EL in K3. rewrite <- app_assoc in R'. by apply (K3 (g :: us) p r vs m').
Qed.

Lemma free_spec m b gs pointer Q : heap_rep m b gs ->
  (locate pointer b gs = None -> Q HR_HEAP_LAB_ERROR_INVALID_POINTER m) ->
  (forall xs p ys, locate pointer b gs = Some (xs, (p, None), ys) -> Q HR_HEAP_LAB_ERROR_DOUBLE_FREE m) ->
  (forall xs p r ys m', locate pointer b gs = Some (xs, (p, Some r), ys) -> heap_rep m' b (released xs p ys) ->
     hm_heap m' = with_free_count (sz (free_count (hm_heap m) + 1)) (hm_heap m) -> Q HR_HEAP_LAB_OK m') ->
  wp (hr_heap_lab_free true (Some pointer)) Q m.
Proof.
  intros R K1 K2 K3. pose proof (proj1 R) as RA. unfold hr_heap_lab_free. wp_step. wp_step.
  rewrite (rep_initialized _ _ _ RA), (rep_first _ _ _ RA). cbn [negb]. pose proof (rep_some _ _ _ RA) as Hne.
  assert (E0 : b + span [] = b) by (simpl; lia).
  replace (Some b) with (start (b + span []) gs None) by (rewrite E0; by destruct gs).
  apply (free_loop_spec m b pointer Q gs []); rewrite ?E0; try done. pose proof (rep_fuel _ _ _ RA). lia.
Qed.
End spec.
