(* ===== verification/HeapProps.v ===== *)
(** Properties of the heap of the allocator lab: initialisation, first-fit allocation,
    release with coalescing, the round trip of the two, and the validator. *)
From stdpp Require Import gmap list.
From Stdlib Require Import ZArith Lia.
From S2P Require Import Prelude HeapLab HeapLabSpec.
Open Scope Z_scope.

Section props.
Context {host : Host} {OK : HostOk host}.

(** ** The validator *)

(** The control structure of a heap over the arena from [b] to [e]. *)
Record heap_control (m : heap_mem) (b e : Z) : Prop := {
  hc_begin : arena_begin (hm_heap m) = Some b;
  hc_end : arena_end (hm_heap m) = Some e;
  hc_first : first_block (hm_heap m) = Some b;
  hc_alignment : heap_alignment (hm_heap m) = max_alignment;
  hc_header : header_bytes (hm_heap m) = header;
  hc_managed : managed_bytes (hm_heap m) = e - b;
  hc_magic : heap_magic (hm_heap m) = HR_HEAP_LAB_MAGIC;
  hc_range : 0 <= b /\ e <= size_max;
  hc_base : b mod max_alignment = 0;
  hc_unsigned : forall a k, hm_blocks m !! a = Some k -> 0 <= requested_bytes k;
}.

Definition seg_of (k : hr_heap_lab_block) : segment := (payload_bytes k, if is_free k then None else Some (requested_bytes k)).

Lemma block_valid_iff h a expected p k : heap_alignment h = max_alignment -> 0 <= requested_bytes k ->
  block_is_valid h a expected p k = true <->
  a = expected /\ k = block_of (seg_of k) p (blk_next k) /\ seg_ok (seg_of k).
Proof.
  intros HA. unfold block_is_valid, seg_ok, seg_of, block_of, seg_free. rewrite HA. destruct k as [q r pv nx mg f]. simpl.
  intros Hr. rewrite !andb_true_iff, !Z.eqb_eq, Z.leb_le, bool_decide_eq_true. destruct f; simpl.
  - rewrite Z.eqb_eq. split.
    + intros (((((-> & ->) & ->) & H1) & H2) & ->). done.
    + intros (-> & E & H1 & H2 & _). injection E as -> -> ->. done.
  - rewrite andb_true_iff, negb_true_iff, Z.eqb_neq, Z.leb_le. split.
    + intros (((((-> & ->) & ->) & H1) & H2) & H3 & H4). split_and!; try done; lia.
    + intros (-> & E & H1 & H2 & H3). injection E as -> ->. split_and!; try done; lia.
Qed.

Section validate.
Context (m : heap_mem) (b e : Z).
Hypothesis HC : heap_control m b e.

Lemma seg_bytes gs : Forall seg_ok gs -> Z.of_nat (length gs) * max_alignment <= span gs.
Proof.
  pose proof header_pos. induction 1 as [|g gs (H1 & _) _ IH]; [simpl; lia|]. rewrite length_cons, Nat2Z.inj_succ. simpl. lia.
Qed.

Lemma heap_validate_sound fuel : forall blk p a visited, validate_loop fuel m blk p a visited = Some true ->
  exists gs, blk = start a gs None /\ chain (hm_blocks m) p a gs None /\ Forall seg_ok gs /\
    coalesced gs /\ e = a + span gs.
Proof.
  induction fuel as [|fuel IH]; intros blk p a visited; destruct blk as [x|]; simpl; try done.
  - rewrite (hc_end _ _ _ HC). intros [= E]. apply bool_decide_eq_true in E. injection E as ->.
    exists []. split_and!; try done; simpl; lia.
  - destruct (hm_blocks m !! x) as [k|] eqn:Ek; [|done].
    destruct (block_is_valid (hm_heap m) x a p k) eqn:Ev; cbn [negb]; [|done].
    apply block_valid_iff in Ev as (-> & EB & HS); [|apply HC|by apply (hc_unsigned _ _ _ HC x)].
    destruct (_ || _); [done|]. destruct (next_is_free m k) as [[|]|] eqn:En; try done.
    destruct (_ <? visited + 1); [done|]. unfold block_payload. rewrite (hc_header _ _ _ HC).
    intros (gs & E1 & C & HF & HK & HE)%IH. exists (seg_of k :: gs). simpl. split_and!; try done.
    + rewrite Ek. rewrite EB at 1. by rewrite E1.
    + by constructor.
    + split; [done|]. unfold coalesced in *. destruct gs as [|g gs]; [done|]. simpl in HK |- *. split; [|by destruct HK].
      intros Hf. unfold next_is_free in En. rewrite E1 in En. simpl in En.
      assert (Hk : is_free k = true) by (unfold seg_free, seg_of in Hf; destruct (is_free k); done).
      rewrite Hk in En. destruct C as [Hg _]. rewrite Hg in En. by injection En.
    + lia.
  - rewrite (hc_end _ _ _ HC). intros [= E]. apply bool_decide_eq_true in E. injection E as ->.
    exists []. split_and!; try done; simpl; lia.
Qed.

Lemma heap_validate_complete fuel : forall ys xs, b + span (xs ++ ys) = e ->
  chain (hm_blocks m) (finish None b xs) (b + span xs) ys None -> Forall seg_ok (xs ++ ys) ->
  coalesced_after (ends_free false xs) ys -> (length ys < fuel)%nat ->
  validate_loop fuel m (start (b + span xs) ys None) (finish None b xs) (b + span xs) (Z.of_nat (length xs)) = Some true.
Proof.
  induction fuel as [|fuel IH]; intros ys xs He HCh HF HK Hl; [lia|]. destruct ys as [|g ys]; cbn [start validate_loop].
  - rewrite (hc_end _ _ _ HC), bool_decide_true; [done|]. rewrite app_nil_r in He. by rewrite He.
  - destruct HCh as [Hb HCh]. rewrite Hb. pose proof (proj1 (Forall_app _ _ _) HF) as [HF1 HF2].
    inversion HF2 as [|? ? HG HF3]; subst. pose proof header_pos.
    assert (ES : seg_of (block_of g (finish None b xs) (start (b + span xs + header + g.1) ys None)) = g)
      by (unfold seg_of, block_of, seg_free; destruct g as [q [r|]]; done).
    assert (Hv : block_is_valid (hm_heap m) (b + span xs) (b + span xs) (finish None b xs)
      (block_of g (finish None b xs) (start (b + span xs + header + g.1) ys None)) = true).
    { apply block_valid_iff; [apply HC|by apply (hc_unsigned _ _ _ HC _ _ Hb)|]. by rewrite ES. }
    rewrite Hv. cbn [negb]. unfold block_payload. rewrite (hc_header _ _ _ HC), (hc_end _ _ _ HC). cbn [payload_bytes block_of].
    pose proof (span_nonneg ys (seg_ok_sizes _ HF3)). pose proof (span_nonneg xs (seg_ok_sizes _ HF1)).
    destruct HG as (G1 & G2 & G3). pose proof alignment_pos.
    assert (He' : span (xs ++ g :: ys) = span xs + (header + g.1 + span ys)) by (rewrite span_app; done).
    assert (Hend : ((b + span xs + header + g.1 <=? b + span xs) || negb (b + span xs + header + g.1 <=? default 0 (Some (b + span (xs ++ g :: ys))))) = false)
      by (rewrite He'; simpl; lia).
    rewrite Hend.
    assert (Hn : next_is_free m (block_of g (finish None b xs) (start (b + span xs + header + g.1) ys None)) = Some false).
    { unfold next_is_free. cbn [blk_next is_free block_of]. destruct HK as [_ HK]. destruct ys as [|g' ys]; [done|].
      cbn [start]. destruct (seg_free g) eqn:Eg; [|done]. destruct HCh as [Hb' _]. rewrite Hb'. simpl.
      destruct HK as [HK _]. by rewrite HK. }
    rewrite Hn, (hc_managed _ _ _ HC), (hc_alignment _ _ _ HC).
    replace (b + span (xs ++ g :: ys) - b) with (span (xs ++ g :: ys)) by lia.
    assert (Hcnt : Z.of_nat (length xs) + 1 <= span (xs ++ g :: ys) / max_alignment).
    { apply Z.div_le_lower_bound; [lia|]. pose proof (seg_bytes (xs ++ [g]) ltac:(apply Forall_app; split; [done|]; by repeat constructor)) as HB.
      rewrite length_app, span_app in HB. simpl in HB. lia. }
    replace (_ <? Z.of_nat (length xs) + 1) with false by lia.
    specialize (IH ys (xs ++ [g])). rewrite finish_snoc, length_app in IH. cbn [blk_next block_of].
    replace (b + span (xs ++ [g])) with (b + span xs + header + g.1) in IH by (rewrite span_app; simpl; lia).
    replace (Z.of_nat (length xs) + 1) with (Z.of_nat (length xs + length [g])) by (simpl; lia).
    apply IH; try done.
    + by rewrite <- app_assoc.
    + by rewrite <- app_assoc.
    + destruct HK as [_ HK]. rewrite ends_free_app. exact HK.
    + simpl in Hl. lia.
Qed.
End validate.

(** ** Initialisation *)

Definition round_down (x : Z) : Z := x - x mod max_alignment.

Lemma header_rounds : align_up_size sizeof_heap_block max_alignment = Some header.
Proof.
  pose proof host_block. pose proof alignment_pos. rewrite align_up_size_spec by (unfold size_max; lia).
  replace (size_max - (max_alignment - 1) <? sizeof_heap_block) with false; [done|]. unfold size_max. lia.
Qed.

Lemma heap_init_spec m raw bytes Q : 0 <= raw -> 0 < bytes -> raw + bytes <= size_max -> raw <= size_max - (max_alignment - 1) ->
  let b := round_up raw in let managed := round_down (raw + bytes - b) in
  (b < raw + bytes -> header + max_alignment <= managed ->
     forall m', heap_rep m' b [(managed - header, None)] -> Q HR_HEAP_LAB_OK m') ->
  (raw + bytes <= b \/ managed < header + max_alignment -> forall m', heap_is_initialized (the_heap true m') = false ->
     Q HR_HEAP_LAB_ERROR_INVALID_ARGUMENT m') ->
  wp (hr_heap_lab_init true (Some raw) bytes) Q m.
Proof.
  intros H0 H1 H2 H3 b managed K1 K2. pose proof alignment_pos as HA. pose proof header_pos as Hh.
  destruct (round_up_spec raw) as [R1 R2]. fold b in R1, R2. pose proof host_block as HB.
  pose proof (round_up_spec sizeof_heap_block) as HRU. fold header in HRU.
  unfold hr_heap_lab_init. rewrite (proj2 (Z.eqb_neq bytes 0)) by lia. cbn [negb orb]. unfold set_heap, set_block. wp_step. wp_step.
  unfold hr_heap_lab_alignment. rewrite header_rounds. replace (size_max - bytes <? raw) with false by lia.
  rewrite (sz_small (raw + bytes)) by lia. unfold align_up_address. rewrite mask_value, (sz_small (raw + _)), align_land by lia.
  fold (round_up raw). fold b. destruct (Z.leb_spec (raw + bytes) b) as [Hb|Hb]; cbn [orb]; [wp_step; by apply K2; [left|]|].
  replace (size_max <? raw + bytes - b) with false by lia.
  rewrite (sz_small (raw + bytes - b)), align_land by lia. fold (round_down (raw + bytes - b)). fold managed.
  rewrite (sz_small (header + max_alignment)) by (unfold size_max; lia).
  destruct (Z.ltb_spec managed (header + max_alignment)) as [Hm|Hm]; [wp_step; by apply K2; [right|]|].
  assert (Hmb : managed <= raw + bytes - b).
  { unfold managed, round_down. pose proof (Z.mod_pos_bound (raw + bytes - b) max_alignment HA). lia. }
  wp_steps. apply K1; [done|done|]. rewrite (sz_small (managed - header)) by lia.
  assert (Ha : managed mod max_alignment = 0).
  { unfold managed, round_down. rewrite Zminus_mod, Zmod_mod, Z.sub_diag. apply Zmod_0_l. }
  split; [|done]. constructor; simpl; try done; try lia.
  - f_equal. lia.
  - split; [|done]. by rewrite lookup_insert_eq.
  - repeat constructor; simpl; try lia. by apply mod0_sub; [|apply header_aligned].
Qed.
End props.

(** ** Properties *)
Section theorems.
Context {host : Host} {OK : HostOk host}.

(** [hr_heap_lab_init] on memory that does not reach the last bytes of the address space
    cuts the aligned part of it into one free block behind its header, or rejects memory
    too small for a header and one aligned unit and leaves the heap uninitialised. *)
Theorem heap_init_cuts_one_block m raw bytes :
  0 <= raw -> 0 < bytes -> raw + bytes <= size_max -> raw <= size_max - (max_alignment - 1) ->
  let b := round_up raw in let managed := round_down (raw + bytes - b) in
  exists st m', hr_heap_lab_init true (Some raw) bytes m = Some (st, m') /\
    ((b < raw + bytes /\ header + max_alignment <= managed /\ st = HR_HEAP_LAB_OK /\
      heap_rep m' b [(managed - header, None)]) \/
     ((raw + bytes <= b \/ managed < header + max_alignment) /\ st = HR_HEAP_LAB_ERROR_INVALID_ARGUMENT /\
      heap_is_initialized (the_heap true m') = false)).
Proof.
  intros H0 H1 H2 H3 b managed. apply (wp_run (hr_heap_lab_init true (Some raw) bytes)).
  apply heap_init_spec; try done.
  - intros Hb Hm m' R. left. done.
  - intros Hc m' Hi. right. done.
Qed.

(** C29: [hr_heap_lab_alloc] is first fit: it hands out the payload of the first free block
    that holds the request rounded up to the alignment, splits off the rest when that can
    hold a block, and returns an aligned pointer into the arena; when no block fits, or
    the request is zero or cannot be rounded up, it returns null and only counts the
    failure.  The invariant of the heap holds afterwards. *)
Theorem heap_alloc_first_fit m b gs requested :
  heap_rep m b gs -> 0 <= requested <= size_max ->
  exists r m', hr_heap_lab_alloc true requested m = Some (r, m') /\
    match (if allocatable requested then first_fit (round_up requested) gs else None) with
    | None => r = None /\ heap_rep m' b gs /\ hm_blocks m' = hm_blocks m /\
        failed_allocation_count (hm_heap m') = sz (failed_allocation_count (hm_heap m) + 1)
    | Some (xs, p, ys) =>
        gs = xs ++ (p, None) :: ys /\ round_up requested <= p /\
        Forall (fun g => fits (round_up requested) g = false) xs /\
        heap_rep m' b (xs ++ taken requested (round_up requested) p ++ ys) /\
        exists pointer, r = Some pointer /\ pointer = b + span xs + header /\ pointer mod max_alignment = 0 /\
          b < pointer /\ pointer + requested <= b + span gs
    end.
Proof.
  intros R Hr. apply (wp_run (hr_heap_lab_alloc true requested)). apply (alloc_spec m b gs); try done.
  - intros Hc. assert (HE : (if allocatable requested then first_fit (round_up requested) gs else None) = None).
    { destruct Hc as [-> | ->]; [done|by destruct (allocatable _)]. }
    rewrite HE. split_and!; try done. by apply failed_rep.
  - intros xs p ys m' Ha E R' Hm'. rewrite Ha, E. destruct (first_fit_some _ _ _ _ _ E) as (Eg & Hn & HF).
    split_and!; try done. exists (b + span xs + header). pose proof header_pos. destruct R as [RA _].
    pose proof (rep_segs _ _ _ RA) as HS. rewrite Eg in HS. apply Forall_app in HS as [HS1 HS2].
    inversion HS2 as [|? ? HP HS3]; subst gs; subst. pose proof (span_nonneg xs (seg_ok_sizes _ HS1)).
    pose proof (span_nonneg ys (seg_ok_sizes _ HS3)). destruct (round_up_spec requested) as [_ HU].
    split_and!; try done; try lia.
    + apply mod0_add; [apply mod0_add; [apply RA|by apply span_aligned]|apply header_aligned].
    + rewrite span_app. simpl. lia.
Qed.

(** C30: [hr_heap_lab_free] releases exactly the block whose payload the pointer is, merges
    it with a free neighbour on either side and keeps the invariant; a pointer to a free
    block is a double free, any other pointer is invalid, and both change nothing. *)
Theorem heap_free_coalesces m b gs pointer :
  heap_rep m b gs ->
  exists st m', hr_heap_lab_free true (Some pointer) m = Some (st, m') /\
    match locate pointer b gs with
    | None => st = HR_HEAP_LAB_ERROR_INVALID_POINTER /\ m' = m
    | Some (xs, (p, None), ys) => st = HR_HEAP_LAB_ERROR_DOUBLE_FREE /\ m' = m
    | Some (xs, (p, Some r), ys) =>
        st = HR_HEAP_LAB_OK /\ gs = xs ++ (p, Some r) :: ys /\ pointer = b + span xs + header /\
        heap_rep m' b (released xs p ys)
    end.
Proof.
  intros R. apply (wp_run (hr_heap_lab_free true (Some pointer))). apply (free_spec m b gs); try done.
  - intros ->. done.
  - intros xs p ys ->. done.
  - intros xs p r ys m' E R' _. rewrite E. destruct (locate_some _ _ _ _ _ _ E) as [E1 E2]. done.
Qed.

(** Freeing what was just allocated undoes the allocation: the heap is cut into the same
    segments as before. *)
Theorem heap_alloc_free_roundtrip m b gs requested pointer m1 :
  heap_rep m b gs -> 0 <= requested <= size_max -> hr_heap_lab_alloc true requested m = Some (Some pointer, m1) ->
  exists m2, hr_heap_lab_free true (Some pointer) m1 = Some (HR_HEAP_LAB_OK, m2) /\ heap_rep m2 b gs.
Proof.
  intros R Hr E.
  assert (HQ : wp (hr_heap_lab_alloc true requested) (fun r m' => forall q, r = Some q -> exists xs p ys,
    gs = xs ++ (p, None) :: ys /\ heap_rep m' b (xs ++ taken requested (round_up requested) p ++ ys) /\
    q = b + span xs + header) m).
  { apply (alloc_spec m b gs); try done. intros xs p ys m' Ha EF R' _ q [= <-].
    destruct (first_fit_some _ _ _ _ _ EF) as (Eg & _). by exists xs, p, ys. }
  unfold wp in HQ. rewrite E in HQ. destruct (HQ pointer eq_refl) as (xs & p & ys & -> & R1 & ->).
  destruct R as [RA HK]. unfold coalesced in HK. apply coalesced_app in HK as [HK1 [HK2 HK3]].
  assert (HX : forall q zs, released xs q zs = xs ++ absorb q zs).
  { intros q zs. destruct xs as [|g us _] using rev_ind; [done|]. rewrite released_snoc, ends_free_app in *.
    destruct g as [q' [r'|]]; [by rewrite <- app_assoc|]. by specialize (HK2 eq_refl). }
  assert (HY : absorb p ys = (p, None) :: ys).
  { destruct ys as [|[q [r'|]] ys]; try done. destruct HK3 as [HK3 _]. by specialize (HK3 eq_refl). }
  apply wp_returns. pose proof (rep_sizes _ _ _ RA) as HS. apply Forall_app in HS as [HS _].
  apply (free_spec m1 b _ _ _ R1); unfold taken; destruct (_ <=? _); cbn [app]; rewrite (locate_at xs _ _ b HS); try done;
    intros us p' r' vs m' [= <- <- <- <-] R2 _; (split; [done|]); rewrite HX in R2; [|by rewrite HY in R2].
  cbn [absorb] in R2. by replace (round_up requested + header + (p - round_up requested - header)) with p in R2 by lia.
Qed.

(** [hr_heap_lab_validate] accepts a heap exactly when its arena is cut, without gaps or
    overlaps, into well-formed blocks linked in both directions with no two free
    neighbours. *)
Theorem heap_validate_iff m b e :
  heap_control m b e ->
  hr_heap_lab_validate true m = Some true <-> exists gs, heap_rep m b gs /\ e = b + span gs.
Proof.
  intros HC. unfold hr_heap_lab_validate.
  assert (HI : heap_is_initialized (the_heap true m) = true).
  { unfold heap_is_initialized, the_heap. by rewrite (hc_magic _ _ _ HC), (hc_begin _ _ _ HC), (hc_end _ _ _ HC), (hc_first _ _ _ HC). }
  unfold hr_heap_lab_alignment. rewrite HI, (hc_alignment _ _ _ HC), (hc_begin _ _ _ HC), (hc_end _ _ _ HC), (hc_first _ _ _ HC).
  cbn [from_option negb orb]. unfold id. rewrite Z.eqb_refl, (hc_base _ _ _ HC). cbn [negb orb Z.eqb].
  rewrite orb_false_r. destruct (Z.leb_spec e b) as [Heb|Heb]; split; try done.
  - intros (gs & [R _] & ->). pose proof (rep_some _ _ _ R). pose proof header_pos. pose proof (rep_sizes _ _ _ R) as HS.
    destruct gs as [|g gs]; [done|]. inversion HS; subst. pose proof (span_nonneg gs ltac:(done)). simpl in Heb. lia.
  - intros (gs & E1 & C & HF & HK & ->)%(heap_validate_sound m b e HC). exists gs. split; [|done]. split; [|done].
    destruct HC. constructor; try done; try lia. by destruct gs.
  - intros (gs & [R HK] & ->). pose proof (rep_some _ _ _ R) as Hne. pose proof (rep_fuel _ _ _ R) as Hfu.
    pose proof (heap_validate_complete m b _ HC (chain_fuel m) gs [] eq_refl) as HV. simpl in HV. rewrite Z.add_0_r in HV.
    replace (Some b) with (start b gs None) by (by destruct gs). apply HV; try done; apply R.
Qed.
End theorems.

(** ** A concrete heap on a 64-bit host *)
#[local] Existing Instance host64.
#[local] Existing Instance host64_ok.

Definition heap_raw : heap_mem := mk_heap_mem zero_heap ∅.
Definition heap_fresh : heap_mem := run_state (hr_heap_lab_init true (Some 1001) 500) heap_raw.
Definition heap_used : heap_mem := run_state (hr_heap_lab_alloc true 30) heap_fresh.

Lemma heap_fresh_rep : heap_rep heap_fresh 1008 [(432, None)].
Proof.
  destruct (run_state_spec (hr_heap_lab_init true (Some 1001) 500) (fun _ m' => heap_rep m' 1008 [(432, None)]) heap_raw)
    as (st & _ & R); [|exact R].
  apply heap_init_spec; [lia|lia|vm_compute; congruence|vm_compute; congruence| |].
  - intros _ _ m' R. exact R.
  - intros [H|H]; exfalso; revert H; vm_compute; congruence.
Qed.
Lemma heap_used_rep : heap_rep heap_used 1008 [(32, Some 30); (352, None)].
Proof.
  destruct (run_state_spec (hr_heap_lab_alloc true 30) (fun _ m' => heap_rep m' 1008 [(32, Some 30); (352, None)]) heap_fresh)
    as (st & _ & R); [|exact R].
  apply (alloc_spec heap_fresh 1008 [(432, None)]); [exact heap_fresh_rep|vm_compute; split; congruence| |].
  - intros [H|H]; exfalso; revert H; vm_compute; congruence.
  - intros xs p ys m' _ E R _. change (first_fit _ _) with (Some (@nil segment, 432, @nil segment)) in E.
    injection E as <- <- <-. exact R.
Qed.

Lemma heap_init_cuts_one_block_witness : exists st m', hr_heap_lab_init true (Some 1001) 500 heap_raw = Some (st, m') /\
  (st = HR_HEAP_LAB_OK \/ st = HR_HEAP_LAB_ERROR_INVALID_ARGUMENT).
Proof.
  destruct (heap_init_cuts_one_block heap_raw 1001 500) as (st & m' & E & [HA|HB]);
    [lia|lia|vm_compute; congruence|vm_compute; congruence| |]; exists st, m'; (split; [exact E|]).
  - left. apply HA.
  - right. apply HB.
Defined.

Lemma heap_alloc_first_fit_witness : exists m', heap_rep heap_used 1008 [(32, Some 30); (352, None)] /\
  hr_heap_lab_alloc true 100 heap_used = Some (Some 1136, m').
Proof.
  destruct (heap_alloc_first_fit heap_used 1008 [(32, Some 30); (352, None)] 100) as (r & m' & E & HM);
    [exact heap_used_rep|vm_compute; split; congruence|].
  exists m'. split; [exact heap_used_rep|].
  change (if allocatable 100 then _ else _) with (Some ([(32, Some 30)], 352, @nil segment)) in HM.
  destruct HM as (_ & _ & _ & _ & p & -> & -> & _). exact E.
Defined.

Lemma heap_free_coalesces_witness : exists m', heap_rep heap_used 1008 [(32, Some 30); (352, None)] /\
  hr_heap_lab_free true (Some 1056) heap_used = Some (HR_HEAP_LAB_OK, m') /\ heap_rep m' 1008 [(432, None)].
Proof.
  destruct (heap_free_coalesces heap_used 1008 [(32, Some 30); (352, None)] 1056 heap_used_rep) as (st & m' & E & HM).
  change (locate _ _ _) with (Some (@nil segment, (32, Some 30), [(352, @None Z)])) in HM.
  destruct HM as (-> & _ & _ & R). exists m'. split; [exact heap_used_rep|]. split; [exact E|exact R].
Defined.

Lemma heap_alloc_free_roundtrip_witness : exists m1 m2, hr_heap_lab_alloc true 30 heap_fresh = Some (Some 1056, m1) /\
  hr_heap_lab_free true (Some 1056) m1 = Some (HR_HEAP_LAB_OK, m2) /\ heap_rep m2 1008 [(432, None)].
Proof.
  assert (E : hr_heap_lab_alloc true 30 heap_fresh = Some (Some 1056, heap_used)) by (vm_compute; reflexivity).
  destruct (heap_alloc_free_roundtrip heap_fresh 1008 [(432, None)] 30 1056 heap_used heap_fresh_rep
    ltac:(vm_compute; split; congruence) E) as (m2 & E2 & R2).
  exists heap_used, m2. split; [exact E|]. split; [exact E2|exact R2].
Defined.

Lemma heap_used_control : heap_control heap_used 1008 1488.
Proof.
  constructor; try (vm_compute; reflexivity).
  - vm_compute. split; congruence.
  - intros a k Hk. assert (HF : map_Forall (fun _ k => 0 <= requested_bytes k) (hm_blocks heap_used)).
    { apply (bool_decide_unpack (map_Forall (fun _ k => 0 <= requested_bytes k) (hm_blocks heap_used))). vm_compute. exact I. }
    exact (HF a k Hk).
Qed.

Lemma heap_validate_iff_witness : heap_control heap_used 1008 1488 /\
  (hr_heap_lab_validate true heap_used = Some true <-> exists gs, heap_rep heap_used 1008 gs /\ 1488 = 1008 + span gs).
Proof. split; [exact heap_used_control|]. exact (heap_validate_iff heap_used 1008 1488 heap_used_control). Defined.

(** Near the end of the address space the rounding of the start address wraps: with the
    last bytes of it as memory, [hr_heap_lab_init] succeeds with an arena that starts at
    address zero, outside the memory it was given. *)
Theorem heap_init_start_wraps :
  exists m, hr_heap_lab_init true (Some (2 ^ 64 - 8)) 4 heap_raw = Some (HR_HEAP_LAB_OK, m) /\
    arena_begin (hm_heap m) = Some 0.
Proof. exists (run_state (hr_heap_lab_init true (Some (2 ^ 64 - 8)) 4) heap_raw). vm_compute. split; reflexivity. Qed.
