(* ===== verification/PoolLab.v ===== *)
(** The fixed-block pool of the allocator lab: [labs/memory-allocator/src/hr_pool_lab.c].

    The memory is the control structure [hr_pool_lab_t] and the [next] fields of the free
    nodes, which the allocator keeps in the first bytes of a block; the host's widths are
    those of [HeapLab]. *)
From stdpp Require Import gmap list.
From Stdlib Require Import ZArith Lia.
From S2P Require Import Prelude HeapLab.
Open Scope Z_scope.

Definition HR_POOL_LAB_MAGIC : Z := 0x504C4142.

Record hr_pool_lab : Type := mk_pool {
  memory_begin : option Z;
  memory_end : option Z;
  free_head : option Z;
  block_stride : Z;
  requested_block_bytes : Z;
  capacity : Z;
  free_blocks : Z;
  pool_allocation_count : Z;
  pool_free_count : Z;
  pool_failed_count : Z;
  pool_magic : Z;
}.

Record pool_mem : Type := mk_pool_mem { pm_pool : hr_pool_lab; pm_next : gmap Z (option Z) }.

Definition set_pool (f : hr_pool_lab -> hr_pool_lab) : M pool_mem unit :=
  modifyM (fun m => mk_pool_mem (f (pm_pool m)) (pm_next m)).
Definition store_next (a : Z) (n : option Z) : M pool_mem unit :=
  modifyM (fun m => mk_pool_mem (pm_pool m) (<[a := n]> (pm_next m))).
Definition load_next (a : Z) : M pool_mem (option Z) :=
  fun m => match pm_next m !! a with Some n => Some (n, m) | None => None end.

Definition with_free_head v p :=
  mk_pool (memory_begin p) (memory_end p) v (block_stride p) (requested_block_bytes p) (capacity p) (free_blocks p)
    (pool_allocation_count p) (pool_free_count p) (pool_failed_count p) (pool_magic p).
Definition with_free_blocks v p :=
  mk_pool (memory_begin p) (memory_end p) (free_head p) (block_stride p) (requested_block_bytes p) (capacity p) v
    (pool_allocation_count p) (pool_free_count p) (pool_failed_count p) (pool_magic p).
Definition with_pool_allocation_count v p :=
  mk_pool (memory_begin p) (memory_end p) (free_head p) (block_stride p) (requested_block_bytes p) (capacity p) (free_blocks p)
    v (pool_free_count p) (pool_failed_count p) (pool_magic p).
Definition with_pool_free_count v p :=
  mk_pool (memory_begin p) (memory_end p) (free_head p) (block_stride p) (requested_block_bytes p) (capacity p) (free_blocks p)
    (pool_allocation_count p) v (pool_failed_count p) (pool_magic p).
Definition with_pool_failed_count v p :=
  mk_pool (memory_begin p) (memory_end p) (free_head p) (block_stride p) (requested_block_bytes p) (capacity p) (free_blocks p)
    (pool_allocation_count p) (pool_free_count p) v (pool_magic p).

Definition zero_pool : hr_pool_lab := mk_pool None None None 0 0 0 0 0 0 0 0.

Section host.
Context `{Host}.

Definition pool_align_up_size (value alignment : Z) : option Z :=
  let mask := sz (alignment - 1) in
  if size_max - mask <? value then None else Some (Z.land (sz (value + mask)) (mask_not mask)).
Definition pool_align_up_address (value alignment : Z) : Z :=
  let mask := sz (alignment - 1) in Z.land (sz (value + mask)) (mask_not mask).

Definition the_pool (has_pool : bool) (m : pool_mem) : option hr_pool_lab :=
  if has_pool then Some (pm_pool m) else None.

Definition pool_is_initialized (pool : option hr_pool_lab) : bool :=
  match pool with
  | None => false
  | Some p => (pool_magic p =? HR_POOL_LAB_MAGIC) && bool_decide (memory_begin p <> None) && (0 <? capacity p)
  end.

Definition pointer_is_block (p : hr_pool_lab) (address : Z) : bool :=
  let begin := default 0 (memory_begin p) in
  let end_ := default 0 (memory_end p) in
  (begin <=? address) && (address <? end_) && (sz (address - begin) mod block_stride p =? 0).

(** [for (node = free_head; node != NULL; node = node->next)]: at most [capacity + 1]
    iterations, after which the code gives up as well. *)
Fixpoint is_free_loop (fuel : nat) (m : pool_mem) (node : option Z) (pointer visited : Z) : option bool :=
  match node with
  | None => Some false
  | Some a =>
      if a =? pointer then Some true
      else if capacity (pm_pool m) <? visited + 1 then Some false
      else match fuel, pm_next m !! a with
           | S fuel', Some next => is_free_loop fuel' m next pointer (visited + 1)
           | _, _ => None
           end
  end.
Definition pointer_is_free (m : pool_mem) (pointer : Z) : option bool :=
  is_free_loop (S (Z.to_nat (capacity (pm_pool m)))) m (free_head (pm_pool m)) pointer 0.

(** [for (index = capacity; index > 0U; index--)] *)
Fixpoint build_free_list (n : nat) (begin stride : Z) : M pool_mem unit :=
  match n with
  | O => retM tt
  | S n' =>
      let node := begin + Z.of_nat n' * stride in
      let* m := getM in
      store_next node (free_head (pm_pool m)) ;;;
      set_pool (with_free_head (Some node)) ;;;
      build_free_list n' begin stride
  end.

Definition hr_pool_lab_init (has_pool : bool) (memory : option Z) (memory_bytes block_bytes block_count : Z)
  : M pool_mem hr_heap_lab_status :=
  match memory with
  | None => retM HR_HEAP_LAB_ERROR_INVALID_ARGUMENT
  | Some raw_begin =>
      if negb has_pool || (block_bytes =? 0) || (block_count =? 0) || (memory_bytes =? 0)
      then retM HR_HEAP_LAB_ERROR_INVALID_ARGUMENT
      else
        set_pool (fun _ => zero_pool) ;;;
        let alignment := max_alignment in
        let bytes := if block_bytes <? sizeof_pointer then sizeof_pointer else block_bytes in
        match pool_align_up_size bytes alignment with
        | None => retM HR_HEAP_LAB_ERROR_INVALID_ARGUMENT
        | Some stride =>
            if size_max - memory_bytes <? raw_begin then retM HR_HEAP_LAB_ERROR_INVALID_ARGUMENT
            else
              let raw_end := sz (raw_begin + memory_bytes) in
              let aligned_begin := pool_align_up_address raw_begin alignment in
              if raw_end <=? aligned_begin then retM HR_HEAP_LAB_ERROR_INVALID_ARGUMENT
              else
                let available := sz (raw_end - aligned_begin) in
                let cap := if block_count <? available / stride then block_count else available / stride in
                if cap =? 0 then retM HR_HEAP_LAB_ERROR_INVALID_ARGUMENT
                else
                  set_pool (fun p => mk_pool (Some aligned_begin) (Some (aligned_begin + sz (cap * stride))) None stride
                    block_bytes cap cap (pool_allocation_count p) (pool_free_count p) (pool_failed_count p)
                    HR_POOL_LAB_MAGIC) ;;;
                  build_free_list (Z.to_nat cap) aligned_begin stride ;;;
                  retM HR_HEAP_LAB_OK
        end
  end.

Definition hr_pool_lab_alloc (has_pool : bool) : M pool_mem (option Z) :=
  let* m := getM in
  if negb (pool_is_initialized (the_pool has_pool m)) then retM None
  else
    match free_head (pm_pool m) with
    | None => set_pool (fun p => with_pool_failed_count (sz (pool_failed_count p + 1)) p) ;;; retM None
    | Some node =>
        let* next := load_next node in
        set_pool (with_free_head next) ;;;
        store_next node None ;;;
        set_pool (fun p => with_free_blocks (sz (free_blocks p - 1)) p) ;;;
        set_pool (fun p => with_pool_allocation_count (sz (pool_allocation_count p + 1)) p) ;;;
        retM (Some node)
    end.

Definition hr_pool_lab_free (has_pool : bool) (pointer : option Z) : M pool_mem hr_heap_lab_status :=
  let* m := getM in
  if negb (pool_is_initialized (the_pool has_pool m)) then retM HR_HEAP_LAB_ERROR_NOT_INITIALIZED
  else match pointer with
       | None => retM HR_HEAP_LAB_ERROR_INVALID_POINTER
       | Some node =>
           if negb (pointer_is_block (pm_pool m) node) then retM HR_HEAP_LAB_ERROR_INVALID_POINTER
           else match pointer_is_free m node with
                | None => ubM
                | Some true => retM HR_HEAP_LAB_ERROR_DOUBLE_FREE
                | Some false =>
                    store_next node (free_head (pm_pool m)) ;;;
                    set_pool (with_free_head (Some node)) ;;;
                    set_pool (fun p => with_free_blocks (sz (free_blocks p + 1)) p) ;;;
                    set_pool (fun p => with_pool_free_count (sz (pool_free_count p + 1)) p) ;;;
                    retM HR_HEAP_LAB_OK
                end
       end.

Fixpoint pool_validate_loop (fuel : nat) (m : pool_mem) (node : option Z) (count : Z) : option bool :=
  match node with
  | None => Some (count =? free_blocks (pm_pool m))
  | Some a =>
      if negb (pointer_is_block (pm_pool m) a) then Some false
      else if capacity (pm_pool m) <? count + 1 then Some false
      else match fuel, pm_next m !! a with
           | S fuel', Some next => pool_validate_loop fuel' m next (count + 1)
           | _, _ => None
           end
  end.

Definition hr_pool_lab_validate (has_pool : bool) (m : pool_mem) : option bool :=
  let p := pm_pool m in
  if negb (pool_is_initialized (the_pool has_pool m)) || (default 0 (memory_end p) <=? default 0 (memory_begin p))
     || (capacity p <? free_blocks p)
  then Some false
  else pool_validate_loop (S (Z.to_nat (capacity p))) m (free_head p) 0.

Record hr_pool_lab_stats : Type := mk_pool_stats {
  ps_block_bytes : Z;
  ps_block_stride : Z;
  ps_capacity : Z;
  ps_allocated_blocks : Z;
  ps_free_blocks : Z;
  ps_internal_fragmentation_per_block : Z;
  ps_allocation_count : Z;
  ps_free_count : Z;
  ps_failed_allocation_count : Z;
}.

Definition hr_pool_lab_get_stats (has_pool has_stats : bool) (m : pool_mem)
  : option (hr_heap_lab_status * option hr_pool_lab_stats) :=
  let p := pm_pool m in
  if negb (pool_is_initialized (the_pool has_pool m)) then Some (HR_HEAP_LAB_ERROR_NOT_INITIALIZED, None)
  else if negb has_stats then Some (HR_HEAP_LAB_ERROR_INVALID_ARGUMENT, None)
  else match hr_pool_lab_validate has_pool m with
       | None => None
       | Some false => Some (HR_HEAP_LAB_ERROR_CORRUPT, None)
       | Some true =>
           Some (HR_HEAP_LAB_OK, Some (mk_pool_stats (requested_block_bytes p) (block_stride p) (capacity p)
             (sz (capacity p - free_blocks p)) (free_blocks p) (sz (block_stride p - requested_block_bytes p))
             (pool_allocation_count p) (pool_free_count p) (pool_failed_count p)))
       end.
End host.
