(* ===== verification/PoolProps.v ===== *)
(** Properties of the block pool of the allocator lab: it behaves as a stack of free block
    addresses. *)
From stdpp Require Import gmap list.
From Stdlib Require Import ZArith Lia.
From S2P Require Import Prelude HeapLab HeapLabSpec PoolLab.
Open Scope Z_scope.

Section props.
Context {host : Host} {OK : HostOk host}.

(** ** Representation *)

(** The free list read from [node] on. *)
Fixpoint free_chain (N : gmap Z (option Z)) (node : option Z) (fs : list Z) : Prop :=
  match fs with
  | [] => node = None
  | a :: fs' => node = Some a /\ exists next, N !! a = Some next /\ free_chain N next fs'
  end.

(** The addresses of the blocks of a pool. *)
Definition block_at (b stride cap a : Z) : bool := (b <=? a) && (a <? b + cap * stride) && ((a - b) mod stride =? 0).

Record pool_rep (m : pool_mem) (b stride cap : Z) (fs : list Z) : Prop := {
  pr_begin : memory_begin (pm_pool m) = Some b;
  pr_end : memory_end (pm_pool m) = Some (b + cap * stride);
  pr_stride : block_stride (pm_pool m) = stride;
  pr_capacity : capacity (pm_pool m) = cap;
  pr_count : free_blocks (pm_pool m) = Z.of_nat (length fs);
  pr_magic : pool_magic (pm_pool m) = HR_POOL_LAB_MAGIC;
  pr_range : 0 <= b /\ 0 < stride /\ 0 < cap /\ b + cap * stride <= size_max;
  pr_chain : free_chain (pm_next m) (free_head (pm_pool m)) fs;
  pr_nodup : NoDup fs;
  pr_blocks : Forall (fun a => block_at b stride cap a = true) fs;
}.

Lemma block_index b stride cap a : 0 < stride -> block_at b stride cap a = true ->
  exists i, (0 <= i < cap) /\ a = b + i * stride.
Proof.
  intros Hs HB. unfold block_at in HB. rewrite !andb_true_iff, Z.leb_le, Z.ltb_lt, Z.eqb_eq in HB.
  destruct HB as [[H1 H2] H3]. apply Z.mod_divide in H3 as [i Hi]; [|lia]. exists i. split; [nia|lia].
Qed.

(** There are no more distinct blocks than the capacity. *)
Lemma blocks_bound b stride cap fs : 0 < stride -> 0 < cap -> NoDup fs ->
  Forall (fun a => block_at b stride cap a = true) fs -> Z.of_nat (length fs) <= cap.
Proof.
  intros Hs Hc HD HF. assert (HL : (length fs <= length ((fun i : Z => (b + i * stride)%Z) <$> seqZ 0 cap))%nat).
  { apply submseteq_length, NoDup_submseteq; [done|]. intros a Ha.
    destruct (block_index b stride cap a Hs) as (i & Hi & ->); [by apply (proj1 (Forall_forall _ _) HF)|].
    apply list_elem_of_fmap. exists i. split; [done|]. apply elem_of_seqZ. lia. }
  rewrite length_fmap, length_seqZ in HL. lia.
Qed.
Lemma pool_rep_bound m b stride cap fs : pool_rep m b stride cap fs -> Z.of_nat (length fs) <= cap.
Proof. intros R. destruct (pr_range _ _ _ _ _ R) as (_ & Hs & Hc & _). by apply (blocks_bound b stride); try apply R. Qed.

Lemma is_block_spec m b stride cap fs a : pool_rep m b stride cap fs ->
  0 <= a <= size_max -> pointer_is_block (pm_pool m) a = block_at b stride cap a.
Proof.
  intros R Ha. unfold pointer_is_block, block_at. rewrite (pr_begin _ _ _ _ _ R), (pr_end _ _ _ _ _ R), (pr_stride _ _ _ _ _ R).
  simpl. destruct (Z.leb_spec b a); [|done]. destruct (pr_range _ _ _ _ _ R) as (Hb & _). simpl.
  by rewrite sz_small by lia.
Qed.

Lemma pool_initialized m b stride cap fs : pool_rep m b stride cap fs -> pool_is_initialized (the_pool true m) = true.
Proof.
  intros R. unfold pool_is_initialized, the_pool.
  rewrite (pr_magic _ _ _ _ _ R), (pr_begin _ _ _ _ _ R), (pr_capacity _ _ _ _ _ R). destruct (pr_range _ _ _ _ _ R) as (_ & _ & Hc & _).
  rewrite Z.eqb_refl. cbn. lia.
Qed.

Lemma free_chain_frame N fs : forall node x v, x ∉ fs -> free_chain N node fs -> free_chain (<[x := v]> N) node fs.
Proof.
  induction fs as [|a fs IH]; intros node x v Hx; simpl; [done|]. intros (-> & next & Hn & HC).
  apply not_elem_of_cons in Hx as [Hne Hx]. split; [done|]. exists next. rewrite lookup_insert_ne by done. split; [done|by apply IH].
Qed.

Lemma is_free_loop_spec m pointer : forall fs node visited fuel,
  free_chain (pm_next m) node fs -> visited + Z.of_nat (length fs) <= capacity (pm_pool m) -> (length fs <= fuel)%nat ->
  is_free_loop fuel m node pointer visited = Some (bool_decide (pointer ∈ fs)).
Proof.
  induction fs as [|a fs IH]; intros node visited fuel HC Hv Hf.
  - simpl in HC. subst. by destruct fuel.
  - destruct HC as (-> & next & Hn & HC). destruct fuel as [|fuel]; [simpl in Hf; lia|]. cbn [is_free_loop].
    rewrite length_cons in Hv, Hf. destruct (Z.eqb_spec a pointer) as [->|Hne].
    + rewrite bool_decide_true; [done|]. apply elem_of_cons. by left.
    + replace (capacity (pm_pool m) <? visited + 1) with false by lia. rewrite Hn, (IH next (visited + 1) fuel HC); [|lia..].
      f_equal. apply bool_decide_ext. rewrite elem_of_cons. intuition congruence.
Qed.

(** ** The stack of free blocks *)

Inductive pool_op : Type := PoolAlloc | PoolFree (pointer : Z).
Inductive pool_result : Type := PoolPointer (p : option Z) | PoolStatus (s : hr_heap_lab_status).

Definition abs_pool (b stride cap : Z) (fs : list Z) (op : pool_op) : pool_result * list Z :=
  match op with
  | PoolAlloc => (PoolPointer (head fs), tail fs)
  | PoolFree p =>
      if negb (block_at b stride cap p) then (PoolStatus HR_HEAP_LAB_ERROR_INVALID_POINTER, fs)
      else if bool_decide (p ∈ fs) then (PoolStatus HR_HEAP_LAB_ERROR_DOUBLE_FREE, fs)
      else (PoolStatus HR_HEAP_LAB_OK, p :: fs)
  end.

Definition run_pool (op : pool_op) : M pool_mem pool_result :=
  match op with
  | PoolAlloc => let* p := hr_pool_lab_alloc true in retM (PoolPointer p)
  | PoolFree p => let* s := hr_pool_lab_free true (Some p) in retM (PoolStatus s)
  end.
Definition op_ok (op : pool_op) : Prop := match op with PoolFree p => 0 <= p <= size_max | _ => True end.

Lemma alloc_step m b stride cap fs Q : pool_rep m b stride cap fs ->
  (forall m', pool_rep m' b stride cap (tail fs) -> Q (head fs) m') -> wp (hr_pool_lab_alloc true) Q m.
Proof.
  intros R K. pose proof (pool_rep_bound _ _ _ _ _ R) as HB. unfold hr_pool_lab_alloc. wp_step. wp_step. rewrite (pool_initialized _ _ _ _ _ R).
  cbn [negb]. pose proof (pr_chain _ _ _ _ _ R) as HC. destruct fs as [|a fs]; simpl in HC.
  - rewrite HC. unfold set_pool. wp_steps. apply K. destruct R. by constructor.
  - destruct HC as (Hh & next & Hn & HC). rewrite Hh. wp_step. eapply wp_intro; [unfold load_next; by rewrite Hn|].
    unfold set_pool, store_next. wp_steps. simpl. pose proof (pr_nodup _ _ _ _ _ R) as HD. inversion HD as [|? ? Hna HD']; subst.
    pose proof (pr_blocks _ _ _ _ _ R) as HF. inversion HF; subst. destruct (pr_range _ _ _ _ _ R) as (? & ? & ? & ?).
    apply K. destruct R. constructor; simpl; try done.
    + rewrite pr_count0. rewrite length_cons in *. rewrite sz_small by nia. lia.
    + by apply free_chain_frame.
Qed.

Lemma free_step m b stride cap fs p Q : pool_rep m b stride cap fs -> 0 <= p <= size_max ->
  (forall m' st fs', abs_pool b stride cap fs (PoolFree p) = (PoolStatus st, fs') -> pool_rep m' b stride cap fs' -> Q st m') ->
  wp (hr_pool_lab_free true (Some p)) Q m.
Proof.
  intros R Hp K. pose proof (pool_rep_bound _ _ _ _ _ R) as HB. unfold hr_pool_lab_free. wp_step. wp_step.
  rewrite (pool_initialized _ _ _ _ _ R), (is_block_spec _ _ _ _ _ _ R Hp). cbn [negb]. cbn [abs_pool] in K.
  destruct (block_at b stride cap p) eqn:Eb; cbn [negb] in *; [|wp_step; by eapply K].
  unfold pointer_is_free. rewrite (is_free_loop_spec m p fs) by (try apply R; rewrite (pr_capacity _ _ _ _ _ R); lia).
  destruct (bool_decide (p ∈ fs)) eqn:Ei; [wp_step; by eapply K|]. apply bool_decide_eq_false in Ei.
  unfold set_pool, store_next. wp_steps. eapply K; [done|]. simpl. destruct (pr_range _ _ _ _ _ R) as (? & ? & ? & ?).
  assert (R' : Z.of_nat (length (p :: fs)) <= cap).
  { apply (blocks_bound b stride); [done|done| |]; constructor; try done; apply R. }
  destruct R. constructor; simpl; try done.
  - rewrite pr_count0. rewrite length_cons in R'. rewrite sz_small by nia. lia.
  - split; [done|]. exists (free_head (pm_pool m)). rewrite lookup_insert_eq. split; [done|]. by apply free_chain_frame.
  - by constructor.
  - by constructor.
Qed.

(** ** The validator *)

(** The control structure of a pool of [cap] blocks from [b] on. *)
Record pool_control (m : pool_mem) (b stride cap : Z) : Prop := {
  pc_begin : memory_begin (pm_pool m) = Some b;
  pc_end : memory_end (pm_pool m) = Some (b + cap * stride);
  pc_stride : block_stride (pm_pool m) = stride;
  pc_capacity : capacity (pm_pool m) = cap;
  pc_magic : pool_magic (pm_pool m) = HR_POOL_LAB_MAGIC;
  pc_range : 0 <= b /\ 0 < stride /\ 0 < cap /\ b + cap * stride <= size_max;
  pc_pointers : forall a, free_head (pm_pool m) = Some a \/ (exists x, pm_next m !! x = Some (Some a)) -> 0 <= a <= size_max;
}.

Lemma free_chain_fun N : forall fs fs' node, free_chain N node fs -> free_chain N node fs' -> fs = fs'.
Proof.
  induction fs as [|a fs IH]; intros [|a' fs'] node; simpl; try done.
  - by intros -> (? & _).
  - by intros (-> & _) ?.
  - intros (-> & n & Hn & C) ([= <-] & n' & Hn' & C'). f_equal. simplify_eq. by eapply IH.
Qed.
Lemma free_chain_suffix N : forall xs node a ys, free_chain N node (xs ++ a :: ys) -> free_chain N (Some a) (a :: ys).
Proof.
  induction xs as [|x xs IH]; intros node a ys; simpl.
  - by intros (-> & HC).
  - intros (_ & n & _ & HC). exact (IH _ _ _ HC).
Qed.
(** A chain that ends has no repetition. *)
Lemma free_chain_nodup N : forall fs node, free_chain N node fs -> NoDup fs.
Proof.
  induction fs as [|a fs IH]; intros node HC; constructor.
  - intros (xs & ys & ->)%list_elem_of_split. destruct HC as (_ & n & Hn & HC).
    pose proof (free_chain_suffix _ _ _ _ _ HC) as HS. simpl in HS. destruct HS as (_ & n' & Hn' & HS). simplify_eq.
    pose proof (free_chain_fun _ _ _ _ HC HS) as E. apply (f_equal length) in E. rewrite length_app in E. simpl in E. lia.
  - destruct HC as (_ & n & _ & HC). by apply (IH n).
Qed.

Lemma control_is_block m b stride cap a : pool_control m b stride cap -> 0 <= a <= size_max ->
  pointer_is_block (pm_pool m) a = block_at b stride cap a.
Proof.
  intros R Ha. unfold pointer_is_block, block_at. rewrite (pc_begin _ _ _ _ R), (pc_end _ _ _ _ R), (pc_stride _ _ _ _ R).
  simpl. destruct (Z.leb_spec b a); [|done]. destruct (pc_range _ _ _ _ R) as (Hb & _). simpl.
  by rewrite sz_small by lia.
Qed.

Lemma pool_validate_sound m b stride cap : pool_control m b stride cap -> forall fuel node count,
  (forall a, node = Some a -> 0 <= a <= size_max) -> pool_validate_loop fuel m node count = Some true ->
  exists fs, free_chain (pm_next m) node fs /\ free_blocks (pm_pool m) = count + Z.of_nat (length fs) /\
    Forall (fun a => block_at b stride cap a = true) fs.
Proof.
  intros R. induction fuel as [|fuel IH]; intros [a|] count Hn; simpl.
  - destruct (pointer_is_block _ _); simpl; [|done]. by destruct (_ <? _).
  - intros [= E%Z.eqb_eq]. exists []. split_and!; try done. simpl. lia.
  - rewrite (control_is_block _ _ _ _ _ R (Hn a eq_refl)). destruct (block_at b stride cap a) eqn:Eb; simpl; [|done].
    destruct (_ <? _); [done|]. destruct (pm_next m !! a) as [next|] eqn:En; [|done].
    intros (fs & HC & HE & HF)%IH; [|intros x ->; apply (pc_pointers _ _ _ _ R); eauto].
    exists (a :: fs). simpl. split_and!; [done|by exists next|lia|by constructor].
  - intros [= E%Z.eqb_eq]. exists []. split_and!; try done. simpl. lia.
Qed.

Lemma pool_validate_complete m b stride cap : pool_control m b stride cap -> forall fs fuel node count,
  free_chain (pm_next m) node fs -> Forall (fun a => block_at b stride cap a = true) fs ->
  free_blocks (pm_pool m) = count + Z.of_nat (length fs) -> free_blocks (pm_pool m) <= cap -> (length fs <= fuel)%nat ->
  pool_validate_loop fuel m node count = Some true.
Proof.
  intros R. induction fs as [|a fs IH]; intros fuel node count HC HF HE Hc Hl.
  - simpl in HC. subst. simpl in HE. destruct fuel; simpl; do 2 f_equal; lia.
  - destruct HC as (-> & next & Hn & HC). inversion HF as [|? ? HB HF']; subst. rewrite length_cons in *.
    assert (Ha : 0 <= a <= size_max).
    { destruct (pc_range _ _ _ _ R) as (? & ? & ? & ?). destruct (block_index b stride cap a ltac:(lia) HB) as (i & Hi & ->). nia. }
    destruct fuel as [|fuel]; [lia|]. cbn [pool_validate_loop]. rewrite (control_is_block _ _ _ _ _ R Ha), HB, (pc_capacity _ _ _ _ R).
    cbn [negb]. replace (cap <? count + 1) with false by lia. rewrite Hn. apply IH; try done; lia.
Qed.

(** ** Initialisation *)

Definition blocks (b stride n : Z) : list Z := (fun i => b + i * stride) <$> seqZ 0 n.

Lemma blocks_snoc b stride n : 0 <= n -> blocks b stride (n + 1) = blocks b stride n ++ [b + n * stride].
Proof. intros Hn. unfold blocks. rewrite seqZ_app by lia. rewrite fmap_app. by rewrite Z.add_0_l. Qed.

Lemma build_spec b stride : 0 < stride -> forall n fs m Q, free_chain (pm_next m) (free_head (pm_pool m)) fs ->
  Forall (fun a => b + Z.of_nat n * stride <= a) fs ->
  (forall m', free_chain (pm_next m') (free_head (pm_pool m')) (blocks b stride (Z.of_nat n) ++ fs) ->
     pm_pool m' = with_free_head (free_head (pm_pool m')) (pm_pool m) -> Q tt m') ->
  wp (build_free_list n b stride) Q m.
Proof.
  intros Hs. induction n as [|n IH]; intros fs m Q HC HF K; cbn [build_free_list].
  - wp_step. apply K; [exact HC|by destruct (pm_pool m)].
  - unfold store_next, set_pool. wp_steps. apply (IH (b + Z.of_nat n * stride :: fs)); simpl.
    + split; [done|]. exists (free_head (pm_pool m)). rewrite lookup_insert_eq. split; [done|]. apply free_chain_frame; [|done].
      intros Hi. apply (proj1 (Forall_forall _ _) HF) in Hi. nia.
    + constructor; [lia|]. eapply Forall_impl; [exact HF|]. simpl. nia.
    + intros m' C E. apply K; [|rewrite E; by destruct (pm_pool m)].
      replace (Z.of_nat (S n)) with (Z.of_nat n + 1) by lia. rewrite blocks_snoc, <- app_assoc by lia. exact C.
Qed.

Lemma blocks_ok b stride cap : 0 < stride -> 0 < cap ->
  NoDup (blocks b stride cap) /\ Forall (fun a => block_at b stride cap a = true) (blocks b stride cap) /\
  length (blocks b stride cap) = Z.to_nat cap.
Proof.
  intros Hs Hc. unfold blocks. split_and!.
  - apply NoDup_fmap_2_strong; [|apply NoDup_seqZ]. intros x y _ _ E. nia.
  - apply Forall_fmap, Forall_forall. intros i Hi%elem_of_seqZ. simpl. unfold block_at.
    replace (b + i * stride - b) with (i * stride) by lia. rewrite Z.mod_mul by lia. nia.
  - by rewrite length_fmap, length_seqZ.
Qed.

(** The stride of blocks of a requested size: at least a free node, rounded up. *)
Definition stride_of (block_bytes : Z) : Z := round_up (Z.max sizeof_pointer block_bytes).

Lemma pool_init_spec m raw bytes bb count Q : 0 <= raw -> 0 < bytes -> raw + bytes <= size_max ->
  raw <= size_max - (max_alignment - 1) -> 0 < bb -> Z.max sizeof_pointer bb <= size_max - (max_alignment - 1) -> 0 < count ->
  let b := round_up raw in let cap := Z.min count ((raw + bytes - b) / stride_of bb) in
  (b < raw + bytes -> 0 < cap -> forall m', pool_rep m' b (stride_of bb) cap (blocks b (stride_of bb) cap) -> Q HR_HEAP_LAB_OK m') ->
  (raw + bytes <= b \/ cap = 0 -> forall m', pool_is_initialized (the_pool true m') = false ->
     Q HR_HEAP_LAB_ERROR_INVALID_ARGUMENT m') ->
  wp (hr_pool_lab_init true (Some raw) bytes bb count) Q m.
Proof.
  intros H0 H1 H2 H3 H4 H5 H6 b cap K1 K2. pose proof alignment_pos as HA. destruct (round_up_spec raw) as [R1 R2]. fold b in R1, R2.
  unfold hr_pool_lab_init. rewrite (proj2 (Z.eqb_neq bb 0)), (proj2 (Z.eqb_neq bytes 0)), (proj2 (Z.eqb_neq count 0)) by lia.
  cbn [negb orb]. unfold set_pool. wp_step. wp_step. unfold pool_align_up_size. rewrite mask_value.
  replace (if bb <? sizeof_pointer then sizeof_pointer else bb) with (Z.max sizeof_pointer bb) by (destruct (Z.ltb_spec bb sizeof_pointer); lia).
  replace (size_max - (max_alignment - 1) <? Z.max sizeof_pointer bb) with false by lia.
  rewrite (sz_small (Z.max _ _ + _)), align_land by lia. fold (round_up (Z.max sizeof_pointer bb)).
  fold (stride_of bb). destruct (round_up_spec (Z.max sizeof_pointer bb)) as [S1 S2]. fold (stride_of bb) in S1, S2.
  replace (size_max - bytes <? raw) with false by lia.
  rewrite (sz_small (raw + bytes)) by lia. unfold pool_align_up_address. rewrite mask_value, (sz_small (raw + _)), align_land by lia.
  fold (round_up raw). fold b. destruct (Z.leb_spec (raw + bytes) b) as [Hb|Hb]; [wp_step; by apply K2; [left|]|].
  rewrite (sz_small (raw + bytes - b)) by lia.
  replace (if count <? _ then count else _) with cap by (unfold cap; destruct (Z.ltb_spec count ((raw + bytes - b) / stride_of bb)); lia).
  destruct (Z.eqb_spec cap 0) as [Hc|Hc]; [wp_step; by apply K2; [right|]|].
  assert (Hq : 0 <= (raw + bytes - b) / stride_of bb) by (apply Z.div_pos; lia).
  assert (Hfit : cap * stride_of bb <= raw + bytes - b).
  { pose proof (Z.mul_div_le (raw + bytes - b) (stride_of bb) ltac:(lia)). unfold cap. nia. }
  rewrite (sz_small (cap * stride_of bb)) by nia. wp_steps.
  apply (build_spec b (stride_of bb) ltac:(lia) (Z.to_nat cap) []); [done|done|]. intros m' C E. wp_step.
  rewrite app_nil_r, Z2Nat.id in C by lia. apply K1; [done|lia|].
  destruct (blocks_ok b (stride_of bb) cap ltac:(lia) ltac:(lia)) as (B1 & B2 & B3).
  assert (B4 : free_blocks (pm_pool m') = Z.of_nat (length (blocks b (stride_of bb) cap))) by (rewrite E, B3; simpl; lia).
  constructor; [rewrite E; done..|exact B4|rewrite E; done|split_and!; lia|exact C|exact B1|exact B2].
Qed.
End props.

(** The calls of a client, on the pool and on the stack. *)
Fixpoint run_pools (ops : list pool_op) `{Host} : M pool_mem (list pool_result) :=
  match ops with
  | [] => retM []
  | op :: ops' => let* r := run_pool op in let* rs := run_pools ops' in retM (r :: rs)
  end.
Fixpoint abs_pools (b stride cap : Z) (fs : list Z) (ops : list pool_op) : list pool_result * list Z :=
  match ops with
  | [] => ([], fs)
  | op :: ops' =>
      let (r, fs1) := abs_pool b stride cap fs op in let (rs, fs2) := abs_pools b stride cap fs1 ops' in (r :: rs, fs2)
  end.

Section theorems.
Context {host : Host} {OK : HostOk host}.

Lemma pool_step m b stride cap fs op Q : pool_rep m b stride cap fs -> op_ok op ->
  (forall m', pool_rep m' b stride cap (abs_pool b stride cap fs op).2 -> Q (abs_pool b stride cap fs op).1 m') ->
  wp (run_pool op) Q m.
Proof.
  intros R Ho K. destruct op as [|p]; simpl; apply wp_bind.
  - apply (alloc_step m b stride cap fs); [done|]. intros m' R'. wp_step. by apply K.
  - apply (free_step m b stride cap fs); [done..|]. intros m' st fs' E R'. wp_step. specialize (K m'). rewrite E in K. by apply K.
Qed.

(** C31: A pool behaves as a stack of free blocks: any sequence of allocations and releases
    returns what the stack returns (the top block, null when it is empty, an error for a
    pointer that is no block or already free) and leaves the pool in the state the stack is
    in. *)
Theorem pool_calls_refine_stack m b stride cap fs ops :
  pool_rep m b stride cap fs -> Forall op_ok ops ->
  exists rs m', run_pools ops m = Some (rs, m') /\
    rs = (abs_pools b stride cap fs ops).1 /\ pool_rep m' b stride cap (abs_pools b stride cap fs ops).2.
Proof.
  intros R HO. apply (wp_run (run_pools ops)). revert m fs R. induction HO as [|op ops Ho _ IH]; intros m fs R; simpl; [by wp_step|].
  apply wp_bind. apply (pool_step m b stride cap fs); [done..|]. intros m1 R1. destruct (abs_pool b stride cap fs op) as [r fs1]. simpl in *.
  apply wp_bind. eapply wp_mono; [by apply IH|]. intros rs m2 [-> R2]. wp_step. by destruct (abs_pools b stride cap fs1 ops).
Qed.

(** [hr_pool_lab_init] on memory that does not reach the last bytes of the address space
    cuts its aligned part into as many blocks of the rounded size as asked for or as fit,
    all free, to be handed out in address order; memory without room for one block is
    rejected and leaves the pool uninitialised. *)
Theorem pool_init_cuts_blocks m raw bytes bb count :
  0 <= raw -> 0 < bytes -> raw + bytes <= size_max -> raw <= size_max - (max_alignment - 1) ->
  0 < bb -> Z.max sizeof_pointer bb <= size_max - (max_alignment - 1) -> 0 < count ->
  let b := round_up raw in let cap := Z.min count ((raw + bytes - b) / stride_of bb) in
  exists st m', hr_pool_lab_init true (Some raw) bytes bb count m = Some (st, m') /\
    ((b < raw + bytes /\ 0 < cap /\ st = HR_HEAP_LAB_OK /\
      pool_rep m' b (stride_of bb) cap ((fun i => b + i * stride_of bb) <$> seqZ 0 cap)) \/
     ((raw + bytes <= b \/ cap = 0) /\ st = HR_HEAP_LAB_ERROR_INVALID_ARGUMENT /\
      pool_is_initialized (the_pool true m') = false)).
Proof.
  intros H0 H1 H2 H3 H4 H5 H6 b cap. apply (wp_run (hr_pool_lab_init true (Some raw) bytes bb count)).
  apply pool_init_spec; try done.
  - intros Hb Hc m' R. left. done.
  - intros Hc m' Hi. right. done.
Qed.

(** [hr_pool_lab_validate] accepts a pool exactly when its free list is a null-terminated
    chain of distinct blocks of the pool, as many as the free count says. *)
Theorem pool_validate_iff m b stride cap :
  pool_control m b stride cap ->
  hr_pool_lab_validate true m = Some true <-> exists fs, pool_rep m b stride cap fs.
Proof.
  intros R. destruct (pc_range _ _ _ _ R) as (Hb & Hs & Hc & He). unfold hr_pool_lab_validate.
  assert (HI : pool_is_initialized (the_pool true m) = true).
  { unfold pool_is_initialized, the_pool. rewrite (pc_magic _ _ _ _ R), (pc_begin _ _ _ _ R), (pc_capacity _ _ _ _ R), Z.eqb_refl. cbn. lia. }
  rewrite HI, (pc_begin _ _ _ _ R), (pc_end _ _ _ _ R), (pc_capacity _ _ _ _ R). cbn [negb orb from_option default]. unfold id.
  replace (b + cap * stride <=? b) with false by nia. cbn [orb]. destruct (Z.ltb_spec cap (free_blocks (pm_pool m))) as [Hf|Hf]; split; try done.
  - intros (fs & R'). pose proof (pool_rep_bound _ _ _ _ _ R') as HB. rewrite (pr_count _ _ _ _ _ R') in Hf. lia.
  - intros (fs & HC & HE & HF)%(pool_validate_sound m b stride cap R); [|intros a Ha; apply (pc_pointers _ _ _ _ R); by left].
    exists fs. destruct R. constructor; try done. by apply (free_chain_nodup (pm_next m) fs (free_head (pm_pool m))).
  - intros (fs & R'). pose proof (pool_rep_bound _ _ _ _ _ R').
    apply (pool_validate_complete m b stride cap R fs); try apply R'; [done|lia].
Qed.
End theorems.

(** ** A concrete pool on a 64-bit host *)
#[local] Existing Instance host64.
#[local] Existing Instance host64_ok.

Definition pool_raw : pool_mem := mk_pool_mem zero_pool ∅.
Definition pool_fresh : pool_mem := run_state (hr_pool_lab_init true (Some 1001) 100 20 8) pool_raw.

Lemma pool_fresh_rep : pool_rep pool_fresh 1008 32 2 [1008; 1040].
Proof.
  destruct (run_state_spec (hr_pool_lab_init true (Some 1001) 100 20 8) (fun _ m' => pool_rep m' 1008 32 2 [1008; 1040]) pool_raw)
    as (st & _ & R); [|exact R].
  apply pool_init_spec; [lia|lia|vm_compute; congruence|vm_compute; congruence|lia|vm_compute; congruence|lia| |].
  - intros _ _ m' R. exact R.
  - intros [H|H]; exfalso; revert H; vm_compute; congruence.
Qed.

Definition pool_example : list pool_op :=
  [PoolAlloc; PoolFree 1040; PoolAlloc; PoolAlloc; PoolFree 1009; PoolFree 1008; PoolFree 1008; PoolAlloc].

Lemma pool_calls_refine_stack_witness : exists m', pool_rep pool_fresh 1008 32 2 [1008; 1040] /\
  run_pools pool_example pool_fresh = Some (
    [PoolPointer (Some 1008); PoolStatus HR_HEAP_LAB_ERROR_DOUBLE_FREE; PoolPointer (Some 1040); PoolPointer None;
     PoolStatus HR_HEAP_LAB_ERROR_INVALID_POINTER; PoolStatus HR_HEAP_LAB_OK; PoolStatus HR_HEAP_LAB_ERROR_DOUBLE_FREE;
     PoolPointer (Some 1008)], m').
Proof.
  destruct (pool_calls_refine_stack pool_fresh 1008 32 2 [1008; 1040] pool_example pool_fresh_rep) as (rs & m' & E & -> & _).
  - repeat constructor; vm_compute; congruence.
  - exists m'. split; [exact pool_fresh_rep|]. rewrite E. vm_compute. reflexivity.
Defined.

Lemma pool_init_cuts_blocks_witness : exists st m', hr_pool_lab_init true (Some 1001) 100 20 8 pool_raw = Some (st, m') /\
  (st = HR_HEAP_LAB_OK \/ st = HR_HEAP_LAB_ERROR_INVALID_ARGUMENT).
Proof.
  destruct (pool_init_cuts_blocks pool_raw 1001 100 20 8) as (st & m' & E & [HA|HB]);
    [lia|lia|vm_compute; congruence|vm_compute; congruence|lia|vm_compute; congruence|lia| |]; exists st, m'; (split; [exact E|]).
  - left. apply HA.
  - right. apply HB.
Defined.

Lemma pool_fresh_control : pool_control pool_fresh 1008 32 2.
Proof.
  constructor; [vm_compute; reflexivity..| |].
  - vm_compute. split_and!; congruence.
  - assert (HF : map_Forall (fun _ n => match n with Some a => 0 <= a <= size_max | None => True end) (pm_next pool_fresh)).
    { intros x n Hx. assert (Hk : (x, n) ∈ map_to_list (pm_next pool_fresh)) by by apply elem_of_map_to_list.
      revert Hk. change (map_to_list (pm_next pool_fresh)) with [(1008, Some 1040); (1040, @None Z)].
      rewrite !elem_of_cons, elem_of_nil. intros [[= _ ->]|[[= _ ->]|[]]]; [|done]. vm_compute. split; congruence. }
    intros a [H|[x H]]; [|exact (HF x _ H)].
    change (free_head (pm_pool pool_fresh)) with (Some 1008) in H. injection H as <-. vm_compute. split; congruence.
Qed.

Lemma pool_validate_iff_witness : pool_control pool_fresh 1008 32 2 /\
  (hr_pool_lab_validate true pool_fresh = Some true <-> exists fs, pool_rep pool_fresh 1008 32 2 fs).
Proof. split; [exact pool_fresh_control|]. exact (pool_validate_iff pool_fresh 1008 32 2 pool_fresh_control). Defined.
