(* ===== verification/BenchStats.v ===== *)
(** Statistics of the kernel benchmark: [benchmarks/kernel/src/hr_benchmark_stats.c].

    A pointer to the statistics is the object it points to, or [None]; an array is a list,
    and an access outside of it is undefined behaviour. *)
From S2P Require Import Prelude.
From stdpp Require Import gmap list.
From Stdlib Require Import ZArith.
Open Scope Z_scope.

Definition HR_BENCHMARK_MAX_SAMPLES : Z := 64.
Definition u64 (x : Z) : Z := wrap 64 x.

Record hr_benchmark_stats : Type := mk_stats {
  samples : list Z;
  total_cycles : Z;
  minimum_cycles : Z;
  maximum_cycles : Z;
  sample_count : Z;
}.

Definition at_index (l : list Z) (i : Z) : option Z := if 0 <=? i then l !! Z.to_nat i else None.
Definition store_index (l : list Z) (i v : Z) : option (list Z) :=
  if (0 <=? i) && (i <? Z.of_nat (length l)) then Some (<[Z.to_nat i := v]> l) else None.

(** [for (bit = 0; bit < 64; bit++)], [n] iterations to go. *)
Fixpoint divide_loop (n : nat) (numerator remainder quotient denominator : Z) : Z :=
  match n with
  | O => quotient
  | S n =>
      let remainder := Z.lor (u64 (Z.shiftl remainder 1)) (Z.shiftr numerator 63) in
      let numerator := u64 (Z.shiftl numerator 1) in
      let quotient := u64 (Z.shiftl quotient 1) in
      if denominator <=? remainder
      then divide_loop n numerator (u64 (remainder - denominator)) (Z.lor quotient 1) denominator
      else divide_loop n numerator remainder quotient denominator
  end.

Definition hr_benchmark_divide_u64_by_u32 (numerator denominator : Z) : Z :=
  if denominator =? 0 then 0 else divide_loop 64 numerator 0 0 denominator.

(** [for (index = 0; index < HR_BENCHMARK_MAX_SAMPLES; index++)], [n] iterations to go. *)
Fixpoint clear_loop (n : nat) (index : Z) (l : list Z) : option (list Z) :=
  match n with
  | O => Some l
  | S n => l ← store_index l index 0; clear_loop n (index + 1) l
  end.

Definition hr_benchmark_stats_reset (stats : option hr_benchmark_stats) : option (option hr_benchmark_stats) :=
  match stats with
  | None => Some None
  | Some c =>
      l ← clear_loop (Z.to_nat HR_BENCHMARK_MAX_SAMPLES) 0 (samples c);
      Some (Some (mk_stats l 0 UINT32_MAX 0 0))
  end.

Definition hr_benchmark_stats_record (stats : option hr_benchmark_stats) (cycles : Z)
  : option (bool * option hr_benchmark_stats) :=
  match stats with
  | None => Some (false, None)
  | Some c =>
      if HR_BENCHMARK_MAX_SAMPLES <=? sample_count c then Some (false, Some c)
      else
        l ← store_index (samples c) (sample_count c) cycles;
        Some (true, Some (mk_stats l (u64 (total_cycles c + cycles))
          (if cycles <? minimum_cycles c then cycles else minimum_cycles c)
          (if maximum_cycles c <? cycles then cycles else maximum_cycles c)
          (u32 (sample_count c + 1))))
  end.

Definition hr_benchmark_stats_count (stats : option hr_benchmark_stats) : Z :=
  match stats with None => 0 | Some c => sample_count c end.
Definition hr_benchmark_stats_min (stats : option hr_benchmark_stats) : Z :=
  match stats with None => 0 | Some c => if sample_count c =? 0 then 0 else minimum_cycles c end.
Definition hr_benchmark_stats_max (stats : option hr_benchmark_stats) : Z :=
  match stats with None => 0 | Some c => if sample_count c =? 0 then 0 else maximum_cycles c end.
Definition hr_benchmark_stats_mean (stats : option hr_benchmark_stats) : Z :=
  match stats with
  | None => 0
  | Some c => if sample_count c =? 0 then 0
              else u32 (hr_benchmark_divide_u64_by_u32 (total_cycles c) (u32 (sample_count c)))
  end.

(** [while ((position > 0) && (samples[position - 1] > value))]: the array and the position
    after the loop. *)
Fixpoint shift_loop (fuel : nat) (l : list Z) (position value : Z) : option (list Z * Z) :=
  match fuel with
  | O => None
  | S fuel =>
      if 0 <? position then
        v ← at_index l (position - 1);
        if value <? v then
          l ← store_index l position v;
          shift_loop fuel l (position - 1) value
        else Some (l, position)
      else Some (l, position)
  end.

(** [for (index = 1; index < count; index++)], [n] iterations to go. *)
Fixpoint sort_loop (n : nat) (index : Z) (l : list Z) : option (list Z) :=
  match n with
  | O => Some l
  | S n =>
      value ← at_index l index;
      '(l, position) ← shift_loop (S (Z.to_nat index)) l index value;
      l ← store_index l position value;
      sort_loop n (index + 1) l
  end.

Definition hr_benchmark_sort_samples (l : list Z) (count : Z) : option (list Z) :=
  sort_loop (Z.to_nat (count - 1)) 1 l.

(** [for (index = 0; index < sample_count; index++) sorted[index] = samples[index]]. *)
Fixpoint copy_loop (n : nat) (index : Z) (sorted l : list Z) : option (list Z) :=
  match n with
  | O => Some sorted
  | S n =>
      v ← at_index l index;
      sorted ← store_index sorted index v;
      copy_loop n (index + 1) sorted l
  end.

(** [sorted] is the local array, with the content the stack happens to have. *)
Definition hr_benchmark_stats_percentile (sorted : list Z) (stats : option hr_benchmark_stats) (percentile : Z)
  : option Z :=
  match stats with
  | None => Some 0
  | Some c =>
      if sample_count c =? 0 then Some 0
      else
        let percentile := if 100 <? percentile then 100 else percentile in
        sorted ← copy_loop (Z.to_nat (sample_count c)) 0 sorted (samples c);
        sorted ← hr_benchmark_sort_samples sorted (sample_count c);
        if percentile =? 0 then at_index sorted 0
        else
          let rank := u32 (u32 (percentile * sample_count c) + 99) / 100 in
          let rank := if rank =? 0 then 1 else rank in
          let rank := if sample_count c <? rank then sample_count c else rank in
          at_index sorted (rank - 1)
  end.

Definition hr_benchmark_elapsed_cycles (start_cycles end_cycles : Z) : Z := u32 (end_cycles - start_cycles).
Definition hr_benchmark_adjust_cycles (raw_cycles measurement_overhead_cycles : Z) : Z :=
  if measurement_overhead_cycles <? raw_cycles then u32 (raw_cycles - measurement_overhead_cycles) else 0.

Definition hr_benchmark_cycles_to_nanoseconds (cycles core_clock_hz : Z) : Z :=
  if core_clock_hz =? 0 then 0
  else
    let nanoseconds := hr_benchmark_divide_u64_by_u32 (u64 (cycles * 1000000000)) core_clock_hz in
    if UINT32_MAX <? nanoseconds then UINT32_MAX else u32 nanoseconds.
