(* ===== verification/BenchStatsProps.v ===== *)
(** Properties of the benchmark statistics: the division is the division of integers, the sort
    sorts, and the statistics are those of the recorded samples. *)
From S2P Require Import Prelude BenchStats.
From stdpp Require Import gmap list sorting.
From Stdlib Require Import ZArith Lia.
Open Scope Z_scope.

(** ** Division *)

Lemma u64_small x : 0 <= x < 2 ^ 64 -> u64 x = x.
Proof. intros. by apply Z.mod_small. Qed.

Lemma lor_one q : Z.lor (2 * q) 1 = 2 * q + 1.
Proof.
  rewrite <- Z.add_lor_land. assert (E : Z.land (2 * q) 1 = 0); [|lia].
  change 1 with (Z.ones 1). rewrite Z.land_ones by lia. rewrite Z.mul_comm. apply Z.mod_mul. lia.
Qed.
Lemma lor_bit x b : 0 <= b <= 1 -> Z.lor (2 * x) b = 2 * x + b.
Proof. intros Hb. assert (b = 0 \/ b = 1) as [-> | ->] by lia; [rewrite Z.lor_0_r; lia|apply lor_one]. Qed.

(** With the [n] lower bits [a] of the numerator left to bring down, the loop appends to the
    quotient the quotient of what remains. *)
Lemma divide_loop_spec n : forall a r q d,
  (n <= 64)%nat -> 0 < d <= UINT32_MAX -> 0 <= a < 2 ^ Z.of_nat n -> 0 <= r < d -> 0 <= q < 2 ^ (64 - Z.of_nat n) ->
  divide_loop n (a * 2 ^ (64 - Z.of_nat n)) r q d = q * 2 ^ Z.of_nat n + (r * 2 ^ Z.of_nat n + a) / d.
Proof.
  induction n as [|n IH]; intros a r q d Hn Hd Ha Hr Hq; cbn [divide_loop].
  - change (Z.of_nat 0) with 0 in *. rewrite Z.pow_0_r in *. rewrite (Z.div_small (r * 1 + a)) by lia. lia.
  - rewrite Nat2Z.inj_succ in *. set (k := Z.of_nat n) in *. assert (Hk : 0 <= k <= 63) by lia.
    assert (HP : 2 ^ Z.succ k = 2 * 2 ^ k) by (rewrite Z.pow_succ_r; lia). assert (H2k : 0 < 2 ^ k) by (apply Z.pow_pos_nonneg; lia).
    assert (HK : 2 ^ 63 = 2 ^ k * 2 ^ (64 - Z.succ k)) by (rewrite <- Z.pow_add_r by lia; f_equal; lia).
    assert (HK' : 2 ^ (64 - k) = 2 * 2 ^ (64 - Z.succ k)) by (rewrite <- Z.pow_succ_r by lia; f_equal; lia).
    assert (H64 : 2 ^ 64 = 2 ^ k * 2 ^ (64 - k)) by (rewrite <- Z.pow_add_r by lia; f_equal; lia).
    assert (HJ : 0 < 2 ^ (64 - Z.succ k)) by (apply Z.pow_pos_nonneg; lia).
    assert (EB : Z.shiftr (a * 2 ^ (64 - Z.succ k)) 63 = a / 2 ^ k).
    { rewrite Z.shiftr_div_pow2, HK by lia. by rewrite Z.div_mul_cancel_r by lia. }
    assert (EN : u64 (Z.shiftl (a * 2 ^ (64 - Z.succ k)) 1) = a mod 2 ^ k * 2 ^ (64 - k)).
    { unfold u64, wrap. rewrite Z.shiftl_mul_pow2, H64 by lia. rewrite <- Z.mul_mod_distr_r by lia. f_equal. rewrite HK'. ring. }
    assert (Hb : 0 <= a / 2 ^ k <= 1).
    { split; [apply Z.div_pos; lia|]. apply Z.lt_succ_r, Z.div_lt_upper_bound; lia. }
    assert (ER : Z.lor (u64 (Z.shiftl r 1)) (a / 2 ^ k) = 2 * r + a / 2 ^ k).
    { rewrite Z.shiftl_mul_pow2 by lia. rewrite u64_small by (unfold UINT32_MAX in *; lia).
      rewrite Z.mul_comm. by apply lor_bit. }
    assert (EQ : u64 (Z.shiftl q 1) = 2 * q) by (rewrite Z.shiftl_mul_pow2 by lia; rewrite u64_small; nia).
    pose proof (Z.div_mod a (2 ^ k) ltac:(lia)) as Hdm. pose proof (Z.mod_pos_bound a (2 ^ k) H2k) as Hm.
    rewrite EB, EN, ER, EQ. set (b := a / 2 ^ k) in *. set (a' := a mod 2 ^ k) in *.
    assert (EX : r * 2 ^ Z.succ k + a = (2 * r + b) * 2 ^ k + a') by (rewrite HP; lia). rewrite EX, HP.
    destruct (Z.leb_spec d (2 * r + b)).
    + rewrite lor_one, u64_small by (unfold UINT32_MAX in *; lia). rewrite IH by (done || lia || nia).
      replace ((2 * r + b) * 2 ^ k + a') with ((2 * r + b - d) * 2 ^ k + a' + 2 ^ k * d) by ring.
      rewrite Z.div_add by lia. ring.
    + rewrite IH by (done || lia || nia). ring.
Qed.

Lemma divide_positive n d : 0 <= n < 2 ^ 64 -> 0 < d <= UINT32_MAX -> hr_benchmark_divide_u64_by_u32 n d = n / d.
Proof.
  intros Hn Hd. unfold hr_benchmark_divide_u64_by_u32. rewrite (proj2 (Z.eqb_neq d 0)) by lia.
  pose proof (divide_loop_spec 64 n 0 0 d) as HS. change (Z.of_nat 64) with 64 in HS.
  rewrite Z.sub_diag, Z.pow_0_r, Z.mul_1_r in HS. by rewrite HS by lia.
Qed.

(** C34: The bitwise long division of a 64-bit by a 32-bit number, which the target has no
    instruction for, is the quotient of the integers; division by zero gives zero. *)
Theorem divide_is_quotient numerator denominator :
  0 <= numerator < 2 ^ 64 -> 0 <= denominator <= UINT32_MAX ->
  hr_benchmark_divide_u64_by_u32 numerator denominator = if denominator =? 0 then 0 else numerator / denominator.
Proof.
  intros Hn Hd. destruct (Z.eqb_spec denominator 0) as [-> |]; [done|]. apply divide_positive; lia.
Qed.

Lemma divide_is_quotient_witness : hr_benchmark_divide_u64_by_u32 (64 * 4294967295) 64 = 4294967295.
Proof. rewrite divide_is_quotient; [reflexivity|split; [discriminate|reflexivity]|split; discriminate]. Defined.

(** ** Arrays *)
Lemma at_index_app (p t : list Z) x : at_index (p ++ x :: t) (Z.of_nat (length p)) = Some x.
Proof. unfold at_index. rewrite (proj2 (Z.leb_le _ _)), Nat2Z.id by lia. by rewrite list_lookup_middle. Qed.
Lemma store_index_app (p t : list Z) x v : store_index (p ++ x :: t) (Z.of_nat (length p)) v = Some (p ++ v :: t).
Proof.
  unfold store_index. rewrite (proj2 (Z.leb_le _ _)), (proj2 (Z.ltb_lt _ _)), Nat2Z.id by (rewrite ?length_app; simpl; lia).
  cbn [andb]. by rewrite insert_app_r_alt, Nat.sub_diag by lia.
Qed.

(** ** Sorting *)
Abbreviation sorted := (StronglySorted Z.le).

(** The inner loop opens the place of [v] in the sorted prefix [p]. *)
Lemma shift_loop_spec v : forall p h t fuel, sorted p -> (length p < fuel)%nat ->
  exists p1 p2 h', p = p1 ++ p2 /\ Forall (fun x => x <= v) p1 /\ Forall (fun x => v <= x) p2 /\
    shift_loop fuel (p ++ h :: t) (Z.of_nat (length p)) v = Some (p1 ++ h' :: p2 ++ t, Z.of_nat (length p1)).
Proof.
  induction p as [|u p IH] using rev_ind; intros h t fuel Hs Hf; (destruct fuel as [|fuel]; [simpl in Hf; lia|]); cbn [shift_loop].
  - exists [], [], h. done.
  - rewrite length_app in *. simpl length in *. rewrite (proj2 (Z.ltb_lt _ _)) by lia.
    replace (Z.of_nat (length p + 1) - 1) with (Z.of_nat (length p)) by lia. rewrite <- app_assoc. cbn [app].
    rewrite at_index_app. cbn [mbind option_bind]. destruct (Z.ltb_spec v u) as [Hlt|Hge].
    + replace (Z.of_nat (length p + 1)) with (Z.of_nat (length (p ++ [u]))) by (rewrite length_app; done).
      change (p ++ u :: h :: t) with (p ++ [u] ++ h :: t). rewrite app_assoc, store_index_app. cbn [mbind option_bind].
      rewrite <- app_assoc. cbn [app]. apply StronglySorted_app in Hs as (_ & Hs & _).
      destruct (IH u (u :: t) fuel Hs ltac:(lia)) as (p1 & p2 & h' & -> & F1 & F2 & E).
      exists p1, (p2 ++ [u]), h'. rewrite E, !app_assoc. split_and!; [done|done| |].
      * apply Forall_app. split; [done|]. constructor; [lia|done].
      * by rewrite <- !app_assoc.
    + exists (p ++ [u]), [], h. rewrite app_nil_r, <- app_assoc. split_and!; [done| |done|].
      * apply StronglySorted_app in Hs as (HO & _ & _). apply Forall_app. split; [|constructor; [lia|done]].
        apply Forall_forall. intros x Hx. specialize (HO x u Hx ltac:(set_solver)). lia.
      * rewrite length_app. done.
Qed.

Lemma sorted_insert p1 p2 v : sorted (p1 ++ p2) -> Forall (fun x => x <= v) p1 -> Forall (fun x => v <= x) p2 -> sorted (p1 ++ v :: p2).
Proof.
  intros Hs F1 F2. apply StronglySorted_app in Hs as (HO & H1 & H2). rewrite Forall_forall in F1.
  apply StronglySorted_app. split_and!; [|done|by constructor].
  intros x y Hx [->|Hy]%elem_of_cons; [by apply F1|by apply HO].
Qed.

Lemma sort_loop_spec n : forall p t, sorted p -> (n <= length t)%nat ->
  exists p', sort_loop n (Z.of_nat (length p)) (p ++ t) = Some (p' ++ drop n t) /\ sorted p' /\ p' ≡ₚ p ++ take n t.
Proof.
  induction n as [|n IH]; intros p t Hs Hn; cbn [sort_loop].
  - exists p. rewrite drop_0, take_0, app_nil_r. done.
  - destruct t as [|v t]; [simpl in Hn; lia|]. rewrite at_index_app. cbn [mbind option_bind]. rewrite Nat2Z.id.
    destruct (shift_loop_spec v p v t (S (length p)) Hs ltac:(lia)) as (p1 & p2 & h' & -> & F1 & F2 & E). rewrite E. cbn [mbind option_bind].
    rewrite store_index_app. cbn [mbind option_bind].
    replace (Z.of_nat (length (p1 ++ p2)) + 1) with (Z.of_nat (length (p1 ++ v :: p2))) by (rewrite !length_app; simpl; lia).
    destruct (IH (p1 ++ v :: p2) t) as (p' & E' & Hs' & Hp'); [by apply sorted_insert|simpl in Hn; lia|].
    exists p'. rewrite <- app_assoc in E'. cbn [app] in E'. rewrite E'. split_and!; [done|done|]. rewrite Hp'. cbn [take].
    by rewrite <- !Permutation_middle.
Qed.

Lemma sort_samples_spec l rest : 
  exists l', hr_benchmark_sort_samples (l ++ rest) (Z.of_nat (length l)) = Some (l' ++ rest) /\ sorted l' /\ l' ≡ₚ l.
Proof.
  unfold hr_benchmark_sort_samples. destruct l as [|x l]; [exists []; split; [done|]; split; [constructor|done]|].
  destruct (sort_loop_spec (length l) [x] (l ++ rest)) as (l' & E & Hs & Hp); [repeat constructor|rewrite length_app; lia|].
  exists l'. rewrite drop_app_length in E. rewrite take_app_length in Hp. split_and!; [|done|done].
  rewrite <- E. f_equal. cbn [length]. lia.
Qed.

(** ** The statistics of the recorded samples *)

Definition sum (xs : list Z) : Z := foldr Z.add 0 xs.

Record stats_rep (c : hr_benchmark_stats) (xs : list Z) : Prop := {
  sr_samples : exists rest, samples c = xs ++ rest /\ Z.of_nat (length (samples c)) = HR_BENCHMARK_MAX_SAMPLES;
  sr_count : sample_count c = Z.of_nat (length xs);
  sr_total : total_cycles c = sum xs;
  sr_min : minimum_cycles c = foldr Z.min UINT32_MAX xs;
  sr_max : maximum_cycles c = foldr Z.max 0 xs;
  sr_range : Forall (fun x => 0 <= x <= UINT32_MAX) xs;
}.

Lemma clear_loop_spec p t : clear_loop (length t) (Z.of_nat (length p)) (p ++ t) = Some (p ++ ((fun _ => 0) <$> t)).
Proof.
  revert p. induction t as [|x t IH]; intros p; cbn [clear_loop length]; [by rewrite fmap_nil|].
  rewrite store_index_app. cbn [mbind option_bind]. rewrite fmap_cons.
  change (p ++ 0 :: t) with (p ++ [0] ++ t). rewrite app_assoc.
  replace (Z.of_nat (length p) + 1) with (Z.of_nat (length (p ++ [0]))) by (rewrite length_app; simpl; lia).
  by rewrite IH, <- app_assoc.
Qed.

Lemma reset_rep c : Z.of_nat (length (samples c)) = HR_BENCHMARK_MAX_SAMPLES ->
  exists c', hr_benchmark_stats_reset (Some c) = Some (Some c') /\ stats_rep c' [].
Proof.
  intros Hl. unfold hr_benchmark_stats_reset. pose proof (clear_loop_spec [] (samples c)) as E. cbn [app length] in E.
  change (Z.of_nat 0) with 0 in E. rewrite <- Hl, Nat2Z.id, E. cbn [mbind option_bind]. eexists. split; [done|].
  split; try done. eexists. split; [done|]. simpl. by rewrite length_fmap.
Qed.

Lemma sum_range xs : Forall (fun x => 0 <= x <= UINT32_MAX) xs -> 0 <= sum xs <= UINT32_MAX * Z.of_nat (length xs).
Proof. induction 1 as [|x xs Hx _ IH]; cbn [length sum foldr]; [lia|]. unfold sum in *. lia. Qed.
Lemma sum_snoc xs x : sum (xs ++ [x]) = sum xs + x.
Proof. induction xs as [|y xs IH]; unfold sum in *; cbn; lia. Qed.
Lemma foldr_snoc (f : Z -> Z -> Z) d xs x : (forall a b, f a b = f b a) -> (forall a b c, f a (f b c) = f (f a b) c) ->
  foldr f d (xs ++ [x]) = f (foldr f d xs) x.
Proof. intros HC HA. rewrite foldr_app. cbn. induction xs as [|y xs IH]; cbn; [apply HC|]. by rewrite IH, HA. Qed.

Lemma record_rep c xs x : stats_rep c xs -> 0 <= x <= UINT32_MAX ->
  exists c', hr_benchmark_stats_record (Some c) x = Some (Z.of_nat (length xs) <? HR_BENCHMARK_MAX_SAMPLES, Some c') /\
    stats_rep c' (if Z.of_nat (length xs) <? HR_BENCHMARK_MAX_SAMPLES then xs ++ [x] else xs).
Proof.
  intros R Hx. pose proof R as [(rest & ES & EL) EC ET EM EX HR]. unfold hr_benchmark_stats_record. rewrite EC.
  destruct (Z.ltb_spec (Z.of_nat (length xs)) HR_BENCHMARK_MAX_SAMPLES) as [Hlt|Hge];
    [rewrite (proj2 (Z.leb_gt _ _)) by done|rewrite (proj2 (Z.leb_le _ _)) by done; by exists c].
  assert (Hrest : exists y rest', rest = y :: rest').
  { destruct rest as [|y rest']; [|eauto]. rewrite ES, app_nil_r in EL. lia. }
  destruct Hrest as (y & rest' & ->). rewrite ES, store_index_app. cbn [mbind option_bind]. eexists. split; [done|].
  pose proof (sum_range xs HR) as HS. assert (HB : sum xs + x < 2 ^ 64) by (unfold HR_BENCHMARK_MAX_SAMPLES, UINT32_MAX in *; lia).
  split; cbn [samples total_cycles minimum_cycles maximum_cycles sample_count].
  - exists rest'. rewrite <- app_assoc. split; [done|]. rewrite ES, length_app in EL. rewrite !length_app. simpl in *. lia.
  - rewrite length_app. cbn. rewrite u32_small by (unfold HR_BENCHMARK_MAX_SAMPLES, UINT32_MAX in *; lia). lia.
  - rewrite sum_snoc, ET. apply u64_small. lia.
  - rewrite foldr_snoc by (intros; lia). rewrite <- EM. destruct (Z.ltb_spec x (minimum_cycles c)); lia.
  - rewrite foldr_snoc by (intros; lia). rewrite <- EX. destruct (Z.ltb_spec (maximum_cycles c) x); lia.
  - apply Forall_app. split; [done|]. by constructor.
Qed.

(** Recording a sequence of measurements: the results and the statistics. *)
Fixpoint record_all (xs : list Z) (stats : option hr_benchmark_stats) : option (list bool * option hr_benchmark_stats) :=
  match xs with
  | [] => Some ([], stats)
  | x :: xs =>
      '(r, stats) ← hr_benchmark_stats_record stats x;
      '(rs, stats) ← record_all xs stats;
      Some (r :: rs, stats)
  end.

Lemma full_false k n : HR_BENCHMARK_MAX_SAMPLES <= Z.of_nat k ->
  ((fun i => Z.of_nat i <? HR_BENCHMARK_MAX_SAMPLES) <$> seq k n) = replicate n false.
Proof.
  revert k. induction n as [|n IH]; intros k Hk; cbn [seq replicate]; [done|]. rewrite fmap_cons, IH by lia.
  f_equal. apply Z.ltb_ge. lia.
Qed.

Lemma record_all_rep : forall xs c ys, stats_rep c ys -> Forall (fun x => 0 <= x <= UINT32_MAX) xs ->
  exists rs c', record_all xs (Some c) = Some (rs, Some c') /\
    rs = (fun i => Z.of_nat i <? HR_BENCHMARK_MAX_SAMPLES) <$> seq (length ys) (length xs) /\
    stats_rep c' (take (Z.to_nat HR_BENCHMARK_MAX_SAMPLES) (ys ++ xs)).
Proof.
  set (m := Z.to_nat HR_BENCHMARK_MAX_SAMPLES).
  induction xs as [|x xs IH]; intros c ys R HX; cbn [record_all].
  - exists [], c. split_and!; [done|done|]. rewrite app_nil_r, take_ge; [done|].
    destruct (sr_samples _ _ R) as (rest & ES & EL). rewrite ES, length_app in EL. unfold m. lia.
  - inversion_clear HX as [|? ? Hx HX']. destruct (record_rep c ys x R Hx) as (c1 & E1 & R1). rewrite E1. cbn [mbind option_bind].
    destruct (Z.ltb_spec (Z.of_nat (length ys)) HR_BENCHMARK_MAX_SAMPLES) as [Hlt|Hge].
    + destruct (IH c1 _ R1 HX') as (rs & c' & E & Er & R'). rewrite E. cbn [mbind option_bind].
      eexists _, c'. split; [done|]. rewrite <- app_assoc in R'. split; [|done]. rewrite Er, length_app, Nat.add_1_r. cbn [length seq].
      rewrite fmap_cons. f_equal. symmetry. by apply Z.ltb_lt.
    + destruct (IH c1 _ R1 HX') as (rs & c' & E & Er & R'). rewrite E. cbn [mbind option_bind].
      eexists _, c'. split; [done|].
      assert (Hfull : take m ys = ys /\ m = length ys).
      { destruct (sr_samples _ _ R) as (rest & ES & EL). rewrite ES, length_app in EL. unfold m. split; [apply take_ge|]; lia. }
      destruct Hfull as [Hf Hm]. split.
      * rewrite full_false by lia. rewrite Er, full_false by lia. done.
      * rewrite Hm, take_app_length in R' |- *. done.
Qed.

(** After a reset and any sequence of recordings, the statistics are those of the first 64
    measurements: exactly these were accepted, and the count, the minimum, the maximum and
    the (rounded down) mean are theirs, zero when there are none; the 64-bit total does not
    overflow. *)
Theorem statistics_of_samples c xs :
  Z.of_nat (length (samples c)) = HR_BENCHMARK_MAX_SAMPLES -> Forall (fun x => 0 <= x <= UINT32_MAX) xs ->
  exists c0 rs c', hr_benchmark_stats_reset (Some c) = Some (Some c0) /\ record_all xs (Some c0) = Some (rs, Some c') /\
    rs = ((fun i => Z.of_nat i <? HR_BENCHMARK_MAX_SAMPLES) <$> seq 0 (length xs)) /\
    let ys := take (Z.to_nat HR_BENCHMARK_MAX_SAMPLES) xs in
    hr_benchmark_stats_count (Some c') = Z.of_nat (length ys) /\
    (ys = [] -> hr_benchmark_stats_min (Some c') = 0 /\ hr_benchmark_stats_max (Some c') = 0 /\ hr_benchmark_stats_mean (Some c') = 0) /\
    (ys <> [] -> hr_benchmark_stats_min (Some c') = foldr Z.min UINT32_MAX ys /\
       hr_benchmark_stats_max (Some c') = foldr Z.max 0 ys /\ hr_benchmark_stats_mean (Some c') = sum ys / Z.of_nat (length ys)).
Proof.
  intros Hl HX. destruct (reset_rep c Hl) as (c0 & E0 & R0). destruct (record_all_rep xs c0 [] R0 HX) as (rs & c' & E & Er & R).
  exists c0, rs, c'. split_and!; try done. cbv zeta. cbn [app] in R. set (ys := take _ xs) in *.
  destruct R as [(rest & ES & EL) EC ET EM EX HR]. unfold hr_benchmark_stats_count, hr_benchmark_stats_min, hr_benchmark_stats_max, hr_benchmark_stats_mean.
  rewrite EC, ET, EM, EX. split_and!; [done|by intros -> |]. intros Hne.
  assert (Hlen : 0 < Z.of_nat (length ys) <= HR_BENCHMARK_MAX_SAMPLES).
  { split; [destruct ys; [done|simpl; lia]|]. rewrite <- EL, ES, length_app. lia. }
  unfold HR_BENCHMARK_MAX_SAMPLES in Hlen. rewrite (proj2 (Z.eqb_neq _ _)) by lia. split_and!; [done|done|].
  pose proof (sum_range ys HR) as HS. rewrite (u32_small (Z.of_nat (length ys))) by (unfold UINT32_MAX; lia).
  rewrite divide_positive by (unfold UINT32_MAX in *; lia). apply u32_small. split; [apply Z.div_pos; lia|].
  apply Z.div_le_upper_bound; lia.
Qed.

Definition fresh_stats : hr_benchmark_stats := mk_stats (replicate 64 0) 0 0 0 0.

Lemma statistics_of_samples_witness : exists c0 rs c', hr_benchmark_stats_reset (Some fresh_stats) = Some (Some c0) /\
  record_all [30; 10; 20] (Some c0) = Some (rs, Some c') /\ hr_benchmark_stats_mean (Some c') = 20.
Proof.
  destruct (statistics_of_samples fresh_stats [30; 10; 20]) as (c0 & rs & c' & E0 & E & _ & _ & _ & HS);
    [reflexivity|repeat constructor; discriminate|].
  exists c0, rs, c'. split; [exact E0|]. split; [exact E|]. destruct HS as (_ & _ & HM); [discriminate|]. rewrite HM. reflexivity.
Defined.

(** ** Percentiles *)
Lemma sample_copy_spec l t0 : forall p s t, length s = length l ->
  copy_loop (length l) (Z.of_nat (length p)) (p ++ s ++ t) (p ++ l ++ t0) = Some (p ++ l ++ t).
Proof.
  induction l as [|x l IH]; intros p s t Hl; cbn [copy_loop length]; [by destruct s|]. destruct s as [|y s]; [done|].
  cbn [app]. rewrite at_index_app. cbn [mbind option_bind]. rewrite store_index_app. cbn [mbind option_bind].
  replace (Z.of_nat (length p) + 1) with (Z.of_nat (length (p ++ [x]))) by (rewrite length_app; simpl; lia).
  change (p ++ x :: s ++ t) with (p ++ [x] ++ s ++ t). change (p ++ x :: l ++ t0) with (p ++ [x] ++ l ++ t0).
  change (p ++ x :: l ++ t) with (p ++ [x] ++ l ++ t). rewrite !(app_assoc p [x]). apply IH. simpl in Hl. lia.
Qed.

(** How many of the samples are at most, or below, [v]. *)
Definition at_most (v : Z) (xs : list Z) : Z := Z.of_nat (length (filter (fun x => x <= v) xs)).
Definition below (v : Z) (xs : list Z) : Z := Z.of_nat (length (filter (fun x => x < v) xs)).

Lemma filter_all (P : Z -> Prop) `{!forall x, Decision (P x)} (l : list Z) : (forall x, x ∈ l -> P x) -> filter P l = l.
Proof.
  induction l as [|x l IH]; intros HP; [done|]. rewrite filter_cons, decide_True by (apply HP; by left).
  f_equal. apply IH. intros y Hy. apply HP. by right.
Qed.
Lemma filter_none (P : Z -> Prop) `{!forall x, Decision (P x)} (l : list Z) : (forall x, x ∈ l -> ~ P x) -> filter P l = [].
Proof.
  induction l as [|x l IH]; intros HP; [done|]. rewrite filter_cons, decide_False by (apply HP; by left).
  apply IH. intros y Hy. apply HP. by right.
Qed.

(** The sample of rank [r + 1] in a sorted list. *)
Lemma rank_counts a v b : sorted (a ++ v :: b) ->
  Z.of_nat (length a) + 1 <= at_most v (a ++ v :: b) /\ below v (a ++ v :: b) <= Z.of_nat (length a).
Proof.
  intros Hs. apply StronglySorted_app in Hs as (HO & _ & Hb). inversion_clear Hb as [|? ? _ Fb]. rewrite Forall_forall in Fb.
  unfold at_most, below. rewrite !filter_app, !filter_cons, !length_app. split.
  - rewrite decide_True by lia. rewrite (filter_all (fun x => x <= v) a); [simpl; lia|].
    intros x Hx. apply HO; [done|by left].
  - rewrite decide_False by lia. rewrite (filter_none (fun x => x < v) b); [|intros x Hx; specialize (Fb x Hx); lia].
    pose proof (length_filter (fun x => x < v) a). simpl. lia.
Qed.

(** The rank of the percentile [q] among [n] samples: [q * n / 100], rounded up. *)
Lemma rank_bounds q n : 1 <= q <= 100 -> 1 <= n ->
  1 <= (q * n + 99) / 100 <= n /\ q * n <= 100 * ((q * n + 99) / 100) /\ 100 * ((q * n + 99) / 100 - 1) < q * n.
Proof.
  intros Hq Hn. pose proof (Z.div_mod (q * n + 99) 100 ltac:(lia)) as E. pose proof (Z.mod_pos_bound (q * n + 99) 100 ltac:(lia)).
  set (r := (q * n + 99) / 100) in *. nia.
Qed.

(** The percentile [p] of the samples (beyond 100 it is 100) is the nearest rank: a recorded
    sample, with at least [p] percent of the samples at most as large and fewer than [p]
    percent smaller; the percentile 0 is the smallest sample.  The recorded samples are not
    reordered, and the content the local array had before does not matter. *)
Theorem percentile_is_nearest_rank c xs local p :
  stats_rep c xs -> xs <> [] -> Z.of_nat (length local) = HR_BENCHMARK_MAX_SAMPLES -> 0 <= p <= UINT32_MAX ->
  exists v, hr_benchmark_stats_percentile local (Some c) p = Some v /\ v ∈ xs /\
    let q := Z.min p 100 in let n := Z.of_nat (length xs) in
    q * n <= 100 * at_most v xs /\ (if q =? 0 then below v xs = 0 else 100 * below v xs < q * n).
Proof.
  intros [(rest & ES & EL) EC _ _ _ _] Hne Hl Hp. unfold hr_benchmark_stats_percentile. rewrite EC, ES in *. set (n := Z.of_nat (length xs)).
  rewrite length_app in EL. assert (Hn : 1 <= n <= HR_BENCHMARK_MAX_SAMPLES) by (unfold n; destruct xs; [done|simpl in *; lia]).
  rewrite (proj2 (Z.eqb_neq n 0)) by lia. assert (Z.to_nat n = length xs) as -> by (unfold n; lia).
  pose proof (sample_copy_spec xs rest [] (take (length xs) local) (drop (length xs) local)) as HC. cbn [app length] in HC.
  change (Z.of_nat 0) with 0 in HC. rewrite take_drop in HC. rewrite HC by (rewrite length_take; lia). cbn [mbind option_bind].
  destruct (sort_samples_spec xs (drop (length xs) local)) as (l & E & Hs & HP). fold n in E. rewrite E. cbn [mbind option_bind].
  set (q := Z.min p 100). assert (Eq : (if 100 <? p then 100 else p) = q) by (unfold q; destruct (Z.ltb_spec 100 p); lia). rewrite Eq.
  assert (Hlen : length l = length xs) by (by rewrite HP).
  assert (Hat : forall r, 0 <= r < n -> exists a v b, l = a ++ v :: b /\ Z.of_nat (length a) = r /\
    at_index (l ++ drop (length xs) local) r = Some v).
  { intros r Hr. destruct (lookup_lt_is_Some_2 l (Z.to_nat r)) as [v Hv]; [lia|].
    exists (take (Z.to_nat r) l), v, (drop (S (Z.to_nat r)) l). rewrite take_drop_middle by done.
    split; [done|]. split; [rewrite length_take; lia|]. unfold at_index. rewrite (proj2 (Z.leb_le _ _)) by lia.
    rewrite lookup_app_l by lia. done. }
  assert (Hcount : forall a v b, l = a ++ v :: b -> v ∈ xs /\ Z.of_nat (length a) + 1 <= at_most v xs /\ below v xs <= Z.of_nat (length a)).
  { intros a v b ->. split; [rewrite <- HP; set_solver|]. pose proof (rank_counts a v b Hs) as HR.
    unfold at_most, below in *. by rewrite HP in HR. }
  destruct (Z.eqb_spec q 0) as [E0|E0].
  - destruct (Hat 0 ltac:(lia)) as (a & v & b & El & Ea & ->). destruct (Hcount a v b El) as (Hv & H1 & H2).
    exists v. split_and!; [done|done|rewrite E0; unfold at_most; lia|unfold below in *; lia].
  - assert (Hq : 1 <= q <= 100) by (unfold q in *; lia). destruct (rank_bounds q n Hq ltac:(lia)) as (R1 & R2 & R3).
    assert (HB : 0 <= q * n <= 6400) by (unfold HR_BENCHMARK_MAX_SAMPLES in *; nia).
    rewrite (u32_small (q * n)), (u32_small (q * n + 99)) by (unfold UINT32_MAX; lia). set (r := (q * n + 99) / 100) in *.
    rewrite (proj2 (Z.eqb_neq r 0)), (proj2 (Z.ltb_ge n r)) by lia.
    destruct (Hat (r - 1) ltac:(lia)) as (a & v & b & El & Ea & ->). destruct (Hcount a v b El) as (Hv & H1 & H2).
    exists v. split_and!; [done|done|lia|lia].
Qed.

Definition sampled_stats : hr_benchmark_stats := mk_stats ([30; 10; 20] ++ replicate 61 0) 60 10 30 3.

Lemma percentile_is_nearest_rank_witness : exists v, stats_rep sampled_stats [30; 10; 20] /\
  hr_benchmark_stats_percentile (replicate 64 7) (Some sampled_stats) 50 = Some v /\ v ∈ [30; 10; 20] /\
  50 * 3 <= 100 * at_most v [30; 10; 20].
Proof.
  assert (R : stats_rep sampled_stats [30; 10; 20]).
  { split; [exists (replicate 61 0); split; reflexivity|reflexivity|reflexivity|reflexivity|reflexivity|repeat constructor; discriminate]. }
  destruct (percentile_is_nearest_rank sampled_stats [30; 10; 20] (replicate 64 7) 50 R) as (v & E & Hv & HA & _);
    [discriminate|reflexivity|split; discriminate|].
  exists v. split; [exact R|]. split; [exact E|]. split; [exact Hv|exact HA].
Defined.

(** ** Cycles and time *)

(** Durations: the difference of two readings of the 32-bit cycle counter is the number of
    cycles that passed, also across its wrap; the overhead is subtracted without going below
    zero; and the conversion to nanoseconds is the exact quotient, rounded down, saturating
    at 2^32 - 1 instead of wrapping, zero for an unknown clock. *)
Theorem durations_are_exact start passed overhead hz :
  0 <= passed <= UINT32_MAX -> 0 <= overhead <= UINT32_MAX -> 0 <= hz <= UINT32_MAX ->
  hr_benchmark_elapsed_cycles (u32 start) (u32 (start + passed)) = passed /\
  hr_benchmark_adjust_cycles passed overhead = Z.max 0 (passed - overhead) /\
  hr_benchmark_cycles_to_nanoseconds passed hz = (if hz =? 0 then 0 else Z.min (passed * 1000000000 / hz) UINT32_MAX).
Proof.
  intros Hp Ho Hh. split_and!.
  - unfold hr_benchmark_elapsed_cycles, u32, wrap. rewrite <- Zminus_mod. replace (start + passed - start) with passed by lia.
    apply u32_small. lia.
  - unfold hr_benchmark_adjust_cycles. destruct (Z.ltb_spec overhead passed); [|lia]. rewrite u32_small; lia.
  - unfold hr_benchmark_cycles_to_nanoseconds. destruct (Z.eqb_spec hz 0); [done|].
    rewrite u64_small, divide_positive by (unfold UINT32_MAX in *; lia).
    assert (0 <= passed * 1000000000 / hz) by (apply Z.div_pos; lia).
    destruct (Z.ltb_spec UINT32_MAX (passed * 1000000000 / hz)); [lia|]. rewrite u32_small; lia.
Qed.

Lemma durations_are_exact_witness : hr_benchmark_elapsed_cycles (u32 4294967290) (u32 (4294967290 + 10)) = 10 /\
  hr_benchmark_cycles_to_nanoseconds 4294967295 1 = UINT32_MAX.
Proof.
  split; [apply (durations_are_exact 4294967290 10 0 1); split; discriminate|].
  pose proof (durations_are_exact 0 4294967295 0 1) as (_ & _ & E); [split; discriminate..|]. rewrite E. reflexivity.
Defined.
