(* ===== verification/Diagnostics.v ===== *)
(** Diagnostics: [kernel/src/hr_diagnostics.c], the record of the last panic that survives a
    reset, the runtime statistics and the health check.

    The state is that of the kernel with the three variables of the file.  [g_panic_record] is
    in a section the start-up code does not clear, so its content at reset is arbitrary: the
    reason is any number.  The hooks, which the application may replace, are the class
    [Hooks]; [weak_hooks] are those of the file, which do nothing. *)
From S2P Require Import Prelude Types HrList Store KState TaskCore KernelBase Kernel Queue KernelTick.
From stdpp Require Import gmap list.
From Stdlib Require Import String ZArith.
From stdpp Require Import base list.
Open Scope Z_scope.

Definition HR_DIAGNOSTICS_TASK_NAME_LENGTH : Z := 24.
Definition HR_DIAGNOSTICS_RECORD_VERSION : Z := 1.
Definition HR_CFG_DIAGNOSTICS_SIGNATURE : Z := 0x48524447.
Definition HR_CFG_DIAGNOSTICS_STACK_MARGIN_WORDS : Z := 16.

Definition HR_PANIC_NONE : Z := 0.
Definition HR_PANIC_ASSERT : Z := 1.
Definition HR_PANIC_KERNEL_INVARIANT : Z := 2.
Definition HR_PANIC_STACK_OVERFLOW : Z := 3.
Definition HR_PANIC_NMI : Z := 4.
Definition HR_PANIC_HARDFAULT : Z := 5.
Definition HR_PANIC_MEMMANAGE : Z := 6.
Definition HR_PANIC_BUSFAULT : Z := 7.
Definition HR_PANIC_USAGEFAULT : Z := 8.
Definition HR_PANIC_USER : Z := 9.

Definition HR_DIAGNOSTICS_SWITCH_YIELD : Z := Z.shiftl 1 0.
Definition HR_DIAGNOSTICS_SWITCH_BLOCK : Z := Z.shiftl 1 1.
Definition HR_DIAGNOSTICS_SWITCH_PREEMPT : Z := Z.shiftl 1 2.
Definition HR_DIAGNOSTICS_SWITCH_TIME_SLICE : Z := Z.shiftl 1 3.

Record hr_fault_context : Type := mk_fault {
  fc_r0 : Z;
  fc_r1 : Z;
  fc_r2 : Z;
  fc_r3 : Z;
  fc_r12 : Z;
  fc_lr : Z;
  fc_pc : Z;
  fc_xpsr : Z;
  fc_exception_return : Z;
  fc_exception_number : Z;
  fc_cfsr : Z;
  fc_hfsr : Z;
  fc_dfsr : Z;
  fc_afsr : Z;
  fc_mmfar : Z;
  fc_bfar : Z;
  fc_shcsr : Z;
}.
Definition zero_fault : hr_fault_context := mk_fault 0 0 0 0 0 0 0 0 0 0 0 0 0 0 0 0 0.

Record hr_panic_record : Type := mk_panic_record {
  pr_signature : Z;
  pr_version : Z;
  pr_boot_count : Z;
  pr_sequence : Z;
  pr_reason : Z;
  pr_tick : Z;
  pr_task_address : option task_ptr;
  pr_task_name : list Z;
  pr_source_line : Z;
  pr_source_hash : Z;
  pr_fault : hr_fault_context;
}.
Definition zero_panic_record : hr_panic_record :=
  mk_panic_record 0 0 0 0 HR_PANIC_NONE 0 None (replicate (Z.to_nat HR_DIAGNOSTICS_TASK_NAME_LENGTH) 0) 0 0 zero_fault.

Record hr_runtime_statistics : Type := mk_statistics {
  rs_systick_count : Z;
  rs_pendsv_count : Z;
  rs_task_switch_count : Z;
  rs_yield_count : Z;
  rs_block_count : Z;
  rs_preemption_count : Z;
  rs_time_slice_count : Z;
  rs_timeout_wakeup_count : Z;
  rs_invariant_check_count : Z;
  rs_invariant_failure_count : Z;
  rs_stack_check_count : Z;
  rs_stack_failure_count : Z;
  rs_panic_count : Z;
}.
Definition zero_statistics : hr_runtime_statistics := mk_statistics 0 0 0 0 0 0 0 0 0 0 0 0 0.

Definition pr_set_signature v c := mk_panic_record v (pr_version c) (pr_boot_count c) (pr_sequence c) (pr_reason c) (pr_tick c) (pr_task_address c) (pr_task_name c) (pr_source_line c) (pr_source_hash c) (pr_fault c).
Definition pr_set_version v c := mk_panic_record (pr_signature c) v (pr_boot_count c) (pr_sequence c) (pr_reason c) (pr_tick c) (pr_task_address c) (pr_task_name c) (pr_source_line c) (pr_source_hash c) (pr_fault c).
Definition pr_set_boot_count v c := mk_panic_record (pr_signature c) (pr_version c) v (pr_sequence c) (pr_reason c) (pr_tick c) (pr_task_address c) (pr_task_name c) (pr_source_line c) (pr_source_hash c) (pr_fault c).
Definition pr_set_sequence v c := mk_panic_record (pr_signature c) (pr_version c) (pr_boot_count c) v (pr_reason c) (pr_tick c) (pr_task_address c) (pr_task_name c) (pr_source_line c) (pr_source_hash c) (pr_fault c).
Definition pr_set_reason v c := mk_panic_record (pr_signature c) (pr_version c) (pr_boot_count c) (pr_sequence c) v (pr_tick c) (pr_task_address c) (pr_task_name c) (pr_source_line c) (pr_source_hash c) (pr_fault c).
Definition pr_set_tick v c := mk_panic_record (pr_signature c) (pr_version c) (pr_boot_count c) (pr_sequence c) (pr_reason c) v (pr_task_address c) (pr_task_name c) (pr_source_line c) (pr_source_hash c) (pr_fault c).
Definition pr_set_task_address v c := mk_panic_record (pr_signature c) (pr_version c) (pr_boot_count c) (pr_sequence c) (pr_reason c) (pr_tick c) v (pr_task_name c) (pr_source_line c) (pr_source_hash c) (pr_fault c).
Definition pr_set_task_name v c := mk_panic_record (pr_signature c) (pr_version c) (pr_boot_count c) (pr_sequence c) (pr_reason c) (pr_tick c) (pr_task_address c) v (pr_source_line c) (pr_source_hash c) (pr_fault c).
Definition pr_set_source_line v c := mk_panic_record (pr_signature c) (pr_version c) (pr_boot_count c) (pr_sequence c) (pr_reason c) (pr_tick c) (pr_task_address c) (pr_task_name c) v (pr_source_hash c) (pr_fault c).
Definition pr_set_source_hash v c := mk_panic_record (pr_signature c) (pr_version c) (pr_boot_count c) (pr_sequence c) (pr_reason c) (pr_tick c) (pr_task_address c) (pr_task_name c) (pr_source_line c) v (pr_fault c).
Definition pr_set_fault v c := mk_panic_record (pr_signature c) (pr_version c) (pr_boot_count c) (pr_sequence c) (pr_reason c) (pr_tick c) (pr_task_address c) (pr_task_name c) (pr_source_line c) (pr_source_hash c) v.

(** [statistics.field++] *)
Definition rs_count_systick c := mk_statistics (u32 (rs_systick_count c + 1)) (rs_pendsv_count c) (rs_task_switch_count c) (rs_yield_count c) (rs_block_count c) (rs_preemption_count c) (rs_time_slice_count c) (rs_timeout_wakeup_count c) (rs_invariant_check_count c) (rs_invariant_failure_count c) (rs_stack_check_count c) (rs_stack_failure_count c) (rs_panic_count c).
Definition rs_count_pendsv c := mk_statistics (rs_systick_count c) (u32 (rs_pendsv_count c + 1)) (rs_task_switch_count c) (rs_yield_count c) (rs_block_count c) (rs_preemption_count c) (rs_time_slice_count c) (rs_timeout_wakeup_count c) (rs_invariant_check_count c) (rs_invariant_failure_count c) (rs_stack_check_count c) (rs_stack_failure_count c) (rs_panic_count c).
Definition rs_count_task_switch c := mk_statistics (rs_systick_count c) (rs_pendsv_count c) (u32 (rs_task_switch_count c + 1)) (rs_yield_count c) (rs_block_count c) (rs_preemption_count c) (rs_time_slice_count c) (rs_timeout_wakeup_count c) (rs_invariant_check_count c) (rs_invariant_failure_count c) (rs_stack_check_count c) (rs_stack_failure_count c) (rs_panic_count c).
Definition rs_count_yield c := mk_statistics (rs_systick_count c) (rs_pendsv_count c) (rs_task_switch_count c) (u32 (rs_yield_count c + 1)) (rs_block_count c) (rs_preemption_count c) (rs_time_slice_count c) (rs_timeout_wakeup_count c) (rs_invariant_check_count c) (rs_invariant_failure_count c) (rs_stack_check_count c) (rs_stack_failure_count c) (rs_panic_count c).
Definition rs_count_block c := mk_statistics (rs_systick_count c) (rs_pendsv_count c) (rs_task_switch_count c) (rs_yield_count c) (u32 (rs_block_count c + 1)) (rs_preemption_count c) (rs_time_slice_count c) (rs_timeout_wakeup_count c) (rs_invariant_check_count c) (rs_invariant_failure_count c) (rs_stack_check_count c) (rs_stack_failure_count c) (rs_panic_count c).
Definition rs_count_preemption c := mk_statistics (rs_systick_count c) (rs_pendsv_count c) (rs_task_switch_count c) (rs_yield_count c) (rs_block_count c) (u32 (rs_preemption_count c + 1)) (rs_time_slice_count c) (rs_timeout_wakeup_count c) (rs_invariant_check_count c) (rs_invariant_failure_count c) (rs_stack_check_count c) (rs_stack_failure_count c) (rs_panic_count c).
Definition rs_count_time_slice c := mk_statistics (rs_systick_count c) (rs_pendsv_count c) (rs_task_switch_count c) (rs_yield_count c) (rs_block_count c) (rs_preemption_count c) (u32 (rs_time_slice_count c + 1)) (rs_timeout_wakeup_count c) (rs_invariant_check_count c) (rs_invariant_failure_count c) (rs_stack_check_count c) (rs_stack_failure_count c) (rs_panic_count c).
Definition rs_count_timeout_wakeup c := mk_statistics (rs_systick_count c) (rs_pendsv_count c) (rs_task_switch_count c) (rs_yield_count c) (rs_block_count c) (rs_preemption_count c) (rs_time_slice_count c) (u32 (rs_timeout_wakeup_count c + 1)) (rs_invariant_check_count c) (rs_invariant_failure_count c) (rs_stack_check_count c) (rs_stack_failure_count c) (rs_panic_count c).
Definition rs_count_invariant_check c := mk_statistics (rs_systick_count c) (rs_pendsv_count c) (rs_task_switch_count c) (rs_yield_count c) (rs_block_count c) (rs_preemption_count c) (rs_time_slice_count c) (rs_timeout_wakeup_count c) (u32 (rs_invariant_check_count c + 1)) (rs_invariant_failure_count c) (rs_stack_check_count c) (rs_stack_failure_count c) (rs_panic_count c).
Definition rs_count_invariant_failure c := mk_statistics (rs_systick_count c) (rs_pendsv_count c) (rs_task_switch_count c) (rs_yield_count c) (rs_block_count c) (rs_preemption_count c) (rs_time_slice_count c) (rs_timeout_wakeup_count c) (rs_invariant_check_count c) (u32 (rs_invariant_failure_count c + 1)) (rs_stack_check_count c) (rs_stack_failure_count c) (rs_panic_count c).
Definition rs_count_stack_check c := mk_statistics (rs_systick_count c) (rs_pendsv_count c) (rs_task_switch_count c) (rs_yield_count c) (rs_block_count c) (rs_preemption_count c) (rs_time_slice_count c) (rs_timeout_wakeup_count c) (rs_invariant_check_count c) (rs_invariant_failure_count c) (u32 (rs_stack_check_count c + 1)) (rs_stack_failure_count c) (rs_panic_count c).
Definition rs_count_stack_failure c := mk_statistics (rs_systick_count c) (rs_pendsv_count c) (rs_task_switch_count c) (rs_yield_count c) (rs_block_count c) (rs_preemption_count c) (rs_time_slice_count c) (rs_timeout_wakeup_count c) (rs_invariant_check_count c) (rs_invariant_failure_count c) (rs_stack_check_count c) (u32 (rs_stack_failure_count c + 1)) (rs_panic_count c).
Definition rs_count_panic c := mk_statistics (rs_systick_count c) (rs_pendsv_count c) (rs_task_switch_count c) (rs_yield_count c) (rs_block_count c) (rs_preemption_count c) (rs_time_slice_count c) (rs_timeout_wakeup_count c) (rs_invariant_check_count c) (rs_invariant_failure_count c) (rs_stack_check_count c) (rs_stack_failure_count c) (u32 (rs_panic_count c + 1)).

Record dstate : Type := mk_dstate {
  ds_kernel : kstate;
  g_panic_record : hr_panic_record;
  g_runtime_statistics : hr_runtime_statistics;
  g_diagnostics_initialized : bool;
}.
Definition ds_set_kernel v s := mk_dstate v (g_panic_record s) (g_runtime_statistics s) (g_diagnostics_initialized s).
Definition ds_set_record v s := mk_dstate (ds_kernel s) v (g_runtime_statistics s) (g_diagnostics_initialized s).
Definition ds_set_statistics v s := mk_dstate (ds_kernel s) (g_panic_record s) v (g_diagnostics_initialized s).
Definition ds_set_initialized v s := mk_dstate (ds_kernel s) (g_panic_record s) (g_runtime_statistics s) v.
#[export] Instance diagnostics_part : Part kstate dstate := {| part_get := ds_kernel; part_set := ds_set_kernel |}.

Definition upd_record (f : hr_panic_record -> hr_panic_record) : M dstate unit :=
  modifyM (fun s => ds_set_record (f (g_panic_record s)) s).
Definition upd_statistics (f : hr_runtime_statistics -> hr_runtime_statistics) : M dstate unit :=
  modifyM (fun s => ds_set_statistics (f (g_runtime_statistics s)) s).

(** The loop over the characters up to the terminating zero, at most [fuel] of them. *)
Fixpoint hash_loop (fuel : nat) (s : kstate) (text hash : Z) : option Z :=
  match fuel with
  | O => None
  | S fuel =>
      if read_byte s text =? 0 then Some hash
      else hash_loop fuel s (u32 (text + 1)) (u32 (Z.lxor hash (read_byte s text) * 16777619))
  end.
(** A string cannot be longer than the memory that was written. *)
Definition hr_diagnostics_hash_string (s : kstate) (text : option Z) : option Z :=
  match text with
  | None => Some 0
  | Some text => hash_loop (S (size (ks_bytes s))) s text 2166136261
  end.

(** [while ((index + 1 < capacity) && (source[index] != '\0'))], [n] characters fit. *)
Fixpoint copy_name_loop (n : nat) (s : kstate) (source : Z) (index : Z) : list Z :=
  match n with
  | O => []
  | S n =>
      if read_byte s (u32 (source + index)) =? 0 then []
      else read_byte s (u32 (source + index)) :: copy_name_loop n s source (index + 1)
  end.
(** The content of [destination], an array of [capacity] characters, afterwards. *)
Definition hr_diagnostics_copy_name (s : kstate) (destination : list Z) (capacity : Z) (source : option Z) : list Z :=
  if capacity =? 0 then destination
  else
    let copied := match source with None => [] | Some a => copy_name_loop (Z.to_nat (capacity - 1)) s a 0 end in
    (copied ++ replicate (Z.to_nat capacity - List.length copied) 0)%list.

Definition hr_diagnostics_record_header_valid (s : dstate) : bool :=
  (pr_signature (g_panic_record s) =? HR_CFG_DIAGNOSTICS_SIGNATURE) &&
  (pr_version (g_panic_record s) =? HR_DIAGNOSTICS_RECORD_VERSION).

Definition hr_diagnostics_initialize : M dstate unit :=
  let* s := getM in
  if g_diagnostics_initialized s then retM tt
  else
    let* irq_state := lift hr_critical_enter in
    (if negb (hr_diagnostics_record_header_valid s) then
       upd_record (fun _ => zero_panic_record) ;;;
       upd_record (pr_set_signature HR_CFG_DIAGNOSTICS_SIGNATURE) ;;;
       upd_record (pr_set_version HR_DIAGNOSTICS_RECORD_VERSION)
     else retM tt) ;;;
    upd_record (fun c => pr_set_boot_count (u32 (pr_boot_count c + 1)) c) ;;;
    upd_statistics (fun _ => zero_statistics) ;;;
    modifyM (ds_set_initialized true) ;;;
    lift (hr_critical_exit irq_state).

Definition hr_diagnostics_reset_runtime_statistics : M dstate unit :=
  hr_diagnostics_initialize ;;;
  let* irq_state := lift hr_critical_enter in
  upd_statistics (fun _ => zero_statistics) ;;;
  lift (hr_critical_exit irq_state).

(** An output parameter is whether the pointer is given; the result is what is written to it. *)
Definition hr_diagnostics_get_runtime_statistics (statistics : bool) : M dstate (option hr_runtime_statistics) :=
  if negb statistics then retM None
  else
    hr_diagnostics_initialize ;;;
    let* irq_state := lift hr_critical_enter in
    let* s := getM in
    lift (hr_critical_exit irq_state) ;;;
    retM (Some (g_runtime_statistics s)).

Record hr_task_diagnostics : Type := mk_task_diagnostics {
  td_task : task_ptr;
  td_name : option Z;
  td_state : hr_task_state;
  td_base_priority : Z;
  td_effective_priority : Z;
  td_stack_words : Z;
  td_stack_free_words : Z;
  td_stack_used_words : Z;
  td_runtime_ticks : Z;
  td_stack_guard_valid : bool;
}.

Definition hr_diagnostics_get_task (s : kstate) (task : option task_ptr) (diagnostics : bool)
  : hr_status * option hr_task_diagnostics :=
  match task with
  | Some t =>
      if negb diagnostics || negb (hr_task_is_valid s task) then (HR_ERROR_INVALID_ARGUMENT, None)
      else
        let c := task_at s t in
        let free_words := hr_task_get_stack_high_watermark s task in
        (HR_OK, Some (mk_task_diagnostics t (t_name c) (t_state c) (t_base_priority c) (t_effective_priority c)
          (t_stack_words c) free_words
          (if free_words <=? t_stack_words c then t_stack_words c - free_words else t_stack_words c)
          (t_runtime_counter c) (hr_task_stack_guard_is_valid s task)))
  | None => (HR_ERROR_INVALID_ARGUMENT, None)
  end.

(** ** Notes of the kernel *)
Definition hr_diagnostics_internal_note_tick : M dstate unit := upd_statistics rs_count_systick.

Definition hr_diagnostics_internal_note_switch (switch_reasons : Z) (task_changed : bool) : M dstate unit :=
  upd_statistics rs_count_pendsv ;;;
  (if task_changed then upd_statistics rs_count_task_switch else retM tt) ;;;
  (if negb (Z.land switch_reasons HR_DIAGNOSTICS_SWITCH_YIELD =? 0) then upd_statistics rs_count_yield else retM tt) ;;;
  (if negb (Z.land switch_reasons HR_DIAGNOSTICS_SWITCH_BLOCK =? 0) then upd_statistics rs_count_block else retM tt) ;;;
  (if negb (Z.land switch_reasons HR_DIAGNOSTICS_SWITCH_PREEMPT =? 0) then upd_statistics rs_count_preemption else retM tt) ;;;
  (if negb (Z.land switch_reasons HR_DIAGNOSTICS_SWITCH_TIME_SLICE =? 0) then upd_statistics rs_count_time_slice else retM tt).

Definition hr_diagnostics_internal_note_timeout_wakeup : M dstate unit := upd_statistics rs_count_timeout_wakeup.

Definition hr_diagnostics_internal_note_invariant_result (valid : bool) : M dstate unit :=
  upd_statistics rs_count_invariant_check ;;;
  (if negb valid then upd_statistics rs_count_invariant_failure else retM tt).

Definition hr_diagnostics_internal_note_stack_result (valid : bool) : M dstate unit :=
  upd_statistics rs_count_stack_check ;;;
  (if negb valid then upd_statistics rs_count_stack_failure else retM tt).

(** ** The hooks of the application *)
Class Hooks := {
  hr_hook_panic : hr_panic_record -> M dstate unit;
  hr_hook_stack_overflow : task_ptr -> option Z -> M dstate unit;
  hr_hook_assert_failed : option Z -> option Z -> Z -> M dstate unit;
}.
Definition weak_hooks : Hooks :=
  {| hr_hook_panic := fun _ => retM tt; hr_hook_stack_overflow := fun _ _ => retM tt;
     hr_hook_assert_failed := fun _ _ _ => retM tt |}.

(** ** The health check *)
Record hr_health_report : Type := mk_report {
  rp_kernel_invariants_valid : bool;
  rp_all_stack_guards_valid : bool;
  rp_task_count : Z;
  rp_ready_task_count : Z;
  rp_timeout_task_count : Z;
  rp_ready_bitmap : Z;
  rp_minimum_stack_free_words : Z;
  rp_low_stack_task_count : Z;
  rp_current_task : option task_ptr;
  rp_current_task_name : option Z;
}.

Section hooks.
Context `{Hooks}.

(** The variables of the loop. *)
Record health : Type := mk_health {
  h_kernel_valid : bool; h_stacks_valid : bool; h_minimum_free : Z; h_low_stack_count : Z;
}.

(** The body of the loop over the tasks; the owner of a node of the list of tasks is a task. *)
Definition check_task (index : Z) (h : health) : M dstate health :=
  let* s := getM in
  match hr_kernel_get_task_by_index_internal (ds_kernel s) index with
  | Some (PTask t) =>
      match hr_diagnostics_get_task (ds_kernel s) (Some t) true with
      | (HR_OK, Some d) =>
          hr_diagnostics_internal_note_stack_result (td_stack_guard_valid d) ;;;
          (if negb (td_stack_guard_valid d) then hr_hook_stack_overflow t (td_name d) else retM tt) ;;;
          retM (mk_health (h_kernel_valid h) (h_stacks_valid h && td_stack_guard_valid d)
            (if td_stack_free_words d <? h_minimum_free h then td_stack_free_words d else h_minimum_free h)
            (if td_stack_free_words d <? HR_CFG_DIAGNOSTICS_STACK_MARGIN_WORDS
             then u32 (h_low_stack_count h + 1) else h_low_stack_count h))
      | _ => retM (mk_health false (h_stacks_valid h) (h_minimum_free h) (h_low_stack_count h))
      end
  | Some _ => ubM
  | None => retM (mk_health false (h_stacks_valid h) (h_minimum_free h) (h_low_stack_count h))
  end.

(** [for (index = 0; index < task_count; index++)], [n] tasks to go. *)
Fixpoint check_tasks_loop (n : nat) (index : Z) (h : health) : M dstate health :=
  match n with
  | O => retM h
  | S n => let* h := check_task index h in check_tasks_loop n (index + 1) h
  end.

Definition hr_diagnostics_run_health_check (report : bool) : M dstate (hr_status * option hr_health_report) :=
  if negb report then retM (HR_ERROR_INVALID_ARGUMENT, None)
  else
    hr_diagnostics_initialize ;;;
    let* irq_state := lift hr_critical_enter in
    let* s := getM in
    let snapshot := hr_kernel_get_internal_snapshot (ds_kernel s) in
    let kernel_valid := hr_kernel_validate_internal (ds_kernel s) in
    hr_diagnostics_internal_note_invariant_result kernel_valid ;;;
    let* h := check_tasks_loop (Z.to_nat (snapshot_task_count snapshot)) 0 (mk_health kernel_valid true SIZE_MAX 0) in
    let* s := getM in
    lift (hr_critical_exit irq_state) ;;;
    retM ((if h_kernel_valid h && h_stacks_valid h then HR_OK else HR_ERROR_INTERNAL),
      Some (mk_report (h_kernel_valid h) (h_stacks_valid h) (snapshot_task_count snapshot)
        (snapshot_ready_task_count snapshot) (snapshot_timeout_task_count snapshot) (snapshot_ready_bitmap snapshot)
        (if h_minimum_free h =? SIZE_MAX then 0 else h_minimum_free h) (h_low_stack_count h)
        (snapshot_current_task snapshot)
        (match snapshot_current_task snapshot with
         | Some t => hr_task_get_name (ds_kernel s) (Some t)
         | None => None
         end))).

(** ** Panics *)
Definition hr_diagnostics_get_last_panic (record : bool) : M dstate (option hr_panic_record) :=
  if negb record then retM None
  else
    hr_diagnostics_initialize ;;;
    let* irq_state := lift hr_critical_enter in
    let* s := getM in
    lift (hr_critical_exit irq_state) ;;;
    retM (if hr_diagnostics_record_header_valid s && negb (pr_reason (g_panic_record s) =? HR_PANIC_NONE)
          then Some (g_panic_record s) else None).

Definition hr_diagnostics_clear_last_panic : M dstate unit :=
  hr_diagnostics_initialize ;;;
  let* irq_state := lift hr_critical_enter in
  let* s := getM in
  upd_record (fun _ => zero_panic_record) ;;;
  upd_record (pr_set_signature HR_CFG_DIAGNOSTICS_SIGNATURE) ;;;
  upd_record (pr_set_version HR_DIAGNOSTICS_RECORD_VERSION) ;;;
  upd_record (pr_set_boot_count (pr_boot_count (g_panic_record s))) ;;;
  upd_record (pr_set_sequence (pr_sequence (g_panic_record s))) ;;;
  lift (hr_critical_exit irq_state).

Definition hr_diagnostics_prepare_record (reason : Z) : M dstate unit :=
  let* s := getM in
  let current_task := hr_task_current (ds_kernel s) in
  upd_record (pr_set_signature HR_CFG_DIAGNOSTICS_SIGNATURE) ;;;
  upd_record (pr_set_version HR_DIAGNOSTICS_RECORD_VERSION) ;;;
  upd_record (fun c => pr_set_sequence (u32 (pr_sequence c + 1)) c) ;;;
  upd_record (pr_set_reason reason) ;;;
  upd_record (pr_set_tick (hr_kernel_get_tick (ds_kernel s))) ;;;
  upd_record (pr_set_task_address current_task) ;;;
  upd_record (fun c => pr_set_task_name
    (hr_diagnostics_copy_name (ds_kernel s) (pr_task_name c) HR_DIAGNOSTICS_TASK_NAME_LENGTH
       (if bool_decide (current_task <> None) && hr_task_is_valid (ds_kernel s) current_task
        then hr_task_get_name (ds_kernel s) current_task else None)) c) ;;;
  upd_statistics rs_count_panic.

Definition hr_diagnostics_record_panic (reason : Z) (source_file : option Z) (source_line : Z) : M dstate unit :=
  hr_diagnostics_initialize ;;;
  let* irq_state := lift hr_critical_enter in
  hr_diagnostics_prepare_record reason ;;;
  upd_record (pr_set_source_line source_line) ;;;
  let* s := getM in
  match hr_diagnostics_hash_string (ds_kernel s) source_file with
  | None => ubM
  | Some hash =>
      upd_record (pr_set_source_hash hash) ;;;
      upd_record (pr_set_fault zero_fault) ;;;
      let* s := getM in
      lift (hr_critical_exit irq_state) ;;;
      hr_hook_panic (g_panic_record s)
  end.

Definition hr_diagnostics_record_fault (reason : Z) (fault : option hr_fault_context) : M dstate unit :=
  hr_diagnostics_initialize ;;;
  let* irq_state := lift hr_critical_enter in
  hr_diagnostics_prepare_record reason ;;;
  upd_record (pr_set_source_line 0) ;;;
  upd_record (pr_set_source_hash 0) ;;;
  (match fault with
   | Some f => upd_record (pr_set_fault f)
   | None => upd_record (pr_set_fault zero_fault)
   end) ;;;
  let* s := getM in
  lift (hr_critical_exit irq_state) ;;;
  hr_hook_panic (g_panic_record s).

(** [source_file] is the address of the string "kernel/src/hr_kernel.c". *)
Definition hr_diagnostics_internal_note_kernel_panic (source_file : Z) (source_line : Z) : M dstate unit :=
  hr_diagnostics_record_panic HR_PANIC_KERNEL_INVARIANT (Some source_file) source_line.

(** Up to the halt, from which it does not return. *)
Definition hr_assert_failed (expression source_file : option Z) (source_line : Z) : M dstate unit :=
  hr_hook_assert_failed expression source_file source_line ;;;
  hr_diagnostics_record_panic HR_PANIC_ASSERT source_file source_line.
End hooks.

Definition hr_diagnostics_panic_reason_string (reason : Z) : string := (
  if (reason =? HR_PANIC_NONE)%Z then "none"
  else if (reason =? HR_PANIC_ASSERT)%Z then "assert"
  else if (reason =? HR_PANIC_KERNEL_INVARIANT)%Z then "kernel-invariant"
  else if (reason =? HR_PANIC_STACK_OVERFLOW)%Z then "stack-overflow"
  else if (reason =? HR_PANIC_NMI)%Z then "nmi"
  else if (reason =? HR_PANIC_HARDFAULT)%Z then "hardfault"
  else if (reason =? HR_PANIC_MEMMANAGE)%Z then "memmanage"
  else if (reason =? HR_PANIC_BUSFAULT)%Z then "busfault"
  else if (reason =? HR_PANIC_USAGEFAULT)%Z then "usagefault"
  else if (reason =? HR_PANIC_USER)%Z then "user"
  else "unknown")%string.
