(* ===== verification/DiagnosticsProps.v ===== *)
(** Properties of the diagnostics: the record of a panic and its survival of restarts, the
    statistics as counters, and the health check of a consistent kernel. *)
From S2P Require Import Prelude Types HrList HrListSpec Store Scheduler SchedulerSpec WaitList WaitListSpec Timeout TimeoutSpec KState PortStack PortStackSpec TaskCore KernelBase KernelInv Kernel Queue KernelTick KernelTasks KernelSpec KernelSwitch SemaphoreSpec ValidateSpec SystemSpec Scenario Diagnostics.
From stdpp Require Import gmap list.
From Stdlib Require Import ZArith Lia.
Open Scope Z_scope.

(** ** Strings in memory *)

(** The string [bs] at the address [a]. *)
Record c_string (s : kstate) (a : Z) (bs : list Z) : Prop := {
  cs_address : 0 <= a <= UINT32_MAX;
  cs_length : Z.of_nat (length bs) <= UINT32_MAX;
  cs_byte : forall i v, bs !! i = Some v -> read_byte s (u32 (a + Z.of_nat i)) = v;
  cs_nonzero : Forall (fun v => v <> 0) bs;
  cs_end : read_byte s (u32 (a + Z.of_nat (length bs))) = 0;
}.

Lemma c_string_cons s a v bs : c_string s a (v :: bs) ->
  read_byte s a = v /\ v <> 0 /\ c_string s (u32 (a + 1)) bs.
Proof.
  intros [H1 H2 H3 H4 H5]. inversion_clear H4 as [|? ? Hv H4']. cbn [length] in *.
  assert (HU : forall i, u32 (u32 (a + 1) + Z.of_nat i) = u32 (a + Z.of_nat (S i))).
  { intros i. unfold u32, wrap. rewrite Zplus_mod_idemp_l. f_equal. lia. }
  split_and!; [|done|].
  - specialize (H3 O v eq_refl). by rewrite Z.add_0_r, u32_small in H3.
  - split; [apply u32_range|lia| |done|].
    + intros i w Hi. rewrite HU. by apply H3.
    + by rewrite HU.
Qed.

(** A string lies in the written memory. *)
Lemma c_string_size s a bs : c_string s a bs -> (length bs <= size (ks_bytes s))%nat.
Proof.
  intros [H1 H2 H3 H4 _]. set (ps := (fun i => u32 (a + Z.of_nat i)) <$> seq 0 (length bs)).
  assert (ND : NoDup ps).
  { apply NoDup_fmap_2_strong; [|apply NoDup_seq]. intros i j Hi%elem_of_seq Hj%elem_of_seq. unfold u32, wrap. intros E.
    unfold UINT32_MAX in *. assert (Hm : (Z.of_nat i - Z.of_nat j) mod 2 ^ 32 = 0).
    { replace (Z.of_nat i - Z.of_nat j) with ((a + Z.of_nat i) - (a + Z.of_nat j)) by lia. rewrite Zminus_mod, E, Z.sub_diag. done. }
    apply Z.mod_divide in Hm as [k Hk]; [|done]. nia. }
  assert (HS : (list_to_set ps : gset Z) ⊆ dom (ks_bytes s)).
  { intros p [i [-> Hi]]%elem_of_list_to_set%list_elem_of_fmap. apply elem_of_seq in Hi as [_ Hi].
    destruct (lookup_lt_is_Some_2 bs i) as [v Hv]; [lia|]. specialize (H3 i v Hv). rewrite Forall_forall in H4.
    specialize (H4 v (list_elem_of_lookup_2 _ _ _ Hv)). apply elem_of_dom. unfold read_byte in H3. rewrite lookup_total_alt in H3.
    destruct (ks_bytes s !! u32 (a + Z.of_nat i)); [eauto|]. by subst v. }
  apply subseteq_size in HS. rewrite size_list_to_set, size_dom in HS by done. unfold ps in HS. by rewrite length_fmap, length_seq in HS.
Qed.

(** The FNV-1a hash. *)
Definition fnv1a (h : Z) (bs : list Z) : Z := foldl (fun h v => u32 (Z.lxor h v * 16777619)) h bs.

Lemma hash_loop_spec s bs : forall a h fuel, c_string s a bs -> (length bs < fuel)%nat -> hash_loop fuel s a h = Some (fnv1a h bs).
Proof.
  induction bs as [|v bs IH]; intros a h fuel HC Hf; (destruct fuel as [|fuel]; [simpl in Hf; lia|]); cbn [hash_loop fnv1a foldl].
  - pose proof (cs_end _ _ _ HC) as E. cbn [length] in E. rewrite Z.add_0_r, u32_small in E by apply HC. by rewrite E.
  - destruct (c_string_cons s a v bs HC) as (E & Hv & HC'). rewrite E, (proj2 (Z.eqb_neq v 0) Hv).
    apply IH; [done|]. simpl in Hf. lia.
Qed.

Lemma hash_string_spec s a bs : c_string s a bs -> hr_diagnostics_hash_string s (Some a) = Some (fnv1a 2166136261 bs).
Proof. intros HC. apply hash_loop_spec; [done|]. pose proof (c_string_size s a bs HC). lia. Qed.

Lemma copy_name_loop_spec s a bs : c_string s a bs -> forall n i, (i <= length bs)%nat ->
  copy_name_loop n s a (Z.of_nat i) = take n (drop i bs).
Proof.
  intros HC. induction n as [|n IH]; intros i Hi; cbn [copy_name_loop]; [by rewrite take_0|].
  destruct (decide (i = length bs)) as [->|Hne].
  - by rewrite (cs_end _ _ _ HC), drop_all, take_nil.
  - destruct (lookup_lt_is_Some_2 bs i) as [v Hv]; [lia|]. rewrite (cs_byte _ _ _ HC i v Hv).
    pose proof (cs_nonzero _ _ _ HC) as HN. rewrite Forall_forall in HN. specialize (HN v (list_elem_of_lookup_2 _ _ _ Hv)).
    rewrite (proj2 (Z.eqb_neq v 0) HN). replace (Z.of_nat i + 1) with (Z.of_nat (S i)) by lia.
    rewrite IH, (drop_S bs v i Hv) by lia. done.
Qed.

(** A name as the record holds it: at most 23 characters, filled with zeros. *)
Definition stored_name (bs : list Z) : list Z := let c := take 23 bs in c ++ replicate (24 - length c) 0.

Lemma copy_name_spec s d a bs : c_string s a bs ->
  hr_diagnostics_copy_name s d HR_DIAGNOSTICS_TASK_NAME_LENGTH (Some a) = stored_name bs.
Proof.
  intros HC. unfold hr_diagnostics_copy_name, stored_name. change (Z.to_nat (HR_DIAGNOSTICS_TASK_NAME_LENGTH - 1)) with 23%nat.
  pose proof (copy_name_loop_spec s a bs HC 23 0 ltac:(lia)) as E. rewrite drop_0 in E. change (Z.of_nat 0) with 0 in E.
  by rewrite E.
Qed.

(** ** Panics *)

(** What initialising the diagnostics makes of the record. *)
Definition initial_record (d : dstate) : hr_panic_record :=
  if g_diagnostics_initialized d then g_panic_record d
  else
    let r := if hr_diagnostics_record_header_valid d then g_panic_record d
             else pr_set_version HR_DIAGNOSTICS_RECORD_VERSION (pr_set_signature HR_CFG_DIAGNOSTICS_SIGNATURE zero_panic_record) in
    pr_set_boot_count (u32 (pr_boot_count r + 1)) r.
Definition initial_statistics (d : dstate) : hr_runtime_statistics :=
  if g_diagnostics_initialized d then g_runtime_statistics d else zero_statistics.
Definition initialised (d : dstate) : dstate := mk_dstate (ds_kernel d) (initial_record d) (initial_statistics d) true.

(** A critical section leaves the kernel as it was. *)
Lemma mask_restored (k : kstate) :
  ks_set_port (pt_set_primask (pt_primask (ks_port k)) (pt_set_primask 1 (ks_port k))) (ks_set_port (pt_set_primask 1 (ks_port k)) k) = k.
Proof. by destruct k as [? ? ? ? ? ? ? []]. Qed.

Lemma initialize_run d : hr_diagnostics_initialize d = Some (tt, initialised d).
Proof.
  unfold hr_diagnostics_initialize, initialised, initial_record, initial_statistics, bindM, getM, retM, lift.
  destruct d as [k r st f]. cbn [g_diagnostics_initialized]. destruct f; [done|]. 
  unfold hr_critical_enter, hr_critical_exit, hr_port_enter_critical, hr_port_exit_critical, upd_port, upd_record, upd_statistics, bindM, getM, retM, modifyM.
  cbn. destruct (hr_diagnostics_record_header_valid _); cbn; rewrite mask_restored; done.
Qed.

(** A restart: the kernel starts again, in any state, and initialises the diagnostics; the
    record is in memory that is not cleared. *)
Definition restart (k : kstate) (d : dstate) : option dstate :=
  snd <$> hr_diagnostics_initialize (mk_dstate k (g_panic_record d) zero_statistics false).
Fixpoint restarts (ks : list kstate) (d : dstate) : option dstate :=
  match ks with [] => Some d | k :: ks => d ← restart k d; restarts ks d end.

Lemma restarts_run ks : forall d, hr_diagnostics_record_header_valid d = true -> 0 <= pr_boot_count (g_panic_record d) <= UINT32_MAX ->
  g_diagnostics_initialized d = true ->
  exists d', restarts ks d = Some d' /\ g_diagnostics_initialized d' = true /\
    g_panic_record d' = pr_set_boot_count (u32 (pr_boot_count (g_panic_record d) + Z.of_nat (length ks))) (g_panic_record d).
Proof.
  induction ks as [|k ks IH]; intros d Hh Hb Hi; cbn [restarts].
  - exists d. split_and!; try done. cbn [length]. rewrite Z.add_0_r, u32_small by done. by destruct (g_panic_record d).
  - unfold restart. rewrite initialize_run. cbn [fmap option_fmap option_map snd mbind option_bind].
    set (d1 := initialised _). assert (E1 : g_panic_record d1 = pr_set_boot_count (u32 (pr_boot_count (g_panic_record d) + 1)) (g_panic_record d)).
    { unfold d1, initialised, initial_record. cbn [g_diagnostics_initialized g_panic_record].
      change (hr_diagnostics_record_header_valid _) with (hr_diagnostics_record_header_valid d). by rewrite Hh. }
    destruct (IH d1) as (d' & E & Hi' & HR); [| |done|].
    + unfold hr_diagnostics_record_header_valid. rewrite E1. exact Hh.
    + rewrite E1. apply u32_range.
    + exists d'. split_and!; [done|done|]. rewrite HR, E1. set (c := pr_boot_count (g_panic_record d)).
      assert (EU : u32 (u32 (c + 1) + Z.of_nat (length ks)) = u32 (c + Z.of_nat (length (k :: ks)))).
      { unfold u32, wrap. rewrite Zplus_mod_idemp_l. f_equal. cbn [length]. lia. }
      rewrite <- EU. reflexivity.
Qed.

Lemma initialised_again d : g_diagnostics_initialized d = true -> initialised d = d.
Proof. intros E. unfold initialised, initial_record, initial_statistics. rewrite E. destruct d. cbn in *. by subst. Qed.

(** What is read after a panic, or not. *)
Lemma get_last_panic_run d : g_diagnostics_initialized d = true ->
  hr_diagnostics_get_last_panic true d =
    Some (if hr_diagnostics_record_header_valid d && negb (pr_reason (g_panic_record d) =? HR_PANIC_NONE)
          then Some (g_panic_record d) else None, d).
Proof.
  intros Hi. unfold hr_diagnostics_get_last_panic. cbn [negb]. unfold bindM at 1. rewrite initialize_run, initialised_again by done.
  unfold bindM, getM, retM, lift, hr_critical_enter, hr_critical_exit, hr_port_enter_critical, hr_port_exit_critical, upd_port, bindM, getM, retM, modifyM.
  destruct d as [k r st f]. cbn. by rewrite mask_restored.
Qed.

Lemma dstate_eq k k' r st f : k = k' -> mk_dstate k r st f = mk_dstate k' r st f.
Proof. by intros ->. Qed.

(** The name that is recorded for the running task. *)
Lemma current_name_stored m destination t a nm :
  hr_task_current m = Some t -> hr_task_is_valid m (Some t) = true -> t_name (task_at m t) = Some a -> c_string m a nm ->
  hr_diagnostics_copy_name m destination HR_DIAGNOSTICS_TASK_NAME_LENGTH
    (if bool_decide (hr_task_current m <> None) && hr_task_is_valid m (hr_task_current m) then hr_task_get_name m (hr_task_current m)
     else None) = stored_name nm.
Proof.
  intros Hc Hv Hn HN. rewrite Hc, bool_decide_true by done. unfold hr_task_get_name, task_query. rewrite Hv. cbn [andb].
  rewrite Hn. by apply copy_name_spec.
Qed.

Section panics.
Context `{Hooks}.
Hypothesis quiet_hook : forall r d, hr_hook_panic r d = Some (tt, d).

(** The record that a panic leaves. *)
Definition panic_record (d : dstate) (reason line hash : Z) (name : list Z) : hr_panic_record :=
  mk_panic_record HR_CFG_DIAGNOSTICS_SIGNATURE HR_DIAGNOSTICS_RECORD_VERSION (pr_boot_count (initial_record d))
    (u32 (pr_sequence (initial_record d) + 1)) reason (hr_kernel_get_tick (ds_kernel d)) (hr_task_current (ds_kernel d))
    name line hash zero_fault.

Lemma record_panic_run d reason file fs line t a nm :
  c_string (ds_kernel d) file fs -> hr_task_current (ds_kernel d) = Some t -> hr_task_is_valid (ds_kernel d) (Some t) = true ->
  t_name (task_at (ds_kernel d) t) = Some a -> c_string (ds_kernel d) a nm ->
  hr_diagnostics_record_panic reason (Some file) line d =
    Some (tt, mk_dstate (ds_kernel d) (panic_record d reason line (fnv1a 2166136261 fs) (stored_name nm))
                (rs_count_panic (initial_statistics d)) true).
Proof.
  intros HF Hc Hv Hn HN. unfold hr_diagnostics_record_panic. unfold bindM at 1. rewrite initialize_run.
  unfold hr_diagnostics_prepare_record, bindM, getM, retM, lift, hr_critical_enter, hr_critical_exit, hr_port_enter_critical, hr_port_exit_critical, upd_port, upd_record, upd_statistics, bindM, getM, retM, modifyM.
  cbn [part_get part_set diagnostics_part ds_kernel initialised ds_set_kernel ds_set_record ds_set_statistics g_panic_record g_runtime_statistics g_diagnostics_initialized].
  set (m := ks_set_port _ (ds_kernel d)).
  assert (HFm : c_string m file fs) by (destruct HF; by split). assert (HNm : c_string m a nm) by (destruct HN; by split).
  rewrite (hash_string_spec _ _ _ HFm), quiet_hook. f_equal. f_equal.
  pose proof (current_name_stored m (pr_task_name (initial_record d)) t a nm Hc Hv Hn HNm) as EM.
  unfold panic_record. rewrite <- EM. exact (dstate_eq _ _ _ _ _ (mask_restored (ds_kernel d))).
Qed.

(** C32: A panic is recorded completely and the record survives restarts: after
    [hr_diagnostics_record_panic] in a valid task, with a panic hook that does nothing, and
    any number of restarts, each with the kernel in any state, the last panic is that one, with its reason, tick, task, the first 23 characters
    of the task's name, the line, the FNV-1a hash of the file name and the next sequence
    number, and with one more boot counted per restart; once it is cleared, no panic is
    reported and the sequence number goes on. *)
Theorem panic_survives_restarts d reason file fs line t a nm ks :
  reason <> HR_PANIC_NONE -> 0 <= pr_boot_count (initial_record d) <= UINT32_MAX ->
  c_string (ds_kernel d) file fs -> hr_task_current (ds_kernel d) = Some t -> hr_task_is_valid (ds_kernel d) (Some t) = true ->
  t_name (task_at (ds_kernel d) t) = Some a -> c_string (ds_kernel d) a nm ->
  exists d1 d2 d3, hr_diagnostics_record_panic reason (Some file) line d = Some (tt, d1) /\ restarts ks d1 = Some d2 /\
    let r := panic_record d reason line (fnv1a 2166136261 fs) (stored_name nm) in
    hr_diagnostics_get_last_panic true d2 =
      Some (Some (pr_set_boot_count (u32 (pr_boot_count r + Z.of_nat (length ks))) r), d2) /\
    hr_diagnostics_clear_last_panic d2 = Some (tt, d3) /\ hr_diagnostics_get_last_panic true d3 = Some (None, d3) /\
    pr_sequence (g_panic_record d3) = pr_sequence r.
Proof.
  intros Hr Hb HF Hc Hv Hn HN. rewrite (record_panic_run d reason file fs line t a nm HF Hc Hv Hn HN).
  set (r := panic_record _ _ _ _ _). set (d1 := mk_dstate _ r _ _).
  destruct (restarts_run ks d1) as (d2 & E2 & Hi2 & HR2); [done|exact Hb|done|].
  assert (HC : exists d3, hr_diagnostics_clear_last_panic d2 = Some (tt, d3) /\ g_diagnostics_initialized d3 = true /\
    pr_reason (g_panic_record d3) = HR_PANIC_NONE /\ pr_sequence (g_panic_record d3) = pr_sequence (g_panic_record d2)).
  { unfold hr_diagnostics_clear_last_panic. unfold bindM at 1. rewrite initialize_run. eexists. split; [reflexivity|]. 
    rewrite initialised_again by done. done. }
  destruct HC as (d3 & E3 & Hi3 & HR3 & HS3). exists d1, d2, d3. split; [done|]. split; [done|]. cbv zeta.
  rewrite !get_last_panic_run by done. unfold hr_diagnostics_record_header_valid at 1. rewrite HR2.
  change (pr_reason (pr_set_boot_count _ _)) with reason. rewrite (proj2 (Z.eqb_neq _ _) Hr).
  split; [done|]. split; [done|]. split; [by rewrite HR3, andb_false_r|]. rewrite HS3, HR2. done.
Qed.
End panics.

(** ** The health check *)
Lemma foldr_min_comm x m l : foldr Z.min (Z.min x m) l = Z.min x (foldr Z.min m l).
Proof. induction l as [|y l IH]; cbn [foldr]; [done|]. rewrite IH. lia. Qed.

Section health.
Context (T : Z) (D : node_addr -> Z) (s : kstate) (V : view) (b : phase).
Hypothesis KC : kcore T D s V b nobody.
Let KS : kstruct T D s V b := kc_struct _ _ _ _ _ _ KC.

Lemma task_by_index_loop_spec ys : forall xs fuel j t, V !! AllTasks = Some (xs ++ ys) -> (length ys <= fuel)%nat ->
  ys !! j = Some (AllTaskNode t) ->
  task_by_index_loop fuel s (head (PNode <$> ys)) (Z.of_nat (length xs)) (Z.of_nat (length xs + j)) = Some (PTask t).
Proof.
  induction ys as [|n ys IH]; intros xs fuel j t HV Hf Hj; [done|]. destruct fuel as [|fuel]; [simpl in Hf; lia|].
  assert (R := rep_ring _ _ (kt_rep _ _ _ _ _ KS) _ _ HV).
  cbn [head fmap list_fmap task_by_index_loop]. destruct j as [|j]; cbn [lookup list_lookup] in Hj.
  - injection Hj as ->. rewrite Nat.add_0_r, Z.eqb_refl. change (node_owner s (AllTaskNode t) = Some (PTask t)).
    apply (kt_owner _ _ _ _ _ KS (AllTaskNode t) AllTasks). apply (kt_member _ _ _ _ _ KS _ _ _ HV). set_solver.
  - rewrite (proj2 (Z.eqb_neq _ _)) by lia. rewrite (hr_list_next_spec _ _ _ R n xs ys eq_refl).
    replace (Z.of_nat (length xs) + 1) with (Z.of_nat (length (xs ++ [n]))) by (rewrite length_app; simpl; lia).
    replace (length xs + S j)%nat with (length (xs ++ [n]) + j)%nat by (rewrite length_app; simpl; lia).
    apply IH; [by rewrite <- app_assoc|simpl in Hf; lia|done].
Qed.

Lemma task_by_index_spec ats j t : V !! AllTasks = Some ats -> ats !! j = Some (AllTaskNode t) ->
  hr_kernel_get_task_by_index_internal s (Z.of_nat j) = Some (PTask t).
Proof.
  intros HA Hj. assert (R := rep_ring _ _ (kt_rep _ _ _ _ _ KS) _ _ HA).
  destruct (kt_all _ _ _ _ _ KS) as (ats' & HA' & Hct & _). rewrite HA in HA'. injection HA' as <-.
  unfold hr_kernel_get_task_by_index_internal. apply lookup_lt_Some in Hj as Hlt. rewrite <- Hct, (proj2 (Z.leb_gt _ _)) by lia.
  rewrite (hr_list_front_spec _ _ _ R). apply (task_by_index_loop_spec ats [] _ j t); [done| |done].
  unfold scan_fuel. rewrite (ring_size _ _ _ R). lia.
Qed.

(** What the check finds about a task. *)
Definition free_words (t : task_ptr) : Z := hr_task_get_stack_high_watermark s (Some t).
Definition guard_valid (t : task_ptr) : bool := hr_task_stack_guard_is_valid s (Some t).
Definition low_stacks (ts : list task_ptr) : Z :=
  Z.of_nat (length (filter (fun t => free_words t < HR_CFG_DIAGNOSTICS_STACK_MARGIN_WORDS) ts)).

Context `{Hooks}.
Hypothesis quiet_overflow : forall t n d, hr_hook_stack_overflow t n d = Some (tt, d).

Lemma check_task_run d j t h ts : V !! AllTasks = Some (AllTaskNode <$> ts) -> ts !! j = Some t -> registered s t -> ds_kernel d = s ->
  exists st, check_task (Z.of_nat j) h d = Some (mk_health (h_kernel_valid h) (h_stacks_valid h && guard_valid t)
      (Z.min (free_words t) (h_minimum_free h))
      (if free_words t <? HR_CFG_DIAGNOSTICS_STACK_MARGIN_WORDS then u32 (h_low_stack_count h + 1) else h_low_stack_count h),
    ds_set_statistics st d).
Proof.
  intros HA Hj Hr Hk. unfold check_task, bindM at 1, getM. rewrite Hk, (task_by_index_spec _ j t HA) by (by rewrite list_lookup_fmap, Hj).
  unfold hr_diagnostics_get_task. rewrite valid_task by (by apply (kc_fixed _ _ _ _ _ _ KC)). cbn [negb orb].
  fold (guard_valid t) (free_words t). cbn [td_stack_guard_valid td_name td_stack_free_words].
  assert (HM : (if free_words t <? h_minimum_free h then free_words t else h_minimum_free h) = Z.min (free_words t) (h_minimum_free h))
    by (destruct (Z.ltb_spec (free_words t) (h_minimum_free h)); lia).
  rewrite HM. unfold hr_diagnostics_internal_note_stack_result, upd_statistics, modifyM, bindM, retM.
  destruct (guard_valid t); cbn [negb]; rewrite ?quiet_overflow; eexists; reflexivity.
Qed.

Lemma check_tasks_loop_run ts : V !! AllTasks = Some (AllTaskNode <$> ts) -> (forall t, t ∈ ts -> registered s t) ->
  Z.of_nat (length ts) <= HR_CFG_MAX_TASKS ->
  forall n i h d, (i + n = length ts)%nat -> ds_kernel d = s -> 0 <= h_low_stack_count h <= Z.of_nat i ->
  exists st, let us := drop i ts in
    check_tasks_loop n (Z.of_nat i) h d = Some (mk_health (h_kernel_valid h) (h_stacks_valid h && forallb guard_valid us)
      (foldr Z.min (h_minimum_free h) (free_words <$> us)) (h_low_stack_count h + low_stacks us), ds_set_statistics st d).
Proof.
  intros HA Hreg Hmax. induction n as [|n IH]; intros i h d Hi Hk Hl; cbn [check_tasks_loop].
  - exists (g_runtime_statistics d). rewrite drop_ge by lia. cbn. rewrite andb_true_r, Z.add_0_r. by destruct h, d.
  - destruct (lookup_lt_is_Some_2 ts i) as [t Ht]; [lia|].
    destruct (check_task_run d i t h ts HA Ht) as [st E]; [apply Hreg; by eapply list_elem_of_lookup_2|done|]. unfold bindM at 1. rewrite E.
    replace (Z.of_nat i + 1) with (Z.of_nat (S i)) by lia.
    match goal with |- context [check_tasks_loop n _ ?x] => set (h' := x) end.
    assert (HL' : h_low_stack_count h' = h_low_stack_count h + (if free_words t <? HR_CFG_DIAGNOSTICS_STACK_MARGIN_WORDS then 1 else 0)).
    { unfold h'. cbn [h_low_stack_count]. unfold HR_CFG_MAX_TASKS in *.
      destruct (free_words t <? HR_CFG_DIAGNOSTICS_STACK_MARGIN_WORDS); [|lia]. apply u32_small. unfold UINT32_MAX. lia. }
    destruct (IH (S i) h' (ds_set_statistics st d)) as [st' E']; [lia|done| |].
    { rewrite HL'. destruct (free_words t <? HR_CFG_DIAGNOSTICS_STACK_MARGIN_WORDS); lia. }
    exists st'. cbv zeta in *. rewrite E', HL', (drop_S ts t i Ht). unfold h'. cbn [h_kernel_valid h_stacks_valid h_minimum_free forallb].
    f_equal. f_equal. f_equal.
    + by rewrite andb_assoc.
    + rewrite fmap_cons. cbn [foldr]. apply foldr_min_comm.
    + unfold low_stacks. rewrite filter_cons. destruct (Z.ltb_spec (free_words t) HR_CFG_DIAGNOSTICS_STACK_MARGIN_WORDS).
      * rewrite decide_True by done. cbn [length]. lia.
      * rewrite decide_False by lia. lia.
Qed.
End health.

Lemma free_words_port p s t : free_words (with_port p s) t = free_words s t.
Proof.
  unfold free_words, hr_task_get_stack_high_watermark.
  change (hr_task_is_valid (with_port p s) (Some t)) with (hr_task_is_valid s (Some t)). change (task_at (with_port p s) t) with (task_at s t).
  destruct (negb (hr_task_is_valid s (Some t))); [done|]. destruct (t_stack_low (task_at s t)) as [low|]; [|done].
  generalize 1 at 2 4. generalize 0. induction (Z.to_nat (t_stack_words (task_at s t) - 1)) as [|n IH]; intros f i; cbn [watermark_loop]; [done|].
  change (read_word (with_port p s) (u32 (low + 4 * i))) with (read_word s (u32 (low + 4 * i))).
  destruct (negb _); [done|apply IH].
Qed.

(** C33: The health check of a running system reports what is: in every reachable state whose
    current task is running, with hooks that do nothing, it finds the kernel's invariants
    valid, the guards of the stacks valid exactly when each task's guard word is, counts the
    tasks with fewer than 16 free words of stack and gives the least number of free words;
    it returns OK exactly when all guards are valid, and changes nothing of the kernel. *)
Theorem health_check_reports `{Hooks} d t :
  (forall u n e, hr_hook_stack_overflow u n e = Some (tt, e)) ->
  stack_fits address_of_g_idle_stack HR_CFG_IDLE_STACK_WORDS -> reachable (ds_kernel d) -> running (ds_kernel d) t ->
  exists ts rp d', let k := ds_kernel d in
    NoDup ts /\ (forall u, u ∈ ts <-> registered k u) /\
    hr_diagnostics_run_health_check true d =
      Some ((if forallb (guard_valid k) ts then HR_OK else HR_ERROR_INTERNAL, Some rp), d') /\
    ds_kernel d' = k /\ g_panic_record d' = initial_record d /\
    rp_kernel_invariants_valid rp = true /\ rp_all_stack_guards_valid rp = forallb (guard_valid k) ts /\
    rp_task_count rp = Z.of_nat (length ts) /\ rp_current_task rp = Some t /\ rp_low_stack_task_count rp = low_stacks k ts /\
    rp_minimum_stack_free_words rp =
      (let m := foldr Z.min SIZE_MAX (free_words k <$> ts) in if m =? SIZE_MAX then 0 else m).
Proof.
  intros HQ Hf HR RN. destruct (reachable_consistent _ Hf HR) as (T & _ & D & (V & b & KC & _) & HK). set (k := ds_kernel d) in *.
  set (m := with_port (pt_set_primask 1 (ks_port k)) k).
  assert (KCm : kcore T D m V b nobody) by (by apply kcore_port). assert (RNm : running m t) by (by apply running_port).
  destruct (all_tasks T D m V b (kc_struct _ _ _ _ _ _ KCm)) as (ts & HA & ND & Hts & Hct & Hmax).
  assert (HV : hr_kernel_validate_internal m = true) by (by apply (validate_running T D m V b KCm t)).
  assert (HG : forall u, guard_valid m u = guard_valid k u) by done.
  assert (HF : free_words m <$> ts = free_words k <$> ts) by (apply list_fmap_ext; intros; apply free_words_port).
  assert (HL : low_stacks m ts = low_stacks k ts).
  { unfold low_stacks. do 2 f_equal. apply list_filter_iff. intros u. unfold m. by rewrite free_words_port. }
  assert (HW : wp (hr_diagnostics_run_health_check true) (fun r d' => exists rp,
    r = (if forallb (guard_valid k) ts then HR_OK else HR_ERROR_INTERNAL, Some rp) /\
    ds_kernel d' = k /\ g_panic_record d' = initial_record d /\
    rp_kernel_invariants_valid rp = true /\ rp_all_stack_guards_valid rp = forallb (guard_valid k) ts /\
    rp_task_count rp = Z.of_nat (length ts) /\ rp_current_task rp = Some t /\ rp_low_stack_task_count rp = low_stacks k ts /\
    rp_minimum_stack_free_words rp =
      (let m := foldr Z.min SIZE_MAX (free_words k <$> ts) in if m =? SIZE_MAX then 0 else m)) d).
  { unfold hr_diagnostics_run_health_check. cbn [negb]. wp_step. eapply wp_intro; [apply initialize_run|].
    wp_step. apply wp_lift. unfold hr_critical_enter. apply enter_critical_spec.
    cbn [part_get part_set diagnostics_part ds_kernel initialised]. fold k. fold m.
    wp_step. wp_step. cbn [ds_kernel ds_set_kernel]. rewrite HV.
    wp_step. unfold hr_diagnostics_internal_note_invariant_result. wp_step. unfold upd_statistics. wp_step. cbn [negb]. wp_step.
    wp_step. match goal with |- wp _ _ ?x => set (d1 := x) end.
    cbn [hr_kernel_get_internal_snapshot snapshot_task_count]. 
    assert (Hn : Z.to_nat (g_task_count (glob m)) = length ts) by lia.
    destruct (check_tasks_loop_run T D m V b KCm HQ ts HA (fun u => proj1 (Hts u)) Hmax (length ts) 0
      (mk_health true true SIZE_MAX 0) d1) as [st E]; [lia|done|cbn; lia|].
    unfold hr_kernel_get_internal_snapshot. cbn [snapshot_task_count]. rewrite Hn. eapply wp_intro; [exact E|].
    cbn [h_kernel_valid h_stacks_valid h_minimum_free h_low_stack_count snapshot_current_task snapshot_task_count].
    rewrite drop_0, HF, HL. cbn [andb].
    assert (HB : forallb (guard_valid m) ts = forallb (guard_valid k) ts) by (induction ts; cbn; [done|by f_equal]). rewrite HB.
    wp_step. wp_step. wp_step. apply wp_lift. unfold hr_critical_exit, hr_port_exit_critical, upd_port. wp_step. wp_step.
    eexists. split; [reflexivity|]. split; [exact (mask_restored k)|]. split_and!; try done; simpl; first [lia|apply RN]. }
  apply wp_run in HW as (r & d' & E & rp & -> & HW). exists ts, rp, d'. cbv zeta. split_and!; try done; apply HW.
Qed.

(** ** A system that panics *)

(** Task 2 runs; its name is "go" and the file is "a.c". *)
Definition k_named : kstate :=
  ks_set_bytes {[0x08005000 := 103; 0x08005001 := 111; 0x08006000 := 97; 0x08006001 := 46; 0x08006002 := 99]} s_run.
Definition d_named : dstate := mk_dstate k_named zero_panic_record zero_statistics false.

Ltac concrete_string :=
  split; [vm_compute; split; discriminate|vm_compute; discriminate
    |intros i v Hv; repeat (destruct i as [|i]; [injection Hv as <-; vm_compute; reflexivity|]); discriminate
    |repeat constructor; discriminate|vm_compute; reflexivity].

Lemma panic_survives_restarts_witness : exists d1 d2,
  hr_diagnostics_record_panic (H := weak_hooks) HR_PANIC_ASSERT (Some 0x08006000) 77 d_named = Some (tt, d1) /\
  restarts [s_init; s_run] d1 = Some d2 /\
  exists r, hr_diagnostics_get_last_panic true d2 = Some (Some r, d2) /\ pr_source_line r = 77 /\ pr_boot_count r = 3 /\
    pr_task_name r = [103; 111] ++ replicate 22 0.
Proof.
  assert (HF : c_string (ds_kernel d_named) 0x08006000 [97; 46; 99]) by concrete_string.
  assert (HN : c_string (ds_kernel d_named) 0x08005000 [103; 111]) by concrete_string.
  destruct (panic_survives_restarts (H := weak_hooks) (fun _ _ => eq_refl) d_named HR_PANIC_ASSERT 0x08006000 [97; 46; 99] 77 2%N
    0x08005000 [103; 111] [s_init; s_run]) as (d1 & d2 & d3 & E1 & E2 & E3 & _);
    [discriminate|vm_compute; split; discriminate|exact HF|vm_compute; reflexivity|vm_compute; reflexivity|vm_compute; reflexivity|exact HN|].
  exists d1, d2. split; [exact E1|]. split; [exact E2|]. eexists. split; [exact E3|].
  split; [vm_compute; reflexivity|]. split; [vm_compute; reflexivity|vm_compute; reflexivity].
Defined.

Definition d_run : dstate := mk_dstate s_run zero_panic_record zero_statistics false.

Lemma health_check_reports_witness : exists status rp d', running s_run 2%N /\
  hr_diagnostics_run_health_check (H := weak_hooks) true d_run = Some ((status, Some rp), d') /\
  rp_kernel_invariants_valid rp = true /\ rp_current_task rp = Some 2%N.
Proof.
  destruct (health_check_reports (H := weak_hooks) d_run 2%N (fun _ _ _ => eq_refl) idle_stack_fits reachable_s_run running_s_run)
    as (ts & rp & d' & _ & _ & E & _ & _ & H1 & _ & _ & H2 & _).
  eexists _, rp, d'. split; [exact running_s_run|]. split; [exact E|]. split; [exact H1|exact H2].
Defined.
