(* ===== verification/PortAsm.v ===== *)
(** The assembly of the port: [arch/arm/cortex-m3/hr_portasm.S], the start of the first
    task and the context switch, and the fault handlers of [hr_faultasm.S] and [hr_fault.c],
    with what the processor does around an exception.

    A machine is the state of the kernel with the registers of the processor.  The scratch
    registers of a handler are the names bound in it; [r4] to [r11] are the registers the
    C code preserves.  Entering an exception pushes eight words on the stack of the
    interrupted code and returning from it pops them, as the ARMv7-M architecture defines
    (PushStack and PopStack of its reference manual).  The pair [push {r3, lr}] and [pop] by
    which the switch handler keeps [lr] on the main stack around its call of the C code is not
    represented: the name bound to [lr] is still there after the call, and the stacks of the
    tasks are not touched by it. *)
From S2P Require Import Prelude Types HrList Store KState PortStack KernelBase Kernel Diagnostics.
From stdpp Require Import gmap list.
From Stdlib Require Import ZArith.
Open Scope Z_scope.

Record registers : Type := mk_registers {
  r0 : Z;
  r1 : Z;
  r2 : Z;
  r3 : Z;
  r4_r11 : list Z;
  r12 : Z;
  lr : Z;
  pc : Z;
  xpsr : Z;
}.
Definition set_r4_r11 v R := mk_registers (r0 R) (r1 R) (r2 R) (r3 R) v (r12 R) (lr R) (pc R) (xpsr R).

Record machine : Type := mk_machine {
  m_kernel : kstate;
  m_regs : registers;
  m_psp : Z;
  m_msp : Z;
  m_control : Z;
}.
Definition m_set_kernel v m := mk_machine v (m_regs m) (m_psp m) (m_msp m) (m_control m).
Definition m_set_regs v m := mk_machine (m_kernel m) v (m_psp m) (m_msp m) (m_control m).
Definition m_set_psp v m := mk_machine (m_kernel m) (m_regs m) v (m_msp m) (m_control m).
Definition m_set_msp v m := mk_machine (m_kernel m) (m_regs m) (m_psp m) v (m_control m).
Definition m_set_control v m := mk_machine (m_kernel m) (m_regs m) (m_psp m) (m_msp m) v.
#[export] Instance machine_part : Part kstate machine := {| part_get := m_kernel; part_set := m_set_kernel |}.

(** ** Words in memory *)
Fixpoint store_words (a : Z) (l : list Z) (s : kstate) : kstate :=
  match l with
  | [] => s
  | v :: l => store_words (u32 (a + 4)) l (ks_set_words (<[a := v]> (ks_words s)) s)
  end.
Fixpoint load_words (s : kstate) (a : Z) (n : nat) : list Z :=
  match n with
  | O => []
  | S n => read_word s a :: load_words s (u32 (a + 4)) n
  end.

(** ** Exceptions *)

(** The word that is pushed for the status register: bit 9 tells that the stack was
    realigned. *)
Definition FRAME_ALIGNED : Z := Z.shiftl 1 9.
Definition stkalign (s : kstate) : bool := negb (Z.land (pt_ccr (ks_port s)) HR_PORT_SCB_CCR_STKALIGN =? 0).
Definition realigned (s : kstate) (sp : Z) : bool := stkalign s && Z.testbit sp 2.

Definition frame_of (R : registers) (realigned : bool) : list Z :=
  [r0 R; r1 R; r2 R; r3 R; r12 R; lr R; pc R;
   Z.lor (Z.ldiff (xpsr R) FRAME_ALIGNED) (if realigned then FRAME_ALIGNED else 0)].

(** Pushes the frame of the interrupted code on its stack; the new stack pointer. *)
Definition push_frame (sp : Z) : M machine Z :=
  let* m := getM in
  let frame := u32 (sp - 0x20 - if realigned (m_kernel m) sp then 4 else 0) in
  lift (modifyM (store_words frame (frame_of (m_regs m) (realigned (m_kernel m) sp)))) ;;;
  retM frame.

(** The registers and the stack pointer after popping the frame at [frame]. *)
Definition popped (s : kstate) (frame : Z) (hi : list Z) : registers * Z :=
  let w i := read_word s (u32 (frame + 4 * i)) in
  (mk_registers (w 0) (w 1) (w 2) (w 3) hi (w 4) (w 5) (w 6) (Z.ldiff (w 7) FRAME_ALIGNED),
   u32 (frame + 0x20 + if stkalign s && Z.testbit (w 7) 9 then 4 else 0)).

(** The return to thread mode on the process stack: [bx lr] with 0xFFFFFFFD. *)
Definition exception_return : M machine unit :=
  let* m := getM in
  let '(R, sp) := popped (m_kernel m) (m_psp m) (r4_r11 (m_regs m)) in
  modifyM (m_set_regs R) ;;;
  modifyM (m_set_psp sp) ;;;
  lift (upd_port (pt_set_inside_isr false)).

(** [hr_port.c]: whether thread mode uses the process stack. *)
Definition hr_port_thread_uses_psp (m : machine) : bool := negb (Z.land (m_control m) 2 =? 0).

(** ** Handlers; the result tells whether the handler returns from the exception or stops
    at its breakpoint. *)

Definition SVC_Handler : M machine bool :=
  let* m := getM in
  match g_hr_current_task_control_block (glob (m_kernel m)) with
  | None => retM false
  | Some t =>
      match t_stack_pointer (task_at (m_kernel m) t) with
      | None => ubM
      | Some r0 =>
          modifyM (m_set_regs (set_r4_r11 (load_words (m_kernel m) r0 8) (m_regs m))) ;;;
          modifyM (m_set_psp (u32 (r0 + 32))) ;;;
          modifyM (m_set_control 2) ;;;
          retM true
      end
  end.

(** [svc #0] in the start-up code, which runs on the main stack. *)
Definition hr_port_start_first_task (estack : Z) : M machine bool :=
  lift (upd_port (pt_set_primask 1)) ;;;
  modifyM (m_set_msp estack) ;;;
  lift (upd_port (pt_set_primask 0)) ;;;
  let* msp := push_frame estack in
  modifyM (m_set_msp msp) ;;;
  lift (upd_port (pt_set_inside_isr true)) ;;;
  let* returns := SVC_Handler in
  if returns then exception_return ;;; retM true else retM false.

Section config.
Context `{Config}.

Definition PendSV_Handler : M machine bool :=
  let* m := getM in
  let r0 := m_psp m in
  match g_hr_current_task_control_block (glob (m_kernel m)) with
  | None => retM false
  | Some r2 =>
      let r0 := u32 (r0 - 32) in
      lift (modifyM (store_words r0 (r4_r11 (m_regs m)))) ;;;
      lift (upd_task r2 (t_set_stack_pointer (Some r0))) ;;;
      lift (upd_port (pt_set_primask 1)) ;;;
      lift hr_kernel_select_next_from_pendsv ;;;
      let* m := getM in
      match g_hr_current_task_control_block (glob (m_kernel m)) with
      | None => retM false
      | Some r2 =>
          match t_stack_pointer (task_at (m_kernel m) r2) with
          | None => ubM
          | Some r0 =>
              modifyM (m_set_regs (set_r4_r11 (load_words (m_kernel m) r0 8) (m_regs m))) ;;;
              modifyM (m_set_psp (u32 (r0 + 32))) ;;;
              lift (upd_port (pt_set_primask 0)) ;;;
              retM true
          end
      end
  end.

(** The pending switch is taken while a task runs on the process stack. *)
Definition take_pendsv : M machine bool :=
  let* m := getM in
  let* psp := push_frame (m_psp m) in
  modifyM (m_set_psp psp) ;;;
  lift (upd_port (pt_set_inside_isr true)) ;;;
  lift (upd_port (pt_set_pendsv false)) ;;;
  let* returns := PendSV_Handler in
  if returns then exception_return ;;; retM true else retM false.
End config.

(** ** Faults, from the exception to the halt

    A fault is taken in the middle of a task or of a handler, whose registers are the
    parameter [R] of [take_fault]; the number of the exception and the status registers of
    the processor, which reading does not change, are the parameters [ipsr] and [scb]. *)
Definition HR_FAULT_SCB_CFSR : Z := 0xE000ED28.
Definition HR_FAULT_SCB_HFSR : Z := 0xE000ED2C.
Definition HR_FAULT_SCB_DFSR : Z := 0xE000ED30.
Definition HR_FAULT_SCB_MMFAR : Z := 0xE000ED34.
Definition HR_FAULT_SCB_BFAR : Z := 0xE000ED38.
Definition HR_FAULT_SCB_AFSR : Z := 0xE000ED3C.
Definition HR_FAULT_SCB_SHCSR : Z := 0xE000ED24.

(** The state in which the processor stays at the breakpoint. *)
Definition hr_diagnostics_platform_halt : M dstate unit := lift (upd_port (pt_set_primask 1)).

Section fault.
Context `{Hooks} (ipsr : Z) (scb : Z -> Z).

Definition captured (s : kstate) (stack_frame exception_return : Z) : hr_fault_context :=
  let word i := if stack_frame =? 0 then 0 else read_word s (u32 (stack_frame + 4 * i)) in
  mk_fault (word 0) (word 1) (word 2) (word 3) (word 4) (word 5) (word 6) (word 7) exception_return ipsr
    (scb HR_FAULT_SCB_CFSR) (scb HR_FAULT_SCB_HFSR) (scb HR_FAULT_SCB_DFSR) (scb HR_FAULT_SCB_AFSR)
    (scb HR_FAULT_SCB_MMFAR) (scb HR_FAULT_SCB_BFAR) (scb HR_FAULT_SCB_SHCSR).

Definition hr_port_fault_capture (stack_frame exception_return reason_value : Z) : M dstate unit :=
  lift (upd_port (pt_set_primask 1)) ;;;
  let* s := getM in
  hr_diagnostics_record_fault reason_value (Some (captured (ds_kernel s) stack_frame exception_return)) ;;;
  hr_diagnostics_platform_halt.

(** The macro of the handlers: [tst lr, #4] selects the stack of the interrupted code. *)
Definition HR_FAULT_HANDLER (reason lr msp psp : Z) : M dstate unit :=
  hr_port_fault_capture (if Z.land lr 4 =? 0 then msp else psp) lr reason.
Definition NMI_Handler : Z -> Z -> Z -> M dstate unit := HR_FAULT_HANDLER 4.
Definition HardFault_Handler : Z -> Z -> Z -> M dstate unit := HR_FAULT_HANDLER 5.
Definition MemManage_Handler : Z -> Z -> Z -> M dstate unit := HR_FAULT_HANDLER 6.
Definition BusFault_Handler : Z -> Z -> Z -> M dstate unit := HR_FAULT_HANDLER 7.
Definition UsageFault_Handler : Z -> Z -> Z -> M dstate unit := HR_FAULT_HANDLER 8.

(** Entering the exception: the frame goes to the stack in use, the value in [lr] tells
    which one that is. *)
Definition frame_address (s : kstate) (sp : Z) : Z := u32 (sp - 0x20 - if realigned s sp then 4 else 0).
Definition take_fault (handler : Z -> Z -> Z -> M dstate unit) (in_task : bool) (R : registers) (msp psp : Z) : M dstate unit :=
  let* s := getM in
  let sp := if in_task then psp else msp in
  let frame := frame_address (ds_kernel s) sp in
  lift (modifyM (store_words frame (frame_of R (realigned (ds_kernel s) sp)))) ;;;
  lift (upd_port (pt_set_inside_isr true)) ;;;
  if in_task then handler 0xFFFFFFFD msp frame else handler 0xFFFFFFF1 frame psp.
End fault.
