(* ===== verification/PortAsmProps.v ===== *)
(** The context switch: what is saved of the interrupted task and restored of the next one,
    and how the first task is entered. *)
From stdpp Require Import gmap list.
From Stdlib Require Import ZArith Lia.
From S2P Require Import Prelude Types HrList HrListSpec Store Scheduler SchedulerSpec Timeout TimeoutSpec KState PortStack PortStackSpec TaskCore KernelBase KernelInv MutexPriority Kernel KernelTick KernelTasks KernelSpec KernelSwitch SemaphoreSpec SystemSpec Scenario PortAsm.
Open Scope Z_scope.

(** ** Words in memory *)

(** The memory from [a] holds the words [l]. *)
Definition words_at (s : kstate) (a : Z) (l : list Z) : Prop :=
  forall i v, l !! i = Some v -> read_word s (a + 4 * Z.of_nat i) = v.

Lemma store_words_eq l : forall a s, 0 <= a -> a + 4 * Z.of_nat (length l) <= 2 ^ 32 ->
  store_words a l s = ks_set_words (write_words a l (ks_words s)) s.
Proof.
  induction l as [|v l IH]; intros a s H1 H2; simpl in *; [by destruct s|].
  destruct l as [|v' l]; [done|]. rewrite u32_small by (unfold UINT32_MAX; simpl in *; lia).
  rewrite IH by (simpl in *; lia). done.
Qed.

Lemma load_words_eq l : forall a s, 0 <= a -> a + 4 * Z.of_nat (length l) <= 2 ^ 32 ->
  words_at s a l -> load_words s a (length l) = l.
Proof.
  induction l as [|v l IH]; intros a s H1 H2 W; simpl in *; [done|].
  f_equal; [rewrite <- (W 0%nat v eq_refl); f_equal; lia|]. destruct l as [|v' l]; [done|].
  rewrite u32_small by (unfold UINT32_MAX; simpl in *; lia). apply IH; [lia|simpl in *; lia|].
  intros i w Hi. rewrite <- (W (S i) w Hi). f_equal. lia.
Qed.

Lemma words_at_stored s a l : words_at (ks_set_words (write_words a l (ks_words s)) s) a l.
Proof. intros i v Hi. by apply write_words_at. Qed.

(** Words elsewhere are not overwritten. *)
Lemma words_at_other s a l b l' :
  b + 4 * Z.of_nat (length l') <= a \/ a + 4 * Z.of_nat (length l) <= b ->
  words_at s b l' -> words_at (ks_set_words (write_words a l (ks_words s)) s) b l'.
Proof.
  intros Ha W i v Hi. rewrite <- (W i v Hi). unfold read_word; simpl. apply lookup_lt_Some in Hi.
  destruct Ha; [apply write_words_below; lia|apply write_words_above; lia].
Qed.

Lemma words_at_app s a l1 l2 : words_at s a l1 -> words_at s (a + 4 * Z.of_nat (length l1)) l2 -> words_at s a (l1 ++ l2).
Proof.
  intros W1 W2 i v [Hi|[Hge Hi]]%lookup_app_Some; [by apply W1|].
  rewrite <- (W2 _ v Hi). f_equal. lia.
Qed.

Lemma words_at_split s a l1 l2 : words_at s a (l1 ++ l2) ->
  words_at s a l1 /\ words_at s (a + 4 * Z.of_nat (length l1)) l2.
Proof.
  intros W. split; intros i v Hi.
  - apply W. by apply lookup_app_l_Some.
  - rewrite <- (W (length l1 + i)%nat v); [f_equal; lia|]. rewrite lookup_app_r by lia. rewrite <- Hi. f_equal. lia.
Qed.

(** Memory is all that matters. *)
Lemma words_at_ext s s' a l : ks_words s' = ks_words s -> words_at s a l -> words_at s' a l.
Proof. intros E W i v Hi. rewrite <- (W i v Hi). unfold read_word. by rewrite E. Qed.

(** ** Frames of exceptions *)

(** Eight registers are callee-saved, and bit 9 of the status register is reserved. *)
Definition proper (R : registers) : Prop := length (r4_r11 R) = 8%nat /\ Z.testbit (xpsr R) 9 = false.

Lemma clear_reserved x : Z.testbit x 9 = false -> Z.ldiff x FRAME_ALIGNED = x.
Proof.
  intros Hx. apply Z.bits_inj'. intros n Hn. rewrite Z.ldiff_spec. unfold FRAME_ALIGNED. rewrite Z.shiftl_1_l, Z.pow2_bits_eqb by lia.
  destruct (Z.eqb_spec 9 n) as [<-|]; [by rewrite Hx|by rewrite andb_true_r].
Qed.

Lemma frame_status x (b : bool) : Z.testbit x 9 = false ->
  let w := Z.lor (Z.ldiff x FRAME_ALIGNED) (if b then FRAME_ALIGNED else 0) in
  Z.ldiff w FRAME_ALIGNED = x /\ Z.testbit w 9 = b.
Proof.
  intros Hx w. unfold w. rewrite (clear_reserved x Hx). split.
  - rewrite <- (clear_reserved x Hx) at 2. apply Z.bits_inj'. intros n Hn.
    rewrite !Z.ldiff_spec, Z.lor_spec. destruct b; [|by rewrite Z.bits_0, orb_false_r].
    by destruct (Z.testbit FRAME_ALIGNED n); rewrite ?andb_false_r, ?orb_false_r.
  - rewrite Z.lor_spec, Hx. by destruct b.
Qed.

Lemma popped_frame s q R (b : bool) hi : 0 <= q -> q + 32 + (if b then 4 else 0) <= UINT32_MAX -> (b = true -> stkalign s = true) ->
  proper R -> words_at s q (frame_of R b) ->
  popped s q hi = (set_r4_r11 hi R, q + 32 + if b then 4 else 0).
Proof.
  intros H1 H2 Hb [_ Hx] W. destruct (frame_status (xpsr R) b Hx) as [E1 E2]. unfold popped.
  assert (HW : forall i v, frame_of R b !! Z.to_nat i = Some v -> 0 <= i < 8 -> read_word s (u32 (q + 4 * i)) = v).
  { intros i v Hi Hl. rewrite u32_small by (destruct b; lia). rewrite <- (W _ v Hi). f_equal. lia. }
  cbv zeta. rewrite (HW 0 _ eq_refl), (HW 1 _ eq_refl), (HW 2 _ eq_refl), (HW 3 _ eq_refl), (HW 4 _ eq_refl),
    (HW 5 _ eq_refl), (HW 6 _ eq_refl), (HW 7 _ eq_refl) by lia.
  rewrite E1, E2. f_equal.
  destruct b; [rewrite Hb by done|rewrite andb_false_r]; simpl; by rewrite u32_small by lia.
Qed.

(** ** Saved contexts *)

(** Where a context is saved that is interrupted at stack pointer [p]. *)
Definition bottom (s : kstate) (p : Z) : Z := p - 64 - if realigned s p then 4 else 0.

(** The context of task [t] as the switch leaves it: below the stack pointer [p] the task
    will have are the frame of the exception and the callee-saved registers. *)
Definition saved (s : kstate) (t : task_ptr) (R : registers) (p : Z) : Prop :=
  t_stack_pointer (task_at s t) = Some (bottom s p) /\
  words_at s (bottom s p) (r4_r11 R ++ frame_of R (realigned s p)).

Lemma realigned_ext s s' p : pt_ccr (ks_port s') = pt_ccr (ks_port s) -> realigned s' p = realigned s p.
Proof. unfold realigned, stkalign. by intros ->. Qed.
Lemma bottom_ext s s' p : pt_ccr (ks_port s') = pt_ccr (ks_port s) -> bottom s' p = bottom s p.
Proof. intros E. unfold bottom. by rewrite (realigned_ext s s' p E). Qed.

Lemma saved_ext s s' t R p : ks_words s' = ks_words s -> pt_ccr (ks_port s') = pt_ccr (ks_port s) ->
  t_stack_pointer (task_at s' t) = t_stack_pointer (task_at s t) -> saved s t R p -> saved s' t R p.
Proof.
  intros HW HC HT [Hq W]. unfold saved. rewrite HT, (bottom_ext s), (realigned_ext s) by done.
  split; [done|by apply (words_at_ext s)].
Qed.

(** What loading a saved context gives. *)
Lemma saved_load s t R p : proper R -> 0 <= bottom s p -> p <= UINT32_MAX -> saved s t R p ->
  exists q, t_stack_pointer (task_at s t) = Some q /\
  load_words s q 8 = r4_r11 R /\ forall hi, popped s (u32 (q + 32)) hi = (set_r4_r11 hi R, p).
Proof.
  intros HR H0 Hl [Hq W]. exists (bottom s p). split; [done|]. unfold bottom, UINT32_MAX in *.
  apply words_at_split in W as [W1 W2]. pose proof HR as [HL _]. rewrite HL in W2. split.
  - rewrite <- HL. apply load_words_eq; try done. rewrite HL. destruct (realigned s p); lia.
  - intros hi. rewrite u32_small by (unfold UINT32_MAX; destruct (realigned s p); lia).
    rewrite (popped_frame s _ R (realigned s p)); try done.
    + f_equal. destruct (realigned s p); lia.
    + destruct (realigned s p); lia.
    + unfold UINT32_MAX. destruct (realigned s p); lia.
    + unfold realigned. by intros [? _]%andb_true_iff.
Qed.

(** ** What choosing the next task leaves alone *)
Record keeps (s s' : kstate) : Prop := {
  kp_words : ks_words s' = ks_words s;
  kp_ccr : pt_ccr (ks_port s') = pt_ccr (ks_port s);
  kp_stack_pointer : forall t, t_stack_pointer (task_at s' t) = t_stack_pointer (task_at s t);
}.
Definition keeping {A} (m : M kstate A) : Prop := forall s a s', m s = Some (a, s') -> keeps s s'.

#[local] Instance keeps_preorder : PreOrder keeps.
Proof. split; [by split|]. intros s1 s2 s3 [] []. split; [congruence..|]. intros t. congruence. Qed.

Lemma keeping_ret {A} (a : A) : keeping (retM a).
Proof. by intros s x s' [= _ <-]. Qed.
Lemma keeping_get : keeping getM.
Proof. by intros s x s' [= _ <-]. Qed.
Lemma keeping_ub {A} : keeping (ubM (A:=A)).
Proof. by intros s x s'. Qed.
Lemma keeping_bind {A B} (m : M kstate A) (k : A -> M kstate B) :
  keeping m -> (forall a, keeping (k a)) -> keeping (bindM m k).
Proof.
  intros Hm Hk s b s2 E. unfold bindM in E. destruct (m s) as [[a s1]|] eqn:E1; [|done].
  transitivity s1; [by eapply Hm|by eapply Hk].
Qed.
Lemma keeping_globals f : keeping (upd_globals f).
Proof. by intros s x s' [= _ <-]. Qed.
Lemma keeping_task t f : (forall c, t_stack_pointer (f c) = t_stack_pointer c) -> keeping (upd_task t f).
Proof.
  intros Hf s x s' [= _ <-]. split; try done. intros u. unfold task_at. simpl.
  destruct (decide (u = t)) as [->|Hne]; [by rewrite lookup_total_insert_eq|by rewrite lookup_total_insert_ne].
Qed.
Lemma keeping_store {A} (m : M store A) : keeping (lift m).
Proof. intros s x s'. unfold lift. destruct (m _) as [[a st]|]; [|done]. by intros [= _ <-]. Qed.

Create HintDb keeping.
#[local] Hint Resolve keeping_ret keeping_get keeping_ub keeping_globals keeping_store : keeping.
(** Follows the code. *)
Ltac keep := repeat first
  [ progress intros
  | progress cbv zeta
  | solve [eauto with keeping]
  | apply keeping_task; done
  | apply keeping_bind
  | lazymatch goal with |- keeping (match ?x with _ => _ end) => destruct x end ].

Section config.
Context `{Config}.

Lemma select_rotation_keeps t reasons : keeping (select_rotation t reasons).
Proof. unfold select_rotation, hr_kernel_panic, hr_kernel_reload_time_slice. keep. Qed.
Lemma transition_keeps t a b : keeping (hr_task_transition_state t a b).
Proof. unfold hr_task_transition_state. keep. Qed.
#[local] Hint Resolve select_rotation_keeps transition_keeps : keeping.
Lemma switch_states_keeps t u : keeping (switch_states t u).
Proof. unfold switch_states, hr_kernel_panic. keep. Qed.
#[local] Hint Resolve switch_states_keeps : keeping.
Lemma select_next_keeps : keeping hr_kernel_select_next_from_pendsv.
Proof. unfold hr_kernel_select_next_from_pendsv, hr_kernel_panic, cast_task. keep. Qed.
End config.

(** ** The contexts of all tasks *)

(** Every task [u] has the registers and stack pointer [ctx u]: the current task [c], which may
    just have blocked, in the processor, the others saved; each stack [lo u .. hi u] has room for its context, and
    the stacks are disjoint. *)
Record contexts (lo hi : task_ptr -> Z) (ctx : task_ptr -> registers * Z) (m : machine) (c : task_ptr) : Prop := {
  cx_task : g_current_task (glob (m_kernel m)) = Some c;
  cx_current : (m_regs m, m_psp m) = ctx c;
  cx_proper : forall u, registered (m_kernel m) u -> proper (ctx u).1;
  cx_fits : forall u, registered (m_kernel m) u ->
    0 <= lo u /\ lo u <= bottom (m_kernel m) (ctx u).2 /\ (ctx u).2 <= hi u <= UINT32_MAX;
  cx_apart : forall u v, registered (m_kernel m) u -> registered (m_kernel m) v -> u <> v -> hi u <= lo v \/ hi v <= lo u;
  cx_saved : forall u, registered (m_kernel m) u -> u <> c -> saved (m_kernel m) u (ctx u).1 (ctx u).2;
}.

(** The state after the context of [c] has been saved. *)
Definition context_words (s : kstate) (R : registers) (p : Z) : gmap Z Z :=
  write_words (bottom s p) (r4_r11 R)
    (write_words (bottom s p + 32) (frame_of R (realigned s p)) (ks_words s)).
Definition suspended (s : kstate) (c : task_ptr) (R : registers) (p : Z) : kstate :=
  let s1 := ks_set_words (context_words s R p) s in
  set_task c (t_set_stack_pointer (Some (bottom s p)) (task_at s c)) s1.

Lemma suspended_saved s c R p : proper R -> saved (suspended s c R p) c R p.
Proof.
  intros [HL _]. unfold saved. rewrite (bottom_ext s), (realigned_ext s) by done. split.
  - unfold suspended. by rewrite task_at_set_eq.
  - apply (words_at_ext (ks_set_words (context_words s R p) s)); [done|]. apply words_at_app.
    + apply (words_at_stored (ks_set_words (write_words _ _ _) s)).
    + rewrite HL. apply (words_at_other (ks_set_words (write_words _ _ _) s)); [right; rewrite HL; lia|].
      apply words_at_stored.
Qed.

Lemma suspended_others s c R p u Ru pu : u <> c -> proper R -> proper Ru ->
  bottom s pu + 64 <= bottom s p \/ bottom s p + 64 <= bottom s pu ->
  saved s u Ru pu -> saved (suspended s c R p) u Ru pu.
Proof.
  intros Hne [HL _] [HLu _] Ha [Hq W]. unfold saved. rewrite (bottom_ext s), (realigned_ext s) by done. split.
  - unfold suspended. rewrite task_at_set_ne by done. exact Hq.
  - apply (words_at_ext (ks_set_words (context_words s R p) s)); [done|].
    assert (HL2 : length (r4_r11 Ru ++ frame_of Ru (realigned s pu)) = 16%nat) by (rewrite length_app, HLu; done).
    apply (words_at_other (ks_set_words (write_words _ _ _) s)); [rewrite HL2, HL; lia|].
    apply words_at_other; [rewrite HL2; simpl; lia|done].
Qed.

(** Steps of a machine, with its parts in sight. *)
Ltac mnorm := unfold m_set_kernel, m_set_regs, m_set_psp, m_set_msp, m_set_control;
  cbn [m_kernel m_regs m_psp m_msp m_control part_get part_set machine_part]; unfold m_set_kernel;
  cbn [m_kernel m_regs m_psp m_msp m_control].
Ltac mstep := lazymatch goal with |- wp (if _ then _ else _) _ _ => fail | _ => wp_step end; unfold upd_port, upd_task; mnorm.
Ltac msteps := repeat mstep.

Lemma push_frame_spec sp Q s R p msp control :
  let frame := sp - 32 - (if realigned s sp then 4 else 0) in
  0 <= frame -> sp <= UINT32_MAX ->
  Q frame (mk_machine (ks_set_words (write_words frame (frame_of R (realigned s sp)) (ks_words s)) s) R p msp control) ->
  wp (push_frame sp) Q (mk_machine s R p msp control).
Proof.
  intros frame H0 Hm K. unfold push_frame. do 2 mstep. change 0x20 with 32.
  assert (Hf : u32 (sp - 32 - (if realigned s sp then 4 else 0)) = frame).
  { apply u32_small. fold frame. split; [done|]. unfold frame. destruct (realigned s sp); lia. }
  rewrite Hf. do 4 mstep.
  rewrite store_words_eq; [exact K|done|]. unfold UINT32_MAX, frame in *. cbn [frame_of length]. destruct (realigned s sp); lia.
Qed.

(** Loading a saved context and returning to it. *)
Lemma return_spec t q R p Q s R0 msp control : proper R -> 0 <= bottom s p -> p <= UINT32_MAX ->
  saved s t R p -> t_stack_pointer (task_at s t) = Some q ->
  Q tt (mk_machine (with_port (pt_set_inside_isr false (ks_port s)) s) R p msp control) ->
  wp exception_return Q (mk_machine s (set_r4_r11 (load_words s q 8) R0) (u32 (q + 32)) msp control).
Proof.
  intros HR H0 Hp HS Hq K. destruct (saved_load _ _ _ _ HR H0 Hp HS) as (q' & Hq' & HL & HP).
  rewrite Hq in Hq'. injection Hq' as <-. unfold exception_return. do 2 mstep. rewrite HP, HL.
  do 6 mstep. destruct R; exact K.
Qed.

Section switch.
Context `{Config}.

(** The switch, given where choosing the next task ends. *)
Lemma take_pendsv_spec s c R p msp control n s6 Rn pn Q :
  g_hr_current_task_control_block (glob s) = Some c -> 0 <= bottom s p -> p <= UINT32_MAX -> length (r4_r11 R) = 8%nat ->
  hr_kernel_select_next_from_pendsv (with_port (pt_set_primask 1 (pt_set_pendsv false (pt_set_inside_isr true (ks_port s))))
    (suspended s c R p)) = Some (tt, s6) ->
  g_hr_current_task_control_block (glob s6) = Some n ->
  proper Rn -> 0 <= bottom s6 pn -> pn <= UINT32_MAX -> saved s6 n Rn pn ->
  Q true (mk_machine (with_port (pt_set_inside_isr false (pt_set_primask 0 (ks_port s6))) s6) Rn pn msp control) ->
  wp take_pendsv Q (mk_machine s R p msp control).
Proof.
  intros Hc H0 Hp HL Hsel Hn HR' H0' Hp' HS K. unfold take_pendsv. msteps.
  assert (Hb : bottom s p + 32 = p - 32 - (if realigned s p then 4 else 0)) by (unfold bottom; lia).
  apply push_frame_spec; rewrite <- ?Hb; [lia|done|]. msteps. unfold PendSV_Handler. msteps.
  change (glob (ks_set_port _ _)) with (glob s). rewrite Hc.
  rewrite u32_small by (unfold bottom, UINT32_MAX in *; destruct (realigned s p); lia).
  replace (bottom s p + 32 - 32) with (bottom s p) by lia. msteps.
  rewrite store_words_eq by (rewrite ?HL; unfold bottom, UINT32_MAX in *; destruct (realigned s p); lia).
  msteps. eapply wp_intro; [exact Hsel|]. msteps. rewrite Hn. destruct HS as [Hq HW]. rewrite Hq.
  msteps. apply (return_spec n (bottom s6 pn) Rn pn _ (with_port (pt_set_primask 0 (ks_port s6)) s6)); done.
Qed.

(** Everybody's context is in memory once that of the running task is saved. *)
Lemma all_saved lo hi ctx s c msp control u : registered s c -> registered s u ->
  contexts lo hi ctx (mk_machine s (ctx c).1 (ctx c).2 msp control) c ->
  saved (suspended s c (ctx c).1 (ctx c).2) u (ctx u).1 (ctx u).2.
Proof.
  intros Hc Hu [_ _ HP HF HA HS]. cbn [m_kernel] in *. destruct (decide (u = c)) as [->|Hne]; [by apply suspended_saved, HP|].
  apply suspended_others; auto.
  destruct (HF u Hu) as (_ & Hu1 & Hu2), (HF c Hc) as (_ & Hc1 & Hc2), (HA u c Hu Hc Hne).
  - left. unfold bottom in *. destruct (realigned s (ctx u).2); lia.
  - right. unfold bottom in *. destruct (realigned s (ctx c).2); lia.
Qed.
End switch.

(** Memory and the saved stack pointer of the running task are its own. *)
Lemma reachable_suspended `{Config} s c R p P : reachable s -> g_hr_current_task_control_block (glob s) = Some c ->
  reachable (with_port P (suspended s c R p)).
Proof.
  intros HR Hc. eapply reachable_step; [|apply step_port].
  eapply reachable_step; [exact (reachable_step _ _ HR (step_memory s (context_words s R p) (ks_bytes s)))|].
  by apply (step_save (ks_set_words (context_words s R p) s)).
Qed.

(** Choosing the next task once the context of the current one is saved. *)
Lemma select_suspended `{Config} s c R p :
  stack_fits address_of_g_idle_stack HR_CFG_IDLE_STACK_WORDS -> reachable s -> g_current_task (glob s) = Some c ->
  let s5 := with_port (pt_set_primask 1 (pt_set_pendsv false (pt_set_inside_isr true (ks_port s)))) (suspended s c R p) in
  g_hr_current_task_control_block (glob s) = Some c /\ registered s c /\ reachable s5 /\
  exists s6 n, hr_kernel_select_next_from_pendsv s5 = Some (tt, s6) /\ entered s5 s6 n /\ registered s6 n.
Proof.
  intros Hf HR Hc s5. destruct (reachable_consistent s Hf HR) as (T & _ & D & (V & b & KC & _) & HK).
  pose proof (kc_globals _ _ _ _ _ _ KC) as [_ Hg]. rewrite HK in Hg. destruct Hg as (c' & Hc' & Hh & Hreg).
  assert (c' = c) as -> by congruence. pose proof (reachable_suspended s c R p _ HR Hh : reachable s5) as HR5.
  split_and!; [done..|]. destruct (reachable_consistent _ Hf HR5) as (T5 & _ & D5 & (V5 & b5 & KC5 & _) & HK5).
  assert (HQ : wp hr_kernel_select_next_from_pendsv (fun _ s6 => exists n, entered s5 s6 n /\ registered s6 n) s5).
  { apply (pendsv_spec T5 D5 b5 _ V5); try done. intros s' V' c0 n _ _ KC' _ EN. exists n. split; [done|].
    pose proof (kc_globals _ _ _ _ _ _ KC') as [_ Hg]. rewrite (en_kernel _ _ _ EN) in Hg. destruct Hg as (n' & Hn' & _ & Hr).
    rewrite (en_current _ _ _ EN) in Hn'. by injection Hn' as <-. }
  apply wp_run in HQ as ([] & s6 & E & n & EN & Hn). by exists s6, n.
Qed.

(** C6: The context switch keeps the context of every task: when every task that is not running has
    its registers and stack pointer saved on its own stack, then taking the switch
    exception (the processor pushing the frame, the handler, the choice of the next task,
    the processor popping the frame) saves those of the interrupted task, leaves all others
    where they are and continues the most urgent ready task with exactly the registers
    and the stack pointer it had when it was interrupted, also when the processor
    realigned its stack. *)
Theorem context_switch_keeps_contexts `{Config} lo hi ctx m c :
  stack_fits address_of_g_idle_stack HR_CFG_IDLE_STACK_WORDS -> reachable (m_kernel m) -> contexts lo hi ctx m c ->
  exists m' n, take_pendsv m = Some (true, m') /\ reachable (m_kernel m') /\ contexts lo hi ctx m' n /\
    running (m_kernel m') n /\ is_Some (node_list (m_kernel m) (ReadyNode n)) /\
    (forall u, is_Some (node_list (m_kernel m) (ReadyNode u)) ->
       t_effective_priority (task_at (m_kernel m') n) <= t_effective_priority (task_at (m_kernel m') u)) /\
    pt_primask (ks_port (m_kernel m')) = 0 /\ pt_inside_isr (ks_port (m_kernel m')) = false.
Proof.
  intros Hf HR CX. destruct m as [s R p msp control]. pose proof CX as [RN HC HP HF HA HS]. cbn [m_kernel m_regs m_psp] in *.
  assert (HRp : R = (ctx c).1 /\ p = (ctx c).2) by (by rewrite <- HC). destruct HRp as [-> ->].
  destruct (select_suspended s c (ctx c).1 (ctx c).2 Hf HR RN) as (Hh & Hreg & HR5 & s6 & n & E & EN & Hn).
  pose proof (select_next_keeps _ _ _ E) as [KW KC6 KT].
  assert (HL : forall u, registered s6 u <-> registered s u) by (intros u; unfold registered; by rewrite (en_links _ _ _ EN)).
  assert (HS6 : forall u, registered s u -> saved s6 u (ctx u).1 (ctx u).2).
  { intros u Hu. apply (saved_ext (suspended s c (ctx c).1 (ctx c).2)); try done. by eapply all_saved. }
  assert (HB : forall x, bottom s6 x = bottom s x) by (intros x; by apply bottom_ext).
  apply HL in Hn as Hns. destruct (HF n Hns) as (F0 & F1 & F2).
  assert (HW : wp take_pendsv (fun r m' => r = true /\ m' = mk_machine (with_port (pt_set_inside_isr false (pt_set_primask 0 (ks_port s6))) s6) (ctx n).1 (ctx n).2 msp control)
    (mk_machine s (ctx c).1 (ctx c).2 msp control)).
  { destruct (HF c Hreg) as (G0 & G1 & G2). eapply (take_pendsv_spec s c _ _ msp control n s6); eauto; try lia.
    - by apply HP.
    - apply EN.
    - rewrite HB. lia. }
  apply wp_returns in HW as (m' & ET & ->). eexists _, n. split; [exact ET|]. cbn [m_kernel].
  assert (HR6 : reachable s6) by exact (reachable_step _ _ HR5 (step_pendsv _ _ E)).
  split; [exact (reachable_step _ _ HR6 (step_port _ _))|].
  split; [|split_and!; [by split; apply EN|apply (en_ready _ _ _ EN)|apply (en_highest _ _ _ EN)|done..]].
  split; cbn [m_kernel m_regs m_psp].
  - apply EN.
  - by destruct (ctx n).
  - intros u Hu. apply HP, HL, Hu.
  - intros u Hu. rewrite (bottom_ext s6), HB by done. apply HF, HL, Hu.
  - intros u v Hu Hv. apply HA; by apply HL.
  - intros u Hu _. apply (saved_ext s6); try done. by apply HS6, HL.
Qed.

(** ** The first task *)

(** The frame of the start-up code on the main stack, below [estack]. *)
Definition main_frame (s : kstate) (estack : Z) : Z := estack - 32 - if realigned s estack then 4 else 0.

Lemma main_frame_bounds s estack : estack - 36 <= main_frame s estack <= estack - 32.
Proof. unfold main_frame. destruct (realigned s estack); lia. Qed.

(** The state of the kernel when the first task is entered. *)
Definition entered_first (s : kstate) (R : registers) (estack : Z) : kstate :=
  with_port (pt_set_inside_isr false (pt_set_primask 0 (ks_port s)))
    (ks_set_words (write_words (main_frame s estack) (frame_of R (realigned s estack)) (ks_words s)) s).

Lemma main_frame_other s estack R u Ru pu : 36 <= estack <= UINT32_MAX -> proper Ru ->
  (estack <= bottom s pu \/ bottom s pu + 64 <= estack - 36) ->
  saved s u Ru pu -> saved (entered_first s R estack) u Ru pu.
Proof.
  intros He [HL _] Ha [Hq W]. pose proof (main_frame_bounds s estack).
  unfold saved. rewrite (bottom_ext s), (realigned_ext s) by done. split; [exact Hq|].
  apply (words_at_ext (ks_set_words (write_words (main_frame s estack) (frame_of R (realigned s estack)) (ks_words s)) s)); [done|].
  apply words_at_other; [|done]. rewrite length_app, HL. cbn [frame_of length]. lia.
Qed.

Lemma start_first_spec s estack R p msp control c Rc pc Q : 36 <= estack <= UINT32_MAX ->
  g_hr_current_task_control_block (glob s) = Some c ->
  proper Rc -> 0 <= bottom s pc -> pc <= UINT32_MAX ->
  (estack <= bottom s pc \/ bottom s pc + 64 <= estack - 36) -> saved s c Rc pc ->
  (forall msp', Q true (mk_machine (entered_first s R estack) Rc pc msp' 2)) ->
  wp (hr_port_start_first_task estack) Q (mk_machine s R p msp control).
Proof.
  intros He Hc HRc H0 Hp Ha HS K. pose proof (main_frame_bounds s estack) as HB.
  unfold hr_port_start_first_task. msteps. apply push_frame_spec;
    change (realigned (ks_set_port _ _) estack) with (realigned s estack); fold (main_frame s estack); [lia|lia|].
  msteps. unfold SVC_Handler. msteps. change (glob (ks_set_port _ _)) with (glob s). rewrite Hc.
  pose proof (main_frame_other s estack R c Rc pc He HRc Ha HS) as HS'. pose proof HS' as [Hq _].
  rewrite (bottom_ext s) in Hq by done.
  change (t_stack_pointer (task_at (ks_set_port _ _) c)) with (t_stack_pointer (task_at (entered_first s R estack) c)). rewrite Hq.
  msteps. apply (return_spec c (bottom s pc) Rc pc); try done. apply K.
Qed.

(** The registers a new task starts with. *)
Definition initial_registers (entry argument exit : Z) : registers :=
  mk_registers argument 0x11111111 0x22222222 0x33333333
    [0x44444444; 0x55555555; 0x66666666; 0x77777777; 0x88888888; 0x99999999; 0xAAAAAAAA; 0xBBBBBBBB]
    0x12121212 (Z.lor exit HR_PORT_THUMB_ADDRESS_BIT) (Z.land entry HR_PORT_ADDRESS_MASK) HR_PORT_INITIAL_XPSR.

(** The initial stack of a task is a saved context. *)
Lemma initial_saved s t low words entry argument exit :
  stack_fits low words -> let sp := initial_sp low words in
  t_stack_pointer (task_at s t) = Some sp -> words_at s sp (initial_frame entry argument exit) ->
  bottom s (sp + 64) = sp /\ saved s t (initial_registers entry argument exit) (sp + 64).
Proof.
  intros Hf sp Hq W. destruct (initial_sp_bounds low words Hf) as [Hm Hb]. fold sp in Hm, Hb.
  assert (Hr : realigned s (sp + 64) = false).
  { unfold realigned. apply andb_false_iff. right.
    assert (E : sp + 64 = (sp / 8 + 8) * 2 ^ 3) by (pose proof (Z.div_mod sp 8); lia).
    rewrite E. by apply Z.mul_pow2_bits_low. }
  assert (HB : bottom s (sp + 64) = sp) by (unfold bottom; rewrite Hr; lia).
  split; [done|]. unfold saved. by rewrite HB, Hr.
Qed.

(** C10: The first task, and in the same way every task that is switched to for the first
    time, starts at its entry point: after the stack of the task has been built and its
    stack pointer stored, the start of the scheduler leaves the processor in thread mode on the
    process stack with the entry point (without its Thumb bit) as the program counter,
    the argument in [r0], the exit routine as the return address, the Thumb state in the
    status register and an empty stack. *)
Theorem first_task_enters_entry low words entry argument exit c estack s R p msp control :
  stack_fits low words -> 36 <= estack <= UINT32_MAX -> estack <= low \/ low + 4 * words <= estack - 36 ->
  exists s1 m', let sp := initial_sp low words in
    hr_port_initialize_stack (Some low) words entry argument exit s = Some (Some sp, s1) /\
    let s2 := ks_set_globals (g_set_hr_current_task_control_block (Some c) (ks_globals s1))
                (set_task c (t_set_stack_pointer (Some sp) (task_at s1 c)) s1) in
    hr_port_start_first_task estack (mk_machine s2 R p msp control) = Some (true, m') /\
    m_regs m' = initial_registers (pointer_address entry) (pointer_address argument) (pointer_address exit) /\
    m_psp m' = sp + 64 /\ low + 4 * words - 8 < m_psp m' <= low + 4 * words /\ hr_port_thread_uses_psp m' = true /\
    pt_primask (ks_port (m_kernel m')) = 0 /\ pt_inside_isr (ks_port (m_kernel m')) = false.
Proof.
  intros Hf He Ha. set (sp := initial_sp low words).
  assert (HI : wp (hr_port_initialize_stack (Some low) words entry argument exit) (fun r s1 => r = Some sp /\
    words_at s1 sp (initial_frame (pointer_address entry) (pointer_address argument) (pointer_address exit))) s).
  { apply initialize_stack_spec; [done|]. split; [done|]. apply words_at_stored. }
  apply wp_returns in HI as (s1 & E & W). exists s1.
  set (s2 := ks_set_globals (g_set_hr_current_task_control_block (Some c) (ks_globals s1))
    (set_task c (t_set_stack_pointer (Some sp) (task_at s1 c)) s1)).
  destruct (initial_saved s2 c low words (pointer_address entry) (pointer_address argument) (pointer_address exit) Hf) as [HB HS]; [|by apply (words_at_ext s1)|].
  { unfold s2. change (t_stack_pointer (task_at (set_task c (t_set_stack_pointer (Some sp) (task_at s1 c)) s1) c) = Some sp).
    by rewrite task_at_set_eq. }
  destruct (initial_sp_bounds low words Hf) as [Hm Hb]. pose proof Hf as (H1 & H2 & H3 & H4). unfold HR_CFG_MIN_TASK_STACK_WORDS in *.
  assert (HW : wp (hr_port_start_first_task estack) (fun r m' => r = true /\ exists msp', m' = mk_machine (entered_first s2 R estack)
    (initial_registers (pointer_address entry) (pointer_address argument) (pointer_address exit)) (sp + 64) msp' 2)
    (mk_machine s2 R p msp control)).
  { eapply (start_first_spec s2 estack R p msp control c); [done|reflexivity| | | | |exact HS|by eauto]; [split; reflexivity|..]; rewrite ?HB; unfold sp; lia. }
  apply wp_returns in HW as (m' & ET & msp' & ->). eexists. split; [exact E|]. split; [exact ET|]. cbn [m_regs m_psp m_control].
  split_and!; try done; unfold sp, initial_sp; pose proof (Z.mod_pos_bound (low + 4 * words) 8); lia.
Qed.

Lemma first_task_enters_entry_witness :
  stack_fits 0x20001000 64 /\ exists s1 m',
    hr_port_initialize_stack (Some 0x20001000) 64 (Some 0x08000101) (Some 7) (Some 0x08000201) s_run = Some (Some (initial_sp 0x20001000 64), s1) /\
    pc (m_regs m') = 0x08000100 /\ r0 (m_regs m') = 7 /\ m_psp m' = 0x20001100.
Proof.
  assert (Hf : stack_fits 0x20001000 64) by exact (stack_fits_example _ (or_introl eq_refl)). split; [exact Hf|].
  destruct (first_task_enters_entry 0x20001000 64 (Some 0x08000101) (Some 7) (Some 0x08000201) 2%N 0x20005000 s_run
    (initial_registers 0 0 0) 0 0 0 Hf) as (s1 & m' & E & _ & HR & HP & _); [unfold UINT32_MAX; lia|right; lia|].
  exists s1, m'. split; [exact E|]. rewrite HR, HP. split; [reflexivity|]. split; reflexivity.
Defined.

(** ** A switch of the example system *)
Lemma words_at_load l : forall a s, 0 <= a -> a + 4 * Z.of_nat (length l) <= 2 ^ 32 ->
  load_words s a (length l) = l -> words_at s a l.
Proof.
  induction l as [|v l IH]; intros a s H1 H2 E i w Hi; [done|]. cbn [length load_words] in *. injection E as E1 E2.
  destruct i as [|i]; cbn in Hi; [injection Hi as <-; rewrite <- E1; f_equal; lia|].
  destruct l as [|v' l]; [done|]. rewrite u32_small in E2 by (unfold UINT32_MAX; cbn [length] in *; lia).
  rewrite <- (IH (a + 4) s ltac:(lia) ltac:(cbn [length] in *; lia) E2 i w Hi). f_equal. lia.
Qed.

Lemma reachable_tasks s ts u : reachable s -> contents (st_lists (ks_store s)) AllTasks = AllTaskNode <$> ts ->
  registered s u -> u ∈ ts.
Proof.
  intros HR Hc Hu. destruct (reachable_kcore s HR) as (T & D & V & b & _ & KC & _).
  pose proof (kc_struct _ _ _ _ _ _ KC) as KS. destruct (kt_all _ _ _ _ _ KS) as (ns & HV & _).
  pose proof (view_contents T D s V b AllTasks ns KC HV) as ->.
  unfold registered in Hu. rewrite (kt_member _ _ _ _ _ KS _ _ _ HV), Hc in Hu.
  by apply list_elem_of_fmap in Hu as (x & [= ->] & Hx).
Qed.

(** Task 2 runs with a stack pointer that is not 8-byte aligned; the idle task and task 3
    have not run yet. *)
Definition example_lo (u : task_ptr) : Z := match u with 2%N => 0x20001000 | 3%N => 0x20002000 | _ => address_of_g_idle_stack end.
Definition example_hi (u : task_ptr) : Z := match u with 2%N => 0x20001100 | 3%N => 0x20002100 | _ => address_of_g_idle_stack + 4 * HR_CFG_IDLE_STACK_WORDS end.
Definition saved_sp (u : task_ptr) : Z := default 0 (t_stack_pointer (task_at s_run u)).
Definition example_ctx (u : task_ptr) : registers * Z :=
  if bool_decide (u = 2%N) then (mk_registers 1 2 3 4 [5;6;7;8;9;10;11;12] 13 14 0x08000400 0x21000000, 0x200010C4)
  else popped s_run (u32 (saved_sp u + 32)) (load_words s_run (saved_sp u) 8).
Definition example_machine : machine := mk_machine s_run (example_ctx 2%N).1 (example_ctx 2%N).2 0x20004F00 2.

Lemma example_saved u : u = 0%N \/ u = 3%N -> saved s_run u (example_ctx u).1 (example_ctx u).2.
Proof.
  intros Hu. split; [destruct Hu as [-> | ->]; vm_compute; reflexivity|].
  apply words_at_load; destruct Hu as [-> | ->]; vm_compute; first [reflexivity|discriminate].
Qed.

Lemma example_tasks u : registered s_run u -> u = 3%N \/ u = 2%N \/ u = 0%N.
Proof.
  intros Hu. assert (HC : contents (st_lists (ks_store s_run)) AllTasks = AllTaskNode <$> [0%N; 2%N; 3%N]) by (vm_compute; reflexivity).
  pose proof (reachable_tasks s_run [0%N; 2%N; 3%N] u reachable_s_run HC Hu) as HI.
  rewrite !elem_of_cons, elem_of_nil in HI. tauto.
Qed.

Lemma example_contexts : contexts example_lo example_hi example_ctx example_machine 2%N.
Proof.
  unfold example_machine. split; cbn [m_kernel m_regs m_psp].
  - vm_compute. reflexivity.
  - reflexivity.
  - intros u Hu. destruct (example_tasks u Hu) as [-> |[-> | ->]]; split; vm_compute; reflexivity.
  - intros u Hu. destruct (example_tasks u Hu) as [-> |[-> | ->]]; clear Hu; vm_compute; intuition discriminate.
  - intros u v Hu Hv Hne. destruct (example_tasks u Hu) as [-> |[-> | ->]], (example_tasks v Hv) as [-> |[-> | ->]];
      clear Hu Hv; solve [destruct Hne; reflexivity|left; vm_compute; discriminate|right; vm_compute; discriminate].
  - intros u Hu Hne. apply (example_saved u). destruct (example_tasks u Hu) as [-> |[-> | ->]]; [right; reflexivity|destruct Hne; reflexivity|left; reflexivity].
Qed.

Lemma context_switch_keeps_contexts_witness : exists m' n, take_pendsv example_machine = Some (true, m') /\
  contexts example_lo example_hi example_ctx m' n.
Proof.
  destruct (context_switch_keeps_contexts example_lo example_hi example_ctx example_machine 2%N idle_stack_fits
    reachable_s_run example_contexts) as (m' & n & E & _ & CX & _).
  exists m', n. split; [exact E|exact CX].
Defined.
