(* ===== verification/Soc.v ===== *)
(** The microcontroller: register map and clock tree, [soc/stm32f1/include/stm32f1.h],
    [soc/stm32f1/stm32f1_clock.c], [soc/stm32f1/system_stm32f1.c] and
    [soc/stm32f1/stm32f1_irq.c].

    The peripherals are an interface, the class [Device]: a volatile read returns a word
    and may change the device (time passes, flags are cleared), a volatile write changes
    it.  [platform] is a device with the variables of the drivers. *)
From S2P Require Import Prelude.
From stdpp Require Import gmap list.
From Stdlib Require Import ZArith.
Open Scope Z_scope.

Class Device (D : Type) := {
  dev_read : Z -> D -> Z * D;
  dev_write : Z -> Z -> D -> D;
}.

(** How often a polling loop that has no bound of its own is unrolled. *)
Class Polling := { polls : nat }.

(** ** Registers *)
Definition STM32F1_APB2_BASE : Z := 0x40010000.
Definition STM32F1_AHB_BASE : Z := 0x40018000.
Definition STM32F1_GPIOA : Z := STM32F1_APB2_BASE + 0x0800.
Definition STM32F1_GPIOB : Z := STM32F1_APB2_BASE + 0x0C00.
Definition STM32F1_GPIOC : Z := STM32F1_APB2_BASE + 0x1000.
Definition STM32F1_USART1 : Z := STM32F1_APB2_BASE + 0x3800.
Definition STM32F1_RCC : Z := STM32F1_AHB_BASE + 0x9000.
Definition STM32F1_FLASH : Z := 0x40022000.
Definition STM32F1_SYSTICK : Z := 0xE000E010.
Definition STM32F1_SCB : Z := 0xE000ED00.

Definition GPIO_CRL (gpio : Z) : Z := gpio + 0x00.
Definition GPIO_CRH (gpio : Z) : Z := gpio + 0x04.
Definition GPIO_IDR (gpio : Z) : Z := gpio + 0x08.
Definition GPIO_ODR (gpio : Z) : Z := gpio + 0x0C.
Definition GPIO_BSRR (gpio : Z) : Z := gpio + 0x10.
Definition GPIO_BRR (gpio : Z) : Z := gpio + 0x14.

Definition USART1_SR : Z := STM32F1_USART1 + 0x00.
Definition USART1_DR : Z := STM32F1_USART1 + 0x04.
Definition USART1_BRR : Z := STM32F1_USART1 + 0x08.
Definition USART1_CR1 : Z := STM32F1_USART1 + 0x0C.
Definition USART1_CR2 : Z := STM32F1_USART1 + 0x10.
Definition USART1_CR3 : Z := STM32F1_USART1 + 0x14.

Definition RCC_CR : Z := STM32F1_RCC + 0x00.
Definition RCC_CFGR : Z := STM32F1_RCC + 0x04.
Definition RCC_CIR : Z := STM32F1_RCC + 0x08.
Definition RCC_APB2ENR : Z := STM32F1_RCC + 0x18.

Definition FLASH_ACR : Z := STM32F1_FLASH + 0x00.
Definition SYSTICK_CTRL : Z := STM32F1_SYSTICK + 0x00.
Definition SYSTICK_LOAD : Z := STM32F1_SYSTICK + 0x04.
Definition SYSTICK_VAL : Z := STM32F1_SYSTICK + 0x08.
Definition SCB_VTOR : Z := STM32F1_SCB + 0x08.

Definition RCC_CR_HSION : Z := Z.shiftl 1 0.
Definition RCC_CR_HSIRDY : Z := Z.shiftl 1 1.
Definition RCC_CR_HSEON : Z := Z.shiftl 1 16.
Definition RCC_CR_HSERDY : Z := Z.shiftl 1 17.
Definition RCC_CR_CSSON : Z := Z.shiftl 1 19.
Definition RCC_CR_PLLON : Z := Z.shiftl 1 24.
Definition RCC_CR_PLLRDY : Z := Z.shiftl 1 25.
Definition RCC_CFGR_SW_MASK : Z := Z.shiftl 3 0.
Definition RCC_CFGR_SW_PLL : Z := Z.shiftl 2 0.
Definition RCC_CFGR_SWS_MASK : Z := Z.shiftl 3 2.
Definition RCC_CFGR_SWS_PLL : Z := Z.shiftl 2 2.
Definition RCC_CFGR_HPRE_DIV1 : Z := Z.shiftl 0 4.
Definition RCC_CFGR_PPRE1_DIV2 : Z := Z.shiftl 4 8.
Definition RCC_CFGR_PPRE2_DIV1 : Z := Z.shiftl 0 11.
Definition RCC_CFGR_ADCPRE_DIV6 : Z := Z.shiftl 2 14.
Definition RCC_CFGR_PLLSRC_HSE : Z := Z.shiftl 1 16.
Definition RCC_CFGR_PLLMULL9 : Z := Z.shiftl 7 18.
Definition RCC_CFGR_PLLMULL_MASK : Z := Z.shiftl 15 18.
Definition RCC_APB2ENR_AFIOEN : Z := Z.shiftl 1 0.
Definition RCC_APB2ENR_IOPAEN : Z := Z.shiftl 1 2.
Definition RCC_APB2ENR_IOPBEN : Z := Z.shiftl 1 3.
Definition RCC_APB2ENR_IOPCEN : Z := Z.shiftl 1 4.
Definition RCC_APB2ENR_USART1EN : Z := Z.shiftl 1 14.
Definition FLASH_ACR_LATENCY_0 : Z := Z.shiftl 0 0.
Definition FLASH_ACR_LATENCY_2 : Z := Z.shiftl 2 0.
Definition FLASH_ACR_PRFTBE : Z := Z.shiftl 1 4.
Definition USART_SR_RXNE : Z := Z.shiftl 1 5.
Definition USART_SR_TXE : Z := Z.shiftl 1 7.
Definition USART_CR1_RE : Z := Z.shiftl 1 2.
Definition USART_CR1_TE : Z := Z.shiftl 1 3.
Definition USART_CR1_UE : Z := Z.shiftl 1 13.
Definition SYSTICK_CTRL_ENABLE : Z := Z.shiftl 1 0.
Definition SYSTICK_CTRL_TICKINT : Z := Z.shiftl 1 1.
Definition SYSTICK_CTRL_CLKSOURCE : Z := Z.shiftl 1 2.
Definition SYSTICK_LOAD_RELOAD_MASK : Z := 0x00FFFFFF.

(** ** The state of the platform *)
Record platform (D : Type) : Type := mk_platform {
  pf_device : D;
  SystemCoreClock : Z;
  g_millisecond_tick : Z;
  g_tick_rate_hz : Z;
  g_benchmark_core_clock_hz : Z;
  pf_irq_disabled : bool;
}.
Arguments mk_platform {D}.
Arguments pf_device {D}.
Arguments SystemCoreClock {D}.
Arguments g_millisecond_tick {D}.
Arguments g_tick_rate_hz {D}.
Arguments g_benchmark_core_clock_hz {D}.
Arguments pf_irq_disabled {D}.

Section soc.
Context {D : Type} `{Device D}.

Definition pf_set_device (v : D) (p : platform D) : platform D := mk_platform v (SystemCoreClock p) (g_millisecond_tick p) (g_tick_rate_hz p) (g_benchmark_core_clock_hz p) (pf_irq_disabled p).
Definition pf_set_clock v (p : platform D) : platform D := mk_platform (pf_device p) v (g_millisecond_tick p) (g_tick_rate_hz p) (g_benchmark_core_clock_hz p) (pf_irq_disabled p).
Definition pf_set_tick v (p : platform D) : platform D := mk_platform (pf_device p) (SystemCoreClock p) v (g_tick_rate_hz p) (g_benchmark_core_clock_hz p) (pf_irq_disabled p).
Definition pf_set_rate v (p : platform D) : platform D := mk_platform (pf_device p) (SystemCoreClock p) (g_millisecond_tick p) v (g_benchmark_core_clock_hz p) (pf_irq_disabled p).
Definition pf_set_benchmark_clock v (p : platform D) : platform D := mk_platform (pf_device p) (SystemCoreClock p) (g_millisecond_tick p) (g_tick_rate_hz p) v (pf_irq_disabled p).
Definition pf_set_irq_disabled v (p : platform D) : platform D := mk_platform (pf_device p) (SystemCoreClock p) (g_millisecond_tick p) (g_tick_rate_hz p) (g_benchmark_core_clock_hz p) v.

(** Volatile accesses. *)
Definition reg_read (a : Z) : M (platform D) Z :=
  fun p => let '(v, d) := dev_read a (pf_device p) in Some (v, pf_set_device d p).
Definition reg_write (a v : Z) : M (platform D) unit := modifyM (fun p => pf_set_device (dev_write a v (pf_device p)) p).
(** [register |= bits] and [register &= ~bits] *)
Definition reg_or (a bits : Z) : M (platform D) unit := let* v := reg_read a in reg_write a (Z.lor v bits).
Definition reg_clear (a bits : Z) : M (platform D) unit := let* v := reg_read a in reg_write a (Z.ldiff v bits).

Definition stm32f1_cpu_disable_irq : M (platform D) unit := modifyM (pf_set_irq_disabled true).

(** The fault handlers of a build without diagnostics, [soc/stm32f1/stm32f1_irq.c], up to the
    endless loop of breakpoints. *)
Definition fault_stop : M (platform D) unit := stm32f1_cpu_disable_irq.

(** ** The clock tree *)
Definition CLOCK_STARTUP_TIMEOUT : Z := 0x00050000.

Fixpoint wait_for_mask_loop (timeout : nat) (reg mask expected : Z) : M (platform D) bool :=
  let* v := reg_read reg in
  if negb (Z.land v mask =? expected) then
    match timeout with
    | O => retM false
    | S timeout => wait_for_mask_loop timeout reg mask expected
    end
  else retM true.
Definition wait_for_mask (reg mask expected : Z) : M (platform D) bool :=
  wait_for_mask_loop (Z.to_nat CLOCK_STARTUP_TIMEOUT) reg mask expected.

Definition stm32f1_clock_configure_hse_pll_72mhz : M (platform D) bool :=
  reg_or RCC_CR RCC_CR_HSEON ;;;
  let* ready := wait_for_mask RCC_CR RCC_CR_HSERDY RCC_CR_HSERDY in
  if negb ready then retM false
  else
    reg_write FLASH_ACR (Z.lor FLASH_ACR_PRFTBE FLASH_ACR_LATENCY_2) ;;;
    reg_write RCC_CFGR (Z.lor RCC_CFGR_HPRE_DIV1 (Z.lor RCC_CFGR_PPRE1_DIV2 (Z.lor RCC_CFGR_PPRE2_DIV1
      (Z.lor RCC_CFGR_ADCPRE_DIV6 (Z.lor RCC_CFGR_PLLSRC_HSE RCC_CFGR_PLLMULL9))))) ;;;
    reg_or RCC_CR RCC_CR_PLLON ;;;
    let* ready := wait_for_mask RCC_CR RCC_CR_PLLRDY RCC_CR_PLLRDY in
    if negb ready then retM false
    else
      let* cfgr := reg_read RCC_CFGR in
      reg_write RCC_CFGR (Z.lor (Z.ldiff cfgr RCC_CFGR_SW_MASK) RCC_CFGR_SW_PLL) ;;;
      let* ready := wait_for_mask RCC_CFGR RCC_CFGR_SWS_MASK RCC_CFGR_SWS_PLL in
      if negb ready then retM false
      else
        modifyM (pf_set_clock 72000000) ;;;
        retM true.

Definition ahb_divisors : list Z := [1; 1; 1; 1; 1; 1; 1; 1; 2; 4; 8; 16; 64; 128; 256; 512].
Definition decode_ahb_prescaler (cfgr : Z) : Z := ahb_divisors !!! Z.to_nat (Z.land (Z.shiftr cfgr 4) 0x0F).
Definition apb_divisors : list Z := [1; 1; 1; 1; 2; 4; 8; 16].
Definition decode_apb_prescaler (encoded : Z) : Z := apb_divisors !!! Z.to_nat (Z.land encoded 0x07).

(** The computation of [stm32f1_clock_get_hclk_hz] from the value it reads. *)
Definition hclk_of (cfgr : Z) : Z :=
  let sws := Z.land cfgr RCC_CFGR_SWS_MASK in
  let sysclk_hz :=
    if sws =? RCC_CFGR_SWS_PLL then
      let multiplier := u32 (Z.shiftr (Z.land cfgr RCC_CFGR_PLLMULL_MASK) 18 + 2) in
      let pll_input_hz := if negb (Z.land cfgr RCC_CFGR_PLLSRC_HSE =? 0) then 8000000 else 4000000 in
      u32 (pll_input_hz * multiplier)
    else 8000000 in
  sysclk_hz / decode_ahb_prescaler cfgr.

Definition stm32f1_clock_get_hclk_hz : M (platform D) Z :=
  let* cfgr := reg_read RCC_CFGR in retM (hclk_of cfgr).
Definition stm32f1_clock_get_pclk1_hz : M (platform D) Z :=
  let* cfgr := reg_read RCC_CFGR in
  let* hclk := stm32f1_clock_get_hclk_hz in
  retM (hclk / decode_apb_prescaler (Z.land (Z.shiftr cfgr 8) 0x07)).
Definition stm32f1_clock_get_pclk2_hz : M (platform D) Z :=
  let* cfgr := reg_read RCC_CFGR in
  let* hclk := stm32f1_clock_get_hclk_hz in
  retM (hclk / decode_apb_prescaler (Z.land (Z.shiftr cfgr 11) 0x07)).

Definition SystemCoreClockUpdate : M (platform D) unit :=
  let* hclk := stm32f1_clock_get_hclk_hz in modifyM (pf_set_clock hclk).

Context `{Polling}.

(** [while ((register & mask) == 0UL)], up to [n] polls. *)
Fixpoint poll_until_set (n : nat) (reg mask : Z) : M (platform D) unit :=
  match n with
  | O => ubM
  | S n =>
      let* v := reg_read reg in
      if Z.land v mask =? 0 then poll_until_set n reg mask else retM tt
  end.

Definition system_reset_clock_tree : M (platform D) unit :=
  reg_or RCC_CR RCC_CR_HSION ;;;
  poll_until_set polls RCC_CR RCC_CR_HSIRDY ;;;
  reg_write RCC_CFGR 0 ;;;
  reg_clear RCC_CR (Z.lor RCC_CR_HSEON (Z.lor RCC_CR_CSSON RCC_CR_PLLON)) ;;;
  reg_write RCC_CIR 0 ;;;
  reg_write FLASH_ACR FLASH_ACR_LATENCY_0 ;;;
  modifyM (pf_set_clock 8000000).

(** [vectors] is the address of [g_pfnVectors]. *)
Definition SystemInit (vectors : Z) : M (platform D) unit :=
  system_reset_clock_tree ;;;
  reg_write SCB_VTOR vectors ;;;
  stm32f1_clock_configure_hse_pll_72mhz ;;;
  SystemCoreClockUpdate.
End soc.
