(* ===== verification/Drivers.v ===== *)
(** The drivers: [drivers/stm32f1/hr_gpio_stm32f1.c], [drivers/stm32f1/hr_uart_stm32f1.c],
    [drivers/stm32f1/hr_hw_timer_stm32f1.c] and the cycle counter of the benchmarks,
    [arch/arm/cortex-m3/hr_benchmark_clock_dwt.c].

    Enumerations are numbers, since the code has a branch for values outside of them. *)
From S2P Require Import Prelude Soc.
From stdpp Require Import gmap list.
From Stdlib Require Import String Ascii ZArith.
From stdpp Require Import base list.
Open Scope Z_scope.

(** ** Pins *)
Definition HR_GPIO_MODE_INPUT : Z := 0.
Definition HR_GPIO_MODE_OUTPUT_PUSH_PULL : Z := 1.
Definition HR_GPIO_MODE_OUTPUT_OPEN_DRAIN : Z := 2.
Definition HR_GPIO_MODE_ALTERNATE_PUSH_PULL : Z := 3.
Definition HR_GPIO_MODE_ALTERNATE_OPEN_DRAIN : Z := 4.
Definition HR_GPIO_PULL_NONE : Z := 0.
Definition HR_GPIO_PULL_UP : Z := 1.
Definition HR_GPIO_PULL_DOWN : Z := 2.
Definition HR_GPIO_DRIVE_LOW : Z := 0.
Definition HR_GPIO_DRIVE_MEDIUM : Z := 1.
Definition HR_GPIO_DRIVE_HIGH : Z := 2.
Definition HR_GPIO_DRIVE_VERY_HIGH : Z := 3.
Record hr_gpio_config : Type := mk_gpio_config { gc_mode : Z; gc_pull : Z; gc_drive : Z }.

Definition HR_STM32F1_GPIO_PORT_A : Z := 0.
Definition HR_STM32F1_GPIO_PORT_B : Z := 1.
Definition HR_STM32F1_GPIO_PORT_C : Z := 2.
Definition HR_STM32F1_GPIO_PIN (port_index pin_index : Z) : Z :=
  Z.lor (Z.shiftl port_index 8) (Z.land pin_index 0x1F).

Definition GPIO_PIN_COUNT : Z := 16.
Definition gpio_port_index (pin : Z) : Z := Z.land (Z.shiftr pin 8) 0xFF.
Definition gpio_pin_index (pin : Z) : Z := Z.land pin 0x1F.

Definition gpio_from_pin (pin : Z) : option Z :=
  if gpio_port_index pin =? HR_STM32F1_GPIO_PORT_A then Some STM32F1_GPIOA
  else if gpio_port_index pin =? HR_STM32F1_GPIO_PORT_B then Some STM32F1_GPIOB
  else if gpio_port_index pin =? HR_STM32F1_GPIO_PORT_C then Some STM32F1_GPIOC
  else None.

Definition gpio_mode_bits (drive : Z) : Z :=
  if drive =? HR_GPIO_DRIVE_LOW then 2
  else if drive =? HR_GPIO_DRIVE_MEDIUM then 1
  else if (drive =? HR_GPIO_DRIVE_HIGH) || (drive =? HR_GPIO_DRIVE_VERY_HIGH) then 3
  else 2.

Definition gpio_build_nibble (config : option hr_gpio_config) : option Z :=
  match config with
  | None => None
  | Some c =>
      if gc_mode c =? HR_GPIO_MODE_INPUT then
        Some (if gc_pull c =? HR_GPIO_PULL_NONE then 0x4 else 0x8)
      else if gc_mode c =? HR_GPIO_MODE_OUTPUT_PUSH_PULL then Some (gpio_mode_bits (gc_drive c))
      else if gc_mode c =? HR_GPIO_MODE_OUTPUT_OPEN_DRAIN then Some (Z.lor (gpio_mode_bits (gc_drive c)) 0x4)
      else if gc_mode c =? HR_GPIO_MODE_ALTERNATE_PUSH_PULL then Some (Z.lor (gpio_mode_bits (gc_drive c)) 0x8)
      else if gc_mode c =? HR_GPIO_MODE_ALTERNATE_OPEN_DRAIN then Some (Z.lor (gpio_mode_bits (gc_drive c)) 0xC)
      else None
  end.

Section drivers.
Context {D : Type} `{Device D}.

Definition gpio_enable_port_clock (pin : Z) : M (platform D) unit :=
  if gpio_port_index pin =? HR_STM32F1_GPIO_PORT_A then reg_or RCC_APB2ENR RCC_APB2ENR_IOPAEN
  else if gpio_port_index pin =? HR_STM32F1_GPIO_PORT_B then reg_or RCC_APB2ENR RCC_APB2ENR_IOPBEN
  else if gpio_port_index pin =? HR_STM32F1_GPIO_PORT_C then reg_or RCC_APB2ENR RCC_APB2ENR_IOPCEN
  else retM tt.

Definition hr_gpio_write (pin : Z) (high : bool) : M (platform D) unit :=
  match gpio_from_pin pin with
  | None => retM tt
  | Some gpio =>
      if GPIO_PIN_COUNT <=? gpio_pin_index pin then retM tt
      else if high then reg_write (GPIO_BSRR gpio) (Z.shiftl 1 (gpio_pin_index pin))
      else reg_write (GPIO_BRR gpio) (Z.shiftl 1 (gpio_pin_index pin))
  end.

Definition hr_gpio_configure (pin : Z) (config : option hr_gpio_config) : M (platform D) bool :=
  match gpio_from_pin pin, gpio_build_nibble config, config with
  | Some gpio, Some nibble, Some c =>
      let pin_index := gpio_pin_index pin in
      if GPIO_PIN_COUNT <=? pin_index then retM false
      else
        gpio_enable_port_clock pin ;;;
        let config_register := if pin_index <? 8 then GPIO_CRL gpio else GPIO_CRH gpio in
        let shift := if pin_index <? 8 then pin_index * 4 else (pin_index - 8) * 4 in
        let* value := reg_read config_register in
        let value := Z.ldiff value (u32 (Z.shiftl 0x0F shift)) in
        let value := Z.lor value (u32 (Z.shiftl (Z.land nibble 0x0F) shift)) in
        reg_write config_register value ;;;
        (if (gc_mode c =? HR_GPIO_MODE_INPUT) && negb (gc_pull c =? HR_GPIO_PULL_NONE)
         then hr_gpio_write pin (gc_pull c =? HR_GPIO_PULL_UP)
         else retM tt) ;;;
        retM true
  | _, _, _ => retM false
  end.

Definition hr_gpio_read (pin : Z) : M (platform D) bool :=
  match gpio_from_pin pin with
  | None => retM false
  | Some gpio =>
      if GPIO_PIN_COUNT <=? gpio_pin_index pin then retM false
      else
        let* idr := reg_read (GPIO_IDR gpio) in
        retM (negb (Z.land idr (Z.shiftl 1 (gpio_pin_index pin)) =? 0))
  end.

Definition hr_gpio_toggle (pin : Z) : M (platform D) unit :=
  match gpio_from_pin pin with
  | None => retM tt
  | Some gpio =>
      if GPIO_PIN_COUNT <=? gpio_pin_index pin then retM tt
      else
        let* odr := reg_read (GPIO_ODR gpio) in
        if negb (Z.land odr (Z.shiftl 1 (gpio_pin_index pin)) =? 0)
        then reg_write (GPIO_BRR gpio) (Z.shiftl 1 (gpio_pin_index pin))
        else reg_write (GPIO_BSRR gpio) (Z.shiftl 1 (gpio_pin_index pin))
  end.

(** ** The tick of the bare-metal examples *)
Definition hr_hw_timer_init (tick_rate_hz : Z) : M (platform D) bool :=
  let* p := getM in
  if (tick_rate_hz =? 0) || (SystemCoreClock p <? tick_rate_hz) then retM false
  else
    let reload := u32 (SystemCoreClock p / tick_rate_hz - 1) in
    if SYSTICK_LOAD_RELOAD_MASK <? reload then retM false
    else
      modifyM (pf_set_tick 0) ;;;
      modifyM (pf_set_rate tick_rate_hz) ;;;
      reg_write SYSTICK_CTRL 0 ;;;
      reg_write SYSTICK_LOAD reload ;;;
      reg_write SYSTICK_VAL 0 ;;;
      reg_write SYSTICK_CTRL (Z.lor SYSTICK_CTRL_CLKSOURCE (Z.lor SYSTICK_CTRL_TICKINT SYSTICK_CTRL_ENABLE)) ;;;
      retM true.

Definition hr_hw_timer_millis (p : platform D) : Z :=
  if g_tick_rate_hz p =? 0 then 0 else u32 (g_millisecond_tick p * 1000) / g_tick_rate_hz p.

Definition hr_hw_timer_tick_isr : M (platform D) unit :=
  modifyM (fun p => pf_set_tick (u32 (g_millisecond_tick p + 1)) p).

(** The handler of the tick, [arch/arm/cortex-m3/hr_baremetal_tick_irq.c]. *)
Definition SysTick_Handler : M (platform D) unit := hr_hw_timer_tick_isr.

Fixpoint run_ticks (n : nat) : M (platform D) unit :=
  match n with O => retM tt | S n => SysTick_Handler ;;; run_ticks n end.

(** The loop of [hr_hw_timer_delay_ms]: the processor sleeps until an interrupt; [waits]
    says how many of the interrupts of each sleep are ticks.  [false] when the loop still
    waits after them; with the sleeps that are left over. *)
Fixpoint delay_loop (waits : list nat) (start milliseconds : Z) : M (platform D) (bool * list nat) :=
  let* p := getM in
  if u32 (hr_hw_timer_millis p - start) <? milliseconds then
    match waits with
    | [] => retM (false, [])
    | n :: waits => run_ticks n ;;; delay_loop waits start milliseconds
    end
  else retM (true, waits).
Definition hr_hw_timer_delay_ms (milliseconds : Z) (waits : list nat) : M (platform D) (bool * list nat) :=
  let* p := getM in delay_loop waits (hr_hw_timer_millis p) milliseconds.

(** ** The serial line *)
Definition HR_STM32F1_UART1 : Z := 1.
Record hr_uart_config : Type := mk_uart_config { uc_instance : Z; uc_baud_rate : Z; uc_tx_pin : Z; uc_rx_pin : Z }.

Definition tx_config : hr_gpio_config := mk_gpio_config HR_GPIO_MODE_ALTERNATE_PUSH_PULL HR_GPIO_PULL_NONE HR_GPIO_DRIVE_HIGH.
Definition rx_config : hr_gpio_config := mk_gpio_config HR_GPIO_MODE_INPUT HR_GPIO_PULL_NONE HR_GPIO_DRIVE_LOW.

Definition hr_uart_init (config : option hr_uart_config) : M (platform D) bool :=
  match config with
  | None => retM false
  | Some c =>
      if negb (uc_instance c =? HR_STM32F1_UART1) || (uc_baud_rate c =? 0) then retM false
      else
        reg_or RCC_APB2ENR (Z.lor RCC_APB2ENR_AFIOEN RCC_APB2ENR_USART1EN) ;;;
        let* tx := hr_gpio_configure (uc_tx_pin c) (Some tx_config) in
        if negb tx then retM false
        else
          let* rx := hr_gpio_configure (uc_rx_pin c) (Some rx_config) in
          if negb rx then retM false
          else
            let* peripheral_clock_hz := stm32f1_clock_get_pclk2_hz in
            if peripheral_clock_hz =? 0 then retM false
            else
              reg_write USART1_CR1 0 ;;;
              reg_write USART1_CR2 0 ;;;
              reg_write USART1_CR3 0 ;;;
              reg_write USART1_BRR (u32 (peripheral_clock_hz + uc_baud_rate c / 2) / uc_baud_rate c) ;;;
              reg_write USART1_CR1 (Z.lor USART_CR1_TE (Z.lor USART_CR1_RE USART_CR1_UE)) ;;;
              retM true
  end.

Context `{Polling}.

Definition hr_uart_write_char (character : Z) : M (platform D) unit :=
  poll_until_set polls USART1_SR USART_SR_TXE ;;;
  reg_write USART1_DR (character mod 256).

(** The characters of a string literal. *)
Definition char (c : ascii) : Z := Z.of_N (N_of_ascii c).
Fixpoint write_string_loop (text : string) : M (platform D) unit :=
  match text with
  | EmptyString => retM tt
  | String c text => hr_uart_write_char (char c) ;;; write_string_loop text
  end.
Definition hr_uart_write_string (text : option string) : M (platform D) unit :=
  match text with None => retM tt | Some text => write_string_loop text end.

(** The result is the character that was stored, if any. *)
Definition hr_uart_try_read_char (character : bool) : M (platform D) (option Z) :=
  if negb character then retM None
  else
    let* sr := reg_read USART1_SR in
    if Z.land sr USART_SR_RXNE =? 0 then retM None
    else
      let* dr := reg_read USART1_DR in
      retM (Some (dr mod 256)).

(** ** The cycle counter *)
Definition HR_BENCHMARK_DEMCR_ADDRESS : Z := 0xE000EDFC.
Definition HR_BENCHMARK_DWT_CTRL_ADDRESS : Z := 0xE0001000.
Definition HR_BENCHMARK_DWT_CYCCNT_ADDRESS : Z := 0xE0001004.
Definition HR_BENCHMARK_DEMCR_TRCENA : Z := Z.shiftl 1 24.
Definition HR_BENCHMARK_DWT_CYCCNTENA : Z := Z.shiftl 1 0.
Definition HR_BENCHMARK_DWT_NOCYCCNT : Z := Z.shiftl 1 25.

Definition hr_benchmark_clock_init (core_clock_hz : Z) : M (platform D) bool :=
  if core_clock_hz =? 0 then retM false
  else
    reg_or HR_BENCHMARK_DEMCR_ADDRESS HR_BENCHMARK_DEMCR_TRCENA ;;;
    let* ctrl := reg_read HR_BENCHMARK_DWT_CTRL_ADDRESS in
    if negb (Z.land ctrl HR_BENCHMARK_DWT_NOCYCCNT =? 0) then retM false
    else
      reg_write HR_BENCHMARK_DWT_CYCCNT_ADDRESS 0 ;;;
      reg_or HR_BENCHMARK_DWT_CTRL_ADDRESS HR_BENCHMARK_DWT_CYCCNTENA ;;;
      let* before := reg_read HR_BENCHMARK_DWT_CYCCNT_ADDRESS in
      let* after := reg_read HR_BENCHMARK_DWT_CYCCNT_ADDRESS in
      if after =? before then retM false
      else
        modifyM (pf_set_benchmark_clock core_clock_hz) ;;;
        retM true.

Definition hr_benchmark_clock_now : M (platform D) Z := reg_read HR_BENCHMARK_DWT_CYCCNT_ADDRESS.
Definition hr_benchmark_clock_frequency_hz (p : platform D) : Z := g_benchmark_core_clock_hz p.
Definition hr_benchmark_clock_name : string := "DWT CYCCNT".
End drivers.
