(* ===== verification/Board.v ===== *)
(** The board: [boards/bluepill_f103c8/board.c] and [board_clock.c], with the pins of
    [board_pins.h].

    [board_init] returns whether it ran to its end: [false] is the stop in
    [board_panic]. *)
From S2P Require Import Prelude Soc Drivers.
From stdpp Require Import gmap list.
From Stdlib Require Import String Ascii ZArith.
From stdpp Require Import base list.
Open Scope Z_scope.

Definition BOARD_UART_BAUD_RATE : Z := 115200.
Definition BOARD_TIMER_RATE_HZ : Z := 1000.
Definition BOARD_LED_PIN : Z := HR_STM32F1_GPIO_PIN HR_STM32F1_GPIO_PORT_C 13.
Definition BOARD_UART_INSTANCE : Z := HR_STM32F1_UART1.
Definition BOARD_UART_TX_PIN : Z := HR_STM32F1_GPIO_PIN HR_STM32F1_GPIO_PORT_A 9.
Definition BOARD_UART_RX_PIN : Z := HR_STM32F1_GPIO_PIN HR_STM32F1_GPIO_PORT_A 10.
Definition BOARD_BENCHMARK_MARKER_PIN : Z := HR_STM32F1_GPIO_PIN HR_STM32F1_GPIO_PORT_B 0.

Definition board_get_name : string := "Blue Pill STM32F103C8T6".
Definition board_get_cpu_name : string := "STM32F103C8T6 ARM Cortex-M3".

Section board.
Context {D : Type} `{Device D} `{Polling}.

Definition board_get_core_clock_hz (p : platform D) : Z := SystemCoreClock p.
Definition board_clock_is_nominal (p : platform D) : bool := SystemCoreClock p =? 72000000.

(** [BOARD_LED_ACTIVE_LOW] is 1. *)
Definition board_led_on : M (platform D) unit := hr_gpio_write BOARD_LED_PIN false.
Definition board_led_off : M (platform D) unit := hr_gpio_write BOARD_LED_PIN true.
Definition board_led_toggle : M (platform D) unit := hr_gpio_toggle BOARD_LED_PIN.

Definition board_uart_write_char (character : Z) : M (platform D) unit := hr_uart_write_char character.
Definition board_uart_write_string (text : option string) : M (platform D) unit := hr_uart_write_string text.

(** The first loop fills [digits] from the front with the digits of [value], the last one
    first; [n] digits still fit. *)
Fixpoint digits_loop (n : nat) (value : Z) (digits : list Z) : list Z :=
  match n with
  | O => digits
  | S n => if negb (value =? 0) then digits_loop n (value / 10) (digits ++ [(char "0" + value mod 10) mod 256])%list else digits
  end.
(** The second loop writes [digits[count - 1]] down to [digits[0]]. *)
Fixpoint write_digits_loop (count : nat) (digits : list Z) : M (platform D) unit :=
  match count with
  | O => retM tt
  | S count => board_uart_write_char (digits !!! count) ;;; write_digits_loop count digits
  end.
Definition board_uart_write_u32 (value : Z) : M (platform D) unit :=
  if value =? 0 then board_uart_write_char (char "0")
  else
    let digits := digits_loop 10 value [] in
    write_digits_loop (List.length digits) digits.

Definition hex_digits : list Z := char <$> list_ascii_of_string "0123456789ABCDEF".
(** [for (shift = 28; shift >= 0; shift -= 4)], [n] digits to go. *)
Fixpoint write_hex_loop (n : nat) (value : Z) : M (platform D) unit :=
  match n with
  | O => retM tt
  | S n =>
      board_uart_write_char (hex_digits !!! Z.to_nat (Z.land (Z.shiftr value (4 * Z.of_nat n)) 0x0F)) ;;;
      write_hex_loop n value
  end.
Definition board_uart_write_hex32 (value : Z) : M (platform D) unit :=
  board_uart_write_string (Some "0x"%string) ;;;
  write_hex_loop 8 value.

Definition crlf : string := String "013" (String "010" EmptyString).
Definition board_uart_write_line (text : option string) : M (platform D) unit :=
  board_uart_write_string text ;;;
  board_uart_write_string (Some crlf).

Definition board_print_boot_banner : M (platform D) unit :=
  board_uart_write_line (Some ""%string) ;;;
  board_uart_write_line (Some "hairtos platform boot"%string) ;;;
  board_uart_write_string (Some "Board: "%string) ;;;
  board_uart_write_line (Some board_get_name) ;;;
  board_uart_write_string (Some "CPU: "%string) ;;;
  board_uart_write_line (Some board_get_cpu_name) ;;;
  board_uart_write_string (Some "Core clock: "%string) ;;;
  let* p := getM in
  board_uart_write_u32 (board_get_core_clock_hz p) ;;;
  board_uart_write_line (Some " Hz"%string) ;;;
  let* p := getM in
  if board_clock_is_nominal p
  then board_uart_write_line (Some "Clock source: HSE 8 MHz -> PLL x9"%string)
  else board_uart_write_line (Some "WARNING: HSE/PLL startup failed; using HSI fallback"%string).

(** Up to the endless loop of breakpoints. *)
Definition board_panic : M (platform D) unit :=
  stm32f1_cpu_disable_irq ;;;
  board_led_on.

Definition led_config : hr_gpio_config := mk_gpio_config HR_GPIO_MODE_OUTPUT_PUSH_PULL HR_GPIO_PULL_NONE HR_GPIO_DRIVE_LOW.
Definition board_uart_config : hr_uart_config :=
  mk_uart_config BOARD_UART_INSTANCE BOARD_UART_BAUD_RATE BOARD_UART_TX_PIN BOARD_UART_RX_PIN.

Definition board_init : M (platform D) bool :=
  let* led := hr_gpio_configure BOARD_LED_PIN (Some led_config) in
  if negb led then board_panic ;;; retM false
  else
    board_led_off ;;;
    let* uart := hr_uart_init (Some board_uart_config) in
    if negb uart then board_panic ;;; retM false
    else
      let* timer := hr_hw_timer_init BOARD_TIMER_RATE_HZ in
      if negb timer then board_panic ;;; retM false
      else
        board_print_boot_banner ;;;
        retM true.

Definition board_millis (p : platform D) : Z := hr_hw_timer_millis p.
Definition board_delay_ms (milliseconds : Z) (waits : list nat) : M (platform D) (bool * list nat) :=
  hr_hw_timer_delay_ms milliseconds waits.

(** The sizes are the differences of the addresses of symbols the linker defines. *)
Definition board_get_flash_image_bytes (flash_start flash_image_end : Z) : Z := u32 (flash_image_end - flash_start).
Definition board_get_static_ram_bytes (ram_start static_ram_end : Z) : Z := u32 (static_ram_end - ram_start).

Definition marker_config : hr_gpio_config := mk_gpio_config HR_GPIO_MODE_OUTPUT_PUSH_PULL HR_GPIO_PULL_NONE HR_GPIO_DRIVE_HIGH.
Definition board_benchmark_marker_init : M (platform D) bool :=
  let* ready := hr_gpio_configure BOARD_BENCHMARK_MARKER_PIN (Some marker_config) in
  if negb ready then retM false
  else
    hr_gpio_write BOARD_BENCHMARK_MARKER_PIN false ;;;
    retM true.
Definition board_benchmark_marker_begin : M (platform D) unit := hr_gpio_write BOARD_BENCHMARK_MARKER_PIN true.
Definition board_benchmark_marker_end : M (platform D) unit := hr_gpio_write BOARD_BENCHMARK_MARKER_PIN false.
Definition board_benchmark_marker_description : string := "PB0 active-high around switch/wake samples".
End board.
