(* ===== verification/DeviceSpec.v ===== *)
(** What the drivers rely on of the peripherals, as the reference manual of the
    microcontroller documents it, and the effect of register accesses.

    The class [Stm32f1] names what can be observed of a device (the contents of the
    registers that hold what is written to them, the bytes sent, how long the flags the
    code polls stay clear) and its laws; [sim], at the end, is a simulated device
    that satisfies them.  The laws of the pins and of the serial line hold only while the
    clock of their block is on in [RCC_APB2ENR], and the fields of the PLL can be written
    only while it is off. *)
From stdpp Require Import gmap list.
From Stdlib Require Import ZArith Lia.
From S2P Require Import Prelude Soc.
Open Scope Z_scope.

Definition ports : list Z := [STM32F1_GPIOA; STM32F1_GPIOB; STM32F1_GPIOC].

(** Registers that hold what is written to them. *)
Definition plain_registers : list Z :=
  [GPIO_CRL STM32F1_GPIOA; GPIO_CRH STM32F1_GPIOA; GPIO_CRL STM32F1_GPIOB; GPIO_CRH STM32F1_GPIOB;
   GPIO_CRL STM32F1_GPIOC; GPIO_CRH STM32F1_GPIOC; RCC_APB2ENR; RCC_CIR; FLASH_ACR;
   USART1_BRR; USART1_CR1; USART1_CR2; USART1_CR3; SYSTICK_CTRL; SYSTICK_LOAD; SCB_VTOR].
(** With the output registers, which are written by way of [BSRR] and [BRR], and the clock
    configuration, whose status field is not held. *)
Definition registers : list Z := RCC_CFGR :: (GPIO_ODR <$> ports) ++ plain_registers.
(** Those the code reads back. *)
Definition readable : list Z := RCC_APB2ENR :: (GPIO_CRL <$> ports) ++ (GPIO_CRH <$> ports) ++ (GPIO_ODR <$> ports).

(** The bit of [RCC_APB2ENR] that clocks the block an address lies in; the other blocks the
    code accesses always run. *)
Definition clock_bit (a : Z) : option Z :=
  let block := a - a mod 0x400 in
  if block =? STM32F1_GPIOA then Some 2
  else if block =? STM32F1_GPIOB then Some 3
  else if block =? STM32F1_GPIOC then Some 4
  else if block =? STM32F1_USART1 then Some 14
  else None.
Definition clocked (enr a : Z) : bool := match clock_bit a with Some k => Z.testbit enr k | None => true end.
Lemma clocked_lor e1 e2 a : clocked (Z.lor e1 e2) a = clocked e1 a || clocked e2 a.
Proof. unfold clocked. destruct (clock_bit a); [apply Z.lor_spec|done]. Qed.

(** The fields of the clock configuration that can only be written while the PLL is off:
    its source, the divider of the external oscillator and the multiplier. *)
Definition PLL_FIELDS : Z := Z.lor RCC_CFGR_PLLSRC_HSE (Z.lor (Z.shiftl 1 17) RCC_CFGR_PLLMULL_MASK).

(** Which list a register is in, by computation. *)
Ltac member := refine (bool_decide_eq_true_1 _ _); vm_compute; reflexivity.
Ltac not_member := refine (bool_decide_eq_false_1 _ _); vm_compute; reflexivity.
Ltac on_port H := unfold ports in H; rewrite !elem_of_cons, elem_of_nil in H; destruct H as [-> |[-> |[-> |[]]]].
Definition apart (l1 l2 : list Z) : Prop := Forall (fun a => a ∉ l2) l1.
Lemma apart_not l1 l2 a : apart l1 l2 -> a ∈ l1 -> a ∉ l2.
Proof. intros A. by apply (proj1 (Forall_forall _ _) A). Qed.

(** The effect of a sequence of accesses: the registers in [ws] hold new values, all other
    ones what they held, the bytes [out] were sent, and the source of the system clock only
    ever changes to the one that is selected. *)
Record effect {D} (reg : D -> Z -> Z) (sent : D -> list Z) (sws : D -> Z) (ws : gmap Z Z) (out : list Z) (d d' : D) : Prop := {
  ef_reg : forall a, a ∈ registers -> reg d' a = default (reg d a) (ws !! a);
  ef_sent : sent d' = sent d ++ out;
  ef_sws : ws !! RCC_CFGR = None ->
    sws d' = sws d \/ sws d' = Z.shiftl (Z.land (reg d' RCC_CFGR) RCC_CFGR_SW_MASK) 2;
}.
Arguments ef_reg {D reg sent sws ws out d d'}.
Arguments ef_sent {D reg sent sws ws out d d'}.
Arguments ef_sws {D reg sent sws ws out d d'}.

Class Stm32f1 (D : Type) `{Device D} := {
  reg : D -> Z -> Z;
  sent : D -> list Z;
  (** how many reads of the status register return a clear TXE *)
  tx_wait : D -> nat;
  (** the same for HSIRDY, once the internal oscillator is on *)
  hsi_on : D -> bool;
  hsi_wait : D -> nat;
  poll_limit : nat;
  (** the source of the system clock, as the field SWS encodes it *)
  sws : D -> Z;
  (** the byte in the receive register *)
  rx : D -> option Z;
  (** the switch of the PLL *)
  pll_on : D -> bool;

  reg_range d a : 0 <= reg d a < 2 ^ 32;
  waits_limited d : (tx_wait d <= poll_limit)%nat /\ (hsi_wait d <= poll_limit)%nat;

  (** Reading changes no register, and returns what is held in a block that is clocked. *)
  read_effect a d : effect reg sent sws ∅ [] d (dev_read a d).2;
  read_back a d : a ∈ readable -> clocked (reg d RCC_APB2ENR) a = true -> (dev_read a d).1 = reg d a;
  (** Writing a register of a clocked block changes no other one. *)
  write_plain a v d : a ∈ plain_registers -> clocked (reg d RCC_APB2ENR) a = true -> 0 <= v < 2 ^ 32 ->
    effect reg sent sws {[a := v]} [] d (dev_write a v d);
  write_none a v d : a ∈ [RCC_CR; SYSTICK_VAL] -> effect reg sent sws ∅ [] d (dev_write a v d);
  (** [BSRR] sets output bits, [BRR] resets them. *)
  write_bsrr g v d : g ∈ ports -> clocked (reg d RCC_APB2ENR) g = true -> 0 <= v < 2 ^ 16 ->
    effect reg sent sws {[GPIO_ODR g := Z.lor (reg d (GPIO_ODR g)) v]} [] d (dev_write (GPIO_BSRR g) v d);
  write_brr g v d : g ∈ ports -> clocked (reg d RCC_APB2ENR) g = true -> 0 <= v < 2 ^ 16 ->
    effect reg sent sws {[GPIO_ODR g := Z.ldiff (reg d (GPIO_ODR g)) v]} [] d (dev_write (GPIO_BRR g) v d);

  (** The transmitter: TXE is set after a bounded number of polls and stays set until data is
      written, which is then sent when the transmitter is enabled; all this with a clock. *)
  read_txe d : clocked (reg d RCC_APB2ENR) USART1_SR = true -> let '(v, d') := dev_read USART1_SR d in
    match tx_wait d with
    | O => Z.land v USART_SR_TXE <> 0 /\ tx_wait d' = O
    | S n => Z.land v USART_SR_TXE = 0 /\ tx_wait d' = n
    end;
  write_data v d : clocked (reg d RCC_APB2ENR) USART1_DR = true -> tx_wait d = O -> Z.testbit (reg d USART1_CR1) 3 = true -> Z.testbit (reg d USART1_CR1) 13 = true ->
    effect reg sent sws ∅ [v mod 256] d (dev_write USART1_DR v d);
  (** The receiver: RXNE tells whether a byte is there; reading it empties the register. *)
  read_rxne d : clocked (reg d RCC_APB2ENR) USART1_SR = true -> let '(v, d') := dev_read USART1_SR d in
    (Z.land v USART_SR_RXNE <> 0 <-> is_Some (rx d')) /\ (is_Some (rx d) -> rx d' = rx d);
  read_data d b : clocked (reg d RCC_APB2ENR) USART1_DR = true -> rx d = Some b -> (dev_read USART1_DR d).1 mod 256 = b;

  (** The internal oscillator. *)
  hsi_read a d : hsi_on (dev_read a d).2 = hsi_on d;
  hsi_switched v d : Z.testbit v 0 = true -> hsi_on (dev_write RCC_CR v d) = true;
  read_hsirdy d : hsi_on d = true -> let '(v, d') := dev_read RCC_CR d in
    match hsi_wait d with
    | O => Z.land v RCC_CR_HSIRDY <> 0
    | S n => Z.land v RCC_CR_HSIRDY = 0 /\ hsi_wait d' = n
    end;
  (** The PLL is switched on by nothing but its bit in the control register, and off by it
      while another source drives the system and is selected. *)
  pll_read a d : pll_on d = false -> pll_on (dev_read a d).2 = false;
  pll_write a v d : a <> RCC_CR -> pll_on d = false -> pll_on (dev_write a v d) = false;
  pll_switched v d : Z.testbit v 24 = false -> sws d = 0 -> Z.land (reg d RCC_CFGR) RCC_CFGR_SW_MASK = 0 ->
    pll_on (dev_write RCC_CR v d) = false;
  read_pllon d : pll_on d = false -> Z.testbit (dev_read RCC_CR d).1 24 = false;
  (** The clock configuration: a write that changes the fields of the PLL needs the PLL to be
      off; the value read is the value held with the current source in SWS; also on this write
      the source only changes to the one that is selected in SW. *)
  write_cfgr v d : 0 <= v < 2 ^ 32 ->
    pll_on d = false \/ Z.land v PLL_FIELDS = Z.land (reg d RCC_CFGR) PLL_FIELDS ->
    effect reg sent sws {[RCC_CFGR := Z.ldiff v RCC_CFGR_SWS_MASK]} [] d (dev_write RCC_CFGR v d);
  read_cfgr d : let '(v, d') := dev_read RCC_CFGR d in v = Z.lor (reg d RCC_CFGR) (sws d');
  switch_cfgr v d : let d' := dev_write RCC_CFGR v d in
    sws d' = sws d \/ sws d' = Z.shiftl (Z.land (reg d' RCC_CFGR) RCC_CFGR_SW_MASK) 2;
}.

Section effects.
Context {D : Type} `{Stm32f1 D}.

Abbreviation eff := (effect reg sent sws).

Lemma effect_refl d : eff ∅ [] d d.
Proof. split; [by intros a _; rewrite lookup_empty|by rewrite app_nil_r|by left]. Qed.

Lemma effect_trans ws1 ws2 o1 o2 d d1 d2 : eff ws1 o1 d d1 -> eff ws2 o2 d1 d2 -> eff (ws2 ∪ ws1) (o1 ++ o2) d d2.
Proof.
  intros [R1 S1 C1] [R2 S2 C2]. split.
  - intros a Ha. rewrite R2, R1 by done. rewrite lookup_union. by destruct (ws2 !! a), (ws1 !! a).
  - by rewrite S2, S1, app_assoc.
  - rewrite lookup_union. destruct (ws2 !! RCC_CFGR) eqn:E2, (ws1 !! RCC_CFGR) eqn:E1; try done. intros _.
    pose proof (R2 RCC_CFGR ltac:(member)) as E. rewrite E2 in E. simpl in E.
    destruct (C1 eq_refl), (C2 eq_refl); rewrite ?E in *; (left; congruence) || (right; congruence).
Qed.

Lemma wp_reg_read a Q p :
  (forall v d, dev_read a (pf_device p) = (v, d) -> eff ∅ [] (pf_device p) d -> Q v (pf_set_device d p)) ->
  wp (reg_read a) Q p.
Proof.
  intros K. unfold wp, reg_read. pose proof (read_effect a (pf_device p)) as E.
  destruct (dev_read a (pf_device p)) as [v d] eqn:Er. by apply K.
Qed.

Lemma wp_read_back a Q p : a ∈ readable -> clocked (reg (pf_device p) RCC_APB2ENR) a = true ->
  (forall d, eff ∅ [] (pf_device p) d -> Q (reg (pf_device p) a) (pf_set_device d p)) -> wp (reg_read a) Q p.
Proof.
  intros Ha Hc K. apply wp_reg_read. intros v d E EF. pose proof (read_back a (pf_device p) Ha Hc) as B. rewrite E in B. cbn in B. subst v. by apply K.
Qed.

Lemma wp_reg_write a v Q p : Q tt (pf_set_device (dev_write a v (pf_device p)) p) -> wp (reg_write a v) Q p.
Proof. done. Qed.

Lemma wp_write_plain a v Q p : a ∈ plain_registers -> clocked (reg (pf_device p) RCC_APB2ENR) a = true -> 0 <= v < 2 ^ 32 ->
  (forall d, eff {[a := v]} [] (pf_device p) d -> Q tt (pf_set_device d p)) -> wp (reg_write a v) Q p.
Proof. intros Ha Hc Hv K. apply wp_reg_write, K. by apply write_plain. Qed.

Lemma lor_range a b : 0 <= a < 2 ^ 32 -> 0 <= b < 2 ^ 32 -> 0 <= Z.lor a b < 2 ^ 32.
Proof.
  intros Ha Hb. split; [apply Z.lor_nonneg; lia|]. destruct (Z.eq_dec (Z.lor a b) 0) as [->|Hn]; [lia|].
  assert (0 < Z.lor a b) by (pose proof (proj2 (Z.lor_nonneg a b)); lia).
  apply Z.log2_lt_pow2; [done|]. rewrite Z.log2_lor by lia.
  assert (forall x, 0 <= x < 2 ^ 32 -> Z.log2 x < 32).
  { intros x Hx. destruct (Z.eq_dec x 0) as [->|]; [done|]. apply Z.log2_lt_pow2; lia. }
  apply Z.max_lub_lt; auto.
Qed.
Lemma ldiff_range a b : 0 <= a < 2 ^ 32 -> 0 <= b -> 0 <= Z.ldiff a b < 2 ^ 32.
Proof.
  intros Ha Hb. split; [apply Z.ldiff_nonneg; lia|]. assert (0 <= Z.land a b) by (apply Z.land_nonneg; lia).
  pose proof (Z.lor_ldiff_and a b) as E. pose proof (Z.add_lor_land (Z.ldiff a b) (Z.land a b)) as E2. rewrite E in E2.
  assert (E3 : Z.land (Z.ldiff a b) (Z.land a b) = 0).
  { apply Z.bits_inj'. intros n Hn. rewrite !Z.land_spec, Z.ldiff_spec, Z.bits_0. by destruct (Z.testbit a n), (Z.testbit b n). }
  lia.
Qed.

(** Of the registers that always run. *)
Lemma wp_reg_or a bits Q p : a ∈ readable -> a ∈ plain_registers -> clock_bit a = None -> 0 <= bits < 2 ^ 32 ->
  (forall d, eff {[a := Z.lor (reg (pf_device p) a) bits]} [] (pf_device p) d -> Q tt (pf_set_device d p)) ->
  wp (reg_or a bits) Q p.
Proof.
  intros Hr Hp Hc Hb K. assert (HC : forall enr, clocked enr a = true) by (intros; unfold clocked; by rewrite Hc).
  unfold reg_or. wp_step. apply wp_read_back; [done|done|]. intros d1 E1.
  apply wp_write_plain; [done|done|apply lor_range; [apply reg_range|done]|]. intros d2 E2.
  change (pf_set_device d2 (pf_set_device d1 p)) with (pf_set_device d2 p). apply K.
  replace {[a := _]} with ({[a := Z.lor (reg (pf_device p) a) bits]} ∪ ∅ : gmap Z Z) by apply map_union_empty.
  by apply (effect_trans _ _ [] [] _ d1).
Qed.
End effects.

(** ** A simulated microcontroller: the board on a desk, with or without its crystal.  The
    properties of the platform are instantiated at it. *)
Record sim : Type := mk_sim {
  sm_regs : gmap Z Z;
  sm_sent : list Z;
  sm_busy : bool;
  sm_received : option Z;
  sm_cr : Z;
  sm_hsi : bool;
  sm_source : Z;
  sm_crystal : bool;
}.
Definition sim_reg (d : sim) (a : Z) : Z := u32 (sm_regs d !!! a).
Definition sim_set_regs v d := mk_sim v (sm_sent d) (sm_busy d) (sm_received d) (sm_cr d) (sm_hsi d) (sm_source d) (sm_crystal d).

(** The flags of the oscillators follow their switches, the external one if it has a crystal. *)
Definition sim_cr (d : sim) : Z :=
  let hse := Z.testbit (sm_cr d) 16 && sm_crystal d in
  Z.lor (sm_cr d) (Z.lor (if sm_hsi d then RCC_CR_HSIRDY else 0)
    (Z.lor (if hse then RCC_CR_HSERDY else 0) (if hse && Z.testbit (sm_cr d) 24 then RCC_CR_PLLRDY else 0))).

(** A block without a clock reads as 0 and takes no writes. *)
Definition sim_clocked (d : sim) (a : Z) : bool := clocked (sim_reg d RCC_APB2ENR) a.

Definition sim_read (a : Z) (d : sim) : Z * sim :=
  if negb (sim_clocked d a) then (0, d)
  else if a =? USART1_SR then
    (Z.lor (if sm_busy d then 0 else USART_SR_TXE) (match sm_received d with Some _ => USART_SR_RXNE | None => 0 end),
     mk_sim (sm_regs d) (sm_sent d) false (sm_received d) (sm_cr d) (sm_hsi d) (sm_source d) (sm_crystal d))
  else if a =? USART1_DR then
    (default 0 (sm_received d), mk_sim (sm_regs d) (sm_sent d) (sm_busy d) None (sm_cr d) (sm_hsi d) (sm_source d) (sm_crystal d))
  else if a =? RCC_CR then (sim_cr d, d)
  else if a =? RCC_CFGR then
    let source := Z.shiftl (Z.land (sim_reg d RCC_CFGR) RCC_CFGR_SW_MASK) 2 in
    (Z.lor (sim_reg d RCC_CFGR) source,
     mk_sim (sm_regs d) (sm_sent d) (sm_busy d) (sm_received d) (sm_cr d) (sm_hsi d) source (sm_crystal d))
  else (sim_reg d a, d).

(** While the PLL is on its fields stay as they are. *)
Definition sim_cfgr (d : sim) (v : Z) : Z :=
  if Z.testbit (sm_cr d) 24 then Z.lor (Z.ldiff v PLL_FIELDS) (Z.land (sim_reg d RCC_CFGR) PLL_FIELDS) else v.

Definition sim_write (a v : Z) (d : sim) : sim :=
  if negb (sim_clocked d a) then d
  else if bool_decide (a ∈ plain_registers) then sim_set_regs (<[a := v]> (sm_regs d)) d
  else if a =? RCC_CFGR then sim_set_regs (<[a := Z.ldiff (sim_cfgr d v) RCC_CFGR_SWS_MASK]> (sm_regs d)) d
  else if a =? RCC_CR then
    mk_sim (sm_regs d) (sm_sent d) (sm_busy d) (sm_received d) v (sm_hsi d || Z.testbit v 0) (sm_source d) (sm_crystal d)
  else if bool_decide (a ∈ GPIO_BSRR <$> ports) then
    sim_set_regs (<[a - 4 := Z.lor (sim_reg d (a - 4)) v]> (sm_regs d)) d
  else if bool_decide (a ∈ GPIO_BRR <$> ports) then
    sim_set_regs (<[a - 8 := Z.ldiff (sim_reg d (a - 8)) v]> (sm_regs d)) d
  else if (a =? USART1_DR) && Z.testbit (sim_reg d USART1_CR1) 3 && Z.testbit (sim_reg d USART1_CR1) 13 then
    mk_sim (sm_regs d) (sm_sent d ++ [v mod 256]) true (sm_received d) (sm_cr d) (sm_hsi d) (sm_source d) (sm_crystal d)
  else d.

#[export] Instance sim_device : Device sim := {| dev_read := sim_read; dev_write := sim_write |}.

Abbreviation sim_effect := (effect sim_reg sm_sent sm_source).

Lemma sim_set_effect c v d d' : 0 <= v < 2 ^ 32 -> d' = sim_set_regs (<[c := v]> (sm_regs d)) d ->
  sim_effect {[c := v]} [] d d'.
Proof.
  intros Hv ->. split; [|by rewrite app_nil_r|by left]. intros a _. unfold sim_reg; simpl.
  destruct (decide (a = c)) as [->|Hne]; [|by rewrite lookup_total_insert_ne, lookup_singleton_ne].
  rewrite lookup_total_insert_eq, lookup_singleton_eq. apply (u32_small v). unfold UINT32_MAX. lia.
Qed.

Lemma sim_read_effect a d : sim_effect ∅ [] d (sim_read a d).2.
Proof. unfold sim_read. repeat case_match; split; rewrite ?app_nil_r; try done; intros _; solve [left; done|right; done]. Qed.

Lemma sim_range d a : 0 <= sim_reg d a < 2 ^ 32.
Proof. pose proof (u32_range (sm_regs d !!! a)). unfold sim_reg, UINT32_MAX in *. lia. Qed.

Lemma sim_plain a v d : a ∈ plain_registers -> sim_clocked d a = true -> 0 <= v < 2 ^ 32 -> sim_effect {[a := v]} [] d (sim_write a v d).
Proof. intros Ha Hc Hv. apply sim_set_effect; [done|]. unfold sim_write. by rewrite Hc, bool_decide_true. Qed.


Lemma port_clocked enr g a : g ∈ ports -> a ∈ [GPIO_CRL g; GPIO_CRH g; GPIO_ODR g; GPIO_BSRR g; GPIO_BRR g] ->
  clocked enr a = clocked enr g.
Proof. intros Hg Ha. rewrite !elem_of_cons, elem_of_nil in Ha. destruct_or! Ha; try done; subst; on_port Hg; reflexivity. Qed.

Lemma sim_bsrr g v d : g ∈ ports -> sim_clocked d g = true -> 0 <= v < 2 ^ 16 ->
  sim_effect {[GPIO_ODR g := Z.lor (sim_reg d (GPIO_ODR g)) v]} [] d (sim_write (GPIO_BSRR g) v d).
Proof.
  intros Hg Hc Hv. apply sim_set_effect; [apply lor_range; [apply sim_range|lia]|].
  unfold sim_write, sim_clocked in *. rewrite (port_clocked _ g), Hc by (done || (rewrite !elem_of_cons; tauto)). on_port Hg; reflexivity.
Qed.
Lemma sim_brr g v d : g ∈ ports -> sim_clocked d g = true -> 0 <= v < 2 ^ 16 ->
  sim_effect {[GPIO_ODR g := Z.ldiff (sim_reg d (GPIO_ODR g)) v]} [] d (sim_write (GPIO_BRR g) v d).
Proof.
  intros Hg Hc Hv. apply sim_set_effect; [apply ldiff_range; [apply sim_range|lia]|].
  unfold sim_write, sim_clocked in *. rewrite (port_clocked _ g), Hc by (done || (rewrite !elem_of_cons; tauto)). on_port Hg; reflexivity.
Qed.

Lemma sim_sent_only d d' out : sm_regs d' = sm_regs d -> sm_sent d' = sm_sent d ++ out -> sm_source d' = sm_source d -> sim_effect ∅ out d d'.
Proof. intros E1 E2 E3. split; [|done|by left]. intros a _. unfold sim_reg. by rewrite E1. Qed.

Lemma sim_hsirdy x y : Z.land (Z.lor x (Z.lor RCC_CR_HSIRDY y)) RCC_CR_HSIRDY <> 0.
Proof.
  intros E. assert (B : Z.testbit (Z.land (Z.lor x (Z.lor RCC_CR_HSIRDY y)) RCC_CR_HSIRDY) 1 = true).
  { rewrite Z.land_spec, !Z.lor_spec. by rewrite orb_true_r. }
  by rewrite E in B.
Qed.

Lemma sim_cfgr_free d v : Z.testbit (sm_cr d) 24 = false \/ Z.land v PLL_FIELDS = Z.land (sim_reg d RCC_CFGR) PLL_FIELDS ->
  sim_cfgr d v = v.
Proof. intros [E|E]; unfold sim_cfgr; [by rewrite E|]. rewrite <- E, Z.lor_ldiff_and. by destruct (Z.testbit _ _). Qed.

Lemma sim_pllon d : Z.testbit (sim_cr d) 24 = Z.testbit (sm_cr d) 24.
Proof.
  unfold sim_cr. rewrite !Z.lor_spec.
  destruct (sm_hsi d), (Z.testbit (sm_cr d) 16 && sm_crystal d), (Z.testbit (sm_cr d) 24); reflexivity.
Qed.

Lemma sim_data v d : sim_clocked d USART1_DR = true -> Z.testbit (sim_reg d USART1_CR1) 3 = true -> Z.testbit (sim_reg d USART1_CR1) 13 = true ->
  sim_effect ∅ [v mod 256] d (sim_write USART1_DR v d).
Proof.
  intros Hc H3 H13. unfold sim_write. rewrite Hc, H3, H13. by apply sim_sent_only.
Qed.

#[export] Instance sim_stm32f1 : Stm32f1 sim.
Proof.
  refine {| reg := sim_reg; sent := sm_sent; tx_wait := fun d => if sm_busy d then 1%nat else 0%nat;
            hsi_on := sm_hsi; hsi_wait := fun _ => 0%nat; poll_limit := 1; sws := sm_source; rx := fun d => (fun b => b mod 256) <$> sm_received d;
            pll_on := fun d => Z.testbit (sm_cr d) 24 |};
    cbn [dev_read dev_write sim_device].
  - apply sim_range.
  - intros d. destruct (sm_busy d); lia.
  - apply sim_read_effect.
  - intros a d Ha Hc. unfold sim_read, sim_clocked. rewrite Hc. unfold readable, ports in Ha. simpl in Ha. rewrite !elem_of_cons, elem_of_nil in Ha.
    by destruct_or? Ha; subst.
  - apply sim_plain.
  - intros a v d Ha. rewrite !elem_of_cons, elem_of_nil in Ha. destruct_or! Ha; subst; try done; apply sim_sent_only; try done; by rewrite app_nil_r.
  - apply sim_bsrr.
  - apply sim_brr.
  - intros d Hc. unfold sim_read, sim_clocked. rewrite Hc. simpl. destruct (sm_busy d), (sm_received d); done.
  - intros v d Hc _. by apply sim_data.
  - intros d Hc. unfold sim_read, sim_clocked. rewrite Hc. simpl. destruct (sm_received d), (sm_busy d); split; try done; split; try done; by intros [? ?].
  - intros d b Hc Hb. unfold sim_read, sim_clocked. rewrite Hc. simpl. destruct (sm_received d); [by injection Hb|done].
  - intros a d. unfold sim_read. by repeat case_match.
  - intros v d Hv. change (sm_hsi d || Z.testbit v 0 = true). rewrite Hv. apply orb_true_r.
  - intros d Hd. change (Z.land (sim_cr d) RCC_CR_HSIRDY <> 0). unfold sim_cr. rewrite Hd. apply sim_hsirdy.
  - intros a d Hd. unfold sim_read. by repeat case_match.
  - intros a v d Ha Hd. apply Z.eqb_neq in Ha. unfold sim_write. rewrite Ha. by repeat case_match.
  - intros v d Hv _ _. exact Hv.
  - intros d Hd. etrans; [apply sim_pllon|done].
  - intros v d Hv Hp. pose proof (sim_cfgr_free d v Hp) as E. apply sim_set_effect; [by apply ldiff_range|].
    change (sim_set_regs (<[RCC_CFGR := Z.ldiff (sim_cfgr d v) RCC_CFGR_SWS_MASK]> (sm_regs d)) d = sim_set_regs (<[RCC_CFGR := Z.ldiff v RCC_CFGR_SWS_MASK]> (sm_regs d)) d).
    by rewrite E.
  - done.
  - by left.
Defined.

(** The state at reset, and the number of polls that suffices. *)
Definition sim_reset (crystal : bool) : sim := mk_sim ∅ [] false None 0x83 true 0 crystal.
#[export] Instance sim_polling : Polling := {| polls := 4 |}.
Definition pf_reset (crystal : bool) : platform sim := mk_platform (sim_reset crystal) 8000000 0 0 0 false.
