(* ===== verification/GpioProps.v ===== *)
(** The pins: configuration, output and toggling touch exactly the pin they name. *)
From stdpp Require Import gmap list.
From Stdlib Require Import ZArith Lia.
From S2P Require Import Prelude Soc Drivers DeviceSpec.
Open Scope Z_scope.

(** ** Fields of four bits *)
Definition nibble (v k : Z) : Z := Z.land (Z.shiftr v (4 * k)) 15.
Definition set_nibble (v shift n : Z) : Z :=
  Z.lor (Z.ldiff v (u32 (Z.shiftl 0x0F shift))) (u32 (Z.shiftl (Z.land n 0x0F) shift)).

Lemma shiftl_small n k : 0 <= n < 16 -> 0 <= k < 8 -> u32 (Z.shiftl n (4 * k)) = Z.shiftl n (4 * k).
Proof.
  intros Hn Hk. apply u32_small. rewrite Z.shiftl_mul_pow2 by lia. unfold UINT32_MAX.
  assert (2 ^ (4 * k) <= 2 ^ 28) by (apply Z.pow_le_mono_r; lia).
  assert (0 < 2 ^ (4 * k)) by (apply Z.pow_pos_nonneg; lia). change (2 ^ 28) with 268435456 in *. nia.
Qed.

Lemma land_15 n : 0 <= n < 16 -> Z.land n 0x0F = n.
Proof. intros. change 0x0F with (Z.ones 4). rewrite Z.land_ones by lia. by apply Z.mod_small. Qed.

Lemma nibble_bit v k i : 0 <= k -> 0 <= i < 4 -> Z.testbit (nibble v k) i = Z.testbit v (4 * k + i).
Proof.
  intros Hk Hi. unfold nibble. change 15 with (Z.ones 4). rewrite Z.land_spec, Z.shiftr_spec, Z.ones_spec_low by lia.
  rewrite andb_true_r. f_equal. lia.
Qed.
Lemma nibble_range v k : 0 <= nibble v k < 16.
Proof. unfold nibble. change 15 with (Z.ones 4). rewrite Z.land_ones by lia. by apply Z.mod_pos_bound. Qed.

Lemma nibble_ext a b : 0 <= a < 16 -> 0 <= b < 16 -> (forall i, 0 <= i < 4 -> Z.testbit a i = Z.testbit b i) -> a = b.
Proof.
  intros Ha Hb E. apply Z.bits_inj'. intros n Hn. destruct (Z.lt_ge_cases n 4); [by apply E|].
  rewrite <- (Z.mod_small a (2 ^ 4)), <- (Z.mod_small b (2 ^ 4)) by lia. by rewrite !Z.mod_pow2_bits_high by lia.
Qed.

Lemma nibble_set v j n k : 0 <= n < 16 -> 0 <= j < 8 -> 0 <= k < 8 ->
  nibble (set_nibble v (4 * j) n) k = if k =? j then n else nibble v k.
Proof.
  intros Hn Hj Hk. unfold set_nibble. rewrite land_15, !shiftl_small by lia.
  apply nibble_ext; [apply nibble_range|destruct (k =? j); [done|apply nibble_range]|].
  intros i Hi. rewrite nibble_bit, Z.lor_spec, Z.ldiff_spec, !Z.shiftl_spec by lia.
  change 0x0F with (Z.ones 4). destruct (Z.eqb_spec k j) as [->|Hne].
  - replace (4 * j + i - 4 * j) with i by lia. rewrite Z.ones_spec_low by lia. by rewrite andb_false_r.
  - rewrite nibble_bit by lia. destruct (Z.lt_ge_cases (4 * k + i - 4 * j) 0).
    + rewrite (Z.testbit_neg_r (Z.ones 4)), (Z.testbit_neg_r n) by lia. by rewrite andb_true_r, orb_false_r.
    + rewrite Z.ones_spec_high by lia. rewrite <- (Z.mod_small n (2 ^ 4)), Z.mod_pow2_bits_high by lia.
      by rewrite andb_true_r, orb_false_r.
Qed.

Lemma set_nibble_range v j n : 0 <= v < 2 ^ 32 -> 0 <= n < 16 -> 0 <= j < 8 -> 0 <= set_nibble v (4 * j) n < 2 ^ 32.
Proof.
  intros Hv Hn Hj. unfold set_nibble. pose proof (u32_range (Z.shiftl (Z.land n 0x0F) (4 * j))).
  pose proof (u32_range (Z.shiftl 0x0F (4 * j))). unfold UINT32_MAX in *.
  apply lor_range; [apply ldiff_range; lia|lia].
Qed.

(** ** Pins *)

(** A pin of one of the three ports, with its port and its number in it. *)
Record is_pin (pin gpio k : Z) : Prop := {
  ip_port : gpio_from_pin pin = Some gpio;
  ip_index : gpio_pin_index pin = k;
  ip_range : 0 <= k < GPIO_PIN_COUNT;
}.

(** The bit of [APB2ENR] that clocks a port. *)
Definition port_enable (gpio : Z) : Z :=
  if gpio =? STM32F1_GPIOA then RCC_APB2ENR_IOPAEN else if gpio =? STM32F1_GPIOB then RCC_APB2ENR_IOPBEN else RCC_APB2ENR_IOPCEN.

Lemma pin_port pin gpio k : is_pin pin gpio k -> gpio ∈ ports.
Proof.
  intros [E _ _]. unfold gpio_from_pin in E. unfold ports.
  repeat case_match; simplify_eq; set_solver.
Qed.

Section gpio.
Context {D : Type} `{Stm32f1 D}.
Abbreviation eff := (effect reg sent sws).

(** The configuration register of a pin, and the field of the pin in it. *)
Definition config_register (gpio k : Z) : Z := if k <? 8 then GPIO_CRL gpio else GPIO_CRH gpio.
Definition pin_config (d : D) (gpio k : Z) : Z := nibble (reg d (config_register gpio k)) (k mod 8).
Definition output (d : D) (gpio k : Z) : bool := Z.testbit (reg d (GPIO_ODR gpio)) k.

Lemma enable_port_spec pin gpio k Q p : is_pin pin gpio k ->
  (forall d, eff {[RCC_APB2ENR := Z.lor (reg (pf_device p) RCC_APB2ENR) (port_enable gpio)]} [] (pf_device p) d ->
     Q tt (pf_set_device d p)) -> wp (gpio_enable_port_clock pin) Q p.
Proof.
  intros [E _ _] K. unfold gpio_from_pin in E. unfold gpio_enable_port_clock.
  assert (HR : RCC_APB2ENR ∈ readable /\ RCC_APB2ENR ∈ plain_registers) by (split; member).
  destruct HR as [HR HP].
  destruct (gpio_port_index pin =? HR_STM32F1_GPIO_PORT_A); [|destruct (gpio_port_index pin =? HR_STM32F1_GPIO_PORT_B);
    [|destruct (gpio_port_index pin =? HR_STM32F1_GPIO_PORT_C); [|done]]]; injection E as <-; by apply wp_reg_or.
Qed.

Lemma pow2_bound k : 0 <= k < 16 -> 0 <= Z.shiftl 1 k < 2 ^ 16.
Proof.
  intros Hk. rewrite Z.shiftl_1_l. split; [apply Z.pow_nonneg; lia|]. apply Z.pow_lt_mono_r; lia.
Qed.

(** A port whose bit is set is clocked. *)
Lemma port_enabled enr gpio : gpio ∈ ports -> clocked (Z.lor enr (port_enable gpio)) gpio = true.
Proof. intros Hg. rewrite clocked_lor. apply orb_true_iff. right. on_port Hg; reflexivity. Qed.

Lemma gpio_write_effect pin gpio k high Q p : is_pin pin gpio k -> clocked (reg (pf_device p) RCC_APB2ENR) gpio = true ->
  (forall d, eff {[GPIO_ODR gpio := (if high : bool then Z.lor else Z.ldiff) (reg (pf_device p) (GPIO_ODR gpio)) (Z.shiftl 1 k)]} []
     (pf_device p) d -> Q tt (pf_set_device d p)) -> wp (hr_gpio_write pin high) Q p.
Proof.
  intros IP HC K. pose proof (pin_port _ _ _ IP) as Hg. destruct IP as [E1 E2 E3]. unfold hr_gpio_write.
  rewrite E1, E2. unfold GPIO_PIN_COUNT in *. rewrite (proj2 (Z.leb_gt 16 k)) by lia.
  destruct high; apply wp_reg_write, K; [apply write_bsrr|apply write_brr]; try done; by apply pow2_bound.
Qed.

Lemma build_nibble_range c n : gpio_build_nibble c = Some n -> 0 <= n < 16.
Proof.
  destruct c as [c|]; [|done]. unfold gpio_build_nibble, gpio_mode_bits.
  repeat case_match; intros [= <-]; split; done.
Qed.

(** What configuring a pin writes. *)
Definition pulled (c : hr_gpio_config) : bool := (gc_mode c =? HR_GPIO_MODE_INPUT) && negb (gc_pull c =? HR_GPIO_PULL_NONE).
Definition config_writes (d : D) (gpio k n : Z) (c : hr_gpio_config) : gmap Z Z :=
  (if pulled c then {[GPIO_ODR gpio := (if gc_pull c =? HR_GPIO_PULL_UP then Z.lor else Z.ldiff) (reg d (GPIO_ODR gpio)) (Z.shiftl 1 k)]} else ∅) ∪
  ({[config_register gpio k := set_nibble (reg d (config_register gpio k)) (4 * (k mod 8)) n]} ∪
   {[RCC_APB2ENR := Z.lor (reg d RCC_APB2ENR) (port_enable gpio)]}).

Lemma config_register_facts gpio k : gpio ∈ ports ->
  config_register gpio k ∈ readable /\ config_register gpio k ∈ plain_registers /\ config_register gpio k ∈ registers /\
  config_register gpio k <> RCC_APB2ENR.
Proof.
  intros Hg. unfold config_register.
  destruct (k <? 8); on_port Hg; (split; [member|split; [member|split; [member|done]]]).
Qed.
Lemma config_clocked enr gpio k : gpio ∈ ports -> clocked enr (config_register gpio k) = clocked enr gpio.
Proof. intros Hg. apply port_clocked; [done|]. unfold config_register. rewrite !elem_of_cons. destruct (k <? 8); tauto. Qed.
Lemma odr_facts gpio k : gpio ∈ ports ->
  GPIO_ODR gpio ∈ registers /\ GPIO_ODR gpio <> RCC_APB2ENR /\ GPIO_ODR gpio <> config_register gpio k.
Proof. intros Hg. unfold config_register. destruct (k <? 8); on_port Hg; (split; [member|done]). Qed.

Lemma gpio_configure_effect pin gpio k c n Q p : is_pin pin gpio k -> gpio_build_nibble (Some c) = Some n ->
  (forall d, eff (config_writes (pf_device p) gpio k n c) [] (pf_device p) d -> Q true (pf_set_device d p)) ->
  wp (hr_gpio_configure pin (Some c)) Q p.
Proof.
  intros IP Hn K. pose proof (pin_port _ _ _ IP) as Hg. pose proof IP as [E1 E2 E3].
  destruct (config_register_facts gpio k Hg) as (C1 & C2 & C3 & C4), (odr_facts gpio k Hg) as (O1 & O2 & O3).
  unfold hr_gpio_configure. rewrite E1, Hn, E2. rewrite (proj2 (Z.leb_gt _ k)) by lia.
  fold (config_register gpio k). wp_step. apply (enable_port_spec pin gpio k); [done|]. intros d1 F1.
  assert (HE1 : clocked (reg d1 RCC_APB2ENR) gpio = true).
  { rewrite (ef_reg F1) by member. rewrite lookup_singleton_eq. by apply port_enabled. }
  wp_step. apply wp_read_back; [done|by rewrite config_clocked|]. intros d2 F2. cbn [pf_device pf_set_device] in F2.
  assert (HE2 : clocked (reg d2 RCC_APB2ENR) gpio = true) by (by rewrite (ef_reg F2) by member).
  assert (HR : reg d1 (config_register gpio k) = reg (pf_device p) (config_register gpio k)).
  { rewrite (ef_reg F1) by done. by rewrite lookup_singleton_ne. }
  assert (HO : reg d2 (GPIO_ODR gpio) = reg (pf_device p) (GPIO_ODR gpio)).
  { rewrite (ef_reg F2), (ef_reg F1) by done. by rewrite lookup_singleton_ne. }
  cbn [pf_device pf_set_device]. rewrite HR. unfold GPIO_PIN_COUNT in *.
  assert (HS : (if k <? 8 then k * 4 else (k - 8) * 4) = 4 * (k mod 8)).
  { destruct (Z.ltb_spec k 8); [rewrite Z.mod_small; lia|].
    rewrite <- (Z.mod_unique k 8 1 (k - 8)); lia. }
  rewrite HS. fold (set_nibble (reg (pf_device p) (config_register gpio k)) (4 * (k mod 8)) n).
  pose proof (build_nibble_range _ _ Hn). pose proof (Z.mod_pos_bound k 8).
  wp_step. apply wp_write_plain; [done|by rewrite config_clocked|apply set_nibble_range; [apply reg_range|lia..]|]. intros d3 F3. cbn [pf_device pf_set_device] in F3.
  pose proof (effect_trans _ _ _ _ _ _ _ F1 (effect_trans _ _ _ _ _ _ _ F2 F3)) as F. rewrite map_union_empty in F.
  fold (pulled c). wp_step. unfold config_writes in K. destruct (pulled c).
  - apply (gpio_write_effect pin gpio k); [done|cbn; by rewrite (ef_reg F3), lookup_singleton_ne by (done || member)|]. intros d4 F4. wp_step. apply (K d4).
    cbn [pf_device pf_set_device] in F4.
    assert (HO3 : reg d3 (GPIO_ODR gpio) = reg (pf_device p) (GPIO_ODR gpio)) by (rewrite (ef_reg F3) by done; by rewrite lookup_singleton_ne).
    rewrite HO3 in F4. exact (effect_trans _ _ _ _ _ _ _ F F4).
  - wp_step. wp_step. apply (K d3). by rewrite map_empty_union.
Qed.

(** ** What a pin sees of the registers *)

Lemma set_bit (o : Z) (up : bool) k i : 0 <= k -> 0 <= i ->
  Z.testbit ((if up then Z.lor else Z.ldiff) o (Z.shiftl 1 k)) i = if i =? k then up else Z.testbit o i.
Proof.
  intros Hk Hi. rewrite Z.shiftl_1_l. destruct up; rewrite ?Z.lor_spec, ?Z.ldiff_spec, Z.pow2_bits_eqb, (Z.eqb_sym i) by lia;
    destruct (k =? i); by rewrite ?orb_true_r, ?orb_false_r, ?andb_false_r, ?andb_true_r.
Qed.

(** Only the output register of [gpio] has changed. *)
Lemma output_written d d' gpio k (up : bool) : gpio ∈ ports -> 0 <= k ->
  eff {[GPIO_ODR gpio := (if up then Z.lor else Z.ldiff) (reg d (GPIO_ODR gpio)) (Z.shiftl 1 k)]} [] d d' ->
  (forall g i, g ∈ ports -> 0 <= i -> output d' g i = if (g =? gpio) && (i =? k) then up else output d g i) /\
  (forall g i, g ∈ ports -> pin_config d' g i = pin_config d g i).
Proof.
  intros Hg Hk F. split.
  - intros g i Hg' Hi. unfold output. rewrite (ef_reg F) by apply (odr_facts g 0 Hg').
    destruct (Z.eqb_spec g gpio) as [->|Hne]; simpl; [rewrite lookup_singleton_eq; by apply set_bit|].
    rewrite lookup_singleton_ne; [done|]. intros [=E]%Z.add_cancel_r. done.
  - intros g i Hg'. unfold pin_config. rewrite (ef_reg F) by apply (config_register_facts g i Hg').
    rewrite lookup_singleton_ne; [done|]. unfold config_register. destruct (i <? 8); on_port Hg; on_port Hg'; done.
Qed.

(** What [config_writes] does to each kind of register. *)
Section config_writes.
Context (d : D) (gpio k n : Z) (c : hr_gpio_config) (Hg : gpio ∈ ports).

Lemma config_writes_config g i : g ∈ ports -> config_writes d gpio k n c !! config_register g i =
  if decide (config_register g i = config_register gpio k)
  then Some (set_nibble (reg d (config_register gpio k)) (4 * (k mod 8)) n) else None.
Proof.
  intros Hg'. destruct (config_register_facts g i Hg') as (_ & _ & _ & C4).
  assert (NO : GPIO_ODR gpio <> config_register g i).
  { unfold config_register. destruct (i <? 8); on_port Hg; on_port Hg'; done. }
  unfold config_writes. rewrite !lookup_union, (lookup_singleton_ne RCC_APB2ENR) by done.
  replace ((if pulled c then _ else _) !! config_register g i) with (@None Z);
    [|destruct (pulled c); [by rewrite lookup_singleton_ne|by rewrite lookup_empty]].
  case_decide as Hd; [by rewrite Hd, lookup_singleton_eq|by rewrite lookup_singleton_ne].
Qed.

Lemma config_writes_odr g : g ∈ ports -> config_writes d gpio k n c !! GPIO_ODR g =
  if pulled c && (g =? gpio)
  then Some ((if gc_pull c =? HR_GPIO_PULL_UP then Z.lor else Z.ldiff) (reg d (GPIO_ODR gpio)) (Z.shiftl 1 k)) else None.
Proof.
  intros Hg'. destruct (odr_facts g k Hg') as (_ & O2 & _).
  unfold config_writes. rewrite !lookup_union, (lookup_singleton_ne RCC_APB2ENR) by done.
  rewrite (lookup_singleton_ne (config_register gpio k)) by (unfold config_register; destruct (k <? 8); on_port Hg; on_port Hg'; done).
  destruct (pulled c); cbn [andb]; [|by rewrite lookup_empty].
  destruct (Z.eqb_spec g gpio) as [->|Hne]; [by rewrite lookup_singleton_eq|].
  rewrite lookup_singleton_ne; [done|]. by intros E%Z.add_cancel_r.
Qed.

Lemma config_writes_enable :
  config_writes d gpio k n c !! RCC_APB2ENR = Some (Z.lor (reg d RCC_APB2ENR) (port_enable gpio)).
Proof.
  destruct (odr_facts gpio k Hg) as (_ & O2 & _), (config_register_facts gpio k Hg) as (_ & _ & _ & C4).
  unfold config_writes. rewrite !lookup_union, lookup_singleton_eq, lookup_singleton_ne by done.
  destruct (pulled c); [by rewrite lookup_singleton_ne|by rewrite lookup_empty].
Qed.
End config_writes.

Lemma same_register g i gpio k : g ∈ ports -> gpio ∈ ports -> config_register g i = config_register gpio k ->
  g = gpio /\ (i <? 8) = (k <? 8).
Proof. intros Hg Hg'. unfold config_register. destruct (i <? 8), (k <? 8); on_port Hg; on_port Hg'; done. Qed.

Lemma config_written d d' gpio k n c : gpio ∈ ports -> 0 <= k < GPIO_PIN_COUNT -> 0 <= n < 16 ->
  eff (config_writes d gpio k n c) [] d d' ->
  (forall g i, g ∈ ports -> 0 <= i < GPIO_PIN_COUNT ->
     pin_config d' g i = if (g =? gpio) && (i =? k) then n else pin_config d g i) /\
  (forall g i, g ∈ ports -> 0 <= i ->
     output d' g i = if pulled c && (g =? gpio) && (i =? k) then gc_pull c =? HR_GPIO_PULL_UP else output d g i) /\
  reg d' RCC_APB2ENR = Z.lor (reg d RCC_APB2ENR) (port_enable gpio).
Proof.
  intros Hg Hk Hn F. unfold GPIO_PIN_COUNT in *. split_and!.
  - intros g i Hg' Hi. destruct (config_register_facts g i Hg') as (_ & _ & C3 & _).
    unfold pin_config. rewrite (ef_reg F), config_writes_config by done. case_decide as Hd.
    + destruct (same_register g i gpio k Hg' Hg Hd) as [-> HB]. rewrite Z.eqb_refl. cbn [andb].
      change (default _ (Some ?x)) with x. rewrite nibble_set by (try apply Z.mod_pos_bound; lia).
      replace (i mod 8 =? k mod 8) with (i =? k); [by rewrite <- Hd|].
      pose proof (Z.div_mod i 8). pose proof (Z.div_mod k 8). pose proof (Z.mod_pos_bound i 8). pose proof (Z.mod_pos_bound k 8).
      destruct (Z.eqb_spec i k), (Z.eqb_spec (i mod 8) (k mod 8)); try done; [by subst|]. lia.
    + replace ((g =? gpio) && (i =? k)) with false; [done|]. symmetry. apply andb_false_iff.
      destruct (Z.eqb_spec g gpio) as [->|]; [|by left]. destruct (Z.eqb_spec i k) as [->|]; [done|by right].
  - intros g i Hg' Hi. unfold output. rewrite (ef_reg F), config_writes_odr by (done || apply (odr_facts g k Hg')).
    destruct (Z.eqb_spec g gpio) as [->|Hne]; rewrite ?andb_true_r, ?andb_false_r; [|done].
    destruct (pulled c); [apply set_bit; lia|done].
  - by rewrite (ef_reg F), config_writes_enable by (done || member).
Qed.

(** The four bits the reference manual of the microcontroller gives to a pin: two of
    configuration (push-pull, open drain, and both for a peripheral; floating or pulled for
    an input) above two for the speed of an output, which are 0 for an input. *)
Definition requested_code (c : hr_gpio_config) : Z :=
  let speed := if gc_drive c =? HR_GPIO_DRIVE_MEDIUM then 1
               else if (gc_drive c =? HR_GPIO_DRIVE_HIGH) || (gc_drive c =? HR_GPIO_DRIVE_VERY_HIGH) then 3 else 2 in
  if gc_mode c =? HR_GPIO_MODE_INPUT then 4 * (if gc_pull c =? HR_GPIO_PULL_NONE then 1 else 2)
  else 4 * (gc_mode c - 1) + speed.
Definition valid_mode (c : hr_gpio_config) : bool := (0 <=? gc_mode c) && (gc_mode c <=? HR_GPIO_MODE_ALTERNATE_OPEN_DRAIN).

Lemma build_nibble_spec c : gpio_build_nibble (Some c) = if valid_mode c then Some (requested_code c) else None.
Proof.
  unfold gpio_build_nibble, valid_mode, requested_code, gpio_mode_bits, HR_GPIO_MODE_INPUT, HR_GPIO_MODE_OUTPUT_PUSH_PULL,
    HR_GPIO_MODE_OUTPUT_OPEN_DRAIN, HR_GPIO_MODE_ALTERNATE_PUSH_PULL, HR_GPIO_MODE_ALTERNATE_OPEN_DRAIN.
  destruct c as [mode pull drive]. cbn [gc_mode gc_pull gc_drive].
  destruct ((0 <=? mode) && (mode <=? 4)) eqn:V.
  2: { apply andb_false_iff in V. rewrite !Z.leb_gt in V.
       by rewrite !(proj2 (Z.eqb_neq mode _)) by lia. }
  apply andb_true_iff in V as [V1%Z.leb_le V2%Z.leb_le].
  assert (E : mode = 0 \/ mode = 1 \/ mode = 2 \/ mode = 3 \/ mode = 4) by lia.
  unfold HR_GPIO_DRIVE_LOW, HR_GPIO_DRIVE_MEDIUM, HR_GPIO_DRIVE_HIGH, HR_GPIO_DRIVE_VERY_HIGH.
  destruct_or! E; subst; simpl; [by destruct (pull =? HR_GPIO_PULL_NONE)|..];
    destruct (Z.eqb_spec drive 0) as [->|]; try done; destruct (Z.eqb_spec drive 1) as [->|]; try done;
    by destruct ((drive =? 2) || (drive =? 3)).
Qed.

(** C38: Configuring a pin configures that pin: on a pin of the ports A to C and a mode of the
    interface the call returns true, the port is clocked, the four configuration bits of
    the pin are the ones the manual gives to the requested mode, pull and speed, those of all
    other pins of all ports are unchanged, and no output changes but that which selects the
    pull direction of an input; any other pin, mode or a null configuration is refused
    without an access.  (That the clock of the port is on before its registers are written is
    needed for their writes to take effect.) *)
Theorem gpio_configure_spec pin config p :
  match gpio_from_pin pin, config with
  | Some gpio, Some c =>
      let k := gpio_pin_index pin in
      if (k <? GPIO_PIN_COUNT) && valid_mode c then
        exists d, hr_gpio_configure pin config p = Some (true, pf_set_device d p) /\
          (forall g i, g ∈ ports -> 0 <= i < GPIO_PIN_COUNT ->
             pin_config d g i = if (g =? gpio) && (i =? k) then requested_code c else pin_config (pf_device p) g i) /\
          (forall g i, g ∈ ports -> 0 <= i ->
             output d g i = if pulled c && (g =? gpio) && (i =? k) then gc_pull c =? HR_GPIO_PULL_UP
                            else output (pf_device p) g i) /\
          reg d RCC_APB2ENR = Z.lor (reg (pf_device p) RCC_APB2ENR) (port_enable gpio) /\
          sent d = sent (pf_device p)
      else hr_gpio_configure pin config p = Some (false, p)
  | _, _ => hr_gpio_configure pin config p = Some (false, p)
  end.
Proof.
  destruct (gpio_from_pin pin) as [gpio|] eqn:E1; [|unfold hr_gpio_configure; by rewrite E1].
  destruct config as [c|]; [|unfold hr_gpio_configure; by rewrite E1]. cbv zeta.
  pose proof (build_nibble_spec c) as E2. destruct (valid_mode c).
  2: { rewrite andb_false_r. unfold hr_gpio_configure. by rewrite E1, E2. }
  set (n := requested_code c) in *. rewrite andb_true_r.
  destruct (Z.ltb_spec (gpio_pin_index pin) GPIO_PIN_COUNT) as [Hk|Hk].
  2: { unfold hr_gpio_configure. by rewrite E1, E2, (proj2 (Z.leb_le _ _) Hk). }
  assert (IP : is_pin pin gpio (gpio_pin_index pin)).
  { split; [done..|]. split; [|done]. apply Z.land_nonneg. by right. }
  assert (HW : wp (hr_gpio_configure pin (Some c)) (fun r p' => r = true /\ exists d, p' = pf_set_device d p /\
    eff (config_writes (pf_device p) gpio (gpio_pin_index pin) n c) [] (pf_device p) d) p).
  { apply (gpio_configure_effect pin gpio (gpio_pin_index pin) c n); [done..|]. eauto. }
  apply wp_returns in HW as (p' & E & d & -> & F). exists d. split; [done|].
  destruct (config_written _ d gpio _ n c (pin_port _ _ _ IP) (ip_range _ _ _ IP) (build_nibble_range _ _ E2) F) as (H1 & H2 & H3).
  split_and!; [done..|]. by rewrite (ef_sent F), app_nil_r.
Qed.

Lemma bit_clear o k : 0 <= k -> (Z.land o (Z.shiftl 1 k) =? 0) = negb (Z.testbit o k).
Proof.
  intros Hk. rewrite Z.shiftl_1_l. destruct (Z.testbit o k) eqn:Et; cbn [negb].
  - apply Z.eqb_neq. intros E. assert (B : Z.testbit 0 k = true); [|by rewrite Z.bits_0 in B].
    by rewrite <- E, Z.land_spec, Et, Z.pow2_bits_true.
  - apply Z.eqb_eq, Z.bits_inj'. intros m Hm. rewrite Z.land_spec, Z.pow2_bits_eqb, Z.bits_0 by done.
    destruct (Z.eqb_spec k m) as [<-|]; [by rewrite Et|apply andb_false_r].
Qed.

Lemma gpio_toggle_effect pin gpio k Q p : is_pin pin gpio k -> clocked (reg (pf_device p) RCC_APB2ENR) gpio = true ->
  (forall d1 d, eff ∅ [] (pf_device p) d1 ->
     eff {[GPIO_ODR gpio := (if negb (output (pf_device p) gpio k) then Z.lor else Z.ldiff) (reg d1 (GPIO_ODR gpio)) (Z.shiftl 1 k)]} [] d1 d ->
     Q tt (pf_set_device d p)) -> wp (hr_gpio_toggle pin) Q p.
Proof.
  intros IP HC K. pose proof (pin_port _ _ _ IP) as Hg. destruct IP as [E1 E2 E3]. unfold hr_gpio_toggle, GPIO_PIN_COUNT in *.
  rewrite E1, E2, (proj2 (Z.leb_gt 16 k)) by lia. wp_step.
  apply wp_read_back; [on_port Hg; member|by rewrite (port_clocked _ gpio) by (done || (rewrite !elem_of_cons; tauto))|]. intros d1 F1.
  assert (HC1 : clocked (reg d1 RCC_APB2ENR) gpio = true) by (by rewrite (ef_reg F1) by member).
  pose proof (pow2_bound k E3) as HB. rewrite bit_clear, negb_involutive by lia. unfold output in K.
  destruct (Z.testbit _ k); apply wp_reg_write, (K d1); try done; [by apply write_brr|by apply write_bsrr].
Qed.

(** Driving a pin of a clocked port sets its output, toggling flips it; every other output and
    every configuration stays, and a number that is no pin changes nothing. *)
Theorem gpio_output_spec pin high p :
  (forall gpio, gpio_from_pin pin = Some gpio -> clocked (reg (pf_device p) RCC_APB2ENR) gpio = true) ->
  match gpio_from_pin pin with
  | Some gpio =>
      let k := gpio_pin_index pin in
      if k <? GPIO_PIN_COUNT then
        (exists d, hr_gpio_write pin high p = Some (tt, pf_set_device d p) /\
          (forall g i, g ∈ ports -> 0 <= i ->
             output d g i = if (g =? gpio) && (i =? k) then high else output (pf_device p) g i) /\
          (forall g i, g ∈ ports -> pin_config d g i = pin_config (pf_device p) g i)) /\
        (exists d, hr_gpio_toggle pin p = Some (tt, pf_set_device d p) /\
          (forall g i, g ∈ ports -> 0 <= i ->
             output d g i = xorb ((g =? gpio) && (i =? k)) (output (pf_device p) g i)) /\
          (forall g i, g ∈ ports -> pin_config d g i = pin_config (pf_device p) g i))
      else hr_gpio_write pin high p = Some (tt, p) /\ hr_gpio_toggle pin p = Some (tt, p)
  | None => hr_gpio_write pin high p = Some (tt, p) /\ hr_gpio_toggle pin p = Some (tt, p)
  end.
Proof.
  intros HC. destruct (gpio_from_pin pin) as [gpio|] eqn:E1; [|unfold hr_gpio_write, hr_gpio_toggle; by rewrite E1]. cbv zeta.
  specialize (HC gpio eq_refl). destruct (Z.ltb_spec (gpio_pin_index pin) GPIO_PIN_COUNT) as [Hk|Hk].
  2: { unfold hr_gpio_write, hr_gpio_toggle. by rewrite E1, (proj2 (Z.leb_le _ _) Hk). }
  assert (Hn0 : 0 <= gpio_pin_index pin) by (apply Z.land_nonneg; by right).
  assert (IP : is_pin pin gpio (gpio_pin_index pin)) by done. pose proof (pin_port _ _ _ IP) as Hg. split.
  - assert (HW : wp (hr_gpio_write pin high) (fun r p' => r = tt /\ exists d, p' = pf_set_device d p /\
      eff {[GPIO_ODR gpio := (if high then Z.lor else Z.ldiff) (reg (pf_device p) (GPIO_ODR gpio)) (Z.shiftl 1 (gpio_pin_index pin))]} []
        (pf_device p) d) p).
    { apply (gpio_write_effect pin gpio (gpio_pin_index pin)); [done|done|]. eauto. }
    apply wp_returns in HW as (p' & E & d & -> & F). exists d. split; [done|]. by apply output_written.
  - set (up := negb (output (pf_device p) gpio (gpio_pin_index pin))).
    assert (HW : wp (hr_gpio_toggle pin) (fun r p' => r = tt /\ exists d1 d, p' = pf_set_device d p /\ eff ∅ [] (pf_device p) d1 /\
      eff {[GPIO_ODR gpio := (if up then Z.lor else Z.ldiff) (reg d1 (GPIO_ODR gpio)) (Z.shiftl 1 (gpio_pin_index pin))]} [] d1 d) p).
    { apply (gpio_toggle_effect pin gpio (gpio_pin_index pin)); [done|done|]. eauto 8. }
    apply wp_returns in HW as (p' & E & d1 & d & -> & F1 & F2). exists d. split; [done|].
    destruct (output_written d1 d gpio _ up Hg Hn0 F2) as [O2 C2].
    assert (O1 : forall g i, g ∈ ports -> output d1 g i = output (pf_device p) g i).
    { intros g i Hg'. unfold output. by rewrite (ef_reg F1) by apply (odr_facts g 0 Hg'). }
    split; intros g i Hg'; [intros Hi; rewrite O2, O1 by done|rewrite C2 by done; unfold pin_config; by rewrite (ef_reg F1) by apply (config_register_facts g i Hg')].
    destruct (Z.eqb_spec g gpio) as [->|]; cbn [andb]; [|done]. destruct (Z.eqb_spec i (gpio_pin_index pin)) as [->|]; cbn; [|done].
    by destruct (output (pf_device p) gpio (gpio_pin_index pin)).
Qed.
End gpio.

(** The LED of the board, PC13, as a slow output of the simulated device. *)
Lemma gpio_configure_spec_witness : exists d,
  hr_gpio_configure 0x20D (Some (mk_gpio_config HR_GPIO_MODE_OUTPUT_PUSH_PULL HR_GPIO_PULL_NONE HR_GPIO_DRIVE_LOW)) (pf_reset true) =
    Some (true, pf_set_device d (pf_reset true)) /\
  pin_config d STM32F1_GPIOC 13 = 2 /\ pin_config d STM32F1_GPIOC 12 = 0 /\ reg d RCC_APB2ENR = RCC_APB2ENR_IOPCEN.
Proof.
  destruct (gpio_configure_spec 0x20D (Some (mk_gpio_config HR_GPIO_MODE_OUTPUT_PUSH_PULL HR_GPIO_PULL_NONE HR_GPIO_DRIVE_LOW)) (pf_reset true))
    as (d & E & C & _ & R & _). exists d. split; [exact E|].
  split; [rewrite (C STM32F1_GPIOC 13); [vm_compute; reflexivity|vm_compute; repeat constructor|unfold GPIO_PIN_COUNT; lia]|].
  split; [rewrite (C STM32F1_GPIOC 12); [vm_compute; reflexivity|vm_compute; repeat constructor|unfold GPIO_PIN_COUNT; lia]|].
  exact R.
Defined.
