(* ===== verification/ConsoleProps.v ===== *)
(** The serial line and the console: every character is sent, in order, and numbers are
    printed so that they can be read back. *)
From stdpp Require Import gmap list.
From Stdlib Require Import String Ascii ZArith Lia.
From stdpp Require Import base list.
From S2P Require Import Prelude Soc Drivers Board DeviceSpec.
Open Scope Z_scope.

Section console.
Context {D : Type} `{Stm32f1 D} `{Polling}.
Abbreviation eff := (effect reg sent sws).

(** The serial line is clocked, and its transmitter enabled. *)
Record enabled (d : D) : Prop := {
  en_clock : Z.testbit (reg d RCC_APB2ENR) 14 = true;
  en_transmitter : Z.testbit (reg d USART1_CR1) 3 = true;
  en_usart : Z.testbit (reg d USART1_CR1) 13 = true;
}.

Lemma enabled_effect ws out d d' : ws !! USART1_CR1 = None -> ws !! RCC_APB2ENR = None -> eff ws out d d' -> enabled d -> enabled d'.
Proof. intros E1 E2 F [C T U]. split; by rewrite (ef_reg F), ?E1, ?E2 by member. Qed.
Lemma enabled_silent out d d' : eff ∅ out d d' -> enabled d -> enabled d'.
Proof. by apply enabled_effect. Qed.

Lemma poll_txe n : forall Q p, (tx_wait (pf_device p) < n)%nat -> enabled (pf_device p) ->
  (forall d, eff ∅ [] (pf_device p) d -> tx_wait d = 0%nat -> Q tt (pf_set_device d p)) ->
  wp (poll_until_set n USART1_SR USART_SR_TXE) Q p.
Proof.
  induction n as [|n IH]; intros Q p Hw HE K; [lia|]. cbn [poll_until_set]. wp_step. apply wp_reg_read. intros v d E F.
  pose proof (read_txe (pf_device p) (en_clock _ HE)) as L. rewrite E in L. destruct (tx_wait (pf_device p)) as [|m].
  - destruct L as [L1 L2]. rewrite (proj2 (Z.eqb_neq _ _) L1). wp_step. by apply K.
  - destruct L as [-> L2]. cbn [Z.eqb]. apply IH; cbn [pf_device pf_set_device]; [lia|by apply (enabled_silent [] (pf_device p))|]. intros d' F' W'.
    apply (K d'); [|done]. exact (effect_trans ∅ ∅ [] [] _ _ _ F F').
Qed.

(** [m] sends the characters [out] and changes nothing else. *)
Definition sends (m : M (platform D) unit) (out : list Z) : Prop := forall Q p, enabled (pf_device p) ->
  (forall d, eff ∅ out (pf_device p) d -> Q tt (pf_set_device d p)) -> wp m Q p.

Lemma sends_seq m1 m2 o1 o2 : sends m1 o1 -> sends m2 o2 -> sends (m1 ;;; m2) (o1 ++ o2).
Proof.
  intros S1 S2 Q p HE K. wp_step. apply S1; [done|]. intros d1 F1. apply S2; [by apply (enabled_silent o1 (pf_device p))|].
  intros d2 F2. apply K. exact (effect_trans ∅ ∅ _ _ _ _ _ F1 F2).
Qed.
Lemma sends_nothing : sends (retM tt) [].
Proof. intros Q p _ K. apply wp_ret. specialize (K _ (effect_refl _)). by destruct p. Qed.

Context (HP : (poll_limit < polls)%nat).

Lemma sends_char c : sends (hr_uart_write_char c) [c mod 256].
Proof.
  intros Q p HE K. unfold hr_uart_write_char. wp_step. apply poll_txe; [pose proof (waits_limited (pf_device p)); lia|done|].
  intros d F W. apply wp_reg_write. destruct (enabled_silent [] _ _ F HE) as [E0 E1 E2].
  pose proof (write_data (c mod 256) d E0 W E1 E2) as F2. rewrite Z.mod_mod in F2 by done.
  apply (K (dev_write USART1_DR (c mod 256) d)). exact (effect_trans ∅ ∅ [] [c mod 256] _ _ _ F F2).
Qed.

Lemma char_small c : char c mod 256 = char c.
Proof. apply Z.mod_small. unfold char. pose proof (N_ascii_bounded c). lia. Qed.

Definition chars (text : string) : list Z := char <$> list_ascii_of_string text.

Lemma sends_string text : sends (hr_uart_write_string (Some text)) (chars text).
Proof.
  induction text as [|c text IH]; [apply sends_nothing|].
  pose proof (sends_seq _ _ _ _ (sends_char (char c)) IH) as S. by rewrite char_small in S.
Qed.
Lemma sends_line text : sends (board_uart_write_line (Some text)) (chars text ++ chars crlf).
Proof. apply sends_seq; apply sends_string. Qed.

(** ** Decimal numbers *)

(** The digits of [v] from the last one on. *)
Fixpoint decimal_rev (n : nat) (v : Z) : list Z :=
  match n with
  | O => []
  | S n => if v =? 0 then [] else 48 + v mod 10 :: decimal_rev n (v / 10)
  end.

Lemma digits_loop_eq n : forall v acc, 0 <= v -> digits_loop n v acc = acc ++ decimal_rev n v.
Proof.
  induction n as [|n IH]; intros v acc Hv; simpl; [by rewrite app_nil_r|].
  destruct (Z.eqb_spec v 0); simpl; [by rewrite app_nil_r|].
  pose proof (Z.mod_pos_bound v 10). rewrite IH by (apply Z.div_pos; lia). rewrite <- app_assoc. simpl.
  change (char "0") with 48. by rewrite Z.mod_small by lia.
Qed.

(** Reading digits, the first one first. *)
Definition parse (base : Z) (value : Z -> Z) (ds : list Z) : Z := foldl (fun acc c => acc * base + value c) 0 ds.

Lemma decimal_rev_parse n : forall v, 0 <= v < 10 ^ Z.of_nat n ->
  parse 10 (fun c => c - 48) (reverse (decimal_rev n v)) = v.
Proof.
  induction n as [|n IH]; intros v Hv; cbn [decimal_rev]; [simpl in Hv; unfold parse; simpl; lia|].
  destruct (Z.eqb_spec v 0) as [->|Hn]; [done|]. rewrite reverse_cons. unfold parse in *. rewrite foldl_snoc, IH.
  - pose proof (Z.div_mod v 10). lia.
  - rewrite Nat2Z.inj_succ, Z.pow_succ_r in Hv by lia. split; [apply Z.div_pos; lia|]. apply Z.div_lt_upper_bound; lia.
Qed.

Lemma decimal_rev_digits n v : 0 <= v -> Forall (fun c => 48 <= c <= 57) (decimal_rev n v).
Proof.
  revert v. induction n as [|n IH]; intros v Hv; cbn [decimal_rev]; [done|]. destruct (v =? 0); [done|].
  constructor; [pose proof (Z.mod_pos_bound v 10); lia|]. apply IH. apply Z.div_pos; lia.
Qed.

(** The leading digit is not a zero. *)
Lemma decimal_rev_last n : forall v c, 0 <= v < 10 ^ Z.of_nat n -> last (decimal_rev n v) = Some c -> c <> 48.
Proof.
  induction n as [|n IH]; intros v c Hv; cbn [decimal_rev]; [done|]. destruct (Z.eqb_spec v 0); [done|].
  assert (Hd : 0 <= v / 10 < 10 ^ Z.of_nat n).
  { rewrite Nat2Z.inj_succ, Z.pow_succ_r in Hv by lia. split; [apply Z.div_pos; lia|]. apply Z.div_lt_upper_bound; lia. }
  destruct (decimal_rev n (v / 10)) as [|x l] eqn:E.
  - intros [= <-]. assert (v / 10 = 0).
    { destruct n; [simpl in Hd; lia|]. cbn [decimal_rev] in E. by destruct (Z.eqb_spec (v / 10) 0). }
    pose proof (Z.div_mod v 10). lia.
  - rewrite last_cons_cons, <- E. by apply IH.
Qed.

Lemma sends_digits ds : Forall (fun c => 48 <= c <= 57) ds -> forall k, (k <= List.length ds)%nat ->
  sends (write_digits_loop k ds) (reverse (take k ds)).
Proof.
  intros HD. induction k as [|k IH]; intros Hk; [apply sends_nothing|]. cbn [write_digits_loop].
  destruct (lookup_lt_is_Some_2 ds k) as [c Hc]; [lia|].
  rewrite (take_S_r ds k c Hc), reverse_app. rewrite (list_lookup_total_correct ds k c Hc).
  apply (sends_seq _ _ [c]); [|apply IH; lia]. pose proof (sends_char c) as S.
  apply (Forall_lookup_1 _ _ _ _ HD) in Hc. by rewrite Z.mod_small in S by lia.
Qed.

(** What is printed for [v]. *)
Definition decimal (v : Z) : list Z := if v =? 0 then [48] else reverse (decimal_rev 10 v).

Lemma sends_decimal v : 0 <= v <= UINT32_MAX -> sends (board_uart_write_u32 v) (decimal v).
Proof.
  intros Hv. unfold board_uart_write_u32, decimal. destruct (v =? 0); [exact (sends_char 48)|].
  rewrite digits_loop_eq by lia. cbn [app]. rewrite <- (firstn_all (decimal_rev 10 v)) at 3.
  apply sends_digits; [apply decimal_rev_digits; lia|done].
Qed.

Lemma decimal_spec v : 0 <= v <= UINT32_MAX -> let ds := decimal v in
  parse 10 (fun c => c - 48) ds = v /\ Forall (fun c => 48 <= c <= 57) ds /\ (head ds = Some 48 -> v = 0) /\
  (1 <= List.length ds <= 10)%nat.
Proof.
  intros Hv. unfold decimal, UINT32_MAX in *. destruct (Z.eqb_spec v 0) as [->|Hn]; [split_and!; auto; repeat constructor; done|].
  assert (Hb : 0 <= v < 10 ^ Z.of_nat 10) by (change (10 ^ Z.of_nat 10) with 10000000000; lia).
  split_and!.
  - by apply decimal_rev_parse.
  - apply Forall_reverse, decimal_rev_digits. lia.
  - rewrite head_reverse. intros E. by destruct (decimal_rev_last 10 v 48 Hb E).
  - rewrite length_reverse. cbn [decimal_rev]. rewrite (proj2 (Z.eqb_neq _ _) Hn). simpl. lia.
  - rewrite length_reverse. clear. generalize 10%nat. intros n. revert v.
    induction n as [|n IH]; intros v; simpl; [lia|]. destruct (v =? 0); simpl; [lia|]. specialize (IH (v / 10)). lia.
Qed.

(** ** Hexadecimal numbers *)
Definition hex_digit (n : Z) : Z := hex_digits !!! Z.to_nat n.
Definition hex_value (c : Z) : Z := if c <=? 57 then c - 48 else c - 55.

Lemma hex_digit_value n : 0 <= n < 16 -> hex_value (hex_digit n) = n /\ 0 <= hex_digit n < 256.
Proof.
  intros Hn. assert (E : n ∈ seqZ 0 16) by (by apply elem_of_seqZ).
  change (seqZ 0 16) with [0;1;2;3;4;5;6;7;8;9;10;11;12;13;14;15] in E. rewrite !elem_of_cons, elem_of_nil in E. destruct_or! E; try subst n; (split; [reflexivity|split; done]).
Qed.

(** The [n] last hexadecimal digits of [v]. *)
Fixpoint hexadecimal (n : nat) (v : Z) : list Z :=
  match n with O => [] | S n => hex_digit (Z.land (Z.shiftr v (4 * Z.of_nat n)) 0x0F) :: hexadecimal n v end.

Lemma land_0f x : Z.land x 0x0F = x mod 16.
Proof. change 0x0F with (Z.ones 4). by rewrite Z.land_ones. Qed.

Lemma sends_hexadecimal v n : sends (write_hex_loop n v) (hexadecimal n v).
Proof.
  induction n as [|n IH]; [apply sends_nothing|]. cbn [write_hex_loop hexadecimal].
  apply (sends_seq _ _ [_]); [|exact IH]. rewrite land_0f. set (x := _ mod 16).
  assert (Hx : 0 <= x < 16) by (by apply Z.mod_pos_bound). destruct (hex_digit_value x Hx) as [_ Hd].
  pose proof (sends_char (hex_digit x)) as S. by rewrite Z.mod_small in S.
Qed.

Lemma hexadecimal_parse v n : forall acc, 0 <= v ->
  foldl (fun acc c => acc * 16 + hex_value c) acc (hexadecimal n v) = acc * 16 ^ Z.of_nat n + v mod 16 ^ Z.of_nat n.
Proof.
  induction n as [|n IH]; intros acc Hv; [simpl; rewrite Z.mod_1_r; lia|]. cbn [hexadecimal foldl]. rewrite IH by done.
  rewrite land_0f. destruct (hex_digit_value (Z.shiftr v (4 * Z.of_nat n) mod 16)) as [-> _]; [by apply Z.mod_pos_bound|].
  rewrite Z.shiftr_div_pow2, Z.pow_mul_r, Nat2Z.inj_succ, Z.pow_succ_r by lia. change (2 ^ 4) with 16.
  assert (0 < 16 ^ Z.of_nat n) by (apply Z.pow_pos_nonneg; lia).
  rewrite (Z.mul_comm 16 (16 ^ Z.of_nat n)), Z.rem_mul_r by lia. lia.
Qed.

Lemma sends_hex32 v : sends (board_uart_write_hex32 v) (chars "0x" ++ hexadecimal 8 v).
Proof. apply sends_seq; [apply sends_string|apply sends_hexadecimal]. Qed.

Lemma sends_run m out p : sends m out -> enabled (pf_device p) -> exists d, m p = Some (tt, pf_set_device d p) /\ eff ∅ out (pf_device p) d.
Proof.
  intros S HE. assert (HW : wp m (fun r p' => r = tt /\ exists d, p' = pf_set_device d p /\ eff ∅ out (pf_device p) d) p) by (apply S; eauto).
  apply wp_returns in HW as (p' & E & d & -> & F). eauto.
Qed.

(** C39: What the console prints can be read back: on a clocked and enabled serial line, printing a number
    sends its decimal digits (the shortest ones, no leading zero, at most ten) and reading
    them gives the number; printing it in hexadecimal sends "0x" and eight digits that
    also read as the number; printing a string sends its characters.  Every character waits
    for the transmitter, nothing else is sent and no register changes. *)
Theorem console_round_trip v text p : 0 <= v <= UINT32_MAX -> enabled (pf_device p) ->
  (exists d ds, board_uart_write_u32 v p = Some (tt, pf_set_device d p) /\ eff ∅ ds (pf_device p) d /\
     parse 10 (fun c => c - 48) ds = v /\ Forall (fun c => 48 <= c <= 57) ds /\ (head ds = Some 48 -> v = 0) /\
     (1 <= List.length ds <= 10)%nat) /\
  (exists d ds, board_uart_write_hex32 v p = Some (tt, pf_set_device d p) /\ eff ∅ (chars "0x" ++ ds) (pf_device p) d /\
     parse 16 hex_value ds = v /\ List.length ds = 8%nat) /\
  (exists d, board_uart_write_string (Some text) p = Some (tt, pf_set_device d p) /\ eff ∅ (chars text) (pf_device p) d).
Proof.
  intros Hv HE. split_and!.
  - destruct (sends_run _ _ p (sends_decimal v Hv) HE) as (d & E & F). exists d, (decimal v). split; [done|]. split; [done|]. by apply decimal_spec.
  - destruct (sends_run _ _ p (sends_hex32 v) HE) as (d & E & F). exists d, (hexadecimal 8 v). split_and!; try done.
    unfold parse. rewrite hexadecimal_parse by lia. change (16 ^ Z.of_nat 8) with 4294967296. unfold UINT32_MAX in *.
    rewrite Z.mod_small; lia.
  - exact (sends_run _ _ p (sends_string text) HE).
Qed.

(** Receiving on a clocked line returns the byte that was there when the flag was read, if any,
    and takes it. *)
Theorem uart_read_spec p : Z.testbit (reg (pf_device p) RCC_APB2ENR) 14 = true -> exists d1 p', hr_uart_try_read_char true p = Some (rx d1, p') /\
  (is_Some (rx (pf_device p)) -> rx d1 = rx (pf_device p)) /\ eff ∅ [] (pf_device p) (pf_device p').
Proof.
  intros HC. unfold hr_uart_try_read_char, reg_read, bindM. cbn [negb].
  pose proof (read_rxne (pf_device p) HC) as L. pose proof (read_effect USART1_SR (pf_device p)) as F1.
  destruct (dev_read USART1_SR (pf_device p)) as [v d1]. cbn [snd] in F1. destruct L as [L1 L2].
  destruct (Z.eqb_spec (Z.land v USART_SR_RXNE) 0) as [Hz|Hz].
  - exists d1, (pf_set_device d1 p). split_and!; try done. unfold retM. repeat f_equal.
    symmetry. apply eq_None_not_Some. intros HS. by apply L1 in HS.
  - cbn [pf_device pf_set_device]. apply L1 in Hz as [b Hb].
    assert (HC1 : Z.testbit (reg d1 RCC_APB2ENR) 14 = true) by (by rewrite (ef_reg F1) by member).
    pose proof (read_data d1 b HC1 Hb) as L3. pose proof (read_effect USART1_DR d1) as F2.
    destruct (dev_read USART1_DR d1) as [w d2]. cbn [fst snd] in *. exists d1, (pf_set_device d2 p).
    split_and!; [unfold retM; by rewrite L3, Hb|done|]. exact (effect_trans ∅ ∅ [] [] _ _ _ F1 F2).
Qed.
End console.

(** The simulated board with its serial line on. *)
Definition pf_console : platform sim :=
  pf_set_device (dev_write USART1_CR1 0x200C (dev_write RCC_APB2ENR RCC_APB2ENR_USART1EN (sim_reset true))) (pf_reset true).

Lemma console_round_trip_witness : (exists d ds, board_uart_write_u32 72000000 pf_console = Some (tt, pf_set_device d pf_console) /\
  parse 10 (fun c => c - 48) ds = 72000000) /\ enabled (pf_device pf_console).
Proof.
  assert (HE : enabled (pf_device pf_console)) by (split; vm_compute; reflexivity). split; [|exact HE].
  assert (HP : (poll_limit < polls)%nat) by (vm_compute; lia).
  destruct (console_round_trip HP 72000000 "ok" pf_console ltac:(unfold UINT32_MAX; lia) HE)
    as ((d & ds & E & _ & P & _) & _). exists d, ds. split; [exact E|exact P].
Defined.
