(* ===== verification/ClockProps.v ===== *)
(** The clock tree: after the start-up code the variable [SystemCoreClock] is the frequency
    the processor runs at, and the flash has its wait states before the clock is raised. *)
From stdpp Require Import gmap list.
From Stdlib Require Import ZArith Lia.
From S2P Require Import Prelude Soc DeviceSpec.
Open Scope Z_scope.

Section clock.
Context {D : Type} `{Stm32f1 D}.
Abbreviation eff := (effect reg sent sws).

(** The source that is selected, and sources that only follow the selection. *)
Definition selected (d : D) : Z := Z.shiftl (Z.land (reg d RCC_CFGR) RCC_CFGR_SW_MASK) 2.
Definition follows (d d' : D) : Prop := sws d' = sws d \/ sws d' = selected d'.

(** Accesses that leave the configuration of the clock alone. *)
Record passive (ws : gmap Z Z) (d d' : D) : Prop := {
  pa_effect : eff ws [] d d';
  pa_cfgr : ws !! RCC_CFGR = None;
}.
Lemma pa_sws ws d d' : passive ws d d' -> follows d d'.
Proof. intros [F E]. exact (ef_sws F E). Qed.
Lemma passive_cfgr ws d d' : passive ws d d' -> reg d' RCC_CFGR = reg d RCC_CFGR.
Proof. intros [F E]. by rewrite (ef_reg F), E by member. Qed.

Lemma passive_silent d d1 d2 : passive ∅ d d1 -> passive ∅ d1 d2 -> passive ∅ d d2.
Proof. intros [F1 _] [F2 _]. split; [exact (effect_trans ∅ ∅ [] [] _ _ _ F1 F2)|by rewrite lookup_empty]. Qed.

Lemma clock_read a Q p :
  (forall v d, dev_read a (pf_device p) = (v, d) -> passive ∅ (pf_device p) d -> Q v (pf_set_device d p)) -> wp (reg_read a) Q p.
Proof. intros K. apply wp_reg_read. intros v d E F. apply K; [done|]. split; [done|by rewrite lookup_empty]. Qed.

(** The PLL is not switched on. *)
Definition stays_off (d d' : D) : Prop := pll_on d = false -> pll_on d' = false.

Lemma clock_write a v Q p : a ∈ plain_registers -> clock_bit a = None -> 0 <= v < 2 ^ 32 ->
  (forall d, passive {[a := v]} (pf_device p) d -> stays_off (pf_device p) d -> Q tt (pf_set_device d p)) -> wp (reg_write a v) Q p.
Proof.
  intros Ha Hc Hv K. assert (NP : (RCC_CFGR ∉ plain_registers) /\ (RCC_CR ∉ plain_registers)) by (split; not_member). destruct NP as [N1 N2].
  apply wp_reg_write, K; [split|].
  - apply write_plain; [done|unfold clocked; by rewrite Hc|done].
  - apply lookup_singleton_ne. by intros ->.
  - intros Hp. apply pll_write; [by intros ->|done].
Qed.

(** Waiting for a flag ends, after at most the time-out, with the flag set or not. *)
Lemma wait_for_mask_spec a mask expected n : forall Q p,
  (forall r d, passive ∅ (pf_device p) d -> stays_off (pf_device p) d ->
     (r = true -> exists d1 v, dev_read a d1 = (v, d) /\ reg d1 RCC_CFGR = reg d RCC_CFGR /\ Z.land v mask = expected) ->
     Q r (pf_set_device d p)) -> wp (wait_for_mask_loop n a mask expected) Q p.
Proof.
  assert (KV : forall d v d', dev_read a d = (v, d') -> passive ∅ d d' -> Z.land v mask = expected ->
    exists d1 v, dev_read a d1 = (v, d') /\ reg d1 RCC_CFGR = reg d' RCC_CFGR /\ Z.land v mask = expected).
  { intros d v d' E P Hv. exists d, v. split_and!; [done| |done]. by rewrite (passive_cfgr _ _ _ P). }
  induction n as [|n IH]; intros Q p K; cbn [wait_for_mask_loop]; wp_step; apply clock_read; intros v d E P;
    pose proof (pll_read a (pf_device p)) as L; rewrite E in L; fold (stays_off (pf_device p) d) in L;
    destruct (Z.eqb_spec (Z.land v mask) expected) as [Hv|Hv]; cbn [negb].
  - wp_step. apply K; [done|done|]. intros _. by apply (KV (pf_device p) v).
  - wp_step. by apply K.
  - wp_step. apply K; [done|done|]. intros _. by apply (KV (pf_device p) v).
  - apply IH. intros r d' P' L' Hr. apply (K r d'); [|by intros Hp%L%L'|done]. exact (passive_silent _ _ _ P P').
Qed.

(** ** Raising the clock *)

(** The two configurations the code writes. *)
Definition CFGR_PLL_OFF : Z := 0x1D8400.
Definition CFGR_PLL_ON : Z := 0x1D8402.

(** The state of the clock tree after the attempt: the internal oscillator is selected and runs
    the system, or the multiplied external one is selected, with the flash prepared. *)
Inductive clock_state (d : D) : Prop :=
| clock_internal : (reg d RCC_CFGR = 0 \/ reg d RCC_CFGR = CFGR_PLL_OFF) -> sws d = 0 -> clock_state d
| clock_external : reg d RCC_CFGR = CFGR_PLL_ON -> sws d = 0 \/ sws d = RCC_CFGR_SWS_PLL ->
    reg d FLASH_ACR = Z.lor FLASH_ACR_PRFTBE FLASH_ACR_LATENCY_2 -> clock_state d.

Lemma internal_stays ws c d d' : (c = 0 \/ c = CFGR_PLL_OFF) -> reg d RCC_CFGR = c -> sws d = 0 -> passive ws d d' ->
  reg d' RCC_CFGR = c /\ sws d' = 0.
Proof.
  intros Hc E S P. rewrite (passive_cfgr _ _ _ P). split; [done|].
  destruct (pa_sws _ _ _ P) as [ES|ES]; [congruence|]. rewrite ES. unfold selected. rewrite (passive_cfgr _ _ _ P), E.
  by destruct Hc as [-> | ->].
Qed.

(** The control register, on the way of which no register changes.  While the internal
    oscillator runs the system the PLL is off afterwards if the written value says so. *)
Lemma clock_cr (f : Z -> Z) c Q p : (c = 0 \/ c = CFGR_PLL_OFF) -> reg (pf_device p) RCC_CFGR = c -> sws (pf_device p) = 0 ->
  (forall d, passive ∅ (pf_device p) d ->
     ((forall v, (pll_on (pf_device p) = false -> Z.testbit v 24 = false) -> Z.testbit (f v) 24 = false) -> pll_on d = false) ->
     Q tt (pf_set_device d p)) ->
  wp (let* v := reg_read RCC_CR in reg_write RCC_CR (f v)) Q p.
Proof.
  intros Hc E0 S0 K. wp_step. apply clock_read. intros v d1 Er P1. apply wp_reg_write. apply (K (dev_write RCC_CR (f v) d1)).
  - refine (passive_silent _ _ _ P1 _). split; [apply write_none; member|by rewrite lookup_empty].
  - intros L. destruct (internal_stays ∅ c _ _ Hc E0 S0 P1) as [E1 S1].
    apply pll_switched; [|done|rewrite E1; by destruct Hc as [-> | ->]].
    apply L. intros Hp. pose proof (read_pllon (pf_device p) Hp) as B. by rewrite Er in B.
Qed.

(** Only the clock configuration and the wait states of the flash change. *)
Definition clock_only (d d' : D) : Prop := sent d' = sent d /\
  forall a, a ∈ registers -> a <> RCC_CFGR -> a <> FLASH_ACR -> reg d' a = reg d a.
Lemma clock_only_trans d d1 d2 : clock_only d d1 -> clock_only d1 d2 -> clock_only d d2.
Proof. intros [S1 R1] [S2 R2]. split; [congruence|]. intros a Ha N1 N2. by rewrite R2, R1. Qed.
Lemma clock_only_effect ws d d' : eff ws [] d d' -> (forall a, a <> RCC_CFGR -> a <> FLASH_ACR -> ws !! a = None) -> clock_only d d'.
Proof.
  intros F N. split; [by rewrite (ef_sent F), app_nil_r|]. intros a Ha N1 N2. by rewrite (ef_reg F), N by done.
Qed.
Lemma clock_only_passive d d' : passive ∅ d d' -> clock_only d d'.
Proof. intros [F _]. by apply (clock_only_effect ∅). Qed.

Lemma write_cfgr_spec v Q p : 0 <= v < 2 ^ 32 ->
  pll_on (pf_device p) = false \/ Z.land v PLL_FIELDS = Z.land (reg (pf_device p) RCC_CFGR) PLL_FIELDS -> let c := Z.ldiff v RCC_CFGR_SWS_MASK in
  (forall d, reg d RCC_CFGR = c -> reg d FLASH_ACR = reg (pf_device p) FLASH_ACR -> clock_only (pf_device p) d ->
     sws d = sws (pf_device p) \/ sws d = Z.shiftl (Z.land c RCC_CFGR_SW_MASK) 2 -> Q tt (pf_set_device d p)) ->
  wp (reg_write RCC_CFGR v) Q p.
Proof.
  intros Hv Hp c K. apply wp_reg_write. pose proof (write_cfgr v (pf_device p) Hv Hp) as F.
  assert (E : reg (dev_write RCC_CFGR v (pf_device p)) RCC_CFGR = c) by (rewrite (ef_reg F) by member; by rewrite lookup_singleton_eq).
  apply K; [done| | |].
  - rewrite (ef_reg F) by member. by rewrite lookup_singleton_ne.
  - apply (clock_only_effect _ _ _ F). intros a Ha _. by rewrite lookup_singleton_ne.
  - rewrite <- E. apply switch_cfgr.
Qed.

(** Any exit of the configuration: what it has reached, and the clock variable it leaves. *)
Definition attempted (d0 d : D) (r : bool) : Prop :=
  clock_state d /\ clock_only d0 d /\ (r = true -> sws d = RCC_CFGR_SWS_PLL).

(** The last part of the configuration: the switch to the multiplied external oscillator. *)
Lemma switch_to_pll_spec Q p : reg (pf_device p) RCC_CFGR = CFGR_PLL_OFF -> sws (pf_device p) = 0 ->
  reg (pf_device p) FLASH_ACR = Z.lor FLASH_ACR_PRFTBE FLASH_ACR_LATENCY_2 ->
  (forall r d clk, attempted (pf_device p) d r -> (r = false -> clk = SystemCoreClock p) -> Q r (pf_set_clock clk (pf_set_device d p))) ->
  wp (let* cfgr := reg_read RCC_CFGR in
      reg_write RCC_CFGR (Z.lor (Z.ldiff cfgr RCC_CFGR_SW_MASK) RCC_CFGR_SW_PLL) ;;;
      let* ready := wait_for_mask RCC_CFGR RCC_CFGR_SWS_MASK RCC_CFGR_SWS_PLL in
      if negb ready then retM false else modifyM (pf_set_clock 72000000) ;;; retM true) Q p.
Proof.
  intros E6 S6 A6 K. unfold wait_for_mask. wp_step. apply clock_read. intros v d7 Er P7. cbn [pf_device pf_set_device] in *.
  destruct (internal_stays ∅ CFGR_PLL_OFF _ _ (or_intror eq_refl) E6 S6 P7) as [E7 S7].
  assert (Hv : v = CFGR_PLL_OFF). { pose proof (read_cfgr (pf_device p)) as L. rewrite Er, E6, S7 in L. exact L. } subst v.
  assert (A7 : reg d7 FLASH_ACR = Z.lor FLASH_ACR_PRFTBE FLASH_ACR_LATENCY_2).
  { rewrite (ef_reg (pa_effect _ _ _ P7)) by member. exact A6. }
  assert (HF : Z.land (Z.lor (Z.ldiff CFGR_PLL_OFF RCC_CFGR_SW_MASK) RCC_CFGR_SW_PLL) PLL_FIELDS = Z.land (reg d7 RCC_CFGR) PLL_FIELDS)
    by (rewrite E7; reflexivity).
  wp_step. apply write_cfgr_spec; [done|right; exact HF|]. cbv zeta. intros d8 E8 A8 O8 S8. cbn [pf_device pf_set_device] in *.
  change (reg d8 RCC_CFGR = CFGR_PLL_ON) in E8. rewrite A7 in A8.
  wp_step. apply wait_for_mask_spec. intros r3 d9 P9 _ Hr3. cbn [pf_device pf_set_device] in *.
  assert (O9 : clock_only (pf_device p) d9).
  { apply (clock_only_trans _ d8); [|by apply clock_only_passive]. by apply (clock_only_trans _ d7); [apply clock_only_passive|]. }
  assert (S9 : sws d9 = 0 \/ sws d9 = RCC_CFGR_SWS_PLL).
  { rewrite S7 in S8. destruct (pa_sws _ _ _ P9) as [ES|ES]; [|right; rewrite ES; unfold selected; by rewrite (passive_cfgr _ _ _ P9), E8].
    rewrite ES. destruct S8 as [-> | ->]; [by left|by right]. }
  assert (C9 : clock_state d9).
  { apply clock_external; [by rewrite (passive_cfgr _ _ _ P9)|done|]. by rewrite (ef_reg (pa_effect _ _ _ P9)), lookup_empty, A8 by member. }
  destruct r3; cbn [negb].
  - wp_step. wp_step. wp_step. apply (K true d9 72000000); [|done]. split_and!; [done..|]. intros _.
    destruct (Hr3 eq_refl) as (d' & v & Ev & Ec & Hm). pose proof (read_cfgr d') as L.
    rewrite Ev, Ec, (passive_cfgr _ _ _ P9), E8 in L. subst v. by destruct S9 as [S9|S9]; rewrite S9 in *.
  - wp_step. by apply (K false d9 (SystemCoreClock p)).
Qed.

(** The attempt to run from the external oscillator. *)
Lemma configure_spec Q p : reg (pf_device p) RCC_CFGR = 0 -> sws (pf_device p) = 0 -> pll_on (pf_device p) = false ->
  (forall r d clk, attempted (pf_device p) d r -> (r = false -> clk = SystemCoreClock p) -> Q r (pf_set_clock clk (pf_set_device d p))) ->
  wp stm32f1_clock_configure_hse_pll_72mhz Q p.
Proof.
  intros E0 S0 L0 K. unfold stm32f1_clock_configure_hse_pll_72mhz. unfold wait_for_mask at 1 2. unfold reg_or.
  wp_step. apply (clock_cr (fun v => Z.lor v RCC_CR_HSEON) 0); [by left|done|done|]. intros d1 P1 L1.
  wp_step. apply wait_for_mask_spec. intros r1 d2 P2 L2 _.
  assert (HL2 : pll_on d2 = false).
  { apply L2, L1. intros v Hv. rewrite Z.lor_spec, (Hv L0). reflexivity. } pose proof (passive_silent _ _ _ P1 P2) as P12.
  destruct (internal_stays ∅ 0 _ _ (or_introl eq_refl) E0 S0 P12) as [E2 S2]. pose proof (clock_only_passive _ _ P12) as O2.
  destruct r1; cbn [negb];
    [|wp_step; apply (K false d2 (SystemCoreClock p)); [split_and!; [by apply clock_internal; [left|]|done|done]|done]].
  wp_step. apply clock_write; [member|done|done|]. intros d3 P3 L3. cbn [pf_device pf_set_device] in P3.
  destruct (internal_stays _ 0 _ _ (or_introl eq_refl) E2 S2 P3) as [E3 S3].
  assert (A3 : reg d3 FLASH_ACR = Z.lor FLASH_ACR_PRFTBE FLASH_ACR_LATENCY_2).
  { rewrite (ef_reg (pa_effect _ _ _ P3)) by member. by rewrite lookup_singleton_eq. }
  assert (O3 : clock_only d2 d3).
  { apply (clock_only_effect _ _ _ (pa_effect _ _ _ P3)). intros a _ N. by rewrite lookup_singleton_ne. }
  wp_step. apply write_cfgr_spec; [done|left; by apply L3|]. cbv zeta. intros d4 E4 A4 O4 S4. cbn [pf_device pf_set_device] in *.
  assert (HS4 : sws d4 = 0) by (by destruct S4 as [-> | ->]). change (reg d4 RCC_CFGR = CFGR_PLL_OFF) in E4. rewrite A3 in A4.
  wp_step. apply (clock_cr (fun v => Z.lor v RCC_CR_PLLON) CFGR_PLL_OFF); [by right|done|done|]. intros d5 P5 _.
  wp_step. apply wait_for_mask_spec. intros r2 d6 P6 _ _.
  cbn [pf_device pf_set_device] in *. pose proof (passive_silent _ _ _ P5 P6) as P56.
  destruct (internal_stays ∅ CFGR_PLL_OFF _ _ (or_intror eq_refl) E4 HS4 P56) as [E6 S6].
  assert (O6 : clock_only (pf_device p) d6).
  { apply (clock_only_trans _ d4); [|by apply clock_only_passive]. by do 2 (eapply clock_only_trans; [|done]). }
  destruct r2; cbn [negb];
    [|wp_step; apply (K false d6 (SystemCoreClock p)); [split_and!; [by apply clock_internal; [right|]|done|done]|done]].
  apply switch_to_pll_spec; [done|done|by rewrite (ef_reg (pa_effect _ _ _ P56)) by member|].
  intros r d clk (C & O & R) Hr. apply (K r d clk); [|done]. split_and!; [done| |done]. exact (clock_only_trans _ _ _ O6 O).
Qed.

(** Reading the configuration while the PLL drives the system. *)
Lemma pll_read Q p : reg (pf_device p) RCC_CFGR = CFGR_PLL_ON -> sws (pf_device p) = RCC_CFGR_SWS_PLL ->
  (forall d, reg d RCC_CFGR = CFGR_PLL_ON -> sws d = RCC_CFGR_SWS_PLL -> passive ∅ (pf_device p) d ->
     Q (Z.lor CFGR_PLL_ON RCC_CFGR_SWS_PLL) (pf_set_device d p)) -> wp (reg_read RCC_CFGR) Q p.
Proof.
  intros E S K. apply clock_read. intros v d Er P. pose proof (passive_cfgr _ _ _ P) as E'. rewrite E in E'.
  assert (S' : sws d = RCC_CFGR_SWS_PLL).
  { destruct (pa_sws _ _ _ P) as [ES|ES]; [congruence|]. rewrite ES. unfold selected. by rewrite E'. }
  pose proof (read_cfgr (pf_device p)) as L. rewrite Er, E, S' in L. subst v. by apply K.
Qed.

(** ** The start-up code *)
Lemma clock_state_passive d d' : clock_state d -> passive ∅ d d' -> clock_state d' /\ clock_only d d'.
Proof.
  intros C P. split; [|by apply clock_only_passive]. destruct C as [Hc S|E S A].
  - destruct (internal_stays ∅ (reg d RCC_CFGR) d d' Hc eq_refl S P) as [E' S']. apply clock_internal; [by rewrite E'|done].
  - pose proof (passive_cfgr _ _ _ P) as E'. apply clock_external; [congruence| |by rewrite (ef_reg (pa_effect _ _ _ P)) by member].
    destruct (pa_sws _ _ _ P) as [ES|ES]; [by rewrite ES|]. right. rewrite ES. unfold selected. by rewrite E', E.
Qed.

(** The frequency of the system clock: eight megahertz, or nine times as much from the PLL. *)
Definition frequency (d : D) : Z := if sws d =? RCC_CFGR_SWS_PLL then 72000000 else 8000000.

Lemma hclk_spec Q p : clock_state (pf_device p) ->
  (forall d, passive ∅ (pf_device p) d -> clock_state d -> Q (frequency d) (pf_set_device d p)) ->
  wp stm32f1_clock_get_hclk_hz Q p.
Proof.
  intros C K. unfold stm32f1_clock_get_hclk_hz. wp_step. apply clock_read. intros v d E P. wp_step.
  destruct (clock_state_passive _ _ C P) as [C' _]. specialize (K d P C').
  pose proof (read_cfgr (pf_device p)) as L. rewrite E, <- (passive_cfgr _ _ _ P) in L. subst v. unfold frequency in K.
  destruct C' as [[E'|E'] S|E' [S|S] _]; rewrite E', S in *; exact K.
Qed.

Context `{Polling} (HP : (poll_limit < polls)%nat).

Lemma poll_hsirdy n : forall Q p, (hsi_wait (pf_device p) < n)%nat -> hsi_on (pf_device p) = true ->
  (forall d, passive ∅ (pf_device p) d -> Q tt (pf_set_device d p)) -> wp (poll_until_set n RCC_CR RCC_CR_HSIRDY) Q p.
Proof.
  induction n as [|n IH]; intros Q p Hw Ho K; [lia|]. cbn [poll_until_set]. wp_step. apply clock_read. intros v d E P.
  pose proof (read_hsirdy (pf_device p) Ho) as L. pose proof (hsi_read RCC_CR (pf_device p)) as LO. rewrite E in L, LO. cbn [snd] in LO.
  destruct (hsi_wait (pf_device p)) as [|m].
  - rewrite (proj2 (Z.eqb_neq _ _) L). wp_step. by apply K.
  - destruct L as [-> L2]. cbn [Z.eqb]. apply IH; cbn [pf_device pf_set_device]; [lia|by rewrite LO|].
    intros d' P'. apply (K d'). exact (passive_silent _ _ _ P P').
Qed.

Lemma clock_hsi_on Q p : (forall d, passive ∅ (pf_device p) d -> hsi_on d = true -> Q tt (pf_set_device d p)) -> wp (reg_or RCC_CR RCC_CR_HSION) Q p.
Proof.
  intros K. unfold reg_or. wp_step. apply clock_read. intros v d1 _ P1. apply wp_reg_write.
  apply (K (dev_write RCC_CR (Z.lor v RCC_CR_HSION) d1)).
  - refine (passive_silent _ _ _ P1 _). split; [apply write_none; member|by rewrite lookup_empty].
  - apply hsi_switched. rewrite Z.lor_spec. by rewrite orb_true_r.
Qed.

(** The registers of the reset of the clock tree and of the start-up code. *)
Definition reset_clocks : list Z := [RCC_CFGR; FLASH_ACR; RCC_CIR; SCB_VTOR].
Definition touches_only (l : list Z) (d d' : D) : Prop :=
  sent d' = sent d /\ forall a, a ∈ registers -> a ∉ l -> reg d' a = reg d a.

Lemma touches_trans l d d1 d2 : touches_only l d d1 -> touches_only l d1 d2 -> touches_only l d d2.
Proof. intros [S1 R1] [S2 R2]. split; [congruence|]. intros a Ha N. by rewrite R2, R1. Qed.
Lemma touches_clock_only l d d' : RCC_CFGR ∈ l -> FLASH_ACR ∈ l -> clock_only d d' -> touches_only l d d'.
Proof. intros Hc Hf [S R]. split; [done|]. intros a Ha N. apply R; [done|by intros ->..]. Qed.
Lemma touches_write l a v d d' : a ∈ l -> passive {[a := v]} d d' -> touches_only l d d'.
Proof.
  intros Ha [F _]. split; [by rewrite (ef_sent F), app_nil_r|]. intros b Hb N. rewrite (ef_reg F) by done.
  rewrite lookup_singleton_ne; [done|by intros ->].
Qed.

Lemma reset_clock_tree_spec Q p : reg (pf_device p) RCC_CFGR = 0 -> sws (pf_device p) = 0 ->
  (forall d, reg d RCC_CFGR = 0 -> sws d = 0 -> pll_on d = false -> reg d RCC_CIR = 0 -> touches_only reset_clocks (pf_device p) d ->
     Q tt (pf_set_clock 8000000 (pf_set_device d p))) -> wp system_reset_clock_tree Q p.
Proof.
  intros E0 S0 K. unfold system_reset_clock_tree. wp_step. apply clock_hsi_on. intros d1 P1 Ho.
  wp_step. apply poll_hsirdy; [cbn [pf_device pf_set_device]; pose proof (waits_limited d1); lia|done|]. intros d2 P2.
  pose proof (passive_silent _ _ _ P1 P2) as P12. destruct (internal_stays ∅ 0 _ _ (or_introl eq_refl) E0 S0 P12) as [E2 S2].
  wp_step. apply write_cfgr_spec; [done|right; cbn; by rewrite E2|]. cbv zeta. intros d3 E3 _ O3 S3. cbn [pf_device pf_set_device] in *.
  assert (HS3 : sws d3 = 0) by (by destruct S3 as [-> | ->]). change (reg d3 RCC_CFGR = 0) in E3.
  wp_step. unfold reg_clear. apply (clock_cr (fun v => Z.ldiff v _) 0); [by left|done|done|]. intros d4 P4 L4. cbn [pf_device pf_set_device] in *.
  destruct (internal_stays ∅ 0 _ _ (or_introl eq_refl) E3 HS3 P4) as [E4 S4].
  assert (HL4 : pll_on d4 = false) by (apply L4; intros v _; rewrite Z.ldiff_spec; apply andb_false_r).
  wp_step. apply clock_write; [member|done|done|]. intros d5 P5 L5. cbn [pf_device pf_set_device] in *.
  destruct (internal_stays _ 0 _ _ (or_introl eq_refl) E4 S4 P5) as [E5 S5].
  wp_step. apply clock_write; [member|done|done|]. intros d6 P6 L6. cbn [pf_device pf_set_device] in *.
  destruct (internal_stays _ 0 _ _ (or_introl eq_refl) E5 S5 P6) as [E6 S6].
  wp_step. apply (K d6); try done.
  - by apply L6, L5.
  - rewrite (ef_reg (pa_effect _ _ _ P6)), lookup_singleton_ne, (ef_reg (pa_effect _ _ _ P5)) by (done || member). by rewrite lookup_singleton_eq.
  - apply (touches_trans _ _ d5); [|by apply (touches_write _ FLASH_ACR FLASH_ACR_LATENCY_0); [member|]].
    apply (touches_trans _ _ d4); [|by apply (touches_write _ RCC_CIR 0); [member|]].
    apply touches_clock_only; [member|member|]. apply (clock_only_trans _ d3); [|by apply clock_only_passive].
    by apply (clock_only_trans _ d2); [apply clock_only_passive|].
Qed.

(** C36: After the start-up code the clock is what the program believes it to be.  From the reset
    value of the clock configuration, and whether or not the crystal and the PLL start (each wait is bounded by its
    time-out), [SystemInit] ends with the vector table set, [SystemCoreClock] equal to the
    frequency the system clock has (8 MHz from the internal oscillator or 72 MHz from the
    PLL), and two wait states and the prefetch buffer on whenever the PLL is selected; the
    peripheral bus clocks are then 36 and 72 MHz. *)
Theorem system_init_clock vectors p : 0 <= vectors < 2 ^ 32 ->
  reg (pf_device p) RCC_CFGR = 0 -> sws (pf_device p) = 0 ->
  exists p', let d := pf_device p' in SystemInit vectors p = Some (tt, p') /\
    clock_state d /\ SystemCoreClock p' = frequency d /\
    (sws d = RCC_CFGR_SWS_PLL -> reg d FLASH_ACR = Z.lor FLASH_ACR_PRFTBE FLASH_ACR_LATENCY_2 /\
       (fst <$> stm32f1_clock_get_pclk1_hz p') = Some 36000000 /\ (fst <$> stm32f1_clock_get_pclk2_hz p') = Some 72000000) /\
    reg d SCB_VTOR = vectors /\ touches_only reset_clocks (pf_device p) d.
Proof.
  intros Hv E0 S0. set (R := fun p' : platform D => let d := pf_device p' in clock_state d /\ SystemCoreClock p' = frequency d /\
    reg d SCB_VTOR = vectors /\ touches_only reset_clocks (pf_device p) d).
  assert (HW : wp (SystemInit vectors) (fun r p' => r = tt /\ R p') p).
  { unfold SystemInit. wp_step. apply reset_clock_tree_spec; [done|done|]. intros d1 E1 S1 L1 I1 T1.
    wp_step. apply clock_write; [member|done|done|]. intros d2 P2 L2. cbn [pf_device pf_set_device pf_set_clock] in *.
    destruct (internal_stays _ 0 _ _ (or_introl eq_refl) E1 S1 P2) as [E2 S2].
    wp_step. apply configure_spec; [done|done|by apply L2|]. intros r d3 clk (C3 & O3 & _) _. cbn [pf_device pf_set_device pf_set_clock] in *.
    unfold SystemCoreClockUpdate. wp_step. apply hclk_spec; [done|]. intros d4 P4 C4. cbn [pf_device pf_set_device pf_set_clock] in *.
    wp_step. split; [done|]. pose proof (clock_only_trans _ _ _ O3 (clock_only_passive _ _ P4)) as O4.
    split_and!; [done|done| |].
    - destruct O4 as [_ O4]. cbn. rewrite O4 by (done || member). rewrite (ef_reg (pa_effect _ _ _ P2)) by member. by rewrite lookup_singleton_eq.
    - apply (touches_trans _ _ d1); [done|]. apply (touches_trans _ _ d2); [by apply (touches_write _ SCB_VTOR vectors); [member|]|].
      by apply touches_clock_only; [member|member|]. }
  apply wp_returns in HW as (p' & E & C & HF & HV & HT). exists p'. split_and!; try done. intros HS.
  destruct C as [_ S|EC _ A]; [by rewrite S in HS|]. split; [done|].
  assert (HX : forall B (m : M (platform D) B) x, wp m (fun r _ => r = x) p' -> fst <$> m p' = Some x).
  { intros B m x (y & s' & -> & ->)%wp_run. done. }
  split; apply HX; unfold stm32f1_clock_get_pclk1_hz, stm32f1_clock_get_pclk2_hz, stm32f1_clock_get_hclk_hz;
    (wp_step; apply pll_read; [done|done|]; intros d1 E1 S1 _; wp_step; wp_step; apply pll_read; [done|done|];
     intros d2 _ _ _; wp_step; wp_step; by vm_compute).
Qed.
End clock.

Lemma system_init_clock_witness : exists p', SystemInit 0x08000000 (pf_reset true) = Some (tt, p') /\
  SystemCoreClock p' = frequency (pf_device p').
Proof.
  assert (HP : (poll_limit < polls)%nat) by (vm_compute; lia).
  destruct (system_init_clock HP 0x08000000 (pf_reset true) ltac:(lia) ltac:(vm_compute; reflexivity) ltac:(vm_compute; reflexivity))
    as (p' & E & _ & HF & _). exists p'. split; [exact E|exact HF].
Defined.

(** With its crystal the simulated board reaches 72 MHz, without it stays at 8 MHz. *)
Example sim_starts_72mhz : (SystemCoreClock ∘ snd) <$> SystemInit 0x08000000 (pf_reset true) = Some 72000000.
Proof. vm_compute. reflexivity. Qed.
Example sim_without_crystal : (SystemCoreClock ∘ snd) <$> SystemInit 0x08000000 (pf_reset false) = Some 8000000.
Proof. vm_compute. reflexivity. Qed.
