(* ===== verification/BoardProps.v ===== *)
(** The board: the serial line gets the nearest baud rate, the tick its period, and
    [board_init] ends with the board as the application expects it; a delay ends in time. *)
From stdpp Require Import gmap list.
From Stdlib Require Import String Ascii ZArith Lia.
From stdpp Require Import base list.
From S2P Require Import Prelude Soc Drivers Board DeviceSpec GpioProps ConsoleProps ClockProps.
Open Scope Z_scope.

Section board.
Context {D : Type} `{Stm32f1 D}.
Abbreviation eff := (effect reg sent sws).

(** The clock has settled on the selected source. *)
Definition settled (d : D) : Prop := clock_state d /\ sws d = selected d.

Lemma settled_passive ws out d d' : (forall a, a ∈ [RCC_CFGR; FLASH_ACR] -> ws !! a = None) -> settled d ->
  eff ws out d d' -> settled d' /\ frequency d' = frequency d.
Proof.
  intros N [C S] F. pose proof (ef_sws F (N RCC_CFGR ltac:(set_solver))) as FO. assert (EC : reg d' RCC_CFGR = reg d RCC_CFGR) by (by rewrite (ef_reg F), N by member).
  assert (EA : reg d' FLASH_ACR = reg d FLASH_ACR) by (by rewrite (ef_reg F), N by member).
  assert (ES : selected d' = selected d) by (unfold selected; by rewrite EC).
  assert (E : sws d' = sws d) by (destruct FO as [FO|FO]; [done|rewrite FO, S; exact ES]).
  split; [|unfold frequency; by rewrite E]. split; [|congruence].
  destruct C as [Hc Hs|Hc Hs Ha]; [apply clock_internal|apply clock_external]; congruence || by rewrite ?EC, ?E, ?EA.
Qed.

(** The registers of the pins. *)
Definition gpio_registers : list Z := (GPIO_CRL <$> ports) ++ (GPIO_CRH <$> ports) ++ (GPIO_ODR <$> ports).

(** Whatever leaves the registers in [l] alone. *)
Definition avoids (ws : gmap Z Z) (l : list Z) : Prop := forall a, a ∈ l -> ws !! a = None.
Lemma avoids_empty l : avoids ∅ l.
Proof. intros a _. apply lookup_empty. Qed.
Lemma avoids_singleton a v l : a ∉ l -> avoids {[a := v]} l.
Proof. intros N b Hb. apply lookup_singleton_ne. by intros ->. Qed.
Lemma avoids_union ws1 ws2 l : avoids ws1 l -> avoids ws2 l -> avoids (ws1 ∪ ws2) l.
Proof. intros A1 A2 a Ha. by rewrite lookup_union, A1, A2. Qed.

Lemma pins_kept ws out d d' : avoids ws gpio_registers -> eff ws out d d' ->
  (forall g i, g ∈ ports -> pin_config d' g i = pin_config d g i) /\
  (forall g i, g ∈ ports -> output d' g i = output d g i).
Proof.
  intros N F. split; intros g i Hg.
  - destruct (config_register_facts g i Hg) as (_ & _ & C & _). unfold pin_config. rewrite (ef_reg F), N; [done| |done].
    unfold config_register. destruct (i <? 8); on_port Hg; member.
  - unfold output. rewrite (ef_reg F), N; [done| |apply (odr_facts g 0 Hg)]. on_port Hg; member.
Qed.

Lemma config_writes_avoids d gpio k n c l : gpio ∈ ports -> (forall a, a ∈ RCC_APB2ENR :: gpio_registers -> a ∉ l) ->
  avoids (config_writes d gpio k n c) l.
Proof.
  intros Hg N. unfold config_writes. apply avoids_union; [destruct (pulled c); [|apply avoids_empty]|apply avoids_union]; apply avoids_singleton, N.
  - on_port Hg; member.
  - unfold config_register. destruct (k <? 8); on_port Hg; member.
  - member.
Qed.

(** ** The serial line *)

(** The peripheral clock of a settled clock tree is its frequency. *)
Lemma pclk2_spec Q p : settled (pf_device p) ->
  (forall d, eff ∅ [] (pf_device p) d -> Q (frequency (pf_device p)) (pf_set_device d p)) -> wp stm32f1_clock_get_pclk2_hz Q p.
Proof.
  intros ST K. unfold stm32f1_clock_get_pclk2_hz. wp_step. apply clock_read. intros v d1 E1 P1.
  destruct (settled_passive ∅ [] _ d1 (avoids_empty _) ST (pa_effect _ _ _ P1)) as [ST1 F1].
  wp_step. apply hclk_spec; [apply ST1|]. intros d2 P2 _. cbn [pf_device pf_set_device] in *. wp_step.
  destruct (settled_passive ∅ [] _ d2 (avoids_empty _) ST1 (pa_effect _ _ _ P2)) as [_ F2].
  specialize (K d2 (pa_effect _ _ _ (passive_silent _ _ _ P1 P2))). rewrite F2, F1.
  assert (HD : decode_apb_prescaler (Z.land (Z.shiftr v 11) 0x07) = 1); [|by rewrite HD, Z.div_1_r].
  pose proof (read_cfgr (pf_device p)) as L. rewrite E1 in L. subst v. destruct ST1 as [C1 _].
  rewrite <- (passive_cfgr _ _ _ P1). by destruct C1 as [[-> | ->] -> | -> [-> | ->] _].
Qed.

(** The divisor that is written for a baud rate. *)
Definition divisor (f baud : Z) : Z := u32 (f + baud / 2) / baud.

(** It is the nearest one. *)
Lemma divisor_nearest f baud : 0 < baud -> 0 <= f -> f + baud / 2 <= UINT32_MAX ->
  2 * Z.abs (divisor f baud * baud - f) <= baud.
Proof.
  intros Hb Hf Hm. unfold divisor. assert (0 <= baud / 2) by (apply Z.div_pos; lia). rewrite u32_small by lia.
  pose proof (Z.div_mod (f + baud / 2) baud). pose proof (Z.mod_pos_bound (f + baud / 2) baud).
  pose proof (Z.div_mod baud 2). pose proof (Z.mod_pos_bound baud 2). nia.
Qed.

(** The state of the peripherals after the serial line is set up. *)
Record uart_ready (d d' : D) (tx rx : Z * Z) (f baud : Z) : Prop := {
  ur_clocks : reg d' RCC_APB2ENR = Z.lor (Z.lor (Z.lor (reg d RCC_APB2ENR) (Z.lor RCC_APB2ENR_AFIOEN RCC_APB2ENR_USART1EN))
    (port_enable tx.1)) (port_enable rx.1);
  ur_divisor : reg d' USART1_BRR = divisor f baud;
  ur_enabled : reg d' USART1_CR1 = Z.lor USART_CR1_TE (Z.lor USART_CR1_RE USART_CR1_UE);
  ur_pins : forall g i, g ∈ ports -> 0 <= i < GPIO_PIN_COUNT -> pin_config d' g i =
    if (g =? rx.1) && (i =? rx.2) then 4 else if (g =? tx.1) && (i =? tx.2) then 0xB else pin_config d g i;
  ur_outputs : forall g i, g ∈ ports -> 0 <= i -> output d' g i = output d g i;
  ur_sent : sent d' = sent d;
  ur_settled : settled d';
  ur_frequency : frequency d' = frequency d;
}.

(** The writes to the registers of the serial line. *)
Definition usart_registers : list Z := [USART1_CR1; USART1_CR2; USART1_CR3; USART1_BRR].
Lemma usart_write a v Q p : a ∈ usart_registers -> Z.testbit (reg (pf_device p) RCC_APB2ENR) 14 = true -> 0 <= v < 2 ^ 32 ->
  (forall d, eff {[a := v]} [] (pf_device p) d -> Z.testbit (reg d RCC_APB2ENR) 14 = true -> Q tt (pf_set_device d p)) ->
  wp (reg_write a v) Q p.
Proof.
  intros Ha HC Hv K. assert (HA : a ∈ plain_registers /\ clock_bit a = Some 14 /\ a <> RCC_APB2ENR).
  { unfold usart_registers in Ha. rewrite !elem_of_cons, elem_of_nil in Ha. destruct_or! Ha; try done; subst a; (split; [member|done]). }
  destruct HA as (HA & HB & HN). apply wp_write_plain; [done|unfold clocked; by rewrite HB|done|]. intros d F. apply K; [done|].
  by rewrite (ef_reg F), lookup_singleton_ne by (done || member).
Qed.

Lemma usart_writes_spec div Q p : 0 <= div < 2 ^ 32 -> Z.testbit (reg (pf_device p) RCC_APB2ENR) 14 = true ->
  (forall ws d, (forall a, a ∉ usart_registers -> ws !! a = None) -> ws !! USART1_BRR = Some div ->
     ws !! USART1_CR1 = Some (Z.lor USART_CR1_TE (Z.lor USART_CR1_RE USART_CR1_UE)) -> eff ws [] (pf_device p) d -> Q true (pf_set_device d p)) ->
  wp (reg_write USART1_CR1 0 ;;; reg_write USART1_CR2 0 ;;; reg_write USART1_CR3 0 ;;; reg_write USART1_BRR div ;;;
      reg_write USART1_CR1 (Z.lor USART_CR1_TE (Z.lor USART_CR1_RE USART_CR1_UE)) ;;; retM true) Q p.
Proof.
  intros Hd HC K. wp_step. apply usart_write; [member|done|done|]. intros d5 F5 C5. wp_step. apply usart_write; [member|done|done|]. intros d6 F6 C6.
  wp_step. apply usart_write; [member|done|done|]. intros d7 F7 C7. wp_step. apply usart_write; [member|done|exact Hd|]. intros d8 F8 C8.
  wp_step. apply usart_write; [member|done|done|]. intros d9 F9 _. cbn [pf_device pf_set_device] in *. wp_step.
  pose proof (effect_trans _ _ _ _ _ _ _ (effect_trans _ _ _ _ _ _ _ (effect_trans _ _ _ _ _ _ _ (effect_trans _ _ _ _ _ _ _ F5 F6) F7) F8) F9) as F.
  refine (K _ d9 _ _ _ F); [|by rewrite !lookup_union|by rewrite !lookup_union].
  intros a Ha. unfold usart_registers in Ha. rewrite !not_elem_of_cons in Ha. destruct Ha as (N1 & N2 & N3 & N4 & _).
  by rewrite !lookup_union, !lookup_singleton_ne.
Qed.

Lemma uart_init_ready tx rx gt kt gr kr baud Q p :
  is_pin tx gt kt -> is_pin rx gr kr -> 0 < baud < 2 ^ 32 -> settled (pf_device p) ->
  frequency (pf_device p) + baud / 2 <= UINT32_MAX ->
  (forall d, uart_ready (pf_device p) d (gt, kt) (gr, kr) (frequency (pf_device p)) baud -> Q true (pf_set_device d p)) ->
  wp (hr_uart_init (Some (mk_uart_config HR_STM32F1_UART1 baud tx rx))) Q p.
Proof.
  intros IT IR Hb ST Hm K. pose proof (pin_port _ _ _ IT) as GT. pose proof (pin_port _ _ _ IR) as GR. unfold hr_uart_init. cbn [uc_instance uc_baud_rate uc_tx_pin uc_rx_pin].
  rewrite (proj2 (Z.eqb_neq baud 0)) by lia. cbn [orb negb HR_STM32F1_UART1 Z.eqb Pos.eqb].
  assert (NC : forall a, a ∈ RCC_APB2ENR :: gpio_registers -> a ∉ [RCC_CFGR; FLASH_ACR]) by (intros a; apply apart_not; member).
  wp_step. apply wp_reg_or; [member|member|done|done|]. intros d1 F1.
  assert (E1 : reg d1 RCC_APB2ENR = Z.lor (reg (pf_device p) RCC_APB2ENR) (Z.lor RCC_APB2ENR_AFIOEN RCC_APB2ENR_USART1EN))
    by (rewrite (ef_reg F1) by member; by rewrite lookup_singleton_eq).
  destruct (settled_passive _ _ _ d1 (avoids_singleton RCC_APB2ENR _ [RCC_CFGR; FLASH_ACR] ltac:(not_member)) ST F1) as [ST1 HF1].
  destruct (pins_kept _ _ _ d1 (avoids_singleton RCC_APB2ENR _ gpio_registers ltac:(not_member)) F1) as [P1 O1].
  wp_step. apply (gpio_configure_effect tx gt kt tx_config 0xB); [done|reflexivity|]. intros d2 F2. cbn [negb pf_device pf_set_device] in *.
  destruct (settled_passive _ _ _ d2 (config_writes_avoids _ _ _ _ _ _ GT NC) ST1 F2) as [ST2 HF2].
  destruct (config_written _ d2 gt kt 0xB tx_config GT (ip_range _ _ _ IT) ltac:(lia) F2) as (P2 & O2 & E2).
  wp_step. apply (gpio_configure_effect rx gr kr rx_config 4); [done|reflexivity|]. intros d3 F3. cbn [negb pf_device pf_set_device] in *.
  destruct (settled_passive _ _ _ d3 (config_writes_avoids _ _ _ _ _ _ GR NC) ST2 F3) as [ST3 HF3].
  destruct (config_written _ d3 gr kr 4 rx_config GR (ip_range _ _ _ IR) ltac:(lia) F3) as (P3 & O3 & E3).
  wp_step. apply pclk2_spec; [done|]. intros d4 F4. cbn [pf_device pf_set_device] in *.
  assert (HF : frequency d3 = frequency (pf_device p)) by congruence. rewrite HF.
  assert (HZ : (frequency (pf_device p) =? 0) = false) by (unfold frequency; by destruct (sws (pf_device p) =? _)). rewrite HZ.
  fold (divisor (frequency (pf_device p)) baud). set (div := divisor _ _).
  assert (HD : 0 <= div < 2 ^ 32).
  { unfold div, divisor. pose proof (u32_range (frequency (pf_device p) + baud / 2)) as R. unfold UINT32_MAX in R.
    split; [apply Z.div_pos; lia|]. apply Z.div_lt_upper_bound; nia. }
  rewrite E2, E1 in E3.
  assert (EN : Z.testbit (reg d4 RCC_APB2ENR) 14 = true).
  { rewrite (ef_reg F4) by member. rewrite lookup_empty. change (default ?x None) with x. rewrite E3, !Z.lor_spec.
    change (Z.testbit RCC_APB2ENR_USART1EN 14) with true. by rewrite !orb_true_r. }
  apply (usart_writes_spec div); [exact HD|exact EN|]. intros ws d9 A9 B9 C9 F9. cbn [pf_device pf_set_device] in *. apply (K d9).
  pose proof (effect_trans _ _ _ _ _ _ _ F4 F9) as F. rewrite map_union_empty in F. cbn [app] in F.
  assert (AV : forall l, apart l usart_registers -> avoids ws l) by (intros l N a Ha; by apply A9, (apart_not l)).
  destruct (settled_passive ws [] d3 d9 (AV [RCC_CFGR; FLASH_ACR] ltac:(member)) ST3 F) as [ST9 HF9].
  destruct (pins_kept ws [] d3 d9 (AV gpio_registers ltac:(member)) F) as [P9 O9]. split; try done; [| | | | | |congruence].
  - rewrite (ef_reg F), A9 by (member || not_member). exact E3.
  - by rewrite (ef_reg F), B9 by member.
  - by rewrite (ef_reg F), C9 by member.
  - intros g i Hg Hi. by rewrite P9, P3, P2, P1 by done.
  - intros g i Hg Hi. by rewrite O9, O3, O2, O1 by done.
  - by rewrite (ef_sent F), (ef_sent F3), (ef_sent F2), (ef_sent F1), !app_nil_r.
Qed.

(** ** The tick *)

(** The writes to the tick timer: it stands while its period is set. *)
Lemma hw_timer_init_effect rate Q p : 0 < rate <= SystemCoreClock p -> SystemCoreClock p <= UINT32_MAX ->
  SystemCoreClock p / rate - 1 <= SYSTICK_LOAD_RELOAD_MASK ->
  (forall ws d, (forall a, a ∉ [SYSTICK_CTRL; SYSTICK_LOAD] -> ws !! a = None) ->
     ws !! SYSTICK_LOAD = Some (SystemCoreClock p / rate - 1) -> ws !! SYSTICK_CTRL = Some 7 -> eff ws [] (pf_device p) d ->
     Q true (pf_set_device d (pf_set_rate rate (pf_set_tick 0 p)))) ->
  wp (hr_hw_timer_init rate) Q p.
Proof.
  intros Hr Hm Hl K. unfold hr_hw_timer_init. wp_step. wp_step.
  rewrite (proj2 (Z.eqb_neq rate 0)), (proj2 (Z.ltb_ge _ _)) by lia. cbn [orb].
  assert (H1 : 1 <= SystemCoreClock p / rate) by (apply Z.div_le_lower_bound; lia).
  unfold SYSTICK_LOAD_RELOAD_MASK in *. rewrite u32_small by (unfold UINT32_MAX; lia). rewrite (proj2 (Z.ltb_ge _ _)) by lia.
  do 4 wp_step. wp_step. apply wp_write_plain; [member|done|done|]. intros d1 F1. wp_step. apply wp_write_plain; [member|done|lia|]. intros d2 F2.
  wp_step. apply wp_reg_write. wp_step. apply wp_write_plain; [member|done|done|]. intros d4 F4. cbn [pf_device pf_set_device pf_set_rate pf_set_tick] in *. wp_step.
  pose proof (write_none SYSTICK_VAL 0 d2 ltac:(member)) as F3.
  pose proof (effect_trans _ _ _ _ _ _ _ (effect_trans _ _ _ _ _ _ _ (effect_trans _ _ _ _ _ _ _ F1 F2) F3) F4) as F.
  refine (K _ d4 _ _ _ F); [|by rewrite !lookup_union|by rewrite !lookup_union].
  intros a Ha. rewrite !not_elem_of_cons in Ha. destruct Ha as (N1 & N2 & _). by rewrite !lookup_union, lookup_empty, !lookup_singleton_ne.
Qed.

(** The tick timer: a rate that is zero, faster than the clock or too slow for the 24-bit
    counter is refused without an access; otherwise the counter has the longest period
    that does not exceed the requested one, and time starts at zero. *)
Theorem hw_timer_init_spec rate p : 0 <= rate -> 0 <= SystemCoreClock p <= UINT32_MAX ->
  let f := SystemCoreClock p in
  if (rate =? 0) || (f <? rate) || (SYSTICK_LOAD_RELOAD_MASK <? f / rate - 1)
  then hr_hw_timer_init rate p = Some (false, p)
  else exists d, hr_hw_timer_init rate p = Some (true, pf_set_device d (pf_set_rate rate (pf_set_tick 0 p))) /\
    reg d SYSTICK_CTRL = 7 /\ 0 <= reg d SYSTICK_LOAD <= SYSTICK_LOAD_RELOAD_MASK /\
    (reg d SYSTICK_LOAD + 1) * rate <= f < (reg d SYSTICK_LOAD + 2) * rate.
Proof.
  intros Hr Hf f. destruct ((rate =? 0) || (f <? rate)) eqn:E1; cbn [orb].
  { unfold hr_hw_timer_init, bindM, getM. fold f. by rewrite E1. }
  apply orb_false_iff in E1 as [E1 E2]. apply Z.eqb_neq in E1. apply Z.ltb_ge in E2.
  assert (H1 : 1 <= f / rate) by (apply Z.div_le_lower_bound; lia).
  assert (H2 : f / rate <= f) by (apply Z.div_le_upper_bound; nia).
  destruct (Z.ltb_spec SYSTICK_LOAD_RELOAD_MASK (f / rate - 1)) as [E3|E3].
  - unfold hr_hw_timer_init, bindM, getM. fold f. rewrite (proj2 (Z.eqb_neq rate 0)), (proj2 (Z.ltb_ge f rate)) by lia. cbn [orb].
    unfold UINT32_MAX in *. rewrite u32_small by (unfold UINT32_MAX; lia). by rewrite (proj2 (Z.ltb_lt _ _) E3).
  - assert (HW : wp (hr_hw_timer_init rate) (fun r p' => r = true /\ exists d, p' = pf_set_device d (pf_set_rate rate (pf_set_tick 0 p)) /\
      reg d SYSTICK_CTRL = 7 /\ reg d SYSTICK_LOAD = f / rate - 1) p).
    { apply hw_timer_init_effect; [unfold f in *; lia|lia|done|]. intros ws d _ L C F. split; [done|]. exists d. split; [done|].
      by rewrite !(ef_reg F), L, C by member. }
    apply wp_returns in HW as (p' & E & d & -> & HC & HL). exists d. rewrite HL. split_and!; [done|done|lia|done| |];
      pose proof (Z.div_mod f rate); pose proof (Z.mod_pos_bound f rate); nia.
Qed.

(** ** The start of the board *)
Context `{Polling} (HP : (poll_limit < polls)%nat).

(** What the board prints when it starts at frequency [f]. *)
Definition line (text : string) : list Z := chars text ++ chars crlf.
Definition banner (f : Z) : list Z :=
  line "" ++ line "hairtos platform boot" ++ chars "Board: " ++ line board_get_name ++ chars "CPU: " ++ line board_get_cpu_name ++
  chars "Core clock: " ++ decimal f ++ line " Hz" ++
  line (if f =? 72000000 then "Clock source: HSE 8 MHz -> PLL x9" else "WARNING: HSE/PLL startup failed; using HSI fallback").

(** Like [sends], for code that looks at the clock variable. *)
Definition prints (f : Z) (m : M (platform D) unit) (out : list Z) : Prop := forall Q p, SystemCoreClock p = f ->
  enabled (pf_device p) -> (forall d, eff ∅ out (pf_device p) d -> Q tt (pf_set_device d p)) -> wp m Q p.
Lemma prints_sends f m out : sends m out -> prints f m out.
Proof. intros S Q p _. apply S. Qed.
Lemma prints_seq f m1 m2 o1 o2 : prints f m1 o1 -> prints f m2 o2 -> prints f (m1 ;;; m2) (o1 ++ o2).
Proof.
  intros S1 S2 Q p Hf HE K. wp_step. apply S1; [done|done|]. intros d1 F1. apply S2; [done|by apply (enabled_silent o1 (pf_device p))|].
  intros d2 F2. apply K. exact (effect_trans ∅ ∅ _ _ _ _ _ F1 F2).
Qed.
Lemma prints_get f k out : (forall p, SystemCoreClock p = f -> prints f (k p) out) -> prints f (bindM getM k) out.
Proof. intros S Q p Hf HE K. wp_step. wp_step. by apply (S p). Qed.

Lemma prints_banner f : 0 <= f <= UINT32_MAX -> prints f board_print_boot_banner (banner f).
Proof.
  intros Hf. assert (SL : forall text, prints f (board_uart_write_line (Some text)) (line text)) by (intros; by apply prints_sends, sends_line).
  assert (SS : forall text, prints f (board_uart_write_string (Some text)) (chars text)) by (intros; by apply prints_sends, sends_string).
  unfold board_print_boot_banner, banner. do 7 (apply prints_seq; [auto|]). apply prints_get. intros p1 E1.
  apply prints_seq; [unfold board_get_core_clock_hz; rewrite E1; by apply prints_sends, sends_decimal|].
  apply prints_seq; [auto|]. apply prints_get. intros p2 E2. unfold board_clock_is_nominal. rewrite E2. destruct (f =? 72000000); auto.
Qed.

(** The pins of the board. *)
Lemma led_pin : is_pin BOARD_LED_PIN STM32F1_GPIOC 13.
Proof. by split. Qed.
Lemma tx_pin : is_pin BOARD_UART_TX_PIN STM32F1_GPIOA 9.
Proof. by split. Qed.
Lemma rx_pin : is_pin BOARD_UART_RX_PIN STM32F1_GPIOA 10.
Proof. by split. Qed.

Lemma frequency_cases d : frequency d = 72000000 \/ frequency d = 8000000.
Proof. unfold frequency. destruct (_ =? _); auto. Qed.

(** The state of the peripherals when the board has started at frequency [f]: the clocks of the
    alternate functions, the ports A and C and the serial line are switched on, and no others. *)
Record booted (d0 d : D) (f : Z) : Prop := {
  bt_clocks : reg d RCC_APB2ENR = Z.lor (reg d0 RCC_APB2ENR)
    (Z.lor RCC_APB2ENR_AFIOEN (Z.lor RCC_APB2ENR_IOPAEN (Z.lor RCC_APB2ENR_IOPCEN RCC_APB2ENR_USART1EN)));
  bt_banner : sent d = sent d0 ++ banner f;
  bt_led : pin_config d STM32F1_GPIOC 13 = 2 /\ output d STM32F1_GPIOC 13 = true;
  bt_uart_pins : pin_config d STM32F1_GPIOA 9 = 0xB /\ pin_config d STM32F1_GPIOA 10 = 4;
  bt_uart : enabled d /\ 2 * Z.abs (reg d USART1_BRR * BOARD_UART_BAUD_RATE - f) <= BOARD_UART_BAUD_RATE;
  bt_tick : reg d SYSTICK_CTRL = 7 /\ (reg d SYSTICK_LOAD + 1) * BOARD_TIMER_RATE_HZ = f;
}.

(** The last part of the start: the tick and the banner. *)
Lemma tick_banner_spec Q p : let f := SystemCoreClock p in f = 72000000 \/ f = 8000000 -> enabled (pf_device p) ->
  (forall ws d, (forall a, a ∉ [SYSTICK_CTRL; SYSTICK_LOAD] -> ws !! a = None) -> eff ws (banner f) (pf_device p) d ->
     reg d SYSTICK_CTRL = 7 -> (reg d SYSTICK_LOAD + 1) * BOARD_TIMER_RATE_HZ = f ->
     Q true (pf_set_device d (pf_set_rate BOARD_TIMER_RATE_HZ (pf_set_tick 0 p)))) ->
  wp (let* timer := hr_hw_timer_init BOARD_TIMER_RATE_HZ in
      if negb timer then board_panic ;;; retM false else board_print_boot_banner ;;; retM true) Q p.
Proof.
  intros f HF HE K. wp_step. apply hw_timer_init_effect; fold f; [unfold BOARD_TIMER_RATE_HZ; lia|unfold UINT32_MAX; lia|by destruct HF as [-> | ->]|].
  intros ws d4 A4 L4 C4 F4. cbn [negb]. wp_step.
  apply (prints_banner f); [unfold UINT32_MAX; lia|done|by apply (enabled_effect ws [] (pf_device p)); [apply A4; not_member|apply A4; not_member|..]|].
  intros d5 F5. cbn [pf_device pf_set_device] in *. wp_step.
  pose proof (effect_trans _ _ _ _ _ _ _ F4 F5) as F. rewrite map_empty_union in F. apply (K ws d5); [done|done| |].
  - by rewrite (ef_reg F), C4 by member.
  - rewrite (ef_reg F), L4 by member. by destruct HF as [-> | ->].
Qed.

(** The LED pin after it was configured and switched off. *)
Lemma led_off d0 d1 d2 : eff (config_writes d0 STM32F1_GPIOC 13 2 led_config) [] d0 d1 ->
  eff {[GPIO_ODR STM32F1_GPIOC := Z.lor (reg d1 (GPIO_ODR STM32F1_GPIOC)) (Z.shiftl 1 13)]} [] d1 d2 -> settled d0 ->
  settled d2 /\ frequency d2 = frequency d0 /\ sent d2 = sent d0 /\
  pin_config d2 STM32F1_GPIOC 13 = 2 /\ output d2 STM32F1_GPIOC 13 = true /\
  reg d2 RCC_APB2ENR = Z.lor (reg d0 RCC_APB2ENR) RCC_APB2ENR_IOPCEN.
Proof.
  intros F1 F2 ST. pose proof (pin_port _ _ _ led_pin) as GC.
  assert (NC : forall a, a ∈ RCC_APB2ENR :: gpio_registers -> a ∉ [RCC_CFGR; FLASH_ACR]) by (intros a; apply apart_not; member).
  destruct (settled_passive _ _ _ d1 (config_writes_avoids _ _ _ _ _ _ GC NC) ST F1) as [ST1 HF1].
  destruct (config_written _ d1 _ 13 2 led_config GC (ip_range _ _ _ led_pin) ltac:(lia) F1) as (P1 & O1 & E1).
  destruct (settled_passive _ _ _ d2 (avoids_singleton (GPIO_ODR STM32F1_GPIOC) _ [RCC_CFGR; FLASH_ACR] ltac:(not_member)) ST1 F2) as [ST2 HF2].
  destruct (output_written d1 d2 STM32F1_GPIOC 13 true GC ltac:(lia) F2) as [O2 P2].
  split_and!; [done|congruence|by rewrite (ef_sent F2), (ef_sent F1), !app_nil_r|by rewrite P2, P1 by done|by rewrite O2 by done|].
  rewrite (ef_reg F2), lookup_singleton_ne by (done || member). exact E1.
Qed.

Lemma board_init_spec Q p : settled (pf_device p) -> SystemCoreClock p = frequency (pf_device p) ->
  (forall d, booted (pf_device p) d (frequency (pf_device p)) ->
     Q true (pf_set_device d (pf_set_rate BOARD_TIMER_RATE_HZ (pf_set_tick 0 p)))) -> wp board_init Q p.
Proof.
  intros ST HC K. assert (HF := frequency_cases (pf_device p)). set (f := frequency (pf_device p)) in *.
  unfold board_init. wp_step. apply (gpio_configure_effect _ _ _ led_config 2 _ _ led_pin); [reflexivity|]. intros d1 F1. cbn [negb].
  wp_step. unfold board_led_off. apply (gpio_write_effect _ _ _ true _ _ led_pin).
  { destruct (config_written _ d1 _ 13 2 led_config (pin_port _ _ _ led_pin) (ip_range _ _ _ led_pin) ltac:(lia) F1) as (_ & _ & E1).
    cbn [pf_device pf_set_device]. rewrite E1. apply port_enabled, (pin_port _ _ _ led_pin). }
  intros d2 F2. cbn [pf_device pf_set_device] in *.
  destruct (led_off _ _ _ F1 F2 ST) as (ST2 & HF2 & S2 & P2 & O2 & E2). fold f in HF2.
  wp_step. unfold board_uart_config, BOARD_UART_INSTANCE. apply (uart_init_ready _ _ _ _ _ _ _ _ _ tx_pin rx_pin); [done|done| |].
  { cbn [pf_device pf_set_device]. rewrite HF2. unfold UINT32_MAX. by destruct HF as [-> | ->]. }
  intros d3 U3. cbn [negb pf_device pf_set_device] in *. rewrite HF2 in U3. destruct U3 as [U0 U1 U2 U3 U4 U5 _ _].
  assert (HC3 : reg d3 RCC_APB2ENR = Z.lor (reg (pf_device p) RCC_APB2ENR)
    (Z.lor RCC_APB2ENR_AFIOEN (Z.lor RCC_APB2ENR_IOPAEN (Z.lor RCC_APB2ENR_IOPCEN RCC_APB2ENR_USART1EN)))).
  { rewrite U0, E2, <- !Z.lor_assoc. f_equal. }
  assert (HE : enabled d3).
  { split; [|by rewrite U2..]. rewrite HC3, !Z.lor_spec. change (Z.testbit RCC_APB2ENR_USART1EN 14) with true. by rewrite !orb_true_r. }
  apply tick_banner_spec; cbn [SystemCoreClock pf_set_device]; rewrite ?HC; [done|done|].
  intros ws d A F HT HL. cbn [pf_device pf_set_device] in *. rewrite ?HC in *. fold f in F, HL. apply (K d).
  assert (AV : forall l, apart l [SYSTICK_CTRL; SYSTICK_LOAD] -> avoids ws l) by (intros l N a Ha; by apply A, (apart_not l)).
  destruct (pins_kept ws _ d3 d (AV gpio_registers ltac:(member)) F) as [PK OK].
  assert (G : STM32F1_GPIOA ∈ ports /\ STM32F1_GPIOC ∈ ports) by (split; member). destruct G as [GA GC].
  split.
  - rewrite (ef_reg F), A by (member || not_member). exact HC3.
  - by rewrite (ef_sent F), U5, S2.
  - split; [rewrite PK, U3 by done; exact P2|rewrite OK, U4 by done; exact O2].
  - split; by rewrite PK, U3 by done.
  - split; [apply (enabled_effect ws (banner f) d3); [apply A; not_member|apply A; not_member|done|done]|].
    rewrite (ef_reg F) by member. rewrite A by not_member. change (default ?x None) with x. rewrite U1.
    apply divisor_nearest; [done|lia|]. unfold UINT32_MAX. by destruct HF as [-> | ->].
  - done.
Qed.

(** C37: The board starts: from a settled clock tree, at 72 MHz as well as on the internal oscillator,
    [board_init] does not panic but returns with the clocks of the ports A and C, of the
    alternate functions and of the serial line on and no other one changed, the LED configured
    and off, the serial line on its pins at the divisor nearest to 115200 baud and enabled, the tick timer
    running with a period of exactly one millisecond, the count of milliseconds at zero and the
    banner, with the actual frequency, sent completely. *)
Theorem board_boots p : settled (pf_device p) -> SystemCoreClock p = frequency (pf_device p) ->
  exists p', board_init p = Some (true, p') /\ booted (pf_device p) (pf_device p') (frequency (pf_device p)) /\
    board_millis p' = 0 /\ g_tick_rate_hz p' = BOARD_TIMER_RATE_HZ /\ pf_irq_disabled p' = pf_irq_disabled p.
Proof.
  intros ST HC. apply wp_returns. apply board_init_spec; [done|done|]. intros d B. by split_and!.
Qed.
End board.

Definition pf_started : platform sim := run_state (SystemInit 0x08000000) (pf_reset true).
Lemma board_boots_witness : settled (pf_device pf_started) /\ exists p', board_init pf_started = Some (true, p') /\
  booted (pf_device pf_started) (pf_device p') 72000000.
Proof.
  assert (HP : (poll_limit < polls)%nat) by (vm_compute; lia).
  assert (ST : settled (pf_device pf_started)).
  { split; [apply clock_external; [|right|]|]; vm_compute; reflexivity. }
  split; [exact ST|].
  destruct (board_boots HP pf_started ST ltac:(vm_compute; reflexivity)) as (p' & E & B & _).
  exists p'. split; [exact E|exact B].
Defined.

(** ** The delay of the bare-metal programs

    [hr_hw_timer_delay_ms] at any rate of the tick: when it returns, and where the 32-bit
    product inside [hr_hw_timer_millis] breaks it. *)

Definition ticks_of (waits : list nat) : Z := Z.of_nat (sum_list waits).
(** The whole milliseconds the clock advances by in [n] ticks of [rate] per second from the
    tick [t] on. *)
Definition elapsed (rate t n : Z) : Z := (t + n) * 1000 / rate - t * 1000 / rate.

(** They are the real time, to less than one millisecond. *)
Lemma elapsed_real rate t n ms : 0 < rate ->
  (ms <= elapsed rate t n -> (ms - 1) * rate < 1000 * n) /\ (elapsed rate t n < ms -> 1000 * n < ms * rate).
Proof.
  intros Hr. unfold elapsed.
  pose proof (Z.div_mod ((t + n) * 1000) rate ltac:(lia)). pose proof (Z.mod_pos_bound ((t + n) * 1000) rate Hr).
  pose proof (Z.div_mod (t * 1000) rate ltac:(lia)). pose proof (Z.mod_pos_bound (t * 1000) rate Hr). split; nia.
Qed.

Lemma ticks_of_cons n waits : ticks_of (n :: waits) = Z.of_nat n + ticks_of waits.
Proof. unfold ticks_of. simpl. lia. Qed.
Lemma ticks_of_nonneg waits : 0 <= ticks_of waits.
Proof. unfold ticks_of. lia. Qed.

Section hw_timer.
Context {D : Type} `{Device D}.
Implicit Types p : platform D.

Lemma run_ticks_spec n p :
  run_ticks n p = Some (tt, if decide (n = 0%nat) then p else pf_set_tick (u32 (g_millisecond_tick p + Z.of_nat n)) p).
Proof.
  revert p. induction n as [|n IH]; intros p; [reflexivity|].
  simpl run_ticks. unfold SysTick_Handler, hr_hw_timer_tick_isr, modifyM, bindM. rewrite IH.
  rewrite (decide_False (P := S n = 0%nat)) by lia.
  destruct (decide (n = 0%nat)) as [->|Hn]; [reflexivity|].
  simpl. do 2 f_equal. unfold pf_set_tick. simpl. f_equal.
  unfold u32, wrap. rewrite Zplus_mod_idemp_l. f_equal. lia.
Qed.

(** Below the wrap of the product the milliseconds are those of the ticks. *)
Lemma millis_below_wrap p : 0 < g_tick_rate_hz p -> 0 <= g_millisecond_tick p -> g_millisecond_tick p * 1000 <= UINT32_MAX ->
  hr_hw_timer_millis p = g_millisecond_tick p * 1000 / g_tick_rate_hz p.
Proof.
  intros Hr Ht Hw. unfold hr_hw_timer_millis. rewrite (proj2 (Z.eqb_neq _ _)) by lia. by rewrite u32_small by lia.
Qed.

Lemma run_ticks_below_wrap n p :
  0 <= g_millisecond_tick p -> g_millisecond_tick p + Z.of_nat n <= UINT32_MAX ->
  run_ticks n p = Some (tt, pf_set_tick (g_millisecond_tick p + Z.of_nat n) p).
Proof.
  intros H0' Hn. rewrite run_ticks_spec. destruct decide as [->|].
  - rewrite Z.add_0_r. destruct p; reflexivity.
  - by rewrite u32_small by lia.
Qed.

Lemma delay_loop_spec waits start ms p :
  let r := g_tick_rate_hz p in let t := g_millisecond_tick p in
  0 < r -> 0 <= t -> 0 <= start <= t * 1000 / r -> (t + ticks_of waits) * 1000 <= UINT32_MAX ->
  start + ms <= (t + ticks_of waits) * 1000 / r ->
  exists used rest, waits = used ++ rest /\
    delay_loop waits start ms p = Some ((true, rest), pf_set_tick (t + ticks_of used) p) /\
    start + ms <= (t + ticks_of used) * 1000 / r /\
    (forall shorter n, shorter ++ [n] `prefix_of` used -> (t + ticks_of shorter) * 1000 / r < start + ms).
Proof.
  cbv zeta. revert p. induction waits as [|n waits IH]; intros p Hr H0' Hs Hw Hms.
  all: assert (EL : u32 (hr_hw_timer_millis p - start) = g_millisecond_tick p * 1000 / g_tick_rate_hz p - start)
    by (pose proof (ticks_of_nonneg []); try pose proof (ticks_of_nonneg (n :: waits));
        pose proof (Z.div_le_upper_bound (g_millisecond_tick p * 1000) (g_tick_rate_hz p) UINT32_MAX Hr);
        rewrite millis_below_wrap by lia; apply u32_small; unfold UINT32_MAX in *; nia).
  all: simpl delay_loop; unfold bindM, getM, retM; rewrite EL;
    destruct (Z.ltb_spec (g_millisecond_tick p * 1000 / g_tick_rate_hz p - start) ms) as [Hl|Hl].
  - change (ticks_of []) with 0 in Hms. rewrite Z.add_0_r in Hms. lia.
  - exists [], []. change (ticks_of []) with 0. rewrite Z.add_0_r. destruct p; simpl in *.
    repeat split; [lia|]. intros shorter m [k Hk]. destruct shorter; discriminate.
  - rewrite ticks_of_cons in *. pose proof (ticks_of_nonneg waits). rewrite run_ticks_below_wrap by lia.
    pose proof (Z.div_le_mono (g_millisecond_tick p * 1000) ((g_millisecond_tick p + Z.of_nat n) * 1000) (g_tick_rate_hz p) Hr ltac:(lia)).
    destruct (IH (pf_set_tick (g_millisecond_tick p + Z.of_nat n) p)) as (used & rest & -> & Hrun & Hend & Hmin);
      cbn [pf_set_tick g_millisecond_tick g_tick_rate_hz] in *; rewrite <- ?Z.add_assoc; try lia.
    exists (n :: used), rest. split; [reflexivity|]. rewrite Hrun.
    rewrite ticks_of_cons, <- Z.add_assoc in *. split; [reflexivity|]. split; [assumption|].
    intros [|m shorter] k [l Hk]; [change (ticks_of []) with 0; rewrite Z.add_0_r; lia|].
    simplify_eq/=. rewrite ticks_of_cons, Z.add_assoc. apply (Hmin shorter k). exists l. reflexivity.
  - exists [], (n :: waits). change (ticks_of []) with 0. rewrite Z.add_0_r. destruct p; simpl in *.
    repeat split; [lia|]. intros shorter m [k Hk]. destruct shorter; discriminate.
Qed.

(** C40: A delay returns, and at the right moment, at every rate of the tick: as long as the
    interrupts to come bring enough ticks and stay below the tick whose product with 1000 no
    longer fits into 32 bits, [hr_hw_timer_delay_ms] returns after the first of the sleeps at
    which the clock has advanced by the milliseconds asked for (a delay of 0 does not sleep),
    with the sleeps after it left over and no tick lost.  In real time: more than the
    milliseconds less one have passed, and after no earlier sleep had they all passed. *)
Theorem delay_returns_in_time ms waits p :
  let r := g_tick_rate_hz p in let t := g_millisecond_tick p in
  0 < r -> 0 <= t -> (t + ticks_of waits) * 1000 <= UINT32_MAX -> ms <= elapsed r t (ticks_of waits) ->
  exists used rest, waits = used ++ rest /\
    hr_hw_timer_delay_ms ms waits p = Some ((true, rest), pf_set_tick (t + ticks_of used) p) /\
    ms <= elapsed r t (ticks_of used) /\ (ms - 1) * r < 1000 * ticks_of used /\
    (forall shorter n, shorter ++ [n] `prefix_of` used ->
       elapsed r t (ticks_of shorter) < ms /\ 1000 * ticks_of shorter < ms * r).
Proof.
  intros r t Hr H0' Hw Hms. unfold hr_hw_timer_delay_ms, bindM, getM. pose proof (ticks_of_nonneg waits).
  rewrite millis_below_wrap by (fold r t; lia). fold r t.
  assert (HE : forall n, ms <= elapsed r t n <-> t * 1000 / r + ms <= (t + n) * 1000 / r) by (intros; unfold elapsed; lia).
  pose proof (delay_loop_spec waits (t * 1000 / r) ms p) as HL. cbv zeta in HL. fold r t in HL.
  destruct HL as (used & rest & E & Hrun & Hend & Hmin); try (assumption || lia);
    [split; [apply Z.div_pos; lia|lia]|by apply HE|].
  exists used, rest. apply HE in Hend. repeat split; [assumption..|by apply (elapsed_real r t _ ms Hr)| |];
    specialize (Hmin shorter n ltac:(assumption)); [unfold elapsed; lia|].
  apply (elapsed_real r t _ ms Hr). unfold elapsed. lia.
Qed.
End hw_timer.

(** At 250 ticks per second, sleeps of one, two and two ticks: a delay of 10 ms returns after
    the second. *)
Lemma delay_returns_in_time_witness :
  exists used rest, [1; 2; 2]%nat = used ++ rest /\
    hr_hw_timer_delay_ms 10 [1; 2; 2]%nat (pf_set_rate 250 (pf_reset true)) =
      Some ((true, rest), pf_set_tick (0 + ticks_of used) (pf_set_rate 250 (pf_reset true))) /\
    10 <= elapsed 250 0 (ticks_of used) /\ (10 - 1) * 250 < 1000 * ticks_of used /\
    (forall shorter n, shorter ++ [n] `prefix_of` used -> elapsed 250 0 (ticks_of shorter) < 10 /\ 1000 * ticks_of shorter < 10 * 250).
Proof.
  apply (delay_returns_in_time 10 [1; 2; 2]%nat (pf_set_rate 250 (pf_reset true))); vm_compute; (reflexivity || discriminate).
Defined.

(** At the last tick before the wrap a delay of one second at 1000 ticks per second returns
    after one tick: the product in [hr_hw_timer_millis] wraps, the milliseconds fall back to 0
    and the difference to the start, taken modulo 2^32 and not modulo the wrapped range, is
    huge. *)
Theorem delay_ends_early_at_wrap :
  hr_hw_timer_delay_ms 1000 [1%nat] (pf_set_tick 4294967 (pf_set_rate 1000 (pf_reset true))) =
  Some ((true, []), pf_set_tick 4294968 (pf_set_rate 1000 (pf_reset true))).
Proof. vm_compute. reflexivity. Qed.
