(* ===== verification/FaultProps.v ===== *)
(** A fault is recorded with the registers of the code it interrupted, and the record
    survives restarts. *)
From S2P Require Import Prelude Types HrList Store KState PortStack PortStackSpec TaskCore KernelBase Kernel KernelTick Scenario Diagnostics DiagnosticsProps PortAsm PortAsmProps.
From stdpp Require Import gmap list.
From Stdlib Require Import ZArith Lia.
Open Scope Z_scope.

Section faults.
Context `{Hooks}.
Hypothesis quiet_hook : forall r d, hr_hook_panic r d = Some (tt, d).

Lemma record_fault_run d reason f t a nm :
  hr_task_current (ds_kernel d) = Some t -> hr_task_is_valid (ds_kernel d) (Some t) = true ->
  t_name (task_at (ds_kernel d) t) = Some a -> c_string (ds_kernel d) a nm ->
  hr_diagnostics_record_fault reason (Some f) d =
    Some (tt, mk_dstate (ds_kernel d) (pr_set_fault f (panic_record d reason 0 0 (stored_name nm)))
                (rs_count_panic (initial_statistics d)) true).
Proof.
  intros Hc Hv Hn HN. unfold hr_diagnostics_record_fault. unfold bindM at 1. rewrite initialize_run.
  unfold hr_diagnostics_prepare_record, bindM, getM, retM, lift, hr_critical_enter, hr_critical_exit, hr_port_enter_critical, hr_port_exit_critical, upd_port, upd_record, upd_statistics, bindM, getM, retM, modifyM.
  cbn [part_get part_set diagnostics_part ds_kernel initialised ds_set_kernel ds_set_record ds_set_statistics g_panic_record g_runtime_statistics g_diagnostics_initialized].
  set (m := ks_set_port _ (ds_kernel d)).
  assert (HNm : c_string m a nm) by (destruct HN; by split).
  rewrite quiet_hook. f_equal. f_equal.
  pose proof (current_name_stored m (pr_task_name (initial_record d)) t a nm Hc Hv Hn HNm) as EM.
  unfold panic_record. rewrite <- EM. exact (dstate_eq _ _ _ _ _ (mask_restored (ds_kernel d))).
Qed.

(** What the record holds of a fault in code with the registers [R]; the status word also
    tells whether the stack was realigned. *)
Definition fault_of (R : registers) (aligned : bool) (exception_return ipsr : Z) (scb : Z -> Z) : hr_fault_context :=
  mk_fault (r0 R) (r1 R) (r2 R) (r3 R) (r12 R) (lr R) (pc R)
    (Z.lor (Z.ldiff (xpsr R) FRAME_ALIGNED) (if aligned then FRAME_ALIGNED else 0)) exception_return ipsr
    (scb HR_FAULT_SCB_CFSR) (scb HR_FAULT_SCB_HFSR) (scb HR_FAULT_SCB_DFSR) (scb HR_FAULT_SCB_AFSR)
    (scb HR_FAULT_SCB_MMFAR) (scb HR_FAULT_SCB_BFAR) (scb HR_FAULT_SCB_SHCSR).

(** The state of the kernel when the handler starts. *)
Definition faulted (k : kstate) (R : registers) (sp : Z) : kstate :=
  let s := ks_set_words (write_words (frame_address k sp) (frame_of R (realigned k sp)) (ks_words k)) k in
  ks_set_port (pt_set_inside_isr true (ks_port s)) s.

Lemma frame_in_memory k sp : 40 <= sp <= UINT32_MAX ->
  0 < frame_address k sp /\ frame_address k sp + 32 <= 2 ^ 32.
Proof.
  intros Hsp. unfold frame_address. unfold UINT32_MAX in *.
  rewrite u32_small by (unfold UINT32_MAX; destruct (realigned k sp); lia). destruct (realigned k sp); lia.
Qed.

(** The handlers read back the frame the exception has pushed. *)
Lemma captured_frame ipsr scb k R sp er m : 40 <= sp <= UINT32_MAX ->
  captured ipsr scb (ks_set_port m (faulted k R sp)) (frame_address k sp) er = fault_of R (realigned k sp) er ipsr scb.
Proof.
  intros Hsp. destruct (frame_in_memory k sp Hsp) as [H1 H2]. unfold captured, fault_of.
  rewrite (proj2 (Z.eqb_neq _ 0)) by lia. set (q := frame_address k sp) in *.
  assert (HW : forall i v, frame_of R (realigned k sp) !! Z.to_nat i = Some v -> 0 <= i < 8 ->
    read_word (ks_set_port m (faulted k R sp)) (u32 (q + 4 * i)) = v).
  { intros i v Hi Hl. rewrite u32_small by (unfold UINT32_MAX; lia).
    rewrite <- (words_at_stored k q (frame_of R (realigned k sp)) _ v Hi). unfold faulted, read_word, q. simpl.
    do 2 f_equal. lia. }
  cbv zeta. by rewrite (HW 0 _ eq_refl), (HW 1 _ eq_refl), (HW 2 _ eq_refl), (HW 3 _ eq_refl), (HW 4 _ eq_refl),
    (HW 5 _ eq_refl), (HW 6 _ eq_refl), (HW 7 _ eq_refl) by lia.
Qed.

Lemma capture_run d ipsr scb R sp er reason t a nm : 40 <= sp <= UINT32_MAX ->
  hr_task_current (ds_kernel d) = Some t -> hr_task_is_valid (ds_kernel d) (Some t) = true ->
  t_name (task_at (ds_kernel d) t) = Some a -> c_string (ds_kernel d) a nm ->
  let k := faulted (ds_kernel d) R sp in
  hr_port_fault_capture ipsr scb (frame_address (ds_kernel d) sp) er reason (ds_set_kernel k d) =
    Some (tt, mk_dstate (ks_set_port (pt_set_primask 1 (ks_port k)) k)
      (pr_set_fault (fault_of R (realigned (ds_kernel d) sp) er ipsr scb) (panic_record d reason 0 0 (stored_name nm)))
      (rs_count_panic (initial_statistics d)) true).
Proof.
  intros Hsp Hc Hv Hn HN k. unfold hr_port_fault_capture, bindM, getM, lift, upd_port, modifyM.
  cbn [part_get part_set diagnostics_part ds_kernel ds_set_kernel]. unfold k at 2. rewrite captured_frame by done.
  rewrite (record_fault_run _ reason _ t a nm); [done| | | |]; try done.
  destruct HN; by split.
Qed.

(** The handlers of the vector table and the reasons the diagnostics know them by. *)
Definition fault_handlers (ipsr : Z) (scb : Z -> Z) : list ((Z -> Z -> Z -> M dstate unit) * Z) :=
  [(NMI_Handler ipsr scb, HR_PANIC_NMI); (HardFault_Handler ipsr scb, HR_PANIC_HARDFAULT);
   (MemManage_Handler ipsr scb, HR_PANIC_MEMMANAGE); (BusFault_Handler ipsr scb, HR_PANIC_BUSFAULT);
   (UsageFault_Handler ipsr scb, HR_PANIC_USAGEFAULT)].

Lemma fault_handlers_spec ipsr scb handler reason : (handler, reason) ∈ fault_handlers ipsr scb ->
  handler = HR_FAULT_HANDLER ipsr scb reason /\ reason <> HR_PANIC_NONE.
Proof.
  unfold fault_handlers. rewrite !elem_of_cons, elem_of_nil. intros Hin. by destruct_or? Hin; simplify_eq.
Qed.

Lemma take_fault_run ipsr scb reason (in_task : bool) R msp psp d :
  let sp := if in_task then psp else msp in 40 <= sp <= UINT32_MAX ->
  take_fault (HR_FAULT_HANDLER ipsr scb reason) in_task R msp psp d =
    hr_port_fault_capture ipsr scb (frame_address (ds_kernel d) sp) (if in_task then 0xFFFFFFFD else 0xFFFFFFF1) reason
      (ds_set_kernel (faulted (ds_kernel d) R sp) d).
Proof.
  intros sp Hsp. destruct (frame_in_memory (ds_kernel d) sp Hsp) as [H1 H2].
  unfold take_fault, bindM, getM, lift, upd_port, modifyM. fold sp. cbn [part_get part_set diagnostics_part].
  rewrite store_words_eq by (simpl; lia). destruct in_task; done.
Qed.

(** C35: Every fault is reported with the code that caused it: when a task or a handler with the
    registers [R] takes a non-maskable interrupt, a hard, memory, bus or usage fault, the
    exception frame is pushed, the handler finds it on the right stack, and the processor
    halts with interrupts masked; with a current task and a panic hook that does nothing,
    after any number of restarts the last panic has the reason
    of that handler, the registers r0 to r3, r12, lr, the program counter and status register
    of the interrupted code, the fault status registers, the tick and the task that was
    running, with one more boot counted per restart. *)
Theorem fault_is_reported ipsr scb handler reason (in_task : bool) R msp psp d t a nm ks :
  (handler, reason) ∈ fault_handlers ipsr scb -> 40 <= (if in_task then psp else msp) <= UINT32_MAX ->
  0 <= pr_boot_count (initial_record d) <= UINT32_MAX ->
  hr_task_current (ds_kernel d) = Some t -> hr_task_is_valid (ds_kernel d) (Some t) = true ->
  t_name (task_at (ds_kernel d) t) = Some a -> c_string (ds_kernel d) a nm ->
  exists d1 d2, take_fault handler in_task R msp psp d = Some (tt, d1) /\
    pt_primask (ks_port (ds_kernel d1)) = 1 /\ restarts ks d1 = Some d2 /\
    let r := panic_record d reason 0 0 (stored_name nm) in
    let f := fault_of R (realigned (ds_kernel d) (if in_task then psp else msp))
               (if in_task then 0xFFFFFFFD else 0xFFFFFFF1) ipsr scb in
    hr_diagnostics_get_last_panic true d2 =
      Some (Some (pr_set_boot_count (u32 (pr_boot_count r + Z.of_nat (length ks))) (pr_set_fault f r)), d2).
Proof.
  intros [-> Hr]%fault_handlers_spec Hsp Hb Hc Hv Hn HN. rewrite take_fault_run by done.
  rewrite (capture_run d ipsr scb R _ _ reason t a nm Hsp Hc Hv Hn HN). set (d1 := mk_dstate _ _ _ _).
  destruct (restarts_run ks d1) as (d2 & E2 & Hi2 & HR2); [done|exact Hb|done|].
  exists d1, d2. split_and!; [done..|]. cbv zeta. rewrite get_last_panic_run by done.
  unfold hr_diagnostics_record_header_valid. rewrite HR2.
  change (pr_reason (pr_set_boot_count _ _)) with reason. by rewrite (proj2 (Z.eqb_neq _ _) Hr).
Qed.
End faults.

(** Task 2, named "go", takes a bus fault at 0x08000123 on its stack. *)
Definition R_fault : registers := mk_registers 1 2 3 4 (replicate 8 0) 12 0x08000201 0x08000123 0x01000000.
Lemma fault_is_reported_witness : exists d1 d2,
  take_fault (BusFault_Handler (H := weak_hooks) 5 (fun _ => 0x8200)) true R_fault 0x20005000 0x20000404 d_named = Some (tt, d1) /\
  restarts [s_init] d1 = Some d2 /\
  exists r, hr_diagnostics_get_last_panic true d2 = Some (Some r, d2) /\ pr_reason r = HR_PANIC_BUSFAULT /\
    fc_pc (pr_fault r) = 0x08000123 /\ fc_cfsr (pr_fault r) = 0x8200 /\ pr_boot_count r = 2.
Proof.
  assert (HN : c_string (ds_kernel d_named) 0x08005000 [103; 111]) by concrete_string.
  destruct (fault_is_reported (H := weak_hooks) (fun _ _ => eq_refl) 5 (fun _ => 0x8200) (BusFault_Handler (H := weak_hooks) 5 (fun _ => 0x8200))
    HR_PANIC_BUSFAULT true R_fault 0x20005000 0x20000404 d_named 2%N 0x08005000 [103; 111] [s_init])
    as (d1 & d2 & E1 & _ & E2 & E3);
    [right; right; right; left|vm_compute; split; discriminate|vm_compute; split; discriminate|vm_compute; reflexivity
    |vm_compute; reflexivity|vm_compute; reflexivity|exact HN|].
  exists d1, d2. split; [exact E1|]. split; [exact E2|]. eexists. split; [exact E3|].
  split; [vm_compute; reflexivity|]. split; [vm_compute; reflexivity|]. split; vm_compute; reflexivity.
Defined.
